(* ===== verification/_CoqProject ===== *)
-Q . S2P
Prelude.v
PageAllocator.v
Pmm.v
Heap.v
BlockDevice.v
Block.v
Sfs.v
Vfs.v
VfsProps.v
Executable.v
Mmu.v
AddressSpace.v
Task.v
User.v
Scheduler.v
SchedulerProps.v
UserTasks.v
Syscall.v
UserMemory.v
Steps.v
Isolation.v
SyscallProps.v
SyscallFiles.v
SyscallExamples.v
Vm.v
VmProps.v
VmInit.v
VmSafety.v
Console.v
Exception.v
ExceptionProps.v
Threads.v
Interrupt.v
Programs.v
Virtio.v
VirtioDriver.v
VirtioProps.v
VirtioExamples.v
Keyboard.v
KeyboardProps.v
KeyboardExamples.v
Framebuffer.v
FramebufferProps.v
FramebufferSetup.v
FramebufferExamples.v
Shell.v
ShellProps.v
ShellScreen.v
ShellExamples.v
Input.v
InputExamples.v
Reports.v
ReportsProps.v
Commands.v
CommandsProps.v
CommandsFiles.v
CommandsSafety.v
CommandsExamples.v
Boot.v
BootProps.v
BootMain.v
Machine.v
BootExamples.v
