(* ===== verification/Prelude.v ===== *)
(** * SaturnOS: a verified model of the kernel

    SaturnOS is a small kernel for the QEMU ARM64 virt machine, written in C. This library
    translates the kernel, file by file, into executable definitions and proves what makes
    each part correct, and then what holds of the whole machine from power-on to any moment
    of its run. This file is the root: after this description it holds what the other files
    share (machine integers, C strings, counting, little-endian fields, the checksum, hint
    databases and tactics). Paths below are relative to [src/].

    ** The program and the files that model it

    Pages and objects:
    - [PageAllocator] is the interface [kernel/memory/pmm.h] offers to the heap, a class
      with its laws; [Pmm] models [kernel/memory/pmm.c], the page bitmap, and discharges it.
      [Heap] models [kernel/memory/heap.c], the first-fit block list, over any
      implementation of the interface.

    Files:
    - [BlockDevice] holds two interfaces: what [kernel/storage/block.c] relies on of the
      virtio driver, and what [kernel/fs/sfs.c] relies on of the block layer. [Block] models
      [block.c] and discharges the second. [Sfs] models [sfs.c], the file system on disk,
      with its byte encoding; [Vfs] models [kernel/fs/vfs.c], the tree in memory with the
      disk mounted under [/disk]; [VfsProps] holds its larger theorems.

    Address translation:
    - [Mmu] models the descriptors and registers of [arch/arm64/mmu.c] and [mmu.h]. [Vm]
      models [kernel/memory/vm.c], the kernel's own map; [VmProps] describes the tables it
      builds, [VmInit] shows that boot builds and validates them, [VmSafety] states the
      claims. [AddressSpace] models [kernel/memory/address_space.c], the user spaces, and
      defines the hardware walk ([walk]) against which all tables are judged.

    Programs, tasks and system calls:
    - [Executable] models [kernel/user/executable.c]; [Programs] models
      [kernel/user/programs.c], the built-in programs with their instruction words.
    - [Task] holds the structures of [kernel/sched/scheduler.h], [arch/arm64/context.h] and
      [arch/arm64/user.c]; [User] models [user.c], the entry to EL0 and the return;
      [Scheduler] models [kernel/sched/scheduler.c], with [SchedulerProps] (the invariant of
      the task table), [UserTasks] (what a created program starts with) and [Threads]
      (trampoline and entry of a program's thread, the return from EL0 with the registers of
      the program, and the life of a program).
    - [Syscall] models [kernel/syscall/syscall.c], all calls and the dispatcher; [UserMemory]
      describes loads and stores in the caller's pages, [SyscallProps] the invariant, the
      isolation and the accounting of the calls, [SyscallFiles] the file calls seen from a
      program, [SyscallExamples] a concrete kernel.
    - [Steps] names the steps in which the kernel changes tasks, spaces and registers
      ([sys_step]), and [Isolation] what every sequence of them keeps of the programs'
      memory. The properties of the system calls, handlers and commands are proved by
      showing that they take such steps only.

    Exceptions, interrupts, output:
    - [Console] models [kernel/console/kprintf.c] and [console.c]. [Exception] models
      [kernel/exception/decoder.c], [arch/arm64/exception.c], the vectors of [exception.s]
      and [kernel/panic/panic.c], with [ExceptionProps]. [Interrupt] models
      [arch/arm64/timer.c] and [irq.c].

    Devices:
    - [Virtio] holds registers and queues of both virtio drivers. [VirtioDriver] models
      [drivers/storage/virtio_blk.c]; [VirtioProps] shows that over a disk that behaves it
      discharges the interface of [BlockDevice], [VirtioExamples] applies it.
    - [Keyboard] models [drivers/keyboard/keyboard.c] and [drivers/uart/uart.c], with
      [KeyboardProps] and [KeyboardExamples].
    - [Framebuffer] models [drivers/video/framebuffer.c], with [FramebufferProps] (drawing
      and the text console), [FramebufferSetup] (the configuration device) and
      [FramebufferExamples].

    The shell:
    - [Shell] models the line editor of [kernel/shell/shell.c], with [ShellProps] (it is an
      editor), [ShellScreen] (what is typed is seen) and [ShellExamples]. [Input] models
      [kernel/input/keyboard_input.c], the task between keyboard and shell, with
      [InputExamples].
    - [Reports] models the [*_dump_*] functions of all components, what they say about
      themselves; [ReportsProps] shows that every report comes out to its end and is well
      formed, and that the one on the kernel's map tells the truth.
    - [Commands] models [shell_execute], over the components the commands call;
      [CommandsProps], [CommandsFiles] and [CommandsSafety] say what the commands do, and
      [CommandsExamples] runs some.

    The whole:
    - [Boot] models [kernel_main] of [kernel/src/kernel.c] and
      [kernel/demo/thread_demo.c]; [BootProps] follows the start of each component and
      [BootMain] their composition. [Machine] is the machine after the hand-over to the
      first task, as a step relation whose steps are whole operations. [BootExamples] runs a
      board from power-on.

    ** How state and operations correspond to the code

    The static variables of a C file are one record ([pmm], [heap], [block], [vfs], [vm],
    [as_state], [sys] in [Task], [kernel] in [Syscall], [keyboard], [fb], [shell]); records
    are nested as the components share them: [kernel] in [machine] ([Interrupt]) in
    [computer] ([Commands]) in [board] ([Boot]). A C function is a definition of the same
    name that takes the record and returns it with the result; a helper without a
    counterpart in the source is the body of a loop or a block of statements. Integers are
    [Z]; [unsigned long] arithmetic wraps explicitly ([+!], [-!], [*!], [~!], [u32], ...).
    Strings are lists of characters without the terminator, read with [chr]; buffers whose
    bytes past the contents matter are lists of their full length. Pointers into static
    arrays are indices; where the code stores addresses (heap headers, translation tables,
    user pointers, virtio descriptors) the model has a memory indexed by address. What the
    linker decides is a class ([CodeLayout], [AsLayout], [VmLayout], [BlkLayout],
    [KbdLayout]); a device is a class of operations ([MmioBus], [BlkBus], [KbdBus],
    [SerialPort], [FwCfg], [VirtioBlk]), with its documented behaviour as laws where a
    theorem needs it ([ServingBus], [ServingKeyboard], [ServingPort]) and an instance that
    keeps the laws in the examples. A disk answers a request after some number of polls;
    that the number is below the driver's limit is a law of its own ([PromptBus]), which
    only the theorems about success assume.

    Failures stay visible: a C function that returns a code returns it here; a read of
    memory that holds no such object is [None] in the heap; in the system calls, [None] is a
    fault the kernel takes on a user address; where C is undefined [kprintf] is [None].
    Control that leaves a function and comes back later (a switch to another task, the
    return to EL0) splits the function: the part before returns how control left, and the
    rest is a definition of its own ([outcome] in [Scheduler], [pending] and [resume] in
    [Syscall], [user_mode_run_task_return] in [User], [user_thread_returns] in [Threads], which
    says whether the return from EL0 leads back into the thread at all).

    ** Fuel and bounds

    Loops over arrays are folds or structural recursion. Other loops take fuel. Where the
    state bounds them it is computed from the state: the number of blocks for the heap's
    lists, of 2 MiB blocks or pages of a region in [Vm], of tasks in a round-robin search,
    the 32 virtio transports, the looks at a virtio or configuration transfer after which
    the driver gives up, 66 rounds of [cat] (a file has at most 64 pieces). Out of fuel is
    [None], and the theorems show that it is never reached. Loops that wait for the world
    take fuel as an argument, and the theorems give a bound under which they return: the
    busy wait by the distance the counter has to go, the keyboard driver by the events that
    are unread. The [rounds] for which the shell waits for one of its system calls have no
    bound, and [syscall] is among the commands that may never come back.

    ** What is shown

    - The whole machine ([Machine], [BootMain]): from memory as the loader leaves it,
      [kernel_main] reaches the first task with every component initialised; from there on,
      after any sequence of whole operations (interrupts, exceptions, system calls,
      scheduler calls of threads, stores of programs, rounds of the keyboard's task with any
      line typed), the kernel's invariant holds, programs stay in their own pages and the
      shell is an editor, provided that programs end with the registers of their threads.
    - Invariants over all sequences of operations: the heap list and its byte counts, the
      file tree, the slots of the user address spaces, the task table, and the whole kernel
      under every system call, exception, interrupt and command.
    - Refinement of abstract specifications: SaturnFS as a map from paths to contents, the
      translation tables as a function from addresses to descriptors, the file calls as an
      abstract file with an offset, the line editor, the text console as a grid of
      characters, the keyboard as a queue of key events, the block driver as a disk.
    - Composition along the data: key events to editor ([Input]), editor to the screen
      ([ShellScreen]), command lines to files and back ([CommandsFiles]), executable to the
      memory of a task ([UserTasks]), a program's exit to its parent ([Threads]).
    - Equivalence: the hardware walk and the reference translation [kernel_translation]
      agree at every 64-bit address, and the kernel's own walk agrees with both below 2^39
      (above, it reports the low 39 bits of the address).
    - Termination: boot's table building and validation, the busy wait, the commands but for
      those listed; operations are total functions or are shown to return.
    - Safety: write-xor-execute for the kernel's and the users' pages, isolation of address
      spaces and of the callers of system calls, no drawing outside the frame buffer.
    - Round trips: bytes through a descriptor, through SaturnFS and a reboot, through the
      [/disk] mount, numerals, and the executable format.
    - Reports: the report on the map after [vm_init] counts what is there and finds every
      permission enforced; every report is made and printed to its end unless a number in it is
      the least [int], which the kernel cannot print.
    - Errors: states the code does not handle as it means to are theorems too (a request
      that wraps in [kmalloc], stale bytes after a write past the end, what a terminated
      task leaves behind, accepted user buffers that fault the kernel, an interrupt during a
      program, a program that chooses where the kernel goes on, a disk that answers too
      late, a line longer than its row).

    ** What is not modelled

    The messages of the scheduler, of user mode and of the system calls, and the report on
    the tasks that [kernel_main] prints (what it changes is modelled); the console holds what [kprintf] is
    given by [kernel_main], the panic, the interrupt handler and the shell, and what programs
    write. Only the shell and [kernel_main] carry the frame buffer, so text written by a
    system call is on the console and not on the display. Assembly ([boot.S], [exception.s],
    [context.S], [user_entry.S]), except that saving and loading registers is part of
    [Scheduler], [User] and [Exception]; barriers; [irq_enable], [irq_disable] and the vector
    base of [exception_init], which leave no trace in the state; [uart_init], which is
    empty; [idle_task], which waits for interrupts in a loop; [exception_test] and
    [exception_test_page_fault], where the shell's [panic] and [fault] stop. A program's
    instructions are not executed: what it does to the machine is a store to its pages or an
    exception with any registers. Interrupts inside an operation: in [Machine] they are taken
    between steps, and a call of the scheduler by a thread is one step, as is a round of the
    keyboard's task, in which others run only where it gives the processor away. The code
    runs its threads with interrupts enabled and masks them nowhere, so on the machine a tick
    can fall inside; what such a tick does to a half-done operation is not modelled, and
    nothing is shown of it. Nor is what the kernel runs when a program has sent it to an
    address of its own choice: the steps of [Machine] leave such programs out, and
    [user_thread_returns] is [None] for them. *)

From stdpp Require Export prelude gmap strings.
From Stdlib Require Export ZArith Lia.

#[global] Open Scope Z_scope.

(** ** Machine integers *)

(** The value of a C unsigned expression of the given width. *)
Definition u8 (z : Z) : Z := z mod 2 ^ 8.
Definition u16 (z : Z) : Z := z mod 2 ^ 16.
Definition u32 (z : Z) : Z := z mod 2 ^ 32.
Definition u64 (z : Z) : Z := z mod 2 ^ 64.

Declare Scope saturn_scope.
Delimit Scope saturn_scope with saturn.
(** C arithmetic on [unsigned long], with its wrap-around. *)
Notation "x +! y" := (u64 (x + y)) (at level 50, left associativity) : saturn_scope.
Notation "x -! y" := (u64 (x - y)) (at level 50, left associativity) : saturn_scope.
Notation "x *! y" := (u64 (x * y)) (at level 40, left associativity) : saturn_scope.
(** [~x] on [unsigned long]. *)
Notation "~! x" := (u64 (Z.lnot x)) (at level 35, right associativity) : saturn_scope.
#[global] Open Scope saturn_scope.

(** C truth value of an [int]. *)
Definition truth (z : Z) : bool := negb (z =? 0).
(** A C comparison as an [int]. *)
Definition c_int (b : bool) : Z := if b then 1 else 0.

Lemma pair_fst_eq {A B} (x : A * B) (a : A) : fst x = a -> x = (a, snd x).
Proof. destruct x. simpl. congruence. Qed.

Lemma bool_iff (a b : bool) : (a = true <-> b = true) -> a = b.
Proof. intros [H1 H2]. destruct a, b; auto. symmetry. auto. Qed.

Lemma seqZ_snoc m n : 0 <= n -> seqZ m (n + 1) = seqZ m n ++ [m + n].
Proof. intros Hn. by rewrite seqZ_app. Qed.

(** ** Hint databases and tactics *)

Create HintDb saturn.
Create Rewrite HintDb wrap.

(** Range side conditions of the wrap lemmas. *)
Ltac range := first [ assumption | lia | (simpl; lia) ].

(** Case analysis on the innermost [if] of the goal, with its equation. *)
Ltac case_if :=
  match goal with
  | |- context [if ?b then _ else _] =>
      lazymatch b with
      | context [if _ then _ else _] => fail
      | _ => let E := fresh "E" in destruct b eqn:E
      end
  end.

(** The same on a hypothesis. *)
Ltac case_if_in H :=
  match type of H with
  | context [if ?b then _ else _] =>
      lazymatch b with
      | context [if _ then _ else _] => fail
      | _ => let E := fresh "E" in destruct b eqn:E
      end
  end.

(** ** Wrap lemmas *)

Lemma u64_small (z : Z) : 0 <= z < 2 ^ 64 -> u64 z = z.
Proof. apply Z.mod_small. Qed.

Lemma u32_small (z : Z) : 0 <= z < 2 ^ 32 -> u32 z = z.
Proof. apply Z.mod_small. Qed.

Lemma u8_small (z : Z) : 0 <= z < 2 ^ 8 -> u8 z = z.
Proof. apply Z.mod_small. Qed.

Lemma u64_range (z : Z) : 0 <= u64 z < 2 ^ 64.
Proof. by apply Z.mod_pos_bound. Qed.

Lemma u32_range (z : Z) : 0 <= u32 z < 2 ^ 32.
Proof. by apply Z.mod_pos_bound. Qed.

Lemma u8_range (z : Z) : 0 <= u8 z < 2 ^ 8.
Proof. by apply Z.mod_pos_bound. Qed.

#[export] Hint Rewrite u64_small u32_small u8_small using range : wrap.
#[export] Hint Resolve u64_range u32_range u8_range : saturn.

(** ** Masks and alignment *)

Lemma land_low_mask (v k : Z) : 0 <= k -> Z.land v (2 ^ k - 1) = v mod 2 ^ k.
Proof.
  intros Hk. rewrite <- Z.land_ones by done. by rewrite Z.ones_equiv, Z.sub_1_r.
Qed.

(** Masking with [~(2^k - 1)] rounds an [unsigned long] down to a multiple
    of [2^k]. *)
Lemma land_high_mask (v k : Z) :
  0 <= k <= 64 -> 0 <= v < 2 ^ 64 ->
  Z.land v (~! (2 ^ k - 1)) = v - v mod 2 ^ k.
Proof.
  intros Hk Hv. unfold u64.
  rewrite <- Z.land_ones, (Z.land_comm (Z.lnot _)), Z.land_assoc by lia.
  rewrite Z.land_ones, (Z.mod_small v) by lia.
  rewrite <- Z.ldiff_land.
  replace (2 ^ k - 1) with (Z.ones k) by (rewrite Z.ones_equiv; lia).
  rewrite Z.ldiff_ones_r, Z.shiftl_mul_pow2, Z.shiftr_div_pow2 by lia.
  pose proof (Z.div_mod v (2 ^ k) ltac:(lia)). lia.
Qed.

Lemma land_high_mask_aligned (v k : Z) :
  0 <= k <= 64 -> 0 <= v < 2 ^ 64 -> (2 ^ k | v) -> Z.land v (~! (2 ^ k - 1)) = v.
Proof.
  intros Hk Hv Hd. rewrite land_high_mask by done.
  rewrite (proj2 (Z.mod_divide v (2 ^ k) ltac:(lia)) Hd). lia.
Qed.

(** Rounding up an aligned value with [(v + 2^k - 1) & ~(2^k - 1)]. *)
Lemma align_up_spec (v k : Z) :
  0 <= k <= 64 -> 0 <= v -> v + 2 ^ k - 1 < 2 ^ 64 ->
  let r := Z.land (u64 (v + 2 ^ k - 1)) (~! (2 ^ k - 1)) in
  v <= r < v + 2 ^ k /\ r mod 2 ^ k = 0.
Proof.
  intros Hk Hv Ho r. unfold r. assert (0 < 2 ^ k) by lia.
  rewrite u64_small, land_high_mask by lia.
  pose proof (Z.mod_pos_bound (v + 2 ^ k - 1) (2 ^ k) ltac:(lia)).
  split; [lia|]. rewrite Zminus_mod_idemp_r, Z.sub_diag. done.
Qed.

Lemma align_up_fixed (v k : Z) :
  0 <= k <= 64 -> 0 <= v -> v + 2 ^ k - 1 < 2 ^ 64 -> v mod 2 ^ k = 0 ->
  Z.land (u64 (v + 2 ^ k - 1)) (~! (2 ^ k - 1)) = v.
Proof.
  intros Hk Hv Ho Hm. pose proof (align_up_spec v k Hk Hv Ho) as [Hr Hz].
  cbv zeta in *. set (r := Z.land _ _) in *.
  pose proof (Z.div_mod v (2 ^ k) ltac:(lia)). pose proof (Z.div_mod r (2 ^ k) ltac:(lia)).
  assert (r / 2 ^ k = v / 2 ^ k) by nia. nia.
Qed.

(** ** Counting *)

(** Number of elements of a list that satisfy a boolean test. *)
Fixpoint count_if {A} (f : A -> bool) (l : list A) : Z :=
  match l with
  | [] => 0
  | x :: l => c_int (f x) + count_if f l
  end.

Section count_if.
Context {A : Type}.
Implicit Types (f g : A -> bool) (l : list A).

Lemma count_if_app f l k : count_if f (l ++ k) = count_if f l + count_if f k.
Proof. induction l; simpl; lia. Qed.

Lemma count_if_bound f l : 0 <= count_if f l <= Z.of_nat (length l).
Proof. induction l as [|x l IH]; simpl; [lia|]. destruct (f x); unfold c_int; lia. Qed.

Lemma count_if_ext f g l :
  (forall x, x ∈ l -> f x = g x) -> count_if f l = count_if g l.
Proof.
  induction l as [|x l IH]; simpl; intros H; [done|].
  rewrite (H x), IH; [done| |]; set_solver.
Qed.

Lemma count_if_zero f l : (forall x, x ∈ l -> f x = false) -> count_if f l = 0.
Proof.
  induction l as [|x l IH]; simpl; intros H; [done|].
  rewrite (H x), IH; [done| |]; set_solver.
Qed.

Lemma count_if_all f l :
  (forall x, x ∈ l -> f x = true) <-> count_if f l = Z.of_nat (length l).
Proof.
  induction l as [|x l IH]; simpl; [set_solver|].
  pose proof (count_if_bound f l). split.
  - intros Hx. rewrite (Hx x) by set_solver. simpl.
    rewrite (proj1 IH); [lia|set_solver].
  - destruct (f x) eqn:E; simpl; [|lia]. intros Hl y [->|Hy]%elem_of_cons; [done|].
    apply IH; [lia|done].
Qed.

(** Setting the test at one listed element counts one more. *)
Lemma count_if_flip f g l x :
  NoDup l -> x ∈ l -> f x = false -> g x = true ->
  (forall y, y ∈ l -> y ≠ x -> g y = f y) -> count_if g l = count_if f l + 1.
Proof.
  intros Hnd Hx Hf Hg He. induction l as [|y l IH]; [set_solver|].
  apply NoDup_cons in Hnd as [Hy Hnd]. simpl.
  apply elem_of_cons in Hx as [<-|Hx].
  - rewrite Hf, Hg. simpl.
    rewrite (count_if_ext g f l); [lia|]. intros z Hz. apply He; set_solver.
  - assert (g y = f y) as -> by (apply He; set_solver).
    rewrite IH; [lia|done..|]. intros z Hz. apply He. set_solver.
Qed.
End count_if.

(** ** Arrays as lists *)

(** The result of [for (i = 0; i < n; i++) dst[off + i] = src[i]] as one update of
    the array (see [copy_loop_write_at]); the source is the list of copied bytes. *)
Definition write_at {A} (dst : list A) (off : nat) (src : list A) : list A :=
  take off dst ++ src ++ drop (off + length src) dst.

(** The loop itself, one store per iteration. *)
Fixpoint copy_loop {A} (dst : list A) (off : nat) (src : list A) : list A :=
  match src with
  | [] => dst
  | x :: src => copy_loop (<[off:=x]> dst) (S off) src
  end.

Section arrays.
Context {A : Type}.
Implicit Types (dst src : list A).

Lemma length_write_at dst off src :
  (off + length src <= length dst)%nat -> length (write_at dst off src) = length dst.
Proof.
  intros H. unfold write_at. rewrite !length_app, length_take, length_drop. lia.
Qed.

Lemma write_at_nil dst off : write_at dst off [] = dst.
Proof.
  unfold write_at. simpl. rewrite Nat.add_0_r. apply take_drop.
Qed.

Lemma copy_loop_write_at dst off src :
  (off + length src <= length dst)%nat -> copy_loop dst off src = write_at dst off src.
Proof.
  revert dst off. induction src as [|x src IH]; intros dst off H; simpl in *.
  { by rewrite write_at_nil. }
  rewrite IH by (rewrite length_insert; lia). unfold write_at. simpl.
  rewrite (take_S_r _ off x) by (apply list_lookup_insert_eq; lia).
  rewrite take_insert_ge, drop_insert_lt by lia.
  rewrite <- (assoc_L (++)). simpl. do 4 f_equal. lia.
Qed.

Lemma lookup_write_at_in dst off src i :
  (off + length src <= length dst)%nat -> (off <= i < off + length src)%nat ->
  write_at dst off src !! i = src !! (i - off)%nat.
Proof.
  intros H Hi. unfold write_at.
  rewrite lookup_app_r; rewrite length_take; [|lia].
  rewrite lookup_app_l; [f_equal|]; lia.
Qed.

Lemma lookup_write_at_out dst off src i :
  (off + length src <= length dst)%nat -> (i < off \/ off + length src <= i)%nat ->
  write_at dst off src !! i = dst !! i.
Proof.
  intros H [Hi|Hi]; unfold write_at.
  - rewrite lookup_app_l by (rewrite length_take; lia). by rewrite lookup_take_lt.
  - rewrite lookup_app_r; rewrite length_take; [|lia].
    rewrite lookup_app_r by lia. rewrite lookup_drop. f_equal. lia.
Qed.

Lemma take_drop_write_at dst off src :
  (off + length src <= length dst)%nat ->
  take (length src) (drop off (write_at dst off src)) = src.
Proof.
  intros H. unfold write_at. rewrite drop_app_ge; rewrite length_take; [|lia].
  replace (off - (off `min` length dst))%nat with 0%nat by lia.
  rewrite drop_0. apply take_app_length.
Qed.
End arrays.

(** ** C strings *)

(** A C string is the list of its bytes before the terminator; a [char *] that may
    be null is an [option] of it. [cstr] reads a string out of a buffer. *)
Fixpoint cstr (buf : list Z) : list Z :=
  match buf with
  | [] => []
  | c :: buf => if c =? 0 then [] else c :: cstr buf
  end.

Definition cstring (s : list Z) : Prop := Forall (fun c => c ≠ 0) s.

(** Storing a string with its terminator at the front of a buffer. *)
Definition store_cstr (buf : list Z) (s : list Z) : list Z := write_at buf 0 (s ++ [0]).

Lemma cstr_cstring (buf : list Z) : cstring (cstr buf).
Proof.
  induction buf as [|c buf IH]; simpl; [constructor|].
  destruct (c =? 0) eqn:E; constructor; [lia|done].
Qed.

Lemma cstr_app_nul (s rest : list Z) : cstring s -> cstr (s ++ 0 :: rest) = s.
Proof.
  induction 1 as [|c s Hc _ IH]; simpl; [done|].
  destruct (c =? 0) eqn:E; [lia|]. by rewrite IH.
Qed.

Lemma cstr_store_cstr (buf s : list Z) : cstring s -> cstr (store_cstr buf s) = s.
Proof.
  intros Hs. unfold store_cstr, write_at. rewrite take_0, <- (assoc_L (++)).
  by apply cstr_app_nul.
Qed.

(** A string literal of the source as a C string. *)
Definition lit (s : string) : list Z :=
  (fun a => Z.of_N (Ascii.N_of_ascii a)) <$> String.list_ascii_of_string s.

(** ** Path strings *)

(** The character at index [k] of a C string, its terminator included. *)
Definition chr (s : list Z) (k : nat) : Z := default 0 (s !! k).

(** The string comparison loop shared by [path_equals] of [sfs.c] and
    [vfs_path_equals] of [vfs.c]: [left] points into memory, [right] is a C string;
    the end of a list reads as the terminator. *)
Fixpoint path_equals (left right : list Z) : bool :=
  match left, right with
  | l :: ls, r :: rs =>
      if negb (l =? 0) && negb (r =? 0) && (l =? r) then path_equals ls rs else l =? r
  | l :: _, [] => l =? 0
  | [], r :: _ => 0 =? r
  | [], [] => true
  end.

(** The length loop of [path_valid] of [sfs.c] and [vfs_path_valid] of [vfs.c];
    [None] is its early return of 0. *)
Fixpoint path_length_loop (max : Z) (p : list Z) (length : Z) : option Z :=
  match p with
  | [] => Some length
  | _ :: p => if length + 1 >=? max then None else path_length_loop max p (length + 1)
  end.

(** The two functions themselves, which differ in the length limit. *)
Definition abs_path_valid (max : Z) (path : option (list Z)) : bool :=
  match path with
  | None => false
  | Some p =>
      if negb (chr p 0 =? 47) then false
      else match path_length_loop max p 0 with
           | None => false
           | Some length => length >? 1
           end
  end.

(** A buffer with a terminator in its first bytes. *)
Lemma cstr_app_short (buf rest : list Z) :
  (length (cstr buf) < length buf)%nat -> cstr (buf ++ rest) = cstr buf.
Proof.
  induction buf as [|c buf IH]; simpl; [lia|]. destruct (c =? 0); simpl; [done|].
  intros Hl. rewrite IH by lia. done.
Qed.

Lemma cstr_id (s : list Z) : cstring s -> cstr s = s.
Proof.
  induction 1 as [|c s Hc _ IH]; simpl; [done|]. rewrite (proj2 (Z.eqb_neq c 0)) by done. by rewrite IH.
Qed.

Lemma path_equals_spec (buf p : list Z) : cstring p -> path_equals buf p = bool_decide (cstr buf = p).
Proof.
  intros Hp. revert buf. induction Hp as [|c p Hc Hp IH]; intros [|x buf]; simpl; try done.
  - destruct (x =? 0) eqn:E; done.
  - destruct c; done.
  - rewrite (proj2 (Z.eqb_neq c 0)) by done. destruct (Z.eqb_spec x 0) as [->|Hx]; simpl.
    + by destruct c.
    + destruct (Z.eqb_spec x c) as [->|Hne].
      * rewrite IH. apply bool_decide_ext. split; congruence.
      * rewrite bool_decide_eq_false_2 by congruence. done.
Qed.

Lemma path_length_loop_spec (max : Z) (p : list Z) (k : Z) : 0 <= k < max ->
  path_length_loop max p k =
  if k + Z.of_nat (length p) <? max then Some (k + Z.of_nat (length p)) else None.
Proof.
  revert k. induction p as [|c p IH]; intros k Hk.
  - simpl. rewrite Z.add_0_r. destruct (Z.ltb_spec k max); [done|exfalso; lia].
  - cbn [path_length_loop length]. destruct (Z.geb_spec (k + 1) max).
    + destruct (Z.ltb_spec (k + Z.of_nat (S (length p))) max); [exfalso; lia|done].
    + rewrite IH by lia.
      replace (k + 1 + Z.of_nat (length p)) with (k + Z.of_nat (S (length p))) by lia. done.
Qed.

Lemma abs_path_valid_spec (max : Z) (p : list Z) : 0 < max -> abs_path_valid max (Some p) = true <->
  p !! 0%nat = Some 47 /\ 1 < Z.of_nat (length p) < max.
Proof.
  intros Hmax. unfold abs_path_valid, chr. rewrite path_length_loop_spec by lia. rewrite Z.add_0_l.
  destruct p as [|c p]; simpl; [by split; [|intros [? _]]|].
  destruct (Z.eqb_spec c 47) as [->|Hne]; simpl.
  - destruct (Z.ltb_spec (Z.of_nat (S (length p))) max) as [Hlt|Hge].
    + rewrite Z.gtb_lt. split; [intros; split; [done|lia]|intros [_ ?]; lia].
    + split; [done|]. intros [_ ?]. lia.
  - split; [done|]. intros [[=] _]. done.
Qed.

(** ** More counting *)

Lemma count_if_insert {A} (f : A -> bool) (l : list A) i x y :
  l !! i = Some x -> count_if f (<[i := y]> l) = count_if f l - c_int (f x) + c_int (f y).
Proof.
  revert i. induction l as [|z l IH]; intros [|i]; simpl; [done|done| |].
  - intros [= ->]. lia.
  - intros Hi. rewrite (IH i Hi). lia.
Qed.

Lemma count_if_imap {A B} (f : A -> bool) (g : B -> bool) (h : nat -> B -> A) (l : list B) :
  (forall i x, l !! i = Some x -> f (h i x) = g x) -> count_if f (imap h l) = count_if g l.
Proof.
  revert h. induction l as [|x l IH]; intros h Hl; simpl; [done|].
  rewrite (Hl 0%nat x eq_refl). f_equal. apply IH. intros i y Hi. by apply (Hl (S i)).
Qed.

(** A list with fewer marked elements than its length has an unmarked one. *)
Lemma count_if_lt {A} (f : A -> bool) (l : list A) :
  count_if f l < Z.of_nat (length l) -> exists x, x ∈ l /\ f x = false.
Proof.
  induction l as [|x l IH]; simpl; [lia|]. destruct (f x) eqn:E; simpl.
  - intros Hl. destruct IH as (y & Hy & Hf); [lia|]. exists y. split; [by right|done].
  - intros _. exists x. split; [by left|done].
Qed.

Lemma count_if_le {A} (f g : A -> bool) (l : list A) :
  (forall x, x ∈ l -> f x = true -> g x = true) -> count_if f l <= count_if g l.
Proof.
  induction l as [|x l IH]; intros Hl; simpl; [lia|].
  assert (count_if f l <= count_if g l) by (apply IH; intros y Hy; apply Hl; by right).
  specialize (Hl x ltac:(by left)). destruct (f x), (g x); simpl; first [lia | by specialize (Hl eq_refl)].
Qed.

(** ** Integers in memory *)

(** A [uint32_t] and a [uint16_t] in memory (little endian). *)
Definition bytes32 (v : Z) : list Z := Z_to_little_endian 4 8 v.
Definition read32 (b : list Z) : Z := little_endian_to_Z 8 (take 4 b).
Definition bytes16 (v : Z) : list Z := Z_to_little_endian 2 8 v.
Definition read16 (b : list Z) : Z := little_endian_to_Z 8 (take 2 b).

Definition is_u32 (v : Z) : Prop := 0 <= v < 2 ^ 32.
Definition is_byte (v : Z) : Prop := 0 <= v < 2 ^ 8.

Lemma length_bytes32 v : length (bytes32 v) = 4%nat.
Proof. done. Qed.

Lemma read32_bytes32 v rest : is_u32 v -> read32 (bytes32 v ++ rest) = v.
Proof.
  intros Hv. unfold read32. rewrite take_app_le, take_ge by (rewrite length_bytes32; done).
  unfold bytes32. rewrite little_endian_to_Z_to_little_endian by lia. by apply Z.mod_small.
Qed.

(** Dropping the first field of a struct. *)
Lemma drop_field (k m : nat) (x y : list Z) : length x = k -> (k <= m)%nat -> drop m (x ++ y) = drop (m - k) y.
Proof. intros <- Hm. by rewrite drop_app_ge. Qed.

Lemma read16_bytes16 v rest : 0 <= v < 2 ^ 16 -> read16 (bytes16 v ++ rest) = v.
Proof.
  intros Hv. unfold read16. rewrite take_app_le, take_ge by done.
  unfold bytes16. rewrite little_endian_to_Z_to_little_endian by lia. by apply Z.mod_small.
Qed.

(** Reading back an integer from bytes. *)
Lemma bytes32_read32 (b : list Z) : (4 <= length b)%nat -> Forall is_byte b -> bytes32 (read32 b) = take 4 b.
Proof.
  intros Hl Hb. apply Z_to_little_endian_to_Z; [rewrite length_take; lia|lia|]. by apply Forall_take.
Qed.

Lemma bytes16_read16 (b : list Z) : (2 <= length b)%nat -> Forall is_byte b -> bytes16 (read16 b) = take 2 b.
Proof.
  intros Hl Hb. apply Z_to_little_endian_to_Z; [rewrite length_take; lia|lia|]. by apply Forall_take.
Qed.

(** ** The checksum of the file system and the executables *)

(** [value = (value << 5) ^ (value >> 2) ^ byte] on [uint32_t]. *)
Definition checksum_step (value byte : Z) : Z :=
  Z.lxor (Z.lxor (u32 (Z.shiftl value 5)) (Z.shiftr value 2)) byte.

Lemma lxor_bound a b k : 0 <= k -> 0 <= a < 2 ^ k -> 0 <= b < 2 ^ k -> 0 <= Z.lxor a b < 2 ^ k.
Proof.
  intros Hk Ha Hb. assert (0 <= Z.lxor a b) as Hn by (apply Z.lxor_nonneg; lia). split; [done|].
  apply Z.bounded_iff_bits_nonneg; [lia..|]. intros l Hl. rewrite Z.lxor_spec.
  rewrite (proj1 (Z.bounded_iff_bits_nonneg k a ltac:(lia) ltac:(lia)) ltac:(lia) l Hl).
  by rewrite (proj1 (Z.bounded_iff_bits_nonneg k b ltac:(lia) ltac:(lia)) ltac:(lia) l Hl).
Qed.

Lemma checksum_fold_u32 (l : list Z) : Forall is_byte l -> is_u32 (foldl checksum_step 0 l).
Proof.
  intros Hl. assert (is_u32 0) as H0 by (unfold is_u32; lia). revert H0. generalize 0.
  induction Hl as [|x l Hx _ IH]; intros v Hv; simpl; [done|]. apply IH.
  unfold checksum_step, is_u32, is_byte in *. apply lxor_bound; [lia| |lia].
  apply lxor_bound; [lia|apply u32_range|]. rewrite Z.shiftr_div_pow2 by lia.
  split; [apply Z.div_pos; lia|]. apply Z.div_lt_upper_bound; lia.
Qed.
