(* ===== verification/PageAllocator.v ===== *)
(** * The interface between the physical memory manager and its clients

    What [kernel/memory/pmm.h] promises to a caller of [pmm_alloc_page]: the kernel
    heap ([Heap.v]) is verified against this class, and [Pmm.v] discharges it with
    the bitmap allocator of [kernel/memory/pmm.c]. *)

From S2P Require Import Prelude.

(** [PMM_PAGE_SIZE], [PMM_RAM_BASE], [PMM_RAM_SIZE] and [PMM_RAM_END] of [pmm.h]. *)
Definition PMM_PAGE_SIZE : Z := 4096.
Definition PMM_RAM_BASE : Z := 0x40000000.
Definition PMM_RAM_SIZE : Z := 0x08000000.
Definition PMM_RAM_END : Z := PMM_RAM_BASE + PMM_RAM_SIZE.

(** A page-aligned address of RAM. *)
Definition ram_page (a : Z) : Prop :=
  PMM_RAM_BASE <= a < PMM_RAM_END /\ a mod PMM_PAGE_SIZE = 0.

(** An allocator of whole pages. [pa_owned s a] says that page [a] is reserved or
    handed out in state [s]. *)
Class PageAllocator (S : Type) := {
  pa_alloc_page : S -> Z * S;
  pa_ok : S -> Prop;
  pa_owned : S -> Z -> Prop;
  pa_alloc_law : forall s, pa_ok s ->
    let (p, s') := pa_alloc_page s in
    pa_ok s' /\
    ((p = 0 /\ s' = s /\ forall q, ram_page q -> pa_owned s q) \/
     (ram_page p /\ ~ pa_owned s p /\
      forall q, ram_page q -> pa_owned s' q <-> pa_owned s q \/ q = p));
}.

(** Two distinct pages do not overlap. *)
Lemma ram_page_disjoint (p q : Z) :
  ram_page p -> ram_page q -> p ≠ q -> p + PMM_PAGE_SIZE <= q \/ q + PMM_PAGE_SIZE <= p.
Proof.
  unfold ram_page, PMM_PAGE_SIZE. intros [_ Hp] [_ Hq] Hne.
  apply Z.mod_divide in Hp as [x ->], Hq as [y ->]; lia.
Qed.
