(* ===== verification/Pmm.v ===== *)
(** * Physical memory manager ([kernel/memory/pmm.c])

    The page bitmap and the page counter are the state [pmm]; the linker symbol
    [_kernel_end] is an argument of [pmm_init]. *)

From S2P Require Import Prelude PageAllocator.

(** ** Definitions *)

Definition PMM_TOTAL_PAGES : Z := PMM_RAM_SIZE / PMM_PAGE_SIZE.
Definition RAMFB_RESERVED_BASE : Z := 0x46ffe000.
Definition RAMFB_RESERVED_END : Z := 0x47200000.

(** [page_bitmap] and [used_pages]. *)
Record pmm := Pmm { page_bitmap : list Z; used_pages : Z }.

Definition align_down (value : Z) : Z := Z.land value (~! (PMM_PAGE_SIZE - 1)).

Definition align_up (value : Z) : Z :=
  Z.land (u64 (value + PMM_PAGE_SIZE - 1)) (~! (PMM_PAGE_SIZE - 1)).

Definition page_index (address : Z) : Z := (address -! PMM_RAM_BASE) / PMM_PAGE_SIZE.

Definition page_is_used (s : pmm) (index : Z) : bool :=
  negb (Z.land (page_bitmap s !!! Z.to_nat (index / 8)) (Z.shiftl 1 (index mod 8)) =? 0).

Definition mark_page_used (index : Z) (s : pmm) : pmm :=
  if negb (page_is_used s index) then
    let k := Z.to_nat (index / 8) in
    Pmm (<[k := u8 (Z.lor (page_bitmap s !!! k) (u8 (Z.shiftl 1 (index mod 8))))]> (page_bitmap s))
        (used_pages s +! 1)
  else s.

Definition mark_page_free (index : Z) (s : pmm) : pmm :=
  if page_is_used s index then
    let k := Z.to_nat (index / 8) in
    Pmm (<[k := u8 (Z.land (page_bitmap s !!! k) (u8 (Z.lnot (Z.shiftl 1 (index mod 8)))))]>
           (page_bitmap s))
        (used_pages s -! 1)
  else s.

(** The page loop of [reserve_range]; one unit of fuel per page of RAM suffices
    ([reserve_loop_spec]). *)
Fixpoint reserve_loop (fuel : nat) (current end_ : Z) (s : pmm) : pmm :=
  match fuel with
  | O => s
  | S fuel =>
      if current <? end_ then
        reserve_loop fuel (current +! PMM_PAGE_SIZE) end_ (mark_page_used (page_index current) s)
      else s
  end.

Definition reserve_range (start end_ : Z) (s : pmm) : pmm :=
  if (end_ <=? PMM_RAM_BASE) || (start >=? PMM_RAM_END) then s else
  let start := if start <? PMM_RAM_BASE then PMM_RAM_BASE else start in
  let end_ := if end_ >? PMM_RAM_END then PMM_RAM_END else end_ in
  let start := align_down start in
  let end_ := align_up end_ in
  reserve_loop (Z.to_nat PMM_TOTAL_PAGES) start end_ s.

Definition pmm_init (kernel_end : Z) : pmm :=
  let s := Pmm (replicate (Z.to_nat (PMM_TOTAL_PAGES / 8)) 0) 0 in
  let s := reserve_range PMM_RAM_BASE kernel_end s in
  reserve_range RAMFB_RESERVED_BASE RAMFB_RESERVED_END s.

(** The scan of [pmm_alloc_page] from page [i], [n] iterations from its end. *)
Fixpoint pmm_alloc_loop (n : nat) (i : Z) (s : pmm) : Z * pmm :=
  match n with
  | O => (0, s)
  | S n =>
      if negb (page_is_used s i) then
        (u64 (PMM_RAM_BASE + (i *! PMM_PAGE_SIZE)), mark_page_used i s)
      else pmm_alloc_loop n (i + 1) s
  end.

Definition pmm_alloc_page (s : pmm) : Z * pmm :=
  pmm_alloc_loop (Z.to_nat PMM_TOTAL_PAGES) 0 s.

Definition pmm_free_page (address : Z) (s : pmm) : pmm :=
  if (address <? PMM_RAM_BASE) || (address >=? PMM_RAM_END) then s else
  if negb (Z.land address (PMM_PAGE_SIZE - 1) =? 0) then s else
  mark_page_free (page_index address) s.

Definition pmm_total_pages : Z := PMM_TOTAL_PAGES.
Definition pmm_used_pages (s : pmm) : Z := used_pages s.
Definition pmm_free_pages (s : pmm) : Z := PMM_TOTAL_PAGES -! used_pages s.

(** ** Invariant *)

Definition all_pages : list Z := seqZ 0 PMM_TOTAL_PAGES.

(** The bitmap has its size, its elements are bytes, and the counter counts the
    set bits. *)
Record pmm_ok (s : pmm) : Prop := {
  ok_length : Z.of_nat (length (page_bitmap s)) = PMM_TOTAL_PAGES / 8;
  ok_bytes : Forall (fun b => 0 <= b < 2 ^ 8) (page_bitmap s);
  ok_count : used_pages s = count_if (page_is_used s) all_pages;
}.

Definition in_range (i : Z) : Prop := 0 <= i < PMM_TOTAL_PAGES.

Lemma total_pages_val : PMM_TOTAL_PAGES = 32768.
Proof. reflexivity. Qed.

Lemma elem_all_pages (i : Z) : i ∈ all_pages <-> in_range i.
Proof. unfold all_pages, in_range. rewrite elem_of_seqZ. lia. Qed.

Lemma all_pages_length : Z.of_nat (length all_pages) = PMM_TOTAL_PAGES.
Proof. unfold all_pages. rewrite length_seqZ. by apply Z2Nat.id. Qed.

Lemma NoDup_all_pages : NoDup all_pages.
Proof. apply NoDup_seqZ. Qed.

(** ** Bit-level facts *)

Lemma testbit_mask (b k : Z) : 0 <= k -> negb (Z.land b (Z.shiftl 1 k) =? 0) = Z.testbit b k.
Proof.
  intros Hk. rewrite Z.shiftl_1_l.
  assert (Z.land b (2 ^ k) = if Z.testbit b k then 2 ^ k else 0) as ->.
  { apply Z.bits_inj'. intros n Hn. rewrite Z.land_spec, Z.pow2_bits_eqb by done.
    destruct (k =? n) eqn:E.
    - apply Z.eqb_eq in E as <-. destruct (Z.testbit b k); simpl.
      + by rewrite Z.pow2_bits_true.
      + by rewrite Z.bits_0.
    - destruct (Z.testbit b k).
      + rewrite Z.pow2_bits_false by lia. by rewrite andb_false_r.
      + by rewrite Z.bits_0, andb_false_r. }
  destruct (Z.testbit b k); [|done]. apply negb_true_iff, Z.eqb_neq.
  pose proof (Z.pow_pos_nonneg 2 k). lia.
Qed.

Lemma page_is_used_testbit (s : pmm) (i : Z) :
  page_is_used s i = Z.testbit (page_bitmap s !!! Z.to_nat (i / 8)) (i mod 8).
Proof. apply testbit_mask. pose proof (Z.mod_pos_bound i 8). lia. Qed.

Lemma u8_testbit (b j : Z) : 0 <= j < 8 -> Z.testbit (u8 b) j = Z.testbit b j.
Proof. intros Hj. apply Z.mod_pow2_bits_low. lia. Qed.

Lemma set_bit_testbit (b k j : Z) : 0 <= k < 8 -> 0 <= j < 8 ->
  Z.testbit (u8 (Z.lor b (u8 (Z.shiftl 1 k)))) j = (j =? k) || Z.testbit b j.
Proof.
  intros Hk Hj. rewrite u8_testbit, Z.lor_spec, u8_testbit by lia.
  rewrite Z.shiftl_1_l, Z.pow2_bits_eqb, Z.eqb_sym by lia. apply orb_comm.
Qed.

Lemma clear_bit_testbit (b k j : Z) : 0 <= k < 8 -> 0 <= j < 8 ->
  Z.testbit (u8 (Z.land b (u8 (Z.lnot (Z.shiftl 1 k))))) j = negb (j =? k) && Z.testbit b j.
Proof.
  intros Hk Hj. rewrite u8_testbit, Z.land_spec, u8_testbit, Z.lnot_spec by lia.
  rewrite Z.shiftl_1_l, Z.pow2_bits_eqb, Z.eqb_sym by lia. apply andb_comm.
Qed.

Lemma byte_ext (a b : Z) : 0 <= a < 2 ^ 8 -> 0 <= b < 2 ^ 8 ->
  (forall j, 0 <= j < 8 -> Z.testbit a j = Z.testbit b j) -> a = b.
Proof.
  intros Ha Hb H. rewrite <- (u8_small a), <- (u8_small b) by done.
  apply Z.bits_inj'. intros n Hn. destruct (decide (n < 8)).
  - rewrite !u8_testbit by lia. apply H. lia.
  - unfold u8. by rewrite !Z.mod_pow2_bits_high by lia.
Qed.

(** Two page numbers with the same byte and bit are equal. *)
Lemma page_index_split (i j : Z) : i / 8 = j / 8 -> i mod 8 = j mod 8 -> i = j.
Proof. intros. rewrite (Z.div_mod i 8), (Z.div_mod j 8) by lia. lia. Qed.

Section marks.
Context (s : pmm) (Hok : pmm_ok s).

Lemma bitmap_index (i : Z) : in_range i -> (Z.to_nat (i / 8) < length (page_bitmap s))%nat.
Proof.
  intros Hi. pose proof (ok_length s Hok) as HL. unfold in_range in Hi.
  rewrite total_pages_val in *. assert (i / 8 < 4096) by (apply Z.div_lt_upper_bound; lia).
  change (32768 / 8) with 4096 in HL. lia.
Qed.

Lemma bitmap_byte (i : Z) : in_range i -> 0 <= page_bitmap s !!! Z.to_nat (i / 8) < 2 ^ 8.
Proof.
  intros Hi%bitmap_index. pose proof (ok_bytes s Hok) as HB.
  rewrite Forall_lookup in HB. eapply HB, list_lookup_lookup_total_lt, Hi.
Qed.

(** Replacing the byte of page [i] by one that differs in the bit of [i] only. *)
Lemma page_is_used_update (i j b u : Z) (v : bool) :
  in_range i -> 0 <= j ->
  (forall k, 0 <= k < 8 -> Z.testbit b k =
     if k =? i mod 8 then v else Z.testbit (page_bitmap s !!! Z.to_nat (i / 8)) k) ->
  page_is_used (Pmm (<[Z.to_nat (i / 8) := b]> (page_bitmap s)) u) j =
  if j =? i then v else page_is_used s j.
Proof.
  intros Hi Hj Hb. rewrite !page_is_used_testbit. simpl.
  pose proof (Z.mod_pos_bound j 8 ltac:(lia)). pose proof (bitmap_index i Hi).
  destruct (decide (j / 8 = i / 8)) as [E|E].
  - rewrite E, list_lookup_total_insert_eq, Hb by lia.
    destruct (Z.eqb_spec (j mod 8) (i mod 8)) as [E2|E2].
    + by rewrite (page_index_split j i E E2), Z.eqb_refl.
    + destruct (Z.eqb_spec j i); [congruence|done].
  - rewrite list_lookup_total_insert_ne
      by (pose proof (Z.div_pos i 8); pose proof (Z.div_pos j 8); unfold in_range in *; lia).
    destruct (Z.eqb_spec j i); [congruence|done].
Qed.

Lemma mark_page_used_spec (i : Z) : in_range i ->
  forall j, 0 <= j ->
  page_is_used (mark_page_used i s) j = (j =? i) || page_is_used s j.
Proof.
  intros Hi j Hj. unfold mark_page_used. case_if.
  - rewrite (page_is_used_update i j _ _ true Hi Hj); [by destruct (j =? i)|].
    intros k Hk. rewrite set_bit_testbit by (auto using Z.mod_pos_bound with lia).
    by destruct (k =? i mod 8).
  - destruct (Z.eqb_spec j i) as [->|]; [|done]. by apply negb_false_iff in E.
Qed.

Lemma mark_page_free_spec (i : Z) : in_range i ->
  forall j, 0 <= j ->
  page_is_used (mark_page_free i s) j = negb (j =? i) && page_is_used s j.
Proof.
  intros Hi j Hj. unfold mark_page_free. case_if.
  - rewrite (page_is_used_update i j _ _ false Hi Hj); [by destruct (j =? i)|].
    intros k Hk. rewrite clear_bit_testbit by (auto using Z.mod_pos_bound with lia).
    by destruct (k =? i mod 8).
  - destruct (Z.eqb_spec j i) as [->|]; [|done]. done.
Qed.

Lemma used_pages_bound : 0 <= used_pages s <= PMM_TOTAL_PAGES.
Proof.
  rewrite (ok_count s Hok). pose proof (count_if_bound (page_is_used s) all_pages) as H.
  by rewrite all_pages_length in H.
Qed.
End marks.

#[local] Opaque PMM_TOTAL_PAGES all_pages.
#[export] Hint Resolve NoDup_all_pages : saturn.
Arguments pmm_init : simpl never.
Arguments pmm_alloc_page : simpl never.

(** ** Operations preserve the invariant *)

Lemma mark_bitmap_ok (s : pmm) (i b u : Z) :
  pmm_ok s -> 0 <= b < 2 ^ 8 ->
  let s' := Pmm (<[Z.to_nat (i / 8) := b]> (page_bitmap s)) u in
  u = count_if (page_is_used s') all_pages -> pmm_ok s'.
Proof.
  intros [HL HB HC] Hb s' Hu. split; simpl.
  - by rewrite length_insert.
  - by apply Forall_insert.
  - done.
Qed.

Lemma mark_page_used_ok (s : pmm) (i : Z) :
  pmm_ok s -> in_range i -> pmm_ok (mark_page_used i s).
Proof.
  intros Hok Hi. pose proof (mark_page_used_spec s Hok i Hi) as Hspec.
  unfold mark_page_used in *. case_if; [|done].
  apply negb_true_iff in E.
  apply mark_bitmap_ok; [done|apply u8_range|]. symmetry.
  assert (used_pages s +! 1 = used_pages s + 1) as HU.
  { pose proof (used_pages_bound s Hok). apply u64_small. rewrite total_pages_val in *. lia. }
  rewrite HU in *. rewrite (ok_count s Hok) at 2. apply (count_if_flip _ _ _ i).
  - apply NoDup_all_pages.
  - by apply elem_all_pages.
  - done.
  - rewrite Hspec by (unfold in_range in Hi; lia). by rewrite Z.eqb_refl.
  - intros y Hy%elem_all_pages Hne. rewrite Hspec by (unfold in_range in Hy; lia).
    by rewrite (proj2 (Z.eqb_neq y i) Hne).
Qed.

Lemma mark_page_free_ok (s : pmm) (i : Z) :
  pmm_ok s -> in_range i -> pmm_ok (mark_page_free i s).
Proof.
  intros Hok Hi. pose proof (mark_page_free_spec s Hok i Hi) as Hspec.
  unfold mark_page_free in *. case_if; [|done].
  apply mark_bitmap_ok; [done|apply u8_range|].
  set (s' := Pmm _ _) in *.
  assert (count_if (page_is_used s) all_pages = count_if (page_is_used s') all_pages + 1) as HC.
  { apply (count_if_flip _ _ _ i); [apply NoDup_all_pages|by apply elem_all_pages| |done|].
    - rewrite Hspec by (unfold in_range in Hi; lia). by rewrite Z.eqb_refl.
    - intros y Hy%elem_all_pages Hne. rewrite Hspec by (unfold in_range in Hy; lia).
      by rewrite (proj2 (Z.eqb_neq y i) Hne). }
  rewrite <- (ok_count s Hok) in HC.
  pose proof (used_pages_bound s Hok). pose proof (count_if_bound (page_is_used s') all_pages).
  rewrite total_pages_val in *. rewrite u64_small; lia.
Qed.

Lemma used_pages_mark (s : pmm) (i : Z) :
  pmm_ok s -> in_range i -> page_is_used s i = false ->
  used_pages (mark_page_used i s) = used_pages s + 1.
Proof.
  intros Hok Hi E. unfold mark_page_used. rewrite E. simpl.
  pose proof (used_pages_bound s Hok). apply u64_small. rewrite total_pages_val in *. lia.
Qed.

(** Marking a free page used and freeing it again restores the state. *)
Lemma mark_free_used (s : pmm) (i : Z) :
  pmm_ok s -> in_range i -> page_is_used s i = false ->
  mark_page_free i (mark_page_used i s) = s.
Proof.
  intros Hok Hi E. pose proof (bitmap_index s Hok i Hi) as Hlt.
  pose proof (bitmap_byte s Hok i Hi) as Hb.
  pose proof (Z.mod_pos_bound i 8 ltac:(lia)) as Hm.
  pose proof (mark_page_used_spec s Hok i Hi i ltac:(unfold in_range in Hi; lia)) as Hu.
  rewrite Z.eqb_refl in Hu. unfold mark_page_free. rewrite Hu.
  unfold mark_page_used in *. rewrite E in *. simpl in *.
  rewrite list_lookup_total_insert_eq, list_insert_insert_eq by done.
  destruct s as [bm u]; simpl in *. f_equal.
  - apply list_insert_id. rewrite list_lookup_lookup_total_lt by done. f_equal.
    apply byte_ext; [done|apply u8_range|]. intros j Hj.
    rewrite clear_bit_testbit, set_bit_testbit by lia.
    rewrite page_is_used_testbit in E. simpl in E.
    destruct (Z.eqb_spec j (i mod 8)) as [->|]; [by rewrite E|done].
  - pose proof (used_pages_bound _ Hok) as Hbd. simpl in Hbd. rewrite total_pages_val in Hbd.
    rewrite (u64_small (u + 1)) by lia. rewrite u64_small; lia.
Qed.

(** ** Reserving ranges *)

(** The address of page [i]. *)
Definition page_address (i : Z) : Z := PMM_RAM_BASE + i * PMM_PAGE_SIZE.

(** Page [i] has a byte in the range from [start] to [end_]. *)
Definition page_meets (start end_ i : Z) : bool :=
  (page_address i <? end_) && (start <? page_address (i + 1)).

Lemma align_down_eq (v : Z) : 0 <= v < 2 ^ 64 -> align_down v = v / PMM_PAGE_SIZE * PMM_PAGE_SIZE.
Proof.
  intros Hv. unfold align_down. change PMM_PAGE_SIZE with (2 ^ 12).
  rewrite land_high_mask by lia. pose proof (Z.div_mod v (2 ^ 12)). lia.
Qed.

Lemma align_up_eq (v : Z) : 0 <= v < 2 ^ 63 ->
  align_up v = (v + PMM_PAGE_SIZE - 1) / PMM_PAGE_SIZE * PMM_PAGE_SIZE.
Proof.
  intros Hv. unfold align_up. change PMM_PAGE_SIZE with (2 ^ 12).
  rewrite u64_small, land_high_mask by lia. pose proof (Z.div_mod (v + 2 ^ 12 - 1) (2 ^ 12)). lia.
Qed.

Lemma page_index_address (i : Z) : in_range i -> page_index (page_address i) = i.
Proof.
  unfold in_range, page_index, page_address. rewrite total_pages_val. intros Hi.
  unfold PMM_PAGE_SIZE, PMM_RAM_BASE. rewrite u64_small by lia.
  replace (_ - _) with (i * 4096) by lia. by apply Z.div_mul.
Qed.

Lemma reserve_loop_spec (fuel : nat) (c e : Z) (s : pmm) :
  pmm_ok s -> 0 <= c -> e <= PMM_TOTAL_PAGES -> e - c <= Z.of_nat fuel ->
  let s' := reserve_loop fuel (page_address c) (page_address e) s in
  pmm_ok s' /\
  forall j, 0 <= j -> page_is_used s' j = ((c <=? j) && (j <? e)) || page_is_used s j.
Proof.
  revert c s. induction fuel as [|fuel IH]; intros c s Hok Hc He Hf; simpl.
  { split; [done|]. intros j Hj. destruct (_ && _) eqn:E; [lia|done]. }
  case_if.
  - unfold page_address, PMM_PAGE_SIZE in E. assert (in_range c) by (unfold in_range; lia).
    rewrite page_index_address by done.
    assert (u64 (page_address c + PMM_PAGE_SIZE) = page_address (c + 1)) as ->.
    { unfold page_address, PMM_PAGE_SIZE, PMM_RAM_BASE. rewrite u64_small; [lia|].
      unfold in_range in *. rewrite total_pages_val in *. lia. }
    destruct (IH (c + 1) (mark_page_used c s)) as [Hok' Hu]; [|lia..|].
    { by apply mark_page_used_ok. }
    split; [done|]. intros j Hj. rewrite Hu, mark_page_used_spec by done.
    destruct (Z.eqb_spec j c); destruct (page_is_used s j); lia.
  - split; [done|]. unfold page_address, PMM_PAGE_SIZE in E.
    intros j Hj. destruct ((c <=? j) && (j <? e)) eqn:E2; [lia|done].
Qed.

Lemma reserve_range_spec (start end_ : Z) (s : pmm) :
  pmm_ok s -> 0 <= start < 2 ^ 64 -> 0 <= end_ < 2 ^ 64 ->
  let s' := reserve_range start end_ s in
  pmm_ok s' /\
  forall j, in_range j -> page_is_used s' j = page_meets start end_ j || page_is_used s j.
Proof.
  intros Hok Hs He. unfold reserve_range. cbv zeta. case_if.
  { split; [done|]. intros j Hj. unfold page_meets, page_address, in_range in *.
    rewrite total_pages_val in *. unfold PMM_RAM_END, PMM_RAM_SIZE, PMM_PAGE_SIZE in *.
    destruct (_ && _) eqn:E2; [lia|done]. }
  set (st := if start <? _ then _ else _). set (en := if end_ >? _ then _ else _).
  unfold PMM_RAM_END, PMM_RAM_SIZE, PMM_RAM_BASE in *.
  assert (0x40000000 <= st < 0x48000000) by (unfold st; case_if; lia).
  assert (0x40000000 < en <= 0x48000000) by (unfold en; case_if; lia).
  rewrite align_down_eq, align_up_eq by lia.
  set (c := (st - 0x40000000) / PMM_PAGE_SIZE).
  set (e := (en - 0x40000000 + PMM_PAGE_SIZE - 1) / PMM_PAGE_SIZE).
  unfold PMM_PAGE_SIZE in *.
  replace (st / 4096 * 4096) with (page_address c).
  2:{ unfold page_address, c, PMM_RAM_BASE, PMM_PAGE_SIZE.
      replace st with ((st - 0x40000000) + 262144 * 4096) at 2 by lia.
      rewrite Z.div_add by lia. lia. }
  replace ((en + 4096 - 1) / 4096 * 4096) with (page_address e).
  2:{ unfold page_address, e, PMM_RAM_BASE, PMM_PAGE_SIZE.
      replace (en + 4096 - 1) with ((en - 0x40000000 + 4096 - 1) + 262144 * 4096) by lia.
      rewrite Z.div_add by lia. lia. }
  assert (0 <= c) by (apply Z.div_pos; lia).
  assert (e <= PMM_TOTAL_PAGES).
  { rewrite total_pages_val. apply Z.lt_succ_r, Z.div_lt_upper_bound; lia. }
  assert (0 <= e - c <= PMM_TOTAL_PAGES \/ e <= c) by lia.
  destruct (reserve_loop_spec (Z.to_nat PMM_TOTAL_PAGES) c e s) as [Hok' Hu]; [done|lia..|].
  split; [done|]. intros j Hj. unfold in_range in Hj. rewrite Hu by lia. f_equal.
  unfold page_meets, page_address, PMM_RAM_BASE, PMM_PAGE_SIZE.
  assert ((c <=? j) = (start <? 1073741824 + (j + 1) * 4096)) as ->.
  { unfold c, st in *. rewrite total_pages_val in *.
    pose proof (Z.div_mod (st - 0x40000000) 4096 ltac:(lia)).
    pose proof (Z.mod_pos_bound (st - 0x40000000) 4096 ltac:(lia)). unfold st in *.
    case_if; lia. }
  assert ((j <? e) = (1073741824 + j * 4096 <? end_)) as ->.
  { unfold e, en in *. rewrite total_pages_val in *.
    pose proof (Z.div_mod (en - 0x40000000 + 4096 - 1) 4096 ltac:(lia)).
    pose proof (Z.mod_pos_bound (en - 0x40000000 + 4096 - 1) 4096 ltac:(lia)). unfold en in *.
    case_if; lia. }
  apply andb_comm.
Qed.

Lemma pmm_blank_ok : pmm_ok (Pmm (replicate (Z.to_nat (PMM_TOTAL_PAGES / 8)) 0) 0) /\
  forall j, in_range j ->
    page_is_used (Pmm (replicate (Z.to_nat (PMM_TOTAL_PAGES / 8)) 0) 0) j = false.
Proof.
  assert (forall j, in_range j ->
    page_is_used (Pmm (replicate (Z.to_nat (PMM_TOTAL_PAGES / 8)) 0) 0) j = false) as Hf.
  { intros j Hj. unfold in_range in Hj. rewrite page_is_used_testbit. simpl.
    rewrite lookup_total_replicate_2; [apply Z.bits_0|]. rewrite total_pages_val in *.
    apply Z2Nat.inj_lt; [apply Z.div_pos; lia|done|]. change (32768 / 8) with 4096. apply Z.div_lt_upper_bound; lia. }
  split; [|done]. split; simpl.
  - rewrite length_replicate. rewrite Z2Nat.id; [done|]. by rewrite total_pages_val.
  - apply Forall_replicate. lia.
  - rewrite count_if_zero; [done|]. intros j Hj%elem_all_pages. by apply Hf.
Qed.

Lemma pmm_init_ok (kernel_end : Z) : 0 <= kernel_end < 2 ^ 64 ->
  pmm_ok (pmm_init kernel_end) /\
  forall j, in_range j -> page_is_used (pmm_init kernel_end) j =
    page_meets PMM_RAM_BASE kernel_end j || page_meets RAMFB_RESERVED_BASE RAMFB_RESERVED_END j.
Proof.
  intros Hk. destruct pmm_blank_ok as [Hok0 Hu0]. unfold pmm_init. cbv zeta.
  destruct (reserve_range_spec PMM_RAM_BASE kernel_end _ Hok0) as [Hok1 Hu1]; [done|done|].
  destruct (reserve_range_spec RAMFB_RESERVED_BASE RAMFB_RESERVED_END _ Hok1) as [Hok2 Hu2]; [done|done|].
  split; [done|]. intros j Hj. rewrite Hu2, Hu1, Hu0 by done.
  rewrite orb_false_r. apply orb_comm.
Qed.

(** ** Allocation and release *)

Lemma page_address_range (i : Z) : in_range i ->
  ram_page (page_address i) /\ u64 (PMM_RAM_BASE + (i *! PMM_PAGE_SIZE)) = page_address i.
Proof.
  unfold in_range, ram_page, page_address, PMM_RAM_END, PMM_RAM_SIZE, PMM_RAM_BASE, PMM_PAGE_SIZE.
  rewrite total_pages_val. intros Hi. split; [split; [lia|]|].
  - replace (1073741824 + i * 4096) with ((262144 + i) * 4096) by lia. by apply Z.mod_mul.
  - rewrite (u64_small (i * 4096)) by lia. apply u64_small. lia.
Qed.

Lemma ram_page_address (a : Z) : ram_page a ->
  exists i, in_range i /\ a = page_address i /\ page_index a = i.
Proof.
  intros [Hr Hm]. exists ((a - PMM_RAM_BASE) / PMM_PAGE_SIZE).
  unfold in_range, page_address, page_index, PMM_RAM_END, PMM_RAM_SIZE, PMM_RAM_BASE, PMM_PAGE_SIZE in *.
  apply Z.mod_divide in Hm as [x ->]; [|lia]. rewrite total_pages_val.
  replace (x * 4096 - 1073741824) with ((x - 262144) * 4096) by lia.
  rewrite Z.div_mul by lia. split_and!; [lia|lia|lia|].
  rewrite u64_small by lia. by rewrite Z.div_mul.
Qed.

Lemma pmm_alloc_loop_spec (n : nat) (i : Z) (s : pmm) :
  pmm_ok s -> 0 <= i -> i + Z.of_nat n = PMM_TOTAL_PAGES ->
  (forall j, 0 <= j < i -> page_is_used s j = true) ->
  (exists k, in_range k /\ page_is_used s k = false /\
     (forall j, 0 <= j < k -> page_is_used s j = true) /\
     pmm_alloc_loop n i s = (page_address k, mark_page_used k s)) \/
  ((forall j, in_range j -> page_is_used s j = true) /\ pmm_alloc_loop n i s = (0, s)).
Proof.
  revert i. induction n as [|n IH]; intros i Hok Hi Hn Hall; simpl.
  { right. split; [|done]. intros j Hj. apply Hall. unfold in_range in Hj. lia. }
  assert (in_range i) as Hir by (unfold in_range; lia).
  destruct (page_is_used s i) eqn:E; simpl.
  - apply IH; [done|lia|lia|]. intros j Hj. destruct (decide (j = i)) as [->|]; [done|].
    apply Hall. lia.
  - left. exists i. destruct (page_address_range i Hir) as [_ ->]. done.
Qed.

(** [pmm_init] reserves exactly the pages that meet the kernel image (RAM base to
    [_kernel_end]) or the RAMFB control and framebuffer range, whatever the value of
    the linker symbol, and establishes the invariant: the bitmap is 4096 bytes and
    [used_pages] counts its set bits. *)
Theorem pmm_init_reserves (kernel_end : Z) (H : 0 <= kernel_end < 2 ^ 64) :
  pmm_ok (pmm_init kernel_end) /\
  forall j, in_range j -> page_is_used (pmm_init kernel_end) j =
    page_meets PMM_RAM_BASE kernel_end j || page_meets RAMFB_RESERVED_BASE RAMFB_RESERVED_END j.
Proof. by apply pmm_init_ok. Qed.

Lemma pmm_init_reserves_witness :
  pmm_ok (pmm_init 0x40200010) /\
  forall j, in_range j -> page_is_used (pmm_init 0x40200010) j =
    page_meets PMM_RAM_BASE 0x40200010 j || page_meets RAMFB_RESERVED_BASE RAMFB_RESERVED_END j.
Proof. apply (pmm_init_reserves 0x40200010). lia. Defined.

Lemma pmm_alloc_page_cases (s : pmm) (Hok : pmm_ok s) :
  let (p, s') := pmm_alloc_page s in
  pmm_ok s' /\
  ((exists k, in_range k /\ page_is_used s k = false /\
      (forall j, 0 <= j < k -> page_is_used s j = true) /\
      p = page_address k /\ ram_page p /\
      used_pages s' = used_pages s + 1 /\
      forall j, in_range j -> page_is_used s' j = (j =? k) || page_is_used s j) \/
   ((forall j, in_range j -> page_is_used s j = true) /\
      used_pages s = PMM_TOTAL_PAGES /\ p = 0 /\ s' = s)).
Proof.
  unfold pmm_alloc_page.
  destruct (pmm_alloc_loop_spec (Z.to_nat PMM_TOTAL_PAGES) 0 s) as [(k & Hk & Hf & Hlow & ->)|[Hall ->]];
    [done|lia|rewrite total_pages_val; lia|lia| |].
  - split; [by apply mark_page_used_ok|]. left. exists k. split_and!; try done.
    + by apply page_address_range.
    + by apply used_pages_mark.
    + intros j Hj. apply mark_page_used_spec; [done|done|]. unfold in_range in Hj; lia.
  - split; [done|]. right. split_and!; try done.
    rewrite (ok_count s Hok), (proj1 (count_if_all _ _)), all_pages_length; [done|].
    intros j Hj%elem_all_pages. by apply Hall.
Qed.

(** [pmm_alloc_page] either returns the page-aligned RAM address of the lowest free
    page and marks exactly that page used (one more in the counter), or, when every
    page is used, returns null and leaves the state alone; the invariant is kept in
    both cases. *)
Theorem pmm_alloc_page_lowest (s : pmm) (Hok : pmm_ok s) :
  let (p, s') := pmm_alloc_page s in
  pmm_ok s' /\
  ((exists k, in_range k /\ page_is_used s k = false /\
      (forall j, 0 <= j < k -> page_is_used s j = true) /\
      p = page_address k /\ ram_page p /\
      used_pages s' = used_pages s + 1 /\
      forall j, in_range j -> page_is_used s' j = (j =? k) || page_is_used s j) \/
   ((forall j, in_range j -> page_is_used s j = true) /\
      used_pages s = PMM_TOTAL_PAGES /\ p = 0 /\ s' = s)).
Proof. by apply pmm_alloc_page_cases. Qed.

Lemma pmm_alloc_page_lowest_witness :
  let (p, s') := pmm_alloc_page (pmm_init 0x40200010) in
  pmm_ok s' /\
  ((exists k, in_range k /\ page_is_used (pmm_init 0x40200010) k = false /\
      (forall j, 0 <= j < k -> page_is_used (pmm_init 0x40200010) j = true) /\
      p = page_address k /\ ram_page p /\
      used_pages s' = used_pages (pmm_init 0x40200010) + 1 /\
      forall j, in_range j -> page_is_used s' j = (j =? k) || page_is_used (pmm_init 0x40200010) j) \/
   ((forall j, in_range j -> page_is_used (pmm_init 0x40200010) j = true) /\
      used_pages (pmm_init 0x40200010) = PMM_TOTAL_PAGES /\ p = 0 /\ s' = pmm_init 0x40200010)).
Proof. apply pmm_alloc_page_lowest, pmm_init_ok. lia. Defined.

Lemma pmm_free_page_ram (s : pmm) (a i : Z) :
  ram_page a -> page_index a = i -> pmm_free_page a s = mark_page_free i s.
Proof.
  intros [Hr Hm] <-. unfold pmm_free_page, PMM_PAGE_SIZE in *. change 4096 with (2 ^ 12) in *.
  rewrite land_low_mask, Hm by lia. simpl. case_if; [lia|done].
Qed.

Lemma mark_page_free_idle (s : pmm) (i : Z) : page_is_used s i = false -> mark_page_free i s = s.
Proof. intros E. unfold mark_page_free. by rewrite E. Qed.

Lemma pmm_free_page_other (s : pmm) (a : Z) : ~ ram_page a -> pmm_free_page a s = s.
Proof.
  intros Hn. unfold ram_page, pmm_free_page, PMM_PAGE_SIZE in *. change 4096 with (2 ^ 12) in *.
  rewrite land_low_mask by lia. repeat case_if; [done..|]. exfalso. apply Hn. split; lia.
Qed.

(** [pmm_free_page] on a page of RAM clears exactly that page (a second free of the
    same page changes nothing), ignores every other address (outside RAM or not page
    aligned), and keeps the invariant in all cases. *)
Theorem pmm_free_page_exact (s : pmm) (a : Z) (Hok : pmm_ok s) :
  let s' := pmm_free_page a s in
  pmm_ok s' /\
  (ram_page a -> forall j, in_range j ->
     page_is_used s' j = negb (j =? page_index a) && page_is_used s j) /\
  (~ ram_page a -> s' = s) /\
  pmm_free_page a s' = s'.
Proof.
  assert (ram_page a \/ ~ ram_page a) as [Ha|Ha].
  { unfold ram_page. lia. }
  - destruct (ram_page_address a Ha) as (i & Hi & _ & Hx). rewrite Hx.
    cbv zeta. rewrite !(pmm_free_page_ram _ a i Ha Hx). split_and!.
    + by apply mark_page_free_ok.
    + intros _ j Hj. apply mark_page_free_spec; [done..|]. unfold in_range in Hj. lia.
    + done.
    + apply mark_page_free_idle.
      rewrite mark_page_free_spec by (done || unfold in_range in Hi; lia). by rewrite Z.eqb_refl.
  - cbv zeta. rewrite !pmm_free_page_other by done. done.
Qed.

Lemma pmm_free_page_exact_witness :
  let s' := pmm_free_page 0x40000000 (pmm_init 0x40200010) in
  pmm_ok s' /\
  (ram_page 0x40000000 -> forall j, in_range j ->
     page_is_used s' j =
     negb (j =? page_index 0x40000000) && page_is_used (pmm_init 0x40200010) j) /\
  (~ ram_page 0x40000000 -> s' = pmm_init 0x40200010) /\
  pmm_free_page 0x40000000 s' = s'.
Proof. apply pmm_free_page_exact, pmm_init_ok. lia. Defined.

(** Freeing the page that [pmm_alloc_page] just returned restores the allocator
    exactly, bit for bit. *)
Theorem pmm_alloc_free_roundtrip (s s' : pmm) (p : Z) (Hok : pmm_ok s)
    (Ha : pmm_alloc_page s = (p, s')) (Hp : p <> 0) : pmm_free_page p s' = s.
Proof.
  unfold pmm_alloc_page in Ha.
  destruct (pmm_alloc_loop_spec (Z.to_nat PMM_TOTAL_PAGES) 0 s) as [(k & Hk & Hf & Hlow & E)|[Hall E]];
    [done|lia|rewrite total_pages_val; lia|lia| |]; rewrite E in Ha; simplify_eq.
  rewrite (pmm_free_page_ram _ _ k).
  - by apply mark_free_used.
  - by apply page_address_range.
  - by apply page_index_address.
Qed.

Lemma pmm_alloc_free_roundtrip_witness :
  let s := pmm_init 0x40200010 in pmm_free_page 0x40201000 (snd (pmm_alloc_page s)) = s.
Proof.
  intros s. apply (pmm_alloc_free_roundtrip s (snd (pmm_alloc_page s)) 0x40201000).
  - apply pmm_init_ok. lia.
  - apply pair_fst_eq. vm_compute. reflexivity.
  - lia.
Defined.

(** ** Clients of the allocator *)

(** A kernel that frees only pages it holds: the allocator and the set of pages that
    were handed out and not given back. *)
Inductive client_step : pmm * gset Z -> pmm * gset Z -> Prop :=
  | client_alloc s held p s' :
      pmm_alloc_page s = (p, s') -> p ≠ 0 ->
      client_step (s, held) (s', {[p]} ∪ held)
  | client_alloc_fail s held s' :
      pmm_alloc_page s = (0, s') -> client_step (s, held) (s', held)
  | client_free s held p :
      p ∈ held -> client_step (s, held) (pmm_free_page p s, held ∖ {[p]}).

Inductive client_reachable (kernel_end : Z) : pmm * gset Z -> Prop :=
  | client_boot : client_reachable kernel_end (pmm_init kernel_end, ∅)
  | client_next st st' :
      client_reachable kernel_end st -> client_step st st' -> client_reachable kernel_end st'.

(** Pages of the kernel image or of the RAMFB range. *)
Definition reserved (kernel_end j : Z) : bool :=
  page_meets PMM_RAM_BASE kernel_end j || page_meets RAMFB_RESERVED_BASE RAMFB_RESERVED_END j.

Record client_inv (kernel_end : Z) (st : pmm * gset Z) : Prop := {
  client_ok : pmm_ok st.1;
  client_held : forall p, p ∈ st.2 -> exists i, in_range i /\ p = page_address i /\
                  page_is_used st.1 i = true /\ reserved kernel_end i = false;
  client_reserved : forall i, in_range i -> reserved kernel_end i = true -> page_is_used st.1 i = true;
}.

Lemma page_address_inj (i j : Z) : page_address i = page_address j -> i = j.
Proof. unfold page_address, PMM_PAGE_SIZE. lia. Qed.

Lemma client_inv_step (ke : Z) (st st' : pmm * gset Z) :
  client_inv ke st -> client_step st st' -> client_inv ke st'.
Proof.
  intros [Hok Hh Hr] Hstep. destruct Hstep as [s held p s' E Hp|s held s' E|s held p Hp]; simpl in *.
  - pose proof (pmm_alloc_page_cases s Hok) as H. rewrite E in H.
    destruct H as [Hok' [(k & Hk & Hf & _ & -> & _ & _ & Hu)|(_ & _ & -> & _)]]; [|done].
    assert (reserved ke k = false) by (destruct (reserved ke k) eqn:Er; [rewrite Hr in Hf|]; done).
    split; simpl; [done| |].
    + intros p [->%elem_of_singleton|Hq]%elem_of_union.
      * exists k. rewrite Hu, Z.eqb_refl by done. done.
      * destruct (Hh p Hq) as (i & Hi & -> & Hui & Hri). exists i. rewrite Hu, Hui by done.
        by rewrite orb_true_r.
    + intros i Hi Hres. rewrite Hu, (Hr i), orb_true_r by done. done.
  - pose proof (pmm_alloc_page_cases s Hok) as H. rewrite E in H.
    destruct H as [Hok' [(k & Hk & _ & _ & Hz & _)|(_ & _ & _ & ->)]]; [|done].
    unfold page_address, PMM_RAM_BASE, PMM_PAGE_SIZE, in_range in *. lia.
  - destruct (Hh p Hp) as (i & Hi & -> & Hui & Hri).
    rewrite (pmm_free_page_ram _ _ i) by (by apply page_address_range || by apply page_index_address).
    assert (forall j, in_range j -> page_is_used (mark_page_free i s) j =
              negb (j =? i) && page_is_used s j) as Hu.
    { intros j Hj. apply mark_page_free_spec; [done..|]. unfold in_range in Hj; lia. }
    split; simpl; [by apply mark_page_free_ok| |].
    + intros q [Hq Hne%not_elem_of_singleton]%elem_of_difference.
      destruct (Hh q Hq) as (j & Hj & -> & Huj & Hrj). exists j. rewrite Hu, Huj by done.
      split_and!; try done. destruct (Z.eqb_spec j i) as [->|]; [congruence|done].
    + intros j Hj Hres. rewrite Hu, (Hr j) by done. rewrite andb_true_r.
      destruct (Z.eqb_spec j i) as [->|]; [congruence|done].
Qed.

Lemma client_inv_reachable (ke : Z) (st : pmm * gset Z) :
  0 <= ke < 2 ^ 64 -> client_reachable ke st -> client_inv ke st.
Proof.
  intros Hk. induction 1 as [|st st' _ IH Hs].
  - destruct (pmm_init_ok ke Hk) as [Hok Hu]. split; cbn [fst snd]; [exact Hok| |].
    { intros p []%not_elem_of_empty. }
    intros i Hi Hres. rewrite Hu by exact Hi. exact Hres.
  - exact (client_inv_step ke st st' IH Hs).
Qed.

(** In every run of a kernel that frees only pages it was given, a page handed out
    by [pmm_alloc_page] is never a page of the kernel image or of the framebuffer
    reservation, and is never one that is still held (no double allocation). *)
Theorem pmm_alloc_safe (kernel_end : Z) (s s' : pmm) (held : gset Z) (p : Z)
    (Hk : 0 <= kernel_end < 2 ^ 64)
    (Hr : client_reachable kernel_end (s, held))
    (Ha : pmm_alloc_page s = (p, s')) (Hp : p <> 0) :
  ram_page p /\ reserved kernel_end (page_index p) = false /\ p ∉ held.
Proof.
  destruct (client_inv_reachable _ _ Hk Hr) as [Hok Hh Hres]; simpl in *.
  pose proof (pmm_alloc_page_cases s Hok) as H. rewrite Ha in H.
  destruct H as [_ [(k & Hk' & Hf & _ & -> & Hp' & _)|(_ & _ & -> & _)]]; [|done].
  rewrite page_index_address by done. split_and!; [done| |].
  - destruct (reserved kernel_end k) eqn:E; [|done]. rewrite Hres in Hf; done.
  - intros Hin. destruct (Hh _ Hin) as (i & _ & ->%page_address_inj & Hu & _). congruence.
Qed.

Lemma pmm_alloc_safe_witness :
  ram_page 0x40202000 /\ reserved 0x40200010 (page_index 0x40202000) = false /\
  0x40202000 ∉ ({[0x40201000]} ∪ ∅ : gset Z).
Proof.
  apply (pmm_alloc_safe 0x40200010 (snd (pmm_alloc_page (pmm_init 0x40200010)))
           (snd (pmm_alloc_page (snd (pmm_alloc_page (pmm_init 0x40200010)))))).
  - lia.
  - eapply client_next; [apply client_boot|]. apply client_alloc; [|lia].
    apply pair_fst_eq. vm_compute. reflexivity.
  - apply pair_fst_eq. vm_compute. reflexivity.
  - lia.
Defined.

(** ** The bitmap allocator implements the page-allocator interface *)

Lemma pmm_alloc_law (s : pmm) : pmm_ok s ->
  let (p, s') := pmm_alloc_page s in
  pmm_ok s' /\
  ((p = 0 /\ s' = s /\ forall q, ram_page q -> page_is_used s (page_index q) = true) \/
   (ram_page p /\ ~ page_is_used s (page_index p) = true /\
    forall q, ram_page q ->
      page_is_used s' (page_index q) = true <-> page_is_used s (page_index q) = true \/ q = p)).
Proof.
  intros Hok. pose proof (pmm_alloc_page_cases s Hok) as H.
  destruct (pmm_alloc_page s) as [p s']. destruct H as [Hok' H]. split; [done|].
  destruct H as [(k & Hk & Hf & _ & -> & Hp & _ & Hu)|(Hall & _ & -> & ->)].
  - right. rewrite page_index_address by done. split_and!; [done|congruence|].
    intros q Hq. destruct (ram_page_address q Hq) as (i & Hi & -> & ->).
    rewrite Hu by done. destruct (Z.eqb_spec i k) as [->|Hne]; simpl; [tauto|].
    split; [tauto|]. intros [?|?%page_address_inj]; done.
  - left. split_and!; try done. intros q Hq. apply Hall.
    destruct (ram_page_address q Hq) as (i & Hi & _ & ->). done.
Qed.

#[export] Instance pmm_page_allocator : PageAllocator pmm := {|
  pa_alloc_page := pmm_alloc_page;
  pa_ok := pmm_ok;
  pa_owned := fun s a => page_is_used s (page_index a) = true;
  pa_alloc_law := pmm_alloc_law;
|}.
