(* ===== verification/Heap.v ===== *)
(** * Kernel heap ([kernel/memory/heap.c])

    A first-fit allocator over a singly linked list of block headers that live in
    pages obtained from the page allocator. Memory is a map from addresses to the
    headers stored there ([mem]) and the payload bytes written by [kzalloc]
    ([bytes]); storing a byte destroys a header it overlaps, and reading a header
    that is not there has no result ([None]). The pointers of the C code are the
    addresses themselves, null is 0. *)

From S2P Require Import Prelude PageAllocator Pmm.

(** ** Definitions *)

Definition HEAP_ALIGN : Z := 16.
Definition HEAP_MIN_SPLIT : Z := 32.

(** [struct heap_block]. *)
Record heap_block := HeapBlock { size : Z; free : Z; next : Z }.

(** [sizeof(struct heap_block)] on AArch64: 8 + 4 + 4 (padding) + 8. *)
Definition sizeof_heap_block : Z := 24.

(** The file's static variables, the memory they point into, and the page allocator. *)
Record heap (P : Type) := Heap {
  heap_head : Z;
  heap_tail : Z;
  heap_pages : Z;
  heap_used : Z;
  heap_start : Z;
  heap_end : Z;
  mem : gmap Z heap_block;
  bytes : gmap Z Z;
  pages : P;
}.
Arguments Heap {P}.
Arguments heap_head {P}. Arguments heap_tail {P}. Arguments heap_pages {P}.
Arguments heap_used {P}. Arguments heap_start {P}. Arguments heap_end {P}.
Arguments mem {P}. Arguments bytes {P}. Arguments pages {P}.

Section setters.
Context {P : Type}.
Implicit Type h : heap P.

Definition set_mem (m : gmap Z heap_block) h : heap P :=
  Heap (heap_head h) (heap_tail h) (heap_pages h) (heap_used h) (heap_start h) (heap_end h)
    m (bytes h) (pages h).
Definition set_tail (t : Z) h : heap P :=
  Heap (heap_head h) t (heap_pages h) (heap_used h) (heap_start h) (heap_end h)
    (mem h) (bytes h) (pages h).
Definition set_used (u : Z) h : heap P :=
  Heap (heap_head h) (heap_tail h) (heap_pages h) u (heap_start h) (heap_end h)
    (mem h) (bytes h) (pages h).
End setters.

Definition align_up (value : Z) : Z :=
  Z.land (u64 (value + HEAP_ALIGN - 1)) (~! (HEAP_ALIGN - 1)).

Definition heap_block_capacity : Z := PMM_PAGE_SIZE - sizeof_heap_block.

Section ops.
Context {P : Type} `{PageAllocator P}.
Implicit Type h : heap P.

Definition split_block (block sz : Z) h : option (heap P) :=
  b ← mem h !! block;
  if size b <? u64 (sz + sizeof_heap_block + HEAP_MIN_SPLIT) then Some h else
  let remaining := u64 (size b - sz - sizeof_heap_block) in
  let nxt := u64 (block + sizeof_heap_block + sz) in
  let m := <[nxt := HeapBlock remaining 1 (next b)]> (mem h) in
  let m := <[block := HeapBlock sz (free b) nxt]> m in
  let h := set_mem m h in
  Some (if heap_tail h =? block then set_tail nxt h else h).

(** The loop of [coalesce_blocks]; every iteration with a successor removes it from
    the list or moves past the block. *)
Fixpoint coalesce_loop (fuel : nat) (block : Z) h : option (heap P) :=
  match fuel with
  | O => None
  | S fuel =>
      if block =? 0 then Some h else
      b ← mem h !! block;
      if next b =? 0 then Some h else
      n ← mem h !! next b;
      let block_end := u64 (block + sizeof_heap_block + size b) in
      if truth (free b) && truth (free n) && (block_end =? next b) then
        let h := set_mem (<[block := HeapBlock (u64 (size b + (sizeof_heap_block + size n)))
                                       (free b) (next n)]> (mem h)) h in
        let h := if next n =? 0 then set_tail block h else h in
        coalesce_loop fuel block h
      else coalesce_loop fuel (next b) h
  end.

Definition coalesce_blocks h : option (heap P) :=
  coalesce_loop (S (base.size (mem h))) (heap_head h) h.

Fixpoint find_loop (fuel : nat) (block sz : Z) h : option Z :=
  match fuel with
  | O => None
  | S fuel =>
      if block =? 0 then Some 0 else
      b ← mem h !! block;
      if truth (free b) && (size b >=? sz) then Some block else find_loop fuel (next b) sz h
  end.

Definition find_free_block (sz : Z) h : option Z :=
  find_loop (S (base.size (mem h))) (heap_head h) sz h.

Definition grow_heap h : option (Z * heap P) :=
  let (block, p') := pa_alloc_page (pages h) in
  if block =? 0 then
    Some (0, Heap (heap_head h) (heap_tail h) (heap_pages h) (heap_used h) (heap_start h)
               (heap_end h) (mem h) (bytes h) p')
  else
    let page := block in
    let m := <[block := HeapBlock heap_block_capacity 1 0]> (mem h) in
    '(head, tail, m) ←
      (if heap_head h =? 0 then Some (block, block, m) else
       t ← m !! heap_tail h;
       Some (heap_head h, block, <[heap_tail h := HeapBlock (size t) (free t) block]> m));
    let start := if (heap_start h =? 0) || (page <? heap_start h) then page else heap_start h in
    let end_ := if page +! PMM_PAGE_SIZE >? heap_end h then page +! PMM_PAGE_SIZE else heap_end h in
    Some (block, Heap head tail (heap_pages h +! 1) (heap_used h) start end_ m (bytes h) p').

Definition heap_init (p : P) : heap P := Heap 0 0 0 0 0 0 ∅ ∅ p.

Definition kmalloc (sz : Z) h : option (Z * heap P) :=
  if sz =? 0 then Some (0, h) else
  let sz := align_up sz in
  if sz >? heap_block_capacity then Some (0, h) else
  found ← find_free_block sz h;
  '(block, h) ← (if found =? 0 then grow_heap h else Some (found, h));
  if block =? 0 then Some (0, h) else
  h ← split_block block sz h;
  b ← mem h !! block;
  let h := set_mem (<[block := HeapBlock (size b) 0 (next b)]> (mem h)) h in
  let h := set_used (heap_used h +! size b) h in
  Some (u64 (block + sizeof_heap_block), h).

(** A byte store destroys the headers it overlaps. *)
Definition store_byte (a v : Z) h : heap P :=
  Heap (heap_head h) (heap_tail h) (heap_pages h) (heap_used h) (heap_start h) (heap_end h)
    (filter (fun kv => ~ (kv.1 <= a < kv.1 + sizeof_heap_block)) (mem h))
    (<[a := v]> (bytes h)) (pages h).

Fixpoint zero_loop (n : nat) (ptr : Z) h : heap P :=
  match n with
  | O => h
  | S n => zero_loop n (ptr +! 1) (store_byte ptr 0 h)
  end.

Definition kzalloc (sz : Z) h : option (Z * heap P) :=
  '(ptr, h) ← kmalloc sz h;
  if ptr =? 0 then Some (0, h) else Some (ptr, zero_loop (Z.to_nat sz) ptr h).

Definition kfree (ptr : Z) h : option (heap P) :=
  if ptr =? 0 then Some h else
  let block := ptr -! sizeof_heap_block in
  b ← mem h !! block;
  if truth (free b) then Some h else
  let h := set_mem (<[block := HeapBlock (size b) 1 (next b)]> (mem h)) h in
  let h := set_used (heap_used h -! size b) h in
  coalesce_blocks h.

Definition heap_total_bytes h : Z := heap_pages h *! heap_block_capacity.
Definition heap_used_bytes h : Z := heap_used h.

Fixpoint free_bytes_loop (fuel : nat) (block total : Z) h : option Z :=
  match fuel with
  | O => None
  | S fuel =>
      if block =? 0 then Some total else
      b ← mem h !! block;
      free_bytes_loop fuel (next b) (if truth (free b) then total +! size b else total) h
  end.

Definition heap_free_bytes h : option Z :=
  free_bytes_loop (S (base.size (mem h))) (heap_head h) 0 h.

Definition heap_page_count h : Z := heap_pages h.
Definition heap_region_start h : Z := heap_start h.
Definition heap_region_end h : Z := heap_end h.

Definition heap_overhead_bytes h : option Z :=
  let total := heap_total_bytes h in
  let used := heap_used_bytes h in
  free ← heap_free_bytes h;
  Some (if total <? used +! free then 0 else u64 (total - used - free)).

(** [heap_self_test]; what it prints is in [Reports]. *)
Definition heap_self_test h : option (heap P) :=
  '(small, h) ← kmalloc 64 h;
  '(medium, h) ← kzalloc 128 h;
  h ← kfree small h;
  kfree medium h.
End ops.

(** ** The block list *)

(** A block of the list: header address, payload size, and whether it is free. *)
Record blk := Blk { b_addr : Z; b_size : Z; b_free : bool }.

(** One past the last payload byte. *)
Definition b_end (b : blk) : Z := b_addr b + sizeof_heap_block + b_size b.

(** [lseg m p l q]: from pointer [p] the headers of [m] form the list [l], which ends
    at pointer [q]. *)
Fixpoint lseg (m : gmap Z heap_block) (p : Z) (l : list blk) (q : Z) : Prop :=
  match l with
  | [] => p = q
  | b :: l =>
      p = b_addr b /\ p ≠ 0 /\
      exists n, m !! p = Some (HeapBlock (b_size b) (c_int (b_free b)) n) /\ lseg m n l q
  end.

Lemma lseg_app m p l1 l2 q :
  lseg m p (l1 ++ l2) q <-> exists r, lseg m p l1 r /\ lseg m r l2 q.
Proof.
  revert p. induction l1 as [|b l1 IH]; intros p; simpl.
  - split; [eauto|]. intros (r & -> & ?). done.
  - setoid_rewrite IH. naive_solver.
Qed.

(** The headers outside a list do not matter to it. *)
Lemma lseg_insert m p l q a hb : a ∉ b_addr <$> l -> lseg m p l q -> lseg (<[a:=hb]> m) p l q.
Proof.
  revert p. induction l as [|b l IH]; intros p Ha; simpl; [done|].
  intros (-> & Hnz & n & Hm & Hl). split_and!; [done..|]. exists n. split.
  - rewrite lookup_insert_ne by set_solver. done.
  - apply IH; set_solver.
Qed.

Lemma truth_c_int (b : bool) : truth (c_int b) = b.
Proof. by destruct b. Qed.

Lemma c_int_inj (a b : bool) : c_int a = c_int b -> a = b.
Proof. by destruct a, b. Qed.

(** The list of a heap is determined by its memory. *)
Lemma lseg_det m p l l' : lseg m p l 0 -> lseg m p l' 0 -> l = l'.
Proof.
  revert p l'. induction l as [|b l IH]; intros p [|b' l']; simpl.
  - done.
  - intros -> (? & ? & _). done.
  - intros (? & ? & _) ->. done.
  - intros (-> & _ & n & Hm & Hl) (Ha & _ & n' & Hm' & Hl').
    rewrite Hm in Hm'. injection Hm' as Hs Hf ->. apply c_int_inj in Hf.
    f_equal; [|by eapply IH]. destruct b, b'; simpl in *; congruence.
Qed.

Lemma lseg_length m p l q : lseg m p l q -> NoDup (b_addr <$> l) ->
  (length l <= base.size m)%nat.
Proof.
  intros Hl Hnd. rewrite <- (length_fmap b_addr l).
  rewrite <- (size_list_to_set (C := gset Z)) by done. rewrite <- (size_dom (D := gset Z) m).
  apply subseteq_size. intros a Ha%elem_of_list_to_set. apply elem_of_dom.
  clear Hnd. revert p Hl. induction l as [|b l IH]; intros p; simpl; [set_solver|].
  intros (-> & _ & n & Hm & Hl). apply elem_of_cons in Ha as [->|Ha]; [eauto|].
  by eapply IH.
Qed.

(** *** Layout *)

Fixpoint pairwise {A} (R : A -> A -> Prop) (l : list A) : Prop :=
  match l with
  | [] => True
  | x :: l => Forall (R x) l /\ pairwise R l
  end.

Lemma pairwise_app {A} (R : A -> A -> Prop) l1 l2 :
  pairwise R (l1 ++ l2) <->
  pairwise R l1 /\ pairwise R l2 /\ Forall (fun x => Forall (R x) l2) l1.
Proof.
  induction l1 as [|x l1 IH]; simpl; [split; intuition constructor|].
  rewrite Forall_app, Forall_cons, IH. tauto.
Qed.

Definition apart (b c : blk) : Prop := b_end b <= b_addr c \/ b_end c <= b_addr b.

Definition page_of (x : Z) : Z := x - x mod PMM_PAGE_SIZE.

(** A block is aligned, has a size, and lies in the pages [pg]. *)
Record blk_ok (pg : gset Z) (b : blk) : Prop := {
  bo_size : 0 <= b_size b;
  bo_align : (8 | b_addr b) /\ (8 | b_size b);
  bo_within : forall x, b_addr b <= x < b_end b -> page_of x ∈ pg;
}.

Definition layout (pg : gset Z) (l : list blk) : Prop :=
  Forall (blk_ok pg) l /\ pairwise apart l.

Definition total (l : list blk) : Z := foldr (fun b t => sizeof_heap_block + b_size b + t) 0 l.
Definition used (l : list blk) : Z := foldr (fun b t => (if b_free b then 0 else b_size b) + t) 0 l.
Definition free_total (l : list blk) : Z :=
  foldr (fun b t => (if b_free b then b_size b else 0) + t) 0 l.

Lemma total_app l k : total (l ++ k) = total l + total k.
Proof. induction l as [|b l IH]; simpl; [done|]. rewrite IH. lia. Qed.
Lemma used_app l k : used (l ++ k) = used l + used k.
Proof. induction l as [|b l IH]; simpl; [done|]. rewrite IH. lia. Qed.
Lemma free_total_app l k : free_total (l ++ k) = free_total l + free_total k.
Proof. induction l as [|b l IH]; simpl; [done|]. rewrite IH. lia. Qed.

(** Payload and headers add up. *)
Lemma total_split l : total l = used l + free_total l + sizeof_heap_block * Z.of_nat (length l).
Proof. induction l as [|b l IH]; simpl; [done|]. rewrite IH. destruct (b_free b); lia. Qed.

Lemma used_bound pg l : Forall (blk_ok pg) l ->
  0 <= used l <= total l /\ 0 <= free_total l <= total l.
Proof.
  induction 1 as [|b l [Hs _ _] _ IH]; simpl; [done|].
  unfold sizeof_heap_block. destruct (b_free b); lia.
Qed.

Lemma total_elem pg l b : Forall (blk_ok pg) l -> b ∈ l -> 0 <= b_size b <= total l.
Proof.
  induction 1 as [|c l [Hs _ _] Hl IH]; [set_solver|]. apply used_bound in Hl.
  simpl. unfold sizeof_heap_block. intros [->|Hb%IH]%elem_of_cons; lia.
Qed.

Lemma layout_app pg l k :
  layout pg (l ++ k) <->
  layout pg l /\ layout pg k /\ Forall (fun b => Forall (apart b) k) l.
Proof. unfold layout. rewrite Forall_app, pairwise_app. tauto. Qed.

Lemma apart_sym b c : apart b c -> apart c b.
Proof. unfold apart. tauto. Qed.

Lemma apart_ne b c pg : blk_ok pg b -> blk_ok pg c -> apart b c -> b_addr b ≠ b_addr c.
Proof. intros [Hb _ _] [Hc _ _]. unfold apart, b_end, sizeof_heap_block. lia. Qed.

Lemma layout_NoDup pg l : layout pg l -> NoDup (b_addr <$> l).
Proof.
  intros [Hok Hp]. induction l as [|b l IH]; simpl in *; [constructor|].
  apply Forall_cons in Hok as [Hb Hok]. destruct Hp as [Hap Hp].
  constructor; [|by apply IH]. intros (c & Heq & Hc)%list_elem_of_fmap.
  rewrite Forall_forall in Hok, Hap. eapply (apart_ne b c); eauto.
Qed.

(** Blocks may be replaced by blocks that stay apart from the rest. *)
Lemma layout_replace pg l1 k k' l2 :
  layout pg (l1 ++ k ++ l2) -> layout pg k' ->
  (forall b' c, b' ∈ k' -> blk_ok pg c -> Forall (fun b => apart b c) k -> apart b' c) ->
  layout pg (l1 ++ k' ++ l2).
Proof.
  rewrite !layout_app. intros (H1 & (Hk & H2 & Hk2) & H12) Hk' Hsub.
  split_and!; [done|done|done| |].
  - apply Forall_forall. intros b' Hb'. apply Forall_forall. intros c Hc.
    apply Hsub; [done| |].
    + destruct H2 as [H2 _]. rewrite Forall_forall in H2. auto.
    + apply Forall_forall. intros b Hb.
      rewrite Forall_forall in Hk2. specialize (Hk2 b Hb). rewrite Forall_forall in Hk2. auto.
  - apply Forall_forall. intros c Hc. rewrite Forall_forall in H12. specialize (H12 c Hc).
    apply Forall_app in H12 as [Hck Hc2]. apply Forall_app. split; [|done].
    apply Forall_forall. intros b' Hb'. apply apart_sym, Hsub; [done| |].
    + destruct H1 as [H1 _]. rewrite Forall_forall in H1. auto.
    + eapply Forall_impl; [exact Hck|]. intros b. apply apart_sym.
Qed.

Lemma layout_singleton pg b : layout pg [b] <-> blk_ok pg b.
Proof. unfold layout. simpl. rewrite Forall_singleton. intuition constructor. Qed.

Lemma layout_in pg l1 b l2 : layout pg (l1 ++ b :: l2) -> blk_ok pg b.
Proof. intros [H _]. by apply Forall_app in H as [_ [? _]%Forall_cons]. Qed.

(** Changing the free flag. *)
Lemma layout_flag pg l1 a sz f f' l2 :
  layout pg (l1 ++ [Blk a sz f] ++ l2) -> layout pg (l1 ++ [Blk a sz f'] ++ l2).
Proof.
  intros Hl. eapply layout_replace; [exact Hl| |].
  - apply layout_singleton. apply layout_in in Hl as [? ? ?]. by split.
  - intros b' c ->%list_elem_of_singleton _. rewrite Forall_singleton. done.
Qed.

Ltac div8 :=
  repeat first [ assumption | exists 3; reflexivity | apply Z.divide_sub_r | apply Z.divide_add_r ].

(** Cutting a block in two. *)
Lemma layout_split pg l1 a n sz l2 f g g' :
  layout pg (l1 ++ [Blk a n f] ++ l2) -> 0 <= sz -> (8 | sz) -> sz + sizeof_heap_block <= n ->
  layout pg (l1 ++ [Blk a sz g; Blk (a + sizeof_heap_block + sz) (n - sz - sizeof_heap_block) g'] ++ l2).
Proof.
  intros Hl Hsz Hd Hn. eapply layout_replace; [exact Hl| |].
  - pose proof (layout_in _ _ _ _ Hl) as [Hs [Ha1 Ha2] Hw]. unfold b_end, sizeof_heap_block in *. simpl in *.
    split; [|simpl; split_and!; [|constructor|done]].
    + apply Forall_cons. split; [|apply Forall_singleton]; split; simpl.
      * lia.
      * done.
      * intros x Hx. apply Hw. unfold b_end, sizeof_heap_block in Hx; simpl in Hx. lia.
      * lia.
      * split; div8.
      * intros x Hx. apply Hw. unfold b_end, sizeof_heap_block in Hx; simpl in Hx. lia.
    + apply Forall_singleton. left. unfold b_end, sizeof_heap_block. simpl. lia.
  - intros b' c Hb' [Hc _ _]. rewrite Forall_singleton.
    unfold apart, b_end, sizeof_heap_block in *.
    apply elem_of_cons in Hb' as [-> | ->%list_elem_of_singleton]; simpl; lia.
Qed.

Definition join (b c : blk) : blk :=
  Blk (b_addr b) (b_size b + (sizeof_heap_block + b_size c)) (b_free b).

(** Merging two adjacent blocks. *)
Lemma layout_join pg l1 b c l2 :
  layout pg (l1 ++ [b; c] ++ l2) -> b_end b = b_addr c -> layout pg (l1 ++ [join b c] ++ l2).
Proof.
  intros Hl Hadj. eapply layout_replace; [exact Hl| |].
  - assert (blk_ok pg b /\ blk_ok pg c) as [[Hb [Hb1 Hb2] Hbw] [Hc [Hc1 Hc2] Hcw]].
    { destruct Hl as [Hl _]. apply Forall_app in Hl as [_ Hl].
      apply Forall_cons in Hl as [? Hl]. by apply Forall_cons in Hl as [? _]. }
    apply layout_singleton. unfold join, b_end, sizeof_heap_block in *. split; simpl.
    + lia.
    + split; [done|]. div8.
    + intros x Hx. unfold b_end, sizeof_heap_block in *; simpl in *.
      destruct (decide (x < b_addr c)); [apply Hbw|apply Hcw]; lia.
  - intros b' x ->%list_elem_of_singleton [Hx _ _].
    rewrite Forall_cons, Forall_singleton.
    unfold apart, join, b_end, sizeof_heap_block in *. simpl. lia.
Qed.

(** *** Coalescing, on lists *)

Definition mergeable (b c : blk) : bool := b_free b && b_free c && (b_end b =? b_addr c).

Fixpoint merge_from (b : blk) (l : list blk) : list blk :=
  match l with
  | [] => [b]
  | c :: l => if mergeable b c then merge_from (join b c) l else b :: merge_from c l
  end.

Definition merge (l : list blk) : list blk :=
  match l with [] => [] | b :: l => merge_from b l end.

(** No free block is directly followed in memory by the free block after it. *)
Fixpoint coalesced (l : list blk) : Prop :=
  match l with
  | b :: ((c :: _) as l') => mergeable b c = false /\ coalesced l'
  | _ => True
  end.

Lemma merge_from_head b l : exists f n l', merge_from b l = Blk (b_addr b) n f :: l' /\ f = b_free b.
Proof.
  revert b. induction l as [|c l IH]; intros b; simpl; [destruct b; naive_solver|].
  destruct (mergeable b c); [|destruct b; naive_solver].
  destruct (IH (join b c)) as (f & n & l' & -> & ->). naive_solver.
Qed.

Lemma merge_from_coalesced b l : coalesced (merge_from b l).
Proof.
  revert b. induction l as [|c l IH]; intros b; simpl; [done|].
  destruct (mergeable b c) eqn:E; [apply IH|].
  destruct (merge_from_head c l) as (f & n & l' & Heq & ->).
  specialize (IH c). rewrite Heq in *. split; [|done].
  unfold mergeable in *. by destruct b, c.
Qed.

Lemma merge_from_sums b l :
  total (merge_from b l) = total (b :: l) /\ used (merge_from b l) = used (b :: l).
Proof.
  revert b. induction l as [|c l IH]; intros b; simpl; [lia|].
  destruct (mergeable b c) eqn:E.
  - destruct (IH (join b c)) as [-> ->]. simpl. unfold mergeable in E.
    destruct (b_free b), (b_free c); simpl in *; lia.
  - destruct (IH c) as [Ht Hu]. simpl in *. lia.
Qed.

Lemma merge_from_layout pg l1 b l : layout pg (l1 ++ b :: l) -> layout pg (l1 ++ merge_from b l).
Proof.
  revert l1 b. induction l as [|c l IH]; intros l1 b Hl; simpl; [done|].
  destruct (mergeable b c) eqn:E.
  - apply IH. apply (layout_join pg l1 b c l Hl). unfold mergeable in E. lia.
  - specialize (IH (l1 ++ [b]) c). rewrite <- !(assoc_L (++)) in IH. by apply IH.
Qed.

(** The allocated blocks are untouched. *)
Lemma merge_from_live b l x : b_free x = false -> x ∈ merge_from b l <-> x ∈ b :: l.
Proof.
  intros Hx. revert b. induction l as [|c l IH]; intros b; simpl; [done|].
  destruct (mergeable b c) eqn:E.
  - rewrite IH, !elem_of_cons. unfold mergeable, join in *.
    destruct b as [? ? []], c as [? ? []]; simpl in *; try discriminate.
    split; [intros [->|]; [discriminate|tauto]|].
    intros [-> | [-> | ] ]; [discriminate|discriminate|tauto].
  - rewrite elem_of_cons, IH, !elem_of_cons. tauto.
Qed.

(** ** Heaps and their lists *)

Section heap_wf.
Context {P : Type} `{PageAllocator P}.
Implicit Type h : heap P.

Definition last_addr (l : list blk) : Z := default 0 (b_addr <$> last l).

(** The heap [h] holds the block list [l] in the pages [pg]. *)
Record heap_wf h (l : list blk) (pg : gset Z) : Prop := {
  wf_list : lseg (mem h) (heap_head h) l 0;
  wf_tail : heap_tail h = last_addr l;
  wf_layout : layout pg l;
  wf_total : total l = heap_pages h * PMM_PAGE_SIZE;
  wf_used : heap_used h = used l;
  wf_pages : heap_pages h = Z.of_nat (base.size pg);
  wf_pa : pa_ok (pages h);
  wf_owned : forall p, p ∈ pg -> ram_page p /\ pa_owned (pages h) p;
  wf_start : 0 <= heap_start h;
  wf_region : forall p, p ∈ pg ->
    0 < heap_start h <= p /\ p + PMM_PAGE_SIZE <= heap_end h;
}.

Definition heap_inv h : Prop := exists l pg, heap_wf h l pg.

(** A block of [n] payload bytes at [p] is allocated. *)
Definition allocated h (p n : Z) : Prop :=
  exists l, lseg (mem h) (heap_head h) l 0 /\ Blk (p - sizeof_heap_block) n false ∈ l.

(** A block of [n] payload bytes at [p] is free. *)
Definition free_block h (p n : Z) : Prop :=
  exists l, lseg (mem h) (heap_head h) l 0 /\ Blk (p - sizeof_heap_block) n true ∈ l.

(** There is no room for a rounded request of [asz] bytes: it exceeds what a page holds,
    or every free block is smaller and every page of RAM is taken. *)
Definition out_of_room h (asz : Z) : Prop :=
  heap_block_capacity < asz \/
  ((forall p n, free_block h p n -> n < asz) /\ forall q, ram_page q -> pa_owned (pages h) q).

Lemma allocated_wf h l pg p n :
  heap_wf h l pg -> allocated h p n <-> Blk (p - sizeof_heap_block) n false ∈ l.
Proof.
  intros Hwf. split.
  - intros (l' & Hl' & Hin). by rewrite (lseg_det _ _ _ _ (wf_list _ _ _ Hwf) Hl').
  - intros Hin. exists l. split; [apply Hwf|done].
Qed.

Lemma ram_pages_bound (pg : gset Z) :
  (forall p, p ∈ pg -> ram_page p) -> Z.of_nat (base.size pg) <= PMM_TOTAL_PAGES.
Proof.
  intros Hp.
  assert (pg ⊆ list_to_set (page_address <$> all_pages)) as Hsub.
  { intros p Hin. apply elem_of_list_to_set, list_elem_of_fmap.
    destruct (ram_page_address p (Hp p Hin)) as (i & Hi & -> & _).
    exists i. split; [done|]. by apply elem_all_pages. }
  apply subseteq_size in Hsub. rewrite size_list_to_set in Hsub.
  - rewrite length_fmap in Hsub. rewrite <- all_pages_length. lia.
  - apply NoDup_fmap_2; [|apply NoDup_all_pages]. intros ? ?. apply page_address_inj.
Qed.

(** Blocks lie in RAM, so that no address computation of the code wraps. *)
Lemma blk_bounds h l pg b : heap_wf h l pg -> b ∈ l ->
  blk_ok pg b /\ PMM_RAM_BASE <= b_addr b /\ b_end b <= PMM_RAM_END.
Proof.
  intros Hwf Hin. assert (blk_ok pg b) as Hb.
  { destruct (wf_layout _ _ _ Hwf) as [Hall _]. rewrite Forall_forall in Hall. auto. }
  split; [done|]. pose proof Hb as [Hs _ Hw]. unfold b_end, sizeof_heap_block in *.
  assert (forall x, b_addr b <= x < b_addr b + 24 + b_size b ->
            PMM_RAM_BASE <= x < PMM_RAM_END) as Hx.
  { intros x Hx. destruct (wf_owned _ _ _ Hwf _ (Hw x Hx)) as [[Hr Hm] _].
    unfold page_of, PMM_RAM_END, PMM_RAM_SIZE, PMM_RAM_BASE, PMM_PAGE_SIZE in *.
    apply Z.mod_divide in Hm as [k Hk]; [|lia].
    pose proof (Z.mod_pos_bound x 4096). lia. }
  pose proof (Hx (b_addr b)). pose proof (Hx (b_addr b + 24 + b_size b - 1)). lia.
Qed.

Lemma used_small h l pg : heap_wf h l pg -> 0 <= used l <= total l /\ total l <= 2 ^ 27.
Proof.
  intros Hwf. destruct (wf_layout _ _ _ Hwf) as [Hall _].
  destruct (used_bound _ _ Hall) as [Hu _]. split; [done|].
  rewrite (wf_total _ _ _ Hwf), (wf_pages _ _ _ Hwf).
  pose proof (ram_pages_bound pg (fun p Hp => proj1 (wf_owned _ _ _ Hwf p Hp))) as Hb.
  rewrite total_pages_val in Hb. unfold PMM_PAGE_SIZE. lia.
Qed.

Lemma heap_fuel h l pg : heap_wf h l pg -> (length l <= base.size (mem h))%nat.
Proof.
  intros Hwf. eapply lseg_length; [apply Hwf|]. eapply layout_NoDup. apply Hwf.
Qed.
End heap_wf.

Lemma last_addr_app l b k : last_addr (l ++ b :: k) = last_addr (b :: k).
Proof. unfold last_addr. by rewrite last_app_cons. Qed.

Lemma last_addr_elem b k : last_addr (b :: k) ∈ b_addr <$> (b :: k).
Proof.
  revert b. induction k as [|c k IH]; intros b; [set_solver|].
  change (last_addr (b :: c :: k)) with (last_addr (c :: k)).
  rewrite fmap_cons. apply elem_of_cons. right. apply IH.
Qed.

(** A block in the middle of a list without repetitions has a fresh address. *)
Lemma mid_fresh l1 k l2 (b : blk) : NoDup (b_addr <$> (l1 ++ k ++ l2)) -> b ∈ k ->
  (b_addr b ∉ b_addr <$> l1) /\ (b_addr b ∉ b_addr <$> l2).
Proof.
  rewrite !fmap_app, !NoDup_app. intros (_ & H1 & _ & H2 & _) Hb.
  assert (b_addr b ∈ b_addr <$> k) by (by apply list_elem_of_fmap_2).
  split; [|by apply H2]. intros Hin. apply (H1 _ Hin). set_solver.
Qed.

Section heap_ops.
Context {P : Type} `{PageAllocator P}.
Implicit Type h : heap P.

Definition fits (sz : Z) (b : blk) : bool := b_free b && (b_size b >=? sz).

Lemma find_loop_spec fuel p sz h l :
  lseg (mem h) p l 0 -> (length l < fuel)%nat ->
  (Forall (fun b => fits sz b = false) l /\ find_loop fuel p sz h = Some 0) \/
  (exists l1 b l2, l = l1 ++ b :: l2 /\ fits sz b = true /\
     Forall (fun b => fits sz b = false) l1 /\ find_loop fuel p sz h = Some (b_addr b)).
Proof.
  revert p l. induction fuel as [|fuel IH]; intros p l Hl Hf; [lia|].
  destruct l as [|b l]; simpl in *.
  { left. by rewrite Hl. }
  destruct Hl as (-> & Hnz & n & Hm & Hl).
  rewrite (proj2 (Z.eqb_neq _ _) Hnz), Hm. simpl. rewrite truth_c_int.
  fold (fits sz b). destruct (fits sz b) eqn:E.
  - right. exists [], b, l. done.
  - destruct (IH n l Hl ltac:(lia)) as [[Hall ->]|(l1 & c & l2 & -> & Hc & Hall & ->)].
    + left. by split; [constructor|].
    + right. exists (b :: l1), c, l2. by split_and!; [..|constructor|].
Qed.

Lemma find_free_block_spec sz h l pg :
  heap_wf h l pg ->
  (Forall (fun b => fits sz b = false) l /\ find_free_block sz h = Some 0) \/
  (exists l1 b l2, l = l1 ++ b :: l2 /\ fits sz b = true /\
     Forall (fun b => fits sz b = false) l1 /\ find_free_block sz h = Some (b_addr b)).
Proof.
  intros Hwf. apply find_loop_spec; [apply Hwf|]. pose proof (heap_fuel _ _ _ Hwf). lia.
Qed.

(** Storing a new list in memory: what has to be checked. *)
Lemma heap_wf_update h l l' pg head tail m u b :
  heap_wf h l pg ->
  lseg m head l' 0 -> tail = last_addr l' -> layout pg l' -> total l' = total l -> u = used l' ->
  heap_wf (Heap head tail (heap_pages h) u (heap_start h) (heap_end h) m b (pages h)) l' pg.
Proof.
  intros [] Hl Ht Hlay Htot Hu. split; simpl; try done. by rewrite Htot.
Qed.

Definition pieces (a n sz : Z) : list blk :=
  if n <? sz + sizeof_heap_block + HEAP_MIN_SPLIT then [Blk a n true]
  else [Blk a sz true; Blk (a + sizeof_heap_block + sz) (n - sz - sizeof_heap_block) true].

Lemma split_block_wf h l1 a n l2 pg sz :
  heap_wf h (l1 ++ [Blk a n true] ++ l2) pg ->
  0 <= sz <= n -> (8 | sz) -> sz <= heap_block_capacity ->
  exists h', split_block a sz h = Some h' /\ heap_wf h' (l1 ++ pieces a n sz ++ l2) pg /\
    pages h' = pages h /\ bytes h' = bytes h.
Proof.
  intros Hwf Hsz Hd Hcap. pose proof (wf_list _ _ _ Hwf) as Hl.
  apply lseg_app in Hl as (r & Hl1 & (-> & Hnz & q & Hm & Hl2)). simpl in *.
  destruct (blk_bounds h _ pg (Blk a n true) Hwf) as (_ & Hlo & Hhi); [set_solver|].
  unfold b_end in Hhi. unfold split_block, pieces. simpl in *. rewrite Hm. simpl.
  unfold heap_block_capacity, PMM_RAM_END, PMM_RAM_SIZE, PMM_RAM_BASE, PMM_PAGE_SIZE,
    sizeof_heap_block, HEAP_MIN_SPLIT in *.
  rewrite (u64_small (sz + 24 + 32)) by lia. case_if; [eauto|].
  rewrite !u64_small by lia.
  pose proof (layout_split pg l1 a n sz l2 true true true (wf_layout _ _ _ Hwf)
                ltac:(lia) Hd ltac:(unfold sizeof_heap_block; lia)) as Hlay.
  unfold sizeof_heap_block in Hlay.
  pose proof (layout_NoDup _ _ Hlay) as Hnd.
  destruct (mid_fresh _ _ _ (Blk a sz true) Hnd ltac:(set_solver)) as [Ha1 Ha2].
  destruct (mid_fresh _ _ _ (Blk (a + 24 + sz) (n - sz - 24) true) Hnd ltac:(set_solver)) as [Hn1 Hn2].
  simpl in *.
  eexists. split; [reflexivity|].
  set (m' := <[a:=_]> (<[a + 24 + sz:=_]> (mem h))).
  set (l' := l1 ++ _ :: _ :: l2) in *.
  assert (lseg m' (heap_head h) l' 0) as Hl'.
  { apply lseg_app. exists a. split; [by repeat apply lseg_insert|]. simpl.
    split_and!; [done..|]. exists (a + 24 + sz). unfold m'. rewrite lookup_insert_eq.
    split; [done|]. split_and!; [done|lia|]. exists q.
    rewrite lookup_insert_ne, lookup_insert_eq by lia.
    split; [done|by repeat apply lseg_insert]. }
  assert (heap_tail h = last_addr (Blk a n true :: l2)) as Ht.
  { rewrite (wf_tail _ _ _ Hwf). apply last_addr_app. }
  split; [|by case_if].
  assert (forall t, t = last_addr l' ->
    heap_wf (Heap (heap_head h) t (heap_pages h) (heap_used h) (heap_start h) (heap_end h) m'
               (bytes h) (pages h)) l' pg) as Hgen.
  { intros t ->. unfold l'. eapply heap_wf_update; [exact Hwf|done|done|done| |].
    - rewrite !total_app. simpl. unfold sizeof_heap_block. lia.
    - rewrite (wf_used _ _ _ Hwf), !used_app. simpl. lia. }
  change (heap_tail (set_mem m' h)) with (heap_tail h). rewrite Ht.
  destruct l2 as [|c l2].
  - simpl. rewrite Z.eqb_refl. apply Hgen. unfold l'. by rewrite last_addr_app.
  - change (last_addr (Blk a n true :: c :: l2)) with (last_addr (c :: l2)).
    pose proof (last_addr_elem c l2). case_if; [apply Z.eqb_eq in E0; congruence|].
    apply Hgen. unfold l'. rewrite Ht, last_addr_app. done.
Qed.

(** Changing the flag of one block. *)
Lemma flag_wf h l1 a n f f' l2 pg u :
  heap_wf h (l1 ++ [Blk a n f] ++ l2) pg -> u = used (l1 ++ [Blk a n f'] ++ l2) ->
  exists q, mem h !! a = Some (HeapBlock n (c_int f) q) /\
    heap_wf (set_used u (set_mem (<[a := HeapBlock n (c_int f') q]> (mem h)) h))
      (l1 ++ [Blk a n f'] ++ l2) pg.
Proof.
  intros Hwf Hu. pose proof (wf_list _ _ _ Hwf) as Hl.
  apply lseg_app in Hl as (r & Hl1 & (-> & Hnz & q & Hm & Hl2)). simpl in *.
  exists q. split; [done|].
  pose proof (layout_flag pg l1 a n f f' l2 (wf_layout _ _ _ Hwf)) as Hlay.
  destruct (mid_fresh _ _ _ (Blk a n f') (layout_NoDup _ _ Hlay) ltac:(set_solver)) as [Ha1 Ha2].
  apply (heap_wf_update h (l1 ++ [Blk a n f] ++ l2)); simpl; [done| | |done| |done].
  - apply lseg_app. exists a. split; [by apply lseg_insert|]. simpl. split_and!; [done..|].
    exists q. rewrite lookup_insert_eq. split; [done|]. by apply lseg_insert.
  - rewrite (wf_tail _ _ _ Hwf), !last_addr_app. by destruct l2.
  - rewrite !total_app. done.
Qed.


(** One merge of [coalesce_blocks]: the block takes over its neighbour. *)
Lemma coalesce_step_wf h l1 b c r pg q :
  heap_wf h (l1 ++ b :: c :: r) pg -> mem h !! b_addr c = Some (HeapBlock (b_size c) (c_int (b_free c)) q) ->
  b_free b = true -> b_free c = true -> b_end b = b_addr c ->
  let h1 := set_mem (<[b_addr b := HeapBlock (b_size b + (sizeof_heap_block + b_size c))
                                     (c_int (b_free b)) q]> (mem h)) h in
  let h1 := if q =? 0 then set_tail (b_addr b) h1 else h1 in
  heap_wf h1 (l1 ++ join b c :: r) pg /\ pages h1 = pages h /\ bytes h1 = bytes h.
Proof.
  intros Hwf Hmc Hfb Hfc Hadj h1 h2. split; [|unfold h2; by case_if].
  pose proof (layout_join pg l1 b c r (wf_layout _ _ _ Hwf) Hadj) as Hlay.
  destruct (mid_fresh _ _ _ (join b c) (layout_NoDup _ _ Hlay) ltac:(set_solver)) as [Ha1 Ha2].
  pose proof (wf_list _ _ _ Hwf) as Hl.
  apply lseg_app in Hl as (p & Hl1 & (-> & Hnz & ? & Hm & (-> & Hnz' & q' & Hm' & Hl2))).
  rewrite Hm' in Hmc. injection Hmc as ->. simpl in *.
  assert (forall t, t = last_addr (l1 ++ join b c :: r) ->
    heap_wf (Heap (heap_head h) t (heap_pages h) (heap_used h) (heap_start h) (heap_end h)
               (mem h1) (bytes h) (pages h)) (l1 ++ join b c :: r) pg) as Hgen.
  { intros t ->. eapply heap_wf_update; [exact Hwf| |done|done| |].
    - apply lseg_app. exists (b_addr b). split; [by apply lseg_insert|]. simpl.
      split_and!; [done..|]. exists q. rewrite lookup_insert_eq. split; [done|].
      by apply lseg_insert.
    - rewrite !total_app. simpl. lia.
    - rewrite (wf_used _ _ _ Hwf), !used_app. simpl. rewrite Hfb, Hfc. lia. }
  unfold h2. destruct r as [|d r]; simpl in Hl2.
  - rewrite Hl2. simpl. apply Hgen. by rewrite last_addr_app.
  - destruct Hl2 as (-> & Hnz2 & _). rewrite (proj2 (Z.eqb_neq _ _) Hnz2).
    apply Hgen. rewrite (wf_tail _ _ _ Hwf), !last_addr_app. done.
Qed.

Lemma coalesce_loop_wf fuel h l1 b r pg :
  heap_wf h (l1 ++ b :: r) pg -> (length r < fuel)%nat ->
  exists h', coalesce_loop fuel (b_addr b) h = Some h' /\ heap_wf h' (l1 ++ merge_from b r) pg /\
    pages h' = pages h /\ bytes h' = bytes h.
Proof.
  revert h l1 b r. induction fuel as [|fuel IH]; intros h l1 b r Hwf Hf; [lia|].
  pose proof (wf_list _ _ _ Hwf) as Hl.
  apply lseg_app in Hl as (p & Hl1 & (-> & Hnz & q & Hm & Hl2)). simpl in *.
  rewrite (proj2 (Z.eqb_neq _ _) Hnz), Hm. simpl.
  destruct r as [|c r]; simpl in *.
  { rewrite Hl2. simpl. eauto. }
  destruct Hl2 as (-> & Hnz' & q' & Hm' & Hl2).
  rewrite (proj2 (Z.eqb_neq _ _) Hnz'), Hm'. simpl. rewrite !truth_c_int.
  destruct (blk_bounds h _ pg b Hwf) as (Hbok & Hblo & Hbhi); [set_solver|].
  destruct (blk_bounds h _ pg c Hwf) as (Hcok & Hclo & Hchi); [set_solver|].
  destruct Hbok as [Hbs _ _], Hcok as [Hcs _ _].
  unfold PMM_RAM_END, PMM_RAM_SIZE, PMM_RAM_BASE, b_end, sizeof_heap_block in Hblo, Hbhi, Hclo, Hchi.
  replace (u64 (b_addr b + sizeof_heap_block + b_size b)) with (b_end b)
    by (unfold b_end, sizeof_heap_block; rewrite u64_small by lia; done).
  fold (mergeable b c). destruct (mergeable b c) eqn:E; [|].
  2:{ destruct (IH h (l1 ++ [b]) c r) as (h' & Hc & Hwf' & Hp);
        [by rewrite <- (assoc_L (++))|lia|].
      rewrite <- (assoc_L (++)) in Hwf'. eauto. }
  assert (b_end b = b_addr c) as Hadj by (unfold mergeable in E; lia).
  rewrite (u64_small (b_size b + _))
    by (unfold b_end, sizeof_heap_block in *; lia).
  match goal with |- context [coalesce_loop fuel _ ?g] => set (h1 := g) end.
  assert (heap_wf h1 (l1 ++ join b c :: r) pg /\ pages h1 = pages h /\ bytes h1 = bytes h) as (Hwf1 & Hp1 & Hb1).
  { unfold mergeable in E. apply andb_true_iff in E as [[??]%andb_true_iff _].
    by apply (coalesce_step_wf h l1 b c r pg q' Hwf Hm'). }
  destruct (IH h1 l1 (join b c) r Hwf1 ltac:(lia)) as (h' & Hc & Hwf' & Hp & Hb).
  exists h'. split_and!; [exact Hc|done|congruence|congruence].
Qed.

Lemma coalesce_blocks_wf h l pg :
  heap_wf h l pg ->
  exists h', coalesce_blocks h = Some h' /\
    heap_wf h' (merge l) pg /\
    pages h' = pages h /\ bytes h' = bytes h.
Proof.
  intros Hwf. pose proof (heap_fuel _ _ _ Hwf) as Hf. unfold coalesce_blocks.
  pose proof (wf_list _ _ _ Hwf) as Hl. destruct l as [|b l]; simpl in Hl.
  - exists h. rewrite Hl. done.
  - destruct Hl as (-> & _). apply (coalesce_loop_wf _ h [] b l pg Hwf). simpl in Hf. lia.
Qed.

(** A page turned into one free block. *)
Lemma page_blk_ok pg p : ram_page p ->
  blk_ok ({[p]} ∪ pg) (Blk p heap_block_capacity true).
Proof.
  intros [Hr Hm]. unfold heap_block_capacity, PMM_PAGE_SIZE, sizeof_heap_block in *.
  apply Z.mod_divide in Hm as [k ->]; [|lia]. split; simpl.
  - lia.
  - split; [exists (k * 512)|exists 509]; lia.
  - unfold b_end, page_of, sizeof_heap_block, PMM_PAGE_SIZE. simpl. intros x Hx.
    replace (x - x mod 4096) with (k * 4096); [set_solver|].
    replace x with (x - k * 4096 + k * 4096) at 2 by lia.
    rewrite Z.mod_add, Z.mod_small by lia. lia.
Qed.

Lemma layout_weaken pg pg' l : pg ⊆ pg' -> layout pg l -> layout pg' l.
Proof.
  intros Hsub [Hok Hp]. split; [|done]. eapply Forall_impl; [exact Hok|].
  intros b [? ? Hw]. split; [done..|]. intros x Hx. set_solver.
Qed.

Lemma layout_grow pg l p :
  layout pg l -> (forall q, q ∈ pg -> ram_page q) -> ram_page p -> p ∉ pg ->
  layout ({[p]} ∪ pg) (l ++ [Blk p heap_block_capacity true]).
Proof.
  intros Hl Hpg Hp Hnin. apply layout_app. split_and!.
  - apply (layout_weaken pg); [set_solver|done].
  - apply layout_singleton. by apply page_blk_ok.
  - destruct Hl as [Hok _]. rewrite Forall_forall in Hok |- *. intros b Hb.
    apply Forall_singleton. destruct (Hok b Hb) as [Hs _ Hw]. destruct Hp as [_ Hm].
    unfold apart, b_end, heap_block_capacity, sizeof_heap_block, PMM_PAGE_SIZE in *. simpl.
    destruct (decide (b_addr b + 24 + b_size b <= p)) as [|Hgt]; [by left|].
    destruct (decide (p + 24 + (4096 - 24) <= b_addr b)) as [|Hlt]; [by right|].
    exfalso. apply Hnin. set (x := Z.max p (b_addr b)).
    enough (page_of x = p) as Hx by (rewrite <- Hx; apply Hw; lia).
    apply Z.mod_divide in Hm as [k ->]; [|lia]. unfold page_of, PMM_PAGE_SIZE.
    replace x with (x - k * 4096 + k * 4096) at 2 by lia.
    rewrite Z.mod_add, Z.mod_small by lia. lia.
Qed.

(** A page added to the heap as its last block. *)
Lemma heap_wf_grow h l pg p p' head m b :
  heap_wf h l pg -> ram_page p -> p ∉ pg -> pa_ok p' ->
  (forall q, ram_page q -> pa_owned p' q <-> pa_owned (pages h) q \/ q = p) ->
  lseg m head (l ++ [Blk p heap_block_capacity true]) 0 ->
  heap_wf (Heap head p (heap_pages h +! 1) (heap_used h)
    (if (heap_start h =? 0) || (p <? heap_start h) then p else heap_start h)
    (if p +! PMM_PAGE_SIZE >? heap_end h then p +! PMM_PAGE_SIZE else heap_end h) m b p')
    (l ++ [Blk p heap_block_capacity true]) ({[p]} ∪ pg).
Proof.
  intros [] Hp Hnin Hok' Hown Hl.
  pose proof (ram_pages_bound pg (fun q Hq => proj1 (wf_owned0 q Hq))) as Hbd.
  rewrite total_pages_val in Hbd. pose proof Hp as [Hr Hpm].
  unfold PMM_RAM_END, PMM_RAM_SIZE, PMM_RAM_BASE in Hr.
  rewrite !u64_small by (unfold PMM_PAGE_SIZE; lia).
  split; simpl; [done| | | | | |done| |case_if; lia|].
  - by rewrite last_addr_app.
  - apply layout_grow; [done| |done..]. intros q Hq. by apply wf_owned0.
  - rewrite total_app. simpl.
    unfold heap_block_capacity, sizeof_heap_block, PMM_PAGE_SIZE in *. lia.
  - rewrite used_app. simpl. lia.
  - rewrite size_union, size_singleton by set_solver. lia.
  - intros q [->%elem_of_singleton|Hq]%elem_of_union.
    + split; [done|]. apply Hown; auto.
    + destruct (wf_owned0 q Hq). split; [done|]. apply Hown; auto.
  - intros q [->%elem_of_singleton|Hq]%elem_of_union; [|pose proof (wf_region0 q Hq)];
      unfold PMM_PAGE_SIZE in *; repeat case_if; lia.
Qed.

(** Linking a new block after the last one. *)
Lemma lseg_snoc m head l t b q :
  lseg m head (l ++ [t]) 0 -> m !! b_addr t = Some (HeapBlock (b_size t) (c_int (b_free t)) q) ->
  NoDup (b_addr <$> (l ++ [t] ++ [b])) -> b_addr b ≠ 0 ->
  lseg (<[b_addr t := HeapBlock (b_size t) (c_int (b_free t)) (b_addr b)]>
         (<[b_addr b := HeapBlock (b_size b) (c_int (b_free b)) 0]> m)) head (l ++ [t] ++ [b]) 0.
Proof.
  intros Hl Hm Hnd Hnz.
  destruct (mid_fresh _ _ _ t Hnd ltac:(set_solver)) as [Ht1 Ht2].
  destruct (mid_fresh (l ++ [t]) [b] [] b) as [Hb1 _]; [by rewrite <- (assoc_L (++))|set_solver|].
  rewrite fmap_app in Hb1. simpl in *.
  apply lseg_app in Hl as (r & Hl & (-> & Htnz & _)). apply lseg_app. exists (b_addr t). split.
  - apply lseg_insert; [done|]. apply lseg_insert; [set_solver|done].
  - simpl. split_and!; [done..|]. exists (b_addr b). rewrite lookup_insert_eq. split; [done|].
    split_and!; [done..|]. exists 0. rewrite lookup_insert_ne by set_solver.
    by rewrite lookup_insert_eq.
Qed.

Lemma grow_heap_wf h l pg :
  heap_wf h l pg ->
  exists r h', grow_heap h = Some (r, h') /\ bytes h' = bytes h /\
    ((r = 0 /\ heap_wf h' l pg /\ forall q, ram_page q -> pa_owned (pages h) q) \/
     (ram_page r /\ ~ pa_owned (pages h) r /\ (r ∉ pg) /\
      heap_wf h' (l ++ [Blk r heap_block_capacity true]) ({[r]} ∪ pg))).
Proof.
  intros Hwf. pose proof Hwf as []. unfold grow_heap.
  pose proof (pa_alloc_law (pages h) wf_pa0) as Hlaw.
  destruct (pa_alloc_page (pages h)) as [p p'] eqn:Ep.
  destruct Hlaw as [Hok' [(-> & -> & Hall)|(Hp & Hnew & Hown)]].
  { simpl. eexists _, _. split; [reflexivity|]. split; [done|]. left. split_and!; [done| |done].
    by destruct h. }
  assert (p ≠ 0) as Hnz. { destruct Hp as [Hp _]. unfold PMM_RAM_BASE in Hp. lia. }
  rewrite (proj2 (Z.eqb_neq _ _) Hnz).
  assert (p ∉ pg) as Hnin by (intros Hin; apply Hnew, wf_owned0, Hin).
  destruct l as [|b l].
  - simpl in wf_list0. rewrite wf_list0. simpl. eexists _, _. split; [reflexivity|].
    split; [done|]. right. split_and!; [done..|]. apply (heap_wf_grow h []); try done. simpl.
    split_and!; [done..|]. exists 0. by rewrite lookup_insert_eq.
  - pose proof (layout_grow pg (b :: l) p wf_layout0 (fun q Hq => proj1 (wf_owned0 q Hq)) Hp Hnin) as Hlay.
    apply layout_NoDup in Hlay.
    destruct (exists_last (l := b :: l) ltac:(done)) as (l0 & t & Hlt). rewrite Hlt in *.
    pose proof wf_list0 as Hseg.
    apply lseg_app in wf_list0 as (r & Hl0 & (-> & Htnz & q & Hmt & ->)).
    assert (heap_head h ≠ 0) as Hh.
    { destruct l0; simpl in Hl0; [congruence|by destruct Hl0 as (_ & ? & _)]. }
    rewrite (proj2 (Z.eqb_neq _ _) Hh), wf_tail0, last_addr_app.
    change (last_addr [t]) with (b_addr t).
    rewrite <- (assoc_L (++)) in Hlay.
    destruct (mid_fresh _ _ _ t Hlay ltac:(set_solver)) as [_ Htp].
    rewrite lookup_insert_ne by set_solver. rewrite Hmt. simpl.
    eexists _, _. split; [reflexivity|]. split; [done|]. right. split_and!; [done..|].
    apply (heap_wf_grow h (l0 ++ [t])); try done. rewrite <- (assoc_L (++)).
    by apply (lseg_snoc _ _ _ t (Blk p heap_block_capacity true) 0).
Qed.

Lemma pieces_spec a n sz : 0 <= sz <= n ->
  exists n' k, pieces a n sz = Blk a n' true :: k /\ sz <= n' < sz + 56 /\
    Forall (fun b => b_free b = true) k.
Proof.
  intros Hsz. unfold pieces, sizeof_heap_block, HEAP_MIN_SPLIT. case_if.
  - exists n, []. split_and!; [done|lia|lia|done].
  - exists sz, [Blk (a + 24 + sz) (n - sz - 24) true]. split_and!; [done|lia|lia|by repeat constructor].
Qed.

(** The end of [kmalloc]: a free block is split and handed out. *)
Lemma take_block_wf h l1 a n l2 pg sz :
  heap_wf h (l1 ++ [Blk a n true] ++ l2) pg ->
  0 <= sz <= n -> (8 | sz) -> sz <= heap_block_capacity ->
  exists h' n' k,
    (h ← split_block a sz h;
     b ← mem h !! a;
     let h := set_mem (<[a := HeapBlock (size b) 0 (next b)]> (mem h)) h in
     let h := set_used (heap_used h +! size b) h in
     Some (u64 (a + sizeof_heap_block), h)) = Some (a + sizeof_heap_block, h') /\
    heap_wf h' (l1 ++ [Blk a n' false] ++ k ++ l2) pg /\ sz <= n' < sz + 56 /\
    Forall (fun b => b_free b = true) k /\ bytes h' = bytes h.
Proof.
  intros Hwf Hsz Hd Hcap.
  destruct (blk_bounds h _ pg (Blk a n true) Hwf) as (_ & Hlo & Hhi); [set_solver|].
  destruct (split_block_wf h l1 a n l2 pg sz Hwf Hsz Hd Hcap) as (h1 & -> & Hwf1 & Hp1 & Hb1).
  destruct (pieces_spec a n sz Hsz) as (n' & k & Hk & Hn' & Hfree). rewrite Hk in Hwf1. simpl.
  destruct (used_small _ _ _ Hwf1) as [Hu1 Ht1].
  destruct (total_elem pg _ (Blk a n' true) (proj1 (wf_layout _ _ _ Hwf1)) ltac:(set_solver)) as [Hn1 Hn2].
  simpl in Hn1, Hn2.
  destruct (flag_wf h1 l1 a n' true false (k ++ l2) pg (heap_used h1 +! n') Hwf1) as (q & Hm & Hwf2).
  { pose proof (wf_used _ _ _ Hwf1) as Hu. rewrite !used_app in Hu, Hu1 |- *.
    rewrite !total_app in Hu1, Ht1, Hn2. simpl in *.
    rewrite u64_small by lia. rewrite !used_app in *. lia. }
  rewrite Hm. simpl. eexists _, n', k. split_and!; [|exact Hwf2|lia..|done|done].
  unfold PMM_RAM_END, PMM_RAM_SIZE, PMM_RAM_BASE, b_end, sizeof_heap_block in *. simpl in *.
  rewrite (u64_small (a + 24)) by lia. done.
Qed.

Lemma heap_align_up sz : 0 < sz -> sz + 15 < 2 ^ 64 ->
  sz <= align_up sz < sz + 16 /\ (8 | align_up sz).
Proof.
  intros Hsz Ho. unfold align_up, HEAP_ALIGN. change 16 with (2 ^ 4).
  destruct (align_up_spec sz 4) as [Hr Hm]; [lia|lia|lia|]. cbv zeta in *.
  split; [exact Hr|]. apply Z.mod_divide in Hm as [k ->]; [|lia]. exists (k * 2). lia.
Qed.
End heap_ops.

Section heap_spec.
Context {P : Type} `{PageAllocator P}.
Implicit Type h : heap P.

(** From the list [l] to the list [l'] exactly one block of at least [sz] bytes became
    allocated, at an address that was not allocated; its payload is at [r]. *)
Definition handed_out (sz r : Z) (l l' : list blk) : Prop :=
  exists n, r ≠ 0 /\ sz <= n < sz + 72 /\ Blk (r - sizeof_heap_block) n false ∈ l' /\
    (r - sizeof_heap_block ∉ (b_addr <$> filter (fun b => b_free b = false) l)) /\
    forall x, b_free x = false -> x ∈ l' <-> x ∈ l \/ x = Blk (r - sizeof_heap_block) n false.

Lemma handed_out_intro pg sz asz l l1 a n l2 n' k :
  layout pg (l1 ++ [Blk a n true] ++ l2) -> 0 < a -> sz <= asz < sz + 16 -> asz <= n' < asz + 56 ->
  Forall (fun b => b_free b = true) k ->
  (forall x, b_free x = false -> x ∈ l1 ++ [Blk a n true] ++ l2 <-> x ∈ l) ->
  handed_out sz (a + sizeof_heap_block) l (l1 ++ [Blk a n' false] ++ k ++ l2).
Proof.
  intros Hlay Ha Hasz Hn' Hk Hlive. exists n'. rewrite Z.add_simpl_r.
  unfold sizeof_heap_block. split_and!; [lia|lia|lia|set_solver| |].
  - intros (x & Hx & [Hfx Hxl]%list_elem_of_filter)%list_elem_of_fmap.
    apply Hlive in Hxl; [|done].
    destruct (mid_fresh l1 [Blk a n true] l2 (Blk a n true)
                (layout_NoDup _ _ Hlay) ltac:(set_solver)) as [H1 H2].
    simpl in *. rewrite elem_of_app, elem_of_cons in Hxl. rewrite Hx in H1, H2.
    destruct Hxl as [Hin|[->|Hin]]; [apply H1|done|apply H2]; by apply list_elem_of_fmap_2.
  - intros x Hx. rewrite <- (Hlive x Hx). simpl. rewrite !elem_of_app, !elem_of_cons, !elem_of_app.
    rewrite Forall_forall in Hk. split.
    + intros [|[|[Hin|]]]; [tauto|tauto| |tauto]. apply Hk in Hin. congruence.
    + intros [[|[->|]]|]; (done || tauto).
Qed.

(** The part of [kmalloc] after a block was found, on a block of the list. *)
Lemma kmalloc_take h l l1 a n l2 pg sz :
  heap_wf h (l1 ++ [Blk a n true] ++ l2) pg -> 0 < sz -> sz + 15 < 2 ^ 64 ->
  align_up sz <= heap_block_capacity -> align_up sz <= n ->
  (forall x, b_free x = false -> x ∈ l1 ++ [Blk a n true] ++ l2 <-> x ∈ l) ->
  exists r h' l',
    (if a =? 0 then Some (0, h) else
     h ← split_block a (align_up sz) h;
     b ← mem h !! a;
     let h := set_mem (<[a := HeapBlock (size b) 0 (next b)]> (mem h)) h in
     let h := set_used (heap_used h +! size b) h in
     Some (u64 (a + sizeof_heap_block), h)) = Some (r, h') /\
    heap_wf h' l' pg /\ bytes h' = bytes h /\ handed_out sz r l l'.
Proof.
  intros Hwf Hsz Ho Hcap Hn Hlive. destruct (heap_align_up sz Hsz Ho) as [Hal Hd].
  destruct (blk_bounds h _ pg (Blk a n true) Hwf) as (_ & Hlo & _); [set_solver|].
  unfold PMM_RAM_BASE in Hlo. simpl in Hlo. destruct (Z.eqb_spec a 0) as [|_]; [lia|].
  destruct (take_block_wf h l1 a n l2 pg (align_up sz)) as (h' & n' & k & -> & Hwf' & Hn' & Hk & Hb');
    [done|lia|done|lia|].
  eexists _, h', _. split_and!; [done|exact Hwf'|done|].
  eapply handed_out_intro; [apply Hwf|lia|exact Hal|done|done|done].
Qed.

(** A list of blocks has no room for [asz] more bytes. *)
Definition no_room h (l : list blk) (asz : Z) : Prop :=
  heap_block_capacity < asz \/
  (Forall (fun b => fits asz b = false) l /\ forall q, ram_page q -> pa_owned (pages h) q).

Lemma out_of_room_wf h l pg asz : heap_wf h l pg -> out_of_room h asz <-> no_room h l asz.
Proof.
  intros Hwf. unfold out_of_room, no_room. assert ((forall p n, free_block h p n -> n < asz) <-> Forall (fun b => fits asz b = false) l) as ->; [|done].
  rewrite Forall_forall. unfold free_block, fits. split.
  - intros Hl [a n []] Hb; [|done]. cbn [b_free b_size andb]. rewrite Z.geb_leb. apply Z.leb_gt, (Hl (a + sizeof_heap_block)).
    exists l. rewrite Z.add_simpl_r. by split; [apply Hwf|].
  - intros Hl p n (l' & Hl' & Hin). rewrite <- (lseg_det _ _ _ _ (wf_list _ _ _ Hwf) Hl') in Hin. apply Hl in Hin.
    cbn [b_free b_size andb] in Hin. rewrite Z.geb_leb in Hin. by apply Z.leb_gt in Hin.
Qed.

(** What [kmalloc] does to the list of blocks: nothing, and it returns null, when
    there is no room; otherwise exactly one block becomes allocated. *)
Lemma kmalloc_wf h l pg sz :
  heap_wf h l pg -> 0 < sz -> sz + 15 < 2 ^ 64 ->
  exists r h' l' pg', kmalloc sz h = Some (r, h') /\ heap_wf h' l' pg' /\ bytes h' = bytes h /\
    ((r = 0 /\ l' = l /\ no_room h l (align_up sz)) \/
     (handed_out sz r l l' /\ ~ no_room h l (align_up sz))).
Proof.
  intros Hwf Hsz Ho. unfold kmalloc, no_room. destruct (Z.eqb_spec sz 0) as [|_]; [lia|].
  destruct (align_up sz >? heap_block_capacity) eqn:Ecap.
  { eexists _, _, _, _. split_and!; [reflexivity|done|done|]. left. split_and!; [done..|]. lia. }
  destruct (find_free_block_spec (align_up sz) h l pg Hwf)
    as [[Hnone ->]|(l1 & b & l2 & -> & Hfit & _ & ->)]; simpl.
  - destruct (grow_heap_wf h l pg Hwf) as (r & h1 & -> & Hb1 & [(-> & Hwf1 & Hall)|(Hr & Hfree & Hnr & Hwf1)]); simpl.
    + eexists _, _, _, _. split_and!; [reflexivity|done|done|]. left. split_and!; [done..|]. by right.
    + destruct (kmalloc_take h1 l l r heap_block_capacity [] _ sz Hwf1) as (r' & h' & l' & ? & ? & ? & ?);
        [done|done|lia|lia| |].
      2: { eexists _, _, _, _; split_and!; [eassumption|eassumption|congruence|right]. split; [done|]. intros [?|[_ Ha]]; [lia|]. by apply Hfree, Ha. }
      intros x Hx. rewrite elem_of_app, app_nil_r, list_elem_of_singleton.
      split; [intros [ | -> ]; done|tauto].
  - assert (~ (heap_block_capacity < align_up sz \/
      Forall (fun b => fits (align_up sz) b = false) (l1 ++ [b] ++ l2) /\ forall q, ram_page q -> pa_owned (pages h) q)) as Hroom.
    { intros [?|[Ha _]]; [lia|]. apply Forall_app in Ha as [_ [Ha _]%Forall_cons]. congruence. }
    destruct b as [a n f]. unfold fits in Hfit. simpl in *.
    destruct f; simpl in Hfit; [|done].
    destruct (blk_bounds h _ pg (Blk a n true) Hwf) as (_ & Hlo & _); [set_solver|].
    unfold PMM_RAM_BASE in Hlo. simpl in Hlo.
    destruct (kmalloc_take h (l1 ++ [Blk a n true] ++ l2) l1 a n l2 pg sz Hwf)
      as (r' & h' & l' & Heq & ? & ? & ?); [done|done|lia|lia|done|].
    eexists _, _, _, _. split_and!; [|eassumption..|by right].
    rewrite (proj2 (Z.eqb_neq a 0)) in Heq |- * by lia. simpl.
    rewrite (proj2 (Z.eqb_neq a 0)) by lia. exact Heq.
Qed.

(** [kfree] of an allocated block: the block becomes free and neighbours merge. *)
Lemma kfree_wf h l1 a n l2 pg :
  heap_wf h (l1 ++ [Blk a n false] ++ l2) pg ->
  exists h', kfree (a + sizeof_heap_block) h = Some h' /\
    heap_wf h' (merge (l1 ++ [Blk a n true] ++ l2)) pg /\ bytes h' = bytes h /\ pages h' = pages h.
Proof.
  intros Hwf. destruct (blk_bounds h _ pg (Blk a n false) Hwf) as ([Hs _ _] & Hlo & Hhi); [set_solver|].
  unfold b_end, PMM_RAM_END, PMM_RAM_SIZE, PMM_RAM_BASE in *. simpl in Hs, Hlo, Hhi.
  destruct (used_small _ _ _ Hwf) as [Hu Ht].
  destruct (flag_wf h l1 a n false true l2 pg (heap_used h -! n) Hwf) as (q & Hm & Hwf1).
  { rewrite (wf_used _ _ _ Hwf). destruct (wf_layout _ _ _ Hwf) as [Hall _].
    apply Forall_app in Hall as [H1 [_ H2]%Forall_app].
    apply used_bound in H1, H2.
    rewrite !used_app in *. rewrite !total_app in *. simpl in *.
    rewrite u64_small by lia. lia. }
  unfold kfree. unfold sizeof_heap_block in *. rewrite (proj2 (Z.eqb_neq (a + 24) 0)) by lia.
  rewrite Z.add_simpl_r, u64_small by lia. rewrite Hm. simpl.
  destruct (coalesce_blocks_wf _ _ _ Hwf1) as (h' & Hc & Hwf' & Hp & Hb).
  exists h'. split_and!; [exact Hc|done..].
Qed.

Lemma merge_live l x : b_free x = false -> x ∈ merge l <-> x ∈ l.
Proof. intros Hx. destruct l; simpl; [done|]. by apply merge_from_live. Qed.

Lemma merge_coalesced l : coalesced (merge l).
Proof. destruct l; simpl; [done|]. apply merge_from_coalesced. Qed.

(** Two blocks of a list are the same or apart. *)
Lemma layout_apart pg l b c : layout pg l -> b ∈ l -> c ∈ l -> b = c \/ apart b c.
Proof.
  intros [_ Hp]. induction l as [|x l IH]; [set_solver|]. destruct Hp as [Hx Hp].
  rewrite Forall_forall in Hx. rewrite !elem_of_cons.
  intros [->|Hb] [->|Hc]; [by left|right; auto|right; apply apart_sym; auto|auto].
Qed.

(** A header that a byte store does not overlap survives it. *)
Lemma lseg_store h p l q x v :
  Forall (fun b => ~ (b_addr b <= x < b_addr b + sizeof_heap_block)) l ->
  lseg (mem h) p l q -> lseg (mem (store_byte x v h)) p l q.
Proof.
  intros Hl. revert p. induction Hl as [|b l Hb _ IH]; intros p; simpl; [done|].
  intros (-> & Hnz & n & Hm & Hl'). split_and!; [done..|]. exists n. split; [|by apply IH].
  rewrite map_lookup_filter_Some. done.
Qed.

Lemma store_byte_wf h l pg b x v :
  heap_wf h l pg -> b ∈ l -> b_addr b + sizeof_heap_block <= x < b_end b ->
  heap_wf (store_byte x v h) l pg.
Proof.
  intros Hwf Hb Hx. pose proof Hwf as []. split; try done. apply lseg_store; [|done].
  apply Forall_forall. intros c Hc.
  destruct (layout_apart pg l b c wf_layout0 Hb Hc) as [<-|Ha]; [lia|].
  destruct (blk_bounds h l pg c Hwf Hc) as [[Hs _ _] _].
  unfold apart, b_end in *. lia.
Qed.

Lemma zero_loop_wf k h l pg b p :
  heap_wf h l pg -> b ∈ l -> b_addr b + sizeof_heap_block <= p -> p + Z.of_nat k <= b_end b ->
  heap_wf (zero_loop k p h) l pg /\
  forall x, bytes (zero_loop k p h) !! x =
    if decide (p <= x < p + Z.of_nat k) then Some 0 else bytes h !! x.
Proof.
  revert h p. induction k as [|k IH]; intros h p Hwf Hb Hlo Hhi; simpl.
  { split; [done|]. intros x. case_decide; [lia|done]. }
  destruct (blk_bounds h l pg b Hwf Hb) as (_ & Hr & Hr').
  unfold PMM_RAM_END, PMM_RAM_SIZE, PMM_RAM_BASE in *.
  assert (u64 (p + 1) = p + 1) as ->.
  { apply u64_small. unfold sizeof_heap_block in *. lia. }
  destruct (IH (store_byte p 0 h) (p + 1)) as [Hwf' Hbytes]; [|done|lia|lia|].
  { eapply store_byte_wf; [done..|lia]. }
  split; [done|]. intros x. rewrite Hbytes. simpl.
  destruct (decide (x = p)) as [->|Hne].
  - rewrite lookup_insert_eq. by repeat case_decide; try lia.
  - rewrite lookup_insert_ne by done. by repeat case_decide; try lia.
Qed.

(** *** Accounting *)

Lemma free_bytes_loop_spec fuel p t h l :
  lseg (mem h) p l 0 -> (length l < fuel)%nat -> 0 <= t ->
  Forall (fun b => 0 <= b_size b) l -> t + free_total l < 2 ^ 64 ->
  free_bytes_loop fuel p t h = Some (t + free_total l).
Proof.
  revert p t l. induction fuel as [|fuel IH]; intros p t l Hl Hf Ht Hs Hb; [lia|].
  destruct l as [|b l]; simpl in *.
  { rewrite Hl. simpl. f_equal. lia. }
  destruct Hl as (-> & Hnz & n & Hm & Hl).
  rewrite (proj2 (Z.eqb_neq _ _) Hnz), Hm. simpl. rewrite truth_c_int.
  apply Forall_cons in Hs as [Hb0 Hs].
  assert (0 <= free_total l) as Hfl.
  { clear -Hs. induction Hs as [|c l Hc _ IH]; simpl; [lia|]. destruct (b_free c); lia. }
  destruct (b_free b).
  - rewrite u64_small by lia. rewrite (IH n _ l) by (done || lia). f_equal. lia.
  - rewrite (IH n _ l) by (done || lia). f_equal.
Qed.

Lemma heap_free_bytes_wf h l pg : heap_wf h l pg -> heap_free_bytes h = Some (free_total l).
Proof.
  intros Hwf. destruct (wf_layout _ _ _ Hwf) as [Hall _].
  destruct (used_small _ _ _ Hwf) as [_ Ht]. destruct (used_bound _ _ Hall) as [_ Hf].
  unfold heap_free_bytes. pose proof (heap_fuel _ _ _ Hwf).
  rewrite (free_bytes_loop_spec _ _ _ _ l); [done|apply Hwf|lia|lia| |lia].
  eapply Forall_impl; [exact Hall|]. by intros b [? _ _].
Qed.

Lemma heap_init_wf (p : P) : pa_ok p -> heap_wf (heap_init p) [] ∅.
Proof. intros Hp. split; try done; set_solver. Qed.
End heap_spec.

(** ** Properties *)

Section heap_claims.
Context {P : Type} `{PageAllocator P}.
Implicit Type h : heap P.

Lemma allocated_apart h p n q m :
  heap_inv h -> allocated h p n -> allocated h q m -> p ≠ q ->
  p + n <= q - sizeof_heap_block \/ q + m <= p - sizeof_heap_block.
Proof.
  intros (l & pg & Hwf) Hp Hq Hne. apply (allocated_wf _ _ _ _ _ Hwf) in Hp, Hq.
  destruct (layout_apart pg l _ _ (wf_layout _ _ _ Hwf) Hp Hq) as [Heq|Ha].
  - injection Heq. lia.
  - unfold apart, b_end, sizeof_heap_block in *. simpl in *. lia.
Qed.

(** From [handed_out] on lists to the allocated blocks of the heap. *)
Lemma handed_out_allocated h h' l l' pg pg' sz r :
  heap_wf h l pg -> heap_wf h' l' pg' -> handed_out sz r l l' ->
  exists n, r ≠ 0 /\ sz <= n < sz + 72 /\ allocated h' r n /\
    (forall m, ~ allocated h r m) /\
    forall p m, allocated h' p m <-> allocated h p m \/ (p = r /\ m = n).
Proof.
  intros Hwf Hwf' (n & Hr & Hn & Hin & Hnew & Hlive). exists n.
  setoid_rewrite (allocated_wf h _ _ _ _ Hwf). setoid_rewrite (allocated_wf h' _ _ _ _ Hwf').
  split_and!; [done|lia|lia|done| |].
  - intros m Hm. apply Hnew.
    apply (list_elem_of_fmap_2 b_addr _ (Blk (r - sizeof_heap_block) m false)).
    by apply list_elem_of_filter.
  - intros p m. rewrite Hlive by done.
    split; (intros [?|Heq]; [by left|right]).
    + injection Heq. unfold sizeof_heap_block. lia.
    + destruct Heq as [-> ->]. done.
Qed.

Lemma kfree_allocated h l pg p n :
  heap_wf h l pg -> allocated h p n ->
  exists h' l', kfree p h = Some h' /\ heap_wf h' l' pg /\ coalesced l' /\
    used l' = used l - n /\
    forall q m, allocated h' q m <-> allocated h q m /\ q ≠ p.
Proof.
  intros Hwf Hp. rewrite (allocated_wf _ _ _ _ _ Hwf) in Hp.
  apply list_elem_of_split in Hp as (l1 & l2 & ->).
  destruct (kfree_wf h l1 _ n l2 pg Hwf) as (h' & Hk & Hwf' & _).
  rewrite Z.sub_add in Hk.
  exists h', (merge (l1 ++ [Blk (p - sizeof_heap_block) n true] ++ l2)).
  split_and!; [done..|apply merge_coalesced| |].
  - transitivity (used (l1 ++ [Blk (p - sizeof_heap_block) n true] ++ l2)).
    + destruct l1; simpl; apply merge_from_sums.
    + rewrite !used_app. simpl. lia.
  - intros q m. rewrite (allocated_wf _ _ _ _ _ Hwf), (allocated_wf _ _ _ _ _ Hwf').
    rewrite merge_live by done. simpl. rewrite !elem_of_app, !elem_of_cons.
    destruct (mid_fresh l1 [Blk (p - sizeof_heap_block) n false] l2 (Blk (p - sizeof_heap_block) n false)
      (layout_NoDup _ _ (wf_layout _ _ _ Hwf)) ltac:(set_solver)) as [H1 H2]. simpl in *.
    split.
    + intros [Hin|[Heq|Hin]]; [|discriminate Heq|]; (split; [tauto|]); intros ->;
        [apply H1|apply H2]; by apply (list_elem_of_fmap_2 b_addr _ _ Hin).
    + intros [[|[Heq|]] Hne]; [tauto| |tauto].
      injection Heq. unfold sizeof_heap_block. lia.
Qed.

(** (C32) [kmalloc] on any well-formed heap, for every size whose rounding does not
    overflow ([sz + 15 < 2^64]): it returns and keeps the heap well formed. It returns null
    if and only if nothing is asked for or there is no room - the rounded request exceeds
    what a page holds, or every free block of the heap is smaller than it and every page of
    RAM is taken - and then the allocated blocks are as before. Otherwise it returns a new
    block of at least the requested and less than 72 bytes more, apart (header included)
    from every block allocated before, all of which stay allocated unchanged. *)
Theorem kmalloc_spec h sz :
  heap_inv h -> 0 <= sz -> sz + 15 < 2 ^ 64 ->
  exists r h', kmalloc sz h = Some (r, h') /\ heap_inv h' /\
    (r = 0 <-> sz = 0 \/ out_of_room h (align_up sz)) /\
    ((r = 0 /\ forall p m, allocated h' p m <-> allocated h p m) \/
     (exists n, r ≠ 0 /\ sz <= n < sz + 72 /\
        (forall p m, allocated h p m ->
           p + m <= r - sizeof_heap_block \/ r + n <= p - sizeof_heap_block) /\
        forall p m, allocated h' p m <-> allocated h p m \/ (p = r /\ m = n))).
Proof.
  intros Hi Hsz Ho. destruct (decide (sz = 0)) as [->|Hnz].
  { exists 0, h. split; [done|]. split; [done|]. split; [tauto|]. by left. }
  destruct Hi as (l & pg & Hwf).
  destruct (kmalloc_wf h l pg sz Hwf ltac:(lia) Ho) as (r & h' & l' & pg' & Hk & Hwf' & _ & Hres).
  exists r, h'. split; [done|]. split; [by exists l', pg'|]. rewrite (out_of_room_wf h l pg _ Hwf).
  destruct Hres as [(-> & -> & Hwhy)|[Hout Hroom]].
  - split; [tauto|]. left. split; [done|]. intros p m.
    by rewrite (allocated_wf _ _ _ _ _ Hwf), (allocated_wf _ _ _ _ _ Hwf').
  - destruct (handed_out_allocated _ _ _ _ _ _ _ _ Hwf Hwf' Hout)
      as (n & Hr & Hn & Hin & Hnew & Hall). split; [tauto|]. right. exists n. split_and!; [done|lia|lia| |done].
    intros p m Hp. apply or_comm, allocated_apart with h'; [by exists l', pg'|done|..].
    + apply Hall. by left.
    + intros ->. by apply (Hnew m).
Qed.

(** [kfree] of an allocated block on any well-formed heap: it returns, the heap
    stays well formed with no two adjacent free blocks next to each other in the
    list, [heap_used] drops by the block's size, exactly that block stops being
    allocated, and freeing null changes nothing. *)
Theorem kfree_spec h p n :
  heap_inv h -> allocated h p n ->
  kfree 0 h = Some h /\
  exists h', kfree p h = Some h' /\ heap_inv h' /\
    heap_used_bytes h' = heap_used_bytes h - n /\
    (exists l, lseg (mem h') (heap_head h') l 0 /\ coalesced l) /\
    forall q m, allocated h' q m <-> allocated h q m /\ q ≠ p.
Proof.
  intros (l & pg & Hwf) Hp. split; [done|].
  destruct (kfree_allocated h l pg p n Hwf Hp) as (h' & l' & Hk & Hwf' & Hc & Hu & Hall).
  exists h'. split_and!; [done|by exists l', pg| |exists l'; by split; [apply Hwf'|]|done].
  unfold heap_used_bytes. by rewrite (wf_used _ _ _ Hwf'), (wf_used _ _ _ Hwf).
Qed.

(** What [kzalloc] adds to [kmalloc]. *)
Lemma kzalloc_wf h l pg sz :
  heap_wf h l pg -> 0 < sz -> sz + 15 < 2 ^ 64 ->
  exists r h' l' pg', kzalloc sz h = Some (r, h') /\ heap_wf h' l' pg' /\
    ((r = 0 /\ l' = l /\ bytes h' = bytes h) \/
     (handed_out sz r l l' /\
      forall x, bytes h' !! x = if decide (r <= x < r + sz) then Some 0 else bytes h !! x)).
Proof.
  intros Hwf Hsz Ho.
  destruct (kmalloc_wf h l pg sz Hwf Hsz Ho) as (r & h' & l' & pg' & Hk & Hwf' & Hb & Hres).
  unfold kzalloc. rewrite Hk. simpl. destruct Hres as [(-> & -> & _)|[Hout _]].
  { eexists 0, h', l, pg'. split_and!; [done..|]. by left. }
  pose proof Hout as (n & Hr & Hn & Hin & _). rewrite (proj2 (Z.eqb_neq _ _) Hr).
  destruct (zero_loop_wf (Z.to_nat sz) h' l' pg' _ r Hwf' Hin) as [Hz Hbytes].
  { simpl. lia. }
  { unfold b_end. simpl. lia. }
  eexists r, _, _, _. split_and!; [done..|]. right. split; [done|].
  intros x. rewrite Hbytes, Z2Nat.id, Hb by lia. done.
Qed.

(** [kzalloc] zeroes the requested bytes of the block it returns, writes no
    other byte, and destroys no block header: the heap stays well formed and the
    other blocks stay allocated. *)
Theorem kzalloc_zeroes h sz r h' :
  heap_inv h -> 0 < sz -> sz + 15 < 2 ^ 64 -> kzalloc sz h = Some (r, h') -> r ≠ 0 ->
  heap_inv h' /\
  (forall x, bytes h' !! x = if decide (r <= x < r + sz) then Some 0 else bytes h !! x) /\
  (forall p m, allocated h p m -> allocated h' p m /\ (p + m <= r \/ r + sz <= p)).
Proof.
  intros (l & pg & Hwf) Hsz Ho Hk Hr.
  destruct (kzalloc_wf h l pg sz Hwf Hsz Ho) as (r' & h'' & l' & pg' & Hk' & Hwf' & Hres).
  rewrite Hk in Hk'. injection Hk' as <- <-. destruct Hres as [[? _]|[Hout Hb]]; [done|].
  split; [by exists l', pg'|]. split; [done|]. intros p m Hp.
  destruct (handed_out_allocated _ _ _ _ _ _ _ _ Hwf Hwf' Hout) as (n & _ & Hn & Hin & Hnew & Hall).
  assert (allocated h' p m) as Hp' by (apply Hall; by left). split; [done|].
  destruct (allocated_apart h' p m r n) as [|]; [by exists l', pg'|done|done| |..].
  - intros ->. by apply (Hnew m).
  - unfold sizeof_heap_block in *. lia.
  - unfold sizeof_heap_block in *. lia.
Qed.

(** Allocations and frees one after the other: an allocation returns null or a block, a
    free of what it returned succeeds, and neither touches the other blocks. *)
Definition null_or_block h (p : Z) : Prop := p = 0 \/ exists n, allocated h p n.

Lemma null_or_block_next h l pg sz r h' l' pg' :
  heap_wf h l pg -> heap_wf h' l' pg' -> (r = 0 /\ l' = l) \/ handed_out sz r l l' ->
  null_or_block h' r /\ forall p, null_or_block h p -> null_or_block h' p /\ (p = r -> p = 0).
Proof.
  intros Hwf Hwf' [[-> ->]|Hout].
  - split; [by left|]. intros p [->|[n Hn]]; [by split; [left|]|]. split; [right; exists n|done].
    by rewrite (allocated_wf _ _ _ _ _ Hwf'), <- (allocated_wf _ _ _ _ _ Hwf).
  - destruct (handed_out_allocated _ _ _ _ _ _ _ _ Hwf Hwf' Hout) as (n & Hr & _ & Hin & Hnew & Hall). split; [right; by exists n|].
    intros p [->|[m Hm]]; [by split; [left|]|]. split; [right; exists m; apply Hall; by left|]. intros ->. by apply Hnew in Hm.
Qed.

Lemma kmalloc_next h sz : heap_inv h -> 0 < sz -> sz + 15 < 2 ^ 64 ->
  exists r h', kmalloc sz h = Some (r, h') /\ heap_inv h' /\ null_or_block h' r /\
    forall p, null_or_block h p -> null_or_block h' p /\ (p = r -> p = 0).
Proof.
  intros (l & pg & Hwf) Hsz Ho. destruct (kmalloc_wf h l pg sz Hwf Hsz Ho) as (r & h' & l' & pg' & Hk & Hwf' & _ & Hres).
  exists r, h'. split; [done|]. split; [by exists l', pg'|]. apply (null_or_block_next h l pg sz r h' l' pg' Hwf Hwf'). tauto.
Qed.

Lemma kzalloc_next h sz : heap_inv h -> 0 < sz -> sz + 15 < 2 ^ 64 ->
  exists r h', kzalloc sz h = Some (r, h') /\ heap_inv h' /\ null_or_block h' r /\
    forall p, null_or_block h p -> null_or_block h' p /\ (p = r -> p = 0).
Proof.
  intros (l & pg & Hwf) Hsz Ho. destruct (kzalloc_wf h l pg sz Hwf Hsz Ho) as (r & h' & l' & pg' & Hk & Hwf' & Hres).
  exists r, h'. split; [done|]. split; [by exists l', pg'|]. apply (null_or_block_next h l pg sz r h' l' pg' Hwf Hwf'). tauto.
Qed.

Lemma kfree_next h p : heap_inv h -> null_or_block h p ->
  exists h', kfree p h = Some h' /\ heap_inv h' /\ forall q, null_or_block h q -> (q = p -> q = 0) -> null_or_block h' q.
Proof.
  intros Hi [->|[n Hn]]; [exists h; by split_and!|]. destruct Hi as (l & pg & Hwf).
  destruct (kfree_allocated h l pg p n Hwf Hn) as (h' & l' & Hk & Hwf' & _ & _ & Hall). exists h'. split; [done|]. split; [by exists l', pg|].
  intros q [->|[m Hm]] Hq; [by left|]. destruct (decide (q = p)) as [->|]; [left; by apply Hq|]. right. exists m. by apply Hall.
Qed.

Lemma heap_statistics h : heap_inv h -> exists free overhead, heap_free_bytes h = Some free /\ heap_overhead_bytes h = Some overhead.
Proof.
  intros (l & pg & Hwf). unfold heap_overhead_bytes. rewrite (heap_free_bytes_wf h l pg Hwf). by eexists _, _.
Qed.

(** The uses of the heap: any sequence of allocations and of frees of null or
    allocated pointers. *)
Inductive heap_reachable (p : P) : heap P -> Prop :=
| hr_init : heap_reachable p (heap_init p)
| hr_kmalloc h sz r h' : heap_reachable p h -> 0 <= sz -> sz + 15 < 2 ^ 64 ->
    kmalloc sz h = Some (r, h') -> heap_reachable p h'
| hr_kzalloc h sz r h' : heap_reachable p h -> 0 <= sz -> sz + 15 < 2 ^ 64 ->
    kzalloc sz h = Some (r, h') -> heap_reachable p h'
| hr_kfree h ptr h' : heap_reachable p h -> (ptr = 0 \/ exists n, allocated h ptr n) ->
    kfree ptr h = Some h' -> heap_reachable p h'.

Lemma heap_reachable_inv p h : pa_ok p -> heap_reachable p h -> heap_inv h.
Proof.
  intros Hp. induction 1 as [|h sz r h' _ IH H0 Ho Hk|h sz r h' _ IH H0 Ho Hk|h ptr h' _ IH Hptr Hk].
  - exists [], ∅. by apply heap_init_wf.
  - destruct (decide (sz = 0)) as [->|]; [unfold kmalloc in Hk; simpl in Hk; by injection Hk as <- <-|].
    destruct IH as (l & pg & Hwf).
    destruct (kmalloc_wf h l pg sz Hwf) as (? & ? & l' & pg' & Hk' & Hwf' & _); [lia..|].
    rewrite Hk in Hk'. injection Hk' as <- <-. by exists l', pg'.
  - destruct (decide (sz = 0)) as [->|]; [unfold kzalloc in Hk; simpl in Hk; by injection Hk as <- <-|].
    destruct IH as (l & pg & Hwf).
    destruct (kzalloc_wf h l pg sz Hwf) as (? & ? & l' & pg' & Hk' & Hwf' & _); [lia..|].
    rewrite Hk in Hk'. injection Hk' as <- <-. by exists l', pg'.
  - destruct Hptr as [->|[n Hn]]; [by injection Hk as <-|]. destruct IH as (l & pg & Hwf).
    destruct (kfree_allocated h l pg ptr n Hwf Hn) as (h'' & l' & Hk' & Hwf' & _).
    rewrite Hk in Hk'. injection Hk' as <-. by exists l', pg.
Qed.

(** (C19) Safety and accounting of the heap in every state reachable by allocations and
    frees: the block list is finite and well linked, every two allocated blocks are
    apart, every byte of every page obtained from the page allocator belongs to a
    payload or a header, and the reported free and overhead bytes are those of the
    list (the overhead counts the headers beyond one per page). *)
Theorem heap_accounting p h :
  pa_ok p -> heap_reachable p h ->
  (forall a n b m, allocated h a n -> allocated h b m -> a ≠ b ->
     a + n <= b - sizeof_heap_block \/ b + m <= a - sizeof_heap_block) /\
  exists l, lseg (mem h) (heap_head h) l 0 /\
    heap_page_count h * PMM_PAGE_SIZE =
      used l + free_total l + sizeof_heap_block * Z.of_nat (length l) /\
    heap_used_bytes h = used l /\
    heap_free_bytes h = Some (free_total l) /\
    heap_overhead_bytes h =
      Some (Z.max 0 (sizeof_heap_block * (Z.of_nat (length l) - heap_page_count h))).
Proof.
  intros Hp Hr. pose proof (heap_reachable_inv p h Hp Hr) as Hinv. split.
  { intros a n b m Ha Hb Hne. by apply (allocated_apart h). }
  destruct Hinv as (l & pg & Hwf). exists l.
  pose proof (wf_total _ _ _ Hwf) as Ht. pose proof (total_split l) as Hs.
  destruct (used_small _ _ _ Hwf) as [Hu Hb]. destruct (wf_layout _ _ _ Hwf) as [Hall _].
  destruct (used_bound _ _ Hall) as [_ Hf].
  unfold heap_overhead_bytes, heap_total_bytes, heap_page_count, heap_used_bytes.
  rewrite (heap_free_bytes_wf h l pg Hwf), (wf_used _ _ _ Hwf). simpl.
  split_and!; [apply Hwf|lia|done|done|].
  unfold heap_block_capacity, PMM_PAGE_SIZE, sizeof_heap_block in *.
  rewrite !(u64_small (_ * _)), (u64_small (_ + _)) by lia. f_equal.
  case_if; [lia|]. rewrite u64_small by lia. lia.
Qed.
End heap_claims.

(** A heap over the bitmap allocator after boot. *)
Definition boot_heap : heap pmm := heap_init (pmm_init 0x40200010).

Lemma boot_pa_ok : pa_ok (pmm_init 0x40200010).
Proof. apply pmm_init_ok. lia. Qed.

Arguments boot_heap : simpl never.

Lemma boot_heap_inv : heap_inv boot_heap.
Proof. exists [], ∅. apply heap_init_wf, boot_pa_ok. Qed.

(** The same heap after [kmalloc(64)]. *)
Definition boot_heap1 : heap pmm := snd (default (0, boot_heap) (kmalloc 64 boot_heap)).
Arguments boot_heap1 : simpl never.

Lemma boot_heap1_eq : kmalloc 64 boot_heap = Some (0x40201018, boot_heap1).
Proof. vm_compute. reflexivity. Qed.

Lemma boot_heap1_inv : heap_inv boot_heap1.
Proof.
  apply (heap_reachable_inv (pmm_init 0x40200010)); [exact boot_pa_ok|].
  apply (hr_kmalloc _ boot_heap 64 0x40201018); [constructor|lia|lia|exact boot_heap1_eq].
Qed.

Lemma boot_heap1_allocated : allocated boot_heap1 0x40201018 64.
Proof.
  exists [Blk 0x40201000 64 false; Blk 0x40201058 3984 true]. split; [|by left].
  split; [vm_compute; reflexivity|]. split; [vm_compute; discriminate|].
  exists 0x40201058. split; [vm_compute; reflexivity|].
  split; [reflexivity|]. split; [lia|]. exists 0. split; [vm_compute; reflexivity|]. reflexivity.
Qed.

Lemma kmalloc_spec_witness :
  exists r h', kmalloc 64 boot_heap = Some (r, h') /\ heap_inv h'.
Proof.
  destruct (kmalloc_spec boot_heap 64 boot_heap_inv) as (r & h' & Hk & Hi & _); [lia|lia|].
  exists r, h'. split; [exact Hk|exact Hi].
Defined.

Lemma kfree_spec_witness :
  exists h', kfree 0x40201018 boot_heap1 = Some h' /\ ~ allocated h' 0x40201018 64.
Proof.
  destruct (kfree_spec boot_heap1 0x40201018 64 boot_heap1_inv boot_heap1_allocated)
    as (_ & h' & Hk & _ & _ & _ & Hall).
  exists h'. split; [exact Hk|]. intros Ha. by apply (proj1 (Hall 0x40201018 64) Ha).
Defined.

Lemma kzalloc_zeroes_witness :
  bytes (snd (default (0, boot_heap1) (kzalloc 128 boot_heap1))) !! 0x40201070 = Some 0.
Proof.
  destruct (kzalloc_zeroes boot_heap1 128 0x40201070
    (snd (default (0, boot_heap1) (kzalloc 128 boot_heap1))) boot_heap1_inv) as (_ & Hb & _).
  - lia.
  - lia.
  - vm_compute. reflexivity.
  - lia.
  - rewrite Hb. reflexivity.
Defined.

Lemma heap_accounting_witness :
  exists l, lseg (mem boot_heap1) (heap_head boot_heap1) l 0 /\ heap_used_bytes boot_heap1 = used l.
Proof.
  destruct (heap_accounting (pmm_init 0x40200010) boot_heap1 boot_pa_ok) as (_ & l & Hl & _ & Hu & _).
  - apply (hr_kmalloc _ boot_heap 64 0x40201018); [constructor|lia|lia|exact boot_heap1_eq].
  - exists l. split; [exact Hl|exact Hu].
Defined.

(** Requests within 15 bytes of [2^64] wrap in [align_up] and are taken for 0
      bytes: [kmalloc] then passes the capacity check and returns a block smaller than
      the request, as it does for the largest [unsigned long] on the boot heap. *)
Theorem kmalloc_wraps :
  (forall sz, 2 ^ 64 - 15 <= sz < 2 ^ 64 -> align_up sz = 0) /\
  exists h', kmalloc (2 ^ 64 - 1) boot_heap = Some (0x40201018, h') /\
    mem h' !! 0x40201000 = Some (HeapBlock 0 0 0x40201018).
Proof.
  split.
  - intros sz Hsz. unfold align_up, HEAP_ALIGN.
    assert (u64 (sz + 16 - 1) = sz + 15 - 2 ^ 64) as ->.
    { symmetry. apply (Z.mod_unique _ _ 1); lia. }
    change (16 - 1) with (2 ^ 4 - 1). rewrite land_high_mask by lia.
    rewrite Z.mod_small by lia. lia.
  - eexists. split; [vm_compute; reflexivity|]. vm_compute. reflexivity.
Qed.
