(* ===== verification/BlockDevice.v ===== *)
(** * Interfaces of the storage stack

    [VirtioBlk] is what [kernel/storage/block.c] uses of the virtio driver
    ([drivers/storage/virtio_blk.h]); [BlockDevice] is what [kernel/fs/sfs.c] uses of
    [kernel/storage/block.h]. Both carry the laws their clients are verified
    against. Buffers are the bytes from the pointer on; a transfer that fails may
    have moved any part of the data. *)

From S2P Require Import Prelude.

(** [BLOCK_SECTOR_SIZE] of [block.h]. *)
Definition BLOCK_SECTOR_SIZE : Z := 512.

(** The bytes of [n] consecutive sectors. *)
Definition sectors_from (data : Z -> list Z) (sector : Z) (n : nat) : list Z :=
  concat ((fun i => data (sector + Z.of_nat i)) <$> seq 0 n).

(** Sector [i] of a buffer. *)
Definition buffer_sector (buffer : list Z) (i : Z) : list Z :=
  take (Z.to_nat BLOCK_SECTOR_SIZE) (drop (Z.to_nat (i * BLOCK_SECTOR_SIZE)) buffer).

(** The transfers of a device whose sectors hold [data s] in state [s]: what a read
    and a write promise, with the C return value first. *)
Section transfers.
Context {S : Type} (ok : S -> Prop) (count_of : S -> Z) (data : S -> Z -> list Z).

Definition read_law (r : Z * list Z * S) (sector count : Z) (buffer : list Z) (s : S) : Prop :=
  let '(res, buffer', s') := r in
  ok s' /\ count_of s' = count_of s /\ (forall i, data s' i = data s i) /\
  length buffer' = length buffer /\ (res = 0 \/ res = 1) /\
  (res = 1 -> buffer' = write_at buffer 0 (sectors_from (data s) sector (Z.to_nat count))).

Definition write_law (r : Z * S) (sector count : Z) (buffer : list Z) (s : S) : Prop :=
  let (res, s') := r in
  ok s' /\ count_of s' = count_of s /\
  (forall i, ~ (sector <= i < sector + count) -> data s' i = data s i) /\
  (res = 0 \/ res = 1) /\
  (res = 1 -> forall i, sector <= i < sector + count ->
     data s' i = buffer_sector buffer (i - sector)).
End transfers.

Class VirtioBlk (V : Type) := {
  virtio_blk_init : V -> Z * V;
  virtio_blk_read : Z -> list Z -> Z -> V -> Z * list Z * V;
  virtio_blk_write : Z -> list Z -> Z -> V -> Z * V;
  virtio_blk_sector_count : V -> Z;
  vb_ok : V -> Prop;
  vb_data : V -> Z -> list Z;
  vb_init_law : forall v, vb_ok v -> vb_ok (snd (virtio_blk_init v));
  vb_count : forall v, vb_ok v -> 0 <= virtio_blk_sector_count v < 2 ^ 64;
  vb_size : forall v i, vb_ok v -> 0 <= i < virtio_blk_sector_count v ->
    length (vb_data v i) = Z.to_nat BLOCK_SECTOR_SIZE;
  vb_read_law : forall v sector buffer count, vb_ok v -> 0 <= sector -> 0 < count ->
    sector + count <= virtio_blk_sector_count v -> count * BLOCK_SECTOR_SIZE <= Z.of_nat (length buffer) ->
    read_law vb_ok virtio_blk_sector_count vb_data (virtio_blk_read sector buffer count v) sector count buffer v;
  vb_write_law : forall v sector buffer count, vb_ok v -> 0 <= sector -> 0 < count ->
    sector + count <= virtio_blk_sector_count v -> count * BLOCK_SECTOR_SIZE <= Z.of_nat (length buffer) ->
    write_law vb_ok virtio_blk_sector_count vb_data (virtio_blk_write sector buffer count v) sector count buffer v;
}.

(** A machine without a virtio disk: the probe finds nothing. *)
#[export, program] Instance no_virtio : VirtioBlk unit := {|
  virtio_blk_init := fun v => (0, v);
  virtio_blk_read := fun _ buffer _ v => (0, buffer, v);
  virtio_blk_write := fun _ _ _ v => (0, v);
  virtio_blk_sector_count := fun _ => 0;
  vb_ok := fun _ => True;
  vb_data := fun _ _ => [];
|}.
Solve Obligations with (simpl; intros; repeat (first [lia | split]); naive_solver lia).

(** [bd_reliable b]: transfers in range succeed. *)
Class BlockDevice (B : Type) := {
  bd_read : Z -> list Z -> Z -> B -> Z * list Z * B;
  bd_write : Z -> list Z -> Z -> B -> Z * B;
  bd_sector_count : B -> Z;
  bd_ok : B -> Prop;
  bd_reliable : B -> Prop;
  bd_data : B -> Z -> list Z;
  bd_count : forall b, bd_ok b -> 0 <= bd_sector_count b < 2 ^ 64;
  bd_size : forall b i, bd_ok b -> 0 <= i < bd_sector_count b ->
    length (bd_data b i) = Z.to_nat BLOCK_SECTOR_SIZE;
  bd_read_law : forall b sector buffer count, bd_ok b -> 0 <= sector < 2 ^ 64 -> 0 < count < 2 ^ 64 ->
    count * BLOCK_SECTOR_SIZE <= Z.of_nat (length buffer) ->
    read_law bd_ok bd_sector_count bd_data (bd_read sector buffer count b) sector count buffer b /\
    let '(res, _, b') := bd_read sector buffer count b in
    (bd_reliable b -> bd_reliable b' /\ (sector + count <= bd_sector_count b -> res = 1)) /\
    (res = 1 -> sector + count <= bd_sector_count b);
  bd_write_law : forall b sector buffer count, bd_ok b -> 0 <= sector < 2 ^ 64 -> 0 < count < 2 ^ 64 ->
    count * BLOCK_SECTOR_SIZE <= Z.of_nat (length buffer) ->
    write_law bd_ok bd_sector_count bd_data (bd_write sector buffer count b) sector count buffer b /\
    let (res, b') := bd_write sector buffer count b in
    (bd_reliable b -> bd_reliable b' /\ (sector + count <= bd_sector_count b -> res = 1)) /\
    (res = 1 -> sector + count <= bd_sector_count b);
}.
