(* ===== verification/Block.v ===== *)
(** * Block device ([kernel/storage/block.c])

    The sector device of the kernel: a virtio disk when the probe finds one and a RAM
    disk of 128 sectors otherwise. The virtio driver is the interface
    [VirtioBlk] of [BlockDevice.v]; this file discharges the interface [BlockDevice]
    that the file system uses. The report [block_dump_stats] is in [Reports]. *)

From S2P Require Import Prelude BlockDevice.

(** ** Definitions *)

Definition BLOCK_RAM_SECTORS : Z := 128.

Record block_stats := BlockStats {
  reads : Z;
  writes : Z;
  read_sectors : Z;
  written_sectors : Z;
  rejected : Z;
  self_test_passed : Z;
}.

(** The static variables of the file and the state of the virtio driver. *)
Record block (V : Type) := Block {
  ram_disk : list (list Z);
  stats : block_stats;
  use_virtio : Z;
  vdev : V;
}.
Arguments Block {V}. Arguments ram_disk {V}. Arguments stats {V}.
Arguments use_virtio {V}. Arguments vdev {V}.

(** [stats.rejected++] *)
Definition count_rejected (s : block_stats) : block_stats :=
  BlockStats (reads s) (writes s) (read_sectors s) (written_sectors s) (rejected s +! 1)
    (self_test_passed s).
(** [stats.reads++; stats.read_sectors += count] *)
Definition count_read (count : Z) (s : block_stats) : block_stats :=
  BlockStats (reads s +! 1) (writes s) (read_sectors s +! count) (written_sectors s) (rejected s)
    (self_test_passed s).
(** [stats.writes++; stats.written_sectors += count] *)
Definition count_write (count : Z) (s : block_stats) : block_stats :=
  BlockStats (reads s) (writes s +! 1) (read_sectors s) (written_sectors s +! count) (rejected s)
    (self_test_passed s).
Definition set_self_test (passed : Z) (s : block_stats) : block_stats :=
  BlockStats (reads s) (writes s) (read_sectors s) (written_sectors s) (rejected s) passed.

Definition ram_sector (disk : list (list Z)) (sector : Z) : list Z :=
  default [] (disk !! Z.to_nat sector).

(** The loops of [block_read] and [block_write] on the RAM disk: [current] counts
    the sectors, the inner loop copies one byte per iteration. *)
Fixpoint ram_read_loop (n : nat) (current sector : Z) (disk : list (list Z)) (buffer : list Z) : list Z :=
  match n with
  | O => buffer
  | S n =>
      ram_read_loop n (current + 1) sector disk
        (copy_loop buffer (Z.to_nat (current * BLOCK_SECTOR_SIZE)) (ram_sector disk (sector + current)))
  end.

Fixpoint ram_write_loop (n : nat) (current sector : Z) (buffer : list Z) (disk : list (list Z)) :
    list (list Z) :=
  match n with
  | O => disk
  | S n =>
      ram_write_loop n (current + 1) sector buffer
        (<[Z.to_nat (sector + current) :=
             copy_loop (ram_sector disk (sector + current)) 0 (buffer_sector buffer current)]> disk)
  end.

Section ops.
Context {V : Type} `{VirtioBlk V}.
Implicit Type b : block V.

Definition set_disk (d : list (list Z)) b : block V := Block d (stats b) (use_virtio b) (vdev b).
Definition set_stats (s : block_stats) b : block V := Block (ram_disk b) s (use_virtio b) (vdev b).
Definition set_vdev (v : V) b : block V := Block (ram_disk b) (stats b) (use_virtio b) v.

Definition block_init b : block V :=
  let '(found, v) := virtio_blk_init (vdev b) in
  let disk :=
    if truth found then ram_disk b
    else replicate (Z.to_nat BLOCK_RAM_SECTORS) (replicate (Z.to_nat BLOCK_SECTOR_SIZE) 0) in
  Block disk (BlockStats 0 0 0 0 0 0) found v.

Definition block_sector_count b : Z :=
  if truth (use_virtio b) then virtio_blk_sector_count (vdev b) else BLOCK_RAM_SECTORS.

(** The common guard of [block_read] and [block_write]. *)
Definition bad_request (sector : Z) (buffer : option (list Z)) (count : Z) b : bool :=
  let sectors := block_sector_count b in
  negb (bool_decide (is_Some buffer)) || (count =? 0) || (sector >=? sectors) ||
  (count >? sectors -! sector).

Definition block_read (sector : Z) (buffer : option (list Z)) (count : Z) b :
    Z * option (list Z) * block V :=
  if bad_request sector buffer count b then
    (0, buffer, set_stats (count_rejected (stats b)) b)
  else
    let buf := default [] buffer in
    if truth (use_virtio b) then
      let '(res, buf, v) := virtio_blk_read sector buf count (vdev b) in
      let b := set_vdev v b in
      if negb (truth res) then (0, Some buf, set_stats (count_rejected (stats b)) b)
      else (1, Some buf, set_stats (count_read count (stats b)) b)
    else
      let buf := ram_read_loop (Z.to_nat count) 0 sector (ram_disk b) buf in
      (1, Some buf, set_stats (count_read count (stats b)) b).

Definition block_write (sector : Z) (buffer : option (list Z)) (count : Z) b : Z * block V :=
  if bad_request sector buffer count b then (0, set_stats (count_rejected (stats b)) b)
  else
    let buf := default [] buffer in
    if truth (use_virtio b) then
      let (res, v) := virtio_blk_write sector buf count (vdev b) in
      let b := set_vdev v b in
      if negb (truth res) then (0, set_stats (count_rejected (stats b)) b)
      else (1, set_stats (count_write count (stats b)) b)
    else
      let b := set_disk (ram_write_loop (Z.to_nat count) 0 sector buf (ram_disk b)) b in
      (1, set_stats (count_write count (stats b)) b).

Definition test_pattern : list Z :=
  (fun i => u8 (Z.lxor (Z.of_nat i) 0xA5)) <$> seq 0 (Z.to_nat BLOCK_SECTOR_SIZE).

(** The comparison loop, which leaves at the first difference. *)
Fixpoint compare_loop (result pattern : list Z) (passed : Z) : Z :=
  match result, pattern with
  | x :: result, y :: pattern => if negb (x =? y) then 0 else compare_loop result pattern passed
  | _, _ => passed
  end.

(** [stack] is what the local arrays hold before they are written. *)
Definition block_self_test (stack : list Z) b : Z * block V :=
  let sector := block_sector_count b -! 1 in
  let '(ok, saved, b) := block_read sector (Some stack) 1 b in
  if negb (truth ok) then (0, b) else
  let pattern := test_pattern in
  let (okw, b) := block_write sector (Some pattern) 1 b in
  let '(okr, result, b) :=
    if negb (truth okw) then (0, Some stack, b) else block_read sector (Some stack) 1 b in
  let passed := if negb (truth okw) || negb (truth okr) then 0 else 1 in
  let passed := compare_loop (default [] result) pattern passed in
  let (oks, b) := block_write sector saved 1 b in
  let passed := if negb (truth oks) then 0 else passed in
  (passed, set_stats (set_self_test passed (stats b)) b).

Definition block_device_name b : list Z :=
  if truth (use_virtio b) then lit "virtio-blk" else lit "ramdisk".
End ops.

(** ** The RAM disk *)

Ltac blia := unfold BLOCK_SECTOR_SIZE, BLOCK_RAM_SECTORS in *; lia.

Definition sector_wf (s : list Z) : Prop := length s = Z.to_nat BLOCK_SECTOR_SIZE.

Lemma copy_loop_app {A} (dst : list A) off (x y : list A) :
  copy_loop dst off (x ++ y) = copy_loop (copy_loop dst off x) (off + length x) y.
Proof.
  revert dst off. induction x as [|a x IH]; intros dst off; simpl; [by rewrite Nat.add_0_r|].
  rewrite IH. f_equal. lia.
Qed.

Lemma sectors_from_S data sector n :
  sectors_from data sector (S n) = data sector ++ sectors_from data (sector + 1) n.
Proof.
  unfold sectors_from. simpl. rewrite Z.add_0_r. f_equal. f_equal.
  rewrite <- fmap_S_seq, <- list_fmap_compose. apply list_fmap_ext. intros i x _. simpl. f_equal. lia.
Qed.

Lemma length_sectors_from data sector n :
  (forall i, sector <= i < sector + Z.of_nat n -> sector_wf (data i)) ->
  length (sectors_from data sector n) = (n * Z.to_nat BLOCK_SECTOR_SIZE)%nat.
Proof.
  revert sector. induction n as [|n IH]; intros sector Hd; [done|].
  rewrite sectors_from_S, length_app, IH, Hd by (lia || (intros; apply Hd; lia)). lia.
Qed.

(** Two devices with the same sectors in range read the same. *)
Lemma sectors_from_ext data data' sector n :
  (forall i, sector <= i < sector + Z.of_nat n -> data i = data' i) ->
  sectors_from data sector n = sectors_from data' sector n.
Proof.
  revert sector. induction n as [|n IH]; intros sector Hd; [done|].
  rewrite !sectors_from_S, Hd, (IH (sector + 1)) by (lia || (intros; apply Hd; lia)). done.
Qed.

Lemma ram_read_loop_spec n current sector disk buffer :
  0 <= current ->
  (forall i, sector + current <= i < sector + current + Z.of_nat n -> sector_wf (ram_sector disk i)) ->
  ram_read_loop n current sector disk buffer =
  copy_loop buffer (Z.to_nat (current * BLOCK_SECTOR_SIZE))
    (sectors_from (ram_sector disk) (sector + current) n).
Proof.
  revert current buffer. induction n as [|n IH]; intros current buffer Hc Hd; [done|].
  cbn [ram_read_loop]. rewrite IH by (lia || (intros; apply Hd; lia)).
  rewrite sectors_from_S, copy_loop_app, Hd by lia.
  unfold BLOCK_SECTOR_SIZE. f_equal; [lia|]. f_equal. lia.
Qed.

(** A sector cut out of a buffer that holds it. *)
Lemma length_buffer_sector buffer i :
  0 <= i -> (i + 1) * BLOCK_SECTOR_SIZE <= Z.of_nat (length buffer) ->
  sector_wf (buffer_sector buffer i).
Proof.
  unfold sector_wf, buffer_sector, BLOCK_SECTOR_SIZE. intros Hi Hl.
  rewrite length_take, length_drop. lia.
Qed.

Lemma write_at_full {A} (dst src : list A) :
  length dst = length src -> write_at dst 0 src = src.
Proof.
  intros Hl. unfold write_at. rewrite take_0, drop_ge by (simpl; lia). simpl. apply app_nil_r.
Qed.

Lemma ram_write_loop_spec n current sector buffer disk :
  0 <= current -> 0 <= sector ->
  sector + current + Z.of_nat n <= Z.of_nat (length disk) ->
  (current + Z.of_nat n) * BLOCK_SECTOR_SIZE <= Z.of_nat (length buffer) ->
  Forall sector_wf disk ->
  let disk' := ram_write_loop n current sector buffer disk in
  length disk' = length disk /\ Forall sector_wf disk' /\
  forall i, 0 <= i -> ram_sector disk' i =
    if decide (sector + current <= i < sector + current + Z.of_nat n)
    then buffer_sector buffer (i - sector) else ram_sector disk i.
Proof.
  revert current disk. induction n as [|n IH]; intros current disk Hc Hs Hd Hb Hwf; cbn [ram_write_loop].
  { split_and!; [done..|]. intros i Hi. case_decide; [lia|done]. }
  destruct (lookup_lt_is_Some_2 disk (Z.to_nat (sector + current))) as [old Hold]; [lia|].
  assert (sector_wf old) as Holdwf by (eapply Forall_lookup_1; eauto).
  assert (copy_loop (ram_sector disk (sector + current)) 0 (buffer_sector buffer current)
          = buffer_sector buffer current) as Hcopy.
  { unfold ram_sector. rewrite Hold. cbn [from_option id]. rewrite copy_loop_write_at.
    - apply write_at_full. rewrite Holdwf. symmetry. apply length_buffer_sector; blia.
    - rewrite Holdwf. rewrite length_buffer_sector by blia. blia. }
  cbv zeta. rewrite Hcopy.
  destruct (IH (current + 1) (<[Z.to_nat (sector + current):=buffer_sector buffer current]> disk))
    as (H1 & H2 & H3); [lia|lia|rewrite length_insert; lia|blia| |].
  { apply Forall_insert; [done|]. apply length_buffer_sector; blia. }
  rewrite length_insert in H1. split_and!; [done..|]. intros i Hi. rewrite H3 by done.
  unfold ram_sector. destruct (decide (i = sector + current)) as [->|Hne].
  - rewrite list_lookup_insert_eq by lia. cbn [from_option id].
    repeat case_decide; try lia. f_equal. lia.
  - rewrite list_lookup_insert_ne by lia. repeat case_decide; (done || lia).
Qed.

(** ** The device *)

Section device.
Context {V : Type} `{VirtioBlk V}.
Implicit Type b : block V.

Record block_ok b : Prop := {
  bk_length : length (ram_disk b) = Z.to_nat BLOCK_RAM_SECTORS;
  bk_sectors : Forall sector_wf (ram_disk b);
  bk_vdev : vb_ok (vdev b);
}.

(** What sector [i] of the device holds. *)
Definition block_data b (i : Z) : list Z :=
  if truth (use_virtio b) then vb_data (vdev b) i
  else if i <? 0 then [] else ram_sector (ram_disk b) i.

Lemma block_count_range b : block_ok b -> 0 <= block_sector_count b < 2 ^ 64.
Proof.
  intros []. unfold block_sector_count, BLOCK_RAM_SECTORS. case_if; [by apply vb_count|lia].
Qed.

Lemma ram_sector_wf b i : block_ok b -> 0 <= i < BLOCK_RAM_SECTORS ->
  sector_wf (ram_sector (ram_disk b) i).
Proof.
  intros [Hl Hs _] Hi. unfold ram_sector.
  destruct (lookup_lt_is_Some_2 (ram_disk b) (Z.to_nat i)) as [s Hsec]; [blia|].
  rewrite Hsec. eapply (Forall_lookup_1 _ _ _ _ Hs Hsec).
Qed.

Lemma block_data_wf b i : block_ok b -> 0 <= i < block_sector_count b -> sector_wf (block_data b i).
Proof.
  intros Hok Hi. unfold block_data, block_sector_count in *. pose proof Hok as [].
  destruct (truth (use_virtio b)); [by apply vb_size|].
  destruct (i <? 0) eqn:E; [lia|]. by apply ram_sector_wf.
Qed.

Lemma bad_request_spec sector buffer count b :
  block_ok b -> 0 <= sector < 2 ^ 64 -> 0 <= count < 2 ^ 64 ->
  bad_request sector buffer count b = false <->
  is_Some buffer /\ 0 < count /\ sector + count <= block_sector_count b.
Proof.
  intros Hok Hs Hc. pose proof (block_count_range b Hok) as Hn. unfold bad_request.
  destruct (decide (sector < block_sector_count b)) as [Hlt|Hge].
  - rewrite u64_small by lia. destruct buffer; simpl.
    + split; [intros; split; [done|lia]|lia].
    + split; [done|]. by intros [[? ?] _].
  - split; [lia|]. intros (_ & ? & ?). lia.
Qed.

Lemma block_ok_set_stats s b : block_ok b -> block_ok (set_stats s b).
Proof. by intros []. Qed.

Lemma block_read_law b sector buffer count :
  block_ok b -> 0 <= sector < 2 ^ 64 -> 0 < count < 2 ^ 64 ->
  count * BLOCK_SECTOR_SIZE <= Z.of_nat (length buffer) ->
  let '(res, buffer', b') := block_read sector (Some buffer) count b in
  read_law block_ok block_sector_count block_data (res, default [] buffer', b') sector count buffer b /\
  use_virtio b' = use_virtio b /\ buffer' ≠ None /\
  (use_virtio b = 0 -> sector + count <= block_sector_count b -> res = 1) /\
  (res = 1 -> sector + count <= block_sector_count b).
Proof.
  intros Hok Hs Hc Hl. unfold block_read, read_law.
  pose proof (bad_request_spec sector (Some buffer) count b Hok Hs ltac:(lia)) as Hbad.
  destruct (bad_request _ _ _ _) eqn:E.
  { split_and!; try done; [by apply block_ok_set_stats|by left|].
    intros _ Hle. by discriminate (proj2 Hbad (conj (ex_intro _ _ eq_refl) (conj (proj1 Hc) Hle))). }
  destruct (proj1 Hbad eq_refl) as (_ & _ & Hin). cbn [from_option id].
  pose proof Hok as [Hlen Hsec Hv]. unfold block_sector_count, block_data in *.
  destruct (truth (use_virtio b)) eqn:Ev.
  - pose proof (vb_read_law (vdev b) sector buffer count Hv ltac:(lia) ltac:(lia) Hin Hl) as Hlaw.
    destruct (virtio_blk_read sector buffer count (vdev b)) as [[res buf] v].
    destruct Hlaw as (Hv' & Hcnt & Hdata & Hblen & Hres & Hgood).
    destruct Hres as [-> | ->]; cbn [truth negb Z.eqb]; (split_and!; try done; simpl; rewrite ?Ev;
      auto; intros Hz; rewrite Hz in Ev; discriminate).
  - assert (forall i, sector <= i < sector + count -> sector_wf (ram_sector (ram_disk b) i)).
    { intros i Hi. apply ram_sector_wf; [done|blia]. }
    rewrite ram_read_loop_spec by (lia || (intros; apply H0; lia)).
    rewrite Z.add_0_r, Z.mul_0_l. change (Z.to_nat 0) with 0%nat.
    assert (sectors_from (ram_sector (ram_disk b)) sector (Z.to_nat count) =
            sectors_from (fun i => if i <? 0 then [] else ram_sector (ram_disk b) i) sector (Z.to_nat count)) as Hext.
    { apply sectors_from_ext. intros i Hi. destruct (i <? 0) eqn:?; [lia|done]. }
    rewrite copy_loop_write_at; [|rewrite length_sectors_from; [blia|intros; apply H0; lia]].
    split_and!; try done; simpl; rewrite ?Ev; try done.
    + rewrite length_write_at; [done|]. rewrite length_sectors_from; [blia|intros; apply H0; lia].
    + by right.
    + intros _. by rewrite Hext.
Qed.

Lemma block_write_law b sector buffer count :
  block_ok b -> 0 <= sector < 2 ^ 64 -> 0 < count < 2 ^ 64 ->
  count * BLOCK_SECTOR_SIZE <= Z.of_nat (length buffer) ->
  let '(res, b') := block_write sector (Some buffer) count b in
  write_law block_ok block_sector_count block_data (res, b') sector count buffer b /\
  use_virtio b' = use_virtio b /\
  (use_virtio b = 0 -> sector + count <= block_sector_count b -> res = 1) /\
  (res = 1 -> sector + count <= block_sector_count b).
Proof.
  intros Hok Hs Hc Hl. unfold block_write, write_law.
  pose proof (bad_request_spec sector (Some buffer) count b Hok Hs ltac:(lia)) as Hbad.
  destruct (bad_request _ _ _ _) eqn:E.
  { split_and!; try done; [by apply block_ok_set_stats|by left|].
    intros _ Hle. by discriminate (proj2 Hbad (conj (ex_intro _ _ eq_refl) (conj (proj1 Hc) Hle))). }
  destruct (proj1 Hbad eq_refl) as (_ & _ & Hin). cbn [from_option id].
  pose proof Hok as [Hlen Hsec Hv]. unfold block_sector_count, block_data in *.
  destruct (truth (use_virtio b)) eqn:Ev.
  - pose proof (vb_write_law (vdev b) sector buffer count Hv ltac:(lia) ltac:(lia) Hin Hl) as Hlaw.
    destruct (virtio_blk_write sector buffer count (vdev b)) as [res v].
    destruct Hlaw as (Hv' & Hcnt & Hframe & Hres & Hgood).
    destruct Hres as [-> | ->]; cbn [truth negb Z.eqb]; (split_and!; try done; simpl; rewrite ?Ev;
      auto; intros Hz; rewrite Hz in Ev; discriminate).
  - destruct (ram_write_loop_spec (Z.to_nat count) 0 sector buffer (ram_disk b))
      as (H1 & H2 & H3); [lia|lia|blia|blia|done|].
    split_and!; try done; simpl; rewrite ?Ev; try done.
    + split; simpl; [by rewrite H1|done|done].
    + intros i Hi. destruct (i <? 0) eqn:?; [done|]. rewrite H3 by lia. case_decide; [lia|done].
    + by right.
    + intros _ i Hi. destruct (i <? 0) eqn:?; [lia|]. rewrite H3 by lia. case_decide; [done|lia].
Qed.
End device.

(** [block_read] with a buffer that is not null. *)
Definition block_read_buffer {V} `{VirtioBlk V} (sector : Z) (buffer : list Z) (count : Z) (b : block V) :
    Z * list Z * block V :=
  let '(res, buffer, b) := block_read sector (Some buffer) count b in (res, default [] buffer, b).

#[export, program] Instance block_block_device {V} `{VirtioBlk V} : BlockDevice (block V) := {|
  bd_read := block_read_buffer;
  bd_write sector buffer count b := block_write sector (Some buffer) count b;
  bd_sector_count := block_sector_count;
  bd_ok := block_ok;
  bd_reliable b := use_virtio b = 0;
  bd_data := block_data;
|}.
Next Obligation. intros. by apply block_count_range. Qed.
Next Obligation. intros. by apply block_data_wf. Qed.
Next Obligation.
  intros V HV b sector buffer count Hok Hs Hc Hl.
  pose proof (block_read_law b sector buffer count Hok Hs Hc Hl) as Hlaw. unfold block_read_buffer.
  destruct (block_read sector (Some buffer) count b) as [[res buf] b'].
  destruct Hlaw as (Hlaw & Hv & _ & Hr & Hin). split; [done|]. split; [|done].
  intros Hz. split; [congruence|auto].
Qed.
Next Obligation.
  intros V HV b sector buffer count Hok Hs Hc Hl.
  pose proof (block_write_law b sector buffer count Hok Hs Hc Hl) as Hlaw. cbv beta.
  destruct (block_write sector (Some buffer) count b) as [res b'].
  destruct Hlaw as (Hlaw & Hv & Hr & Hin). split; [done|]. split; [|done].
  intros Hz. split; [congruence|auto].
Qed.

(** The sectors of a buffer put together. *)
Lemma sectors_from_buffer buffer sector k n :
  0 <= k -> (k + Z.of_nat n) * BLOCK_SECTOR_SIZE <= Z.of_nat (length buffer) ->
  sectors_from (fun i => buffer_sector buffer (i - sector)) (sector + k) n =
  take (n * Z.to_nat BLOCK_SECTOR_SIZE) (drop (Z.to_nat (k * BLOCK_SECTOR_SIZE)) buffer).
Proof.
  revert k. induction n as [|n IH]; intros k Hk Hl; [done|].
  rewrite sectors_from_S. replace (sector + k + 1) with (sector + (k + 1)) by lia.
  rewrite IH by blia. replace (sector + k - sector) with k by lia. unfold buffer_sector.
  rewrite Nat.mul_succ_l, Nat.add_comm, <- (take_take_drop _ (Z.to_nat BLOCK_SECTOR_SIZE)), drop_drop.
  do 3 f_equal. blia.
Qed.

(** ** Properties *)

Section claims.
Context {V : Type} `{VirtioBlk V}.
Implicit Type b : block V.

(** On either device, a successful [block_read] after a successful [block_write]
    of the same sectors returns the bytes that were written, touches nothing of the
    caller's buffer beyond them, and every other sector of the device keeps its
    contents. *)
Theorem block_write_read b sector buffer out count b1 out' b2 :
  block_ok b -> 0 <= sector < 2 ^ 64 -> 0 < count < 2 ^ 64 ->
  count * BLOCK_SECTOR_SIZE <= Z.of_nat (length buffer) ->
  count * BLOCK_SECTOR_SIZE <= Z.of_nat (length out) ->
  block_write sector (Some buffer) count b = (1, b1) ->
  block_read sector (Some out) count b1 = (1, Some out', b2) ->
  let n := Z.to_nat (count * BLOCK_SECTOR_SIZE) in
  out' = take n buffer ++ drop n out /\
  sector + count <= block_sector_count b /\
  forall i, ~ (sector <= i < sector + count) -> block_data b2 i = block_data b i.
Proof.
  intros Hok Hs Hc Hl Hl' Hw Hr n.
  pose proof (block_write_law b sector buffer count Hok Hs Hc Hl) as Hlaw. rewrite Hw in Hlaw.
  destruct Hlaw as ((Hok1 & Hcnt & Hframe & _ & Hdata) & _ & _ & Hin).
  pose proof (block_read_law b1 sector out count Hok1 Hs Hc Hl') as Hlaw. rewrite Hr in Hlaw.
  destruct Hlaw as ((_ & _ & Hsame & _ & _ & Hout) & _).
  split_and!; [|auto|intros i Hi; rewrite Hsame; auto].
  cbn [from_option id] in Hout. rewrite Hout by done.
  rewrite (sectors_from_ext _ (fun i => buffer_sector buffer (i - sector))).
  - pose proof (sectors_from_buffer buffer sector 0 (Z.to_nat count)) as Hb.
    rewrite Z.add_0_r in Hb. rewrite Hb by blia. unfold write_at. rewrite take_0, Z.mul_0_l. simpl.
    replace (Z.to_nat count * Z.to_nat BLOCK_SECTOR_SIZE)%nat with n by (unfold n; blia).
    rewrite length_take, drop_0. do 2 f_equal. unfold n. blia.
  - intros i Hi. apply Hdata; [done|lia].
Qed.

(** Both transfers reject a null buffer, a zero count and a range that leaves the
    device (also when [sector + count] would wrap): they return 0, count the
    rejection and change neither the buffer nor any other state; on the RAM disk
    every other request succeeds. *)
Theorem block_bounds b sector buffer count :
  block_ok b -> 0 <= sector < 2 ^ 64 -> 0 <= count < 2 ^ 64 ->
  (~ (is_Some buffer /\ 0 < count /\ sector + count <= block_sector_count b) ->
   block_read sector buffer count b = (0, buffer, set_stats (count_rejected (stats b)) b) /\
   block_write sector buffer count b = (0, set_stats (count_rejected (stats b)) b)) /\
  (is_Some buffer /\ 0 < count /\ sector + count <= block_sector_count b -> use_virtio b = 0 ->
   fst (fst (block_read sector buffer count b)) = 1 /\ fst (block_write sector buffer count b) = 1).
Proof.
  intros Hok Hs Hc. pose proof (bad_request_spec sector buffer count b Hok Hs Hc) as Hbad.
  unfold block_read, block_write. destruct (bad_request _ _ _ _); split.
  - done.
  - intros Hgood _. by discriminate (proj2 Hbad Hgood).
  - intros Hno. destruct (Hno (proj1 Hbad eq_refl)).
  - intros _ ->. done.
Qed.
End claims.

Lemma compare_loop_same (l : list Z) passed : compare_loop l l passed = passed.
Proof. induction l as [|x l IH]; simpl; [done|]. by rewrite Z.eqb_refl. Qed.

(** Transfers of one sector on the RAM disk. *)
Lemma ram_transfer {V} `{VirtioBlk V} (b : block V) sector buffer :
  block_ok b -> use_virtio b = 0 -> 0 <= sector < BLOCK_RAM_SECTORS -> sector_wf buffer ->
  (exists b', block_read sector (Some buffer) 1 b = (1, Some (block_data b sector), b') /\
     block_ok b' /\ use_virtio b' = 0 /\ forall i, block_data b' i = block_data b i) /\
  (exists b', block_write sector (Some buffer) 1 b = (1, b') /\
     block_ok b' /\ use_virtio b' = 0 /\
     forall i, block_data b' i = if decide (i = sector) then buffer else block_data b i).
Proof.
  intros Hok Hv Hs Hb. unfold sector_wf in Hb.
  assert (block_sector_count b = BLOCK_RAM_SECTORS) as Hn by (unfold block_sector_count; by rewrite Hv).
  split.
  - pose proof (block_read_law b sector buffer 1 Hok) as Hlaw.
    destruct (block_read sector (Some buffer) 1 b) as [[res buf] b'].
    destruct Hlaw as ((Hok' & _ & Hd & _ & _ & Hout) & Hv' & Hne & Hres & _); [blia|lia|blia|].
    rewrite (Hres Hv ltac:(blia)) in *. exists b'. split_and!; [|done|congruence|done].
    destruct buf as [buf|]; [|done]. cbn [from_option id] in Hout. rewrite Hout by done. do 2 f_equal.
    change (Z.to_nat 1) with 1%nat. rewrite sectors_from_S, app_nil_r.
    rewrite write_at_full; [done|]. rewrite Hb. symmetry. apply block_data_wf; [done|]. rewrite Hn. done.
  - pose proof (block_write_law b sector buffer 1 Hok) as Hlaw.
    destruct (block_write sector (Some buffer) 1 b) as [res b'].
    destruct Hlaw as ((Hok' & _ & Hframe & _ & Hd) & Hv' & Hres & _); [blia|lia|blia|].
    rewrite (Hres Hv ltac:(blia)) in *. exists b'. split_and!; [done|done|congruence|].
    intros i. case_decide as Hi; [|apply Hframe; lia]. subst i. rewrite Hd by lia.
    rewrite Z.sub_diag. unfold buffer_sector. rewrite Z.mul_0_l, drop_0. by rewrite take_ge by lia.
Qed.

(** A fresh block layer on a machine without a virtio disk. *)
Definition ram_block : block unit := block_init (Block [] (BlockStats 0 0 0 0 0 0) 0 tt).

Lemma ram_block_ok : block_ok ram_block.
Proof.
  split; [reflexivity| |exact I]. cbn [ram_disk ram_block block_init virtio_blk_init no_virtio truth negb Z.eqb].
  apply Forall_replicate. reflexivity.
Qed.

Lemma test_pattern_wf : sector_wf test_pattern.
Proof. reflexivity. Qed.

(** On the RAM disk [block_self_test] passes, whatever the local arrays hold
    before, and is not destructive: every sector of the disk has its contents back. *)
Theorem block_self_test_restores {V} `{VirtioBlk V} (b : block V) (stack : list Z) :
  block_ok b -> use_virtio b = 0 -> sector_wf stack ->
  let (passed, b') := block_self_test stack b in
  passed = 1 /\ self_test_passed (stats b') = 1 /\ block_ok b' /\
  forall i, block_data b' i = block_data b i.
Proof.
  intros Hok Hv Hst. unfold block_self_test.
  assert (block_sector_count b = BLOCK_RAM_SECTORS) as Hn by (unfold block_sector_count; by rewrite Hv).
  rewrite Hn. change (BLOCK_RAM_SECTORS -! 1) with 127.
  assert (0 <= 127 < BLOCK_RAM_SECTORS) as Hr by blia.
  destruct (proj1 (ram_transfer b 127 stack Hok Hv Hr Hst)) as (b1 & -> & Hok1 & Hv1 & Hd1).
  cbn [truth negb Z.eqb].
  destruct (proj2 (ram_transfer b1 127 test_pattern Hok1 Hv1 Hr test_pattern_wf)) as (b2 & -> & Hok2 & Hv2 & Hd2).
  cbn [truth negb Z.eqb].
  destruct (proj1 (ram_transfer b2 127 stack Hok2 Hv2 Hr Hst)) as (b3 & -> & Hok3 & Hv3 & Hd3).
  cbn [truth negb orb Z.eqb from_option id].
  rewrite Hd2, decide_True, compare_loop_same by done.
  assert (sector_wf (block_data b 127)) as Hsv by (apply block_data_wf; [done|by rewrite Hn]).
  destruct (proj2 (ram_transfer b3 127 _ Hok3 Hv3 Hr Hsv)) as (b4 & -> & Hok4 & Hv4 & Hd4).
  cbn [truth negb Z.eqb]. split_and!; [done|done|by apply block_ok_set_stats|].
  intros i. change (block_data (set_stats _ b4) i) with (block_data b4 i). rewrite Hd4.
  case_decide as Hi; [by subst i|]. rewrite Hd3, Hd2. case_decide; [done|]. by rewrite Hd1.
Qed.

Lemma block_self_test_restores_witness :
  fst (block_self_test (replicate 512 7) ram_block) = 1.
Proof.
  pose proof (block_self_test_restores ram_block (replicate 512 7) ram_block_ok eq_refl eq_refl) as H.
  destruct (block_self_test (replicate 512 7) ram_block) as [passed b']. exact (proj1 H).
Defined.

(** A sector pattern for the witnesses. *)
Definition sample_sector : list Z := replicate 512 0xAB.

Lemma block_write_read_witness :
  let b1 := snd (block_write 3 (Some sample_sector) 1 ram_block) in
  snd (fst (block_read 3 (Some (replicate 512 0)) 1 b1)) = Some sample_sector.
Proof.
  set (b1 := snd (block_write 3 (Some sample_sector) 1 ram_block)). cbv zeta.
  set (r := block_read 3 (Some (replicate 512 0)) 1 b1).
  assert (snd (fst r) = Some (default [] (snd (fst r)))) as Hsome by (vm_compute; reflexivity).
  rewrite Hsome. apply (f_equal Some).
  destruct (block_write_read ram_block 3 sample_sector (replicate 512 0) 1 b1
              (default [] (snd (fst r))) (snd r) ram_block_ok) as [Hout _].
  - lia.
  - lia.
  - vm_compute. discriminate.
  - vm_compute. discriminate.
  - vm_compute. reflexivity.
  - vm_compute. reflexivity.
  - rewrite Hout. reflexivity.
Defined.

Lemma block_bounds_witness :
  fst (fst (block_read 127 (Some sample_sector) 2 ram_block)) = 0 /\
  fst (fst (block_read 127 (Some sample_sector) 1 ram_block)) = 1.
Proof.
  split.
  - destruct (block_bounds ram_block 127 (Some sample_sector) 2 ram_block_ok) as [Hbad _]; [lia|lia|].
    destruct Hbad as [Hr _]; [|by rewrite Hr].
    intros (_ & _ & H). change (block_sector_count ram_block) with 128 in H. lia.
  - destruct (block_bounds ram_block 127 (Some sample_sector) 1 ram_block_ok) as [_ Hgood]; [lia|lia|].
    apply Hgood; [|reflexivity]. split; [by eexists|]. change (block_sector_count ram_block) with 128. lia.
Defined.
