(* ===== verification/Sfs.v ===== *)
(** * SaturnFS, the on-disk file system ([kernel/fs/sfs.c])

    A superblock (sector 0), one directory sector (sector 1) and eight files of eight
    sectors each. The structures are kept as records in memory and as their little
    endian bytes on disk, with the layout of the C structs; the block device is the
    interface [BlockDevice]. The report [sfs_dump] is in [Reports]. *)

From S2P Require Import Prelude BlockDevice Block.

(** ** Definitions *)

Definition SFS_MAX_FILES : Z := 8.
Definition SFS_MAX_PATH : Z := 44.
Definition SFS_FILE_SECTORS : Z := 8.
Definition SFS_MAX_FILE_SIZE : Z := SFS_FILE_SECTORS * 512.
Definition SFS_MAGIC : Z := 0x53465331.
Definition SFS_VERSION : Z := 1.
Definition SFS_SUPER_SECTOR : Z := 0.
Definition SFS_DIRECTORY_SECTOR : Z := 1.
Definition SFS_DATA_START : Z := 2.
Definition SFS_ENTRY_USED : Z := 1.

Record sfs_superblock := SfsSuper {
  magic : Z;
  version : Z;
  sector_size : Z;
  total_sectors : Z;
  max_files : Z;
  data_start : Z;
  s_reserved : list Z;
}.

Record sfs_entry := SfsEntry {
  path : list Z;
  start_sector : Z;
  size : Z;
  e_checksum : Z;
  flags : Z;
}.

Record sfs_directory := SfsDirectory {
  entries : list sfs_entry;
  d_reserved : list Z;
}.

(** *** The structs as bytes *)

Definition super_bytes (s : sfs_superblock) : list Z :=
  bytes32 (magic s) ++ bytes32 (version s) ++ bytes32 (sector_size s) ++
  bytes32 (total_sectors s) ++ bytes32 (max_files s) ++ bytes32 (data_start s) ++ s_reserved s.

Definition super_of_bytes (b : list Z) : sfs_superblock :=
  SfsSuper (read32 b) (read32 (drop 4 b)) (read32 (drop 8 b)) (read32 (drop 12 b))
    (read32 (drop 16 b)) (read32 (drop 20 b)) (take 488 (drop 24 b)).

Definition entry_bytes (e : sfs_entry) : list Z :=
  path e ++ bytes32 (start_sector e) ++ bytes32 (size e) ++ bytes32 (e_checksum e) ++ bytes32 (flags e).

Definition entry_of_bytes (b : list Z) : sfs_entry :=
  SfsEntry (take 44 b) (read32 (drop 44 b)) (read32 (drop 48 b)) (read32 (drop 52 b)) (read32 (drop 56 b)).

Definition directory_bytes (d : sfs_directory) : list Z :=
  concat (entry_bytes <$> entries d) ++ d_reserved d.

Definition directory_of_bytes (b : list Z) : sfs_directory :=
  SfsDirectory ((fun i => entry_of_bytes (drop (60 * i) b)) <$> seq 0 (Z.to_nat SFS_MAX_FILES))
    (take 32 (drop 480 b)).

(** *** Operations *)

(** The static variables and the device below. *)
Record sfs (B : Type) := Sfs {
  superblock : sfs_superblock;
  directory : sfs_directory;
  io_buffer : list Z;
  mounted : Z;
  dev : B;
}.
Arguments Sfs {B}. Arguments superblock {B}. Arguments directory {B}.
Arguments io_buffer {B}. Arguments mounted {B}. Arguments dev {B}.

Definition path_valid (path : option (list Z)) : bool := abs_path_valid SFS_MAX_PATH path.

Definition checksum (data : list Z) (size : Z) : Z :=
  foldl checksum_step 0 (take (Z.to_nat size) data).

(** The memory from [directory.entries[i].path] on. *)
Definition entry_chars (d : sfs_directory) (i : nat) : list Z := drop (60 * i) (directory_bytes d).

Definition entry_used (e : sfs_entry) : bool := truth (Z.land (flags e) SFS_ENTRY_USED).

(** The first entry of [es], from index [i] on, that is in use under the name [p]. *)
Fixpoint find_loop (d : sfs_directory) (p : list Z) (es : list sfs_entry) (i : nat) : option nat :=
  match es with
  | [] => None
  | e :: es =>
      if entry_used e && path_equals (entry_chars d i) p then Some i else find_loop d p es (S i)
  end.

Definition find_entry (p : list Z) (d : sfs_directory) : option nat := find_loop d p (entries d) 0.

Fixpoint free_loop (es : list sfs_entry) (i : nat) : option nat :=
  match es with
  | [] => None
  | e :: es => if negb (entry_used e) then Some i else free_loop es (S i)
  end.

(** [io_buffer[i] = i < size ? data[i] : 0] for every [i]. *)
Definition fill_buffer (data : list Z) (size : Z) : list Z :=
  (fun i => if Z.of_nat i <? size then default 0 (data !! i) else 0)
    <$> seq 0 (Z.to_nat SFS_MAX_FILE_SIZE).

Definition set_entry (i : nat) (e : sfs_entry) (d : sfs_directory) : sfs_directory :=
  SfsDirectory (<[i := e]> (entries d)) (d_reserved d).

Definition blank_entry (i : nat) (old : sfs_entry) : sfs_entry :=
  SfsEntry (<[0%nat := 0]> (path old)) (u32 (SFS_DATA_START + Z.of_nat i * SFS_FILE_SECTORS)) 0 0 0.

Section ops.
Context {B : Type} `{BlockDevice B}.
Implicit Type s : sfs B.

Definition set_dev (b : B) s : sfs B := Sfs (superblock s) (directory s) (io_buffer s) (mounted s) b.
Definition set_mounted (m : Z) s : sfs B := Sfs (superblock s) (directory s) (io_buffer s) m (dev s).
Definition set_io (buf : list Z) s : sfs B := Sfs (superblock s) (directory s) buf (mounted s) (dev s).
Definition set_directory (d : sfs_directory) s : sfs B :=
  Sfs (superblock s) d (io_buffer s) (mounted s) (dev s).
Definition set_super (sb : sfs_superblock) s : sfs B :=
  Sfs sb (directory s) (io_buffer s) (mounted s) (dev s).

Definition write_directory s : Z * sfs B :=
  let (res, b) := bd_write SFS_DIRECTORY_SECTOR (directory_bytes (directory s)) 1 (dev s) in
  (res, set_dev b s).

Definition sfs_format s : Z * sfs B :=
  let required := SFS_DATA_START + SFS_MAX_FILES * SFS_FILE_SECTORS in
  if bd_sector_count (dev s) <? required then (0, set_mounted 0 s) else
  let s := set_super (SfsSuper SFS_MAGIC SFS_VERSION 512 (u32 (bd_sector_count (dev s)))
                        SFS_MAX_FILES SFS_DATA_START (replicate 488 0)) s in
  let s := set_directory (SfsDirectory (imap blank_entry (entries (directory s))) (replicate 32 0)) s in
  let (res, b) := bd_write SFS_SUPER_SECTOR (super_bytes (superblock s)) 1 (dev s) in
  let s := set_dev b s in
  if truth res then
    let (res, s) := write_directory s in
    let m := c_int (truth res) in (m, set_mounted m s)
  else (0, set_mounted 0 s).

(** [stack] is what the local superblock holds before it is read. *)
Definition sfs_init (stack : list Z) s : sfs B :=
  let s := set_mounted 0 s in
  let '(ok, buf, b) := bd_read SFS_SUPER_SECTOR stack 1 (dev s) in
  let s := set_dev b s in
  if negb (truth ok) then s else
  let disk_super := super_of_bytes buf in
  if (magic disk_super =? 0) && (version disk_super =? 0) then snd (sfs_format s) else
  if negb (magic disk_super =? SFS_MAGIC) || negb (version disk_super =? SFS_VERSION) ||
     negb (sector_size disk_super =? 512) || negb (max_files disk_super =? SFS_MAX_FILES) ||
     negb (data_start disk_super =? SFS_DATA_START) ||
     (total_sectors disk_super >? bd_sector_count (dev s)) then s else
  let '(ok, buf, b) := bd_read SFS_DIRECTORY_SECTOR (directory_bytes (directory s)) 1 (dev s) in
  let s := set_dev b (set_directory (directory_of_bytes buf) s) in
  if negb (truth ok) then s else
  set_mounted 1 (set_super disk_super s).

Definition sfs_write_file (p : option (list Z)) (data : option (list Z)) (sz : Z) s : Z * sfs B :=
  if negb (truth (mounted s)) || negb (path_valid p) ||
     (truth sz && negb (bool_decide (is_Some data))) || (sz >? SFS_MAX_FILE_SIZE) then (0, s) else
  let p := default [] p in
  let data := default [] data in
  let entry := match find_entry p (directory s) with
               | Some i => Some i
               | None => free_loop (entries (directory s)) 0
               end in
  match entry ≫= (fun i => (i,.) <$> entries (directory s) !! i) with
  | None => (0, s)
  | Some (i, e) =>
      let s := set_io (fill_buffer data sz) s in
      let (res, b) := bd_write (start_sector e) (io_buffer s) SFS_FILE_SECTORS (dev s) in
      let s := set_dev b s in
      if negb (truth res) then (0, s) else
      let e := SfsEntry (store_cstr (path e) p) (start_sector e) (u32 sz) (checksum data sz)
                 SFS_ENTRY_USED in
      write_directory (set_directory (set_entry i e (directory s)) s)
  end.

Definition sfs_read_file (p : list Z) (data : option (list Z)) (capacity : Z) s :
    Z * option (list Z) * sfs B :=
  if negb (truth (mounted s)) || negb (bool_decide (is_Some data)) then (-1, data, s) else
  match find_entry p (directory s) ≫= (fun i => entries (directory s) !! i) with
  | None => (-1, data, s)
  | Some e =>
      if (size e >? capacity) || (size e >? SFS_MAX_FILE_SIZE) then (-1, data, s) else
      let '(ok, buf, b) := bd_read (start_sector e) (io_buffer s) SFS_FILE_SECTORS (dev s) in
      let s := set_dev b (set_io buf s) in
      if negb (truth ok) || negb (checksum (io_buffer s) (size e) =? e_checksum e) then (-1, data, s)
      else (size e, (fun d => copy_loop d 0 (take (Z.to_nat (size e)) (io_buffer s))) <$> data, s)
  end.

Definition sfs_ready s : Z := mounted s.
End ops.

(** ** Encodings *)

Ltac fields :=
  repeat (first [ rewrite (drop_field 4) by (first [done | lia])
                | rewrite (drop_field 44) by (first [done | lia]) ];
          cbn [Nat.sub]; rewrite ?drop_0);
  rewrite ?drop_0.

Record super_wf (s : sfs_superblock) : Prop := {
  sw_fields : Forall is_u32 [magic s; version s; sector_size s; total_sectors s; max_files s; data_start s];
  sw_reserved : length (s_reserved s) = 488%nat;
}.

Lemma length_super_bytes s : super_wf s -> length (super_bytes s) = 512%nat.
Proof. intros [_ H]. unfold super_bytes. rewrite !length_app, H. done. Qed.

Lemma super_of_super_bytes s : super_wf s -> super_of_bytes (super_bytes s) = s.
Proof.
  intros [Hf Hr]. repeat apply Forall_cons in Hf as [? Hf]. unfold super_of_bytes, super_bytes.
  fields. rewrite !read32_bytes32 by done. rewrite take_ge by lia. by destruct s.
Qed.

Record entry_wf (e : sfs_entry) : Prop := {
  ew_path : length (path e) = 44%nat;
  ew_fields : Forall is_u32 [start_sector e; size e; e_checksum e; flags e];
}.

Lemma length_entry_bytes e : entry_wf e -> length (entry_bytes e) = 60%nat.
Proof. intros [Hp _]. unfold entry_bytes. rewrite !length_app, Hp. done. Qed.

Lemma entry_of_entry_bytes e rest : entry_wf e -> entry_of_bytes (entry_bytes e ++ rest) = e.
Proof.
  intros [Hp Hf]. repeat apply Forall_cons in Hf as [? Hf]. unfold entry_of_bytes, entry_bytes.
  rewrite <- !(assoc_L (++)). fields. rewrite !read32_bytes32 by done.
  rewrite take_app_le, take_ge by lia. by destruct e.
Qed.

Record directory_wf (d : sfs_directory) : Prop := {
  dw_length : length (entries d) = 8%nat;
  dw_entries : Forall entry_wf (entries d);
  dw_reserved : length (d_reserved d) = 32%nat;
}.

Lemma drop_entries es r i : Forall entry_wf es ->
  (i <= length es)%nat ->
  drop (60 * i) (concat (entry_bytes <$> es) ++ r) = concat (entry_bytes <$> drop i es) ++ r.
Proof.
  intros Hes. revert i. induction Hes as [|e es He _ IH]; intros [|i] Hi; simpl in Hi |- *; [done|lia|done|].
  rewrite <- (assoc_L (++)), (drop_app_ge _ _ _); rewrite (length_entry_bytes e He); [|lia].
  rewrite <- IH by lia. f_equal. lia.
Qed.

Lemma entry_chars_lookup d i e : directory_wf d -> entries d !! i = Some e ->
  exists rest, entry_chars d i = entry_bytes e ++ rest.
Proof.
  intros [Hl He _] Hi. unfold entry_chars, directory_bytes.
  rewrite drop_entries; [|done|apply lookup_lt_Some in Hi; lia].
  rewrite (drop_S _ _ _ Hi). simpl. rewrite <- (assoc_L (++)). eauto.
Qed.

Lemma length_directory_bytes d : directory_wf d -> length (directory_bytes d) = 512%nat.
Proof.
  intros [Hl He Hr]. unfold directory_bytes. rewrite length_app, Hr.
  enough (length (concat (entry_bytes <$> entries d)) = (60 * length (entries d))%nat) by lia.
  clear Hl Hr. induction He as [|e es He _ IH]; [done|].
  rewrite fmap_cons. cbn [concat length]. rewrite length_app, length_entry_bytes, IH by done. lia.
Qed.

Lemma directory_of_directory_bytes d : directory_wf d -> directory_of_bytes (directory_bytes d) = d.
Proof.
  intros Hd. pose proof Hd as [Hl He Hr].
  assert (drop 480 (directory_bytes d) = d_reserved d) as Hres.
  { unfold directory_bytes. change 480%nat with (60 * 8)%nat. rewrite drop_entries by (done || lia).
    by rewrite <- Hl, drop_all. }
  unfold directory_of_bytes. rewrite Hres, take_ge by lia. destruct d as [es r].
  apply (f_equal (fun es => SfsDirectory es r)). cbn [entries d_reserved] in *.
  change (Z.to_nat SFS_MAX_FILES) with 8%nat. apply list_eq. intros i. rewrite list_lookup_fmap.
  destruct (es !! i) as [e|] eqn:Hi.
  - rewrite lookup_seq_lt by (apply lookup_lt_Some in Hi; lia). cbn [fmap option_fmap option_map].
    destruct (entry_chars_lookup _ _ _ Hd Hi) as [rest Hc]. unfold entry_chars in Hc.
    rewrite Nat.add_0_l, Hc. rewrite entry_of_entry_bytes; [done|]. by eapply (Forall_lookup_1 _ _ _ _ He).
  - rewrite lookup_seq_ge; [done|]. apply lookup_ge_None in Hi. lia.
Qed.

(** ** Paths and checksums *)

Lemma path_valid_spec p : path_valid (Some p) = true <->
  p !! 0%nat = Some 47 /\ 1 < Z.of_nat (length p) < SFS_MAX_PATH.
Proof. apply abs_path_valid_spec. unfold SFS_MAX_PATH. lia. Qed.

Lemma checksum_u32 data n : Forall is_byte data -> is_u32 (checksum data n).
Proof. intros Hd. apply checksum_fold_u32. by apply Forall_take. Qed.

Lemma checksum_take data n m : n <= m -> checksum (take (Z.to_nat m) data) n = checksum data n.
Proof. intros H. unfold checksum. rewrite take_take. do 2 f_equal. lia. Qed.

Lemma length_fill_buffer data n : length (fill_buffer data n) = 4096%nat.
Proof. unfold fill_buffer. by rewrite length_fmap, length_seq. Qed.

Lemma take_fill_buffer data n : n <= SFS_MAX_FILE_SIZE -> n <= Z.of_nat (length data) ->
  take (Z.to_nat n) (fill_buffer data n) = take (Z.to_nat n) data.
Proof.
  unfold SFS_MAX_FILE_SIZE, SFS_FILE_SECTORS. intros Hn Hl. apply list_eq. intros i.
  destruct (decide (i < Z.to_nat n)%nat) as [Hi|Hi].
  - rewrite !lookup_take_lt by done. unfold fill_buffer. rewrite list_lookup_fmap, lookup_seq_lt by
      (unfold SFS_MAX_FILE_SIZE, SFS_FILE_SECTORS; lia).
    simpl. rewrite (proj2 (Z.ltb_lt _ _)) by lia.
    destruct (lookup_lt_is_Some_2 data i) as [x Hx]; [lia|]. by rewrite Hx.
  - rewrite !lookup_take_ge by lia. done.
Qed.

(** ** The file system as a map from paths to contents *)

(** The sectors of slot [i]. *)
Definition slot_sector (i : nat) : Z := SFS_DATA_START + Z.of_nat i * SFS_FILE_SECTORS.
Definition slot_data (data : Z -> list Z) (i : nat) : list Z :=
  sectors_from data (slot_sector i) (Z.to_nat SFS_FILE_SECTORS).

(** What the superblock must say for [sfs_init] to mount a device of [n] sectors. *)
Definition super_good (n : Z) (s : sfs_superblock) : Prop :=
  magic s = SFS_MAGIC /\ version s = SFS_VERSION /\ sector_size s = 512 /\
  max_files s = SFS_MAX_FILES /\ data_start s = SFS_DATA_START /\ total_sectors s <= n.

Record entry_inv (data : Z -> list Z) (i : nat) (e : sfs_entry) : Prop := {
  ei_wf : entry_wf e;
  ei_start : start_sector e = slot_sector i;
  ei_name : entry_used e = true -> (length (cstr (path e)) < 44)%nat;
  ei_size : entry_used e = true -> size e <= SFS_MAX_FILE_SIZE;
  ei_sum : entry_used e = true -> checksum (slot_data data i) (size e) = e_checksum e;
}.

(** A directory whose entries describe the sectors [data]. *)
Record dir_inv (data : Z -> list Z) (d : sfs_directory) : Prop := {
  di_length : length (entries d) = 8%nat;
  di_reserved : length (d_reserved d) = 32%nat;
  di_entries : forall i e, entries d !! i = Some e -> entry_inv data i e;
  di_unique : forall i j e e', entries d !! i = Some e -> entries d !! j = Some e' ->
    entry_used e = true -> entry_used e' = true -> cstr (path e) = cstr (path e') -> i = j;
}.

Lemma dir_inv_wf data d : dir_inv data d -> directory_wf d.
Proof.
  intros [Hl Hr He _]. split; [done| |done]. apply Forall_lookup. intros i e Hi. by eapply He.
Qed.

(** The file [p] according to the directory and the sectors. *)
Definition dir_file (data : Z -> list Z) (d : sfs_directory) (p : list Z) : option (list Z) :=
  i ← find_entry p d;
  e ← entries d !! i;
  Some (take (Z.to_nat (size e)) (slot_data data i)).

Definition named (p : list Z) (e : sfs_entry) : Prop := entry_used e = true /\ cstr (path e) = p.

Section lookups.
Context (data : Z -> list Z) (d : sfs_directory) (Hinv : dir_inv data d).

Lemma find_entry_loop_spec p es k :
  cstring p -> drop k (entries d) = es ->
  match find_loop d p es k with
  | Some i => exists e, entries d !! i = Some e /\ named p e
  | None => forall i e, (k <= i)%nat -> entries d !! i = Some e -> ~ named p e
  end.
Proof using Hinv.
  intros Hp. revert k. induction es as [|e es IH]; intros k Hes; simpl.
  - intros i e Hi He. apply lookup_lt_Some in He. apply (f_equal length) in Hes.
    rewrite length_drop in Hes. simpl in Hes. lia.
  - assert (entries d !! k = Some e) as Hk.
    { rewrite <- (Nat.add_0_r k), <- lookup_drop, Hes. done. }
    assert (drop (S k) (entries d) = es) as Hes'.
    { rewrite <- Nat.add_1_r, <- drop_drop, Hes. done. }
    destruct (entry_chars_lookup d k e (dir_inv_wf _ _ Hinv) Hk) as [rest Hc].
    destruct (di_entries _ _ Hinv k e Hk) as [[Hlen _] _ Hname _ _].
    assert (entry_used e = true -> path_equals (entry_chars d k) p = bool_decide (cstr (path e) = p)) as Heq.
    { intros Hu. rewrite path_equals_spec, Hc by done. unfold entry_bytes. rewrite <- !(assoc_L (++)).
      rewrite cstr_app_short; [done|]. rewrite Hlen. auto. }
    destruct (entry_used e) eqn:Hu; simpl.
    + rewrite Heq by done. case_bool_decide as Hcp; [by exists e|].
      specialize (IH (S k) Hes'). destruct (find_loop d p es (S k)); [done|].
      intros i e' Hi He' Hn. destruct (decide (i = k)) as [->|]; [|by apply (IH i e'); [lia|..]].
      destruct Hn. congruence.
    + specialize (IH (S k) Hes'). destruct (find_loop d p es (S k)); [done|].
      intros i e' Hi He' Hn. destruct (decide (i = k)) as [->|]; [|by apply (IH i e'); [lia|..]].
      destruct Hn. congruence.
Qed.

Lemma find_entry_Some p i : cstring p ->
  find_entry p d = Some i <-> exists e, entries d !! i = Some e /\ named p e.
Proof using Hinv.
  intros Hp. pose proof (find_entry_loop_spec p (entries d) 0 Hp eq_refl) as Hf.
  unfold find_entry. destruct (find_loop d p (entries d) 0) as [j|].
  - destruct Hf as (e & He & [Hu Hn]). split.
    + intros [= <-]. by exists e.
    + intros (e' & He' & [Hu' Hn']). f_equal.
      eapply (di_unique _ _ Hinv j i e e'); congruence.
  - split; [done|]. intros (e & He & Hn). destruct (Hf i e ltac:(lia) He Hn).
Qed.

Lemma find_entry_None p : cstring p ->
  find_entry p d = None <-> forall i e, entries d !! i = Some e -> ~ named p e.
Proof using Hinv.
  intros Hp. split.
  - intros Hn i e He Hnm. assert (find_entry p d = Some i) by (apply find_entry_Some; eauto). congruence.
  - intros Hno. destruct (find_entry p d) as [i|] eqn:E; [|done].
    apply find_entry_Some in E as (e & He & Hn); [|done]. destruct (Hno i e He Hn).
Qed.

Lemma free_loop_spec es k : drop k (entries d) = es ->
  match free_loop es k with
  | Some i => exists e, entries d !! i = Some e /\ entry_used e = false
  | None => forall i e, (k <= i)%nat -> entries d !! i = Some e -> entry_used e = true
  end.
Proof.
  revert k. induction es as [|e es IH]; intros k Hes; simpl.
  - intros i e Hi He. apply lookup_lt_Some in He. apply (f_equal length) in Hes.
    rewrite length_drop in Hes. simpl in Hes. lia.
  - assert (entries d !! k = Some e) as Hk.
    { rewrite <- (Nat.add_0_r k), <- lookup_drop, Hes. done. }
    assert (drop (S k) (entries d) = es) as Hes'.
    { rewrite <- Nat.add_1_r, <- drop_drop, Hes. done. }
    destruct (entry_used e) eqn:Hu; simpl; [|by exists e].
    specialize (IH (S k) Hes'). destruct (free_loop es (S k)); [done|].
    intros i e' Hi He'. destruct (decide (i = k)) as [->|]; [congruence|]. apply (IH i e'); [lia|done].
Qed.
End lookups.

Lemma slot_data_length data i :
  (forall k, slot_sector i <= k < slot_sector i + SFS_FILE_SECTORS -> sector_wf (data k)) ->
  length (slot_data data i) = 4096%nat.
Proof.
  intros Hd. unfold slot_data. rewrite length_sectors_from; [done|].
  intros k Hk. apply Hd. unfold SFS_FILE_SECTORS in *. lia.
Qed.

(** Writing slot [i] does not touch the others, nor the metadata sectors. *)
Lemma slot_data_other data data' i j : i ≠ j ->
  (forall k, 2 <= k -> ~ (slot_sector i <= k < slot_sector i + SFS_FILE_SECTORS) -> data' k = data k) ->
  slot_data data' j = slot_data data j.
Proof.
  intros Hne Hf. apply sectors_from_ext. intros k Hk. apply Hf;
    unfold slot_sector, SFS_DATA_START, SFS_FILE_SECTORS in *; lia.
Qed.

Lemma slot_data_buffer data i buf : length buf = 4096%nat ->
  (forall k, slot_sector i <= k < slot_sector i + SFS_FILE_SECTORS ->
     data k = buffer_sector buf (k - slot_sector i)) ->
  slot_data data i = buf.
Proof.
  intros Hl Hd. unfold slot_data.
  rewrite (sectors_from_ext _ (fun k => buffer_sector buf (k - slot_sector i)))
    by (intros k Hk; apply Hd; unfold SFS_FILE_SECTORS in *; lia).
  pose proof (sectors_from_buffer buf (slot_sector i) 0 8) as Hb. rewrite Z.add_0_r in Hb.
  change (Z.to_nat SFS_FILE_SECTORS) with 8%nat. rewrite Hb by (rewrite ?Hl; unfold BLOCK_SECTOR_SIZE; lia).
  rewrite Z.mul_0_l, drop_0, take_ge; [done|]. rewrite Hl. done.
Qed.

(** Only the slots' sectors matter. *)
Lemma dir_inv_ext data data' d :
  (forall j, slot_data data' j = slot_data data j) -> dir_inv data d ->
  dir_inv data' d /\ forall p, dir_file data' d p = dir_file data d p.
Proof.
  intros Hs [Hl Hr He Hu]. split.
  - split; [done..| |done]. intros i e Hi. destruct (He i e Hi). split; try done. by rewrite Hs.
  - intros p. unfold dir_file. destruct (find_entry p d) as [i|]; simpl; [|done]. by rewrite Hs.
Qed.

(** The entry that [sfs_write_file] stores. *)
Definition file_entry (e : sfs_entry) (p dat : list Z) (sz : Z) : sfs_entry :=
  SfsEntry (store_cstr (path e) p) (start_sector e) (u32 sz) (checksum dat sz) SFS_ENTRY_USED.

(** The slot it chooses: the file's own, or one that is not in use. *)
Definition slot_for (d : sfs_directory) (p : list Z) (i : nat) : Prop :=
  find_entry p d = Some i \/
  (find_entry p d = None /\ exists e, entries d !! i = Some e /\ entry_used e = false).

Section update.
Context (data data' : Z -> list Z) (d : sfs_directory) (Hinv : dir_inv data d).
Context (p dat : list Z) (sz : Z) (i : nat) (e : sfs_entry).
Context (Hp : cstring p) (Hpl : (length p < 44)%nat) (Hdat : Forall is_byte dat).
Context (Hsz : 0 <= sz <= SFS_MAX_FILE_SIZE) (Hsz' : sz <= Z.of_nat (length dat)).
Context (He : entries d !! i = Some e) (Hslot : slot_for d p i).
Context (Hi : slot_data data' i = fill_buffer dat sz).
Context (Hother : forall j, j ≠ i -> slot_data data' j = slot_data data j).

Let d' := set_entry i (file_entry e p dat sz) d.

Lemma file_entry_named : named p (file_entry e p dat sz).
Proof using All. split; [done|]. simpl. by rewrite cstr_store_cstr. Qed.

Lemma file_size_u32 : u32 sz = sz.
Proof using All. apply u32_small. unfold SFS_MAX_FILE_SIZE, SFS_FILE_SECTORS in *. lia. Qed.

Lemma fill_checksum : checksum (fill_buffer dat sz) sz = checksum dat sz.
Proof using All. unfold checksum. by rewrite take_fill_buffer by lia. Qed.

Lemma lookup_update j f : entries d' !! j = Some f <->
  (j = i /\ f = file_entry e p dat sz) \/ (j ≠ i /\ entries d !! j = Some f).
Proof using All.
  simpl. destruct (decide (j = i)) as [->|Hne].
  - rewrite list_lookup_insert_eq by (by eapply lookup_lt_Some). naive_solver.
  - rewrite list_lookup_insert_ne by done. naive_solver.
Qed.

(** No other slot holds the file. *)
Lemma slot_for_other j f : entries d !! j = Some f -> j ≠ i -> ~ named p f.
Proof using All.
  intros Hj Hne Hn. assert (find_entry p d = Some j) as Hf by (eapply find_entry_Some; eauto).
  destruct Hslot as [Hs|[Hs _]]; congruence.
Qed.

Lemma update_inv : dir_inv data' d'.
Proof using All.
  destruct Hinv as [Hl Hr Hent Huniq]. split.
  - simpl. by rewrite length_insert.
  - done.
  - intros j f [[-> ->]|[Hne Hj]]%lookup_update.
    + destruct (Hent i e He) as [[Hlen Hf] Hst _ _ _]. split; simpl.
      * split; simpl; [unfold store_cstr; rewrite length_write_at; [done|rewrite length_app; simpl; lia]|].
        apply Forall_cons in Hf as [? _]. repeat (apply Forall_cons; split); try done.
        -- rewrite file_size_u32. unfold is_u32, SFS_MAX_FILE_SIZE, SFS_FILE_SECTORS in *. lia.
        -- by apply checksum_u32.
      * done.
      * intros _. rewrite cstr_store_cstr by done. done.
      * intros _. rewrite file_size_u32. lia.
      * intros _. rewrite file_size_u32, Hi. apply fill_checksum.
    + destruct (Hent j f Hj) as [? ? ? ? Hsum]. split; try done. by rewrite Hother.
  - intros j k f g [[-> ->]|[Hnj Hj]]%lookup_update [[-> ->]|[Hnk Hk]]%lookup_update Hu Hu' Hc.
    + done.
    + destruct (slot_for_other k g Hk Hnk). split; [done|]. rewrite <- Hc. apply file_entry_named.
    + destruct (slot_for_other j f Hj Hnj). split; [done|]. rewrite Hc. apply file_entry_named.
    + eauto.
Qed.

Lemma update_file q : cstring q ->
  dir_file data' d' q = if decide (q = p) then Some (take (Z.to_nat sz) dat) else dir_file data d q.
Proof using All.
  intros Hq. pose proof update_inv as Hinv'. unfold dir_file. case_decide as Hqp.
  - subst q. assert (find_entry p d' = Some i) as ->.
    { eapply find_entry_Some; [done..|]. exists (file_entry e p dat sz). split; [|apply file_entry_named].
      apply lookup_update. by left. }
    simpl. rewrite list_lookup_insert_eq by (by eapply lookup_lt_Some). simpl.
    rewrite file_size_u32, Hi, take_fill_buffer by lia. done.
  - destruct (find_entry q d) as [j|] eqn:Hf.
    + apply (find_entry_Some data) in Hf as (f & Hj & Hn); [|done..].
      assert (j ≠ i) as Hne.
      { intros ->. rewrite He in Hj. injection Hj as <-. destruct Hslot as [Hs|(_ & e' & He' & Hu)].
        - apply (find_entry_Some data) in Hs as (e' & He' & [_ Hn']); [|done..].
          destruct Hn as [_ Hn]. congruence.
        - destruct Hn as [Hu' _]. congruence. }
      assert (find_entry q d' = Some j) as ->.
      { eapply find_entry_Some; [done..|]. exists f. split; [|done]. apply lookup_update. by right. }
      simpl. rewrite list_lookup_insert_ne, Hj by done. simpl. by rewrite Hother.
    + assert (find_entry q d' = None) as ->; [|done].
      eapply find_entry_None; [done..|]. intros j f [[-> ->]|[Hne Hj]]%lookup_update Hn.
      * destruct Hn as [_ Hn], file_entry_named as [_ Hn']. congruence.
      * eapply (find_entry_None data d Hinv q Hq); eauto.
Qed.
End update.

Lemma buffer_sector_whole buf : sector_wf buf -> buffer_sector buf 0 = buf.
Proof. intros Hb. unfold buffer_sector. rewrite Z.mul_0_l, drop_0, take_ge; [done|]. by rewrite Hb. Qed.

Section spec.
Context {B : Type} `{BlockDevice B}.
Implicit Type s : sfs B.

Record sfs_inv s : Prop := {
  si_mounted : mounted s = 1;
  si_dev : bd_ok (dev s);
  si_count : 66 <= bd_sector_count (dev s);
  si_dir : dir_inv (bd_data (dev s)) (directory s);
  si_io : length (io_buffer s) = 4096%nat;
  si_disk_dir : bd_data (dev s) SFS_DIRECTORY_SECTOR = directory_bytes (directory s);
  si_disk_super : super_good (bd_sector_count (dev s)) (super_of_bytes (bd_data (dev s) SFS_SUPER_SECTOR));
}.

(** The contents of file [p]. *)
Definition sfs_file s (p : list Z) : option (list Z) :=
  dir_file (bd_data (dev s)) (directory s) p.

(** A write on a reliable device. *)
Lemma reliable_write b sector buf n :
  bd_ok b -> bd_reliable b -> 0 <= sector -> 0 < n -> sector + n <= bd_sector_count b ->
  Z.of_nat (length buf) = n * BLOCK_SECTOR_SIZE ->
  exists b', bd_write sector buf n b = (1, b') /\ bd_ok b' /\ bd_reliable b' /\
    bd_sector_count b' = bd_sector_count b /\
    (forall k, ~ (sector <= k < sector + n) -> bd_data b' k = bd_data b k) /\
    (forall k, sector <= k < sector + n -> bd_data b' k = buffer_sector buf (k - sector)).
Proof.
  intros Hok Hrel Hs Hn Hin Hl. pose proof (bd_count b Hok).
  destruct (bd_write_law b sector buf n Hok) as [Hlaw Hrest]; [lia|lia|lia|].
  destruct (bd_write sector buf n b) as [res b']. destruct Hlaw as (Hok' & Hc & Hf & _ & Hd).
  destruct Hrest as [Hr _]. destruct (Hr Hrel) as [Hrel' Hres]. rewrite (Hres Hin) in *.
  exists b'. split_and!; auto.
Qed.

Lemma write_directory_spec s :
  bd_ok (dev s) -> bd_reliable (dev s) -> 66 <= bd_sector_count (dev s) -> directory_wf (directory s) ->
  exists b', write_directory s = (1, set_dev b' s) /\ bd_ok b' /\ bd_reliable b' /\
    bd_sector_count b' = bd_sector_count (dev s) /\
    bd_data b' SFS_DIRECTORY_SECTOR = directory_bytes (directory s) /\
    forall k, k ≠ SFS_DIRECTORY_SECTOR -> bd_data b' k = bd_data (dev s) k.
Proof.
  intros Hok Hrel Hc Hd. unfold write_directory, SFS_DIRECTORY_SECTOR.
  destruct (reliable_write (dev s) 1 (directory_bytes (directory s)) 1)
    as (b' & -> & Hok' & Hrel' & Hc' & Hf & Hn); try done; [lia| |].
  { by rewrite length_directory_bytes. }
  exists b'. split_and!; try done; [|intros k Hk; apply Hf; lia].
  rewrite Hn by lia. apply buffer_sector_whole. by apply length_directory_bytes.
Qed.

Lemma sfs_write_guard s p (dat : list Z) sz :
  sfs_inv s -> path_valid (Some p) = true -> 0 <= sz <= SFS_MAX_FILE_SIZE ->
  negb (truth (mounted s)) || negb (path_valid (Some p)) ||
    (truth sz && negb (bool_decide (is_Some (Some dat)))) || (sz >? SFS_MAX_FILE_SIZE) = false.
Proof.
  intros [-> _ _ _ _ _ _] -> Hsz. simpl. rewrite andb_false_r. simpl. lia.
Qed.

(** A slot is found exactly when the directory has one. *)
Lemma choose_slot s p :
  sfs_inv s -> cstring p ->
  let entry := match find_entry p (directory s) with
               | Some i => Some i
               | None => free_loop (entries (directory s)) 0
               end in
  match entry ≫= (fun i => (i,.) <$> entries (directory s) !! i) with
  | Some (i, e) => entries (directory s) !! i = Some e /\ slot_for (directory s) p i
  | None => find_entry p (directory s) = None /\
      forall i e, entries (directory s) !! i = Some e -> entry_used e = true
  end.
Proof.
  intros Hinv Hp. pose proof (si_dir _ Hinv) as Hdir. simpl. unfold slot_for.
  destruct (find_entry p (directory s)) as [i|] eqn:Hf; simpl.
  - pose proof Hf as Hf'. apply (find_entry_Some _ _ Hdir p i Hp) in Hf' as (e & He & _). rewrite He. simpl. auto.
  - pose proof (free_loop_spec (directory s) (entries (directory s)) 0 eq_refl) as Hfree.
    destruct (free_loop (entries (directory s)) 0) as [i|]; simpl.
    + destruct Hfree as (e & He & Hu). rewrite He. simpl. split; [done|]. right. eauto.
    + split; [done|]. intros i e He. apply (Hfree i e); [lia|done].
Qed.

(** What [sfs_write_file] does on a reliable device. *)
Lemma sfs_write_cases s p dat sz :
  sfs_inv s -> bd_reliable (dev s) -> cstring p -> path_valid (Some p) = true ->
  0 <= sz <= SFS_MAX_FILE_SIZE -> sz <= Z.of_nat (length dat) -> Forall is_byte dat ->
  let (res, s') := sfs_write_file (Some p) (Some dat) sz s in
  (res = 0 /\ s' = s /\ find_entry p (directory s) = None /\
    (forall i e, entries (directory s) !! i = Some e -> entry_used e = true)) \/
  (res = 1 /\ sfs_inv s' /\ bd_reliable (dev s') /\
    forall q, cstring q ->
      sfs_file s' q = if decide (q = p) then Some (take (Z.to_nat sz) dat) else sfs_file s q).
Proof.
  intros Hinv Hrel Hp Hpv Hsz Hsz' Hdat. unfold sfs_write_file.
  rewrite (sfs_write_guard s p dat sz Hinv Hpv Hsz). cbn [from_option id].
  pose proof (choose_slot s p Hinv Hp) as Hslot. cbv zeta in Hslot.
  destruct (_ ≫= _) as [[i e]|]; [|destruct Hslot; left; by split_and!].
  destruct Hslot as [He Hslot]. pose proof Hinv as [].
  pose proof (ei_start _ _ _ (di_entries _ _ si_dir0 i e He)) as Hst.
  pose proof (lookup_lt_Some _ _ _ He) as Hi8. rewrite (di_length _ _ si_dir0) in Hi8.
  destruct (reliable_write (dev s) (start_sector e) (fill_buffer dat sz) SFS_FILE_SECTORS)
    as (b1 & Hw & Hok1 & Hrel1 & Hc1 & Hf1 & Hd1); [done|done|..|by rewrite length_fill_buffer|].
  1-3: rewrite ?Hst; unfold slot_sector, SFS_DATA_START, SFS_FILE_SECTORS; lia.
  rewrite Hst in *. cbn [dev set_io io_buffer set_dev]. rewrite Hw. cbn [truth negb Z.eqb].
  match goal with |- context [write_directory ?x] => set (s1 := x) end.
  assert (directory s1 = set_entry i (file_entry e p dat sz) (directory s)) as Hdir1.
  { unfold file_entry. rewrite Hst. done. }
  assert (dir_inv (bd_data b1) (directory s1) /\
    forall q, cstring q -> dir_file (bd_data b1) (directory s1) q =
      if decide (q = p) then Some (take (Z.to_nat sz) dat) else sfs_file s q) as [Hinv1 Hfile1].
  { rewrite Hdir1. apply path_valid_spec in Hpv as [_ Hpv]. unfold SFS_MAX_PATH in Hpv.
    assert (slot_data (bd_data b1) i = fill_buffer dat sz)
      by (apply slot_data_buffer; [apply length_fill_buffer|done]).
    assert (forall j, j ≠ i -> slot_data (bd_data b1) j = slot_data (bd_data (dev s)) j)
      by (intros j Hj; apply (slot_data_other _ _ i); auto).
    split; [apply (update_inv (bd_data (dev s)))|apply update_file]; (done || lia). }
  destruct (write_directory_spec s1) as (b2 & Hwd & Hok2 & Hrel2 & Hc2 & Hd2 & Hf2); try done.
  { cbn. lia. }
  { by eapply dir_inv_wf. }
  rewrite Hwd. right. destruct (dir_inv_ext (bd_data b1) (bd_data b2) (directory s1)) as [Hinv2 Hfile2]; [|done|].
  { intros j. apply sectors_from_ext. intros k Hk. apply Hf2.
    unfold slot_sector, SFS_DATA_START, SFS_FILE_SECTORS, SFS_DIRECTORY_SECTOR in *. lia. }
  split_and!; [done| |done|intros q Hq; etransitivity; [apply Hfile2|auto]].
  split; cbn [mounted dev set_dev io_buffer directory]; try done; [cbn in *; lia|].
  rewrite Hc2, Hf2 by done. cbn. rewrite Hc1, Hf1; [done|].
  unfold slot_sector, SFS_SUPER_SECTOR, SFS_DATA_START, SFS_FILE_SECTORS. lia.
Qed.
(** A read on a reliable device. *)
Lemma reliable_read b sector buf n :
  bd_ok b -> bd_reliable b -> 0 <= sector -> 0 < n -> sector + n <= bd_sector_count b ->
  Z.of_nat (length buf) = n * BLOCK_SECTOR_SIZE ->
  exists b', bd_read sector buf n b = (1, sectors_from (bd_data b) sector (Z.to_nat n), b') /\
    bd_ok b' /\ bd_reliable b' /\ bd_sector_count b' = bd_sector_count b /\
    (forall k, bd_data b' k = bd_data b k).
Proof.
  intros Hok Hrel Hs Hn Hin Hl. pose proof (bd_count b Hok).
  destruct (bd_read_law b sector buf n Hok) as [Hlaw Hrest]; [lia|lia|lia|].
  destruct (bd_read sector buf n b) as [[res buf'] b']. destruct Hlaw as (Hok' & Hc & Hd & _ & _ & Hout).
  destruct Hrest as [Hr _]. destruct (Hr Hrel) as [Hrel' Hres]. rewrite (Hres Hin) in *.
  exists b'. rewrite Hout by done. rewrite write_at_full; [by split_and!|].
  rewrite length_sectors_from; [unfold BLOCK_SECTOR_SIZE in *; lia|].
  intros i Hi. apply bd_size; [done|lia].
Qed.

Lemma read_one_sector b sector : 0 <= sector < bd_sector_count b ->
  sectors_from (bd_data b) sector (Z.to_nat 1) = bd_data b sector.
Proof. intros. change (Z.to_nat 1) with 1%nat. by rewrite sectors_from_S, app_nil_r. Qed.

(** The invariant and the files only depend on what the device holds. *)
Lemma sfs_inv_ext s b io : sfs_inv s -> bd_ok b -> bd_sector_count b = bd_sector_count (dev s) ->
  (forall k, bd_data b k = bd_data (dev s) k) -> length io = 4096%nat ->
  sfs_inv (set_dev b (set_io io s)) /\
  forall p, sfs_file (set_dev b (set_io io s)) p = sfs_file s p.
Proof.
  intros [] Hok Hc Hd Hio. destruct (dir_inv_ext (bd_data (dev s)) (bd_data b) (directory s)) as [Hi Hf].
  - intros j. apply sectors_from_ext. auto.
  - done.
  - split; [|exact Hf]. split; cbn; try done; rewrite ?Hd, ?Hc; done.
Qed.

Lemma sfs_slot s i e : sfs_inv s -> entries (directory s) !! i = Some e ->
  0 <= slot_sector i /\ slot_sector i + SFS_FILE_SECTORS <= bd_sector_count (dev s) /\
  length (slot_data (bd_data (dev s)) i) = 4096%nat /\ 0 <= size e.
Proof.
  intros Hinv He. pose proof Hinv as []. pose proof (lookup_lt_Some _ _ _ He) as Hi8.
  rewrite (di_length _ _ si_dir0) in Hi8.
  destruct (di_entries _ _ si_dir0 i e He) as [[_ Hf] _ _ _ _].
  repeat apply Forall_cons in Hf as [? Hf].
  assert (0 <= slot_sector i /\ slot_sector i + SFS_FILE_SECTORS <= bd_sector_count (dev s)) as [Hlo Hhi]
    by (unfold slot_sector, SFS_DATA_START, SFS_FILE_SECTORS in *; lia).
  split_and!; [done|done| |unfold is_u32 in *; lia].
  apply slot_data_length. intros k Hk. apply bd_size; [done|lia].
Qed.

(** What [sfs_read_file] does on a reliable device. *)
Lemma sfs_read_cases s p buf cap :
  sfs_inv s -> bd_reliable (dev s) -> cstring p -> 0 <= cap <= Z.of_nat (length buf) ->
  let '(res, out, s') := sfs_read_file p (Some buf) cap s in
  sfs_inv s' /\ bd_reliable (dev s') /\ (forall q, sfs_file s' q = sfs_file s q) /\
  match sfs_file s p with
  | Some d =>
      if Z.of_nat (length d) <=? cap
      then res = Z.of_nat (length d) /\ out = Some (d ++ drop (length d) buf)
      else res = -1 /\ out = Some buf
  | None => res = -1 /\ out = Some buf
  end.
Proof.
  intros Hinv Hrel Hp Hcap. pose proof Hinv as []. unfold sfs_read_file, sfs_file, dir_file.
  rewrite si_mounted0. cbn [truth negb Z.eqb orb bool_decide].
  destruct (find_entry p (directory s)) as [i|] eqn:Hf; simpl; [|done].
  pose proof Hf as Hf'. apply (find_entry_Some _ _ si_dir0) in Hf' as (e & He & [Hu _]); [|done].
  rewrite He. simpl. destruct (di_entries _ _ si_dir0 i e He) as [_ Hst _ Hsize Hsum].
  destruct (sfs_slot s i e Hinv He) as (Hlo & Hhi & Hlen & Hsz0). specialize (Hsize Hu).
  assert (Z.of_nat (length (take (Z.to_nat (size e)) (slot_data (bd_data (dev s)) i))) = size e) as Hl.
  { rewrite length_take, Hlen. unfold SFS_MAX_FILE_SIZE, SFS_FILE_SECTORS in *. lia. }
  rewrite Hl. destruct (Z.leb_spec (size e) cap) as [Hle|Hgt].
  2:{ replace (size e >? cap) with true by lia. done. }
  replace (size e >? cap) with false by lia.
  replace (size e >? SFS_MAX_FILE_SIZE) with false by lia.
  simpl. rewrite Hst.
  destruct (reliable_read (dev s) (slot_sector i) (io_buffer s) SFS_FILE_SECTORS)
    as (b & Hr & Hok & Hrel' & Hc & Hd); [done..|rewrite si_io0; done|].
  rewrite Hr. fold (slot_data (bd_data (dev s)) i). simpl.
  rewrite Hsum, Z.eqb_refl by done. simpl.
  destruct (sfs_inv_ext s b (slot_data (bd_data (dev s)) i) Hinv) as [Hinv' Hfile]; [done..|].
  split_and!; [done..|]. rewrite copy_loop_write_at; [|rewrite length_take; lia].
  unfold write_at. by rewrite take_0.
Qed.
End spec.

Section boot.
Context {B : Type} `{BlockDevice B}.
Implicit Type s : sfs B.

(** The memory the file system starts from, the static variables with any contents. *)
Record sfs_memory s : Prop := {
  sm_dir : directory_wf (directory s);
  sm_io : length (io_buffer s) = 4096%nat;
}.

Definition formatted (d : sfs_directory) : sfs_directory :=
  SfsDirectory (imap blank_entry (entries d)) (replicate 32 0).

Lemma formatted_inv data d : directory_wf d ->
  dir_inv data (formatted d) /\ forall p, cstring p -> dir_file data (formatted d) p = None.
Proof.
  intros [Hl He Hr].
  assert (forall i e, entries (formatted d) !! i = Some e ->
    exists e0, e = blank_entry i e0 /\ entry_wf e0 /\ (i < 8)%nat) as Hent.
  { intros i e. simpl. rewrite list_lookup_imap. destruct (entries d !! i) as [e0|] eqn:Hi; simpl; [|done].
    intros [= <-]. exists e0. split_and!; [done| |apply lookup_lt_Some in Hi; lia].
    by eapply (Forall_lookup_1 _ _ _ _ He). }
  assert (forall i e, entries (formatted d) !! i = Some e -> entry_used e = false) as Hfree.
  { intros i e Hi. by destruct (Hent i e Hi) as (e0 & -> & _). }
  assert (dir_inv data (formatted d)) as Hinv.
  { split.
    - simpl. by rewrite length_imap.
    - done.
    - intros i e Hi. pose proof (Hfree i e Hi) as Hu. destruct (Hent i e Hi) as (e0 & -> & [Hp _] & Hi8).
      assert (u32 (slot_sector i) = slot_sector i) as Hs.
      { apply u32_small. unfold slot_sector, SFS_DATA_START, SFS_FILE_SECTORS. lia. }
      split; try congruence; [|exact Hs]. split; [simpl; by rewrite length_insert|].
      repeat (apply Forall_cons; split); try done; [simpl; apply u32_range|..]; unfold is_u32; simpl; lia.
    - intros i j e e' Hi _ Hu. rewrite (Hfree i e Hi) in Hu. done. }
  split; [done|]. intros p Hp. unfold dir_file.
  assert (find_entry p (formatted d) = None) as ->; [|done].
  apply (find_entry_None data _ Hinv p Hp). intros i e Hi [Hu _]. rewrite (Hfree i e Hi) in Hu. done.
Qed.

Lemma sfs_format_spec s :
  sfs_memory s -> bd_ok (dev s) -> bd_reliable (dev s) -> 66 <= bd_sector_count (dev s) ->
  let (res, s') := sfs_format s in
  res = 1 /\ sfs_inv s' /\ bd_reliable (dev s') /\ forall p, cstring p -> sfs_file s' p = None.
Proof.
  intros [Hd Hio] Hok Hrel Hc. unfold sfs_format.
  replace (bd_sector_count (dev s) <? _) with false
    by (unfold SFS_DATA_START, SFS_MAX_FILES, SFS_FILE_SECTORS; lia).
  set (sb := SfsSuper SFS_MAGIC _ _ _ _ _ _).
  assert (super_wf sb) as Hsb.
  { split; [|done]. repeat (apply Forall_cons; split); try done; try apply u32_range;
      unfold is_u32; simpl; unfold SFS_MAGIC, SFS_VERSION, SFS_MAX_FILES, SFS_DATA_START; lia. }
  cbn [dev set_super set_directory superblock directory].
  destruct (reliable_write (dev s) SFS_SUPER_SECTOR (super_bytes sb) 1)
    as (b1 & -> & Hok1 & Hrel1 & Hc1 & Hf1 & Hd1); [done..|unfold SFS_SUPER_SECTOR; lia| |].
  { rewrite length_super_bytes by done. done. }
  cbn [truth negb Z.eqb]. destruct (formatted_inv (bd_data b1) (directory s) Hd) as [Hinv Hnone].
  match goal with |- context [write_directory ?x] =>
    destruct (write_directory_spec x) as (b2 & -> & Hok2 & Hrel2 & Hc2 & Hd2 & Hf2) end; [done|done|cbn; lia| |].
  { by eapply dir_inv_wf. }
  cbn [truth negb Z.eqb c_int set_dev set_mounted dev directory] in *.
  destruct (dir_inv_ext (bd_data b1) (bd_data b2) (formatted (directory s))) as [Hinv2 Hfile]; [|done|].
  { intros j. apply sectors_from_ext. intros k Hk. apply Hf2.
    unfold slot_sector, SFS_DATA_START, SFS_FILE_SECTORS, SFS_DIRECTORY_SECTOR in *. lia. }
  split_and!; [done| |done|].
  - split; cbn; try done; [lia|]. rewrite Hf2 by done. rewrite Hd1 by (unfold SFS_SUPER_SECTOR; lia).
    rewrite Z.sub_diag, buffer_sector_whole by (by apply length_super_bytes).
    rewrite super_of_super_bytes by done. unfold super_good. split_and!; try done. cbn. rewrite Hc2, Hc1.
    unfold u32. apply Z.mod_le; lia.
  - intros p Hp. etransitivity; [apply Hfile|by apply Hnone].
Qed.

Lemma sfs_init_blank s stack :
  sfs_memory s -> bd_ok (dev s) -> bd_reliable (dev s) -> 66 <= bd_sector_count (dev s) ->
  length stack = 512%nat ->
  let sb := super_of_bytes (bd_data (dev s) SFS_SUPER_SECTOR) in
  magic sb = 0 -> version sb = 0 ->
  sfs_inv (sfs_init stack s) /\ bd_reliable (dev (sfs_init stack s)) /\
  forall p, cstring p -> sfs_file (sfs_init stack s) p = None.
Proof.
  intros Hm Hok Hrel Hc Hst sb Hmg Hv. unfold sfs_init. cbn [dev set_mounted].
  destruct (reliable_read (dev s) SFS_SUPER_SECTOR stack 1)
    as (b & -> & Hok' & Hrel' & Hc' & Hd'); [done..|unfold SFS_SUPER_SECTOR; lia|by rewrite Hst|].
  rewrite read_one_sector by (unfold SFS_SUPER_SECTOR; lia). fold sb. cbn [truth negb Z.eqb].
  rewrite Hmg, Hv. cbn [andb Z.eqb].
  pose proof (sfs_format_spec (set_dev b (set_mounted 0 s))) as Hfmt.
  destruct (sfs_format _) as [res s1]. destruct Hfmt as (_ & Hinv & Hr & Hnone); try done.
  - by destruct Hm.
  - cbn. lia.
Qed.

(** A blank disk (magic and version 0) of at least 66 sectors is formatted when
    the system starts, and holds no file; a disk with any other superblock that is
    not SaturnFS version 1 with this geometry is left unmounted, and no sector of it
    is written. *)
Theorem sfs_init_cases s stack :
  sfs_memory s -> bd_ok (dev s) -> bd_reliable (dev s) -> 66 <= bd_sector_count (dev s) ->
  length stack = 512%nat ->
  let sb := super_of_bytes (bd_data (dev s) SFS_SUPER_SECTOR) in
  let s' := sfs_init stack s in
  (magic sb = 0 /\ version sb = 0 -> sfs_inv s' /\ forall p, cstring p -> sfs_file s' p = None) /\
  (~ (magic sb = 0 /\ version sb = 0) -> ~ super_good (bd_sector_count (dev s)) sb ->
   sfs_ready s' = 0 /\ forall k, bd_data (dev s') k = bd_data (dev s) k).
Proof.
  intros Hm Hok Hrel Hc Hst sb s'. split.
  - intros [Hmg Hv]. by destruct (sfs_init_blank s stack Hm Hok Hrel Hc Hst Hmg Hv) as (? & _ & ?).
  - intros Hnz Hbad. unfold s', sfs_init. cbn [dev set_mounted].
    destruct (reliable_read (dev s) SFS_SUPER_SECTOR stack 1)
      as (b & -> & Hok' & Hrel' & Hc' & Hd'); [done..|unfold SFS_SUPER_SECTOR; lia|by rewrite Hst|].
    rewrite read_one_sector by (unfold SFS_SUPER_SECTOR; lia). fold sb. cbn [truth negb Z.eqb].
    replace ((magic sb =? 0) && (version sb =? 0)) with false by lia.
    destruct (_ || _) eqn:Eg; [done|]. exfalso. apply Hbad. cbn [dev set_dev set_mounted] in Eg.
    unfold super_good. lia.
Qed.

(** Persistence: booting again on the device of a mounted file system, whatever
    memory held before, mounts it with exactly the same files. *)
Theorem sfs_persistent s s0 stack :
  sfs_inv s -> bd_reliable (dev s) -> sfs_memory s0 -> length stack = 512%nat ->
  dev s0 = dev s ->
  sfs_inv (sfs_init stack s0) /\ forall p, sfs_file (sfs_init stack s0) p = sfs_file s p.
Proof.
  intros Hinv Hrel [Hd0 Hio0] Hst Hdev. pose proof Hinv as [].
  unfold sfs_init. cbn [dev set_mounted]. rewrite Hdev.
  destruct (reliable_read (dev s) SFS_SUPER_SECTOR stack 1)
    as (b1 & -> & Hok1 & Hrel1 & Hc1 & Hd1); [done..|unfold SFS_SUPER_SECTOR; lia|by rewrite Hst|].
  rewrite read_one_sector by (unfold SFS_SUPER_SECTOR; lia). cbn [truth negb Z.eqb dev set_dev].
  destruct si_disk_super0 as (Hmg & Hv & Hss & Hmf & Hds & Hts).
  rewrite Hmg, Hv, Hss, Hmf, Hds, Hc1.
  replace (_ >? bd_sector_count (dev s)) with false by lia. cbn [orb andb negb Z.eqb SFS_MAGIC SFS_VERSION
    SFS_MAX_FILES SFS_DATA_START Pos.eqb].
  destruct (reliable_read b1 SFS_DIRECTORY_SECTOR (directory_bytes (directory s0)) 1)
    as (b2 & Hr2 & Hok2 & Hrel2 & Hc2 & Hd2); [done..|unfold SFS_DIRECTORY_SECTOR; lia| |].
  { by rewrite length_directory_bytes. }
  cbn [directory set_dev set_mounted]. rewrite Hr2, read_one_sector by (unfold SFS_DIRECTORY_SECTOR; lia).
  rewrite Hd1, si_disk_dir0, directory_of_directory_bytes by (by eapply dir_inv_wf).
  cbn [truth negb Z.eqb].
  destruct (dir_inv_ext (bd_data (dev s)) (bd_data b2) (directory s)) as [Hi Hf]; [|done|].
  { intros j. apply sectors_from_ext. intros k _. by rewrite Hd2, Hd1. }
  split; [|exact Hf]. split; cbn; try done; rewrite ?Hc2, ?Hc1, ?Hd2, ?Hd1; done.
Qed.

(** (C31) [sfs_write_file] updates exactly one file: with a valid path, at most 4096
    bytes and a device that works, it returns 0 and changes nothing when the eight
    slots hold other files, and otherwise returns 1 and afterwards the file holds
    the given bytes while every other file has the contents it had; the directory
    on disk, the unique names, the slots and the checksums stay consistent. *)
Theorem sfs_write_updates_one s p dat sz :
  sfs_inv s -> bd_reliable (dev s) -> cstring p -> path_valid (Some p) = true ->
  0 <= sz <= SFS_MAX_FILE_SIZE -> sz <= Z.of_nat (length dat) -> Forall is_byte dat ->
  let (res, s') := sfs_write_file (Some p) (Some dat) sz s in
  (res = 0 /\ s' = s /\ sfs_file s p = None /\
    (forall i e, entries (directory s) !! i = Some e -> entry_used e = true)) \/
  (res = 1 /\ sfs_inv s' /\
    forall q, cstring q ->
      sfs_file s' q = if decide (q = p) then Some (take (Z.to_nat sz) dat) else sfs_file s q).
Proof.
  intros Hinv Hrel Hp Hpv Hsz Hl Hd. pose proof (sfs_write_cases s p dat sz Hinv Hrel Hp Hpv Hsz Hl Hd) as Hc.
  destruct (sfs_write_file _ _ _ _) as [res s']. destruct Hc as [(-> & -> & Hf & Hall)|(-> & Hi & _ & Hall)].
  - left. split_and!; try done. unfold sfs_file, dir_file. by rewrite Hf.
  - right. done.
Qed.

(** [sfs_read_file] returns the contents of the file: its length and the buffer
    with the file's bytes at the front, or -1 and the buffer unchanged when there is
    no such file or it does not fit; it changes no file. *)
Theorem sfs_read_returns_file s p buf cap :
  sfs_inv s -> bd_reliable (dev s) -> cstring p -> 0 <= cap <= Z.of_nat (length buf) ->
  let '(res, out, s') := sfs_read_file p (Some buf) cap s in
  sfs_inv s' /\ (forall q, sfs_file s' q = sfs_file s q) /\
  match sfs_file s p with
  | Some d =>
      if Z.of_nat (length d) <=? cap
      then res = Z.of_nat (length d) /\ out = Some (d ++ drop (length d) buf)
      else res = -1 /\ out = Some buf
  | None => res = -1 /\ out = Some buf
  end.
Proof.
  intros Hinv Hrel Hp Hcap. pose proof (sfs_read_cases s p buf cap Hinv Hrel Hp Hcap) as Hc.
  destruct (sfs_read_file _ _ _ _) as [[res out] s']. tauto.
Qed.
End boot.

(** ** The file system on a fresh RAM disk *)

(** Memory at boot: the static variables are zero. *)
Definition boot_sfs : sfs (block unit) :=
  Sfs (SfsSuper 0 0 0 0 0 0 (replicate 488 0)) (directory_of_bytes (replicate 512 0))
    (replicate 4096 0) 0 ram_block.
Definition boot_stack : list Z := replicate 512 0.

Lemma boot_sfs_memory : sfs_memory boot_sfs.
Proof.
  split; [|by vm_compute]. split; [done| |done]. apply Forall_lookup. intros i e He.
  assert (i < 8)%nat as Hi by (by apply lookup_lt_Some in He).
  do 8 (destruct i as [|i]; [vm_compute in He; injection He as <-; split; [done|];
    repeat (apply Forall_cons; split); try done; unfold is_u32; simpl; lia|]). lia.
Qed.

Lemma boot_blank_magic :
  let sb := super_of_bytes (bd_data (dev boot_sfs) SFS_SUPER_SECTOR) in magic sb = 0 /\ version sb = 0.
Proof. split; vm_compute; reflexivity. Qed.

(** The mounted file system after boot. *)
Definition disk0 : sfs (block unit) := sfs_init boot_stack boot_sfs.

Lemma boot_dev_ok : bd_ok (dev boot_sfs) /\ bd_reliable (dev boot_sfs).
Proof. split; [exact ram_block_ok|reflexivity]. Qed.

Lemma boot_sector_count : 66 <= bd_sector_count (dev boot_sfs).
Proof. vm_compute. discriminate. Qed.

Lemma disk0_inv : sfs_inv disk0 /\ bd_reliable (dev disk0).
Proof.
  destruct boot_blank_magic as [Hm Hv].
  destruct (sfs_init_blank boot_sfs boot_stack boot_sfs_memory (proj1 boot_dev_ok) (proj2 boot_dev_ok) boot_sector_count
              eq_refl Hm Hv) as (Hi & Hr & _).
  split; [exact Hi|exact Hr].
Qed.

Lemma sfs_init_cases_witness : sfs_inv (sfs_init boot_stack boot_sfs).
Proof.
  apply (sfs_init_cases boot_sfs boot_stack boot_sfs_memory (proj1 boot_dev_ok) (proj2 boot_dev_ok) boot_sector_count eq_refl).
  exact boot_blank_magic.
Defined.

Definition file_a : list Z := lit "/a".
Definition disk1 : sfs (block unit) := snd (sfs_write_file (Some file_a) (Some [1; 2; 3]) 3 disk0).

Lemma file_a_ok : cstring file_a /\ path_valid (Some file_a) = true.
Proof. split; [|reflexivity]. apply (bool_decide_eq_true_1 _). vm_compute. reflexivity. Qed.

Lemma disk1_write : sfs_write_file (Some file_a) (Some [1; 2; 3]) 3 disk0 = (1, disk1).
Proof. unfold disk1. apply pair_fst_eq. vm_compute. reflexivity. Qed.

Lemma bytes_123 : Forall is_byte [1; 2; 3].
Proof. repeat constructor; unfold is_byte; lia. Qed.

Lemma disk1_inv : sfs_inv disk1 /\ bd_reliable (dev disk1) /\ sfs_file disk1 file_a = Some [1; 2; 3].
Proof.
  pose proof (sfs_write_cases disk0 file_a [1; 2; 3] 3 (proj1 disk0_inv) (proj2 disk0_inv)
    (proj1 file_a_ok) (proj2 file_a_ok) ltac:(unfold SFS_MAX_FILE_SIZE, SFS_FILE_SECTORS; lia)
    ltac:(done) bytes_123) as Hc.
  rewrite disk1_write in Hc. destruct Hc as [(Hz & _)|(_ & Hi & Hr & Hf)]; [done|].
  split; [exact Hi|]. split; [exact Hr|]. rewrite (Hf file_a (proj1 file_a_ok)). reflexivity.
Qed.

Lemma sfs_write_updates_one_witness : sfs_file disk1 file_a = Some [1; 2; 3].
Proof.
  pose proof (sfs_write_updates_one disk0 file_a [1; 2; 3] 3 (proj1 disk0_inv) (proj2 disk0_inv)
    (proj1 file_a_ok) (proj2 file_a_ok) ltac:(unfold SFS_MAX_FILE_SIZE, SFS_FILE_SECTORS; lia)
    ltac:(done) bytes_123) as Hc.
  rewrite disk1_write in Hc. destruct Hc as [(Hz & _)|(_ & _ & Hf)]; [discriminate Hz|].
  rewrite (Hf file_a (proj1 file_a_ok)). reflexivity.
Defined.

Lemma sfs_read_returns_file_witness :
  snd (fst (sfs_read_file file_a (Some [9; 9; 9; 9]) 4 disk1)) = Some [1; 2; 3; 9].
Proof.
  destruct disk1_inv as (Hi & Hr & Hf).
  pose proof (sfs_read_returns_file disk1 file_a [9; 9; 9; 9] 4 Hi Hr (proj1 file_a_ok)
    ltac:(simpl; lia)) as Hc.
  rewrite Hf in Hc. destruct (sfs_read_file _ _ _ _) as [[res out] s'].
  exact (proj2 (proj2 (proj2 Hc))).
Defined.

(** Memory at boot with the device [b]. *)
Definition reboot (b : block unit) : sfs (block unit) :=
  Sfs (superblock boot_sfs) (directory boot_sfs) (io_buffer boot_sfs) 0 b.

Lemma reboot_dev b : dev (reboot b) = b.
Proof. reflexivity. Qed.

Lemma reboot_memory b : sfs_memory (reboot b).
Proof. destruct boot_sfs_memory as [Hd Hio]. split; [exact Hd|exact Hio]. Qed.

Lemma sfs_persistent_witness : sfs_file (sfs_init boot_stack (reboot (dev disk1))) file_a = Some [1; 2; 3].
Proof.
  destruct disk1_inv as (Hi & Hr & Hf).
  destruct (sfs_persistent disk1 (reboot (dev disk1)) boot_stack Hi Hr (reboot_memory _) eq_refl
              (reboot_dev _)) as [_ Hp].
  rewrite Hp. exact Hf.
Defined.
