(* ===== verification/Vfs.v ===== *)
(** * The virtual file system ([kernel/fs/vfs.c])

    A RAM file system of sixteen nodes and the mount of SaturnFS under [/disk]. A
    [path] field holds a C string and is kept as the list of its characters ([chr]
    reads the terminator past the end; no operation reads a byte after it); the data
    of a node and the shared [disk_file_buffer] are full 4096-byte buffers, so that
    bytes beyond a file's size are kept as the code keeps them. A node pointer is an
    index. The report [vfs_dump_files] is in [Reports]. *)

From S2P Require Import Prelude BlockDevice Block Sfs.

(** ** Definitions *)

Definition VFS_MAX_FILES : Z := 8.
Definition VFS_MAX_DIRS : Z := 8.
Definition VFS_MAX_NODES : Z := VFS_MAX_FILES + VFS_MAX_DIRS.
Definition VFS_MAX_PATH : Z := 48.
Definition VFS_MAX_FILE_SIZE : Z := 4096.
Definition VFS_ENTRY_FILE : Z := 1.
Definition VFS_ENTRY_DIRECTORY : Z := 2.

(** [enum ramfs_node_kind]; a node that was never used has kind 0. *)
Definition RAMFS_FILE : Z := 1.
Definition RAMFS_DIRECTORY : Z := 2.

Record ramfs_node := Node {
  n_path : list Z;
  n_size : Z;
  n_data : list Z;
  n_kind : Z;
  n_used : Z;
}.

(** [struct vfs_entry]; the path is the whole 48-byte array. *)
Record vfs_entry := VfsEntry {
  ve_path : list Z;
  ve_size : Z;
  ve_kind : Z;
}.

Record vfs (B : Type) := Vfs {
  nodes : list ramfs_node;
  file_count : Z;
  dir_count : Z;
  disk_file_buffer : list Z;
  disk : sfs B;
}.
Arguments Vfs {B}. Arguments nodes {B}. Arguments file_count {B}.
Arguments dir_count {B}. Arguments disk_file_buffer {B}. Arguments disk {B}.

(** The suffix after [/disk] of a path on the mounted file system. *)
Fixpoint skip_prefix (prefix p : list Z) : option (list Z) :=
  match prefix, p with
  | [], p => Some p
  | c :: prefix, x :: p => if negb (x =? c) then None else skip_prefix prefix p
  | _ :: _, [] => None
  end.

Definition vfs_disk_path (path : option (list Z)) : option (list Z) :=
  p ← path;
  rest ← skip_prefix (lit "/disk") p;
  if (chr rest 0 =? 47) && negb (chr rest 1 =? 0) then Some rest else None.

Definition vfs_path_valid (path : option (list Z)) : bool := abs_path_valid VFS_MAX_PATH path.
Definition vfs_path_equals (l r : list Z) : bool := path_equals l r.

Fixpoint vfs_find_loop (p : list Z) (ns : list ramfs_node) (i : nat) : option nat :=
  match ns with
  | [] => None
  | n :: ns => if truth (n_used n) && vfs_path_equals (n_path n) p then Some i else vfs_find_loop p ns (S i)
  end.

Definition vfs_find (p : list Z) (ns : list ramfs_node) : option nat := vfs_find_loop p ns 0.

(** The index of the last ['/'], 0 when there is none after the first character. *)
Fixpoint last_slash_loop (p : list Z) (length last : nat) : nat :=
  match p with
  | [] => last
  | c :: p => last_slash_loop p (S length) (if c =? 47 then length else last)
  end.

Definition last_slash (p : list Z) : nat := last_slash_loop p 0 0.

Definition is_directory (ns : list ramfs_node) (i : nat) : bool :=
  match ns !! i with Some n => n_kind n =? RAMFS_DIRECTORY | None => false end.

Definition vfs_parent_exists (p : list Z) (ns : list ramfs_node) : bool :=
  if (last_slash p =? 0)%nat then true else
  match vfs_find (take (last_slash p) p) ns with
  | Some i => is_directory ns i
  | None => false
  end.

Fixpoint vfs_alloc_loop (ns : list ramfs_node) (i : nat) : option nat :=
  match ns with
  | [] => None
  | n :: ns => if negb (truth (n_used n)) then Some i else vfs_alloc_loop ns (S i)
  end.

Definition vfs_alloc_node (ns : list ramfs_node) : option nat := vfs_alloc_loop ns 0.

Definition vfs_set_path (n : ramfs_node) (p : list Z) : ramfs_node :=
  Node p (n_size n) (n_data n) (n_kind n) (n_used n).

(** [while (matched < n && a[matched] == b[matched]) matched++] *)
Fixpoint match_loop (n : nat) (matched : nat) (a b : list Z) : nat :=
  match n with
  | O => matched
  | S n => if chr a matched =? chr b matched then match_loop n (S matched) a b else matched
  end.

(** The test of [vfs_remove] and [vfs_rename] for a path below [dir]. *)
Definition below (dir a : list Z) : bool :=
  (match_loop (length dir) 0 a dir =? length dir)%nat && (chr a (length dir) =? 47).

(** The loops that fill [entry->path]. *)
Definition entry_path (p : list Z) : list Z :=
  let q := take (Z.to_nat VFS_MAX_PATH - 1) p in
  q ++ replicate (Z.to_nat VFS_MAX_PATH - length q) 0.

Definition entry_kind (n : ramfs_node) : Z :=
  if n_kind n =? RAMFS_DIRECTORY then VFS_ENTRY_DIRECTORY else VFS_ENTRY_FILE.

(** What [vfs_file_data] returns a pointer to. *)
Inductive data_ptr :=
  | DiskBuffer
  | NodeData (i : nat).

Section ops.
Context {B : Type} `{BlockDevice B}.
Implicit Type v : vfs B.

Definition set_nodes (ns : list ramfs_node) v : vfs B :=
  Vfs ns (file_count v) (dir_count v) (disk_file_buffer v) (disk v).
Definition set_counts (files dirs : Z) v : vfs B :=
  Vfs (nodes v) files dirs (disk_file_buffer v) (disk v).
Definition set_disk_buffer (b : list Z) v : vfs B :=
  Vfs (nodes v) (file_count v) (dir_count v) b (disk v).
Definition set_sfs (s : sfs B) v : vfs B :=
  Vfs (nodes v) (file_count v) (dir_count v) (disk_file_buffer v) s.

Definition vfs_init v : vfs B :=
  set_counts 0 0
    (set_nodes ((fun n => Node [] 0 (n_data n) (n_kind n) 0) <$> nodes v) v).

Definition vfs_mkdir (path : option (list Z)) v : Z * vfs B :=
  let p := default [] path in
  if negb (vfs_path_valid path) || bool_decide (is_Some (vfs_find p (nodes v))) ||
     negb (vfs_parent_exists p (nodes v)) || (dir_count v >=? VFS_MAX_DIRS) then (0, v) else
  match vfs_alloc_node (nodes v) ≫= (fun i => (i,.) <$> nodes v !! i) with
  | None => (0, v)
  | Some (i, n) =>
      let n := Node p 0 (n_data n) RAMFS_DIRECTORY 1 in
      (1, set_counts (file_count v) (dir_count v +! 1) (set_nodes (<[i := n]> (nodes v)) v))
  end.

(** Some node in use other than [self] lies below [p]. *)
Definition has_below (p : list Z) (self : nat) (ns : list ramfs_node) : bool :=
  existsb (fun '(i, n) => truth (n_used n) && negb (i =? self)%nat && below p (n_path n))
    (imap pair ns).

Definition vfs_remove (p : list Z) v : Z * vfs B :=
  match vfs_find p (nodes v) ≫= (fun i => (i,.) <$> nodes v !! i) with
  | None => (0, v)
  | Some (i, n) =>
      let gone := Node [] 0 (n_data n) (n_kind n) 0 in
      if n_kind n =? RAMFS_DIRECTORY then
        if has_below p i (nodes v) then (0, v) else
        (1, set_counts (file_count v) (dir_count v -! 1) (set_nodes (<[i := gone]> (nodes v)) v))
      else (1, set_counts (file_count v -! 1) (dir_count v) (set_nodes (<[i := gone]> (nodes v)) v))
  end.

(** A node other than [self] that moves with the renamed directory. *)
Definition moves (old : list Z) (self i : nat) (n : ramfs_node) : bool :=
  truth (n_used n) && negb (i =? self)%nat && below old (n_path n).

(** The first pass of [vfs_rename]: some path would become too long. *)
Definition rename_too_long (old new : list Z) (self : nat) (ns : list ramfs_node) : bool :=
  existsb (fun '(i, n) => moves old self i n &&
             (Z.of_nat (length new) + Z.of_nat (length (drop (length old) (n_path n))) >=? VFS_MAX_PATH))
    (imap pair ns).

(** The second pass. *)
Definition rename_below (old new : list Z) (self : nat) (ns : list ramfs_node) : list ramfs_node :=
  imap (fun i n =>
          if moves old self i n then vfs_set_path n (new ++ drop (length old) (n_path n)) else n) ns.

Definition vfs_rename (old : list Z) (new : option (list Z)) v : Z * vfs B :=
  match vfs_find old (nodes v) ≫= (fun i => (i,.) <$> nodes v !! i) with
  | None => (0, v)
  | Some (i, n) =>
      let newp := default [] new in
      if negb (vfs_path_valid new) || bool_decide (is_Some (vfs_find newp (nodes v))) ||
         negb (vfs_parent_exists newp (nodes v)) then (0, v) else
      if (n_kind n =? RAMFS_DIRECTORY) && (length old <? length newp)%nat &&
         (chr newp (length old) =? 47) &&
         (match_loop (length old) 0 old newp =? length old)%nat then (0, v) else
      if rename_too_long old newp i (nodes v) then (0, v) else
      let ns := rename_below old newp i (nodes v) in
      (1, set_nodes (alter (fun n => vfs_set_path n newp) i ns) v)
  end.

(** [sfs_read_file(disk_path, disk_file_buffer, sizeof(disk_file_buffer))] *)
Definition read_disk (dp : list Z) v : Z * vfs B :=
  let '(res, buf, s) := sfs_read_file dp (Some (disk_file_buffer v)) SFS_MAX_FILE_SIZE (disk v) in
  (res, set_sfs s (set_disk_buffer (default [] buf) v)).

Definition vfs_file_data (p : list Z) v : option (data_ptr * Z) * vfs B :=
  match vfs_disk_path (Some p) with
  | Some dp =>
      let (file_size, v) := read_disk dp v in
      if file_size <? 0 then (None, v) else (Some (DiskBuffer, file_size), v)
  | None =>
      match vfs_find p (nodes v) ≫= (fun i => (i,.) <$> nodes v !! i) with
      | None => (None, v)
      | Some (i, n) =>
          if negb (n_kind n =? RAMFS_FILE) then (None, v) else (Some (NodeData i, n_size n), v)
      end
  end.

(** The bytes a returned pointer points to. *)
Definition deref (q : data_ptr) v : list Z :=
  match q with
  | DiskBuffer => disk_file_buffer v
  | NodeData i => default [] (n_data <$> nodes v !! i)
  end.

Definition vfs_stat (p : list Z) (entry : option vfs_entry) v : Z * option vfs_entry * vfs B :=
  match entry with
  | None => (0, entry, v)
  | Some _ =>
      match vfs_disk_path (Some p) with
      | Some _ =>
          let (r, v) := vfs_file_data p v in
          match r with
          | None => (0, entry, v)
          | Some (_, sz) => (1, Some (VfsEntry (entry_path p) sz VFS_ENTRY_FILE), v)
          end
      | None =>
          match vfs_find p (nodes v) ≫= (nodes v !!.) with
          | None => (0, entry, v)
          | Some n => (1, Some (VfsEntry (entry_path p) (n_size n) (entry_kind n)), v)
          end
      end
  end.

Definition vfs_create (path : option (list Z)) (data : option (list Z)) (sz : Z) v : Z * vfs B :=
  match vfs_disk_path path with
  | Some dp => let (res, s) := sfs_write_file (Some dp) data sz (disk v) in (res, set_sfs s v)
  | None =>
      let p := default [] path in
      if negb (vfs_path_valid path) || (sz >? VFS_MAX_FILE_SIZE) ||
         (truth sz && negb (bool_decide (is_Some data))) ||
         bool_decide (is_Some (vfs_find p (nodes v))) || negb (vfs_parent_exists p (nodes v)) ||
         (file_count v >=? VFS_MAX_FILES) then (0, v) else
      match vfs_alloc_node (nodes v) ≫= (fun i => (i,.) <$> nodes v !! i) with
      | None => (0, v)
      | Some (i, n) =>
          let bytes := take (Z.to_nat sz) (default [] data) in
          let n := Node p sz (copy_loop (n_data n) 0 bytes) RAMFS_FILE 1 in
          (1, set_counts (file_count v +! 1) (dir_count v) (set_nodes (<[i := n]> (nodes v)) v))
      end
  end.

Definition vfs_write (p : list Z) (offset : Z) (buffer : option (list Z)) (sz : Z) v : Z * vfs B :=
  match vfs_disk_path (Some p) with
  | Some dp =>
      if (sz =? 0) || negb (bool_decide (is_Some buffer)) || (offset >? SFS_MAX_FILE_SIZE) ||
         (sz >? SFS_MAX_FILE_SIZE -! offset) then (-1, v) else
      let (current, v) := read_disk dp v in
      if current <? 0 then (-1, v) else
      let bytes := take (Z.to_nat sz) (default [] buffer) in
      let v := set_disk_buffer (copy_loop (disk_file_buffer v) (Z.to_nat offset) bytes) v in
      let final_size := if offset +! sz >? current then offset +! sz else current in
      let (res, s) := sfs_write_file (Some dp) (Some (disk_file_buffer v)) final_size (disk v) in
      (if truth res then sz else -1, set_sfs s v)
  | None =>
      match vfs_find p (nodes v) ≫= (fun i => (i,.) <$> nodes v !! i) with
      | None => (-1, v)
      | Some (i, n) =>
          if negb (n_kind n =? RAMFS_FILE) || (truth sz && negb (bool_decide (is_Some buffer))) ||
             (offset >? VFS_MAX_FILE_SIZE) || (sz >? VFS_MAX_FILE_SIZE -! offset) then (-1, v) else
          let bytes := take (Z.to_nat sz) (default [] buffer) in
          let n := Node (n_path n)
                     (if offset +! sz >? n_size n then offset +! sz else n_size n)
                     (copy_loop (n_data n) (Z.to_nat offset) bytes) (n_kind n) (n_used n) in
          (sz, set_nodes (<[i := n]> (nodes v)) v)
      end
  end.

(** [for (i = from; i < to; i++) buf[i] = 0] *)
Definition zero_range (buf : list Z) (from to : Z) : list Z :=
  copy_loop buf (Z.to_nat from) (replicate (Z.to_nat (to - from)) 0).

Definition vfs_truncate (p : list Z) (sz : Z) v : Z * vfs B :=
  match vfs_disk_path (Some p) with
  | Some dp =>
      if sz >? SFS_MAX_FILE_SIZE then (0, v) else
      let (current, v) := read_disk dp v in
      if current <? 0 then (0, v) else
      let v := set_disk_buffer (zero_range (disk_file_buffer v) current sz) v in
      let (res, s) := sfs_write_file (Some dp) (Some (disk_file_buffer v)) sz (disk v) in
      (res, set_sfs s v)
  | None =>
      match vfs_find p (nodes v) ≫= (fun i => (i,.) <$> nodes v !! i) with
      | None => (0, v)
      | Some (i, n) =>
          if negb (n_kind n =? RAMFS_FILE) || (sz >? VFS_MAX_FILE_SIZE) then (0, v) else
          let data := if sz >? n_size n then zero_range (n_data n) (n_size n) sz else n_data n in
          (1, set_nodes (<[i := Node (n_path n) sz data (n_kind n) (n_used n)]> (nodes v)) v)
      end
  end.

Definition vfs_read (p : list Z) (offset : Z) (buffer : option (list Z)) (sz : Z) v :
    Z * option (list Z) * vfs B :=
  match vfs_disk_path (Some p) with
  | Some dp =>
      let (file_size, v) := read_disk dp v in
      if (truth sz && negb (bool_decide (is_Some buffer))) || (file_size <? 0) ||
         (offset >? file_size) then (-1, buffer, v) else
      let sz := if sz >? file_size -! offset then file_size -! offset else sz in
      (sz, (fun b => copy_loop b 0 (take (Z.to_nat sz) (drop (Z.to_nat offset) (disk_file_buffer v))))
             <$> buffer, v)
  | None =>
      match vfs_find p (nodes v) ≫= (nodes v !!.) with
      | None => (-1, buffer, v)
      | Some n =>
          if negb (n_kind n =? RAMFS_FILE) || (truth sz && negb (bool_decide (is_Some buffer))) ||
             (offset >? n_size n) then (-1, buffer, v) else
          let sz := if sz >? n_size n -! offset then n_size n -! offset else sz in
          (sz, (fun b => copy_loop b 0 (take (Z.to_nat sz) (drop (Z.to_nat offset) (n_data n))))
                 <$> buffer, v)
      end
  end.

Definition vfs_dir_count v : Z := dir_count v.
Definition vfs_file_count v : Z := file_count v.

(** The loop of [vfs_list]: [current] counts the nodes in use. *)
Fixpoint vfs_list_loop (ns : list ramfs_node) (current index : Z) (entry : vfs_entry) : Z * vfs_entry :=
  match ns with
  | [] => (0, entry)
  | n :: ns =>
      if negb (truth (n_used n)) then vfs_list_loop ns current index entry
      else if negb (current =? index) then vfs_list_loop ns (current + 1) index entry
      else (1, VfsEntry (entry_path (n_path n)) (n_size n) (entry_kind n))
  end.

Definition vfs_list (index : Z) (entry : option vfs_entry) v : Z * option vfs_entry :=
  match entry with
  | None => (-1, entry)
  | Some e => let (res, e) := vfs_list_loop (nodes v) 0 index e in (res, Some e)
  end.
End ops.

(** ** Paths *)

Lemma chr_lookup (s : list Z) k : cstring s -> (k < length s)%nat -> exists c, s !! k = Some c /\ chr s k = c /\ c ≠ 0.
Proof.
  intros Hs Hk. destruct (lookup_lt_is_Some_2 s k Hk) as [c Hc]. exists c. unfold chr. rewrite Hc.
  split_and!; [done..|]. eapply (Forall_lookup_1 _ _ _ _ Hs Hc).
Qed.

Lemma match_loop_bound n k a b : (match_loop n k a b <= k + n)%nat.
Proof.
  revert k. induction n as [|n IH]; intros k; simpl; [lia|]. case_if; [|lia]. specialize (IH (S k)). lia.
Qed.

Lemma match_loop_full n k a b :
  match_loop n k a b = (k + n)%nat <-> forall j, (k <= j < k + n)%nat -> chr a j = chr b j.
Proof.
  revert k. induction n as [|n IH]; intros k; simpl; [split; [intros; lia|lia]|].
  destruct (chr a k =? chr b k) eqn:E.
  - replace (k + S n)%nat with (S k + n)%nat by lia. rewrite IH. split.
    + intros Hj j Hr. destruct (decide (j = k)) as [->|]; [lia|apply Hj; lia].
    + intros Hj j Hr. apply Hj. lia.
  - split; [intros; lia|]. intros Hj. specialize (Hj k ltac:(lia)). lia.
Qed.

(** The prefix test of the code. *)
Lemma match_loop_prefix a b : cstring b ->
  match_loop (length b) 0 a b = length b <-> exists t, a = b ++ t.
Proof.
  intros Hb. pose proof (match_loop_full (length b) 0 a b) as Hm. rewrite Nat.add_0_l in Hm.
  rewrite Hm. clear Hm. split.
  - intros Hj. exists (drop (length b) a). rewrite <- (take_drop (length b) a) at 1. f_equal.
    apply list_eq. intros i. destruct (decide (i < length b)%nat) as [Hi|Hi].
    + destruct (chr_lookup b i Hb Hi) as (c & Hc & Hcb & Hnz). rewrite lookup_take_lt, Hc by done.
      specialize (Hj i ltac:(lia)). unfold chr in Hj, Hcb. rewrite Hcb in Hj.
      destruct (a !! i) as [x|]; simpl in Hj; congruence.
    + rewrite lookup_take_ge by lia. symmetry. apply lookup_ge_None. lia.
  - intros [t ->] j Hj. unfold chr. by rewrite lookup_app_l by lia.
Qed.

Lemma below_spec dir a : cstring dir -> below dir a = true <-> exists t, a = dir ++ 47 :: t.
Proof.
  intros Hd. unfold below. rewrite andb_true_iff, Nat.eqb_eq, match_loop_prefix by done. split.
  - intros [[t ->] Hc]. unfold chr in Hc. rewrite lookup_app_r, Nat.sub_diag in Hc by lia.
    destruct t as [|c t]; simpl in Hc; [done|]. exists t. do 2 f_equal. lia.
  - intros [t ->]. split; [eauto|]. unfold chr. rewrite lookup_app_r, Nat.sub_diag by lia. done.
Qed.

Lemma last_slash_loop_none p len last : 47 ∉ p -> last_slash_loop p len last = last.
Proof.
  revert len last. induction p as [|c p IH]; intros len last Hp; simpl; [done|].
  destruct (Z.eqb_spec c 47) as [->|]; [set_solver|]. apply IH. set_solver.
Qed.

Lemma last_slash_spec a t : 47 ∉ t -> last_slash (a ++ 47 :: t) = length a.
Proof.
  intros Ht. unfold last_slash. enough (forall len last,
    last_slash_loop (a ++ 47 :: t) len last = (len + length a)%nat) as ->; [done|].
  induction a as [|c a IH]; intros len last; simpl.
  - rewrite last_slash_loop_none by done. lia.
  - rewrite IH. lia.
Qed.

(** Every path with a slash splits at the last one. *)
Lemma split_last_slash p : 47 ∈ p -> exists a t, p = a ++ 47 :: t /\ 47 ∉ t.
Proof.
  intros Hp. induction p as [|c p IH]; [set_solver|].
  destruct (decide (47 ∈ p)) as [Hin|Hout].
  - destruct (IH Hin) as (a & t & -> & Ht). by exists (c :: a), t.
  - apply elem_of_cons in Hp as [<-|]; [|done]. by exists [], p.
Qed.

(** Two prefixes of a path that end before a slash are nested. *)
Lemma prefixes_nested (a b t u : list Z) : a ++ 47 :: t = b ++ 47 :: u ->
  a = b \/ (exists r, a = b ++ 47 :: r) \/ (exists r, b = a ++ 47 :: r).
Proof.
  revert b. induction a as [|x a IH]; intros [|y b] Heq; simpl in *.
  - by left.
  - injection Heq as <- ->. right. right. eauto.
  - injection Heq as -> <-. right. left. eauto.
  - injection Heq as -> Heq. destruct (IH b Heq) as [->|[(r & ->)|(r & ->)]]; eauto.
Qed.

(** A path below [d], cut at its last slash, is cut at [d] or below [d]. *)
Lemma cut_below d r a t : d ++ 47 :: r = a ++ 47 :: t -> 47 ∉ t ->
  (a = d /\ r = t) \/ exists r', a = d ++ 47 :: r' /\ r = r' ++ 47 :: t.
Proof.
  revert a. induction d as [|c d IH]; intros [|x a] Heq Ht; simpl in *.
  - injection Heq as ->. by left.
  - injection Heq as <- ->. right. eauto.
  - injection Heq as -> <-. set_solver.
  - injection Heq as -> Heq. destruct (IH a Heq Ht) as [[-> ->]|(r' & -> & ->)]; [by left|right; eauto].
Qed.

(** ** The tree of nodes *)

Definition in_use (n : ramfs_node) : bool := truth (n_used n).
Definition used_file (n : ramfs_node) : bool := in_use n && (n_kind n =? RAMFS_FILE).
Definition used_dir (n : ramfs_node) : bool := in_use n && (n_kind n =? RAMFS_DIRECTORY).

(** A path the code accepts. *)
Record good_path (p : list Z) : Prop := {
  gp_cstring : cstring p;
  gp_head : p !! 0%nat = Some 47;
  gp_length : (1 < length p < 48)%nat;
}.

Record node_ok (n : ramfs_node) : Prop := {
  no_path : good_path (n_path n);
  no_kind : n_kind n = RAMFS_FILE \/ n_kind n = RAMFS_DIRECTORY;
  no_size : 0 <= n_size n <= VFS_MAX_FILE_SIZE;
}.

Definition node_at (ns : list ramfs_node) (p : list Z) (i : nat) (n : ramfs_node) : Prop :=
  ns !! i = Some n /\ in_use n = true /\ n_path n = p.

Definition dir_at (ns : list ramfs_node) (p : list Z) : Prop :=
  exists i n, node_at ns p i n /\ n_kind n = RAMFS_DIRECTORY.

(** The parent of [p] is the root or a directory. *)
Definition parent_ok (ns : list ramfs_node) (p : list Z) : Prop :=
  forall a t, p = a ++ 47 :: t -> 47 ∉ t -> a = [] \/ dir_at ns a.

Record tree (ns : list ramfs_node) : Prop := {
  tr_length : length ns = 16%nat;
  tr_data : forall i n, ns !! i = Some n -> length (n_data n) = 4096%nat;
  tr_nodes : forall i n, ns !! i = Some n -> in_use n = true -> node_ok n;
  tr_unique : forall i j n m, ns !! i = Some n -> ns !! j = Some m -> in_use n = true -> in_use m = true ->
    n_path n = n_path m -> i = j;
  tr_parent : forall i n, ns !! i = Some n -> in_use n = true -> parent_ok ns (n_path n);
}.

Lemma vfs_path_valid_good p : cstring p -> vfs_path_valid (Some p) = true <-> good_path p.
Proof.
  intros Hp. unfold vfs_path_valid. rewrite abs_path_valid_spec by (unfold VFS_MAX_PATH; lia).
  unfold VFS_MAX_PATH. split; [intros [? ?]; split; [done..|lia]|intros [_ ? ?]; split; [done|lia]].
Qed.

Section find.
Context (ns : list ramfs_node) (Htree : tree ns).

Lemma vfs_find_loop_spec p l k : cstring p -> drop k ns = l ->
  match vfs_find_loop p l k with
  | Some i => exists n, node_at ns p i n
  | None => forall i n, (k <= i)%nat -> ~ node_at ns p i n
  end.
Proof using Htree.
  intros Hp. revert k. induction l as [|n l IH]; intros k Hl; simpl.
  - intros i n Hi (He & _). apply lookup_lt_Some in He. apply (f_equal length) in Hl.
    rewrite length_drop in Hl. simpl in Hl. lia.
  - assert (ns !! k = Some n) as Hk by (rewrite <- (Nat.add_0_r k), <- lookup_drop, Hl; done).
    assert (drop (S k) ns = l) as Hl' by (rewrite <- Nat.add_1_r, <- drop_drop, Hl; done).
    fold (in_use n). specialize (IH (S k) Hl').
    assert (in_use n = true -> vfs_path_equals (n_path n) p = bool_decide (n_path n = p)) as Heq.
    { intros Hu. unfold vfs_path_equals. rewrite path_equals_spec by done.
      rewrite cstr_id by (by apply (tr_nodes _ Htree k n Hk Hu)). done. }
    destruct (in_use n) eqn:Hu; simpl; [rewrite Heq by done; case_bool_decide as Hnp; [by exists n|]|];
      (destruct (vfs_find_loop p l (S k)); [done|]); intros i m Hi (He & Hum & Hpm);
      (destruct (decide (i = k)) as [->|]; [congruence|]); apply (IH i m); (done || lia).
Qed.

Lemma vfs_find_Some p i : cstring p -> vfs_find p ns = Some i <-> exists n, node_at ns p i n.
Proof using Htree.
  intros Hp. pose proof (vfs_find_loop_spec p ns 0 Hp eq_refl) as Hf. unfold vfs_find.
  destruct (vfs_find_loop p ns 0) as [j|].
  - destruct Hf as (n & Hn & Hu & Hpn). split; [intros [= <-]; by exists n|].
    intros (m & Hm & Hum & Hpm). f_equal. eapply (tr_unique _ Htree j i n m); congruence.
  - split; [done|]. intros [n Hn]. destruct (Hf i n ltac:(lia) Hn).
Qed.

Lemma vfs_find_None p : cstring p -> vfs_find p ns = None <-> forall i n, ~ node_at ns p i n.
Proof using Htree.
  intros Hp. destruct (vfs_find p ns) as [i|] eqn:E.
  - apply vfs_find_Some in E as [n Hn]; [|done]. split; [done|]. intros Hno. by destruct (Hno i n).
  - split; [|done]. intros _ i n Hn. assert (vfs_find p ns = Some i) by (apply vfs_find_Some; eauto). congruence.
Qed.

(** The lookup that every operation starts with. *)
Lemma vfs_find_node p : cstring p ->
  match vfs_find p ns ≫= (fun i => (i,.) <$> ns !! i) with
  | Some (i, n) => node_at ns p i n
  | None => forall i n, ~ node_at ns p i n
  end.
Proof using Htree.
  intros Hp. destruct (vfs_find p ns) as [i|] eqn:E; simpl.
  - apply vfs_find_Some in E as (n & Hn); [|done]. pose proof Hn as (-> & _). done.
  - by apply vfs_find_None.
Qed.

Lemma node_at_unique p i n j m : node_at ns p i n -> node_at ns p j m -> i = j /\ n = m.
Proof using Htree.
  intros (Hi & Hu & Hp) (Hj & Hv & Hq).
  assert (i = j) as <- by (eapply (tr_unique _ Htree i j n m); congruence). split; congruence.
Qed.

Lemma vfs_parent_exists_spec p : good_path p -> vfs_parent_exists p ns = true <-> parent_ok ns p.
Proof using Htree.
  intros [Hc Hh Hl]. destruct (split_last_slash p) as (a & t & -> & Ht).
  { eapply list_elem_of_lookup_2; eauto. }
  unfold vfs_parent_exists. rewrite last_slash_spec by done.
  assert (parent_ok ns (a ++ 47 :: t) <-> a = [] \/ dir_at ns a) as ->.
  { split; [intros Hpo; by apply (Hpo a t)|]. intros Ha b u Heq Hu.
    assert (length a = length b) as Hab by (by rewrite <- (last_slash_spec a t Ht), Heq, last_slash_spec).
    apply app_inj_1 in Heq as [-> _]; done. }
  destruct a as [|c a]; simpl; [tauto|].
  change (c :: take (length a) (a ++ 47 :: t)) with (take (length (c :: a)) ((c :: a) ++ 47 :: t)).
  rewrite take_app_length.
  assert (cstring (c :: a)) as Hca by (by apply Forall_app in Hc as [? _]).
  destruct (vfs_find (c :: a) ns) as [i|] eqn:E.
  - apply vfs_find_Some in E as [n Hn]; [|done]. unfold is_directory. pose proof Hn as (-> & _).
    split.
    + intros Hk. right. exists i, n. split; [done|]. lia.
    + intros [|(j & m & Hm & Hk)]; [done|]. destruct (node_at_unique _ _ _ _ _ Hn Hm) as [-> ->]. lia.
  - split; [done|]. intros [|(j & m & Hm & Hk)]; [done|].
    by destruct (proj1 (vfs_find_None (c :: a) Hca) E j m).
Qed.

(** Every proper prefix of a used path that ends before a slash is a directory. *)
Lemma ancestor_dir i n d t : ns !! i = Some n -> in_use n = true -> n_path n = d ++ 47 :: t -> d ≠ [] ->
  dir_at ns d.
Proof using Htree.
  remember (length t) as k eqn:Hk. revert i n t Hk.
  induction (lt_wf k) as [k _ IH]. intros i n t -> Hi Hu Hp Hd.
  pose proof (tr_parent _ Htree i n Hi Hu) as Hpar. rewrite Hp in Hpar.
  destruct (split_last_slash (d ++ 47 :: t)) as (a & u & Heq & Hnu); [set_solver|].
  pose proof (Hpar a u Heq Hnu) as Ha.
  destruct (cut_below d t a u Heq Hnu) as [[-> ->]|(r & -> & ->)].
  - destruct Ha; [done|]. done.
  - destruct Ha as [Hnil|(j & m & (Hj & Hum & Hpm) & _)]; [by destruct d|].
    eapply (IH (length r)); eauto. rewrite length_app. simpl. lia.
Qed.
End find.

(** *** Updating one node *)

Lemma lookup_insert_cases (ns : list ramfs_node) i old new j m :
  ns !! i = Some old -> <[i := new]> ns !! j = Some m <->
  (j = i /\ m = new) \/ (j ≠ i /\ ns !! j = Some m).
Proof.
  intros Hi. destruct (decide (j = i)) as [->|Hne].
  - rewrite list_lookup_insert_eq by (by eapply lookup_lt_Some). naive_solver.
  - rewrite list_lookup_insert_ne by done. naive_solver.
Qed.

(** Directories other than the changed node stay. *)
Lemma dir_at_insert ns i old new d :
  ns !! i = Some old -> dir_at ns d ->
  (in_use old = true -> n_kind old = RAMFS_DIRECTORY -> n_path old = d ->
   in_use new = true /\ n_kind new = RAMFS_DIRECTORY /\ n_path new = d) ->
  dir_at (<[i := new]> ns) d.
Proof.
  intros Hi (j & m & (Hj & Hu & Hp) & Hk) Hsame. destruct (decide (j = i)) as [->|Hne].
  - rewrite Hi in Hj. injection Hj as <-. destruct (Hsame Hu Hk Hp) as (? & ? & ?).
    exists i, new. unfold node_at. rewrite list_lookup_insert_eq by (by eapply lookup_lt_Some). done.
  - exists j, m. unfold node_at. by rewrite list_lookup_insert_ne.
Qed.

Lemma tree_add ns i old new :
  tree ns -> ns !! i = Some old -> in_use old = false ->
  in_use new = true -> node_ok new -> length (n_data new) = 4096%nat ->
  (forall j m, ~ node_at ns (n_path new) j m) -> parent_ok ns (n_path new) ->
  tree (<[i := new]> ns).
Proof.
  intros [Hlen Hdat Hok Huniq Hpar] Hi Hfree Hu Hnew Hd Hfresh Hp.
  assert (forall d, dir_at ns d -> dir_at (<[i := new]> ns) d) as Hmono.
  { intros d Hdir. apply (dir_at_insert ns i old); [done..|]. congruence. }
  split.
  - by rewrite length_insert.
  - intros j m [[-> ->]|[_ Hj]]%(lookup_insert_cases _ _ _ _ _ _ Hi); eauto.
  - intros j m [[-> ->]|[_ Hj]]%(lookup_insert_cases _ _ _ _ _ _ Hi); eauto.
  - intros j k m m' [[-> ->]|[Hnj Hj]]%(lookup_insert_cases _ _ _ _ _ _ Hi)
      [[-> ->]|[Hnk Hk]]%(lookup_insert_cases _ _ _ _ _ _ Hi) Hum Hum' Heq; try done.
    + destruct (Hfresh k m'). done.
    + destruct (Hfresh j m). done.
    + eauto.
  - intros j m Hj Hum. intros a t Ha Ht.
    apply (lookup_insert_cases _ _ old) in Hj as [[-> ->]|[_ Hj]]; [| |done].
    + destruct (Hp a t Ha Ht); auto.
    + destruct (Hpar j m Hj Hum a t Ha Ht); auto.
Qed.

(** A node that keeps its place in the tree. *)
Lemma tree_update ns i old new :
  tree ns -> ns !! i = Some old -> in_use old = true -> in_use new = true ->
  n_path new = n_path old -> n_kind new = n_kind old -> 0 <= n_size new <= VFS_MAX_FILE_SIZE ->
  length (n_data new) = 4096%nat -> tree (<[i := new]> ns).
Proof.
  intros [Hlen Hdat Hok Huniq Hpar] Hi Huo Hu Hp Hk Hs Hd.
  assert (forall d, dir_at ns d -> dir_at (<[i := new]> ns) d) as Hmono.
  { intros d Hdir. apply (dir_at_insert ns i old); [done..|]. intros. split_and!; congruence. }
  split.
  - by rewrite length_insert.
  - intros j m [[-> ->]|[_ Hj]]%(lookup_insert_cases _ _ _ _ _ _ Hi); eauto.
  - intros j m [[-> ->]|[_ Hj]]%(lookup_insert_cases _ _ _ _ _ _ Hi) Hum; eauto.
    destruct (Hok i old Hi Huo). split; [by rewrite Hp|by rewrite Hk|done].
  - intros j k m m' [[-> ->]|[Hnj Hj]]%(lookup_insert_cases _ _ _ _ _ _ Hi)
      [[-> ->]|[Hnk Hk']]%(lookup_insert_cases _ _ _ _ _ _ Hi) Hum Hum' Heq; [done| | |].
    + rewrite Hp in Heq. by apply (Huniq i k old m').
    + rewrite Hp in Heq. by apply (Huniq j i m old).
    + by apply (Huniq j k m m').
  - intros j m Hj Hum a t Ha Ht.
    apply (lookup_insert_cases _ _ old) in Hj as [[-> ->]|[_ Hj]]; [| |done].
    + rewrite Hp in Ha. destruct (Hpar i old Hi Huo a t Ha Ht); auto.
    + destruct (Hpar j m Hj Hum a t Ha Ht); auto.
Qed.

Lemma tree_remove ns i old new :
  tree ns -> ns !! i = Some old -> in_use old = true -> in_use new = false ->
  length (n_data new) = 4096%nat ->
  (n_kind old = RAMFS_DIRECTORY -> forall j m, ns !! j = Some m -> in_use m = true -> j ≠ i ->
     below (n_path old) (n_path m) = false) ->
  tree (<[i := new]> ns).
Proof.
  intros [Hlen Hdat Hok Huniq Hpar] Hi Huo Hu Hd Hbelow. split.
  - by rewrite length_insert.
  - intros j m [[-> ->]|[_ Hj]]%(lookup_insert_cases _ _ _ _ _ _ Hi); eauto.
  - intros j m [[-> ->]|[_ Hj]]%(lookup_insert_cases _ _ _ _ _ _ Hi) Hum; eauto. congruence.
  - intros j k m m' [[-> ->]|[Hnj Hj]]%(lookup_insert_cases _ _ _ _ _ _ Hi)
      [[-> ->]|[Hnk Hk']]%(lookup_insert_cases _ _ _ _ _ _ Hi) Hum Hum' Heq; try congruence; eauto.
  - intros j m Hj Hum a t Ha Ht.
    apply (lookup_insert_cases _ _ old) in Hj as [[-> ->]|[Hne Hj]]; [congruence| |done].
    destruct (Hpar j m Hj Hum a t Ha Ht) as [|Hdir]; [by left|right].
    apply (dir_at_insert ns i old); [done..|]. intros _ Hk Hpo.
    assert (below (n_path old) (n_path m) = true) as Hb.
    { apply below_spec; [apply (Hok i old Hi Huo)|]. exists t. congruence. }
    rewrite (Hbelow Hk j m Hj Hum Hne) in Hb. done.
Qed.

(** *** Renaming a subtree *)

(** Where [vfs_rename] moves a path. *)
Definition moved (old new p : list Z) : list Z :=
  if decide (p = old) then new
  else if below old p then new ++ drop (length old) p else p.

Lemma moved_old old new : moved old new old = new.
Proof. unfold moved. by rewrite decide_True. Qed.

Lemma moved_below old new t : cstring old -> moved old new (old ++ 47 :: t) = new ++ 47 :: t.
Proof.
  intros Hc. unfold moved. rewrite decide_False.
  - rewrite (proj2 (below_spec old _ Hc)) by eauto. by rewrite drop_app_length.
  - intros Heq. apply (f_equal length) in Heq. rewrite length_app in Heq. simpl in Heq. lia.
Qed.

Lemma moved_other old new p : p ≠ old -> below old p = false -> moved old new p = p.
Proof. intros Hne Hb. unfold moved. by rewrite decide_False, Hb by done. Qed.

(** The three cases of a path. *)
Lemma moved_cases old new p : cstring old ->
  (p = old /\ moved old new p = new) \/
  (exists t, p = old ++ 47 :: t /\ moved old new p = new ++ 47 :: t) \/
  (p ≠ old /\ below old p = false /\ moved old new p = p).
Proof.
  intros Hc. destruct (decide (p = old)) as [->|Hne]; [left; by rewrite moved_old|right].
  destruct (below old p) eqn:E.
  - left. apply below_spec in E as [t ->]; [|done]. exists t. split; [done|by apply moved_below].
  - right. split_and!; [done..|by apply moved_other].
Qed.

Definition move_node (old new : list Z) (n : ramfs_node) : ramfs_node :=
  if in_use n then vfs_set_path n (moved old new (n_path n)) else n.

Lemma node_at_good ns p i n : tree ns -> node_at ns p i n -> good_path p.
Proof. intros Htree (Hi & Hu & <-). by apply (tr_nodes _ Htree i n). Qed.

Section rename.
Context (ns : list ramfs_node) (Htree : tree ns) (old new : list Z) (i : nat) (n : ramfs_node).
Context (Hn : node_at ns old i n).
Context (Hnew : good_path new) (Hfresh : forall j m, ~ node_at ns new j m) (Hpar : parent_ok ns new).
Context (Hnest : n_kind n = RAMFS_DIRECTORY -> below old new = false).
Context (Hshort : forall j m t, ns !! j = Some m -> in_use m = true -> n_path m = old ++ 47 :: t ->
  Z.of_nat (length (new ++ 47 :: t)) < 48).

Lemma old_good : good_path old.
Proof using Htree Hn. exact (node_at_good ns old i n Htree Hn). Qed.

Lemma old_cstring : cstring old.
Proof using Htree Hn. apply old_good. Qed.

(** Nothing is at or below the new name. *)
Lemma new_free j m t : ns !! j = Some m -> in_use m = true -> n_path m ≠ new /\ n_path m ≠ new ++ 47 :: t.
Proof using All.
  intros Hj Hu. split; intros Hp.
  - by apply (Hfresh j m).
  - destruct (ancestor_dir ns Htree j m new t Hj Hu Hp) as (k & m' & Hm' & _).
    { destruct Hnew as [_ Hh _]. by intros ->. }
    by apply (Hfresh k m').
Qed.

(** The new name is not at or below the old one. *)
Lemma new_outside : new ≠ old /\ below old new = false.
Proof using All.
  split; [intros ->; by apply (Hfresh i n)|].
  apply not_true_is_false. intros E.
  destruct (tr_nodes _ Htree i n ltac:(apply Hn) ltac:(apply Hn)) as [_ [Hk|Hk] _];
    [|rewrite (Hnest Hk) in E; done].
  exfalso. apply below_spec in E as [t Heq]; [|exact old_cstring].
  assert (dir_at ns old) as (j & m & Hm & Hkm).
  { destruct (split_last_slash new) as (a & u & Hau & Hnu); [rewrite Heq; set_solver|].
    pose proof (Hpar a u Hau Hnu) as Ha. rewrite Heq in Hau.
    destruct (cut_below old t a u Hau Hnu) as [[-> _]|(r & -> & _)].
    - destruct Ha as [Hnil|]; [|done]. destruct old_good as [_ Hh _]. by rewrite Hnil in Hh.
    - destruct Ha as [Hnil|(j & m & (Hj & Hu & Hp) & _)]; [by destruct old|].
      eapply (ancestor_dir ns Htree j m); eauto. intros Hnil. destruct old_good as [_ Hh _]. by rewrite Hnil in Hh. }
  destruct (node_at_unique ns Htree _ _ _ _ _ Hn Hm) as [_ Hnm].
  rewrite Hnm, Hkm in Hk. discriminate Hk.
Qed.

Lemma moved_inj j k m m' :
  ns !! j = Some m -> ns !! k = Some m' -> in_use m = true -> in_use m' = true ->
  moved old new (n_path m) = moved old new (n_path m') -> n_path m = n_path m'.
Proof using All.
  intros Hj Hk Hu Hu' Heq.
  destruct (moved_cases old new (n_path m) old_cstring) as [[Hp Hm]|[(t & Hp & Hm)|(H1 & H2 & Hm)]];
    destruct (moved_cases old new (n_path m') old_cstring) as [[Hp' Hm']|[(t' & Hp' & Hm')|(H1' & H2' & Hm')]];
    rewrite Hm, Hm' in Heq; try congruence.
  - apply (f_equal length) in Heq. rewrite length_app in Heq. simpl in Heq. lia.
  - by destruct (proj1 (new_free k m' [] Hk Hu')).
  - apply (f_equal length) in Heq. rewrite length_app in Heq. simpl in Heq. lia.
  - apply app_inv_head in Heq. congruence.
  - by destruct (proj2 (new_free k m' t Hk Hu')).
  - by destruct (proj1 (new_free j m [] Hj Hu)).
  - by destruct (proj2 (new_free j m t' Hj Hu)).
Qed.

Let ns' := move_node old new <$> ns.

Lemma lookup_moved j m' : ns' !! j = Some m' <-> exists m, ns !! j = Some m /\ m' = move_node old new m.
Proof. unfold ns'. rewrite list_lookup_fmap. destruct (ns !! j); simpl; naive_solver. Qed.

Lemma in_use_moved m : in_use (move_node old new m) = in_use m.
Proof. unfold move_node. destruct (in_use m) eqn:E; [|done]. done. Qed.

Lemma path_moved m : in_use m = true -> n_path (move_node old new m) = moved old new (n_path m).
Proof. unfold move_node. by intros ->. Qed.

Lemma dir_at_moved d : dir_at ns d -> dir_at ns' (moved old new d).
Proof.
  intros (j & m & (Hj & Hu & <-) & Hk). exists j, (move_node old new m). split; [split_and!|].
  - apply lookup_moved. eauto.
  - by rewrite in_use_moved.
  - by apply path_moved.
  - unfold move_node. by rewrite Hu.
Qed.

(** The parent of a moved path is the moved parent. *)
Lemma parent_moved j m : ns !! j = Some m -> in_use m = true -> parent_ok ns' (moved old new (n_path m)).
Proof using All.
  intros Hj Hu. pose proof (tr_parent _ Htree j m Hj Hu) as Hpm.
  destruct (moved_cases old new (n_path m) old_cstring) as [[Hp ->]|[(r & Hp & ->)|(Hne & Hb & ->)]];
    intros a t Ha Ht.
  - destruct (Hpar a t Ha Ht) as [|Hdir]; [by left|right].
    destruct (moved_cases old new a old_cstring) as [[-> _]|[(u & -> & _)|(_ & _ & <-)]]; [| |by apply dir_at_moved];
      exfalso; destruct new_outside as [_ Hout]; rewrite (proj2 (below_spec old new old_cstring)) in Hout; try done;
      rewrite Ha, <- ?(assoc_L (++)); eauto.
  - rewrite Hp in Hpm. destruct (cut_below new r a t Ha Ht) as [[-> ->]|(r' & -> & ->)].
    + right. destruct (Hpm old t eq_refl Ht) as [Hnil|Hdir].
      * destruct old_good as [_ Hh _]. by rewrite Hnil in Hh.
      * rewrite <- (moved_old old new). by apply dir_at_moved.
    + destruct (Hpm (old ++ 47 :: r') t) as [Hnil|Hdir]; [by rewrite <- (assoc_L (++))|done|by destruct old|].
      right. rewrite <- (moved_below old new) by (exact old_cstring). by apply dir_at_moved.
  - destruct (Hpm a t Ha Ht) as [|Hdir]; [by left|right].
    destruct (moved_cases old new a old_cstring) as [[-> _]|[(u & -> & _)|(_ & _ & <-)]]; [| |by apply dir_at_moved];
      exfalso; rewrite (proj2 (below_spec old _ old_cstring)) in Hb; try done; rewrite Ha, <- ?(assoc_L (++)); eauto.
Qed.

Lemma good_moved j m : ns !! j = Some m -> in_use m = true -> good_path (moved old new (n_path m)).
Proof using All.
  intros Hj Hu. pose proof (no_path _ (tr_nodes _ Htree j m Hj Hu)) as Hg.
  destruct (moved_cases old new (n_path m) old_cstring) as [[_ ->]|[(t & Hp & ->)|(_ & _ & ->)]]; [done| |done].
  pose proof (Hshort j m t Hj Hu Hp) as Hs. destruct Hnew as [Hc Hh Hl]. rewrite Hp in Hg. split.
  - apply Forall_app. split; [done|]. destruct Hg as [Hg _ _]. by apply Forall_app in Hg as [_ ?].
  - rewrite lookup_app_l by lia. done.
  - rewrite length_app in Hs |- *. simpl in *. lia.
Qed.

Lemma tree_rename : tree ns'.
Proof using All.
  split.
  - unfold ns'. rewrite length_fmap. apply Htree.
  - intros j m' (m & Hj & ->)%lookup_moved. unfold move_node.
    pose proof (tr_data _ Htree j m Hj). by destruct (in_use m).
  - intros j m' (m & Hj & ->)%lookup_moved Hu. rewrite in_use_moved in Hu.
    destruct (tr_nodes _ Htree j m Hj Hu) as [_ Hk Hs]. pose proof (good_moved j m Hj Hu).
    unfold move_node. rewrite Hu. by split.
  - intros j k m1 m2 (m & Hj & ->)%lookup_moved (m' & Hk & ->)%lookup_moved Hu Hu' Heq.
    rewrite in_use_moved in Hu, Hu'. rewrite !path_moved in Heq by done.
    apply (tr_unique _ Htree j k m m'); try done. by eapply moved_inj.
  - intros j m' (m & Hj & ->)%lookup_moved Hu. rewrite in_use_moved in Hu. rewrite path_moved by done.
    by eapply parent_moved.
Qed.
End rename.

(** *** What is at a path *)

Definition file_of (n : ramfs_node) : option (list Z) :=
  if n_kind n =? RAMFS_FILE then Some (take (Z.to_nat (n_size n)) (n_data n)) else None.

(** The contents of the file at [p], if there is one. *)
Definition file_in (ns : list ramfs_node) (p : list Z) : option (list Z) :=
  i ← vfs_find p ns; n ← ns !! i; file_of n.

Lemma file_in_at ns p i n : tree ns -> node_at ns p i n -> file_in ns p = file_of n.
Proof.
  intros Htree Hn. pose proof (gp_cstring _ (node_at_good ns p i n Htree Hn)) as Hp. unfold file_in.
  rewrite (proj2 (vfs_find_Some ns Htree p i Hp)) by eauto. simpl. destruct Hn as (-> & _). done.
Qed.

Lemma file_in_none ns p : tree ns -> cstring p -> (forall i n, ~ node_at ns p i n) -> file_in ns p = None.
Proof. intros Htree Hp Hno. unfold file_in. by rewrite (proj2 (vfs_find_None ns Htree p Hp)). Qed.

(** The effect of storing one node on the files. *)
Lemma file_in_insert ns i old new q :
  tree ns -> tree (<[i := new]> ns) -> ns !! i = Some old -> cstring q ->
  file_in (<[i := new]> ns) q =
    if in_use new && bool_decide (n_path new = q) then file_of new
    else if in_use old && bool_decide (n_path old = q) then None else file_in ns q.
Proof.
  intros Htree Htree' Hi Hq. destruct (in_use new && _) eqn:E.
  - apply andb_true_iff in E as [Hu Hp%bool_decide_eq_true_1].
    apply (file_in_at _ q i new); [done|]. split; [|done].
    by rewrite list_lookup_insert_eq by (by eapply lookup_lt_Some).
  - destruct (in_use old && _) eqn:E'.
    + apply andb_true_iff in E' as [Hu Hp%bool_decide_eq_true_1].
      apply file_in_none; [done..|]. intros j m (Hj & Hum & Hpm).
      apply (lookup_insert_cases _ _ _ _ _ _ Hi) in Hj as [[-> ->]|[Hne Hj]].
      * by rewrite Hum, bool_decide_eq_true_2 in E.
      * apply Hne. eapply (tr_unique _ Htree j i m old); congruence.
    + destruct (vfs_find q ns) as [j|] eqn:Ef.
      * apply (vfs_find_Some ns Htree) in Ef as [m Hm]; [|done]. rewrite (file_in_at ns q j m) by done.
        apply (file_in_at _ q j m); [done|]. destruct Hm as (Hj & Hum & Hpm).
        assert (j ≠ i) as Hne.
        { intros ->. rewrite Hi in Hj. injection Hj as <-. by rewrite Hum, bool_decide_eq_true_2 in E'. }
        split; [by rewrite list_lookup_insert_ne|done].
      * assert (file_in ns q = None) as -> by (unfold file_in; by rewrite Ef).
        pose proof (proj1 (vfs_find_None ns Htree q Hq) Ef) as Hno. clear Ef.
        apply file_in_none; [done..|]. intros j m (Hj & Hum & Hpm).
        apply (lookup_insert_cases _ _ _ _ _ _ Hi) in Hj as [[-> ->]|[Hne Hj]].
        -- by rewrite Hum, bool_decide_eq_true_2 in E.
        -- by apply (Hno j m).
Qed.

(** The two passes of [vfs_rename] move every path of the subtree. *)
Lemma rename_nodes ns old new i n : tree ns -> node_at ns old i n ->
  alter (fun n => vfs_set_path n new) i (rename_below old new i ns) = move_node old new <$> ns.
Proof.
  intros Htree Hn. apply list_eq. intros j. rewrite list_lookup_fmap.
  destruct (ns !! j) as [m|] eqn:Hj.
  - assert (rename_below old new i ns !! j =
      Some (if moves old i j m then vfs_set_path m (new ++ drop (length old) (n_path m)) else m)) as Hr.
    { unfold rename_below. by rewrite list_lookup_imap, Hj. }
    unfold moves in Hr. fold (in_use m) in Hr. simpl. unfold move_node.
    destruct (decide (j = i)) as [->|Hne].
    + destruct Hn as (Hi & Hu & Hp). rewrite Hi in Hj. injection Hj as <-.
      rewrite list_lookup_alter_eq, Hr, Nat.eqb_refl, andb_false_r. simpl. by rewrite Hu, Hp, moved_old.
    + rewrite list_lookup_alter_ne, Hr by done. rewrite (proj2 (Nat.eqb_neq j i)) by done.
      destruct (in_use m) eqn:Hu; simpl; [|done]. f_equal. unfold moved.
      rewrite decide_False; [by destruct (below old (n_path m)), m|].
      intros Hp. apply Hne. destruct Hn as (Hi & Hui & Hpi). eapply (tr_unique _ Htree j i m n); congruence.
  - simpl. apply lookup_ge_None. rewrite length_alter. unfold rename_below. rewrite length_imap.
    by apply lookup_ge_None.
Qed.

Lemma existsb_imap_pair (f : nat -> ramfs_node -> bool) (ns : list ramfs_node) :
  existsb (fun '(i, n) => f i n) (imap pair ns) = false ->
  forall i n, ns !! i = Some n -> f i n = false.
Proof.
  intros He i n Hi. apply not_true_is_false. intros Hf.
  assert (existsb (fun '(i, n) => f i n) (imap pair ns) = true) as Ht; [|congruence].
  apply existsb_exists. exists (i, n). split; [|done].
  apply list_elem_of_In, list_elem_of_lookup. exists i. by rewrite list_lookup_imap, Hi.
Qed.

Lemma vfs_alloc_loop_spec l k :
  match vfs_alloc_loop l k with
  | Some i => exists n, (k <= i)%nat /\ l !! (i - k)%nat = Some n /\ in_use n = false
  | None => forall n, n ∈ l -> in_use n = true
  end.
Proof.
  revert k. induction l as [|n l IH]; intros k; simpl; [set_solver|].
  fold (in_use n). destruct (in_use n) eqn:Hu; simpl.
  - specialize (IH (S k)). destruct (vfs_alloc_loop l (S k)) as [i|].
    + destruct IH as (m & Hi & Hm & Hf). exists m. split_and!; [lia| |done].
      replace (i - k)%nat with (S (i - S k)) by lia. done.
    + intros m [->|Hm]%elem_of_cons; auto.
  - exists n. split_and!; [lia| |done]. by rewrite Nat.sub_diag.
Qed.

Lemma vfs_alloc_node_spec ns :
  match vfs_alloc_node ns ≫= (fun i => (i,.) <$> ns !! i) with
  | Some (i, n) => ns !! i = Some n /\ in_use n = false
  | None => forall n, n ∈ ns -> in_use n = true
  end.
Proof.
  unfold vfs_alloc_node. pose proof (vfs_alloc_loop_spec ns 0) as Hs.
  destruct (vfs_alloc_loop ns 0) as [i|]; simpl; [|done].
  destruct Hs as (n & _ & Hi & Hf). rewrite Nat.sub_0_r in Hi. by rewrite Hi.
Qed.

(** ** The invariant of the file system *)

Section inv.
Context {B : Type} `{BlockDevice B}.
Implicit Type v : vfs B.

Record vfs_inv v : Prop := {
  vi_tree : tree (nodes v);
  vi_files : file_count v = count_if used_file (nodes v) /\ file_count v <= VFS_MAX_FILES;
  vi_dirs : dir_count v = count_if used_dir (nodes v) /\ dir_count v <= VFS_MAX_DIRS;
  vi_buffer : length (disk_file_buffer v) = 4096%nat;
}.

Lemma count_in_use ns : tree ns -> count_if in_use ns = count_if used_file ns + count_if used_dir ns.
Proof.
  intros Htree.
  assert (forall n, n ∈ ns -> in_use n = true -> n_kind n = RAMFS_FILE \/ n_kind n = RAMFS_DIRECTORY) as Hk.
  { intros n Hn Hu. apply list_elem_of_lookup in Hn as [i Hi]. by apply (tr_nodes _ Htree i n). }
  clear Htree. induction ns as [|n ns IH]; simpl; [done|].
  rewrite IH by (intros m Hm; apply Hk; by right).
  specialize (Hk n ltac:(by left)). unfold used_file, used_dir. destruct (in_use n); simpl; [|lia].
  destruct (Hk eq_refl) as [-> | ->]; simpl; lia.
Qed.

(** While either count is below its limit there is an unused node. *)
Lemma alloc_succeeds v : vfs_inv v -> file_count v < VFS_MAX_FILES \/ dir_count v < VFS_MAX_DIRS ->
  exists i n, vfs_alloc_node (nodes v) ≫= (fun i => (i,.) <$> nodes v !! i) = Some (i, n) /\
    nodes v !! i = Some n /\ in_use n = false.
Proof.
  intros [Htree [Hf Hf'] [Hd Hd'] _] Hlt. pose proof (vfs_alloc_node_spec (nodes v)) as Ha.
  destruct (_ ≫= _) as [[i n]|]; [by exists i, n|]. exfalso.
  pose proof (count_in_use (nodes v) Htree) as Hc.
  apply count_if_all in Ha. rewrite Ha, (tr_length _ Htree) in Hc.
  unfold VFS_MAX_FILES, VFS_MAX_DIRS in *. lia.
Qed.

(** Storing a node, with the counts that follow. *)
Lemma vfs_inv_insert v i old new files dirs :
  vfs_inv v -> nodes v !! i = Some old -> tree (<[i := new]> (nodes v)) ->
  files = file_count v - c_int (used_file old) + c_int (used_file new) ->
  dirs = dir_count v - c_int (used_dir old) + c_int (used_dir new) ->
  files <= VFS_MAX_FILES -> dirs <= VFS_MAX_DIRS ->
  vfs_inv (set_counts files dirs (set_nodes (<[i := new]> (nodes v)) v)).
Proof.
  intros [Htree [Hf Hf'] [Hd Hd'] Hb] Hi Htree' -> -> Hbf Hbd. split; simpl; [done|..|done].
  - rewrite (count_if_insert _ _ _ old) by done. split; [congruence|done].
  - rewrite (count_if_insert _ _ _ old) by done. split; [congruence|done].
Qed.

Lemma c_int_range b : 0 <= c_int b <= 1.
Proof. destruct b; simpl; lia. Qed.

Lemma count_pos f ns i (n : ramfs_node) : ns !! i = Some n -> f n = true -> 1 <= count_if f ns.
Proof.
  revert i. induction ns as [|m ns IH]; intros [|i]; simpl; try done.
  - intros [= ->] ->. pose proof (count_if_bound f ns). simpl. lia.
  - intros Hi Hf. specialize (IH i Hi Hf). destruct (f m); simpl; lia.
Qed.

(** The guard of [vfs_mkdir] and [vfs_create] on a new name. *)
Lemma new_name_guard v p : vfs_inv v -> cstring p ->
  negb (vfs_path_valid (Some p)) || bool_decide (is_Some (vfs_find p (nodes v))) ||
    negb (vfs_parent_exists p (nodes v)) = false <->
  good_path p /\ (forall i n, ~ node_at (nodes v) p i n) /\ parent_ok (nodes v) p.
Proof.
  intros [Htree _ _ _] Hp. rewrite !orb_false_iff, !negb_false_iff, vfs_path_valid_good by done.
  rewrite bool_decide_eq_false, <- eq_None_not_Some, (vfs_find_None _ Htree p Hp).
  split; intros H'; (assert (good_path p) as Hg by apply H');
    rewrite (vfs_parent_exists_spec _ Htree p Hg) in *; tauto.
Qed.

Lemma vfs_mkdir_cases v p : vfs_inv v -> cstring p ->
  let ok := good_path p /\ (forall i n, ~ node_at (nodes v) p i n) /\ parent_ok (nodes v) p /\
            dir_count v < VFS_MAX_DIRS in
  let (res, v') := vfs_mkdir (Some p) v in
  (res = 0 /\ v' = v /\ ~ ok) \/
  (res = 1 /\ ok /\ vfs_inv v' /\ dir_at (nodes v') p /\
   forall q, cstring q -> file_in (nodes v') q = file_in (nodes v) q).
Proof.
  intros Hinv Hp ok. unfold vfs_mkdir. cbn [from_option id].
  destruct (_ || (dir_count v >=? VFS_MAX_DIRS)) eqn:Eg.
  { left. split_and!; [done..|]. intros (Hg & Hno & Hpar & Hd).
    apply orb_true_iff in Eg as [Eg|Eg]; [|lia].
    by rewrite (proj2 (new_name_guard v p Hinv Hp)) in Eg. }
  apply orb_false_iff in Eg as [Eg Ed]. apply (new_name_guard v p Hinv Hp) in Eg as (Hg & Hno & Hpar).
  destruct (alloc_succeeds v Hinv) as (i & n & -> & Hi & Hfree); [right; lia|].
  right. set (new := Node p 0 (n_data n) RAMFS_DIRECTORY 1). pose proof Hinv as [Htree [Hf Hf'] [Hd Hd'] _].
  assert (tree (<[i := new]> (nodes v))) as Htree'.
  { apply (tree_add _ i n); try done; [|by apply (tr_data _ Htree i n)].
    split; [done|by right|simpl; unfold VFS_MAX_FILE_SIZE; lia]. }
  split; [done|]. split; [unfold ok; split_and!; [done..|lia]|]. split_and!.
  - pose proof (count_if_bound used_dir (nodes v)).
    rewrite u64_small by (unfold VFS_MAX_DIRS in *; lia).
    apply (vfs_inv_insert v i n); try done; unfold used_file, used_dir; rewrite ?Hfree; simpl; lia.
  - exists i, new. split; [|done]. split; [|done]. simpl.
    by rewrite list_lookup_insert_eq by (by eapply lookup_lt_Some).
  - intros q Hq. simpl. rewrite (file_in_insert _ _ n) by done. rewrite Hfree. simpl.
    case_bool_decide as Hpq; [|done]. simpl. subst q. symmetry. by apply file_in_none.
Qed.

Lemma vfs_create_cases v p data sz : vfs_inv v -> cstring p -> vfs_disk_path (Some p) = None ->
  0 <= sz -> sz <= Z.of_nat (length data) ->
  let ok := good_path p /\ (forall i n, ~ node_at (nodes v) p i n) /\ parent_ok (nodes v) p /\
            file_count v < VFS_MAX_FILES /\ sz <= VFS_MAX_FILE_SIZE in
  let (res, v') := vfs_create (Some p) (Some data) sz v in
  (res = 0 /\ v' = v /\ ~ ok) \/
  (res = 1 /\ ok /\ vfs_inv v' /\ disk v' = disk v /\
   forall q, cstring q -> file_in (nodes v') q =
     if decide (q = p) then Some (take (Z.to_nat sz) data) else file_in (nodes v) q).
Proof.
  intros Hinv Hp Hdp Hsz0 Hsl ok. unfold vfs_create. rewrite Hdp. cbn [from_option id].
  rewrite andb_false_r, orb_false_r.
  destruct (_ || (file_count v >=? VFS_MAX_FILES)) eqn:Eg.
  { left. split_and!; [done..|]. intros (Hg & Hno & Hpar & Hf & Hsz).
    apply orb_true_iff in Eg as [Eg|Eg]; [|lia].
    pose proof (proj2 (new_name_guard v p Hinv Hp) (conj Hg (conj Hno Hpar))) as Hgd.
    replace (sz >? VFS_MAX_FILE_SIZE) with false in Eg by lia. rewrite orb_false_r in Eg. congruence. }
  apply orb_false_iff in Eg as [Eg Ed].
  assert (sz <= VFS_MAX_FILE_SIZE) as Hsz by (destruct (sz >? VFS_MAX_FILE_SIZE) eqn:E; [|lia];
    rewrite orb_true_r in Eg; done).
  replace (sz >? VFS_MAX_FILE_SIZE) with false in Eg by lia. rewrite orb_false_r in Eg.
  apply (new_name_guard v p Hinv Hp) in Eg as (Hg & Hno & Hpar).
  destruct (alloc_succeeds v Hinv) as (i & n & -> & Hi & Hfree); [left; lia|].
  right. set (new := Node p sz _ RAMFS_FILE 1). pose proof Hinv as [Htree [Hf Hf'] [Hd Hd'] _].
  pose proof (tr_data _ Htree i n Hi) as Hdl. unfold VFS_MAX_FILE_SIZE in Hsz.
  assert (length (take (Z.to_nat sz) data) = Z.to_nat sz) as Hlt by (rewrite length_take; lia).
  assert (n_data new = write_at (n_data n) 0 (take (Z.to_nat sz) data)) as Hnd
    by (apply copy_loop_write_at; lia).
  assert (tree (<[i := new]> (nodes v))) as Htree'.
  { apply (tree_add _ i n); try done; [|rewrite Hnd, length_write_at; lia].
    split; [done|by left|simpl; unfold VFS_MAX_FILE_SIZE; lia]. }
  split; [done|]. split; [unfold ok, VFS_MAX_FILE_SIZE; split_and!; [done..|lia|lia]|].
  split_and!; [|done|].
  - pose proof (count_if_bound used_file (nodes v)).
    rewrite u64_small by (unfold VFS_MAX_FILES in *; lia).
    apply (vfs_inv_insert v i n); try done; unfold used_file, used_dir; rewrite ?Hfree; simpl; lia.
  - intros q Hq. simpl. rewrite (file_in_insert _ _ n) by done. rewrite Hfree. simpl.
    destruct (decide (q = p)) as [->|Hne]; [|by rewrite bool_decide_eq_false_2 by congruence].
    rewrite bool_decide_eq_true_2 by done. unfold file_of. change (n_kind new =? RAMFS_FILE) with true.
    cbv iota. rewrite Hnd. f_equal. change (n_size new) with sz.
    rewrite <- Hlt at 1. by apply (take_drop_write_at (n_data n) 0); lia.
Qed.
(** Changing the size and the data of a file. *)
Lemma vfs_update_file v i n sz data p :
  vfs_inv v -> node_at (nodes v) p i n -> n_kind n = RAMFS_FILE -> 0 <= sz <= VFS_MAX_FILE_SIZE ->
  length data = 4096%nat ->
  let v' := set_nodes (<[i := Node (n_path n) sz data (n_kind n) (n_used n)]> (nodes v)) v in
  vfs_inv v' /\
  forall q, cstring q -> file_in (nodes v') q =
    if decide (q = p) then Some (take (Z.to_nat sz) data) else file_in (nodes v) q.
Proof.
  intros Hinv (Hi & Hu & Hp) Hk Hsz Hd v'. pose proof Hinv as [Htree [Hf Hf'] [Hdc Hd'] _].
  set (new := Node _ _ _ _ _) in v'.
  assert (tree (<[i := new]> (nodes v))) as Htree' by (by apply (tree_update _ i n)).
  split.
  - apply (vfs_inv_insert v i n); try done;
      unfold used_file, used_dir; change (in_use new) with (in_use n); simpl; lia.
  - intros q Hq. simpl. rewrite (file_in_insert _ _ n) by done. change (in_use new) with (in_use n).
    rewrite Hu. simpl. rewrite Hp. destruct (decide (q = p)) as [->|Hne].
    + rewrite bool_decide_eq_true_2 by done. unfold file_of. simpl. by rewrite Hk.
    + by rewrite bool_decide_eq_false_2 by congruence.
Qed.

(** A path with a file. *)
Lemma file_in_Some ns p c : tree ns -> cstring p -> file_in ns p = Some c ->
  exists i n, node_at ns p i n /\ n_kind n = RAMFS_FILE /\ c = take (Z.to_nat (n_size n)) (n_data n) /\
    Z.of_nat (length c) = n_size n /\ 0 <= n_size n <= 4096 /\ length (n_data n) = 4096%nat.
Proof.
  intros Htree Hp Hf. destruct (vfs_find p ns) as [i|] eqn:E; [|unfold file_in in Hf; by rewrite E in Hf].
  apply (vfs_find_Some ns Htree) in E as [n Hn]; [|done].
  rewrite (file_in_at ns p i n Htree Hn) in Hf. unfold file_of in Hf.
  destruct (n_kind n =? RAMFS_FILE) eqn:Hk; [|done]. injection Hf as <-. exists i, n.
  pose proof Hn as (Hi & Hu & _). pose proof (tr_data _ Htree i n Hi) as Hd.
  destruct (tr_nodes _ Htree i n Hi Hu) as [_ _ Hs]. unfold VFS_MAX_FILE_SIZE in Hs.
  split_and!; [done|lia|done| |lia|lia|done]. rewrite length_take. lia.
Qed.

Lemma vfs_find_at v p i n : vfs_inv v -> node_at (nodes v) p i n ->
  vfs_find p (nodes v) ≫= (fun i => (i,.) <$> nodes v !! i) = Some (i, n) /\
  vfs_find p (nodes v) ≫= (nodes v !!.) = Some n.
Proof.
  intros [Htree _ _ _] Hn. pose proof (gp_cstring _ (node_at_good _ _ _ _ Htree Hn)) as Hp.
  rewrite (proj2 (vfs_find_Some _ Htree p i Hp)) by eauto. simpl. destruct Hn as (-> & _). done.
Qed.

(** The bytes of a file after [buffer] is written at [offset]. *)
Definition spliced (c : list Z) (offset : nat) (bytes : list Z) : list Z :=
  take offset c ++ bytes ++ drop (offset + length bytes) c.

(** Writing into the 4096-byte array, seen on the contents. *)
Lemma spliced_data data size off bytes :
  (off <= size)%nat -> (size <= length data)%nat -> (off + length bytes <= length data)%nat ->
  take (Nat.max size (off + length bytes)) (write_at data off bytes) =
  spliced (take size data) off bytes.
Proof.
  intros Ho Hs Hb. unfold write_at, spliced. rewrite take_take, Nat.min_l by lia.
  rewrite take_app_ge by (rewrite length_take; lia). f_equal. rewrite length_take, Nat.min_l by lia.
  rewrite take_app_ge by lia. f_equal.
  apply list_eq. intros k.
  destruct (decide (k < Nat.max size (off + length bytes) - off - length bytes)%nat) as [Hk|Hk].
  - rewrite lookup_take_lt, !lookup_drop, lookup_take_lt by lia. done.
  - rewrite lookup_take_ge, lookup_drop, lookup_take_ge by lia. done.
Qed.

Lemma vfs_write_cases v p c offset buffer sz :
  vfs_inv v -> cstring p -> vfs_disk_path (Some p) = None -> file_in (nodes v) p = Some c ->
  0 <= offset <= Z.of_nat (length c) -> 0 <= sz <= Z.of_nat (length buffer) ->
  let (res, v') := vfs_write p offset (Some buffer) sz v in
  if offset + sz <=? VFS_MAX_FILE_SIZE then
    res = sz /\ vfs_inv v' /\ disk v' = disk v /\
    forall q, cstring q -> file_in (nodes v') q =
      if decide (q = p) then Some (spliced c (Z.to_nat offset) (take (Z.to_nat sz) buffer))
      else file_in (nodes v) q
  else res = -1 /\ v' = v.
Proof.
  intros Hinv Hp Hdp Hf Ho Hsz. pose proof (vi_tree _ Hinv) as Htree.
  destruct (file_in_Some _ _ _ Htree Hp Hf) as (i & n & Hn & Hk & Hc & Hlc & Hs & Hd).
  destruct (vfs_find_at v p i n Hinv Hn) as [Hfind _].
  unfold vfs_write. rewrite Hdp, Hfind. rewrite Hk. change (RAMFS_FILE =? RAMFS_FILE) with true.
  simpl. rewrite andb_false_r. simpl. unfold VFS_MAX_FILE_SIZE.
  replace (offset >? 4096) with false by lia. rewrite (u64_small (4096 - offset)) by lia. simpl.
  destruct (Z.leb_spec (offset + sz) 4096) as [Hle|Hgt]; [|by replace (sz >? 4096 - offset) with true by lia].
  replace (sz >? 4096 - offset) with false by lia. rewrite u64_small by lia.
  assert (length (take (Z.to_nat sz) buffer) = Z.to_nat sz) as Hlt by (rewrite length_take; lia).
  rewrite copy_loop_write_at by (rewrite Hlt; lia).
  destruct (vfs_update_file v i n (if offset + sz >? n_size n then offset + sz else n_size n)
    (write_at (n_data n) (Z.to_nat offset) (take (Z.to_nat sz) buffer)) p Hinv Hn Hk) as [Hinv' Hfile].
  { unfold VFS_MAX_FILE_SIZE. case_if; lia. }
  { rewrite length_write_at by (rewrite Hlt; lia). done. }
  rewrite Hk in Hinv', Hfile. split_and!; [done..|]. intros q Hq. rewrite (Hfile q Hq).
  case_decide; [|done]. f_equal. rewrite Hc, <- spliced_data by (rewrite ?Hlt; lia).
  f_equal. rewrite Hlt. case_if; lia.
Qed.
(** Growing or cutting the contents, new bytes zero. *)
Definition resized (c : list Z) (n : nat) : list Z := take n c ++ replicate (n - length c) 0.

Lemma resized_data data size n : (size <= n)%nat -> (n <= length data)%nat ->
  take n (write_at data size (replicate (n - size) 0)) = resized (take size data) n.
Proof.
  intros Hs Hn. unfold write_at, resized. rewrite take_take, Nat.min_r by lia.
  rewrite take_app_ge by (rewrite length_take; lia). f_equal. rewrite length_take, Nat.min_l by lia.
  rewrite take_app_ge by (rewrite length_replicate; lia).
  rewrite length_replicate, Nat.sub_diag, take_0, app_nil_r. done.
Qed.

Lemma vfs_truncate_cases v p c sz :
  vfs_inv v -> cstring p -> vfs_disk_path (Some p) = None -> file_in (nodes v) p = Some c -> 0 <= sz ->
  let (res, v') := vfs_truncate p sz v in
  if sz <=? VFS_MAX_FILE_SIZE then
    res = 1 /\ vfs_inv v' /\ disk v' = disk v /\
    forall q, cstring q -> file_in (nodes v') q =
      if decide (q = p) then Some (resized c (Z.to_nat sz)) else file_in (nodes v) q
  else res = 0 /\ v' = v.
Proof.
  intros Hinv Hp Hdp Hf Hsz. pose proof (vi_tree _ Hinv) as Htree.
  destruct (file_in_Some _ _ _ Htree Hp Hf) as (i & n & Hn & Hk & Hc & Hlc & Hs & Hd).
  destruct (vfs_find_at v p i n Hinv Hn) as [Hfind _].
  unfold vfs_truncate. rewrite Hdp, Hfind, Hk. change (RAMFS_FILE =? RAMFS_FILE) with true.
  simpl. unfold VFS_MAX_FILE_SIZE.
  destruct (Z.leb_spec sz 4096) as [Hle|Hgt]; [|by replace (sz >? 4096) with true by lia].
  replace (sz >? 4096) with false by lia.
  set (data := if sz >? n_size n then _ else _).
  assert (length data = 4096%nat /\ take (Z.to_nat sz) data = resized c (Z.to_nat sz)) as [Hdl Htk].
  { unfold data, zero_range. destruct (Z.gtb_spec sz (n_size n)).
    - assert (length (replicate (Z.to_nat (sz - n_size n)) 0) = (Z.to_nat sz - Z.to_nat (n_size n))%nat) as Hr
        by (rewrite length_replicate; lia).
      rewrite copy_loop_write_at by lia. split; [rewrite length_write_at; lia|].
      rewrite Hc, <- resized_data by lia. do 3 f_equal. lia.
    - split; [done|]. unfold resized. rewrite Hc, take_take, Nat.min_l by lia.
      replace (Z.to_nat sz - _)%nat with 0%nat by (rewrite length_take; lia). by rewrite app_nil_r. }
  destruct (vfs_update_file v i n sz data p Hinv Hn Hk) as [Hinv' Hfile]; [unfold VFS_MAX_FILE_SIZE; lia|done|].
  rewrite Hk in Hinv', Hfile. split_and!; [done..|]. intros q Hq. rewrite (Hfile q Hq).
  case_decide; [|done]. by rewrite Htk.
Qed.

(** What [vfs_read] copies out of the contents [c]. *)
Definition slice (c : list Z) (offset n : nat) : list Z := take n (drop offset c).

Lemma vfs_read_cases v p c offset buffer sz :
  vfs_inv v -> cstring p -> vfs_disk_path (Some p) = None -> file_in (nodes v) p = Some c ->
  0 <= offset -> 0 <= sz <= Z.of_nat (length buffer) ->
  let '(res, out, v') := vfs_read p offset (Some buffer) sz v in
  v' = v /\
  if offset <=? Z.of_nat (length c) then
    let r := slice c (Z.to_nat offset) (Z.to_nat sz) in
    res = Z.of_nat (length r) /\ out = Some (r ++ drop (length r) buffer)
  else res = -1 /\ out = Some buffer.
Proof.
  intros Hinv Hp Hdp Hf Ho Hsz. pose proof (vi_tree _ Hinv) as Htree.
  destruct (file_in_Some _ _ _ Htree Hp Hf) as (i & n & Hn & Hk & Hc & Hlc & Hs & Hd).
  destruct (vfs_find_at v p i n Hinv Hn) as [_ Hfind].
  unfold vfs_read. rewrite Hdp, Hfind, Hk. change (RAMFS_FILE =? RAMFS_FILE) with true.
  simpl. rewrite andb_false_r. simpl. rewrite Hlc.
  destruct (Z.leb_spec offset (n_size n)) as [Hle|Hgt]; [|by replace (offset >? n_size n) with true by lia].
  replace (offset >? n_size n) with false by lia. rewrite u64_small by lia. split; [done|].
  set (m := if sz >? n_size n - offset then _ else _).
  assert (take (Z.to_nat m) (drop (Z.to_nat offset) (n_data n)) = slice c (Z.to_nat offset) (Z.to_nat sz)) as Hsl.
  { unfold slice. rewrite Hc, skipn_firstn_comm, take_take. f_equal. unfold m. case_if; lia. }
  assert (Z.of_nat (length (slice c (Z.to_nat offset) (Z.to_nat sz))) = m) as Hlen.
  { rewrite <- Hsl, length_take, length_drop. unfold m. case_if; lia. }
  rewrite Hsl. split; [done|]. rewrite copy_loop_write_at.
  - unfold write_at. by rewrite take_0.
  - enough (m <= Z.of_nat (length buffer)) by lia. unfold m. case_if; lia.
Qed.

Lemma has_below_spec p i ns : has_below p i ns = false ->
  forall j m, ns !! j = Some m -> in_use m = true -> j ≠ i -> below p (n_path m) = false.
Proof.
  intros Hb j m Hj Hu Hne.
  pose proof (existsb_imap_pair
    (fun j n => truth (n_used n) && negb (j =? i)%nat && below p (n_path n)) ns Hb j m Hj) as Hf.
  simpl in Hf. fold (in_use m) in Hf. rewrite Hu, (proj2 (Nat.eqb_neq j i)) in Hf by done. done.
Qed.

Lemma has_below_found p i ns : has_below p i ns = true ->
  exists j m, ns !! j = Some m /\ in_use m = true /\ below p (n_path m) = true.
Proof.
  intros ([j m] & Hin & Hf)%existsb_exists. apply list_elem_of_In, list_elem_of_lookup in Hin as [k Hk].
  rewrite list_lookup_imap in Hk. destruct (ns !! k) as [m'|] eqn:Hm; simpl in Hk; [|done].
  injection Hk as -> ->. rewrite !andb_true_iff in Hf. destruct Hf as [[Hu _] Hb]. by exists j, m.
Qed.

Lemma vfs_remove_cases v p : vfs_inv v -> cstring p ->
  let (res, v') := vfs_remove p v in
  (res = 0 /\ v' = v /\ ((forall i n, ~ node_at (nodes v) p i n) \/
     exists j m, nodes v !! j = Some m /\ in_use m = true /\ below p (n_path m) = true)) \/
  (res = 1 /\ vfs_inv v' /\ disk v' = disk v /\ (forall i n, ~ node_at (nodes v') p i n) /\
   (forall q, cstring q -> file_in (nodes v') q = if decide (q = p) then None else file_in (nodes v) q)).
Proof.
  intros Hinv Hp. pose proof Hinv as [Htree [Hf Hf'] [Hd Hd'] _]. unfold vfs_remove.
  pose proof (vfs_find_node (nodes v) Htree p Hp) as Hfind.
  destruct (_ ≫= _) as [[i n]|]; [|left; split_and!; [done..|by left]]. pose proof Hfind as (Hi & Hu & Hpn).
  set (gone := Node [] 0 (n_data n) (n_kind n) 0).
  assert (forall m dirs files, tree (<[i := gone]> (nodes v)) -> m = <[i := gone]> (nodes v) ->
    files = file_count v - c_int (used_file n) -> dirs = dir_count v - c_int (used_dir n) ->
    let v' := set_counts files dirs (set_nodes m v) in
    vfs_inv v' /\ disk v' = disk v /\ (forall j k, ~ node_at (nodes v') p j k) /\
    (forall q, cstring q -> file_in (nodes v') q = if decide (q = p) then None else file_in (nodes v) q)) as Hgen.
  { intros m dirs files Htree' -> Hfl Hdr. split_and!; [|done|..].
    - pose proof (c_int_range (used_file n)). pose proof (c_int_range (used_dir n)).
      apply (vfs_inv_insert v i n); try done; change (used_file gone) with false;
        change (used_dir gone) with false; simpl; lia.
    - intros j k (Hj & Huk & Hpk). simpl in Hj.
      apply (lookup_insert_cases _ _ _ _ _ _ Hi) in Hj as [[-> ->]|[Hne Hj]]; [done|].
      apply Hne. eapply (tr_unique _ Htree j i k n); congruence.
    - intros q Hq. simpl. rewrite (file_in_insert _ _ n) by done. simpl. rewrite Hu, Hpn. simpl.
      destruct (decide (q = p)) as [->|Hne]; [by rewrite bool_decide_eq_true_2|].
      by rewrite bool_decide_eq_false_2 by congruence. }
  pose proof (count_if_bound used_file (nodes v)). pose proof (count_if_bound used_dir (nodes v)).
  unfold VFS_MAX_FILES, VFS_MAX_DIRS in *.
  destruct (n_kind n =? RAMFS_DIRECTORY) eqn:Hk.
  - destruct (has_below p i (nodes v)) eqn:Hb;
      [left; split_and!; [done..|right; by apply (has_below_found p i)]|right].
    assert (used_dir n = true /\ used_file n = false) as [Hud Huf].
    { unfold used_dir, used_file. rewrite Hu, Hk. split; [done|]. unfold RAMFS_FILE, RAMFS_DIRECTORY in *. simpl. lia. }
    assert (1 <= dir_count v) by (rewrite Hd; by apply (count_pos used_dir (nodes v) i n)).
    rewrite u64_small by lia. split; [done|]. apply Hgen; [|done|rewrite Huf; simpl; lia|rewrite Hud; simpl; lia].
    apply (tree_remove _ i n); try done; [by apply (tr_data _ Htree i n)|]. intros _. rewrite Hpn.
    by apply has_below_spec.
  - right. destruct (tr_nodes _ Htree i n Hi Hu) as [_ [Hkf|Hkd] _]; [|rewrite Hkd in Hk; done].
    assert (used_file n = true /\ used_dir n = false) as [Huf Hud].
    { unfold used_dir, used_file. by rewrite Hu, Hkf. }
    assert (1 <= file_count v) by (rewrite Hf; by apply (count_pos used_file (nodes v) i n)).
    rewrite u64_small by lia. split; [done|]. apply Hgen; [|done|rewrite Huf; simpl; lia|rewrite Hud; simpl; lia].
    apply (tree_remove _ i n); try done; [by apply (tr_data _ Htree i n)|]. intros Hkd.
    rewrite Hkd in Hk. done.
Qed.
(** The guards of [vfs_rename] after the new name was checked. *)
Lemma rename_guards ns old new i n : tree ns -> node_at ns old i n -> cstring new ->
  (n_kind n =? RAMFS_DIRECTORY) && (length old <? length new)%nat && (chr new (length old) =? 47) &&
    (match_loop (length old) 0 old new =? length old)%nat = false ->
  rename_too_long old new i ns = false ->
  (n_kind n = RAMFS_DIRECTORY -> below old new = false) /\
  forall j m t, ns !! j = Some m -> in_use m = true -> n_path m = old ++ 47 :: t ->
    Z.of_nat (length (new ++ 47 :: t)) < 48.
Proof.
  intros Htree Hn Hcn Hg1 Hg2. pose proof (node_at_good _ _ _ _ Htree Hn) as [Hco _ Hol]. split.
  - intros Hk. apply not_true_is_false. intros (t & ->)%below_spec; [|done].
    rewrite Hk in Hg1. change (RAMFS_DIRECTORY =? RAMFS_DIRECTORY) with true in Hg1.
    rewrite (proj2 (Nat.ltb_lt _ _)) in Hg1 by (rewrite length_app; simpl; lia).
    unfold chr in Hg1. rewrite lookup_app_r, Nat.sub_diag in Hg1 by lia. simpl in Hg1.
    rewrite (proj2 (match_loop_full (length old) 0 old (old ++ 47 :: t))), Nat.eqb_refl in Hg1; [done|].
    intros j Hj. unfold chr. by rewrite lookup_app_l by lia.
  - intros j m t Hj Hu Hp.
    pose proof (existsb_imap_pair (fun j n => moves old i j n && _) ns Hg2 j m Hj) as Hf. simpl in Hf.
    assert (moves old i j m = true) as Hmv.
    { unfold moves. fold (in_use m). rewrite Hu. simpl. apply andb_true_iff. split.
      - apply negb_true_iff, Nat.eqb_neq. intros ->. destruct Hn as (Hi & _ & Hpi). rewrite Hi in Hj.
        injection Hj as <-. rewrite Hpi in Hp. apply (f_equal length) in Hp. rewrite length_app in Hp.
        simpl in Hp. lia.
      - apply below_spec; [done|eauto]. }
    rewrite Hmv, Hp, drop_app_length in Hf. simpl in Hf. unfold VFS_MAX_PATH in Hf.
    rewrite Z.geb_leb in Hf. apply Z.leb_gt in Hf. rewrite length_app. simpl. lia.
Qed.

Lemma count_moved f old new ns : (forall m p, f (vfs_set_path m p) = f m) ->
  count_if f (move_node old new <$> ns) = count_if f ns.
Proof.
  intros Hf. induction ns as [|m ns IH]; [done|]. rewrite fmap_cons. cbn [count_if]. rewrite IH.
  unfold move_node. destruct (in_use m); by rewrite ?Hf.
Qed.

Lemma vfs_rename_cases v old new : vfs_inv v -> cstring old -> cstring new ->
  let (res, v') := vfs_rename old (Some new) v in
  (res = 0 /\ v' = v) \/
  (res = 1 /\ vfs_inv v' /\ disk v' = disk v /\ nodes v' = move_node old new <$> nodes v /\
   (exists i n, node_at (nodes v) old i n) /\ (forall j m, ~ node_at (nodes v) new j m) /\
   good_path new /\ new ≠ old /\ below old new = false).
Proof.
  intros Hinv Ho Hcn. pose proof Hinv as [Htree [Hf Hf'] [Hd Hd'] Hb]. unfold vfs_rename.
  pose proof (vfs_find_node (nodes v) Htree old Ho) as Hfind.
  destruct (_ ≫= _) as [[i n]|]; [|by left]. cbn [from_option id].
  destruct (_ || negb (vfs_parent_exists new (nodes v))) eqn:Eg; [by left|].
  apply (new_name_guard v new Hinv Hcn) in Eg as (Hg & Hno & Hpar).
  destruct (_ && (match_loop _ _ _ _ =? _)%nat) eqn:Eg1; [by left|].
  destruct (rename_too_long _ _ _ _) eqn:Eg2; [by left|right].
  destruct (rename_guards (nodes v) old new i n Htree Hfind Hcn Eg1 Eg2) as [Hnest Hshort].
  rewrite (rename_nodes (nodes v) old new i n Htree Hfind). simpl.
  destruct (new_outside (nodes v) Htree old new i n Hfind Hg Hno Hpar Hnest Hshort) as [Hne Hout].
  split_and!; try done; [|eauto].
  split; simpl; [|by rewrite count_moved|by rewrite count_moved|done].
  by apply (tree_rename (nodes v) Htree old new i n).
Qed.

(** *** The mounted disk *)

Definition disk_ok v : Prop := sfs_inv (disk v) /\ bd_reliable (dev (disk v)).

Lemma copy_loop_length {A} (dst : list A) off src : length (copy_loop dst off src) = length dst.
Proof.
  revert dst off. induction src as [|x src IH]; intros dst off; simpl; [done|]. by rewrite IH, length_insert.
Qed.

Lemma read_disk_frame dp v : let (res, v') := read_disk dp v in
  nodes v' = nodes v /\ file_count v' = file_count v /\ dir_count v' = dir_count v /\
  length (disk_file_buffer v') = length (disk_file_buffer v).
Proof.
  unfold read_disk, sfs_read_file. simpl. rewrite orb_false_r.
  destruct (negb (truth (mounted (disk v)))); [done|].
  destruct (_ ≫= _) as [e|]; [|done]. destruct (_ || _); [done|].
  destruct (bd_read _ _ _ _) as [[ok buf] b]. destruct (_ || _); simpl; [done|].
  by rewrite copy_loop_length.
Qed.

Lemma vfs_inv_frame v v' : vfs_inv v -> nodes v' = nodes v -> file_count v' = file_count v ->
  dir_count v' = dir_count v -> length (disk_file_buffer v') = length (disk_file_buffer v) -> vfs_inv v'.
Proof. intros [] Hn Hf Hd Hb. split; rewrite ?Hn, ?Hf, ?Hd, ?Hb; done. Qed.

(** Reading a file of the disk into the shared buffer. *)
Lemma read_disk_cases v dp : vfs_inv v -> disk_ok v -> cstring dp ->
  let (res, v') := read_disk dp v in
  vfs_inv v' /\ disk_ok v' /\ (forall q, sfs_file (disk v') q = sfs_file (disk v) q) /\
  match sfs_file (disk v) dp with
  | Some d => res = Z.of_nat (length d) /\ (length d <= 4096)%nat /\
      disk_file_buffer v' = d ++ drop (length d) (disk_file_buffer v)
  | None => res = -1
  end.
Proof.
  intros Hinv [Hs Hr] Hdp. pose proof (read_disk_frame dp v) as Hframe. unfold read_disk in *.
  pose proof (sfs_read_cases (disk v) dp (disk_file_buffer v) SFS_MAX_FILE_SIZE Hs Hr Hdp) as Hc.
  destruct (sfs_read_file dp _ _ _) as [[res out] s'].
  destruct Hc as (Hs' & Hr' & Hsame & Hres).
  { rewrite (vi_buffer _ Hinv). unfold SFS_MAX_FILE_SIZE, SFS_FILE_SECTORS. lia. }
  destruct Hframe as (H1 & H2 & H3 & H4).
  split_and!; [by apply (vfs_inv_frame v)|done|done|].
  destruct (sfs_file (disk v) dp) as [d|] eqn:Ed; [|by destruct Hres].
  assert (length d <= 4096)%nat as Hl.
  { unfold sfs_file, dir_file in Ed. destruct (find_entry _ _) as [i|]; [|done]. simpl in Ed.
    destruct (entries _ !! i) as [e|] eqn:He; [|done]. injection Ed as <-. rewrite length_take.
    destruct (sfs_slot _ i e Hs He) as (_ & _ & Hsl & _). lia. }
  replace (Z.of_nat (length d) <=? SFS_MAX_FILE_SIZE) with true in Hres
    by (unfold SFS_MAX_FILE_SIZE, SFS_FILE_SECTORS; lia).
  destruct Hres as [-> ->]. done.
Qed.
(** *** Every operation keeps the invariant *)

Lemma vfs_set_sfs_inv v s : vfs_inv v -> vfs_inv (set_sfs s v).
Proof. intros Hinv. by apply (vfs_inv_frame v). Qed.

Lemma read_disk_inv dp v : vfs_inv v -> vfs_inv (snd (read_disk dp v)).
Proof.
  intros Hinv. pose proof (read_disk_frame dp v) as Hf. destruct (read_disk dp v) as [res v'].
  destruct Hf as (? & ? & ? & ?). by apply (vfs_inv_frame v).
Qed.

Lemma vfs_write_inv v p offset buffer sz :
  vfs_inv v -> cstring p -> 0 <= offset -> 0 <= sz <= Z.of_nat (length buffer) ->
  vfs_inv (snd (vfs_write p offset (Some buffer) sz v)).
Proof.
  intros Hinv Hp Ho Hsz. unfold vfs_write. destruct (vfs_disk_path (Some p)) as [dp|].
  - destruct (_ || _); [done|]. pose proof (read_disk_inv dp v Hinv) as Hr.
    destruct (read_disk dp v) as [current v1]. simpl in Hr. case_if; [done|].
    match goal with |- context [set_disk_buffer ?b v1] => set (buf := b) end.
    destruct (sfs_write_file _ _ _ _) as [res s]. simpl. apply (vfs_inv_frame v1); try done.
    apply copy_loop_length.
  - pose proof (vfs_find_node (nodes v) (vi_tree _ Hinv) p Hp) as Hfind.
    destruct (_ ≫= _) as [[i n]|]; [|done]. destruct (_ || _) eqn:Eg; [done|]. simpl.
    rewrite !orb_false_iff in Eg. destruct Eg as [[[Hk _] Ho'] Hsz']. unfold VFS_MAX_FILE_SIZE in *.
    rewrite u64_small in Hsz' by lia. rewrite u64_small by lia.
    destruct (tr_nodes _ (vi_tree _ Hinv) i n ltac:(apply Hfind) ltac:(apply Hfind)) as [_ _ Hs].
    unfold VFS_MAX_FILE_SIZE in Hs.
    apply (vfs_update_file v i n _ _ p); [done|done|lia|unfold VFS_MAX_FILE_SIZE; case_if; lia|].
    rewrite copy_loop_length. apply (tr_data _ (vi_tree _ Hinv) i n), Hfind.
Qed.

Lemma vfs_truncate_inv v p sz : vfs_inv v -> cstring p -> 0 <= sz -> vfs_inv (snd (vfs_truncate p sz v)).
Proof.
  intros Hinv Hp Hsz. unfold vfs_truncate. destruct (vfs_disk_path (Some p)) as [dp|].
  - case_if; [done|]. pose proof (read_disk_inv dp v Hinv) as Hr.
    destruct (read_disk dp v) as [current v1]. simpl in Hr. case_if; [done|].
    destruct (sfs_write_file _ _ _ _) as [res s]. simpl. apply (vfs_inv_frame v1); try done.
    apply copy_loop_length.
  - pose proof (vfs_find_node (nodes v) (vi_tree _ Hinv) p Hp) as Hfind.
    destruct (_ ≫= _) as [[i n]|]; [|done]. destruct (_ || _) eqn:Eg; [done|]. simpl.
    rewrite !orb_false_iff in Eg. destruct Eg as [Hk Hsz']. unfold VFS_MAX_FILE_SIZE in Hsz'.
    apply (vfs_update_file v i n _ _ p); [done|done|lia|unfold VFS_MAX_FILE_SIZE; lia|].
    pose proof (tr_data _ (vi_tree _ Hinv) i n ltac:(apply Hfind)).
    case_if; [|done]. unfold zero_range. by rewrite copy_loop_length.
Qed.

Lemma vfs_create_inv v p data sz : vfs_inv v -> cstring p -> 0 <= sz <= Z.of_nat (length data) ->
  vfs_inv (snd (vfs_create (Some p) (Some data) sz v)).
Proof.
  intros Hinv Hp Hsz. destruct (vfs_disk_path (Some p)) as [dp|] eqn:Hdp.
  - unfold vfs_create. rewrite Hdp. destruct (sfs_write_file _ _ _ _) as [res s]. by apply vfs_set_sfs_inv.
  - pose proof (vfs_create_cases v p data sz Hinv Hp Hdp) as Hc.
    destruct (vfs_create _ _ _ _) as [res v']. destruct Hc as [(_ & -> & _)|(_ & _ & ? & _)]; [lia..|done|done].
Qed.

Lemma vfs_read_inv v p offset buffer sz : vfs_inv v -> vfs_inv (snd (vfs_read p offset buffer sz v)).
Proof.
  intros Hinv. unfold vfs_read. destruct (vfs_disk_path (Some p)) as [dp|].
  - pose proof (read_disk_inv dp v Hinv) as Hr. destruct (read_disk dp v) as [fs v1]. by case_if.
  - destruct (_ ≫= _) as [n|]; [|done]. by case_if.
Qed.

Lemma vfs_file_data_inv v p : vfs_inv v -> vfs_inv (snd (vfs_file_data p v)).
Proof.
  intros Hinv. unfold vfs_file_data. destruct (vfs_disk_path (Some p)) as [dp|].
  - pose proof (read_disk_inv dp v Hinv) as Hr. destruct (read_disk dp v) as [fs v1]. by case_if.
  - destruct (_ ≫= _) as [[i n]|]; [|done]. by case_if.
Qed.

Lemma vfs_stat_inv v p entry : vfs_inv v -> vfs_inv (snd (vfs_stat p entry v)).
Proof.
  intros Hinv. unfold vfs_stat. destruct entry; [|done]. destruct (vfs_disk_path (Some p)).
  - pose proof (vfs_file_data_inv v p Hinv). destruct (vfs_file_data p v) as [[[? ?]|] ?]; done.
  - by destruct (_ ≫= _).
Qed.

(** One call of the interface, on C strings and buffers of the stated length. *)
Inductive vfs_step v : vfs B -> Prop :=
| step_mkdir p : cstring p -> vfs_step v (snd (vfs_mkdir (Some p) v))
| step_remove p : cstring p -> vfs_step v (snd (vfs_remove p v))
| step_rename old new : cstring old -> cstring new -> vfs_step v (snd (vfs_rename old (Some new) v))
| step_create p data sz : cstring p -> 0 <= sz <= Z.of_nat (length data) ->
    vfs_step v (snd (vfs_create (Some p) (Some data) sz v))
| step_write p offset buffer sz : cstring p -> 0 <= offset -> 0 <= sz <= Z.of_nat (length buffer) ->
    vfs_step v (snd (vfs_write p offset (Some buffer) sz v))
| step_truncate p sz : cstring p -> 0 <= sz -> vfs_step v (snd (vfs_truncate p sz v))
| step_read p offset buffer sz : vfs_step v (snd (vfs_read p offset buffer sz v))
| step_stat p entry : vfs_step v (snd (vfs_stat p entry v))
| step_file_data p : vfs_step v (snd (vfs_file_data p v)).

Lemma vfs_step_inv v v' : vfs_inv v -> vfs_step v v' -> vfs_inv v'.
Proof.
  intros Hinv. destruct 1 as [p Hp|p Hp|old new Ho Hn|p data sz Hp Hsz|p o b sz Hp Ho Hsz|p sz Hp Hsz|p o b sz|p e|p].
  - pose proof (vfs_mkdir_cases v p Hinv Hp) as Hc. cbv zeta in Hc.
    destruct (vfs_mkdir _ _) as [res v']. by destruct Hc as [(_ & -> & _)|(_ & _ & ? & _)].
  - pose proof (vfs_remove_cases v p Hinv Hp) as Hc. destruct (vfs_remove _ _) as [res v'].
    by destruct Hc as [(_ & -> & _)|(_ & ? & _)].
  - pose proof (vfs_rename_cases v old new Hinv Ho Hn) as Hc. destruct (vfs_rename _ _ _) as [res v'].
    by destruct Hc as [(_ & ->)|(_ & ? & _)].
  - by apply vfs_create_inv.
  - by apply vfs_write_inv.
  - by apply vfs_truncate_inv.
  - by apply vfs_read_inv.
  - by apply vfs_stat_inv.
  - by apply vfs_file_data_inv.
Qed.

(** The static memory of the file system before [vfs_init]. *)
Record vfs_memory v : Prop := {
  vm_nodes : length (nodes v) = 16%nat /\ Forall (fun n => length (n_data n) = 4096%nat) (nodes v);
  vm_buffer : length (disk_file_buffer v) = 4096%nat;
}.

Lemma vfs_init_inv v : vfs_memory v -> vfs_inv (vfs_init v) /\ forall p i n, ~ node_at (nodes (vfs_init v)) p i n.
Proof.
  intros [[Hl Hd] Hb].
  assert (forall i n, nodes (vfs_init v) !! i = Some n -> in_use n = false /\ length (n_data n) = 4096%nat) as Hall.
  { intros i n. simpl. rewrite list_lookup_fmap. destruct (nodes v !! i) as [m|] eqn:Hm; simpl; [|done].
    intros [= <-]. split; [done|]. apply (Forall_lookup_1 _ _ _ _ Hd Hm). }
  assert (forall i n, nodes (vfs_init v) !! i = Some n -> in_use n = true -> False) as Hno.
  { intros i n Hi Hu. destruct (Hall i n Hi). congruence. }
  assert (forall f, (forall n, in_use n = false -> f n = false) -> count_if f (nodes (vfs_init v)) = 0) as Hc.
  { intros f Hf. apply count_if_zero. intros n Hn. apply list_elem_of_lookup in Hn as [i Hi].
    apply Hf, (Hall i n Hi). }
  split; [|intros p i n (Hi & Hu & _); eauto]. split; [split|..|done].
  - simpl. by rewrite length_fmap.
  - intros i n Hi. by apply (Hall i n).
  - intros i n Hi Hu. by destruct (Hno i n Hi Hu).
  - intros i j n m Hi _ Hu. by destruct (Hno i n Hi Hu).
  - intros i n Hi Hu. by destruct (Hno i n Hi Hu).
  - rewrite Hc; [done|]. intros n Hn. unfold used_file. by rewrite Hn.
  - rewrite Hc; [done|]. intros n Hn. unfold used_dir. by rewrite Hn.
Qed.
End inv.
