(* ===== verification/VfsProps.v ===== *)
(** * Properties of the virtual file system

    The theorems about [Vfs.v]: the tree invariant over every sequence of calls, the
    behaviour of each operation on the contents of files, and the mount of SaturnFS. *)

From S2P Require Import Prelude BlockDevice Block Sfs Vfs.

Section claims.
Context {B : Type} `{BlockDevice B}.
Implicit Type v : vfs B.

(** (C4) Whatever calls are made after [vfs_init], the nodes form a tree: names in use
    are distinct valid paths of fewer than 48 characters that fit the [path]
    arrays, every directory prefix of a name in use is itself a directory in use,
    sizes never exceed the 4096-byte arrays, and [file_count] and [dir_count] are
    the numbers of files and directories and at most 8. *)
Theorem vfs_tree_invariant v0 v :
  vfs_memory v0 -> rtc vfs_step (vfs_init v0) v ->
  vfs_inv v /\
  forall i n d t, nodes v !! i = Some n -> in_use n = true -> n_path n = d ++ 47 :: t -> d ≠ [] ->
    dir_at (nodes v) d.
Proof.
  intros Hm Hr. assert (vfs_inv v) as Hinv.
  { pose proof (proj1 (vfs_init_inv v0 Hm)) as H0. revert H0.
    induction Hr as [|v1 v2 v3 Hs _ IH]; intros H1; [done|]. apply IH. by eapply vfs_step_inv. }
  split; [done|]. intros i n d t Hi Hu Hp Hd. eapply (ancestor_dir _ (vi_tree _ Hinv)); eauto.
Qed.

(** [vfs_create] of a RAM file succeeds exactly when the path is valid and new,
    its parent is the root or a directory, fewer than 8 files exist and the size is
    at most 4096 (a node is then always left); the new file has exactly the given
    bytes and no other file changes. Otherwise it returns 0 and changes nothing. *)
Theorem vfs_create_exact v p data sz :
  vfs_inv v -> cstring p -> vfs_disk_path (Some p) = None -> 0 <= sz <= Z.of_nat (length data) ->
  let ok := good_path p /\ (forall i n, ~ node_at (nodes v) p i n) /\ parent_ok (nodes v) p /\
            file_count v < VFS_MAX_FILES /\ sz <= VFS_MAX_FILE_SIZE in
  let (res, v') := vfs_create (Some p) (Some data) sz v in
  (res = 0 /\ v' = v /\ ~ ok) \/
  (res = 1 /\ ok /\ vfs_inv v' /\
   forall q, cstring q -> file_in (nodes v') q =
     if decide (q = p) then Some (take (Z.to_nat sz) data) else file_in (nodes v) q).
Proof.
  intros Hinv Hp Hdp Hsz. pose proof (vfs_create_cases v p data sz Hinv Hp Hdp ltac:(lia) ltac:(lia)) as Hc.
  cbv zeta in *. destruct (vfs_create _ _ _ _) as [res v']. tauto.
Qed.

(** [vfs_write] at an offset within a RAM file replaces exactly the bytes from the
    offset on and extends the file when they reach past its end; every other file is
    unchanged. A write that would pass 4096 bytes returns -1 and changes nothing. *)
Theorem vfs_write_splices v p c offset buffer sz :
  vfs_inv v -> cstring p -> vfs_disk_path (Some p) = None -> file_in (nodes v) p = Some c ->
  0 <= offset <= Z.of_nat (length c) -> 0 <= sz <= Z.of_nat (length buffer) ->
  let (res, v') := vfs_write p offset (Some buffer) sz v in
  if offset + sz <=? VFS_MAX_FILE_SIZE then
    res = sz /\ vfs_inv v' /\
    forall q, cstring q -> file_in (nodes v') q =
      if decide (q = p) then Some (spliced c (Z.to_nat offset) (take (Z.to_nat sz) buffer))
      else file_in (nodes v) q
  else res = -1 /\ v' = v.
Proof.
  intros Hinv Hp Hdp Hf Ho Hsz. pose proof (vfs_write_cases v p c offset buffer sz Hinv Hp Hdp Hf Ho Hsz) as Hc.
  destruct (vfs_write _ _ _ _ _) as [res v']. destruct (_ <=? _); tauto.
Qed.

(** [vfs_read] of a RAM file copies out the bytes of the file from the offset on, as
    many as asked for and as there are, leaves the rest of the buffer alone, changes
    no state, and returns -1 for an offset past the end. *)
Theorem vfs_read_slices v p c offset buffer sz :
  vfs_inv v -> cstring p -> vfs_disk_path (Some p) = None -> file_in (nodes v) p = Some c ->
  0 <= offset -> 0 <= sz <= Z.of_nat (length buffer) ->
  let '(res, out, v') := vfs_read p offset (Some buffer) sz v in
  v' = v /\
  if offset <=? Z.of_nat (length c) then
    let r := slice c (Z.to_nat offset) (Z.to_nat sz) in
    res = Z.of_nat (length r) /\ out = Some (r ++ drop (length r) buffer)
  else res = -1 /\ out = Some buffer.
Proof. apply vfs_read_cases. Qed.

(** [vfs_truncate] of a RAM file cuts it or extends it with zero bytes, also where
    an earlier, longer version of the file left other bytes in the array. *)
Theorem vfs_truncate_resizes v p c sz :
  vfs_inv v -> cstring p -> vfs_disk_path (Some p) = None -> file_in (nodes v) p = Some c -> 0 <= sz ->
  let (res, v') := vfs_truncate p sz v in
  if sz <=? VFS_MAX_FILE_SIZE then
    res = 1 /\ vfs_inv v' /\
    forall q, cstring q -> file_in (nodes v') q =
      if decide (q = p) then Some (resized c (Z.to_nat sz)) else file_in (nodes v) q
  else res = 0 /\ v' = v.
Proof.
  intros Hinv Hp Hdp Hf Hsz. pose proof (vfs_truncate_cases v p c sz Hinv Hp Hdp Hf Hsz) as Hc.
  destruct (vfs_truncate _ _ _) as [res v']. destruct (_ <=? _); tauto.
Qed.

(** (C33) A successful [vfs_rename] moves a whole subtree: every node at or below the old
    name is found under the new one with the same kind and contents, every other
    node stays where it was, and nothing is left at or below the old name; a failed
    one changes nothing. The tree invariant is kept. *)
Theorem vfs_rename_moves_subtree v old new :
  vfs_inv v -> cstring old -> cstring new ->
  let (res, v') := vfs_rename old (Some new) v in
  (res = 0 /\ v' = v) \/
  (res = 1 /\ vfs_inv v' /\
   (forall q i n, node_at (nodes v) q i n ->
      node_at (nodes v') (moved old new q) i (vfs_set_path n (moved old new q)) /\
      file_in (nodes v') (moved old new q) = file_in (nodes v) q) /\
   (forall q i n, node_at (nodes v') q i n -> q ≠ old /\ below old q = false)).
Proof.
  intros Hinv Ho Hn. pose proof (vfs_rename_cases v old new Hinv Ho Hn) as Hc.
  destruct (vfs_rename _ _ _) as [res v'].
  destruct Hc as [Hc|(-> & Hinv' & _ & Hns & (i0 & n0 & Hold) & Hno & Hgn & Hne & Hout)]; [by left|right].
  split; [done|]. split; [done|]. pose proof (vi_tree _ Hinv) as Htree. split.
  - intros q i n Hq. assert (node_at (nodes v') (moved old new q) i (vfs_set_path n (moved old new q))) as Hq'.
    { destruct Hq as (Hi & Hu & Hp). rewrite Hns. split; [|done]. rewrite list_lookup_fmap, Hi. simpl.
      unfold move_node. by rewrite Hu, Hp. }
    split; [done|]. rewrite (file_in_at _ _ _ _ (vi_tree _ Hinv') Hq'), (file_in_at _ _ _ _ Htree Hq). done.
  - intros q i n' (Hi & Hu & Hp). rewrite Hns in Hi. apply lookup_moved in Hi as (n & Hi & ->).
    rewrite in_use_moved in Hu. rewrite path_moved in Hp by done. subst q.
    destruct (moved_cases old new (n_path n) Ho) as [[_ ->]|[(t & Hp & ->)|(? & ? & ->)]]; [done| |done].
    assert (forall r, old = new ++ 47 :: r -> False) as Hanc.
    { intros r Hr. destruct Hold as (Hi0 & Hu0 & Hp0).
      destruct (ancestor_dir _ Htree i0 n0 new r Hi0 Hu0) as (j & m & Hm & _); [congruence| |by apply (Hno j m)].
      intros ->. by destruct Hgn as [_ Hh _]. }
    split; [by intros Heq; apply (Hanc t)|]. apply not_true_is_false. intros (u & Heq)%below_spec; [|done].
    destruct (prefixes_nested new old t u Heq) as [|[Hr|[r Hr]]]; [done| |by apply (Hanc r)].
    by rewrite (proj2 (below_spec old new Ho)) in Hout.
Qed.

(** [vfs_remove] fails, changing nothing, only when there is no such node or some
    node in use lies below it; otherwise exactly that node disappears and every other
    file keeps its contents. *)
Theorem vfs_remove_exact v p :
  vfs_inv v -> cstring p ->
  let (res, v') := vfs_remove p v in
  (res = 0 /\ v' = v /\ ((forall i n, ~ node_at (nodes v) p i n) \/
     exists j m, nodes v !! j = Some m /\ in_use m = true /\ below p (n_path m) = true)) \/
  (res = 1 /\ vfs_inv v' /\ (forall i n, ~ node_at (nodes v') p i n) /\
   forall q, cstring q -> file_in (nodes v') q = if decide (q = p) then None else file_in (nodes v) q).
Proof.
  intros Hinv Hp. pose proof (vfs_remove_cases v p Hinv Hp) as Hc.
  destruct (vfs_remove _ _) as [res v']. tauto.
Qed.

(** What [vfs_list] reports for a node. *)
Definition listed (n : ramfs_node) : vfs_entry := VfsEntry (entry_path (n_path n)) (n_size n) (entry_kind n).

Lemma vfs_list_loop_spec ns current index e : current <= index ->
  vfs_list_loop ns current index e =
  match filter (fun n => in_use n = true) ns !! Z.to_nat (index - current) with
  | Some n => (1, listed n)
  | None => (0, e)
  end.
Proof.
  revert current. induction ns as [|n ns IH]; intros current Hle; simpl; [done|]. fold (in_use n).
  rewrite filter_cons. destruct (in_use n) eqn:Hu; simpl.
  - destruct (Z.eqb_spec current index) as [->|Hne]; simpl.
    + by rewrite Z.sub_diag.
    + rewrite IH by lia.
      replace (Z.to_nat (index - current)) with (S (Z.to_nat (index - (current + 1)))) by lia. done.
  - by rewrite IH by lia.
Qed.

(** [vfs_list] enumerates the tree: index [k] gives the [k]-th node in use, with
    its path padded with zeros to 48 bytes, and 0 from the number of nodes in use on,
    leaving the caller's entry alone. *)
Theorem vfs_list_enumerates v index e :
  0 <= index ->
  vfs_list index (Some e) v =
  match filter (fun n => in_use n = true) (nodes v) !! Z.to_nat index with
  | Some n => (1, Some (listed n))
  | None => (0, Some e)
  end.
Proof.
  intros Hi. unfold vfs_list. rewrite vfs_list_loop_spec, Z.sub_0_r by done. by destruct (filter _ _ !! _).
Qed.

Lemma skip_prefix_spec pre p r : skip_prefix pre p = Some r -> p = pre ++ r.
Proof.
  revert p. induction pre as [|c pre IH]; intros [|x p]; simpl; try congruence.
  destruct (Z.eqb_spec x c) as [->|]; simpl; [|done]. intros Hr. by rewrite (IH p Hr).
Qed.

Lemma disk_path_cstring p dp : cstring p -> vfs_disk_path (Some p) = Some dp -> cstring dp.
Proof.
  unfold vfs_disk_path. cbn [mbind option_bind].
  destruct (skip_prefix (lit "/disk") p) as [r|] eqn:E; cbn [mbind option_bind]; [|done].
  destruct (_ && _); [|done]. intros Hp [= <-]. apply skip_prefix_spec in E as ->.
  by apply Forall_app in Hp as [_ ?].
Qed.

(** The mount of SaturnFS: after a successful [vfs_create] of a path below [/disk],
    [vfs_read] of the same path returns the bytes that were written (any part of
    them), while every other file on the disk and the whole RAM tree are unchanged. *)
Theorem vfs_disk_roundtrip v p dp data sz offset buffer m :
  vfs_inv v -> disk_ok v -> cstring p -> vfs_disk_path (Some p) = Some dp -> path_valid (Some dp) = true ->
  0 <= sz <= Z.of_nat (length data) -> sz <= SFS_MAX_FILE_SIZE -> Forall is_byte data ->
  0 <= offset <= sz -> 0 <= m <= Z.of_nat (length buffer) ->
  let (res, v1) := vfs_create (Some p) (Some data) sz v in
  res = 1 ->
  let '(n, out, v2) := vfs_read p offset (Some buffer) m v1 in
  let r := slice (take (Z.to_nat sz) data) (Z.to_nat offset) (Z.to_nat m) in
  n = Z.of_nat (length r) /\ out = Some (r ++ drop (length r) buffer) /\
  nodes v2 = nodes v /\ forall q, cstring q -> q ≠ dp -> sfs_file (disk v2) q = sfs_file (disk v) q.
Proof.
  intros Hinv [Hs Hr] Hp Hdp Hv Hsz Hmax Hb Ho Hm. pose proof (disk_path_cstring p dp Hp Hdp) as Hcd.
  unfold vfs_create. rewrite Hdp.
  pose proof (sfs_write_cases (disk v) dp data sz Hs Hr Hcd Hv ltac:(lia) ltac:(lia) Hb) as Hw.
  destruct (sfs_write_file _ _ _ _) as [res s1]. intros ->.
  destruct Hw as [(Hz & _)|(_ & Hs1 & Hr1 & Hfile)]; [done|].
  unfold vfs_read. rewrite Hdp.
  pose proof (read_disk_frame dp (set_sfs s1 v)) as Hframe.
  pose proof (read_disk_cases (set_sfs s1 v) dp (vfs_set_sfs_inv v s1 Hinv) (conj Hs1 Hr1) Hcd) as Hc.
  destruct (read_disk dp (set_sfs s1 v)) as [fs v2]. destruct Hframe as (Hns & _).
  destruct Hc as (_ & _ & Hsame & Hc). cbn [disk set_sfs] in *.
  rewrite (Hfile dp Hcd), decide_True in Hc by done. destruct Hc as (-> & Hl & Hbuf).
  set (d := take (Z.to_nat sz) data) in *.
  assert (Z.of_nat (length d) = sz) as Hld by (unfold d; rewrite length_take; lia).
  rewrite Hld. simpl. rewrite andb_false_r. simpl. replace (sz <? 0) with false by lia.
  replace (offset >? sz) with false by lia.
  unfold SFS_MAX_FILE_SIZE, SFS_FILE_SECTORS in Hmax. rewrite u64_small by lia. simpl.
  set (k := if m >? sz - offset then _ else _).
  assert (take (Z.to_nat k) (drop (Z.to_nat offset) (disk_file_buffer v2)) =
          slice d (Z.to_nat offset) (Z.to_nat m)) as Hsl.
  { unfold slice. rewrite Hbuf, drop_app_le by lia.
    rewrite take_app_le by (rewrite length_drop; unfold k; case_if; lia).
    unfold k. case_if; [|done]. rewrite !take_ge by (rewrite length_drop; lia). done. }
  assert (Z.of_nat (length (slice d (Z.to_nat offset) (Z.to_nat m))) = k) as Hlen.
  { unfold slice. rewrite length_take, length_drop. unfold k. case_if; lia. }
  rewrite Hsl. split_and!; [done| |done|].
  - rewrite copy_loop_write_at; [unfold write_at; by rewrite take_0|].
    enough (k <= Z.of_nat (length buffer)) by lia. unfold k. case_if; lia.
  - intros q Hq Hne. rewrite Hsame, Hfile by done. by rewrite decide_False.
Qed.
End claims.

(** ** Instances on the boot file system *)

(** The file system at boot on a fresh RAM disk. *)
Definition boot_vfs : vfs (block unit) :=
  Vfs (replicate 16 (Node [] 0 (replicate 4096 0) 0 0)) 0 0 (replicate 4096 0) disk0.
Definition vfs0 : vfs (block unit) := vfs_init boot_vfs.

Lemma boot_vfs_memory : vfs_memory boot_vfs.
Proof. split; [split; [reflexivity|]|reflexivity]. apply Forall_replicate. reflexivity. Qed.

Lemma vfs0_inv : vfs_inv vfs0.
Proof. exact (proj1 (vfs_init_inv boot_vfs boot_vfs_memory)). Qed.

Lemma vfs0_disk_ok : disk_ok vfs0.
Proof. exact disk0_inv. Qed.

Ltac is_cstring := apply (bool_decide_eq_true_1 _); vm_compute; reflexivity.

Definition dir_d : list Z := lit "/d".
Definition file_f : list Z := lit "/d/f".

Lemma names_ok : cstring dir_d /\ cstring file_f.
Proof. split; is_cstring. Qed.

Definition vfs1 : vfs (block unit) := snd (vfs_mkdir (Some dir_d) vfs0).
Definition vfs2 : vfs (block unit) := snd (vfs_create (Some file_f) (Some [1; 2; 3; 4]) 4 vfs1).

Lemma vfs2_steps : rtc vfs_step vfs0 vfs2.
Proof.
  apply (rtc_l _ _ vfs1); [apply step_mkdir, names_ok|]. apply rtc_once. apply step_create; [apply names_ok|].
  simpl. lia.
Qed.

Lemma vfs1_inv : vfs_inv vfs1.
Proof. apply (vfs_step_inv vfs0); [exact vfs0_inv|]. apply step_mkdir, names_ok. Qed.

Lemma vfs2_inv : vfs_inv vfs2.
Proof.
  apply (vfs_step_inv vfs1); [exact vfs1_inv|]. apply step_create; [apply names_ok|]. simpl. lia.
Qed.

Lemma vfs2_file : file_in (nodes vfs2) file_f = Some [1; 2; 3; 4].
Proof. vm_compute. reflexivity. Qed.

Lemma vfs_tree_invariant_witness : vfs_inv vfs2.
Proof. exact (proj1 (vfs_tree_invariant boot_vfs vfs2 boot_vfs_memory vfs2_steps)). Defined.

Lemma vfs_create_exact_witness : fst (vfs_create (Some file_f) (Some [1; 2; 3; 4]) 4 vfs1) <= 1.
Proof.
  pose proof (vfs_create_exact vfs1 file_f [1; 2; 3; 4] 4 vfs1_inv (proj2 names_ok)
    ltac:(vm_compute; reflexivity) ltac:(simpl; lia)) as Hc. cbv zeta in Hc.
  destruct (vfs_create _ _ _ _) as [res v']. destruct Hc as [(-> & _)|(-> & _)]; simpl; lia.
Defined.

Lemma vfs_write_splices_witness :
  file_in (nodes (snd (vfs_write file_f 2 (Some [7; 8; 9]) 3 vfs2))) file_f = Some [1; 2; 7; 8; 9].
Proof.
  pose proof (vfs_write_splices vfs2 file_f [1; 2; 3; 4] 2 [7; 8; 9] 3 vfs2_inv (proj2 names_ok)
    ltac:(vm_compute; reflexivity) vfs2_file ltac:(simpl; lia) ltac:(simpl; lia)) as Hc.
  destruct (vfs_write _ _ _ _ _) as [res v']. destruct Hc as (_ & _ & Hf). cbn [snd].
  rewrite (Hf file_f (proj2 names_ok)). reflexivity.
Defined.

Lemma vfs_read_slices_witness :
  snd (fst (vfs_read file_f 1 (Some [0; 0]) 2 vfs2)) = Some [2; 3].
Proof.
  pose proof (vfs_read_slices vfs2 file_f [1; 2; 3; 4] 1 [0; 0] 2 vfs2_inv (proj2 names_ok)
    ltac:(vm_compute; reflexivity) vfs2_file ltac:(lia) ltac:(simpl; lia)) as Hc.
  destruct (vfs_read _ _ _ _ _) as [[res out] v']. exact (proj2 (proj2 Hc)).
Defined.

Lemma vfs_truncate_resizes_witness :
  file_in (nodes (snd (vfs_truncate file_f 6 vfs2))) file_f = Some [1; 2; 3; 4; 0; 0].
Proof.
  pose proof (vfs_truncate_resizes vfs2 file_f [1; 2; 3; 4] 6 vfs2_inv (proj2 names_ok)
    ltac:(vm_compute; reflexivity) vfs2_file ltac:(lia)) as Hc.
  destruct (vfs_truncate _ _ _) as [res v']. destruct Hc as (_ & _ & Hf). cbn [snd].
  rewrite (Hf file_f (proj2 names_ok)). reflexivity.
Defined.

Definition dir_e : list Z := lit "/e".

Lemma dir_e_ok : cstring dir_e.
Proof. is_cstring. Qed.

Lemma vfs_rename_moves_subtree_witness :
  file_in (nodes (snd (vfs_rename dir_d (Some dir_e) vfs2))) (lit "/e/f") = Some [1; 2; 3; 4].
Proof.
  pose proof (vfs_rename_moves_subtree vfs2 dir_d dir_e vfs2_inv (proj1 names_ok) dir_e_ok) as Hc.
  assert (fst (vfs_rename dir_d (Some dir_e) vfs2) = 1) as Hres by (vm_compute; reflexivity).
  destruct (vfs_rename _ _ _) as [res v']. cbn [fst snd] in *.
  destruct Hc as [(Hz & _)|(_ & _ & Hf & _)]; [lia|].
  change (lit "/e/f") with (moved dir_d dir_e file_f). rewrite <- vfs2_file.
  apply (Hf file_f 1%nat (default (Node [] 0 [] 0 0) (nodes vfs2 !! 1%nat))).
  split; [vm_compute; reflexivity|]. split; vm_compute; reflexivity.
Defined.

Lemma vfs_remove_exact_witness : fst (vfs_remove dir_d vfs2) = 0.
Proof.
  pose proof (vfs_remove_exact vfs2 dir_d vfs2_inv (proj1 names_ok)) as Hc.
  assert (nodes (snd (vfs_remove dir_d vfs2)) !! 0%nat = nodes vfs2 !! 0%nat) as Hsame by (vm_compute; reflexivity).
  destruct (vfs_remove _ _) as [res v']. cbn [fst snd] in *.
  destruct Hc as [(Hz & _)|(_ & _ & Hno & _)]; [exact Hz|].
  destruct (Hno 0%nat (default (Node [] 0 [] 0 0) (nodes vfs2 !! 0%nat))).
  unfold node_at. rewrite Hsame. split; [vm_compute; reflexivity|]. split; vm_compute; reflexivity.
Defined.

Lemma vfs_list_enumerates_witness :
  fst (vfs_list 1 (Some (VfsEntry [] 0 0)) vfs2) = 1 /\ fst (vfs_list 2 (Some (VfsEntry [] 0 0)) vfs2) = 0.
Proof.
  rewrite (vfs_list_enumerates vfs2 1 (VfsEntry [] 0 0) ltac:(lia)),
    (vfs_list_enumerates vfs2 2 (VfsEntry [] 0 0) ltac:(lia)).
  split; vm_compute; reflexivity.
Defined.

Definition disk_f : list Z := lit "/disk/f".

Lemma disk_f_ok : cstring disk_f.
Proof. is_cstring. Qed.

Lemma vfs_disk_roundtrip_witness :
  let v1 := snd (vfs_create (Some disk_f) (Some [1; 2; 3]) 3 vfs0) in
  snd (fst (vfs_read disk_f 1 (Some [9; 9; 9]) 3 v1)) = Some [2; 3; 9].
Proof.
  pose proof (vfs_disk_roundtrip vfs0 disk_f (lit "/f") [1; 2; 3] 3 1 [9; 9; 9] 3 vfs0_inv vfs0_disk_ok
    disk_f_ok ltac:(vm_compute; reflexivity) ltac:(vm_compute; reflexivity) ltac:(simpl; lia)
    ltac:(unfold SFS_MAX_FILE_SIZE, SFS_FILE_SECTORS; lia) bytes_123 ltac:(lia) ltac:(simpl; lia)) as Hc.
  assert (fst (vfs_create (Some disk_f) (Some [1; 2; 3]) 3 vfs0) = 1) as Hres by (vm_compute; reflexivity).
  destruct (vfs_create _ _ _ _) as [res v1]. cbn [fst snd] in *. specialize (Hc Hres).
  destruct (vfs_read _ _ _ _ _) as [[n out] v2]. exact (proj1 (proj2 Hc)).
Defined.

(** [vfs_write] past the end of a file does not clear the gap: on the tree with
    [/d/f] holding 1, 2, 3, 4, truncating it to 0 and writing one byte at offset 4
    leaves a file of five bytes whose first four are the bytes of the truncated
    version, where [vfs_truncate] to the same length gives zeros. *)
Theorem vfs_write_gap_stale :
  let v := snd (vfs_truncate file_f 0 vfs2) in
  file_in (nodes v) file_f = Some [] /\
  file_in (nodes (snd (vfs_write file_f 4 (Some [9]) 1 v))) file_f = Some [1; 2; 3; 4; 9] /\
  file_in (nodes (snd (vfs_truncate file_f 5 v))) file_f = Some [0; 0; 0; 0; 0].
Proof. vm_compute. split_and!; reflexivity. Qed.
