(* ===== verification/Executable.v ===== *)
(** * User executables ([kernel/user/executable.c])

    The parser of the SaturnOS executable format: a 24-byte header followed by the
    code and the data. A file is the memory from its pointer on, together with the
    size the caller states. *)

From S2P Require Import Prelude.

(** ** Definitions *)

Definition SATURN_EXEC_MAGIC : Z := 0x53415458.
Definition SATURN_EXEC_VERSION : Z := 1.
(** [ARM64_PAGE_SIZE] of [mmu.h]. *)
Definition EXEC_PAGE_SIZE : Z := Z.shiftl 1 12.

Record saturn_exec_header := ExecHeader {
  magic : Z;
  version : Z;
  header_size : Z;
  code_size : Z;
  data_size : Z;
  entry_offset : Z;
  payload_checksum : Z;
}.

(** [sizeof(struct saturn_exec_header)]: five 32-bit and two 16-bit fields. *)
Definition sizeof_header : Z := 24.

(** The header at the start of a file. *)
Definition header_of (file : list Z) : saturn_exec_header :=
  ExecHeader (read32 file) (read16 (drop 4 file)) (read16 (drop 6 file)) (read32 (drop 8 file))
    (read32 (drop 12 file)) (read32 (drop 16 file)) (read32 (drop 20 file)).

(** [code] and [data] are the memory from the two pointers on. *)
Record saturn_exec_image := ExecImage {
  i_code : list Z;
  i_data : list Z;
  i_code_size : Z;
  i_data_size : Z;
  i_entry_offset : Z;
}.

Definition saturn_exec_checksum (data : list Z) (size : Z) : Z :=
  foldl checksum_step 0 (take (Z.to_nat size) data).

(** [None] is the return value 0; [image] says that the caller's pointer is not null. *)
Definition saturn_exec_parse (file : option (list Z)) (file_size : Z) (image : bool) :
    option saturn_exec_image :=
  if negb (bool_decide (is_Some file)) || negb image || (file_size <? sizeof_header) then None else
  let file := default [] file in
  let header := header_of file in
  if negb (magic header =? SATURN_EXEC_MAGIC) || negb (version header =? SATURN_EXEC_VERSION) ||
     negb (header_size header =? sizeof_header) || (code_size header =? 0) ||
     (code_size header >? EXEC_PAGE_SIZE) || (data_size header >? EXEC_PAGE_SIZE) ||
     (entry_offset header >=? code_size header) || truth (Z.land (entry_offset header) 3) then None else
  let payload_size := code_size header +! data_size header in
  if (payload_size >? file_size -! header_size header) ||
     negb (header_size header +! payload_size =? file_size) then None else
  let payload := drop (Z.to_nat (header_size header)) file in
  if negb (saturn_exec_checksum payload payload_size =? payload_checksum header) then None else
  Some (ExecImage payload (drop (Z.to_nat (code_size header)) payload) (code_size header)
          (data_size header) (entry_offset header)).

(** ** The format *)

(** The file with the given code, data and entry point. *)
Definition exec_bytes (code data : list Z) (entry : Z) : list Z :=
  bytes32 SATURN_EXEC_MAGIC ++ bytes16 SATURN_EXEC_VERSION ++ bytes16 sizeof_header ++
  bytes32 (Z.of_nat (length code)) ++ bytes32 (Z.of_nat (length data)) ++ bytes32 entry ++
  bytes32 (foldl checksum_step 0 (code ++ data)) ++ code ++ data.

(** What a program must satisfy to be stored in the format. *)
Record exec_ok (code data : list Z) (entry : Z) : Prop := {
  eo_code : 0 < Z.of_nat (length code) <= EXEC_PAGE_SIZE;
  eo_data : Z.of_nat (length data) <= EXEC_PAGE_SIZE;
  eo_bytes : Forall is_byte (code ++ data);
  eo_entry : 0 <= entry < Z.of_nat (length code) /\ entry mod 4 = 0;
}.

Lemma page_size_val : EXEC_PAGE_SIZE = 4096.
Proof. reflexivity. Qed.

Lemma entry_aligned entry : truth (Z.land entry 3) = negb (entry mod 4 =? 0).
Proof. change 3 with (2 ^ 2 - 1). by rewrite land_low_mask by lia. Qed.

Ltac exec_fields :=
  repeat (first [ rewrite (drop_field 4) by (first [done | lia]) | rewrite (drop_field 2) by (first [done | lia]) ];
          cbn [Nat.sub]; rewrite ?drop_0).

Lemma header_of_bytes code data entry rest : exec_ok code data entry ->
  header_of (exec_bytes code data entry ++ rest) =
    ExecHeader SATURN_EXEC_MAGIC SATURN_EXEC_VERSION sizeof_header (Z.of_nat (length code))
      (Z.of_nat (length data)) entry (foldl checksum_step 0 (code ++ data)) /\
  drop 24 (exec_bytes code data entry ++ rest) = code ++ data ++ rest.
Proof.
  intros [Hc Hd Hb [He _]]. rewrite page_size_val in *. pose proof (checksum_fold_u32 _ Hb) as Hs.
  unfold header_of, exec_bytes. rewrite <- !(assoc_L (++)). exec_fields. split; [|done].
  rewrite !read32_bytes32, !read16_bytes16 by (done || (unfold is_u32; lia)). done.
Qed.

(** The guards of the parser on a well-formed file. *)
Lemma parse_exec_bytes code data entry rest : exec_ok code data entry ->
  saturn_exec_parse (Some (exec_bytes code data entry ++ rest))
    (sizeof_header + Z.of_nat (length code) + Z.of_nat (length data)) true =
  Some (ExecImage (code ++ data ++ rest) (data ++ rest) (Z.of_nat (length code)) (Z.of_nat (length data)) entry).
Proof.
  intros Hok. destruct (header_of_bytes code data entry rest Hok) as [Hh Hp].
  destruct Hok as [Hc Hd Hb [He Hm]]. rewrite page_size_val in *.
  unfold saturn_exec_parse. cbn [from_option id]. rewrite Hh.
  cbn [magic version header_size code_size data_size entry_offset payload_checksum].
  rewrite entry_aligned, Hm, page_size_val. unfold sizeof_header.
  rewrite (u64_small (Z.of_nat (length code) + _)), (u64_small (24 + _)), (u64_small (_ - 24)) by lia.
  rewrite !(bool_decide_eq_true_2 (is_Some _)) by eauto.
  replace (24 + Z.of_nat (length code) + Z.of_nat (length data) <? 24) with false
    by (symmetry; apply Z.ltb_ge; lia).
  replace (Z.of_nat (length code) =? 0) with false by (symmetry; apply Z.eqb_neq; lia).
  replace (Z.of_nat (length code) >? 4096) with false by (symmetry; rewrite Z.gtb_ltb; apply Z.ltb_ge; lia).
  replace (Z.of_nat (length data) >? 4096) with false by (symmetry; rewrite Z.gtb_ltb; apply Z.ltb_ge; lia).
  replace (entry >=? Z.of_nat (length code)) with false by (symmetry; rewrite Z.geb_leb; apply Z.leb_gt; lia).
  cbn [negb orb Z.eqb Pos.eqb SATURN_EXEC_MAGIC SATURN_EXEC_VERSION].
  replace (_ >? _) with false by (symmetry; rewrite Z.gtb_ltb; apply Z.ltb_ge; lia).
  replace (24 + _ =? _) with true by (symmetry; apply Z.eqb_eq; lia).
  change (Z.to_nat 24) with 24%nat. rewrite Hp, Nat2Z.id, drop_app_length. cbn [negb orb].
  unfold saturn_exec_checksum. replace (Z.to_nat _) with (length (code ++ data)) by (rewrite length_app; lia).
  rewrite (assoc_L (++) code data rest), take_app_length, Z.eqb_refl. done.
Qed.

(** Putting a struct back together from its fields. *)
Lemma take_field (n k : nat) (l : list Z) : (n <= k)%nat -> take n l ++ take (k - n) (drop n l) = take k l.
Proof. intros Hn. rewrite take_take_drop. f_equal. lia. Qed.

Lemma header_bytes_of file : (24 <= length file)%nat -> Forall is_byte file ->
  let h := header_of file in
  take 24 file = bytes32 (magic h) ++ bytes16 (version h) ++ bytes16 (header_size h) ++
    bytes32 (code_size h) ++ bytes32 (data_size h) ++ bytes32 (entry_offset h) ++ bytes32 (payload_checksum h).
Proof.
  intros Hl Hb h. unfold h, header_of. cbn [magic version header_size code_size data_size entry_offset payload_checksum].
  rewrite !bytes32_read32, !bytes16_read16 by (rewrite ?length_drop; (lia || done || by apply Forall_drop)).
  rewrite <- (take_field 4 24), <- (take_field 2 (24 - 4) (drop 4 file)),
    <- (take_field 2 (24 - 4 - 2)), <- (take_field 4 (24 - 4 - 2 - 2)), <- (take_field 4 (24 - 4 - 2 - 2 - 4)),
    <- (take_field 4 (24 - 4 - 2 - 2 - 4 - 4)) by lia.
  rewrite !drop_drop. reflexivity.
Qed.

Lemma read32_range b : (4 <= length b)%nat -> Forall is_byte b -> is_u32 (read32 b).
Proof.
  intros Hl Hb. unfold read32, is_u32.
  pose proof (little_endian_to_Z_bound 8 (take 4 b) ltac:(lia) (Forall_take _ 4 _ Hb)) as Hr.
  rewrite length_take, Nat.min_l in Hr by lia. exact Hr.
Qed.

Lemma parse_guards file sz img : (24 <= length file)%nat -> Forall is_byte file -> 0 <= sz < 2 ^ 64 ->
  saturn_exec_parse (Some file) sz true = Some img ->
  let h := header_of file in
  24 <= sz /\ magic h = SATURN_EXEC_MAGIC /\ version h = SATURN_EXEC_VERSION /\ header_size h = 24 /\
  0 < code_size h <= 4096 /\ 0 <= data_size h <= 4096 /\ 0 <= entry_offset h < code_size h /\
  entry_offset h mod 4 = 0 /\ 24 + code_size h + data_size h = sz /\
  foldl checksum_step 0 (take (Z.to_nat (code_size h + data_size h)) (drop 24 file)) = payload_checksum h /\
  img = ExecImage (drop 24 file) (drop (Z.to_nat (code_size h)) (drop 24 file)) (code_size h) (data_size h)
          (entry_offset h).
Proof.
  intros Hl Hb Hsz. unfold saturn_exec_parse. cbn [from_option id].
  rewrite !(bool_decide_eq_true_2 (is_Some _)) by eauto. cbn [negb orb].
  assert (forall k, (k + 4 <= 24)%nat -> is_u32 (read32 (drop k file))) as Hu.
  { intros k Hk. apply read32_range; [rewrite length_drop; lia|by apply Forall_drop]. }
  set (h := header_of file).
  assert (is_u32 (code_size h) /\ is_u32 (data_size h) /\ is_u32 (entry_offset h)) as (Hc & Hd & He)
    by (split_and!; apply Hu; lia).
  unfold is_u32 in *. rewrite entry_aligned, page_size_val. unfold sizeof_header.
  destruct (sz <? 24) eqn:E0; [done|]. destruct (_ || negb (entry_offset h mod 4 =? 0)) eqn:E1; [done|].
  rewrite !orb_false_iff, !negb_false_iff in E1. destruct E1 as [[[[[[[H1 H2] H3] H4] H5] H6] H7] H8].
  apply Z.eqb_eq in H1, H2, H3. rewrite H3.
  rewrite (u64_small (code_size h + _)), (u64_small (24 + _)), (u64_small (sz - 24)) by lia.
  destruct (_ || negb (_ =? sz)) eqn:E2; [done|]. rewrite orb_false_iff, negb_false_iff in E2.
  destruct E2 as [_ E2]. change (Z.to_nat 24) with 24%nat. unfold saturn_exec_checksum.
  destruct (negb (_ =? payload_checksum h)) eqn:E3; [done|]. intros [= <-].
  apply negb_false_iff, Z.eqb_eq in E3. split_and!; try done; lia.
Qed.

(** (C39) The parser accepts every executable: a file that holds the header of a program
    (at most a page of code and a page of data, an aligned entry point inside the
    code) followed by its bytes is parsed, and the image points at exactly the code
    and the data of the program, with its sizes and entry point. *)
Theorem exec_parse_roundtrip code data entry rest :
  exec_ok code data entry ->
  exists img,
    saturn_exec_parse (Some (exec_bytes code data entry ++ rest))
      (sizeof_header + Z.of_nat (length code) + Z.of_nat (length data)) true = Some img /\
    take (Z.to_nat (i_code_size img)) (i_code img) = code /\
    take (Z.to_nat (i_data_size img)) (i_data img) = data /\ i_entry_offset img = entry.
Proof.
  intros Hok. eexists. split; [by apply parse_exec_bytes|]. simpl.
  by rewrite !Nat2Z.id, !take_app_length.
Qed.

(** The parser accepts nothing else: whatever bytes a file holds, if it is parsed
    then it is byte for byte the file of a program with a bounded code and data
    section and an aligned entry point inside the code, its checksum is right, and
    the image lies inside the file. *)
Theorem exec_parse_sound file sz img :
  (24 <= length file)%nat -> Forall is_byte file -> 0 <= sz <= Z.of_nat (length file) -> sz < 2 ^ 64 ->
  saturn_exec_parse (Some file) sz true = Some img ->
  exists code data,
    exec_ok code data (i_entry_offset img) /\
    take (Z.to_nat sz) file = exec_bytes code data (i_entry_offset img) /\
    i_code_size img = Z.of_nat (length code) /\ take (length code) (i_code img) = code /\
    i_data_size img = Z.of_nat (length data) /\ take (length data) (i_data img) = data.
Proof.
  intros Hl Hb Hsz Hsz' Hp.
  destruct (parse_guards file sz img Hl Hb ltac:(lia) Hp)
    as (H0 & H1 & H2 & H3 & Hc & Hd & He & Hm & Hs & Hsum & ->).
  pose proof (header_bytes_of file Hl Hb) as Hhb. set (h := header_of file) in *. cbv zeta in Hhb.
  set (code := take (Z.to_nat (code_size h)) (drop 24 file)).
  set (data := take (Z.to_nat (data_size h)) (drop (Z.to_nat (code_size h)) (drop 24 file))).
  assert (Z.of_nat (length code) = code_size h) as Hlc by (unfold code; rewrite length_take, length_drop; lia).
  assert (Z.of_nat (length data) = data_size h) as Hld by (unfold data; rewrite length_take, !length_drop; lia).
  assert (code ++ data = take (Z.to_nat (code_size h + data_size h)) (drop 24 file)) as Hcd.
  { unfold code, data. rewrite take_take_drop. f_equal. lia. }
  exists code, data. cbn [i_entry_offset i_code_size i_data_size i_code i_data].
  split; [|split; [|split_and!]].
  - split; [rewrite page_size_val; lia|rewrite page_size_val; lia| |split; [lia|done]].
    rewrite Hcd. by apply Forall_take, Forall_drop.
  - rewrite <- (take_field 24) by lia. rewrite Hhb, H1, H2, H3. unfold exec_bytes.
    rewrite Hlc, Hld, Hcd, Hsum. rewrite <- !(assoc_L (++)). unfold sizeof_header.
    do 8 f_equal. lia.
  - done.
  - unfold code. by rewrite length_take, length_drop, Nat.min_l by lia.
  - done.
  - unfold data. by rewrite length_take, !length_drop, Nat.min_l by lia.
Qed.

(** A one-instruction program. *)
Definition sample_code : list Z := [0; 0; 0; 0xD4].

Lemma sample_ok : exec_ok sample_code [7] 0.
Proof.
  split; [rewrite page_size_val; simpl; lia|rewrite page_size_val; simpl; lia| |split; [simpl; lia|done]].
  repeat constructor; unfold is_byte; lia.
Qed.

Lemma exec_parse_roundtrip_witness :
  exists img, saturn_exec_parse (Some (exec_bytes sample_code [7] 0 ++ [])) 29 true = Some img /\
    take (Z.to_nat (i_code_size img)) (i_code img) = sample_code.
Proof.
  destruct (exec_parse_roundtrip sample_code [7] 0 [] sample_ok) as (img & Hp & Hc & _).
  exists img. split; [exact Hp|exact Hc].
Defined.

Lemma exec_parse_sound_witness :
  exists code data, exec_ok code data 0 /\ exec_bytes sample_code [7] 0 = exec_bytes code data 0.
Proof.
  destruct (exec_parse_sound (exec_bytes sample_code [7] 0) 29 (ExecImage [0; 0; 0; 0xD4; 7] [7] 4 1 0))
    as (code & data & Hok & Heq & _).
  - vm_compute. lia.
  - apply (bool_decide_eq_true_1 (Forall is_byte _)). vm_compute. reflexivity.
  - vm_compute. split; discriminate.
  - lia.
  - vm_compute. reflexivity.
  - exists code, data. split; [exact Hok|exact Heq].
Defined.
