(* ===== verification/Mmu.v ===== *)
(** * Translation table format and MMU registers ([arch/arm64/mmu.c], [mmu.h])

    Descriptors are [unsigned long] values; the predicates that print a state return
    the string. The system registers the file accesses are a record, and a TLB
    invalidation is counted. *)

From S2P Require Import Prelude.

(** ** Definitions *)

Definition ARM64_PAGE_SHIFT : Z := 12.
Definition ARM64_PAGE_SIZE : Z := Z.shiftl 1 ARM64_PAGE_SHIFT.
Definition ARM64_TABLE_ENTRIES : Z := 512.
Definition ARM64_TABLE_SIZE : Z := ARM64_TABLE_ENTRIES * 8.
Definition ARM64_L1_SHIFT : Z := 30.
Definition ARM64_L2_SHIFT : Z := 21.
Definition ARM64_L3_SHIFT : Z := 12.
Definition ARM64_L1_BLOCK_SIZE : Z := Z.shiftl 1 ARM64_L1_SHIFT.
Definition ARM64_L2_BLOCK_SIZE : Z := Z.shiftl 1 ARM64_L2_SHIFT.

Definition ARM64_DESC_VALID : Z := Z.shiftl 1 0.
Definition ARM64_DESC_TABLE : Z := Z.shiftl 1 1.
Definition ARM64_DESC_ADDR_MASK : Z := 0x0000fffffffff000.
Definition ARM64_DESC_L2_BLOCK_ADDR_MASK : Z := 0x0000ffffffe00000.
Definition ARM64_DESC_L3_PAGE_ADDR_MASK : Z := 0x0000fffffffff000.
Definition ARM64_DESC_BLOCK : Z := ARM64_DESC_VALID.
Definition ARM64_DESC_PAGE : Z := Z.lor ARM64_DESC_VALID ARM64_DESC_TABLE.
Definition ARM64_DESC_ATTR_INDEX (index : Z) : Z := Z.shiftl index 2.
Definition ARM64_DESC_AP_MASK : Z := Z.shiftl 3 6.
Definition ARM64_DESC_AP_RW_EL1 : Z := Z.shiftl 0 6.
Definition ARM64_DESC_AP_RW_EL0 : Z := Z.shiftl 1 6.
Definition ARM64_DESC_AP_RO_EL1 : Z := Z.shiftl 2 6.
Definition ARM64_DESC_AP_RO_EL0 : Z := Z.shiftl 3 6.
Definition ARM64_DESC_SH_INNER : Z := Z.shiftl 3 8.
Definition ARM64_DESC_AF : Z := Z.shiftl 1 10.
Definition ARM64_DESC_PXN : Z := Z.shiftl 1 53.
Definition ARM64_DESC_UXN : Z := Z.shiftl 1 54.

Definition ARM64_ATTR_INDEX_NORMAL : Z := 0.
Definition ARM64_ATTR_INDEX_DEVICE : Z := 1.
Definition ARM64_MAIR_NORMAL : Z := 0xff.
Definition ARM64_MAIR_DEVICE_NGNRNE : Z := 0x00.
Definition ARM64_MAIR_EL1_VALUE : Z :=
  Z.lor (Z.shiftl ARM64_MAIR_NORMAL (ARM64_ATTR_INDEX_NORMAL * 8))
    (Z.shiftl ARM64_MAIR_DEVICE_NGNRNE (ARM64_ATTR_INDEX_DEVICE * 8)).

Definition ARM64_TCR_T0SZ_32BIT : Z := 32.
Definition ARM64_TCR_IRGN0_WBWA : Z := Z.shiftl 1 8.
Definition ARM64_TCR_ORGN0_WBWA : Z := Z.shiftl 1 10.
Definition ARM64_TCR_SH0_INNER : Z := Z.shiftl 3 12.
Definition ARM64_TCR_TG0_4K : Z := Z.shiftl 0 14.
Definition ARM64_TCR_EPD1 : Z := Z.shiftl 1 23.
Definition ARM64_TCR_IPS_32BIT : Z := Z.shiftl 0 32.
Definition ARM64_TCR_EL1_VALUE : Z :=
  Z.lor ARM64_TCR_T0SZ_32BIT (Z.lor ARM64_TCR_IRGN0_WBWA (Z.lor ARM64_TCR_ORGN0_WBWA
    (Z.lor ARM64_TCR_SH0_INNER (Z.lor ARM64_TCR_TG0_4K (Z.lor ARM64_TCR_EPD1 ARM64_TCR_IPS_32BIT))))).
Definition ARM64_SCTLR_M : Z := Z.shiftl 1 0.

Definition ARM64_NORMAL_MEMORY_ATTR : Z :=
  Z.lor (ARM64_DESC_ATTR_INDEX ARM64_ATTR_INDEX_NORMAL)
    (Z.lor ARM64_DESC_AP_RW_EL1 (Z.lor ARM64_DESC_SH_INNER ARM64_DESC_AF)).
Definition ARM64_DEVICE_MEMORY_ATTR : Z :=
  Z.lor (ARM64_DESC_ATTR_INDEX ARM64_ATTR_INDEX_DEVICE)
    (Z.lor ARM64_DESC_AP_RW_EL1 (Z.lor ARM64_DESC_AF (Z.lor ARM64_DESC_PXN ARM64_DESC_UXN))).

(** The system registers of the translation regime. *)
Record mmu_regs := MmuRegs {
  sctlr_el1 : Z;
  mair_el1 : Z;
  tcr_el1 : Z;
  ttbr0_el1 : Z;
  tlb_invalidations : Z;
}.

Definition arm64_mmu_read_sctlr (r : mmu_regs) : Z := sctlr_el1 r.
Definition arm64_mmu_read_mair (r : mmu_regs) : Z := mair_el1 r.
Definition arm64_mmu_read_tcr (r : mmu_regs) : Z := tcr_el1 r.
Definition arm64_mmu_read_ttbr0 (r : mmu_regs) : Z := ttbr0_el1 r.

Definition arm64_mmu_is_enabled (r : mmu_regs) : bool :=
  negb (Z.land (arm64_mmu_read_sctlr r) ARM64_SCTLR_M =? 0).

Definition arm64_mmu_state (r : mmu_regs) : list Z :=
  if arm64_mmu_is_enabled r then lit "enabled" else lit "disabled".

Definition arm64_mmu_l1_index (address : Z) : Z :=
  Z.land (Z.shiftr address ARM64_L1_SHIFT) (ARM64_TABLE_ENTRIES - 1).
Definition arm64_mmu_l2_index (address : Z) : Z :=
  Z.land (Z.shiftr address ARM64_L2_SHIFT) (ARM64_TABLE_ENTRIES - 1).
Definition arm64_mmu_l3_index (address : Z) : Z :=
  Z.land (Z.shiftr address ARM64_L3_SHIFT) (ARM64_TABLE_ENTRIES - 1).

Definition arm64_mmu_table_desc (physical : Z) : Z :=
  Z.lor (Z.lor (Z.land physical (~! (ARM64_PAGE_SIZE - 1))) ARM64_DESC_VALID) ARM64_DESC_TABLE.

Definition arm64_mmu_desc_is_valid (descriptor : Z) : bool :=
  negb (Z.land descriptor ARM64_DESC_VALID =? 0).
Definition arm64_mmu_desc_is_table (descriptor : Z) : bool :=
  Z.land descriptor (Z.lor ARM64_DESC_VALID ARM64_DESC_TABLE) =? Z.lor ARM64_DESC_VALID ARM64_DESC_TABLE.
Definition arm64_mmu_desc_is_l2_block (descriptor : Z) : bool :=
  Z.land descriptor (Z.lor ARM64_DESC_VALID ARM64_DESC_TABLE) =? ARM64_DESC_VALID.
Definition arm64_mmu_desc_is_l3_page (descriptor : Z) : bool :=
  Z.land descriptor (Z.lor ARM64_DESC_VALID ARM64_DESC_TABLE) =? Z.lor ARM64_DESC_VALID ARM64_DESC_TABLE.

Definition arm64_mmu_desc_address (descriptor : Z) : Z := Z.land descriptor ARM64_DESC_ADDR_MASK.
Definition arm64_mmu_l2_block_address (descriptor : Z) : Z :=
  Z.land descriptor ARM64_DESC_L2_BLOCK_ADDR_MASK.
Definition arm64_mmu_l3_page_address (descriptor : Z) : Z :=
  Z.land descriptor ARM64_DESC_L3_PAGE_ADDR_MASK.

Definition arm64_mmu_desc_is_execute_never (descriptor : Z) : bool :=
  negb (Z.land descriptor (Z.lor ARM64_DESC_PXN ARM64_DESC_UXN) =? 0).
Definition arm64_mmu_desc_execute_state (descriptor : Z) : list Z :=
  if arm64_mmu_desc_is_execute_never descriptor then lit "xn" else lit "exec".
Definition arm64_mmu_desc_is_read_only (descriptor : Z) : bool :=
  Z.land descriptor ARM64_DESC_AP_MASK =? ARM64_DESC_AP_RO_EL1.
Definition arm64_mmu_desc_write_state (descriptor : Z) : list Z :=
  if arm64_mmu_desc_is_read_only descriptor then lit "ro" else lit "rw".
Definition arm64_mmu_desc_has_user_access (descriptor : Z) : bool :=
  let access := Z.land descriptor ARM64_DESC_AP_MASK in
  (access =? ARM64_DESC_AP_RW_EL0) || (access =? ARM64_DESC_AP_RO_EL0).
Definition arm64_mmu_desc_user_access_state (descriptor : Z) : list Z :=
  if arm64_mmu_desc_has_user_access descriptor then lit "el0" else lit "el1".

Definition arm64_mmu_l2_block_desc (physical attributes : Z) : Z :=
  Z.lor (Z.lor (Z.land physical (~! (ARM64_L2_BLOCK_SIZE - 1))) attributes) ARM64_DESC_BLOCK.
Definition arm64_mmu_l3_page_desc (physical attributes : Z) : Z :=
  Z.lor (Z.lor (Z.land physical (~! (ARM64_PAGE_SIZE - 1))) attributes) ARM64_DESC_PAGE.

Definition arm64_mmu_invalidate_tlb (r : mmu_regs) : mmu_regs :=
  MmuRegs (sctlr_el1 r) (mair_el1 r) (tcr_el1 r) (ttbr0_el1 r) (tlb_invalidations r + 1).

Definition arm64_mmu_enable (root_table : Z) (r : mmu_regs) : mmu_regs :=
  if arm64_mmu_is_enabled r then r else
  let r := MmuRegs (sctlr_el1 r) ARM64_MAIR_EL1_VALUE ARM64_TCR_EL1_VALUE root_table (tlb_invalidations r) in
  let r := arm64_mmu_invalidate_tlb r in
  let sctlr := Z.lor (arm64_mmu_read_sctlr r) ARM64_SCTLR_M in
  MmuRegs sctlr (mair_el1 r) (tcr_el1 r) (ttbr0_el1 r) (tlb_invalidations r).

Definition arm64_mmu_switch_ttbr0 (root_table : Z) (r : mmu_regs) : mmu_regs :=
  arm64_mmu_invalidate_tlb (MmuRegs (sctlr_el1 r) (mair_el1 r) (tcr_el1 r) root_table (tlb_invalidations r)).

(** ** Indices *)

Lemma table_index_div (a s : Z) : 0 <= s -> Z.land (Z.shiftr a s) (ARM64_TABLE_ENTRIES - 1) = a / 2 ^ s mod 512.
Proof.
  intros Hs. change (ARM64_TABLE_ENTRIES - 1) with (2 ^ 9 - 1).
  rewrite land_low_mask, Z.shiftr_div_pow2 by lia. reflexivity.
Qed.

(** The three table indices and the page offset are the digits of an address below
    2^39: each index is a valid table position, the address is recomposed from them,
    and two addresses with the same indices lie in the same page. *)
Theorem mmu_index_digits (a : Z) :
  0 <= a < 2 ^ 39 ->
  0 <= arm64_mmu_l1_index a < ARM64_TABLE_ENTRIES /\ 0 <= arm64_mmu_l2_index a < ARM64_TABLE_ENTRIES /\
  0 <= arm64_mmu_l3_index a < ARM64_TABLE_ENTRIES /\
  a = arm64_mmu_l1_index a * ARM64_L1_BLOCK_SIZE + arm64_mmu_l2_index a * ARM64_L2_BLOCK_SIZE +
      arm64_mmu_l3_index a * ARM64_PAGE_SIZE + a mod ARM64_PAGE_SIZE.
Proof.
  intros Ha. unfold arm64_mmu_l1_index, arm64_mmu_l2_index, arm64_mmu_l3_index.
  unfold ARM64_L1_SHIFT, ARM64_L2_SHIFT, ARM64_L3_SHIFT. rewrite !table_index_div by lia.
  change ARM64_L1_BLOCK_SIZE with (2 ^ 30). change ARM64_L2_BLOCK_SIZE with (2 ^ 21).
  change ARM64_PAGE_SIZE with (2 ^ 12). unfold ARM64_TABLE_ENTRIES.
  assert (a / 2 ^ 21 = a / 2 ^ 12 / 512) as H21 by (rewrite Z.div_div by lia; reflexivity).
  assert (a / 2 ^ 30 = a / 2 ^ 12 / 512 / 512) as H30 by (rewrite !Z.div_div by lia; reflexivity).
  rewrite H21, H30. pose proof (Z.div_mod a (2 ^ 12) ltac:(lia)) as Hd.
  assert (0 <= a / 2 ^ 12 < 2 ^ 27) as Hp by (split; [apply Z.div_pos; lia|apply Z.div_lt_upper_bound; lia]).
  set (p := a / 2 ^ 12) in *. clearbody p.
  pose proof (Z.div_mod p 512 ltac:(lia)). pose proof (Z.div_mod (p / 512) 512 ltac:(lia)).
  pose proof (Z.mod_pos_bound p 512 ltac:(lia)). pose proof (Z.mod_pos_bound (p / 512) 512 ltac:(lia)).
  assert (0 <= p / 512 / 512 < 512) as Hq.
  { split; [apply Z.div_pos; [apply Z.div_pos|]; lia|]. apply Z.div_lt_upper_bound; [lia|]. apply Z.div_lt_upper_bound; lia. }
  rewrite (Z.mod_small (p / 512 / 512)) by lia. lia.
Qed.

Lemma mmu_index_digits_witness : 0 <= arm64_mmu_l2_index 0x40200000 < ARM64_TABLE_ENTRIES.
Proof. apply (mmu_index_digits 0x40200000). lia. Defined.

(** ** Descriptors *)

(** The bits [lo .. hi-1]. *)
Definition field (lo hi : Z) : Z := Z.shiftl (Z.ones (hi - lo)) lo.

Lemma field_testbit lo hi i : 0 <= lo <= hi -> 0 <= i -> Z.testbit (field lo hi) i = (lo <=? i) && (i <? hi).
Proof.
  intros Hlo Hi. unfold field. rewrite Z.shiftl_spec, Z.testbit_ones by lia. lia.
Qed.

(** An aligned address within the field is left alone by the mask. *)
Lemma land_field p lo hi : 0 <= lo <= hi -> 0 <= p < 2 ^ hi -> p mod 2 ^ lo = 0 -> Z.land p (field lo hi) = p.
Proof.
  intros Hlo Hp Hm. apply Z.bits_inj'. intros i Hi. rewrite Z.land_spec, field_testbit by lia.
  destruct (Z.leb_spec lo i).
  - destruct (Z.ltb_spec i hi); simpl; [by rewrite andb_true_r|].
    rewrite andb_false_r. symmetry. apply (proj1 (Z.bounded_iff_bits_nonneg hi p ltac:(lia) ltac:(lia))); lia.
  - simpl. rewrite andb_false_r. symmetry.
    rewrite <- (Z.mod_pow2_bits_low p lo i) by lia. by rewrite Hm, Z.bits_0.
Qed.

(** Masking a descriptor built from three parts. *)
Lemma land_lor3 a b c m : Z.land (Z.lor (Z.lor a b) c) m = Z.lor (Z.lor (Z.land a m) (Z.land b m)) (Z.land c m).
Proof. by rewrite !Z.land_lor_distr_l. Qed.

Lemma land_low_field p k m : 0 <= k -> 0 <= m < 2 ^ k -> p mod 2 ^ k = 0 -> Z.land p m = 0.
Proof.
  intros Hk Hm Hp. apply Z.bits_inj'. intros i Hi. rewrite Z.land_spec, Z.bits_0.
  destruct (Z.leb_spec k i).
  - by rewrite (proj1 (Z.bounded_iff_bits_nonneg k m ltac:(lia) ltac:(lia)) ltac:(lia) i), andb_false_r.
  - rewrite <- (Z.mod_pow2_bits_low p k i) by lia. by rewrite Hp, Z.bits_0.
Qed.

(** A physical page address. *)
Definition phys_page (p : Z) : Prop := 0 <= p < 2 ^ 48 /\ p mod ARM64_PAGE_SIZE = 0.

(** Attributes that only use attribute bits. *)
Definition attr_bits (a : Z) : Prop := Z.land a (Z.lor ARM64_DESC_ADDR_MASK 3) = 0.

Lemma phys_page_masked p : phys_page p -> Z.land p (~! (ARM64_PAGE_SIZE - 1)) = p.
Proof.
  intros [Hp Hm]. change (ARM64_PAGE_SIZE - 1) with (2 ^ 12 - 1).
  apply land_high_mask_aligned; [lia|lia|]. by apply Z.mod_divide.
Qed.

Lemma attr_bits_split a : attr_bits a -> Z.land a ARM64_DESC_ADDR_MASK = 0 /\ Z.land a 3 = 0.
Proof.
  unfold attr_bits. intros Ha. rewrite Z.land_lor_distr_r in Ha. by apply Z.lor_eq_0_iff in Ha.
Qed.

Lemma phys_page_addr p : phys_page p -> Z.land p ARM64_DESC_ADDR_MASK = p.
Proof. intros [Hp Hm]. change ARM64_DESC_ADDR_MASK with (field 12 48). by apply land_field; [lia|..]. Qed.

Lemma phys_page_low p m : phys_page p -> 0 <= m < 2 ^ 12 -> Z.land p m = 0.
Proof. intros [_ Hm] Hb. by apply (land_low_field p 12); [lia|..]. Qed.

(** A level-3 page descriptor holds exactly its parts: it is a valid page, its
    address field is the physical page, and the access permission and execute-never
    predicates see exactly the attributes it was built with. *)
Lemma l3_page_desc_fields (p a : Z) :
  phys_page p -> attr_bits a ->
  let d := arm64_mmu_l3_page_desc p a in
  arm64_mmu_desc_is_l3_page d = true /\ arm64_mmu_desc_is_valid d = true /\
  arm64_mmu_l3_page_address d = p /\
  arm64_mmu_desc_has_user_access d = arm64_mmu_desc_has_user_access a /\
  arm64_mmu_desc_is_read_only d = arm64_mmu_desc_is_read_only a /\
  Z.land d ARM64_DESC_UXN = Z.land a ARM64_DESC_UXN /\ Z.land d ARM64_DESC_PXN = Z.land a ARM64_DESC_PXN /\
  Z.land d ARM64_DESC_AP_MASK = Z.land a ARM64_DESC_AP_MASK.
Proof.
  intros Hp Ha d. destruct (attr_bits_split a Ha) as [Hm H3].
  assert (d = Z.lor (Z.lor p a) 3) as -> by (unfold d, arm64_mmu_l3_page_desc; by rewrite phys_page_masked).
  unfold arm64_mmu_desc_is_l3_page, arm64_mmu_desc_is_valid, arm64_mmu_l3_page_address,
    arm64_mmu_desc_has_user_access, arm64_mmu_desc_is_read_only.
  change (Z.lor ARM64_DESC_VALID ARM64_DESC_TABLE) with 3. change ARM64_DESC_VALID with 1.
  change ARM64_DESC_L3_PAGE_ADDR_MASK with ARM64_DESC_ADDR_MASK. cbv zeta. rewrite !land_lor3.
  rewrite (phys_page_low p 3), (phys_page_low p 1), H3, (phys_page_addr p Hp), Hm by (done || lia).
  assert (Z.land a 1 = 0) as -> by (change 1 with (Z.land 3 1); rewrite Z.land_assoc, H3; done).
  rewrite !(phys_page_low p ARM64_DESC_AP_MASK) by (done || (vm_compute; split; [discriminate|reflexivity])).
  change (Z.land 3 ARM64_DESC_AP_MASK) with 0. change (Z.land 3 ARM64_DESC_ADDR_MASK) with 0.
  assert (forall k, 48 <= k -> Z.land p (Z.shiftl 1 k) = 0) as Hhigh.
  { intros k Hk. rewrite Z.land_comm. apply (land_low_field (Z.shiftl 1 k) 48); [lia|destruct Hp; lia|].
    rewrite Z.shiftl_mul_pow2, Z.mul_1_l by lia. replace k with (k - 48 + 48) by lia.
    rewrite Z.pow_add_r, Z.mod_mul by lia. done. }
  unfold ARM64_DESC_UXN, ARM64_DESC_PXN. rewrite !Hhigh by lia.
  change (Z.land 3 (Z.shiftl 1 54)) with 0. change (Z.land 3 (Z.shiftl 1 53)) with 0.
  rewrite !Z.lor_0_r, !Z.lor_0_l. by split_and!.
Qed.

(** A table descriptor points at its table. *)
Lemma table_desc_fields p : phys_page p ->
  arm64_mmu_desc_is_table (arm64_mmu_table_desc p) = true /\ arm64_mmu_desc_address (arm64_mmu_table_desc p) = p.
Proof.
  intros Hp. unfold arm64_mmu_table_desc, arm64_mmu_desc_is_table, arm64_mmu_desc_address.
  rewrite phys_page_masked by done. change ARM64_DESC_VALID with 1. change ARM64_DESC_TABLE with 2.
  change (Z.lor 1 2) with 3. rewrite !land_lor3, (phys_page_low p 3), (phys_page_addr p Hp) by (done || lia).
  split; [done|]. change (Z.land 1 ARM64_DESC_ADDR_MASK) with 0. change (Z.land 2 ARM64_DESC_ADDR_MASK) with 0.
  by rewrite !Z.lor_0_r.
Qed.

(** [arm64_mmu_enable] turns translation on exactly once: on a disabled MMU it sets
    the attribute, control and root registers, invalidates the TLB and only then sets
    the enable bit; on an enabled one it changes nothing. [arm64_mmu_switch_ttbr0]
    replaces the root and invalidates the TLB, and leaves translation as it was. *)
Theorem mmu_enable_switch (r : mmu_regs) (root : Z) :
  let e := arm64_mmu_enable root r in
  arm64_mmu_is_enabled e = true /\
  (arm64_mmu_is_enabled r = true -> e = r) /\
  (arm64_mmu_is_enabled r = false ->
   ttbr0_el1 e = root /\ mair_el1 e = 0xff /\ tcr_el1 e = ARM64_TCR_EL1_VALUE /\
   tlb_invalidations e = tlb_invalidations r + 1 /\ sctlr_el1 e = Z.lor (sctlr_el1 r) 1) /\
  arm64_mmu_is_enabled (arm64_mmu_switch_ttbr0 root r) = arm64_mmu_is_enabled r /\
  ttbr0_el1 (arm64_mmu_switch_ttbr0 root r) = root /\
  tlb_invalidations (arm64_mmu_switch_ttbr0 root r) = tlb_invalidations r + 1.
Proof.
  cbv zeta. unfold arm64_mmu_enable. destruct (arm64_mmu_is_enabled r) eqn:E.
  - split_and!; done.
  - split_and!; try done. unfold arm64_mmu_is_enabled, arm64_mmu_read_sctlr. cbn [sctlr_el1].
    rewrite Z.land_lor_distr_l. change (Z.land ARM64_SCTLR_M ARM64_SCTLR_M) with 1.
    apply negb_true_iff, Z.eqb_neq. intros Hz. by apply Z.lor_eq_0_iff in Hz as [_ ?].
Qed.
