(* ===== verification/AddressSpace.v ===== *)
(** * User address spaces ([kernel/memory/address_space.c])

    Four slots of translation tables and pages in static arrays, and the
    [struct address_space] that describes a kernel or user space. The addresses the
    linker gives the arrays are the class [AsLayout]; the translation tables of the
    kernel, which this file only reads, are a function from addresses to tables.
    A space pointer that may be null is an [option]; names are C strings. *)

From S2P Require Import Prelude Mmu.

(** ** Definitions *)

Definition ADDRESS_SPACE_USER_TABLE_SLOTS : Z := 4.
Definition ADDRESS_SPACE_USER_START : Z := 0x00010000.
Definition ADDRESS_SPACE_USER_END : Z := 0x40000000.
Definition ADDRESS_SPACE_USER_CODE_START : Z := 0x00100000.
Definition ADDRESS_SPACE_USER_CODE_END : Z := 0x00200000.
Definition ADDRESS_SPACE_USER_DATA_START : Z := 0x00200000.
Definition ADDRESS_SPACE_USER_DATA_END : Z := 0x00300000.
Definition ADDRESS_SPACE_USER_STACK_START : Z := 0x3fff0000.
Definition ADDRESS_SPACE_USER_STACK_END : Z := 0x40000000.
Definition ADDRESS_SPACE_USER_CODE_ATTR : Z :=
  Z.lor (Z.land ARM64_NORMAL_MEMORY_ATTR (~! ARM64_DESC_AP_MASK)) (Z.lor ARM64_DESC_AP_RO_EL0 ARM64_DESC_PXN).
Definition ADDRESS_SPACE_USER_DATA_ATTR : Z :=
  Z.lor (Z.land ARM64_NORMAL_MEMORY_ATTR (~! ARM64_DESC_AP_MASK))
    (Z.lor ARM64_DESC_AP_RW_EL0 (Z.lor ARM64_DESC_PXN ARM64_DESC_UXN)).
Definition ADDRESS_SPACE_USER_STACK_ATTR : Z := ADDRESS_SPACE_USER_DATA_ATTR.

Definition ADDRESS_SPACE_USER_REGION_COUNT : Z := 3.

Inductive address_space_kind := ADDRESS_SPACE_KERNEL | ADDRESS_SPACE_USER.
Inductive address_space_switch_status :=
  | ADDRESS_SPACE_SWITCH_ACTIVE | ADDRESS_SPACE_SWITCH_READY | ADDRESS_SPACE_SWITCH_BLOCKED.
Inductive address_space_switch_stub_status :=
  | ADDRESS_SPACE_SWITCH_STUB_ACTIVE | ADDRESS_SPACE_SWITCH_STUB_READY | ADDRESS_SPACE_SWITCH_STUB_BLOCKED.

#[export] Instance kind_eq_dec : EqDecision address_space_kind.
Proof. solve_decision. Defined.
#[export] Instance switch_status_eq_dec : EqDecision address_space_switch_status.
Proof. solve_decision. Defined.
#[export] Instance switch_stub_status_eq_dec : EqDecision address_space_switch_stub_status.
Proof. solve_decision. Defined.

Record address_space_user_region := Region {
  rg_name : option (list Z);
  rg_start : Z;
  rg_end : Z;
  rg_attributes : Z;
  rg_user_access : Z;
  rg_writable : Z;
  rg_executable : Z;
}.

Record address_space := AddressSpace {
  as_name : list Z;
  as_kind : address_space_kind;
  root_table : Z;
  kernel_root_table : Z;
  user_root_table : Z;
  active_root_table : Z;
  target_root_table : Z;
  user_table_slot : Z;
  user_table_count : Z;
  user_start : Z;
  user_end : Z;
  user_code_start : Z;
  user_code_end : Z;
  user_data_start : Z;
  user_data_end : Z;
  user_stack_start : Z;
  user_stack_end : Z;
  user_image_entry : Z;
  user_image_size : Z;
  user_image_checksum : Z;
  user_mapping_count : Z;
  user_descriptor_count : Z;
  user_installed_descriptor_count : Z;
  user_regions : list address_space_user_region;
  shared_kernel_map : Z;
  permission_split_ready : Z;
  kernel_el0_access : Z;
  user_el0_access : Z;
  user_tables_ready : Z;
  user_descriptors_ready : Z;
  user_mappings_ready : Z;
  user_image_ready : Z;
  user_execute_ready : Z;
  validation_ready : Z;
  switch_ready : Z;
  switch_status : address_space_switch_status;
  switch_stub_status : address_space_switch_stub_status;
  validation_errors : Z;
}.

(** The fields set by [address_space_init_user] after the descriptors are installed. *)
Definition set_mappings (installed shared mappings image execute : Z) (s : address_space) : address_space :=
  AddressSpace (as_name s) (as_kind s) (root_table s) (kernel_root_table s) (user_root_table s)
    (active_root_table s) (target_root_table s) (user_table_slot s) (user_table_count s) (user_start s)
    (user_end s) (user_code_start s) (user_code_end s) (user_data_start s) (user_data_end s)
    (user_stack_start s) (user_stack_end s) (user_image_entry s) (user_image_size s)
    (user_image_checksum s) (user_mapping_count s) (user_descriptor_count s) installed
    (user_regions s) shared (permission_split_ready s) (kernel_el0_access s) (user_el0_access s)
    (user_tables_ready s) (user_descriptors_ready s) mappings image execute (validation_ready s)
    (switch_ready s) (switch_status s) (switch_stub_status s) (validation_errors s).

(** The fields set at its end. *)
Definition set_validation (errors valid ready : Z) (st : address_space_switch_status)
    (stub : address_space_switch_stub_status) (s : address_space) : address_space :=
  AddressSpace (as_name s) (as_kind s) (root_table s) (kernel_root_table s) (user_root_table s)
    (active_root_table s) (target_root_table s) (user_table_slot s) (user_table_count s) (user_start s)
    (user_end s) (user_code_start s) (user_code_end s) (user_data_start s) (user_data_end s)
    (user_stack_start s) (user_stack_end s) (user_image_entry s) (user_image_size s)
    (user_image_checksum s) (user_mapping_count s) (user_descriptor_count s)
    (user_installed_descriptor_count s) (user_regions s) (shared_kernel_map s) (permission_split_ready s)
    (kernel_el0_access s) (user_el0_access s) (user_tables_ready s) (user_descriptors_ready s)
    (user_mappings_ready s) (user_image_ready s) (user_execute_ready s) valid ready st stub errors.

(** The fields reset by [address_space_destroy_user]. *)
Definition set_destroyed (s : address_space) : address_space :=
  AddressSpace (as_name s) (as_kind s) (root_table s) (kernel_root_table s) (user_root_table s)
    (active_root_table s) (target_root_table s) ADDRESS_SPACE_USER_TABLE_SLOTS (user_table_count s)
    (user_start s) (user_end s) (user_code_start s) (user_code_end s) (user_data_start s)
    (user_data_end s) (user_stack_start s) (user_stack_end s) (user_image_entry s) (user_image_size s)
    (user_image_checksum s) (user_mapping_count s) (user_descriptor_count s)
    (user_installed_descriptor_count s) (user_regions s) (shared_kernel_map s) (permission_split_ready s)
    (kernel_el0_access s) (user_el0_access s) 0 0 0 0 0 0 0 ADDRESS_SPACE_SWITCH_BLOCKED
    ADDRESS_SPACE_SWITCH_STUB_BLOCKED (validation_errors s).

(** The fields set by [address_space_load_user_image]. *)
Definition set_image (entry size sum : Z) (s : address_space) : address_space :=
  AddressSpace (as_name s) (as_kind s) (root_table s) (kernel_root_table s) (user_root_table s)
    (active_root_table s) (target_root_table s) (user_table_slot s) (user_table_count s) (user_start s)
    (user_end s) (user_code_start s) (user_code_end s) (user_data_start s) (user_data_end s)
    (user_stack_start s) (user_stack_end s) entry size sum (user_mapping_count s) (user_descriptor_count s)
    (user_installed_descriptor_count s) (user_regions s) (shared_kernel_map s) (permission_split_ready s)
    (kernel_el0_access s) (user_el0_access s) (user_tables_ready s) (user_descriptors_ready s)
    (user_mappings_ready s) 1 (user_execute_ready s) (validation_ready s) (switch_ready s)
    (switch_status s) (switch_stub_status s) (validation_errors s).

Definition set_stub (stub : address_space_switch_stub_status) (s : address_space) : address_space :=
  set_validation (validation_errors s) (validation_ready s) (switch_ready s) (switch_status s) stub s.

(** Where the linker places the static arrays. *)
Class AsLayout := {
  l1_base : Z;
  l2_base : Z;
  l3_base : Z;
  pages_base : Z;
}.

(** The static variables. *)
Record as_state := AsState {
  kernel_address_space : address_space;
  user_l1_tables : list (list Z);
  user_l2_tables : list (list Z);
  user_l3_tables : list (list (list Z));
  user_region_pages : list (list (list Z));
  user_table_slots_used : list Z;
}.

Section ops.
Context `{AsLayout}.
(** The translation tables outside this file, by address. *)
Context (kernel_table : Z -> list Z).

Definition l1_address (slot : Z) : Z := l1_base + slot * ARM64_TABLE_SIZE.
Definition l2_address (slot : Z) : Z := l2_base + slot * ARM64_TABLE_SIZE.
Definition l3_address (slot i : Z) : Z :=
  l3_base + (slot * ADDRESS_SPACE_USER_REGION_COUNT + i) * ARM64_TABLE_SIZE.
Definition page_address (slot i : Z) : Z :=
  pages_base + (slot * ADDRESS_SPACE_USER_REGION_COUNT + i) * ARM64_PAGE_SIZE.

(** The contents [address_space_clear_table] and [address_space_clear_page] leave. *)
Definition address_space_clear_table : list Z := replicate (Z.to_nat ARM64_TABLE_ENTRIES) 0.
Definition address_space_clear_page : list Z := replicate (Z.to_nat ARM64_PAGE_SIZE) 0.

Definition address_space_checksum_bytes (bytes : list Z) (size : Z) : Z :=
  foldl (fun checksum b => Z.lxor (Z.lxor (u64 (Z.shiftl checksum 5)) (Z.shiftr checksum 2)) b) 0
    (take (Z.to_nat size) bytes).

(** Returns the flag and the two tables, which are unchanged when it fails. *)
Definition address_space_install_shared_kernel_map (space : address_space) (slot : Z)
    (l1_table l2_table : list Z) : Z * list Z * list Z :=
  if kernel_root_table space =? 0 then (0, l1_table, l2_table) else
  let kernel_l1_table := kernel_table (kernel_root_table space) in
  let kernel_l1_descriptor := default 0 (kernel_l1_table !! 0%nat) in
  if negb (arm64_mmu_desc_is_table kernel_l1_descriptor) then (0, l1_table, l2_table) else
  let kernel_l2_table := kernel_table (arm64_mmu_desc_address kernel_l1_descriptor) in
  let l2_table := copy_loop l2_table 0 (take (Z.to_nat ARM64_TABLE_ENTRIES) kernel_l2_table) in
  let l1_table := <[0%nat := arm64_mmu_table_desc (l2_address slot)]> l1_table in
  let l1_table := copy_loop l1_table 1 (take (Z.to_nat ARM64_TABLE_ENTRIES - 1) (drop 1 kernel_l1_table)) in
  (1, l1_table, l2_table).

(** The first free slot. *)
Fixpoint free_slot (slots : list Z) (slot : nat) : option nat :=
  match slots with
  | [] => None
  | u :: slots => if negb (truth u) then Some slot else free_slot slots (S slot)
  end.

(** Clearing the tables and pages of a slot. *)
Definition clear_slot (slot : nat) (used : Z) (st : as_state) : as_state :=
  AsState (kernel_address_space st)
    (<[slot := address_space_clear_table]> (user_l1_tables st))
    (<[slot := address_space_clear_table]> (user_l2_tables st))
    (<[slot := replicate 3 address_space_clear_table]> (user_l3_tables st))
    (<[slot := replicate 3 address_space_clear_page]> (user_region_pages st))
    (<[slot := used]> (user_table_slots_used st)).

Definition address_space_alloc_user_table_slot (st : as_state) : Z * as_state :=
  match free_slot (user_table_slots_used st) 0 with
  | None => (-1, st)
  | Some slot => (Z.of_nat slot, clear_slot slot 1 st)
  end.

(** One iteration of the loop over the regions: the L2 table, the L3 tables of the
    slot and the number installed. *)
Definition install_region (slot : Z) (i : nat) (region : address_space_user_region)
    (acc : list Z * list (list Z) * Z) : list Z * list (list Z) * Z :=
  let '(l2_table, l3_tables, installed) := acc in
  match rg_name region with
  | None => acc
  | Some _ =>
      let l2_index := arm64_mmu_l2_index (rg_start region) in
      let l3_index := arm64_mmu_l3_index (rg_start region) in
      let l2_table :=
        <[Z.to_nat l2_index := arm64_mmu_table_desc (l3_address slot (Z.of_nat i))]> l2_table in
      let l3_table := <[Z.to_nat l3_index :=
        arm64_mmu_l3_page_desc (page_address slot (Z.of_nat i)) (rg_attributes region)]>
        address_space_clear_table in
      (l2_table, <[i := l3_table]> l3_tables, installed + 1)
  end.

Fixpoint install_loop (slot : Z) (i : nat) (regions : list address_space_user_region)
    (acc : list Z * list (list Z) * Z) : list Z * list (list Z) * Z :=
  match regions with
  | [] => acc
  | region :: regions => install_loop slot (S i) regions (install_region slot i region acc)
  end.

(** Returns the number installed, the shared flag it sets and the new state. *)
Definition address_space_install_user_descriptors (space : address_space) (st : as_state) :
    Z * Z * as_state :=
  if user_table_slot space >=? ADDRESS_SPACE_USER_TABLE_SLOTS then (0, shared_kernel_map space, st) else
  let slot := user_table_slot space in
  let n := Z.to_nat slot in
  let '(shared, l1_table, l2_table) :=
    address_space_install_shared_kernel_map space slot address_space_clear_table address_space_clear_table in
  let l1_table :=
    if negb (truth shared) then <[0%nat := arm64_mmu_table_desc (l2_address slot)]> l1_table else l1_table in
  let regions := take (Z.to_nat (user_descriptor_count space)) (user_regions space) in
  let '(l2_table, l3_tables, installed) :=
    install_loop slot 0 regions (l2_table, default [] (user_l3_tables st !! n), 0) in
  (installed, shared,
   AsState (kernel_address_space st) (<[n := l1_table]> (user_l1_tables st))
     (<[n := l2_table]> (user_l2_tables st)) (<[n := l3_tables]> (user_l3_tables st))
     (user_region_pages st) (user_table_slots_used st)).

Definition address_space_clear_user_regions : list address_space_user_region :=
  replicate (Z.to_nat ADDRESS_SPACE_USER_REGION_COUNT) (Region None 0 0 0 0 0 0).

Definition address_space_set_user_region (index : nat) (name : list Z) (start end_ attributes writable executable : Z)
    (regions : list address_space_user_region) : list address_space_user_region :=
  if Z.of_nat index >=? ADDRESS_SPACE_USER_REGION_COUNT then regions
  else <[index := Region (Some name) start end_ attributes 1 writable executable]> regions.

Definition address_space_region_is_valid (region : address_space_user_region) (want_writable want_executable : Z) : bool :=
  bool_decide (is_Some (rg_name region)) && truth (rg_user_access region) && (rg_start region <? rg_end region) &&
  (rg_writable region =? want_writable) && (rg_executable region =? want_executable).

(** The loop of [address_space_user_range_valid] and its writable variant. *)
Definition in_region (address end_ : Z) (need_writable : bool) (region : address_space_user_region) : bool :=
  bool_decide (is_Some (rg_name region)) && truth (rg_user_access region) &&
  (if need_writable then truth (rg_writable region) else true) &&
  (address >=? rg_start region) && (end_ <=? rg_end region).

Definition address_space_user_range_valid (space : option address_space) (address size : Z) : bool :=
  match space with
  | None => false
  | Some space =>
      if negb (bool_decide (as_kind space = ADDRESS_SPACE_USER)) then false else
      if size =? 0 then true else
      let end_ := address +! size in
      if end_ <? address then false else existsb (in_region address end_ false) (user_regions space)
  end.

Definition address_space_user_writable_range_valid (space : option address_space) (address size : Z) : bool :=
  match space with
  | None => false
  | Some space =>
      if negb (bool_decide (as_kind space = ADDRESS_SPACE_USER)) || (size =? 0) then
        (size =? 0) && bool_decide (as_kind space = ADDRESS_SPACE_USER) else
      let end_ := address +! size in
      if end_ <? address then false else existsb (in_region address end_ true) (user_regions space)
  end.

Definition region_of (space : address_space) (i : nat) : address_space_user_region :=
  default (Region None 0 0 0 0 0 0) (user_regions space !! i).

(** The number of failed groups of checks. *)
Definition address_space_validate_user (space : option address_space) : Z :=
  match space with
  | None => 1
  | Some s =>
      c_int (negb (truth (permission_split_ready s)) || truth (kernel_el0_access s) || negb (truth (user_el0_access s))) +
      c_int (negb (truth (user_tables_ready s)) || negb (truth (user_descriptors_ready s)) ||
             negb (truth (user_mappings_ready s))) +
      c_int ((user_root_table s =? 0) || (user_table_slot s >=? ADDRESS_SPACE_USER_TABLE_SLOTS) ||
             negb (user_table_count s =? 5)) +
      c_int (negb (user_descriptor_count s =? ADDRESS_SPACE_USER_REGION_COUNT) ||
             negb (user_installed_descriptor_count s =? user_descriptor_count s) ||
             negb (user_mapping_count s =? ADDRESS_SPACE_USER_REGION_COUNT)) +
      c_int (negb (address_space_region_is_valid (region_of s 0) 0 1) ||
             negb (address_space_region_is_valid (region_of s 1) 1 0) ||
             negb (address_space_region_is_valid (region_of s 2) 1 0)) +
      c_int ((user_code_start s <? user_start s) || (user_stack_end s >? user_end s) ||
             (user_code_start s >=? user_code_end s) || (user_data_start s >=? user_data_end s) ||
             (user_stack_start s >=? user_stack_end s)) +
      c_int (negb (truth (user_execute_ready s)))
  end.

Definition address_space_init (kernel_root : Z) (st : as_state) : as_state :=
  AsState
    (AddressSpace (lit "kernel") ADDRESS_SPACE_KERNEL kernel_root kernel_root 0 kernel_root kernel_root
       ADDRESS_SPACE_USER_TABLE_SLOTS 0 0 0 0 0 0 0 0 0 0 0 0 0 0 0 address_space_clear_user_regions
       1 1 0 0 0 0 0 0 0 1 1 ADDRESS_SPACE_SWITCH_ACTIVE ADDRESS_SPACE_SWITCH_STUB_ACTIVE 0)
    (user_l1_tables st) (user_l2_tables st) (user_l3_tables st) (user_region_pages st)
    (replicate (Z.to_nat ADDRESS_SPACE_USER_TABLE_SLOTS) 0).

Definition address_space_destroy_user (space : option address_space) (st : as_state) :
    option address_space * as_state :=
  match space with
  | None => (None, st)
  | Some s =>
      if negb (bool_decide (as_kind s = ADDRESS_SPACE_USER)) ||
         (user_table_slot s >=? ADDRESS_SPACE_USER_TABLE_SLOTS) then (Some s, st) else
      (Some (set_destroyed s), clear_slot (Z.to_nat (user_table_slot s)) 0 st)
  end.

Definition user_region_list : list address_space_user_region :=
  let r := address_space_clear_user_regions in
  let r := address_space_set_user_region 0 (lit "code") ADDRESS_SPACE_USER_CODE_START
             ADDRESS_SPACE_USER_CODE_END ADDRESS_SPACE_USER_CODE_ATTR 0 1 r in
  let r := address_space_set_user_region 1 (lit "data") ADDRESS_SPACE_USER_DATA_START
             ADDRESS_SPACE_USER_DATA_END ADDRESS_SPACE_USER_DATA_ATTR 1 0 r in
  address_space_set_user_region 2 (lit "stack") ADDRESS_SPACE_USER_STACK_START
    ADDRESS_SPACE_USER_STACK_END ADDRESS_SPACE_USER_STACK_ATTR 1 0 r.

(** Every field of the caller's structure is overwritten, so it is not an argument. *)
Definition address_space_init_user (name : option (list Z)) (kernel_root : Z) (st : as_state) :
    address_space * as_state :=
  let (slot, st) := address_space_alloc_user_table_slot st in
  let got := slot >=? 0 in
  let space :=
    AddressSpace (default (lit "user") name) ADDRESS_SPACE_USER kernel_root kernel_root
      (if got then l1_address slot else 0) kernel_root (if got then l1_address slot else kernel_root)
      (if got then slot else ADDRESS_SPACE_USER_TABLE_SLOTS) (if got then 5 else 0)
      ADDRESS_SPACE_USER_START ADDRESS_SPACE_USER_END ADDRESS_SPACE_USER_CODE_START
      ADDRESS_SPACE_USER_CODE_END ADDRESS_SPACE_USER_DATA_START ADDRESS_SPACE_USER_DATA_END
      ADDRESS_SPACE_USER_STACK_START ADDRESS_SPACE_USER_STACK_END 0 0 0 3
      ADDRESS_SPACE_USER_REGION_COUNT 0 user_region_list 0 1 0 1 (c_int got) (c_int got) 0 0 0 0 0
      ADDRESS_SPACE_SWITCH_BLOCKED ADDRESS_SPACE_SWITCH_STUB_BLOCKED 0 in
  let '(installed, shared, st) := address_space_install_user_descriptors space st in
  let mappings := c_int (installed =? user_descriptor_count space) in
  let space := set_mappings installed shared mappings 0 mappings space in
  let errors := address_space_validate_user (Some space) in
  let valid := errors =? 0 in
  let ready := valid && negb (target_root_table space =? 0) &&
               negb (target_root_table space =? active_root_table space) in
  (set_validation errors (c_int valid) (c_int ready)
     (if ready then ADDRESS_SPACE_SWITCH_READY else ADDRESS_SPACE_SWITCH_BLOCKED)
     (if ready then ADDRESS_SPACE_SWITCH_STUB_READY else ADDRESS_SPACE_SWITCH_STUB_BLOCKED) space, st).

(** Storing a page of a slot. *)
Definition set_page (slot i : nat) (page : list Z) (st : as_state) : as_state :=
  AsState (kernel_address_space st) (user_l1_tables st) (user_l2_tables st) (user_l3_tables st)
    (alter (fun ps => <[i := page]> ps) slot (user_region_pages st)) (user_table_slots_used st).

Definition region_page (slot i : nat) (st : as_state) : list Z :=
  default [] (user_region_pages st !! slot ≫= (.!! i)).

Definition address_space_load_user_image (space : option address_space) (code : option (list Z)) (code_size : Z)
    (data : option (list Z)) (data_size entry_offset : Z) (st : as_state) :
    Z * option address_space * as_state :=
  match space with
  | None => (0, None, st)
  | Some s =>
      if negb (bool_decide (as_kind s = ADDRESS_SPACE_USER)) ||
         (user_table_slot s >=? ADDRESS_SPACE_USER_TABLE_SLOTS) || negb (truth (user_mappings_ready s)) ||
         negb (bool_decide (is_Some code)) || (code_size =? 0) || (code_size >? ARM64_PAGE_SIZE) ||
         (data_size >? ARM64_PAGE_SIZE) || (truth data_size && negb (bool_decide (is_Some data))) ||
         (entry_offset >=? code_size) || truth (Z.land entry_offset 3) then (0, Some s, st) else
      let slot := Z.to_nat (user_table_slot s) in
      let code_page := copy_loop address_space_clear_page 0 (take (Z.to_nat code_size) (default [] code)) in
      let data_page := copy_loop address_space_clear_page 0 (take (Z.to_nat data_size) (default [] data)) in
      let st := set_page slot 1 data_page (set_page slot 0 code_page st) in
      let s := set_image (user_code_start s +! entry_offset) code_size
                 (address_space_checksum_bytes code_page code_size) s in
      (1, Some s, st)
  end.

Definition address_space_write_user_data (space : option address_space) (offset : Z) (data : option (list Z))
    (size : Z) (st : as_state) : Z * as_state :=
  match space with
  | None => (0, st)
  | Some s =>
      if negb (bool_decide (as_kind s = ADDRESS_SPACE_USER)) ||
         (user_table_slot s >=? ADDRESS_SPACE_USER_TABLE_SLOTS) ||
         (truth size && negb (bool_decide (is_Some data))) || (offset >? ARM64_PAGE_SIZE) ||
         (size >? ARM64_PAGE_SIZE -! offset) then (0, st) else
      let slot := Z.to_nat (user_table_slot s) in
      (1, set_page slot 1 (copy_loop (region_page slot 1 st) (Z.to_nat offset)
                             (take (Z.to_nat size) (default [] data))) st)
  end.

Definition address_space_kernel (st : as_state) : address_space := kernel_address_space st.

Definition address_space_kind_name (kind : address_space_kind) : list Z :=
  match kind with ADDRESS_SPACE_KERNEL => lit "kernel" | ADDRESS_SPACE_USER => lit "user" end.

Definition address_space_validation_state (space : option address_space) : list Z :=
  match space with
  | None => lit "errors"
  | Some s => if negb (truth (validation_ready s)) || truth (validation_errors s) then lit "errors" else lit "ok"
  end.

Definition address_space_switch_state (space : option address_space) : list Z :=
  match space with
  | None => lit "blocked"
  | Some s =>
      match switch_status s with
      | ADDRESS_SPACE_SWITCH_ACTIVE => lit "active"
      | ADDRESS_SPACE_SWITCH_READY => lit "ready"
      | ADDRESS_SPACE_SWITCH_BLOCKED => lit "blocked"
      end
  end.

Definition address_space_switch_stub_state (space : option address_space) : list Z :=
  match space with
  | None => lit "blocked"
  | Some s =>
      match switch_stub_status s with
      | ADDRESS_SPACE_SWITCH_STUB_ACTIVE => lit "active"
      | ADDRESS_SPACE_SWITCH_STUB_READY => lit "ready"
      | ADDRESS_SPACE_SWITCH_STUB_BLOCKED => lit "blocked"
      end
  end.

Definition address_space_switch_stub (space : option address_space) :
    address_space_switch_stub_status * option address_space :=
  match space with
  | None => (ADDRESS_SPACE_SWITCH_STUB_BLOCKED, None)
  | Some s =>
      if bool_decide (switch_status s = ADDRESS_SPACE_SWITCH_ACTIVE) then
        (ADDRESS_SPACE_SWITCH_STUB_ACTIVE, Some (set_stub ADDRESS_SPACE_SWITCH_STUB_ACTIVE s))
      else if negb (truth (switch_ready s)) || (target_root_table s =? 0) ||
              negb (truth (validation_ready s)) || truth (validation_errors s) then
        (ADDRESS_SPACE_SWITCH_STUB_BLOCKED, Some (set_stub ADDRESS_SPACE_SWITCH_STUB_BLOCKED s))
      else (ADDRESS_SPACE_SWITCH_STUB_READY, Some (set_stub ADDRESS_SPACE_SWITCH_STUB_READY s))
  end.
End ops.

(** ** Slots *)

Lemma free_slot_spec l k n :
  free_slot l k = Some n <->
  (k <= n)%nat /\ l !! (n - k)%nat = Some 0 /\ forall j u, (j < n - k)%nat -> l !! j = Some u -> u <> 0.
Proof.
  revert k. induction l as [|u l IH]; intros k; simpl.
  { split; [done|]. by intros (_ & ? & _). }
  unfold truth. destruct (Z.eqb_spec u 0) as [->|Hu]; simpl.
  - split.
    + intros [= ->]. rewrite Nat.sub_diag. repeat split; [lia|lia].
    + intros (Hk & Hl & Hn). destruct (decide (k = n)) as [->|]; [done|]. by destruct (Hn 0%nat 0); [lia|..].
  - rewrite IH. split.
    + intros (Hk & Hl & Hn). split; [lia|]. replace (n - k)%nat with (S (n - S k)) by lia. split; [done|].
      intros [|j] v Hj; simpl; [by intros [= ->]|]. apply Hn. lia.
    + intros (Hk & Hl & Hn). destruct (decide (k = n)) as [->|].
      { rewrite Nat.sub_diag in Hl. by injection Hl as ->. }
      replace (n - k)%nat with (S (n - S k)) in * by lia. split; [lia|]. split; [done|].
      intros j v Hj Hv. apply (Hn (S j)); [lia|done].
Qed.

Lemma free_slot_none l k : free_slot l k = None <-> forall j u, l !! j = Some u -> u <> 0.
Proof.
  revert k. induction l as [|u l IH]; intros k; simpl; [by split|].
  unfold truth. destruct (Z.eqb_spec u 0) as [->|Hu]; simpl.
  - split; [done|]. intros Hn. by destruct (Hn 0%nat 0).
  - rewrite IH. split; intros Hn.
    + intros [|j] v; simpl; [by intros [= <-]|apply Hn].
    + intros j v. apply (Hn (S j)).
Qed.

(** The outer dimensions of the static arrays, and the sizes of the pages. *)
Record as_wf (st : as_state) : Prop := {
  wf_l1 : length (user_l1_tables st) = 4%nat;
  wf_l2 : length (user_l2_tables st) = 4%nat;
  wf_l3 : length (user_l3_tables st) = 4%nat;
  wf_pages : length (user_region_pages st) = 4%nat;
  wf_used : length (user_table_slots_used st) = 4%nat;
  wf_region_pages : forall slot ps, user_region_pages st !! slot = Some ps ->
    length ps = 3%nat /\ Forall (fun p => length p = Z.to_nat ARM64_PAGE_SIZE) ps;
}.

(** Everything a slot holds: its tables and its pages. *)
Definition slot_view (st : as_state) (slot : nat) :
    option (list Z) * option (list Z) * option (list (list Z)) * option (list (list Z)) :=
  (user_l1_tables st !! slot, user_l2_tables st !! slot, user_l3_tables st !! slot, user_region_pages st !! slot).

Lemma clear_page_length : length address_space_clear_page = Z.to_nat ARM64_PAGE_SIZE.
Proof. apply length_replicate. Qed.

Lemma clear_slot_wf slot u st : as_wf st -> as_wf (clear_slot slot u st).
Proof.
  intros [? ? ? ? ? Hp]. split; simpl; rewrite ?length_insert; try done.
  intros m ps. rewrite list_lookup_insert_Some. intros [(-> & <- & _)|[_ Hm]]; [|eauto].
  split; [done|]. by rewrite !Forall_cons, !clear_page_length.
Qed.

Lemma clear_slot_view slot u st m : m <> slot -> slot_view (clear_slot slot u st) m = slot_view st m.
Proof. intros Hm. unfold slot_view. simpl. by rewrite !list_lookup_insert_ne. Qed.

Lemma set_page_wf slot i p st :
  length p = Z.to_nat ARM64_PAGE_SIZE -> as_wf st -> as_wf (set_page slot i p st).
Proof.
  intros Hp [? ? ? ? ? Hr]. split; simpl; rewrite ?length_alter; try done.
  intros m ps. destruct (decide (m = slot)) as [->|]; [|rewrite list_lookup_alter_ne by done; eauto].
  rewrite list_lookup_alter_eq, fmap_Some. intros (qs & Hq & ->).
  destruct (Hr _ _ Hq) as [? ?]. split; [by rewrite length_insert|]. by apply Forall_insert.
Qed.

Lemma set_page_view slot i p st m : m <> slot -> slot_view (set_page slot i p st) m = slot_view st m.
Proof. intros Hm. unfold slot_view. simpl. by rewrite list_lookup_alter_ne. Qed.

Lemma region_page_set slot i p st j :
  as_wf st -> (slot < 4)%nat -> (i < 3)%nat ->
  region_page slot j (set_page slot i p st) = if decide (i = j) then p else region_page slot j st.
Proof.
  intros Hwf Hs Hi. unfold region_page. simpl. rewrite list_lookup_alter_eq.
  destruct (lookup_lt_is_Some_2 (user_region_pages st) slot) as [ps Hps]; [by rewrite (wf_pages st Hwf)|].
  destruct (wf_region_pages st Hwf _ _ Hps) as [Hl _]. rewrite Hps. simpl.
  destruct (decide (i = j)) as [->|]; [by rewrite list_lookup_insert_eq by lia|by rewrite list_lookup_insert_ne].
Qed.

(** ** The translation a table tree defines *)

(** The linker gives the arrays distinct, page-aligned addresses below 2^48. *)
Definition array_ok (base pages : Z) : Prop := phys_page base /\ 0 < base /\ base + pages * ARM64_PAGE_SIZE <= 2 ^ 48.
Definition array_disjoint (b1 n1 b2 n2 : Z) : Prop :=
  b1 + n1 * ARM64_PAGE_SIZE <= b2 \/ b2 + n2 * ARM64_PAGE_SIZE <= b1.

Class AsLayoutOk `{AsLayout} : Prop := {
  l1_ok : array_ok l1_base 4;
  l2_ok : array_ok l2_base 4;
  l3_ok : array_ok l3_base 12;
  pages_ok : array_ok pages_base 12;
  l1_l2_disjoint : array_disjoint l1_base 4 l2_base 4;
  l1_l3_disjoint : array_disjoint l1_base 4 l3_base 12;
  l2_l3_disjoint : array_disjoint l2_base 4 l3_base 12;
}.

(** The result of a walk: no translation, a block (level 1 or 2) or a page descriptor. *)
Inductive translation := Fault | Block (level descriptor : Z) | Page (descriptor : Z).

Section walk.
Context `{AsLayout}.
Context (kernel_table : Z -> list Z).

Definition in_array (base pages a : Z) : bool := (base <=? a) && (a <? base + pages * ARM64_PAGE_SIZE).
Definition array_index (base a : Z) : nat := Z.to_nat ((a - base) / ARM64_PAGE_SIZE).

(** The table at a physical address. *)
Definition table_at (st : as_state) (a : Z) : list Z :=
  if in_array l1_base 4 a then default [] (user_l1_tables st !! array_index l1_base a)
  else if in_array l2_base 4 a then default [] (user_l2_tables st !! array_index l2_base a)
  else if in_array l3_base 12 a then
    let k := array_index l3_base a in
    default [] (user_l3_tables st !! (k / 3)%nat ≫= (.!! (k mod 3)%nat))
  else kernel_table a.

Definition entry (table : list Z) (index : Z) : Z := default 0 (table !! Z.to_nat index).

Definition walk_l3 (st : as_state) (table va : Z) : translation :=
  let d := entry (table_at st table) (arm64_mmu_l3_index va) in
  if arm64_mmu_desc_is_l3_page d then Page d else Fault.

Definition walk_l2 (st : as_state) (table va : Z) : translation :=
  let d := entry (table_at st table) (arm64_mmu_l2_index va) in
  if arm64_mmu_desc_is_table d then walk_l3 st (arm64_mmu_desc_address d) va
  else if arm64_mmu_desc_is_l2_block d then Block 2 d else Fault.

Definition walk (st : as_state) (root va : Z) : translation :=
  let d := entry (table_at st root) (arm64_mmu_l1_index va) in
  if arm64_mmu_desc_is_table d then walk_l2 st (arm64_mmu_desc_address d) va
  else if arm64_mmu_desc_is_valid d then Block 1 d else Fault.

(** The kernel tables the user roots copy: a level-1 table whose first entry is a
    level-2 table, both outside the arrays of the slots. *)
Definition outside (a : Z) : Prop :=
  in_array l1_base 4 a = false /\ in_array l2_base 4 a = false /\ in_array l3_base 12 a = false.

Record kernel_map_ok (root : Z) : Prop := {
  km_root : root <> 0;
  km_root_outside : outside root;
  km_l1_length : length (kernel_table root) = Z.to_nat ARM64_TABLE_ENTRIES;
  km_l1_table : arm64_mmu_desc_is_table (default 0 (kernel_table root !! 0%nat)) = true;
  km_l2_outside : outside (arm64_mmu_desc_address (default 0 (kernel_table root !! 0%nat)));
  km_l2_length : length (kernel_table (arm64_mmu_desc_address (default 0 (kernel_table root !! 0%nat)))) =
                 Z.to_nat ARM64_TABLE_ENTRIES;
}.
End walk.

Section walk_lemmas.
Context `{AsLayoutOk}.
Context (kernel_table : Z -> list Z).

Lemma in_array_element base n k : 0 <= k < n -> in_array base n (base + k * ARM64_PAGE_SIZE) = true.
Proof.
  intros Hk. unfold in_array. change ARM64_PAGE_SIZE with 4096.
  apply andb_true_iff. split; [apply Z.leb_le|apply Z.ltb_lt]; lia.
Qed.

Lemma in_array_other b1 n1 b2 n2 k :
  array_disjoint b1 n1 b2 n2 -> 0 <= k < n2 -> in_array b1 n1 (b2 + k * ARM64_PAGE_SIZE) = false.
Proof.
  unfold array_disjoint, in_array. change ARM64_PAGE_SIZE with 4096.
  intros Hd Hk. apply andb_false_iff. destruct Hd; [right; apply Z.ltb_ge|left; apply Z.leb_gt]; lia.
Qed.

Lemma array_index_element base k : 0 <= k -> array_index base (base + k * ARM64_PAGE_SIZE) = Z.to_nat k.
Proof.
  intros Hk. unfold array_index. replace (base + k * ARM64_PAGE_SIZE - base) with (k * ARM64_PAGE_SIZE) by lia.
  by rewrite Z.div_mul.
Qed.

Lemma array_element_phys base n k : array_ok base n -> 0 <= k < n -> phys_page (base + k * ARM64_PAGE_SIZE).
Proof.
  intros ([Hb Hm] & Hp & Hn) Hk. change ARM64_PAGE_SIZE with 4096 in *. split; [lia|].
  by rewrite Z.mod_add.
Qed.

Lemma table_at_l1 st n : 0 <= n < 4 -> table_at kernel_table st (l1_address n) = default [] (user_l1_tables st !! Z.to_nat n).
Proof.
  intros Hn. unfold table_at, l1_address. change ARM64_TABLE_SIZE with ARM64_PAGE_SIZE.
  by rewrite in_array_element, array_index_element by lia.
Qed.

Lemma table_at_l2 st n : 0 <= n < 4 -> table_at kernel_table st (l2_address n) = default [] (user_l2_tables st !! Z.to_nat n).
Proof.
  intros Hn. unfold table_at, l2_address. change ARM64_TABLE_SIZE with ARM64_PAGE_SIZE.
  rewrite (in_array_other _ _ l2_base 4) by (apply l1_l2_disjoint || lia).
  by rewrite in_array_element, array_index_element by lia.
Qed.

Lemma table_at_l3 st n i : 0 <= n < 4 -> 0 <= i < 3 ->
  table_at kernel_table st (l3_address n i) =
  default [] (user_l3_tables st !! Z.to_nat n ≫= (.!! Z.to_nat i)).
Proof.
  intros Hn Hi. unfold table_at, l3_address, ADDRESS_SPACE_USER_REGION_COUNT.
  change ARM64_TABLE_SIZE with ARM64_PAGE_SIZE.
  rewrite !(in_array_other _ _ l3_base 12) by (apply l1_l3_disjoint || apply l2_l3_disjoint || lia).
  rewrite in_array_element, array_index_element by lia. cbv zeta.
  replace (Z.to_nat (n * 3 + i)) with (Z.to_nat i + Z.to_nat n * 3)%nat by lia.
  rewrite Nat.div_add, Nat.Div0.mod_add, Nat.div_small, Nat.mod_small by lia. done.
Qed.

Lemma table_at_kernel st a : outside a -> table_at kernel_table st a = kernel_table a.
Proof. intros (H1 & H2 & H3). unfold table_at. by rewrite H1, H2, H3. Qed.
End walk_lemmas.

(** ** Creating a user space *)

(** The tables [address_space_init_user] builds in a slot. *)
Section init_user.
Context `{AsLayoutOk}.
Context (kernel_table : Z -> list Z).

Definition l3_of (slot : Z) (i : nat) (region : address_space_user_region) : list Z :=
  <[Z.to_nat (arm64_mmu_l3_index (rg_start region)) :=
    arm64_mmu_l3_page_desc (page_address slot (Z.of_nat i)) (rg_attributes region)]> address_space_clear_table.

Definition user_l2_of (slot : Z) (l2 : list Z) : list Z :=
  <[511%nat := arm64_mmu_table_desc (l3_address slot 2)]>
  (<[1%nat := arm64_mmu_table_desc (l3_address slot 1)]>
  (<[0%nat := arm64_mmu_table_desc (l3_address slot 0)]> l2)).

Lemma install_loop_regions slot l2 a b c :
  install_loop slot 0 user_region_list (l2, [a; b; c], 0) =
  (user_l2_of slot l2, imap (l3_of slot) user_region_list, 3).
Proof. reflexivity. Qed.

(** What a space holds once it is created in a slot. *)
Record created (s : address_space) (root : Z) (slot : nat) : Prop := {
  cr_kind : as_kind s = ADDRESS_SPACE_USER;
  cr_slot : user_table_slot s = Z.of_nat slot;
  cr_target : target_root_table s = l1_address (Z.of_nat slot);
  cr_kernel_root : kernel_root_table s = root;
  cr_regions : user_regions s = user_region_list;
  cr_code : user_code_start s = ADDRESS_SPACE_USER_CODE_START;
  cr_mappings : user_mappings_ready s = 1;
  cr_image : user_image_ready s = 0;
  cr_errors : validation_errors s = 0;
  cr_valid : validation_ready s = 1;
  cr_ready : switch_ready s = 1;
  cr_status : switch_status s = ADDRESS_SPACE_SWITCH_READY;
  cr_data : user_data_start s = ADDRESS_SPACE_USER_DATA_START;
  cr_stack : user_stack_end s = ADDRESS_SPACE_USER_STACK_END;
  cr_execute : user_execute_ready s = 1;
}.

Lemma l1_address_pos n : 0 <= n < 4 -> l1_address n <> 0.
Proof.
  intros Hn. destruct l1_ok as (_ & Hp & _). unfold l1_address. change ARM64_TABLE_SIZE with 4096. lia.
Qed.

Lemma outside_not_l1 root n : outside root -> 0 <= n < 4 -> l1_address n <> root.
Proof.
  intros (Ho & _) Hn <-. unfold l1_address in Ho. change ARM64_TABLE_SIZE with ARM64_PAGE_SIZE in Ho.
  by rewrite in_array_element in Ho.
Qed.

(** The result of the creation in slot [n], by the state before. *)
Definition init_state (root : Z) (n : nat) (st : as_state) : as_state :=
  let l1 := kernel_table root in
  let l2 := kernel_table (arm64_mmu_desc_address (default 0 (l1 !! 0%nat))) in
  AsState (kernel_address_space st)
    (<[n := arm64_mmu_table_desc (l2_address (Z.of_nat n)) :: drop 1 l1]> (user_l1_tables st))
    (<[n := user_l2_of (Z.of_nat n) l2]> (user_l2_tables st))
    (<[n := imap (l3_of (Z.of_nat n)) user_region_list]> (user_l3_tables st))
    (<[n := replicate 3 address_space_clear_page]> (user_region_pages st))
    (<[n := 1]> (user_table_slots_used st)).

Lemma length_clear_table : length address_space_clear_table = 512%nat.
Proof. apply length_replicate. Qed.

Lemma copy_loop_all {A} (dst src : list A) :
  length src = length dst -> copy_loop dst 0 src = src.
Proof.
  intros Hl. rewrite copy_loop_write_at by lia. unfold write_at. rewrite take_0, drop_ge by lia.
  apply app_nil_r.
Qed.

Lemma shared_map_tables space slot :
  kernel_map_ok kernel_table (kernel_root_table space) ->
  let l1 := kernel_table (kernel_root_table space) in
  address_space_install_shared_kernel_map kernel_table space slot address_space_clear_table address_space_clear_table =
  (1, arm64_mmu_table_desc (l2_address slot) :: drop 1 l1,
   kernel_table (arm64_mmu_desc_address (default 0 (l1 !! 0%nat)))).
Proof.
  intros [Hr _ H1 Ht _ H2] l1. unfold address_space_install_shared_kernel_map. fold l1 in H1, Ht, H2.
  apply Z.eqb_neq in Hr as ->. fold l1. rewrite Ht. cbv zeta. simpl negb.
  change (Z.to_nat ARM64_TABLE_ENTRIES) with 512%nat in *.
  f_equal; [f_equal|].
  - rewrite take_ge by (rewrite length_drop; lia).
    rewrite copy_loop_write_at by (rewrite length_insert, length_drop, length_clear_table; lia).
    unfold write_at. rewrite (drop_ge _ (1 + length (drop 1 l1))) by (rewrite length_insert, length_drop, length_clear_table; lia).
    by rewrite app_nil_r.
  - rewrite take_ge by lia. apply copy_loop_all. by rewrite length_clear_table.
Qed.

Lemma init_user_slot name root st n :
  as_wf st -> kernel_map_ok kernel_table root -> free_slot (user_table_slots_used st) 0 = Some n ->
  created (address_space_init_user kernel_table name root st).1 root n /\
  (address_space_init_user kernel_table name root st).2 = init_state root n st.
Proof.
  intros Hwf Hk Hf. pose proof Hf as Hn. apply free_slot_spec in Hn as (_ & Hn & _).
  apply lookup_lt_Some in Hn. rewrite Nat.sub_0_r, (wf_used st Hwf) in Hn.
  unfold address_space_init_user, address_space_alloc_user_table_slot. rewrite Hf.
  assert ((Z.of_nat n >=? 0) = true) as -> by (rewrite Z.geb_leb; apply Z.leb_le; lia).
  unfold address_space_install_user_descriptors. cbn [user_table_slot kernel_root_table user_descriptor_count user_regions].
  assert ((Z.of_nat n >=? ADDRESS_SPACE_USER_TABLE_SLOTS) = false) as En
    by (rewrite Z.geb_leb; apply Z.leb_gt; unfold ADDRESS_SPACE_USER_TABLE_SLOTS; lia).
  rewrite En, shared_map_tables by exact Hk. cbn [kernel_root_table truth negb].
  rewrite Nat2Z.id. cbn [clear_slot user_l3_tables].
  rewrite list_lookup_insert_eq by (rewrite (wf_l3 st Hwf); lia).
  change (take (Z.to_nat ADDRESS_SPACE_USER_REGION_COUNT) user_region_list) with user_region_list.
  cbn [from_option id replicate]. rewrite install_loop_regions.
  cbv beta iota. match goal with |- context [address_space_validate_user (Some ?x)] => set (sp := x) end.
  assert (address_space_validate_user (Some sp) = 0) as ->.
  { unfold address_space_validate_user.
    replace (user_root_table sp =? 0) with false by (symmetry; apply Z.eqb_neq, l1_address_pos; lia).
    replace (user_table_slot sp >=? ADDRESS_SPACE_USER_TABLE_SLOTS) with false by (symmetry; apply En). reflexivity. }
  replace (target_root_table sp =? 0) with false by (symmetry; apply Z.eqb_neq, l1_address_pos; lia).
  replace (target_root_table sp =? active_root_table sp) with false
    by (symmetry; apply Z.eqb_neq, outside_not_l1; [apply Hk|lia]).
  split; [by split|]. unfold init_state, clear_slot. cbn.
  by rewrite !list_insert_insert_eq.
Qed.

(** Without a free slot the space is created blocked and no table changes. *)
Lemma init_user_full name root st :
  free_slot (user_table_slots_used st) 0 = None ->
  let s := (address_space_init_user kernel_table name root st).1 in
  (address_space_init_user kernel_table name root st).2 = st /\ as_kind s = ADDRESS_SPACE_USER /\
  user_table_slot s = ADDRESS_SPACE_USER_TABLE_SLOTS /\ switch_ready s = 0 /\ user_mappings_ready s = 0 /\
  validation_errors s = 4 /\ switch_status s = ADDRESS_SPACE_SWITCH_BLOCKED.
Proof.
  intros Hf. unfold address_space_init_user, address_space_alloc_user_table_slot. rewrite Hf.
  by split_and!.
Qed.

(** *** The translation of a created space *)

(** The region whose mapped page (its first) holds an address. *)
Definition user_page (va : Z) : option nat :=
  if (ADDRESS_SPACE_USER_CODE_START <=? va) && (va <? ADDRESS_SPACE_USER_CODE_START + ARM64_PAGE_SIZE) then Some 0%nat
  else if (ADDRESS_SPACE_USER_DATA_START <=? va) && (va <? ADDRESS_SPACE_USER_DATA_START + ARM64_PAGE_SIZE) then Some 1%nat
  else if (ADDRESS_SPACE_USER_STACK_START <=? va) && (va <? ADDRESS_SPACE_USER_STACK_START + ARM64_PAGE_SIZE) then Some 2%nat
  else None.

(** The 2 MiB ranges whose level-2 entries the regions replace. *)
Definition shadowed (va : Z) : bool :=
  let k := va / ARM64_L2_BLOCK_SIZE in (k =? 0) || (k =? 1) || (k =? 511).

(** The translation a created space is meant to have. *)
Definition user_translation (slot : Z) (kernel : Z -> translation) (va : Z) : translation :=
  match user_page va with
  | Some i => Page (arm64_mmu_l3_page_desc (page_address slot (Z.of_nat i)) (rg_attributes (nth i user_region_list (Region None 0 0 0 0 0 0))))
  | None => if shadowed va then Fault else kernel va
  end.

Lemma indices_div va :
  arm64_mmu_l1_index va = va / 2 ^ 30 mod 512 /\ arm64_mmu_l2_index va = va / 2 ^ 21 mod 512 /\
  arm64_mmu_l3_index va = va / 2 ^ 12 mod 512.
Proof.
  unfold arm64_mmu_l1_index, arm64_mmu_l2_index, arm64_mmu_l3_index.
  unfold ARM64_L1_SHIFT, ARM64_L2_SHIFT, ARM64_L3_SHIFT. by rewrite !table_index_div by lia.
Qed.

Lemma entry_insert_eq t (k : nat) i d : i = Z.of_nat k -> (k < length t)%nat -> entry (<[k := d]> t) i = d.
Proof. intros -> Hl. unfold entry. by rewrite Nat2Z.id, list_lookup_insert_eq. Qed.

Lemma entry_insert_ne t (k : nat) i d : 0 <= i -> i <> Z.of_nat k -> entry (<[k := d]> t) i = entry t i.
Proof. intros Hi Hn. unfold entry. rewrite list_lookup_insert_ne by lia. done. Qed.

Lemma entry_head d t : entry (d :: t) 0 = d.
Proof. reflexivity. Qed.

Lemma entry_tail d t i : 0 < i -> entry (d :: drop 1 t) i = entry t i.
Proof.
  intros Hi. unfold entry. replace (Z.to_nat i) with (S (Z.to_nat (i - 1))) by lia.
  change ((d :: drop 1 t) !! S (Z.to_nat (i - 1))) with (drop 1 t !! Z.to_nat (i - 1)). by rewrite lookup_drop.
Qed.

Lemma entry_clear_table i : entry address_space_clear_table i = 0.
Proof.
  unfold entry, address_space_clear_table. destruct (replicate _ _ !! _) eqn:E; [|done].
  by apply lookup_replicate in E as [-> _].
Qed.

Lemma page_desc_is_page slot i attr : 0 <= slot < 4 -> 0 <= i < 3 -> Z.land attr 3 = 0 ->
  arm64_mmu_desc_is_l3_page (arm64_mmu_l3_page_desc (page_address slot i) attr) = true.
Proof.
  intros Hs Hi Ha. unfold arm64_mmu_l3_page_desc, arm64_mmu_desc_is_l3_page, page_address, ADDRESS_SPACE_USER_REGION_COUNT.
  assert (phys_page (pages_base + (slot * 3 + i) * ARM64_PAGE_SIZE)) as Hp
    by (apply (array_element_phys _ 12); [apply pages_ok|lia]).
  rewrite phys_page_masked, land_lor3 by done. change (Z.lor ARM64_DESC_VALID ARM64_DESC_TABLE) with 3.
  rewrite (phys_page_low _ 3), Ha by (done || lia). done.
Qed.

(** The walk through one of the level-3 tables of a slot. *)
Lemma walk_l3_region st n i region va :
  0 <= n < 4 -> (i < 3)%nat -> Z.land (rg_attributes region) 3 = 0 ->
  user_l3_tables st !! Z.to_nat n ≫= (.!! i) = Some (l3_of n i region) ->
  walk_l3 kernel_table st (l3_address n (Z.of_nat i)) va =
  if arm64_mmu_l3_index va =? arm64_mmu_l3_index (rg_start region)
  then Page (arm64_mmu_l3_page_desc (page_address n (Z.of_nat i)) (rg_attributes region)) else Fault.
Proof.
  intros Hn Hi Ha Hl. unfold walk_l3. rewrite table_at_l3, Nat2Z.id, Hl by lia. cbn [from_option id].
  destruct (indices_div va) as (_ & _ & H3). destruct (indices_div (rg_start region)) as (_ & _ & H3').
  pose proof (Z.mod_pos_bound (va / 2 ^ 12) 512). pose proof (Z.mod_pos_bound (rg_start region / 2 ^ 12) 512).
  unfold l3_of. destruct (Z.eqb_spec (arm64_mmu_l3_index va) (arm64_mmu_l3_index (rg_start region))) as [->|Hne].
  - rewrite entry_insert_eq by (rewrite ?length_clear_table; lia). by rewrite page_desc_is_page by lia.
  - rewrite entry_insert_ne, entry_clear_table by lia. done.
Qed.

Lemma user_translation_ext slot k1 k2 va : k1 va = k2 va -> user_translation slot k1 va = user_translation slot k2 va.
Proof. intros Hk. unfold user_translation. by rewrite Hk. Qed.

Lemma page_test start va : start mod 4096 = 0 ->
  (start <=? va) && (va <? start + ARM64_PAGE_SIZE) = (va / 2 ^ 12 =? start / 2 ^ 12).
Proof.
  intros Hs. change ARM64_PAGE_SIZE with 4096. change (2 ^ 12) with 4096. apply eq_true_iff_eq.
  rewrite andb_true_iff, Z.leb_le, Z.ltb_lt, Z.eqb_eq. Z.div_mod_to_equations. lia.
Qed.

(** The decision by the page number and the 2 MiB block number. *)
Lemma user_translation_block slot kernel va (k : Z) :
  va / 2 ^ 21 = k ->
  user_translation slot kernel va =
  if k =? 0 then if va / 2 ^ 12 mod 512 =? 256 then user_translation slot kernel 0x100000 else Fault
  else if k =? 1 then if va / 2 ^ 12 mod 512 =? 0 then user_translation slot kernel 0x200000 else Fault
  else if k =? 511 then if va / 2 ^ 12 mod 512 =? 496 then user_translation slot kernel 0x3fff0000 else Fault
  else kernel va.
Proof.
  intros Hk. unfold user_translation at 1, user_page. rewrite !page_test by reflexivity.
  unfold shadowed. change ARM64_L2_BLOCK_SIZE with (2 ^ 21). rewrite Hk. cbv zeta.
  change (ADDRESS_SPACE_USER_CODE_START / 2 ^ 12) with 256. change (ADDRESS_SPACE_USER_DATA_START / 2 ^ 12) with 512.
  change (ADDRESS_SPACE_USER_STACK_START / 2 ^ 12) with 262128.
  assert (k = va / 2 ^ 12 / 512) as Hq by (subst k; by rewrite Z.div_div).
  set (q := va / 2 ^ 12) in *. clearbody q. clear Hk.
  pose proof (Z.div_mod q 512 ltac:(lia)). pose proof (Z.mod_pos_bound q 512 ltac:(lia)).
  destruct (Z.eqb_spec k 0); [|destruct (Z.eqb_spec k 1); [|destruct (Z.eqb_spec k 511)]];
    repeat match goal with |- context [?a =? ?b] => destruct (Z.eqb_spec a b); try (exfalso; lia) end; reflexivity.
Qed.

Lemma user_translation_high slot kernel va : 2 ^ 30 <= va -> user_translation slot kernel va = kernel va.
Proof.
  intros Hva. rewrite (user_translation_block slot kernel va _ eq_refl).
  assert (512 <= va / 2 ^ 21) by (apply Z.div_le_lower_bound; lia).
  by repeat (match goal with |- context [?a =? ?b] => destruct (Z.eqb_spec a b); [lia|] end).
Qed.

(** The walk through a level-2 entry that points at one of them. *)
Lemma walk_region_desc st n i va region :
  user_l3_tables st !! Z.to_nat n = Some (imap (l3_of n) user_region_list) ->
  user_region_list !! i = Some region -> Z.land (rg_attributes region) 3 = 0 -> 0 <= n < 4 ->
  forall d other, d = arm64_mmu_table_desc (l3_address n (Z.of_nat i)) ->
  (if arm64_mmu_desc_is_table d then walk_l3 kernel_table st (arm64_mmu_desc_address d) va else other) =
  if arm64_mmu_l3_index va =? arm64_mmu_l3_index (rg_start region)
  then Page (arm64_mmu_l3_page_desc (page_address n (Z.of_nat i)) (rg_attributes region)) else Fault.
Proof.
  intros H3 Hr Ha Hn d other ->. pose proof (lookup_lt_Some _ _ _ Hr) as Hi. change (length user_region_list) with 3%nat in Hi.
  destruct (table_desc_fields (l3_address n (Z.of_nat i))) as [-> ->].
  { unfold l3_address, ADDRESS_SPACE_USER_REGION_COUNT. change ARM64_TABLE_SIZE with ARM64_PAGE_SIZE.
    apply (array_element_phys _ 12); [apply l3_ok|lia]. }
  apply walk_l3_region; [done..|]. rewrite H3. cbn [mbind option_bind]. by rewrite list_lookup_imap, Hr.
Qed.

Lemma walk_l2_user st n va a :
  0 <= n < 4 -> outside a -> length (kernel_table a) = 512%nat -> 0 <= va < 2 ^ 30 ->
  user_l2_tables st !! Z.to_nat n = Some (user_l2_of n (kernel_table a)) ->
  user_l3_tables st !! Z.to_nat n = Some (imap (l3_of n) user_region_list) ->
  walk_l2 kernel_table st (l2_address n) va = user_translation n (walk_l2 kernel_table st a) va.
Proof.
  intros Hn Ha Hl Hva H2 H3. rewrite (user_translation_block n _ va _ eq_refl).
  pose proof (table_at_kernel kernel_table st a Ha) as Ea.
  unfold walk_l2. rewrite table_at_l2, H2, Ea by done. cbn [from_option id].
  destruct (indices_div va) as (_ & E2 & E3).
  assert (0 <= va / 2 ^ 21 < 512) as Hk21 by (split; [apply Z.div_pos; lia|apply Z.div_lt_upper_bound; lia]).
  rewrite Z.mod_small in E2 by done. rewrite <- E3, E2. set (k := va / 2 ^ 21) in *. clearbody k.
  unfold user_l2_of. destruct (Z.eqb_spec k 511) as [->|N511].
  { rewrite entry_insert_eq by (rewrite ?length_insert; lia). by rewrite (walk_region_desc st n 2 va _ H3 eq_refl). }
  rewrite entry_insert_ne by lia. destruct (Z.eqb_spec k 1) as [->|N1].
  { rewrite entry_insert_eq by (rewrite ?length_insert; lia). by rewrite (walk_region_desc st n 1 va _ H3 eq_refl). }
  rewrite entry_insert_ne by lia. destruct (Z.eqb_spec k 0) as [->|N0].
  { rewrite entry_insert_eq by (rewrite ?length_insert; lia). by rewrite (walk_region_desc st n 0 va _ H3 eq_refl). }
  by rewrite entry_insert_ne by lia.
Qed.

Lemma init_state_wf root n st : as_wf st -> as_wf (init_state root n st).
Proof.
  intros [? ? ? ? ? Hp]. split; unfold init_state; cbn -[replicate]; rewrite ?length_insert; try done.
  intros m ps. rewrite list_lookup_insert_Some. intros [(-> & <- & _)|[_ Hm]]; [|eauto].
  split; [done|]. apply Forall_replicate, clear_page_length.
Qed.

(** The tables of a slot as the creation under a kernel root leaves them. *)
Record slot_tables (root : Z) (n : nat) (st : as_state) : Prop := {
  sl_l1 : user_l1_tables st !! n = Some (arm64_mmu_table_desc (l2_address (Z.of_nat n)) :: drop 1 (kernel_table root));
  sl_l2 : user_l2_tables st !! n =
    Some (user_l2_of (Z.of_nat n) (kernel_table (arm64_mmu_desc_address (default 0 (kernel_table root !! 0%nat)))));
  sl_l3 : user_l3_tables st !! n = Some (imap (l3_of (Z.of_nat n)) user_region_list);
}.

Lemma init_state_tables root n st : as_wf st -> (n < 4)%nat -> slot_tables root n (init_state root n st).
Proof.
  intros Hwf Hn. split; apply list_lookup_insert_eq; [rewrite (wf_l1 st Hwf)|rewrite (wf_l2 st Hwf)|rewrite (wf_l3 st Hwf)]; lia.
Qed.

Lemma walk_slot_tables root n st va :
  slot_tables root n st -> (n < 4)%nat -> kernel_map_ok kernel_table root -> 0 <= va < 2 ^ 39 ->
  walk kernel_table st (l1_address (Z.of_nat n)) va =
  user_translation (Z.of_nat n) (walk kernel_table st root) va.
Proof.
  intros [H1 H2 H3] Hn Hk Hva. destruct (indices_div va) as (E1 & _ & _).
  unfold walk at 1. rewrite table_at_l1, Nat2Z.id, H1 by lia. cbn [from_option id].
  rewrite Z.mod_small in E1 by (split; [apply Z.div_pos; lia|apply Z.div_lt_upper_bound; lia]).
  destruct (decide (va < 2 ^ 30)) as [Hlt|Hge].
  - rewrite Z.div_small in E1 by lia. rewrite E1. cbv zeta. rewrite entry_head.
    destruct (table_desc_fields (l2_address (Z.of_nat n))) as [-> ->].
    { unfold l2_address. change ARM64_TABLE_SIZE with ARM64_PAGE_SIZE. apply (array_element_phys _ 4); [apply l2_ok|lia]. }
    rewrite (walk_l2_user st (Z.of_nat n) va _ ltac:(lia) (km_l2_outside _ _ Hk) (km_l2_length _ _ Hk) ltac:(lia));
      rewrite ?Nat2Z.id; try done.
    apply user_translation_ext. unfold walk. rewrite (table_at_kernel kernel_table st root) by apply Hk.
    unfold entry. rewrite E1. change (Z.to_nat 0) with 0%nat. by rewrite (km_l1_table _ _ Hk).
  - assert (1 <= va / 2 ^ 30) as Hq by (apply Z.div_le_lower_bound; lia).
    rewrite user_translation_high by lia. unfold walk. rewrite (table_at_kernel kernel_table st root) by apply Hk.
    by rewrite entry_tail by lia.
Qed.

Lemma walk_init_state root n st va :
  as_wf st -> (n < 4)%nat -> kernel_map_ok kernel_table root -> 0 <= va < 2 ^ 39 ->
  walk kernel_table (init_state root n st) (l1_address (Z.of_nat n)) va =
  user_translation (Z.of_nat n) (walk kernel_table (init_state root n st) root) va.
Proof. intros Hwf Hn. apply walk_slot_tables; [by apply init_state_tables|done]. Qed.

(** Creating a user space in a free slot gives it exactly the intended translation:
    the space validates and is ready to switch to, its three region pages are cleared,
    and under its root every address below 2^39 translates to the region page it
    belongs to (the first page of the code, data or stack region) with that region's
    permissions, faults elsewhere in the three 2 MiB blocks that hold the regions, and
    anywhere else translates as it does under the kernel's root. The slot becomes used
    and the tables and pages of every other slot are untouched. *)
Theorem init_user_translation name root st n :
  as_wf st -> kernel_map_ok kernel_table root -> free_slot (user_table_slots_used st) 0 = Some n ->
  let s := (address_space_init_user kernel_table name root st).1 in
  let st' := (address_space_init_user kernel_table name root st).2 in
  as_wf st' /\ created s root n /\
  user_table_slots_used st' = <[n := 1]> (user_table_slots_used st) /\
  (forall i, (i < 3)%nat -> region_page n i st' = replicate 4096 0) /\
  (forall m, m <> n -> slot_view st' m = slot_view st m) /\
  forall va, 0 <= va < 2 ^ 39 ->
    walk kernel_table st' (target_root_table s) va =
    user_translation (Z.of_nat n) (walk kernel_table st' root) va.
Proof.
  intros Hwf Hk Hf s st'. pose proof (init_user_slot name root st n Hwf Hk Hf) as [Hc Hst]. fold s in Hc. fold st' in Hst.
  clearbody s st'. subst st'. pose proof Hf as Hn. apply free_slot_spec in Hn as (_ & Hn & _).
  apply lookup_lt_Some in Hn. rewrite Nat.sub_0_r, (wf_used st Hwf) in Hn.
  split_and!.
  - apply (init_state_wf root n st Hwf).
  - done.
  - done.
  - intros i Hi. unfold region_page, init_state. cbn [user_region_pages].
    rewrite list_lookup_insert_eq by (rewrite (wf_pages st Hwf); lia). cbn [mbind option_bind].
    by rewrite lookup_replicate_2.
  - intros m Hm. unfold slot_view, init_state. cbn. by rewrite !list_lookup_insert_ne.
  - intros va Hva. rewrite (cr_target _ _ _ Hc). by apply walk_init_state.
Qed.

(** The three pages of a slot obey write-xor-execute: the code page is read-only
    and executable at EL0, the data and stack pages are writable and not executable at
    EL0, none is executable at EL1, all are accessible from EL0, and each descriptor
    names the physical page of its own slot and region. *)
Theorem user_pages_wx (slot : Z) (i : nat) (region : address_space_user_region) :
  0 <= slot < 4 -> user_region_list !! i = Some region ->
  let d := arm64_mmu_l3_page_desc (page_address slot (Z.of_nat i)) (rg_attributes region) in
  arm64_mmu_l3_page_address d = page_address slot (Z.of_nat i) /\
  arm64_mmu_desc_has_user_access d = true /\ Z.land d ARM64_DESC_PXN <> 0 /\
  (Z.land d ARM64_DESC_UXN = 0 <-> i = 0%nat) /\
  (Z.land d ARM64_DESC_AP_MASK = ARM64_DESC_AP_RO_EL0 <-> i = 0%nat) /\
  (rg_executable region = 1 <-> i = 0%nat) /\ (rg_writable region = 0 <-> i = 0%nat).
Proof.
  intros Hs Hr d. assert (i < 3)%nat as Hi by apply (lookup_lt_Some _ _ _ Hr).
  assert (phys_page (page_address slot (Z.of_nat i))) as Hp.
  { unfold page_address, ADDRESS_SPACE_USER_REGION_COUNT. apply (array_element_phys _ 12); [apply pages_ok|lia]. }
  assert (attr_bits (rg_attributes region)) as Ha
    by (destruct i as [|[|[|i]]]; [..|lia]; injection Hr as <-; reflexivity).
  destruct (l3_page_desc_fields _ _ Hp Ha) as (_ & _ & E1 & E2 & E3 & E4 & E5 & E6). fold d in E1, E2, E4, E5, E6.
  rewrite E1, E2, E4, E5, E6. clear -Hr Hi.
  destruct i as [|[|[|i]]]; [..|lia]; injection Hr as <-; vm_compute; split_and!; done.
Qed.
End init_user.

(** ** Ownership of the slots *)

Section spaces.
Context `{AsLayout}.
Context (kernel_table : Z -> list Z).

(** The operations on the user spaces of the system, named by position. *)
Inductive as_op :=
  | OpInit (name : option (list Z)) (root : Z)
  | OpDestroy (i : nat)
  | OpLoad (i : nat) (code : option (list Z)) (code_size : Z) (data : option (list Z)) (data_size entry : Z)
  | OpWrite (i : nat) (offset : Z) (data : option (list Z)) (size : Z).

Definition op_target (op : as_op) : option nat :=
  match op with OpInit _ _ => None | OpDestroy i | OpLoad i _ _ _ _ _ | OpWrite i _ _ _ => Some i end.

(** Sizes and offsets are [unsigned long]. *)
Definition op_ok (op : as_op) : Prop :=
  match op with
  | OpLoad _ _ csize _ dsize entry => 0 <= csize < 2 ^ 64 /\ 0 <= dsize < 2 ^ 64 /\ 0 <= entry < 2 ^ 64
  | OpWrite _ offset _ size => 0 <= offset < 2 ^ 64 /\ 0 <= size < 2 ^ 64
  | _ => True
  end.

(** The structure a pointer designates, stored back after a call. *)
Definition put (i : nat) (s : option address_space) (spaces : list address_space) : list address_space :=
  match s with None => spaces | Some s => <[i := s]> spaces end.

Definition as_exec (op : as_op) (sys : list address_space * as_state) : list address_space * as_state :=
  let (spaces, st) := sys in
  match op with
  | OpInit name root => let (s, st) := address_space_init_user kernel_table name root st in (spaces ++ [s], st)
  | OpDestroy i => let (s, st) := address_space_destroy_user (spaces !! i) st in (put i s spaces, st)
  | OpLoad i code csize data dsize entry =>
      let '(_, s, st) := address_space_load_user_image (spaces !! i) code csize data dsize entry st in
      (put i s spaces, st)
  | OpWrite i offset data size => let (_, st) := address_space_write_user_data (spaces !! i) offset data size st in (spaces, st)
  end.

Inductive as_reach : list address_space * as_state -> Prop :=
  | as_start root st : as_wf st -> as_reach ([], address_space_init root st)
  | as_step op sys : as_reach sys -> op_ok op -> as_reach (as_exec op sys).

(** Every used slot has one owner, and every slot owned is used. *)
Record as_inv (sys : list address_space * as_state) : Prop := {
  inv_wf : as_wf sys.2;
  inv_slot : forall i s, sys.1 !! i = Some s -> as_kind s = ADDRESS_SPACE_USER /\ 0 <= user_table_slot s <= 4;
  inv_owner : forall i j s t, sys.1 !! i = Some s -> sys.1 !! j = Some t ->
    user_table_slot s < 4 -> user_table_slot s = user_table_slot t -> i = j;
  inv_used : forall n u, user_table_slots_used sys.2 !! n = Some u ->
    (u <> 0 <-> exists i s, sys.1 !! i = Some s /\ user_table_slot s = Z.of_nat n);
}.

Lemma init_user_effect name root st :
  as_wf st ->
  let s := (address_space_init_user kernel_table name root st).1 in
  let st' := (address_space_init_user kernel_table name root st).2 in
  as_wf st' /\ as_kind s = ADDRESS_SPACE_USER /\
  match free_slot (user_table_slots_used st) 0 with
  | None => user_table_slot s = 4 /\ st' = st
  | Some n => user_table_slot s = Z.of_nat n /\
      user_table_slots_used st' = <[n := 1]> (user_table_slots_used st) /\
      forall m, m <> n -> slot_view st' m = slot_view st m
  end.
Proof.
  intros Hwf. unfold address_space_init_user, address_space_alloc_user_table_slot.
  destruct (free_slot (user_table_slots_used st) 0) as [n|] eqn:Hf; [|done].
  apply free_slot_spec in Hf as (_ & Hn & _). apply lookup_lt_Some in Hn. rewrite Nat.sub_0_r, (wf_used st Hwf) in Hn.
  assert ((Z.of_nat n >=? 0) = true) as -> by (rewrite Z.geb_leb; apply Z.leb_le; lia).
  unfold address_space_install_user_descriptors. cbn [user_table_slot].
  assert ((Z.of_nat n >=? ADDRESS_SPACE_USER_TABLE_SLOTS) = false) as ->
    by (rewrite Z.geb_leb; apply Z.leb_gt; unfold ADDRESS_SPACE_USER_TABLE_SLOTS; lia).
  destruct (address_space_install_shared_kernel_map _ _ _ _ _) as [[shared l1] l2].
  destruct (install_loop _ _ _ _) as [[l2' l3'] installed]. rewrite Nat2Z.id.
  pose proof (clear_slot_wf n 1 st Hwf) as [? ? ? ? ? Hp]. cbn [fst snd]. split_and!.
  - split; cbn [user_l1_tables user_l2_tables user_l3_tables user_region_pages user_table_slots_used];
      rewrite ?length_insert; assumption.
  - reflexivity.
  - reflexivity.
  - reflexivity.
  - intros m Hm. rewrite <- (clear_slot_view n 1 st m Hm). unfold slot_view.
    cbn [user_l1_tables user_l2_tables user_l3_tables user_region_pages]. by rewrite !list_lookup_insert_ne.
Qed.

Lemma destroy_cases s st :
  let r := address_space_destroy_user (Some s) st in
  (as_kind s = ADDRESS_SPACE_USER /\ user_table_slot s < 4 /\
   r = (Some (set_destroyed s), clear_slot (Z.to_nat (user_table_slot s)) 0 st)) \/
  (~ (as_kind s = ADDRESS_SPACE_USER /\ user_table_slot s < 4) /\ r = (Some s, st)).
Proof.
  unfold address_space_destroy_user, ADDRESS_SPACE_USER_TABLE_SLOTS. rewrite Z.geb_leb.
  destruct (bool_decide_reflect (as_kind s = ADDRESS_SPACE_USER)); simpl; [|right; split; [by intros []|done]].
  destruct (Z.leb_spec 4 (user_table_slot s)); [right; split; [lia|done]|left; done].
Qed.

(** The accepted loads: the conditions and the effect. *)
Definition load_ok (s : address_space) (code : option (list Z)) (csize : Z) (data : option (list Z)) (dsize entry : Z) : Prop :=
  as_kind s = ADDRESS_SPACE_USER /\ user_table_slot s < 4 /\ user_mappings_ready s <> 0 /\ is_Some code /\
  0 < csize <= 4096 /\ dsize <= 4096 /\ (dsize <> 0 -> is_Some data) /\ entry < csize /\ entry mod 4 = 0.

Definition load_code (code : option (list Z)) (size : Z) : list Z :=
  copy_loop address_space_clear_page 0 (take (Z.to_nat size) (default [] code)).

Lemma load_cases s code csize data dsize entry st :
  0 <= csize -> 0 <= entry ->
  let r := address_space_load_user_image (Some s) code csize data dsize entry st in
  let slot := Z.to_nat (user_table_slot s) in
  (load_ok s code csize data dsize entry /\
   r = (1, Some (set_image (user_code_start s +! entry) csize
                   (address_space_checksum_bytes (load_code code csize) csize) s),
        set_page slot 1 (load_code data dsize) (set_page slot 0 (load_code code csize) st))) \/
  (~ load_ok s code csize data dsize entry /\ r = (0, Some s, st)).
Proof.
  intros Hc He. cbv zeta. unfold address_space_load_user_image, load_ok.
  change (Z.land entry 3) with (Z.land entry (2 ^ 2 - 1)). rewrite land_low_mask by lia. change (2 ^ 2) with 4.
  unfold ADDRESS_SPACE_USER_TABLE_SLOTS, truth. change ARM64_PAGE_SIZE with 4096. rewrite !Z.geb_leb, !Z.gtb_ltb.
  destruct (bool_decide_reflect (as_kind s = ADDRESS_SPACE_USER)); cbn [negb orb]; [|right; split; [by intros []|done]].
  destruct (Z.leb_spec 4 (user_table_slot s)); cbn [negb orb]; [right; split; [lia|done]|].
  destruct (Z.eqb_spec (user_mappings_ready s) 0); cbn [negb orb]; [right; split; [by intros (_ & _ & ? & _)|done]|].
  destruct (bool_decide_reflect (is_Some code)); cbn [negb orb]; [|right; split; [by intros (_ & _ & _ & ? & _)|done]].
  destruct (Z.eqb_spec csize 0); cbn [negb orb]; [right; split; [lia|done]|].
  destruct (Z.ltb_spec 4096 csize); cbn [negb orb]; [right; split; [lia|done]|].
  destruct (Z.ltb_spec 4096 dsize); cbn [negb orb]; [right; split; [lia|done]|].
  destruct (Z.eqb_spec dsize 0) as [Hd|Hd]; cbn [negb orb andb];
    [|destruct (bool_decide_reflect (is_Some data)); cbn [negb orb]; [|right; split; [naive_solver|done]]];
  (destruct (Z.leb_spec csize entry); cbn [negb orb]; [right; split; [lia|done]|];
   destruct (Z.eqb_spec (entry mod 4) 0); cbn [negb]; [left; split; [|done]; split_and!; done || lia|right; split; [lia|done]]).
Qed.

Lemma length_copy_loop {A} (dst : list A) off src : length (copy_loop dst off src) = length dst.
Proof. revert dst off. induction src as [|x src IH]; intros dst off; simpl; [done|]. by rewrite IH, length_insert. Qed.

Lemma load_code_length code size : length (load_code code size) = Z.to_nat ARM64_PAGE_SIZE.
Proof. unfold load_code. by rewrite length_copy_loop, clear_page_length. Qed.

Lemma write_cases s offset data size st :
  let r := address_space_write_user_data (Some s) offset data size st in
  let slot := Z.to_nat (user_table_slot s) in
  r = (0, st) \/
  (as_kind s = ADDRESS_SPACE_USER /\ user_table_slot s < 4 /\
   r = (1, set_page slot 1 (copy_loop (region_page slot 1 st) (Z.to_nat offset)
                              (take (Z.to_nat size) (default [] data))) st)).
Proof.
  cbv zeta. unfold address_space_write_user_data, ADDRESS_SPACE_USER_TABLE_SLOTS. rewrite !Z.geb_leb.
  destruct (bool_decide_reflect (as_kind s = ADDRESS_SPACE_USER)); cbn [negb orb]; [|by left].
  destruct (Z.leb_spec 4 (user_table_slot s)); cbn [negb orb]; [by left|].
  case_if; [by left|by right].
Qed.

Lemma region_page_length st slot i :
  as_wf st -> (slot < 4)%nat -> (i < 3)%nat -> length (region_page slot i st) = Z.to_nat ARM64_PAGE_SIZE.
Proof.
  intros Hwf Hs Hi. unfold region_page.
  destruct (lookup_lt_is_Some_2 (user_region_pages st) slot) as [ps Hps]; [by rewrite (wf_pages st Hwf)|].
  destruct (wf_region_pages st Hwf _ _ Hps) as [Hl Hf]. rewrite Hps. cbn [mbind option_bind].
  destruct (lookup_lt_is_Some_2 ps i) as [p Hp]; [lia|]. rewrite Hp. by apply (Forall_lookup_1 _ _ _ _ Hf Hp).
Qed.

(** Storing back a space that keeps its kind and slot, with the same used slots. *)
Lemma as_inv_keep spaces st st' i s s' :
  as_inv (spaces, st) -> spaces !! i = Some s -> as_kind s' = as_kind s -> user_table_slot s' = user_table_slot s ->
  as_wf st' -> user_table_slots_used st' = user_table_slots_used st -> as_inv (<[i := s']> spaces, st').
Proof.
  intros [_ Hs Ho Hu] Hi Hk Ht Hwf Hused. simpl in *.
  assert (forall j t, <[i := s']> spaces !! j = Some t ->
    exists t0, spaces !! j = Some t0 /\ user_table_slot t = user_table_slot t0 /\ as_kind t = as_kind t0) as Hl.
  { intros j t. rewrite list_lookup_insert_Some. intros [(-> & <- & _)|[_ Hj]]; eauto. }
  split; simpl; [done|..].
  - intros j t Hj. destruct (Hl _ _ Hj) as (t0 & Hj0 & -> & ->). eauto.
  - intros j k t u Hj Hk'. destruct (Hl _ _ Hj) as (t0 & Hj0 & -> & _), (Hl _ _ Hk') as (u0 & Hk0 & -> & _). eauto.
  - intros n u. rewrite Hused. intros Hn. rewrite (Hu n u Hn). split; intros (j & t & Hj & <-).
    + destruct (decide (j = i)) as [->|Hji].
      * exists i, s'. rewrite list_lookup_insert_eq by (by eapply lookup_lt_Some). split; [done|]. congruence.
      * exists j, t. by rewrite list_lookup_insert_ne.
    + destruct (Hl _ _ Hj) as (t0 & Hj0 & -> & _). eauto.
Qed.

Lemma as_inv_init name root spaces st :
  as_inv (spaces, st) ->
  as_inv (spaces ++ [(address_space_init_user kernel_table name root st).1],
          (address_space_init_user kernel_table name root st).2).
Proof.
  intros [Hwf Hs Ho Hu]. simpl in *. destruct (init_user_effect name root st Hwf) as (Hwf' & Hk & He).
  set (s := (address_space_init_user kernel_table name root st).1) in *.
  set (st' := (address_space_init_user kernel_table name root st).2) in *. clearbody s st'.
  assert (forall j t, (spaces ++ [s]) !! j = Some t -> spaces !! j = Some t \/ j = length spaces /\ t = s) as Hl.
  { intros j t. rewrite lookup_app_Some, list_lookup_singleton_Some. intros [?|(? & ? & ->)]; [by left|right; split; [lia|done]]. }
  assert (forall j t, spaces !! j = Some t -> (spaces ++ [s]) !! j = Some t) as Hr by (intros; by apply lookup_app_l_Some).
  assert ((spaces ++ [s]) !! length spaces = Some s) as Hlast by (by apply list_lookup_middle).
  destruct (free_slot (user_table_slots_used st) 0) as [n|] eqn:Hf.
  - destruct He as (Hslot & Hused & _). apply free_slot_spec in Hf as (_ & Hn & _). rewrite Nat.sub_0_r in Hn.
    assert (n < 4)%nat as Hn4 by (rewrite <- (wf_used st Hwf); by eapply lookup_lt_Some).
    assert (forall j t, spaces !! j = Some t -> user_table_slot t <> Z.of_nat n) as Hfresh.
    { intros j t Hj Heq. by apply (proj2 (Hu n 0 Hn)); [eauto|]. }
    split; simpl; [done|..].
    + intros j t [Hj|[-> ->]]%Hl; [by eapply Hs|]. rewrite Hslot. split; [done|lia].
    + intros j k t u [Hj|[-> ->]]%Hl [Hk'|[-> ->]]%Hl Hlt Heq; [by eapply Ho|..|done]; exfalso.
      * apply (Hfresh _ _ Hj). congruence.
      * apply (Hfresh _ _ Hk'). congruence.
    + intros m u. rewrite Hused, list_lookup_insert_Some. intros [(<- & <- & _)|[Hne Hm]].
      * split; [|done]. intros _. eauto.
      * rewrite (Hu m u Hm). split; [intros (j & t & Hj & ?); eauto|].
        intros (j & t & [Hj|[-> ->]]%Hl & Heq); [eauto|]. rewrite Hslot in Heq. lia.
  - destruct He as (Hslot & ->). split; simpl; [done|..].
    + intros j t [Hj|[-> ->]]%Hl; [by eapply Hs|]. rewrite Hslot. split; [done|lia].
    + intros j k t u [Hj|[-> ->]]%Hl [Hk'|[-> ->]]%Hl Hlt Heq; [by eapply Ho|lia..|done].
    + intros m u Hm. rewrite (Hu m u Hm). split; [intros (j & t & Hj & ?); eauto|].
      intros (j & t & [Hj|[-> ->]]%Hl & Heq); [eauto|]. apply lookup_lt_Some in Hm. rewrite (wf_used st Hwf) in Hm. lia.
Qed.

Lemma as_inv_destroy i s spaces st :
  as_inv (spaces, st) -> spaces !! i = Some s -> user_table_slot s < 4 ->
  as_inv (<[i := set_destroyed s]> spaces, clear_slot (Z.to_nat (user_table_slot s)) 0 st).
Proof.
  intros [Hwf Hs Ho Hu] Hi Hlt. simpl in *. destruct (Hs _ _ Hi) as [Hk Hr].
  assert (forall j t, <[i := set_destroyed s]> spaces !! j = Some t ->
    j = i /\ t = set_destroyed s \/ j <> i /\ spaces !! j = Some t) as Hl.
  { intros j t. rewrite list_lookup_insert_Some. intros [(-> & <- & _)|[? Hj]]; [by left|by right]. }
  split; simpl; [by apply clear_slot_wf|..].
  - intros j t [[-> ->]|[_ Hj]]%Hl; [|by eapply Hs]. split; [done|]. simpl. unfold ADDRESS_SPACE_USER_TABLE_SLOTS. lia.
  - intros j k t u [[-> ->]|[_ Hj]]%Hl [[-> ->]|[_ Hk']]%Hl; simpl; unfold ADDRESS_SPACE_USER_TABLE_SLOTS;
      [done|lia|lia|by apply (Ho j k t u)].
  - intros m u. rewrite list_lookup_insert_Some. intros [(<- & <- & _)|[Hne Hm]].
    + split; [done|]. intros (j & t & [[-> ->]|[Hne Hj]]%Hl & Heq).
      * simpl in Heq. unfold ADDRESS_SPACE_USER_TABLE_SLOTS in Heq. lia.
      * intros _. apply Hne. apply (Ho j i t s); [done|done|lia|lia].
    + rewrite (Hu m u Hm). split; intros (j & t & Hj & Heq).
      * assert (j <> i) by (intros ->; simplify_eq; lia). exists j, t. by rewrite list_lookup_insert_ne.
      * apply Hl in Hj as [[-> ->]|[_ Hj]]; [|eauto]. simpl in Heq. unfold ADDRESS_SPACE_USER_TABLE_SLOTS in Heq.
        apply lookup_lt_Some in Hm. rewrite (wf_used st Hwf) in Hm. lia.
Qed.

Lemma as_inv_exec op sys : as_inv sys -> op_ok op -> as_inv (as_exec op sys).
Proof.
  destruct sys as [spaces st]. intros Hinv Hok. destruct op as [name root|i|i code csize data dsize entry|i offset data size]; simpl.
  - pose proof (as_inv_init name root spaces st Hinv) as Hi.
    destruct (address_space_init_user kernel_table name root st). exact Hi.
  - destruct (spaces !! i) as [s|] eqn:Hi; [|done].
    destruct (destroy_cases s st) as [(_ & Hlt & ->)|[_ ->]]; simpl; [by apply as_inv_destroy|].
    by rewrite list_insert_id.
  - destruct (spaces !! i) as [s|] eqn:Hi; [|done]. destruct Hok as (? & ? & ?).
    destruct (load_cases s code csize data dsize entry st ltac:(lia) ltac:(lia)) as [[_ ->]|[_ ->]]; simpl.
    + eapply as_inv_keep; [done|done|done|done| |done]. apply set_page_wf, set_page_wf; try apply load_code_length.
      apply (inv_wf _ Hinv).
    + by rewrite list_insert_id.
  - destruct (spaces !! i) as [s|] eqn:Hi; [|done].
    destruct (write_cases s offset data size st) as [->|(_ & Hlt & ->)]; simpl; [done|].
    destruct (inv_slot _ Hinv i s Hi) as [_ Hr]. pose proof (inv_wf _ Hinv) as Hwf. simpl in Hwf.
    rewrite <- (list_insert_id spaces i s Hi).
    eapply as_inv_keep; [done|done|done|done| |done]. apply set_page_wf; [|done].
    rewrite length_copy_loop, region_page_length by (done || lia). done.
Qed.

Lemma as_inv_start root st : as_wf st -> as_inv ([], address_space_init root st).
Proof.
  intros [? ? ? ? ? ?]. split; simpl; [by split|done|done|]. intros n u Hn. apply (lookup_replicate_1 4) in Hn as [-> _].
  split; [done|]. by intros (? & ? & ? & _).
Qed.

(** At every point of every sequence of creations, destructions, image loads and
    data writes, each live user space owns its slot alone and the slots marked used
    are exactly the owned ones, so a slot is neither shared nor leaked. *)
Theorem slots_exclusive sys : as_reach sys -> as_inv sys.
Proof.
  induction 1 as [root st Hwf|op sys _ IH Hok]; [by apply as_inv_start|by apply as_inv_exec].
Qed.

(** Isolation: an operation on one user space changes neither the structure nor the
    translation tables nor the pages of any other live space. *)
Theorem spaces_isolated op spaces st j t :
  as_inv (spaces, st) -> op_ok op -> spaces !! j = Some t -> user_table_slot t < 4 -> op_target op <> Some j ->
  let sys' := as_exec op (spaces, st) in
  sys'.1 !! j = Some t /\
  slot_view sys'.2 (Z.to_nat (user_table_slot t)) = slot_view st (Z.to_nat (user_table_slot t)).
Proof.
  intros Hinv Hok Hj Hlt Hne. destruct (inv_slot _ Hinv j t Hj) as [_ Hr].
  assert (forall i s, spaces !! i = Some s -> i <> j -> user_table_slot s < 4 ->
    Z.to_nat (user_table_slot t) <> Z.to_nat (user_table_slot s)) as Hslot.
  { intros i s Hi Hij Hs Heq. destruct (inv_slot _ Hinv i s Hi) as [_ Hrs].
    apply Hij. apply (inv_owner _ Hinv i j s t Hi Hj Hs). lia. }
  destruct op as [name root|i|i code csize data dsize entry|i offset data size]; simpl in *.
  - pose proof (init_user_effect name root st (inv_wf _ Hinv)) as (_ & _ & He).
    destruct (address_space_init_user kernel_table name root st) as [s st']. simpl in *.
    split; [by apply lookup_app_l_Some|]. destruct (free_slot (user_table_slots_used st) 0) as [n|] eqn:Hf; [|by destruct He as [_ ->]].
    apply He. intros Hn. apply free_slot_spec in Hf as (_ & Hf & _). rewrite Nat.sub_0_r in Hf.
    apply (proj2 (inv_used _ Hinv n 0 Hf)); [|done]. exists j, t. split; [done|]. lia.
  - destruct (spaces !! i) as [s|] eqn:Hi; [|done]. assert (i <> j) by congruence.
    destruct (destroy_cases s st) as [(_ & Hs & ->)|[_ ->]]; simpl; rewrite list_lookup_insert_ne by done; [|done].
    split; [done|]. apply clear_slot_view; eauto.
  - destruct (spaces !! i) as [s|] eqn:Hi; [|done]. assert (i <> j) by congruence. destruct Hok as (? & ? & ?).
    destruct (load_cases s code csize data dsize entry st ltac:(lia) ltac:(lia)) as [[(_ & Hs & _) ->]|[_ ->]];
      simpl; rewrite list_lookup_insert_ne by done; [|done].
    split; [done|]. rewrite !set_page_view by eauto. done.
  - destruct (spaces !! i) as [s|] eqn:Hi; [|done]. assert (i <> j) by congruence.
    destruct (write_cases s offset data size st) as [->|(_ & Hs & ->)]; simpl; [done|].
    split; [done|]. apply set_page_view; eauto.
Qed.

(** Loading an image: it succeeds exactly when the space is mapped, the code is one
    to 4096 bytes, the data at most 4096, and the entry is an aligned offset inside the
    code; then the code and data pages hold the image followed by zeros (nothing of a
    previous image is left), the stack page is untouched and the entry point is the
    address of the offset in the code region; otherwise nothing changes. *)
Theorem load_image_spec s code csize data dsize entry st :
  as_wf st -> 0 <= user_table_slot s -> user_code_start s = ADDRESS_SPACE_USER_CODE_START ->
  0 <= csize -> 0 <= dsize -> 0 <= entry -> (csize <= Z.of_nat (length (default [] code))) ->
  (dsize <= Z.of_nat (length (default [] data))) ->
  let '(ok, s', st') := address_space_load_user_image (Some s) code csize data dsize entry st in
  let slot := Z.to_nat (user_table_slot s) in
  (ok = 1 <-> load_ok s code csize data dsize entry) /\
  if decide (ok = 1) then
    region_page slot 0 st' = take (Z.to_nat csize) (default [] code) ++ replicate (4096 - Z.to_nat csize) 0 /\
    region_page slot 1 st' = take (Z.to_nat dsize) (default [] data) ++ replicate (4096 - Z.to_nat dsize) 0 /\
    region_page slot 2 st' = region_page slot 2 st /\
    exists u, s' = Some u /\ user_image_ready u = 1 /\ user_image_entry u = ADDRESS_SPACE_USER_CODE_START + entry /\
      user_image_size u = csize /\ user_table_slot u = user_table_slot s
  else s' = Some s /\ st' = st.
Proof.
  intros Hwf Hs Hcs Hc Hd He Hlc Hld.
  destruct (load_cases s code csize data dsize entry st Hc He) as [[Hok ->]|[Hno ->]]; [|by split].
  split; [done|]. simpl. destruct Hok as (_ & Hslot & _ & _ & Hcz & Hdz & _ & Hez & _).
  assert (forall src size, 0 <= size <= 4096 -> size <= Z.of_nat (length (default [] src)) ->
    load_code src size = take (Z.to_nat size) (default [] src) ++ replicate (4096 - Z.to_nat size) 0) as Hpage.
  { intros src size Hsz Hl. unfold load_code.
    assert (length (take (Z.to_nat size) (default [] src)) = Z.to_nat size) as Ht by (rewrite length_take; lia).
    rewrite copy_loop_write_at by (rewrite Ht, clear_page_length; change ARM64_PAGE_SIZE with 4096; lia).
    unfold write_at. rewrite take_0, Ht. unfold address_space_clear_page. by rewrite drop_replicate. }
  rewrite !region_page_set by (try apply set_page_wf; try apply load_code_length; done || lia). simpl.
  rewrite !Hpage by lia. split_and!; try done. eexists. split; [done|]. simpl. split_and!; try done.
  rewrite Hcs, u64_small; [done|]. unfold ADDRESS_SPACE_USER_CODE_START. lia.
Qed.
End spaces.

(** ** Range checks *)

(** An address range inside a region. *)
Definition within (start end_ a size : Z) : Prop := start <= a /\ a + size <= end_.

Lemma range_checks_exact s a size :
  as_kind s = ADDRESS_SPACE_USER -> user_regions s = user_region_list ->
  0 <= a < 2 ^ 64 -> 0 <= size < 2 ^ 64 ->
  (address_space_user_range_valid (Some s) a size = true <->
   size = 0 \/ within 0x100000 0x200000 a size \/ within 0x200000 0x300000 a size \/ within 0x3fff0000 0x40000000 a size) /\
  (address_space_user_writable_range_valid (Some s) a size = true <->
   size = 0 \/ within 0x200000 0x300000 a size \/ within 0x3fff0000 0x40000000 a size).
Proof.
  intros Hk Hr Ha Hs. unfold address_space_user_range_valid, address_space_user_writable_range_valid, within.
  rewrite Hk, Hr, bool_decide_eq_true_2 by done. cbn [negb orb andb].
  destruct (Z.eqb_spec size 0) as [->|Hz]; [simpl; split; by split; [left|]|].
  assert ((a +! size <? a) = (2 ^ 64 <=? a + size)) as ->.
  { unfold u64. destruct (Z.leb_spec (2 ^ 64) (a + size)).
    - replace (a + size) with (a + size - 2 ^ 64 + 1 * 2 ^ 64) by lia. rewrite Z.mod_add, Z.mod_small by lia. apply Z.ltb_lt. lia.
    - rewrite Z.mod_small by lia. apply Z.ltb_ge. lia. }
  destruct (Z.leb_spec (2 ^ 64) (a + size)).
  - split; (split; [done|intros; exfalso; lia]).
  - rewrite u64_small by lia. unfold user_region_list, in_region. simpl existsb. rewrite !Z.geb_leb. simpl andb.
    rewrite !orb_true_iff, !andb_true_iff, !Z.leb_le. unfold ADDRESS_SPACE_USER_CODE_START, ADDRESS_SPACE_USER_CODE_END,
      ADDRESS_SPACE_USER_DATA_START, ADDRESS_SPACE_USER_DATA_END, ADDRESS_SPACE_USER_STACK_START, ADDRESS_SPACE_USER_STACK_END.
    split; (split; [intros; destruct_or?; first [done | lia] | intros; destruct_or?; try lia; tauto]).
Qed.

(** The range checks of a created space are exact, without wrap-around: a non-empty
    range is accepted iff it lies inside the code, data or stack region, and accepted
    for writing iff it lies inside the data or stack region; an empty range is accepted. *)
Theorem user_range_exact s a size :
  as_kind s = ADDRESS_SPACE_USER -> user_regions s = user_region_list ->
  0 <= a < 2 ^ 64 -> 0 <= size < 2 ^ 64 ->
  (address_space_user_range_valid (Some s) a size = true <->
   size = 0 \/ within 0x100000 0x200000 a size \/ within 0x200000 0x300000 a size \/ within 0x3fff0000 0x40000000 a size) /\
  (address_space_user_writable_range_valid (Some s) a size = true <->
   size = 0 \/ within 0x200000 0x300000 a size \/ within 0x3fff0000 0x40000000 a size).
Proof. apply range_checks_exact. Qed.

(** The range checks promise more than the mapping holds: in every created space the
    ranges between the first page and the end of each region (for example the last
    4096 bytes of the stack, where the initial stack pointer grows into) are accepted,
    for writing where the region is writable, and yet no address in them translates,
    so a checked access faults. *)
Theorem accepted_range_faults `{AsLayoutOk} kernel_table name root st n va :
  as_wf st -> kernel_map_ok kernel_table root -> free_slot (user_table_slots_used st) 0 = Some n ->
  (0x101000 <= va < 0x200000 \/ 0x201000 <= va < 0x300000 \/ 0x3fff1000 <= va < 0x40000000) ->
  let s := (address_space_init_user kernel_table name root st).1 in
  let st' := (address_space_init_user kernel_table name root st).2 in
  address_space_user_range_valid (Some s) va 1 = true /\
  walk kernel_table st' (target_root_table s) va = Fault.
Proof.
  intros Hwf Hkm Hf Hva s st'. pose proof (init_user_slot kernel_table name root st n Hwf Hkm Hf) as [Hc Hst].
  fold s in Hc. fold st' in Hst. clearbody s st'. subst st'.
  apply free_slot_spec in Hf as (_ & Hn & _). apply lookup_lt_Some in Hn. rewrite Nat.sub_0_r, (wf_used st Hwf) in Hn.
  split.
  - unfold address_space_user_range_valid. rewrite (cr_kind _ _ _ Hc), (cr_regions _ _ _ Hc), bool_decide_eq_true_2 by done.
    cbn [negb]. rewrite u64_small by lia. replace (va + 1 <? va) with false by (symmetry; apply Z.ltb_ge; lia).
    apply existsb_exists. destruct Hva as [Hva|[Hva|Hva]];
      [exists (nth 0 user_region_list (Region None 0 0 0 0 0 0))|exists (nth 1 user_region_list (Region None 0 0 0 0 0 0))
      |exists (nth 2 user_region_list (Region None 0 0 0 0 0 0))]; (split; [simpl; tauto|]);
      unfold in_region; simpl; rewrite Z.geb_leb; apply andb_true_iff; split; apply Z.leb_le;
      unfold ADDRESS_SPACE_USER_CODE_START, ADDRESS_SPACE_USER_CODE_END, ADDRESS_SPACE_USER_DATA_START,
        ADDRESS_SPACE_USER_DATA_END, ADDRESS_SPACE_USER_STACK_START, ADDRESS_SPACE_USER_STACK_END; lia.
  - rewrite (cr_target _ _ _ Hc), walk_init_state by (done || lia).
    rewrite (user_translation_block kernel_table _ _ va _ eq_refl).
    destruct Hva as [Hva|[Hva|Hva]]; repeat match goal with |- context [?a =? ?b] => destruct (Z.eqb_spec a b) end;
      try done; exfalso; Z.div_mod_to_equations; lia.
Qed.

(** ** A concrete system *)

(** A layout and kernel tables with 2 MiB blocks in the first GiB, and the state after boot. *)
#[local] Instance layout0 : AsLayout := {| l1_base := 0x40100000; l2_base := 0x40104000; l3_base := 0x40108000; pages_base := 0x40114000 |}.

#[local] Instance layout0_ok : AsLayoutOk.
Proof. split; first [by left|by right|split; [split; [by split|done]|by split]]. Qed.

Definition kernel_table0 (a : Z) : list Z :=
  if a =? 0x40090000 then arm64_mmu_table_desc 0x40091000 :: 0x40000701 :: replicate 510 0
  else if a =? 0x40091000 then (fun k => arm64_mmu_l2_block_desc (Z.of_nat k * 0x200000) ARM64_NORMAL_MEMORY_ATTR) <$> seq 0 512
  else [].

Definition as_state0 : as_state :=
  AsState (AddressSpace [] ADDRESS_SPACE_KERNEL 0 0 0 0 0 0 0 0 0 0 0 0 0 0 0 0 0 0 0 0 0 [] 0 0 0 0 0 0 0 0 0 0 0
             ADDRESS_SPACE_SWITCH_ACTIVE ADDRESS_SPACE_SWITCH_STUB_ACTIVE 0)
    (replicate 4 address_space_clear_table) (replicate 4 address_space_clear_table)
    (replicate 4 (replicate 3 address_space_clear_table)) (replicate 4 (replicate 3 address_space_clear_page)) (replicate 4 0).

Lemma as_state0_wf : as_wf as_state0.
Proof.
  split; try reflexivity. intros slot ps Hps. apply (lookup_replicate_1 4) in Hps as [-> _].
  split; [done|]. apply Forall_replicate, clear_page_length.
Qed.

Lemma kernel_map0_ok : kernel_map_ok kernel_table0 0x40090000.
Proof. split; first [done|vm_compute; reflexivity|vm_compute; done]. Qed.

Definition sys1 : list address_space * as_state :=
  as_exec kernel_table0 (OpInit None 0x40090000) ([], address_space_init 0x40090000 as_state0).

Lemma init_user_translation_witness :
  let r := address_space_init_user kernel_table0 None 0x40090000 as_state0 in
  created r.1 0x40090000 0 /\ walk kernel_table0 r.2 (target_root_table r.1) 0x09000000 = Block 2 0x09000701.
Proof.
  destruct (init_user_translation kernel_table0 None 0x40090000 as_state0 0 as_state0_wf kernel_map0_ok eq_refl)
    as (_ & Hc & _ & _ & _ & Hw).
  split; [exact Hc|]. rewrite Hw by lia. vm_compute. reflexivity.
Defined.

Lemma user_pages_wx_witness :
  Z.land (arm64_mmu_l3_page_desc (page_address 1 0) ADDRESS_SPACE_USER_CODE_ATTR) ARM64_DESC_UXN = 0.
Proof.
  apply (user_pages_wx 1 0 (Region (Some (lit "code")) 0x100000 0x200000 ADDRESS_SPACE_USER_CODE_ATTR 1 0 1));
    [lia|reflexivity|reflexivity].
Defined.

Lemma slots_exclusive_witness : as_inv sys1.
Proof. apply (slots_exclusive kernel_table0). apply as_step; [apply as_start, as_state0_wf|exact I]. Defined.

(** Two spaces. *)
Definition init0 : address_space * as_state :=
  address_space_init_user kernel_table0 None 0x40090000 (address_space_init 0x40090000 as_state0).
Definition init1 : address_space * as_state := address_space_init_user kernel_table0 None 0x40090000 init0.2.

Lemma spaces_isolated_witness :
  slot_view (as_exec kernel_table0 (OpDestroy 1) ([init0.1; init1.1], init1.2)).2 (Z.to_nat (user_table_slot init0.1)) =
  slot_view init1.2 (Z.to_nat (user_table_slot init0.1)).
Proof.
  apply (spaces_isolated kernel_table0 (OpDestroy 1) [init0.1; init1.1] init1.2 0 init0.1); try done.
  - apply (as_inv_init kernel_table0 None 0x40090000 [init0.1]), (as_inv_init kernel_table0 None 0x40090000 []), as_inv_start, as_state0_wf.
Defined.

Lemma load_image_spec_witness :
  (address_space_load_user_image (Some init0.1) (Some [1; 2; 3; 4; 5; 6; 7; 8]) 8 None 0 4 init0.2).1.1 = 1.
Proof.
  pose proof (load_image_spec init0.1 (Some [1; 2; 3; 4; 5; 6; 7; 8]) 8 None 0 4 init0.2) as Hl.
  destruct (address_space_load_user_image _ _ _ _ _ _ _) as [[ok s'] st'].
  destruct Hl as [Hl _]; try done.
  - apply (as_inv_init kernel_table0 None 0x40090000 []), as_inv_start, as_state0_wf.
  - apply Hl. split_and!; first [done|by eexists|by intros []].
Defined.

Lemma user_range_exact_witness : address_space_user_writable_range_valid (Some init0.1) 0x200800 0x800 = true.
Proof.
  apply (user_range_exact init0.1 0x200800 0x800); [vm_compute; reflexivity|vm_compute; reflexivity|lia|lia|].
  right. left. split; lia.
Defined.

Lemma accepted_range_faults_witness :
  walk kernel_table0 (address_space_init_user kernel_table0 None 0x40090000 as_state0).2
    (target_root_table (address_space_init_user kernel_table0 None 0x40090000 as_state0).1) 0x3ffffff0 = Fault.
Proof.
  apply (accepted_range_faults kernel_table0 None 0x40090000 as_state0 0 0x3ffffff0 as_state0_wf kernel_map0_ok eq_refl). lia.
Defined.
