(* ===== verification/Task.v ===== *)
(** * Tasks, user sessions and the scheduler's state ([kernel/sched/scheduler.h])

    The structures of [scheduler.h], [context.h] and [user.c], and the static state the
    scheduler and the user-mode code share: the task table, the sessions, the address
    spaces, the translation registers, and the registers [cpu_switch_to] saves and loads.
    A task is named by its index in the table; a pointer to an address space is null,
    the kernel's, or the one inside a task. Addresses of code and of the stack region
    come from the linker, as the class [CodeLayout]. *)

From S2P Require Import Prelude Mmu AddressSpace.

(** ** Definitions *)

Definition SCHED_MAX_TASKS : Z := 8.
Definition SCHED_STACK_SIZE : Z := 4096.
Definition SCHED_STACK_GUARD_SIZE : Z := 4096.
Definition SCHED_STACK_SLOT_SIZE : Z := SCHED_STACK_GUARD_SIZE + SCHED_STACK_SIZE.
Definition SCHED_STACK_REGION_SIZE : Z := SCHED_MAX_TASKS * SCHED_STACK_SLOT_SIZE + SCHED_STACK_GUARD_SIZE.
Definition TASK_MAX_FILES : Z := 4.
Definition TASK_FILE_PATH_SIZE : Z := 48.
Definition TASK_USER_ARGUMENT_MAX : Z := 128.
Definition TASK_USER_ARG_MAX : Z := 8.

Definition ARM64_SPSR_MODE_EL0T : Z := 0.
Definition ARM64_SPSR_MODE_EL1H : Z := 5.
Definition ARM64_SPSR_EL0T : Z := ARM64_SPSR_MODE_EL0T.
Definition ARM64_SPSR_EL1H : Z := ARM64_SPSR_MODE_EL1H.

Inductive task_state :=
  | TASK_UNUSED | TASK_READY | TASK_RUNNING | TASK_BLOCKED | TASK_SLEEPING | TASK_ELIGIBLE | TASK_ZOMBIE.

#[export] Instance task_state_eq_dec : EqDecision task_state.
Proof. solve_decision. Defined.

(** A [struct address_space *] held by a task. *)
Inductive as_ptr := AsNull | AsKernel | AsTask (pid : Z).

#[export] Instance as_ptr_eq_dec : EqDecision as_ptr.
Proof. solve_decision. Defined.

Record cpu_context := CpuContext {
  x19 : Z;
  x20 : Z;
  x21 : Z;
  x22 : Z;
  x23 : Z;
  x24 : Z;
  x25 : Z;
  x26 : Z;
  x27 : Z;
  x28 : Z;
  fp : Z;
  lr : Z;
  sp : Z;
}.

Record task_memory := TaskMemory {
  address_space_ptr : as_ptr;
  stack_start : Z;
  stack_end : Z;
  guard_low_start : Z;
  guard_low_end : Z;
  guard_high_start : Z;
  guard_high_end : Z;
}.

Record task_el0_state := TaskEl0 {
  el0_pc : Z;
  el0_sp : Z;
  el0_spsr : Z;
  el0_ready : Z;
}.

Record task_user_status := TaskUserStatus {
  program_completed : Z;
  program_succeeded : Z;
  admissions : Z;
  el0_entries : Z;
  traps : Z;
  recoveries : Z;
  rejects : Z;
  exits : Z;
  last_exit_code : Z;
  completions : Z;
  failures : Z;
}.

Record task_accounting := TaskAccounting {
  switches : Z;
  run_ticks : Z;
  yields : Z;
  preemptions : Z;
  sleep_wakeups : Z;
}.

Record task_file := TaskFile {
  file_used : Z;
  file_path : list Z;
  file_offset : Z;
}.

Record task := Task {
  t_pid : Z;
  parent_pid : Z;
  t_name : option (list Z);
  t_state : task_state;
  t_entry : Z;
  t_context : cpu_context;
  sleep_until_tick : Z;
  sleep_requested_ms : Z;
  accounting : task_accounting;
  memory : task_memory;
  user_address_space : address_space;
  el0 : task_el0_state;
  user_status : task_user_status;
  t_files : list task_file;
  user_argc : Z;
  user_argv_address : Z;
  user_arg_lengths_address : Z;
}.

Record user_session_state := UserSession {
  active : Z;
  completed : Z;
  faulted : Z;
  last_reject_reason : Z;
  reject_count : Z;
  session_task : option Z;
  return_pc : Z;
  kernel_root : Z;
  user_root : Z;
}.

(** The static variables of [scheduler.c] and [user.c], and the machine state they use. *)
Record sys := Sys {
  tasks : list task;
  bootstrap_context : cpu_context;
  current_task : Z;
  task_count : Z;
  threads_started : Z;
  scheduler_ticks : Z;
  user_sessions : list user_session_state;
  spaces : as_state;
  regs : mmu_regs;
  cpu : cpu_context;
  elr_el1 : Z;
  spsr_el1 : Z;
}.

(** Addresses the linker assigns. *)
Class CodeLayout := {
  thread_trampoline : Z;
  scheduler_user_task_entry : Z;
  idle_task : Z;
  arm64_el0_task_return : Z;
  task_stack_region : Z;
}.

(** ** Field updates *)

Definition set_t_state (v : task_state) (t : task) : task :=
  Task (t_pid t) (parent_pid t) (t_name t) v (t_entry t) (t_context t) (sleep_until_tick t) (sleep_requested_ms
    t) (accounting t) (memory t) (user_address_space t) (el0 t) (user_status t) (t_files t) (user_argc t)
    (user_argv_address t) (user_arg_lengths_address t).
Definition set_parent_pid (v : Z) (t : task) : task :=
  Task (t_pid t) v (t_name t) (t_state t) (t_entry t) (t_context t) (sleep_until_tick t) (sleep_requested_ms t)
    (accounting t) (memory t) (user_address_space t) (el0 t) (user_status t) (t_files t) (user_argc t)
    (user_argv_address t) (user_arg_lengths_address t).
Definition set_t_entry (v : Z) (t : task) : task :=
  Task (t_pid t) (parent_pid t) (t_name t) (t_state t) v (t_context t) (sleep_until_tick t) (sleep_requested_ms
    t) (accounting t) (memory t) (user_address_space t) (el0 t) (user_status t) (t_files t) (user_argc t)
    (user_argv_address t) (user_arg_lengths_address t).
Definition set_t_context (v : cpu_context) (t : task) : task :=
  Task (t_pid t) (parent_pid t) (t_name t) (t_state t) (t_entry t) v (sleep_until_tick t) (sleep_requested_ms t)
    (accounting t) (memory t) (user_address_space t) (el0 t) (user_status t) (t_files t) (user_argc t)
    (user_argv_address t) (user_arg_lengths_address t).
Definition set_accounting (v : task_accounting) (t : task) : task :=
  Task (t_pid t) (parent_pid t) (t_name t) (t_state t) (t_entry t) (t_context t) (sleep_until_tick t)
    (sleep_requested_ms t) v (memory t) (user_address_space t) (el0 t) (user_status t) (t_files t) (user_argc t)
    (user_argv_address t) (user_arg_lengths_address t).
Definition set_memory (v : task_memory) (t : task) : task :=
  Task (t_pid t) (parent_pid t) (t_name t) (t_state t) (t_entry t) (t_context t) (sleep_until_tick t)
    (sleep_requested_ms t) (accounting t) v (user_address_space t) (el0 t) (user_status t) (t_files t) (user_argc
    t) (user_argv_address t) (user_arg_lengths_address t).
Definition set_user_address_space (v : address_space) (t : task) : task :=
  Task (t_pid t) (parent_pid t) (t_name t) (t_state t) (t_entry t) (t_context t) (sleep_until_tick t)
    (sleep_requested_ms t) (accounting t) (memory t) v (el0 t) (user_status t) (t_files t) (user_argc t)
    (user_argv_address t) (user_arg_lengths_address t).
Definition set_el0 (v : task_el0_state) (t : task) : task :=
  Task (t_pid t) (parent_pid t) (t_name t) (t_state t) (t_entry t) (t_context t) (sleep_until_tick t)
    (sleep_requested_ms t) (accounting t) (memory t) (user_address_space t) v (user_status t) (t_files t)
    (user_argc t) (user_argv_address t) (user_arg_lengths_address t).
Definition set_user_status (v : task_user_status) (t : task) : task :=
  Task (t_pid t) (parent_pid t) (t_name t) (t_state t) (t_entry t) (t_context t) (sleep_until_tick t)
    (sleep_requested_ms t) (accounting t) (memory t) (user_address_space t) (el0 t) v (t_files t) (user_argc t)
    (user_argv_address t) (user_arg_lengths_address t).

Definition set_sleep (until requested : Z) (t : task) : task :=
  Task (t_pid t) (parent_pid t) (t_name t) (t_state t) (t_entry t) (t_context t) until requested
    (accounting t) (memory t) (user_address_space t) (el0 t) (user_status t) (t_files t) (user_argc t)
    (user_argv_address t) (user_arg_lengths_address t).
Definition set_arguments (argc argv lengths : Z) (t : task) : task :=
  Task (t_pid t) (parent_pid t) (t_name t) (t_state t) (t_entry t) (t_context t) (sleep_until_tick t)
    (sleep_requested_ms t) (accounting t) (memory t) (user_address_space t) (el0 t) (user_status t)
    (t_files t) argc argv lengths.
Definition set_address_space_ptr (p : as_ptr) (t : task) : task :=
  let m := memory t in
  set_memory (TaskMemory p (stack_start m) (stack_end m) (guard_low_start m) (guard_low_end m)
                (guard_high_start m) (guard_high_end m)) t.

Definition set_tasks (v : list task) (s : sys) : sys :=
  Sys v (bootstrap_context s) (current_task s) (task_count s) (threads_started s) (scheduler_ticks s)
    (user_sessions s) (spaces s) (regs s) (cpu s) (elr_el1 s) (spsr_el1 s).
Definition set_current_task (v : Z) (s : sys) : sys :=
  Sys (tasks s) (bootstrap_context s) v (task_count s) (threads_started s) (scheduler_ticks s) (user_sessions s)
    (spaces s) (regs s) (cpu s) (elr_el1 s) (spsr_el1 s).
Definition set_task_count (v : Z) (s : sys) : sys :=
  Sys (tasks s) (bootstrap_context s) (current_task s) v (threads_started s) (scheduler_ticks s) (user_sessions
    s) (spaces s) (regs s) (cpu s) (elr_el1 s) (spsr_el1 s).
Definition set_threads_started (v : Z) (s : sys) : sys :=
  Sys (tasks s) (bootstrap_context s) (current_task s) (task_count s) v (scheduler_ticks s) (user_sessions s)
    (spaces s) (regs s) (cpu s) (elr_el1 s) (spsr_el1 s).
Definition set_scheduler_ticks (v : Z) (s : sys) : sys :=
  Sys (tasks s) (bootstrap_context s) (current_task s) (task_count s) (threads_started s) v (user_sessions s)
    (spaces s) (regs s) (cpu s) (elr_el1 s) (spsr_el1 s).
Definition set_user_sessions (v : list user_session_state) (s : sys) : sys :=
  Sys (tasks s) (bootstrap_context s) (current_task s) (task_count s) (threads_started s) (scheduler_ticks s) v
    (spaces s) (regs s) (cpu s) (elr_el1 s) (spsr_el1 s).
Definition set_spaces (v : as_state) (s : sys) : sys :=
  Sys (tasks s) (bootstrap_context s) (current_task s) (task_count s) (threads_started s) (scheduler_ticks s)
    (user_sessions s) v (regs s) (cpu s) (elr_el1 s) (spsr_el1 s).
Definition set_regs (v : mmu_regs) (s : sys) : sys :=
  Sys (tasks s) (bootstrap_context s) (current_task s) (task_count s) (threads_started s) (scheduler_ticks s)
    (user_sessions s) (spaces s) v (cpu s) (elr_el1 s) (spsr_el1 s).
Definition set_cpu (v : cpu_context) (s : sys) : sys :=
  Sys (tasks s) (bootstrap_context s) (current_task s) (task_count s) (threads_started s) (scheduler_ticks s)
    (user_sessions s) (spaces s) (regs s) v (elr_el1 s) (spsr_el1 s).
Definition set_bootstrap_context (v : cpu_context) (s : sys) : sys :=
  Sys (tasks s) v (current_task s) (task_count s) (threads_started s) (scheduler_ticks s) (user_sessions s)
    (spaces s) (regs s) (cpu s) (elr_el1 s) (spsr_el1 s).
Definition set_return (elr spsr : Z) (s : sys) : sys :=
  Sys (tasks s) (bootstrap_context s) (current_task s) (task_count s) (threads_started s) (scheduler_ticks s)
    (user_sessions s) (spaces s) (regs s) (cpu s) elr spsr.

Definition inc_switches (t : task) : task :=
  let a := accounting t in set_accounting (TaskAccounting (switches a +! 1) (run_ticks a) (yields a) (preemptions a) (sleep_wakeups a)) t.

Definition inc_run_ticks (t : task) : task :=
  let a := accounting t in set_accounting (TaskAccounting (switches a) (run_ticks a +! 1) (yields a) (preemptions a) (sleep_wakeups a)) t.

Definition inc_yields (t : task) : task :=
  let a := accounting t in set_accounting (TaskAccounting (switches a) (run_ticks a) (yields a +! 1) (preemptions a) (sleep_wakeups a)) t.

Definition inc_preemptions (t : task) : task :=
  let a := accounting t in set_accounting (TaskAccounting (switches a) (run_ticks a) (yields a) (preemptions a +! 1) (sleep_wakeups a)) t.

Definition inc_sleep_wakeups (t : task) : task :=
  let a := accounting t in set_accounting (TaskAccounting (switches a) (run_ticks a) (yields a) (preemptions a) (sleep_wakeups a +! 1)) t.

Definition inc_admissions (t : task) : task :=
  let u := user_status t in set_user_status (TaskUserStatus (program_completed u) (program_succeeded u)
    (admissions u +! 1) (el0_entries u) (traps u) (recoveries u) (rejects u) (exits u) (last_exit_code u)
    (completions u) (failures u)) t.

Definition inc_el0_entries (t : task) : task :=
  let u := user_status t in set_user_status (TaskUserStatus (program_completed u) (program_succeeded u)
    (admissions u) (el0_entries u +! 1) (traps u) (recoveries u) (rejects u) (exits u) (last_exit_code u)
    (completions u) (failures u)) t.

Definition inc_traps (t : task) : task :=
  let u := user_status t in set_user_status (TaskUserStatus (program_completed u) (program_succeeded u)
    (admissions u) (el0_entries u) (traps u +! 1) (recoveries u) (rejects u) (exits u) (last_exit_code u)
    (completions u) (failures u)) t.

Definition inc_recoveries (t : task) : task :=
  let u := user_status t in set_user_status (TaskUserStatus (program_completed u) (program_succeeded u)
    (admissions u) (el0_entries u) (traps u) (recoveries u +! 1) (rejects u) (exits u) (last_exit_code u)
    (completions u) (failures u)) t.

Definition inc_rejects (t : task) : task :=
  let u := user_status t in set_user_status (TaskUserStatus (program_completed u) (program_succeeded u)
    (admissions u) (el0_entries u) (traps u) (recoveries u) (rejects u +! 1) (exits u) (last_exit_code u)
    (completions u) (failures u)) t.

Definition inc_exits (t : task) : task :=
  let u := user_status t in set_user_status (TaskUserStatus (program_completed u) (program_succeeded u)
    (admissions u) (el0_entries u) (traps u) (recoveries u) (rejects u) (exits u +! 1) (last_exit_code u)
    (completions u) (failures u)) t.

Definition inc_completions (t : task) : task :=
  let u := user_status t in set_user_status (TaskUserStatus (program_completed u) (program_succeeded u)
    (admissions u) (el0_entries u) (traps u) (recoveries u) (rejects u) (exits u) (last_exit_code u) (completions
    u +! 1) (failures u)) t.

Definition inc_failures (t : task) : task :=
  let u := user_status t in set_user_status (TaskUserStatus (program_completed u) (program_succeeded u)
    (admissions u) (el0_entries u) (traps u) (recoveries u) (rejects u) (exits u) (last_exit_code u) (completions
    u) (failures u +! 1)) t.

(** [program_completed = 1; program_succeeded = b]. *)
Definition set_program (succeeded : Z) (t : task) : task :=
  let u := user_status t in
  set_user_status (TaskUserStatus 1 succeeded (admissions u) (el0_entries u) (traps u) (recoveries u)
    (rejects u) (exits u) (last_exit_code u) (completions u) (failures u)) t.
Definition set_last_exit_code (code : Z) (t : task) : task :=
  let u := user_status t in
  set_user_status (TaskUserStatus (program_completed u) (program_succeeded u) (admissions u) (el0_entries u)
    (traps u) (recoveries u) (rejects u) (exits u) code (completions u) (failures u)) t.

(** ** The task table *)

Definition task_at (s : sys) (pid : Z) : option task := if pid <? 0 then None else tasks s !! Z.to_nat pid.
Definition state_of (s : sys) (pid : Z) : task_state := default TASK_UNUSED (t_state <$> task_at s pid).
Definition upd (pid : Z) (f : task -> task) (s : sys) : sys := set_tasks (alter f (Z.to_nat pid) (tasks s)) s.

(** The structure an address-space pointer designates, and storing it back. *)
Definition space_at (p : as_ptr) (s : sys) : option address_space :=
  match p with
  | AsNull => None
  | AsKernel => Some (kernel_address_space (spaces s))
  | AsTask pid => user_address_space <$> task_at s pid
  end.
Definition put_space (p : as_ptr) (space : option address_space) (s : sys) : sys :=
  match p, space with
  | AsKernel, Some a =>
      let st := spaces s in
      set_spaces (AsState a (user_l1_tables st) (user_l2_tables st) (user_l3_tables st) (user_region_pages st)
                    (user_table_slots_used st)) s
  | AsTask pid, Some a => upd pid (set_user_address_space a) s
  | _, _ => s
  end.

(** The pointer a task holds. *)
Definition space_ptr (s : sys) (pid : Z) : as_ptr := default AsNull ((address_space_ptr ∘ memory) <$> task_at s pid).

(** [cpu_switch_to(&tasks[prev].context, &tasks[next].context)]: the registers are saved
    in the first context and loaded from the second. *)
Definition cpu_switch_to (prev next : Z) (s : sys) : sys :=
  let s := upd prev (set_t_context (cpu s)) s in
  set_cpu (default (cpu s) (t_context <$> task_at s next)) s.

(** How control leaves a scheduler function. *)
Inductive outcome := Returned | Switched | Halted.
