(* ===== verification/User.v ===== *)
(** * User mode ([arch/arm64/user.c])

    The sessions that enter EL0 and recover from it. The function that runs a task is
    split where it leaves for EL0: [user_mode_run_task] up to the exception return and
    [user_mode_run_task_return] from there; what happens in between is a sequence of
    exceptions and exit calls. Console output is left out. *)

From S2P Require Import Prelude Mmu AddressSpace Task.

(** ** Definitions *)

Definition ESR_EC_SHIFT : Z := 26.
Definition ESR_EC_MASK : Z := 0x3F.
Definition ESR_ISS_MASK : Z := 0x01ffffff.
Definition SPSR_MODE_MASK : Z := 0xF.

Definition USER_SESSION_REJECT_NONE : Z := 0.
Definition USER_SESSION_REJECT_BAD_ROOTS : Z := 1.
Definition USER_SESSION_REJECT_BAD_RETURN : Z := 2.
Definition USER_SESSION_REJECT_UNEXPECTED_MODE : Z := 3.

Inductive user_mode_status :=
  | USER_MODE_READY | USER_MODE_NO_TASK | USER_MODE_NO_ADDRESS_SPACE | USER_MODE_NOT_USER_ADDRESS_SPACE
  | USER_MODE_ADDRESS_SPACE_INVALID | USER_MODE_NO_IMAGE | USER_MODE_EL0_NOT_READY | USER_MODE_BAD_ENTRY_STATE
  | USER_MODE_NOT_ELIGIBLE | USER_MODE_SWITCH_NOT_READY | USER_MODE_TASK_FAILED.

#[export] Instance user_mode_status_eq_dec : EqDecision user_mode_status.
Proof. solve_decision. Defined.

Section ops.
Context `{CodeLayout}.

(** The index of the session of the current task; 0 when its pid is out of range. *)
Definition user_session_current (s : sys) : nat :=
  match task_at s (current_task s) with
  | None => 0%nat
  | Some t => if (t_pid t <? 0) || (t_pid t >=? SCHED_MAX_TASKS) then 0%nat else Z.to_nat (t_pid t)
  end.

Definition no_session : user_session_state := UserSession 0 0 0 0 0 None 0 0 0.
Definition user_session (s : sys) : user_session_state :=
  default no_session (user_sessions s !! user_session_current s).
Definition upd_session (f : user_session_state -> user_session_state) (s : sys) : sys :=
  set_user_sessions (alter f (user_session_current s) (user_sessions s)) s.

Definition exception_class_value (esr : Z) : Z := Z.land (Z.shiftr esr ESR_EC_SHIFT) ESR_EC_MASK.
Definition exception_iss_value (esr : Z) : Z := Z.land esr ESR_ISS_MASK.

Definition switch_root (root : Z) (s : sys) : sys := set_regs (arm64_mmu_switch_ttbr0 root (regs s)) s.

(** A change of the task the session runs, if it has one. *)
Definition upd_session_task (f : task -> task) (s : sys) : sys :=
  match session_task (user_session s) with None => s | Some pid => upd pid f s end.

Definition user_session_reject (reason : Z) (s : sys) : Z * sys :=
  let s := if truth (kernel_root (user_session s)) then switch_root (kernel_root (user_session s)) s else s in
  let s := upd_session (fun u => UserSession (active u) (completed u) (faulted u) reason (reject_count u +! 1)
                                   (session_task u) (return_pc u) (kernel_root u) (user_root u)) s in
  let s := upd_session_task inc_rejects s in
  let s := upd_session (fun u => UserSession 0 (completed u) (faulted u) (last_reject_reason u) (reject_count u)
                                   (session_task u) (return_pc u) (kernel_root u) (user_root u)) s in
  (0, s).

(** The argument is the task, or [None] for a null pointer. *)
Definition user_mode_can_enter (t : option task) (s : sys) : user_mode_status :=
  match t with
  | None => USER_MODE_NO_TASK
  | Some t =>
      match space_at (address_space_ptr (memory t)) s with
      | None => USER_MODE_NO_ADDRESS_SPACE
      | Some space =>
          if negb (bool_decide (as_kind space = ADDRESS_SPACE_USER)) then USER_MODE_NOT_USER_ADDRESS_SPACE else
          if negb (truth (validation_ready space)) || truth (validation_errors space)
          then USER_MODE_ADDRESS_SPACE_INVALID else
          if negb (truth (user_image_ready space)) then USER_MODE_NO_IMAGE else
          if negb (truth (el0_ready (el0 t))) then USER_MODE_EL0_NOT_READY else
          if negb (truth (el0_pc (el0 t))) || negb (truth (el0_sp (el0 t))) ||
             negb (Z.land (el0_sp (el0 t)) 0xF =? 0) || negb (el0_spsr (el0 t) =? ARM64_SPSR_EL0T)
          then USER_MODE_BAD_ENTRY_STATE else USER_MODE_READY
      end
  end.

Definition user_mode_prepare (t : option task) (s : sys) : user_mode_status := user_mode_can_enter t s.

(** [None] when the processor has entered EL0. *)
Definition user_mode_enter_stub (t : option task) (s : sys) : option user_mode_status :=
  let status := user_mode_prepare t s in
  if negb (bool_decide (status = USER_MODE_READY)) then Some status else None.

(** [address_space_switch_stub] on the space a pointer designates. *)
Definition switch_stub (p : as_ptr) (s : sys) : address_space_switch_stub_status * sys :=
  let (status, space) := address_space_switch_stub (space_at p s) in (status, put_space p space s).

(** The status, or [None] when the task has entered EL0. *)
Definition user_mode_run_task (pid : Z) (s : sys) : option user_mode_status * sys :=
  let status := user_mode_prepare (task_at s pid) s in
  if negb (bool_decide (status = USER_MODE_READY)) then (Some status, s) else
  if negb (bool_decide (state_of s pid = TASK_ELIGIBLE)) && negb (bool_decide (state_of s pid = TASK_RUNNING))
  then (Some USER_MODE_NOT_ELIGIBLE, s) else
  match space_at (space_ptr s pid) s with
  | None => (Some USER_MODE_SWITCH_NOT_READY, s)
  | Some space =>
      let (stub, s) := switch_stub (space_ptr s pid) s in
      if negb (bool_decide (stub = ADDRESS_SPACE_SWITCH_STUB_READY)) then (Some USER_MODE_SWITCH_NOT_READY, s) else
      let s := upd_session (fun u => UserSession 1 0 0 USER_SESSION_REJECT_NONE (reject_count u) (Some pid)
                                       arm64_el0_task_return (kernel_root_table space) (target_root_table space)) s in
      let s := switch_root (user_root (user_session s)) s in
      (None, upd pid inc_el0_entries s)
  end.

(** The rest, when control comes back from EL0. *)
Definition user_mode_run_task_return (pid : Z) (s : sys) : user_mode_status * sys :=
  if truth (completed (user_session s)) then
    let s := upd pid inc_recoveries s in
    let s := upd_session (fun u => UserSession (active u) (completed u) (faulted u) (last_reject_reason u)
                                     (reject_count u) None (return_pc u) (kernel_root u) (user_root u)) s in
    (if truth (faulted (user_session s)) then USER_MODE_TASK_FAILED else USER_MODE_READY, s)
  else
    let s := upd_session (fun u => UserSession 0 (completed u) (faulted u) (last_reject_reason u)
                                     (reject_count u) None (return_pc u) (kernel_root u) (user_root u)) s in
    (USER_MODE_TASK_FAILED, switch_root (kernel_root (user_session s)) s).

Definition user_mode_handle_exception (esr elr far spsr : Z) (s : sys) : Z * sys :=
  let mode := Z.land spsr SPSR_MODE_MASK in
  let u := user_session s in
  if negb (truth (active u)) then (0, s) else
  if negb (truth (kernel_root u)) || negb (truth (user_root u)) then user_session_reject USER_SESSION_REJECT_BAD_ROOTS s else
  if negb (truth (return_pc u)) then user_session_reject USER_SESSION_REJECT_BAD_RETURN s else
  if negb (mode =? ARM64_SPSR_MODE_EL0T) then user_session_reject USER_SESSION_REJECT_UNEXPECTED_MODE s else
  let s := switch_root (kernel_root u) s in
  let s := upd_session_task (inc_rejects ∘ inc_traps) s in
  let s := upd_session (fun u => UserSession 0 1 1 USER_SESSION_REJECT_NONE (reject_count u +! 1) (session_task u)
                                   (return_pc u) (kernel_root u) (user_root u)) s in
  (1, set_return (return_pc (user_session s)) ARM64_SPSR_EL1H s).

Definition user_mode_handle_exit_syscall (code : Z) (s : sys) : Z * sys :=
  let u := user_session s in
  if negb (truth (active u)) || negb (truth (return_pc u)) then (0, s) else
  let s := if truth (kernel_root u) then switch_root (kernel_root u) s else s in
  let s := upd_session_task (set_last_exit_code code ∘ inc_exits ∘ inc_traps) s in
  let s := upd_session (fun u => UserSession 0 1 0 (last_reject_reason u) (reject_count u) (session_task u)
                                   (return_pc u) (kernel_root u) (user_root u)) s in
  (1, set_return (return_pc (user_session s)) ARM64_SPSR_EL1H s).

(** The pointer it returns. *)
Definition user_mode_active_address_space (s : sys) : as_ptr :=
  match session_task (user_session s) with
  | Some pid => if truth (active (user_session s)) then space_ptr s pid else AsNull
  | None => AsNull
  end.

Definition user_mode_task_resume_root (t : option task) (s : sys) : Z :=
  match t with
  | None => 0
  | Some t =>
      if (t_pid t <? 0) || (t_pid t >=? SCHED_MAX_TASKS) then 0 else
      match space_at (address_space_ptr (memory t)) s with
      | None => 0
      | Some space =>
          let u := default no_session (user_sessions s !! Z.to_nat (t_pid t)) in
          if truth (active u) then user_root u else kernel_root_table space
      end
  end.

Definition user_mode_status_name (status : user_mode_status) : list Z :=
  match status with
  | USER_MODE_READY => lit "ready"
  | USER_MODE_NO_TASK => lit "no-task"
  | USER_MODE_NO_ADDRESS_SPACE => lit "no-aspace"
  | USER_MODE_NOT_USER_ADDRESS_SPACE => lit "kernel-task"
  | USER_MODE_ADDRESS_SPACE_INVALID => lit "bad-aspace"
  | USER_MODE_NO_IMAGE => lit "no-image"
  | USER_MODE_EL0_NOT_READY => lit "no-el0"
  | USER_MODE_BAD_ENTRY_STATE => lit "bad-entry"
  | USER_MODE_NOT_ELIGIBLE => lit "not-eligible"
  | USER_MODE_SWITCH_NOT_READY => lit "switch-not-ready"
  | USER_MODE_TASK_FAILED => lit "task-failed"
  end.

Definition user_mode_entry_state (t : option task) (s : sys) : list Z :=
  if bool_decide (user_mode_can_enter t s = USER_MODE_READY) then lit "ready" else lit "blocked".
End ops.
