(* ===== verification/Scheduler.v ===== *)
(** * The scheduler ([kernel/sched/scheduler.c])

    The task table, round-robin choice, sleeping, blocking, user-task creation, waiting
    and reaping. A function that may give the processor away returns how control left it
    ([outcome]); [scheduler_run_user_task] is split where its task leaves for EL0.
    Console output is left out. *)

From S2P Require Import Prelude BlockDevice Vfs Executable Mmu AddressSpace Task User.

(** ** Definitions *)

Definition zero_context : cpu_context := CpuContext 0 0 0 0 0 0 0 0 0 0 0 0 0.
Definition USER_DEMO_IMAGE_PATH : list Z := lit "/bin/user-demo.sx".

Section stacks.
Context `{CodeLayout}.

Definition scheduler_stack_region_start : Z := task_stack_region.
Definition scheduler_stack_region_bytes : Z := SCHED_STACK_REGION_SIZE.
Definition scheduler_stack_region_end : Z := scheduler_stack_region_start +! scheduler_stack_region_bytes.
Definition scheduler_stack_count : Z := SCHED_MAX_TASKS.

Definition scheduler_stack_guard_start (index : Z) : Z :=
  let index := if index >? SCHED_MAX_TASKS then SCHED_MAX_TASKS else index in
  scheduler_stack_region_start +! (index *! SCHED_STACK_SLOT_SIZE).
Definition scheduler_stack_guard_end (index : Z) : Z :=
  scheduler_stack_guard_start index +! SCHED_STACK_GUARD_SIZE.
Definition scheduler_stack_start (index : Z) : Z :=
  let index := if index >=? SCHED_MAX_TASKS then SCHED_MAX_TASKS - 1 else index in
  scheduler_stack_guard_end index.
Definition scheduler_stack_end (index : Z) : Z := scheduler_stack_start index +! SCHED_STACK_SIZE.

Definition scheduler_address_is_stack (address : Z) : bool :=
  existsb (fun i => (address >=? scheduler_stack_start i) && (address <? scheduler_stack_end i)) (seqZ 0 SCHED_MAX_TASKS).
Definition scheduler_address_is_stack_guard (address : Z) : bool :=
  existsb (fun i => (address >=? scheduler_stack_guard_start i) && (address <? scheduler_stack_guard_end i))
    (seqZ 0 (SCHED_MAX_TASKS + 1)).
End stacks.

Definition scheduler_state_name (st : task_state) : list Z :=
  match st with
  | TASK_UNUSED => lit "unused"
  | TASK_READY => lit "ready"
  | TASK_RUNNING => lit "running"
  | TASK_BLOCKED => lit "blocked"
  | TASK_SLEEPING => lit "sleeping"
  | TASK_ELIGIBLE => lit "eligible"
  | TASK_ZOMBIE => lit "zombie"
  end.

Definition scheduler_clear_context : cpu_context := zero_context.
Definition scheduler_clear_memory : task_memory := TaskMemory AsNull 0 0 0 0 0 0.
Definition scheduler_clear_el0 : task_el0_state := TaskEl0 0 0 0 0.
Definition scheduler_clear_user_status : task_user_status := TaskUserStatus 0 0 0 0 0 0 0 0 0 0 0.
Definition scheduler_clear_accounting : task_accounting := TaskAccounting 0 0 0 0 0.
Definition scheduler_clear_files (fs : list task_file) : list task_file :=
  (fun f => TaskFile 0 (<[0%nat := 0]> (file_path f)) 0) <$> fs.

Section ops.
Context `{CodeLayout} `{AsLayout} (kernel_table : Z -> list Z).
Context {B : Type} `{BlockDevice B}.

Definition scheduler_init_task_memory (pid : Z) : task_memory :=
  TaskMemory AsKernel (scheduler_stack_start pid) (scheduler_stack_end pid)
    (scheduler_stack_guard_start pid) (scheduler_stack_guard_end pid)
    (scheduler_stack_guard_start (pid + 1)) (scheduler_stack_guard_end (pid + 1)).

(** The entry state for a space. *)
Definition init_el0 (space : option address_space) : task_el0_state :=
  match space with
  | None => scheduler_clear_el0
  | Some space =>
      if negb (bool_decide (as_kind space = ADDRESS_SPACE_USER)) then scheduler_clear_el0 else
      if negb (truth (user_mappings_ready space)) || negb (truth (user_execute_ready space)) then scheduler_clear_el0 else
      TaskEl0 (if truth (user_image_ready space) then user_image_entry space else user_code_start space)
        (Z.land (user_stack_end space) (~! 0xF)) ARM64_SPSR_EL0T 1
  end.
Definition scheduler_init_task_el0 (pid : Z) (s : sys) : sys :=
  upd pid (set_el0 (init_el0 (space_at (space_ptr s pid) s))) s.

(** [address_space_destroy_user] on the space a pointer designates. *)
Definition destroy_space (p : as_ptr) (s : sys) : sys :=
  let (space, st) := address_space_destroy_user (space_at p s) (spaces s) in
  put_space p space (set_spaces st s).

Definition scheduler_clear_task_slot (pid : Z) (s : sys) : sys :=
  let s := destroy_space (space_ptr s pid) s in
  upd pid (fun t => Task pid (-1) (Some (lit "unused")) TASK_UNUSED 0 scheduler_clear_context 0 0
    scheduler_clear_accounting scheduler_clear_memory (user_address_space t) scheduler_clear_el0
    scheduler_clear_user_status (scheduler_clear_files (t_files t)) (user_argc t) (user_argv_address t)
    (user_arg_lengths_address t)) s.

(** The new task count; the fuel is the count itself. *)
Fixpoint trim_loop (fuel : nat) (s : sys) : sys :=
  match fuel with
  | O => s
  | S fuel =>
      if (task_count s >? 1) && bool_decide (state_of s (task_count s - 1) = TASK_UNUSED)
      then trim_loop fuel (set_task_count (task_count s - 1) s) else s
  end.
Definition scheduler_trim_unused_tail (s : sys) : sys := trim_loop (Z.to_nat (task_count s)) s.

Definition runnable (st : task_state) : bool := bool_decide (st = TASK_READY) || bool_decide (st = TASK_RUNNING).
Definition scheduler_task_is_runnable (t : option task) : bool :=
  match t with None => false | Some t => runnable (t_state t) end.

Definition scheduler_set_running_task (pid : Z) (s : sys) : sys := upd pid (inc_switches ∘ set_t_state TASK_RUNNING) s.

Definition scheduler_task_is_kernel_task (t : option task) (s : sys) : bool :=
  match t ≫= (fun t => space_at (address_space_ptr (memory t)) s) with
  | None => false
  | Some space => bool_decide (as_kind space = ADDRESS_SPACE_KERNEL)
  end.

Definition scheduler_policy_name (t : option task) : list Z :=
  match t with
  | None => lit "invalid"
  | Some task =>
      if bool_decide (t_state task = TASK_ELIGIBLE) then lit "user-eligible" else
      if scheduler_task_is_runnable t then lit "runnable" else
      if bool_decide (t_state task = TASK_BLOCKED) then lit "blocked" else
      if bool_decide (t_state task = TASK_SLEEPING) then lit "sleeping" else lit "inactive"
  end.

(** One iteration of the wake-up loop. *)
Definition wake (ticks : Z) (t : task) : task :=
  if bool_decide (t_state t = TASK_SLEEPING) && (ticks >=? sleep_until_tick t)
  then inc_sleep_wakeups (set_sleep 0 0 (set_t_state TASK_READY t)) else t.
Definition scheduler_wake_sleeping_tasks (s : sys) : sys :=
  set_tasks (imap (fun i t => if Z.of_nat i <? task_count s then wake (scheduler_ticks s) t else t) (tasks s)) s.

Definition scheduler_next_runnable_task (s : sys) : Z :=
  let candidates := (fun i => Z.rem (current_task s + i) (task_count s)) <$> seqZ 1 (task_count s) in
  match List.find (fun c => negb (c =? 0) && scheduler_task_is_runnable (task_at s c)) candidates with
  | Some c => c
  | None => if scheduler_task_is_runnable (task_at s 0) then 0 else current_task s
  end.

(** The first unused entry of the table, or a new one. *)
Definition take_slot (s : sys) : option (Z * sys) :=
  match List.find (fun i => bool_decide (state_of s i = TASK_UNUSED)) (seqZ 1 (task_count s - 1)) with
  | Some pid => Some (pid, s)
  | None =>
      if task_count s >=? SCHED_MAX_TASKS then None
      else Some (task_count s, set_task_count (task_count s + 1) s)
  end.

(** The assignments to a new task; [ptr] is the address space it ends with. *)
Definition fresh_task (pid : Z) (nm : option (list Z)) (st : task_state) (entry : Z) (t : task) : task :=
  Task pid (-1) nm st entry scheduler_clear_context 0 0 scheduler_clear_accounting
    (scheduler_init_task_memory pid) (user_address_space t) scheduler_clear_el0 scheduler_clear_user_status
    (scheduler_clear_files (t_files t)) (user_argc t) (user_argv_address t) (user_arg_lengths_address t).

Definition with_stack (pid return_address : Z) (t : task) : task :=
  let c := t_context t in
  set_t_context (CpuContext (x19 c) (x20 c) (x21 c) (x22 c) (x23 c) (x24 c) (x25 c) (x26 c) (x27 c) (x28 c) (fp c)
                   return_address (Z.land (scheduler_stack_end pid) (~! 0xF))) t.

Definition scheduler_add_task (nm : option (list Z)) (entry : Z) (s : sys) : Z * sys :=
  match take_slot s with
  | None => (-1, s)
  | Some (pid, s) =>
      let s := upd pid (fresh_task pid nm TASK_READY entry) s in
      let s := scheduler_init_task_el0 pid s in
      let s := if truth entry
               then upd pid (with_stack pid (if pid =? 0 then entry else thread_trampoline)) s else s in
      (pid, s)
  end.

(** The effect of printing the table: the switch state of every space is refreshed. *)
Definition scheduler_dump_tasks (s : sys) : sys :=
  foldl (fun s i => match space_at (space_ptr s i) s with None => s | Some _ => (switch_stub (space_ptr s i) s).2 end)
    s (seqZ 0 (task_count s)).

Definition scheduler_init (s : sys) : sys :=
  let s := Sys (tasks s) scheduler_clear_context 0 0 0 0 (user_sessions s) (spaces s) (regs s) (cpu s)
             (elr_el1 s) (spsr_el1 s) in
  let s := (scheduler_add_task (Some (lit "idle")) idle_task s).2 in
  scheduler_dump_tasks s.

Definition scheduler_create_kernel_thread (nm : option (list Z)) (entry : Z) (s : sys) : Z * sys :=
  let (pid, s) := scheduler_add_task nm entry s in if pid <? 0 then (-1, s) else (pid, s).

(** *** User tasks *)

(** [' ']. *)
Definition SPACE : Z := 32.

(** The length of the argument, or [None] past the limit. *)
Fixpoint argument_length_loop (a : list Z) (n : Z) : option Z :=
  match a with
  | [] => Some n
  | _ :: a => if n + 1 >? TASK_USER_ARGUMENT_MAX then None else argument_length_loop a (n + 1)
  end.

Fixpoint skip_spaces (a : list Z) : list Z :=
  match a with [] => [] | c :: r => if c =? SPACE then skip_spaces r else a end.
(** The word at the head and what follows it. *)
Fixpoint split_word (a : list Z) : list Z * list Z :=
  match a with
  | [] => ([], [])
  | c :: r => if c =? SPACE then ([], a) else let (w, rest) := split_word r in (c :: w, rest)
  end.

(** The number of words, or [None] past the limit; the fuel is the length. *)
Fixpoint argc_loop (fuel : nat) (a : list Z) (argc : Z) : option Z :=
  match fuel with
  | O => Some argc
  | S fuel =>
      match skip_spaces a with
      | [] => Some argc
      | a => if argc + 1 >? TASK_USER_ARG_MAX then None else argc_loop fuel (split_word a).2 (argc + 1)
      end
  end.

Definition bytes64 (v : Z) : list Z := Z_to_little_endian 8 8 v.

(** [address_space_write_user_data] on the space of a task. *)
Definition write_data (pid offset : Z) (data : list Z) (size : Z) (s : sys) : Z * sys :=
  let (r, st) := address_space_write_user_data (space_at (AsTask pid) s) offset (Some data) size (spaces s) in
  (r, set_spaces st s).

(** The loop that copies the words: the addresses and lengths written so far, newest
    last, and whether every copy was accepted. *)
Fixpoint copy_words (argc : nat) (pid cursor : Z) (a : list Z) (argv lengths : list Z) (s : sys) :
    bool * list Z * list Z * sys :=
  match argc with
  | O => (true, argv, lengths, s)
  | S argc =>
      let (word, rest) := split_word (skip_spaces a) in
      let len := Z.of_nat (length word) in
      let base := default 0 ((user_data_start ∘ user_address_space) <$> task_at s pid) in
      let argv := argv ++ [base +! cursor] in
      let lengths := lengths ++ [len] in
      let (ok, s) := write_data pid cursor word len s in
      if negb (truth ok) then (false, argv, lengths, s) else
      let cursor := cursor +! len in
      let s := (write_data pid cursor [0] 1 s).2 in
      copy_words argc pid (cursor +! 1) rest argv lengths s
  end.

(** The array of eight words with the given first ones. *)
Definition word_array (l : list Z) : list Z := concat (bytes64 <$> (l ++ replicate (Z.to_nat TASK_USER_ARG_MAX - length l) 0)).

(** Undoing a creation that fails after the task was set up. *)
Definition abandon_task (pid : Z) (s : sys) : Z * sys :=
  let s := destroy_space (AsTask pid) s in
  let s := upd pid (set_t_state TASK_UNUSED) s in
  (-1, if pid =? task_count s - 1 then set_task_count (task_count s - 1) s else s).

(** Creating the task once the image and its arguments have been checked. *)
Definition setup_user_task (nm : option (list Z)) (image : saturn_exec_image) (argument : list Z)
    (argc argument_base strings_offset : Z) (s : sys) : Z * sys :=
  match take_slot s with
  | None => (-1, s)
  | Some (pid, s) =>
      if pid >=? SCHED_MAX_TASKS then (-1, s) else
      let nm := Some (default (lit "user-demo") nm) in
      let (space, st) := address_space_init_user kernel_table nm (root_table (kernel_address_space (spaces s))) (spaces s) in
      let s := put_space (AsTask pid) (Some space) (set_spaces st s) in
      let '(ok, space, st) := address_space_load_user_image (space_at (AsTask pid) s) (Some (i_code image))
        (i_code_size image) (Some (i_data image)) (i_data_size image) (i_entry_offset image) (spaces s) in
      let s := put_space (AsTask pid) space (set_spaces st s) in
      if negb (truth ok) then
        let s := destroy_space (AsTask pid) s in
        (-1, if pid =? task_count s - 1 then set_task_count (task_count s - 1) s else s)
      else
      let s := upd pid (set_address_space_ptr (AsTask pid) ∘ fresh_task pid nm TASK_BLOCKED 0) s in
      let '(ok, argv, lengths, s) := copy_words (Z.to_nat argc) pid strings_offset argument [] [] s in
      if negb ok then abandon_task pid s else
      let base := default 0 ((user_data_start ∘ user_address_space) <$> task_at s pid) in
      let argv_address := base +! argument_base in
      let s := upd pid (set_arguments argc argv_address (argv_address +! TASK_USER_ARG_MAX * 8)) s in
      let (ok, s) := write_data pid argument_base (word_array argv) 64 s in
      if negb (truth ok) then abandon_task pid s else
      let (ok, s) := write_data pid (argument_base +! 64) (word_array lengths) 64 s in
      if negb (truth ok) then abandon_task pid s else
      (pid, scheduler_init_task_el0 pid s)
  end.

(** The checks, from the file's contents ([None] when there is no such file). *)
Definition create_user_task (nm : option (list Z)) (file : option (list Z * Z)) (argument : option (list Z)) (s : sys) : Z * sys :=
  match file with
  | None => (-1, s)
  | Some (file, file_size) =>
      match saturn_exec_parse (Some file) file_size true with
      | None => (-1, s)
      | Some image =>
          let argument := default [] argument in
          match argument_length_loop argument 0 with
          | None => (-1, s)
          | Some argument_length =>
              match argc_loop (S (length argument)) argument 0 with
              | None => (-1, s)
              | Some argc =>
                  let argument_base := Z.land (i_data_size image +! 7) (~! 7) in
                  let strings_offset := argument_base +! 2 * TASK_USER_ARG_MAX * 8 in
                  if strings_offset +! argument_length +! 1 >? 4096 then (-1, s) else
                  setup_user_task nm image argument argc argument_base strings_offset s
              end
          end
      end
  end.

(** The bytes behind the pointer [vfs_file_data] returns. *)
Definition file_bytes (p : data_ptr) (v : vfs B) : list Z :=
  match p with
  | DiskBuffer => disk_file_buffer v
  | NodeData i => default [] (n_data <$> nodes v !! i)
  end.

Definition scheduler_create_user_task_from_image (nm : option (list Z)) (image_path : list Z)
    (argument : option (list Z)) (s : sys) (v : vfs B) : Z * sys * vfs B :=
  let (r, v) := vfs_file_data image_path v in
  let file := (fun '(p, sz) => (file_bytes p v, sz)) <$> r in
  let (pid, s) := create_user_task nm file argument s in (pid, s, v).

Definition scheduler_create_blocked_user_task (nm : option (list Z)) (s : sys) (v : vfs B) : Z * sys * vfs B :=
  scheduler_create_user_task_from_image nm USER_DEMO_IMAGE_PATH None s v.

Definition scheduler_unblock_user_task (pid : Z) (s : sys) : Z * sys :=
  if (pid <? 0) || (pid >=? task_count s) then (-1, s) else
  if negb (bool_decide (state_of s pid = TASK_BLOCKED)) then (-1, s) else
  if negb (bool_decide (user_mode_prepare (task_at s pid) s = USER_MODE_READY)) then (-1, s) else
  let (stub, s) := switch_stub (space_ptr s pid) s in
  if negb (bool_decide (stub = ADDRESS_SPACE_SWITCH_STUB_READY)) then (-1, s) else
  (0, upd pid (fun t => inc_admissions (set_t_state TASK_READY
                          (with_stack pid thread_trampoline (set_t_entry scheduler_user_task_entry t)))) s).

Definition scheduler_block_task (pid : Z) (s : sys) : Z * sys :=
  if (pid <? 0) || (pid >=? task_count s) then (-1, s) else
  if pid =? 0 then (-1, s) else
  if pid =? current_task s then (-1, s) else
  if negb (scheduler_task_is_kernel_task (task_at s pid) s) then (-1, s) else
  if negb (bool_decide (state_of s pid = TASK_READY)) then (-1, s) else
  (0, upd pid (set_sleep 0 0 ∘ set_t_state TASK_BLOCKED) s).

Definition scheduler_unblock_task (pid : Z) (s : sys) : Z * sys :=
  if (pid <? 0) || (pid >=? task_count s) then (-1, s) else
  if pid =? 0 then (-1, s) else
  if negb (scheduler_task_is_kernel_task (task_at s pid) s) then (-1, s) else
  if negb (bool_decide (state_of s pid = TASK_BLOCKED)) then (-1, s) else
  (0, upd pid (set_t_state TASK_READY) s).

Definition scheduler_reap_zombie_task (pid : Z) (s : sys) : Z * sys :=
  if (pid <? 0) || (pid >=? task_count s) then (-1, s) else
  if pid =? 0 then (-1, s) else
  if pid =? current_task s then (-1, s) else
  if negb (bool_decide (state_of s pid = TASK_ZOMBIE)) then (-1, s) else
  (0, scheduler_trim_unused_tail (scheduler_clear_task_slot pid s)).

Definition reap_step (acc : Z * sys) (i : Z) : Z * sys :=
  let (reaped, s) := acc in
  if negb (i =? current_task s) && bool_decide (state_of s i = TASK_ZOMBIE)
  then (reaped + 1, scheduler_clear_task_slot i s) else acc.
Definition scheduler_reap_zombies (s : sys) : Z * sys :=
  let (reaped, s) := foldl reap_step (0, s) (seqZ 1 (task_count s - 1)) in
  (reaped, scheduler_trim_unused_tail s).

Record task_wait_status := WaitStatus { w_pid : Z; w_exit_code : Z; w_succeeded : Z }.

(** The search over the children when the pid is 0: whether one exists, and the first
    zombie. *)
Definition is_child (s : sys) (i : Z) : bool := default (-1) (parent_pid <$> task_at s i) =? current_task s.
Definition find_zombie_child (s : sys) : bool * Z :=
  let children := filter (fun i => is_child s i = true) (seqZ 1 (task_count s - 1)) in
  match List.find (fun i => bool_decide (state_of s i = TASK_ZOMBIE)) children with
  | Some i => (true, i)
  | None => (bool_decide (children <> []), 0)
  end.

(** [status] is [None] for a null pointer; the third component is what it holds after. *)
Definition scheduler_wait_task_status (pid : Z) (status : option task_wait_status) (s : sys) :
    Z * option task_wait_status * sys :=
  if negb (bool_decide (is_Some status)) || (pid <? 0) || (pid >=? task_count s) || (pid =? current_task s)
  then (-1, status, s) else
  let (owned, pid) := if pid =? 0 then find_zombie_child s else (true, pid) in
  if pid =? 0 then (if owned then 0 else -1, status, s) else
  match space_at (space_ptr s pid) s with
  | None => (-1, status, s)
  | Some space =>
      if negb (bool_decide (as_kind space = ADDRESS_SPACE_USER)) || negb (is_child s pid) then (-1, status, s) else
      if negb (bool_decide (state_of s pid = TASK_ZOMBIE)) then (0, status, s) else
      let u := default scheduler_clear_user_status (user_status <$> task_at s pid) in
      let status := WaitStatus pid (last_exit_code u) (c_int (truth (program_succeeded u))) in
      (1, Some status, scheduler_trim_unused_tail (scheduler_clear_task_slot pid s))
  end.

Definition scheduler_set_task_parent (pid parent : Z) (s : sys) : Z * sys :=
  if (pid <=? 0) || (pid >=? task_count s) || (parent <=? 0) || (parent >=? task_count s) || (pid =? parent)
  then (0, s) else (1, upd pid (set_parent_pid parent) s).

Definition scheduler_terminate_child (pid code : Z) (s : sys) : Z * sys :=
  if (pid <=? 0) || (pid >=? task_count s) || (pid =? current_task s) || negb (is_child s pid) ||
     bool_decide (state_of s pid = TASK_UNUSED) || bool_decide (state_of s pid = TASK_ZOMBIE) then (0, s) else
  (1, upd pid (set_t_state TASK_ZOMBIE ∘ inc_failures ∘ set_last_exit_code code ∘ set_program 0) s).

(** The end of [scheduler_run_user_task], from the status of the run. *)
Definition run_user_task_end (pid : Z) (status : user_mode_status) (s : sys) : Z * sys :=
  if negb (bool_decide (status = USER_MODE_READY))
  then (-1, upd pid (set_t_state TASK_ZOMBIE ∘ inc_failures ∘ set_program 0) s)
  else (0, upd pid (set_t_state TASK_ZOMBIE ∘ inc_completions ∘ set_program 1) s).

(** [None] when the task has entered EL0. *)
Definition scheduler_run_user_task (pid : Z) (s : sys) : option Z * sys :=
  if (pid <? 0) || (pid >=? task_count s) then (Some (-1), s) else
  if negb (bool_decide (state_of s pid = TASK_ELIGIBLE)) && negb (bool_decide (state_of s pid = TASK_RUNNING))
  then (Some (-1), s) else
  let (status, s) := user_mode_run_task pid s in
  match status with
  | None => (None, s)
  | Some status => let (r, s) := run_user_task_end pid status s in (Some r, s)
  end.
Definition scheduler_run_user_task_return (pid : Z) (s : sys) : Z * sys :=
  let (status, s) := user_mode_run_task_return pid s in run_user_task_end pid status s.

(** *** Switching *)

Definition scheduler_tick (s : sys) : sys :=
  let previous := current_task s in
  let s := set_scheduler_ticks (scheduler_ticks s +! 1) s in
  let s := scheduler_wake_sleeping_tasks s in
  let s := upd previous inc_run_ticks s in
  if negb (bool_decide (user_mode_active_address_space s = AsNull)) then s else
  let s := if bool_decide (state_of s (current_task s) = TASK_RUNNING)
           then upd (current_task s) (set_t_state TASK_READY) s else s in
  let s := set_current_task (scheduler_next_runnable_task s) s in
  let s := upd previous inc_preemptions s in
  scheduler_set_running_task (current_task s) s.

Definition scheduler_yield (s : sys) : outcome * sys :=
  if task_count s <? 2 then (Returned, s) else
  let previous := current_task s in
  let s := scheduler_wake_sleeping_tasks s in
  let next := scheduler_next_runnable_task s in
  if next =? previous then
    if scheduler_task_is_runnable (task_at s previous) then (Returned, upd previous (set_t_state TASK_RUNNING) s)
    else (Halted, s)
  else
  let s := if bool_decide (state_of s previous = TASK_RUNNING)
           then upd previous (inc_yields ∘ set_t_state TASK_READY) s else s in
  let s := scheduler_set_running_task next s in
  let s := set_current_task next s in
  let resume_root := user_mode_task_resume_root (task_at s next) s in
  let s := if truth resume_root then switch_root resume_root s else s in
  (Switched, cpu_switch_to previous next s).

(** [interval_ms] is the timer's interval; the busy wait changes nothing here. *)
Definition scheduler_sleep_ms (interval_ms ms : Z) (s : sys) : outcome * sys :=
  if negb (truth (threads_started s)) || (current_task s =? 0) || negb (truth interval_ms) then (Returned, s) else
  let sleep_ticks := (ms +! interval_ms -! 1) / interval_ms in
  let sleep_ticks := if sleep_ticks =? 0 then 1 else sleep_ticks in
  let s := upd (current_task s) (set_t_state TASK_SLEEPING ∘ set_sleep (scheduler_ticks s +! sleep_ticks) ms) s in
  scheduler_yield s.

Definition scheduler_preempt (s : sys) : outcome * sys :=
  if negb (truth (threads_started s)) || (task_count s <? 2) then (Returned, s) else
  let s := set_scheduler_ticks (scheduler_ticks s +! 1) s in
  let s := scheduler_wake_sleeping_tasks s in
  let previous := current_task s in
  let s := upd previous inc_run_ticks s in
  let next := scheduler_next_runnable_task s in
  if next =? previous then (Returned, s) else
  let s := if bool_decide (state_of s previous = TASK_RUNNING) then upd previous (set_t_state TASK_READY) s else s in
  let s := upd previous inc_preemptions s in
  let s := scheduler_set_running_task next s in
  let s := set_current_task next s in
  (Switched, cpu_switch_to previous next s).

(** The children of a task lose their parent. *)
Definition orphan (parent : Z) (s : sys) : sys :=
  set_tasks (imap (fun i t => if (1 <=? Z.of_nat i) && (Z.of_nat i <? task_count s) && (parent_pid t =? parent)
                              then set_parent_pid (-1) t else t) (tasks s)) s.

(** A [Returned] yield falls into the final loop. *)
Definition scheduler_exit_task (task_id : Z) (s : sys) : outcome * sys :=
  let s := orphan task_id s in
  let s := upd task_id (set_t_state TASK_ZOMBIE) s in
  let s := set_current_task task_id s in
  let (o, s) := scheduler_yield s in
  (match o with Switched => Switched | _ => Halted end, s).

Definition scheduler_exit (s : sys) : outcome * sys := scheduler_exit_task (current_task s) s.

Definition scheduler_start_threads (s : sys) : outcome * sys :=
  let s := set_threads_started 1 s in
  let s := set_current_task 0 s in
  let s := scheduler_set_running_task (current_task s) s in
  let s := set_bootstrap_context (cpu s) s in
  (Switched, set_cpu (default (cpu s) (t_context <$> task_at s (current_task s))) s).

(** *** Accessors *)

Definition scheduler_current_task (s : sys) : option task := task_at s (current_task s).
Definition scheduler_current_task_mutable (s : sys) : option task :=
  if (current_task s <? 0) || (current_task s >=? task_count s) then None else task_at s (current_task s).
Definition scheduler_get_ticks (s : sys) : Z := scheduler_ticks s.
Definition scheduler_task_count (s : sys) : Z := u64 (task_count s).
Definition scheduler_task_by_pid (pid : Z) (s : sys) : option task :=
  if (pid <? 0) || (pid >=? task_count s) || bool_decide (state_of s pid = TASK_UNUSED) then None else task_at s pid.
End ops.
