(* ===== verification/SchedulerProps.v ===== *)
(** * The scheduler's invariant and properties

    The invariant of the task table over every operation of [scheduler.c], the
    round-robin choice, the effect of a switch, and the life of a user task. *)

From S2P Require Import Prelude BlockDevice Vfs Executable Mmu AddressSpace Task User Scheduler.

(** ** The table *)

Lemma task_at_eq s pid : 0 <= pid -> task_at s pid = tasks s !! Z.to_nat pid.
Proof. intros Hp. unfold task_at. by destruct (Z.ltb_spec pid 0); [lia|]. Qed.

Lemma task_at_upd_eq s pid f : 0 <= pid -> task_at (upd pid f s) pid = f <$> task_at s pid.
Proof. intros Hp. rewrite !task_at_eq by done. apply list_lookup_alter_eq. Qed.

Lemma task_at_upd_ne s pid i f : 0 <= pid -> i <> pid -> task_at (upd pid f s) i = task_at s i.
Proof.
  intros Hp Hi. unfold task_at. destruct (Z.ltb_spec i 0); [done|]. apply list_lookup_alter_ne. lia.
Qed.

Lemma task_at_lookup s i t : task_at s i = Some t -> 0 <= i /\ tasks s !! Z.to_nat i = Some t.
Proof. unfold task_at. destruct (Z.ltb_spec i 0); [done|]. auto. Qed.

Lemma state_of_at s i t : task_at s i = Some t -> state_of s i = t_state t.
Proof. intros Ht. unfold state_of. by rewrite Ht. Qed.

Lemma state_of_used s i : state_of s i <> TASK_UNUSED -> exists t, task_at s i = Some t /\ t_state t = state_of s i.
Proof. unfold state_of. destruct (task_at s i) as [t|]; simpl; [by exists t|done]. Qed.

Lemma runnable_spec st : runnable st = true <-> st = TASK_READY \/ st = TASK_RUNNING.
Proof. destruct st; vm_compute; naive_solver. Qed.

(** ** The invariant *)

(** The table has its eight entries; the count and the current task are in range; live
    entries carry their index; entries past the count are unused; the idle task can
    always run; the current task's entry is not free; only the current task is marked
    running; a task has the kernel's address space or its own. *)
Record sched_inv (s : sys) : Prop := {
  si_len : length (tasks s) = 8%nat;
  si_count : 1 <= task_count s <= SCHED_MAX_TASKS;
  si_current : 0 <= current_task s < task_count s;
  si_pid : forall i t, task_at s i = Some t -> i < task_count s -> t_pid t = i;
  si_tail : forall i, task_count s <= i -> state_of s i = TASK_UNUSED;
  si_idle : runnable (state_of s 0) = true;
  si_used : state_of s (current_task s) <> TASK_UNUSED;
  si_running : forall i, state_of s i = TASK_RUNNING -> i = current_task s;
  si_ptr : forall i t j, task_at s i = Some t -> address_space_ptr (memory t) = AsTask j -> j = i;
}.

(** What identifies a task: its number and its address space. *)
Definition ident (t : task) : Z * as_ptr := (t_pid t, address_space_ptr (memory t)).

(** A change of the state that keeps what the invariant reads of the other parts. *)
Definition same_control (s s' : sys) : Prop :=
  length (tasks s') = length (tasks s) /\ current_task s' = current_task s /\ task_count s' = task_count s /\
  forall i, 0 <= i -> (ident <$> task_at s' i) = (ident <$> task_at s i).

Lemma state_of_neg s i : i < 0 -> state_of s i = TASK_UNUSED.
Proof. intros Hi. unfold state_of, task_at. by destruct (Z.ltb_spec i 0); [|lia]. Qed.

Lemma same_control_task s s' i t : same_control s s' -> task_at s' i = Some t ->
  exists u, task_at s i = Some u /\ t_pid t = t_pid u /\ address_space_ptr (memory t) = address_space_ptr (memory u).
Proof.
  intros (_ & _ & _ & Hp) Ht. destruct (task_at_lookup _ _ _ Ht) as [Hi _]. specialize (Hp i Hi). rewrite Ht in Hp.
  destruct (task_at s i) as [u|]; [|done]. injection Hp as ? ?. by exists u.
Qed.

Lemma sched_inv_same s s' :
  sched_inv s -> same_control s s' -> (forall i, 0 <= i -> state_of s' i = state_of s i) -> sched_inv s'.
Proof.
  intros Hinv Hsame Hs. destruct Hinv as [H1 H2 H3 H4 H5 H6 H7 H8 H9]. pose proof Hsame as (Hl & Hc & Hn & _).
  split; rewrite ?Hl, ?Hc, ?Hn, ?Hs by lia; try done.
  - intros i t Ht Hi. destruct (same_control_task _ _ _ _ Hsame Ht) as (u & Hu & -> & _). by apply H4.
  - intros i Hi. destruct (decide (i < 0)); [by apply state_of_neg|]. rewrite Hs by lia. by apply H5.
  - intros i. destruct (decide (i < 0)); [by rewrite state_of_neg|]. rewrite Hs by lia. apply H8.
  - intros i t j Ht. destruct (same_control_task _ _ _ _ Hsame Ht) as (u & Hu & _ & ->). by apply H9.
Qed.

Lemma same_control_refl s : same_control s s.
Proof. by repeat split. Qed.

Lemma same_control_trans s1 s2 s3 : same_control s1 s2 -> same_control s2 s3 -> same_control s1 s3.
Proof.
  intros (A1 & A2 & A3 & A4) (B1 & B2 & B3 & B4). split_and!; try congruence.
  intros i Hi. rewrite B4, A4 by done. done.
Qed.

Lemma same_control_upd s pid f :
  0 <= pid -> (forall t, ident (f t) = ident t) -> same_control s (upd pid f s).
Proof.
  intros Hp Hf. split_and!; simpl; try done; [by rewrite length_alter|].
  intros i Hi. destruct (decide (i = pid)) as [->|]; [|by rewrite task_at_upd_ne].
  rewrite task_at_upd_eq by done. destruct (task_at s pid); simpl; [by rewrite Hf|done].
Qed.

Lemma state_of_upd s pid f i :
  0 <= pid -> state_of (upd pid f s) i =
  if decide (i = pid) then default TASK_UNUSED ((t_state ∘ f) <$> task_at s pid) else state_of s i.
Proof.
  intros Hp. unfold state_of. destruct (decide (i = pid)) as [->|]; [|by rewrite task_at_upd_ne].
  rewrite task_at_upd_eq by done. by destruct (task_at s pid).
Qed.

(** An update of one live task. *)
Lemma sched_inv_upd s pid f t :
  sched_inv s -> task_at s pid = Some t -> pid < task_count s -> (forall t, ident (f t) = ident t) ->
  (pid = 0 -> runnable (t_state (f t)) = true) ->
  (pid = current_task s -> t_state (f t) <> TASK_UNUSED) ->
  (t_state (f t) = TASK_RUNNING -> pid = current_task s) ->
  sched_inv (upd pid f s).
Proof.
  intros Hinv Ht Hlt Hf H0 Hc Hr. destruct (task_at_lookup _ _ _ Ht) as [Hp _].
  pose proof (same_control_upd s pid f Hp Hf) as Hsame. pose proof Hsame as (Hl & Hcur & Hcnt & _).
  assert (forall i, state_of (upd pid f s) i = if decide (i = pid) then t_state (f t) else state_of s i) as Hs.
  { intros i. rewrite state_of_upd, Ht by done. done. }
  split; rewrite ?Hl, ?Hcur, ?Hcnt, ?Hs; try apply Hinv.
  - intros i u Hu Hi. destruct (same_control_task _ _ _ _ Hsame Hu) as (u' & Hu' & -> & _). by eapply si_pid.
  - intros i Hi. rewrite Hs. destruct (decide (i = pid)); [lia|]. by apply Hinv.
  - case_decide; [auto|apply Hinv].
  - case_decide; [auto|apply Hinv].
  - intros i. rewrite Hs. destruct (decide (i = pid)) as [->|]; [done|apply Hinv].
  - intros i u j Hu. destruct (same_control_task _ _ _ _ Hsame Hu) as (u' & Hu' & _ & ->). by eapply si_ptr.
Qed.

Lemma in_range_task s pid : sched_inv s -> 0 <= pid < task_count s -> exists t, task_at s pid = Some t.
Proof.
  intros Hinv Hp. rewrite task_at_eq by lia. apply lookup_lt_is_Some_2. rewrite (si_len s Hinv).
  pose proof (si_count s Hinv) as Hc. unfold SCHED_MAX_TASKS in Hc. lia.
Qed.

(** ** The round-robin choice *)

Lemma find_first {A} (f : A -> bool) l :
  match List.find f l with
  | Some x => exists k, l !! k = Some x /\ f x = true /\ forall j y, (j < k)%nat -> l !! j = Some y -> f y = false
  | None => forall j y, l !! j = Some y -> f y = false
  end.
Proof.
  induction l as [|x l IH]; simpl; [done|]. destruct (f x) eqn:Hx.
  - exists 0%nat. split_and!; [done|done|lia].
  - destruct (List.find f l) as [y|].
    + destruct IH as (k & Hk & Hy & Hj). exists (S k). split_and!; [done|done|].
      intros [|j] z Hlt; simpl; [by intros [= <-]|]. apply Hj. lia.
    + intros [|j] z; simpl; [by intros [= <-]|]. apply IH.
Qed.

Lemma scheduler_task_is_runnable_at s i : scheduler_task_is_runnable (task_at s i) = runnable (state_of s i).
Proof. unfold state_of. by destruct (task_at s i). Qed.

(** The task [k] places after the current one. *)
Definition after (s : sys) (k : Z) : Z := (current_task s + k) mod task_count s.

Lemma after_cover s i : sched_inv s -> 0 <= i < task_count s -> exists k, 1 <= k <= task_count s /\ after s k = i.
Proof.
  intros Hinv Hi. pose proof (si_current s Hinv) as Hc.
  exists ((i - current_task s - 1) mod task_count s + 1).
  pose proof (Z.mod_pos_bound (i - current_task s - 1) (task_count s) ltac:(lia)). split; [lia|].
  unfold after. replace (current_task s + ((i - current_task s - 1) mod task_count s + 1))
    with ((i - current_task s - 1) mod task_count s + (current_task s + 1)) by lia.
  rewrite Zplus_mod_idemp_l. replace (i - current_task s - 1 + (current_task s + 1)) with i by lia.
  by apply Z.mod_small.
Qed.

Lemma candidates_lookup s j c : sched_inv s ->
  ((fun i => Z.rem (current_task s + i) (task_count s)) <$> seqZ 1 (task_count s)) !! j = Some c ->
  Z.of_nat j < task_count s /\ c = after s (1 + Z.of_nat j).
Proof.
  intros Hinv. rewrite list_lookup_fmap, fmap_Some. intros (i & Hi & ->).
  apply lookup_seqZ in Hi as [-> Hlt]. split; [done|]. unfold after.
  pose proof (si_current s Hinv). apply Z.rem_mod_nonneg; lia.
Qed.

Lemma next_runnable_choice s : sched_inv s ->
  let c := scheduler_next_runnable_task s in
  0 <= c < task_count s /\ runnable (state_of s c) = true /\
  (c = 0 -> forall i, 0 < i < task_count s -> runnable (state_of s i) = false) /\
  (c <> 0 -> exists k, 1 <= k <= task_count s /\ c = after s k /\
     forall j, 1 <= j < k -> after s j = 0 \/ runnable (state_of s (after s j)) = false).
Proof.
  intros Hinv. cbv zeta. unfold scheduler_next_runnable_task. pose proof (si_count s Hinv) as Hcount.
  set (f := fun c => negb (c =? 0) && scheduler_task_is_runnable (task_at s c)).
  assert (forall c, f c = false -> c = 0 \/ runnable (state_of s c) = false) as Hf.
  { intros c. unfold f. rewrite scheduler_task_is_runnable_at. destruct (Z.eqb_spec c 0); [by left|by right]. }
  pose proof (find_first f ((fun i => Z.rem (current_task s + i) (task_count s)) <$> seqZ 1 (task_count s))) as Hfind.
  destruct (List.find f _) as [c|].
  - destruct Hfind as (k & Hk & Hc & Hj). apply candidates_lookup in Hk as [Hlt ->]; [|done].
    unfold f in Hc. rewrite scheduler_task_is_runnable_at in Hc. apply andb_true_iff in Hc as [Hz Hr].
    apply negb_true_iff, Z.eqb_neq in Hz. split_and!; try done; try (apply Z.mod_pos_bound; lia).
    intros _. exists (1 + Z.of_nat k). split_and!; try lia. intros j Hjk.
    apply Hf. eapply (Hj (Z.to_nat (j - 1))); [lia|]. rewrite list_lookup_fmap.
    rewrite (proj2 (lookup_seqZ 1 (task_count s) (Z.to_nat (j - 1)) j)) by lia. simpl. f_equal.
    pose proof (si_current s Hinv). apply Z.rem_mod_nonneg; lia.
  - rewrite scheduler_task_is_runnable_at, (si_idle s Hinv). split_and!; try done; try lia; [apply Hinv|].
    intros _ i Hi. destruct (after_cover s i Hinv) as (k & Hk & <-); [lia|].
    destruct (Hf (after s k)) as [Hz|]; [|lia|done]. eapply (Hfind (Z.to_nat (k - 1))).
    rewrite list_lookup_fmap, (proj2 (lookup_seqZ 1 (task_count s) (Z.to_nat (k - 1)) k)) by lia. simpl. f_equal.
    pose proof (si_current s Hinv). apply Z.rem_mod_nonneg; lia.
Qed.

(** (C34) The round-robin choice: the next task is always a runnable task of the table; it
    is the first runnable task other than idle met when going round the table from the
    one after the current (the current one comes last), and it is idle only when no
    other task can run. *)
Theorem round_robin s : sched_inv s ->
  let c := scheduler_next_runnable_task s in
  0 <= c < task_count s /\ runnable (state_of s c) = true /\
  (c = 0 -> forall i, 0 < i < task_count s -> runnable (state_of s i) = false) /\
  (c <> 0 -> exists k, 1 <= k <= task_count s /\ c = after s k /\
     forall j, 1 <= j < k -> after s j = 0 \/ runnable (state_of s (after s j)) = false).
Proof. apply next_runnable_choice. Qed.

(** ** Waking and switching *)

Lemma task_at_wake s i :
  task_at (scheduler_wake_sleeping_tasks s) i =
  (fun t => if i <? task_count s then wake (scheduler_ticks s) t else t) <$> task_at s i.
Proof.
  unfold task_at. destruct (Z.ltb_spec i 0); [done|]. unfold scheduler_wake_sleeping_tasks. cbn [tasks set_tasks].
  rewrite list_lookup_imap. by rewrite Z2Nat.id.
Qed.

Lemma wake_state ticks t :
  t_state (wake ticks t) = t_state t \/ t_state t = TASK_SLEEPING /\ t_state (wake ticks t) = TASK_READY.
Proof. unfold wake. case_bool_decide; simpl; [|by left]. case_if; [by right|by left]. Qed.

Lemma state_of_wake s i :
  state_of (scheduler_wake_sleeping_tasks s) i = state_of s i \/
  i < task_count s /\ state_of s i = TASK_SLEEPING /\ state_of (scheduler_wake_sleeping_tasks s) i = TASK_READY.
Proof.
  unfold state_of. rewrite task_at_wake. destruct (task_at s i) as [t|]; simpl; [|by left].
  destruct (Z.ltb_spec i (task_count s)); [|by left]. destruct (wake_state (scheduler_ticks s) t) as [->|[? ?]]; [by left|by right].
Qed.

Lemma sched_inv_wake s : sched_inv s -> sched_inv (scheduler_wake_sleeping_tasks s).
Proof.
  intros Hinv. destruct Hinv as [H1 H2 H3 H4 H5 H6 H7 H8 H9].
  split; try done.
  - simpl. by rewrite length_imap.
  - intros i t. rewrite task_at_wake, fmap_Some. intros (u & Hu & ->) Hi. rewrite <- (H4 i u Hu Hi).
    destruct (_ <? _); [|done]. unfold wake. by case_if.
  - intros i Hi. destruct (state_of_wake s i) as [->|(? & _)]; [by apply H5|]. simpl in Hi. lia.
  - destruct (state_of_wake s 0) as [->|(_ & _ & ->)]; done.
  - simpl. destruct (state_of_wake s (current_task s)) as [->|(_ & _ & ->)]; done.
  - intros i. simpl. destruct (state_of_wake s i) as [->|(_ & _ & ->)]; [apply H8|done].
  - intros i t j. rewrite task_at_wake, fmap_Some. intros (u & Hu & ->) Hj. apply (H9 i u j Hu). rewrite <- Hj.
    destruct (_ <? _); [|done]. unfold wake. by case_if.
Qed.

(** Marking the chosen task running when no other is. *)
Lemma sched_inv_run s next :
  sched_inv s -> (forall i, state_of s i <> TASK_RUNNING) -> 0 <= next < task_count s ->
  sched_inv (set_current_task next (scheduler_set_running_task next s)).
Proof.
  intros Hinv Hno Hn. destruct (in_range_task s next Hinv Hn) as [t Ht].
  set (s' := scheduler_set_running_task next s).
  assert (same_control s s') as Hsame by (apply same_control_upd; [lia|done]). pose proof Hsame as (Hl & Hcur & Hcnt & _).
  assert (forall i, state_of (set_current_task next s') i = if decide (i = next) then TASK_RUNNING else state_of s i) as Hs.
  { intros i. change (state_of (set_current_task next s') i) with (state_of s' i). unfold s', scheduler_set_running_task.
    rewrite state_of_upd, Ht by lia. done. }
  split; cbn [tasks current_task task_count set_current_task]; rewrite ?Hl, ?Hcnt; [apply Hinv|apply Hinv|done|..].
  - intros i u Hu Hi. destruct (same_control_task _ _ _ _ Hsame Hu) as (u' & Hu' & -> & _). by eapply si_pid.
  - intros i Hi. rewrite Hs. destruct (decide (i = next)); [lia|]. by apply Hinv.
  - rewrite Hs. case_decide; [done|]. apply Hinv.
  - rewrite Hs. by rewrite decide_True.
  - intros i. rewrite Hs. case_decide; [done|]. intros Hr. by destruct (Hno i).
  - intros i u j Hu. destruct (same_control_task _ _ _ _ Hsame Hu) as (u' & Hu' & _ & ->). by eapply si_ptr.
Qed.

(** Taking the processor from the current task: it becomes ready if it was running. *)
Lemma sched_inv_demote s f :
  sched_inv s -> (forall t, ident (f t) = ident t) -> (forall t, t_state (f t) = TASK_READY) ->
  let s' := if bool_decide (state_of s (current_task s) = TASK_RUNNING) then upd (current_task s) f s else s in
  sched_inv s' /\ (forall i, state_of s' i <> TASK_RUNNING) /\ current_task s' = current_task s /\
  task_count s' = task_count s /\
  (forall i, runnable (state_of s' i) = runnable (state_of s i)) /\
  (forall i, state_of s i <> TASK_RUNNING -> state_of s' i = state_of s i) /\
  (state_of s (current_task s) = TASK_RUNNING -> state_of s' (current_task s) = TASK_READY).
Proof.
  intros Hinv Hp Hst s'. pose proof (si_current s Hinv) as Hc.
  destruct (in_range_task s (current_task s) Hinv Hc) as [t Ht].
  subst s'. case_bool_decide as Hr.
  - assert (forall i, state_of (upd (current_task s) f s) i =
      if decide (i = current_task s) then TASK_READY else state_of s i) as Hs.
    { intros i. rewrite state_of_upd, Ht by lia. simpl. by rewrite Hst. }
    split_and!; try done.
    + eapply sched_inv_upd; [done|done|lia|done|..]; rewrite Hst; done.
    + intros i. rewrite Hs. case_decide; [done|]. intros Hi. by apply (si_running s Hinv) in Hi.
    + intros i. rewrite Hs. case_decide; [|done]. subst i. by rewrite Hr.
    + intros i Hi. rewrite Hs. case_decide; [|done]. by subst i.
    + intros _. rewrite Hs. by rewrite decide_True.
  - split_and!; try done. intros i Hi. pose proof (si_running s Hinv i Hi). by subst i.
Qed.

(** Changes outside the fields of control. *)
Lemma sched_inv_cpu_switch s prev next : sched_inv s -> 0 <= prev -> sched_inv (cpu_switch_to prev next s).
Proof.
  intros Hinv Hp. apply (sched_inv_same (upd prev (set_t_context (cpu s)) s)).
  - eapply (sched_inv_same s); [done|by apply same_control_upd|].
    intros i _. rewrite state_of_upd by done. case_decide; [subst i|done]. unfold state_of. by destruct (task_at s prev).
  - by repeat split.
  - done.
Qed.

Lemma sched_inv_switch_root s root : sched_inv s -> sched_inv (switch_root root s).
Proof. intros Hinv. apply (sched_inv_same s); [done|by repeat split|done]. Qed.

(** ** Yielding *)

(** What a yield does, case by case. *)
Lemma yield_cases s : sched_inv s ->
  let w := scheduler_wake_sleeping_tasks s in
  let next := scheduler_next_runnable_task w in
  let prev := current_task s in
  let r := scheduler_yield s in
  (task_count s < 2 /\ r = (Returned, s)) \/
  (2 <= task_count s /\ next = prev /\ runnable (state_of w prev) = true /\
   r = (Returned, upd prev (set_t_state TASK_RUNNING) w)) \/
  (2 <= task_count s /\ next <> prev /\
   let d := if bool_decide (state_of w prev = TASK_RUNNING) then upd prev (inc_yields ∘ set_t_state TASK_READY) w else w in
   let c := set_current_task next (scheduler_set_running_task next d) in
   let root := user_mode_task_resume_root (task_at c next) c in
   r = (Switched, cpu_switch_to prev next (if truth root then switch_root root c else c))).
Proof.
  intros Hinv. cbv zeta. unfold scheduler_yield. destruct (Z.ltb_spec (task_count s) 2); [by left|right].
  pose proof (sched_inv_wake s Hinv) as Hw.
  destruct (next_runnable_choice _ Hw) as (Hr & Hrun & _).
  destruct (Z.eqb_spec (scheduler_next_runnable_task (scheduler_wake_sleeping_tasks s)) (current_task s)) as [Heq|Hne].
  - left. rewrite Heq in Hrun. rewrite scheduler_task_is_runnable_at, Hrun. done.
  - right. done.
Qed.

Lemma sched_inv_yield s : sched_inv s -> sched_inv (scheduler_yield s).2 /\ (scheduler_yield s).1 <> Halted.
Proof.
  intros Hinv. pose proof (sched_inv_wake s Hinv) as Hw. pose proof (si_current _ Hw) as Hc.
  change (current_task (scheduler_wake_sleeping_tasks s)) with (current_task s) in Hc.
  destruct (yield_cases s Hinv) as [[_ ->]|[(_ & Hn & Hr & ->)|(_ & Hn & ->)]]; [done|..].
  - split; [|done]. destruct (in_range_task _ _ Hw Hc) as [t Ht].
    eapply sched_inv_upd; [done|done|apply Hc|done|..]; done.
  - destruct (next_runnable_choice _ Hw) as (Hrange & Hrun & _).
    destruct (sched_inv_demote _ (inc_yields ∘ set_t_state TASK_READY) Hw) as (Hd & Hno & _ & Hcnt & _); [done|done|].
    cbn [snd fst]. split; [|done]. apply sched_inv_cpu_switch; [|lia].
    apply (sched_inv_run _ (scheduler_next_runnable_task (scheduler_wake_sleeping_tasks s))) in Hd; [|done|rewrite Hcnt; done].
    destruct (truth (user_mode_task_resume_root _ _)); [by apply sched_inv_switch_root|done].
Qed.

(** ** Changes that leave control alone *)

Definition quiet (s s' : sys) : Prop :=
  same_control s s' /\ forall i, 0 <= i -> state_of s' i = state_of s i.

Lemma quiet_refl s : quiet s s.
Proof. by split; [apply same_control_refl|]. Qed.

Lemma quiet_trans s1 s2 s3 : quiet s1 s2 -> quiet s2 s3 -> quiet s1 s3.
Proof.
  intros [A1 A2] [B1 B2]. split; [by eapply same_control_trans|]. intros i Hi. rewrite B2, A2 by done. done.
Qed.

Lemma sched_inv_quiet s s' : sched_inv s -> quiet s s' -> sched_inv s'.
Proof. intros Hinv [Hc Hs]. by eapply sched_inv_same. Qed.

Lemma quiet_upd s pid f :
  0 <= pid -> (forall t, ident (f t) = ident t) -> (forall t, t_state (f t) = t_state t) -> quiet s (upd pid f s).
Proof.
  intros Hp Hf Hs. split; [by apply same_control_upd|]. intros i _. rewrite state_of_upd by done.
  case_decide; [subst i|done]. unfold state_of. destruct (task_at s pid); simpl; [apply Hs|done].
Qed.

Lemma quiet_spaces s st : quiet s (set_spaces st s).
Proof. by repeat split. Qed.

Lemma quiet_put_space p a s : (forall pid, p = AsTask pid -> 0 <= pid) -> quiet s (put_space p a s).
Proof.
  intros Hp. destruct p, a; simpl; try apply quiet_refl; try apply quiet_spaces. apply quiet_upd; eauto.
Qed.

Lemma space_ptr_own s i j : sched_inv s -> space_ptr s i = AsTask j -> j = i /\ 0 <= j.
Proof.
  intros Hp. unfold space_ptr. destruct (task_at s i) as [t|] eqn:Ht; simpl; [|done].
  intros Hj. rewrite (si_ptr s Hp i t j Ht Hj). by destruct (task_at_lookup _ _ _ Ht).
Qed.

Lemma quiet_switch_stub s p : (forall pid, p = AsTask pid -> 0 <= pid) -> quiet s (switch_stub p s).2.
Proof. intros Hp. unfold switch_stub. destruct (address_space_switch_stub (space_at p s)) as [st a]. by apply quiet_put_space. Qed.

Lemma quiet_destroy s p : (forall pid, p = AsTask pid -> 0 <= pid) -> quiet s (destroy_space p s).
Proof.
  intros Hp. unfold destroy_space. destruct (address_space_destroy_user (space_at p s) (spaces s)) as [a st].
  eapply quiet_trans; [apply (quiet_spaces s st)|by apply quiet_put_space].
Qed.

Lemma quiet_write_data s pid off d n : quiet s (write_data pid off d n s).2.
Proof. unfold write_data. destruct (address_space_write_user_data _ _ _ _ _). apply quiet_spaces. Qed.

Lemma quiet_copy_words argc pid cur a argv lens s : quiet s (copy_words argc pid cur a argv lens s).2.
Proof.
  revert cur a argv lens s. induction argc as [|argc IH]; intros cur a argv lens s; simpl; [apply quiet_refl|].
  destruct (split_word (skip_spaces a)) as [w rest]. pose proof (quiet_write_data s pid cur w (Z.of_nat (length w))) as Hq.
  destruct (write_data pid cur w _ s) as [ok s1]. case_if; [done|].
  eapply quiet_trans; [exact Hq|]. eapply quiet_trans; [apply (quiet_write_data s1)|apply IH].
Qed.

(** ** Entries added and removed *)

(** The table with an entry [pid] that has been taken and not yet filled. *)
Record hole (pid : Z) (s : sys) : Prop := {
  ho_len : length (tasks s) = 8%nat;
  ho_count : 1 <= task_count s <= SCHED_MAX_TASKS;
  ho_current : 0 <= current_task s < task_count s;
  ho_pid : forall i t, task_at s i = Some t -> i < task_count s -> i <> pid \/ i <> task_count s - 1 -> t_pid t = i;
  ho_tail : forall i, task_count s <= i -> state_of s i = TASK_UNUSED;
  ho_idle : runnable (state_of s 0) = true;
  ho_used : state_of s (current_task s) <> TASK_UNUSED;
  ho_running : forall i, state_of s i = TASK_RUNNING -> i = current_task s;
  ho_range : 0 < pid < task_count s;
  ho_free : state_of s pid = TASK_UNUSED;
  ho_ptr : forall i t j, task_at s i = Some t -> address_space_ptr (memory t) = AsTask j -> j = i;
}.

Lemma take_slot_hole s pid s' : sched_inv s -> take_slot s = Some (pid, s') ->
  hole pid s' /\ tasks s' = tasks s /\ spaces s' = spaces s.
Proof.
  intros Hinv. unfold take_slot.
  pose proof (find_first (fun i => bool_decide (state_of s i = TASK_UNUSED)) (seqZ 1 (task_count s - 1))) as Hf.
  destruct (List.find _ _) as [i|].
  - intros [= <- <-]. destruct Hf as (k & Hk & Hst & _). apply lookup_seqZ in Hk as [-> Hlt].
    apply bool_decide_eq_true in Hst. destruct Hinv as [H1 H2 H3 H4 H5 H6 H7 H8 H9].
    split; [|done]. split; try done; [by intros; apply H4|lia].
  - rewrite Z.geb_leb. destruct (Z.leb_spec SCHED_MAX_TASKS (task_count s)); [done|]. intros [= <- <-].
    destruct Hinv as [H1 H2 H3 H4 H5 H6 H7 H8 H9]. split; [|done]. split; cbn [tasks task_count current_task set_task_count]; try done; try lia.
    + intros i t Ht Hi Hn. apply H4; [done|lia].
    + intros i Hi. apply H5. lia.
    + by apply H5.
Qed.

Lemma hole_quiet pid s s' : hole pid s -> quiet s s' -> hole pid s'.
Proof.
  intros [H1 H2 H3 H4 H5 H6 H7 H8 H9 H10 H11] [Hsame Hs]. pose proof Hsame as (Hl & Hc & Hn & _).
  split; rewrite ?Hl, ?Hc, ?Hn, ?Hs by lia; try done.
  - intros i t Ht Hi. destruct (same_control_task _ _ _ _ Hsame Ht) as (u & Hu & -> & _). by apply H4.
  - intros i Hi. destruct (decide (i < 0)); [by apply state_of_neg|]. rewrite Hs by lia. by apply H5.
  - intros i. destruct (decide (i < 0)); [by rewrite state_of_neg|]. rewrite Hs by lia. apply H8.
  - intros i t j Ht. destruct (same_control_task _ _ _ _ Hsame Ht) as (u & Hu & _ & ->). by apply H11.
Qed.

Lemma hole_fill pid s f : hole pid s ->
  (forall t, t_pid (f t) = pid) -> (forall t, t_state (f t) <> TASK_RUNNING) ->
  (forall t j, address_space_ptr (memory (f t)) = AsTask j -> j = pid) -> sched_inv (upd pid f s).
Proof.
  intros [H1 H2 H3 H4 H5 H6 H7 H8 H9 H10 H11] Hf Hr Hj.
  assert (pid <> current_task s) as Hcur by (intros ->; done).
  assert (forall i, i <> pid -> state_of (upd pid f s) i = state_of s i) as Hs.
  { intros i Hi. rewrite state_of_upd by lia. by rewrite decide_False. }
  split; cbn [current_task task_count upd set_tasks]; try done.
  - simpl. by rewrite length_alter.
  - intros i t Ht Hi. destruct (decide (i = pid)) as [->|Hne].
    + rewrite task_at_upd_eq in Ht by lia. apply fmap_Some in Ht as (u & _ & ->). apply Hf.
    + rewrite task_at_upd_ne in Ht by lia. apply H4; auto.
  - intros i Hi. rewrite Hs by lia. by apply H5.
  - by rewrite Hs by lia.
  - by rewrite Hs.
  - intros i. destruct (decide (i = pid)) as [->|Hne]; [|rewrite Hs by done; apply H8].
    rewrite state_of_upd, decide_True by lia. destruct (task_at s pid) as [t|]; simpl; [|done]. intros Hx. by destruct (Hr t).
  - intros i t j Ht. destruct (decide (i = pid)) as [->|Hne].
    + rewrite task_at_upd_eq in Ht by lia. apply fmap_Some in Ht as (u & _ & ->). apply Hj.
    + rewrite task_at_upd_ne in Ht by lia. by apply H11.
Qed.

Lemma sched_inv_hole pid s : sched_inv s -> 0 < pid < task_count s -> state_of s pid = TASK_UNUSED -> hole pid s.
Proof. intros [H1 H2 H3 H4 H5 H6 H7 H8 H9] Hp Hf. split; try done. intros i t Ht Hi _. by apply H4. Qed.

Lemma upd_compose pid f g s : upd pid (f ∘ g) s = upd pid f (upd pid g s).
Proof.
  unfold upd. cbn [tasks set_tasks]. change (set_tasks ?a (set_tasks ?b s)) with (set_tasks a s). f_equal.
  generalize (Z.to_nat pid). induction (tasks s) as [|t l IH]; intros [|n]; simpl; try done. f_equal. apply IH.
Qed.

Lemma hole_drop pid s : hole pid s ->
  sched_inv (if pid =? task_count s - 1 then set_task_count (task_count s - 1) s else s).
Proof.
  intros [H1 H2 H3 H4 H5 H6 H7 H8 H9 H10 H11]. assert (pid <> current_task s) as Hcur by (intros ->; done).
  destruct (Z.eqb_spec pid (task_count s - 1)) as [Heq|Hne].
  - split; cbn [tasks current_task task_count set_task_count]; try done; try lia.
    + intros i t Ht Hi. apply H4; [done|lia|lia].
    + intros i Hi. destruct (decide (i = pid)) as [->|]; [done|]. apply H5. lia.
  - split; try done. intros i t Ht Hi. apply H4; [done|done|]. lia.
Qed.

Lemma sched_inv_drop_last s : sched_inv s -> 1 < task_count s -> state_of s (task_count s - 1) = TASK_UNUSED ->
  sched_inv (set_task_count (task_count s - 1) s).
Proof.
  intros [H1 H2 H3 H4 H5 H6 H7 H8 H9] Hc Hu. assert (current_task s <> task_count s - 1) by congruence.
  split; cbn [tasks current_task task_count set_task_count]; try done; try lia.
  - intros i t Ht Hi. apply H4; [done|lia].
  - intros i Hi. destruct (decide (i = task_count s - 1)) as [->|]; [done|]. apply H5. lia.
Qed.

Lemma sched_inv_trim s : sched_inv s -> sched_inv (scheduler_trim_unused_tail s).
Proof.
  unfold scheduler_trim_unused_tail. generalize (Z.to_nat (task_count s)) as fuel. intros fuel.
  revert s. induction fuel as [|fuel IH]; intros s Hinv; simpl; [done|]. rewrite Z.gtb_ltb.
  destruct (Z.ltb_spec 1 (task_count s)); [|done]. case_bool_decide; [|done]. by apply IH, sched_inv_drop_last.
Qed.

(** ** Every operation keeps the invariant *)

Section ops.
Context `{CodeLayout} `{AsLayout} (kernel_table : Z -> list Z).
Context {B : Type} `{BlockDevice B}.

Lemma state_of_quiet s s' i : quiet s s' -> state_of s' i = state_of s i.
Proof. intros [_ Hs]. destruct (decide (i < 0)); [by rewrite !state_of_neg|]. apply Hs. lia. Qed.

Lemma quiet_init_el0 s pid : 0 <= pid -> quiet s (scheduler_init_task_el0 pid s).
Proof. intros Hp. by apply quiet_upd. Qed.

Lemma sched_inv_add nm entry s : sched_inv s -> sched_inv (scheduler_add_task nm entry s).2.
Proof.
  intros Hinv. unfold scheduler_add_task. destruct (take_slot s) as [[pid s1]|] eqn:Ht; [|done].
  destruct (take_slot_hole s pid s1 Hinv Ht) as (Hh & _). pose proof (ho_range pid s1 Hh) as Hr. cbn [snd].
  assert (sched_inv (scheduler_init_task_el0 pid (upd pid (fresh_task pid nm TASK_READY entry) s1))) as Hi.
  { eapply sched_inv_quiet; [|apply quiet_init_el0; lia]. by apply hole_fill. }
  destruct (truth entry); [|done]. eapply sched_inv_quiet; [exact Hi|]. apply quiet_upd; [lia|done|done].
Qed.

Lemma sched_inv_abandon pid s : sched_inv s -> 0 < pid < task_count s -> pid <> current_task s ->
  sched_inv (abandon_task pid s).2.
Proof.
  intros Hinv Hp Hc. unfold abandon_task. cbn [snd].
  assert (sched_inv (destroy_space (AsTask pid) s)) as Hd.
  { eapply sched_inv_quiet; [done|]. apply quiet_destroy. intros ? [= <-]. lia. }
  assert (quiet s (destroy_space (AsTask pid) s)) as [(_ & Hc' & Hn' & _) _] by (apply quiet_destroy; intros ? [= <-]; lia).
  destruct (in_range_task _ pid Hd) as [t Ht]; [lia|].
  assert (sched_inv (upd pid (set_t_state TASK_UNUSED) (destroy_space (AsTask pid) s))) as Hu.
  { eapply sched_inv_upd; [done|done|lia|done|..]; simpl; try done; lia. }
  set (s2 := upd pid (set_t_state TASK_UNUSED) (destroy_space (AsTask pid) s)) in *.
  destruct (Z.eqb_spec pid (task_count s2 - 1)) as [Heq|]; [|done]. apply sched_inv_drop_last; [done|lia|].
  rewrite <- Heq. unfold s2. rewrite state_of_upd, decide_True, Ht by lia. done.
Qed.

Lemma sched_inv_setup nm image a argc base off s : sched_inv s -> sched_inv (setup_user_task kernel_table nm image a argc base off s).2.
Proof.
  intros Hinv. unfold setup_user_task. destruct (take_slot s) as [[pid s1]|] eqn:Ht; [|done].
  destruct (take_slot_hole s pid s1 Hinv Ht) as (Hh & _). pose proof (ho_range pid s1 Hh) as Hr.
  pose proof (ho_count pid s1 Hh) as Hcnt.
  destruct (Z.geb_spec pid SCHED_MAX_TASKS); [lia|].
  destruct (address_space_init_user _ _ _ _) as [space st]. set (s2 := put_space (AsTask pid) (Some space) (set_spaces st s1)).
  destruct (address_space_load_user_image _ _ _ _ _ _ _) as [[ok space'] st']. set (s3 := put_space (AsTask pid) space' (set_spaces st' s2)).
  assert (hole pid s3) as Hh3.
  { do 2 (eapply hole_quiet; [|apply quiet_put_space; intros ? [= <-]; lia]; eapply hole_quiet; [|apply quiet_spaces]). done. }
  destruct (truth ok); cbn [negb].
  2: { cbn [snd]. eapply hole_quiet in Hh3; [by apply hole_drop|]. apply quiet_destroy. intros ? [= <-]. lia. }
  set (s4 := upd pid _ s3). assert (sched_inv s4) as H4 by (apply hole_fill; simpl; congruence || done).
  assert (pid <> current_task s3) as Hcur3 by (intros Heq; apply (ho_used _ _ Hh3); rewrite <- Heq; apply (ho_free _ _ Hh3)).
  pose proof (ho_range _ _ Hh3) as Hr3.
  assert (forall s', quiet s4 s' -> sched_inv s' /\ sched_inv (abandon_task pid s').2) as Hq.
  { intros s' Hq. pose proof (sched_inv_quiet _ _ H4 Hq) as Hi. split; [done|].
    destruct Hq as [(_ & Hc & Hn & _) _]. apply sched_inv_abandon; [done|rewrite Hn; done|by rewrite Hc]. }
  pose proof (quiet_copy_words (Z.to_nat argc) pid off a [] [] s4) as Q5.
  destruct (copy_words (Z.to_nat argc) pid off a [] [] s4) as [[[okw argv] lens] s5]. cbn [snd] in Q5.
  destruct okw; cbn [negb]; [|by apply Hq]. set (s6 := upd pid _ s5).
  assert (quiet s4 s6) as Q6 by (eapply quiet_trans; [exact Q5|apply quiet_upd; [lia|done|done]]).
  pose proof (quiet_write_data s6 pid base (word_array argv) 64) as Q7. destruct (write_data _ _ _ _ s6) as [ok7 s7].
  assert (quiet s4 s7) as Q7' by (eapply quiet_trans; [exact Q6|exact Q7]).
  destruct (truth ok7); cbn [negb]; [|by apply Hq].
  pose proof (quiet_write_data s7 pid (base +! 64) (word_array lens) 64) as Q8. destruct (write_data _ _ _ _ s7) as [ok8 s8].
  assert (quiet s4 s8) as Q8' by (eapply quiet_trans; [exact Q7'|exact Q8]).
  destruct (truth ok8); cbn [negb]; [|by apply Hq].
  apply Hq. eapply quiet_trans; [exact Q8'|]. apply quiet_init_el0. lia.
Qed.

Lemma sched_inv_create nm file a s : sched_inv s -> sched_inv (create_user_task kernel_table nm file a s).2.
Proof.
  intros Hinv. unfold create_user_task. destruct file as [[file sz]|]; [|done].
  destruct (saturn_exec_parse _ _ _); [|done]. destruct (argument_length_loop _ _); [|done].
  destruct (argc_loop _ _ _); [|done]. cbv zeta. case_if; [done|]. by apply sched_inv_setup.
Qed.

Lemma sched_inv_clear pid s : sched_inv s -> 0 < pid < task_count s -> pid <> current_task s ->
  sched_inv (scheduler_clear_task_slot pid s) /\ current_task (scheduler_clear_task_slot pid s) = current_task s /\
  task_count (scheduler_clear_task_slot pid s) = task_count s /\
  (forall i, state_of (scheduler_clear_task_slot pid s) i = if decide (i = pid) then TASK_UNUSED else state_of s i).
Proof.
  intros Hinv Hp Hc. unfold scheduler_clear_task_slot.
  assert (quiet s (destroy_space (space_ptr s pid) s)) as Hq.
  { apply quiet_destroy. intros j Hj. apply (space_ptr_own s pid j Hinv Hj). }
  pose proof (sched_inv_quiet _ _ Hinv Hq) as Hd. pose proof Hq as [(_ & Hcur & Hcnt & _) _].
  set (d := destroy_space (space_ptr s pid) s) in *.
  destruct (in_range_task d pid Hd) as [t Ht]; [lia|].
  set (f := fun t : task => _). assert (forall i, state_of (upd pid f d) i = if decide (i = pid) then TASK_UNUSED else state_of s i) as Hs.
  { intros i. rewrite state_of_upd, Ht by lia. case_decide; [done|]. by apply state_of_quiet. }
  split_and!; [|done|done|exact Hs].
  change (upd pid f d) with (upd pid (f ∘ set_t_state TASK_UNUSED) d). rewrite upd_compose.
  apply hole_fill; [|done|done|done]. apply sched_inv_hole; cbn [current_task task_count upd set_tasks]; [|lia|].
  - eapply sched_inv_upd; [done|done|lia|done|..]; simpl; try done; lia.
  - rewrite state_of_upd, decide_True, Ht by lia. done.
Qed.

Lemma trim_facts s : current_task (scheduler_trim_unused_tail s) = current_task s /\
  tasks (scheduler_trim_unused_tail s) = tasks s /\ spaces (scheduler_trim_unused_tail s) = spaces s.
Proof.
  unfold scheduler_trim_unused_tail. generalize (Z.to_nat (task_count s)) as fuel. intros fuel. revert s.
  induction fuel as [|fuel IH]; intros s; simpl; [done|]. case_if; [|done]. apply (IH (set_task_count (task_count s - 1) s)).
Qed.

Lemma sched_inv_reap pid s : sched_inv s -> sched_inv (scheduler_reap_zombie_task pid s).2.
Proof.
  intros Hinv. unfold scheduler_reap_zombie_task. destruct (Z.ltb_spec pid 0); [done|].
  destruct (Z.geb_spec pid (task_count s)); [done|]. destruct (Z.eqb_spec pid 0); [done|].
  destruct (Z.eqb_spec pid (current_task s)); [done|]. simpl. case_if; [done|].
  apply sched_inv_trim, sched_inv_clear; [done|lia|done].
Qed.

Lemma sched_inv_reap_all s : sched_inv s -> sched_inv (scheduler_reap_zombies s).2.
Proof.
  intros Hinv. unfold scheduler_reap_zombies.
  assert (forall l acc, Forall (fun i => 0 < i < task_count acc.2) l -> sched_inv acc.2 -> sched_inv (foldl reap_step acc l).2) as Hl.
  { induction l as [|i l IH]; intros [n t] Hf Ht; simpl; [done|]. apply Forall_cons in Hf as [Hi Hf]. simpl in *.
    destruct (Z.eqb_spec i (current_task t)); simpl; [by apply IH|]. case_bool_decide; [|by apply IH].
    destruct (sched_inv_clear i t) as (Hc & _ & Hn & _); [done|done|done|]. apply IH; cbn [snd]; [|done]. eapply Forall_impl; [exact Hf|]. intros j Hj. by rewrite Hn. }
  specialize (Hl (seqZ 1 (task_count s - 1)) (0, s)). destruct (foldl reap_step (0, s) _) as [n t]. simpl in *.
  apply sched_inv_trim, Hl; [|done]. apply Forall_forall. intros i Hi%elem_of_seqZ. lia.
Qed.

Lemma find_zombie_child_range s : sched_inv s -> (find_zombie_child s).2 <> 0 -> 0 < (find_zombie_child s).2 < task_count s.
Proof.
  intros Hinv. unfold find_zombie_child.
  pose proof (find_first (fun i => bool_decide (state_of s i = TASK_ZOMBIE))
    (filter (fun i => is_child s i = true) (seqZ 1 (task_count s - 1)))) as Hf.
  destruct (List.find _ _) as [i|]; simpl; [|done]. intros _. destruct Hf as (k & Hk & _).
  apply list_elem_of_lookup_2, list_elem_of_filter in Hk as [_ Hk%elem_of_seqZ]. lia.
Qed.

Lemma sched_inv_wait pid status s : sched_inv s -> state_of s (current_task s) <> TASK_ZOMBIE ->
  sched_inv (scheduler_wait_task_status pid status s).2.
Proof.
  intros Hinv Hz. unfold scheduler_wait_task_status. case_if; [done|]. apply orb_false_iff in E as [E Ec].
  apply orb_false_iff in E as [E Eg]. apply orb_false_iff in E as [_ El]. rewrite Z.geb_leb in Eg.
  destruct (if pid =? 0 then find_zombie_child s else (true, pid)) as [owned p] eqn:Ep.
  destruct (Z.eqb_spec p 0); [done|].
  assert (0 < p < task_count s) as Hp.
  { destruct (Z.eqb_spec pid 0).
    - pose proof (find_zombie_child_range s Hinv) as Hf. rewrite Ep in Hf. by apply Hf.
    - injection Ep as <- <-. apply Z.leb_gt in Eg. apply Z.ltb_ge in El. lia. }
  destruct (space_at (space_ptr s p) s); [|done]. case_if; [done|]. destruct (bool_decide_reflect (state_of s p = TASK_ZOMBIE)) as [Hs|]; simpl; [|done].
  apply sched_inv_trim, sched_inv_clear; [done|done|]. intros ->. done.
Qed.

Lemma state_upd_inv s pid f : sched_inv s -> 0 <= pid < task_count s -> (forall t, ident (f t) = ident t) ->
  (pid = 0 -> forall t, runnable (t_state (f t)) = true) -> (forall t, t_state (f t) <> TASK_UNUSED) ->
  ((forall t, t_state (f t) <> TASK_RUNNING) \/ pid = current_task s) -> sched_inv (upd pid f s).
Proof.
  intros Hinv Hp Hf Hidle Hu Hr. destruct (in_range_task s pid Hinv Hp) as [t Ht].
  eapply sched_inv_upd; [done|done|lia|done|auto|auto|]. intros Hrun. destruct Hr as [Hr|]; [|done]. by destruct (Hr t).
Qed.

Lemma sched_inv_block pid s : sched_inv s -> sched_inv (scheduler_block_task pid s).2.
Proof.
  intros Hinv. unfold scheduler_block_task. destruct (Z.ltb_spec pid 0); [done|].
  destruct (Z.geb_spec pid (task_count s)); [done|]. destruct (Z.eqb_spec pid 0); [done|].
  destruct (Z.eqb_spec pid (current_task s)); [done|]. simpl. case_if; [done|]. case_if; [done|].
  apply state_upd_inv; [done|lia|done|done|done|by left].
Qed.

Lemma sched_inv_unblock pid s : sched_inv s -> sched_inv (scheduler_unblock_task pid s).2.
Proof.
  intros Hinv. unfold scheduler_unblock_task. destruct (Z.ltb_spec pid 0); [done|].
  destruct (Z.geb_spec pid (task_count s)); [done|]. destruct (Z.eqb_spec pid 0); [done|].
  simpl. case_if; [done|]. case_if; [done|]. apply state_upd_inv; [done|lia|done|done|done|by left].
Qed.

Lemma sched_inv_unblock_user pid s : sched_inv s -> sched_inv (scheduler_unblock_user_task pid s).2.
Proof.
  intros Hinv. unfold scheduler_unblock_user_task. destruct (Z.ltb_spec pid 0); [done|].
  destruct (Z.geb_spec pid (task_count s)); [done|]. cbn [orb]. case_if; [done|]. case_if; [done|].
  assert (quiet s (switch_stub (space_ptr s pid) s).2) as Hq.
  { apply quiet_switch_stub. intros j Hj. apply (space_ptr_own s pid j Hinv Hj). }
  destruct (switch_stub (space_ptr s pid) s) as [st s1]. cbn [snd] in Hq. pose proof (sched_inv_quiet _ _ Hinv Hq) as H1'.
  case_if; [done|]. destruct Hq as [(_ & _ & Hn & _) _]. apply state_upd_inv; [done|lia|done|done|done|by left].
Qed.

Lemma sched_inv_parent pid p s : sched_inv s -> sched_inv (scheduler_set_task_parent pid p s).2.
Proof.
  intros Hinv. unfold scheduler_set_task_parent. destruct (Z.leb_spec pid 0); [done|].
  case_if; [done|]. eapply sched_inv_quiet; [done|]. apply quiet_upd; [lia|done|done].
Qed.

Lemma sched_inv_terminate pid code s : sched_inv s -> sched_inv (scheduler_terminate_child pid code s).2.
Proof.
  intros Hinv. unfold scheduler_terminate_child. destruct (Z.leb_spec pid 0); [done|].
  destruct (Z.geb_spec pid (task_count s)); [done|]. destruct (Z.eqb_spec pid (current_task s)); [done|].
  cbn [orb]. case_if; [done|]. apply state_upd_inv; [done|lia|done|lia|done|by left].
Qed.

Lemma quiet_upd_any s pid f :
  (forall t, ident (f t) = ident t) -> (forall t, t_state (f t) = t_state t) -> quiet s (upd pid f s).
Proof.
  intros Hf Hs. replace (upd pid f s) with (upd (Z.max 0 pid) f s) by (unfold upd; do 2 f_equal; lia).
  apply quiet_upd; [lia|done|done].
Qed.

Lemma quiet_upd_session f s : quiet s (upd_session f s).
Proof. by repeat split. Qed.

Lemma quiet_session_task f s :
  (forall t, ident (f t) = ident t) -> (forall t, t_state (f t) = t_state t) -> quiet s (upd_session_task f s).
Proof. intros Hf Hs. unfold upd_session_task. destruct (session_task _); [by apply quiet_upd_any|apply quiet_refl]. Qed.

Lemma quiet_switch_root r s : quiet s (switch_root r s).
Proof. by repeat split. Qed.

Lemma quiet_reject reason s : quiet s (user_session_reject reason s).2.
Proof.
  unfold user_session_reject. cbn [snd]. eapply quiet_trans; [|apply quiet_upd_session].
  eapply quiet_trans; [|by apply quiet_session_task]. eapply quiet_trans; [|apply quiet_upd_session].
  case_if; [apply quiet_switch_root|apply quiet_refl].
Qed.

Lemma quiet_exception esr elr far spsr s : quiet s (user_mode_handle_exception esr elr far spsr s).2.
Proof.
  unfold user_mode_handle_exception. cbv zeta. case_if; [apply quiet_refl|]. do 3 (case_if; [apply quiet_reject|]).
  cbn [snd]. eapply quiet_trans; [apply quiet_switch_root|].
  eapply quiet_trans; [by apply (quiet_session_task (inc_rejects ∘ inc_traps))|].
  eapply quiet_trans; [apply quiet_upd_session|]. by repeat split.
Qed.

Lemma quiet_exit_syscall code s : quiet s (user_mode_handle_exit_syscall code s).2.
Proof.
  unfold user_mode_handle_exit_syscall. cbv zeta. case_if; [apply quiet_refl|]. cbn [snd].
  eapply quiet_trans; [|by repeat split]. eapply quiet_trans; [|apply quiet_upd_session].
  eapply quiet_trans; [|by apply quiet_session_task]. case_if; [apply quiet_switch_root|apply quiet_refl].
Qed.

Lemma quiet_run_task pid s : sched_inv s -> quiet s (user_mode_run_task pid s).2.
Proof.
  intros Hinv. unfold user_mode_run_task. case_if; [apply quiet_refl|]. case_if; [apply quiet_refl|].
  destruct (space_at (space_ptr s pid) s); [|apply quiet_refl].
  assert (quiet s (switch_stub (space_ptr s pid) s).2) as Hq.
  { apply quiet_switch_stub. intros j Hj. apply (space_ptr_own s pid j Hinv Hj). }
  destruct (switch_stub (space_ptr s pid) s) as [st s1]. cbn [snd] in Hq. case_if; [done|]. cbn [snd].
  eapply quiet_trans; [exact Hq|]. eapply quiet_trans; [|by apply quiet_upd_any].
  eapply quiet_trans; [|apply quiet_switch_root]. apply quiet_upd_session.
Qed.

Lemma quiet_run_return pid s : quiet s (user_mode_run_task_return pid s).2.
Proof.
  unfold user_mode_run_task_return. case_if; cbn [snd].
  - eapply quiet_trans; [|apply quiet_upd_session]. by apply quiet_upd_any.
  - eapply quiet_trans; [|apply quiet_switch_root]. apply quiet_upd_session.
Qed.

Lemma sched_inv_run_end pid status s : sched_inv s -> 0 < pid < task_count s -> sched_inv (run_user_task_end pid status s).2.
Proof.
  intros Hinv Hp. unfold run_user_task_end. case_if; apply state_upd_inv; first [done|lia|by left].
Qed.

Lemma sched_inv_run_user pid s : sched_inv s -> pid <> 0 -> sched_inv (scheduler_run_user_task pid s).2.
Proof.
  intros Hinv Hp. unfold scheduler_run_user_task. destruct (Z.ltb_spec pid 0); [done|].
  destruct (Z.geb_spec pid (task_count s)); [done|]. cbn [orb]. case_if; [done|].
  pose proof (quiet_run_task pid s Hinv) as Hq. destruct (user_mode_run_task pid s) as [status s1]. cbn [snd] in Hq.
  pose proof (sched_inv_quiet _ _ Hinv Hq) as Hi. destruct Hq as [(_ & _ & Hn & _) _]. destruct status as [status|]; [|done].
  pose proof (sched_inv_run_end pid status s1 Hi) as He. destruct (run_user_task_end pid status s1). apply He. lia.
Qed.

Lemma sched_inv_run_return pid s : sched_inv s -> 0 < pid < task_count s -> sched_inv (scheduler_run_user_task_return pid s).2.
Proof.
  intros Hinv Hp. unfold scheduler_run_user_task_return. pose proof (quiet_run_return pid s) as Hq.
  destruct (user_mode_run_task_return pid s) as [status s1]. cbn [snd] in Hq.
  pose proof (sched_inv_quiet _ _ Hinv Hq) as Hi. destruct Hq as [(_ & _ & Hn & _) _]. apply sched_inv_run_end; [done|lia].
Qed.

Lemma sched_inv_sleep iv ms s : sched_inv s -> sched_inv (scheduler_sleep_ms iv ms s).2.
Proof.
  intros Hinv. unfold scheduler_sleep_ms. cbv zeta. pose proof (si_current s Hinv) as Hc.
  destruct (truth (threads_started s)); cbn [negb orb]; [|done].
  destruct (Z.eqb_spec (current_task s) 0); cbn [orb]; [done|]. case_if; [done|].
  apply sched_inv_yield, state_upd_inv; try done. by left.
Qed.

Lemma sched_inv_ticks n s : sched_inv s -> sched_inv (set_scheduler_ticks n s).
Proof. intros Hinv. apply (sched_inv_quiet s); [done|]. by repeat split. Qed.

Lemma sched_inv_preempt s : sched_inv s -> sched_inv (scheduler_preempt s).2 /\ (scheduler_preempt s).1 <> Halted.
Proof.
  intros Hinv. unfold scheduler_preempt. cbv zeta. case_if; [done|].
  set (w := scheduler_wake_sleeping_tasks _). assert (sched_inv w) as Hw by (apply sched_inv_wake, sched_inv_ticks, Hinv).
  set (u := upd (current_task w) inc_run_ticks w).
  assert (sched_inv u) as Hu by (eapply sched_inv_quiet; [exact Hw|by apply quiet_upd_any]).
  destruct (next_runnable_choice u Hu) as (Hr & _). change (current_task w) with (current_task u).
  case_if; [done|]. destruct (sched_inv_demote u (set_t_state TASK_READY) Hu) as (Hd & Hno & Hcur & Hcnt & _); [done|done|].
  set (d := if bool_decide _ then _ else u) in *. cbn [fst snd]. split; [|done]. pose proof (si_current u Hu).
  apply sched_inv_cpu_switch; [|lia].
  assert (quiet d (upd (current_task u) inc_preemptions d)) as Hq by (by apply quiet_upd_any).
  apply sched_inv_run; [by apply (sched_inv_quiet d)| |].
  - intros i. rewrite (state_of_quiet _ _ _ Hq). apply Hno.
  - destruct Hq as [(_ & _ & -> & _) _]. by rewrite Hcnt.
Qed.

Lemma sched_inv_tick s : sched_inv s -> sched_inv (scheduler_tick s).
Proof.
  intros Hinv. unfold scheduler_tick. cbv zeta.
  set (w := scheduler_wake_sleeping_tasks _). assert (sched_inv w) as Hw by (apply sched_inv_wake, sched_inv_ticks, Hinv).
  set (u := upd (current_task s) inc_run_ticks w).
  assert (sched_inv u) as Hu by (eapply sched_inv_quiet; [exact Hw|by apply quiet_upd_any]).
  case_if; [done|]. destruct (sched_inv_demote u (set_t_state TASK_READY) Hu) as (Hd & Hno & Hcur & Hcnt & _); [done|done|].
  set (d := if bool_decide _ then _ else u) in *. destruct (next_runnable_choice d Hd) as (Hr & _).
  set (next := scheduler_next_runnable_task d) in *.
  assert (quiet d (upd (current_task s) inc_preemptions d)) as Hq by (by apply quiet_upd_any).
  change (sched_inv (set_current_task next (scheduler_set_running_task next (upd (current_task s) inc_preemptions d)))).
  apply sched_inv_run; [by apply (sched_inv_quiet d)| |].
  - intros i. rewrite (state_of_quiet _ _ _ Hq). apply Hno.
  - destruct Hq as [(_ & _ & -> & _) _]. done.
Qed.

Lemma quiet_orphan p s : quiet s (orphan p s).
Proof.
  assert (forall i, task_at (orphan p s) i = (fun t => if (1 <=? i) && (i <? task_count s) && (parent_pid t =? p)
    then set_parent_pid (-1) t else t) <$> task_at s i) as Ht.
  { intros i. unfold task_at. destruct (Z.ltb_spec i 0); [done|]. unfold orphan. cbn [tasks set_tasks].
    rewrite list_lookup_imap. by rewrite Z2Nat.id. }
  split; [split_and!; try done|].
  - simpl. apply length_imap.
  - intros i Hi. rewrite Ht. destruct (task_at s i); simpl; [|done]. by case_if.
  - intros i Hi. unfold state_of. rewrite Ht. destruct (task_at s i); simpl; [|done]. by case_if.
Qed.

Lemma sched_inv_exit s : sched_inv s -> current_task s <> 0 -> 2 <= task_count s ->
  sched_inv (scheduler_exit s).2 /\ (scheduler_exit s).1 = Switched.
Proof.
  intros Hinv Hc Hn. unfold scheduler_exit, scheduler_exit_task. pose proof (si_current s Hinv) as Hr.
  assert (quiet s (orphan (current_task s) s)) as Hq by apply quiet_orphan.
  pose proof (sched_inv_quiet _ _ Hinv Hq) as Ho.
  set (z := upd (current_task s) (set_t_state TASK_ZOMBIE) (orphan (current_task s) s)).
  assert (sched_inv z) as Hz by (apply state_upd_inv; try done; by left).
  change (set_current_task (current_task s) z) with z.
  assert (state_of z (current_task z) = TASK_ZOMBIE) as Hst.
  { change (current_task z) with (current_task s). unfold z. rewrite state_of_upd, decide_True by lia.
    destruct (in_range_task _ _ Ho Hr) as [t Ht]. change (current_task (orphan (current_task s) s)) with (current_task s) in Ht.
    by rewrite Ht. }
  pose proof (sched_inv_yield z Hz) as [Hy _].
  destruct (yield_cases z Hz) as [[Hlt _]|[(_ & _ & Hrun & _)|(_ & _ & Heq)]].
  - change (task_count z) with (task_count s) in Hlt. lia.
  - exfalso. destruct (state_of_wake z (current_task z)) as [E|(_ & E & _)]; [|congruence].
    rewrite E, Hst in Hrun. done.
  - rewrite Heq in *. by split.
Qed.

Lemma sched_inv_start s : sched_inv s -> current_task s = 0 -> sched_inv (scheduler_start_threads s).2.
Proof.
  intros Hinv Hc. unfold scheduler_start_threads. cbn [snd].
  apply (sched_inv_quiet (upd 0 (inc_switches ∘ set_t_state TASK_RUNNING) s)); [|split; [repeat split; by simpl|done]].
  pose proof (si_current s Hinv). apply state_upd_inv; try done; [lia|right; lia].
Qed.

Lemma quiet_dump s : sched_inv s -> quiet s (scheduler_dump_tasks s).
Proof.
  unfold scheduler_dump_tasks. generalize (seqZ 0 (task_count s)) as l. intros l. revert s.
  induction l as [|i l IH]; intros s Hinv; simpl; [apply quiet_refl|].
  destruct (space_at (space_ptr s i) s); [|by apply IH].
  assert (quiet s (switch_stub (space_ptr s i) s).2) as Hq.
  { apply quiet_switch_stub. intros j Hj. apply (space_ptr_own s i j Hinv Hj). }
  eapply quiet_trans; [exact Hq|]. by apply IH, (sched_inv_quiet s).
Qed.

(** The state the boot code starts from: a zeroed table. *)
Record boot_ok (s : sys) : Prop := {
  bo_len : length (tasks s) = 8%nat;
  bo_tasks : forall i t, task_at s i = Some t -> t_state t = TASK_UNUSED /\ address_space_ptr (memory t) = AsNull;
}.

(** The first part of [scheduler_init]: the cleared state with the idle task. *)
Definition with_idle (s : sys) : sys :=
  (scheduler_add_task (Some (lit "idle")) idle_task
    (Sys (tasks s) scheduler_clear_context 0 0 0 0 (user_sessions s) (spaces s) (regs s) (cpu s) (elr_el1 s) (spsr_el1 s))).2.

Lemma sched_inv_idle s : boot_ok s -> sched_inv (with_idle s).
Proof.
  intros [Hl Ht]. unfold with_idle, scheduler_add_task, take_slot. cbn [task_count].
  change (seqZ 1 (0 - 1)) with (@nil Z). cbn [List.find]. change (0 >=? SCHED_MAX_TASKS) with false. cbv iota.
  set (s0 := set_task_count (0 + 1) _). set (f := fresh_task 0 (Some (lit "idle")) TASK_READY idle_task).
  assert (forall i, task_at s0 i = task_at s i) as Heq by done.
  assert (forall i, state_of (upd 0 f s0) i = if decide (i = 0) then TASK_READY else TASK_UNUSED) as Hs.
  { intros i. rewrite state_of_upd, !Heq by lia. case_decide.
    - destruct (task_at s 0) as [t|] eqn:E; [done|]. rewrite task_at_eq in E by lia. apply lookup_ge_None in E. rewrite Hl in E. lia.
    - unfold state_of. rewrite Heq. destruct (task_at s i) as [t|] eqn:E; simpl; [by destruct (Ht i t E)|done]. }
  assert (sched_inv (upd 0 f s0)) as Hi.
  { split; cbn [current_task task_count upd set_tasks s0 set_task_count]; rewrite ?Hs; try done; try lia.
    - simpl. by rewrite length_alter.
    - intros i t. destruct (decide (i = 0)) as [->|].
      + rewrite task_at_upd_eq, fmap_Some by lia. by intros (u & _ & ->) _.
      + intros E Hlt. apply task_at_lookup in E as [? _]. lia.
    - intros i Hi. rewrite Hs. case_decide; [lia|done].
    - intros i. rewrite Hs. by case_decide.
    - intros i t j. destruct (decide (i = 0)) as [->|].
      + rewrite task_at_upd_eq, fmap_Some by lia. by intros (u & _ & ->).
      + rewrite task_at_upd_ne, Heq by done. intros E Hj. destruct (Ht i t E) as [_ E']. congruence. }
  cbn [snd]. set (s2 := scheduler_init_task_el0 0 _). assert (sched_inv s2) as H2' by (eapply sched_inv_quiet; [exact Hi|by apply quiet_init_el0]).
  set (s3 := if truth idle_task then _ else _).
  unfold s3; case_if; [|done]; eapply sched_inv_quiet; [exact H2'|by apply quiet_upd].
Qed.

Lemma sched_inv_init s : boot_ok s -> sched_inv (scheduler_init s).
Proof. intros Hs. pose proof (sched_inv_idle s Hs) as Hi. eapply sched_inv_quiet; [exact Hi|by apply quiet_dump]. Qed.


(** The operations on the scheduler, in any order the kernel may issue them. *)
Inductive sched_op :=
  | OpThread (nm : option (list Z)) (entry : Z)
  | OpCreateUser (nm : option (list Z)) (file : option (list Z * Z)) (argument : option (list Z))
  | OpUnblockUser (pid : Z) | OpBlockTask (pid : Z) | OpUnblockTask (pid : Z)
  | OpReap (pid : Z) | OpReapAll | OpWait (pid : Z) (status : option task_wait_status)
  | OpSetParent (pid parent : Z) | OpTerminate (pid code : Z)
  | OpRunUser | OpRunReturn | OpException (esr elr far spsr : Z) | OpExitCall (code : Z)
  | OpTick | OpYield | OpSleep (interval_ms ms : Z) | OpPreempt | OpExit | OpStart | OpDump.

(** The idle task neither exits nor runs a user program, a zombie issues no call, and the
    threads are started by the boot code. *)
Definition sched_allowed (op : sched_op) (s : sys) : Prop :=
  match op with
  | OpRunUser | OpRunReturn | OpExit => current_task s <> 0
  | OpWait _ _ => state_of s (current_task s) <> TASK_ZOMBIE
  | OpStart => current_task s = 0
  | _ => True
  end.

(** How control leaves the operation, and the new state. *)
Definition sched_exec (op : sched_op) (s : sys) : outcome * sys :=
  match op with
  | OpThread nm entry => (Returned, (scheduler_create_kernel_thread nm entry s).2)
  | OpCreateUser nm file a => (Returned, (create_user_task kernel_table nm file a s).2)
  | OpUnblockUser pid => (Returned, (scheduler_unblock_user_task pid s).2)
  | OpBlockTask pid => (Returned, (scheduler_block_task pid s).2)
  | OpUnblockTask pid => (Returned, (scheduler_unblock_task pid s).2)
  | OpReap pid => (Returned, (scheduler_reap_zombie_task pid s).2)
  | OpReapAll => (Returned, (scheduler_reap_zombies s).2)
  | OpWait pid status => (Returned, (scheduler_wait_task_status pid status s).2)
  | OpSetParent pid p => (Returned, (scheduler_set_task_parent pid p s).2)
  | OpTerminate pid code => (Returned, (scheduler_terminate_child pid code s).2)
  | OpRunUser => (Returned, (scheduler_run_user_task (current_task s) s).2)
  | OpRunReturn => (Returned, (scheduler_run_user_task_return (current_task s) s).2)
  | OpException esr elr far spsr => (Returned, (user_mode_handle_exception esr elr far spsr s).2)
  | OpExitCall code => (Returned, (user_mode_handle_exit_syscall code s).2)
  | OpTick => (Returned, scheduler_tick s)
  | OpYield => scheduler_yield s
  | OpSleep iv ms => scheduler_sleep_ms iv ms s
  | OpPreempt => scheduler_preempt s
  | OpExit => scheduler_exit s
  | OpStart => scheduler_start_threads s
  | OpDump => (Returned, scheduler_dump_tasks s)
  end.

Inductive sched_reach : sys -> Prop :=
  | reach_init s : boot_ok s -> sched_reach (scheduler_init s)
  | reach_step op s : sched_reach s -> sched_allowed op s -> sched_reach (sched_exec op s).2.

Lemma sched_inv_exec op s : sched_inv s -> sched_allowed op s ->
  sched_inv (sched_exec op s).2 /\ (sched_exec op s).1 <> Halted.
Proof.
  intros Hinv Ha. pose proof (si_current s Hinv) as Hc. destruct op; simpl in *; try (split; [|done]).
  - unfold scheduler_create_kernel_thread. pose proof (sched_inv_add nm entry s Hinv) as Hi.
    destruct (scheduler_add_task nm entry s). by case_if.
  - by apply sched_inv_create.
  - by apply sched_inv_unblock_user.
  - by apply sched_inv_block.
  - by apply sched_inv_unblock.
  - by apply sched_inv_reap.
  - by apply sched_inv_reap_all.
  - by apply sched_inv_wait.
  - by apply sched_inv_parent.
  - by apply sched_inv_terminate.
  - by apply sched_inv_run_user.
  - apply sched_inv_run_return; [done|lia].
  - apply (sched_inv_quiet s); [done|apply quiet_exception].
  - apply (sched_inv_quiet s); [done|apply quiet_exit_syscall].
  - by apply sched_inv_tick.
  - by apply sched_inv_yield.
  - split; [by apply sched_inv_sleep|]. unfold scheduler_sleep_ms. cbv zeta. case_if; [done|].
    apply orb_false_iff in E as [E _]. apply orb_false_iff in E as [_ E]. apply Z.eqb_neq in E.
    apply sched_inv_yield, state_upd_inv; try done. by left.
  - by apply sched_inv_preempt.
  - destruct (sched_inv_exit s Hinv Ha) as [? ->]; [lia|]. done.
  - by apply sched_inv_start.
  - apply (sched_inv_quiet s); [done|by apply quiet_dump].
Qed.

(** (C8) The scheduler's invariant holds after boot and after every sequence of its
    operations: thread and user-task creation, blocking, sleeping, yielding,
    preemption, termination, waiting, reaping and exit. In particular the task count and
    the current task stay in range, live entries carry their own number, at most the
    current task is marked running, and idle can always run. No such operation ends in
    the loop taken when no runnable task remains. *)
Theorem scheduler_invariant op s :
  sched_reach s -> sched_allowed op s -> sched_inv s /\ sched_inv (sched_exec op s).2 /\ (sched_exec op s).1 <> Halted.
Proof.
  intros Hr Ha. assert (sched_inv s) as Hinv.
  { clear Ha op. induction Hr as [s Hb|op s _ IH Ha]; [by apply sched_inv_init|by apply sched_inv_exec]. }
  split; [done|by apply sched_inv_exec].
Qed.

(** ** Sleeping *)

(** Waking is exact: every task of the table that sleeps and whose tick has come
    becomes ready with its deadline cleared and its wake-up counted; no other task is
    changed, so no task is woken early and none is missed. *)
Theorem wake_exact s i t :
  task_at s i = Some t -> i < task_count s ->
  exists t', task_at (scheduler_wake_sleeping_tasks s) i = Some t' /\
  if decide (t_state t = TASK_SLEEPING /\ sleep_until_tick t <= scheduler_ticks s)
  then t_state t' = TASK_READY /\ sleep_until_tick t' = 0 /\ sleep_wakeups (accounting t') = sleep_wakeups (accounting t) +! 1
  else t' = t.
Proof.
  intros Ht Hi. rewrite task_at_wake, Ht. apply Z.ltb_lt in Hi. simpl. rewrite Hi. eexists. split; [done|].
  unfold wake. rewrite Z.geb_leb. destruct (bool_decide_reflect (t_state t = TASK_SLEEPING)); cbn [andb].
  - destruct (Z.leb_spec (sleep_until_tick t) (scheduler_ticks s)) as [Hle|Hgt]; case_decide as Hd; try done.
    + by destruct Hd.
    + destruct Hd as [_ Hd]. exfalso. exact (Zlt_not_le _ _ Hgt Hd).
  - case_decide as Hd; [by destruct Hd|done].
Qed.

(** ** What a switch does *)

Lemma task_at_cpu_switch prev next s i : 0 <= prev ->
  task_at (cpu_switch_to prev next s) i = if decide (i = prev) then set_t_context (cpu s) <$> task_at s prev else task_at s i.
Proof.
  intros Hp. change (task_at (cpu_switch_to prev next s) i) with (task_at (upd prev (set_t_context (cpu s)) s) i).
  case_decide; [subst; by apply task_at_upd_eq|by apply task_at_upd_ne].
Qed.

(** The next task as it is when it gets the processor. *)
Lemma task_at_run next prev s f t : 0 <= next -> next <> prev -> 0 <= prev -> task_at s next = Some t ->
  let d := if bool_decide (state_of s prev = TASK_RUNNING) then upd prev f s else s in
  task_at (set_current_task next (scheduler_set_running_task next d)) next = Some (inc_switches (set_t_state TASK_RUNNING t)).
Proof.
  intros Hn Hne Hp Ht d. change (task_at (set_current_task next (scheduler_set_running_task next d)) next)
    with (task_at (upd next (inc_switches ∘ set_t_state TASK_RUNNING) d) next).
  rewrite task_at_upd_eq by done. unfold d. case_bool_decide; [rewrite task_at_upd_ne by done|]; by rewrite Ht.
Qed.

Lemma resume_root_ext t s s' : user_sessions s' = user_sessions s ->
  kernel_address_space (spaces s') = kernel_address_space (spaces s) ->
  (forall j, address_space_ptr (memory t) = AsTask j -> (user_address_space <$> task_at s' j) = (user_address_space <$> task_at s j)) ->
  user_mode_task_resume_root (Some t) s' = user_mode_task_resume_root (Some t) s.
Proof.
  intros Hu Hk Hp. unfold user_mode_task_resume_root. rewrite Hu.
  assert (space_at (address_space_ptr (memory t)) s' = space_at (address_space_ptr (memory t)) s) as ->; [|done].
  destruct (address_space_ptr (memory t)) as [| |j] eqn:E; simpl; [done|by rewrite Hk|by apply Hp].
Qed.

(** A yield that switches: the chosen task becomes the current and only running task,
    the previous one goes back to ready if it was running and keeps its state (sleeping,
    blocked, zombie) otherwise, its registers are saved in its own entry and those of
    the new task loaded, and the translation root is the one the new task resumes
    with: its user root while its session is active, the kernel root otherwise. *)
Theorem yield_switch s : sched_inv s -> (scheduler_yield s).1 = Switched ->
  let s' := (scheduler_yield s).2 in
  let prev := current_task s in
  let next := current_task s' in
  next <> prev /\ (forall i, state_of s' i = TASK_RUNNING <-> i = next) /\
  (state_of s prev = TASK_RUNNING -> state_of s' prev = TASK_READY) /\
  (t_context <$> task_at s' prev) = Some (cpu s) /\ (t_context <$> task_at s next) = Some (cpu s') /\
  (user_mode_task_resume_root (task_at s' next) s' <> 0 ->
   ttbr0_el1 (regs s') = user_mode_task_resume_root (task_at s' next) s').
Proof.
  intros Hinv Hsw. pose proof (sched_inv_yield s Hinv) as [Hinv' _].
  destruct (yield_cases s Hinv) as [[_ Heq]|[(_ & _ & _ & Heq)|(_ & Hne & Heq)]]; [by rewrite Heq in Hsw|by rewrite Heq in Hsw|].
  clear Hsw. pose proof (sched_inv_wake s Hinv) as Hw. set (w := scheduler_wake_sleeping_tasks s) in *.
  destruct (next_runnable_choice w Hw) as (Hr & _). set (next := scheduler_next_runnable_task w) in *.
  pose proof (si_current s Hinv) as Hc. set (prev := current_task s) in *. change (task_count w) with (task_count s) in Hr.
  destruct (in_range_task w next Hw) as [t Ht]; [done|]. destruct (in_range_task w prev Hw) as [p Hp]; [done|].
  pose proof (task_at_run next prev w (inc_yields ∘ set_t_state TASK_READY) t ltac:(lia) Hne ltac:(lia) Ht) as Hrun.
  cbv zeta in Hrun, Heq. set (d := if bool_decide _ then _ else w) in *.
  assert (cpu d = cpu s) as Hcpu by (unfold d; by case_bool_decide).
  set (c := set_current_task next (scheduler_set_running_task next d)) in *.
  set (c' := if truth _ then switch_root _ c else c) in *.
  assert (forall i, task_at c' i = task_at c i) as Hc' by (intros i; unfold c'; by case_if).
  rewrite Heq in *. cbn [snd]. clear Heq. set (s' := cpu_switch_to prev next c') in *.
  assert (current_task s' = next) as Hcur by (unfold s', c'; by destruct (truth _)). rewrite Hcur.
  assert (task_at s' next = Some (inc_switches (set_t_state TASK_RUNNING t))) as Hnext.
  { unfold s'. rewrite task_at_cpu_switch, decide_False, Hc' by (done || lia). exact Hrun. }
  assert (task_at c' prev = task_at d prev) as Hprev.
  { rewrite Hc'. unfold c. change (task_at (upd next (inc_switches ∘ set_t_state TASK_RUNNING) d) prev = task_at d prev).
    by rewrite task_at_upd_ne by (done || lia). }
  split_and!.
  - done.
  - intros i. split; [intros Hi; rewrite <- Hcur; by apply (si_running s' Hinv')|intros ->]. by rewrite (state_of_at _ _ _ Hnext).
  - intros Hst. assert (state_of w prev = TASK_RUNNING) as Hst' by (destruct (state_of_wake s prev) as [E|(_ & E & _)]; [exact (eq_trans E Hst)|congruence]).
    unfold state_of, s'. rewrite task_at_cpu_switch, decide_True, Hprev by (done || lia). unfold d.
    rewrite bool_decide_eq_true_2 by done. rewrite task_at_upd_eq, Hp by lia. done.
  - unfold s'. rewrite task_at_cpu_switch, decide_True, Hprev by (done || lia).
    assert (is_Some (task_at d prev)) as [u ->].
    { unfold d. case_bool_decide; [rewrite task_at_upd_eq by lia|]; rewrite Hp; by eexists. }
    simpl. rewrite <- Hcpu. unfold c'. by destruct (truth _).
  - unfold s'. unfold cpu_switch_to. cbn [cpu set_cpu]. rewrite task_at_upd_ne, Hc', Hrun by (done || lia). simpl.
    subst w. rewrite task_at_wake in Ht. apply fmap_Some in Ht as (u & Hu & ->). rewrite Hu. simpl. f_equal.
    destruct (_ <? _); [|done]. unfold wake. by case_if.
  - rewrite Hnext. intros Hroot.
    assert (user_mode_task_resume_root (Some (inc_switches (set_t_state TASK_RUNNING t))) s' =
            user_mode_task_resume_root (task_at c next) c) as E.
    { rewrite Hrun. apply resume_root_ext.
      - unfold s', c'. by destruct (truth _).
      - unfold s', c'. by destruct (truth _).
      - intros j Hj. change (address_space_ptr (memory t) = AsTask j) in Hj. rewrite (si_ptr w Hw next t j Ht Hj).
        unfold s'. by rewrite task_at_cpu_switch, decide_False, Hc' by (done || lia). }
    rewrite E in *. unfold s', c'. replace (truth (user_mode_task_resume_root (task_at c next) c)) with true; [done|].
    symmetry. by apply negb_true_iff, Z.eqb_neq.
Qed.

(** Sleeping lasts long enough: a thread that sleeps gives the processor away and is
    left sleeping until a tick that lies the requested time ahead, rounded up to whole
    timer intervals and at least one. *)
Theorem sleep_duration iv ms s :
  sched_inv s -> truth (threads_started s) = true -> current_task s <> 0 -> 0 < iv < 2 ^ 63 -> 0 <= ms < 2 ^ 63 ->
  0 <= scheduler_ticks s < 2 ^ 63 ->
  let r := scheduler_sleep_ms iv ms s in
  r.1 = Switched /\ current_task r.2 <> current_task s /\
  exists t k, task_at r.2 (current_task s) = Some t /\ t_state t = TASK_SLEEPING /\
    sleep_until_tick t = scheduler_ticks s + k /\ 1 <= k /\ ms <= k * iv /\ (k - 1) * iv <= ms.
Proof.
  intros Hinv Hth Hc Hiv Hms Hticks r. subst r. unfold scheduler_sleep_ms. rewrite Hth. cbn [negb orb].
  apply Z.eqb_neq in Hc as Hc'. rewrite Hc'. cbn [orb].
  replace (truth iv) with true by (symmetry; apply negb_true_iff, Z.eqb_neq; lia). cbn [negb orb]. cbv zeta.
  rewrite (u64_small (ms + iv)) by lia. rewrite (u64_small (ms + iv - 1)) by lia.
  set (q := (ms + iv - 1) / iv). set (k := if q =? 0 then 1 else q).
  assert (1 <= k /\ ms <= k * iv /\ (k - 1) * iv <= ms /\ k < 2 ^ 63) as (Hk1 & Hk2 & Hk3 & Hk4).
  { pose proof (Z.div_mod (ms + iv - 1) iv ltac:(lia)) as Hd. pose proof (Z.mod_pos_bound (ms + iv - 1) iv ltac:(lia)).
    fold q in Hd. assert (0 <= q) by (apply Z.div_pos; lia). assert (q <= ms) as Hq.
    { destruct (decide (ms = 0)) as [->|]; [unfold q; rewrite Z.div_small by lia; lia|]. nia. }
    unfold k. destruct (Z.eqb_spec q 0); nia. }
  rewrite (u64_small (scheduler_ticks s + k)) by lia. clearbody k. clear q.
  set (z := upd (current_task s) _ s). pose proof (si_current s Hinv) as Hr.
  assert (sched_inv z) as Hz by (apply state_upd_inv; try done; by left).
  destruct (in_range_task s (current_task s) Hinv Hr) as [t Ht].
  assert (task_at z (current_task s) = Some (set_t_state TASK_SLEEPING (set_sleep (scheduler_ticks s + k) ms t))) as Htz.
  { unfold z. rewrite task_at_upd_eq, Ht by lia. done. }
  set (u := set_t_state TASK_SLEEPING (set_sleep (scheduler_ticks s + k) ms t)) in Htz.
  assert (task_at (scheduler_wake_sleeping_tasks z) (current_task s) = Some u) as Htw.
  { rewrite task_at_wake, Htz. cbn [fmap option_fmap option_map]. f_equal. destruct (_ <? _); [|done]. unfold wake.
    rewrite Z.geb_leb, (proj2 (Z.leb_gt (sleep_until_tick u) (scheduler_ticks z))) by (simpl; lia).
    by rewrite andb_false_r. }
  destruct (yield_cases z Hz) as [[Hlt _]|[(_ & _ & Hrun & _)|(_ & Hne & ->)]].
  - change (task_count z) with (task_count s) in Hlt. lia.
  - exfalso. change (current_task z) with (current_task s) in Hrun. rewrite (state_of_at _ _ _ Htw) in Hrun. done.
  - change (current_task z) with (current_task s) in *. cbn [fst snd]. split; [done|].
    rewrite (bool_decide_eq_false_2 (state_of _ (current_task s) = TASK_RUNNING)) by (by rewrite (state_of_at _ _ _ Htw)).
    set (w := scheduler_wake_sleeping_tasks z) in *. set (next := scheduler_next_runnable_task w) in *.
    pose proof (next_runnable_choice w (sched_inv_wake z Hz)) as (Hrange & _).
    set (c := set_current_task next (scheduler_set_running_task next w)).
    set (c' := if truth _ then switch_root _ c else c).
    assert (task_at c' (current_task s) = Some u) as Hcs.
    { rewrite <- Htw. unfold c'. transitivity (task_at c (current_task s)); [by destruct (truth (user_mode_task_resume_root _ _))|].
      apply (task_at_upd_ne w next); [apply Hrange|congruence]. }
    split; [unfold c'; by destruct (truth (user_mode_task_resume_root _ _))|].
    exists (set_t_context (cpu c') u), k. split; [|done].
    rewrite task_at_cpu_switch, decide_True, Hcs by (done || lia). done.
Qed.

(** ** Waiting *)

Lemma put_space_task_ne p a s i : sched_inv s -> (forall j, p = AsTask j -> 0 <= j /\ i <> j) ->
  task_at (put_space p a s) i = task_at s i.
Proof.
  intros _ Hp. destruct p, a; try done. simpl. apply task_at_upd_ne; by apply Hp.
Qed.

Lemma clear_slot_others c s i : sched_inv s -> 0 <= c -> i <> c -> task_at (scheduler_clear_task_slot c s) i = task_at s i.
Proof.
  intros Hinv Hc Hi. unfold scheduler_clear_task_slot. rewrite task_at_upd_ne by done. unfold destroy_space.
  destruct (address_space_destroy_user _ _) as [a st]. rewrite put_space_task_ne.
  - done.
  - apply (sched_inv_quiet s); [done|apply quiet_spaces].
  - intros j Hj. destruct (space_ptr_own s c j Hinv Hj) as [-> ?]. done.
Qed.

Lemma clear_slot_spaces c s a : sched_inv s -> space_at (space_ptr s c) s = Some a -> as_kind a = ADDRESS_SPACE_USER ->
  user_table_slot a < 4 ->
  user_table_slots_used (spaces (scheduler_clear_task_slot c s)) =
  <[Z.to_nat (user_table_slot a) := 0]> (user_table_slots_used (spaces s)).
Proof.
  intros Hinv Ha Hk Hlt. unfold scheduler_clear_task_slot, destroy_space. rewrite Ha.
  destruct (destroy_cases a (spaces s)) as [(_ & _ & ->)|[[] _]]; [|done].
  destruct (space_ptr s c); done.
Qed.

(** A search among the members of a range that have a property finds the first. *)
Lemma find_filter_seqZ (f : Z -> bool) (P : Z -> Prop) `{!forall i, Decision (P i)} a n :
  match List.find f (filter P (seqZ a n)) with
  | Some c => a <= c < a + n /\ P c /\ f c = true /\ forall i, a <= i < c -> P i -> f i = false
  | None => forall i, a <= i < a + n -> P i -> f i = false
  end.
Proof.
  destruct (Z.le_gt_cases 0 n) as [Hn|Hn]; [|rewrite seqZ_nil by lia; cbn; intros; lia].
  revert a. pattern n. apply natlike_ind; [intros a; rewrite seqZ_nil by lia; cbn; intros; lia| |done].
  clear n Hn. intros n Hn IH a. rewrite seqZ_cons by lia. rewrite Z.pred_succ. specialize (IH (Z.succ a)).
  rewrite filter_cons. destruct (decide (P a)) as [Hp|Hp].
  - cbn [List.find]. destruct (f a) eqn:Ef; [split_and!; [lia..|done|done|intros; lia]|].
    destruct (List.find f _) as [c|].
    + destruct IH as (Hc & HP & Hf & Hi). split_and!; [lia..|done|done|]. intros i Hi' HPi. destruct (decide (i = a)) as [->|]; [done|]. apply Hi; [lia|done].
    + intros i Hi HPi. destruct (decide (i = a)) as [->|]; [done|]. apply IH; [lia|done].
  - destruct (List.find f _) as [c|].
    + destruct IH as (Hc & HP & Hf & Hi). split_and!; [lia..|done|done|]. intros i Hi' HPi. destruct (decide (i = a)) as [->|]; [done|]. apply Hi; [lia|done].
    + intros i Hi HPi. destruct (decide (i = a)) as [->|]; [done|]. apply IH; [lia|done].
Qed.

(** The children of the current task, those that are user tasks, and the terminated ones. *)
Definition child s (c : Z) (t : task) : Prop := 0 < c < task_count s /\ task_at s c = Some t /\ parent_pid t = current_task s.
Definition in_user_space s (c : Z) : Prop := exists a, space_at (space_ptr s c) s = Some a /\ as_kind a = ADDRESS_SPACE_USER.
Definition first_terminated_child s (c : Z) : Prop :=
  (exists t, child s c t /\ t_state t = TASK_ZOMBIE) /\ forall i t, i < c -> child s i t -> t_state t <> TASK_ZOMBIE.

(** A call for [pid] finds the terminated child [c]: the one named, or for 0 the first there
    is in the table. *)
Definition to_reap pid s (c : Z) : Prop :=
  pid <> current_task s /\ in_user_space s c /\
  (pid = 0 /\ first_terminated_child s c \/ pid <> 0 /\ c = pid /\ exists t, child s c t /\ t_state t = TASK_ZOMBIE).
(** It finds only children that have not terminated. *)
Definition none_terminated pid s : Prop :=
  pid <> current_task s /\
  (pid = 0 /\ (exists c t, child s c t) /\ (forall c t, child s c t -> t_state t <> TASK_ZOMBIE) \/
   pid <> 0 /\ in_user_space s pid /\ exists t, child s pid t /\ t_state t <> TASK_ZOMBIE).

Lemma to_reap_unique pid s c c' : to_reap pid s c -> to_reap pid s c' -> c = c'.
Proof.
  intros (_ & _ & [[Hp [(t & Hc & Hz) Hf]]|[Hp [-> _]]]) (_ & _ & [[Hp' [(t' & Hc' & Hz') Hf']]|[Hp' [-> _]]]); try done.
  destruct (Z.lt_trichotomy c c') as [Hlt|[->|Hlt]]; [by destruct (Hf' _ _ Hlt Hc)|done|by destruct (Hf _ _ Hlt Hc')].
Qed.
Lemma to_reap_terminated pid s c : to_reap pid s c -> ~ none_terminated pid s.
Proof.
  intros (_ & _ & [[Hp [(t & Hc & Hz) Hf]]|[Hp [-> (t & Hc & Hz)]]]) (_ & [(Hp' & _ & Hn)|(Hp' & _ & t' & Hc' & Hn)]); try done.
  - by apply (Hn c t).
  - destruct Hc as (_ & Ht & _), Hc' as (_ & Ht' & _). congruence.
Qed.

Lemma is_child_iff s c t : task_at s c = Some t -> 0 < c < task_count s -> is_child s c = true <-> child s c t.
Proof. intros Ht Hc. unfold is_child, child. rewrite Ht. cbn [fmap option_fmap option_map default]. rewrite Z.eqb_eq. cbn. split; [done|by intros (_ & _ & ?)]. Qed.

(** The search of a wait for any child. *)
Lemma find_zombie_cases s : sched_inv s ->
  (exists c, find_zombie_child s = (true, c) /\ first_terminated_child s c) \/
  ((forall c t, child s c t -> t_state t <> TASK_ZOMBIE) /\
   (find_zombie_child s = (true, 0) /\ (exists c t, child s c t) \/ find_zombie_child s = (false, 0) /\ ~ exists c t, child s c t)).
Proof.
  intros Hinv. unfold find_zombie_child. cbv zeta. set (children := filter _ _).
  assert (forall c t, child s c t <-> task_at s c = Some t /\ c ∈ children) as Hch.
  { intros c t. unfold children. rewrite list_elem_of_filter, elem_of_seqZ. split.
    - intros Hc. pose proof Hc as (Hr & Ht & _). split; [done|]. split; [by apply (is_child_iff s c t)|lia].
    - intros (Ht & Hi & Hr). apply (is_child_iff s c t); [done|lia|done]. }
  pose proof (find_filter_seqZ (fun i => bool_decide (state_of s i = TASK_ZOMBIE)) (fun i => is_child s i = true) 1 (task_count s - 1)) as Hf.
  change (filter (fun i => is_child s i = true) (seqZ 1 (task_count s - 1))) with children in Hf.
  assert (forall c t, child s c t -> 1 <= c < 1 + (task_count s - 1) /\ is_child s c = true /\ bool_decide (state_of s c = TASK_ZOMBIE) = bool_decide (t_state t = TASK_ZOMBIE)) as Hof.
  { intros c t Hc. pose proof Hc as (Hr & Ht & _). split_and!; [lia..|by apply (is_child_iff s c t)|by rewrite (state_of_at _ _ _ Ht)]. }
  destruct (List.find _ children) as [c|].
  - destruct Hf as (Hr & Hi & Hz & Hfirst). left. exists c. split; [done|]. destruct (in_range_task s c Hinv ltac:(lia)) as [t Ht].
    split.
    + exists t. split; [apply (is_child_iff s c t); [done|lia|done]|]. apply bool_decide_eq_true in Hz. by rewrite <- (state_of_at _ _ _ Ht).
    + intros i t' Hlt Hc. destruct (Hof _ _ Hc) as (Hr' & Hi' & E). specialize (Hfirst i ltac:(lia) Hi'). rewrite E in Hfirst. by apply bool_decide_eq_false in Hfirst.
  - right. split.
    + intros c t Hc. destruct (Hof _ _ Hc) as (Hr' & Hi' & E). specialize (Hf c Hr' Hi'). rewrite E in Hf. by apply bool_decide_eq_false in Hf.
    + destruct (bool_decide_reflect (children <> [])) as [Hne|He]; [left|right]; (split; [done|]).
      * destruct children as [|c l] eqn:El; [done|]. assert (c ∈ children) as Hin by (rewrite El; apply list_elem_of_here).
        destruct (in_range_task s c Hinv) as [t Ht]; [|exists c, t; apply Hch; split; [done|by rewrite <- El]].
        unfold children in Hin. apply list_elem_of_filter in Hin as [_ Hin%elem_of_seqZ]. lia.
      * intros (c & t & [_ Hin]%Hch). destruct children; [by apply not_elem_of_nil in Hin|by apply He].
Qed.

(** What a wait does, case by case. *)
Definition reaped_status s (c : Z) : task_wait_status :=
  let u := default scheduler_clear_user_status (user_status <$> task_at s c) in WaitStatus c (last_exit_code u) (c_int (truth (program_succeeded u))).
Definition wait_outcome pid st s (out : Z * option task_wait_status * sys) : Prop :=
  let '(r, st', s') := out in
  (exists c, r = 1 /\ to_reap pid s c /\ st' = Some (reaped_status s c) /\ s' = scheduler_trim_unused_tail (scheduler_clear_task_slot c s)) \/
  (r = 0 /\ none_terminated pid s /\ st' = Some st /\ s' = s) \/
  (r = -1 /\ ~ none_terminated pid s /\ (~ exists c, to_reap pid s c) /\ st' = Some st /\ s' = s).

(** The part of a wait after the child was chosen. *)
Lemma wait_chosen pid st s c : sched_inv s -> pid <> current_task s ->
  pid = 0 /\ first_terminated_child s c \/ pid <> 0 /\ c = pid /\ 0 < c < task_count s ->
  wait_outcome pid st s
    match space_at (space_ptr s c) s with
    | None => (-1, Some st, s)
    | Some space =>
        if negb (bool_decide (as_kind space = ADDRESS_SPACE_USER)) || negb (is_child s c) then (-1, Some st, s) else
        if negb (bool_decide (state_of s c = TASK_ZOMBIE)) then (0, Some st, s) else
        (1, Some (reaped_status s c), scheduler_trim_unused_tail (scheduler_clear_task_slot c s))
    end.
Proof.
  intros Hinv Hcur Hc. assert (0 < c < task_count s) as Hr by (destruct Hc as [[_ [(t & (Hr & _) & _) _]]|(_ & _ & Hr)]; done).
  destruct (in_range_task s c Hinv ltac:(lia)) as [t Ht].
  assert (forall c', to_reap pid s c' -> c' = c) as Huniq.
  { intros c' (Hp & Hu & [[Hp0 Hf]|[Hp0 [-> _]]]); [|by destruct Hc as [[? _]|(_ & -> & _)]].
    destruct Hc as [[_ Hf']|[? _]]; [|done]. destruct Hf as [(t1 & Hk1 & Z1) F1], Hf' as [(t2 & Hk2 & Z2) F2].
    destruct (Z.lt_trichotomy c c') as [Hlt|[->|Hlt]]; [by destruct (F1 _ _ Hlt Hk2)|done|by destruct (F2 _ _ Hlt Hk1)]. }
  assert (none_terminated pid s -> pid <> 0 /\ in_user_space s c /\ child s c t /\ t_state t <> TASK_ZOMBIE) as Hnone.
  { intros (_ & [(Hp0 & _ & Hn)|(Hp0 & Hu & t' & Ht' & Hz)]); destruct Hc as [[? [(t1 & Hk1 & Z1) _]]|(? & -> & _)]; try done; [by destruct (Hn c t1)|].
    pose proof Ht' as (_ & Et & _). assert (t' = t) as -> by congruence. done. }
  assert (~ (in_user_space s c /\ child s c t) -> wait_outcome pid st s (-1, Some st, s)) as Hno.
  { intros Hno. right. right. split; [done|]. split; [intros (_ & ? & ? & _)%Hnone; by apply Hno|]. split; [|done]. intros (c' & Hre). pose proof (Huniq c' Hre) as ->.
    destruct Hre as (_ & Hu & Hre). apply Hno. split; [done|].
    destruct Hre as [[_ [(t1 & Hk1 & _) _]]|(_ & _ & t1 & Hk1 & _)]; pose proof Hk1 as (_ & E1 & _); by assert (t1 = t) as -> by congruence. }
  destruct (space_at (space_ptr s c) s) as [a|] eqn:Ha; [|apply Hno; intros [(a & Ea & _) _]; congruence].
  destruct (bool_decide_reflect (as_kind a = ADDRESS_SPACE_USER)) as [Hk|Hk]; cbn [negb orb]; [|apply Hno; intros [(a' & Ea & ?) _]; congruence].
  destruct (is_child s c) eqn:Hch; cbn [negb]; [|apply Hno; intros [_ Hi%(is_child_iff s c t Ht Hr)]; congruence].
  apply (is_child_iff s c t Ht Hr) in Hch. assert (in_user_space s c) as Hu by by exists a. rewrite (state_of_at _ _ _ Ht).
  destruct (bool_decide_reflect (t_state t = TASK_ZOMBIE)) as [Hz|Hz]; cbn [negb].
  - left. exists c. split; [done|]. split; [|done]. split; [done|]. split; [done|]. destruct Hc as [Hc|(? & -> & _)]; [by left|right]. split_and!; [done..|by exists t].
  - right. left. split; [done|]. split; [|done]. split; [done|]. destruct Hc as [[Hp0 [(t1 & Hk1 & Z1) _]]|(Hp0 & -> & _)].
    + pose proof Hk1 as (_ & E1 & _). congruence.
    + right. split_and!; [done..|by exists t].
Qed.

Lemma wait_cases pid st s : sched_inv s -> wait_outcome pid st s (scheduler_wait_task_status pid (Some st) s).
Proof.
  intros Hinv. unfold scheduler_wait_task_status. destruct (negb _ || _ || _ || _) eqn:E.
  { right. right. split; [done|]. apply orb_true_iff in E as [E|E%Z.eqb_eq].
    2: { split; [|split; [|done]]; [by intros (Hc & _)|by intros (c & Hc & _)]. }
    assert (~ 0 <= pid < task_count s) as Hr.
    { apply orb_true_iff in E as [E|E]; [|lia]. apply orb_true_iff in E as [E|E]; [|lia]. by rewrite bool_decide_eq_true_2 in E by by eexists. }
    pose proof (si_count s Hinv) as Hn.
    split; [|split; [|done]]; [intros (_ & [(-> & _)|(_ & _ & t & (Hc & _) & _)])|intros (c & _ & _ & [(-> & _)|(_ & -> & t & (Hc & _) & _)])]; lia. }
  apply orb_false_iff in E as [E Hcur%Z.eqb_neq]. apply orb_false_iff in E as [E Eg]. apply orb_false_iff in E as [_ El]. rewrite Z.geb_leb in Eg.
  apply Z.leb_gt in Eg. apply Z.ltb_ge in El. destruct (Z.eqb_spec pid 0) as [->|Hp].
  - destruct (find_zombie_cases s Hinv) as [(c & -> & Hf)|(Hn & [[-> Hc]|[-> Hc]])].
    + destruct (Z.eqb_spec c 0) as [->|]; [by destruct Hf as [(t & (Hr & _) & _) _]; lia|]. apply (wait_chosen 0 st s c Hinv Hcur). by left.
    + right. left. split; [done|]. split; [|done]. split; [done|]. by left.
    + right. right. split; [done|]. split; [intros (_ & [(_ & He & _)|[? _]]); done|]. split; [|done].
      intros (c & _ & _ & [(_ & [(t & Ht & _) _])|[? _]]); [|done]. apply Hc. by exists c, t.
  - destruct (Z.eqb_spec pid 0); [done|]. apply (wait_chosen pid st s pid Hinv Hcur). right. split_and!; [done|done|lia..].
Qed.

(** (C35) Waiting, on every state of the table that keeps its invariant. The result is 1 if
    and only if there is a child to reap: a terminated user task whose parent is the caller,
    the one named or, for the pid 0, the first terminated child of the caller in the table.
    It is 0 if and only if there is none yet: the task named is a user child that has not
    terminated, or, for the pid 0, the caller has children and none of them has. It is -1 in
    every other case. When a child is reaped the status is that child's pid, exit code and
    result, its entry of the table is free, its translation-table slot is released and every
    other task is unchanged; in the two other cases nothing changes at all. *)
Theorem wait_reaps pid st s :
  sched_inv s -> state_of s (current_task s) <> TASK_ZOMBIE ->
  let '(r, st', s') := scheduler_wait_task_status pid (Some st) s in
  (r = 1 <-> exists c, to_reap pid s c) /\ (r = 0 <-> none_terminated pid s) /\ (r = 1 \/ r = 0 \/ r = -1) /\
  (r <> 1 -> st' = Some st /\ s' = s) /\
  (r = 1 -> exists c t a,
     to_reap pid s c /\ child s c t /\ t_state t = TASK_ZOMBIE /\ space_at (space_ptr s c) s = Some a /\ as_kind a = ADDRESS_SPACE_USER /\
     st' = Some (WaitStatus c (last_exit_code (user_status t)) (c_int (truth (program_succeeded (user_status t))))) /\
     state_of s' c = TASK_UNUSED /\ current_task s' = current_task s /\
     (user_table_slot a < 4 -> user_table_slots_used (spaces s') = <[Z.to_nat (user_table_slot a) := 0]> (user_table_slots_used (spaces s))) /\
     forall i, i <> c -> task_at s' i = task_at s i).
Proof.
  intros Hinv Hz. pose proof (wait_cases pid st s Hinv) as Ho. destruct (scheduler_wait_task_status pid (Some st) s) as [[r st'] s'].
  destruct Ho as [(c & -> & Hc & -> & ->)|[(-> & Hn & -> & ->)|(-> & Hn & He & -> & ->)]].
  2: { split_and!; try done; try lia. split; [done|]. intros [c Hc]. by apply to_reap_terminated in Hc. }
  2: { split_and!; try done; lia. }
  split; [split; [by exists c|done]|]. split; [split; [done|by apply to_reap_terminated in Hc]|]. split; [by left|]. split; [done|]. intros _.
  assert (exists t, child s c t /\ t_state t = TASK_ZOMBIE) as (t & Ht & Hs) by (destruct Hc as (_ & _ & [[_ [Hc _]]|(_ & -> & Hc)]); done).
  pose proof Hc as (_ & (a & Ha & Hk) & _). pose proof Ht as (Hr & Et & _). exists c, t, a.
  assert (c <> current_task s) as Hcc. { intros ->. apply Hz. by rewrite (state_of_at _ _ _ Et). }
  destruct (sched_inv_clear c s Hinv Hr Hcc) as (_ & Hcur & _ & Hst).
  destruct (trim_facts (scheduler_clear_task_slot c s)) as (Tc & Tt & Ts).
  split_and!; try done.
  - unfold reaped_status. by rewrite Et.
  - unfold state_of, task_at. rewrite Tt. fold (task_at (scheduler_clear_task_slot c s) c).
    fold (state_of (scheduler_clear_task_slot c s) c). by rewrite Hst, decide_True.
  - by rewrite Tc.
  - intros Hlt. rewrite Ts. by apply clear_slot_spaces.
  - intros i Hi. transitivity (task_at (scheduler_clear_task_slot c s) i); [unfold task_at; by rewrite Tt|].
    apply clear_slot_others; [done|lia|done].
Qed.
End ops.

(** ** User sessions *)

Section sessions.
Context `{CodeLayout}.

Lemma session_current_quiet s s' : quiet s s' -> user_session_current s' = user_session_current s.
Proof.
  intros [(_ & Hc & _ & Hi) _]. unfold user_session_current. rewrite Hc.
  destruct (decide (current_task s < 0)) as [Hlt|]; [unfold task_at; by destruct (Z.ltb_spec (current_task s) 0); [|lia]|].
  specialize (Hi (current_task s) ltac:(lia)).
  destruct (task_at s' (current_task s)) as [t'|], (task_at s (current_task s)) as [t|]; try done. by injection Hi as -> _.
Qed.

Lemma user_session_quiet s s' : quiet s s' -> user_sessions s' = user_sessions s -> user_session s' = user_session s.
Proof. intros Hq Hs. unfold user_session. by rewrite (session_current_quiet s s' Hq), Hs. Qed.

Lemma session_current_inv s : sched_inv s -> user_session_current s = Z.to_nat (current_task s).
Proof.
  intros Hinv. pose proof (si_current s Hinv) as Hc. pose proof (si_count s Hinv) as Hn.
  destruct (in_range_task s (current_task s) Hinv Hc) as [t Ht]. unfold user_session_current. rewrite Ht.
  rewrite (si_pid s Hinv _ _ Ht ltac:(lia)). rewrite Z.geb_leb.
  destruct (Z.ltb_spec (current_task s) 0); [lia|]. destruct (Z.leb_spec SCHED_MAX_TASKS (current_task s)); [lia|done].
Qed.

Lemma user_session_upd f s : sched_inv s -> length (user_sessions s) = 8%nat ->
  user_session (upd_session f s) = f (user_session s).
Proof.
  intros Hinv Hl. unfold user_session. rewrite (session_current_quiet s _ (quiet_upd_session f s)).
  cbn [upd_session set_user_sessions user_sessions]. rewrite list_lookup_alter_eq.
  destruct (lookup_lt_is_Some_2 (user_sessions s) (user_session_current s)) as [u ->]; [|done].
  rewrite session_current_inv, Hl by done. pose proof (si_current s Hinv). pose proof (si_count s Hinv). unfold SCHED_MAX_TASKS in *. lia.
Qed.

(** The session an entry into EL0 sets up. *)
Definition entered (s : sys) (pid : Z) (space : address_space) (s1 : sys) : Prop :=
  sched_inv s1 /\ length (user_sessions s1) = 8%nat /\ current_task s1 = current_task s /\
  ttbr0_el1 (regs s1) = target_root_table space /\
  exists n, user_session s1 = UserSession 1 0 0 USER_SESSION_REJECT_NONE n (Some pid) arm64_el0_task_return
              (kernel_root_table space) (target_root_table space).

Lemma run_task_enters pid s space : sched_inv s -> length (user_sessions s) = 8%nat ->
  space_at (space_ptr s pid) s = Some space -> (user_mode_run_task pid s).1 = None ->
  entered s pid space (user_mode_run_task pid s).2.
Proof.
  intros Hinv Hl Hsp. unfold user_mode_run_task. case_if; [done|]. case_if; [done|]. rewrite Hsp.
  assert (quiet s (switch_stub (space_ptr s pid) s).2) as Hq.
  { apply quiet_switch_stub. intros j Hj. apply (space_ptr_own s pid j Hinv Hj). }
  assert (user_sessions (switch_stub (space_ptr s pid) s).2 = user_sessions s) as Hus.
  { unfold switch_stub. destruct (address_space_switch_stub _) as [st a]. by destruct (space_ptr s pid), a. }
  destruct (switch_stub (space_ptr s pid) s) as [st s0]. cbn [snd] in *. case_if; [done|]. intros _. cbn [snd].
  pose proof (sched_inv_quiet _ _ Hinv Hq) as H0'. set (f := fun u : user_session_state => _).
  assert (user_session (upd_session f s0) = f (user_session s0)) as Hf by (apply user_session_upd; [done|by rewrite Hus]).
  set (s1 := upd pid inc_el0_entries _).
  assert (quiet s0 s1) as Q1.
  { eapply quiet_trans; [|by apply quiet_upd_any]. eapply quiet_trans; [|apply quiet_switch_root]. apply quiet_upd_session. }
  split_and!.
  - by apply (sched_inv_quiet s0).
  - cbn. by rewrite length_alter, Hus.
  - pose proof Q1 as [(_ & -> & _) _]. by destruct Hq as [(_ & -> & _) _].
  - cbn. by rewrite Hf.
  - exists (reject_count (user_session s0)). transitivity (user_session (upd_session f s0)); [|exact Hf].
    apply user_session_quiet; [|done]. eapply quiet_trans; [apply quiet_switch_root|by apply quiet_upd_any].
Qed.

(** What the end of a program does: [ok] tells an exit call from a fault. *)
Definition left (s1 : sys) (pid : Z) (space : address_space) (ok : bool) (s2 : sys) : Prop :=
  quiet s1 s2 /\ ttbr0_el1 (regs s2) = kernel_root_table space /\ elr_el1 s2 = arm64_el0_task_return /\
  spsr_el1 s2 = ARM64_SPSR_EL1H /\ active (user_session s2) = 0 /\ completed (user_session s2) = 1 /\
  faulted (user_session s2) = c_int (negb ok) /\ length (user_sessions s2) = 8%nat.

Lemma return_after s2 pid : sched_inv s2 -> length (user_sessions s2) = 8%nat -> completed (user_session s2) = 1 ->
  let r := user_mode_run_task_return pid s2 in
  r.1 = (if truth (faulted (user_session s2)) then USER_MODE_TASK_FAILED else USER_MODE_READY) /\
  regs r.2 = regs s2 /\ active (user_session r.2) = active (user_session s2) /\ session_task (user_session r.2) = None.
Proof.
  intros Hinv Hl Hc. unfold user_mode_run_task_return. rewrite Hc. cbn [truth negb Z.eqb]. cbv zeta. cbn [fst snd].
  set (s3 := upd pid inc_recoveries s2). assert (quiet s2 s3) as Hq by (by apply quiet_upd_any).
  assert (user_session s3 = user_session s2) as Hs by (by apply user_session_quiet).
  rewrite user_session_upd; [|by apply (sched_inv_quiet s2)|done]. rewrite Hs. done.
Qed.

Lemma close_session s1 pid space n g h ok :
  sched_inv s1 -> length (user_sessions s1) = 8%nat -> 0 <= pid ->
  user_session s1 = UserSession 1 0 0 USER_SESSION_REJECT_NONE n (Some pid) arm64_el0_task_return
                      (kernel_root_table space) (target_root_table space) ->
  (forall t, ident (h t) = ident t) -> (forall t, t_state (h t) = t_state t) ->
  (forall u, active (g u) = 0 /\ completed (g u) = 1 /\ faulted (g u) = c_int (negb ok) /\ return_pc (g u) = return_pc u) ->
  let s3 := upd_session g (upd_session_task h (switch_root (kernel_root_table space) s1)) in
  let s4 := set_return (return_pc (user_session s3)) ARM64_SPSR_EL1H s3 in
  left s1 pid space ok s4 /\ task_at s4 pid = h <$> task_at s1 pid.
Proof.
  intros Hinv Hl Hp Hu Hi Hst Hg s3 s4. set (r := switch_root (kernel_root_table space) s1).
  assert (upd_session_task h r = upd pid h r) as E2.
  { unfold upd_session_task. by rewrite (user_session_quiet s1 r), Hu by (apply quiet_switch_root || done). }
  assert (quiet s1 (upd pid h r)) as Hq by (eapply quiet_trans; [apply quiet_switch_root|by apply quiet_upd_any]).
  unfold s4, s3. fold r. rewrite E2. clear s3 s4 E2. set (s2 := upd pid h r) in *.
  assert (user_session s2 = user_session s1) as Hs2 by (by apply user_session_quiet).
  pose proof (sched_inv_quiet _ _ Hinv Hq) as Hinv2.
  assert (user_session (upd_session g s2) = g (user_session s1)) as Hs3 by (rewrite <- Hs2; by apply user_session_upd).
  destruct (Hg (user_session s1)) as (G1 & G2 & G3 & G4).
  split; [|by apply (task_at_upd_eq r)].
  unfold left. change (user_session (set_return ?a ?b ?c)) with (user_session c). rewrite Hs3, G1, G2, G3, G4, Hu.
  split; [eapply quiet_trans; [exact Hq|by repeat split]|]. split_and!; try done. cbn. by rewrite length_alter.
Qed.

(** A user program runs between two kernel roots: when a task enters EL0 the user root
    is installed and its session is active; when the program then calls exit or faults,
    the kernel root is back, the processor is sent to the return point at EL1 and the
    session is closed, and the run reports success for an exit and failure for a fault,
    with the exit code recorded in the task. *)
Theorem user_session_roundtrip pid s space code esr elr far :
  sched_inv s -> length (user_sessions s) = 8%nat -> 0 <= pid < task_count s ->
  space_at (space_ptr s pid) s = Some space -> kernel_root_table space <> 0 -> target_root_table space <> 0 ->
  arm64_el0_task_return <> 0 -> (user_mode_run_task pid s).1 = None ->
  let s1 := (user_mode_run_task pid s).2 in
  let e := user_mode_handle_exit_syscall code s1 in
  let f := user_mode_handle_exception esr elr far 0 s1 in
  ttbr0_el1 (regs s1) = target_root_table space /\ active (user_session s1) = 1 /\
  e.1 = 1 /\ left s1 pid space true e.2 /\ (user_mode_run_task_return pid e.2).1 = USER_MODE_READY /\
  (last_exit_code ∘ user_status <$> task_at e.2 pid) = Some code /\
  f.1 = 1 /\ left s1 pid space false f.2 /\ (user_mode_run_task_return pid f.2).1 = USER_MODE_TASK_FAILED.
Proof.
  intros Hinv Hl Hp Hsp Hk Ht Hret Hrun s1 e f.
  destruct (run_task_enters pid s space Hinv Hl Hsp Hrun) as (Hi1 & Hl1 & Hc1 & Hroot & n & Hu). fold s1 in Hi1, Hl1, Hc1, Hroot, Hu.
  assert (exists t, task_at s1 pid = Some t) as [t Htask].
  { apply in_range_task; [done|]. pose proof (quiet_run_task pid s Hinv) as [(_ & _ & Hn & _) _]. unfold s1. by rewrite Hn. }
  clearbody s1. clear Hrun.
  apply Z.eqb_neq in Hk as Hk', Ht as Ht', Hret as Hret'.
  assert (e.1 = 1 /\ left s1 pid space true e.2 /\ task_at e.2 pid = (set_last_exit_code code ∘ inc_exits ∘ inc_traps) <$> task_at s1 pid)
    as (He1 & He & Hcode).
  { unfold e, user_mode_handle_exit_syscall. rewrite Hu. cbn [active return_pc kernel_root]. unfold truth. rewrite Hret', Hk'.
    cbn [negb orb Z.eqb]. split; [done|]. refine (close_session s1 pid space n _ _ true Hi1 Hl1 ltac:(lia) Hu _ _ _); done. }
  assert (f.1 = 1 /\ left s1 pid space false f.2) as (Hf1 & Hf).
  { unfold f, user_mode_handle_exception. rewrite Hu. cbn [active return_pc kernel_root user_root]. unfold truth. rewrite Hret', Hk', Ht'.
    change (Z.land 0 SPSR_MODE_MASK =? ARM64_SPSR_MODE_EL0T) with true. cbn [negb orb Z.eqb]. split; [done|].
    refine (proj1 (close_session s1 pid space n _ _ false Hi1 Hl1 ltac:(lia) Hu _ _ _)); done. }
  assert (forall ok s2, left s1 pid space ok s2 ->
    (user_mode_run_task_return pid s2).1 = if ok then USER_MODE_READY else USER_MODE_TASK_FAILED) as Hback.
  { intros ok s2 (Hq & _ & _ & _ & _ & Hc & Hfa & Hlen).
    destruct (return_after s2 pid (sched_inv_quiet _ _ Hi1 Hq) Hlen Hc) as [-> _]. rewrite Hfa. by destruct ok. }
  split_and!; try done; [by rewrite Hu|by apply (Hback true)| |by apply (Hback false)].
  rewrite Hcode, Htask. done.
Qed.
End sessions.

(** ** A concrete system *)

#[local] Instance code0 : CodeLayout := {|
  thread_trampoline := 0x40081000; scheduler_user_task_entry := 0x40082000; idle_task := 0x40083000;
  arm64_el0_task_return := 0x40084000; task_stack_region := 0x40200000 |}.
#[local] Existing Instance layout0.

Definition blank_space : address_space := kernel_address_space as_state0.
Definition blank_task : task :=
  Task 0 0 None TASK_UNUSED 0 zero_context 0 0 scheduler_clear_accounting scheduler_clear_memory blank_space
    scheduler_clear_el0 scheduler_clear_user_status (replicate 4 (TaskFile 0 (replicate 48 0) 0)) 0 0 0.
Definition boot0 : sys :=
  Sys (replicate 8 blank_task) zero_context 0 0 0 0 (replicate 8 no_session) (address_space_init 0x40090000 as_state0)
    (MmuRegs 1 0 0 0x40090000 0) zero_context 0 0.

Lemma boot0_ok : boot_ok boot0.
Proof.
  split; [done|]. intros i t. unfold task_at. destruct (_ <? _); [done|]. intros [-> _]%(lookup_replicate_1 8). done.
Qed.

(** The states along a sequence of operations. *)
Definition run_ops (ops : list sched_op) : sys :=
  foldl (fun s op => (sched_exec kernel_table0 op s).2) (scheduler_init boot0) ops.

(** A program of one instruction with one byte of data. *)
Definition program0 : option (list Z * Z) := Some (exec_bytes sample_code [7] 0, 29).

(** A user task (task 1) runs its program and spawns a child (task 2), which runs its own
    program and goes to sleep in a system call. *)
Definition child_asleep : list sched_op :=
  [OpCreateUser None program0 None; OpUnblockUser 1; OpStart; OpYield; OpRunUser;
   OpCreateUser None program0 None; OpSetParent 2 1; OpUnblockUser 2; OpYield; OpRunUser; OpSleep 10 100].

(** A terminated child leaves its user session active: after the parent terminates and
    reaps a sleeping child, a kernel thread created in the freed entry is resumed under
    the child's translation root, whose table has been cleared, so that no address at
    all translates once the thread has the processor. *)
Theorem terminate_leaves_session :
  let s := run_ops (child_asleep ++ [OpTerminate 2 9; OpWait 2 (Some (WaitStatus 0 0 0));
                                     OpThread (Some (lit "thread")) 0x40086000; OpYield]) in
  current_task s = 2 /\ space_ptr s 2 = AsKernel /\ user_table_slots_used (spaces s) !! 1%nat = Some 0 /\
  ttbr0_el1 (regs s) = l1_address 1 /\
  forall va, walk kernel_table0 (spaces s) (ttbr0_el1 (regs s)) va = Fault.
Proof.
  cbv zeta. set (s := run_ops _).
  assert (table_at kernel_table0 (spaces s) (ttbr0_el1 (regs s)) = replicate 512 0) as Ht by (vm_compute; reflexivity).
  split_and!; [vm_compute; reflexivity..|]. intros va. unfold walk. rewrite Ht.
  assert (forall k, entry (replicate 512 0) k = 0) as E; [|by rewrite E].
  intros k. unfold entry. destruct (replicate 512 0 !! Z.to_nat k) as [z|] eqn:Ez; [|done].
  by apply lookup_replicate_1 in Ez as [-> _].
Qed.

(** A terminated task's children keep its number as their parent (an exiting task's
    children lose theirs), so a later task that reuses the entry becomes their parent:
    here an unrelated task terminates a task it never created. *)
Theorem terminate_keeps_children :
  let created := [OpCreateUser None program0 None; OpCreateUser None program0 None; OpCreateUser None program0 None;
                  OpUnblockUser 1; OpStart; OpYield; OpSetParent 2 1; OpSetParent 3 2; OpTerminate 2 9; OpReap 2;
                  OpCreateUser (Some (lit "other")) program0 None; OpUnblockUser 2] in
  let s := run_ops (created ++ [OpYield]) in
  current_task s = 2 /\ (t_name <$> task_at s 2) = Some (Some (lit "other")) /\
  (parent_pid <$> task_at s 2) = Some (-1) /\ (scheduler_terminate_child 3 1 s).1 = 1.
Proof. vm_compute. split_and!; reflexivity. Qed.

(** ** Witnesses *)

Lemma state0_inv ops : (forall n op, ops !! n = Some op -> sched_allowed op (run_ops (take n ops))) -> sched_inv (run_ops ops).
Proof.
  induction ops as [|op ops IH] using rev_ind; intros Ha.
  - apply sched_inv_init, boot0_ok.
  - unfold run_ops. rewrite foldl_app. cbn [foldl]. apply sched_inv_exec.
    + apply IH. intros n o Hn. specialize (Ha n o). rewrite take_app_le in Ha by (apply lookup_lt_Some in Hn; lia).
      apply Ha. by apply lookup_app_l_Some.
    + specialize (Ha (length ops) op). rewrite take_app_length in Ha. apply Ha. by apply list_lookup_middle.
Qed.

Ltac allowed :=
  intros n op Hn; repeat (destruct n as [|n]; [injection Hn as <-; first [exact I|vm_compute; congruence]|]); done.

Lemma child_asleep_inv : sched_inv (run_ops child_asleep).
Proof. apply state0_inv. allowed. Qed.

Lemma round_robin_witness : runnable (state_of (run_ops child_asleep) (scheduler_next_runnable_task (run_ops child_asleep))) = true.
Proof. apply (round_robin (run_ops child_asleep)). apply child_asleep_inv. Defined.

Lemma scheduler_invariant_witness : sched_inv (sched_exec kernel_table0 OpYield (scheduler_init boot0)).2.
Proof. apply (scheduler_invariant kernel_table0 OpYield (scheduler_init boot0)); [apply reach_init, boot0_ok|exact I]. Defined.

Lemma wake_exact_witness :
  exists t', task_at (scheduler_wake_sleeping_tasks (run_ops child_asleep)) 2 = Some t' /\ t_state t' = TASK_SLEEPING.
Proof.
  assert (((fun t => (t_state t, sleep_until_tick t)) <$> task_at (run_ops child_asleep) 2) = Some (TASK_SLEEPING, 10)) as H2
    by (vm_compute; reflexivity).
  assert (scheduler_ticks (run_ops child_asleep) = 0) as H0 by (vm_compute; reflexivity).
  assert (2 < task_count (run_ops child_asleep)) as H1 by (vm_compute; reflexivity).
  apply fmap_Some in H2 as (t & Ht & Hp). injection Hp as Hs Hu.
  destruct (wake_exact (run_ops child_asleep) 2 t Ht H1) as (t' & Ht' & He). rewrite H0, <- Hu in He.
  rewrite decide_False in He by (intros [_ Hle]; lia). subst t'. eauto.
Defined.

Lemma yield_switch_witness :
  (scheduler_yield (run_ops (take 8 child_asleep))).1 = Switched /\
  current_task (scheduler_yield (run_ops (take 8 child_asleep))).2 <> current_task (run_ops (take 8 child_asleep)).
Proof.
  split; [vm_compute; reflexivity|]. apply (yield_switch (run_ops (take 8 child_asleep))); [|vm_compute; reflexivity].
  apply state0_inv. allowed.
Defined.

Lemma user_session_roundtrip_witness :
  let s := run_ops (take 4 child_asleep) in
  (user_mode_run_task_return 1 (user_mode_handle_exit_syscall 7 (user_mode_run_task 1 s).2).2).1 = USER_MODE_READY.
Proof.
  cbv zeta. set (s := run_ops _).
  assert ((fun a => (kernel_root_table a, target_root_table a)) <$> space_at (space_ptr s 1) s = Some (0x40090000, 0x40100000)) as Hsp
    by (vm_compute; reflexivity).
  apply fmap_Some in Hsp as (a & Ha & Hr). injection Hr as Hk Ht.
  assert (sched_inv s) as Hinv by (apply state0_inv; allowed).
  assert (length (user_sessions s) = 8%nat /\ 1 < task_count s /\ (user_mode_run_task 1 s).1 = None) as (Hl & Hc & He)
    by (split_and!; vm_compute; reflexivity).
  clearbody s. apply (user_session_roundtrip 1 s a 7 0 0 0); try done; lia || congruence.
Defined.

Lemma sleep_duration_witness : (scheduler_sleep_ms 10 100 (run_ops (take 10 child_asleep))).1 = Switched.
Proof.
  apply (sleep_duration 10 100 (run_ops (take 10 child_asleep))); [apply state0_inv; allowed|vm_compute; reflexivity|vm_compute; congruence|lia|lia|].
  vm_compute. split; congruence.
Defined.

Lemma wait_reaps_witness :
  let s := run_ops (child_asleep ++ [OpTerminate 2 9]) in
  (scheduler_wait_task_status 2 (Some (WaitStatus 0 0 0)) s).1.2 = Some (WaitStatus 2 9 0) /\ exists c, to_reap 2 s c.
Proof.
  cbv zeta. set (s := run_ops _).
  assert (sched_inv s) as Hinv by (apply state0_inv; allowed).
  assert (state_of s (current_task s) = TASK_RUNNING) as Hz by (vm_compute; reflexivity).
  assert ((scheduler_wait_task_status 2 (Some (WaitStatus 0 0 0)) s).1.1 = 1) as Hr by (vm_compute; reflexivity).
  assert ((user_status <$> task_at s 2) = Some (TaskUserStatus 1 0 1 1 0 0 0 0 9 0 1)) as Hu by (vm_compute; reflexivity).
  clearbody s. pose proof (wait_reaps 2 (WaitStatus 0 0 0) s Hinv ltac:(congruence)) as Hw.
  destruct (scheduler_wait_task_status _ _ _) as [[r st'] s']. cbn [fst snd] in *. subst r.
  destruct Hw as (Hone & _ & _ & _ & Hre). split; [|by apply Hone]. destruct (Hre eq_refl) as (c & t & a & Hc & (_ & Ht & _) & _ & _ & _ & -> & _).
  assert (c = 2) as -> by (destruct Hc as (_ & _ & [[? _]|(_ & -> & _)]); done).
  rewrite Ht in Hu. injection Hu as ->. reflexivity.
Defined.
