(* ===== verification/UserTasks.v ===== *)
(** * The creation of a user task ([scheduler_create_user_task_from_image] of [scheduler.c])

    What a task created from an executable starts with: its code page, and a data page
    that holds its data, the argument vector and the argument's words. *)

From S2P Require Import Prelude BlockDevice Vfs Executable Mmu AddressSpace Task User Scheduler SchedulerProps.

(** ** The words of an argument *)

(** A string cut at every space, and the parts that are not empty. *)
Fixpoint pieces (a : list Z) : list (list Z) :=
  match a with
  | [] => [[]]
  | c :: a =>
      if c =? SPACE then [] :: pieces a
      else match pieces a with w :: ws => (c :: w) :: ws | [] => [[c]] end
  end.
Definition words (a : list Z) : list (list Z) := filter (fun w => w <> []) (pieces a).

Lemma split_word_pieces a : exists ps, pieces a = (split_word a).1 :: ps /\ pieces (split_word a).2 = [] :: ps.
Proof.
  induction a as [|c a (ps & E1 & E2)]; cbn [pieces split_word]; [by exists []|].
  destruct (c =? SPACE) eqn:Ec; cbn [fst snd]; [exists (pieces a); cbn [pieces]; by rewrite Ec|].
  destruct (split_word a) as [w r]. cbn [fst snd] in *. rewrite E1. by exists ps.
Qed.

Lemma words_skip a : words (skip_spaces a) = words a.
Proof. induction a as [|c a IH]; cbn [skip_spaces]; [done|]. destruct (c =? SPACE) eqn:Ec; [|done]. unfold words in *. cbn [pieces]. by rewrite Ec. Qed.

Lemma skip_spaces_head a c r : skip_spaces a = c :: r -> (c =? SPACE) = false.
Proof. induction a as [|x a IH]; cbn [skip_spaces]; [done|]. destruct (x =? SPACE) eqn:Ec; [done|]. by intros [= <- <-]. Qed.

Lemma skip_spaces_length a : (length (skip_spaces a) <= length a)%nat.
Proof. induction a as [|c a IH]; cbn [skip_spaces]; [done|]. destruct (c =? SPACE); cbn [length]; lia. Qed.

Lemma split_word_length a : length a = (length (split_word a).1 + length (split_word a).2)%nat.
Proof.
  induction a as [|c a IH]; cbn [split_word]; [done|]. destruct (c =? SPACE); [done|]. destruct (split_word a). cbn in *. lia.
Qed.

(** The word at the head, and the rest. *)
Lemma words_step a c r : skip_spaces a = c :: r ->
  words a = (split_word (c :: r)).1 :: words (split_word (c :: r)).2 /\ (0 < length (split_word (c :: r)).1)%nat.
Proof.
  intros E. pose proof (skip_spaces_head a c r E) as Hc. rewrite <- words_skip, E.
  destruct (split_word_pieces (c :: r)) as (ps & E1 & E2).
  assert (0 < length (split_word (c :: r)).1)%nat as Hl by (cbn [split_word]; rewrite Hc; destruct (split_word r); cbn; lia).
  split; [|done]. unfold words. rewrite E1, E2, filter_cons_True, filter_cons_False; [done|naive_solver|].
  destruct (split_word (c :: r)).1; [cbn in Hl; lia|done].
Qed.

Lemma words_none a : skip_spaces a = [] -> words a = [].
Proof. intros E. by rewrite <- words_skip, E. Qed.

(** What is left of the string once the word at its head is taken. *)
Lemma rest_shorter a c r : skip_spaces a = c :: r -> (length (split_word (c :: r)).1 + length (split_word (c :: r)).2 <= length a)%nat.
Proof. intros E. rewrite <- split_word_length, <- E. apply skip_spaces_length. Qed.

Lemma argc_loop_words fuel : forall a k, (length a < fuel)%nat -> 0 <= k <= TASK_USER_ARG_MAX ->
  argc_loop fuel a k =
  if k + Z.of_nat (length (words a)) >? TASK_USER_ARG_MAX then None else Some (k + Z.of_nat (length (words a))).
Proof.
  induction fuel as [|fuel IH]; intros a k Hf Hk; [lia|]. cbn [argc_loop].
  destruct (skip_spaces a) as [|c r] eqn:E.
  - rewrite (words_none a E). cbn [length]. rewrite Z.add_0_r, Z.gtb_ltb. by destruct (Z.ltb_spec TASK_USER_ARG_MAX k); [lia|].
  - destruct (words_step a c r E) as [Hw Hl]. pose proof (rest_shorter a c r E). rewrite Hw. cbn [length]. rewrite !Z.gtb_ltb.
    destruct (Z.ltb_spec TASK_USER_ARG_MAX (k + 1)).
    + by destruct (Z.ltb_spec TASK_USER_ARG_MAX (k + Z.of_nat (S (length (words (split_word (c :: r)).2))))); [|lia].
    + rewrite IH by lia. rewrite Z.gtb_ltb. replace (k + 1 + Z.of_nat (length (words (split_word (c :: r)).2)))
        with (k + Z.of_nat (S (length (words (split_word (c :: r)).2)))) by lia. done.
Qed.

(** The words one after the other, each with its terminator. *)
Definition strings (ws : list (list Z)) : list Z := concat ((fun w => w ++ [0]) <$> ws).

Lemma strings_filter (ps : list (list Z)) :
  (length (strings (filter (fun w => w <> []) ps)) <= length (concat ps) + length ps)%nat.
Proof.
  unfold strings. induction ps as [|w ws IH]; [done|]. destruct (decide (w = [])) as [->|Hw].
  - rewrite filter_cons_False by naive_solver. cbn [concat app length]. lia.
  - rewrite filter_cons_True by done. cbn [fmap list_fmap concat length]. rewrite !length_app. cbn [length]. lia.
Qed.

Lemma strings_length a : (length (strings (words a)) <= length a + 1)%nat.
Proof.
  pose proof (strings_filter (pieces a)) as Hl. unfold words.
  assert (length (concat (pieces a)) + length (pieces a) = length a + 1)%nat as E; [|lia].
  clear Hl. induction a as [|c a IH]; [done|]. cbn [pieces length]. destruct (c =? SPACE); [cbn [concat app length]; lia|].
  destruct (pieces a) as [|w ws]; cbn [concat app length] in *; rewrite ?length_app in *; cbn [length] in *; lia.
Qed.

(** ** Writing into the data page *)

Lemma write_at_app {A} (P : list A) cur w d : (cur <= length P)%nat ->
  write_at (write_at P cur w) (cur + length w) d = write_at P cur (w ++ d).
Proof.
  intros Hc. unfold write_at. rewrite !length_app. assert (length (take cur P ++ w) = (cur + length w)%nat) as El by (rewrite length_app, length_take; lia).
  rewrite (app_assoc (take cur P)), <- El, take_app_length, drop_app_add, drop_drop, El, <- !app_assoc. by rewrite Nat.add_assoc.
Qed.

Lemma write_at_under {A} (x y d : list A) k : write_at (x ++ y) (length x + k) d = x ++ write_at y k d.
Proof. unfold write_at. rewrite take_app_add, <- Nat.add_assoc, drop_app_add. by rewrite <- app_assoc. Qed.

Lemma write_at_over {A} (x y d : list A) : length x = length d -> write_at (x ++ y) 0 d = d ++ y.
Proof. intros E. unfold write_at. rewrite take_0. cbn [app Nat.add]. by rewrite <- E, drop_app_length. Qed.

(** The kernel's state with another data page in a slot. *)
Definition paged (n : nat) (P : list Z) (s : sys) : sys := set_spaces (set_page n 1 P (spaces s)) s.

(** A task with a space of its own in slot [n]. *)
Record owns (pid : Z) (n : nat) (space : address_space) (s : sys) : Prop := {
  ow_space : space_at (AsTask pid) s = Some space;
  ow_kind : as_kind space = ADDRESS_SPACE_USER;
  ow_slot : user_table_slot space = Z.of_nat n;
  ow_range : (n < 4)%nat;
  ow_wf : as_wf (spaces s);
}.

Lemma owns_paged pid n space s P : length P = 4096%nat -> owns pid n space s -> owns pid n space (paged n P s).
Proof. intros HP [H1 H2 H3 H4 H5]. split; [done..|]. by apply set_page_wf. Qed.

Lemma page_paged pid n space s P : owns pid n space s -> region_page n 1 (spaces (paged n P s)) = P.
Proof. intros Ho. unfold paged. cbn [spaces set_spaces]. by rewrite region_page_set by (try apply Ho; lia). Qed.

Lemma page_length pid n space s : owns pid n space s -> length (region_page n 1 (spaces s)) = 4096%nat.
Proof. intros Ho. apply region_page_length; [apply Ho|apply Ho|lia]. Qed.

Lemma set_page_twice n i P Q st : set_page n i Q (set_page n i P st) = set_page n i Q st.
Proof.
  unfold set_page. cbn. f_equal. apply list_eq. intros m. destruct (decide (m = n)) as [->|]; [|by rewrite !list_lookup_alter_ne].
  rewrite !list_lookup_alter_eq. destruct (user_region_pages st !! n); cbn; [|done]. by rewrite list_insert_insert_eq.
Qed.
Lemma paged_paged n P Q s : paged n Q (paged n P s) = paged n Q s.
Proof. unfold paged. cbn [spaces set_spaces]. by rewrite set_page_twice. Qed.
Lemma paged_same n s : paged n (region_page n 1 (spaces s)) s = s.
Proof.
  destruct s as [? ? ? ? ? ? ? st]. unfold paged, set_spaces, set_page, region_page. cbn. f_equal. destruct st as [? ? ? ? pages ?]. cbn. f_equal.
  apply list_eq. intros m. destruct (decide (m = n)) as [->|]; [|by rewrite list_lookup_alter_ne]. rewrite list_lookup_alter_eq.
  destruct (pages !! n) as [ps|] eqn:E; cbn; [|done]. f_equal. apply list_eq. intros j. destruct (decide (j = 1%nat)) as [->|]; [|by rewrite list_lookup_insert_ne].
  destruct (ps !! 1%nat) as [p|] eqn:Ep; cbn; [|by rewrite list_lookup_insert_None; tauto || done].
  rewrite list_lookup_insert_eq; [done|by eapply lookup_lt_Some].
Qed.
Lemma paged_length pid n space s off d : owns pid n space s -> (off + length d <= 4096)%nat ->
  length (write_at (region_page n 1 (spaces s)) off d) = 4096%nat.
Proof. intros Ho Hf. rewrite length_write_at; rewrite (page_length _ _ _ _ Ho); lia. Qed.

Section writes.
Context (pid : Z) (n : nat) (space : address_space).

Lemma write_data_paged off d s : owns pid n space s -> 0 <= off -> off + Z.of_nat (length d) <= 4096 ->
  write_data pid off d (Z.of_nat (length d)) s = (1, paged n (write_at (region_page n 1 (spaces s)) (Z.to_nat off) d) s).
Proof.
  intros Ho Hp Hf. pose proof (page_length _ _ _ _ Ho) as Hl. unfold write_data. rewrite (ow_space _ _ _ _ Ho). unfold address_space_write_user_data.
  rewrite bool_decide_eq_true_2 by apply Ho. cbn [negb orb]. rewrite (ow_slot _ _ _ _ Ho), Nat2Z.id, Z.geb_leb, !Z.gtb_ltb.
  unfold ADDRESS_SPACE_USER_TABLE_SLOTS. change ARM64_PAGE_SIZE with 4096. pose proof (ow_range _ _ _ _ Ho).
  rewrite (u64_small (4096 - off)) by lia. destruct (Z.leb_spec 4 (Z.of_nat n)); [lia|]. cbn [orb].
  replace (negb (bool_decide (is_Some (Some d)))) with false by (symmetry; apply negb_false_iff, bool_decide_eq_true_2; by eexists).
  rewrite andb_false_r. cbn [orb]. destruct (Z.ltb_spec 4096 off); [lia|]. destruct (Z.ltb_spec (4096 - off) (Z.of_nat (length d))); [lia|]. cbn [orb from_option id default].
  rewrite Nat2Z.id, firstn_all, copy_loop_write_at by lia. done.
Qed.

Lemma data_start_of s : owns pid n space s -> default 0 ((user_data_start ∘ user_address_space) <$> task_at s pid) = user_data_start space.
Proof.
  intros Ho. pose proof (ow_space _ _ _ _ Ho) as Hs. cbn [space_at] in Hs. destruct (task_at s pid) as [t|]; [|done]. by injection Hs as <-.
Qed.

(** Where the words go: one after the other. *)
Fixpoint addresses (base cursor : Z) (ws : list (list Z)) : list Z :=
  match ws with
  | [] => []
  | w :: ws => base + cursor :: addresses base (cursor + Z.of_nat (length w) + 1) ws
  end.

Lemma copy_words_paged m : forall a cur argv lens s, m = length (words a) -> owns pid n space s ->
  0 <= user_data_start space < 2 ^ 48 -> 0 <= cur -> cur + Z.of_nat (length (strings (words a))) <= 4096 ->
  copy_words m pid cur a argv lens s =
  (true, argv ++ addresses (user_data_start space) cur (words a), lens ++ ((fun w => Z.of_nat (length w)) <$> words a),
   paged n (write_at (region_page n 1 (spaces s)) (Z.to_nat cur) (strings (words a))) s).
Proof.
  induction m as [|m IH]; intros a cur argv lens s Hm Ho Hb Hc Hf.
  { destruct (words a); [|done]. cbn [copy_words addresses fmap list_fmap strings concat]. rewrite !app_nil_r, write_at_nil, paged_same. done. }
  destruct (skip_spaces a) as [|c r] eqn:E; [by rewrite (words_none a E) in Hm|].
  destruct (words_step a c r E) as [Hw Hl]. rewrite Hw in *. cbn [copy_words]. rewrite E.
  destruct (split_word (c :: r)) as [w rest]. cbn [fst snd] in *. cbn [length] in Hm. injection Hm as Hm.
  unfold strings in Hf |- *. cbn [fmap list_fmap concat] in Hf |- *. rewrite !length_app in Hf. cbn [length] in Hf.
  rewrite (data_start_of s Ho), (write_data_paged cur w s Ho) by lia. change (negb (truth 1)) with false. cbv iota.
  pose proof (page_length _ _ _ _ Ho) as Hpl.
  set (s1 := paged n (write_at (region_page n 1 (spaces s)) (Z.to_nat cur) w) s).
  assert (owns pid n space s1) as Ho1 by (apply owns_paged; [apply (paged_length _ _ _ _ _ _ Ho); lia|done]).
  rewrite (u64_small (cur + Z.of_nat (length w))) by lia.
  pose proof (write_data_paged (cur + Z.of_nat (length w)) [0] s1 Ho1 ltac:(lia) ltac:(cbn [length]; lia)) as E2. cbn [length] in E2.
  change (Z.of_nat 1) with 1 in E2. rewrite E2. cbn [snd]. set (s2 := paged n _ s1).
  assert (owns pid n space s2) as Ho2 by (apply owns_paged; [apply (paged_length _ _ _ _ _ _ Ho1); cbn [length]; lia|done]).
  rewrite (u64_small (cur + Z.of_nat (length w) + 1)) by lia.
  rewrite (IH rest (cur + Z.of_nat (length w) + 1) _ _ s2 Hm Ho2 Hb) by (unfold strings; lia).
  cbn [addresses]. rewrite u64_small by lia. rewrite <- !app_assoc. cbn [app]. f_equal. unfold s2, s1. rewrite !paged_paged.
  assert (forall P, region_page n 1 (spaces (paged n P s)) = P) as Hp by (intros P; exact (page_paged pid n space s P Ho)).
  rewrite !Hp. f_equal.
  replace (Z.to_nat (cur + Z.of_nat (length w))) with (Z.to_nat cur + length w)%nat by lia.
  rewrite write_at_app by lia. replace (Z.to_nat (cur + Z.of_nat (length w) + 1)) with (Z.to_nat cur + length (w ++ [0%Z]))%nat by (rewrite length_app; cbn [length]; lia).
  rewrite write_at_app by lia. by rewrite <- app_assoc.
Qed.
End writes.

(** ** The data page of a new task *)

(** The data, rounded up to a multiple of eight; the addresses and the lengths of the words,
    in two arrays of eight; the words; zeros. *)
Definition vector_offset (data_size : Z) : Z := (data_size + 7) / 8 * 8.
Definition strings_offset (data_size : Z) : Z := vector_offset data_size + 128.
Definition vector (l : list Z) : list Z := concat (bytes64 <$> l) ++ replicate (64 - 8 * length l) 0.
Definition first_page (data : list Z) (ws : list (list Z)) : list Z :=
  let size := Z.of_nat (length data) in
  let page := data ++ replicate (Z.to_nat (vector_offset size - size)) 0 ++
    vector (addresses ADDRESS_SPACE_USER_DATA_START (strings_offset size) ws) ++ vector ((fun w => Z.of_nat (length w)) <$> ws) ++ strings ws in
  page ++ replicate (4096 - length page) 0.

Lemma vector_offset_near size : size <= vector_offset size < size + 8.
Proof.
  unfold vector_offset. pose proof (Z.div_mod (size + 7) 8 ltac:(lia)). pose proof (Z.mod_pos_bound (size + 7) 8 ltac:(lia)). lia.
Qed.

Lemma vector_offset_eq size : 0 <= size <= 4096 -> Z.land (size +! 7) (~! 7) = vector_offset size.
Proof.
  intros Hs. unfold vector_offset. rewrite (u64_small (size + 7)) by lia. change (~! 7) with (~! (2 ^ 3 - 1)).
  rewrite land_high_mask by lia. change (2 ^ 3) with 8. pose proof (Z.div_mod (size + 7) 8 ltac:(lia)).
  pose proof (Z.mod_pos_bound (size + 7) 8 ltac:(lia)). lia.
Qed.

Lemma length_bytes64 v : length (bytes64 v) = 8%nat.
Proof. apply Nat2Z.inj, length_Z_to_little_endian. lia. Qed.

Lemma length_words64 l : length (concat (bytes64 <$> l)) = (8 * length l)%nat.
Proof. induction l as [|v l IH]; [done|]. cbn [fmap list_fmap concat length]. rewrite length_app, length_bytes64, IH. lia. Qed.

Lemma zero_words k : concat (bytes64 <$> replicate k 0) = replicate (8 * k) 0.
Proof.
  induction k as [|k IH]; [done|]. rewrite replicate_S. cbn [fmap list_fmap concat]. rewrite IH. change (bytes64 0) with (replicate 8 0).
  rewrite <- replicate_add. f_equal. lia.
Qed.

Lemma word_array_vector l : (length l <= 8)%nat -> word_array l = vector l.
Proof.
  intros Hl. unfold word_array, vector. rewrite fmap_app, concat_app, zero_words. do 2 f_equal. change (Z.to_nat TASK_USER_ARG_MAX) with 8%nat. lia.
Qed.

Lemma length_vector l : (length l <= 8)%nat -> length (vector l) = 64%nat.
Proof. intros Hl. unfold vector. rewrite length_app, length_words64, length_replicate. lia. Qed.

Lemma length_addresses base : forall ws cur, length (addresses base cur ws) = length ws.
Proof. induction ws as [|w ws IH]; intros cur; cbn; [done|by rewrite IH]. Qed.

(** The three writes of [scheduler_create_user_task_from_image], strings first. *)
Lemma first_page_writes (data : list Z) ws v1 v2 : let size := Z.of_nat (length data) in let off := Z.to_nat (vector_offset size) in
  length v1 = 64%nat -> length v2 = 64%nat -> vector_offset size + 128 + Z.of_nat (length (strings ws)) <= 4096 ->
  write_at (write_at (write_at (data ++ replicate (4096 - length data) 0) (off + 128) (strings ws)) off v1) (off + 64) v2 =
  (data ++ replicate (Z.to_nat (vector_offset size - size)) 0 ++ v1 ++ v2 ++ strings ws) ++ replicate (4096 - (off + 128 + length (strings ws))) 0.
Proof.
  cbv zeta. intros H1 H2 Hf. set (size := Z.of_nat (length data)) in *. pose proof (vector_offset_near size) as Ho.
  set (pad := Z.to_nat (vector_offset size - size)). set (off := Z.to_nat (vector_offset size)) in *.
  assert (off = length (data ++ replicate pad 0)) as Eo by (rewrite length_app, length_replicate; unfold off, pad; lia).
  set (head := data ++ replicate pad 0) in *.
  assert (data ++ replicate (4096 - length data) 0 = head ++ replicate 64 0 ++ replicate 64 0 ++ replicate (length (strings ws)) 0 ++
    replicate (4096 - (off + 128 + length (strings ws))) 0) as ->.
  { unfold head. rewrite <- app_assoc, <- !replicate_add. do 2 f_equal. unfold off, pad in *. lia. }
  set (tail := replicate (4096 - _) 0).
  rewrite Eo, write_at_under, (app_assoc (replicate 64 0)).
  replace 128%nat with (length (replicate 64 0%Z ++ replicate 64 0%Z) + 0)%nat at 1 by reflexivity.
  rewrite write_at_under, write_at_over by (by rewrite length_replicate). rewrite <- (app_assoc (replicate 64 0)).
  rewrite <- (Nat.add_0_r (length head)) at 1. rewrite write_at_under, write_at_over by (by rewrite length_replicate).
  rewrite write_at_under. assert (write_at (v1 ++ replicate 64 0 ++ strings ws ++ tail) 64 v2 = v1 ++ v2 ++ strings ws ++ tail) as ->.
  { replace 64%nat with (length v1 + 0)%nat at 2 by lia. by rewrite write_at_under, write_at_over by (by rewrite length_replicate). }
  unfold head. by rewrite <- !app_assoc.
Qed.

Lemma first_page_eq data ws : (length ws <= 8)%nat -> strings_offset (Z.of_nat (length data)) + Z.of_nat (length (strings ws)) <= 4096 ->
  let off := Z.to_nat (vector_offset (Z.of_nat (length data))) in
  write_at (write_at (write_at (data ++ replicate (4096 - length data) 0) (off + 128) (strings ws))
    off (vector (addresses ADDRESS_SPACE_USER_DATA_START (strings_offset (Z.of_nat (length data))) ws)))
    (off + 64) (vector ((fun w => Z.of_nat (length w)) <$> ws)) = first_page data ws.
Proof.
  intros Hn Hf. cbv zeta. unfold strings_offset in Hf. pose proof (vector_offset_near (Z.of_nat (length data))) as Ho.
  assert (length (vector (addresses ADDRESS_SPACE_USER_DATA_START (strings_offset (Z.of_nat (length data))) ws)) = 64%nat) as L1
    by (apply length_vector; by rewrite length_addresses).
  assert (length (vector ((fun w => Z.of_nat (length w)) <$> ws)) = 64%nat) as L2 by (apply length_vector; by rewrite length_fmap).
  rewrite first_page_writes by (done || lia). unfold first_page. cbv zeta. do 3 f_equal.
  rewrite !length_app, length_replicate, L1, L2. lia.
Qed.

(** ** The new task *)

(** What no creation touches: the current task, the registers, the sessions. *)
Definition rest (s : sys) : Z * mmu_regs * list user_session_state * Z := (current_task s, regs s, user_sessions s, threads_started s).

(** What a call that creates task [pid] in slot [n] leaves: a blocked task in its own
    space, ready to enter its program, and the other tasks as they were. *)
Record new_task (pid : Z) (n : nat) (image : saturn_exec_image) (argument : list Z) (s s' : sys) (t : task) : Prop := {
  nt_task : task_at s' pid = Some t;
  nt_pid : t_pid t = pid /\ parent_pid t = -1;
  nt_state : t_state t = TASK_BLOCKED;
  nt_space : address_space_ptr (memory t) = AsTask pid /\ user_table_slot (user_address_space t) = Z.of_nat n /\
    target_root_table (user_address_space t) <> 0 /\ switch_status (user_address_space t) = ADDRESS_SPACE_SWITCH_READY /\
    switch_ready (user_address_space t) = 1 /\ validation_ready (user_address_space t) = 1 /\ validation_errors (user_address_space t) = 0;
  nt_ready : user_mode_prepare (Some t) s' = USER_MODE_READY;
  nt_entry : el0 t = TaskEl0 (ADDRESS_SPACE_USER_CODE_START + i_entry_offset image) ADDRESS_SPACE_USER_STACK_END ARM64_SPSR_EL0T 1;
  nt_code : region_page n 0 (spaces s') = take (Z.to_nat (i_code_size image)) (i_code image) ++ replicate (4096 - Z.to_nat (i_code_size image)) 0;
  nt_data : region_page n 1 (spaces s') = first_page (take (Z.to_nat (i_data_size image)) (i_data image)) (words argument);
  nt_stack : region_page n 2 (spaces s') = replicate 4096 0;
  nt_arguments : user_argc t = Z.of_nat (length (words argument)) /\
    user_argv_address t = ADDRESS_SPACE_USER_DATA_START + vector_offset (i_data_size image) /\
    user_arg_lengths_address t = ADDRESS_SPACE_USER_DATA_START + vector_offset (i_data_size image) + 64;
  nt_others : forall i, i <> pid -> task_at s' i = task_at s i;
  nt_rest : rest s' = rest s;
}.

Section create.
Context `{CodeLayout} `{!AsLayout} `{!AsLayoutOk} (kernel_table : Z -> list Z).
Context {B : Type} `{BlockDevice B}.
Implicit Types (s : sys) (image : saturn_exec_image).

(** What the loader needs of an image. *)
Definition loadable image : Prop :=
  0 < i_code_size image <= 4096 /\ 0 <= i_data_size image <= 4096 /\ 0 <= i_entry_offset image < i_code_size image /\
  i_entry_offset image mod 4 = 0 /\ i_code_size image <= Z.of_nat (length (i_code image)) /\
  i_data_size image <= Z.of_nat (length (i_data image)).

Definition loaded_space image (space : address_space) : address_space :=
  set_image (ADDRESS_SPACE_USER_CODE_START + i_entry_offset image) (i_code_size image)
    (address_space_checksum_bytes (load_code (Some (i_code image)) (i_code_size image)) (i_code_size image)) space.

Lemma load_created image space root n st : created space root n -> (n < 4)%nat -> loadable image -> as_wf st ->
  exists st', address_space_load_user_image (Some space) (Some (i_code image)) (i_code_size image) (Some (i_data image)) (i_data_size image)
    (i_entry_offset image) st = (1, Some (loaded_space image space), st') /\ as_wf st' /\
  region_page n 0 st' = take (Z.to_nat (i_code_size image)) (i_code image) ++ replicate (4096 - Z.to_nat (i_code_size image)) 0 /\
  region_page n 1 st' = take (Z.to_nat (i_data_size image)) (i_data image) ++ replicate (4096 - Z.to_nat (i_data_size image)) 0 /\
  region_page n 2 st' = region_page n 2 st.
Proof.
  intros Hc Hn (I1 & I2 & I3 & I4 & I5 & I6) Hwf.
  pose proof (load_image_spec space (Some (i_code image)) (i_code_size image) (Some (i_data image)) (i_data_size image) (i_entry_offset image) st Hwf
    ltac:(rewrite (cr_slot _ _ _ Hc); lia) (cr_code _ _ _ Hc) ltac:(lia) ltac:(lia) ltac:(lia) I5 I6) as Hs.
  assert (load_ok space (Some (i_code image)) (i_code_size image) (Some (i_data image)) (i_data_size image) (i_entry_offset image)) as Hok.
  { split_and!; try apply Hc; rewrite ?(cr_slot _ _ _ Hc), ?(cr_mappings _ _ _ Hc); try done; try lia; by eexists. }
  destruct (load_cases space (Some (i_code image)) (i_code_size image) (Some (i_data image)) (i_data_size image) (i_entry_offset image) st
    ltac:(lia) ltac:(lia)) as [[_ E]|[Hno _]]; [|done].
  rewrite E in Hs |- *. rewrite (cr_slot _ _ _ Hc), Nat2Z.id in *. cbn [default from_option id] in Hs. rewrite decide_True in Hs by done.
  destruct Hs as (_ & Hp0 & Hp1 & Hp2 & _). eexists. split; [|split; [|split; [exact Hp0|split; [exact Hp1|exact Hp2]]]].
  - unfold loaded_space. rewrite (cr_code _ _ _ Hc), u64_small; [done|]. unfold ADDRESS_SPACE_USER_CODE_START. lia.
  - do 2 (apply set_page_wf; [apply load_code_length|]). done.
Qed.

Lemma owns_upd pid n space s f : 0 <= pid -> (forall t, user_address_space (f t) = user_address_space t) -> owns pid n space s -> owns pid n space (upd pid f s).
Proof.
  intros Hp Hf [O1 O2 O3 O4 O5]. split; try done. cbn [space_at] in *. rewrite task_at_upd_eq by done. destruct (task_at s pid); [|done].
  cbn in *. by rewrite Hf.
Qed.

(** The last part: the words, the two arrays, the entry state. *)
Lemma fill_new_task pid n space image argument s t : 0 <= pid -> owns pid n space s -> task_at s pid = Some t ->
  user_data_start space = ADDRESS_SPACE_USER_DATA_START -> address_space_ptr (memory t) = AsTask pid -> loadable image ->
  (length (words argument) <= 8)%nat -> strings_offset (i_data_size image) + Z.of_nat (length argument) + 1 <= 4096 ->
  region_page n 1 (spaces s) = take (Z.to_nat (i_data_size image)) (i_data image) ++ replicate (4096 - Z.to_nat (i_data_size image)) 0 ->
  let ab := vector_offset (i_data_size image) in
  let '(ok, argv, lengths, s5) := copy_words (length (words argument)) pid (strings_offset (i_data_size image)) argument [] [] s in
  let argv_address := default 0 ((user_data_start ∘ user_address_space) <$> task_at s5 pid) +! ab in
  let s6 := upd pid (set_arguments (Z.of_nat (length (words argument))) argv_address (argv_address +! TASK_USER_ARG_MAX * 8)) s5 in
  let (ok7, s7) := write_data pid ab (word_array argv) 64 s6 in
  let (ok8, s8) := write_data pid (ab +! 64) (word_array lengths) 64 s7 in
  let s' := scheduler_init_task_el0 pid s8 in
  let a := ADDRESS_SPACE_USER_DATA_START + ab in
  ok = true /\ ok7 = 1 /\ ok8 = 1 /\
  task_at s' pid = Some (set_el0 (init_el0 (Some space)) (set_arguments (Z.of_nat (length (words argument))) a (a + 64) t)) /\
  (forall i, i <> pid -> task_at s' i = task_at s i) /\ rest s' = rest s /\
  spaces s' = set_page n 1 (first_page (take (Z.to_nat (i_data_size image)) (i_data image)) (words argument)) (spaces s).
Proof.
  intros Hp Ho Ht Hds Hptr (_ & Hd & _ & _ & _ & Hdl) Hw Hf Hpage. cbv zeta. set (dsize := i_data_size image) in *.
  set (data := take (Z.to_nat dsize) (i_data image)) in *. assert (length data = Z.to_nat dsize) as Eld by (unfold data; rewrite length_take; lia).
  pose proof (strings_length argument). set (ws := words argument) in *. pose proof (vector_offset_near dsize). unfold strings_offset in Hf.
  pose proof (page_length _ _ _ _ Ho) as Hpl. rewrite (copy_words_paged pid n space (length ws) argument _ [] [] s eq_refl Ho)
    by (rewrite ?Hds; unfold ADDRESS_SPACE_USER_DATA_START, strings_offset; fold ws; lia).
  cbn [app]. fold ws. rewrite Hds. set (P5 := write_at _ _ _). set (s5 := paged n P5 s).
  assert (owns pid n space s5) as Ho5 by (apply owns_paged; [apply (paged_length _ _ _ _ _ _ Ho); unfold strings_offset; lia|done]).
  rewrite (data_start_of pid n space s5 Ho5), Hds. rewrite (u64_small (ADDRESS_SPACE_USER_DATA_START + _)) by (unfold ADDRESS_SPACE_USER_DATA_START; lia).
  change (TASK_USER_ARG_MAX * 8) with 64. rewrite u64_small by (unfold ADDRESS_SPACE_USER_DATA_START; lia). set (a := ADDRESS_SPACE_USER_DATA_START + vector_offset dsize).
  set (f := set_arguments _ _ _). assert (owns pid n space (upd pid f s5)) as Ho6 by (by apply owns_upd). set (s6 := upd pid f s5) in *.
  rewrite !word_array_vector by (rewrite ?length_addresses, ?length_fmap; done).
  set (v1 := vector (addresses _ _ _)). set (v2 := vector (_ <$> _)).
  assert (length v1 = 64%nat) as L1 by (apply length_vector; by rewrite length_addresses).
  assert (length v2 = 64%nat) as L2 by (apply length_vector; by rewrite length_fmap).
  pose proof (write_data_paged pid n space (vector_offset dsize) v1 s6 Ho6 ltac:(lia) ltac:(lia)) as E7. rewrite L1 in E7. change (Z.of_nat 64) with 64 in E7. rewrite E7.
  set (s7 := paged n _ s6). assert (owns pid n space s7) as Ho7 by (apply owns_paged; [apply (paged_length _ _ _ _ _ _ Ho6); lia|done]).
  rewrite (u64_small (vector_offset dsize + 64)) by lia.
  pose proof (write_data_paged pid n space (vector_offset dsize + 64) v2 s7 Ho7 ltac:(lia) ltac:(lia)) as E8. rewrite L2 in E8. change (Z.of_nat 64) with 64 in E8. rewrite E8.
  split; [done|]. split; [done|]. split; [done|].
  set (P8 := write_at _ _ v2). assert (P8 = first_page data ws) as EP.
  { unfold P8, s7. assert (forall P, region_page n 1 (spaces (paged n P s6)) = P) as Hp6 by (intros P; exact (page_paged pid n space s6 P Ho6)).
    rewrite Hp6. change (spaces s6) with (spaces s5). assert (region_page n 1 (spaces s5) = P5) as -> by exact (page_paged pid n space s P5 Ho).
    assert (Z.of_nat (length data) = dsize) as Ez by lia. unfold P5. rewrite Hpage.
    rewrite <- (first_page_eq data ws) by (rewrite ?Ez; unfold strings_offset; lia). cbv zeta. rewrite Ez, Eld.
    unfold v1, v2, strings_offset. rewrite !Z2Nat.inj_add by lia. done. }
  set (s8 := paged n P8 s7). assert (task_at s8 pid = Some (f t)) as Et8.
  { change (task_at s8 pid) with (task_at (upd pid f s5) pid). rewrite task_at_upd_eq by done. change (task_at s5 pid) with (task_at s pid). by rewrite Ht. }
  assert (space_at (space_ptr s8 pid) s8 = Some space) as Esp.
  { unfold space_ptr. rewrite Et8. cbn [fmap option_fmap option_map default from_option id compose]. change (memory (f t)) with (memory t). rewrite Hptr.
    apply (ow_space _ _ _ _ (owns_paged pid n space s7 P8 ltac:(apply (paged_length _ _ _ _ _ _ Ho7); lia) Ho7)). }
  unfold scheduler_init_task_el0. rewrite Esp. split; [|split; [|split]].
  - by rewrite task_at_upd_eq, Et8.
  - intros i Hi. rewrite task_at_upd_ne by done. change (task_at s8 i) with (task_at (upd pid f s5) i). by rewrite task_at_upd_ne.
  - done.
  - cbn [spaces upd set_tasks]. unfold s8, s7, s6, s5. cbn [paged spaces set_spaces upd set_tasks]. by rewrite !set_page_twice, EP.
Qed.

Lemma free_slot_range (st : as_state) n : as_wf st -> free_slot (user_table_slots_used st) 0 = Some n -> (n < 4)%nat.
Proof.
  intros Hwf Hf. apply free_slot_spec in Hf as (_ & Hn & _). apply lookup_lt_Some in Hn. rewrite Nat.sub_0_r, (wf_used st Hwf) in Hn. done.
Qed.

(** The state with the space created and the image loaded, and the task's fields set. *)
Lemma prepare_new_task nm image label root n pid s1 u : as_wf (spaces s1) -> kernel_map_ok kernel_table root ->
  root_table (kernel_address_space (spaces s1)) = root -> free_slot (user_table_slots_used (spaces s1)) 0 = Some n ->
  loadable image -> 0 <= pid -> task_at s1 pid = Some u ->
  let '(space, st) := address_space_init_user kernel_table nm (root_table (kernel_address_space (spaces s1))) (spaces s1) in
  let s2 := put_space (AsTask pid) (Some space) (set_spaces st s1) in
  let '(ok, space', st') := address_space_load_user_image (space_at (AsTask pid) s2) (Some (i_code image))
        (i_code_size image) (Some (i_data image)) (i_data_size image) (i_entry_offset image) (spaces s2) in
  let s3 := put_space (AsTask pid) space' (set_spaces st' s2) in
  let s4 := upd pid (set_address_space_ptr (AsTask pid) ∘ fresh_task pid label TASK_BLOCKED 0) s3 in
  let v := loaded_space image space in
  ok = 1 /\ created space root n /\ owns pid n v s4 /\
  task_at s4 pid = Some (set_address_space_ptr (AsTask pid) (fresh_task pid label TASK_BLOCKED 0 (set_user_address_space v u))) /\
  (forall i, i <> pid -> task_at s4 i = task_at s1 i) /\ rest s4 = rest s1 /\
  region_page n 0 (spaces s4) = take (Z.to_nat (i_code_size image)) (i_code image) ++ replicate (4096 - Z.to_nat (i_code_size image)) 0 /\
  region_page n 1 (spaces s4) = take (Z.to_nat (i_data_size image)) (i_data image) ++ replicate (4096 - Z.to_nat (i_data_size image)) 0 /\
  region_page n 2 (spaces s4) = replicate 4096 0.
Proof.
  intros Hwf Hk Hroot Hf Hi Hp Hu. rewrite Hroot. pose proof (free_slot_range _ n Hwf Hf) as Hn.
  pose proof (init_user_slot kernel_table nm root (spaces s1) n Hwf Hk Hf) as [Hc Hst].
  pose proof (init_state_wf kernel_table root n (spaces s1) Hwf) as Hwf2.
  destruct (address_space_init_user kernel_table nm root (spaces s1)) as [space st]. cbn [fst snd] in Hc, Hst.
  cbv zeta. cbn [put_space]. set (s2 := upd pid (set_user_address_space space) (set_spaces st s1)).
  assert (task_at s2 pid = Some (set_user_address_space space u)) as Et2.
  { unfold s2. rewrite task_at_upd_eq by done. change (task_at (set_spaces st s1) pid) with (task_at s1 pid). by rewrite Hu. }
  assert (space_at (AsTask pid) s2 = Some space) as -> by (cbn [space_at]; by rewrite Et2).
  change (spaces s2) with st. assert (as_wf st) as Hwst by (subst st; by apply Hwf2).
  destruct (load_created image space root n st Hc Hn Hi Hwst) as (st' & E & Hwf' & Hp0 & Hp1 & Hp2). rewrite E.
  set (s3 := upd pid (set_user_address_space (loaded_space image space)) (set_spaces st' s2)).
  assert (task_at s3 pid = Some (set_user_address_space (loaded_space image space) u)) as Et3.
  { unfold s3. rewrite task_at_upd_eq by done. change (task_at (set_spaces st' s2) pid) with (task_at s2 pid). by rewrite Et2. }
  assert (task_at (upd pid (set_address_space_ptr (AsTask pid) ∘ fresh_task pid label TASK_BLOCKED 0) s3) pid =
    Some (set_address_space_ptr (AsTask pid) (fresh_task pid label TASK_BLOCKED 0 (set_user_address_space (loaded_space image space) u)))) as Et4
    by (by rewrite task_at_upd_eq, Et3).
  split; [done|]. split; [done|]. split; [split|].
  - cbn [space_at]. by rewrite Et4.
  - apply Hc.
  - apply Hc.
  - done.
  - done.
  - split; [exact Et4|]. split; [|split; [done|split; [exact Hp0|split; [exact Hp1|]]]].
    + intros i Hi'. rewrite task_at_upd_ne by done. unfold s3. rewrite task_at_upd_ne by done.
      change (task_at (set_spaces st' s2) i) with (task_at s2 i). unfold s2. by rewrite task_at_upd_ne.
    + cbn [spaces upd set_tasks s3 set_spaces]. rewrite Hp2, Hst. unfold region_page, init_state. cbn [user_region_pages].
      rewrite list_lookup_insert_eq by (rewrite (wf_pages _ Hwf); lia). done.
Qed.

Lemma parse_loadable file size image : (24 <= length file)%nat -> Forall is_byte file -> 0 <= size <= Z.of_nat (length file) -> size < 2 ^ 64 ->
  saturn_exec_parse (Some file) size true = Some image -> loadable image.
Proof.
  intros Hl Hb Hs Hs' E. pose proof (parse_guards file size image Hl Hb ltac:(lia) E) as (_ & _ & _ & _ & Hc & Hd & He & Hm & Hsum & _ & ->).
  unfold loadable. cbn [i_code_size i_data_size i_entry_offset i_code i_data]. rewrite !length_drop. split_and!; lia.
Qed.

Lemma argument_length_loop_eq a : forall k, 0 <= k <= TASK_USER_ARGUMENT_MAX ->
  argument_length_loop a k = if k + Z.of_nat (length a) >? TASK_USER_ARGUMENT_MAX then None else Some (k + Z.of_nat (length a)).
Proof.
  induction a as [|c a IH]; intros k Hk; cbn [argument_length_loop length]; rewrite !Z.gtb_ltb.
  - destruct (Z.ltb_spec TASK_USER_ARGUMENT_MAX (k + Z.of_nat 0)); [lia|]. f_equal. lia.
  - destruct (Z.ltb_spec TASK_USER_ARGUMENT_MAX (k + 1)).
    + by destruct (Z.ltb_spec TASK_USER_ARGUMENT_MAX (k + Z.of_nat (S (length a)))); [|lia].
    + rewrite IH, Z.gtb_ltb by lia. by replace (k + 1 + Z.of_nat (length a)) with (k + Z.of_nat (S (length a))) by lia.
Qed.

(** What is asked of an argument: its length, the number of its words, and room for it in
    the data page. *)
Definition argument_fits (data_size : Z) (argument : list Z) : Prop :=
  Z.of_nat (length argument) <= TASK_USER_ARGUMENT_MAX /\ Z.of_nat (length (words argument)) <= TASK_USER_ARG_MAX /\
  strings_offset data_size + Z.of_nat (length argument) + 1 <= 4096.

#[export] Instance argument_fits_dec data_size argument : Decision (argument_fits data_size argument).
Proof. unfold argument_fits. apply _. Defined.

(** The checks of the argument, and what follows them. *)
Lemma create_checks nm file size argument image s : saturn_exec_parse (Some file) size true = Some image -> loadable image ->
  create_user_task kernel_table nm (Some (file, size)) argument s =
  let a := default [] argument in
  if decide (argument_fits (i_data_size image) a) then
    setup_user_task kernel_table nm image a (Z.of_nat (length (words a))) (vector_offset (i_data_size image)) (strings_offset (i_data_size image)) s
  else (-1, s).
Proof.
  intros E (_ & Hd & _). cbv zeta. unfold create_user_task. rewrite E. cbv zeta. set (a := default [] argument). set (size' := i_data_size image) in *.
  rewrite argument_length_loop_eq, argc_loop_words, vector_offset_eq, !Z.gtb_ltb by (unfold TASK_USER_ARGUMENT_MAX, TASK_USER_ARG_MAX; lia).
  rewrite !Z.add_0_l. pose proof (vector_offset_near size'). change (2 * TASK_USER_ARG_MAX * 8) with 128. unfold argument_fits, strings_offset.
  rewrite (u64_small (vector_offset size' + 128)) by lia.
  destruct (Z.ltb_spec TASK_USER_ARGUMENT_MAX (Z.of_nat (length a))) as [|Ha]; [rewrite decide_False by lia; done|].
  destruct (Z.ltb_spec TASK_USER_ARG_MAX (Z.of_nat (length (words a)))); [rewrite decide_False by lia; done|].
  unfold TASK_USER_ARGUMENT_MAX in *. rewrite u64_small by (rewrite u64_small; lia). rewrite u64_small by lia.
  rewrite Z.gtb_ltb. destruct (Z.ltb_spec 4096 (vector_offset size' + 128 + Z.of_nat (length a) + 1)); [rewrite decide_False by lia|rewrite decide_True by lia]; done.
Qed.

Lemma setup_new_task nm image a s root n pid s1 : sched_inv s -> as_wf (spaces s) -> kernel_map_ok kernel_table root ->
  root_table (kernel_address_space (spaces s)) = root -> free_slot (user_table_slots_used (spaces s)) 0 = Some n ->
  take_slot s = Some (pid, s1) -> loadable image -> argument_fits (i_data_size image) a ->
  let r := setup_user_task kernel_table nm image a (Z.of_nat (length (words a))) (vector_offset (i_data_size image)) (strings_offset (i_data_size image)) s in
  r.1 = pid /\ exists t, new_task pid n image a s r.2 t.
Proof.
  intros Hinv Hwf Hk Hroot Hf Ht Hi (_ & Hw & Hroom). cbv zeta. unfold setup_user_task. rewrite Ht.
  destruct (take_slot_hole s pid s1 Hinv Ht) as (Hh & Etasks & Esp). pose proof (ho_range pid s1 Hh) as Hr. pose proof (ho_count pid s1 Hh) as Hcnt.
  assert (rest s1 = rest s) as Ecur.
  { unfold take_slot in Ht. destruct (List.find _ _); [by injection Ht as _ <-|]. destruct (_ >=? _); [done|]. by injection Ht as _ <-. }
  assert (forall i, task_at s1 i = task_at s i) as Eat by (intros i; unfold task_at; by rewrite Etasks).
  destruct (Z.geb_spec pid SCHED_MAX_TASKS); [lia|]. rewrite <- Esp in Hwf, Hroot, Hf.
  destruct (lookup_lt_is_Some_2 (tasks s1) (Z.to_nat pid)) as [u Hu]; [rewrite (ho_len _ _ Hh); unfold SCHED_MAX_TASKS in *; lia|].
  rewrite <- task_at_eq in Hu by lia. set (nm' := Some (default (lit "user-demo") nm)).
  pose proof (prepare_new_task nm' image nm' root n pid s1 u Hwf Hk Hroot Hf Hi ltac:(lia) Hu) as Hprep. cbv zeta in Hprep.
  destruct (address_space_init_user _ _ _ _) as [space st]. set (s2 := put_space _ _ _) in *.
  destruct (address_space_load_user_image _ _ _ _ _ _ _) as [[ok space'] st']. set (s3 := put_space _ space' _) in *.
  set (s4 := upd pid _ s3) in *. destruct Hprep as (-> & Hc & Ho & Ht4 & Hot & Hcu & Hp0 & Hp1 & Hp2). change (negb (truth 1)) with false. cbv iota.
  set (t4 := set_address_space_ptr _ _) in Ht4. clearbody s4. rewrite Nat2Z.id.
  pose proof (fill_new_task pid n (loaded_space image space) image a s4 t4 ltac:(lia) Ho Ht4 (cr_data _ _ _ Hc) eq_refl Hi
    ltac:(unfold TASK_USER_ARG_MAX in Hw; lia) Hroom Hp1) as Hfill. cbv zeta in Hfill.
  destruct (copy_words _ _ _ _ _ _ s4) as [[[ok argv] lengths] s5]. set (s6 := upd pid _ s5) in *.
  destruct (write_data pid _ _ _ s6) as [ok7 s7]. destruct (write_data pid _ _ _ s7) as [ok8 s8].
  destruct Hfill as (-> & -> & -> & Htask & Hothers & Hcur & Hsp). change (negb (truth 1)) with false. change (negb true) with false. cbv iota. cbn [fst snd].
  split; [done|]. set (s' := scheduler_init_task_el0 pid s8) in *. clearbody s'. eexists. destruct Hi as (I1 & I2 & I3 & I4 & I5 & I6).
  assert (user_image_entry (loaded_space image space) = ADDRESS_SPACE_USER_CODE_START + i_entry_offset image) as Een by done.
  assert (init_el0 (Some (loaded_space image space)) = TaskEl0 (ADDRESS_SPACE_USER_CODE_START + i_entry_offset image) ADDRESS_SPACE_USER_STACK_END ARM64_SPSR_EL0T 1) as Eel.
  { unfold init_el0. cbn [loaded_space set_image as_kind user_mappings_ready user_execute_ready user_image_ready user_image_entry user_stack_end].
    rewrite (cr_kind _ _ _ Hc), (cr_mappings _ _ _ Hc), (cr_execute _ _ _ Hc), (cr_stack _ _ _ Hc). reflexivity. }
  rewrite Eel in Htask. pose proof (ow_wf _ _ _ _ Ho) as Hwf4. pose proof (ow_range _ _ _ _ Ho) as Hn4.
  split; [exact Htask|done|done| | |done| | | |done| |congruence].
  - split; [done|]. split; [exact (cr_slot _ _ _ Hc)|]. cbn. split; [|split_and!; apply Hc]. rewrite (cr_target _ _ _ Hc). apply l1_address_pos. lia.
  - unfold user_mode_prepare, user_mode_can_enter. cbn [memory set_el0 set_arguments t4 set_address_space_ptr set_memory address_space_ptr space_at].
    rewrite Htask. cbn [fmap option_fmap option_map user_address_space set_el0 set_arguments t4 set_address_space_ptr set_memory fresh_task set_user_address_space].
    cbn [loaded_space set_image as_kind validation_ready validation_errors user_image_ready].
    rewrite (cr_kind _ _ _ Hc), (cr_valid _ _ _ Hc), (cr_errors _ _ _ Hc). cbn [el0 set_el0 el0_ready el0_pc el0_sp el0_spsr].
    rewrite bool_decide_eq_true_2 by done. change (truth 1) with true. change (truth 0) with false. cbn [negb orb].
    unfold truth. destruct (Z.eqb_spec (ADDRESS_SPACE_USER_CODE_START + i_entry_offset image) 0) as [E0|]; [unfold ADDRESS_SPACE_USER_CODE_START in E0; lia|]. reflexivity.
  - rewrite Hsp, region_page_set by (done || lia). exact Hp0.
  - rewrite Hsp, region_page_set by (done || lia). done.
  - rewrite Hsp, region_page_set by (done || lia). exact Hp2.
  - intros i Hi'. by rewrite Hothers, Hot.
Qed.

(** What a creation leaves when there is an entry [pid] of the task table for it and no slot
    of translation tables: everything is as it was - every other task, the slots, tables and
    pages, the registers and sessions -, but for the address space in the unused entry, which
    is the blocked one made without a slot. An entry at the end of the table is given back. *)
Record creation_undone (pid : Z) (s s' : sys) : Prop := {
  cu_entry : exists v u, task_at s pid = Some u /\ task_at s' pid = Some (set_user_address_space v u) /\
    t_state u = TASK_UNUSED /\ as_kind v = ADDRESS_SPACE_USER /\ user_table_slot v = ADDRESS_SPACE_USER_TABLE_SLOTS /\
    user_mappings_ready v = 0 /\ switch_status v = ADDRESS_SPACE_SWITCH_BLOCKED;
  cu_others : forall i, i <> pid -> task_at s' i = task_at s i;
  cu_spaces : spaces s' = spaces s;
  cu_count : task_count s' = task_count s \/ pid = task_count s - 1 /\ task_count s' = pid;
  cu_rest : rest s' = rest s;
}.

Lemma setup_no_slot nm image a argc base offset s pid s1 : sched_inv s -> loadable image ->
  free_slot (user_table_slots_used (spaces s)) 0 = None -> take_slot s = Some (pid, s1) ->
  let r := setup_user_task kernel_table nm image a argc base offset s in r.1 = -1 /\ creation_undone pid s r.2.
Proof.
  intros Hinv (Hl & _) Hf Ht. cbv zeta. unfold setup_user_task. rewrite Ht.
  destruct (take_slot_hole s pid s1 Hinv Ht) as (Hh & Etasks & Esp). pose proof (ho_range pid s1 Hh) as Hr. pose proof (ho_count pid s1 Hh) as Hcnt.
  assert (rest s1 = rest s /\ (task_count s1 = task_count s \/ task_count s1 = task_count s + 1 /\ pid = task_count s)) as [Ecur Ecount].
  { unfold take_slot in Ht. destruct (List.find _ _); [injection Ht as _ <-; by split; [|left]|]. destruct (_ >=? _); [done|]. injection Ht as <- <-. by split; [|right]. }
  assert (forall i, task_at s1 i = task_at s i) as Eat by (intros i; unfold task_at; by rewrite Etasks).
  destruct (Z.geb_spec pid SCHED_MAX_TASKS); [lia|]. rewrite <- Esp in Hf.
  destruct (lookup_lt_is_Some_2 (tasks s1) (Z.to_nat pid)) as [u Hu]; [rewrite (ho_len _ _ Hh); unfold SCHED_MAX_TASKS in *; lia|].
  rewrite <- task_at_eq in Hu by lia.
  pose proof (init_user_full kernel_table (Some (default (lit "user-demo") nm)) (root_table (kernel_address_space (spaces s1))) (spaces s1) Hf) as Hv.
  destruct (address_space_init_user _ _ _ _) as [v st]. cbn [fst snd] in Hv. destruct Hv as (-> & Vk & Vs & _ & Vm & _ & Vw).
  cbn [put_space]. assert (set_spaces (spaces s1) s1 = s1) as -> by (by destruct s1). set (s2 := upd pid (set_user_address_space v) s1).
  assert (space_at (AsTask pid) s2 = Some v) as E2 by (unfold s2; cbn [space_at]; rewrite task_at_upd_eq, Hu by lia; done).
  rewrite E2. change (spaces s2) with (spaces s1).
  assert (address_space_load_user_image (Some v) (Some (i_code image)) (i_code_size image) (Some (i_data image)) (i_data_size image) (i_entry_offset image) (spaces s1) = (0, Some v, spaces s1)) as ->.
  { unfold address_space_load_user_image. rewrite Vk, Vs. done. }
  change (negb (truth 0)) with true. cbv iota. cbn [put_space].
  assert (upd pid (set_user_address_space v) (set_spaces (spaces s1) s2) = s2) as E3.
  { unfold s2. assert (forall f g x, f ∘ g = g -> upd pid f (set_spaces (spaces x) (upd pid g x)) = upd pid g x) as Htwice; [|by apply Htwice].
    intros f g x Hfg. destruct x. unfold upd, set_spaces, set_tasks. cbn. f_equal. apply list_eq. intros j. destruct (decide (j = Z.to_nat pid)) as [->|].
    - rewrite !list_lookup_alter_eq, <- option_fmap_compose, Hfg. done.
    - by rewrite !list_lookup_alter_ne by done. }
  rewrite E3. unfold destroy_space. rewrite E2.
  destruct (destroy_cases v (spaces s2)) as [(_ & Hlt & _)|[_ ->]]; [rewrite Vs in Hlt; unfold ADDRESS_SPACE_USER_TABLE_SLOTS in Hlt; lia|].
  change (spaces s2) with (spaces s1). cbn [put_space]. rewrite E3. cbn [fst snd]. split; [done|].
  assert (task_at s2 pid = Some (set_user_address_space v u)) as Et2 by (unfold s2; rewrite task_at_upd_eq, Hu by lia; done).
  assert (forall i, i <> pid -> task_at s2 i = task_at s i) as Ei by (intros i Hi; unfold s2; rewrite task_at_upd_ne by (done || lia); apply Eat).
  assert (t_state u = TASK_UNUSED) as Eu by (rewrite <- (state_of_at _ _ _ Hu); exact (ho_free _ _ Hh)). rewrite Eat in Hu.
  split.
  - exists v, u. by destruct (_ =? _).
  - intros i Hi. destruct (_ =? _); [change (task_at (set_task_count ?c s2) i) with (task_at s2 i)|]; by apply Ei.
  - by destruct (_ =? _).
  - change (task_count s2) with (task_count s1). destruct (Z.eqb_spec pid (task_count s1 - 1)); cbn [task_count set_task_count]; [|change (task_count s2) with (task_count s1)]; lia.
  - by destruct (_ =? _).
Qed.

(** (C9) Creating a task from an executable, in every case. The file, when there is one, is
    at least a header of bytes, with the size the caller states. If it parses, its argument
    fits (128 characters, eight words, room in the data page), an entry [pid] of the task
    table is unused and a slot [n] of translation tables is free, the call returns [pid] and
    the entry holds a blocked task in a space of its own that is ready to enter its program
    at the entry point with an empty stack; the code page holds the code and zeros; the data
    page holds the data and then, where the task's fields point, the addresses and the
    lengths of the argument's words and the words with their terminators; every other task
    is as it was. Without a file, when it does not parse, when the argument does not fit, or
    without an unused entry the call returns -1 and changes nothing; with an entry but no
    free slot it returns -1 and has changed nothing but the address space in the unused
    entry. The invariant of the scheduler holds after it in all cases. *)
Theorem created_task_ready nm file argument s root :
  sched_inv s -> as_wf (spaces s) -> kernel_map_ok kernel_table root -> root_table (kernel_address_space (spaces s)) = root ->
  (forall f size, file = Some (f, size) -> (24 <= length f)%nat /\ Forall is_byte f /\ 0 <= size <= Z.of_nat (length f) /\ size < 2 ^ 64) ->
  let a := default [] argument in
  let r := create_user_task kernel_table nm file argument s in
  sched_inv r.2 /\
  match '(f, size) ← file; saturn_exec_parse (Some f) size true with
  | None => r = (-1, s)
  | Some image =>
      if decide (argument_fits (i_data_size image) a) then
        match take_slot s, free_slot (user_table_slots_used (spaces s)) 0 with
        | None, _ => r = (-1, s)
        | Some (pid, _), None => r.1 = -1 /\ creation_undone pid s r.2
        | Some (pid, _), Some n => r.1 = pid /\ exists t, new_task pid n image a s r.2 t
        end
      else r = (-1, s)
  end.
Proof.
  intros Hinv Hwf Hk Hroot Hfile. cbv zeta. split; [by apply sched_inv_create|].
  destruct file as [[f size]|]; [|done]. destruct (Hfile f size eq_refl) as (Hl & Hb & Hs & Hs'). cbn [mbind option_bind].
  destruct (saturn_exec_parse (Some f) size true) as [image|] eqn:E; [|unfold create_user_task; by rewrite E].
  pose proof (parse_loadable f size image Hl Hb Hs Hs' E) as Hi. rewrite (create_checks nm f size argument image s E Hi). cbv zeta.
  case_decide as Hfit; [|done]. destruct (take_slot s) as [[pid s1]|] eqn:Ht; [|unfold setup_user_task; by rewrite Ht].
  destruct (free_slot _ 0) as [n|] eqn:Hf; [by eapply setup_new_task|by eapply setup_no_slot].
Qed.
End create.

(** ** Witness *)

#[local] Existing Instance code0.
#[local] Existing Instance layout0.
#[local] Existing Instance layout0_ok.

Definition idle_system : sys := scheduler_init boot0.
Definition word_argument : list Z := lit " one  two".
Definition idle_created : Z * sys := create_user_task kernel_table0 None program0 (Some word_argument) idle_system.

Example argument_words : words word_argument = [lit "one"; lit "two"].
Proof. reflexivity. Qed.

Lemma created_task_ready_witness :
  idle_created.1 = 1 /\ region_page 0 1 (spaces idle_created.2) = first_page [7] [lit "one"; lit "two"].
Proof.
  assert (sched_inv idle_system) as Hi by (apply sched_inv_init, boot0_ok).
  assert (as_wf (spaces idle_system)) as Hwf by (destruct as_state0_wf; by split).
  assert (Forall is_byte (exec_bytes sample_code [7] 0)) as Hb by (apply (bool_decide_eq_true_1 (Forall is_byte _)); vm_compute; reflexivity).
  assert (forall f size, program0 = Some (f, size) -> (24 <= length f)%nat /\ Forall is_byte f /\ 0 <= size <= Z.of_nat (length f) /\ size < 2 ^ 64) as Hfile.
  { intros f size [= <- <-]. split_and!; [vm_compute; lia|exact Hb|lia|vm_compute; congruence|lia]. }
  destruct (created_task_ready kernel_table0 None program0 (Some word_argument) idle_system 0x40090000 Hi Hwf kernel_map0_ok eq_refl Hfile) as [_ Hr].
  assert (program0 ≫= (fun '(f, size) => saturn_exec_parse (Some f) size true) = Some (ExecImage [0; 0; 0; 0xD4; 7] [7] 4 1 0)) as Ep by reflexivity.
  rewrite Ep in Hr. rewrite decide_True in Hr by (unfold argument_fits; vm_compute; split_and!; congruence).
  destruct Hr as (E & t & Hn). split; [exact E|exact (nt_data _ _ _ _ _ _ _ Hn)].
Defined.
