(* ===== verification/Syscall.v ===== *)
(** * System calls ([kernel/syscall/syscall.c])

    The 25 handlers and the dispatcher, over the scheduler, user mode, the file system and
    the page allocator. A handler reads and writes the caller's memory through the
    translation tables of the current root ([TTBR0_EL1]); an access with no translation to
    a user page, or a store to a read-only one, is a fault of the kernel, where the
    handler ends ([None] in the monad [M]). A call that gives the processor away leaves
    what remains of it as data ([pending]), and [resume] runs the rest. Console output is
    the list of characters; the report [syscall_dump_stats] is in [Reports]. *)

From S2P Require Import Prelude PageAllocator Pmm BlockDevice Sfs Vfs Executable Mmu AddressSpace Task User Scheduler.

(** ** Definitions *)

Definition SYSCALL_STDOUT : Z := 1.
Definition SYSCALL_STDERR : Z := 2.
Definition SYSCALL_WRITE_MAX : Z := 128.
Definition SYSCALL_READ_MAX : Z := 128.
Definition SYSCALL_SLEEP_MAX_MS : Z := 60000.
Definition SYSCALL_ERR_INVAL : Z := -1.
Definition SYSCALL_ERR_FAULT : Z := -2.

Definition SYSCALL_WRITE : Z := 1.
Definition SYSCALL_EXIT : Z := 2.
Definition SYSCALL_YIELD : Z := 3.
Definition SYSCALL_OPEN : Z := 4.
Definition SYSCALL_READ : Z := 5.
Definition SYSCALL_CLOSE : Z := 6.
Definition SYSCALL_CREATE : Z := 7.
Definition SYSCALL_SEEK : Z := 8.
Definition SYSCALL_WAIT : Z := 9.
Definition SYSCALL_SPAWN : Z := 10.
Definition SYSCALL_TERMINATE : Z := 11.
Definition SYSCALL_SLEEP : Z := 12.
Definition SYSCALL_MONOTONIC_MS : Z := 13.
Definition SYSCALL_GETPID : Z := 14.
Definition SYSCALL_GETPPID : Z := 15.
Definition SYSCALL_SYSTEM_INFO : Z := 16.
Definition SYSCALL_RANDOM : Z := 17.
Definition SYSCALL_PROCESS_STATUS : Z := 18.
Definition SYSCALL_DIRECTORY_LIST : Z := 19.
Definition SYSCALL_MKDIR : Z := 20.
Definition SYSCALL_REMOVE : Z := 21.
Definition SYSCALL_RENAME : Z := 22.
Definition SYSCALL_PATH_STAT : Z := 23.
Definition SYSCALL_TRUNCATE : Z := 24.
Definition SYSCALL_DUP : Z := 25.
Definition SYSCALL_DIRECTORY_PATH_MAX : Z := 48.
Definition SYSCALL_WAIT_NOHANG : Z := 1.

Definition SATURNOS_VERSION_MAJOR : Z := 0.
Definition SATURNOS_VERSION_MINOR : Z := 6.
Definition SATURNOS_VERSION_PATCH : Z := 95.

(** Conversions to [int] and [long]. *)
Definition to_int (z : Z) : Z := (z + 2 ^ 31) mod 2 ^ 32 - 2 ^ 31.
Definition to_long (z : Z) : Z := (z + 2 ^ 63) mod 2 ^ 64 - 2 ^ 63.

(** The structures the calls store, as their 64-bit fields in order. *)
Record syscall_system_info := SystemInfo {
  version_major : Z; version_minor : Z; version_patch : Z; page_size : Z; total_pages : Z;
  free_pages : Z; info_scheduler_ticks : Z; info_task_count : Z; task_capacity : Z;
}.
Record syscall_process_status := ProcessStatus {
  ps_pid : Z; ps_parent_pid : Z; ps_state : Z; ps_switches : Z; ps_run_ticks : Z; ps_yields : Z;
  ps_preemptions : Z; ps_exit_code : Z; ps_succeeded : Z;
}.
Record syscall_directory_entry := DirectoryEntry { de_path : list Z; de_size : Z; de_kind : Z }.

Definition words (l : list Z) : list Z := concat (bytes64 <$> l).
Definition info_bytes (i : syscall_system_info) : list Z :=
  words [version_major i; version_minor i; version_patch i; page_size i; total_pages i; free_pages i;
         info_scheduler_ticks i; info_task_count i; task_capacity i].
Definition status_bytes (p : syscall_process_status) : list Z :=
  words [ps_pid p; ps_parent_pid p; ps_state p; ps_switches p; ps_run_ticks p; ps_yields p; ps_preemptions p;
         ps_exit_code p; ps_succeeded p].
Definition entry_bytes (e : syscall_directory_entry) : list Z := de_path e ++ words [de_size e; de_kind e].
Definition wait_bytes (w : task_wait_status) : list Z := words [w_pid w; w_exit_code w; w_succeeded w].

(** [(unsigned long)state]. *)
Definition state_value (st : task_state) : Z :=
  match st with
  | TASK_UNUSED => 0 | TASK_READY => 1 | TASK_RUNNING => 2 | TASK_BLOCKED => 3 | TASK_SLEEPING => 4
  | TASK_ELIGIBLE => 5 | TASK_ZOMBIE => 6
  end.

(** [struct syscall_stats]: the counters [write_calls] to [dup_calls] are declared in the
    order of the call numbers and are kept as one list, the counter of call [n] at [n - 1]. *)
Record syscall_stats := Stats {
  total : Z;
  handled : Z;
  rejected : Z;
  calls : list Z;
  last_random : Z;
  last_monotonic_ms : Z;
  faults : Z;
  write_bytes : Z;
  file_write_bytes : Z;
  stats_last_exit_code : Z;
  last_number : Z;
  last_arg0 : Z;
  last_arg1 : Z;
  last_arg2 : Z;
  last_result : Z;
}.
Definition stats0 : syscall_stats := Stats 0 0 0 (replicate 25 0) 0 0 0 0 0 0 0 0 0 0 0.

Definition count_call (n : Z) (t : syscall_stats) : syscall_stats :=
  Stats (total t) (handled t) (rejected t) (alter (fun c => c +! 1) (Z.to_nat (n - 1)) (calls t)) (last_random t)
    (last_monotonic_ms t) (faults t) (write_bytes t) (file_write_bytes t) (stats_last_exit_code t) (last_number t)
    (last_arg0 t) (last_arg1 t) (last_arg2 t) (last_result t).
Definition count_handled (t : syscall_stats) : syscall_stats :=
  Stats (total t) (handled t +! 1) (rejected t) (calls t) (last_random t) (last_monotonic_ms t) (faults t)
    (write_bytes t) (file_write_bytes t) (stats_last_exit_code t) (last_number t) (last_arg0 t) (last_arg1 t)
    (last_arg2 t) (last_result t).
Definition count_rejected (t : syscall_stats) : syscall_stats :=
  Stats (total t) (handled t) (rejected t +! 1) (calls t) (last_random t) (last_monotonic_ms t) (faults t)
    (write_bytes t) (file_write_bytes t) (stats_last_exit_code t) (last_number t) (last_arg0 t) (last_arg1 t)
    (last_arg2 t) (last_result t).
Definition count_fault (t : syscall_stats) : syscall_stats :=
  Stats (total t) (handled t) (rejected t) (calls t) (last_random t) (last_monotonic_ms t) (faults t +! 1)
    (write_bytes t) (file_write_bytes t) (stats_last_exit_code t) (last_number t) (last_arg0 t) (last_arg1 t)
    (last_arg2 t) (last_result t).
Definition add_write_bytes (console file : Z) (t : syscall_stats) : syscall_stats :=
  Stats (total t) (handled t) (rejected t) (calls t) (last_random t) (last_monotonic_ms t) (faults t)
    (write_bytes t +! console) (file_write_bytes t +! file) (stats_last_exit_code t) (last_number t) (last_arg0 t)
    (last_arg1 t) (last_arg2 t) (last_result t).
Definition set_last_values (random monotonic exit : Z) (t : syscall_stats) : syscall_stats :=
  Stats (total t) (handled t) (rejected t) (calls t) random monotonic (faults t) (write_bytes t) (file_write_bytes t)
    exit (last_number t) (last_arg0 t) (last_arg1 t) (last_arg2 t) (last_result t).
Definition begin_call (n a0 a1 a2 : Z) (t : syscall_stats) : syscall_stats :=
  Stats (total t +! 1) (handled t) (rejected t) (calls t) (last_random t) (last_monotonic_ms t) (faults t)
    (write_bytes t) (file_write_bytes t) (stats_last_exit_code t) n a0 a1 a2 (last_result t).
Definition set_last_result (r : Z) (t : syscall_stats) : syscall_stats :=
  Stats (total t) (handled t) (rejected t) (calls t) (last_random t) (last_monotonic_ms t) (faults t) (write_bytes t)
    (file_write_bytes t) (stats_last_exit_code t) (last_number t) (last_arg0 t) (last_arg1 t) (last_arg2 t) r.

(** The state the calls work on. *)
Record kernel (B : Type) := Kernel {
  ksys : sys;
  kvfs : vfs B;
  kpmm : pmm;
  kstats : syscall_stats;
  random_state : Z;
  console : list Z;
}.
Arguments Kernel {B}. Arguments ksys {B}. Arguments kvfs {B}. Arguments kpmm {B}.
Arguments kstats {B}. Arguments random_state {B}. Arguments console {B}.

Definition random_seed : Z := 0x6d2b79f5.

Definition set_t_files (v : list task_file) (t : task) : task :=
  Task (t_pid t) (parent_pid t) (t_name t) (t_state t) (t_entry t) (t_context t) (sleep_until_tick t)
    (sleep_requested_ms t) (accounting t) (memory t) (user_address_space t) (el0 t) (user_status t) v (user_argc t)
    (user_argv_address t) (user_arg_lengths_address t).

(** How the copy of a path from user memory ends. *)
Inductive path_end := PathOk | PathZero | PathFault.

(** What is left of a call that gave the processor away: its number, the saved [ELR_EL1]
    and [SPSR_EL1] to restore (none when the call came with no active session), and the
    arguments of a [wait] to go on with. *)
Record pending := Pending {
  p_number : Z;
  p_frame : option (Z * Z);
  p_wait : option (Z * Z * Z);
}.

(** How a call ends: a result; a fault of the kernel; with the processor given away;
    with the loop of [wait] going round in the same task; with the processor halted. *)
Inductive reply := Done (r : Z) | KernelFault | Away (c : pending) | Again (c : pending) | Stopped.

(** A computation on the state that may end in a fault of the kernel. *)
Definition M (B A : Type) : Type := kernel B -> option A * kernel B.
#[export] Instance M_ret B : MRet (M B) := fun A a k => (Some a, k).
#[export] Instance M_bind B : MBind (M B) :=
  fun A C f m k => match m k with (Some a, k) => f a k | (None, k) => (None, k) end.

Section ops.
Context `{CodeLayout} `{AsLayout} (kernel_table : Z -> list Z).
Context {B : Type} `{BlockDevice B}.
(** [timer_get_interval_ms()]. *)
Context (interval_ms : Z).
Implicit Types k : kernel B.

Definition set_ksys (s : sys) k : kernel B := Kernel s (kvfs k) (kpmm k) (kstats k) (random_state k) (console k).
Definition set_kvfs (v : vfs B) k : kernel B := Kernel (ksys k) v (kpmm k) (kstats k) (random_state k) (console k).
Definition set_kstats (t : syscall_stats) k : kernel B := Kernel (ksys k) (kvfs k) (kpmm k) t (random_state k) (console k).
Definition set_random_state (r : Z) k : kernel B := Kernel (ksys k) (kvfs k) (kpmm k) (kstats k) r (console k).
Definition set_console (c : list Z) k : kernel B := Kernel (ksys k) (kvfs k) (kpmm k) (kstats k) (random_state k) c.

Definition get {A} (f : kernel B -> A) : M B A := fun k => (Some (f k), k).
Definition modify (f : kernel B -> kernel B) : M B unit := fun k => (Some tt, f k).
Definition stats_do (f : syscall_stats -> syscall_stats) : M B unit := modify (fun k => set_kstats (f (kstats k)) k).
(** An operation of the file system, and of the scheduler. *)
Definition vfs_do (f : vfs B -> Z * vfs B) : M B Z := fun k => let (r, v) := f (kvfs k) in (Some r, set_kvfs v k).
Definition sys_do (f : sys -> Z * sys) : M B Z := fun k => let (r, s) := f (ksys k) in (Some r, set_ksys s k).
(** [stats.faults++; return SYSCALL_ERR_FAULT;] *)
Definition fault_error : M B Z := _ ← stats_do count_fault; mret SYSCALL_ERR_FAULT.
Definition inval : M B Z := mret SYSCALL_ERR_INVAL.

(** *** User memory *)

(** The byte of a user page an address translates to: the slot, the page, the offset, and
    whether the page can be written. *)
Definition user_byte (st : as_state) (root va : Z) : option (nat * nat * nat * bool) :=
  match walk kernel_table st root va with
  | Page d =>
      let pa := arm64_mmu_desc_address d + va mod ARM64_PAGE_SIZE in
      if in_array pages_base 12 pa then
        let j := array_index pages_base pa in
        Some ((j / 3)%nat, (j mod 3)%nat, Z.to_nat (va mod ARM64_PAGE_SIZE), negb (Z.testbit d 7))
      else None
  | _ => None
  end.
Definition place (s : sys) (va : Z) : option (nat * nat * nat * bool) :=
  user_byte (spaces s) (ttbr0_el1 (regs s)) va.

Definition load_byte (s : sys) (va : Z) : option Z :=
  '(slot, i, off, _) ← place s va; region_page slot i (spaces s) !! off.
Definition store_byte (va b : Z) (s : sys) : option sys :=
  match place s va with
  | Some (slot, i, off, true) => Some (set_spaces (set_page slot i (<[off := b]> (region_page slot i (spaces s))) (spaces s)) s)
  | _ => None
  end.

(** The bytes at an address, lowest first. *)
Fixpoint load_bytes (n : nat) (va : Z) (s : sys) : option (list Z) :=
  match n with
  | O => Some []
  | S n => b ← load_byte s va; l ← load_bytes n (va +! 1) s; Some (b :: l)
  end.
(** Stores in order; a fault leaves the bytes before it stored. *)
Fixpoint store_bytes (va : Z) (l : list Z) : M B unit :=
  match l with
  | [] => mret tt
  | b :: l => fun k => match store_byte va b (ksys k) with
                       | None => (None, k)
                       | Some s => store_bytes (va +! 1) l (set_ksys s k)
                       end
  end.
(** The copy loops of paths: they stop at a zero byte. *)
Fixpoint load_path (n : nat) (va : Z) (s : sys) : list Z * path_end :=
  match n with
  | O => ([], PathOk)
  | S n =>
      match load_byte s va with
      | None => ([], PathFault)
      | Some b => if b =? 0 then ([], PathZero) else let (l, e) := load_path n (va +! 1) s in (b :: l, e)
      end
  end.

Definition load (va length : Z) : M B (list Z) :=
  fun k => (load_bytes (Z.to_nat length) va (ksys k), k).
(** A path in a local array; the continuation runs on a path without zero bytes. *)
Definition with_path (va length : Z) (f : list Z -> M B Z) : M B Z := fun k =>
  match load_path (Z.to_nat length) va (ksys k) with
  | (_, PathFault) => (None, k)
  | (_, PathZero) => (Some SYSCALL_ERR_INVAL, k)
  | (p, PathOk) => f p k
  end.

Definition syscall_address_space (s : sys) : option address_space :=
  match space_at (user_mode_active_address_space s) s with
  | Some space => Some space
  | None =>
      match scheduler_current_task s ≫= (fun t => space_at (address_space_ptr (memory t)) s) with
      | Some space => if bool_decide (as_kind space = ADDRESS_SPACE_USER) then Some space else None
      | None => None
      end
  end.
Definition readable (a size : Z) k : bool := address_space_user_range_valid (syscall_address_space (ksys k)) a size.
Definition writable (a size : Z) k : bool :=
  address_space_user_writable_range_valid (syscall_address_space (ksys k)) a size.

(** *** Files of the current task *)

(** [task->files[slot]] of the current task, and an assignment to it. *)
Definition file_of_task (t : task) (slot : Z) : task_file := default (TaskFile 0 [] 0) (t_files t !! Z.to_nat slot).
Definition put_file (slot : Z) (f : task_file) k : kernel B :=
  let s := ksys k in
  set_ksys (upd (current_task s) (fun t => set_t_files (<[Z.to_nat slot := f]> (t_files t)) t) s) k.
(** The first slot that is not used. *)
Definition free_file (t : task) : option Z :=
  List.find (fun i => negb (truth (file_used (file_of_task t i)))) (seqZ 0 TASK_MAX_FILES).
(** The task, the slot and the file of an open descriptor; [None] for an invalid one. *)
Definition descriptor (fd : Z) k : option (task * Z * task_file) :=
  match scheduler_current_task_mutable (ksys k) with
  | None => None
  | Some t =>
      if (fd <? 3) || (fd >=? 3 + TASK_MAX_FILES) then None else
      let slot := fd - 3 in
      let f := file_of_task t slot in
      if negb (truth (file_used f)) then None else Some (t, slot, f)
  end.

(** *** Handlers *)

Definition syscall_system_info_call (address : Z) : M B Z := fun k =>
  if negb (writable address 72 k) then fault_error k else
  let s := ksys k in
  (_ ← store_bytes address (info_bytes (SystemInfo SATURNOS_VERSION_MAJOR SATURNOS_VERSION_MINOR
         SATURNOS_VERSION_PATCH PMM_PAGE_SIZE pmm_total_pages (pmm_free_pages (kpmm k)) (scheduler_get_ticks s)
         (scheduler_task_count s) SCHED_MAX_TASKS)); mret 0) k.

Definition syscall_random : M B Z := fun k =>
  let s := ksys k in
  let pid := match scheduler_current_task s with Some t => u64 (t_pid t) | None => 0 end in
  let value := random_state k in
  let value := Z.lxor value (scheduler_get_ticks s +! pid) in
  let value := Z.lxor value (u64 (Z.shiftl value 13)) in
  let value := Z.lxor value (Z.shiftr value 17) in
  let value := Z.lxor value (u64 (Z.shiftl value 5)) in
  (Some (Z.land value 0x7fffffff), set_random_state value k).

Definition syscall_process_status_call (pid address : Z) : M B Z := fun k =>
  let s := ksys k in
  if negb (writable address 72 k) then fault_error k else
  match scheduler_current_task s with
  | None => inval k
  | Some caller =>
      if pid >=? SCHED_MAX_TASKS then inval k else
      match scheduler_task_by_pid (if truth pid then to_int pid else t_pid caller) s with
      | None => inval k
      | Some target =>
          if negb (t_pid target =? t_pid caller) && negb (parent_pid target =? t_pid caller) then inval k else
          let a := accounting target in
          (_ ← store_bytes address (status_bytes (ProcessStatus (u64 (t_pid target))
                 (if parent_pid target >? 0 then parent_pid target else 0) (state_value (t_state target))
                 (switches a) (run_ticks a) (yields a) (preemptions a) (last_exit_code (user_status target))
                 (c_int (truth (program_succeeded (user_status target)))))); mret 0) k
      end
  end.

Definition no_entry : vfs_entry := VfsEntry (replicate 48 0) 0 0.
Definition store_entry (address : Z) (e : vfs_entry) : M B unit :=
  store_bytes address (entry_bytes (DirectoryEntry (ve_path e) (ve_size e) (ve_kind e))).

Definition syscall_directory_list (index address : Z) : M B Z := fun k =>
  if negb (writable address 64 k) then fault_error k else
  let (result, e) := vfs_list index (Some no_entry) (kvfs k) in
  if result <=? 0 then (Some result, k) else
  (_ ← store_entry address (default no_entry e); mret 1) k.

Definition bad_length (length : Z) : bool := negb (truth length) || (length >=? VFS_MAX_PATH).
Definition ok_or_inval (r : Z) : M B Z := mret (if truth r then 0 else SYSCALL_ERR_INVAL).

Definition syscall_mkdir (path_address path_length : Z) : M B Z := fun k =>
  if bad_length path_length then inval k else
  if negb (readable path_address path_length k) then fault_error k else
  with_path path_address path_length (fun p => r ← vfs_do (vfs_mkdir (Some p)); ok_or_inval r) k.

Definition syscall_remove (path_address path_length : Z) : M B Z := fun k =>
  if bad_length path_length then inval k else
  if negb (readable path_address path_length k) then fault_error k else
  with_path path_address path_length (fun p => r ← vfs_do (vfs_remove p); ok_or_inval r) k.

Definition syscall_rename (old_address old_length new_address new_length : Z) : M B Z := fun k =>
  if bad_length old_length || bad_length new_length then inval k else
  if negb (readable old_address old_length k) || negb (readable new_address new_length k) then fault_error k else
  with_path old_address old_length (fun old => with_path new_address new_length (fun new =>
    r ← vfs_do (vfs_rename old (Some new)); ok_or_inval r)) k.

Definition syscall_path_stat (path_address path_length output_address : Z) : M B Z := fun k =>
  if bad_length path_length then inval k else
  if negb (readable path_address path_length k) || negb (writable output_address 64 k) then fault_error k else
  with_path path_address path_length (fun p k =>
    let '(r, e, v) := vfs_stat p (Some no_entry) (kvfs k) in
    let k := set_kvfs v k in
    if negb (truth r) then inval k else (_ ← store_entry output_address (default no_entry e); mret 0) k) k.

Definition syscall_truncate (path_address path_length size : Z) : M B Z := fun k =>
  if bad_length path_length || (size >? VFS_MAX_FILE_SIZE) then inval k else
  if negb (readable path_address path_length k) then fault_error k else
  with_path path_address path_length (fun p => r ← vfs_do (vfs_truncate p size); ok_or_inval r) k.

Definition syscall_dup (fd : Z) : M B Z := fun k =>
  match descriptor fd k with
  | None => inval k
  | Some (t, _, f) =>
      match free_file t with
      | None => inval k
      | Some target => (Some (3 + target), put_file target f k)
      end
  end.

(** Whether [vfs_write] gets to read its buffer. *)
Definition write_reads (p : list Z) (offset sz : Z) (v : vfs B) : bool :=
  match vfs_disk_path (Some p) with
  | Some dp =>
      negb ((sz =? 0) || (offset >? SFS_MAX_FILE_SIZE) || (sz >? SFS_MAX_FILE_SIZE -! offset)) &&
      negb ((read_disk dp v).1 <? 0)
  | None =>
      match vfs_find p (nodes v) ≫= (nodes v !!.) with
      | None => false
      | Some n => negb (negb (n_kind n =? RAMFS_FILE) || (offset >? VFS_MAX_FILE_SIZE) ||
                        (sz >? VFS_MAX_FILE_SIZE -! offset))
      end
  end.

(** [console_putc] of each byte. *)
Fixpoint console_loop (n : nat) (va : Z) : M B unit :=
  match n with
  | O => mret tt
  | S n => fun k => match load_byte (ksys k) va with
                    | None => (None, k)
                    | Some b => console_loop n (va +! 1) (set_console (console k ++ [b]) k)
                    end
  end.

Definition syscall_write (fd buffer length : Z) : M B Z := fun k =>
  if length =? 0 then (Some 0, k) else
  if length >? SYSCALL_WRITE_MAX then inval k else
  if negb (readable buffer length k) then fault_error k else
  if (fd =? SYSCALL_STDOUT) || (fd =? SYSCALL_STDERR) then
    (_ ← console_loop (Z.to_nat length) buffer; _ ← stats_do (add_write_bytes length 0); mret length) k
  else
  match descriptor fd k with
  | None => inval k
  | Some (_, slot, f) =>
      let p := cstr (file_path f) in
      (bytes ← (if write_reads p (file_offset f) length (kvfs k) then load buffer length else mret []);
       result ← vfs_do (vfs_write p (file_offset f) (Some bytes) length);
       if result >? 0 then
         _ ← modify (put_file slot (TaskFile (file_used f) (file_path f) (file_offset f +! result)));
         _ ← stats_do (add_write_bytes 0 result);
         mret result
       else mret (if result <? 0 then SYSCALL_ERR_INVAL else result)) k
  end.

(** [path[0] = 0] and the error. *)
Definition open_fails (slot : Z) (f : task_file) : M B Z :=
  _ ← modify (put_file slot (TaskFile (file_used f) (<[0%nat := 0]> (file_path f)) (file_offset f))); inval.

(** [!create || vfs_create(path, 0, 0) || vfs_truncate(path, 0)]. *)
Definition open_create (create : bool) (p : list Z) : M B Z :=
  if negb create then mret 1 else
  r ← vfs_do (vfs_create (Some p) None 0);
  if truth r then mret 1 else vfs_do (vfs_truncate p 0).
(** [vfs_file_data(path, &file_size)] as a test. *)
Definition file_exists (p : list Z) : M B Z :=
  vfs_do (fun v => let (r, v) := vfs_file_data p v in (c_int (bool_decide (is_Some r)), v)).
(** The rest of the call, with the path in the file. *)
Definition open_file (slot : Z) (f : task_file) (create : bool) : M B Z :=
  created ← open_create create (cstr (file_path f));
  if negb (truth created) then open_fails slot f else
  found ← file_exists (cstr (file_path f));
  if negb (truth found) then open_fails slot f else
  _ ← modify (put_file slot (TaskFile 1 (file_path f) 0));
  mret (3 + slot).

Definition syscall_open (path_address path_length : Z) (create : bool) : M B Z := fun k =>
  match scheduler_current_task_mutable (ksys k), syscall_address_space (ksys k) with
  | Some t, Some _ =>
      if (path_length =? 0) || (path_length >=? TASK_FILE_PATH_SIZE) || negb (readable path_address path_length k)
      then fault_error k else
      match free_file t with
      | None => inval k
      | Some slot =>
          let f := file_of_task t slot in
          let (bytes, e) := load_path (Z.to_nat path_length) path_address (ksys k) in
          let copied := copy_loop (file_path f) 0 bytes in
          match e with
          | PathFault => (None, put_file slot (TaskFile (file_used f) copied (file_offset f)) k)
          | PathZero => inval (put_file slot (TaskFile (file_used f) copied (file_offset f)) k)
          | PathOk =>
              let f := TaskFile (file_used f) (<[Z.to_nat path_length := 0]> copied) (file_offset f) in
              open_file slot f create (put_file slot f k)
          end
      end
  | _, _ => fault_error k
  end.

Definition syscall_read (fd buffer length : Z) : M B Z := fun k =>
  match scheduler_current_task_mutable (ksys k) with
  | None => inval k
  | Some _ =>
      if (fd <? 3) || (fd >=? 3 + TASK_MAX_FILES) || (length >? SYSCALL_READ_MAX) then inval k else
      if length =? 0 then (Some 0, k) else
      if negb (writable buffer length k) then fault_error k else
      match descriptor fd k with
      | None => inval k
      | Some (_, slot, f) =>
          let '(result, bytes, v) :=
            vfs_read (cstr (file_path f)) (file_offset f) (Some (replicate (Z.to_nat length) 0)) length (kvfs k) in
          let k := set_kvfs v k in
          if result >? 0 then
            (_ ← store_bytes buffer (take (Z.to_nat result) (default [] bytes));
             _ ← modify (put_file slot (TaskFile (file_used f) (file_path f) (file_offset f +! result)));
             mret result) k
          else (Some (if result <? 0 then SYSCALL_ERR_INVAL else result), k)
      end
  end.

Definition syscall_close (fd : Z) : M B Z := fun k =>
  match descriptor fd k with
  | None => inval k
  | Some (_, slot, f) => (Some 0, put_file slot (TaskFile 0 (<[0%nat := 0]> (file_path f)) 0) k)
  end.

Definition syscall_seek (fd offset : Z) : M B Z := fun k =>
  match descriptor fd k with
  | None => inval k
  | Some (_, slot, f) =>
      let (r, v) := vfs_file_data (cstr (file_path f)) (kvfs k) in
      let k := set_kvfs v k in
      match r with
      | None => inval k
      | Some (_, file_size) =>
          if offset >? file_size then inval k else
          (Some (to_long offset), put_file slot (TaskFile (file_used f) (file_path f) offset) k)
      end
  end.

Definition syscall_spawn (path_address path_length argument_address argument_length : Z) : M B Z := fun k =>
  match syscall_address_space (ksys k) with
  | None => fault_error k
  | Some _ =>
      if negb (truth path_length) || (path_length >=? TASK_FILE_PATH_SIZE) || negb (readable path_address path_length k)
      then fault_error k else
      with_path path_address path_length (fun path k =>
        if (argument_length >? TASK_USER_ARGUMENT_MAX) ||
           (truth argument_length && negb (readable argument_address argument_length k)) then fault_error k else
        (argument ← load argument_address argument_length;
         pid ← (fun k => let '(pid, s, v) := scheduler_create_user_task_from_image kernel_table (Some (lit "user-child")) path
                           (if truth argument_length then Some (cstr argument) else None) (ksys k) (kvfs k) in
                         (Some pid, set_kvfs v (set_ksys s k)));
         parent ← get (fun k => scheduler_current_task_mutable (ksys k));
         if pid <? 0 then inval else
         match parent with
         | None => inval
         | Some parent =>
             r ← sys_do (scheduler_set_task_parent pid (t_pid parent));
             if negb (truth r) then inval else
             r ← sys_do (scheduler_unblock_user_task pid);
             if r <? 0 then inval else mret pid
         end) k) k
  end.

(** *** Calls that give the processor away *)

(** After the scheduler: the root of the active space and the saved registers. *)
Definition yield_return (frame : option (Z * Z)) (s : sys) : sys :=
  match frame with
  | None => s
  | Some (elr, spsr) =>
      let s := match space_at (user_mode_active_address_space s) s with
               | Some space => switch_root (target_root_table space) s
               | None => s
               end in
      set_return elr spsr s
  end.

(** [syscall_scheduler_yield] up to the scheduler: the frame to restore. *)
Definition syscall_scheduler_yield (s : sys) : option (Z * Z) * outcome * sys :=
  let frame := if bool_decide (user_mode_active_address_space s = AsNull) then None else Some (elr_el1 s, spsr_el1 s) in
  let (o, s) := scheduler_yield s in (frame, o, s).

Definition syscall_sleep (ms : Z) (s : sys) : option (option (Z * Z) * outcome) * sys :=
  if negb (truth ms) || (ms >? SYSCALL_SLEEP_MAX_MS) then (None, s) else
  let frame := Some (elr_el1 s, spsr_el1 s) in
  let (o, s) := scheduler_sleep_ms interval_ms ms s in (Some (frame, o), s).

(** One round of the loop of [syscall_wait]. *)
Definition wait_round (number pid address options : Z) (k : kernel B) : reply * kernel B :=
  let none := Some (WaitStatus 0 0 0) in
  let '(r, status, _) := scheduler_wait_task_status (to_int pid) none (ksys k) in
  if r =? 1 then
    match store_bytes address (wait_bytes (default (WaitStatus 0 0 0) status)) k with
    | (None, k) => (KernelFault, k)
    | (Some _, k) => (Done 1, set_ksys (scheduler_wait_task_status (to_int pid) none (ksys k)).2 k)
    end
  else if (r =? 0) && negb (truth (Z.land options SYSCALL_WAIT_NOHANG)) then
    let '(frame, o, s) := syscall_scheduler_yield (ksys k) in
    match o with
    | Returned => (Again (Pending number None (Some (pid, address, options))), set_ksys (yield_return frame s) k)
    | Switched => (Away (Pending number frame (Some (pid, address, options))), set_ksys s k)
    | Halted => (Stopped, set_ksys s k)
    end
  else (Done r, k).

Definition syscall_wait (pid address options : Z) (k : kernel B) : reply * kernel B :=
  if truth (Z.land options (~! SYSCALL_WAIT_NOHANG)) then (Done SYSCALL_ERR_INVAL, k) else
  if negb (writable address 24 k) then
    match fault_error k with (Some r, k) => (Done r, k) | (None, k) => (KernelFault, k) end
  else wait_round SYSCALL_WAIT pid address options k.

(** The name of a call. *)
Definition syscall_name (number : Z) : list Z :=
  default (lit "unknown")
    (if number <? 1 then None else
     [lit "write"; lit "exit"; lit "yield"; lit "open"; lit "read"; lit "close"; lit "create"; lit "seek"; lit "wait";
      lit "spawn"; lit "terminate"; lit "sleep"; lit "monotonic_ms"; lit "getpid"; lit "getppid"; lit "system_info";
      lit "random"; lit "process_status"; lit "directory_list"; lit "mkdir"; lit "remove"; lit "rename";
      lit "path_stat"; lit "truncate"; lit "dup"] !! Z.to_nat (number - 1)).

(** *** The dispatcher *)

(** [if (result < 0) stats.rejected++; else stats.handled++;] *)
Definition count_outcome (r : Z) (t : syscall_stats) : syscall_stats :=
  if r <? 0 then count_rejected t else count_handled t.
(** The end of the dispatcher. *)
Definition dispatch_end (number r : Z) (k : kernel B) : reply * kernel B :=
  let t := kstats k in
  let t := if (number >=? SYSCALL_OPEN) && (number <=? SYSCALL_DUP) then count_outcome r t else t in
  (Done r, set_kstats (set_last_result r t) k).
(** A handler that does not give the processor away, then the end. *)
Definition run (number : Z) (m : M B Z) (k : kernel B) : reply * kernel B :=
  match m k with
  | (None, k) => (KernelFault, k)
  | (Some r, k) => dispatch_end number r k
  end.
(** The end of a call that was given a reply. *)
Definition conclude (number : Z) (p : reply * kernel B) : reply * kernel B :=
  match p with
  | (Done r, k) => dispatch_end number r k
  | p => p
  end.
(** The end of a yield or a sleep, from how the scheduler left. *)
Definition leave (number : Z) (frame : option (Z * Z)) (o : outcome) (s : sys) (k : kernel B) : reply * kernel B :=
  match o with
  | Returned => dispatch_end number 0 (set_ksys (yield_return frame s) k)
  | Switched => (Away (Pending number frame None), set_ksys s k)
  | Halted => (Stopped, set_ksys s k)
  end.

Definition syscall_dispatch (number arg0 arg1 arg2 arg3 : Z) (k : kernel B) : reply * kernel B :=
  let k := set_kstats (begin_call number arg0 arg1 arg2 (kstats k)) k in
  let counted := set_kstats (count_call number (kstats k)) k in
  let handled := set_kstats (count_handled (kstats counted)) counted in
  if number =? SYSCALL_WRITE then
    run number (r ← syscall_write arg0 arg1 arg2; _ ← stats_do (count_outcome r); mret r) counted
  else if number =? SYSCALL_EXIT then
    run number (_ ← stats_do (fun t => set_last_values (last_random t) (last_monotonic_ms t) arg0 t);
                _ ← sys_do (user_mode_handle_exit_syscall arg0); mret 0) handled
  else if number =? SYSCALL_YIELD then
    let '(frame, o, s) := syscall_scheduler_yield (ksys handled) in leave number frame o s handled
  else if number =? SYSCALL_OPEN then run number (syscall_open arg0 arg1 false) counted
  else if number =? SYSCALL_READ then run number (syscall_read arg0 arg1 arg2) counted
  else if number =? SYSCALL_CLOSE then run number (syscall_close arg0) counted
  else if number =? SYSCALL_CREATE then run number (syscall_open arg0 arg1 true) counted
  else if number =? SYSCALL_SEEK then run number (syscall_seek arg0 arg1) counted
  else if number =? SYSCALL_WAIT then conclude number (syscall_wait arg0 arg1 arg2 counted)
  else if number =? SYSCALL_SPAWN then run number (syscall_spawn arg0 arg1 arg2 arg3) counted
  else if number =? SYSCALL_TERMINATE then
    run number (r ← sys_do (scheduler_terminate_child (to_int arg0) arg1); ok_or_inval r) counted
  else if number =? SYSCALL_SLEEP then
    match syscall_sleep arg0 (ksys counted) with
    | (None, s) => dispatch_end number SYSCALL_ERR_INVAL counted
    | (Some (frame, o), s) => leave number frame o s counted
    end
  else if number =? SYSCALL_MONOTONIC_MS then
    let r := to_long (scheduler_get_ticks (ksys k) *! interval_ms) in
    run number (_ ← stats_do (fun t => set_last_values (last_random t) (u64 r) (stats_last_exit_code t) t); mret r) counted
  else if number =? SYSCALL_GETPID then
    run number (mret (match scheduler_current_task (ksys k) with Some t => t_pid t | None => SYSCALL_ERR_INVAL end)) counted
  else if number =? SYSCALL_GETPPID then
    run number (mret (match scheduler_current_task (ksys k) with
                      | Some t => if parent_pid t >? 0 then parent_pid t else 0
                      | None => SYSCALL_ERR_INVAL
                      end)) counted
  else if number =? SYSCALL_SYSTEM_INFO then run number (syscall_system_info_call arg0) counted
  else if number =? SYSCALL_RANDOM then
    run number (r ← syscall_random;
                _ ← stats_do (fun t => set_last_values (u64 r) (last_monotonic_ms t) (stats_last_exit_code t) t);
                mret r) counted
  else if number =? SYSCALL_PROCESS_STATUS then run number (syscall_process_status_call arg0 arg1) counted
  else if number =? SYSCALL_DIRECTORY_LIST then run number (syscall_directory_list arg0 arg1) counted
  else if number =? SYSCALL_MKDIR then run number (syscall_mkdir arg0 arg1) counted
  else if number =? SYSCALL_REMOVE then run number (syscall_remove arg0 arg1) counted
  else if number =? SYSCALL_RENAME then run number (syscall_rename arg0 arg1 arg2 arg3) counted
  else if number =? SYSCALL_PATH_STAT then run number (syscall_path_stat arg0 arg1 arg2) counted
  else if number =? SYSCALL_TRUNCATE then run number (syscall_truncate arg0 arg1 arg2) counted
  else if number =? SYSCALL_DUP then run number (syscall_dup arg0) counted
  else run number (_ ← stats_do count_rejected; mret (-1)) k.

(** The rest of a call, when its task has the processor again. *)
Definition resume (c : pending) (k : kernel B) : reply * kernel B :=
  let k := set_ksys (yield_return (p_frame c) (ksys k)) k in
  match p_wait c with
  | None => dispatch_end (p_number c) 0 k
  | Some (pid, address, options) => conclude (p_number c) (wait_round (p_number c) pid address options k)
  end.
End ops.
