(* ===== verification/UserMemory.v ===== *)
(** * User memory seen by the system calls

    Loads and stores of [Syscall] under the root of a created user space: where an address
    of the three regions lands, what a range of stores does to the pages of the slot, and
    what it leaves alone. *)

From S2P Require Import Prelude PageAllocator Pmm BlockDevice Sfs Vfs Executable Mmu AddressSpace Task User Scheduler Syscall.

(** The address of the page of region [i] that is mapped. *)
Definition page_start (i : nat) : Z := rg_start (nth i user_region_list (Region None 0 0 0 0 0 0)).

(** A range inside the mapped page of region [i]. *)
Definition mapped (i : nat) (a size : Z) : Prop :=
  (i < 3)%nat /\ page_start i <= a /\ 0 <= size /\ a + size <= page_start i + ARM64_PAGE_SIZE.

(** An argument register. *)
Definition is_u64 (z : Z) : Prop := 0 <= z < 2 ^ 64.

(** A range inside the data or the stack region. *)
Definition in_data_or_stack (a size : Z) : Prop :=
  within 0x200000 0x300000 a size \/ within 0x3fff0000 0x40000000 a size.

(** The slots and tables stay, only the data and stack pages of slot [n] may change. *)
Record only_data (n : nat) (st st' : as_state) : Prop := {
  od_kernel : kernel_address_space st' = kernel_address_space st;
  od_l1 : user_l1_tables st' = user_l1_tables st;
  od_l2 : user_l2_tables st' = user_l2_tables st;
  od_l3 : user_l3_tables st' = user_l3_tables st;
  od_used : user_table_slots_used st' = user_table_slots_used st;
  od_others : forall m, m <> n -> user_region_pages st' !! m = user_region_pages st !! m;
  od_code : region_page n 0 st' = region_page n 0 st;
  od_wf : as_wf st -> as_wf st';
}.

Lemma only_data_refl n st : only_data n st st.
Proof. by split. Qed.

Lemma only_data_trans n st1 st2 st3 : only_data n st1 st2 -> only_data n st2 st3 -> only_data n st1 st3.
Proof.
  intros [A1 A2 A3 A4 A5 A6 A7 A8] [B1 B2 B3 B4 B5 B6 B7 B8]. split; try congruence; [|auto].
  intros m Hm. by rewrite B6, A6.
Qed.

Lemma only_data_set_page n i p st : i <> 0%nat ->
  (as_wf st -> length p = Z.to_nat ARM64_PAGE_SIZE) -> only_data n st (set_page n i p st).
Proof.
  intros Hi Hp. split; try done.
  - intros m Hm. unfold set_page. cbn. by rewrite list_lookup_alter_ne.
  - unfold region_page, set_page. cbn. destruct (user_region_pages st !! n) as [ps|] eqn:E.
    + rewrite list_lookup_alter_eq, E. cbn. by rewrite list_lookup_insert_ne.
    + by rewrite list_lookup_alter_eq, E.
  - intros Hwf. apply set_page_wf; auto.
Qed.

Section memory.
Context `{CodeLayout} `{AsLayoutOk} (kernel_table : Z -> list Z) {B : Type} `{BlockDevice B}.
Context (root : Z) (Hkernel : kernel_map_ok kernel_table root).

(** The current root is the one of slot [n], whose tables are as they were created. *)
Record under_slot (n : nat) (s : sys) : Prop := {
  us_slot : (n < 4)%nat;
  us_root : ttbr0_el1 (regs s) = l1_address (Z.of_nat n);
  us_tables : slot_tables kernel_table root n (spaces s);
  us_wf : as_wf (spaces s);
}.

Lemma user_page_mapped i va : mapped i va 1 -> user_page va = Some i.
Proof.
  intros (Hi & Hlo & _ & Hhi). unfold user_page. change ARM64_PAGE_SIZE with 4096 in *.
  destruct i as [|[|[|i]]]; [change (page_start 0) with 0x100000 in *|change (page_start 1) with 0x200000 in *
    |change (page_start 2) with 0x3fff0000 in *|lia];
    unfold ADDRESS_SPACE_USER_CODE_START, ADDRESS_SPACE_USER_DATA_START, ADDRESS_SPACE_USER_STACK_START;
    repeat match goal with |- context [?a <=? ?b] => destruct (Z.leb_spec a b); try lia
                         | |- context [?a <? ?b] => destruct (Z.ltb_spec a b); try lia end; done.
Qed.

Lemma mapped_user_page i va : user_page va = Some i -> mapped i va 1.
Proof.
  unfold user_page, mapped. change ARM64_PAGE_SIZE with 4096.
  unfold ADDRESS_SPACE_USER_CODE_START, ADDRESS_SPACE_USER_DATA_START, ADDRESS_SPACE_USER_STACK_START. intros E.
  repeat (case_if_in E; [injection E as <-; apply andb_true_iff in E0 as [?%Z.leb_le ?%Z.ltb_lt]|clear E0]; [|]).
  all: try done; (split; [lia|]).
  - change (page_start 0) with 0x100000. lia.
  - change (page_start 1) with 0x200000. lia.
  - change (page_start 2) with 0x3fff0000. lia.
Qed.

(** A mapped range lies in the region of its page. *)
Lemma mapped_within i a size : mapped i a size -> 0 < size ->
  is_u64 a /\ is_u64 size /\
  (within 0x100000 0x200000 a size \/ within 0x200000 0x300000 a size \/ within 0x3fff0000 0x40000000 a size) /\
  (i <> 0%nat -> in_data_or_stack a size).
Proof.
  intros (Hi & Hlo & _ & Hhi) Hs. change ARM64_PAGE_SIZE with 4096 in Hhi. unfold is_u64, in_data_or_stack, within.
  destruct i as [|[|[|i]]]; [change (page_start 0) with 0x100000 in *|change (page_start 1) with 0x200000 in *
    |change (page_start 2) with 0x3fff0000 in *|]; lia.
Qed.

Lemma mapped_range i va : mapped i va 1 -> 0 <= va < 2 ^ 30 /\ va mod ARM64_PAGE_SIZE = va - page_start i.
Proof.
  intros (Hi & Hlo & _ & Hhi). change ARM64_PAGE_SIZE with 4096 in *.
  assert (0x100000 <= page_start i /\ page_start i <= 0x3fff0000 /\ page_start i mod 4096 = 0) as (? & ? & ?).
  { destruct i as [|[|[|i]]]; [..|lia]; vm_compute; repeat split; discriminate. }
  split; [lia|]. Z.div_mod_to_equations. lia.
Qed.

(** Where a mapped address lands. *)
Lemma place_mapped n s i va : under_slot n s -> mapped i va 1 ->
  place kernel_table s va = Some (n, i, Z.to_nat (va - page_start i), negb (i =? 0)%nat).
Proof.
  intros [Hn Hr Ht _] Hm. pose proof (mapped_range i va Hm) as [Hva Hoff]. pose proof Hm as (Hi & _).
  unfold place, user_byte. rewrite Hr, (walk_slot_tables kernel_table root n (spaces s) va Ht Hn Hkernel) by lia.
  unfold user_translation. rewrite (user_page_mapped i va Hm).
  set (attr := rg_attributes _).
  assert (phys_page (page_address (Z.of_nat n) (Z.of_nat i))) as Hp.
  { unfold page_address, ADDRESS_SPACE_USER_REGION_COUNT. apply (array_element_phys _ 12); [apply pages_ok|lia]. }
  assert (attr_bits attr) as Ha by (unfold attr; destruct i as [|[|[|i]]]; [vm_compute; done..|lia]).
  destruct (l3_page_desc_fields _ _ Hp Ha) as (_ & _ & Had & _ & _ & _ & _ & Hap). cbv zeta in *.
  change (arm64_mmu_l3_page_address ?d) with (arm64_mmu_desc_address d) in Had. rewrite Had, Hoff.
  set (d := arm64_mmu_l3_page_desc _ _) in *.
  assert (Z.testbit d 7 = Z.testbit attr 7) as ->.
  { pose proof (f_equal (fun z => Z.testbit z 7) Hap) as E. cbv beta in E. rewrite !Z.land_spec in E.
    change (Z.testbit ARM64_DESC_AP_MASK 7) with true in E. by rewrite !andb_true_r in E. }
  assert (0 <= va - page_start i < 4096) as Hb.
  { destruct Hm as (_ & ? & _ & Hhi). change ARM64_PAGE_SIZE with 4096 in Hhi. lia. }
  unfold page_address, ADDRESS_SPACE_USER_REGION_COUNT, in_array, array_index. change ARM64_PAGE_SIZE with 4096.
  set (o := va - page_start i) in *. replace (pages_base + (Z.of_nat n * 3 + Z.of_nat i) * 4096 + o - pages_base)
    with (o + (Z.of_nat n * 3 + Z.of_nat i) * 4096) by lia.
  rewrite Z.div_add, (Z.div_small o 4096), Z.add_0_l by lia.
  destruct (Z.leb_spec pages_base (pages_base + (Z.of_nat n * 3 + Z.of_nat i) * 4096 + o)); [|lia].
  destruct (Z.ltb_spec (pages_base + (Z.of_nat n * 3 + Z.of_nat i) * 4096 + o) (pages_base + 12 * 4096)); [|lia]. cbn [andb].
  replace (Z.to_nat (Z.of_nat n * 3 + Z.of_nat i)) with (i + n * 3)%nat by lia.
  rewrite Nat.div_add, (Nat.div_small i 3), Nat.Div0.mod_add, (Nat.mod_small i 3) by lia.
  unfold attr. by destruct i as [|[|[|i]]]; [..|lia].
Qed.

(** An address of the data or stack region past its mapped page does not translate. *)
Lemma place_unmapped n s va : under_slot n s -> in_data_or_stack va 1 -> user_page va = None ->
  place kernel_table s va = None.
Proof.
  intros [Hn Hr Ht _] Hd Hu. assert (0 <= va < 2 ^ 30) by (destruct Hd as [[]|[]]; lia).
  unfold place, user_byte. rewrite Hr, (walk_slot_tables kernel_table root n (spaces s) va Ht Hn Hkernel) by lia.
  unfold user_translation. rewrite Hu. unfold shadowed. change ARM64_L2_BLOCK_SIZE with (2 ^ 21).
  assert (va / 2 ^ 21 = 1 \/ va / 2 ^ 21 = 511) as [-> | ->]; [|done..].
  destruct Hd as [[]|[]]; [left|right]; Z.div_mod_to_equations; lia.
Qed.

(** The two cases for an address of the data or stack region. *)
Lemma place_cases n s va : under_slot n s -> in_data_or_stack va 1 ->
  (exists i, i <> 0%nat /\ mapped i va 1 /\ place kernel_table s va = Some (n, i, Z.to_nat (va - page_start i), true)) \/
  place kernel_table s va = None.
Proof.
  intros Hs Hd. destruct (user_page va) as [i|] eqn:E; [left|right; by eapply place_unmapped].
  apply mapped_user_page in E as Hm. exists i.
  assert (i <> 0%nat) as Hi.
  { intros ->. destruct Hm as (_ & Hlo & _ & Hhi). change ARM64_PAGE_SIZE with 4096 in Hhi.
    change (page_start 0) with 0x100000 in *. destruct Hd as [[]|[]]; lia. }
  split_and!; [done|done|]. rewrite (place_mapped n s i va Hs Hm).
  by destruct i.
Qed.

Lemma under_slot_data n s st : under_slot n s -> only_data n (spaces s) st -> under_slot n (set_spaces st s).
Proof.
  intros [? ? [? ? ?] Hw] [? E1 E2 E3 ? ? ? Hwf]. split; cbn; try done; [|auto].
  split; cbn; congruence.
Qed.

(** *** Ranges *)

Lemma mapped_head i a size : mapped i a size -> 0 < size -> mapped i a 1.
Proof. unfold mapped. lia. Qed.

Lemma mapped_tail i a size : mapped i a size -> 0 < size -> mapped i (a + 1) (size - 1).
Proof. unfold mapped. lia. Qed.

Lemma mapped_next i a size : mapped i a size -> 0 < size -> a +! 1 = a + 1.
Proof. intros Hm Hs. pose proof (mapped_range i a (mapped_head _ _ _ Hm Hs)) as [? _]. apply u64_small. lia. Qed.

Lemma set_page_set_page n i p q st : set_page n i p (set_page n i q st) = set_page n i p st.
Proof.
  unfold set_page. cbn. f_equal. apply list_eq. intros m.
  destruct (decide (m = n)) as [->|]; [|by rewrite !list_lookup_alter_ne].
  rewrite !list_lookup_alter_eq. destruct (user_region_pages st !! n) as [ps|]; [|done].
  cbn. f_equal. apply list_insert_insert_eq.
Qed.

Lemma set_spaces_id s : set_spaces (spaces s) s = s.
Proof. by destruct s. Qed.

Lemma set_ksys_id (k : kernel B) : set_ksys (ksys k) k = k.
Proof. by destruct k. Qed.

Lemma set_page_same n i st : set_page n i (region_page n i st) st = st.
Proof.
  unfold set_page. destruct st as [a l1 l2 l3 pages used]. cbn. f_equal.
  apply list_eq. intros m. destruct (decide (m = n)) as [->|]; [|by rewrite list_lookup_alter_ne].
  rewrite list_lookup_alter_eq. unfold region_page. cbn. destruct (pages !! n) as [ps|]; [|done]. cbn. f_equal.
  destruct (ps !! i) as [p|] eqn:E; cbn; [by apply list_insert_id|].
  apply list_insert_ge. by apply lookup_ge_None.
Qed.

(** The bytes of a mapped range are those of its page. *)
Lemma load_bytes_mapped n s i va len : under_slot n s -> mapped i va (Z.of_nat len) ->
  load_bytes kernel_table len va s = Some (take len (drop (Z.to_nat (va - page_start i)) (region_page n i (spaces s)))).
Proof.
  intros Hs. revert va. induction len as [|len IH]; intros va Hm; simpl; [done|].
  assert (0 < Z.of_nat (S len)) as Hp by lia. unfold load_byte.
  pose proof (mapped_head i va _ Hm Hp) as H1m. rewrite (place_mapped n s i va Hs H1m). cbn [mbind option_bind].
  destruct Hs as [Hn Hr Ht Hw]. pose proof Hm as (Hi & Hlo & _ & Hhi). change ARM64_PAGE_SIZE with 4096 in Hhi.
  assert (length (region_page n i (spaces s)) = 4096%nat) as Hl by (by rewrite region_page_length).
  set (o := Z.to_nat (va - page_start i)) in *.
  destruct (lookup_lt_is_Some_2 (region_page n i (spaces s)) o) as [b Hb]; [rewrite Hl; lia|]. rewrite Hb. cbn [mbind option_bind].
  rewrite (mapped_next i va _ Hm Hp), IH.
  - cbn [mbind option_bind]. rewrite (drop_S _ b o Hb). cbn [take]. do 4 f_equal. lia.
  - pose proof (mapped_tail i va _ Hm Hp) as Hm'. by replace (Z.of_nat (S len) - 1) with (Z.of_nat len) in Hm' by lia.
Qed.

(** Storing over a mapped range of a writable page. *)
Lemma store_bytes_mapped n i va l (k : kernel B) : under_slot n (ksys k) -> i <> 0%nat -> mapped i va (Z.of_nat (length l)) ->
  store_bytes kernel_table va l k =
  (Some tt, set_ksys (set_spaces (set_page n i (write_at (region_page n i (spaces (ksys k))) (Z.to_nat (va - page_start i)) l)
                                    (spaces (ksys k))) (ksys k)) k).
Proof.
  intros Hs Hi0. revert va k Hs. induction l as [|b l IH]; intros va k Hs Hm.
  - simpl. rewrite write_at_nil, set_page_same, set_spaces_id, set_ksys_id. done.
  - cbn [store_bytes]. cbn [length] in Hm. assert (0 < Z.of_nat (S (length l))) as Hp by lia.
    pose proof (mapped_head i va _ Hm Hp) as H1m. unfold store_byte. rewrite (place_mapped n _ i va Hs H1m).
    replace (negb (i =? 0)%nat) with true by (by destruct i). pose proof Hs as [Hn Hr Ht Hw].
    pose proof Hm as (Hi & Hlo & _ & Hhi). change ARM64_PAGE_SIZE with 4096 in Hhi.
    set (s := ksys k) in *. set (o := Z.to_nat (va - page_start i)) in *. set (p := region_page n i (spaces s)) in *.
    assert (length p = 4096%nat) as Hl by (unfold p; by rewrite region_page_length).
    set (s1 := set_spaces _ s). assert (under_slot n s1) as Hs1.
    { apply under_slot_data; [done|]. apply only_data_set_page; [done|]. intros _. by rewrite length_insert. }
    rewrite (mapped_next i va _ Hm Hp), (IH (va + 1) (set_ksys s1 k) Hs1).
    + cbn [ksys set_ksys]. unfold s1. cbn [spaces set_spaces].
      rewrite (region_page_set n i), decide_True by (done || lia || (rewrite length_insert; lia)). rewrite set_page_set_page.
      replace (Z.to_nat (va + 1 - page_start i)) with (S o) by lia.
      rewrite <- !copy_loop_write_at by (rewrite ?length_insert; cbn [length]; lia). done.
    + pose proof (mapped_tail i va _ Hm Hp) as Hm'. by replace (Z.of_nat (S (length l)) - 1) with (Z.of_nat (length l)) in Hm' by lia.
Qed.

(** Storing over any range the writable check accepts: nothing changes but the data and
    stack pages of the slot, whether the stores succeed or fault. *)
Lemma store_bytes_frame n va l (k : kernel B) : under_slot n (ksys k) -> (l <> [] -> in_data_or_stack va (Z.of_nat (length l))) ->
  exists st, only_data n (spaces (ksys k)) st /\ (store_bytes kernel_table va l k).2 = set_ksys (set_spaces st (ksys k)) k.
Proof.
  revert va k. induction l as [|b l IH]; intros va k Hs Hd; cbn [store_bytes].
  { exists (spaces (ksys k)). rewrite set_spaces_id, set_ksys_id. split; [apply only_data_refl|done]. }
  specialize (Hd ltac:(done)). cbn [length] in Hd.
  assert (in_data_or_stack va 1) as Hd1 by (unfold in_data_or_stack, within in *; lia).
  unfold store_byte. destruct (place_cases n _ va Hs Hd1) as [(i & Hi & Hm & ->)| ->].
  - set (p := <[_ := b]> _). pose proof Hs as [Hn _ _ Hw]. pose proof Hm as (Hi3 & _).
    assert (only_data n (spaces (ksys k)) (set_page n i p (spaces (ksys k)))) as Ho.
    { apply only_data_set_page; [done|]. intros _. unfold p. by rewrite length_insert, region_page_length. }
    set (k1 := set_ksys _ k). assert (under_slot n (ksys k1)) as Hs1 by (by apply under_slot_data).
    assert (va +! 1 = va + 1) as -> by (apply u64_small; unfold in_data_or_stack, within in *; lia).
    destruct (IH (va + 1) k1 Hs1) as (st & Hst & ->).
    { intros _. unfold in_data_or_stack, within in *. lia. }
    exists st. split; [by eapply only_data_trans|done].
  - exists (spaces (ksys k)). rewrite set_spaces_id, set_ksys_id. split; [apply only_data_refl|done].
Qed.
End memory.
