(* ===== verification/Steps.v ===== *)
(** * Steps of the scheduler's state

    Whatever the kernel does, it changes the tasks, the user spaces and the registers in
    steps of four kinds: an operation of the scheduler, a store to a page of a program, an
    assignment to a descriptor of the current task, and the return from a call that gave the
    processor away. The handlers and the shell's commands are shown elsewhere to be sequences
    of such steps; here, the steps and what each of them keeps. *)

From S2P Require Import Prelude BlockDevice Sfs Vfs Executable Mmu AddressSpace Task User Scheduler SchedulerProps Syscall.

(** A file of a task: a 48-byte path whose last byte is never set, and an offset. *)
Record file_ok (f : task_file) : Prop := {
  fo_length : length (file_path f) = 48%nat;
  fo_last : file_path f !! 47%nat = Some 0;
  fo_offset : 0 <= file_offset f < 2 ^ 64;
}.
Record files_ok (t : task) : Prop := {
  fs_length : length (t_files t) = 4%nat;
  fs_files : Forall file_ok (t_files t);
}.

Definition all_files (s : sys) : Prop := Forall files_ok (tasks s).

(** ** The descriptors across the scheduler's operations *)

Section files.
Context `{CodeLayout} `{AsLayout} (kernel_table : Z -> list Z).
Context {B : Type} `{BlockDevice B}.
Implicit Types s : sys.

Lemma files_upd pid f s : (forall t, files_ok t -> files_ok (f t)) -> all_files s -> all_files (upd pid f s).
Proof. intros Hf Hs. apply Forall_alter; [done|]. intros t _. apply Hf. Qed.

Lemma files_same t t' : t_files t' = t_files t -> files_ok t -> files_ok t'.
Proof. intros E [? ?]. by split; rewrite E. Qed.

Lemma files_upd_same pid f s : (forall t, t_files (f t) = t_files t) -> all_files s -> all_files (upd pid f s).
Proof. intros Hf. apply files_upd. intros t. by apply files_same. Qed.

Lemma files_cleared f : file_ok f -> file_ok (TaskFile 0 (<[0%nat := 0]> (file_path f)) 0).
Proof. intros [? ? ?]. split; cbn; [by rewrite length_insert|by rewrite list_lookup_insert_ne|lia]. Qed.

Lemma files_clear_files fs : length fs = 4%nat -> Forall file_ok fs ->
  length (scheduler_clear_files fs) = 4%nat /\ Forall file_ok (scheduler_clear_files fs).
Proof.
  intros Hl Hf. unfold scheduler_clear_files. rewrite length_fmap. split; [done|]. apply Forall_fmap.
  eapply Forall_impl; [exact Hf|]. intros f. apply files_cleared.
Qed.

Lemma files_imap g s : (forall i t, t_files (g i t) = t_files t) -> all_files s -> all_files (set_tasks (imap g (tasks s)) s).
Proof.
  intros Hg Hs. apply Forall_lookup_2. intros i t. cbn [tasks set_tasks]. rewrite list_lookup_imap, fmap_Some.
  intros (u & Hu & ->). apply (files_same u); [apply Hg|]. by apply (Forall_lookup_1 _ _ _ _ Hs Hu).
Qed.

Lemma files_put_space p a s : all_files s -> all_files (put_space p a s).
Proof. intros Hs. destruct p, a; try done. by apply files_upd_same. Qed.

Lemma files_wake s : all_files s -> all_files (scheduler_wake_sleeping_tasks s).
Proof. apply files_imap. intros i t. destruct (_ <? _); [|done]. unfold wake. by destruct (_ && _). Qed.

Lemma files_cpu_switch prev next s : all_files s -> all_files (cpu_switch_to prev next s).
Proof. intros Hs. change (all_files (upd prev (set_t_context (cpu s)) s)). by apply files_upd_same. Qed.

Lemma files_yield s : all_files s -> all_files (scheduler_yield s).2.
Proof.
  intros Hs. unfold scheduler_yield. destruct (_ <? 2); [done|]. cbv zeta. apply files_wake in Hs.
  set (w := scheduler_wake_sleeping_tasks s) in *. clearbody w.
  destruct (_ =? _). { destruct (scheduler_task_is_runnable _); [|done]. by apply files_upd_same. }
  set (d := if bool_decide _ then _ else _). assert (all_files d) as Hd by (unfold d; case_if; [by apply files_upd_same|done]).
  cbn [snd]. apply files_cpu_switch. set (r := scheduler_set_running_task _ d).
  assert (all_files r) as Hr by (by apply files_upd_same). by destruct (truth _).
Qed.

Lemma files_sleep iv ms s : all_files s -> all_files (scheduler_sleep_ms iv ms s).2.
Proof. intros Hs. unfold scheduler_sleep_ms. destruct (_ || _); [done|]. by apply files_yield, files_upd_same. Qed.

Lemma files_destroy p s : all_files s -> all_files (destroy_space p s).
Proof. intros Hs. unfold destroy_space. destruct (address_space_destroy_user _ _) as [a st]. by apply files_put_space. Qed.

Lemma files_clear_slot pid s : all_files s -> all_files (scheduler_clear_task_slot pid s).
Proof.
  intros Hs. unfold scheduler_clear_task_slot. apply files_upd; [|by apply files_destroy].
  intros t [Hl Hf]. destruct (files_clear_files _ Hl Hf). by split.
Qed.

Lemma files_trim s : all_files s -> all_files (scheduler_trim_unused_tail s).
Proof.
  unfold scheduler_trim_unused_tail. generalize (Z.to_nat (task_count s)) as n. intros n. revert s.
  induction n as [|n IH]; intros s Hs; cbn [trim_loop]; [done|]. case_if; [by apply IH|done].
Qed.

Lemma files_wait pid st s : all_files s -> all_files (scheduler_wait_task_status pid st s).2.
Proof.
  intros Hs. unfold scheduler_wait_task_status. destruct (_ || _); [done|]. destruct (if pid =? 0 then _ else _) as [owned p].
  destruct (p =? 0); [done|]. destruct (space_at _ _); [|done]. destruct (_ || _); [done|]. destruct (negb _); [done|].
  by apply files_trim, files_clear_slot.
Qed.

Lemma files_write_data pid off d n s : all_files s -> all_files (write_data pid off d n s).2.
Proof. intros Hs. unfold write_data. by destruct (address_space_write_user_data _ _ _ _ _). Qed.

Lemma files_copy_words argc pid cur a argv lens s : all_files s -> all_files (copy_words argc pid cur a argv lens s).2.
Proof.
  revert cur a argv lens s. induction argc as [|argc IH]; intros cur a argv lens s Hs; cbn [copy_words]; [done|].
  destruct (split_word _) as [w rest]. pose proof (files_write_data pid cur w (Z.of_nat (length w)) s Hs) as Hw.
  destruct (write_data _ _ _ _ s) as [ok s1]. cbn [snd] in Hw. destruct (truth ok); cbn [negb]; [|done].
  by apply IH, files_write_data.
Qed.

Lemma files_abandon pid s : all_files s -> all_files (abandon_task pid s).2.
Proof.
  intros Hs. unfold abandon_task. cbn [snd]. apply (files_destroy (AsTask pid)) in Hs.
  apply (files_upd_same pid (set_t_state TASK_UNUSED)) in Hs; [|done]. by destruct (_ =? _).
Qed.

Lemma files_fresh pid nm st e t : files_ok t -> files_ok (fresh_task pid nm st e t).
Proof. intros [Hl Hf]. destruct (files_clear_files _ Hl Hf). by split. Qed.

Lemma files_take_slot s pid s' : take_slot s = Some (pid, s') -> all_files s -> all_files s'.
Proof.
  unfold take_slot. destruct (List.find _ _); [by intros [= <- <-]|]. destruct (_ >=? _); [done|]. by intros [= <- <-].
Qed.

Lemma files_setup nm image a argc base off s : all_files s -> all_files (setup_user_task kernel_table nm image a argc base off s).2.
Proof.
  intros Hs. unfold setup_user_task. destruct (take_slot s) as [[pid s0]|] eqn:E; [|done].
  apply files_take_slot in E; [|done]. clear s Hs. destruct (pid >=? _); [done|]. cbv zeta.
  destruct (address_space_init_user _ _ _ _) as [space st]. set (s1 := put_space _ _ _).
  assert (all_files s1) as H1' by (by apply files_put_space). clearbody s1. clear E.
  destruct (address_space_load_user_image _ _ _ _ _ _ _) as [[ok sp] st']. set (s2 := put_space _ _ _).
  assert (all_files s2) as H2' by (by apply files_put_space). clearbody s2. clear H1'. destruct (truth ok); cbn [negb].
  2: { cbn [snd]. apply (files_destroy (AsTask pid)) in H2'. by destruct (_ =? _). }
  set (s3 := upd pid _ s2). assert (all_files s3) as H3'.
  { apply files_upd; [|done]. intros t Ht. apply (files_same (fresh_task pid (Some (default (lit "user-demo") nm)) TASK_BLOCKED 0 t)); [done|].
    by apply files_fresh. }
  clearbody s3. clear H2'. pose proof (files_copy_words (Z.to_nat argc) pid off a [] [] s3 H3') as H4'.
  destruct (copy_words _ _ _ _ _ _ _) as [[[ok2 argv] lens] s4]. cbn [snd] in H4'. destruct ok2; cbn [negb]; [|by apply files_abandon].
  set (s5 := upd pid _ s4). assert (all_files s5) as H5' by (by apply files_upd_same). clearbody s5.
  match goal with |- context [write_data pid ?o ?d ?n s5] => pose proof (files_write_data pid o d n s5 H5') as H6' end.
  destruct (write_data _ _ _ _ s5) as [ok3 s6]. cbn [snd] in H6'. destruct (truth ok3); cbn [negb]; [|by apply files_abandon].
  match goal with |- context [write_data pid ?o ?d ?n s6] => pose proof (files_write_data pid o d n s6 H6') as H7' end.
  destruct (write_data _ _ _ _ s6) as [ok4 s7]. cbn [snd] in H7'. destruct (truth ok4); cbn [negb]; [|by apply files_abandon].
  cbn [snd]. by apply files_upd_same.
Qed.

Lemma files_create nm file a s : all_files s -> all_files (create_user_task kernel_table nm file a s).2.
Proof.
  intros Hs. unfold create_user_task. destruct file as [[file size]|]; [|done]. destruct (saturn_exec_parse _ _ _); [|done].
  destruct (argument_length_loop _ _); [|done]. destruct (argc_loop _ _ _); [|done]. cbv zeta. destruct (_ >? _); [done|].
  by apply files_setup.
Qed.

Lemma files_switch_stub p s : all_files s -> all_files (switch_stub p s).2.
Proof. intros Hs. unfold switch_stub. destruct (address_space_switch_stub _). by apply files_put_space. Qed.

Lemma files_unblock_user pid s : all_files s -> all_files (scheduler_unblock_user_task pid s).2.
Proof.
  intros Hs. unfold scheduler_unblock_user_task. destruct (_ || _); [done|]. destruct (negb _); [done|]. destruct (negb _); [done|].
  pose proof (files_switch_stub (space_ptr s pid) s Hs) as Hs1. destruct (switch_stub _ s) as [stub s1]. cbn [snd] in Hs1.
  destruct (negb _); [done|]. by apply files_upd_same.
Qed.

Lemma files_parent pid p s : all_files s -> all_files (scheduler_set_task_parent pid p s).2.
Proof. intros Hs. unfold scheduler_set_task_parent. destruct (_ || _); [done|]. by apply files_upd_same. Qed.

Lemma files_terminate pid code s : all_files s -> all_files (scheduler_terminate_child pid code s).2.
Proof. intros Hs. unfold scheduler_terminate_child. destruct (_ || _); [done|]. by apply files_upd_same. Qed.

Lemma files_exit_syscall code s : all_files s -> all_files (user_mode_handle_exit_syscall code s).2.
Proof.
  intros Hs. unfold user_mode_handle_exit_syscall. destruct (_ || _); [done|]. cbn [snd].
  set (s1 := if truth _ then _ else s). assert (all_files s1) as H1' by (unfold s1; by destruct (truth _)). clearbody s1.
  unfold upd_session_task. destruct (session_task _) as [pid|]; [|done].
  by apply (files_upd_same pid (set_last_exit_code code ∘ inc_exits ∘ inc_traps)) in H1'.
Qed.

Lemma files_add nm entry s : all_files s -> all_files (scheduler_add_task nm entry s).2.
Proof.
  intros Hs. unfold scheduler_add_task. destruct (take_slot s) as [[pid s1]|] eqn:E; [|done]. apply files_take_slot in E; [|done]. cbn [snd].
  assert (all_files (scheduler_init_task_el0 pid (upd pid (fresh_task pid nm TASK_READY entry) s1))) as Hf.
  { apply files_upd_same; [done|]. apply files_upd; [|done]. intros t. apply files_fresh. }
  destruct (truth entry); [|done]. by apply files_upd_same.
Qed.

Lemma files_thread nm entry s : all_files s -> all_files (scheduler_create_kernel_thread nm entry s).2.
Proof.
  intros Hs. pose proof (files_add nm entry s Hs). unfold scheduler_create_kernel_thread. destruct (scheduler_add_task nm entry s). by case_if.
Qed.

Lemma files_start s : all_files s -> all_files (scheduler_start_threads s).2.
Proof.
  intros Hs. unfold scheduler_start_threads. cbn [snd]. change (all_files (scheduler_set_running_task 0 s)).
  by apply files_upd_same.
Qed.

Lemma files_preempt s : all_files s -> all_files (scheduler_preempt s).2.
Proof.
  intros Hs. unfold scheduler_preempt. destruct (_ || _); [done|]. cbv zeta.
  assert (all_files (scheduler_wake_sleeping_tasks (set_scheduler_ticks (scheduler_ticks s +! 1) s))) as Hw by (by apply files_wake).
  set (w := scheduler_wake_sleeping_tasks _) in *. clearbody w.
  assert (all_files (upd (current_task w) inc_run_ticks w)) as Hu by (by apply files_upd_same). set (u := upd _ inc_run_ticks w) in *. clearbody u.
  destruct (_ =? _); [done|]. cbn [snd]. apply files_cpu_switch.
  set (d := if bool_decide _ then _ else _). assert (all_files d) as Hd by (unfold d; case_if; [by apply files_upd_same|done]).
  assert (all_files (upd (current_task w) inc_preemptions d)) by (by apply files_upd_same). by apply files_upd_same.
Qed.

Lemma files_exception esr elr far spsr s : all_files s -> all_files (user_mode_handle_exception esr elr far spsr s).2.
Proof.
  intros Hs. assert (forall f t, (forall x, t_files (f x) = t_files x) -> all_files t -> all_files (upd_session_task f t)) as Hup.
  { intros f t Hf Ht. unfold upd_session_task. destruct (session_task _) as [pid|]; [|done]. by apply (files_upd_same pid f). }
  assert (forall reason t, all_files t -> all_files (user_session_reject reason t).2) as Hrej.
  { intros reason t Ht. unfold user_session_reject. cbn [snd]. set (t1 := if truth _ then _ else t).
    assert (all_files t1) by (unfold t1; by destruct (truth _)). by apply (Hup inc_rejects). }
  unfold user_mode_handle_exception. cbv zeta.
  destruct (negb (truth (active _))); [done|]. destruct (_ || _); [by apply Hrej|]. destruct (negb (truth (return_pc _))); [by apply Hrej|].
  destruct (negb (_ =? _)); [by apply Hrej|]. cbn [snd]. by apply (Hup (inc_rejects ∘ inc_traps)).
Qed.

Lemma files_dump s : all_files s -> all_files (scheduler_dump_tasks s).
Proof.
  unfold scheduler_dump_tasks. generalize (seqZ 0 (task_count s)) as l. intros l. revert s.
  induction l as [|i l IH]; intros s Hs; cbn [foldl]; [done|]. apply IH. destruct (space_at _ s); [|done]. by apply files_switch_stub.
Qed.


Lemma files_tick s : all_files s -> all_files (scheduler_tick s).
Proof.
  intros Hs. unfold scheduler_tick. cbv zeta.
  assert (all_files (scheduler_wake_sleeping_tasks (set_scheduler_ticks (scheduler_ticks s +! 1) s))) as Hw by (by apply files_wake).
  set (w := scheduler_wake_sleeping_tasks _) in *. clearbody w.
  assert (all_files (upd (current_task s) inc_run_ticks w)) as Hu by (by apply files_upd_same). set (u := upd _ inc_run_ticks w) in *. clearbody u.
  destruct (negb _); [done|]. set (d := if bool_decide _ then _ else u). assert (all_files d) as Hd by (unfold d; case_if; [by apply files_upd_same|done]).
  assert (all_files (upd (current_task s) inc_preemptions d)) by (by apply files_upd_same). by apply files_upd_same.
Qed.

Lemma files_exit s : all_files s -> all_files (scheduler_exit s).2.
Proof.
  intros Hs. unfold scheduler_exit, scheduler_exit_task. assert (all_files (orphan (current_task s) s)) as Ho by (apply files_imap; [|done]; intros i t; by case_if).
  set (z := set_current_task _ _). assert (all_files z) as Hz by (by apply (files_upd_same (current_task s) (set_t_state TASK_ZOMBIE)) in Ho). pose proof (files_yield z Hz) as Hy. by destruct (scheduler_yield z).
Qed.

Lemma files_run_task pid s : all_files s -> all_files (user_mode_run_task pid s).2.
Proof.
  intros Hs. unfold user_mode_run_task. destruct (negb _); [done|]. destruct (_ && _); [done|]. destruct (space_at _ _); [|done].
  pose proof (files_switch_stub (space_ptr s pid) s Hs) as Hst. destruct (switch_stub _ s) as [stub s1]. cbn [snd] in Hst.
  destruct (negb _); [done|]. by apply files_upd_same.
Qed.

Lemma files_run_end pid status s : all_files s -> all_files (run_user_task_end pid status s).2.
Proof. intros Hs. unfold run_user_task_end. destruct (negb _); by apply files_upd_same. Qed.

Lemma files_run_user pid s : all_files s -> all_files (scheduler_run_user_task pid s).2.
Proof.
  intros Hs. unfold scheduler_run_user_task. destruct (_ || _); [done|]. destruct (_ && _); [done|].
  pose proof (files_run_task pid s Hs) as Hr. destruct (user_mode_run_task pid s) as [[status|] s1]; [|done].
  pose proof (files_run_end pid status s1 Hr) as He. by destruct (run_user_task_end pid status s1).
Qed.

Lemma files_run_return pid s : all_files s -> all_files (scheduler_run_user_task_return pid s).2.
Proof.
  intros Hs. unfold scheduler_run_user_task_return. assert (all_files (user_mode_run_task_return pid s).2) as Hr.
  { unfold user_mode_run_task_return. destruct (truth _); [|done]. by apply (files_upd_same pid inc_recoveries) in Hs. }
  destruct (user_mode_run_task_return pid s) as [status s1]. by apply files_run_end.
Qed.

Lemma files_reap_all s : all_files s -> all_files (scheduler_reap_zombies s).2.
Proof.
  intros Hs. unfold scheduler_reap_zombies.
  assert (forall l acc, all_files acc.2 -> all_files (foldl reap_step acc l).2) as Hl.
  { induction l as [|i l IH]; intros [n s'] Ha; cbn [foldl]; [done|]. apply IH. unfold reap_step. case_if; [by apply files_clear_slot|done]. }
  specialize (Hl (seqZ 1 (task_count s - 1)) (0, s) Hs). destruct (foldl _ _ _) as [n s']. by apply files_trim.
Qed.

Lemma files_exec op s : all_files s -> all_files (sched_exec kernel_table op s).2.
Proof.
  intros Hs. destruct op; cbn [sched_exec snd].
  - by apply files_thread.
  - by apply files_create.
  - by apply files_unblock_user.
  - unfold scheduler_block_task. repeat case_if; try done. by apply files_upd_same.
  - unfold scheduler_unblock_task. repeat case_if; try done. by apply files_upd_same.
  - unfold scheduler_reap_zombie_task. repeat case_if; try done. by apply files_trim, files_clear_slot.
  - by apply files_reap_all.
  - by apply files_wait.
  - by apply files_parent.
  - by apply files_terminate.
  - by apply files_run_user.
  - by apply files_run_return.
  - by apply files_exception.
  - by apply files_exit_syscall.
  - by apply files_tick.
  - by apply files_yield.
  - by apply files_sleep.
  - by apply files_preempt.
  - by apply files_exit.
  - by apply files_start.
  - by apply files_dump.
Qed.
End files.

(** ** Who has the processor *)

(** The task that gets the processor runs. *)
Lemma switched_running `{CodeLayout} s : sched_inv s -> (scheduler_yield s).1 = Switched ->
  let s' := (scheduler_yield s).2 in state_of s' (current_task s') = TASK_RUNNING.
Proof.
  intros Hi. cbv zeta. pose proof (sched_inv_wake s Hi) as Hw. destruct (next_runnable_choice _ Hw) as (Hr & Hrun & _).
  destruct (yield_cases s Hi) as [[_ ->]|[(_ & _ & _ & ->)|(_ & Hn & ->)]]; [done..|]. intros _. cbn [snd].
  set (w := scheduler_wake_sleeping_tasks s) in *. set (next := scheduler_next_runnable_task w) in *.
  set (d := if bool_decide _ then _ else w). set (c := set_current_task next _). set (c' := if truth _ then _ else c).
  assert (forall i, task_at c' i = task_at (scheduler_set_running_task next d) i) as Ec by (intros i; unfold c'; by destruct (truth _)).
  assert (current_task (cpu_switch_to (current_task s) next c') = next) as -> by (unfold c'; by destruct (truth _)).
  unfold state_of. change (task_at (cpu_switch_to (current_task s) next c') next) with (task_at (upd (current_task s) (set_t_context (cpu c')) c') next).
  pose proof (si_current s Hi). rewrite task_at_upd_ne by lia. rewrite Ec. unfold scheduler_set_running_task. rewrite task_at_upd_eq by lia.
  destruct (task_at d next) as [t|] eqn:Et; [done|]. exfalso.
  assert (is_Some (task_at d next)) as [t Ht]; [|congruence]. destruct (in_range_task w next Hw Hr) as [t Ht]. unfold d. case_if; [|by exists t].
  rewrite task_at_upd_ne by lia. by exists t.
Qed.

(** A task that has ended can leave, and a live one goes on. *)
Lemma zombie_exit `{CodeLayout} s : sched_inv s -> state_of s (current_task s) = TASK_ZOMBIE ->
  current_task s <> 0 /\ let s' := (scheduler_exit s).2 in state_of s' (current_task s') = TASK_RUNNING.
Proof.
  intros Hi Hz. assert (current_task s <> 0) as Hc by (intros E; pose proof (si_idle s Hi) as H0; rewrite E in Hz; by rewrite Hz in H0).
  split; [done|]. pose proof (si_current s Hi). destruct (sched_inv_exit s Hi Hc ltac:(lia)) as [_ Ho]. revert Ho. unfold scheduler_exit, scheduler_exit_task.
  set (z := set_current_task _ _). assert (sched_inv z) as Hzi.
  { change z with (upd (current_task s) (set_t_state TASK_ZOMBIE) (orphan (current_task s) s)). apply state_upd_inv; try done; [|by left].
    apply (sched_inv_quiet s); [done|apply quiet_orphan]. }
  pose proof (switched_running z Hzi) as Hs. destruct (scheduler_yield z) as [[] s']; [done| |done]. by intros _; apply Hs.
Qed.

(** ** The steps *)

Section steps.
Context `{CodeLayout} `{AsLayout} (kernel_table : Z -> list Z).
Implicit Types s : sys.

Inductive sys_step : sys -> sys -> Prop :=
  | step_op op s : sched_allowed op s -> sys_step s (sched_exec kernel_table op s).2
  | step_store va b s s' : store_byte kernel_table va b s = Some s' -> sys_step s s'
  | step_file slot f s : file_ok f -> sys_step s (upd (current_task s) (fun t => set_t_files (<[Z.to_nat slot := f]> (t_files t)) t) s)
  | step_frame frame s : sys_step s (yield_return frame s).

(** What the scheduler and the descriptors promise together. *)
Definition sys_ok s : Prop := sched_inv s /\ all_files s.

Lemma sys_ok_step s s' : sys_step s s' -> sys_ok s -> sys_ok s'.
Proof.
  intros Hst [Hi Hf]. destruct Hst as [op s Ha|va b s s' E|slot f s Hok|frame s].
  - split; [by apply sched_inv_exec|by apply files_exec].
  - unfold store_byte in E. destruct (place _ _ _) as [[[[? ?] ?] []]|]; [|done..]. injection E as <-.
    split; [|done]. apply (sched_inv_quiet s); [done|apply quiet_spaces].
  - split; [apply (sched_inv_quiet s); [done|by apply quiet_upd_any]|].
    apply files_upd; [|done]. intros u [Hl Hu]. split; cbn; [by rewrite length_insert|]. by apply Forall_insert.
  - destruct frame as [[elr spsr]|]; [|done]. cbn [yield_return]. set (s1 := match space_at _ _ with Some _ => _ | None => _ end).
    assert (sys_ok s1) as [? ?] by (unfold s1; destruct (space_at _ _); [split; [by apply sched_inv_switch_root|done]|done]).
    split; [|done]. apply (sched_inv_quiet s1); [done|by repeat split].
Qed.

Lemma sys_ok_steps s s' : rtc sys_step s s' -> sys_ok s -> sys_ok s'.
Proof. induction 1 as [|s s1 s' Hst _ IH]; [done|]. intros Hs. by eapply IH, sys_ok_step. Qed.

Lemma steps_op op s : sched_allowed op s -> rtc sys_step s (sched_exec kernel_table op s).2.
Proof. intros Ha. by apply rtc_once, step_op. Qed.

Lemma steps_stores {B} a l (k : kernel B) : rtc sys_step (ksys k) (ksys (store_bytes kernel_table a l k).2).
Proof.
  revert a k. induction l as [|b l IH]; intros a k; cbn [store_bytes]; [done|].
  destruct (store_byte kernel_table a b (ksys k)) as [s|] eqn:E; [|done]. eapply rtc_l; [by eapply step_store|]. exact (IH (a +! 1) (set_ksys s k)).
Qed.
End steps.
