(* ===== verification/Isolation.v ===== *)
(** * The programs' memory, over everything the scheduler does

    The slots of tables and pages belong to the tasks: whatever steps the kernel takes, a
    slot has at most one owner, it is marked used exactly when it has one, and the tables of
    an owner translate its three pages to the pages of its own slot and everything else as
    the kernel's map does. *)

From S2P Require Import Prelude PageAllocator BlockDevice Sfs Vfs Executable Mmu AddressSpace Task User Scheduler SchedulerProps Syscall Steps.

(** ** What the ownership of the slots depends on *)

Definition core (a : address_space) : address_space_kind * Z * Z * Z * list address_space_user_region :=
  (as_kind a, user_table_slot a, target_root_table a, kernel_root_table a, user_regions a).
Definition key (t : task) : as_ptr * (address_space_kind * Z * Z * Z * list address_space_user_region) :=
  (address_space_ptr (memory t), core (user_address_space t)).

(** The kernel's own space. *)
Definition kernel_space (st : as_state) : Z * address_space_kind :=
  (root_table (kernel_address_space st), as_kind (kernel_address_space st)).

Definition tables_kept (st st' : as_state) : Prop :=
  user_l1_tables st' = user_l1_tables st /\ user_l2_tables st' = user_l2_tables st /\ user_l3_tables st' = user_l3_tables st /\
  user_table_slots_used st' = user_table_slots_used st /\
  kernel_space st' = kernel_space st /\ (as_wf st -> as_wf st').

#[export] Instance tables_kept_preorder : PreOrder tables_kept.
Proof.
  split; [by intros st; split_and!|]. intros a b c (A1 & A2 & A3 & A4 & A5 & A6) (B1 & B2 & B3 & B4 & B5 & B6). split_and!; try congruence. auto.
Qed.

Definition kept (s s' : sys) : Prop :=
  tables_kept (spaces s) (spaces s') /\
  forall i, (key <$> task_at s' i) = (key <$> task_at s i) /\ (state_of s' i = TASK_UNUSED -> state_of s i = TASK_UNUSED).

#[export] Instance kept_preorder : PreOrder kept.
Proof.
  split; [by split|]. intros a b c [A1 A2] [B1 B2]. split; [by etrans|]. intros i. destruct (A2 i), (B2 i). split; [congruence|auto].
Qed.

Lemma kept_task s s' i t : kept s s' -> task_at s' i = Some t ->
  exists u, task_at s i = Some u /\ key u = key t /\ (t_state t = TASK_UNUSED -> t_state u = TASK_UNUSED).
Proof.
  intros [_ Hk] Ht. destruct (Hk i) as [Hi Hs]. unfold state_of in Hs. rewrite Ht in Hi, Hs. destruct (task_at s i) as [u|]; [|done].
  apply (inj Some) in Hi. by exists u.
Qed.

Lemma kept_task_back s s' i t : kept s s' -> task_at s i = Some t -> exists u, task_at s' i = Some u /\ key u = key t.
Proof.
  intros [_ Hk] Ht. destruct (Hk i) as [Hi _]. rewrite Ht in Hi. destruct (task_at s' i) as [u|]; [|done]. apply (inj Some) in Hi. by exists u.
Qed.

(** *** Changes that keep it *)

Lemma task_at_upd s pid f i : task_at (upd pid f s) i = (if decide (i = Z.max 0 pid) then f <$> task_at s i else task_at s i).
Proof.
  replace (upd pid f s) with (upd (Z.max 0 pid) f s) by (unfold upd; do 2 f_equal; lia). case_decide as E.
  - subst i. by rewrite task_at_upd_eq by lia.
  - by rewrite task_at_upd_ne by lia.
Qed.

Lemma kept_upd s pid f : (forall t, key (f t) = key t) -> (forall t, t_state (f t) = TASK_UNUSED -> t_state t = TASK_UNUSED) -> kept s (upd pid f s).
Proof.
  intros Hk Hs. split; [done|]. intros i. unfold state_of. rewrite task_at_upd. case_decide; [|by split].
  destruct (task_at s i) as [t|]; [|by split]. cbn. rewrite Hk. split; [done|apply Hs].
Qed.

Lemma kept_imap s g : (forall i t, key (g i t) = key t) -> (forall i t, t_state (g i t) = TASK_UNUSED -> t_state t = TASK_UNUSED) ->
  kept s (set_tasks (imap g (tasks s)) s).
Proof.
  intros Hk Hs. split; [done|]. intros i. unfold state_of, task_at. destruct (i <? 0); [by split|]. cbn [tasks set_tasks].
  rewrite list_lookup_imap. destruct (tasks s !! Z.to_nat i) as [t|]; [|by split]. cbn. rewrite Hk. split; [done|apply Hs].
Qed.

Lemma kept_spaces s st : tables_kept (spaces s) st -> kept s (set_spaces st s).
Proof. by split. Qed.

Lemma kept_put_space s p a b : space_at p s = Some b -> core a = core b -> root_table a = root_table b -> kept s (put_space p (Some a) s).
Proof.
  intros Ha Hc Hr. destruct p as [| |pid]; cbn [put_space space_at] in *; [done| |].
  - injection Ha as <-. apply kept_spaces. split_and!; try done; [|by intros []]. unfold kernel_space, core in *. cbn. congruence.
  - apply fmap_Some in Ha as (t & Ht & ->). destruct (task_at_lookup _ _ _ Ht) as [Hp _]. split; [done|]. intros i. unfold state_of.
    rewrite task_at_upd. case_decide as E; [|by split]. replace i with pid by lia. rewrite Ht. cbn [fmap option_fmap option_map]. split; [|done].
    unfold key. cbn. by rewrite Hc.
Qed.

Lemma kept_switch_stub s p : kept s (switch_stub p s).2.
Proof.
  unfold switch_stub. destruct (space_at p s) as [b|] eqn:E; [|by destruct p]. unfold address_space_switch_stub.
  repeat case_if; cbn [snd]; by apply (kept_put_space s p _ b).
Qed.

(** Storing a page of the right size, or within one. *)
Lemma tables_set_page slot i page st : (as_wf st -> length page = Z.to_nat ARM64_PAGE_SIZE) -> tables_kept st (set_page slot i page st).
Proof. intros Hp. repeat (split; [done|]). intros Hwf. apply set_page_wf; auto. Qed.

Lemma tables_set_byte slot i off b st : tables_kept st (set_page slot i (<[off := b]> (region_page slot i st)) st).
Proof.
  repeat (split; [done|]). intros [W1 W2 W3 W4 W5 W6]. split; cbn [set_page user_l1_tables user_l2_tables user_l3_tables user_region_pages user_table_slots_used]; try done.
  { by rewrite length_alter. }
  intros m ps. destruct (decide (m = slot)) as [->|]; [|rewrite list_lookup_alter_ne by done; by apply W6].
  rewrite list_lookup_alter_eq, fmap_Some. intros (qs & Hq & ->). destruct (W6 _ _ Hq) as [Hl Hf]. split; [by rewrite length_insert|].
  destruct (decide (i < 3)%nat); [|by rewrite list_insert_ge by lia]. apply Forall_insert; [done|]. rewrite length_insert. unfold region_page. rewrite Hq.
  cbn [mbind option_bind]. destruct (lookup_lt_is_Some_2 qs i) as [p Hp]; [lia|]. rewrite Hp. by apply (Forall_lookup_1 _ _ _ _ Hf Hp).
Qed.

Lemma tables_write_data space offset data size st : tables_kept st (address_space_write_user_data space offset data size st).2.
Proof.
  destruct space as [a|]; [|done]. destruct (write_cases a offset data size st) as [->|(_ & Hs & ->)]; [done|]. apply tables_set_page. intros Hwf.
  rewrite length_copy_loop, region_page_length by (done || lia). done.
Qed.

Lemma load_image_kept a code csize data dsize entry st :
  let '(_, a', st') := address_space_load_user_image (Some a) code csize data dsize entry st in
  tables_kept st st' /\ exists a'', a' = Some a'' /\ core a'' = core a /\ root_table a'' = root_table a.
Proof.
  unfold address_space_load_user_image. destruct (_ || _); [split; [done|by eexists]|]. split; [|by eexists].
  etrans; apply tables_set_page; intros _; by rewrite length_copy_loop, clear_page_length.
Qed.

Lemma kept_write_data pid off d n s : kept s (write_data pid off d n s).2.
Proof.
  unfold write_data. pose proof (tables_write_data (space_at (AsTask pid) s) off (Some d) n (spaces s)) as Ht.
  destruct (address_space_write_user_data _ _ _ _ _). by apply kept_spaces.
Qed.

Lemma kept_copy_words argc pid cur a argv lens s : kept s (copy_words argc pid cur a argv lens s).2.
Proof.
  revert cur a argv lens s. induction argc as [|argc IH]; intros cur a argv lens s; cbn [copy_words]; [done|].
  destruct (split_word _) as [w rest]. pose proof (kept_write_data pid cur w (Z.of_nat (length w)) s) as Hw.
  destruct (write_data _ _ _ _ s) as [ok s1]. destruct (negb _); [done|]. etrans; [exact Hw|]. etrans; [apply kept_write_data|apply IH].
Qed.

(** ** The operations of the scheduler that keep it *)

Section ops.
Context `{CodeLayout}.

Lemma kept_root root s : kept s (switch_root root s).
Proof. by split. Qed.

Lemma kept_wake s : kept s (scheduler_wake_sleeping_tasks s).
Proof.
  apply kept_imap; intros i t; (destruct (_ <? _); [|done]); unfold wake; by case_if.
Qed.

Lemma kept_cpu_switch prev next s : kept s (cpu_switch_to prev next s).
Proof. transitivity (upd prev (set_t_context (cpu s)) s); [by apply kept_upd|by split]. Qed.

Lemma kept_run pid s : kept s (scheduler_set_running_task pid s).
Proof. by apply kept_upd. Qed.

Lemma kept_yield s : kept s (scheduler_yield s).2.
Proof.
  unfold scheduler_yield. destruct (_ <? 2); [done|]. cbv zeta. etrans; [apply kept_wake|]. set (w := scheduler_wake_sleeping_tasks s). clearbody w.
  destruct (_ =? _). { destruct (scheduler_task_is_runnable _); [by apply kept_upd|done]. }
  set (d := if bool_decide _ then _ else _). assert (kept w d) as Hd by (unfold d; case_if; [by apply kept_upd|done]). clearbody d.
  etrans; [exact Hd|]. cbn [snd]. etrans; [|apply kept_cpu_switch]. set (r := scheduler_set_running_task _ d).
  assert (kept d r) as Hr by apply kept_run. clearbody r. destruct (truth _); etrans; [exact Hr|by split|exact Hr|by split].
Qed.

Lemma kept_preempt s : kept s (scheduler_preempt s).2.
Proof.
  unfold scheduler_preempt. destruct (_ || _); [done|]. cbv zeta. transitivity (set_scheduler_ticks (scheduler_ticks s +! 1) s); [by split|].
  etrans; [apply kept_wake|]. set (w := scheduler_wake_sleeping_tasks _). clearbody w. transitivity (upd (current_task w) inc_run_ticks w); [by apply kept_upd|].
  set (u := upd _ inc_run_ticks w). clearbody u. destruct (_ =? _); [done|]. cbn [snd]. etrans; [|apply kept_cpu_switch].
  set (d := if bool_decide _ then _ else u). assert (kept u d) as Hd by (unfold d; case_if; [by apply kept_upd|done]). clearbody d.
  etrans; [exact Hd|]. transitivity (upd (current_task w) inc_preemptions d); [by apply kept_upd|]. etrans; [apply kept_run|by split].
Qed.

Lemma kept_tick s : kept s (scheduler_tick s).
Proof.
  unfold scheduler_tick. cbv zeta. transitivity (set_scheduler_ticks (scheduler_ticks s +! 1) s); [by split|].
  etrans; [apply kept_wake|]. set (w := scheduler_wake_sleeping_tasks _). clearbody w. transitivity (upd (current_task s) inc_run_ticks w); [by apply kept_upd|].
  set (u := upd _ inc_run_ticks w). clearbody u. destruct (negb _); [done|].
  set (d := if bool_decide _ then _ else u). assert (kept u d) as Hd by (unfold d; case_if; [by apply kept_upd|done]). clearbody d.
  etrans; [exact Hd|]. etrans; [|apply kept_run]. transitivity (set_current_task (scheduler_next_runnable_task d) d); [by split|]. by apply kept_upd.
Qed.

Lemma kept_sleep iv ms s : kept s (scheduler_sleep_ms iv ms s).2.
Proof. unfold scheduler_sleep_ms. destruct (_ || _); [done|]. cbv zeta. etrans; [|apply kept_yield]. by apply kept_upd. Qed.

Lemma kept_exit s : kept s (scheduler_exit s).2.
Proof.
  unfold scheduler_exit, scheduler_exit_task. transitivity (orphan (current_task s) s). { apply kept_imap; intros i t; by case_if. }
  set (o := orphan _ _). clearbody o. set (z := set_current_task _ _). pose proof (kept_yield z) as Hy.
  assert (kept o z) as Hz by (etrans; [by apply (kept_upd o (current_task s) (set_t_state TASK_ZOMBIE))|by split]).
  destruct (scheduler_yield z). by etrans.
Qed.

Lemma kept_session_task f s : (forall t, key (f t) = key t) -> (forall t, t_state (f t) = t_state t) -> kept s (upd_session_task f s).
Proof. intros Hk Hs. unfold upd_session_task. destruct (session_task _); [|done]. apply kept_upd; [done|]. intros t. by rewrite Hs. Qed.

Lemma kept_reject reason s : kept s (user_session_reject reason s).2.
Proof.
  unfold user_session_reject. cbn [snd]. set (s1 := if truth _ then _ else _).
  assert (kept s s1) as Hs1 by (unfold s1; destruct (truth _); by split). etrans; [exact Hs1|]. clearbody s1.
  etrans; [|by split]. etrans; [|by apply kept_session_task]. by split.
Qed.

Lemma kept_exception esr elr far spsr s : kept s (user_mode_handle_exception esr elr far spsr s).2.
Proof.
  unfold user_mode_handle_exception. cbv zeta. destruct (negb (truth (active _))); [done|]. destruct (_ || _); [apply kept_reject|].
  destruct (negb _); [apply kept_reject|]. destruct (negb _); [apply kept_reject|]. cbn [snd].
  etrans; [apply kept_root|]. etrans; [by apply (kept_session_task (inc_rejects ∘ inc_traps))|]. by split.
Qed.

Lemma kept_exit_syscall code s : kept s (user_mode_handle_exit_syscall code s).2.
Proof.
  unfold user_mode_handle_exit_syscall. cbv zeta. destruct (_ || _); [done|]. cbn [snd]. set (s1 := if truth _ then _ else s).
  assert (kept s s1) as Hs1 by (unfold s1; destruct (truth _); by split). etrans; [exact Hs1|]. clearbody s1.
  etrans; [by apply (kept_session_task (set_last_exit_code code ∘ inc_exits ∘ inc_traps))|]. by split.
Qed.

Lemma kept_run_task pid s : kept s (user_mode_run_task pid s).2.
Proof.
  unfold user_mode_run_task. destruct (negb _); [done|]. destruct (_ && _); [done|]. destruct (space_at _ _) as [space|]; [|done].
  pose proof (kept_switch_stub s (space_ptr s pid)) as Hst. destruct (switch_stub _ s) as [stub s1]. cbn [snd] in Hst.
  destruct (negb _); [done|]. cbn [snd]. etrans; [exact Hst|]. etrans; [|by apply kept_upd]. by split.
Qed.

Lemma kept_run_end pid status s : kept s (run_user_task_end pid status s).2.
Proof. unfold run_user_task_end. destruct (negb _); by apply kept_upd. Qed.

Lemma kept_run_user pid s : kept s (scheduler_run_user_task pid s).2.
Proof.
  unfold scheduler_run_user_task. destruct (_ || _); [done|]. destruct (_ && _); [done|].
  pose proof (kept_run_task pid s) as Hr. destruct (user_mode_run_task pid s) as [[status|] s1]; [|done].
  pose proof (kept_run_end pid status s1) as He. destruct (run_user_task_end pid status s1). by etrans.
Qed.

Lemma kept_run_return pid s : kept s (scheduler_run_user_task_return pid s).2.
Proof.
  unfold scheduler_run_user_task_return. assert (kept s (user_mode_run_task_return pid s).2) as Hr.
  { unfold user_mode_run_task_return. destruct (truth _); [|by split]. etrans; [by apply (kept_upd s pid inc_recoveries)|by split]. }
  destruct (user_mode_run_task_return pid s) as [status s1]. etrans; [exact Hr|apply kept_run_end].
Qed.

Lemma kept_unblock_user pid s : kept s (scheduler_unblock_user_task pid s).2.
Proof.
  unfold scheduler_unblock_user_task. destruct (_ || _); [done|]. destruct (negb _); [done|]. destruct (negb _); [done|].
  pose proof (kept_switch_stub s (space_ptr s pid)) as Hs. destruct (switch_stub _ s) as [stub s1]. destruct (negb _); [done|].
  etrans; [exact Hs|]. by apply kept_upd.
Qed.

Lemma kept_dump s : kept s (scheduler_dump_tasks s).
Proof.
  unfold scheduler_dump_tasks. generalize (seqZ 0 (task_count s)) as l. intros l. revert s.
  induction l as [|i l IH]; intros s; cbn [foldl]; [done|]. etrans; [|apply IH]. destruct (space_at _ s); [|done]. apply kept_switch_stub.
Qed.

Lemma kept_trim s : kept s (scheduler_trim_unused_tail s).
Proof.
  unfold scheduler_trim_unused_tail. generalize (Z.to_nat (task_count s)) as n. intros n. revert s.
  induction n as [|n IH]; intros s; cbn [trim_loop]; [done|]. case_if; [|done]. etrans; [|apply IH]. by split.
Qed.

Lemma kept_take_slot s pid s' : take_slot s = Some (pid, s') -> kept s s'.
Proof. unfold take_slot. destruct (List.find _ _); [by intros [= <- <-]|]. destruct (_ >=? _); [done|]. by intros [= <- <-]. Qed.
End ops.

(** ** Owners *)

Section owners.
Context `{CodeLayout} `{!AsLayout} `{!AsLayoutOk}.
(** The kernel's tables, and the root the programs' roots are copied from. *)
Context (kernel_table : Z -> list Z) (root : Z) (Hkernel : kernel_map_ok kernel_table root).
Implicit Types (s : sys) (p : option Z).

(** The task holds its space; [p] is a task whose space is being set up or taken down. *)
Definition holder p i (t : task) : Prop := address_space_ptr (memory t) = AsTask i \/ p = Some i.
Definition slot_of (t : task) : Z := user_table_slot (user_address_space t).
Definition holds p s i n : Prop := exists t, task_at s i = Some t /\ holder p i t /\ slot_of t = Z.of_nat n /\ slot_of t < 4.

(** The description of a space that owns a slot. *)
Definition owner_core (n : Z) : address_space_kind * Z * Z * Z * list address_space_user_region :=
  (ADDRESS_SPACE_USER, n, l1_address n, root, user_region_list).

Record owned p s : Prop := {
  ow_wf : as_wf (spaces s);
  ow_root : kernel_space (spaces s) = (root, ADDRESS_SPACE_KERNEL);
  ow_range : forall i t, task_at s i = Some t -> holder p i t -> 0 <= slot_of t <= 4;
  ow_space : forall i t, task_at s i = Some t -> holder p i t -> slot_of t < 4 ->
    core (user_address_space t) = owner_core (slot_of t) /\ slot_tables kernel_table root (Z.to_nat (slot_of t)) (spaces s) /\
    (p = Some i \/ t_state t <> TASK_UNUSED);
  ow_alone : forall i j n, holds p s i n -> holds p s j n -> i = j;
  ow_used : forall n u, user_table_slots_used (spaces s) !! n = Some u -> (u <> 0 <-> exists i, holds p s i n);
}.

(** In every state but in the middle of an operation. *)
Definition spaces_ok s : Prop := owned None s.

Lemma key_slot t u : key t = key u -> slot_of t = slot_of u.
Proof. unfold key, core, slot_of. congruence. Qed.
Lemma key_core t u : key t = key u -> core (user_address_space t) = core (user_address_space u).
Proof. unfold key. congruence. Qed.
Lemma key_holder p i t u : key t = key u -> holder p i t -> holder p i u.
Proof. unfold key, holder. intros [= E _]. by rewrite E. Qed.

Lemma tables_kept_slot n st st' : tables_kept st st' -> slot_tables kernel_table root n st -> slot_tables kernel_table root n st'.
Proof. intros (E1 & E2 & E3 & _) [S1 S2 S3]. split; congruence. Qed.

Lemma holds_kept p s s' i n : kept s s' -> holds p s i n <-> holds p s' i n.
Proof.
  intros Hk. split.
  - intros (t & Ht & Hh & Hs & Hl). destruct (kept_task_back _ _ _ _ Hk Ht) as (u & Hu & E). exists u. rewrite (key_slot u t) by done.
    split; [done|]. split; [by eapply key_holder|done].
  - intros (t & Ht & Hh & Hs & Hl). destruct (kept_task _ _ _ _ Hk Ht) as (u & Hu & E & _). exists u. rewrite (key_slot u t) by done.
    split; [done|]. split; [by eapply key_holder|done].
Qed.

Lemma owned_kept p s s' : kept s s' -> owned p s -> owned p s'.
Proof.
  intros Hk [W R G S A U]. pose proof Hk as [(E1 & E2 & E3 & E4 & E5 & E6) _]. split.
  - auto.
  - congruence.
  - intros i t Ht Hh. destruct (kept_task _ _ _ _ Hk Ht) as (u & Hu & E & _). rewrite <- (key_slot u t E). by apply (G i); [|eapply key_holder].
  - intros i t Ht Hh Hl. destruct (kept_task _ _ _ _ Hk Ht) as (u & Hu & E & Hst). rewrite <- (key_slot u t E) in *. rewrite <- (key_core u t E).
    destruct (S i u Hu) as (Hc & Hsl & Hp); [by eapply key_holder|done|]. split; [done|]. split; [by apply (tables_kept_slot _ (spaces s)); [apply Hk|]|].
    destruct Hp as [|Hp]; [by left|right]. auto.
  - intros i j n. rewrite <- !(holds_kept p s s') by done. apply A.
  - intros n u. rewrite E4. intros Hn. rewrite (U n u Hn). by setoid_rewrite (holds_kept p s s' _ n Hk).
Qed.

Lemma owned_count p n s : owned p s -> owned p (set_task_count n s).
Proof. by apply owned_kept. Qed.

(** *** Giving a slot away *)

Lemma holds_slot p s i n t : task_at s i = Some t -> holds p s i n -> slot_of t = Z.of_nat n /\ (n < 4)%nat.
Proof. intros Ht (u & Hu & _ & E & Hl). assert (u = t) as -> by congruence. split; [done|lia]. Qed.

(** An unused entry holds nothing. *)
Lemma unused_holds_nothing s pid n : spaces_ok s -> state_of s pid = TASK_UNUSED -> ~ holds None s pid n.
Proof.
  intros Ho Hu (t & Ht & Hh & _ & Hl). destruct (ow_space _ _ Ho pid t Ht Hh Hl) as (_ & _ & [|Hs]); [done|]. apply Hs.
  unfold state_of in Hu. by rewrite Ht in Hu.
Qed.

Lemma put_task s pid a st i : 0 <= pid -> task_at (put_space (AsTask pid) (Some a) (set_spaces st s)) i =
  (if decide (i = pid) then set_user_address_space a <$> task_at s i else task_at s i).
Proof. intros Hp. cbn [put_space]. rewrite task_at_upd. by replace (Z.max 0 pid) with pid by lia. Qed.

Lemma holds_put s pid a st t0 i m : task_at s pid = Some t0 ->
  holds (Some pid) (put_space (AsTask pid) (Some a) (set_spaces st s)) i m <->
  (i = pid /\ user_table_slot a = Z.of_nat m /\ user_table_slot a < 4) \/ (i <> pid /\ holds None s i m).
Proof.
  intros Ht0. destruct (task_at_lookup _ _ _ Ht0) as [Hp _]. unfold holds. setoid_rewrite put_task; [|done]. destruct (decide (i = pid)) as [->|Hi].
  - rewrite Ht0. split; [intros (t & [= <-] & _ & E); by left|]. intros [(_ & E)|[? _]]; [|done]. eexists. split; [reflexivity|]. by split; [right|].
  - split.
    + intros (t & Ht & [Hx|[=]] & E); [|congruence]. right. split; [done|]. exists t. split; [done|]. by split; [left|].
    + intros [[]|[_ (t & Ht & [Hx|] & E)]]; [done| |done]. exists t. split; [done|]. by split; [left|].
Qed.

(** What the other tasks keep when one gets a space. *)
Lemma owned_put s pid a st t0 : spaces_ok s -> task_at s pid = Some t0 -> as_wf st ->
  kernel_space st = (root, ADDRESS_SPACE_KERNEL) -> 0 <= user_table_slot a <= 4 ->
  (user_table_slot a < 4 -> core a = owner_core (user_table_slot a) /\ slot_tables kernel_table root (Z.to_nat (user_table_slot a)) st) ->
  (forall i n, i <> pid -> holds None s i n -> Z.of_nat n <> user_table_slot a /\ slot_view st n = slot_view (spaces s) n) ->
  (forall n u, user_table_slots_used st !! n = Some u -> (u <> 0 <-> user_table_slot a = Z.of_nat n \/ exists i, i <> pid /\ holds None s i n)) ->
  owned (Some pid) (put_space (AsTask pid) (Some a) (set_spaces st s)).
Proof.
  intros [W R G S A U] Ht0 Hw Hr Ha Hc Hother Hused. destruct (task_at_lookup _ _ _ Ht0) as [Hp _]. set (s' := put_space _ _ _).
  assert (spaces s' = st) as Es by reflexivity. pose proof (fun i m => holds_put s pid a st t0 i m Ht0) as Hh. fold s' in Hh.
  split; rewrite ?Es; [done|done|..].
  - intros i t. unfold s'. rewrite put_task by done. case_decide as Ei; [subst i; rewrite Ht0; by intros [= <-] _|].
    intros Ht [Hx|[=]]; [|congruence]. apply (G i t Ht). by left.
  - intros i t. unfold s'. rewrite put_task by done. case_decide as Ei.
    + subst i. rewrite Ht0. intros [= <-] _ Hl. destruct (Hc Hl). split; [done|]. by split; [|left].
    + intros Ht [Hx|[=]] Hl; [|congruence]. destruct (S i t Ht (or_introl Hx) Hl) as (Hco & [T1 T2 T3] & Hs). split; [done|]. split; [|right; by destruct Hs].
      pose proof (G i t Ht (or_introl Hx)) as Hg. destruct (Hother i (Z.to_nat (slot_of t)) Ei) as [_ Hv].
      { exists t. split; [done|]. split; [by left|]. lia. }
      unfold slot_view in Hv. injection Hv as V1 V2 V3 _. split; congruence.
  - intros i j m. rewrite !Hh. intros [(-> & E & _)|[Hi Hhi]] [(-> & E' & _)|[Hj Hhj]]; [done|by destruct (Hother j m Hj Hhj)|by destruct (Hother i m Hi Hhi)|by apply (A i j m)].
  - intros m u Hm. rewrite (Hused m u Hm). setoid_rewrite Hh. apply lookup_lt_Some in Hm. rewrite (wf_used _ Hw) in Hm. split.
    + intros [E|[i [Hi Hx]]]; [exists pid; left; split; [done|]; split; [done|lia]|exists i; by right].
    + intros [i [(_ & E & _)|[Hi Hx]]]; [by left|right; by exists i].
Qed.

Lemma owned_create nm s pid t0 : spaces_ok s -> task_at s pid = Some t0 -> t_state t0 = TASK_UNUSED ->
  let '(a, st) := address_space_init_user kernel_table nm root (spaces s) in
  owned (Some pid) (put_space (AsTask pid) (Some a) (set_spaces st s)).
Proof.
  intros Ho Ht0 Hu. pose proof Ho as [W R G S A U].
  assert (forall n, ~ holds None s pid n) as Hno by (intros n; apply unused_holds_nothing; [done|]; unfold state_of; by rewrite Ht0).
  assert (forall n, (exists i, holds None s i n) <-> exists i, i <> pid /\ holds None s i n) as Hex.
  { intros n. split; [intros [i Hi]; exists i; split; [by intros ->; destruct (Hno n)|done]|intros (i & _ & Hi); by exists i]. }
  pose proof (init_user_effect kernel_table nm root (spaces s) W) as (Hw' & _ & He).
  pose proof (init_user_slot kernel_table nm root (spaces s)) as Hc. destruct (address_space_init_user kernel_table nm root (spaces s)) as [a st]. cbn [fst snd] in *.
  destruct (free_slot (user_table_slots_used (spaces s)) 0) as [n|] eqn:Hf.
  - destruct He as (Hslot & Hused & Hview). destruct (Hc n W Hkernel eq_refl) as [Hcr Hst]. apply free_slot_spec in Hf as (_ & Hn & _). rewrite Nat.sub_0_r in Hn.
    assert (n < 4)%nat as Hn4 by (rewrite <- (wf_used _ W); by eapply lookup_lt_Some).
    assert (forall i, ~ holds None s i n) as Hfresh by (intros i Hi; by apply (proj2 (U n 0 Hn)); [exists i|]).
    apply (owned_put s pid a st t0 Ho Ht0 Hw'); [by rewrite Hst|lia|..].
    + intros _. rewrite Hslot, Nat2Z.id. split; [|rewrite Hst; by apply init_state_tables]. unfold core, owner_core.
      by rewrite (cr_kind _ _ _ Hcr), Hslot, (cr_target _ _ _ Hcr), (cr_kernel_root _ _ _ Hcr), (cr_regions _ _ _ Hcr).
    + intros i m _ Hi. assert (m <> n) as Hne by (by intros ->; destruct (Hfresh i)). split; [rewrite Hslot; lia|by apply Hview].
    + intros m u. rewrite Hused, Hslot, list_lookup_insert_Some. intros [(<- & <- & _)|[Hne Hm]]; [split; [by left|done]|].
      rewrite (U m u Hm), Hex. split; [by right|]. intros [E|?]; [lia|done].
  - destruct He as [Hslot ->]. apply (owned_put s pid a (spaces s) t0 Ho Ht0 W R); [lia|lia|..].
    + intros i m _ (t & Ht & _ & E & Hl). split; [lia|done].
    + intros m u Hm. rewrite (U m u Hm), Hex, Hslot. split; [by right|]. apply lookup_lt_Some in Hm. rewrite (wf_used _ W) in Hm. intros [|]; [lia|done].
Qed.

(** The task takes the space that was set up for it. *)
Lemma owned_commit s pid f : owned (Some pid) s -> (forall t, key (f t) = (AsTask pid, core (user_address_space t))) ->
  (forall t, t_state (f t) <> TASK_UNUSED) -> 0 <= pid -> spaces_ok (upd pid f s).
Proof.
  intros [W R G S A U] Hk Hst Hp.
  assert (forall i t, task_at (upd pid f s) i = Some t -> exists u, task_at s i = Some u /\ core (user_address_space t) = core (user_address_space u) /\
    (holder None i t <-> holder (Some pid) i u) /\ ((pid = i \/ t_state u <> TASK_UNUSED) -> t_state t <> TASK_UNUSED)) as Hat.
  { intros i t. rewrite task_at_upd. case_decide as E.
    - intros (u & Hu & ->)%fmap_Some. exists u. specialize (Hk u). unfold key in Hk. injection Hk as E1 E2. split; [done|]. split; [unfold core; congruence|].
      split; [|intros _; apply Hst]. assert (i = pid) as -> by lia. unfold holder. rewrite E1. split; [by right|by left].
    - intros Ht. exists t. split; [done|]. split; [done|]. split; [|intros [->|]; [lia|done]]. unfold holder. split; intros [|[=]]; [by left|by left|lia]. }
  assert (forall i u, task_at s i = Some u -> exists t, task_at (upd pid f s) i = Some t /\ core (user_address_space t) = core (user_address_space u)) as Hback.
  { intros i u Hu. rewrite task_at_upd, Hu. case_decide; [|by exists u]. eexists. split; [reflexivity|]. specialize (Hk u). unfold key in Hk. injection Hk as E1 E2. unfold core; congruence. }
  assert (forall a b, core a = core b -> user_table_slot a = user_table_slot b) as Hcore by (unfold core; congruence).
  assert (forall i n, holds None (upd pid f s) i n <-> holds (Some pid) s i n) as Hh.
  { intros i n. split.
    - intros (t & Ht & Hx & E & Hl). destruct (Hat i t Ht) as (u & Hu & Hc & Hi & _). exists u. split; [done|]. unfold slot_of in *. rewrite <- (Hcore _ _ Hc).
      split; [by apply Hi|done].
    - intros (u & Hu & Hx & E & Hl). destruct (Hback i u Hu) as (t & Ht & Hc). destruct (Hat i t Ht) as (u' & Hu' & _ & Hi & _). assert (u' = u) as -> by congruence.
      exists t. split; [done|]. unfold slot_of in *. rewrite (Hcore _ _ Hc). split; [by apply Hi|done]. }
  split; [done|done|..].
  - intros i t Ht Hx. destruct (Hat i t Ht) as (u & Hu & Hc & Hi & _). unfold slot_of. rewrite (Hcore _ _ Hc). apply (G i u Hu). by apply Hi.
  - intros i t Ht Hx Hl. destruct (Hat i t Ht) as (u & Hu & Hc & Hi & Hs). unfold slot_of in *. rewrite (Hcore _ _ Hc) in *. rewrite Hc.
    destruct (S i u Hu ltac:(by apply Hi) Hl) as (Hco & Hta & Hx'). split; [done|]. split; [done|right]. apply Hs. destruct Hx' as [[=]|]; [by left|by right].
  - intros i j n. rewrite !Hh. apply A.
  - intros n u Hn. rewrite (U n u Hn). by setoid_rewrite Hh.
Qed.

(** A task without a slot may change, if it does not come to hold another space. *)
Lemma owned_release p s pid f : owned p s -> (p = None \/ p = Some pid) -> 0 <= pid -> (forall n, ~ holds p s pid n) ->
  (forall t, task_at s pid = Some t -> address_space_ptr (memory (f t)) = AsTask pid -> slot_of (f t) = slot_of t /\ holder p pid t) ->
  spaces_ok (upd pid f s).
Proof.
  intros [W R G S A U] Hpp Hp Hno Hf.
  assert (forall i t, task_at (upd pid f s) i = Some t -> i <> pid -> task_at s i = Some t) as Hat.
  { intros i t Ht Hi. by rewrite task_at_upd_ne in Ht by lia. }
  assert (forall i t, i <> pid -> holder None i t <-> holder p i t) as Hho.
  { intros i t Hi. unfold holder. split; intros [|E]; try by left. by destruct Hpp; subst p; simplify_eq. }
  assert (forall t, task_at (upd pid f s) pid = Some t -> holder None pid t -> slot_of t = 4) as Hpid.
  { intros t. rewrite task_at_upd_eq by done. intros (u & Hu & ->)%fmap_Some [Hx|]; [|done]. destruct (Hf u Hu Hx) as [-> Hx'].
    pose proof (G pid u Hu Hx'). destruct (decide (slot_of u < 4)); [|lia]. exfalso. apply (Hno (Z.to_nat (slot_of u))). exists u. split_and!; try done. lia. }
  assert (forall i n, holds None (upd pid f s) i n <-> holds p s i n) as Hh.
  { intros i n. destruct (decide (i = pid)) as [->|Hi].
    - split; [|intros Hx; by destruct (Hno n)]. intros (t & Ht & Hx & _ & Hl). rewrite (Hpid t Ht Hx) in Hl. lia.
    - unfold holds. rewrite task_at_upd_ne by lia. by setoid_rewrite Hho. }
  split; [done|done|..].
  - intros i t Ht Hx. destruct (decide (i = pid)) as [->|Hi]; [rewrite (Hpid t Ht Hx); lia|]. apply (G i t); [by apply Hat|by apply Hho].
  - intros i t Ht Hx Hl. destruct (decide (i = pid)) as [->|Hi]; [rewrite (Hpid t Ht Hx) in Hl; lia|].
    destruct (S i t (Hat i t Ht Hi) ltac:(by apply Hho) Hl) as (Hco & Hta & Hx'). split; [done|]. split; [done|right].
    destruct Hx' as [E|]; [|done]. destruct Hpp; subst p; [done|]. by injection E as ->.
  - intros i j n. rewrite !Hh. apply A.
  - intros n u Hn. rewrite (U n u Hn). by setoid_rewrite Hh.
Qed.

(** *** Taking a slot back *)

Lemma owned_destroy p s pid t0 : owned p s -> task_at s pid = Some t0 -> holder p pid t0 ->
  let s' := destroy_space (AsTask pid) s in
  owned p s' /\ (forall n, ~ holds p s' pid n) /\
  exists a, (forall i, task_at s' i = if decide (i = pid) then set_user_address_space a <$> task_at s i else task_at s i).
Proof.
  intros [W R G S A U] Ht0 Hh0. cbv zeta. destruct (task_at_lookup _ _ _ Ht0) as [Hp _]. unfold destroy_space. cbn [space_at]. rewrite Ht0. cbn [fmap option_fmap option_map].
  pose proof (G pid t0 Ht0 Hh0) as Hg. destruct (destroy_cases (user_address_space t0) (spaces s)) as [(Hk & Hl & ->)|[Hn ->]].
  - set (n0 := Z.to_nat (user_table_slot (user_address_space t0))). set (s' := put_space _ _ _).
    assert (forall i, task_at s' i = if decide (i = pid) then set_user_address_space (set_destroyed (user_address_space t0)) <$> task_at s i else task_at s i) as Hat
      by (intros i; by apply put_task).
    assert (holds p s pid n0) as Hown by (exists t0; split; [done|]; split; [done|]; unfold slot_of in *; lia).
    assert (forall i n, holds p s' i n <-> i <> pid /\ holds p s i n) as Hh.
    { intros i n. unfold holds. setoid_rewrite Hat. destruct (decide (i = pid)) as [->|Hi].
      - rewrite Ht0. split; [|by intros []]. intros (t & [= <-] & _ & _ & E). unfold slot_of in E. cbn in E. unfold ADDRESS_SPACE_USER_TABLE_SLOTS in E. lia.
      - split; [by split|by intros []]. }
    assert (forall i n, i <> pid -> holds p s i n -> n <> n0) as Hother by (intros i n Hi Hx ->; apply Hi; by apply (A i pid n0)).
    split; [|split; [intros n; rewrite Hh; by intros []|by eexists]].
    split; [by apply clear_slot_wf|done|..].
    + intros i t. rewrite Hat. case_decide as Ei; [subst i; rewrite Ht0; intros [= <-] _; unfold slot_of; cbn; unfold ADDRESS_SPACE_USER_TABLE_SLOTS; lia|]. apply G.
    + intros i t. rewrite Hat. case_decide as Ei.
      { subst i. rewrite Ht0. intros [= <-] _ E. unfold slot_of in E. cbn in E. unfold ADDRESS_SPACE_USER_TABLE_SLOTS in E. lia. }
      intros Ht Hx Hlt. destruct (S i t Ht Hx Hlt) as (Hco & [T1 T2 T3] & Hs). split; [done|]. split; [|done]. pose proof (G i t Ht Hx).
      assert (Z.to_nat (slot_of t) <> n0) as Hne by (apply (Hother i); [done|]; exists t; split_and!; try done; lia).
      pose proof (clear_slot_view n0 0 (spaces s) _ Hne) as Hv. unfold slot_view in Hv. injection Hv as V1 V2 V3 _.
      split; [exact (eq_trans V1 T1)|exact (eq_trans V2 T2)|exact (eq_trans V3 T3)].
    + intros i j n. rewrite !Hh. intros [_ ?] [_ ?]. by apply (A i j n).
    + intros n u. setoid_rewrite Hh. change (user_table_slots_used (spaces s')) with (<[n0 := 0]> (user_table_slots_used (spaces s))).
      rewrite list_lookup_insert_Some. intros [(<- & <- & _)|[Hne Hm]].
      * split; [done|]. intros (i & Hi & Hx). by destruct (Hother i n0 Hi Hx).
      * rewrite (U n u Hm). split; [intros [i Hi]; exists i; split; [|done]|intros (i & _ & Hi); by exists i].
        intros ->. apply Hne. destruct (holds_slot p s pid n t0 Ht0 Hi) as [E _]. unfold slot_of in E. lia.
  - set (s' := put_space _ _ _).
    assert (forall i, task_at s' i = if decide (i = pid) then set_user_address_space (user_address_space t0) <$> task_at s i else task_at s i) as Hat by (intros i; by apply put_task).
    assert (owned p s') as Ho'.
    { apply (owned_kept p s); [|by split]. apply (kept_put_space (set_spaces (spaces s) s) (AsTask pid) _ (user_address_space t0)); [|done..].
      cbn [space_at]. change (task_at (set_spaces (spaces s) s) pid) with (task_at s pid). by rewrite Ht0. }
    split; [done|]. split; [|by eexists]. intros n Hx. pose proof Hx as (t & Ht & Hxh & E & Hlt). rewrite Hat, decide_True, Ht0 in Ht by done. injection Ht as <-.
    unfold slot_of in Hlt. cbn in Hlt. destruct (S pid t0 Ht0 Hh0 Hlt) as (Hco & _). apply Hn. unfold core, owner_core in Hco. split; [congruence|done].
Qed.

(** *** The operations that give and take slots *)

Lemma owned_add nm entry s : sched_inv s -> spaces_ok s -> spaces_ok (scheduler_add_task nm entry s).2.
Proof.
  intros Hi Ho. unfold scheduler_add_task. destruct (take_slot s) as [[pid s1]|] eqn:Et; [|done]. destruct (take_slot_hole s pid s1 Hi Et) as (Hh & _).
  pose proof (ho_range _ _ Hh) as Hr. apply (owned_kept None s s1) in Ho; [|by eapply kept_take_slot]. cbn [snd].
  apply (owned_release None s1 pid (fresh_task pid nm TASK_READY entry)) in Ho; [|by left|lia|intros n; apply unused_holds_nothing; [done|apply (ho_free _ _ Hh)]|done].
  apply (owned_kept None _ (scheduler_init_task_el0 pid (upd pid (fresh_task pid nm TASK_READY entry) s1))) in Ho; [|by apply kept_upd].
  destruct (truth entry); [|done]. eapply owned_kept; [|exact Ho]. by apply kept_upd.
Qed.

Lemma destroy_other (q : as_ptr) s : (forall pid, q <> AsTask pid) -> kernel_space (spaces s) = (root, ADDRESS_SPACE_KERNEL) -> kept s (destroy_space q s).
Proof.
  intros Hp [= _ Hk]. unfold destroy_space. destruct q as [| |pid]; [by split| |by destruct (Hp pid)]. cbn [space_at].
  destruct (destroy_cases (kernel_address_space (spaces s)) (spaces s)) as [(Hu & _)|[_ ->]]; [congruence|].
  transitivity (set_spaces (spaces s) s); [by split|]. by apply (kept_put_space _ AsKernel _ (kernel_address_space (spaces s))).
Qed.

Lemma owned_clear pid s : sched_inv s -> 0 < pid < task_count s -> spaces_ok s -> spaces_ok (scheduler_clear_task_slot pid s).
Proof.
  intros Hi Hp Ho. destruct (in_range_task s pid Hi ltac:(lia)) as [t Ht]. unfold scheduler_clear_task_slot. set (f := fun t : task => _).
  assert (space_ptr s pid = address_space_ptr (memory t)) as Es by (unfold space_ptr; by rewrite Ht).
  destruct (decide (address_space_ptr (memory t) = AsTask pid)) as [E|E].
  - rewrite Es, E. destruct (owned_destroy None s pid t Ho Ht ltac:(by left)) as (Hd & Hno & _). apply (owned_release None); [done|by left|lia|done|done].
  - assert (forall q, space_ptr s pid <> AsTask q) as Hq.
    { intros q Hq. destruct (space_ptr_own s pid q Hi Hq) as [-> _]. rewrite Es in Hq. done. }
    pose proof (destroy_other (space_ptr s pid) s Hq (ow_root _ _ Ho)) as Hk. apply (owned_release None); [by apply (owned_kept None s)|by left|lia| |done].
    intros n Hx. apply (holds_kept None s _ pid n Hk) in Hx as (u & Hu & [Hx|] & _); [|done]. assert (u = t) as -> by congruence. done.
Qed.

Lemma owned_abandon pid s t : task_at s pid = Some t -> address_space_ptr (memory t) = AsTask pid -> spaces_ok s -> spaces_ok (abandon_task pid s).2.
Proof.
  intros Ht E Ho. destruct (task_at_lookup _ _ _ Ht) as [Hp _]. unfold abandon_task. cbn [snd].
  destruct (owned_destroy None s pid t Ho Ht ltac:(by left)) as (Hd & Hno & a & Ha).
  assert (spaces_ok (upd pid (set_t_state TASK_UNUSED) (destroy_space (AsTask pid) s))) as Hu.
  { apply (owned_release None); [done|by left|done|done|]. intros u Hu Hx. split; [done|by left]. }
  destruct (_ =? _); [|done]. by apply owned_count.
Qed.

(** A space that was set up for a task that is given up again. *)
Lemma owned_drop pid s : owned (Some pid) s -> (forall n, ~ holds (Some pid) s pid n) -> 0 <= pid -> spaces_ok s.
Proof.
  intros Ho Hno Hp. apply (owned_release (Some pid) s pid (fun t => t)) in Ho; [|by right|done|done|by intros t Ht Hx; split; [|right]].
  apply (owned_kept None _ s) in Ho; [done|]. split; [done|]. intros i. unfold state_of. rewrite task_at_upd. case_decide; [|by split].
  destruct (task_at s i); by split.
Qed.

Lemma owned_setup nm image a argc base off s : sched_inv s -> spaces_ok s -> spaces_ok (setup_user_task kernel_table nm image a argc base off s).2.
Proof.
  intros Hi Ho. unfold setup_user_task. destruct (take_slot s) as [[pid s1]|] eqn:Et; [|done].
  destruct (take_slot_hole s pid s1 Hi Et) as (Hh & _). pose proof (ho_range _ _ Hh) as Hr. pose proof (ho_count _ _ Hh) as Hcnt.
  destruct (Z.geb_spec pid SCHED_MAX_TASKS); [lia|]. apply (owned_kept None s s1) in Ho; [|by eapply kept_take_slot].
  assert (exists t0, task_at s1 pid = Some t0) as [t0 Ht0].
  { rewrite task_at_eq by lia. apply lookup_lt_is_Some_2. rewrite (ho_len _ _ Hh). unfold SCHED_MAX_TASKS in *. lia. }
  assert (t_state t0 = TASK_UNUSED) as Hu0 by (pose proof (ho_free _ _ Hh) as Hf; unfold state_of in Hf; by rewrite Ht0 in Hf).
  pose proof (ow_root _ _ Ho) as Hroot. injection Hroot as Hroot _. cbv zeta. rewrite Hroot.
  pose proof (owned_create (Some (default (lit "user-demo") nm)) s1 pid t0 Ho Ht0 Hu0) as Hc.
  destruct (address_space_init_user _ _ _ _) as [space st]. set (s2 := put_space (AsTask pid) (Some space) (set_spaces st s1)) in *.
  assert (space_at (AsTask pid) s2 = Some space) as Hsp by (cbn [space_at]; unfold s2; rewrite put_task, decide_True, Ht0 by lia; done).
  rewrite Hsp. pose proof (load_image_kept space (Some (i_code image)) (i_code_size image) (Some (i_data image)) (i_data_size image) (i_entry_offset image) (spaces s2)) as Hl.
  destruct (address_space_load_user_image _ _ _ _ _ _ _) as [[ok space'] st']. destruct Hl as (Hl & a' & -> & Hca & Hra).
  set (s3 := put_space (AsTask pid) (Some a') (set_spaces st' s2)).
  assert (kept s2 s3) as K3.
  { transitivity (set_spaces st' s2); [by apply kept_spaces|]. by apply (kept_put_space (set_spaces st' s2) (AsTask pid) a' space). }
  apply (owned_kept _ _ _ K3) in Hc. assert (exists t3, task_at s3 pid = Some t3) as [t3 Ht3].
  { destruct (kept_task_back s2 s3 pid (set_user_address_space space t0) K3) as (u & Hu & _); [|by exists u]. unfold s2. by rewrite put_task, decide_True, Ht0 by lia. }
  destruct (truth ok); cbn [negb].
  2: { cbn [snd]. destruct (owned_destroy (Some pid) s3 pid t3 Hc Ht3 ltac:(by right)) as (Hd & Hno & _). apply owned_drop in Hd; [|done|lia].
       destruct (_ =? _); [|done]. by apply owned_count. }
  set (f := set_address_space_ptr (AsTask pid) ∘ fresh_task pid _ TASK_BLOCKED 0). set (s4 := upd pid f s3).
  assert (spaces_ok s4) as H4 by (apply owned_commit; [exact Hc|done|done|lia]).
  assert (task_at s4 pid = Some (f t3)) as Ht4 by (unfold s4; by rewrite task_at_upd_eq, Ht3 by lia).
  assert (forall s', kept s4 s' -> spaces_ok s' /\ spaces_ok (abandon_task pid s').2) as Hq.
  { intros s' Hk. pose proof (owned_kept None s4 s' Hk H4) as Ho'. split; [done|]. destruct (kept_task_back s4 s' pid _ Hk Ht4) as (u & Hu & Ek).
    apply (owned_abandon pid s' u Hu); [|done]. unfold key in Ek. injection Ek as -> _. done. }
  clearbody s4. pose proof (kept_copy_words (Z.to_nat argc) pid off a [] [] s4) as Q5.
  destruct (copy_words (Z.to_nat argc) pid off a [] [] s4) as [[[okw argv] lens] s5]. cbn [snd] in Q5.
  destruct okw; cbn [negb]; [|by apply Hq]. set (s6 := upd pid _ s5). assert (kept s4 s6) as Q6 by (etrans; [exact Q5|by apply kept_upd]). clearbody s6.
  pose proof (kept_write_data pid base (word_array argv) 64 s6) as Q7. destruct (write_data _ _ _ _ s6) as [ok7 s7].
  assert (kept s4 s7) as Q7' by (by etrans). destruct (truth ok7); cbn [negb]; [|by apply Hq].
  pose proof (kept_write_data pid (base +! 64) (word_array lens) 64 s7) as Q8. destruct (write_data _ _ _ _ s7) as [ok8 s8].
  assert (kept s4 s8) as Q8' by (by etrans). destruct (truth ok8); cbn [negb]; [|by apply Hq].
  apply Hq. etrans; [exact Q8'|]. by apply kept_upd.
Qed.

Lemma owned_create_user nm file a s : sched_inv s -> spaces_ok s -> spaces_ok (create_user_task kernel_table nm file a s).2.
Proof.
  intros Hi Ho. unfold create_user_task. destruct file as [[file sz]|]; [|done].
  destruct (saturn_exec_parse _ _ _); [|done]. destruct (argument_length_loop _ _); [|done].
  destruct (argc_loop _ _ _); [|done]. cbv zeta. destruct (_ >? _); [done|]. by apply owned_setup.
Qed.

Lemma owned_reap_loop l acc : Forall (fun i => 0 < i < task_count acc.2) l -> sched_inv acc.2 -> spaces_ok acc.2 -> spaces_ok (foldl reap_step acc l).2.
Proof.
  revert acc. induction l as [|i l IH]; intros [n t] Hf Hi Ho; cbn [foldl]; [done|]. apply Forall_cons in Hf as [Hr Hf]. cbn [snd] in *. unfold reap_step at 2.
  destruct (Z.eqb_spec i (current_task t)); cbn [negb andb]; [by apply IH|]. case_bool_decide; [|by apply IH].
  destruct (sched_inv_clear i t) as (Hc & _ & Hn & _); [done|done|done|]. apply IH; cbn [snd]; [|done|by apply owned_clear].
  eapply Forall_impl; [exact Hf|]. intros j Hj. by rewrite Hn.
Qed.

Lemma owned_exec op s : sched_inv s -> spaces_ok s -> spaces_ok (sched_exec kernel_table op s).2.
Proof.
  intros Hi Ho. destruct op; cbn [sched_exec snd].
  - unfold scheduler_create_kernel_thread. pose proof (owned_add nm entry s Hi Ho). destruct (scheduler_add_task nm entry s). by case_if.
  - by apply owned_create_user.
  - eapply owned_kept; [apply kept_unblock_user|done].
  - unfold scheduler_block_task. repeat case_if; try done. eapply owned_kept; [by apply kept_upd|done].
  - unfold scheduler_unblock_task. repeat case_if; try done. eapply owned_kept; [by apply kept_upd|done].
  - unfold scheduler_reap_zombie_task. destruct (Z.ltb_spec pid 0); [done|]. destruct (Z.geb_spec pid (task_count s)); [done|].
    destruct (Z.eqb_spec pid 0); [done|]. cbn [orb]. repeat case_if; try done. cbn [snd]. eapply owned_kept; [apply kept_trim|]. apply owned_clear; [done|lia|done].
  - unfold scheduler_reap_zombies. pose proof (owned_reap_loop (seqZ 1 (task_count s - 1)) (0, s)) as Hl. destruct (foldl reap_step (0, s) _) as [n t].
    cbn [snd] in *. eapply owned_kept; [apply kept_trim|]. apply Hl; [|done|done]. apply Forall_forall. intros i Hx%elem_of_seqZ. lia.
  - unfold scheduler_wait_task_status. destruct (_ || _) eqn:Eg; [done|]. apply orb_false_iff in Eg as [Eg _]. apply orb_false_iff in Eg as [Eg Ec].
    apply orb_false_iff in Eg as [_ El]. rewrite Z.geb_leb in Ec. destruct (if pid =? 0 then find_zombie_child s else (true, pid)) as [own q] eqn:Ep.
    destruct (Z.eqb_spec q 0); [done|]. assert (0 < q < task_count s) as Hq.
    { destruct (Z.eqb_spec pid 0).
      - pose proof (find_zombie_child_range s Hi) as Hf. rewrite Ep in Hf. by apply Hf.
      - injection Ep as <- <-. apply Z.leb_gt in Ec. apply Z.ltb_ge in El. lia. }
    destruct (space_at _ s); [|done]. repeat case_if; try done. cbn [snd]. eapply owned_kept; [apply kept_trim|]. by apply owned_clear.
  - unfold scheduler_set_task_parent. case_if; [done|]. eapply owned_kept; [by apply kept_upd|done].
  - unfold scheduler_terminate_child. case_if; [done|]. eapply owned_kept; [by apply kept_upd|done].
  - eapply owned_kept; [apply kept_run_user|done].
  - eapply owned_kept; [apply kept_run_return|done].
  - eapply owned_kept; [apply kept_exception|done].
  - eapply owned_kept; [apply kept_exit_syscall|done].
  - eapply owned_kept; [apply kept_tick|done].
  - eapply owned_kept; [apply kept_yield|done].
  - eapply owned_kept; [apply kept_sleep|done].
  - eapply owned_kept; [apply kept_preempt|done].
  - eapply owned_kept; [apply kept_exit|done].
  - unfold scheduler_start_threads. cbn [snd]. apply (owned_kept None s); [|done]. transitivity (scheduler_set_running_task 0 s); [apply kept_run|by split].
  - eapply owned_kept; [apply kept_dump|done].
Qed.

Lemma spaces_ok_step s s' : sys_step kernel_table s s' -> sched_inv s -> spaces_ok s -> spaces_ok s'.
Proof.
  intros Hst Hi Ho. destruct Hst as [op s Ha|va b s s' E|slot f s Hok|frame s].
  - by apply owned_exec.
  - unfold store_byte in E. destruct (place _ _ _) as [[[[? ?] ?] []]|]; [|done..]. injection E as <-.
    apply (owned_kept None s); [|done]. apply kept_spaces, tables_set_byte.
  - apply (owned_kept None s); [|done]. by apply kept_upd.
  - apply (owned_kept None s); [|done]. destruct frame as [[elr spsr]|]; [|done]. cbn [yield_return]. destruct (space_at _ _); by split.
Qed.

Lemma spaces_ok_steps s s' : rtc (sys_step kernel_table) s s' -> sys_ok s -> spaces_ok s -> spaces_ok s'.
Proof.
  induction 1 as [|s s1 s' Hst _ IH]; [done|]. intros Hs Ho. apply IH; [by eapply sys_ok_step|]. apply (spaces_ok_step s s1); [done|apply Hs|done].
Qed.

(** At boot no slot is owned. *)
Lemma spaces_ok_init s : boot_ok s -> as_wf (spaces s) -> kernel_space (spaces s) = (root, ADDRESS_SPACE_KERNEL) ->
  (forall n u, user_table_slots_used (spaces s) !! n = Some u -> u = 0) -> spaces_ok (scheduler_init s).
Proof.
  intros Hb Hw Hr Hu. change (scheduler_init s) with (scheduler_dump_tasks (with_idle s)). eapply owned_kept; [apply kept_dump|].
  set (s1 := set_task_count (0 + 1) (Sys (tasks s) scheduler_clear_context 0 0 0 0 (user_sessions s) (spaces s) (regs s) (cpu s) (elr_el1 s) (spsr_el1 s))).
  assert (forall i t, task_at s1 i = Some t -> address_space_ptr (memory t) <> AsTask i) as Hno.
  { intros i t Ht. destruct (bo_tasks s Hb i t Ht) as [_ E]. by rewrite E. }
  assert (forall i n, ~ holds None s1 i n) as Hh by (intros i n (t & Ht & [Hx|] & _); [by apply (Hno i t)|done]).
  assert (spaces_ok s1) as Ho.
  { split; [done|done|..].
    - intros i t Ht [Hx|]; [by destruct (Hno i t)|done].
    - intros i t Ht [Hx|]; [by destruct (Hno i t)|done].
    - intros i j n Hx. by destruct (Hh i n).
    - intros n u Hn. rewrite (Hu n u Hn). split; [done|]. intros [i Hx]. by destruct (Hh i n). }
  unfold with_idle, scheduler_add_task, take_slot. cbn [task_count]. change (seqZ 1 (0 - 1)) with (@nil Z). cbn [List.find].
  change (0 >=? SCHED_MAX_TASKS) with false. cbv iota. fold s1. cbn [snd].
  apply (owned_release None s1 0 (fresh_task 0 (Some (lit "idle")) TASK_READY idle_task)) in Ho; [|by left|done|by apply Hh|done].
  apply (owned_kept None _ (scheduler_init_task_el0 0 (upd 0 (fresh_task 0 (Some (lit "idle")) TASK_READY idle_task) s1))) in Ho; [|by apply kept_upd].
  destruct (truth idle_task); [|done]. eapply owned_kept; [|exact Ho]. by apply kept_upd.
Qed.

(** What the invariant says of the task that holds a slot. *)
Lemma owner_facts s i t : spaces_ok s -> task_at s i = Some t -> address_space_ptr (memory t) = AsTask i -> slot_of t < 4 ->
  0 <= slot_of t /\ target_root_table (user_address_space t) = l1_address (slot_of t) /\
  slot_tables kernel_table root (Z.to_nat (slot_of t)) (spaces s) /\ user_regions (user_address_space t) = user_region_list /\ t_state t <> TASK_UNUSED.
Proof.
  intros Ho Ht Hx Hl. pose proof (ow_range _ _ Ho i t Ht (or_introl Hx)) as [Hg _]. destruct (ow_space _ _ Ho i t Ht (or_introl Hx) Hl) as (Hc & Hs & Hu).
  unfold core, owner_core in Hc. injection Hc as _ Et _ Er. split_and!; try done. by destruct Hu.
Qed.

(** No two tasks hold a slot. *)
Lemma slots_apart s i j t u : spaces_ok s -> task_at s i = Some t -> task_at s j = Some u ->
  address_space_ptr (memory t) = AsTask i -> address_space_ptr (memory u) = AsTask j -> slot_of t < 4 -> slot_of t = slot_of u -> i = j.
Proof.
  intros Ho Ht Hu Hx Hy Hl E. destruct (owner_facts s i t Ho Ht Hx Hl) as (Hg & _).
  apply (ow_alone _ _ Ho i j (Z.to_nat (slot_of t))); [exists t|exists u]; (split; [done|split; [by left|lia]]).
Qed.

(** (C3) Programs are isolated, whatever the kernel does. From the start of the scheduler on,
    after any sequence of its operations - creations that succeed or fail at any point,
    exits, waits, reaps, switches - of stores to the pages of programs, of assignments to
    descriptors and of returns from calls: every program that holds a space has a slot of
    its own, marked used, under its root every address below 2^39 translates to the page of
    its slot or as the kernel's root does, and no slot is marked used that no task holds. *)
Theorem programs_isolated s0 s :
  boot_ok s0 -> all_files s0 -> as_wf (spaces s0) -> kernel_space (spaces s0) = (root, ADDRESS_SPACE_KERNEL) ->
  (forall n u, user_table_slots_used (spaces s0) !! n = Some u -> u = 0) ->
  rtc (sys_step kernel_table) (scheduler_init s0) s ->
  (forall i t, task_at s i = Some t -> address_space_ptr (memory t) = AsTask i -> slot_of t < 4 ->
     t_state t <> TASK_UNUSED /\ (exists u, user_table_slots_used (spaces s) !! Z.to_nat (slot_of t) = Some u /\ u <> 0) /\
     forall va, 0 <= va < 2 ^ 39 ->
       walk kernel_table (spaces s) (target_root_table (user_address_space t)) va =
       user_translation (slot_of t) (walk kernel_table (spaces s) root) va) /\
  (forall i j t u, task_at s i = Some t -> task_at s j = Some u -> address_space_ptr (memory t) = AsTask i -> address_space_ptr (memory u) = AsTask j ->
     slot_of t < 4 -> slot_of t = slot_of u -> i = j) /\
  (forall n u, user_table_slots_used (spaces s) !! n = Some u -> u <> 0 ->
     exists i t, task_at s i = Some t /\ address_space_ptr (memory t) = AsTask i /\ slot_of t = Z.of_nat n).
Proof.
  intros Hb Hf Hw Hr Hu Hs. assert (sys_ok (scheduler_init s0)) as Hok.
  { split; [by apply sched_inv_init|]. change (scheduler_init s0) with (scheduler_dump_tasks (with_idle s0)). by apply files_dump, files_add. }
  pose proof (spaces_ok_steps _ _ Hs Hok (spaces_ok_init s0 Hb Hw Hr Hu)) as Ho.
  assert (forall i t, task_at s i = Some t -> address_space_ptr (memory t) = AsTask i -> slot_of t < 4 -> holds None s i (Z.to_nat (slot_of t))) as Hh.
  { intros i t Ht Hx Hl. exists t. destruct (owner_facts s i t Ho Ht Hx Hl) as (Hg & _). split; [done|]. split; [by left|lia]. }
  split; [|split].
  - intros i t Ht Hx Hl. destruct (owner_facts s i t Ho Ht Hx Hl) as (Hg & Et & Hta & _ & Hst). split; [done|]. split.
    + destruct (lookup_lt_is_Some_2 (user_table_slots_used (spaces s)) (Z.to_nat (slot_of t))) as [u Hn]; [rewrite (wf_used _ (ow_wf _ _ Ho)); lia|].
      exists u. split; [done|]. apply (ow_used _ _ Ho _ u Hn). exists i. by apply Hh.
    + intros va Hva. rewrite Et. rewrite <- (Z2Nat.id (slot_of t)) by done. apply walk_slot_tables; try done. lia.
  - intros i j t u. by apply slots_apart.
  - intros n u Hn Hne. apply (ow_used _ _ Ho n u Hn) in Hne as (i & t & Ht & [Hx|] & E & _); [|done]. by exists i, t.
Qed.
End owners.

(** ** A program is created *)

#[local] Existing Instances code0 layout0 layout0_ok.

Definition one_program : sys := (sched_exec kernel_table0 (OpCreateUser None program0 None) (scheduler_init boot0)).2.

Lemma programs_isolated_witness : exists t, task_at one_program 1 = Some t /\ slot_of t = 0 /\
  walk kernel_table0 (spaces one_program) (target_root_table (user_address_space t)) 0x200040 =
  Page (arm64_mmu_l3_page_desc (page_address 0 1) ADDRESS_SPACE_USER_DATA_ATTR).
Proof.
  assert (all_files boot0) as Hf by (apply Forall_replicate; split; [reflexivity|by repeat constructor]).
  assert (rtc (sys_step kernel_table0) (scheduler_init boot0) one_program) as Hs by (apply rtc_once, step_op; exact I).
  assert (forall n u, user_table_slots_used (spaces boot0) !! n = Some u -> u = 0) as Hu by (intros n u E; by apply (lookup_replicate_1 4) in E as [-> _]).
  assert (as_wf (spaces boot0)) as Hw by apply (inv_wf _ (as_inv_start 0x40090000 as_state0 as_state0_wf)).
  destruct (programs_isolated kernel_table0 0x40090000 kernel_map0_ok boot0 one_program boot0_ok Hf Hw eq_refl Hu Hs) as (Hp & _ & _).
  assert ((fun t => (slot_of t, address_space_ptr (memory t))) <$> task_at one_program 1 = Some (0, AsTask 1)) as Ht by (vm_compute; reflexivity).
  destruct (task_at one_program 1) as [t|] eqn:E; [|discriminate]. injection Ht as Hsl Hx. exists t. split; [reflexivity|]. split; [exact Hsl|].
  destruct (Hp 1 t E Hx ltac:(lia)) as (_ & _ & Hw1). rewrite Hw1, Hsl by lia. reflexivity.
Defined.
