(* ===== verification/SyscallProps.v ===== *)
(** * Properties of the system calls

    What a call keeps: one lemma per handler, for any predicate of the kernel state that
    the handler's primitive steps keep ([stable]); the kernel's invariant, the isolation of
    the callers and the accounting of the calls are instances. Then what the file calls do,
    and where the range checks let a caller fault the kernel. *)

From S2P Require Import Prelude PageAllocator Pmm BlockDevice Sfs Vfs VfsProps Executable Mmu AddressSpace Task User Scheduler SchedulerProps Syscall UserMemory Steps.

Section props.
Context `{CodeLayout} `{AsLayout} (kernel_table : Z -> list Z).
Context {B : Type} `{BlockDevice B} (interval_ms : Z).
Implicit Types k : kernel B.

(** ** Predicates the handlers keep *)

Definition preserves {A} (P : kernel B -> Prop) (m : M B A) : Prop := forall k, P k -> P (m k).2.

(** Kept by each primitive step of a handler. *)
Record stable (P : kernel B -> Prop) : Prop := {
  st_tasks k t : P k -> scheduler_current_task_mutable (ksys k) = Some t -> files_ok t;
  st_fault k : P k -> P (set_kstats (count_fault (kstats k)) k);
  st_written a b k : P k -> P (set_kstats (add_write_bytes a b (kstats k)) k);
  st_console c k : P k -> P (set_console c k);
  st_random r k : P k -> P (set_random_state r k);
  st_vfs v k : P k -> (vfs_inv (kvfs k) -> vfs_inv v) -> P (set_kvfs v k);
  st_file slot f t k : P k -> scheduler_current_task_mutable (ksys k) = Some t -> 0 <= slot < 4 -> file_ok f ->
    P (put_file slot f k);
  st_store a l size k : P k -> is_u64 a -> Z.of_nat (length l) <= size < 2 ^ 64 -> writable a size k = true ->
    P (store_bytes kernel_table a l k).2;
}.

Lemma preserves_bind {A C} P (m : M B A) (f : A -> M B C) :
  preserves P m -> (forall a, preserves P (f a)) -> preserves P (m ≫= f).
Proof.
  intros Hm Hf k Hk. specialize (Hm k Hk). unfold mbind, M_bind. destruct (m k) as [[a|] k']; [|done]. by apply Hf.
Qed.

Lemma preserves_ret {A} P (a : A) : preserves P (mret a : M B A).
Proof. by intros k. Qed.

Section stable.
Context (P : kernel B -> Prop) (HP : stable P).

Lemma preserves_fault_error : preserves P fault_error.
Proof. intros k Hk. by apply HP. Qed.

Lemma preserves_vfs_do f : (forall v, vfs_inv v -> vfs_inv (f v).2) -> preserves P (vfs_do f).
Proof.
  intros Hf k Hk. unfold vfs_do. specialize (Hf (kvfs k)). destruct (f (kvfs k)) as [r v]. by apply (st_vfs P HP).
Qed.

(** A path in the caller's memory is a C string. *)
Lemma load_path_cstring n va s : cstring (load_path kernel_table n va s).1 /\ (length (load_path kernel_table n va s).1 <= n)%nat /\
  ((load_path kernel_table n va s).2 = PathOk -> length (load_path kernel_table n va s).1 = n).
Proof.
  revert va. induction n as [|n IH]; intros va; cbn [load_path]; [by split_and!; [apply Forall_nil|..]|].
  destruct (load_byte _ s va) as [b|]; [|split_and!; [by apply Forall_nil|simpl; lia|done]].
  destruct (Z.eqb_spec b 0); [split_and!; [by apply Forall_nil|simpl; lia|done]|].
  specialize (IH (va +! 1)). destruct (load_path _ n _ s) as [l e]. destruct IH as (? & ? & Hlen).
  split_and!; [by apply Forall_cons|simpl in *; lia|]. intros He. simpl in *. by rewrite (Hlen He).
Qed.

Lemma preserves_with_path va len f : (forall p, cstring p -> preserves P (f p)) -> preserves P (with_path kernel_table va len f).
Proof.
  intros Hf k Hk. unfold with_path. pose proof (load_path_cstring (Z.to_nat len) va (ksys k)) as (Hp & _).
  destruct (load_path _ _ _ _) as [p []]; [|done..]. by apply Hf.
Qed.

Lemma words_length l : length (words l) = (8 * length l)%nat.
Proof.
  unfold words. induction l as [|x l IH]; [done|]. cbn. rewrite length_app, IH.
  assert (length (bytes64 x) = 8%nat) as -> by (apply Nat2Z.inj, length_Z_to_little_endian; lia). lia.
Qed.

Lemma entry_bytes_length e : length (ve_path e) = 48%nat ->
  length (entry_bytes (DirectoryEntry (ve_path e) (ve_size e) (ve_kind e))) = 64%nat.
Proof. intros He. unfold entry_bytes. cbn [de_path]. by rewrite length_app, words_length, He. Qed.

Lemma entry_path_length p : length (entry_path p) = 48%nat.
Proof.
  unfold entry_path. rewrite length_app, length_replicate, length_take. change (Z.to_nat VFS_MAX_PATH) with 48%nat. lia.
Qed.

Lemma preserves_store {A} a l size (f : M B A) k : P k -> is_u64 a -> Z.of_nat (length l) <= size < 2 ^ 64 ->
  writable a size k = true -> preserves P f -> P ((_ ← store_bytes kernel_table a l; f) k).2.
Proof.
  intros Hk Ha Hl Hw Hf. pose proof (st_store P HP a l size k Hk Ha Hl Hw) as Hs. unfold mbind, M_bind.
  destruct (store_bytes _ _ _ _) as [[?|] k']; [by apply Hf|done].
Qed.

Lemma preserves_system_info a : is_u64 a -> preserves P (syscall_system_info_call kernel_table a).
Proof.
  intros Ha k Hk. unfold syscall_system_info_call. destruct (writable a 72 k) eqn:Hw; cbn [negb]; [|by apply preserves_fault_error].
  apply (preserves_store a _ 72); [done|done| |done|apply preserves_ret]. unfold info_bytes. by rewrite words_length.
Qed.

Lemma preserves_random : preserves P (syscall_random).
Proof. intros k Hk. by apply HP. Qed.

Lemma preserves_process_status pid a : is_u64 a -> preserves P (syscall_process_status_call kernel_table pid a).
Proof.
  intros Ha k Hk. unfold syscall_process_status_call. destruct (writable a 72 k) eqn:Hw; cbn [negb]; [|by apply preserves_fault_error].
  destruct (scheduler_current_task _) as [caller|]; [|done]. destruct (pid >=? _); [done|].
  destruct (scheduler_task_by_pid _ _) as [target|]; [|done]. destruct (_ && _); [done|].
  apply (preserves_store a _ 72); [done|done| |done|apply preserves_ret]. unfold status_bytes. by rewrite words_length.
Qed.

Lemma vfs_list_path index (v : vfs B) e : (vfs_list index (Some no_entry) v).2 = Some e -> length (ve_path e) = 48%nat.
Proof.
  unfold vfs_list. assert (forall ns current, length (ve_path (vfs_list_loop ns current index no_entry).2) = 48%nat) as Hl.
  { induction ns as [|n ns IH]; intros c; cbn [vfs_list_loop]; [done|].
    destruct (truth (n_used n)); cbn [negb]; [|apply IH]. destruct (c =? index); cbn [negb]; [apply entry_path_length|apply IH]. }
  specialize (Hl (nodes v) 0). destruct (vfs_list_loop _ _ _ _). cbn. by intros [= <-].
Qed.

Lemma preserves_directory_list index a : is_u64 a -> preserves P (syscall_directory_list kernel_table index a).
Proof.
  intros Ha k Hk. unfold syscall_directory_list. destruct (writable a 64 k) eqn:Hw; cbn [negb]; [|by apply preserves_fault_error].
  pose proof (vfs_list_path index (kvfs k)) as Hl. destruct (vfs_list _ _ _) as [r e]. destruct (r <=? 0); [done|].
  apply (preserves_store a _ 64); [done|done| |done|apply preserves_ret]. rewrite entry_bytes_length; [done|].
  destruct e as [e|]; [by apply Hl|done].
Qed.

Lemma preserves_ok_or_inval r : preserves P (ok_or_inval r).
Proof. apply preserves_ret. Qed.

(** One call of the file system on paths from the caller. *)
Lemma preserves_vfs_call (f : vfs B -> Z * vfs B) :
  (forall v, vfs_inv v -> vfs_inv (f v).2) -> preserves P (r ← vfs_do f; ok_or_inval r).
Proof. intros Hf. apply preserves_bind; [by apply preserves_vfs_do|apply preserves_ok_or_inval]. Qed.

Lemma preserves_mkdir a n : preserves P (syscall_mkdir kernel_table a n).
Proof.
  intros k Hk. unfold syscall_mkdir. destruct (bad_length n); [done|].
  destruct (readable _ _ _); cbn [negb]; [|by apply preserves_fault_error].
  apply preserves_with_path; [|done]. intros p Hp. apply preserves_vfs_call. intros v Hv. by apply (vfs_step_inv v), step_mkdir.
Qed.

Lemma preserves_remove a n : preserves P (syscall_remove kernel_table a n).
Proof.
  intros k Hk. unfold syscall_remove. destruct (bad_length n); [done|].
  destruct (readable _ _ _); cbn [negb]; [|by apply preserves_fault_error].
  apply preserves_with_path; [|done]. intros p Hp. apply preserves_vfs_call. intros v Hv. by apply (vfs_step_inv v), step_remove.
Qed.

Lemma preserves_rename a n b m : preserves P (syscall_rename kernel_table a n b m).
Proof.
  intros k Hk. unfold syscall_rename. destruct (bad_length n || bad_length m); [done|].
  destruct (_ || _); [by apply preserves_fault_error|].
  apply preserves_with_path; [|done]. intros old Ho. apply preserves_with_path. intros new Hn. apply preserves_vfs_call.
  intros v Hv. by apply (vfs_step_inv v), step_rename.
Qed.

Lemma preserves_path_stat a n b : is_u64 b -> preserves P (syscall_path_stat kernel_table a n b).
Proof.
  intros Hb k Hk. unfold syscall_path_stat. destruct (bad_length n); [done|].
  destruct (readable _ _ _); cbn [negb orb]; [|by apply preserves_fault_error].
  destruct (writable b 64 k) eqn:Hw; cbn [negb]; [|by apply preserves_fault_error].
  unfold with_path. pose proof (load_path_cstring (Z.to_nat n) a (ksys k)) as (Hp & _).
  destruct (load_path _ _ _ _) as [p []]; [|done..]. cbn [fst] in Hp.
  assert (forall e v, (vfs_stat p (Some no_entry) (kvfs k)).1.2 = Some e -> (vfs_stat p (Some no_entry) (kvfs k)).2 = v ->
    length (ve_path e) = 48%nat /\ (vfs_inv (kvfs k) -> vfs_inv v)) as Hs.
  { intros e v He <-. split; [|apply vfs_stat_inv]. revert He. unfold vfs_stat. destruct (vfs_disk_path _).
    - destruct (vfs_file_data p _) as [[[? ?]|] ?]; intros [= <-]; [apply entry_path_length|done].
    - destruct (_ ≫= _); intros [= <-]; [apply entry_path_length|done]. }
  assert ((vfs_inv (kvfs k) -> vfs_inv (vfs_stat p (Some no_entry) (kvfs k)).2)) as Hv by apply vfs_stat_inv.
  destruct (vfs_stat _ _ _) as [[r e] v]. cbn [fst snd] in *.
  assert (P (set_kvfs v k)) as Hk' by (by apply (st_vfs P HP)). destruct (truth r); cbn [negb]; [|done].
  apply (preserves_store b _ 64); [done|done| |done|apply preserves_ret]. rewrite entry_bytes_length; [done|].
  destruct e as [e|]; [by apply (Hs e v)|done].
Qed.

Lemma preserves_truncate a n size : is_u64 size -> preserves P (syscall_truncate kernel_table a n size).
Proof.
  intros Hs k Hk. unfold syscall_truncate. destruct (_ || _); [done|].
  destruct (readable _ _ _); cbn [negb]; [|by apply preserves_fault_error].
  apply preserves_with_path; [|done]. intros p Hp. apply preserves_vfs_call. intros v Hv. apply (vfs_step_inv v); [done|].
  apply step_truncate; [done|apply Hs].
Qed.

(** *** Descriptors *)

Lemma file_of_task_ok t slot : files_ok t -> 0 <= slot < 4 -> file_ok (file_of_task t slot).
Proof.
  intros [Hl Hf] Hs. unfold file_of_task.
  destruct (lookup_lt_is_Some_2 (t_files t) (Z.to_nat slot)) as [f E]; [lia|]. rewrite E.
  by apply (Forall_lookup_1 _ _ _ _ Hf E).
Qed.

Lemma descriptor_Some fd k t slot f : descriptor fd k = Some (t, slot, f) ->
  scheduler_current_task_mutable (ksys k) = Some t /\ slot = fd - 3 /\ 0 <= slot < 4 /\ f = file_of_task t slot /\
  truth (file_used f) = true.
Proof.
  unfold descriptor. destruct (scheduler_current_task_mutable _) as [u|]; [|done].
  destruct (Z.ltb_spec fd 3); cbn [orb]; [done|]. rewrite Z.geb_leb. unfold TASK_MAX_FILES.
  destruct (Z.leb_spec (3 + 4) fd); [done|].
  destruct (truth (file_used _)) eqn:E; cbn [negb]; [|done]. intros [= <- <- <-]. split_and!; done || lia.
Qed.

Lemma free_file_Some t slot : free_file t = Some slot ->
  0 <= slot < 4 /\ truth (file_used (file_of_task t slot)) = false /\
  forall i, 0 <= i < slot -> truth (file_used (file_of_task t i)) = true.
Proof.
  unfold free_file. pose proof (find_first (fun i => negb (truth (file_used (file_of_task t i)))) (seqZ 0 TASK_MAX_FILES)) as Hf.
  destruct (List.find _ _) as [x|]; [|done]. intros [= ->]. destruct Hf as (j & Hj & Hu & Hb).
  apply lookup_seqZ in Hj as [-> Hlt]. unfold TASK_MAX_FILES in *.
  split_and!; [lia|lia|by apply negb_true_iff|].
  intros i Hi. apply negb_false_iff. apply (Hb (Z.to_nat i)); [lia|]. apply lookup_seqZ. lia.
Qed.

Lemma preserves_put slot f0 f t k : P k -> scheduler_current_task_mutable (ksys k) = Some t -> 0 <= slot < 4 ->
  f0 = file_of_task t slot -> (file_ok f0 -> file_ok f) -> P (put_file slot f k).
Proof.
  intros Hk Ht Hs -> Hf. apply (st_file P HP slot f t); [done..|]. apply Hf, file_of_task_ok; [|done].
  by apply (st_tasks P HP k).
Qed.

Lemma cur_set_kvfs v k : scheduler_current_task_mutable (ksys (set_kvfs v k)) = scheduler_current_task_mutable (ksys k).
Proof. done. Qed.

Lemma file_ok_offset u p u' o f : f = TaskFile u p o -> file_ok f -> forall o', 0 <= o' < 2 ^ 64 -> file_ok (TaskFile u' p o').
Proof. intros -> [? ? ?] o' Ho. by split. Qed.

Lemma file_ok_clear f : file_ok f -> forall u, file_ok (TaskFile u (<[0%nat := 0]> (file_path f)) (file_offset f)).
Proof. intros [Hl Hn Ho] u. split; cbn; [by rewrite length_insert|by rewrite list_lookup_insert_ne|done]. Qed.

Lemma preserves_dup fd : preserves P (syscall_dup fd).
Proof.
  intros k Hk. unfold syscall_dup. destruct (descriptor fd k) as [[[t slot] f]|] eqn:E; [|done].
  apply descriptor_Some in E as (Ht & _ & Hs & -> & _). destruct (free_file t) as [target|] eqn:Ef; [|done].
  apply free_file_Some in Ef as (Hr & _). cbn [snd]. apply (st_file P HP _ _ t); [done..|].
  apply file_of_task_ok; [by apply (st_tasks P HP k)|done].
Qed.

Lemma preserves_close fd : preserves P (syscall_close fd).
Proof.
  intros k Hk. unfold syscall_close. destruct (descriptor fd k) as [[[t slot] f]|] eqn:E; [|done].
  apply descriptor_Some in E as (Ht & _ & Hs & Hf & _). cbn [snd]. eapply preserves_put; [done..|].
  intros [Hl Hn Ho]. split; cbn; [by rewrite length_insert|by rewrite list_lookup_insert_ne|lia].
Qed.

Lemma preserves_seek fd offset : is_u64 offset -> preserves P (syscall_seek fd offset).
Proof.
  intros Ho k Hk. unfold syscall_seek. destruct (descriptor fd k) as [[[t slot] f]|] eqn:E; [|done].
  apply descriptor_Some in E as (Ht & _ & Hs & Hf & _).
  assert (vfs_inv (kvfs k) -> vfs_inv (vfs_file_data (cstr (file_path f)) (kvfs k)).2) as Hv by apply vfs_file_data_inv.
  destruct (vfs_file_data _ _) as [r v]. cbn [snd] in Hv. assert (P (set_kvfs v k)) as Hk' by (by apply (st_vfs P HP)).
  destruct r as [[? size]|]; [|done]. destruct (offset >? size); [done|]. cbn [snd]. eapply preserves_put; [done..|].
  intros [? ? ?]. by split.
Qed.

(** Stores change nothing but the pages. *)
Lemma store_bytes_spaces a l k : exists st, (store_bytes kernel_table a l k).2 = set_ksys (set_spaces st (ksys k)) k.
Proof.
  revert a k. induction l as [|b l IH]; intros a k; cbn [store_bytes].
  { exists (spaces (ksys k)). by rewrite set_spaces_id, set_ksys_id. }
  unfold store_byte. destruct (place _ _ _) as [[[[? ?] ?] []]|].
  - destruct (IH (a +! 1) (set_ksys (set_spaces (set_page n n0 (<[n1:=b]> (region_page n n0 (spaces (ksys k)))) (spaces (ksys k))) (ksys k)) k))
      as [st ->]. by exists st.
  - exists (spaces (ksys k)). by rewrite set_spaces_id, set_ksys_id.
  - exists (spaces (ksys k)). by rewrite set_spaces_id, set_ksys_id.
Qed.

(** What [vfs_read] gives to copy out is no longer than asked for. *)
Lemma vfs_read_length p off sz (v : vfs B) : 0 <= sz ->
  (vfs_read p off (Some (replicate (Z.to_nat sz) 0)) sz v).1.1 <= sz.
Proof.
  intros Hs. unfold vfs_read. destruct (vfs_disk_path _).
  - destruct (read_disk _ _) as [fs v']. destruct (_ || _); cbn; [lia|].
    match goal with |- context [sz >? ?x] => pose proof (Zgt_cases sz x) end. destruct (sz >? _); lia.
  - destruct (_ ≫= _); cbn; [|lia]. destruct (_ || _); cbn; [lia|].
    match goal with |- context [sz >? ?x] => pose proof (Zgt_cases sz x) end. destruct (sz >? _); lia.
Qed.

Lemma preserves_read fd a n : is_u64 a -> is_u64 n -> preserves P (syscall_read kernel_table fd a n).
Proof.
  intros Ha Hn k Hk. unfold syscall_read. destruct (scheduler_current_task_mutable _) as [t0|]; [|done].
  destruct (_ || _) eqn:Eg; [done|]. destruct (n =? 0); [done|].
  destruct (writable a n k) eqn:Hw; cbn [negb]; [|by apply preserves_fault_error].
  destruct (descriptor fd k) as [[[t slot] f]|] eqn:E; [|done]. apply descriptor_Some in E as (Ht & _ & Hs & Hf & _).
  pose proof (vfs_read_length (cstr (file_path f)) (file_offset f) n (kvfs k) (proj1 Hn)) as Hlen.
  assert (vfs_inv (kvfs k) -> vfs_inv (vfs_read (cstr (file_path f)) (file_offset f) (Some (replicate (Z.to_nat n) 0)) n (kvfs k)).2)
    as Hv by apply vfs_read_inv.
  destruct (vfs_read _ _ _ _ _) as [[r bytes] v]. cbn [fst snd] in *. set (k1 := set_kvfs v k).
  assert (P k1) as Hk' by (by apply (st_vfs P HP)). destruct (r >? 0); [|done].
  set (l := take (Z.to_nat r) (default [] bytes)).
  pose proof (st_store P HP a l n k1 Hk' Ha) as Hst. destruct (store_bytes_spaces a l k1) as [st Est].
  rewrite Est in Hst. unfold mbind, M_bind. destruct (store_bytes _ a l k1) as [o k2]. cbn [snd] in Est. subst k2.
  assert (P (set_ksys (set_spaces st (ksys k1)) k1)) as Hk2.
  { apply Hst; [|exact Hw]. unfold l. rewrite length_take. destruct Hn. lia. }
  destruct o; [|done]. cbn. eapply (preserves_put slot f _ t); [exact Hk2|done..|].
  intros [? ? ?]. split; [done..|apply u64_range].
Qed.

(** A write whose buffer is not read does not depend on it. *)
Lemma write_unread p off sz b1 b2 (v : vfs B) : write_reads p off sz v = false ->
  vfs_write p off (Some b1) sz v = vfs_write p off (Some b2) sz v.
Proof.
  unfold write_reads, vfs_write. destruct (vfs_disk_path _) as [dp|].
  - cbn [bool_decide]. change (bool_decide (is_Some (Some b1))) with true. change (bool_decide (is_Some (Some b2))) with true.
    cbn [negb]. rewrite orb_false_r. destruct (_ || _); cbn [negb andb]; [done|].
    destruct (read_disk dp v) as [c v']. cbn [fst]. by destruct (c <? 0).
  - destruct (vfs_find p (nodes v)) as [i|]; cbn; [|done]. destruct (nodes v !! i) as [n|]; cbn; [|done].
    change (bool_decide (is_Some (Some b1))) with true. change (bool_decide (is_Some (Some b2))) with true.
    cbn [negb]. rewrite andb_false_r, orb_false_r. by destruct (_ || _).
Qed.

Lemma load_bytes_length n va s l : load_bytes kernel_table n va s = Some l -> length l = n.
Proof.
  revert va l. induction n as [|n IH]; intros va l; cbn [load_bytes]; [by intros [= <-]|].
  destruct (load_byte _ s va); [|done]. cbn. specialize (IH (va +! 1)). destruct (load_bytes _ n _ s); [|done]. cbn.
  intros [= <-]. cbn. by rewrite (IH _ eq_refl).
Qed.

Lemma preserves_console n va : preserves P (console_loop kernel_table n va).
Proof.
  revert va. induction n as [|n IH]; intros va k Hk; cbn [console_loop]; [done|].
  destruct (load_byte _ _ _); [|done]. by apply IH, HP.
Qed.

Lemma preserves_written a b : preserves P (stats_do (add_write_bytes a b)).
Proof. intros k Hk. by apply (st_written P HP). Qed.

Lemma preserves_write fd a n : is_u64 n -> preserves P (syscall_write kernel_table fd a n).
Proof.
  intros Hn k Hk. unfold syscall_write. destruct (n =? 0); [done|]. destruct (n >? _); [done|].
  destruct (readable _ _ _); cbn [negb]; [|by apply preserves_fault_error]. destruct (_ || _).
  { apply preserves_bind; [apply preserves_console|intros _|done].
    apply preserves_bind; [apply preserves_written|intros _; apply preserves_ret]. }
  destruct (descriptor fd k) as [[[t slot] f]|] eqn:E; [|done]. apply descriptor_Some in E as (Ht & _ & Hs & Hf & _).
  set (p := cstr (file_path f)). assert (file_ok f) as Hok by (subst f; apply file_of_task_ok; [by apply (st_tasks P HP k)|done]).
  assert (forall bytes, (write_reads p (file_offset f) n (kvfs k) = true -> length bytes = Z.to_nat n) ->
    vfs_inv (kvfs k) -> vfs_inv (vfs_write p (file_offset f) (Some bytes) n (kvfs k)).2) as Hv.
  { intros bytes Hb Hinv. destruct (write_reads _ _ _ _) eqn:Er.
    - apply vfs_write_inv; [done|apply cstr_cstring|apply Hok|]. rewrite Hb by done. destruct Hn. lia.
    - rewrite (write_unread _ _ _ bytes (replicate (Z.to_nat n) 0) _ Er).
      apply vfs_write_inv; [done|apply cstr_cstring|apply Hok|]. rewrite length_replicate. destruct Hn. lia. }
  unfold mbind at 1, M_bind.
  assert (exists o, (if write_reads p (file_offset f) n (kvfs k) then load kernel_table a n else mret []) k = (o, k) /\
    forall bytes, o = Some bytes -> write_reads p (file_offset f) n (kvfs k) = true -> length bytes = Z.to_nat n) as (o & -> & Ho).
  { destruct (write_reads _ _ _ _); [|by eexists]. eexists. split; [done|]. intros bytes Hb _. by eapply load_bytes_length. }
  destruct o as [bytes|]; [|done]. specialize (Hv bytes (Ho bytes eq_refl)).
  unfold mbind at 1. unfold vfs_do. destruct (vfs_write _ _ _ _ _) as [r v]. cbn [snd] in Hv.
  assert (P (set_kvfs v k)) as Hk' by (by apply (st_vfs P HP)). destruct (r >? 0); [|done].
  cbn. apply (st_written P HP). eapply (preserves_put slot f _ t); [exact Hk'|done..|].
  intros [? ? ?]. split; [done..|apply u64_range].
Qed.

Lemma cur_put_file slot f k : scheduler_current_task_mutable (ksys (put_file slot f k)) =
  (fun t => set_t_files (<[Z.to_nat slot := f]> (t_files t)) t) <$> scheduler_current_task_mutable (ksys k).
Proof.
  unfold scheduler_current_task_mutable. cbn [put_file set_ksys ksys]. set (s := ksys k).
  change (current_task (upd _ _ s)) with (current_task s). change (task_count (upd _ _ s)) with (task_count s).
  destruct (Z.ltb_spec (current_task s) 0); [done|]. cbn [orb]. destruct (_ >=? _); [done|]. by apply task_at_upd_eq.
Qed.

Lemma open_path_ok f (bytes : list Z) len : file_ok f -> (length bytes <= 47)%nat -> (len <= 47)%nat ->
  file_ok (TaskFile (file_used f) (copy_loop (file_path f) 0 bytes) (file_offset f)) /\
  file_ok (TaskFile (file_used f) (<[len := 0]> (copy_loop (file_path f) 0 bytes)) (file_offset f)).
Proof.
  intros [Hl Hn Ho] Hb Hlen. assert (copy_loop (file_path f) 0 bytes !! 47%nat = Some 0) as Hc.
  { rewrite copy_loop_write_at by lia. rewrite lookup_write_at_out by lia. done. }
  split; (split; cbn; [by rewrite ?length_insert, length_copy_loop| |done]); [done|].
  destruct (decide (len = 47%nat)) as [->|]; [|by rewrite list_lookup_insert_ne].
  rewrite list_lookup_insert_eq; [done|]. rewrite length_copy_loop. lia.
Qed.

Lemma vfs_create_empty_inv p (v : vfs B) : cstring p -> vfs_inv v -> vfs_inv (vfs_create (Some p) None 0 v).2.
Proof.
  intros Hp Hv. destruct (vfs_disk_path (Some p)) as [dp|] eqn:E.
  - unfold vfs_create. rewrite E. destruct (sfs_write_file _ _ _ _) as [r s]. by apply vfs_set_sfs_inv.
  - replace (vfs_create (Some p) None 0 v) with (vfs_create (Some p) (Some []) 0 v) by (unfold vfs_create; by rewrite E).
    by apply vfs_create_inv.
Qed.

Lemma preserves_open_create create p : cstring p -> preserves P (open_create create p).
Proof.
  intros Hp. unfold open_create. destruct create; cbn [negb]; [|apply preserves_ret].
  apply preserves_bind; [apply preserves_vfs_do; intros v; by apply vfs_create_empty_inv|].
  intros r. destruct (truth r); [apply preserves_ret|]. apply preserves_vfs_do. intros v Hv. by apply vfs_truncate_inv.
Qed.

Lemma preserves_file_exists p : preserves P (file_exists p).
Proof. apply preserves_vfs_do. intros v Hv. pose proof (vfs_file_data_inv v p Hv). by destruct (vfs_file_data p v). Qed.

(** The file-system part of an open changes only the file system. *)
Lemma vfs_do_sys f k : ksys (vfs_do f k).2 = ksys k.
Proof. unfold vfs_do. by destruct (f (kvfs k)). Qed.

Lemma open_create_sys create p k : ksys (open_create create p k).2 = ksys k.
Proof.
  unfold open_create. destruct create; [|done]. cbn [negb]. unfold mbind, M_bind.
  pose proof (vfs_do_sys (vfs_create (Some p) None 0) k) as E. destruct (vfs_do _ k) as [[r|] k1]; [|done].
  cbn [snd] in E. destruct (truth r); [done|]. by rewrite vfs_do_sys.
Qed.

(** The part of [syscall_open] after the path was copied. *)
Lemma preserves_open_file slot f create k t : P k -> scheduler_current_task_mutable (ksys k) = Some t ->
  0 <= slot < 4 -> file_ok f -> P (open_file slot f create k).2.
Proof.
  intros Hk Ht Hs Hf. unfold open_file. set (p := cstr (file_path f)). assert (cstring p) as Hp by apply cstr_cstring.
  assert (forall (f' : task_file) k', file_ok f' -> P k' -> ksys k' = ksys k -> P (put_file slot f' k')) as Hput.
  { intros f' k' Hf' Hk' E. apply (st_file P HP slot f' t); [done|by rewrite E|done..]. }
  pose proof (preserves_open_create create p Hp k Hk) as H1'. pose proof (open_create_sys create p k) as E1.
  unfold mbind at 1, M_bind. destruct (open_create create p k) as [[c|] k1]; [|done]. cbn [snd] in *.
  destruct (truth c); cbn [negb]; [|apply Hput; [by apply file_ok_clear|done..]].
  pose proof (preserves_file_exists p k1 H1') as H2'. pose proof (vfs_do_sys (fun v => let (r, v) := vfs_file_data p v in
    (c_int (bool_decide (is_Some r)), v)) k1) as E2. fold (file_exists p) in E2. unfold mbind at 1.
  destruct (file_exists p k1) as [[c2|] k2]; [|done]. cbn [snd] in *. rewrite E1 in E2.
  destruct (truth c2); cbn [negb]; (apply Hput; [|done..]); [|by apply file_ok_clear].
  destruct Hf. by split.
Qed.

Lemma preserves_open a n create : is_u64 n -> preserves P (syscall_open kernel_table a n create).
Proof.
  intros Hn k Hk. unfold syscall_open.
  destruct (scheduler_current_task_mutable _) as [t|] eqn:Ht; [|by apply preserves_fault_error].
  destruct (syscall_address_space _); [|by apply preserves_fault_error].
  destruct (_ || _) eqn:Eg; [by apply preserves_fault_error|].
  rewrite !orb_false_iff, Z.geb_leb in Eg. destruct Eg as [[_ Hlt%Z.leb_gt] _]. unfold TASK_FILE_PATH_SIZE in Hlt.
  destruct (free_file t) as [slot|] eqn:Ef; [|done]. apply free_file_Some in Ef as (Hs & _).
  set (f := file_of_task t slot). assert (file_ok f) as Hf by (apply file_of_task_ok; [by apply (st_tasks P HP k)|done]).
  pose proof (load_path_cstring (Z.to_nat n) a (ksys k)) as (_ & Hl & _). destruct (load_path _ _ _ _) as [bytes e]. cbn [fst] in Hl.
  destruct (open_path_ok f bytes (Z.to_nat n) Hf) as [Hc1 Hc2]; [destruct Hn; lia..|].
  destruct e; [|by apply (st_file P HP _ _ t)..].
  eapply preserves_open_file; [by apply (st_file P HP _ _ t)| |done|done].
  rewrite cur_put_file, Ht. done.
Qed.

(** ** The dispatcher *)

(** The calls that leave the scheduler alone. *)
Definition plain (number : Z) : Prop :=
  number <> SYSCALL_EXIT /\ number <> SYSCALL_YIELD /\ number <> SYSCALL_WAIT /\ number <> SYSCALL_SPAWN /\
  number <> SYSCALL_TERMINATE /\ number <> SYSCALL_SLEEP.

Context (HPstats : forall t k, P k -> P (set_kstats t k)).

Lemma preserves_stats_do f : preserves P (stats_do f).
Proof. intros k Hk. by apply HPstats. Qed.

Lemma dispatch_end_keeps number r k : P k -> P (dispatch_end number r k).2.
Proof. intros Hk. by apply HPstats. Qed.

Lemma run_keeps number m k : preserves P m -> P k -> P (run number m k).2.
Proof.
  intros Hm Hk. specialize (Hm k Hk). unfold run. destruct (m k) as [[r|] k']; [|done]. by apply dispatch_end_keeps.
Qed.

Lemma dispatch_plain_keeps number a0 a1 a2 a3 k :
  plain number -> is_u64 a0 -> is_u64 a1 -> is_u64 a2 -> is_u64 a3 -> P k ->
  P (syscall_dispatch kernel_table interval_ms number a0 a1 a2 a3 k).2.
Proof.
  intros (N1 & N2 & N3 & N4 & N5 & N6) H0' H1' H2' H3' Hk. unfold syscall_dispatch. cbv zeta.
  set (k0 := set_kstats (begin_call _ _ _ _ _) k). assert (P k0) as Hk0 by (by apply HPstats).
  set (k1 := set_kstats (count_call _ _) k0). assert (P k1) as Hk1 by (by apply HPstats).
  assert (forall A (m : M B A) f, preserves P m -> preserves P (r ← m; _ ← stats_do (f r); mret r)) as Hthen.
  { intros A m f Hm. apply preserves_bind; [done|]. intros r. apply preserves_bind; [apply preserves_stats_do|]. intros _. apply preserves_ret. }
  repeat match goal with
  | |- P (if number =? ?c then _ else _).2 => destruct (Z.eqb_spec number c); [first [contradiction | apply run_keeps; [|done]]|]
  end.
  - by apply Hthen, preserves_write.
  - by apply preserves_open.
  - by apply preserves_read.
  - by apply preserves_close.
  - by apply preserves_open.
  - by apply preserves_seek.
  - apply preserves_bind; [apply preserves_stats_do|intros _; apply preserves_ret].
  - apply preserves_ret.
  - apply preserves_ret.
  - by apply preserves_system_info.
  - apply Hthen, preserves_random.
  - by apply preserves_process_status.
  - by apply preserves_directory_list.
  - apply preserves_mkdir.
  - apply preserves_remove.
  - apply preserves_rename.
  - by apply preserves_path_stat.
  - by apply preserves_truncate.
  - apply preserves_dup.
  - apply run_keeps; [|done]. apply preserves_bind; [apply preserves_stats_do|intros _; apply preserves_ret].
Qed.
End stable.

(** ** The kernel's invariant *)

(** The scheduler's invariant, the file system's, and the files of every task. *)
Record kernel_inv k : Prop := {
  ki_sched : sched_inv (ksys k);
  ki_vfs : vfs_inv (kvfs k);
  ki_files : all_files (ksys k);
}.

Lemma kernel_inv_sys s k : kernel_inv k -> sched_inv s -> all_files s -> kernel_inv (set_ksys s k).
Proof. intros [? ? ?] ? ?. by split. Qed.

Lemma kernel_inv_stats t k : kernel_inv k -> kernel_inv (set_kstats t k).
Proof. intros [? ? ?]. by split. Qed.

Lemma current_files s t : all_files s -> scheduler_current_task_mutable s = Some t -> files_ok t.
Proof.
  unfold scheduler_current_task_mutable. intros Hs. destruct (_ || _); [done|]. intros Ht. apply task_at_lookup in Ht as [_ Ht].
  by apply (Forall_lookup_1 _ _ _ _ Hs Ht).
Qed.

Lemma kernel_inv_stable : stable kernel_inv.
Proof.
  split; try (intros; by apply kernel_inv_stats); try (intros; match goal with Hk : kernel_inv _ |- _ => destruct Hk end; by split).
  - intros k t [_ _ Hf] Ht. by eapply current_files.
  - intros v k [? ? ?] Hv. split; cbn; auto.
  - intros slot f t k [Hi Hv Hf] Ht Hs Hok. split; [|done|].
    + apply (sched_inv_quiet (ksys k)); [done|]. by apply quiet_upd_any.
    + apply files_upd; [|done]. intros u [Hl Hu]. split; cbn; [by rewrite length_insert|]. by apply Forall_insert.
  - intros a l size k [Hi Hv Hf] _ _ _. destruct (store_bytes_spaces a l k) as [st ->]. split; [|done..].
    apply (sched_inv_quiet (ksys k)); [done|apply quiet_spaces].
Qed.

(** *** The steps of a call *)

(** The invariant, and the scheduler's state came from [s0] in steps. *)
Definition kernel_from (s0 : sys) k : Prop := kernel_inv k /\ rtc (sys_step kernel_table) s0 (ksys k).

Lemma kernel_from_here k : kernel_inv k -> kernel_from (ksys k) k.
Proof. done. Qed.

Section from.
Context (s0 : sys).

Lemma from_steps s k : kernel_from s0 k -> rtc (sys_step kernel_table) (ksys k) s -> kernel_from s0 (set_ksys s k).
Proof.
  intros [[Hi Hv Hf] Hs] Hst. destruct (sys_ok_steps kernel_table _ _ Hst (conj Hi Hf)). split; [by split|]. by etrans.
Qed.

Lemma from_op op k : kernel_from s0 k -> sched_allowed op (ksys k) -> kernel_from s0 (set_ksys (sched_exec kernel_table op (ksys k)).2 k).
Proof. intros Hk Ha. apply from_steps; [done|by apply steps_op]. Qed.

Lemma from_stats t k : kernel_from s0 k -> kernel_from s0 (set_kstats t k).
Proof. intros [Hk Hs]. split; [by apply kernel_inv_stats|done]. Qed.

Lemma from_store a l k : kernel_from s0 k -> kernel_from s0 (store_bytes kernel_table a l k).2.
Proof.
  intros Hk. pose proof (steps_stores kernel_table a l k) as Hs. destruct (store_bytes_spaces a l k) as [st E]. rewrite E in *. by apply from_steps.
Qed.

Lemma kernel_from_stable : stable (kernel_from s0).
Proof.
  split.
  - intros k t [Hk _]. by apply kernel_inv_stable.
  - intros k. apply from_stats.
  - intros a b k. apply from_stats.
  - intros c k [Hk Hs]. split; [by apply (st_console _ kernel_inv_stable)|done].
  - intros r k [Hk Hs]. split; [by apply (st_random _ kernel_inv_stable)|done].
  - intros v k [Hk Hs] Hv. split; [by apply (st_vfs _ kernel_inv_stable)|done].
  - intros slot f t k Hk _ _ Hf. apply from_steps; [done|]. by apply rtc_once, step_file.
  - intros a l size k Hk _ _ _. by apply from_store.
Qed.

(** The calls that go through the scheduler. *)
Lemma from_leave number frame o s k : kernel_from s0 k -> rtc (sys_step kernel_table) (ksys k) s -> o <> Halted ->
  kernel_from s0 (leave number frame o s k).2 /\ (leave number frame o s k).1 <> Stopped.
Proof.
  intros Hk Hs Ho. destruct o; [|by split; [apply from_steps|]|done]. cbn [leave dispatch_end fst snd]. split; [|done].
  apply from_stats, from_steps; [done|]. eapply rtc_r; [exact Hs|apply step_frame].
Qed.

Lemma from_wait_round number pid a options k : kernel_from s0 k -> state_of (ksys k) (current_task (ksys k)) <> TASK_ZOMBIE ->
  kernel_from s0 (wait_round kernel_table number pid a options k).2 /\ (wait_round kernel_table number pid a options k).1 <> Stopped.
Proof.
  intros Hk Hz. unfold wait_round. destruct (scheduler_wait_task_status _ _ _) as [[r st] s1]. destruct (r =? 1).
  - pose proof (from_store a (wait_bytes (default (WaitStatus 0 0 0) st)) k Hk) as Hk1.
    destruct (store_bytes_spaces a (wait_bytes (default (WaitStatus 0 0 0) st)) k) as [sp E].
    destruct (store_bytes _ _ _ k) as [o k1]. cbn [snd] in *. destruct o; [|by split]. split; [|done].
    apply (from_op (OpWait (to_int pid) (Some (WaitStatus 0 0 0))) k1 Hk1). subst k1. exact Hz.
  - destruct (_ && _); [|done]. unfold syscall_scheduler_yield. pose proof (sched_inv_yield _ (ki_sched _ (proj1 Hk))) as [_ Hn].
    pose proof (steps_op kernel_table OpYield (ksys k) I) as Hy. cbn [sched_exec] in Hy. destruct (scheduler_yield (ksys k)) as [o s]. cbn [fst snd] in *.
    destruct o; [|split; [by apply from_steps|done]|done]. split; [|done]. apply from_steps; [done|]. eapply rtc_r; [exact Hy|apply step_frame].
Qed.

Lemma from_conclude number (p : reply * kernel B) : kernel_from s0 p.2 -> p.1 <> Stopped ->
  kernel_from s0 (conclude number p).2 /\ (conclude number p).1 <> Stopped.
Proof. destruct p as [[] k]; cbn; intros Hk Hn; split; try done. by apply from_stats. Qed.

Lemma sys_do_from f : (forall s, rtc (sys_step kernel_table) s (f s).2) -> preserves (kernel_from s0) (sys_do f).
Proof. intros Hf k Hk. unfold sys_do. specialize (Hf (ksys k)). destruct (f (ksys k)). by apply from_steps. Qed.

Lemma preserves_spawn_from a n b m : preserves (kernel_from s0) (syscall_spawn kernel_table a n b m).
Proof.
  intros k Hk. unfold syscall_spawn. destruct (syscall_address_space _); [|by apply from_stats].
  destruct (_ || _); [by apply from_stats|]. apply preserves_with_path; [|done]. clear k Hk. intros p Hp k Hk.
  destruct (_ || _); [by apply from_stats|].
  apply preserves_bind; [by intros k'|intros argument|done]. apply preserves_bind.
  - clear k Hk. intros k Hk. unfold scheduler_create_user_task_from_image.
    pose proof (vfs_file_data_inv (kvfs k) p (ki_vfs _ (proj1 Hk))) as Hd. destruct (vfs_file_data _ _) as [r v]. cbn [snd] in Hd.
    match goal with |- context [create_user_task kernel_table ?nm ?f ?arg (ksys k)] =>
      pose proof (from_op (OpCreateUser nm f arg) k Hk I) as Hk1; cbn [sched_exec snd] in Hk1;
      destruct (create_user_task kernel_table nm f arg (ksys k)) as [pid s] end.
    cbn [snd] in *. destruct Hk1 as [[Hi _ Hf] Hs]. by split.
  - intros pid. apply preserves_bind; [by intros k'|intros parent]. destruct (pid <? 0); [apply preserves_ret|].
    destruct parent as [parent|]; [|apply preserves_ret].
    apply preserves_bind; [apply sys_do_from; intros s; exact (steps_op kernel_table (OpSetParent pid _) s I)|].
    intros r. destruct (negb _); [apply preserves_ret|].
    apply preserves_bind; [apply sys_do_from; intros s; exact (steps_op kernel_table (OpUnblockUser pid) s I)|].
    intros r'. destruct (_ <? 0); apply preserves_ret.
Qed.

Lemma run_not_stopped number m k : (run number m k : reply * kernel B).1 <> Stopped.
Proof. unfold run. by destruct (m k) as [[r|] k']. Qed.

Lemma plain_not_stopped number a0 a1 a2 a3 k : plain number ->
  (syscall_dispatch kernel_table interval_ms number a0 a1 a2 a3 k).1 <> Stopped.
Proof.
  intros (N1 & N2 & N3 & N4 & N5 & N6). unfold syscall_dispatch. cbv zeta.
  repeat match goal with
  | |- (if number =? ?c then _ else _).1 <> _ => destruct (Z.eqb_spec number c); [first [contradiction | apply run_not_stopped]|]
  end.
  apply run_not_stopped.
Qed.

(** The six calls that go through the scheduler. *)
Lemma dispatch_scheduler_from number a0 a1 a2 a3 k :
  kernel_from s0 k -> state_of (ksys k) (current_task (ksys k)) <> TASK_ZOMBIE ->
  number = SYSCALL_EXIT \/ number = SYSCALL_YIELD \/ number = SYSCALL_WAIT \/ number = SYSCALL_SPAWN \/
  number = SYSCALL_TERMINATE \/ number = SYSCALL_SLEEP ->
  let out := syscall_dispatch kernel_table interval_ms number a0 a1 a2 a3 k in kernel_from s0 out.2 /\ out.1 <> Stopped.
Proof.
  intros Hk Hz E. cbv zeta.
  unfold syscall_dispatch. cbv zeta. set (k0 := set_kstats (begin_call _ _ _ _ _) k).
  assert (kernel_from s0 k0) as Hk0 by (by apply from_stats). set (k1 := set_kstats (count_call _ _) k0).
  assert (kernel_from s0 k1) as Hk1 by (by apply from_stats). pose proof (ki_sched _ (proj1 Hk)) as Hi.
  set (k2 := set_kstats (count_handled _) k1). assert (kernel_from s0 k2) as Hk2 by (by apply from_stats).
  destruct_or!; subst number; cbn [Z.eqb Pos.eqb SYSCALL_EXIT SYSCALL_YIELD SYSCALL_WAIT SYSCALL_SPAWN SYSCALL_TERMINATE SYSCALL_SLEEP
    SYSCALL_WRITE SYSCALL_OPEN SYSCALL_READ SYSCALL_CLOSE SYSCALL_CREATE SYSCALL_SEEK].
  + split; [|apply run_not_stopped]. apply run_keeps; [by apply from_stats| |done].
    apply preserves_bind; [intros k' ?; by apply from_stats|intros _].
    apply preserves_bind; [|intros _; apply preserves_ret]. apply sys_do_from. intros s. exact (steps_op kernel_table (OpExitCall _) s I).
  + unfold syscall_scheduler_yield. change (ksys k2) with (ksys k). pose proof (sched_inv_yield _ Hi) as [_ Hn].
    pose proof (steps_op kernel_table OpYield (ksys k) I) as Hy. cbn [sched_exec] in Hy.
    destruct (scheduler_yield (ksys k)) as [o s]. by apply from_leave.
  + apply from_conclude; unfold syscall_wait;
      (destruct (truth _); [done|]; destruct (writable _ _ _); cbn [negb]; [by apply from_wait_round|]).
    * by apply from_stats.
    * done.
  + split; [|apply run_not_stopped]. apply run_keeps; [by apply from_stats|apply preserves_spawn_from|done].
  + split; [|apply run_not_stopped]. apply run_keeps; [by apply from_stats| |done].
    apply preserves_bind; [|intros; apply preserves_ret]. apply sys_do_from. intros s. exact (steps_op kernel_table (OpTerminate _ _) s I).
  + unfold syscall_sleep. change (ksys k1) with (ksys k). destruct (_ || _); [split; [|done]; by apply from_stats|].
    pose proof (sched_inv_exec kernel_table (OpSleep interval_ms a0) _ Hi I) as [_ Hn]. pose proof (steps_op kernel_table (OpSleep interval_ms a0) (ksys k) I) as Hy.
    cbn [sched_exec] in Hy, Hn. destruct (scheduler_sleep_ms _ _ _) as [o s]. by apply from_leave.
Qed.

(** Every call, and the rest of one that was interrupted, is a sequence of steps. *)
Lemma dispatch_from k :
  kernel_from s0 k -> state_of (ksys k) (current_task (ksys k)) <> TASK_ZOMBIE ->
  (forall number a0 a1 a2 a3, is_u64 a0 -> is_u64 a1 -> is_u64 a2 -> is_u64 a3 ->
     let out := syscall_dispatch kernel_table interval_ms number a0 a1 a2 a3 k in
     kernel_from s0 out.2 /\ out.1 <> Stopped) /\
  (forall c, let out := resume kernel_table c k in kernel_from s0 out.2 /\ out.1 <> Stopped).
Proof.
  intros Hk Hz. split.
  - intros number a0 a1 a2 a3 H0' H1' H2' H3'. cbv zeta.
    destruct (decide (number = SYSCALL_EXIT \/ number = SYSCALL_YIELD \/ number = SYSCALL_WAIT \/ number = SYSCALL_SPAWN \/
                      number = SYSCALL_TERMINATE \/ number = SYSCALL_SLEEP)) as [E|N]; [by apply dispatch_scheduler_from|].
    assert (plain number) as Hp by (unfold plain; tauto). split; [|by apply plain_not_stopped].
    apply (dispatch_plain_keeps (kernel_from s0) kernel_from_stable from_stats); done.
  - intros c. cbv zeta. unfold resume. set (k1 := set_ksys _ k). assert (kernel_from s0 k1) as Hk1 by (apply from_steps; [done|apply rtc_once, step_frame]).
    destruct (p_wait c) as [[[pid a] options]|]; [|split; [by apply from_stats|done]].
    assert (state_of (ksys k1) (current_task (ksys k1)) <> TASK_ZOMBIE) as Hz1.
    { unfold k1. cbn [ksys set_ksys]. destruct (p_frame c) as [[? ?]|]; [|done]. cbn [yield_return]. by destruct (space_at _ _). }
    destruct (from_wait_round (p_number c) pid a options k1 Hk1 Hz1). by apply from_conclude.
Qed.
End from.

Lemma preserves_spawn a n b m : preserves kernel_inv (syscall_spawn kernel_table a n b m).
Proof. intros k Hk. apply (preserves_spawn_from (ksys k) a n b m k), kernel_from_here, Hk. Qed.

(** (C5) The kernel's invariant holds across every system call: whatever the number and the
    arguments, after the dispatcher (also when the call gave the processor away, looped
    or faulted) and after the rest of an interrupted call, the task table is well formed,
    the file tree is well formed, and every descriptor of every task has a terminated
    path and an offset in range; no call ends in the halted processor. And a call changes
    the tasks, the user spaces and the registers in no other way than by operations of the
    scheduler, stores to the pages of programs, assignments to the caller's descriptors and
    the return to the caller. *)
Theorem dispatch_invariant k :
  kernel_inv k -> state_of (ksys k) (current_task (ksys k)) <> TASK_ZOMBIE ->
  (forall number a0 a1 a2 a3, is_u64 a0 -> is_u64 a1 -> is_u64 a2 -> is_u64 a3 ->
     let out := syscall_dispatch kernel_table interval_ms number a0 a1 a2 a3 k in
     kernel_inv out.2 /\ rtc (sys_step kernel_table) (ksys k) (ksys out.2) /\ out.1 <> Stopped) /\
  (forall c, let out := resume kernel_table c k in
     kernel_inv out.2 /\ rtc (sys_step kernel_table) (ksys k) (ksys out.2) /\ out.1 <> Stopped).
Proof.
  intros Hk Hz. destruct (dispatch_from (ksys k) k (kernel_from_here k Hk) Hz) as [Hd Hr]. split.
  - intros number a0 a1 a2 a3 H0' H1' H2' H3'. cbv zeta. destruct (Hd number a0 a1 a2 a3) as [[Hi Hs] Hn]; done.
  - intros c. cbv zeta. by destruct (Hr c) as [[Hi Hs] Hn].
Qed.
End props.

(** ** Accounting *)

Section accounting.
Context `{CodeLayout} `{AsLayout} (kernel_table : Z -> list Z).
Context {B : Type} `{BlockDevice B} (interval_ms : Z).
Implicit Types k : kernel B.

Definition counters (t : syscall_stats) : Z * Z * Z := (total t, handled t, rejected t).
(** The counters with a call of the given result counted. *)
Definition counted (r : Z) (c : Z * Z * Z) : Z * Z * Z :=
  let '(t, h, j) := c in if r <? 0 then (t, h, j +! 1) else (t, h +! 1, j).
Definition at_counts (c : Z * Z * Z) k : Prop := kernel_inv k /\ counters (kstats k) = c.

Lemma at_counts_stable c : stable kernel_table (at_counts c).
Proof.
  pose proof (kernel_inv_stable kernel_table (B := B)) as HS. split.
  - intros k t [Hk _]. by apply HS.
  - intros k [Hk E]. split; [by apply HS|done].
  - intros a b k [Hk E]. split; [by apply HS|done].
  - intros x k [Hk E]. split; [by apply HS|done].
  - intros r k [Hk E]. split; [by apply HS|done].
  - intros v k [Hk E] Hv. split; [by apply HS|done].
  - intros slot f t k [Hk E] Ht Hs Hf. split; [by apply (st_file _ _ HS slot f t)|done].
  - intros a l size k [Hk E] Ha Hl Hw. split; [by apply (st_store _ _ HS a l size)|].
    by destruct (store_bytes_spaces kernel_table a l k) as [st ->].
Qed.

Lemma counters_outcome r t : counters (count_outcome r t) = counted r (counters t).
Proof. unfold count_outcome, counted. by destruct (r <? 0). Qed.

(** What a reply counts: a completed call once, a fault not at all. *)
Definition reply_counts (c : Z * Z * Z) (out : reply * kernel B) : Prop :=
  match out.1 with
  | Done r => counters (kstats out.2) = counted r c /\ last_result (kstats out.2) = r
  | _ => counters (kstats out.2) = c
  end.

Lemma dispatch_end_counts number r k c : counters (kstats k) = c -> SYSCALL_OPEN <= number <= SYSCALL_DUP ->
  reply_counts c (dispatch_end number r k).
Proof.
  intros <- Hn. unfold dispatch_end, reply_counts. cbn [fst snd kstats set_kstats].
  replace ((number >=? SYSCALL_OPEN) && (number <=? SYSCALL_DUP)) with true by (symmetry; apply andb_true_iff; split; lia).
  split; [|done]. change (counters (set_last_result ?r ?t)) with (counters t). apply counters_outcome.
Qed.

Lemma dispatch_end_uncounted number r k c : counters (kstats k) = counted r c -> number < SYSCALL_OPEN \/ SYSCALL_DUP < number ->
  reply_counts c (dispatch_end number r k).
Proof.
  intros E Hn. unfold dispatch_end, reply_counts. cbn [fst snd kstats set_kstats].
  replace ((number >=? SYSCALL_OPEN) && (number <=? SYSCALL_DUP)) with false; [done|].
  symmetry. apply andb_false_iff. lia.
Qed.

Lemma run_counts number m k c : preserves (at_counts c) m -> at_counts c k -> SYSCALL_OPEN <= number <= SYSCALL_DUP ->
  reply_counts c (run number m k).
Proof.
  intros Hm Hk Hn. specialize (Hm k Hk). unfold run. destruct (m k) as [[r|] k']; [|apply Hm].
  apply dispatch_end_counts; [apply Hm|done].
Qed.

(** A handler that goes through the scheduler. *)
Lemma run_sys_counts number f g k c : counters (kstats k) = c -> SYSCALL_OPEN <= number <= SYSCALL_DUP ->
  (forall r k, kstats (g r k).2 = kstats k) -> reply_counts c (run number (r ← sys_do f; g r) k).
Proof.
  intros Hk Hn Hg. unfold run, sys_do. unfold mbind, M_bind. destruct (f (ksys k)) as [r s].
  specialize (Hg r (set_ksys s k)). destruct (g r _) as [[r'|] k']; cbn [snd] in Hg.
  - apply dispatch_end_counts; [by rewrite Hg|done].
  - unfold reply_counts. cbn. by rewrite Hg.
Qed.

Lemma wait_round_stats number pid a o k : kstats (wait_round kernel_table number pid a o k).2 = kstats k.
Proof.
  unfold wait_round. destruct (scheduler_wait_task_status _ _ _) as [[r st] s0]. destruct (r =? 1).
  - destruct (store_bytes_spaces kernel_table a (wait_bytes (default (WaitStatus 0 0 0) st)) k) as [sp E].
    destruct (store_bytes _ _ _ k) as [[x|] k1]; cbn in E; by subst k1.
  - destruct (_ && _); [|done]. destruct (syscall_scheduler_yield _) as [[fr []] s]; done.
Qed.

Lemma conclude_counts number p c : counters (kstats p.2) = c -> SYSCALL_OPEN <= number <= SYSCALL_DUP ->
  reply_counts c (conclude number p : reply * kernel B).
Proof. destruct p as [[] k]; intros E Hn; [|done..]. by apply dispatch_end_counts. Qed.

Lemma preserves_counts_spawn c a n b m : preserves (at_counts c) (syscall_spawn kernel_table a n b m).
Proof.
  intros k [Hk Hc]. split; [by apply preserves_spawn|]. revert Hc. clear Hk. revert k.
  change (preserves (fun k => counters (kstats k) = c) (syscall_spawn kernel_table a n b m)). set (Q := fun k => _).
  assert (forall f, preserves Q (sys_do f)) as Hsys by (intros f k Hq; unfold sys_do; by destruct (f (ksys k))).
  intros k Hk. unfold syscall_spawn. destruct (syscall_address_space _); [|done]. destruct (_ || _); [done|].
  unfold with_path. destruct (load_path _ _ _ _) as [p []]; [|done..]. destruct (_ || _); [done|].
  apply (preserves_bind Q); [by intros k'|intros argument|done]. apply preserves_bind.
  - intros k' Hk'. by destruct (scheduler_create_user_task_from_image _ _ _ _ _) as [[pid s] v].
  - intros pid. apply preserves_bind; [by intros k'|intros parent]. destruct (pid <? 0); [apply preserves_ret|].
    destruct parent as [parent|]; [|apply preserves_ret]. apply preserves_bind; [apply Hsys|]. intros r.
    destruct (negb _); [apply preserves_ret|]. apply preserves_bind; [apply Hsys|]. intros r'. destruct (_ <? 0); apply preserves_ret.
Qed.

(** The counters after a call, by its number and reply. *)
Definition expected_counts (number : Z) (rep : reply) (c : Z * Z * Z) : Z * Z * Z :=
  match rep with
  | Done r => counted r c
  | KernelFault => c
  | _ => if number =? SYSCALL_YIELD then counted 0 c else c
  end.

Lemma reply_expected number c (out : reply * kernel B) : number <> SYSCALL_YIELD -> reply_counts c out ->
  counters (kstats out.2) = expected_counts number out.1 c.
Proof.
  intros Hn. apply Z.eqb_neq in Hn. unfold reply_counts, expected_counts. rewrite Hn. by destruct out as [[] k]; cbn; [intros [-> _]|..].
Qed.

Lemma call_numbers number : (number < SYSCALL_OPEN \/ SYSCALL_DUP < number) \/
  number ∈ [SYSCALL_OPEN; SYSCALL_READ; SYSCALL_CLOSE; SYSCALL_CREATE; SYSCALL_SEEK; SYSCALL_WAIT; SYSCALL_SPAWN;
    SYSCALL_TERMINATE; SYSCALL_SLEEP; SYSCALL_MONOTONIC_MS; SYSCALL_GETPID; SYSCALL_GETPPID; SYSCALL_SYSTEM_INFO;
    SYSCALL_RANDOM; SYSCALL_PROCESS_STATUS; SYSCALL_DIRECTORY_LIST; SYSCALL_MKDIR; SYSCALL_REMOVE; SYSCALL_RENAME;
    SYSCALL_PATH_STAT; SYSCALL_TRUNCATE; SYSCALL_DUP].
Proof.
  unfold SYSCALL_OPEN, SYSCALL_DUP. destruct (decide (4 <= number <= 25)) as [Hr|]; [right|lia].
  assert (number ∈ seqZ 4 22) as Hin by (apply elem_of_seqZ; lia). exact Hin.
Qed.

(** Every call is counted once: [total] grows by one when a call arrives, and when it
    completes exactly one of [handled] and [rejected] grows by one, [rejected] iff the
    result is negative. This holds for every call number, known or not; a call that
    faults is not counted as either, one that gives the processor away is counted when
    it is resumed (a yield, before). *)
Theorem dispatch_counts k :
  kernel_inv k ->
  (forall number a0 a1 a2 a3, is_u64 a0 -> is_u64 a1 -> is_u64 a2 -> is_u64 a3 ->
     let out := syscall_dispatch kernel_table interval_ms number a0 a1 a2 a3 k in
     counters (kstats out.2) =
     expected_counts number out.1 (total (kstats k) +! 1, handled (kstats k), rejected (kstats k))) /\
  (forall c, SYSCALL_OPEN <= p_number c <= SYSCALL_DUP ->
     let out := resume kernel_table c k in
     counters (kstats out.2) = expected_counts (p_number c) out.1 (counters (kstats k))).
Proof.
  intros Hk. split.
  - intros number a0 a1 a2 a3 H0' H1' H2' H3'. cbv zeta. unfold syscall_dispatch. cbv zeta.
    set (k0 := set_kstats (begin_call _ _ _ _ _) k). set (k1 := set_kstats (count_call _ _) k0). set (c := (_, _, _)).
    assert (at_counts c k0) as Hk0 by (split; [by apply kernel_inv_stats|done]).
    assert (at_counts c k1) as Hk1 by (split; [apply kernel_inv_stats, Hk0|done]).
    pose proof (at_counts_stable c) as HS.
    destruct (Z.eqb_spec number SYSCALL_YIELD) as [->|Hy].
    { cbn [Z.eqb Pos.eqb SYSCALL_YIELD SYSCALL_WRITE SYSCALL_EXIT]. unfold syscall_scheduler_yield.
      destruct (scheduler_yield _) as [[] s]; by cbn. }
    apply reply_expected; [done|].
    repeat match goal with
    | |- reply_counts c (if number =? ?x then _ else _) => destruct (Z.eqb_spec number x); [subst number|]
    end.
    + unfold run. unfold mbind, M_bind. pose proof (preserves_write kernel_table (at_counts c) HS a0 a1 a2 H2' k1 Hk1) as Hw.
      destruct (syscall_write _ _ _ _ k1) as [[r|] k']; [|apply Hw]. cbn [stats_do modify]. apply dispatch_end_uncounted; [|by left].
      cbn [snd] in Hw. destruct Hw as [_ <-]. apply counters_outcome.
    + unfold run. unfold mbind, M_bind, stats_do, modify, sys_do. cbn [kstats set_kstats ksys].
      destruct (user_mode_handle_exit_syscall _ _) as [r s]. by apply dispatch_end_uncounted; [|left].
    + by apply run_counts; [apply preserves_open|..].
    + by apply run_counts; [apply preserves_read|..].
    + by apply run_counts; [apply (preserves_close kernel_table)|..].
    + by apply run_counts; [apply preserves_open|..].
    + by apply run_counts; [apply (preserves_seek kernel_table)|..].
    + apply conclude_counts; [|done]. unfold syscall_wait. destruct (truth _); [done|]. destruct (writable _ _ _); cbn [negb]; [|done].
      by rewrite wait_round_stats.
    + by apply run_counts; [apply preserves_counts_spawn|..].
    + by apply run_sys_counts.
    + unfold syscall_sleep. destruct (_ || _); [by apply dispatch_end_counts|]. by destruct (scheduler_sleep_ms _ _ _) as [[] s].
    + by apply dispatch_end_counts.
    + by apply run_counts; [apply preserves_ret|..].
    + by apply run_counts; [apply preserves_ret|..].
    + by apply run_counts; [apply preserves_system_info|..].
    + by apply dispatch_end_counts.
    + by apply run_counts; [apply preserves_process_status|..].
    + by apply run_counts; [apply preserves_directory_list|..].
    + by apply run_counts; [apply preserves_mkdir|..].
    + by apply run_counts; [apply preserves_remove|..].
    + by apply run_counts; [apply preserves_rename|..].
    + by apply run_counts; [apply preserves_path_stat|..].
    + by apply run_counts; [apply preserves_truncate|..].
    + by apply run_counts; [apply (preserves_dup kernel_table)|..].
    + apply dispatch_end_uncounted; [done|]. destruct (call_numbers number) as [?|Hin]; [done|exfalso].
      rewrite !elem_of_cons, elem_of_nil in Hin. destruct_or!; contradiction.
  - intros c Hn. cbv zeta. apply reply_expected; [unfold SYSCALL_OPEN, SYSCALL_YIELD in *; lia|]. unfold resume.
    destruct (p_wait c) as [[[pid a] o]|]; [|by apply dispatch_end_counts].
    apply conclude_counts; [|done]. by rewrite wait_round_stats.
Qed.
End accounting.

(** ** Isolation of the callers *)

Section isolation.
Context `{CodeLayout} `{AsLayoutOk} (kernel_table : Z -> list Z).
Context {B : Type} `{BlockDevice B} (interval_ms : Z).
Context (root : Z) (Hkernel : kernel_map_ok kernel_table root).
Implicit Types k : kernel B.

(** A task in a system call: the root is the one of its slot, and the checks see its space. *)
Record caller (n : nat) (space : address_space) (s : sys) : Prop := {
  ca_slot : under_slot kernel_table root n s;
  ca_space : syscall_address_space s = Some space;
  ca_kind : as_kind space = ADDRESS_SPACE_USER;
  ca_regions : user_regions space = user_region_list;
}.

(** What the checks read of a task. *)
Definition space_part (t : task) : Z * as_ptr * address_space := (t_pid t, address_space_ptr (memory t), user_address_space t).

Lemma syscall_space_ext s s' : current_task s' = current_task s -> user_sessions s' = user_sessions s ->
  kernel_address_space (spaces s') = kernel_address_space (spaces s) ->
  (forall i, space_part <$> task_at s' i = space_part <$> task_at s i) ->
  syscall_address_space s' = syscall_address_space s.
Proof.
  intros Hc Hu Hk Ht.
  assert (forall i, match task_at s' i, task_at s i with
                    | Some t', Some t => t_pid t' = t_pid t /\ address_space_ptr (memory t') = address_space_ptr (memory t) /\
                                         user_address_space t' = user_address_space t
                    | None, None => True
                    | _, _ => False
                    end) as Hp.
  { intros i. specialize (Ht i). destruct (task_at s' i), (task_at s i); try done. injection Ht as -> -> ->. done. }
  clear Ht. assert (forall p, space_at p s' = space_at p s) as Hsp.
  { intros [| |i]; cbn; [done|by rewrite Hk|]. specialize (Hp i). destruct (task_at s' i), (task_at s i); try done.
    destruct Hp as (_ & _ & E). cbn. by rewrite E. }
  assert (forall i, space_ptr s' i = space_ptr s i) as Hptr.
  { intros i. unfold space_ptr. specialize (Hp i). destruct (task_at s' i), (task_at s i); try done. apply Hp. }
  specialize (Hp (current_task s)).
  assert (user_session_current s' = user_session_current s) as Hcur.
  { unfold user_session_current. rewrite Hc. destruct (task_at s' _), (task_at s _); try done. by destruct Hp as (-> & _ & _). }
  assert (user_mode_active_address_space s' = user_mode_active_address_space s) as Ha.
  { unfold user_mode_active_address_space, user_session. rewrite Hu, Hcur. destruct (session_task _); [|done]. by rewrite Hptr. }
  unfold syscall_address_space. rewrite Ha, Hsp. unfold scheduler_current_task. rewrite Hc.
  destruct (task_at s' _) as [t'|], (task_at s _) as [t|]; try done. cbn. destruct Hp as (_ & -> & _). by rewrite Hsp.
Qed.

(** What a plain call leaves as it was, seen from the state it started in. *)
Record untouched (n : nat) (s0 s : sys) : Prop := {
  un_pages : only_data n (spaces s0) (spaces s);
  un_tasks : forall i, i <> current_task s0 -> task_at s i = task_at s0 i;
  un_current : current_task s = current_task s0 /\ task_count s = task_count s0;
  un_sessions : user_sessions s = user_sessions s0;
  un_regs : regs s = regs s0 /\ elr_el1 s = elr_el1 s0 /\ spsr_el1 s = spsr_el1 s0;
}.

Lemma writable_range space a n (k : kernel B) : syscall_address_space (ksys k) = Some space -> as_kind space = ADDRESS_SPACE_USER ->
  user_regions space = user_region_list -> is_u64 a -> 0 <= n < 2 ^ 64 ->
  writable a n k = true <-> n = 0 \/ in_data_or_stack a n.
Proof. intros Hs Hk Hr Ha Hn. unfold writable. rewrite Hs. by apply range_checks_exact. Qed.

Section one_call.
Context (n : nat) (space : address_space) (s0 : sys).

Definition isolated k : Prop := kernel_inv k /\ caller n space (ksys k) /\ untouched n s0 (ksys k).

Lemma isolated_stats t k : isolated k -> isolated (set_kstats t k).
Proof. intros (? & ? & ?). split_and!; [by apply kernel_inv_stats|done..]. Qed.

Lemma isolated_put slot f t k : isolated k -> scheduler_current_task_mutable (ksys k) = Some t -> 0 <= slot < 4 -> file_ok f ->
  isolated (put_file slot f k).
Proof.
  intros (Hk & [[? ? ? ?] Hs ? ?] & [? Hu [Ec ?] ? ?]) Ht Hsl Hf. split_and!.
  - by apply (st_file kernel_table kernel_inv (kernel_inv_stable kernel_table) slot f t).
  - split; [by split| |done..]. rewrite <- Hs. apply syscall_space_ext; [done..|]. intros i.
    pose proof (si_current _ (ki_sched _ Hk)). cbn [put_file ksys set_ksys].
    destruct (decide (i = current_task (ksys k))) as [->|]; [|by rewrite task_at_upd_ne by lia].
    rewrite task_at_upd_eq by lia. by destruct (task_at _ _).
  - split; [done| |done..]. intros i Hi. cbn [put_file ksys set_ksys]. pose proof (si_current _ (ki_sched _ Hk)).
    rewrite task_at_upd_ne by (rewrite ?Ec in *; lia). by apply Hu.
Qed.

Lemma isolated_store a l size k : isolated k -> is_u64 a -> Z.of_nat (length l) <= size < 2 ^ 64 -> writable a size k = true ->
  isolated (store_bytes kernel_table a l k).2.
Proof.
  intros (Hk & [Hsl Hs Hkd Hrg] & [Hd Hu Hc Hss Hr]) Ha Hlen Hw.
  pose proof (st_store kernel_table kernel_inv (kernel_inv_stable kernel_table) a l size k Hk Ha Hlen Hw) as Hk'.
  destruct (store_bytes_frame kernel_table root Hkernel n a l k Hsl) as (st & Hst & E).
  { intros Hl. destruct l; [done|]. cbn [length] in *. apply (writable_range space a size k) in Hw; try done; [|lia].
    unfold in_data_or_stack, within in *. lia. }
  rewrite E in *. split_and!; [done| |].
  - split; [by apply under_slot_data| |done..]. rewrite <- Hs. apply syscall_space_ext; try done. by apply Hst.
  - split; try done. by eapply only_data_trans.
Qed.

Lemma isolated_stable : stable kernel_table isolated.
Proof.
  split; try (intros; by apply isolated_stats); try (intros; match goal with Hk : isolated _ |- _ => destruct Hk as ([? ? ?] & ? & ?) end;
    split_and!; [by split|done..]).
  - intros k t (Hk & _) Ht. by apply (current_files (ksys k) t (ki_files k Hk)).
  - intros v k ([? ? ?] & ? & ?) Hv. split_and!; [split; cbn; auto|done..].
  - apply isolated_put.
  - apply isolated_store.
Qed.
End one_call.

Lemma isolated_start n space k : kernel_inv k -> caller n space (ksys k) -> isolated n space (ksys k) k.
Proof. intros Hk Hc. by split_and!. Qed.

Lemma dispatch_isolated n space number a0 a1 a2 a3 k :
  kernel_inv k -> caller n space (ksys k) -> plain number -> is_u64 a0 -> is_u64 a1 -> is_u64 a2 -> is_u64 a3 ->
  isolated n space (ksys k) (syscall_dispatch kernel_table interval_ms number a0 a1 a2 a3 k).2.
Proof.
  intros Hk Hc Hp ? ? ? ?. apply (dispatch_plain_keeps kernel_table interval_ms (isolated n space (ksys k))
    (isolated_stable n space (ksys k)) (isolated_stats n space (ksys k))); [done..|]. by apply isolated_start.
Qed.

(** (C6) System calls isolate their callers: a call that does not go through the scheduler,
    made by a task in its own address space, changes nothing that belongs to another
    task. Whatever the arguments, and also when the call faults, the translation tables of
    every slot, the pages of every other slot and the caller's own code page are as
    before, so are the other tasks' entries (their descriptors included), the sessions,
    the translation root and the saved registers. *)
Theorem call_isolated n space number a0 a1 a2 a3 k :
  kernel_inv k -> caller n space (ksys k) -> plain number -> is_u64 a0 -> is_u64 a1 -> is_u64 a2 -> is_u64 a3 ->
  untouched n (ksys k) (ksys (syscall_dispatch kernel_table interval_ms number a0 a1 a2 a3 k).2).
Proof. intros Hk Hc Hp ? ? ? ?. by apply (dispatch_isolated n space number a0 a1 a2 a3 k). Qed.

(** The range checks do not protect the kernel: they accept ranges of the data and
    stack regions past the one page of each that is mapped, and a call given such a
    buffer faults inside the kernel instead of returning an error. A user program can
    bring the kernel down with one call. *)
Lemma accepted_buffer_faults_kernel n space a k :
  caller n space (ksys k) ->
  0x201000 <= a /\ a + 72 <= 0x300000 \/ 0x3fff1000 <= a /\ a + 72 <= 0x40000000 ->
  forall a1 a2 a3, (syscall_dispatch kernel_table interval_ms SYSCALL_SYSTEM_INFO a a1 a2 a3 k).1 = KernelFault.
Proof.
  intros Hc Ha a1 a2 a3. unfold syscall_dispatch. cbv zeta.
  repeat match goal with |- context [SYSCALL_SYSTEM_INFO =? ?c] =>
    let b := eval vm_compute in (SYSCALL_SYSTEM_INFO =? c) in change (SYSCALL_SYSTEM_INFO =? c) with b end. cbv iota.
  set (k0 := set_kstats (begin_call _ _ _ _ _) k). set (k1 := set_kstats (count_call _ _) k0). destruct Hc as [Hsl Hs Hkd Hrg].
  assert (writable a 72 k1 = true) as Hw.
  { apply (writable_range space a 72 k1); try done; unfold is_u64, in_data_or_stack, within; lia. }
  unfold run, syscall_system_info_call. rewrite Hw. cbn [negb]. set (l := info_bytes _).
  assert (place kernel_table (ksys k1) a = None) as Hn.
  { apply (place_unmapped kernel_table root Hkernel n); [done|unfold in_data_or_stack, within; lia|].
    destruct (user_page a) as [i|] eqn:E; [|done]. apply mapped_user_page in E as (Hi & Hlo & _ & Hhi).
    change ARM64_PAGE_SIZE with 4096 in Hhi.
    destruct i as [|[|[|i]]]; [change (page_start 0) with 0x100000 in *|change (page_start 1) with 0x200000 in *
      |change (page_start 2) with 0x3fff0000 in *|]; lia. }
  assert (length l = 72%nat) as El by (unfold l, info_bytes; by rewrite words_length).
  destruct l as [|b l']; [done|].
  unfold mbind, M_bind. cbn [store_bytes]. unfold store_byte. by rewrite Hn.
Qed.
End isolation.
