(* ===== verification/SyscallFiles.v ===== *)
(** * The file calls, seen from a program

    What opening, writing, seeking and reading do in terms of the files' contents and of
    the caller's memory: an abstract view of a descriptor (a path and an offset) that the
    calls on in-memory files refine, and the round trip of bytes through a file. *)

From S2P Require Import Prelude PageAllocator Pmm BlockDevice Block Sfs Vfs VfsProps Executable Mmu AddressSpace Task User Scheduler SchedulerProps Syscall UserMemory Steps SyscallProps.

(** Running a sequence whose first part succeeds. *)
Lemma bind_ok {B A C} (m : M B A) (f : A -> M B C) k a k' : m k = (Some a, k') -> (m ≫= f) k = f a k'.
Proof. intros E. unfold mbind, M_bind. by rewrite E. Qed.

Lemma run_ok {B} number (m : M B Z) k r k' : m k = (Some r, k') -> run number m k = dispatch_end number r k'.
Proof. intros E. unfold run. by rewrite E. Qed.

Section files.
Context `{CodeLayout} `{AsLayoutOk} (kernel_table : Z -> list Z).
Context {B : Type} `{BlockDevice B} (interval_ms : Z).
Context (root : Z) (Hkernel : kernel_map_ok kernel_table root).
Implicit Types k : kernel B.

(** The descriptor [fd] of the current task is open on the path [p] at offset [o]. *)
Definition open_on (fd : Z) (p : list Z) (o : Z) k : Prop :=
  exists t f, descriptor fd k = Some (t, fd - 3, f) /\ cstr (file_path f) = p /\ file_offset f = o.

(** The contents of an in-memory file. *)
Definition contents k (p : list Z) : option (list Z) := file_in (nodes (kvfs k)) p.

(** The state a handler starts in. *)
Definition enter (number a0 a1 a2 : Z) k : kernel B :=
  let k := set_kstats (begin_call number a0 a1 a2 (kstats k)) k in set_kstats (count_call number (kstats k)) k.

Lemma enter_inv number a0 a1 a2 k : kernel_inv k -> kernel_inv (enter number a0 a1 a2 k).
Proof. intros Hk. by do 2 apply kernel_inv_stats. Qed.

Lemma descriptor_put fd k t slot f f' : kernel_inv k -> descriptor fd k = Some (t, slot, f) -> truth (file_used f') = true ->
  exists t', descriptor fd (put_file slot f' k) = Some (t', slot, f').
Proof.
  intros Hk Hd Hu. pose proof (descriptor_Some _ _ _ _ _ Hd) as (Ht & -> & Hs & _).
  pose proof (current_files _ _ (ki_files _ Hk) Ht) as [Hl _].
  unfold descriptor in *. rewrite cur_put_file. destruct (scheduler_current_task_mutable _) as [u|]; [|done]. cbn.
  destruct (_ || _); [done|]. unfold file_of_task in *. cbn [t_files set_t_files].
  injection Ht as ->. rewrite list_lookup_insert_eq by lia. cbn. rewrite Hu. cbn. eauto.
Qed.

Lemma open_on_put fd k t slot f f' p o : kernel_inv k -> descriptor fd k = Some (t, slot, f) ->
  truth (file_used f') = true -> cstr (file_path f') = p -> file_offset f' = o -> open_on fd p o (put_file slot f' k).
Proof.
  intros Hk Hd Hu Hp Ho. destruct (descriptor_put fd k t slot f f' Hk Hd Hu) as [t' Ht].
  pose proof (descriptor_Some _ _ _ _ _ Hd) as (_ & -> & _). by exists t', f'.
Qed.

Lemma mapped_checks n space i a len k : caller kernel_table root n space (ksys k) -> mapped i a len -> 0 < len ->
  readable a len k = true /\ (i <> 0%nat -> writable a len k = true).
Proof.
  intros [_ Hs Hkd Hr] Hm Hl. destruct (mapped_within i a len Hm Hl) as (Ha & Hlen & Hin & Hd).
  destruct (range_checks_exact space a len Hkd Hr Ha Hlen) as [H1' H2']. unfold readable, writable. rewrite Hs.
  split; [apply H1'; tauto|]. intros Hi. apply H2'. right. by apply Hd.
Qed.

Lemma write_reads_file p o len c (v : vfs B) : vfs_inv v -> cstring p -> vfs_disk_path (Some p) = None ->
  file_in (nodes v) p = Some c -> 0 <= o -> 0 <= len -> o + len <= VFS_MAX_FILE_SIZE -> write_reads p o len v = true.
Proof.
  intros Hv Hp Hdp Hc Ho Hl Hmax. unfold VFS_MAX_FILE_SIZE in *.
  destruct (file_in_Some _ _ _ (vi_tree _ Hv) Hp Hc) as (i & n & Hn & Hk & _).
  unfold write_reads. rewrite Hdp. destruct (vfs_find_at v p i n Hv Hn) as [_ ->]. rewrite Hk. unfold VFS_MAX_FILE_SIZE.
  rewrite u64_small by lia. replace (o >? 4096) with false by lia. by replace (len >? 4096 - o) with false by lia.
Qed.

(** ** The calls on an open in-memory file *)

(** Writing from a mapped buffer: the contents get the bytes at the offset, which moves past
    them; the caller's memory is not changed. *)
Lemma write_file_call n space fd p o c i a len k :
  kernel_inv k -> caller kernel_table root n space (ksys k) -> open_on fd p o k -> vfs_disk_path (Some p) = None ->
  contents k p = Some c -> 0 <= o <= Z.of_nat (length c) -> o + len <= VFS_MAX_FILE_SIZE ->
  0 < len <= SYSCALL_WRITE_MAX -> mapped i a len ->
  let bytes := take (Z.to_nat len) (drop (Z.to_nat (a - page_start i)) (region_page n i (spaces (ksys k)))) in
  exists k', syscall_dispatch kernel_table interval_ms SYSCALL_WRITE fd a len 0 k = (Done len, k') /\
    open_on fd p (o + len) k' /\ spaces (ksys k') = spaces (ksys k) /\
    forall q, cstring q -> contents k' q = if decide (q = p) then Some (spliced c (Z.to_nat o) bytes) else contents k q.
Proof.
  intros Hk Hc (t & f & Hd & Hp & Ho) Hdp Hcon Hoff Hmax Hlen Hm bytes. unfold VFS_MAX_FILE_SIZE, SYSCALL_WRITE_MAX in *.
  change (syscall_dispatch kernel_table interval_ms SYSCALL_WRITE fd a len 0 k) with
    (run SYSCALL_WRITE (r ← syscall_write kernel_table fd a len; _ ← stats_do (count_outcome r); mret r) (enter SYSCALL_WRITE fd a len k)).
  set (k1 := enter _ _ _ _ k). assert (kernel_inv k1) as Hk1 by (by apply enter_inv).
  pose proof (descriptor_Some _ _ _ _ _ Hd) as (_ & _ & Hfd & _ & Hu).
  assert (cstring p) as Hcs by (subst p; apply cstr_cstring).
  assert (load kernel_table a len k1 = (Some bytes, k1)) as Eload.
  { unfold load. by rewrite (load_bytes_mapped kernel_table root Hkernel n (ksys k1) i a (Z.to_nat len) (ca_slot _ _ _ _ _ Hc))
      by (rewrite Z2Nat.id by lia; done). }
  assert (length bytes = Z.to_nat len) as Hlb.
  { unfold load in Eload. injection Eload as Eload. by apply load_bytes_length in Eload. }
  pose proof (vfs_write_cases (kvfs k1) p c o bytes len (ki_vfs _ Hk1) Hcs Hdp Hcon Hoff ltac:(lia)) as Hw.
  destruct (vfs_write p o (Some bytes) len (kvfs k1)) as [r v'] eqn:Ew. unfold VFS_MAX_FILE_SIZE in Hw.
  replace (o + len <=? 4096) with true in Hw by lia. destruct Hw as (-> & Hv' & _ & Hfiles).
  set (k2 := put_file (fd - 3) (TaskFile (file_used f) (file_path f) (o +! len)) (set_kvfs v' k1)).
  assert (syscall_write kernel_table fd a len k1 = (Some len, set_kstats (add_write_bytes 0 len (kstats k2)) k2)) as E.
  { unfold syscall_write.
    replace (len =? 0) with false by lia. replace (len >? SYSCALL_WRITE_MAX) with false by (unfold SYSCALL_WRITE_MAX; lia).
    destruct (mapped_checks n space i a len k1 Hc Hm ltac:(lia)) as [-> _]. cbn [negb].
    replace ((fd =? SYSCALL_STDOUT) || (fd =? SYSCALL_STDERR)) with false by (unfold SYSCALL_STDOUT, SYSCALL_STDERR; lia).
    change (descriptor fd k1) with (descriptor fd k). rewrite Hd. cbv zeta. rewrite Hp, Ho.
    rewrite (write_reads_file p o len c (kvfs k1) (ki_vfs _ Hk1) Hcs Hdp Hcon) by (unfold VFS_MAX_FILE_SIZE; lia).
    rewrite (bind_ok _ _ _ _ _ Eload). erewrite bind_ok by (unfold vfs_do; rewrite Ew; reflexivity).
    replace (len >? 0) with true by lia. reflexivity. }
  erewrite run_ok by (erewrite bind_ok by exact E; reflexivity). eexists. split; [reflexivity|]. split_and!.
  - assert (kernel_inv (set_kvfs v' k1)) as Hk1' by (destruct Hk1; by split).
    eapply (open_on_put fd (set_kvfs v' k1)); [done|exact Hd|done|done|]. cbn. apply u64_small. lia.
  - done.
  - intros q Hq. rewrite (take_ge bytes) in Hfiles by lia. by apply Hfiles.
Qed.

(** Reading into a mapped buffer of a writable page: the buffer gets the bytes at the
    offset, as many as the file has, and nothing else of the caller's memory changes; the
    offset moves past them. *)
Lemma read_file_call n space fd p o c i a len k :
  kernel_inv k -> caller kernel_table root n space (ksys k) -> open_on fd p o k -> vfs_disk_path (Some p) = None ->
  contents k p = Some c -> 0 <= o <= Z.of_nat (length c) -> 0 < len <= SYSCALL_READ_MAX -> i <> 0%nat -> mapped i a len ->
  let r := slice c (Z.to_nat o) (Z.to_nat len) in
  exists k', syscall_dispatch kernel_table interval_ms SYSCALL_READ fd a len 0 k = (Done (Z.of_nat (length r)), k') /\
    open_on fd p (o + Z.of_nat (length r)) k' /\ kvfs k' = kvfs k /\
    spaces (ksys k') = set_page n i (write_at (region_page n i (spaces (ksys k))) (Z.to_nat (a - page_start i)) r) (spaces (ksys k)).
Proof.
  intros Hk Hc (t & f & Hd & Hp & Ho) Hdp Hcon Hoff Hlen Hi Hm r. unfold SYSCALL_READ_MAX in Hlen.
  change (syscall_dispatch kernel_table interval_ms SYSCALL_READ fd a len 0 k) with
    (run SYSCALL_READ (syscall_read kernel_table fd a len) (enter SYSCALL_READ fd a len k)).
  set (k1 := enter _ _ _ _ k). assert (kernel_inv k1) as Hk1 by (by apply enter_inv).
  pose proof (descriptor_Some _ _ _ _ _ Hd) as (Ht & _ & Hfd & _ & Hu). assert (cstring p) as Hcs by (subst p; apply cstr_cstring).
  assert (length c <= 4096)%nat as Hcl.
  { destruct (file_in_Some _ _ _ (vi_tree _ (ki_vfs _ Hk)) Hcs Hcon) as (? & ? & _ & _ & _ & ? & ? & _). lia. }
  pose proof (vfs_read_cases (kvfs k1) p c o (replicate (Z.to_nat len) 0) len (ki_vfs _ Hk1) Hcs Hdp Hcon) as Hr.
  destruct (vfs_read p o (Some (replicate (Z.to_nat len) 0)) len (kvfs k1)) as [[res out] v'] eqn:Er.
  destruct Hr as [-> Hr]; [lia|rewrite length_replicate; lia|]. replace (o <=? Z.of_nat (length c)) with true in Hr by lia.
  fold r in Hr. destruct Hr as [-> ->]. assert (length r <= Z.to_nat len)%nat as Hrl by (unfold r, slice; rewrite length_take; lia).
  set (k2 := put_file (fd - 3) (TaskFile (file_used f) (file_path f) (o +! Z.of_nat (length r)))
    (set_ksys (set_spaces (set_page n i (write_at (region_page n i (spaces (ksys k))) (Z.to_nat (a - page_start i)) r) (spaces (ksys k))) (ksys k1)) k1)).
  assert (length r <> 0%nat -> syscall_read kernel_table fd a len k1 = (Some (Z.of_nat (length r)), k2)) as E.
  { intros Hr0. unfold syscall_read. change (ksys k1) with (ksys k). rewrite Ht. unfold SYSCALL_READ_MAX, TASK_MAX_FILES.
    replace ((fd <? 3) || (fd >=? 3 + 4) || (len >? 128)) with false by lia. replace (len =? 0) with false by lia.
    destruct (mapped_checks n space i a len k1 Hc Hm ltac:(lia)) as [_ ->]; [|done]. cbn [negb].
    change (descriptor fd k1) with (descriptor fd k). rewrite Hd, Hp, Ho, Er. cbv zeta. replace (Z.of_nat (length r) >? 0) with true by lia.
    cbn [from_option id]. rewrite Nat2Z.id, take_app_le, (take_ge r) by lia.
    erewrite bind_ok by (apply (store_bytes_mapped kernel_table root Hkernel n i); [apply Hc|done|]; unfold mapped in *; lia).
    reflexivity. }
  destruct (decide (length r = 0%nat)) as [Hz|Hz].
  - assert (syscall_read kernel_table fd a len k1 = (Some 0, k1)) as E0.
    { unfold syscall_read. change (ksys k1) with (ksys k). rewrite Ht. unfold SYSCALL_READ_MAX, TASK_MAX_FILES.
      replace ((fd <? 3) || (fd >=? 3 + 4) || (len >? 128)) with false by lia. replace (len =? 0) with false by lia.
      destruct (mapped_checks n space i a len k1 Hc Hm ltac:(lia)) as [_ ->]; [|done]. cbn [negb].
      change (descriptor fd k1) with (descriptor fd k). rewrite Hd, Hp, Ho, Er, Hz. done. }
    rewrite (run_ok _ _ _ _ _ E0), Hz. eexists. split; [reflexivity|]. rewrite Z.add_0_r. split_and!; [by exists t, f|done|].
    apply nil_length_inv in Hz. by rewrite Hz, write_at_nil, set_page_same.
  - rewrite (run_ok _ _ _ _ _ (E Hz)). eexists. split; [reflexivity|]. split_and!; [|done..].
    pose proof (isolated_store kernel_table root Hkernel n space (ksys k) a r len k1) as Hiso.
    rewrite (store_bytes_mapped kernel_table root Hkernel n i a r k1) in Hiso; [|apply Hc|done|unfold mapped in *; lia].
    destruct Hiso as (Hk' & _); [by split_and!| |lia|by apply (proj2 (mapped_checks n space i a len k1 Hc Hm ltac:(lia)))|]; [by apply (mapped_within i a len Hm); lia|].
    eapply (open_on_put fd _ t (fd - 3) f); [exact Hk'|exact Hd|done|done|]. cbn. apply u64_small. lia.
Qed.

(** Seeking inside the file moves the offset and nothing else. *)
Lemma seek_file_call fd p o c o' k :
  kernel_inv k -> open_on fd p o k -> vfs_disk_path (Some p) = None -> contents k p = Some c -> 0 <= o' <= Z.of_nat (length c) ->
  exists k', syscall_dispatch kernel_table interval_ms SYSCALL_SEEK fd o' 0 0 k = (Done o', k') /\
    open_on fd p o' k' /\ kvfs k' = kvfs k /\ spaces (ksys k') = spaces (ksys k).
Proof.
  intros Hk (t & f & Hd & Hp & Ho) Hdp Hcon Hoff.
  change (syscall_dispatch kernel_table interval_ms SYSCALL_SEEK fd o' 0 0 k) with
    (run SYSCALL_SEEK (syscall_seek fd o') (enter SYSCALL_SEEK fd o' 0 k)).
  set (k1 := enter _ _ _ _ k). assert (kernel_inv k1) as Hk1 by (by apply enter_inv).
  pose proof (descriptor_Some _ _ _ _ _ Hd) as (_ & _ & _ & _ & Hu). assert (cstring p) as Hcs by (subst p; apply cstr_cstring).
  destruct (file_in_Some _ _ _ (vi_tree _ (ki_vfs _ Hk)) Hcs Hcon) as (i & m & Hm & Hkd & _ & Hlc & Hs & _).
  destruct (vfs_find_at (kvfs k) p i m (ki_vfs _ Hk) Hm) as [Hfind _].
  set (k2 := put_file (fd - 3) (TaskFile (file_used f) (file_path f) o') (set_kvfs (kvfs k1) k1)).
  assert (syscall_seek fd o' k1 = (Some o', k2)) as E.
  { unfold syscall_seek. change (descriptor fd k1) with (descriptor fd k). rewrite Hd, Hp. unfold vfs_file_data.
    change (kvfs k1) with (kvfs k). rewrite Hdp, Hfind, Hkd. cbn [negb Z.eqb Pos.eqb RAMFS_FILE]. cbv zeta.
    replace (o' >? n_size m) with false by lia. unfold to_long. by rewrite Z.mod_small, Z.add_simpl_r by lia. }
  rewrite (run_ok _ _ _ _ _ E). eexists. split; [reflexivity|]. split_and!; [|done..].
  assert (kernel_inv (set_kvfs (kvfs k1) k1)) as Hk1' by (destruct Hk1; by split).
  by eapply (open_on_put fd (set_kvfs (kvfs k1) k1)).
Qed.

(** ** Refinement *)

(** What a program sees of an open file: its contents, the offset, and its own pages. *)
Record view := View { v_contents : list Z; v_offset : Z; v_pages : nat -> list Z }.

(** Calls on the descriptor; buffers are in the mapped page of region [i]. *)
Inductive file_op := WriteFrom (i : nat) (a len : Z) | ReadInto (i : nat) (a len : Z) | SeekTo (o : Z).

(** The abstract effect, and the result of the call. *)
Definition view_step (op : file_op) (w : view) : Z * view :=
  match op with
  | WriteFrom i a len =>
      let bytes := take (Z.to_nat len) (drop (Z.to_nat (a - page_start i)) (v_pages w i)) in
      (len, View (spliced (v_contents w) (Z.to_nat (v_offset w)) bytes) (v_offset w + len) (v_pages w))
  | ReadInto i a len =>
      let r := slice (v_contents w) (Z.to_nat (v_offset w)) (Z.to_nat len) in
      (Z.of_nat (length r),
       View (v_contents w) (v_offset w + Z.of_nat (length r))
         (fun j => if decide (j = i) then write_at (v_pages w i) (Z.to_nat (a - page_start i)) r else v_pages w j))
  | SeekTo o => (o, View (v_contents w) o (v_pages w))
  end.

(** Buffers are mapped (and writable for a read), sizes within the limits, seeks inside. *)
Definition op_fits (op : file_op) (w : view) : Prop :=
  match op with
  | WriteFrom i a len => 0 < len <= SYSCALL_WRITE_MAX /\ mapped i a len /\ v_offset w + len <= VFS_MAX_FILE_SIZE
  | ReadInto i a len => 0 < len <= SYSCALL_READ_MAX /\ mapped i a len /\ i <> 0%nat
  | SeekTo o => 0 <= o <= Z.of_nat (length (v_contents w))
  end.

Definition op_call (fd : Z) (op : file_op) : Z * Z * Z * Z :=
  match op with
  | WriteFrom i a len => (SYSCALL_WRITE, fd, a, len)
  | ReadInto i a len => (SYSCALL_READ, fd, a, len)
  | SeekTo o => (SYSCALL_SEEK, fd, o, 0)
  end.

(** The calls in order, with their results; [None] when one does not complete. *)
Fixpoint exec_calls (fd : Z) (ops : list file_op) k : option (list Z * kernel B) :=
  match ops with
  | [] => Some ([], k)
  | op :: ops =>
      let '(number, a0, a1, a2) := op_call fd op in
      match syscall_dispatch kernel_table interval_ms number a0 a1 a2 0 k with
      | (Done r, k) => '(rs, k) ← exec_calls fd ops k; Some (r :: rs, k)
      | _ => None
      end
  end.
Fixpoint exec_view (ops : list file_op) (w : view) : list Z * view :=
  match ops with
  | [] => ([], w)
  | op :: ops => let (r, w) := view_step op w in let (rs, w) := exec_view ops w in (r :: rs, w)
  end.
Fixpoint ops_fit (ops : list file_op) (w : view) : Prop :=
  match ops with
  | [] => True
  | op :: ops => op_fits op w /\ ops_fit ops (view_step op w).2
  end.

(** The kernel implements the view. *)
Record implements (n : nat) (space : address_space) (fd : Z) (p : list Z) (w : view) k : Prop := {
  im_inv : kernel_inv k;
  im_caller : caller kernel_table root n space (ksys k);
  im_open : open_on fd p (v_offset w) k;
  im_memory_file : vfs_disk_path (Some p) = None;
  im_contents : contents k p = Some (v_contents w);
  im_offset : 0 <= v_offset w <= Z.of_nat (length (v_contents w));
  im_pages : forall i, (i < 3)%nat -> region_page n i (spaces (ksys k)) = v_pages w i;
}.

Lemma open_on_range fd p o k : open_on fd p o k -> cstring p /\ is_u64 fd.
Proof.
  intros (t & f & Hd & <- & _). split; [apply cstr_cstring|].
  apply descriptor_Some in Hd as (_ & _ & ? & _). unfold is_u64. lia.
Qed.

Lemma length_spliced c o bytes : (o <= length c)%nat -> length (spliced c o bytes) = Nat.max (length c) (o + length bytes).
Proof. intros Ho. unfold spliced. rewrite !length_app, length_take, length_drop. lia. Qed.

(** One call. *)
Lemma call_implements n space fd p w k op : implements n space fd p w k -> op_fits op w ->
  let '(number, a0, a1, a2) := op_call fd op in
  exists k', syscall_dispatch kernel_table interval_ms number a0 a1 a2 0 k = (Done (view_step op w).1, k') /\
    implements n space fd p (view_step op w).2 k'.
Proof.
  intros [Hk Hc Ho Hdp Hcon Hoff Hpg] Hop. destruct (open_on_range _ _ _ _ Ho) as [Hcs Hfd].
  assert (forall number a0 a1 a2 r k', plain number -> is_u64 a0 -> is_u64 a1 -> is_u64 a2 ->
    syscall_dispatch kernel_table interval_ms number a0 a1 a2 0 k = (Done r, k') -> kernel_inv k' /\ caller kernel_table root n space (ksys k'))
    as Hkeep.
  { intros number a0 a1 a2 r k' Hpl ? ? ? E.
    pose proof (dispatch_isolated kernel_table interval_ms root Hkernel n space number a0 a1 a2 0 k) as Hiso. rewrite E in Hiso.
    destruct Hiso as (? & ? & _); done. }
  destruct op as [i a len|i a len|o']; cbn [op_call op_fits view_step fst snd] in *.
  - destruct Hop as (Hl & Hm & Hmax).
    destruct (write_file_call n space fd p (v_offset w) (v_contents w) i a len k) as (k' & E & Hopen & Hsp & Hfiles); try done.
    exists k'. split; [done|]. destruct (mapped_within i a len Hm ltac:(lia)) as (Ha & Hlen & _).
    destruct (Hkeep SYSCALL_WRITE fd a len len k') as [Hk' Hc']; [by split_and!|done..|].
    rewrite (Hpg i) in Hfiles by apply Hm.
    assert (length (take (Z.to_nat len) (drop (Z.to_nat (a - page_start i)) (v_pages w i))) = Z.to_nat len) as Hbl.
    { rewrite length_take, length_drop, <- (Hpg i) by apply Hm.
      destruct Hc as [[? _ _ Hwf] _ _ _]. rewrite region_page_length by (done || apply Hm).
      destruct Hm as (? & ? & ? & Hhi). change (Z.to_nat ARM64_PAGE_SIZE) with 4096%nat. change ARM64_PAGE_SIZE with 4096 in Hhi. lia. }
    split; try done; cbn [v_contents v_offset v_pages].
    + rewrite Hfiles by done. by rewrite decide_True.
    + rewrite length_spliced, Hbl by lia. lia.
    + intros j Hj. rewrite Hsp. by apply Hpg.
  - destruct Hop as (Hl & Hm & Hi).
    destruct (read_file_call n space fd p (v_offset w) (v_contents w) i a len k) as (k' & E & Hopen & Hv & Hsp); try done.
    exists k'. split; [done|]. destruct (mapped_within i a len Hm ltac:(lia)) as (Ha & Hlen & _).
    destruct (Hkeep SYSCALL_READ fd a len _ k' ltac:(by split_and!) Hfd Ha Hlen E) as [Hk' Hc'].
    split; try done; cbn [v_contents v_offset v_pages].
    + unfold contents. by rewrite Hv.
    + unfold slice. rewrite length_take, length_drop. lia.
    + intros j Hj. destruct Hc as [[? _ _ Hwf] _ _ _]. rewrite Hsp, region_page_set by (done || apply Hm).
      destruct (decide (i = j)) as [<-|]; [rewrite decide_True by done; by rewrite Hpg|]. rewrite decide_False by done. by apply Hpg.
  - destruct (seek_file_call fd p (v_offset w) (v_contents w) o' k) as (k' & E & Hopen & Hv & Hsp); try done.
    exists k'. split; [done|].
    assert (is_u64 o') as Ho'.
    { destruct (file_in_Some _ _ _ (vi_tree _ (ki_vfs _ Hk)) Hcs Hcon) as (? & ? & _ & _ & _ & ? & ? & _). unfold is_u64. lia. }
    destruct (Hkeep SYSCALL_SEEK fd o' 0 o' k') as [Hk' Hc']; [by split_and!|done..|].
    split; try done; cbn [v_contents v_offset v_pages].
    + unfold contents. by rewrite Hv.
    + intros j Hj. rewrite Hsp. by apply Hpg.
Qed.

Lemma calls_implement n space fd p ops w k : implements n space fd p w k -> ops_fit ops w ->
  exists k', exec_calls fd ops k = Some ((exec_view ops w).1, k') /\ implements n space fd p (exec_view ops w).2 k'.
Proof.
  revert w k. induction ops as [|op ops IH]; intros w k Him Hfit; cbn [exec_calls exec_view]; [by exists k|].
  destruct Hfit as [Hop Hfit]. pose proof (call_implements n space fd p w k op Him Hop) as Hcall.
  destruct (op_call fd op) as [[[number a0] a1] a2]. destruct Hcall as (k1 & -> & Him1).
  destruct (view_step op w) as [r w1]. cbn [fst snd] in *. destruct (IH w1 k1 Him1 Hfit) as (k' & -> & Him').
  destruct (exec_view ops w1) as [rs w']. by exists k'.
Qed.

(** (C7) The file calls refine an abstract file: for any sequence of writes, reads and
    seeks on a descriptor open on an in-memory file, with mapped buffers and sizes within
    the limits, every call completes with the result the abstract file gives, and at
    the end the file's contents, the descriptor's offset and the program's pages are the
    abstract ones: a write splices the buffer's bytes at the offset, a read puts the
    bytes from the offset (as many as there are) in the buffer, both move the offset
    past them. *)
Theorem file_calls_refine n space fd p ops w k :
  implements n space fd p w k -> ops_fit ops w ->
  exists k', exec_calls fd ops k = Some ((exec_view ops w).1, k') /\ implements n space fd p (exec_view ops w).2 k'.
Proof. apply calls_implement. Qed.

(** Bytes survive the trip through a file: what a program writes to a descriptor from
    one buffer it reads back into another after seeking to where it wrote. *)
Theorem file_roundtrip n space fd p w i a j b len k :
  implements n space fd p w k -> 0 < len <= SYSCALL_WRITE_MAX -> mapped i a len -> mapped j b len -> j <> 0%nat ->
  v_offset w + len <= VFS_MAX_FILE_SIZE ->
  exists k', exec_calls fd [WriteFrom i a len; SeekTo (v_offset w); ReadInto j b len] k = Some ([len; v_offset w; len], k') /\
    load_bytes kernel_table (Z.to_nat len) b (ksys k') = load_bytes kernel_table (Z.to_nat len) a (ksys k).
Proof.
  intros Him Hl Hma Hmb Hj Hmax. pose proof Him as [Hk [Hsl _ _ _] _ _ _ Hoff Hpg].
  set (bytes := take (Z.to_nat len) (drop (Z.to_nat (a - page_start i)) (v_pages w i))).
  pose proof (load_bytes_mapped kernel_table root Hkernel n (ksys k) i a (Z.to_nat len) Hsl) as Ea.
  rewrite Hpg in Ea by apply Hma. fold bytes in Ea. specialize (Ea ltac:(rewrite Z2Nat.id by lia; done)).
  assert (length bytes = Z.to_nat len) as Hbl by (by apply load_bytes_length in Ea).
  assert (slice (spliced (v_contents w) (Z.to_nat (v_offset w)) bytes) (Z.to_nat (v_offset w)) (Z.to_nat len) = bytes) as Hsl'.
  { unfold slice, spliced. rewrite drop_app_ge by (rewrite length_take; lia). rewrite length_take.
    replace (Z.to_nat (v_offset w) - Z.to_nat (v_offset w) `min` length (v_contents w))%nat with 0%nat by lia.
    rewrite drop_0, take_app_le by lia. apply take_ge. lia. }
  destruct (calls_implement n space fd p [WriteFrom i a len; SeekTo (v_offset w); ReadInto j b len] w k Him) as (k' & E & Him').
  { unfold SYSCALL_WRITE_MAX in *. cbn -[Z.le Z.lt]. unfold SYSCALL_WRITE_MAX, SYSCALL_READ_MAX.
    split_and!; try done; try lia. rewrite length_spliced by lia. lia. }
  cbn [exec_view view_step fst snd v_contents v_offset v_pages] in E, Him'. fold bytes in E, Him'. rewrite Hsl', Hbl, Z2Nat.id in E, Him' by lia.
  exists k'. split; [done|]. destruct Him' as [_ [Hsl1 _ _ _] _ _ _ _ Hpg'].
  rewrite (load_bytes_mapped kernel_table root Hkernel n (ksys k') j b (Z.to_nat len) Hsl1) by (rewrite Z2Nat.id by lia; done).
  rewrite Hpg' by apply Hmb. cbn [v_pages]. rewrite decide_True by done. rewrite Ea, <- Hbl. f_equal.
  apply take_drop_write_at. rewrite <- Hpg by apply Hmb. destruct Hsl as [? _ _ Hwf]. rewrite region_page_length by (done || apply Hmb).
  destruct Hmb as (? & ? & ? & Hhi). change (Z.to_nat ARM64_PAGE_SIZE) with 4096%nat. change ARM64_PAGE_SIZE with 4096 in Hhi. lia.
Qed.
End files.
