(* ===== verification/SyscallExamples.v ===== *)
(** * A kernel with a running program

    The system of the scheduler's examples with task 1 inside a system call of its
    program, the boot file system with one file, and the system-call theorems applied
    to it. *)

From S2P Require Import Prelude PageAllocator Pmm BlockDevice Block Sfs Vfs VfsProps Executable Mmu AddressSpace Task User Scheduler SchedulerProps Syscall UserMemory Steps SyscallProps SyscallFiles.

#[local] Existing Instance code0.
#[local] Existing Instance layout0.
#[local] Existing Instance layout0_ok.

(** Task 1 has entered EL0. *)
Definition sys0 : sys := run_ops (take 5 child_asleep).
Definition kernel0 : kernel (block unit) := Kernel sys0 vfs2 (Pmm [] 0) stats0 random_seed [].
(** The path of the file is in the program's data page, and the program opens it. *)
Definition kernel1 : kernel (block unit) := (store_bytes kernel_table0 0x200100 file_f kernel0).2.
Definition opened : reply * kernel (block unit) := syscall_dispatch kernel_table0 10 SYSCALL_OPEN 0x200100 4 0 0 kernel1.
Definition kernel2 : kernel (block unit) := opened.2.

Lemma sys0_inv : sched_inv sys0.
Proof. apply state0_inv. allowed. Qed.

#[local] Opaque sys0 vfs2 kernel_table0.

Example open_result : opened.1 = Done 3.
Proof. vm_compute. reflexivity. Qed.

(** Decidable versions of the parts of the invariants. *)
Definition file_okb (f : task_file) : bool :=
  (length (file_path f) =? 48)%nat && bool_decide (file_path f !! 47%nat = Some 0) && (0 <=? file_offset f) && (file_offset f <? 2 ^ 64).
Definition files_okb (t : task) : bool := (length (t_files t) =? 4)%nat && forallb file_okb (t_files t).

Lemma files_okb_spec s : forallb files_okb (tasks s) = true -> all_files s.
Proof.
  intros Hb. apply Forall_forall. intros t Ht. rewrite forallb_forall in Hb. apply list_elem_of_In in Ht. specialize (Hb t Ht).
  unfold files_okb in Hb. apply andb_true_iff in Hb as [Hl%Nat.eqb_eq Hf]. split; [done|]. apply Forall_forall. intros f Hin.
  rewrite forallb_forall in Hf. apply list_elem_of_In in Hin. specialize (Hf f Hin). unfold file_okb in Hf.
  rewrite !andb_true_iff, Z.leb_le, Z.ltb_lt, Nat.eqb_eq, bool_decide_eq_true in Hf. by destruct Hf as [[[? ?] ?] ?].
Qed.

Lemma kernel0_inv : kernel_inv kernel0.
Proof.
  split; [exact sys0_inv|exact vfs2_inv|]. apply files_okb_spec. vm_compute. reflexivity.
Qed.

Definition pages_okb (st : as_state) : bool :=
  forallb (fun ps => (length ps =? 3)%nat && forallb (fun p => (length p =? 4096)%nat) ps) (user_region_pages st).
Lemma as_wf_okb st : map length [user_l1_tables st; user_l2_tables st] = [4; 4]%nat -> length (user_l3_tables st) = 4%nat ->
  length (user_region_pages st) = 4%nat -> length (user_table_slots_used st) = 4%nat -> pages_okb st = true -> as_wf st.
Proof.
  intros [= H1 H2] H3 H4 H5 Hb. split; try done. intros slot ps Hps. unfold pages_okb in Hb. rewrite forallb_forall in Hb.
  apply list_elem_of_lookup_2, list_elem_of_In, Hb in Hps. apply andb_true_iff in Hps as [Hl%Nat.eqb_eq Hf]. split; [done|].
  apply Forall_forall. intros p Hp. rewrite forallb_forall in Hf. apply list_elem_of_In, Hf, Nat.eqb_eq in Hp. done.
Qed.

Lemma sys0_slot : under_slot kernel_table0 0x40090000 0 sys0.
Proof.
  split; [lia|vm_compute; reflexivity|split; vm_compute; reflexivity|]. apply as_wf_okb; vm_compute; reflexivity.
Qed.

Definition space0 : address_space := default blank_space (syscall_address_space sys0).

Lemma sys0_caller : caller kernel_table0 0x40090000 0 space0 sys0.
Proof.
  split; [exact sys0_slot| |vm_compute; reflexivity|vm_compute; reflexivity].
  assert (bool_decide (is_Some (syscall_address_space sys0)) = true) as Hs by (vm_compute; reflexivity).
  apply bool_decide_eq_true in Hs as [sp Hsp]. unfold space0. by rewrite Hsp.
Qed.

Lemma kernel1_isolated : isolated kernel_table0 0x40090000 0 space0 sys0 kernel1.
Proof.
  refine (isolated_store kernel_table0 0x40090000 kernel_map0_ok 0 space0 sys0 0x200100 file_f 4 kernel0
    (isolated_start kernel_table0 0x40090000 0 space0 kernel0 kernel0_inv sys0_caller) _ _ _).
  - unfold is_u64. lia.
  - change (Z.of_nat (length file_f)) with 4. lia.
  - vm_compute. reflexivity.
Qed.

Lemma plain_open : plain SYSCALL_OPEN.
Proof. by split_and!. Qed.

Lemma small_u64 z : (0 <=? z) && (z <? 2 ^ 64) = true -> is_u64 z.
Proof. intros [? ?]%andb_true_iff. unfold is_u64. lia. Qed.

Lemma kernel2_isolated : isolated kernel_table0 0x40090000 0 space0 (ksys kernel1) kernel2.
Proof.
  exact (dispatch_isolated kernel_table0 10 0x40090000 kernel_map0_ok 0 space0 SYSCALL_OPEN 0x200100 4 0 0 kernel1
    (proj1 kernel1_isolated) (proj1 (proj2 kernel1_isolated)) plain_open (small_u64 0x200100 eq_refl) (small_u64 4 eq_refl)
    (small_u64 0 eq_refl) (small_u64 0 eq_refl)).
Qed.

Ltac is_mapped := repeat split; first [lia | vm_compute; discriminate].

(** The program's view of the file it opened. *)
Definition view0 : view := View [1; 2; 3; 4] 0 (fun i => region_page 0 i (spaces (ksys kernel2))).

Lemma kernel2_implements : implements kernel_table0 0x40090000 0 space0 3 file_f view0 kernel2.
Proof.
  split; [exact (proj1 kernel2_isolated)|exact (proj1 (proj2 kernel2_isolated))| |vm_compute; reflexivity..| |intros i _; reflexivity].
  - assert (option_map (fun '(t, slot, f) => (slot, cstr (file_path f), file_offset f)) (descriptor 3 kernel2) = Some (0, file_f, 0)) as Hd
      by (vm_compute; reflexivity).
    destruct (descriptor 3 kernel2) as [[[t slot] f]|] eqn:E; [|done]. cbn in Hd. injection Hd as -> Hp Ho.
    exists t, f. exact (conj E (conj Hp Ho)).
  - cbn. lia.
Qed.

Lemma dispatch_invariant_witness : kernel_inv (syscall_dispatch kernel_table0 10 SYSCALL_SPAWN 0x200100 4 0 0 kernel1).2.
Proof.
  refine (proj1 (proj1 (dispatch_invariant kernel_table0 10 kernel1 (proj1 kernel1_isolated) _) SYSCALL_SPAWN 0x200100 4 0 0 _ _ _ _));
    [vm_compute; discriminate|by apply small_u64..].
Defined.

Lemma dispatch_counts_witness : counters (kstats kernel2) = (1, 1, 0).
Proof.
  pose proof (proj1 (dispatch_counts kernel_table0 10 kernel1 (proj1 kernel1_isolated)) SYSCALL_OPEN 0x200100 4 0 0
    (small_u64 0x200100 eq_refl) (small_u64 4 eq_refl) (small_u64 0 eq_refl) (small_u64 0 eq_refl)) as Hc.
  cbv zeta in Hc. fold opened in Hc. rewrite open_result in Hc. unfold kernel2. rewrite Hc. vm_compute. reflexivity.
Defined.

Lemma call_isolated_witness : untouched 0 (ksys kernel1) (ksys kernel2).
Proof.
  exact (call_isolated kernel_table0 10 0x40090000 kernel_map0_ok 0 space0 SYSCALL_OPEN 0x200100 4 0 0 kernel1
    (proj1 kernel1_isolated) (proj1 (proj2 kernel1_isolated)) plain_open (small_u64 0x200100 eq_refl) (small_u64 4 eq_refl)
    (small_u64 0 eq_refl) (small_u64 0 eq_refl)).
Defined.

(** Two bytes of the path are written over the file's, then the whole file is read. *)
Definition calls0 : list file_op := [WriteFrom 1 0x200101 2; SeekTo 0; ReadInto 2 0x3fff0010 9].

Lemma file_calls_refine_witness :
  exists k', exec_calls kernel_table0 10 3 calls0 kernel2 = Some ([2; 0; 4], k') /\ contents k' file_f = Some [100; 47; 3; 4].
Proof.
  destruct (file_calls_refine kernel_table0 10 0x40090000 kernel_map0_ok 0 space0 3 file_f calls0 view0 kernel2) as (k' & E & Him);
    [exact kernel2_implements| |].
  - vm_compute. split_and!; congruence || lia.
  - assert ((exec_view calls0 view0).1 = [2; 0; 4] /\ v_contents (exec_view calls0 view0).2 = [100; 47; 3; 4]) as [E1 E2]
      by (split; vm_compute; reflexivity).
    exists k'. rewrite E, E1. split; [done|]. destruct Him as [_ _ _ _ Hc _ _]. by rewrite Hc, E2.
Defined.

Lemma file_roundtrip_witness :
  exists k', exec_calls kernel_table0 10 3 [WriteFrom 1 0x200100 4; SeekTo 0; ReadInto 2 0x3fff0010 4] kernel2 = Some ([4; 0; 4], k') /\
    load_bytes kernel_table0 4 0x3fff0010 (ksys k') = Some file_f.
Proof.
  destruct (file_roundtrip kernel_table0 10 0x40090000 kernel_map0_ok 0 space0 3 file_f view0 1 0x200100 2 0x3fff0010 4 kernel2)
    as (k' & E & Hl); [exact kernel2_implements|done|is_mapped|is_mapped|done|vm_compute; discriminate|].
  exists k'. split; [exact E|]. change (Z.to_nat 4) with 4%nat in Hl. rewrite Hl. vm_compute. reflexivity.
Defined.
