(* ===== verification/Vm.v ===== *)
(** * The kernel's address map ([kernel/memory/vm.c])

    Building, validating and switching on the kernel's translation tables: one level-1
    table, up to four level-2 tables, and a level-3 table for the 2 MiB block that holds
    the kernel image, where each page gets its section's permissions and the guard pages
    of the stacks stay unmapped. The addresses of the sections and of the tables come
    from the linker (class [VmLayout]). The dump functions are in [Reports]. *)

From S2P Require Import Prelude Mmu AddressSpace Task Scheduler.

(** ** Definitions *)

Definition VM_L2_TABLE_CAPACITY : Z := 4.
Definition VM_UART_BASE : Z := 0x09000000.
Definition VM_UART_END : Z := 0x09001000.
Definition VM_GIC_BASE : Z := 0x08000000.
Definition VM_GIC_END : Z := 0x08020000.
Definition VM_FW_CFG_BASE : Z := 0x09020000.
Definition VM_FW_CFG_END : Z := 0x09021000.
Definition VM_VIRTIO_MMIO_BASE : Z := 0x0a000000.
Definition VM_VIRTIO_MMIO_END : Z := 0x0a004000.
Definition VM_DEVICE_MMIO_END : Z := 0x0a200000.
Definition VM_RAMFB_CONTROL_BASE : Z := 0x46ffe000.
Definition VM_FRAMEBUFFER_BASE : Z := 0x47000000.
Definition VM_FRAMEBUFFER_END : Z := 0x4712c000.
Definition VM_KERNEL_L3_BASE : Z := 0x40000000.
Definition VM_KERNEL_L3_END : Z := VM_KERNEL_L3_BASE + ARM64_L2_BLOCK_SIZE.
Definition VM_NORMAL_XN_MEMORY_ATTR : Z := Z.lor (Z.lor ARM64_NORMAL_MEMORY_ATTR ARM64_DESC_PXN) ARM64_DESC_UXN.
Definition VM_NORMAL_RO_XN_MEMORY_ATTR : Z :=
  Z.lor (Z.lor (Z.lor (Z.land ARM64_NORMAL_MEMORY_ATTR (~! ARM64_DESC_AP_MASK)) ARM64_DESC_AP_RO_EL1) ARM64_DESC_PXN) ARM64_DESC_UXN.
Definition VM_NORMAL_RO_EXEC_MEMORY_ATTR : Z :=
  Z.lor (Z.land ARM64_NORMAL_MEMORY_ATTR (~! ARM64_DESC_AP_MASK)) ARM64_DESC_AP_RO_EL1.

Record vm_region := VmRegion {
  vr_name : list Z; virtual_start : Z; physical_start : Z; vr_size : Z; attributes : Z; vr_type : list Z;
}.
Record vm_l2_table_slot := L2Slot { slot_l1_index : Z; slot_used : Z }.
Record vm_named_region := NamedRegion { nr_name : list Z; nr_start : Z; nr_end : Z }.
Record vm_permission_goal := Goal_ { g_name : list Z; g_start : Z; g_end : Z; want_xn : Z; want_ro : Z }.

Definition vm_regions : list vm_region :=
  [VmRegion (lit "mmio") 0x08000000 0x08000000 (VM_DEVICE_MMIO_END - 0x08000000) ARM64_DEVICE_MEMORY_ATTR (lit "device");
   VmRegion (lit "ram") 0x40000000 0x40000000 0x08000000 VM_NORMAL_XN_MEMORY_ATTR (lit "normal")].

(** Addresses the linker assigns. *)
Class VmLayout := {
  kernel_start : Z; kernel_end : Z;
  text_start : Z; text_end : Z; rodata_start : Z; rodata_end : Z;
  data_start : Z; data_end : Z; bss_start : Z; bss_end : Z;
  vm_l1_address : Z;
  vm_l2_addresses : Z;
  vm_l3_address : Z;
}.

(** The static counters. *)
Record vm_counts := VmCounts {
  vm_blocks_mapped : Z; vm_pages_mapped : Z; vm_guard_pages : Z;
  vm_blocks_validated : Z; vm_pages_validated : Z; vm_guard_pages_validated : Z;
  vm_validation_error_count : Z;
  vm_exec_blocks : Z; vm_xn_blocks : Z; vm_exec_pages : Z; vm_xn_pages : Z; vm_bytes_mapped : Z;
}.
Record vm := VmState {
  vm_l1_table : list Z;
  vm_l2_tables : list (list Z);
  vm_kernel_l3_table : list Z;
  vm_l2_slots : list vm_l2_table_slot;
  vm_ready : Z;
  vm_tables_built : Z;
  vm_validated : Z;
  vm_enable_attempted : Z;
  vm_kernel_l3_mapped : Z;
  vm_used_l2_tables : Z;
  counts : vm_counts;
}.

Definition set_counts (c : vm_counts) (v : vm) : vm :=
  VmState (vm_l1_table v) (vm_l2_tables v) (vm_kernel_l3_table v) (vm_l2_slots v) (vm_ready v) (vm_tables_built v)
    (vm_validated v) (vm_enable_attempted v) (vm_kernel_l3_mapped v) (vm_used_l2_tables v) c.
Definition set_l2_entry (slot : nat) (index d : Z) (v : vm) : vm :=
  VmState (vm_l1_table v) (alter (fun t => <[Z.to_nat index := d]> t) slot (vm_l2_tables v)) (vm_kernel_l3_table v)
    (vm_l2_slots v) (vm_ready v) (vm_tables_built v) (vm_validated v) (vm_enable_attempted v) (vm_kernel_l3_mapped v)
    (vm_used_l2_tables v) (counts v).
Definition set_l3 (table : list Z) (mapped : Z) (v : vm) : vm :=
  VmState (vm_l1_table v) (vm_l2_tables v) table (vm_l2_slots v) (vm_ready v) (vm_tables_built v)
    (vm_validated v) (vm_enable_attempted v) mapped (vm_used_l2_tables v) (counts v).
Definition set_status (ready built validated attempted : Z) (v : vm) : vm :=
  VmState (vm_l1_table v) (vm_l2_tables v) (vm_kernel_l3_table v) (vm_l2_slots v) ready built validated attempted
    (vm_kernel_l3_mapped v) (vm_used_l2_tables v) (counts v).

(** A block more ([n = 1]) or less ([n = -1]), with its size. *)
Definition count_block (xn : bool) (n : Z) (c : vm_counts) : vm_counts :=
  VmCounts (vm_blocks_mapped c +! n) (vm_pages_mapped c) (vm_guard_pages c) (vm_blocks_validated c) (vm_pages_validated c)
    (vm_guard_pages_validated c) (vm_validation_error_count c) (if xn then vm_exec_blocks c else vm_exec_blocks c +! n)
    (if xn then vm_xn_blocks c +! n else vm_xn_blocks c) (vm_exec_pages c) (vm_xn_pages c)
    (vm_bytes_mapped c +! (n * ARM64_L2_BLOCK_SIZE)).
Definition count_page (xn : bool) (c : vm_counts) : vm_counts :=
  VmCounts (vm_blocks_mapped c) (vm_pages_mapped c +! 1) (vm_guard_pages c) (vm_blocks_validated c) (vm_pages_validated c)
    (vm_guard_pages_validated c) (vm_validation_error_count c) (vm_exec_blocks c) (vm_xn_blocks c)
    (if xn then vm_exec_pages c else vm_exec_pages c +! 1) (if xn then vm_xn_pages c +! 1 else vm_xn_pages c)
    (vm_bytes_mapped c +! ARM64_PAGE_SIZE).
Definition count_guard (c : vm_counts) : vm_counts :=
  VmCounts (vm_blocks_mapped c) (vm_pages_mapped c) (vm_guard_pages c +! 1) (vm_blocks_validated c) (vm_pages_validated c)
    (vm_guard_pages_validated c) (vm_validation_error_count c) (vm_exec_blocks c) (vm_xn_blocks c) (vm_exec_pages c)
    (vm_xn_pages c) (vm_bytes_mapped c).
Definition count_validated (blocks pages guards : Z) (c : vm_counts) : vm_counts :=
  VmCounts (vm_blocks_mapped c) (vm_pages_mapped c) (vm_guard_pages c) (vm_blocks_validated c +! blocks)
    (vm_pages_validated c +! pages) (vm_guard_pages_validated c +! guards) (vm_validation_error_count c) (vm_exec_blocks c)
    (vm_xn_blocks c) (vm_exec_pages c) (vm_xn_pages c) (vm_bytes_mapped c).
(** [validation_error()]. *)
Definition validation_error (v : vm) : vm :=
  let c := counts v in
  set_counts (VmCounts (vm_blocks_mapped c) (vm_pages_mapped c) (vm_guard_pages c) (vm_blocks_validated c) (vm_pages_validated c)
    (vm_guard_pages_validated c) (vm_validation_error_count c +! 1) (vm_exec_blocks c) (vm_xn_blocks c) (vm_exec_pages c)
    (vm_xn_pages c) (vm_bytes_mapped c)) v.

Definition clear_table : list Z := replicate (Z.to_nat ARM64_TABLE_ENTRIES) 0.
Definition align_down (value size : Z) : Z := Z.land value (~! (size -! 1)).
Definition align_up (value size : Z) : Z := Z.land (value +! size -! 1) (~! (size -! 1)).
Definition address_in_range (address start end_ : Z) : bool := (address >=? start) && (address <? end_).
Definition vm_region_count : Z := 2.

Section ops.
Context `{CodeLayout} `{VmLayout}.

Definition vm_named_regions : list vm_named_region :=
  [NamedRegion (lit "gic") VM_GIC_BASE VM_GIC_END; NamedRegion (lit "uart") VM_UART_BASE VM_UART_END;
   NamedRegion (lit "fw_cfg") VM_FW_CFG_BASE VM_FW_CFG_END;
   NamedRegion (lit "virtio-mmio") VM_VIRTIO_MMIO_BASE VM_VIRTIO_MMIO_END;
   NamedRegion (lit "kernel-text") text_start text_end; NamedRegion (lit "kernel-rodata") rodata_start rodata_end;
   NamedRegion (lit "kernel-data") data_start data_end; NamedRegion (lit "kernel-bss") bss_start bss_end;
   NamedRegion (lit "kernel") kernel_start kernel_end;
   NamedRegion (lit "ramfb-control") VM_RAMFB_CONTROL_BASE VM_FRAMEBUFFER_BASE;
   NamedRegion (lit "framebuffer") VM_FRAMEBUFFER_BASE VM_FRAMEBUFFER_END].

Definition vm_permission_goals : list vm_permission_goal :=
  [Goal_ (lit "text") text_start text_end 0 1; Goal_ (lit "rodata") rodata_start rodata_end 1 1;
   Goal_ (lit "data") data_start data_end 1 0; Goal_ (lit "bss") bss_start bss_end 1 0;
   Goal_ (lit "mmio") 0x08000000 VM_DEVICE_MMIO_END 1 0].

Definition address_in_kernel_text (address : Z) : bool :=
  address_in_range address (align_down text_start ARM64_PAGE_SIZE) (align_up text_end ARM64_PAGE_SIZE).
Definition address_in_kernel_rodata (address : Z) : bool :=
  address_in_range address (align_down rodata_start ARM64_PAGE_SIZE) (align_up rodata_end ARM64_PAGE_SIZE).
Definition kernel_page_attributes (address : Z) : Z :=
  if address_in_kernel_text address then VM_NORMAL_RO_EXEC_MEMORY_ATTR
  else if address_in_kernel_rodata address then VM_NORMAL_RO_XN_MEMORY_ATTR
  else VM_NORMAL_XN_MEMORY_ATTR.
Definition vm_address_is_guard_page (address : Z) : bool := scheduler_address_is_stack_guard address.

(** The address of a level-2 table. *)
Definition vm_l2_address (slot : Z) : Z := vm_l2_addresses + slot * ARM64_TABLE_SIZE.

(** The slot of the level-2 table for an entry of the level-1 table. *)
Definition find_l2_table (l1_index : Z) (v : vm) : option nat :=
  fst <$> list_find (fun s => truth (slot_used s) && (slot_l1_index s =? l1_index) = true)
            (take (Z.to_nat (vm_used_l2_tables v)) (vm_l2_slots v)).

Definition get_l2_table (l1_index : Z) (v : vm) : option (nat * vm) :=
  match find_l2_table l1_index v with
  | Some slot => Some (slot, v)
  | None =>
      if vm_used_l2_tables v >=? VM_L2_TABLE_CAPACITY then None else
      let slot := vm_used_l2_tables v in
      Some (Z.to_nat slot,
            VmState (<[Z.to_nat l1_index := arm64_mmu_table_desc (vm_l2_address slot)]> (vm_l1_table v))
              (<[Z.to_nat slot := clear_table]> (vm_l2_tables v)) (vm_kernel_l3_table v)
              (<[Z.to_nat slot := L2Slot l1_index 1]> (vm_l2_slots v)) (vm_ready v) (vm_tables_built v) (vm_validated v)
              (vm_enable_attempted v) (vm_kernel_l3_mapped v) (slot +! 1) (counts v))
  end.

Definition region_is_l2_aligned (r : vm_region) : bool :=
  (Z.land (virtual_start r) (ARM64_L2_BLOCK_SIZE - 1) =? 0) && (Z.land (physical_start r) (ARM64_L2_BLOCK_SIZE - 1) =? 0) &&
  (Z.land (vr_size r) (ARM64_L2_BLOCK_SIZE - 1) =? 0).

(** The loop of [map_region]; [None] when the fuel runs out. *)
Fixpoint map_loop (fuel : nat) (attr va pa remaining : Z) (v : vm) : option (Z * vm) :=
  if remaining >? 0 then
    match fuel with
    | O => None
    | S fuel =>
        match get_l2_table (arm64_mmu_l1_index va) v with
        | None => Some (0, v)
        | Some (slot, v) =>
            let d := arm64_mmu_l2_block_desc pa attr in
            let v := set_l2_entry slot (arm64_mmu_l2_index va) d v in
            let v := set_counts (count_block (arm64_mmu_desc_is_execute_never d) 1 (counts v)) v in
            map_loop fuel attr (va +! ARM64_L2_BLOCK_SIZE) (pa +! ARM64_L2_BLOCK_SIZE) (remaining -! ARM64_L2_BLOCK_SIZE) v
        end
    end
  else Some (1, v).
Definition map_region (r : vm_region) (v : vm) : option (Z * vm) :=
  if negb (region_is_l2_aligned r) then Some (0, v) else
  map_loop (Z.to_nat (vr_size r / ARM64_L2_BLOCK_SIZE)) (attributes r) (virtual_start r) (physical_start r) (vr_size r) v.

(** One page of the kernel's block. *)
Definition map_page (acc : list Z * vm_counts) (i : Z) : list Z * vm_counts :=
  let (table, c) := acc in
  let address := VM_KERNEL_L3_BASE +! (i *! ARM64_PAGE_SIZE) in
  if vm_address_is_guard_page address then (table, count_guard c) else
  let d := arm64_mmu_l3_page_desc address (kernel_page_attributes address) in
  (<[Z.to_nat i := d]> table, count_page (arm64_mmu_desc_is_execute_never d) c).

Definition map_kernel_l3_block (v : vm) : Z * vm :=
  let l2_index := arm64_mmu_l2_index VM_KERNEL_L3_BASE in
  match get_l2_table (arm64_mmu_l1_index VM_KERNEL_L3_BASE) v with
  | None => (0, v)
  | Some (slot, v) =>
      let (table, c) := foldl map_page (clear_table, counts v) (seqZ 0 ARM64_TABLE_ENTRIES) in
      let old := entry (default [] (vm_l2_tables v !! slot)) l2_index in
      let c := if arm64_mmu_desc_is_l2_block old
               then count_block (arm64_mmu_desc_is_execute_never old) (-1) c else c in
      let v := set_counts c (set_l3 table 1 v) in
      (1, set_l2_entry slot l2_index (arm64_mmu_table_desc vm_l3_address) v)
  end.

Definition no_counts : vm_counts := VmCounts 0 0 0 0 0 0 0 0 0 0 0 0.
(** The assignments at the start of [build_tables]. *)
Definition cleared (v : vm) : vm :=
  VmState clear_table ((fun _ => clear_table) <$> vm_l2_tables v) clear_table ((fun _ => L2Slot 0 0) <$> vm_l2_slots v)
    (vm_ready v) (vm_tables_built v) (vm_validated v) (vm_enable_attempted v) 0 0 no_counts.
(** The loop over the regions. *)
Fixpoint map_regions (rs : list vm_region) (v : vm) : option (Z * vm) :=
  match rs with
  | [] => Some (1, v)
  | r :: rs => '(ok, v) ← map_region r v; if negb (truth ok) then Some (0, v) else map_regions rs v
  end.
Definition build_tables (v : vm) : option (Z * vm) :=
  '(ok, v) ← map_regions vm_regions (cleared v);
  if negb (truth ok) then Some (0, v) else
  let (ok, v) := map_kernel_l3_block v in
  if negb (truth ok) then Some (0, v) else Some (1, v).

(** The table at an address, among those of the kernel. *)
Definition vm_table_at (v : vm) (a : Z) : list Z :=
  if a =? vm_l1_address then vm_l1_table v
  else if a =? vm_l3_address then vm_kernel_l3_table v
  else if (vm_l2_addresses <=? a) && (a <? vm_l2_addresses + VM_L2_TABLE_CAPACITY * ARM64_TABLE_SIZE)
       then default [] (vm_l2_tables v !! Z.to_nat ((a - vm_l2_addresses) / ARM64_TABLE_SIZE))
  else [].

(** The physical address, the descriptor and the level; [None] for 0. *)
Definition translation_for_address (v : vm) (address : Z) : option (Z * Z * Z) :=
  let l1_index := arm64_mmu_l1_index address in
  let l2_index := arm64_mmu_l2_index address in
  let l3_index := arm64_mmu_l3_index address in
  let l2_offset := Z.land address (ARM64_L2_BLOCK_SIZE - 1) in
  let l3_offset := Z.land address (ARM64_PAGE_SIZE - 1) in
  if negb (arm64_mmu_desc_is_table (entry (vm_l1_table v) l1_index)) then None else
  match find_l2_table l1_index v with
  | None => None
  | Some slot =>
      let d2 := entry (default [] (vm_l2_tables v !! slot)) l2_index in
      if arm64_mmu_desc_is_l2_block d2 then Some (arm64_mmu_l2_block_address d2 +! l2_offset, d2, 2) else
      if negb (arm64_mmu_desc_is_table d2) then None else
      let d3 := entry (vm_table_at v (arm64_mmu_desc_address d2)) l3_index in
      if negb (arm64_mmu_desc_is_l3_page d3) then None else
      Some (arm64_mmu_l3_page_address d3 +! l3_offset, d3, 3)
  end.

(** The loop of [validate_region]; [None] when the fuel runs out. *)
Fixpoint validate_loop (fuel : nat) (va pa remaining : Z) (v : vm) : option (Z * vm) :=
  if remaining >? 0 then
    match fuel with
    | O => None
    | S fuel =>
        if vm_address_is_guard_page va then
          if bool_decide (is_Some (translation_for_address v va)) then Some (0, validation_error v) else
          validate_loop fuel (va +! ARM64_PAGE_SIZE) (pa +! ARM64_PAGE_SIZE) (remaining -! ARM64_PAGE_SIZE)
            (set_counts (count_validated 0 0 1 (counts v)) v)
        else
        match translation_for_address v va with
        | None => Some (0, validation_error v)
        | Some (physical, _, level) =>
            if negb (physical =? pa) then Some (0, validation_error v) else
            let step := if level =? 2 then ARM64_L2_BLOCK_SIZE else ARM64_PAGE_SIZE in
            let c := if level =? 2 then count_validated 1 0 0 (counts v) else count_validated 0 1 0 (counts v) in
            validate_loop fuel (va +! step) (pa +! step) (remaining -! step) (set_counts c v)
        end
    end
  else Some (1, v).
Definition validate_region (r : vm_region) (v : vm) : option (Z * vm) :=
  if negb (region_is_l2_aligned r) then Some (0, validation_error v) else
  validate_loop (Z.to_nat (vr_size r / ARM64_PAGE_SIZE)) (virtual_start r) (physical_start r) (vr_size r) v.
Fixpoint validate_regions (rs : list vm_region) (v : vm) : option (Z * vm) :=
  match rs with
  | [] => Some (1, v)
  | r :: rs => '(ok, v) ← validate_region r v; if negb (truth ok) then Some (0, v) else validate_regions rs v
  end.

Definition aligned_table (a : Z) : bool := Z.land a (ARM64_TABLE_SIZE - 1) =? 0.
Definition validate_tables (v : vm) : option (Z * vm) :=
  let c := counts v in
  let v := set_counts (VmCounts (vm_blocks_mapped c) (vm_pages_mapped c) (vm_guard_pages c) 0 0
    (vm_guard_pages_validated c) 0 (vm_exec_blocks c) (vm_xn_blocks c) (vm_exec_pages c) (vm_xn_pages c) (vm_bytes_mapped c)) v in
  if negb (aligned_table vm_l1_address) then Some (0, validation_error v) else
  if negb (forallb (fun slot => aligned_table (vm_l2_address slot)) (seqZ 0 (vm_used_l2_tables v))) then Some (0, validation_error v) else
  if truth (vm_kernel_l3_mapped v) && negb (aligned_table vm_l3_address) then Some (0, validation_error v) else
  '(ok, v) ← validate_regions vm_regions v;
  if negb (truth ok) then Some (0, v) else
  let c := counts v in
  if negb (vm_blocks_validated c =? vm_blocks_mapped c) then Some (0, validation_error v) else
  if negb (vm_pages_validated c =? vm_pages_mapped c) then Some (0, validation_error v) else
  if negb (vm_guard_pages_validated c =? vm_guard_pages c) then Some (0, validation_error v) else Some (1, v).

Definition vm_root_table : Z := vm_l1_address.

(** The state and the translation registers after; [None] when a loop ran out of fuel. *)
Definition vm_init (v : vm) (r : mmu_regs) : option (vm * mmu_regs) :=
  '(built, v) ← build_tables v;
  let v := set_status 0 built 0 (vm_enable_attempted v) v in
  v ← (if truth built then '(ok, v) ← validate_tables v; Some (set_status ok built ok (vm_enable_attempted v) v)
       else Some v);
  if truth (vm_ready v)
  then Some (set_status (vm_ready v) (vm_tables_built v) (vm_validated v) 1 v, arm64_mmu_enable vm_root_table r)
  else Some (v, r).

Definition vm_mmu_enabled (r : mmu_regs) : bool := arm64_mmu_is_enabled r.
Definition vm_state (v : vm) (r : mmu_regs) : list Z :=
  if negb (truth (vm_ready v)) then lit "not initialized" else arm64_mmu_state r.
Definition vm_table_state (v : vm) : list Z := if truth (vm_tables_built v) then lit "built" else lit "error".
Definition vm_validation_state (v : vm) : list Z := if truth (vm_validated v) then lit "ok" else lit "failed".
Definition vm_table_count (v : vm) : Z :=
  if negb (truth (vm_tables_built v)) then 0
  else 1 +! vm_used_l2_tables v +! (if truth (vm_kernel_l3_mapped v) then 1 else 0).
Definition vm_mapped_blocks (v : vm) : Z := vm_blocks_mapped (counts v).
Definition vm_validated_blocks (v : vm) : Z := vm_blocks_validated (counts v).
Definition vm_validation_errors (v : vm) : Z := vm_validation_error_count (counts v).
Definition vm_executable_blocks (v : vm) : Z := vm_exec_blocks (counts v).
Definition vm_execute_never_blocks (v : vm) : Z := vm_xn_blocks (counts v).
Definition vm_mapped_bytes (v : vm) : Z := vm_bytes_mapped (counts v).

(** [heap_start] and [heap_end] are the heap's region. *)
Definition vm_region_name_for_address (heap_start heap_end address : Z) : list Z :=
  if negb (heap_start =? heap_end) && (address >=? heap_start) && (address <? heap_end) then lit "heap" else
  if scheduler_address_is_stack_guard address then lit "stack-guard" else
  if (address >=? scheduler_stack_region_start) && (address <? scheduler_stack_region_end) then lit "scheduler-stacks" else
  match List.find (fun r => (address >=? nr_start r) && (address <? nr_end r)) vm_named_regions with
  | Some r => nr_name r
  | None =>
      match List.find (fun r => (address >=? virtual_start r) && (address <? virtual_start r +! vr_size r)) vm_regions with
      | Some r => vr_name r
      | None => lit "gap"
      end
  end.

(** The physical address, or [None] for 0. *)
Definition vm_walk_address (v : vm) (address : Z) : option Z := (fun '(pa, _, _) => pa) <$> translation_for_address v address.

(** *** Permissions of a range *)

(** The descriptor at an address and the start of what follows it, at most [end_]. *)
Definition next_descriptor_in_range (v : vm) (address end_ : Z) : option (Z * Z) :=
  '(_, d, level) ← translation_for_address v address;
  let step := if level =? 2 then ARM64_L2_BLOCK_SIZE else ARM64_PAGE_SIZE in
  let address := align_down address step +! step in
  Some (d, if address >? end_ then end_ else address).

(** What the loops over a range find: [test] tells the two kinds of descriptor apart.
    [None] when the fuel runs out. *)
Inductive seen := SeenNone | SeenYes | SeenNo | SeenBoth | SeenUnmapped.
Fixpoint range_loop (test : Z -> bool) (fuel : nat) (v : vm) (address end_ : Z) (yes no : bool) : option seen :=
  if address <? end_ then
    match fuel with
    | O => None
    | S fuel =>
        if vm_address_is_guard_page address then range_loop test fuel v (address +! ARM64_PAGE_SIZE) end_ yes no else
        match next_descriptor_in_range v address end_ with
        | None => Some SeenUnmapped
        | Some (d, address) =>
            let yes := yes || test d in
            let no := no || negb (test d) in
            if yes && no then Some SeenBoth else range_loop test fuel v address end_ yes no
        end
    end
  else Some (if yes then SeenYes else if negb no then SeenNone else SeenNo).

(** The pages a range touches bound the number of rounds. *)
Definition range_fuel (start end_ : Z) : nat := Z.to_nat ((end_ - start) / ARM64_PAGE_SIZE + 2).

Definition vm_actual_execute_permission_for_range (v : vm) (start end_ : Z) : option (list Z) :=
  if start >=? end_ then Some (lit "empty") else
  s ← range_loop arm64_mmu_desc_is_execute_never (range_fuel start end_) v (align_down start ARM64_PAGE_SIZE) end_ false false;
  Some (match s with
        | SeenUnmapped | SeenNone => lit "unmapped" | SeenBoth => lit "mixed" | SeenYes => lit "xn" | SeenNo => lit "exec"
        end).
Definition vm_actual_write_permission_for_range (v : vm) (start end_ : Z) : option (list Z) :=
  if start >=? end_ then Some (lit "empty") else
  s ← range_loop arm64_mmu_desc_is_read_only (range_fuel start end_) v (align_down start ARM64_PAGE_SIZE) end_ false false;
  Some (match s with
        | SeenUnmapped | SeenNone => lit "unmapped" | SeenBoth => lit "mixed" | SeenYes => lit "ro" | SeenNo => lit "rw"
        end).

Definition vm_desired_permission (want : Z) : list Z := if truth want then lit "xn" else lit "exec".
Definition vm_desired_write_permission (want : Z) : list Z := if truth want then lit "ro" else lit "rw".

(** Comparisons of characters of the answers above. *)
Definition is_chr (s : list Z) (k : nat) (c : list Z) : bool := chr s k =? chr c 0.

Definition vm_execute_permission_status (v : vm) (g : vm_permission_goal) : option (list Z) :=
  actual ← vm_actual_execute_permission_for_range v (g_start g) (g_end g);
  Some (if is_chr actual 0 (lit "e") && is_chr actual 1 (lit "m") then lit "empty" else
        if is_chr actual 0 (lit "u") then lit "unmapped" else
        if is_chr actual 0 (lit "m") then lit "mixed" else
        if truth (want_xn g) then (if is_chr actual 0 (lit "x") then lit "enforced" else lit "pending-l3") else
        if is_chr actual 0 (lit "e") then lit "enforced" else lit "too-strict").
Definition vm_write_permission_status (v : vm) (g : vm_permission_goal) : option (list Z) :=
  actual ← vm_actual_write_permission_for_range v (g_start g) (g_end g);
  Some (if is_chr actual 0 (lit "e") then lit "empty" else
        if is_chr actual 0 (lit "u") then lit "unmapped" else
        if is_chr actual 0 (lit "m") then lit "mixed" else
        if truth (want_ro g) then (if is_chr actual 0 (lit "r") && is_chr actual 1 (lit "o") then lit "enforced" else lit "writable") else
        if is_chr actual 0 (lit "r") && is_chr actual 1 (lit "w") then lit "enforced" else lit "too-strict").

(** The pages of a guard, and whether one of them translates. *)
Definition vm_stack_guard_state (v : vm) : list Z :=
  if existsb (fun i => existsb (fun k => bool_decide (is_Some (translation_for_address v (scheduler_stack_guard_start i +! k * ARM64_PAGE_SIZE))))
                         (seqZ 0 (SCHED_STACK_GUARD_SIZE / ARM64_PAGE_SIZE)))
             (seqZ 0 (scheduler_stack_count + 1))
  then lit "mapped" else lit "unmapped".

Definition range_overlaps_kernel_l3_block (v : vm) (start end_ : Z) : bool :=
  truth (vm_kernel_l3_mapped v) && (start <? VM_KERNEL_L3_END) && (end_ >? VM_KERNEL_L3_BASE).
End ops.
