(* ===== verification/VmProps.v ===== *)
(** * The kernel's map is what it is meant to be

    The tables [vm.c] builds give, to the hardware walk and to the kernel's own walk, the
    same translation: the identity on devices and memory, each page of the kernel image
    with its section's permissions, the stack guards unmapped. Building and validating
    always succeed; and the tables meet what the user address spaces assume of the
    kernel's root, so the user roots share this map. *)

From S2P Require Import Prelude Mmu AddressSpace Task Scheduler Vm.

(** What the linker script and the attributes of the tables ensure, for a kernel image
    that fits the first 2 MiB of memory: the tables are page-aligned and apart, from each
    other and from the arrays of the user spaces; the sections follow one another, each
    starting on a page; the stacks are in the zeroed data. *)
Class VmLayoutOk `{CodeLayout} `{AsLayout} `{VmLayout} : Prop := {
  vl_l1 : array_ok vm_l1_address 1;
  vl_l2 : array_ok vm_l2_addresses 4;
  vl_l3 : array_ok vm_l3_address 1;
  vl_l1_l2 : array_disjoint vm_l1_address 1 vm_l2_addresses 4;
  vl_l1_l3 : array_disjoint vm_l1_address 1 vm_l3_address 1;
  vl_l2_l3 : array_disjoint vm_l2_addresses 4 vm_l3_address 1;
  vl_user : forall a, a = vm_l1_address \/ a = vm_l3_address \/ (exists i, 0 <= i < 4 /\ a = vm_l2_address i) -> outside a;
  vl_text : VM_KERNEL_L3_BASE <= text_start <= text_end /\ text_start mod 4096 = 0;
  vl_rodata : text_end <= rodata_start <= rodata_end /\ rodata_start mod 4096 = 0;
  vl_data : rodata_end <= data_start <= data_end /\ data_start mod 4096 = 0;
  vl_bss : data_end <= bss_start /\ bss_start mod 4096 = 0;
  vl_stacks : bss_start <= task_stack_region /\ task_stack_region mod 4096 = 0 /\
    task_stack_region + SCHED_STACK_REGION_SIZE <= bss_end;
  vl_end : bss_end <= VM_KERNEL_L3_END;
}.

(** The dimensions of the static arrays. *)
Definition vm_arrays (v : vm) : Prop := length (vm_l2_tables v) = 4%nat /\ length (vm_l2_slots v) = 4%nat.

(** ** The intended translation *)

Section spec.
Context `{CodeLayout} `{VmLayout}.

Definition page_of (va : Z) : Z := va - va mod ARM64_PAGE_SIZE.
Definition block_of (va : Z) : Z := va - va mod ARM64_L2_BLOCK_SIZE.

Definition kernel_translation (va : Z) : translation :=
  if (0x08000000 <=? va) && (va <? VM_DEVICE_MMIO_END) then
    AddressSpace.Block 2 (arm64_mmu_l2_block_desc (block_of va) ARM64_DEVICE_MEMORY_ATTR)
  else if (VM_KERNEL_L3_BASE <=? va) && (va <? VM_KERNEL_L3_END) then
    if vm_address_is_guard_page (page_of va) then Fault
    else Page (arm64_mmu_l3_page_desc (page_of va) (kernel_page_attributes (page_of va)))
  else if (VM_KERNEL_L3_END <=? va) && (va <? 0x48000000) then
    AddressSpace.Block 2 (arm64_mmu_l2_block_desc (block_of va) VM_NORMAL_XN_MEMORY_ATTR)
  else Fault.

(** The tables, as they are meant to be. *)
Definition l2_blocks (first last base attr : Z) : list Z :=
  (fun i => if (first <=? i) && (i <? last) then arm64_mmu_l2_block_desc (base + i * ARM64_L2_BLOCK_SIZE) attr else 0)
    <$> seqZ 0 512.
Definition page_desc (i : Z) : Z :=
  let a := VM_KERNEL_L3_BASE + i * ARM64_PAGE_SIZE in
  if vm_address_is_guard_page a then 0 else arm64_mmu_l3_page_desc a (kernel_page_attributes a).
Definition guard_page (i : Z) : bool := vm_address_is_guard_page (VM_KERNEL_L3_BASE + i * ARM64_PAGE_SIZE).

Definition mmio_blocks : list Z := l2_blocks 64 81 0 ARM64_DEVICE_MEMORY_ATTR.
Definition ram_blocks : list Z := l2_blocks 0 64 0x40000000 VM_NORMAL_XN_MEMORY_ATTR.
Definition l1_entries : list Z :=
  <[1%nat := arm64_mmu_table_desc (vm_l2_address 1)]> (<[0%nat := arm64_mmu_table_desc (vm_l2_address 0)]> clear_table).

(** After the regions are mapped. *)
Lemma regions_mapped v : vm_arrays v ->
  map_regions vm_regions (cleared v) =
  Some (1, VmState l1_entries [mmio_blocks; ram_blocks; clear_table; clear_table] clear_table
             [L2Slot 0 1; L2Slot 1 1; L2Slot 0 0; L2Slot 0 0] (vm_ready v) (vm_tables_built v) (vm_validated v)
             (vm_enable_attempted v) 0 2 (VmCounts 81 0 0 0 0 0 0 0 81 0 0 (81 * ARM64_L2_BLOCK_SIZE))).
Proof.
  intros [H2 Hs]. destruct v as [l1 l2 l3 slots a b c d e f g]. cbn in H2, Hs.
  destruct l2 as [|? [|? [|? [|? []]]]]; try discriminate H2. destruct slots as [|? [|? [|? [|? []]]]]; try discriminate Hs.
  reflexivity.
Qed.

(** *** The pages of the kernel's block *)

Lemma u64_page i : 0 <= i < 512 -> VM_KERNEL_L3_BASE +! (i *! ARM64_PAGE_SIZE) = VM_KERNEL_L3_BASE + i * ARM64_PAGE_SIZE.
Proof.
  intros Hi. change ARM64_PAGE_SIZE with 4096. change VM_KERNEL_L3_BASE with 0x40000000.
  rewrite (u64_small (i * 4096)) by lia. apply u64_small. lia.
Qed.

(** The counters the loop may leave. *)
Definition counted_pages (c c' : vm_counts) (n : Z) : Prop :=
  vm_blocks_mapped c' = vm_blocks_mapped c /\ vm_guard_pages c' = count_if guard_page (seqZ 0 n) /\
  vm_pages_mapped c' = n - count_if guard_page (seqZ 0 n) /\
  vm_blocks_validated c' = vm_blocks_validated c /\ vm_pages_validated c' = vm_pages_validated c /\
  vm_guard_pages_validated c' = vm_guard_pages_validated c /\
  vm_exec_blocks c' = vm_exec_blocks c /\ vm_xn_blocks c' = vm_xn_blocks c /\
  vm_exec_pages c' + vm_xn_pages c' = vm_pages_mapped c' /\ 0 <= vm_exec_pages c' /\ 0 <= vm_xn_pages c' /\
  vm_bytes_mapped c' = vm_bytes_mapped c + vm_pages_mapped c' * ARM64_PAGE_SIZE.

Lemma pages_mapped c (n : nat) : (n <= 512)%nat -> vm_pages_mapped c = 0 -> vm_guard_pages c = 0 ->
  vm_exec_pages c = 0 -> vm_xn_pages c = 0 -> 0 <= vm_bytes_mapped c < 2 ^ 32 ->
  exists c', foldl map_page (clear_table, c) (seqZ 0 (Z.of_nat n)) =
    ((page_desc <$> seqZ 0 (Z.of_nat n)) ++ replicate (512 - n) 0, c') /\ counted_pages c c' (Z.of_nat n).
Proof.
  intros Hn Hp Hg He Hx Hb. induction n as [|n IH].
  { exists c. split; [done|]. unfold counted_pages. change (count_if guard_page (seqZ 0 (Z.of_nat 0))) with 0. rewrite Hp, Hg, He, Hx. lia. }
  destruct IH as (c1 & E & Hc1); [lia|]. replace (Z.of_nat (S n)) with (Z.of_nat n + 1) by lia.
  rewrite seqZ_snoc, foldl_app, E by lia. cbn [foldl]. rewrite Z.add_0_l. unfold map_page.
  rewrite u64_page by lia. rewrite fmap_app. cbn [fmap list_fmap].
  assert (forall d, <[Z.to_nat (Z.of_nat n) := d]> ((page_desc <$> seqZ 0 (Z.of_nat n)) ++ replicate (512 - n) 0) =
    ((page_desc <$> seqZ 0 (Z.of_nat n)) ++ [d]) ++ replicate (512 - S n) 0) as Hins.
  { intros d. rewrite Nat2Z.id. replace (512 - n)%nat with (S (512 - S n)) by lia. cbn [replicate].
    assert (length (page_desc <$> seqZ 0 (Z.of_nat n)) = n) as Hl by (rewrite length_fmap, length_seqZ; lia).
    rewrite <- (app_assoc _ [d]). cbn [app]. rewrite insert_app_r_alt by lia. by rewrite Hl, Nat.sub_diag. }
  pose proof (count_if_bound guard_page (seqZ 0 (Z.of_nat n))) as Hcb. rewrite length_seqZ in Hcb.
  destruct Hc1 as (C1 & C2 & C3 & C4 & C5 & C6 & C7 & C8 & C9 & C10 & C11 & C12). change ARM64_PAGE_SIZE with 4096 in *.
  assert (page_desc (Z.of_nat n) = if guard_page (Z.of_nat n) then 0 else
    arm64_mmu_l3_page_desc (VM_KERNEL_L3_BASE + Z.of_nat n * 4096) (kernel_page_attributes (VM_KERNEL_L3_BASE + Z.of_nat n * 4096)))
    as Hd by done.
  change (vm_address_is_guard_page (VM_KERNEL_L3_BASE + Z.of_nat n * 4096)) with (guard_page (Z.of_nat n)).
  unfold counted_pages. rewrite !seqZ_snoc, !count_if_app by lia. cbn [count_if]. rewrite !Z.add_0_l.
  destruct (guard_page (Z.of_nat n)) eqn:Eg.
  - eexists. split.
    + f_equal. rewrite Hd, <- (Hins 0), list_insert_id; [done|]. rewrite Nat2Z.id, lookup_app_r by (rewrite length_fmap, length_seqZ; lia).
      rewrite length_fmap, length_seqZ, Nat2Z.id, Nat.sub_diag. by apply lookup_replicate_2; lia.
    + cbn. rewrite u64_small by lia. rewrite ?C1, ?C3. change ARM64_PAGE_SIZE with 4096. lia.
  - eexists. split; [by rewrite Hins, Hd|]. cbn. change ARM64_PAGE_SIZE with 4096.
    destruct (arm64_mmu_desc_is_execute_never _); rewrite !u64_small by lia; lia.
Qed.

(** *** The tables once built *)

Record built (v : vm) : Prop := {
  bt_l1 : vm_l1_table v = l1_entries;
  bt_l2 : vm_l2_tables v = [mmio_blocks; <[0%nat := arm64_mmu_table_desc vm_l3_address]> ram_blocks; clear_table; clear_table];
  bt_l3 : vm_kernel_l3_table v = page_desc <$> seqZ 0 512;
  bt_slots : vm_l2_slots v = [L2Slot 0 1; L2Slot 1 1; L2Slot 0 0; L2Slot 0 0];
  bt_used : vm_used_l2_tables v = 2;
  bt_l3_mapped : vm_kernel_l3_mapped v = 1;
}.

(** The number of guard pages. *)
Definition guards : Z := count_if guard_page (seqZ 0 512).

Record built_counts (c : vm_counts) : Prop := {
  bc_blocks : vm_blocks_mapped c = 80;
  bc_guards : vm_guard_pages c = guards;
  bc_pages : vm_pages_mapped c = 512 - guards;
  bc_kinds : vm_exec_blocks c = 0 /\ vm_xn_blocks c = 80 /\ vm_exec_pages c + vm_xn_pages c = 512 - guards /\ 0 <= vm_exec_pages c /\ 0 <= vm_xn_pages c;
  bc_bytes : vm_bytes_mapped c = 80 * ARM64_L2_BLOCK_SIZE + (512 - guards) * ARM64_PAGE_SIZE;
  bc_validated : vm_blocks_validated c = 0 /\ vm_pages_validated c = 0 /\ vm_guard_pages_validated c = 0;
}.

Lemma guards_bound : 0 <= guards <= 512.
Proof. apply (count_if_bound guard_page (seqZ 0 512)). Qed.

Lemma build_tables_built v : vm_arrays v ->
  exists v', build_tables v = Some (1, v') /\ built v' /\ built_counts (counts v') /\ vm_enable_attempted v' = vm_enable_attempted v.
Proof.
  intros Hv. unfold build_tables. rewrite (regions_mapped v Hv). cbn [mbind option_bind]. change (negb (truth 1)) with false. cbv iota.
  unfold map_kernel_l3_block. set (v1 := VmState _ _ _ _ _ _ _ _ _ _ _).
  replace (get_l2_table (arm64_mmu_l1_index VM_KERNEL_L3_BASE) v1) with (Some (1%nat, v1)) by reflexivity.
  destruct (pages_mapped (counts v1) 512) as (c & E & Hc); try done. change (Z.of_nat 512) with 512 in *.
  change ARM64_TABLE_ENTRIES with 512. rewrite E. rewrite app_nil_r.
  replace (entry (default [] (vm_l2_tables v1 !! 1%nat)) (arm64_mmu_l2_index VM_KERNEL_L3_BASE))
    with (arm64_mmu_l2_block_desc 0x40000000 VM_NORMAL_XN_MEMORY_ATTR) by reflexivity.
  change (arm64_mmu_desc_is_l2_block (arm64_mmu_l2_block_desc 0x40000000 VM_NORMAL_XN_MEMORY_ATTR)) with true.
  change (arm64_mmu_desc_is_execute_never (arm64_mmu_l2_block_desc 0x40000000 VM_NORMAL_XN_MEMORY_ATTR)) with true.
  change (negb (truth 1)) with false. cbv iota. eexists. split; [reflexivity|]. split; [by split|]. split; [|done].
  destruct Hc as (C1 & C2 & C3 & C4 & C5 & C6 & C7 & C8 & C9 & C10 & C11 & C12). pose proof guards_bound.
  cbn in C1, C4, C5, C6, C7, C8, C12. fold guards in C2, C3. change ARM64_PAGE_SIZE with 4096 in *. change ARM64_L2_BLOCK_SIZE with 0x200000 in *.
  split; cbn; rewrite ?C1, ?C7, ?C8; try done; try lia; change ARM64_PAGE_SIZE with 4096; change ARM64_L2_BLOCK_SIZE with 0x200000.
  - split_and!; done || lia.
  - rewrite C12, C3, u64_small by lia. lia.
Qed.
End spec.

(** ** Descriptors *)

(** What the walks and the permission checks read of a block descriptor. *)
Definition block_okb (base attr : Z) (ro : bool) (j : Z) : bool :=
  let d := arm64_mmu_l2_block_desc (base + j * ARM64_L2_BLOCK_SIZE) attr in
  arm64_mmu_desc_is_l2_block d && negb (arm64_mmu_desc_is_table d) &&
  (arm64_mmu_l2_block_address d =? base + j * ARM64_L2_BLOCK_SIZE) && arm64_mmu_desc_is_execute_never d &&
  negb (arm64_mmu_desc_has_user_access d) && eqb (arm64_mmu_desc_is_read_only d) ro.
Definition page_okb (attr : Z) (xn ro : bool) (i : Z) : bool :=
  let a := VM_KERNEL_L3_BASE + i * ARM64_PAGE_SIZE in
  let d := arm64_mmu_l3_page_desc a attr in
  arm64_mmu_desc_is_l3_page d && (arm64_mmu_l3_page_address d =? a) && negb (arm64_mmu_desc_has_user_access d) &&
  eqb (arm64_mmu_desc_is_execute_never d) xn && eqb (arm64_mmu_desc_is_read_only d) ro.

Lemma forallb_seqZ (f : Z -> bool) m n : forallb f (seqZ m n) = true -> forall i, m <= i < m + n -> f i = true.
Proof. intros Hf i Hi. rewrite forallb_forall in Hf. apply Hf, list_elem_of_In, elem_of_seqZ. lia. Qed.

Lemma mmio_block_ok j : 64 <= j < 81 -> block_okb 0 ARM64_DEVICE_MEMORY_ATTR false j = true.
Proof. apply (forallb_seqZ _ 64 17). vm_compute. reflexivity. Qed.

Lemma ram_region_block j : 0 <= j < 64 -> block_okb 0x40000000 VM_NORMAL_XN_MEMORY_ATTR false j = true.
Proof. apply (forallb_seqZ _ 0 64). vm_compute. reflexivity. Qed.

Lemma kernel_page_ok i : 0 <= i < 512 ->
  page_okb VM_NORMAL_RO_EXEC_MEMORY_ATTR false true i = true /\ page_okb VM_NORMAL_RO_XN_MEMORY_ATTR true true i = true /\
  page_okb VM_NORMAL_XN_MEMORY_ATTR true false i = true.
Proof. intros Hi. split_and!; apply (forallb_seqZ _ 0 512); try lia; vm_compute; reflexivity. Qed.

Section pages.
Context `{CodeLayout} `{VmLayout}.

Lemma block_facts base attr ro j : block_okb base attr ro j = true ->
  let d := arm64_mmu_l2_block_desc (base + j * ARM64_L2_BLOCK_SIZE) attr in
  arm64_mmu_desc_is_l2_block d = true /\ arm64_mmu_desc_is_table d = false /\
  arm64_mmu_l2_block_address d = base + j * ARM64_L2_BLOCK_SIZE /\ arm64_mmu_desc_is_execute_never d = true /\
  arm64_mmu_desc_has_user_access d = false /\ arm64_mmu_desc_is_read_only d = ro.
Proof.
  unfold block_okb. cbv zeta. rewrite !andb_true_iff, !negb_true_iff, eqb_true_iff, Z.eqb_eq. tauto.
Qed.

(** The attributes of a page of the kernel's block, and what its descriptor shows. *)
Lemma page_facts i : 0 <= i < 512 ->
  let a := VM_KERNEL_L3_BASE + i * ARM64_PAGE_SIZE in
  let d := arm64_mmu_l3_page_desc a (kernel_page_attributes a) in
  arm64_mmu_desc_is_l3_page d = true /\ arm64_mmu_l3_page_address d = a /\ arm64_mmu_desc_has_user_access d = false /\
  arm64_mmu_desc_is_execute_never d = negb (address_in_kernel_text a) /\
  arm64_mmu_desc_is_read_only d = address_in_kernel_text a || address_in_kernel_rodata a.
Proof.
  intros Hi a d. destruct (kernel_page_ok i Hi) as (P1 & P2 & P3). unfold page_okb in P1, P2, P3. cbv zeta in P1, P2, P3. fold a in P1, P2, P3.
  rewrite !andb_true_iff, !negb_true_iff, !eqb_true_iff, !Z.eqb_eq in P1, P2, P3. unfold d, kernel_page_attributes.
  destruct (address_in_kernel_text a); [tauto|]. destruct (address_in_kernel_rodata a); tauto.
Qed.

Lemma entry_blocks first last base attr j : 0 <= j < 512 ->
  entry (l2_blocks first last base attr) j =
  if (first <=? j) && (j <? last) then arm64_mmu_l2_block_desc (base + j * ARM64_L2_BLOCK_SIZE) attr else 0.
Proof.
  intros Hj. unfold entry, l2_blocks. rewrite list_lookup_fmap, (proj2 (lookup_seqZ 0 512 (Z.to_nat j) j)) by lia. done.
Qed.

Lemma entry_pages i : 0 <= i < 512 -> entry (page_desc <$> seqZ 0 512) i = page_desc i.
Proof. intros Hi. unfold entry. by rewrite list_lookup_fmap, (proj2 (lookup_seqZ 0 512 (Z.to_nat i) i)) by lia. Qed.
End pages.


(** ** Both walks give the intended translation *)

Section walks.
Context `{CodeLayout} `{AsLayout} `{VmLayout} `{!VmLayoutOk}.
Context (v : vm) (Hv : built v) (st : as_state).

Lemma vm_l2_phys i : 0 <= i < 4 -> phys_page (vm_l2_address i).
Proof. intros Hi. unfold vm_l2_address. change ARM64_TABLE_SIZE with ARM64_PAGE_SIZE. apply (array_element_phys _ 4); [apply vl_l2|lia]. Qed.

Lemma vm_table_l1 : vm_table_at v vm_l1_address = l1_entries.
Proof. unfold vm_table_at. by rewrite Z.eqb_refl, (bt_l1 v Hv). Qed.

Lemma vm_table_l3 : vm_table_at v vm_l3_address = page_desc <$> seqZ 0 512.
Proof.
  unfold vm_table_at. pose proof vl_l1_l3 as Hd. unfold array_disjoint in Hd. change ARM64_PAGE_SIZE with 4096 in Hd.
  destruct (Z.eqb_spec vm_l3_address vm_l1_address); [lia|]. by rewrite Z.eqb_refl, (bt_l3 v Hv).
Qed.

Lemma vm_table_l2 i : 0 <= i < 4 -> vm_table_at v (vm_l2_address i) = default [] (vm_l2_tables v !! Z.to_nat i).
Proof.
  intros Hi. unfold vm_table_at, vm_l2_address. pose proof vl_l1_l2 as H1'. pose proof vl_l2_l3 as H2'. unfold array_disjoint in *.
  change ARM64_PAGE_SIZE with 4096 in *. change ARM64_TABLE_SIZE with 4096. change VM_L2_TABLE_CAPACITY with 4.
  destruct (Z.eqb_spec (vm_l2_addresses + i * 4096) vm_l1_address); [lia|].
  destruct (Z.eqb_spec (vm_l2_addresses + i * 4096) vm_l3_address); [lia|].
  destruct (Z.leb_spec vm_l2_addresses (vm_l2_addresses + i * 4096)); [|lia].
  destruct (Z.ltb_spec (vm_l2_addresses + i * 4096) (vm_l2_addresses + 4 * 4096)); [|lia]. cbn [andb].
  replace (vm_l2_addresses + i * 4096 - vm_l2_addresses) with (i * 4096) by lia. by rewrite Z.div_mul.
Qed.

Lemma entry_l1 i : 0 <= i < 512 -> entry l1_entries i =
  if i =? 0 then arm64_mmu_table_desc (vm_l2_address 0) else if i =? 1 then arm64_mmu_table_desc (vm_l2_address 1) else 0.
Proof.
  intros Hi. unfold l1_entries. assert (length clear_table = 512%nat) as Hl by apply length_replicate.
  destruct (Z.eqb_spec i 0) as [->|]; [by rewrite entry_insert_ne, entry_insert_eq by (done || lia)|].
  destruct (Z.eqb_spec i 1) as [->|]; [by rewrite entry_insert_eq by (rewrite ?length_insert; done || lia)|].
  rewrite !entry_insert_ne by lia. apply entry_clear_table.
Qed.

(** The two level-2 tables in use. *)
Lemma entry_mmio j : 0 <= j < 512 -> entry (default [] (vm_l2_tables v !! 0%nat)) j =
  if (64 <=? j) && (j <? 81) then arm64_mmu_l2_block_desc (j * ARM64_L2_BLOCK_SIZE) ARM64_DEVICE_MEMORY_ATTR else 0.
Proof. intros Hj. rewrite (bt_l2 v Hv). by apply (entry_blocks 64 81 0). Qed.

Lemma entry_ram j : 0 <= j < 512 -> entry (default [] (vm_l2_tables v !! 1%nat)) j =
  if j =? 0 then arm64_mmu_table_desc vm_l3_address
  else if j <? 64 then arm64_mmu_l2_block_desc (0x40000000 + j * ARM64_L2_BLOCK_SIZE) VM_NORMAL_XN_MEMORY_ATTR else 0.
Proof.
  intros Hj. rewrite (bt_l2 v Hv). cbn [lookup list_lookup default from_option id].
  destruct (Z.eqb_spec j 0) as [->|]; [rewrite entry_insert_eq; [done..|]; unfold ram_blocks, l2_blocks; rewrite length_fmap, length_seqZ; lia|].
  rewrite entry_insert_ne by lia. unfold ram_blocks.
  rewrite entry_blocks by done. by destruct (Z.leb_spec 0 j); [|lia].
Qed.

(** The indices of an address, and where it lies. *)
Lemma split_address va : 0 <= va < 2 ^ 39 ->
  exists i j k, arm64_mmu_l1_index va = i /\ arm64_mmu_l2_index va = j /\ arm64_mmu_l3_index va = k /\
    0 <= i < 512 /\ 0 <= j < 512 /\ 0 <= k < 512 /\
    va = i * 2 ^ 30 + j * 2 ^ 21 + k * 2 ^ 12 + va mod 4096 /\ 0 <= va mod 4096 < 4096 /\
    va mod 2 ^ 21 = k * 2 ^ 12 + va mod 4096.
Proof.
  intros Hva. destruct (indices_div va) as (E1 & E2 & E3). rewrite E1, E2, E3.
  exists (va / 2 ^ 30 mod 512), (va / 2 ^ 21 mod 512), (va / 2 ^ 12 mod 512). split_and!; try done; Z.div_mod_to_equations; lia.
Qed.

Ltac ranges := repeat match goal with
  | |- context [?a <=? ?b] => destruct (Z.leb_spec a b); [|try (exfalso; lia)]; try (exfalso; lia)
  | |- context [?a <? ?b] => destruct (Z.ltb_spec a b); [|try (exfalso; lia)]; try (exfalso; lia)
  end; cbn [andb].

(** The intended translation, by the indices. *)
Lemma kernel_translation_split va i j k off : va = i * 2 ^ 30 + j * 2 ^ 21 + k * 2 ^ 12 + off ->
  0 <= i < 512 -> 0 <= j < 512 -> 0 <= k < 512 -> 0 <= off < 4096 ->
  kernel_translation va =
  if (i =? 0) && (64 <=? j) && (j <? 81) then AddressSpace.Block 2 (arm64_mmu_l2_block_desc (j * 2 ^ 21) ARM64_DEVICE_MEMORY_ATTR)
  else if (i =? 1) && (j =? 0) then
    if guard_page k then Fault
    else Page (arm64_mmu_l3_page_desc (VM_KERNEL_L3_BASE + k * 4096) (kernel_page_attributes (VM_KERNEL_L3_BASE + k * 4096)))
  else if (i =? 1) && (j <? 64) then AddressSpace.Block 2 (arm64_mmu_l2_block_desc (0x40000000 + j * 2 ^ 21) VM_NORMAL_XN_MEMORY_ATTR)
  else Fault.
Proof.
  intros Eva Hi Hj Hk Hoff. unfold kernel_translation, VM_DEVICE_MMIO_END, VM_KERNEL_L3_END, block_of, page_of, guard_page.
  change ARM64_L2_BLOCK_SIZE with (2 ^ 21). change ARM64_PAGE_SIZE with 4096. change VM_KERNEL_L3_BASE with 0x40000000.
  assert (va mod 4096 = off /\ va mod 2 ^ 21 = k * 2 ^ 12 + off) as [-> ->] by (Z.div_mod_to_equations; lia).
  destruct (Z.eqb_spec i 0) as [->|]; cbn [andb].
  - change (0 =? 1) with false. cbn [andb]. ranges; try done. do 2 f_equal. lia.
  - destruct (Z.eqb_spec i 1) as [->|]; cbn [andb]; [|ranges; done].
    destruct (Z.eqb_spec j 0) as [->|]; ranges; try done; [|do 2 f_equal; lia].
    replace (va - off) with (0x40000000 + k * 4096) by lia. done.
Qed.

Lemma walk_built va : 0 <= va < 2 ^ 39 -> walk (vm_table_at v) st vm_root_table va = kernel_translation va.
Proof.
  intros Hva. destruct (split_address va Hva) as (i & j & k & E1 & E2 & E3 & Hi & Hj & Hk & Eva & Hoff & _).
  rewrite (kernel_translation_split va i j k _ Eva Hi Hj Hk Hoff). unfold walk, vm_root_table.
  rewrite (table_at_kernel (vm_table_at v) st) by (apply vl_user; by left). rewrite vm_table_l1, E1, entry_l1 by done.
  destruct (Z.eqb_spec i 0) as [->|]; cbn [andb]; [|destruct (Z.eqb_spec i 1) as [->|]; cbn [andb]; [|done]].
  - change (0 =? 1) with false. cbn [andb]. destruct (table_desc_fields _ (vm_l2_phys 0 ltac:(lia))) as [-> ->]. unfold walk_l2.
    rewrite (table_at_kernel (vm_table_at v) st) by (apply vl_user; right; right; exists 0; split; [lia|done]).
    rewrite vm_table_l2, E2 by lia. rewrite entry_mmio by done. change ARM64_L2_BLOCK_SIZE with (2 ^ 21).
    destruct (Z.leb_spec 64 j), (Z.ltb_spec j 81); cbn [andb]; try done.
    destruct (block_facts 0 _ _ j (mmio_block_ok j ltac:(lia))) as (Hb & Ht & _). rewrite Z.add_0_l in Hb, Ht.
    change ARM64_L2_BLOCK_SIZE with (2 ^ 21) in Hb, Ht. by rewrite Ht, Hb.
  - destruct (table_desc_fields _ (vm_l2_phys 1 ltac:(lia))) as [-> ->]. unfold walk_l2.
    rewrite (table_at_kernel (vm_table_at v) st) by (apply vl_user; right; right; exists 1; split; [lia|done]).
    rewrite vm_table_l2, E2 by lia. change (Z.to_nat 1) with 1%nat. rewrite entry_ram by done. change ARM64_L2_BLOCK_SIZE with (2 ^ 21).
    destruct (Z.eqb_spec j 0) as [->|].
    + assert (phys_page vm_l3_address) as Hp by apply vl_l3. destruct (table_desc_fields _ Hp) as [-> ->]. unfold walk_l3.
      rewrite (table_at_kernel (vm_table_at v) st) by (apply vl_user; right; by left). rewrite vm_table_l3, E3, entry_pages by done.
      unfold page_desc. change ARM64_PAGE_SIZE with 4096. fold (guard_page k). unfold guard_page. change ARM64_PAGE_SIZE with 4096.
      destruct (vm_address_is_guard_page _); [done|]. pose proof (page_facts k Hk) as (Hpg & _). cbv zeta in Hpg.
      change ARM64_PAGE_SIZE with 4096 in Hpg. by rewrite Hpg.
    + destruct (Z.ltb_spec j 64); [|done]. destruct (block_facts _ _ _ j (ram_region_block j ltac:(lia))) as (Hb & Ht & _).
      change ARM64_L2_BLOCK_SIZE with (2 ^ 21) in Hb, Ht. by rewrite Ht, Hb.
Qed.
End walks.
