(* ===== verification/VmInit.v ===== *)
(** * Booting the kernel's map

    [vm_init] always builds, validates and switches on the tables; the kernel's own walk
    agrees with the hardware's; no page is writable and executable; and the user address
    spaces, created over these tables, share the kernel's map. *)

From S2P Require Import Prelude Mmu AddressSpace Task Scheduler Vm VmProps.

(** ** The stack guards *)

Section guards.
Context `{CodeLayout} `{AsLayout} `{VmLayout} `{!VmLayoutOk}.

Lemma stacks_bounds :
  0x40000000 <= task_stack_region /\ task_stack_region mod 4096 = 0 /\ task_stack_region + 69632 <= 0x40200000.
Proof.
  destruct vl_text as [? _], vl_rodata as [? _], vl_data as [? _], vl_bss as [? _], vl_stacks as (? & ? & Hr). pose proof vl_end as He.
  change SCHED_STACK_REGION_SIZE with 69632 in Hr. change VM_KERNEL_L3_END with 0x40200000 in He. change VM_KERNEL_L3_BASE with 0x40000000 in *. lia.
Qed.

Lemma guard_start_exact i : 0 <= i <= 8 -> scheduler_stack_guard_start i = task_stack_region + i * 8192.
Proof.
  intros Hi. pose proof stacks_bounds. unfold scheduler_stack_guard_start, scheduler_stack_region_start. cbv zeta.
  change SCHED_MAX_TASKS with 8. change SCHED_STACK_SLOT_SIZE with 8192. destruct (Z.gtb_spec i 8); [lia|].
  rewrite (u64_small (i * 8192)) by lia. apply u64_small. lia.
Qed.

Lemma guard_end_exact i : 0 <= i <= 8 -> scheduler_stack_guard_end i = task_stack_region + i * 8192 + 4096.
Proof.
  intros Hi. pose proof stacks_bounds. unfold scheduler_stack_guard_end. rewrite guard_start_exact by done.
  change SCHED_STACK_GUARD_SIZE with 4096. apply u64_small. lia.
Qed.

Lemma guard_spec a : vm_address_is_guard_page a = true <->
  exists i, 0 <= i <= 8 /\ task_stack_region + i * 8192 <= a < task_stack_region + i * 8192 + 4096.
Proof.
  unfold vm_address_is_guard_page, scheduler_address_is_stack_guard. change (SCHED_MAX_TASKS + 1) with 9. rewrite existsb_exists. split.
  - intros (i & Hi & Ha). apply list_elem_of_In, elem_of_seqZ in Hi. exists i. split; [lia|].
    rewrite guard_start_exact, guard_end_exact in Ha by lia. lia.
  - intros (i & Hi & Ha). exists i. split; [apply list_elem_of_In, elem_of_seqZ; lia|].
    rewrite guard_start_exact, guard_end_exact by lia. lia.
Qed.

(** Outside the kernel's block there are no guards. *)
Lemma no_guard a : ~ 0x40000000 <= a < 0x40200000 -> vm_address_is_guard_page a = false.
Proof.
  intros Ha. destruct (vm_address_is_guard_page a) eqn:E; [|done]. apply guard_spec in E as (i & Hi & Hr).
  pose proof stacks_bounds. lia.
Qed.

Lemma guard_page_same a : vm_address_is_guard_page (page_of a) = vm_address_is_guard_page a.
Proof.
  pose proof stacks_bounds as (_ & Hm & _). apply eq_true_iff_eq. rewrite !guard_spec. unfold page_of. change ARM64_PAGE_SIZE with 4096.
  split; intros (i & Hi & Hr); exists i; (split; [done|]); Z.div_mod_to_equations; lia.
Qed.

(** The pages of the guards: every second one of the stack region. *)
Definition first_guard : Z := (task_stack_region - 0x40000000) / 4096.

Lemma guard_page_index i : guard_page i = true <-> exists k, 0 <= k <= 8 /\ i = first_guard + 2 * k.
Proof.
  unfold guard_page, first_guard. change VM_KERNEL_L3_BASE with 0x40000000. change ARM64_PAGE_SIZE with 4096. rewrite guard_spec.
  pose proof stacks_bounds as (_ & Hm & _).
  split; intros (k & Hk & Hr); exists k; (split; [done|]); Z.div_mod_to_equations; lia.
Qed.

Lemma guards_nine : guards = 9.
Proof.
  pose proof stacks_bounds as (Hl & Hm & Hh). unfold guards. set (f := first_guard).
  assert (0 <= f /\ f + 17 <= 512) as Hf by (unfold f, first_guard; Z.div_mod_to_equations; lia).
  replace 512 with (f + (17 + (495 - f))) by lia. rewrite seqZ_app, seqZ_app, !count_if_app by lia.
  rewrite (count_if_zero _ (seqZ 0 f)), (count_if_zero _ (seqZ (0 + f + 17) (495 - f))).
  - replace (seqZ (0 + f) 17) with (Z.add f <$> seqZ 0 17) by (rewrite fmap_add_seqZ; f_equal; lia).
    assert (forall l, (forall i, i ∈ l -> 0 <= i < 17) -> count_if guard_page (Z.add f <$> l) = count_if (fun i => Z.even i) l) as Hc.
    { intros l. induction l as [|i l IH]; intros Hi; [done|]. cbn [fmap list_fmap count_if]. rewrite IH by (intros j Hj; apply Hi; by right).
      do 2 f_equal. specialize (Hi i ltac:(by left)). apply eq_true_iff_eq. rewrite guard_page_index, Z.even_spec. fold f.
      split; intros (k & Hk); exists k; lia. }
    rewrite Hc; [reflexivity|]. intros i Hi. apply elem_of_seqZ in Hi. lia.
  - intros i Hi. apply elem_of_seqZ in Hi. destruct (guard_page i) eqn:E; [|done]. apply guard_page_index in E as (k & Hk & Hi'). fold f in Hi'. lia.
  - intros i Hi. apply elem_of_seqZ in Hi. destruct (guard_page i) eqn:E; [|done]. apply guard_page_index in E as (k & Hk & Hi'). fold f in Hi'. lia.
Qed.
End guards.

(** ** The kernel's own walk *)

Section own_walk.
Context `{CodeLayout} `{AsLayout} `{VmLayout} `{!VmLayoutOk}.
Context (v : vm) (Hv : built v).

(** What [translation_for_address] answers for a translation: mapped addresses map to themselves. *)
Definition answer (va : Z) (t : translation) : option (Z * Z * Z) :=
  match t with
  | Fault => None
  | AddressSpace.Block level d => Some (va, d, level)
  | Page d => Some (va, d, 3)
  end.

Lemma find_l2_0 : find_l2_table 0 v = Some 0%nat.
Proof. unfold find_l2_table. by rewrite (bt_slots v Hv), (bt_used v Hv). Qed.
Lemma find_l2_1 : find_l2_table 1 v = Some 1%nat.
Proof. unfold find_l2_table. by rewrite (bt_slots v Hv), (bt_used v Hv). Qed.

Lemma translation_built va : 0 <= va < 2 ^ 39 -> translation_for_address v va = answer va (kernel_translation va).
Proof.
  intros Hva. destruct (split_address va Hva) as (i & j & k & E1 & E2 & E3 & Hi & Hj & Hk & Eva & Hoff & Hoff2).
  rewrite (kernel_translation_split va i j k _ Eva Hi Hj Hk Hoff). unfold translation_for_address. rewrite E1, E2, E3. cbv zeta.
  change (ARM64_L2_BLOCK_SIZE - 1) with (2 ^ 21 - 1). change (ARM64_PAGE_SIZE - 1) with (2 ^ 12 - 1).
  rewrite !land_low_mask by lia. change (2 ^ 12) with 4096 in *. rewrite (bt_l1 v Hv), entry_l1 by done.
  destruct (Z.eqb_spec i 0) as [->|]; cbn [andb]; [|destruct (Z.eqb_spec i 1) as [->|]; cbn [andb]; [|done]].
  - change (0 =? 1) with false. cbn [andb]. destruct (table_desc_fields _ (vm_l2_phys 0 ltac:(lia))) as [-> _]. cbn [negb].
    rewrite find_l2_0, (entry_mmio v Hv) by done. change ARM64_L2_BLOCK_SIZE with (2 ^ 21).
    destruct (Z.leb_spec 64 j), (Z.ltb_spec j 81); cbn [andb]; try done.
    destruct (block_facts 0 _ _ j (mmio_block_ok j ltac:(lia))) as (Hb & _ & Ha & _). rewrite Z.add_0_l in Hb, Ha.
    change ARM64_L2_BLOCK_SIZE with (2 ^ 21) in *. rewrite Hb, Ha. cbn [answer]. rewrite u64_small by lia. do 3 f_equal. lia.
  - destruct (table_desc_fields _ (vm_l2_phys 1 ltac:(lia))) as [-> _]. cbn [negb].
    rewrite find_l2_1, (entry_ram v Hv) by done. change ARM64_L2_BLOCK_SIZE with (2 ^ 21).
    destruct (Z.eqb_spec j 0) as [->|].
    + assert (phys_page vm_l3_address) as Hp by apply vl_l3. destruct (table_desc_fields _ Hp) as [Ht Ha]. rewrite Ht, Ha.
      replace (arm64_mmu_desc_is_l2_block (arm64_mmu_table_desc vm_l3_address)) with false
        by (symmetry; unfold arm64_mmu_desc_is_table in Ht; apply Z.eqb_eq in Ht; unfold arm64_mmu_desc_is_l2_block; by rewrite Ht).
      cbn [negb]. rewrite (vm_table_l3 v Hv), entry_pages by done.
      unfold page_desc, guard_page. change ARM64_PAGE_SIZE with 4096.
      destruct (vm_address_is_guard_page _); [done|]. pose proof (page_facts k Hk) as (Hpg & Hpa & _). cbv zeta in Hpg, Hpa.
      change ARM64_PAGE_SIZE with 4096 in *. rewrite Hpg, Hpa. cbn [answer negb]. change VM_KERNEL_L3_BASE with 0x40000000.
      rewrite u64_small by lia. do 3 f_equal. lia.
    + destruct (Z.ltb_spec j 64); [|done]. destruct (block_facts _ _ _ j (ram_region_block j ltac:(lia))) as (Hb & _ & Ha & _).
      change ARM64_L2_BLOCK_SIZE with (2 ^ 21) in *. rewrite Hb, Ha. cbn [answer]. rewrite u64_small by lia. do 3 f_equal. lia.
Qed.
End own_walk.

(** ** Validation succeeds *)

Section validation.
Context `{CodeLayout} `{AsLayout} `{VmLayout} `{!VmLayoutOk}.

(** The state with given counts of validated blocks, pages and guards. *)
Definition tallied (v : vm) (blocks pages guards : Z) : vm :=
  let c := counts v in
  set_counts (VmCounts (vm_blocks_mapped c) (vm_pages_mapped c) (vm_guard_pages c) blocks pages guards (vm_validation_error_count c)
    (vm_exec_blocks c) (vm_xn_blocks c) (vm_exec_pages c) (vm_xn_pages c) (vm_bytes_mapped c)) v.

Lemma tally v b p g db dp dg : 0 <= b + db < 2 ^ 64 -> 0 <= p + dp < 2 ^ 64 -> 0 <= g + dg < 2 ^ 64 ->
  set_counts (count_validated db dp dg (counts (tallied v b p g))) (tallied v b p g) = tallied v (b + db) (p + dp) (g + dg).
Proof. intros Hb Hp Hg. unfold count_validated, tallied. cbn. by rewrite !u64_small by done. Qed.

Context (v : vm) (Hv : built v).

Lemma validate_blocks (n : nat) : forall fuel va rest b p g,
  (forall j, 0 <= j < Z.of_nat n -> exists d, kernel_translation (va + j * 2 ^ 21) = AddressSpace.Block 2 d) ->
  0 <= va -> 0 <= rest -> va + Z.of_nat n * 2 ^ 21 + rest < 2 ^ 39 ->
  0 <= b < 2 ^ 32 -> 0 <= p < 2 ^ 32 -> 0 <= g < 2 ^ 32 -> b + Z.of_nat n < 2 ^ 32 ->
  validate_loop (n + fuel) va va (Z.of_nat n * 2 ^ 21 + rest) (tallied v b p g) =
  validate_loop fuel (va + Z.of_nat n * 2 ^ 21) (va + Z.of_nat n * 2 ^ 21) rest (tallied v (b + Z.of_nat n) p g).
Proof.
  induction n as [|n IH]; intros fuel va rest b p g Hblk Hva Hrest Hend Hb Hp Hg Hbn.
  { cbn [Nat.add]. f_equal; try lia. f_equal. lia. }
  cbn [Nat.add validate_loop]. destruct (Z.gtb_spec (Z.of_nat (S n) * 2 ^ 21 + rest) 0); [|lia].
  destruct (Hblk 0 ltac:(lia)) as [d Hd]. rewrite Z.mul_0_l, Z.add_0_r in Hd.
  change (translation_for_address (tallied v b p g) va) with (translation_for_address v va).
  assert (translation_for_address v va = Some (va, d, 2)) as -> by (rewrite (translation_built v Hv) by lia; by rewrite Hd).
  assert (vm_address_is_guard_page va = false) as ->.
  { apply no_guard. intros Hr. unfold kernel_translation, VM_DEVICE_MMIO_END, VM_KERNEL_L3_END in Hd. change VM_KERNEL_L3_BASE with 0x40000000 in Hd.
    change ARM64_L2_BLOCK_SIZE with 0x200000 in Hd. destruct (Z.ltb_spec va 0xa200000); [lia|]. rewrite andb_false_r in Hd.
    destruct (Z.leb_spec 0x40000000 va); [|lia]. destruct (Z.ltb_spec va (0x40000000 + 0x200000)); [|lia]. cbn [andb] in Hd.
    by destruct (vm_address_is_guard_page _). }
  rewrite Z.eqb_refl. cbn [negb]. change (2 =? 2) with true. cbv iota zeta. change ARM64_L2_BLOCK_SIZE with (2 ^ 21).
  rewrite tally, !u64_small by lia. rewrite !Z.add_0_r.
  replace (Z.of_nat (S n) * 2 ^ 21 + rest - 2 ^ 21) with (Z.of_nat n * 2 ^ 21 + rest) by lia.
  rewrite IH; try lia.
  - f_equal; [lia..|f_equal; lia].
  - intros j Hj. destruct (Hblk (j + 1) ltac:(lia)) as [d' Hd']. exists d'. rewrite <- Hd'. f_equal. lia.
Qed.

Lemma seqZ_cons' k n : 0 <= n -> seqZ k (n + 1) = k :: seqZ (k + 1) n.
Proof. intros Hn. rewrite (seqZ_cons k (n + 1)) by lia. f_equal; f_equal; lia. Qed.

Lemma validate_pages (n : nat) : forall fuel k rest p g,
  0 <= k -> k + Z.of_nat n <= 512 -> 0 <= rest < 2 ^ 32 -> 0 <= p -> 0 <= g -> p + g + Z.of_nat n < 2 ^ 32 ->
  validate_loop (n + fuel) (0x40000000 + k * 4096) (0x40000000 + k * 4096) (Z.of_nat n * 4096 + rest) (tallied v 17 p g) =
  let c := count_if guard_page (seqZ k (Z.of_nat n)) in
  validate_loop fuel (0x40000000 + (k + Z.of_nat n) * 4096) (0x40000000 + (k + Z.of_nat n) * 4096) rest
    (tallied v 17 (p + Z.of_nat n - c) (g + c)).
Proof.
  induction n as [|n IH]; intros fuel k rest p g Hk Hn Hrest Hp Hg Hpg; cbv zeta.
  { cbn [Nat.add]. change (count_if _ (seqZ k (Z.of_nat 0))) with 0. f_equal; try lia. f_equal; lia. }
  cbn [Nat.add validate_loop]. destruct (Z.gtb_spec (Z.of_nat (S n) * 4096 + rest) 0); [|lia].
  set (va := 0x40000000 + k * 4096).
  change (translation_for_address (tallied v 17 p g) va) with (translation_for_address v va).
  rewrite (translation_built v Hv) by lia.
  assert (va = 1 * 2 ^ 30 + 0 * 2 ^ 21 + k * 2 ^ 12 + 0) as Eva by lia.
  rewrite (kernel_translation_split va 1 0 k 0 Eva) by lia. change ((1 =? 0) && (64 <=? 0) && (0 <? 81)) with false.
  change ((1 =? 1) && (0 =? 0)) with true. cbv iota. change (vm_address_is_guard_page va) with (guard_page k).
  replace (Z.of_nat (S n)) with (Z.of_nat n + 1) by lia. rewrite (seqZ_cons' k) by lia. cbn [count_if].
  pose proof (count_if_bound guard_page (seqZ (k + 1) (Z.of_nat n))) as Hcb. rewrite length_seqZ in Hcb.
  destruct (guard_page k); cbn [answer]; change (3 =? 2) with false; rewrite ?Z.eqb_refl; cbn [negb c_int]; cbv iota zeta;
    [rewrite bool_decide_eq_false_2 by (intros [? ?]; discriminate)|]; change ARM64_PAGE_SIZE with 4096;
    rewrite tally, !u64_small by lia; replace (va + 4096) with (0x40000000 + (k + 1) * 4096) by lia;
    replace ((Z.of_nat n + 1) * 4096 + rest - 4096) with (Z.of_nat n * 4096 + rest) by lia;
    rewrite ?Z.add_0_r; change (17 + 0) with 17; rewrite IH by lia; cbv zeta; f_equal; try lia; f_equal; lia.
Qed.

Lemma region_blocks first n j : 0 <= j < n -> first = 0x08000000 /\ n = 17 \/ first = 0x40200000 /\ n = 63 ->
  exists d, kernel_translation (first + j * 2 ^ 21) = AddressSpace.Block 2 d.
Proof.
  intros Hj [[-> ->]|[-> ->]].
  - rewrite (kernel_translation_split _ 0 (64 + j) 0 0) by lia. destruct (Z.leb_spec 64 (64 + j)); [|lia].
    destruct (Z.ltb_spec (64 + j) 81); [|lia]. by eexists.
  - rewrite (kernel_translation_split _ 1 (1 + j) 0 0) by lia. change (1 =? 0) with false. change (1 =? 1) with true. cbn [andb].
    destruct (Z.eqb_spec (1 + j) 0); [lia|]. destruct (Z.ltb_spec (1 + j) 64); [|lia]. by eexists.
Qed.

Lemma validate_done fuel va v' : validate_loop fuel va va 0 v' = Some (1, v').
Proof. by destruct fuel. Qed.

Lemma mmio_validated fuel :
  validate_loop (17 + fuel) 0x08000000 0x08000000 (VM_DEVICE_MMIO_END - 0x08000000) (tallied v 0 0 0) = Some (1, tallied v 17 0 0).
Proof.
  change (VM_DEVICE_MMIO_END - 0x08000000) with (Z.of_nat 17 * 2 ^ 21 + 0).
  rewrite validate_blocks; try lia; [|intros j Hj; by apply (region_blocks _ 17); [|left]]. apply validate_done.
Qed.

Lemma ram_validated fuel :
  validate_loop (512 + (63 + fuel)) 0x40000000 0x40000000 0x08000000 (tallied v 17 0 0) = Some (1, tallied v 80 (512 - guards) guards).
Proof.
  pose proof (validate_pages 512 (63 + fuel) 0 (Z.of_nat 63 * 2 ^ 21 + 0) 0 0) as Hp.
  change (0x40000000 + 0 * 4096) with 0x40000000 in Hp. change (Z.of_nat 512 * 4096 + (Z.of_nat 63 * 2 ^ 21 + 0)) with 0x08000000 in Hp.
  rewrite Hp by lia. cbv zeta. change (seqZ 0 (Z.of_nat 512)) with (seqZ 0 512). fold guards.
  change (0x40000000 + (0 + Z.of_nat 512) * 4096) with 0x40200000.
  pose proof guards_bound. rewrite validate_blocks; try lia; [|intros j Hj; by apply (region_blocks _ 63); [|right]].
  apply validate_done.
Qed.

Lemma validate_region_loop r fuel v' : region_is_l2_aligned r = true -> Z.to_nat (vr_size r / ARM64_PAGE_SIZE) = fuel ->
  validate_region r v' = validate_loop fuel (virtual_start r) (physical_start r) (vr_size r) v'.
Proof. intros Hr <-. unfold validate_region. by rewrite Hr. Qed.

Lemma validate_two r1 r2 v0 v1 v2 : validate_region r1 v0 = Some (1, v1) -> validate_region r2 v1 = Some (1, v2) ->
  validate_regions [r1; r2] v0 = Some (1, v2).
Proof. intros E1 E2. cbn [validate_regions]. rewrite E1. cbn. by rewrite E2. Qed.

Lemma regions_validated : validate_regions vm_regions (tallied v 0 0 0) = Some (1, tallied v 80 (512 - guards) guards).
Proof.
  assert (Z.to_nat 8704 = 17 + Z.to_nat 8687)%nat as F1 by lia. assert (Z.to_nat 32768 = 512 + (63 + Z.to_nat 32193))%nat as F2 by lia.
  unfold vm_regions. set (r1 := VmRegion _ _ _ _ _ (lit "device")). set (r2 := VmRegion _ _ _ _ _ (lit "normal")).
  apply (validate_two r1 r2 _ (tallied v 17 0 0)).
  - exact (eq_trans (validate_region_loop r1 _ _ eq_refl F1) (mmio_validated (Z.to_nat 8687))).
  - exact (eq_trans (validate_region_loop r2 _ _ eq_refl F2) (ram_validated (Z.to_nat 32193))).
Qed.
End validation.

(** ** [vm_init] *)

Section init.
Context `{CodeLayout} `{AsLayout} `{VmLayout} `{!VmLayoutOk}.

Lemma tables_aligned : aligned_table vm_l1_address = true /\ (forall i, 0 <= i < 4 -> aligned_table (vm_l2_address i) = true) /\
  aligned_table vm_l3_address = true.
Proof.
  assert (forall a, phys_page a -> aligned_table a = true) as Ha.
  { intros a Hp. unfold aligned_table. apply Z.eqb_eq, (phys_page_low a); [done|]. vm_compute. done. }
  split_and!; [apply Ha, vl_l1|intros i Hi; by apply Ha, vm_l2_phys|apply Ha, vl_l3].
Qed.

(** Validation leaves the tables and counts everything it was meant to find. *)
Lemma validate_tables_ok v : built v -> built_counts (counts v) ->
  exists v', validate_tables v = Some (1, tallied v' 80 (512 - guards) guards) /\ built v' /\ built_counts (counts v') /\
    vm_validation_error_count (counts v') = 0.
Proof.
  intros Hv Hc. unfold validate_tables. cbv zeta. set (v0 := set_counts _ v).
  destruct tables_aligned as (A1 & A2 & A3). rewrite A1, A3. cbn [negb]. rewrite andb_false_r.
  assert (vm_used_l2_tables v0 = 2) as Hu by apply Hv. rewrite Hu.
  change (seqZ 0 2) with [0; 1]. cbn [forallb]. rewrite !A2 by lia. cbn [andb negb].
  assert (built v0) as Hv0 by (destruct Hv; by split). assert (built_counts (counts v0)) as Hc0 by (destruct Hc as [? ? ? ? ? (_ & _ & ?)]; by split).
  assert (v0 = tallied v0 0 0 0) as Et.
  { unfold v0, tallied, set_counts. cbn. destruct (bc_validated _ Hc) as (_ & _ & Hg). by rewrite Hg. }
  exists v0. split_and!; try done. rewrite Et at 1. rewrite (regions_validated v0 Hv0). cbn [mbind option_bind].
  change (negb (truth 1)) with false. cbv iota.
  cbn [tallied set_counts counts vm_blocks_validated vm_blocks_mapped vm_pages_validated vm_pages_mapped vm_guard_pages_validated vm_guard_pages].
  rewrite (bc_blocks _ Hc0), (bc_pages _ Hc0), (bc_guards _ Hc0), !Z.eqb_refl. done.
Qed.

(** The state after a boot that succeeded. *)
Record booted (v : vm) : Prop := {
  bo_tables : built v;
  bo_counts : vm_mapped_blocks v = 80 /\ vm_validated_blocks v = 80 /\ vm_pages_mapped (counts v) = 503 /\
    vm_pages_validated (counts v) = 503 /\ vm_guard_pages (counts v) = 9 /\ vm_guard_pages_validated (counts v) = 9 /\
    vm_executable_blocks v = 0 /\ vm_execute_never_blocks v = 80 /\ vm_validation_errors v = 0;
  bo_bytes : vm_mapped_bytes v = 80 * ARM64_L2_BLOCK_SIZE + 503 * ARM64_PAGE_SIZE;
  bo_flags : vm_ready v = 1 /\ vm_tables_built v = 1 /\ vm_validated v = 1 /\ vm_enable_attempted v = 1;
  bo_count : vm_table_count v = 4;
  bo_kinds : vm_exec_pages (counts v) + vm_xn_pages (counts v) = 503 /\ 0 <= vm_exec_pages (counts v) /\ 0 <= vm_xn_pages (counts v);
}.

Lemma vm_init_booted v r : vm_arrays v ->
  exists v', vm_init v r = Some (v', arm64_mmu_enable vm_root_table r) /\ booted v'.
Proof.
  intros Hv. unfold vm_init. destruct (build_tables_built v Hv) as (v1 & E1 & B1 & C1 & _). rewrite E1. cbn [mbind option_bind].
  cbv zeta. change (truth 1) with true. cbv iota. set (v2 := set_status _ _ _ _ v1).
  assert (built v2) as B2 by (destruct B1; by split). assert (built_counts (counts v2)) as C2 by done.
  destruct (validate_tables_ok v2 B2 C2) as (v3 & E3 & B3 & C3 & Her). rewrite E3. cbn [mbind option_bind set_status vm_ready].
  change (truth 1) with true. cbv iota. eexists. split; [reflexivity|].
  pose proof guards_nine as Hg. destruct C3 as [Q1 Q2 Q3 (Q4 & Q5 & Q7) Q6 _]. rewrite Hg in *.
  split; cbn [tallied set_counts set_status counts vm_blocks_mapped vm_blocks_validated vm_pages_mapped vm_pages_validated
    vm_guard_pages vm_guard_pages_validated vm_exec_blocks vm_xn_blocks vm_validation_error_count vm_bytes_mapped
    vm_mapped_blocks vm_validated_blocks vm_executable_blocks vm_execute_never_blocks vm_validation_errors vm_mapped_bytes
    vm_ready vm_tables_built vm_validated vm_enable_attempted].
  - destruct B3; by split.
  - by split_and!.
  - by rewrite Q6.
  - done.
  - unfold vm_table_count. cbn. by rewrite (bt_used _ B3), (bt_l3_mapped _ B3).
  - exact Q7.
Qed.
End init.

(** ** Permissions *)

Section permissions.
Context `{CodeLayout} `{AsLayout} `{VmLayout} `{!VmLayoutOk}.

(** The descriptor of a translation, and the end of a section's last page. *)
Definition desc_of (t : translation) : option Z :=
  match t with Fault => None | AddressSpace.Block _ d => Some d | Page d => Some d end.
Definition round_up (a : Z) : Z := (a + 4095) / 4096 * 4096.
Definition in_text (a : Z) : Prop := text_start <= a < round_up text_end.
Definition in_rodata (a : Z) : Prop := rodata_start <= a < round_up rodata_end.

Lemma align_down_exact a : 0 <= a < 2 ^ 64 -> align_down a ARM64_PAGE_SIZE = a / 4096 * 4096.
Proof.
  intros Ha. unfold align_down. change (ARM64_PAGE_SIZE -! 1) with (2 ^ 12 - 1). rewrite land_high_mask by lia.
  change (2 ^ 12) with 4096. Z.div_mod_to_equations. lia.
Qed.

Lemma align_up_exact a : 0 <= a < 2 ^ 63 -> align_up a ARM64_PAGE_SIZE = round_up a.
Proof.
  intros Ha. unfold align_up, round_up. change (ARM64_PAGE_SIZE -! 1) with (2 ^ 12 - 1). change ARM64_PAGE_SIZE with 4096.
  rewrite (u64_small (a + 4096)), u64_small by lia. rewrite land_high_mask by lia. change (2 ^ 12) with 4096. Z.div_mod_to_equations. lia.
Qed.

(** The order of the sections. *)
Lemma sections :
  0x40000000 <= text_start <= text_end /\ text_start mod 4096 = 0 /\ text_end <= rodata_start <= rodata_end /\
  rodata_start mod 4096 = 0 /\ rodata_end <= data_start <= data_end /\ data_start mod 4096 = 0 /\ data_end <= bss_start <= task_stack_region /\
  bss_start mod 4096 = 0 /\ task_stack_region + 69632 <= bss_end <= 0x40200000 /\
  round_up text_end <= rodata_start /\ round_up rodata_end <= data_start.
Proof.
  destruct vl_text as [? ?], vl_rodata as [? ?], vl_data as [? ?], vl_bss as [? ?], vl_stacks as (? & ? & Hr). pose proof vl_end as He.
  change SCHED_STACK_REGION_SIZE with 69632 in Hr. change VM_KERNEL_L3_END with 0x40200000 in He. change VM_KERNEL_L3_BASE with 0x40000000 in *.
  unfold round_up. split_and!; try lia; Z.div_mod_to_equations; lia.
Qed.

Lemma text_exact a : address_in_kernel_text (page_of a) = true <-> in_text a.
Proof.
  pose proof sections as (S1 & S2 & S3 & _). unfold address_in_kernel_text, address_in_range, in_text, page_of.
  rewrite align_down_exact, align_up_exact by (pose proof sections; lia). change ARM64_PAGE_SIZE with 4096. unfold round_up.
  rewrite andb_true_iff, Z.geb_le, Z.ltb_lt. Z.div_mod_to_equations. lia.
Qed.

Lemma rodata_exact a : address_in_kernel_rodata (page_of a) = true <-> in_rodata a.
Proof.
  pose proof sections as (S1 & S2 & S3 & S4 & _). unfold address_in_kernel_rodata, address_in_range, in_rodata, page_of.
  rewrite align_down_exact, align_up_exact by (pose proof sections; lia). change ARM64_PAGE_SIZE with 4096. unfold round_up.
  rewrite andb_true_iff, Z.geb_le, Z.ltb_lt. Z.div_mod_to_equations. lia.
Qed.

Lemma kernel_desc_facts va d : 0 <= va < 2 ^ 39 -> desc_of (kernel_translation va) = Some d ->
  arm64_mmu_desc_has_user_access d = false /\ (arm64_mmu_desc_is_execute_never d = false <-> in_text va) /\
  (arm64_mmu_desc_is_read_only d = true <-> in_text va \/ in_rodata va).
Proof.
  intros Hva Hd. destruct (split_address va Hva) as (i & j & k & _ & _ & _ & Hi & Hj & Hk & Eva & Hoff & _).
  rewrite (kernel_translation_split va i j k _ Eva Hi Hj Hk Hoff) in Hd. pose proof sections as Hs.
  assert (~ 0x40000000 <= va < 0x40200000 -> ~ in_text va /\ ~ in_rodata va) as Hout by (unfold in_text, in_rodata; lia).
  destruct (Z.eqb_spec i 0) as [->|]; cbn [andb] in Hd.
  - change (0 =? 1) with false in Hd. cbn [andb] in Hd. destruct (Z.leb_spec 64 j), (Z.ltb_spec j 81); try done. cbn [andb desc_of] in Hd.
    destruct (block_facts 0 _ _ j (mmio_block_ok j ltac:(lia))) as (_ & _ & _ & Hx & Hu & Hr). rewrite Z.add_0_l in Hx, Hu, Hr.
    change ARM64_L2_BLOCK_SIZE with (2 ^ 21) in *. injection Hd as <-. rewrite Hx, Hu, Hr. specialize (Hout ltac:(lia)). split_and!; [done|split; [done|tauto]..].
  - destruct (Z.eqb_spec i 1) as [->|]; [|done]. cbn [andb] in Hd. destruct (Z.eqb_spec j 0) as [->|].
    + destruct (guard_page k); [done|]. cbn [desc_of] in Hd. injection Hd as <-.
      pose proof (page_facts k Hk) as (_ & _ & Hu & Hx & Hr). cbv zeta in Hu, Hx, Hr. change ARM64_PAGE_SIZE with 4096 in *.
      rewrite Hu, Hx, Hr. assert (VM_KERNEL_L3_BASE + k * 4096 = page_of va) as ->
        by (unfold page_of; change ARM64_PAGE_SIZE with 4096; change VM_KERNEL_L3_BASE with 0x40000000; lia).
      by rewrite negb_false_iff, orb_true_iff, text_exact, rodata_exact.
    + destruct (Z.ltb_spec j 64); [|done]. cbn [desc_of] in Hd. injection Hd as <-.
      destruct (block_facts _ _ _ j (ram_region_block j ltac:(lia))) as (_ & _ & _ & Hx & Hu & Hr). change ARM64_L2_BLOCK_SIZE with (2 ^ 21) in *.
      rewrite Hx, Hu, Hr. specialize (Hout ltac:(lia)). split_and!; [done|split; [done|tauto]..].
Qed.

Lemma guard_unmapped va i : 0 <= i <= 8 -> scheduler_stack_guard_start i <= va < scheduler_stack_guard_end i -> kernel_translation va = Fault.
Proof.
  intros Hi Hva. assert (vm_address_is_guard_page va = true) as Hg.
  { apply guard_spec. exists i. rewrite guard_start_exact, guard_end_exact in Hva by done. done. }
  pose proof stacks_bounds. rewrite guard_start_exact, guard_end_exact in Hva by done. unfold kernel_translation, VM_DEVICE_MMIO_END, VM_KERNEL_L3_END.
  change VM_KERNEL_L3_BASE with 0x40000000. change ARM64_L2_BLOCK_SIZE with 0x200000. rewrite guard_page_same, Hg.
  destruct (Z.ltb_spec va 0xa200000); [lia|]. rewrite andb_false_r.
  destruct (Z.leb_spec 0x40000000 va), (Z.ltb_spec va (0x40000000 + 0x200000)); try lia. done.
Qed.
End permissions.
