(* ===== verification/VmSafety.v ===== *)
(** * What the kernel's map guarantees

    The claims about the address map after boot: boot succeeds, both walks give the
    intended translation, nothing is writable and executable, the kernel's own permission
    report says so, and user spaces created over the map see it unchanged. *)

From S2P Require Import Prelude Mmu AddressSpace Task Scheduler Vm VmProps VmInit.

(** ** The permission report *)

Section report.
Context `{CodeLayout} `{AsLayout} `{VmLayout} `{!VmLayoutOk}.
Context (v : vm) (Hv : built v).

(** A round of the range loops: a guard is skipped, anything else is mapped and of the
    kind [b], in steps of [size]. *)
Definition round (test : Z -> bool) (b : bool) (size a : Z) : Prop :=
  vm_address_is_guard_page a = true /\ size = 4096 \/
  vm_address_is_guard_page a = false /\
  exists pa d level, translation_for_address v a = Some (pa, d, level) /\ test d = b /\
    (if level =? 2 then ARM64_L2_BLOCK_SIZE else ARM64_PAGE_SIZE) = size.

Lemma align_down_id a k : 0 <= k < 64 -> 0 <= a < 2 ^ 64 -> a mod 2 ^ k = 0 -> align_down a (2 ^ k) = a.
Proof.
  intros Hk Ha Hm. unfold align_down. assert (2 ^ k <= 2 ^ 63) by (apply Z.pow_le_mono_r; lia).
  assert (0 < 2 ^ k) by (apply Z.pow_pos_nonneg; lia). rewrite (u64_small (2 ^ k - 1)) by lia.
  apply land_high_mask_aligned; [lia..|]. by apply Z.mod_divide; [lia|].
Qed.

Lemma range_loop_seen test b k (n : nat) : forall fuel a end_ seen,
  k = 12 \/ k = 21 -> 0 <= a -> a mod 2 ^ k = 0 -> end_ <= a + Z.of_nat n * 2 ^ k -> end_ < 2 ^ 39 ->
  (forall j, 0 <= j -> a + j * 2 ^ k < end_ -> round test b (2 ^ k) (a + j * 2 ^ k)) ->
  seen = true \/ (exists j, 0 <= j /\ a + j * 2 ^ k < end_ /\ vm_address_is_guard_page (a + j * 2 ^ k) = false) ->
  range_loop test (n + fuel) v a end_ (b && seen) (negb b && seen) = Some (if b then SeenYes else SeenNo).
Proof.
  intros fuel a end_ seen Hk. revert fuel a seen.
  assert (0 < 2 ^ k <= 2 ^ 21) as Hp by (destruct Hk as [-> | ->]; lia).
  assert (forall f a seen, seen = true -> end_ <= a -> range_loop test f v a end_ (b && seen) (negb b && seen) = Some (if b then SeenYes else SeenNo)) as Hdone.
  { intros f a seen -> Ha. destruct f; cbn; destruct (Z.ltb_spec a end_); try lia; by destruct b. }
  induction n as [|n IH]; intros fuel a seen Ha Hm Hn He Hr Hs.
  { destruct Hs as [->|(j & Hj & Hje & _)]; [by apply Hdone; [|lia]|]. pose proof (Z.mul_nonneg_nonneg j (2 ^ k)). lia. }
  cbn [Nat.add range_loop]. destruct (Z.ltb_spec a end_) as [Hae|Hae].
  2:{ destruct Hs as [->|(j & Hj & Hje & _)]; [by destruct b|]. pose proof (Z.mul_nonneg_nonneg j (2 ^ k)). lia. }
  assert (forall j, a + 2 ^ k + j * 2 ^ k = a + (j + 1) * 2 ^ k) as Hnext by (intros; ring).
  assert ((a + 2 ^ k) mod 2 ^ k = 0) as Hm' by (replace (a + 2 ^ k) with (a + 1 * 2 ^ k) by lia; by rewrite Z.mod_add by lia).
  assert (forall j, 0 <= j -> a + 2 ^ k + j * 2 ^ k < end_ -> round test b (2 ^ k) (a + 2 ^ k + j * 2 ^ k)) as Hr'
    by (intros j Hj Hje; rewrite Hnext in *; apply Hr; lia).
  specialize (Hr 0 ltac:(lia) ltac:(lia)) as Hr0. rewrite Z.mul_0_l, Z.add_0_r in Hr0.
  destruct Hr0 as [[Hg Hsz]|(Hg & pa & d & level & Ht & Hd & Hst)]; rewrite Hg.
  - change ARM64_PAGE_SIZE with 4096. rewrite <- Hsz, u64_small by lia. apply IH; try lia; try done.
    destruct Hs as [->|(j & Hj & Hje & Hjg)]; [by left|right]. destruct (decide (j = 0)) as [->|].
    + rewrite Z.mul_0_l, Z.add_0_r in Hjg. congruence.
    + exists (j - 1). rewrite Hnext. replace (j - 1 + 1) with j by lia. split; [lia|done].
  - unfold next_descriptor_in_range. rewrite Ht. cbn [mbind option_bind]. rewrite Hst, align_down_id, Hd by lia.
    rewrite u64_small by lia. assert (b && seen || b = b && true) as -> by (by destruct b, seen).
    assert (negb b && seen || negb b = negb b && true) as -> by (by destruct b, seen).
    assert (b && true && (negb b && true) = false) as -> by (by destruct b).
    destruct (Z.gtb_spec (a + 2 ^ k) end_); [by apply Hdone; [|lia]|]. apply IH; try lia; try done; by left.
Qed.

(** A range of the kernel's block, and one of blocks. *)
Lemma page_round test b a : 0x40000000 <= a < 0x40200000 -> a mod 4096 = 0 ->
  (forall d, desc_of (kernel_translation a) = Some d -> test d = b) -> round test b (2 ^ 12) a.
Proof.
  intros Ha Hm Hd. destruct (vm_address_is_guard_page a) eqn:Hg; [by left|right]. split; [done|].
  rewrite (translation_built v Hv) by lia. pose proof (kernel_translation_split a 1 0 ((a - 0x40000000) / 4096) 0) as Hs.
  assert (guard_page ((a - 0x40000000) / 4096) = false) as Hgp.
  { unfold guard_page. change VM_KERNEL_L3_BASE with 0x40000000. change ARM64_PAGE_SIZE with 4096. rewrite <- Hg. f_equal. Z.div_mod_to_equations. lia. }
  rewrite Hgp in Hs. change ((1 =? 0) && (64 <=? 0) && (0 <? 81)) with false in Hs. change ((1 =? 1) && (0 =? 0)) with true in Hs. cbv iota in Hs.
  rewrite Hs in * by (Z.div_mod_to_equations; lia). cbn [answer desc_of] in *. eexists _, _, _. split; [reflexivity|].
  split; [by apply Hd|reflexivity].
Qed.

Lemma range_of_pages test b start end_ :
  0x40000000 <= start < end_ -> end_ <= 0x40200000 -> start mod 4096 = 0 ->
  (forall a d, start <= a < end_ -> desc_of (kernel_translation a) = Some d -> test d = b) ->
  (exists j, 0 <= j /\ start + j * 4096 < end_ /\ vm_address_is_guard_page (start + j * 4096) = false) ->
  range_loop test (range_fuel start end_) v (align_down start ARM64_PAGE_SIZE) end_ false false = Some (if b then SeenYes else SeenNo).
Proof.
  intros Hs He Hm Hd Hj. change ARM64_PAGE_SIZE with (2 ^ 12). rewrite (align_down_id start 12) by (done || lia).
  assert (range_fuel start end_ = Z.to_nat ((end_ - start) / 4096 + 1) + 1)%nat as ->.
  { unfold range_fuel. change ARM64_PAGE_SIZE with 4096. Z.div_mod_to_equations. lia. }
  replace false with (b && false) at 1 by apply andb_false_r. replace false with (negb b && false) at 2 by apply andb_false_r.
  apply (range_loop_seen test b 12); try (change (2 ^ 12) with 4096; Z.div_mod_to_equations; lia); [|by right].
  intros j Hj0 Hje. change (2 ^ 12) with 4096 in *. apply page_round; [lia|by rewrite Z.mod_add|]. intros d. apply Hd. lia.
Qed.

Lemma mmio_range test b : (forall a d, 0x08000000 <= a < VM_DEVICE_MMIO_END -> desc_of (kernel_translation a) = Some d -> test d = b) ->
  range_loop test (range_fuel 0x08000000 VM_DEVICE_MMIO_END) v (align_down 0x08000000 ARM64_PAGE_SIZE) VM_DEVICE_MMIO_END false false =
  Some (if b then SeenYes else SeenNo).
Proof.
  intros Hd. change (align_down 0x08000000 ARM64_PAGE_SIZE) with 0x08000000.
  assert (range_fuel 0x08000000 VM_DEVICE_MMIO_END = 17 + Z.to_nat 8689)%nat as ->.
  { unfold range_fuel. change ((VM_DEVICE_MMIO_END - 0x08000000) / ARM64_PAGE_SIZE + 2) with 8706. lia. }
  replace false with (b && false) at 1 by apply andb_false_r. replace false with (negb b && false) at 2 by apply andb_false_r.
  change VM_DEVICE_MMIO_END with 0x0a200000 in *.
  apply (range_loop_seen test b 21); [by right|lia|done|lia|lia| |right; exists 0; split_and!; [lia..|apply no_guard; lia]].
  intros j Hj Hje. right. split; [apply no_guard; lia|]. destruct (region_blocks 0x08000000 17 j) as [d Ed]; [lia|by left|].
  rewrite (translation_built v Hv) by lia. specialize (Hd (0x08000000 + j * 2 ^ 21) d). rewrite Ed in *. cbn [answer desc_of] in *.
  eexists _, _, _. split; [reflexivity|]. split; [by apply Hd; [lia|]|reflexivity].
Qed.
End report.

Section claims.
Context `{CodeLayout} `{AsLayout} `{VmLayout} `{!VmLayoutOk}.

Lemma execute_status v g : g_start g < g_end g ->
  range_loop arm64_mmu_desc_is_execute_never (range_fuel (g_start g) (g_end g)) v (align_down (g_start g) ARM64_PAGE_SIZE) (g_end g) false false =
  Some (if truth (want_xn g) then SeenYes else SeenNo) -> vm_execute_permission_status v g = Some (lit "enforced").
Proof.
  intros Hg Hr. unfold vm_execute_permission_status, vm_actual_execute_permission_for_range. destruct (Z.geb_spec (g_start g) (g_end g)); [lia|].
  rewrite Hr. cbn [mbind option_bind]. by destruct (truth (want_xn g)).
Qed.

Lemma write_status v g : g_start g < g_end g ->
  range_loop arm64_mmu_desc_is_read_only (range_fuel (g_start g) (g_end g)) v (align_down (g_start g) ARM64_PAGE_SIZE) (g_end g) false false =
  Some (if truth (want_ro g) then SeenYes else SeenNo) -> vm_write_permission_status v g = Some (lit "enforced").
Proof.
  intros Hg Hr. unfold vm_write_permission_status, vm_actual_write_permission_for_range. destruct (Z.geb_spec (g_start g) (g_end g)); [lia|].
  rewrite Hr. cbn [mbind option_bind]. by destruct (truth (want_ro g)).
Qed.

(** The permissions each range is meant to have. *)
Lemma goal_facts g a d : g ∈ vm_permission_goals -> g_start g <= a < g_end g -> desc_of (kernel_translation a) = Some d ->
  arm64_mmu_desc_is_execute_never d = truth (want_xn g) /\ arm64_mmu_desc_is_read_only d = truth (want_ro g).
Proof.
  intros Hg Ha Hd. pose proof sections as Hs.
  assert (forall e, e <= round_up e) as Hup by (intros e; unfold round_up; Z.div_mod_to_equations; lia).
  pose proof (Hup text_end) as U1. pose proof (Hup rodata_end) as U2. clear Hup.
  assert (0 <= a < 2 ^ 39 /\ (truth (want_xn g) = false <-> in_text a) /\ (truth (want_ro g) = true <-> in_text a \/ in_rodata a)) as (Ha' & Hx & Hr).
  { unfold in_text, in_rodata. unfold vm_permission_goals in Hg. change VM_DEVICE_MMIO_END with 0x0a200000 in Hg.
    repeat (apply elem_of_cons in Hg as [->|Hg]); [..|by apply elem_of_nil in Hg]; cbn in Ha |- *;
      (split; [lia|split; (split; intros; [first [done|lia]|first [done|lia]])]). }
  destruct (kernel_desc_facts a d Ha' Hd) as (_ & Kx & Kr). split.
  - destruct (arm64_mmu_desc_is_execute_never d), (truth (want_xn g)); tauto || (exfalso; intuition congruence).
  - destruct (arm64_mmu_desc_is_read_only d), (truth (want_ro g)); tauto || (exfalso; intuition congruence).
Qed.

(** The ranges of the kernel's image start on pages, and have a page that is no guard. *)
Lemma goal_range v g test b : built v -> g ∈ vm_permission_goals -> g_start g < g_end g ->
  (forall a d, g_start g <= a < g_end g -> desc_of (kernel_translation a) = Some d -> test d = b) ->
  range_loop test (range_fuel (g_start g) (g_end g)) v (align_down (g_start g) ARM64_PAGE_SIZE) (g_end g) false false =
  Some (if b then SeenYes else SeenNo).
Proof.
  intros Hv Hg Hlt Hd. pose proof sections as Hs. pose proof stacks_bounds as (_ & Hm & _).
  assert (forall a, ~ task_stack_region <= a < task_stack_region + 69632 -> vm_address_is_guard_page a = false) as Hng.
  { intros a Ha. destruct (vm_address_is_guard_page a) eqn:E; [|done]. apply guard_spec in E as (i & Hi & Hr). lia. }
  assert (vm_address_is_guard_page (task_stack_region + 4096) = false) as Hst.
  { destruct (vm_address_is_guard_page _) eqn:E; [|done]. apply guard_spec in E as (i & Hi & Hr). lia. }
  assert (g_start g = 0x08000000 /\ g_end g = VM_DEVICE_MMIO_END \/
    (0x40000000 <= g_start g /\ g_end g <= 0x40200000 /\ g_start g mod 4096 = 0 /\
     (g_start g = bss_start /\ g_end g = bss_end \/ g_end g <= task_stack_region))) as [[E1 E2]|(H3 & H4 & H5 & H6)].
  { unfold vm_permission_goals in Hg. repeat (apply elem_of_cons in Hg as [->|Hg]); [..|by apply elem_of_nil in Hg]; cbn in Hlt |- *;
      first [by left|right; lia]. }
  - rewrite E1, E2 in *. by apply mmio_range.
  - apply range_of_pages; [done|lia|done..|]. destruct H6 as [[E1 E2]|H6].
    + exists ((task_stack_region + 4096 - bss_start) / 4096). rewrite E1, E2.
      replace (bss_start + (task_stack_region + 4096 - bss_start) / 4096 * 4096) with (task_stack_region + 4096) by (Z.div_mod_to_equations; lia).
      split; [Z.div_mod_to_equations; lia|split; [lia|done]].
    + exists 0. rewrite Z.mul_0_l, Z.add_0_r. split_and!; [done|lia|apply Hng; lia].
Qed.

(** ** The claims *)

Lemma guards_unmapped v : built v -> vm_stack_guard_state v = lit "unmapped".
Proof.
  intros Ht. unfold vm_stack_guard_state. change (SCHED_STACK_GUARD_SIZE / ARM64_PAGE_SIZE) with 1. change (scheduler_stack_count + 1) with 9.
  destruct (existsb _ (seqZ 0 9)) eqn:E; [|done]. exfalso. apply existsb_exists in E as (i & Hi' & E). apply list_elem_of_In, elem_of_seqZ in Hi'.
  change (seqZ 0 1) with [0] in E. cbn [existsb] in E. rewrite orb_false_r, bool_decide_eq_true in E. change ARM64_PAGE_SIZE with 4096 in E.
  pose proof stacks_bounds. rewrite guard_start_exact in E by lia. rewrite u64_small in E by lia.
  rewrite (translation_built v Ht), (guard_unmapped _ i) in E by (rewrite ?guard_start_exact, ?guard_end_exact; lia). by destruct E.
Qed.

Lemma enable_enables r : vm_mmu_enabled (arm64_mmu_enable vm_root_table r) = true.
Proof.
  unfold vm_mmu_enabled, arm64_mmu_enable. destruct (arm64_mmu_is_enabled r) eqn:Er; [done|].
  unfold arm64_mmu_is_enabled, arm64_mmu_read_sctlr. cbn [sctlr_el1]. rewrite Z.land_lor_distr_l.
  change (Z.land ARM64_SCTLR_M ARM64_SCTLR_M) with 1. apply negb_true_iff, Z.eqb_neq. intros Hz. by apply Z.lor_eq_0_iff in Hz as [_ ?].
Qed.

(** (C27) [vm_init] always returns, whatever the tables, the counters and the registers
    held before: the loops that map the regions, the loop over the kernel's pages and the
    loops that validate the result all end, the map is accepted, and translation is
    switched on with the kernel's root. 80 blocks and 503 pages are mapped and as many
    validated, 9 guard pages are left out, no error is counted, and the status calls
    report it. *)
Theorem vm_init_total v r : vm_arrays v ->
  exists v', vm_init v r = Some (v', arm64_mmu_enable vm_root_table r) /\ booted v' /\
    vm_mmu_enabled (arm64_mmu_enable vm_root_table r) = true /\
    (vm_mmu_enabled r = false -> ttbr0_el1 (arm64_mmu_enable vm_root_table r) = vm_root_table) /\
    vm_state v' (arm64_mmu_enable vm_root_table r) = lit "enabled" /\
    vm_table_state v' = lit "built" /\ vm_validation_state v' = lit "ok".
Proof.
  intros Hv. destruct (vm_init_booted v r Hv) as (v' & E & Hb). exists v'. split; [done|]. split; [done|].
  pose proof (enable_enables r) as Hen.
  destruct (bo_flags _ Hb) as (F1 & F2 & F3 & _). split; [done|]. split; [|split_and!].
  - intros Hoff. unfold vm_mmu_enabled in Hoff. unfold arm64_mmu_enable. by rewrite Hoff.
  - unfold vm_state, arm64_mmu_state. unfold vm_mmu_enabled in Hen. by rewrite F1, Hen.
  - unfold vm_table_state. by rewrite F2.
  - unfold vm_validation_state. by rewrite F3.
Qed.

(** Every successful [vm_init] leaves the booted state. *)
Lemma after_init v r v' r' : vm_arrays v -> vm_init v r = Some (v', r') -> booted v' /\ r' = arm64_mmu_enable vm_root_table r.
Proof. intros Hv Hi. destruct (vm_init_booted v r Hv) as (v1 & E & Hb). rewrite E in Hi. by injection Hi as -> ->. Qed.

(** The translation of the hardware with the registers [r]: an address past the range that
    T0SZ of [tcr_el1] gives has none (T0SZ is 32, and EPD1 closes the upper half), and any
    other is walked from [ttbr0_el1]. *)
Definition hardware_translation (r : mmu_regs) (tables : Z -> list Z) (st : as_state) (va : Z) : translation :=
  if va <? 2 ^ (64 - Z.land (tcr_el1 r) 63) then walk tables st (ttbr0_el1 r) va else Fault.

Lemma kernel_translation_high va : 0x48000000 <= va -> kernel_translation va = Fault.
Proof.
  intros Hva. unfold kernel_translation. change VM_DEVICE_MMIO_END with 0x0a200000. change VM_KERNEL_L3_END with 0x40200000.
  destruct (Z.ltb_spec va 0x0a200000), (Z.ltb_spec va 0x40200000), (Z.ltb_spec va 0x48000000); try lia. by rewrite !andb_false_r.
Qed.

Lemma low_index va k : 0 <= k <= 30 -> (va mod 2 ^ 39) / 2 ^ k mod 512 = va / 2 ^ k mod 512.
Proof.
  intros Hk. assert (0 < 2 ^ k) by (apply Z.pow_pos_nonneg; lia). rewrite (Z.div_mod va (2 ^ 39)) at 2 by lia.
  assert (2 ^ 39 * (va / 2 ^ 39) + va mod 2 ^ 39 = va mod 2 ^ 39 + va / 2 ^ 39 * 2 ^ (30 - k) * 512 * 2 ^ k) as ->.
  { assert (2 ^ 39 = 2 ^ (30 - k) * 512 * 2 ^ k) as ->; [|ring]. change 512 with (2 ^ 9). rewrite <- !Z.pow_add_r by lia. f_equal. lia. }
  by rewrite Z.div_add, Z.mod_add by lia.
Qed.

(** The kernel's own walk reads the low 39 bits of an address. *)
Lemma own_walk_low v va : translation_for_address v va = translation_for_address v (va mod 2 ^ 39).
Proof.
  destruct (indices_div va) as (E1 & E2 & E3), (indices_div (va mod 2 ^ 39)) as (F1 & F2 & F3).
  unfold translation_for_address. cbv zeta.
  change (ARM64_L2_BLOCK_SIZE - 1) with (2 ^ 21 - 1). change (ARM64_PAGE_SIZE - 1) with (2 ^ 12 - 1). rewrite !land_low_mask by lia.
  rewrite E1, E2, E3, F1, F2, F3, !low_index by lia. by rewrite !Z.mod_mod_divide by first [by exists (2 ^ 18)|by exists (2 ^ 27)].
Qed.

(** (C25) After [vm_init] at start-up the translation of the hardware, for every 64-bit
    address, is the reference translation: devices and memory are mapped to themselves, by
    2 MiB blocks except for the block of the kernel image, which is mapped by pages; the
    stack guards and all other addresses are not mapped. The walk the kernel makes itself
    ([vm_walk_address] and the functions that report on the map) agrees with it at every
    address below 2^39. Above, where the hardware translates nothing, the kernel's walk
    drops the high bits and answers as for the low 39 bits of the address. *)
Theorem walks_agree v r v' r' st va : vm_arrays v -> vm_init v r = Some (v', r') -> 0 <= va < 2 ^ 64 ->
  (vm_mmu_enabled r = false -> hardware_translation r' (vm_table_at v') st va = kernel_translation va) /\
  (va < 2 ^ 39 ->
     walk (vm_table_at v') st vm_root_table va = kernel_translation va /\
     translation_for_address v' va = answer va (kernel_translation va) /\
     (vm_walk_address v' va = Some va <-> kernel_translation va <> Fault) /\
     (vm_walk_address v' va = None <-> kernel_translation va = Fault)) /\
  (2 ^ 39 <= va -> kernel_translation va = Fault /\
     translation_for_address v' va = answer (va mod 2 ^ 39) (kernel_translation (va mod 2 ^ 39))).
Proof.
  intros Hv Hi Hva. destruct (after_init v r v' r' Hv Hi) as [Hb ->]. pose proof (bo_tables _ Hb) as Ht. split; [|split].
  - intros Hoff. unfold hardware_translation, arm64_mmu_enable. unfold vm_mmu_enabled in Hoff. rewrite Hoff. cbn [tcr_el1 ttbr0_el1 arm64_mmu_invalidate_tlb].
    change (64 - Z.land ARM64_TCR_EL1_VALUE 63) with 32. destruct (Z.ltb_spec va (2 ^ 32)); [apply walk_built; [done|lia]|].
    symmetry. apply kernel_translation_high. lia.
  - intros Hlt. assert (0 <= va < 2 ^ 39) as Hr by lia.
    unfold vm_walk_address. rewrite (translation_built v' Ht va Hr). split; [by apply walk_built|]. split; [done|].
    by destruct (kernel_translation va).
  - intros Hhi. split; [apply kernel_translation_high; lia|]. rewrite own_walk_low. apply (translation_built v' Ht), Z.mod_pos_bound. lia.
Qed.

(** (C26) The map [vm_init] switches on obeys write-xor-execute and keeps EL0 out: every
    descriptor a walk finds is closed to EL0, it allows execution exactly in the pages of
    the text section, and it is read-only exactly in the pages of the text and the
    read-only data; so nothing is both writable and executable. No address of a stack
    guard translates, and [vm_stack_guard_state] says so. *)
Theorem kernel_wx v r v' r' st va : vm_arrays v -> vm_init v r = Some (v', r') -> 0 <= va < 2 ^ 39 ->
  (forall d, desc_of (walk (vm_table_at v') st vm_root_table va) = Some d ->
     arm64_mmu_desc_has_user_access d = false /\
     (arm64_mmu_desc_is_execute_never d = false <-> in_text va) /\
     (arm64_mmu_desc_is_read_only d = true <-> in_text va \/ in_rodata va) /\
     ~ (arm64_mmu_desc_is_execute_never d = false /\ arm64_mmu_desc_is_read_only d = false)) /\
  (forall i, 0 <= i <= 8 -> scheduler_stack_guard_start i <= va < scheduler_stack_guard_end i ->
     walk (vm_table_at v') st vm_root_table va = Fault) /\
  vm_stack_guard_state v' = lit "unmapped".
Proof.
  intros Hv Hi Hva. destruct (after_init v r v' r' Hv Hi) as [Hb _]. pose proof (bo_tables _ Hb) as Ht.
  rewrite (walk_built v' Ht) by done. split_and!.
  - intros d Hd. destruct (kernel_desc_facts va d Hva Hd) as (Hu & Hx & Hr). split_and!; [done..|].
    intros [Hx' Hr']. apply Hx in Hx'. assert (arm64_mmu_desc_is_read_only d = true) by (apply Hr; by left). congruence.
  - intros i Hi' Hg. by apply (guard_unmapped va i).
  - by apply guards_unmapped.
Qed.

(** The permission report of the kernel is honest and clean: for each of the ranges
    it checks that is not empty (the four sections of the image and the devices), the
    loops over the range end, and the status of its execute and its write permission is
    "enforced". *)
Theorem permissions_enforced v r v' r' g : vm_arrays v -> vm_init v r = Some (v', r') ->
  g ∈ vm_permission_goals -> g_start g < g_end g ->
  vm_execute_permission_status v' g = Some (lit "enforced") /\ vm_write_permission_status v' g = Some (lit "enforced").
Proof.
  intros Hv Hi Hg Hlt. destruct (after_init v r v' r' Hv Hi) as [Hb _]. pose proof (bo_tables _ Hb) as Ht. split.
  - apply execute_status; [done|]. apply goal_range; [done..|]. intros a d Ha Hd. by apply (goal_facts g a d).
  - apply write_status; [done|]. apply goal_range; [done..|]. intros a d Ha Hd. by apply (goal_facts g a d).
Qed.
End claims.

(** ** User spaces over the kernel's map *)

Section user.
Context `{CodeLayout} `{!AsLayout} `{!AsLayoutOk} `{VmLayout} `{!VmLayoutOk}.

Lemma kernel_map_built v : built v -> kernel_map_ok (vm_table_at v) vm_root_table.
Proof.
  intros Hv. unfold vm_root_table. destruct (table_desc_fields _ (vm_l2_phys 0 ltac:(lia))) as [Ht Ha].
  split; rewrite ?(vm_table_l1 v Hv); change (default 0 (l1_entries !! 0%nat)) with (arm64_mmu_table_desc (vm_l2_address 0)); rewrite ?Ha.
  - pose proof vl_l1 as (_ & ? & _). lia.
  - apply vl_user. by left.
  - done.
  - done.
  - apply vl_user. right. right. by exists 0.
  - rewrite vm_table_l2, (bt_l2 v Hv) by lia. trans (length mmio_blocks); [done|]. unfold mmio_blocks, l2_blocks.
    by rewrite length_fmap, length_seqZ.
Qed.

(** Under a root whose tables were copied from the kernel's. *)
Lemma user_over_kernel v st n va : built v -> (n < 4)%nat -> slot_tables (vm_table_at v) vm_root_table n st -> 0 <= va < 2 ^ 39 ->
  let t := walk (vm_table_at v) st (l1_address (Z.of_nat n)) va in
  t = user_translation (Z.of_nat n) kernel_translation va /\
  (forall d, desc_of t = Some d -> arm64_mmu_desc_has_user_access d = true ->
     exists i, user_page va = Some i /\ arm64_mmu_l3_page_address d = page_address (Z.of_nat n) (Z.of_nat i)).
Proof.
  intros Ht Hn Hs Hva. cbv zeta. rewrite (walk_slot_tables (vm_table_at v) vm_root_table n st va Hs Hn (kernel_map_built v Ht) Hva).
  rewrite (user_translation_ext _ _ kernel_translation) by (apply walk_built; done). split; [done|].
  intros d Hd Hu. unfold user_translation in Hd. destruct (user_page va) as [i|] eqn:Eu.
  - exists i. split; [done|]. injection Hd as <-. apply l3_page_desc_fields.
    + unfold page_address, ADDRESS_SPACE_USER_REGION_COUNT. apply (array_element_phys _ 12); [apply pages_ok|].
      unfold user_page in Eu. repeat case_match; simplify_eq; lia.
    + unfold user_page in Eu. repeat case_match; simplify_eq; reflexivity.
  - destruct (shadowed va); [done|]. destruct (kernel_desc_facts va d Hva Hd) as [Hn' _]. congruence.
Qed.

(** The address spaces compose: over the tables of a booted kernel, creating a user
    space in a free slot succeeds, and under its root every address below 2^39 translates
    to the region page of the slot it belongs to, faults in the rest of the blocks that
    hold the regions, and otherwise translates as the kernel's reference translation says;
    a descriptor EL0 may use is found only in the three region pages, and is the one of
    the slot's own page. *)
Theorem user_space_over_kernel v r v' r' name st n :
  vm_arrays v -> vm_init v r = Some (v', r') -> as_wf st -> free_slot (user_table_slots_used st) 0 = Some n ->
  let s := (address_space_init_user (vm_table_at v') name vm_root_table st).1 in
  let st' := (address_space_init_user (vm_table_at v') name vm_root_table st).2 in
  created s vm_root_table n /\
  forall va, 0 <= va < 2 ^ 39 ->
    let t := walk (vm_table_at v') st' (target_root_table s) va in
    t = user_translation (Z.of_nat n) kernel_translation va /\
    (forall d, desc_of t = Some d -> arm64_mmu_desc_has_user_access d = true ->
       exists i, user_page va = Some i /\ arm64_mmu_l3_page_address d = page_address (Z.of_nat n) (Z.of_nat i)).
Proof.
  intros Hv Hi Hwf Hf s st'. destruct (after_init v r v' r' Hv Hi) as [Hb _]. pose proof (bo_tables _ Hb) as Ht.
  pose proof (kernel_map_built v' Ht) as Hk.
  pose proof (init_user_slot (vm_table_at v') name vm_root_table st n Hwf Hk Hf) as [Hc Hst]. fold s in Hc. fold st' in Hst.
  clearbody s st'. subst st'. pose proof Hf as Hn. apply free_slot_spec in Hn as (_ & Hn & _).
  apply lookup_lt_Some in Hn. rewrite Nat.sub_0_r, (wf_used st Hwf) in Hn. split; [done|]. intros va Hva.
  rewrite (cr_target _ _ _ Hc). apply user_over_kernel; [done|lia|by apply init_state_tables; [|lia]|done].
Qed.
End user.

(** ** A concrete layout *)

#[local] Instance code1 : CodeLayout :=
  {| thread_trampoline := 0x40080100; scheduler_user_task_entry := 0x40080200; idle_task := 0x40080300;
     arm64_el0_task_return := 0x40080400; task_stack_region := 0x40126000 |}.
#[local] Instance as1 : AsLayout := {| l1_base := 0x40106000; l2_base := 0x4010a000; l3_base := 0x4010e000; pages_base := 0x4011a000 |}.
#[local] Instance vm_layout1 : VmLayout :=
  {| kernel_start := 0x40080000; kernel_end := 0x40140000; text_start := 0x40080000; text_end := 0x400a0124;
     rodata_start := 0x400a1000; rodata_end := 0x400a7f00; data_start := 0x400a8000; data_end := 0x400a8a00;
     bss_start := 0x400a9000; bss_end := 0x40139000;
     vm_l1_address := 0x40100000; vm_l2_addresses := 0x40101000; vm_l3_address := 0x40105000 |}.

#[local] Instance as1_ok : AsLayoutOk.
Proof. split; first [by left|by right|split; [split; [by split|done]|by split]]. Qed.

Lemma vm_layout1_ok : VmLayoutOk.
Proof.
  split; try first [by left|by right|split; [split; [by split|done]|by split]].
  { intros a [->|[->|(i & Hi & ->)]]; [by split_and!..|].
    assert (i = 0 \/ i = 1 \/ i = 2 \/ i = 3) as [->|[->|[->| ->]]] by lia; by split_and!. }
  all: vm_compute; repeat (match goal with |- _ /\ _ => split end); first [reflexivity|intros [=]].
Qed.
#[local] Existing Instance vm_layout1_ok.

Definition vm0 : vm :=
  VmState [] (replicate 4 []) [] (replicate 4 (L2Slot 0 0)) 0 0 0 0 0 0 no_counts.
Definition regs0 : mmu_regs := MmuRegs 0 0 0 0 0.

Lemma vm0_arrays : vm_arrays vm0.
Proof. done. Qed.

(** The machine after boot. *)
Definition boot1 : vm * mmu_regs := default (vm0, regs0) (vm_init vm0 regs0).
Definition vm1 : vm := boot1.1.
Definition regs1 : mmu_regs := boot1.2.

Lemma vm1_init : vm_init vm0 regs0 = Some (vm1, regs1).
Proof.
  unfold vm1, regs1, boot1. destruct (vm_init_booted vm0 regs0 vm0_arrays) as (v' & E & _). rewrite E. reflexivity.
Qed.
#[local] Opaque boot1 vm_init.

Lemma vm_init_total_witness : exists v', vm_init vm0 regs0 = Some (v', arm64_mmu_enable vm_root_table regs0) /\ booted v'.
Proof. destruct (vm_init_total vm0 regs0 vm0_arrays) as (v' & E & Hb & _). exact (ex_intro _ v' (conj E Hb)). Defined.

Lemma walks_agree_witness :
  hardware_translation regs1 (vm_table_at vm1) as_state0 0x09000000 =
    AddressSpace.Block 2 (Z.lor 0x09000000 (Z.lor ARM64_DEVICE_MEMORY_ATTR 1)) /\
  vm_walk_address vm1 0x40080abc = Some 0x40080abc /\ vm_walk_address vm1 0x40126000 = None /\
  kernel_translation 0x8009000000 = Fault /\ is_Some (translation_for_address vm1 0x8009000000).
Proof.
  split; [|split; [|split]].
  - refine (eq_trans (proj1 (walks_agree vm0 regs0 vm1 regs1 as_state0 0x09000000 vm0_arrays vm1_init ltac:(lia)) eq_refl) _). vm_compute. reflexivity.
  - apply (proj1 (proj2 (walks_agree vm0 regs0 vm1 regs1 as_state0 0x40080abc vm0_arrays vm1_init ltac:(lia)))); [lia|]. vm_compute. discriminate.
  - apply (proj1 (proj2 (walks_agree vm0 regs0 vm1 regs1 as_state0 0x40126000 vm0_arrays vm1_init ltac:(lia)))); [lia|]. vm_compute. reflexivity.
  - destruct (proj2 (proj2 (walks_agree vm0 regs0 vm1 regs1 as_state0 0x8009000000 vm0_arrays vm1_init ltac:(lia)))) as [Hf Ht]; [lia|].
    split; [exact Hf|]. apply (mk_is_Some _ (0x09000000, Z.lor 0x09000000 (Z.lor ARM64_DEVICE_MEMORY_ATTR 1), 2)).
    refine (eq_trans Ht _). vm_compute. reflexivity.
Defined.

Lemma kernel_wx_witness :
  walk (vm_table_at vm1) as_state0 vm_root_table 0x40128010 = Fault /\ vm_stack_guard_state vm1 = lit "unmapped".
Proof.
  destruct (kernel_wx vm0 regs0 vm1 regs1 as_state0 0x40128010 vm0_arrays vm1_init) as (_ & Hg & Hs); [lia|].
  split; [|exact Hs]. apply (Hg 1); [lia|]. vm_compute. split; [intros [=]|reflexivity].
Defined.

Lemma permissions_enforced_witness :
  vm_write_permission_status vm1 (Goal_ (lit "text") text_start text_end 0 1) = Some (lit "enforced").
Proof.
  apply (permissions_enforced vm0 regs0 vm1 regs1 _ vm0_arrays vm1_init); [by left|]. vm_compute. reflexivity.
Defined.

Lemma user_space_over_kernel_witness :
  let r := address_space_init_user (vm_table_at vm1) None vm_root_table as_state0 in
  created r.1 vm_root_table 0 /\ walk (vm_table_at vm1) r.2 (target_root_table r.1) 0x40126000 = Fault.
Proof.
  destruct (user_space_over_kernel vm0 regs0 vm1 regs1 None as_state0 0 vm0_arrays vm1_init as_state0_wf eq_refl) as [Hc Hw].
  split; [exact Hc|]. destruct (Hw 0x40126000) as [E _]; [lia|]. refine (eq_trans E _). vm_compute. reflexivity.
Defined.
