(* ===== verification/Console.v ===== *)
(** * Formatted output ([kernel/console/kprintf.c], [console.c])

    What the kernel prints: the console is the list of the characters sent to it (to the
    serial port and to the frame buffer), and [kprintf] interprets its format and its
    arguments. A format or string is its characters without the terminator. The result is
    [None] where the C code is undefined: an argument that is missing or of another kind, a
    format that ends in a percent sign, whose terminator is printed and then passed, and the
    negation of the least [int]. *)

From S2P Require Import Prelude.

(** ** Definitions *)

(** Characters the code names. *)
Definition char_0 : Z := 48.
Definition char_a : Z := 97.
Definition char_minus : Z := 45.
Definition char_percent : Z := 37.
Definition char_s : Z := 115.
Definition char_c : Z := 99.
Definition char_d : Z := 100.
Definition char_x : Z := 120.

Definition INT_MIN : Z := - 2 ^ 31.
(** An argument converted to [int]. *)
Definition int_of (z : Z) : Z := (z + 2 ^ 31) mod 2 ^ 32 - 2 ^ 31.

Definition console_putc (c : Z) (out : list Z) : list Z := out ++ [c].

Fixpoint console_write (str out : list Z) : list Z :=
  match str with
  | [] => out
  | c :: str => if c =? 0 then out else console_write str (console_putc c out)
  end.

(** The nibbles of [print_hex], and the pointer past the leading zeros. *)
Definition hex_buffer (value : Z) : list Z :=
  (fun i => let nibble := Z.land (Z.shiftr value (28 - i * 4)) 0xF in
            if nibble <? 10 then char_0 + nibble else char_a + nibble - 10) <$> seqZ 0 8.
Fixpoint skip_zeros (p : list Z) : list Z :=
  match p with
  | c :: (d :: _) as rest => if (c =? char_0) && negb (d =? 0) then skip_zeros rest else p
  | _ => p
  end.
Definition print_hex (value : Z) (out : list Z) : list Z :=
  if value =? 0 then console_putc char_0 out else
  console_write (skip_zeros (hex_buffer value ++ [0])) out.

(** The digits, last first, and their number; [None] past the end of the buffer. *)
Fixpoint digits_loop (fuel : nat) (value : Z) (buffer : list Z) (i : nat) : option (list Z * nat) :=
  if value >? 0 then
    match fuel with
    | O => None
    | S fuel =>
        if (i <? length buffer)%nat
        then digits_loop fuel (value / 10) (<[i := char_0 + value mod 10]> buffer) (S i) else None
    end
  else Some (buffer, i).
(** [while (i > 0) console_putc(buffer[--i]);] *)
Fixpoint emit_loop (buffer : list Z) (i : nat) (out : list Z) : list Z :=
  match i with
  | O => out
  | S i => emit_loop buffer i (console_putc (default 0 (buffer !! i)) out)
  end.
Definition print_decimal (value : Z) (out : list Z) : option (list Z) :=
  if value =? 0 then Some (console_putc char_0 out) else
  if value =? INT_MIN then None else
  let (value, out) := if value <? 0 then (- value, console_putc char_minus out) else (value, out) in
  '(buffer, i) ← digits_loop 10 value (replicate 12 0) 0;
  Some (emit_loop buffer i out).

(** What a variable argument list holds: a string (or null) or a 32-bit integer. *)
Inductive arg := ArgStr (s : option (list Z)) | ArgInt (z : Z).

Fixpoint kprintf (fmt : list Z) (args : list arg) (out : list Z) : option (list Z) :=
  match fmt with
  | [] => Some out
  | c :: fmt =>
      if c =? char_percent then
        match fmt with
        | [] => None
        | d :: fmt =>
            if d =? char_s then
              match args with
              | ArgStr s :: args => kprintf fmt args (console_write (default (lit "(null)") s) out)
              | _ => None
              end
            else if d =? char_c then
              match args with ArgInt z :: args => kprintf fmt args (console_putc (u8 z) out) | _ => None end
            else if d =? char_d then
              match args with ArgInt z :: args => out ← print_decimal (int_of z) out; kprintf fmt args out | _ => None end
            else if d =? char_x then
              match args with ArgInt z :: args => kprintf fmt args (print_hex (u32 z) out) | _ => None end
            else kprintf fmt args (console_putc d (console_putc char_percent out))
        end
      else kprintf fmt args (console_putc c out)
  end.

(** ** Numerals *)

Definition digit_char (d : Z) : Z := if d <? 10 then char_0 + d else char_a + d - 10.
Definition char_digit (c : Z) : Z := if c <? char_a then c - char_0 else c - char_a + 10.

(** The numeral of a number, most significant digit first, and the value of a numeral. *)
Fixpoint numeral (fuel : nat) (base n : Z) : list Z :=
  match fuel with
  | O => []
  | S fuel => if n <? base then [digit_char n] else numeral fuel base (n / base) ++ [digit_char (n mod base)]
  end.
Definition decimal (v : Z) : list Z := (if v <? 0 then [char_minus] else []) ++ numeral 10 10 (Z.abs v).
Definition hexadecimal (v : Z) : list Z := numeral 8 16 v.

Definition read_numeral (base : Z) (s : list Z) : Z := foldl (fun n c => n * base + char_digit c) 0 s.
Definition read_decimal (s : list Z) : Z :=
  match s with
  | c :: rest => if c =? char_minus then - read_numeral 10 rest else read_numeral 10 s
  | [] => 0
  end.

Lemma char_digit_char d : 0 <= d < 16 -> char_digit (digit_char d) = d.
Proof.
  intros Hd. unfold char_digit, digit_char, char_0, char_a. destruct (Z.ltb_spec d 10).
  - destruct (Z.ltb_spec (48 + d) 97); lia.
  - destruct (Z.ltb_spec (97 + d - 10) 97); lia.
Qed.

Lemma read_numeral_numeral fuel base n : 2 <= base <= 16 -> 0 <= n < base ^ Z.of_nat fuel -> read_numeral base (numeral fuel base n) = n.
Proof.
  intros Hb. revert n. induction fuel as [|fuel IH]; intros n Hn.
  { change (base ^ Z.of_nat 0) with 1 in Hn. assert (n = 0) as -> by lia. done. }
  cbn [numeral]. destruct (Z.ltb_spec n base).
  - unfold read_numeral. cbn. apply char_digit_char. lia.
  - unfold read_numeral. rewrite foldl_app. fold (read_numeral base (numeral fuel base (n / base))).
    rewrite Nat2Z.inj_succ, Z.pow_succ_r in Hn by lia.
    rewrite IH by (split; [apply Z.div_pos; lia|apply Z.div_lt_upper_bound; lia]). cbn.
    rewrite char_digit_char by (pose proof (Z.mod_pos_bound n base); lia). pose proof (Z.div_mod n base). lia.
Qed.

(** A numeral starts with a digit that is not 0, unless it is the numeral of 0. *)
Lemma numeral_head fuel base n : 2 <= base <= 16 -> 0 < n < base ^ Z.of_nat fuel ->
  exists d rest, numeral fuel base n = digit_char d :: rest /\ 0 < d < base.
Proof.
  intros Hb. revert n. induction fuel as [|fuel IH]; intros n Hn; [change (base ^ Z.of_nat 0) with 1 in Hn; lia|].
  cbn [numeral]. destruct (Z.ltb_spec n base); [exists n, []; split; [done|lia]|].
  rewrite Nat2Z.inj_succ, Z.pow_succ_r in Hn by lia.
  destruct (IH (n / base)) as (d & rest & -> & Hd).
  { split; [apply Z.div_str_pos; lia|apply Z.div_lt_upper_bound; lia]. }
  by exists d, (rest ++ [digit_char (n mod base)]).
Qed.

Lemma length_numeral fuel base n : (length (numeral fuel base n) <= fuel)%nat.
Proof.
  revert n. induction fuel as [|fuel IH]; intros n; cbn; [done|]. destruct (n <? base); [cbn; lia|].
  rewrite length_app. cbn. specialize (IH (n / base)). lia.
Qed.

(** ** The printers *)

(** The digits loop stores the numeral backwards, and the buffer is long enough. *)
Lemma digits_loop_numeral (fuel : nat) : forall value buffer i,
  0 < value < 10 ^ Z.of_nat fuel -> (i + fuel <= length buffer)%nat ->
  exists n, digits_loop fuel value buffer i = Some n /\ length n.1 = length buffer /\ (i < n.2 <= i + fuel)%nat /\
    take i n.1 = take i buffer /\ take (n.2 - i) (drop i n.1) = reverse (numeral fuel 10 value).
Proof.
  induction fuel as [|fuel IH]; intros value buffer i Hv Hl; [change (10 ^ Z.of_nat 0) with 1 in Hv; lia|].
  cbn [digits_loop numeral]. destruct (Z.gtb_spec value 0); [|lia]. destruct (Nat.ltb_spec i (length buffer)); [|lia].
  set (b := <[i := char_0 + value mod 10]> buffer). assert (length b = length buffer) as Hb by apply length_insert.
  assert (b !! i = Some (char_0 + value mod 10)) as Hbi by (apply list_lookup_insert_eq; lia).
  assert (take i b = take i buffer) as Hbt by (unfold b; by rewrite take_insert, decide_False by lia).
  assert (digit_char (value mod 10) = char_0 + value mod 10) as Hd.
  { unfold digit_char. pose proof (Z.mod_pos_bound value 10). by destruct (Z.ltb_spec (value mod 10) 10); [|lia]. }
  rewrite Nat2Z.inj_succ, Z.pow_succ_r in Hv by lia. destruct (Z.ltb_spec value 10).
  - rewrite Z.div_small by lia. exists (b, S i). split; [by destruct fuel|]. cbn [fst snd]. split; [done|]. split; [lia|]. split; [done|].
    replace (S i - i)%nat with 1%nat by lia. rewrite (drop_S _ _ _ Hbi). cbn. by rewrite <- Hd, Z.mod_small by lia.
  - destruct (IH (value / 10) b (S i)) as ([b' n] & E & Hb' & Hn & Ht & Hr).
    { split; [apply Z.div_str_pos; lia|apply Z.div_lt_upper_bound; lia]. }
    { lia. }
    exists (b', n). split; [done|]. cbn [fst snd] in *. split; [lia|]. split; [lia|].
    assert (take i b' = take i b) as Ht'.
    { apply (f_equal (take i)) in Ht. rewrite !take_take, Nat.min_l in Ht by lia. done. }
    split; [congruence|]. assert (b' !! i = Some (char_0 + value mod 10)) as Hbi'.
    { rewrite <- (lookup_take_lt b' (S i) i) by lia. rewrite Ht, lookup_take_lt by lia. done. }
    replace (n - i)%nat with (S (n - S i)) by lia. rewrite (drop_S _ _ _ Hbi'). cbn [take]. rewrite reverse_app, Hr, Hd. done.
Qed.

Lemma emit_loop_reverse buffer i out : (i <= length buffer)%nat -> emit_loop buffer i out = out ++ reverse (take i buffer).
Proof.
  revert out. induction i as [|i IH]; intros out Hi; cbn; [by rewrite app_nil_r|].
  destruct (lookup_lt_is_Some_2 buffer i) as [c Hc]; [lia|]. rewrite (take_S_r _ _ _ Hc), reverse_app, Hc, IH by lia.
  unfold console_putc. cbn. by rewrite <- app_assoc.
Qed.

Lemma print_decimal_spec v out : INT_MIN < v < 2 ^ 31 -> print_decimal v out = Some (out ++ decimal v).
Proof.
  intros Hv. unfold print_decimal, decimal. change INT_MIN with (- 2 ^ 31) in *. destruct (Z.eqb_spec v 0) as [->|]; [done|].
  destruct (Z.eqb_spec v (- 2 ^ 31)); [lia|].
  assert (forall w o, 0 < w < 2 ^ 31 ->
    ('(buffer, i) ← digits_loop 10 w (replicate 12 0) 0; Some (emit_loop buffer i o)) = Some (o ++ numeral 10 10 w)) as Hw.
  { intros w o Hw.
    destruct (digits_loop_numeral 10 w (replicate 12 0) 0) as ([b m] & E & Hb & Hn & _ & Hr).
    { change (10 ^ Z.of_nat 10) with 10000000000. lia. }
    { rewrite length_replicate. lia. }
    rewrite E. cbn [mbind option_bind fst snd] in *. rewrite Nat.sub_0_r, drop_0 in Hr.
    rewrite length_replicate in Hb. rewrite emit_loop_reverse, Hr, reverse_involutive by lia. done. }
  destruct (Z.ltb_spec v 0).
  - rewrite Hw by lia. unfold console_putc. rewrite Z.abs_neq by lia. by rewrite app_assoc.
  - rewrite Hw by lia. by rewrite Z.abs_eq by lia.
Qed.

Lemma console_write_app s out : cstring s -> console_write s out = out ++ s.
Proof.
  intros Hs. revert out. induction Hs as [|c s Hc _ IH]; intros out; cbn; [by rewrite app_nil_r|].
  destruct (Z.eqb_spec c 0); [done|]. rewrite IH. unfold console_putc. by rewrite <- app_assoc.
Qed.

(** The eight nibbles, and what is left of them without leading zeros. *)
Fixpoint padded (k : nat) (v : Z) : list Z :=
  match k with O => [] | S k => digit_char (v / 16 ^ Z.of_nat k mod 16) :: padded k v end.

Lemma padded_snoc k v : 0 <= v -> padded (S k) v = padded k (v / 16) ++ [digit_char (v mod 16)].
Proof.
  intros Hv. induction k as [|k IH]; [cbn; by rewrite Z.div_1_r|].
  cbn [padded] in *. cbn [app]. rewrite <- IH, Z.div_div by lia. do 3 f_equal. rewrite Nat2Z.inj_succ, Z.pow_succ_r by lia. done.
Qed.

Lemma numeral_padded k v : 16 ^ Z.of_nat k <= v < 16 ^ Z.of_nat (S k) -> numeral (S k) 16 v = padded (S k) v.
Proof.
  revert v. induction k as [|k IH]; intros v Hv.
  - change (16 ^ Z.of_nat 0) with 1 in Hv. change (16 ^ Z.of_nat 1) with 16 in Hv. cbn. destruct (Z.ltb_spec v 16); [|lia].
    by rewrite Z.div_1_r, Z.mod_small by lia.
  - rewrite !(Nat2Z.inj_succ), !Z.pow_succ_r in Hv by lia. pose proof (Z.pow_pos_nonneg 16 (Z.of_nat k)).
    rewrite padded_snoc by lia. rewrite <- IH.
    + cbn [numeral]. destruct (Z.ltb_spec v 16); [lia|]. done.
    + rewrite Nat2Z.inj_succ, Z.pow_succ_r by lia. split; [apply Z.div_le_lower_bound; lia|apply Z.div_lt_upper_bound; lia].
Qed.

Lemma numeral_more k base n : 2 <= base -> 0 <= n < base ^ Z.of_nat (S k) -> numeral (S (S k)) base n = numeral (S k) base n.
Proof.
  intros Hb. revert n. induction k as [|k IH]; intros n Hn.
  - change (base ^ Z.of_nat 1) with (base ^ 1) in Hn. rewrite Z.pow_1_r in Hn. cbn. by destruct (Z.ltb_spec n base); [|lia].
  - rewrite Nat2Z.inj_succ, Z.pow_succ_r in Hn by lia. specialize (IH (n / base)). cbn [numeral] in *. destruct (Z.ltb_spec n base); [done|].
    rewrite IH; [done|]. split; [apply Z.div_pos; lia|apply Z.div_lt_upper_bound; lia].
Qed.

Lemma digit_char_nonzero d : 0 <= d < 16 -> digit_char d <> 0.
Proof. intros Hd. unfold digit_char, char_0, char_a. destruct (Z.ltb_spec d 10); lia. Qed.

Lemma skip_zero d rest : d <> 0 -> skip_zeros (char_0 :: d :: rest) = skip_zeros (d :: rest).
Proof. intros Hd. cbn [skip_zeros]. by rewrite (proj2 (Z.eqb_neq d 0) Hd). Qed.

Lemma skip_zeros_padded k v : 0 < v < 16 ^ Z.of_nat (S k) -> skip_zeros (padded (S k) v ++ [0]) = numeral (S k) 16 v ++ [0].
Proof.
  revert v. induction k as [|k IH]; intros v Hv.
  - change (16 ^ Z.of_nat 1) with 16 in Hv. cbn. rewrite Z.div_1_r, Z.mod_small by lia. destruct (Z.ltb_spec v 16); [|lia].
    rewrite andb_false_r. done.
  - destruct (Z.leb_spec (16 ^ Z.of_nat (S k)) v) as [Hge|Hlt].
    + rewrite numeral_padded by lia. cbn [padded app skip_zeros]. rewrite Nat2Z.inj_succ in Hv. rewrite Z.pow_succ_r in Hv by lia.
      pose proof (Z.pow_pos_nonneg 16 (Z.of_nat (S k))).
      assert (1 <= v / 16 ^ Z.of_nat (S k) < 16) as Hd by (split; [apply Z.div_le_lower_bound; lia|apply Z.div_lt_upper_bound; lia]).
      rewrite (Z.mod_small (v / _)) by lia. destruct (Z.eqb_spec (digit_char (v / 16 ^ Z.of_nat (S k))) char_0) as [E|]; [|done].
      apply (f_equal char_digit) in E. rewrite char_digit_char in E by lia. change (char_digit char_0) with 0 in E. lia.
    + rewrite numeral_more by lia. rewrite <- IH by lia. cbn [padded app]. rewrite (Z.div_small v (16 ^ Z.of_nat (S k))) by lia.
      apply skip_zero, digit_char_nonzero, Z.mod_pos_bound. lia.
Qed.

Lemma hex_buffer_padded v : 0 <= v -> hex_buffer v = padded 8 v.
Proof.
  intros Hv. unfold hex_buffer.
  assert (forall s, 0 <= s -> Z.land (Z.shiftr v s) 0xF = v / 2 ^ s mod 16) as Hn.
  { intros s Hs. rewrite (land_low_mask _ 4), Z.shiftr_div_pow2 by lia. done. }
  change (seqZ 0 8) with [0; 1; 2; 3; 4; 5; 6; 7]. cbn [fmap list_fmap padded]. rewrite !Hn by lia. done.
Qed.

Lemma print_hex_spec v out : 0 <= v < 2 ^ 32 -> print_hex v out = out ++ hexadecimal v.
Proof.
  intros Hv. unfold print_hex. destruct (Z.eqb_spec v 0) as [->|]; [done|].
  rewrite hex_buffer_padded, skip_zeros_padded by (try (change (16 ^ Z.of_nat 8) with (2 ^ 32)); lia).
  assert (forall s o, cstring s -> console_write (s ++ [0]) o = o ++ s) as Hw.
  { intros s o Hs. revert o. induction Hs as [|c s Hc _ IH]; intros o; cbn; [by rewrite app_nil_r|].
    destruct (Z.eqb_spec c 0); [done|]. rewrite IH. unfold console_putc. by rewrite <- app_assoc. }
  apply Hw. unfold hexadecimal.
  assert (forall fuel n, 0 <= n -> cstring (numeral fuel 16 n)) as Hc; [|apply Hc; lia].
  induction fuel as [|fuel IH]; intros m Hm; cbn; [constructor|]. destruct (Z.ltb_spec m 16).
  - constructor; [apply digit_char_nonzero; lia|constructor].
  - apply Forall_app. split; [apply IH, Z.div_pos; lia|]. constructor; [apply digit_char_nonzero, Z.mod_pos_bound; lia|constructor].
Qed.

(** ** What a format prints *)

(** A format in pieces, its text, the arguments it takes and what it prints. *)
Inductive piece := Text (s : list Z) | Str (s : option (list Z)) | Chr (z : Z) | Dec (z : Z) | Hex (z : Z) | Other (c : Z).

(** Plain text has no percent sign, and the character after a percent sign of no meaning
    is none of the four. *)
Definition piece_ok (p : piece) : Prop :=
  match p with
  | Text s => Forall (fun c => c <> char_percent) s
  | Str s => cstring (default [] s)
  | Dec z => int_of z <> INT_MIN
  | Other c => c <> char_s /\ c <> char_c /\ c <> char_d /\ c <> char_x
  | _ => True
  end.
Definition piece_format (p : piece) : list Z :=
  match p with
  | Text s => s
  | Str _ => [char_percent; char_s] | Chr _ => [char_percent; char_c] | Dec _ => [char_percent; char_d]
  | Hex _ => [char_percent; char_x] | Other c => [char_percent; c]
  end.
Definition piece_args (p : piece) : list arg :=
  match p with
  | Str s => [ArgStr s]
  | Chr z | Dec z | Hex z => [ArgInt z]
  | _ => []
  end.
Definition piece_output (p : piece) : list Z :=
  match p with
  | Text s => s
  | Str s => default (lit "(null)") s
  | Chr z => [u8 z]
  | Dec z => decimal (int_of z)
  | Hex z => hexadecimal (u32 z)
  | Other c => [char_percent; c]
  end.

Lemma int_of_range z : INT_MIN <= int_of z < 2 ^ 31.
Proof. unfold int_of, INT_MIN. pose proof (Z.mod_pos_bound (z + 2 ^ 31) (2 ^ 32)). lia. Qed.

Lemma kprintf_text s fmt args out : Forall (fun c => c <> char_percent) s -> kprintf (s ++ fmt) args out = kprintf fmt args (out ++ s).
Proof.
  intros Hs. revert out. induction Hs as [|c s Hc _ IH]; intros out; [by rewrite app_nil_r|].
  cbn [app kprintf]. rewrite (proj2 (Z.eqb_neq c _) Hc), IH. unfold console_putc. by rewrite <- app_assoc.
Qed.

Lemma kprintf_piece p fmt args out : piece_ok p ->
  kprintf (piece_format p ++ fmt) (piece_args p ++ args) out = kprintf fmt args (out ++ piece_output p).
Proof.
  destruct p as [s|s|z|z|z|c]; cbn [piece_format piece_args piece_output piece_ok]; intros Hp.
  - by apply kprintf_text.
  - cbn. rewrite console_write_app; [done|]. destruct s; [done|]. vm_compute. repeat constructor; discriminate.
  - done.
  - cbn. rewrite print_decimal_spec by (pose proof (int_of_range z); lia). done.
  - cbn. rewrite print_hex_spec by apply u32_range. done.
  - destruct Hp as (H1 & H2 & H3 & H4). cbn [app kprintf]. change (char_percent =? char_percent) with true. cbv iota.
    rewrite (proj2 (Z.eqb_neq c _) H1), (proj2 (Z.eqb_neq c _) H2), (proj2 (Z.eqb_neq c _) H3), (proj2 (Z.eqb_neq c _) H4).
    unfold console_putc. by rewrite <- app_assoc.
Qed.

Lemma kprintf_pieces ps out : Forall piece_ok ps ->
  kprintf (concat (piece_format <$> ps)) (concat (piece_args <$> ps)) out = Some (out ++ concat (piece_output <$> ps)).
Proof.
  intros Hps. revert out. induction Hps as [|p ps Hp _ IH]; intros out; [cbn; by rewrite app_nil_r|].
  cbn [fmap list_fmap concat]. rewrite kprintf_piece, IH by done. by rewrite app_assoc.
Qed.

(** A check for text. *)
Definition text_ok (s : list Z) : bool := forallb (fun c => negb (c =? char_percent)) s.
Lemma text_ok_piece s : text_ok s = true -> piece_ok (Text s).
Proof.
  unfold text_ok. rewrite forallb_forall. intros Hs. apply Forall_forall. intros c Hc. apply list_elem_of_In, Hs in Hc.
  by apply negb_true_iff, Z.eqb_neq in Hc.
Qed.

(** (C37) [kprintf] prints what its format says: for a format of plain text and directives
    and the arguments it takes, it returns, and the console has received the text with each
    directive replaced by the string, character or numeral of its argument ("(null)" for a
    null string; a directive of no meaning stands for itself). The buffers of the number
    printers are never overrun. *)
Theorem kprintf_output ps out : Forall piece_ok ps ->
  kprintf (concat (piece_format <$> ps)) (concat (piece_args <$> ps)) out = Some (out ++ concat (piece_output <$> ps)).
Proof. apply kprintf_pieces. Qed.

(** The numerals of [print_decimal] and [print_hex] round-trip: reading back what they
    print gives the number, for every [int] but the least and every [unsigned int], and no
    numeral of a number but 0 starts with the digit 0. *)
Theorem numerals_roundtrip v w : INT_MIN < v < 2 ^ 31 -> 0 <= w < 2 ^ 32 ->
  (exists s, print_decimal v [] = Some s /\ read_decimal s = v /\ (v <> 0 -> s !! 0%nat <> Some char_0)) /\
  read_numeral 16 (print_hex w []) = w /\ (w <> 0 -> print_hex w [] !! 0%nat <> Some char_0).
Proof.
  intros Hv Hw. change INT_MIN with (- 2 ^ 31) in Hv.
  assert (forall d, 0 < d < 16 -> digit_char d <> char_0) as Hd
    by (intros d Hd; unfold digit_char, char_0, char_a; destruct (Z.ltb_spec d 10); lia).
  split; [|rewrite print_hex_spec by done; split].
  - exists (decimal v). split; [by apply (print_decimal_spec v [])|].
    assert (read_numeral 10 (numeral 10 10 (Z.abs v)) = Z.abs v) as Hr by (apply read_numeral_numeral; [lia|change (10 ^ Z.of_nat 10) with 10000000000; lia]).
    destruct (Z.eq_dec v 0) as [->|Hnz]; [done|].
    destruct (numeral_head 10 10 (Z.abs v)) as (d & rest & E & Hd'); [lia|change (10 ^ Z.of_nat 10) with 10000000000; lia|].
    unfold decimal. destruct (Z.ltb_spec v 0); cbn [app read_decimal].
    + change (char_minus =? char_minus) with true. split; [lia|]. intros _ [=].
    + rewrite E in *. cbn [read_decimal]. destruct (Z.eqb_spec (digit_char d) char_minus) as [Em|].
      { exfalso. revert Em. unfold digit_char, char_0, char_a, char_minus. destruct (Z.ltb_spec d 10); lia. }
      split; [lia|]. intros _ [=]. by apply (Hd d); [lia|].
  - apply read_numeral_numeral; [lia|]. change (16 ^ Z.of_nat 8) with (2 ^ 32). lia.
  - intros Hnz. destruct (numeral_head 8 16 w) as (d & rest & E & Hd'); [lia|change (16 ^ Z.of_nat 8) with (2 ^ 32); lia|].
    unfold hexadecimal. cbn [app]. rewrite E. intros [=]. by apply (Hd d); [lia|].
Qed.

(** The limits: a format whose last character is a percent sign makes [kprintf] pass its
    terminator, the least [int] is negated, and a doubled percent sign prints twice. *)
Theorem kprintf_limits out :
  kprintf (lit "100%") [] out = None /\ kprintf (lit "%d") [ArgInt (2 ^ 31)] out = None /\
  kprintf (lit "100%%") [] out = Some (out ++ lit "100%%").
Proof.
  split; [reflexivity|]. split; [reflexivity|]. rewrite (kprintf_text (lit "100") (lit "%%")) by (vm_compute; repeat constructor; discriminate).
  rewrite (kprintf_piece (Other char_percent) [] []) by (vm_compute; repeat split; discriminate). cbn [kprintf]. by rewrite <- app_assoc.
Qed.

Lemma kprintf_output_witness :
  kprintf (lit "pid %d at 0x%x: %s") [ArgInt (-7); ArgInt 0xbeef; ArgStr None] [] = Some (lit "pid -7 at 0xbeef: (null)").
Proof.
  apply (kprintf_output [Text (lit "pid "); Dec (-7); Text (lit " at 0x"); Hex 0xbeef; Text (lit ": "); Str None] []).
  repeat constructor; vm_compute; discriminate.
Defined.

Lemma numerals_roundtrip_witness : read_numeral 16 (print_hex 0xdeadbeef []) = 0xdeadbeef.
Proof. apply (numerals_roundtrip 5 0xdeadbeef); unfold INT_MIN; lia. Defined.
