(* ===== verification/Exception.v ===== *)
(** * Exceptions and the panic ([kernel/exception/decoder.c], [arch/arm64/exception.c],
    [exception.s], [kernel/panic/panic.c])

    Decoding of the syndrome register, the vector table, the two handlers and the panic
    report. What happens after a handler is a [control]: an exception return with the
    registers of the frame, the endless loops of the panic and of the default vector, or a
    system call that has not finished. The system registers a handler reads are arguments. *)

From S2P Require Import Prelude BlockDevice Sfs Vfs Executable Mmu AddressSpace Task User Scheduler Pmm Syscall Console.

(** ** Definitions *)

(** *** [decoder.c] *)

Definition ESR_FSC_MASK : Z := 0x3F.
Definition ESR_WNR : Z := Z.shiftl 1 6.

Record exception_info := ExceptionInfo {
  exception_class : list Z;
  fault_status : list Z;
  access_type : list Z;
  info_ec : Z;
  info_iss : Z;
  info_fsc : Z;
  fault_level : Z;
  has_fault_status : Z;
}.

Definition decode_exception_class (esr : Z) : list Z :=
  let ec := exception_class_value esr in
  if ec =? 0x15 then lit "SVC Instruction"
  else if ec =? 0x20 then lit "Instruction Abort from lower EL"
  else if ec =? 0x21 then lit "Instruction Abort from same EL"
  else if ec =? 0x24 then lit "Data Abort from lower EL"
  else if ec =? 0x25 then lit "Data Abort from same EL"
  else if ec =? 0x3C then lit "Breakpoint Instruction"
  else lit "Unknown Exception".

Definition decode_fault_status (fsc : Z) : list Z :=
  if fsc =? 0x04 then lit "Translation Fault, level 0"
  else if fsc =? 0x05 then lit "Translation Fault, level 1"
  else if fsc =? 0x06 then lit "Translation Fault, level 2"
  else if fsc =? 0x07 then lit "Translation Fault, level 3"
  else if fsc =? 0x09 then lit "Access Flag Fault, level 1"
  else if fsc =? 0x0a then lit "Access Flag Fault, level 2"
  else if fsc =? 0x0b then lit "Access Flag Fault, level 3"
  else if fsc =? 0x0d then lit "Permission Fault, level 1"
  else if fsc =? 0x0e then lit "Permission Fault, level 2"
  else if fsc =? 0x0f then lit "Permission Fault, level 3"
  else if fsc =? 0x21 then lit "Alignment Fault"
  else lit "Unknown Fault Status".

Definition decode_exception_info (esr : Z) : exception_info :=
  let ec := exception_class_value esr in
  let iss := Z.land esr ESR_ISS_MASK in
  if (ec =? 0x20) || (ec =? 0x21) || (ec =? 0x24) || (ec =? 0x25) then
    let fsc := Z.land iss ESR_FSC_MASK in
    let access := if (ec =? 0x20) || (ec =? 0x21) then lit "Instruction Fetch"
                  else if truth (Z.land iss ESR_WNR) then lit "Write" else lit "Read" in
    ExceptionInfo (decode_exception_class esr) (decode_fault_status fsc) access ec iss fsc (Z.land fsc 0x3) 1
  else
    ExceptionInfo (decode_exception_class esr) (lit "Not Applicable") (lit "Not Applicable") ec iss 0 (-1) 0.

(** *** [panic.c] *)

Definition newline : list Z := [10].

(** The calls of [kprintf], in order, as formats and arguments. *)
Definition panic_report (info : exception_info) (esr elr far spsr : Z) : list (list Z * list arg) :=
  [(newline, []);
   (lit "====================================================" ++ newline, []);
   (lit "             SaturnOS KERNEL PANIC" ++ newline, []);
   (lit "====================================================" ++ newline ++ newline, []);
   (lit "Reason : %s" ++ newline, [ArgStr (Some (exception_class info))]);
   (lit "EC     : 0x%x" ++ newline, [ArgInt (u32 (info_ec info))]);
   (lit "ISS    : 0x%x" ++ newline, [ArgInt (u32 (info_iss info))])] ++
  (if truth (has_fault_status info) then
     [(lit "Access : %s" ++ newline, [ArgStr (Some (access_type info))]);
      (lit "FSC    : 0x%x" ++ newline, [ArgInt (u32 (info_fsc info))]);
      (lit "Fault  : %s" ++ newline, [ArgStr (Some (fault_status info))]);
      (lit "Level  : %d" ++ newline, [ArgInt (fault_level info)])]
   else []) ++
  [(newline, []);
   (lit "ESR_EL1 : 0x%x" ++ newline, [ArgInt (u32 esr)]);
   (lit "ELR_EL1 : 0x%x" ++ newline, [ArgInt (u32 elr)]);
   (lit "FAR_EL1 : 0x%x" ++ newline, [ArgInt (u32 far)]);
   (lit "SPSR_EL1: 0x%x" ++ newline, [ArgInt (u32 spsr)]);
   (newline ++ lit "System Halted." ++ newline, [])].

Fixpoint print_all (calls : list (list Z * list arg)) (out : list Z) : option (list Z) :=
  match calls with
  | [] => Some out
  | (fmt, args) :: calls => out ← kprintf fmt args out; print_all calls out
  end.
(** What is on the console when the panic loops. *)
Definition kernel_panic (info : exception_info) (esr elr far spsr : Z) (out : list Z) : option (list Z) :=
  print_all (panic_report info esr elr far spsr) out.

(** *** [exception.c] *)

Definition ESR_EC_SVC64 : Z := 0x15.
Definition exception_from_el0 (spsr : Z) : bool := Z.land spsr SPSR_MODE_MASK =? ARM64_SPSR_MODE_EL0T.

(** [struct exception_frame] as its 32 words, and the word of register [xr]. *)
Definition exception_frame : Type := list Z.
Definition frame_index (r : Z) : nat :=
  if r =? 30 then 0%nat else Z.to_nat (if Z.even r then 30 - r else 32 - r).
Definition frame_x (f : exception_frame) (r : Z) : Z := default 0 (f !! frame_index r).
Definition set_frame_x (r v : Z) (f : exception_frame) : exception_frame := <[frame_index r := v]> f.

(** How control leaves the code below the vector: back by [eret] with these registers; the
    endless loop of the panic; the endless loop of the default vector; inside a system call
    that has given the processor away or has to go on ([r] says how, [f] is the frame to
    return with); or at an access of the kernel that faults. *)
Inductive control :=
  | Eret (f : exception_frame)
  | Panicked
  | Spin
  | InCall (f : exception_frame) (r : reply)
  | KernelFaults.

Section ops.
Context `{CodeLayout} `{AsLayout} (kernel_table : Z -> list Z).
Context {B : Type} `{BlockDevice B}.
Context (interval_ms : Z).
Implicit Types k : kernel B.

(** The end of the branch for system calls. *)
Definition finish_call (f : exception_frame) (p : reply * kernel B) : control * kernel B :=
  match p with
  | (Done r, k) => (Eret (set_frame_x 0 (u64 r) f), k)
  | (KernelFault, k) => (KernelFaults, k)
  | (r, k) => (InCall f r, k)
  end.

(** The panic: its report is printed and the processor loops. *)
Definition panic (esr elr far spsr : Z) k : control * kernel B :=
  match kernel_panic (decode_exception_info esr) esr elr far spsr (console k) with
  | Some out => (Panicked, set_console out k)
  | None => (KernelFaults, k)
  end.

Definition user_handles (esr elr far spsr : Z) k : bool * kernel B :=
  let (handled, s) := user_mode_handle_exception esr elr far spsr (ksys k) in (truth handled, set_ksys s k).

Definition exception_sync_handler (f : exception_frame) (esr elr far spsr : Z) k : control * kernel B :=
  if exception_from_el0 spsr && (exception_class_value esr =? ESR_EC_SVC64) then
    finish_call f (syscall_dispatch kernel_table interval_ms (frame_x f 8) (frame_x f 0) (frame_x f 1) (frame_x f 2) (frame_x f 3) k)
  else
    let (handled, k) := user_handles esr elr far spsr k in
    if handled then (Eret f, k) else panic esr elr far spsr k.

(** [exception_handler], and the loop of [exception_default_handler] after it. *)
Definition exception_handler (esr elr far spsr : Z) k : control * kernel B :=
  let (handled, k) := user_handles esr elr far spsr k in
  if handled then (Spin, k) else panic esr elr far spsr k.

(** *** The vector table of [exception.s] *)

Inductive exception_kind := Synchronous | Irq | Fiq | SError.
Inductive exception_source := CurrentSp0 | CurrentSpx | Lower64 | Lower32.
Inductive vector_entry := DefaultEntry | SyncEntry | IrqEntry.
Definition exception_vector (source : exception_source) (kind : exception_kind) : vector_entry :=
  match source, kind with
  | CurrentSpx, Irq => IrqEntry
  | Lower64, Synchronous => SyncEntry
  | _, _ => DefaultEntry
  end.
End ops.
