(* ===== verification/ExceptionProps.v ===== *)
(** * What exceptions do to the kernel

    The report of the panic, the life of a program across the exceptions it raises, the
    kernel's invariant across the handlers, and two ways in which a program brings the
    machine down: a system call that faults the kernel, and a timer interrupt while the
    program runs. *)

From S2P Require Import Prelude PageAllocator Pmm BlockDevice Block Sfs Vfs VfsProps Executable Mmu AddressSpace Task User Scheduler SchedulerProps Syscall UserMemory Steps SyscallProps SyscallFiles SyscallExamples Console Exception.

(** ** The report *)

(** A call of [kprintf] whose format and arguments are pieces. *)
Definition line_ok (c : list Z * list arg) : Prop :=
  exists ps, Forall piece_ok ps /\ c.1 = concat (piece_format <$> ps) /\ c.2 = concat (piece_args <$> ps).

Lemma print_all_lines calls : Forall line_ok calls -> forall out, exists text, print_all calls out = Some (out ++ text).
Proof.
  induction 1 as [|[fmt args] calls (ps & Hps & E1 & E2) _ IH]; intros out; [exists []; cbn; by rewrite app_nil_r|].
  cbn in E1, E2. subst fmt args. cbn [print_all]. rewrite kprintf_pieces by done. cbn [mbind option_bind].
  destruct (IH (out ++ concat (piece_output <$> ps))) as [text ->]. exists (concat (piece_output <$> ps) ++ text). by rewrite app_assoc.
Qed.

Lemma text_line s : text_ok s = true -> line_ok (s, []).
Proof.
  intros Hs. exists [Text s]. cbn. rewrite app_nil_r. split_and!; [|done..]. constructor; [by apply text_ok_piece|constructor].
Qed.

(** A line with one directive between two texts. *)
Lemma piece_line s p t : text_ok s = true -> text_ok t = true -> piece_ok p -> line_ok (s ++ piece_format p ++ t, piece_args p).
Proof.
  intros Hs Ht Hp. exists [Text s; p; Text t]. cbn. rewrite !app_nil_r. split_and!; [|done..].
  repeat constructor; [by apply text_ok_piece|done|by apply text_ok_piece].
Qed.

Lemma cstring_lit s : forallb (fun c => negb (c =? 0)) s = true -> cstring s.
Proof.
  rewrite forallb_forall. intros Hs. apply Forall_forall. intros c Hc. apply list_elem_of_In, Hs in Hc.
  by apply negb_true_iff, Z.eqb_neq in Hc.
Qed.

Lemma class_cstring esr : cstring (decode_exception_class esr).
Proof. unfold decode_exception_class. repeat case_match; by apply cstring_lit. Qed.

Lemma status_cstring fsc : cstring (decode_fault_status fsc).
Proof. unfold decode_fault_status. repeat case_match; by apply cstring_lit. Qed.

Lemma info_fields esr : let i := decode_exception_info esr in
  cstring (exception_class i) /\ cstring (fault_status i) /\ cstring (access_type i) /\ -1 <= fault_level i <= 3.
Proof.
  unfold decode_exception_info. pose proof (class_cstring esr). cbv zeta. case_match; cbn.
  - pose proof (status_cstring (Z.land (Z.land esr ESR_ISS_MASK) ESR_FSC_MASK)).
    set (fsc := Z.land _ ESR_FSC_MASK). assert (0 <= Z.land fsc 3 < 4).
    { change 3 with (2 ^ 2 - 1). rewrite land_low_mask by lia. by apply Z.mod_pos_bound. }
    split_and!; [done..| |lia|lia]. repeat case_match; by apply cstring_lit.
  - split_and!; [done|by apply cstring_lit..|lia|lia].
Qed.

(** The report always comes out, whatever the registers hold. *)
Lemma panic_prints esr elr far spsr out : exists text,
  kernel_panic (decode_exception_info esr) esr elr far spsr out = Some (out ++ text).
Proof.
  unfold kernel_panic. apply print_all_lines. destruct (info_fields esr) as (H1 & H2 & H3 & H4). set (i := decode_exception_info esr) in *.
  assert (forall s z t, text_ok s = true -> text_ok t = true -> line_ok (s ++ [char_percent; char_x] ++ t, [ArgInt z])) as Hx
    by (intros s z t Hs Ht; by apply (piece_line s (Hex z) t)).
  assert (forall s a t, cstring a -> text_ok s = true -> text_ok t = true -> line_ok (s ++ [char_percent; char_s] ++ t, [ArgStr (Some a)])) as Hs
    by (intros s a t Ha Hs Ht; by apply (piece_line s (Str (Some a)) t)).
  assert (int_of (fault_level i) <> INT_MIN) as Hd.
  { unfold int_of, INT_MIN. rewrite Z.mod_small by lia. lia. }
  unfold panic_report. apply Forall_app. split.
  { repeat constructor; try by apply text_line.
    - by apply (Hs (lit "Reason : ") _ newline).
    - by apply (Hx (lit "EC     : 0x") _ newline).
    - by apply (Hx (lit "ISS    : 0x") _ newline). }
  apply Forall_app. split.
  - destruct (truth _); repeat constructor.
    + by apply (Hs (lit "Access : ") _ newline).
    + by apply (Hx (lit "FSC    : 0x") _ newline).
    + by apply (Hs (lit "Fault  : ") _ newline).
    + by apply (piece_line (lit "Level  : ") (Dec (fault_level i)) newline).
  - repeat constructor; try by apply text_line.
    + by apply (Hx (lit "ESR_EL1 : 0x") _ newline).
    + by apply (Hx (lit "ELR_EL1 : 0x") _ newline).
    + by apply (Hx (lit "FAR_EL1 : 0x") _ newline).
    + by apply (Hx (lit "SPSR_EL1: 0x") _ newline).
Qed.

(** The decoder is consistent: the fields it splits are the bits of the syndrome; a
    fault status is given exactly for the instruction and data aborts; and whenever the
    text of the fault status names a level, it is the level the report prints. *)
Theorem decode_consistent esr : 0 <= esr < 2 ^ 64 ->
  let i := decode_exception_info esr in
  info_ec i = esr / 2 ^ 26 mod 64 /\ info_iss i = esr mod 2 ^ 25 /\
  (has_fault_status i = 1 <-> info_ec i = 0x20 \/ info_ec i = 0x21 \/ info_ec i = 0x24 \/ info_ec i = 0x25) /\
  (has_fault_status i = 1 -> info_fsc i = esr mod 64 /\ fault_level i = esr mod 4 /\
     forall kind l, kind = lit "Translation" \/ kind = lit "Access Flag" \/ kind = lit "Permission" -> 0 <= l < 4 ->
       fault_status i = kind ++ lit " Fault, level " ++ decimal l -> fault_level i = l).
Proof.
  intros He i. assert (exception_class_value esr = esr / 2 ^ 26 mod 64) as Ec.
  { unfold exception_class_value. change ESR_EC_MASK with (2 ^ 6 - 1). rewrite land_low_mask, Z.shiftr_div_pow2 by (unfold ESR_EC_SHIFT; lia). done. }
  assert (Z.land esr ESR_ISS_MASK = esr mod 2 ^ 25) as Ei by (change ESR_ISS_MASK with (2 ^ 25 - 1); by rewrite land_low_mask by lia).
  assert (info_ec i = exception_class_value esr /\ info_iss i = Z.land esr ESR_ISS_MASK) as [F1 F2]
    by (unfold i, decode_exception_info; cbv zeta; by case_match).
  rewrite F1, F2, Ec, Ei. split; [done|]. split; [done|]. rewrite <- Ec.
  unfold i, decode_exception_info. cbv zeta. set (ec := exception_class_value esr).
  destruct (_ || _) eqn:E; cbn [has_fault_status info_fsc fault_level fault_status].
  - split; [split; [lia|done]|]. intros _.
    assert (Z.land (Z.land esr ESR_ISS_MASK) ESR_FSC_MASK = esr mod 64) as Ef.
    { rewrite Ei. change ESR_FSC_MASK with (2 ^ 6 - 1). rewrite land_low_mask by lia. change (2 ^ 6) with 64. Z.div_mod_to_equations. lia. }
    rewrite Ef. assert (Z.land (esr mod 64) 3 = esr mod 4) as El.
    { change 3 with (2 ^ 2 - 1). rewrite land_low_mask by lia. change (2 ^ 2) with 4. Z.div_mod_to_equations. lia. }
    rewrite El. split; [done|]. split; [done|]. intros kind l Hkind Hl.
    assert (exists f, f = esr mod 64 /\ 0 <= f < 64 /\ f mod 4 = esr mod 4) as (f & Ef' & Hf & <-)
      by (exists (esr mod 64); split; [done|]; Z.div_mod_to_equations; lia).
    rewrite <- Ef'. clear -Hkind Hl Hf. intros Hst.
    assert (forallb (fun f => forallb (fun l => forallb (fun kind =>
      negb (bool_decide (decode_fault_status f = kind ++ lit " Fault, level " ++ decimal l)) || (f mod 4 =? l))
        [lit "Translation"; lit "Access Flag"; lit "Permission"]) (seqZ 0 4)) (seqZ 0 64) = true) as Hall by (vm_compute; reflexivity).
    rewrite forallb_forall in Hall. specialize (Hall f ltac:(apply list_elem_of_In, elem_of_seqZ; lia)).
    rewrite forallb_forall in Hall. specialize (Hall l ltac:(apply list_elem_of_In, elem_of_seqZ; lia)).
    rewrite forallb_forall in Hall. specialize (Hall kind ltac:(destruct Hkind as [->|[->| ->]]; [by left|right; by left|right; right; by left])).
    rewrite bool_decide_eq_true_2 in Hall by done. by apply Z.eqb_eq in Hall.
  - split; [|done]. split; [done|]. lia.
Qed.

Lemma decode_consistent_witness : fault_level (decode_exception_info 0x92000047) = 3.
Proof. apply (decode_consistent 0x92000047) with (kind := lit "Translation"); [lia|reflexivity|by left|lia|reflexivity]. Defined.

(** ** Exceptions of a running program *)

Section program.
Context `{CodeLayout} `{AsLayout} (kernel_table : Z -> list Z).
Context {B : Type} `{BlockDevice B} (interval_ms : Z).
Implicit Types k : kernel B.

(** Task [pid] has entered EL0 with address space [space] (what [user_mode_run_task] leaves). *)
Record in_program (pid : Z) (space : address_space) (s : sys) : Prop := {
  ip_inv : sched_inv s;
  ip_sessions : length (user_sessions s) = 8%nat;
  ip_pid : 0 <= pid;
  ip_roots : kernel_root_table space <> 0 /\ target_root_table space <> 0;
  ip_return : arm64_el0_task_return <> 0;
  ip_session : exists n, user_session s = UserSession 1 0 0 USER_SESSION_REJECT_NONE n (Some pid) arm64_el0_task_return
                           (kernel_root_table space) (target_root_table space);
}.

Lemma entered_in_program s pid space s1 : entered s pid space s1 -> 0 <= pid ->
  kernel_root_table space <> 0 -> target_root_table space <> 0 -> arm64_el0_task_return <> 0 -> in_program pid space s1.
Proof. intros (? & ? & _ & _ & ?) ? ? ? ?. by split. Qed.

(** An exception from EL0 that is not a system call, and one from the kernel. *)
Lemma program_exception pid space s esr elr far spsr : in_program pid space s -> exception_from_el0 spsr = true ->
  let r := user_mode_handle_exception esr elr far spsr s in r.1 = 1 /\ left s pid space false r.2.
Proof.
  intros [Hi Hl Hp [Hk Ht] Hr [n Hu]] Hm. unfold user_mode_handle_exception. cbv zeta. rewrite Hu. cbn [active return_pc kernel_root user_root].
  unfold truth. apply Z.eqb_neq in Hk, Ht, Hr. rewrite Hk, Ht, Hr. unfold exception_from_el0 in Hm. rewrite Hm. cbn [negb orb Z.eqb]. split; [done|].
  refine (proj1 (close_session s pid space n _ _ false Hi Hl Hp Hu _ _ _)); done.
Qed.

Lemma kernel_exception pid space s esr elr far spsr : in_program pid space s -> exception_from_el0 spsr = false ->
  (user_mode_handle_exception esr elr far spsr s).1 = 0.
Proof.
  intros [Hi Hl Hp [Hk Ht] Hr [n Hu]] Hm. unfold user_mode_handle_exception. cbv zeta. rewrite Hu. cbn [active return_pc kernel_root user_root].
  unfold truth. apply Z.eqb_neq in Hk, Ht, Hr. rewrite Hk, Ht, Hr. unfold exception_from_el0 in Hm. rewrite Hm. done.
Qed.

Lemma panic_panics esr elr far spsr k : exists text, panic esr elr far spsr k = (Panicked, set_console (console k ++ text) k).
Proof. unfold panic. destruct (panic_prints esr elr far spsr (console k)) as [text ->]. by exists text. Qed.

(** *** The steps of a handler *)

Section from.
Context (s0 : sys).
Local Abbreviation from := (kernel_from kernel_table s0).

Lemma user_handles_from esr elr far spsr k : from k -> from (user_handles esr elr far spsr k).2.
Proof.
  intros Hk. unfold user_handles. pose proof (from_op kernel_table s0 (OpException esr elr far spsr) k Hk I) as Hs. cbn [sched_exec snd] in Hs.
  by destruct (user_mode_handle_exception _ _ _ _ _) as [h s].
Qed.

Lemma panic_from esr elr far spsr k : from k -> from (panic esr elr far spsr k).2 /\ (panic esr elr far spsr k).1 = Panicked.
Proof. intros [[] Hs]. destruct (panic_panics esr elr far spsr k) as [text ->]. split; [by split|done]. Qed.

Lemma default_handler_from esr elr far spsr k : from k ->
  let out := exception_handler esr elr far spsr k in from out.2 /\ (out.1 = Spin \/ out.1 = Panicked).
Proof.
  intros Hk out. unfold out, exception_handler. pose proof (user_handles_from esr elr far spsr k Hk) as Hh.
  destruct (user_handles _ _ _ _ k) as [[] k']; [by split; [|left]|]. destruct (panic_from esr elr far spsr k' Hh). by split; [|right].
Qed.

Lemma sync_handler_from f esr elr far spsr k : from k -> state_of (ksys k) (current_task (ksys k)) <> TASK_ZOMBIE -> Forall is_u64 f ->
  let out := exception_sync_handler kernel_table interval_ms f esr elr far spsr k in
  from out.2 /\ out.1 <> Spin /\ forall f', out.1 <> InCall f' Stopped.
Proof.
  intros Hk Hz Hf out. assert (forall r, is_u64 (frame_x f r)) as Hx.
  { intros r. unfold frame_x, exception_frame. pose proof (fun z => Forall_lookup_1 _ _ (frame_index r) z Hf) as Hl.
    destruct (f !! frame_index r); [by apply Hl|by unfold is_u64]. }
  unfold out, exception_sync_handler. destruct (_ && _).
  - pose proof (proj1 (dispatch_from kernel_table interval_ms s0 k Hk Hz) (frame_x f 8) (frame_x f 0) (frame_x f 1) (frame_x f 2)
      (frame_x f 3) (Hx 0) (Hx 1) (Hx 2) (Hx 3)) as [Hi Hn]. destruct (syscall_dispatch _ _ _ _ _ _ _ _) as [[] k']; by split_and!.
  - pose proof (user_handles_from esr elr far spsr k Hk) as Hh.
    destruct (user_handles _ _ _ _ k) as [[] k']; [by split_and!|]. destruct (panic_from esr elr far spsr k' Hh) as [Hp E]. rewrite E. by split_and!.
Qed.
End from.

(** (C20) The kernel's invariant holds across every exception: whatever the syndrome, the
    mode and the registers of the interrupted code, after [exception_sync_handler] and
    after [exception_handler] the task table, the file tree and all descriptors are well
    formed, and the tasks, the user spaces and the registers have changed in the steps of
    [sys_step] only. The synchronous handler returns, panics, faults in the middle of a
    system call or leaves a call that goes on later; only the default handler can fall into
    the endless loop of its vector. *)
Theorem handlers_invariant f esr elr far spsr k :
  kernel_inv k -> state_of (ksys k) (current_task (ksys k)) <> TASK_ZOMBIE -> Forall is_u64 f ->
  let sync := exception_sync_handler kernel_table interval_ms f esr elr far spsr k in
  let default_ := exception_handler esr elr far spsr k in
  (kernel_inv sync.2 /\ rtc (sys_step kernel_table) (ksys k) (ksys sync.2)) /\ sync.1 <> Spin /\ (forall f', sync.1 <> InCall f' Stopped) /\
  (kernel_inv default_.2 /\ rtc (sys_step kernel_table) (ksys k) (ksys default_.2)) /\ (default_.1 = Spin \/ default_.1 = Panicked).
Proof.
  intros Hk Hz Hf sync default_. pose proof (kernel_from_here kernel_table k Hk) as Hh.
  destruct (sync_handler_from (ksys k) f esr elr far spsr k Hh Hz Hf) as (H1' & H2' & H3').
  by destruct (default_handler_from (ksys k) esr elr far spsr k Hh).
Qed.


(** (C23) A timer interrupt that arrives while a program runs hangs the machine. Programs are
    entered with interrupts unmasked (the interrupt bit of their [SPSR] is clear), and the
    vector of interrupts from EL0 is the default entry: the interrupt is taken for a fault
    of the program, whose session is closed as failed, is never acknowledged, and the
    vector then loops forever instead of returning. *)
Theorem interrupt_in_program_hangs pid space esr elr far spsr k :
  in_program pid space (ksys k) -> exception_from_el0 spsr = true ->
  Z.testbit ARM64_SPSR_EL0T 7 = false /\ exception_vector Lower64 Irq = DefaultEntry /\
  (exception_handler esr elr far spsr k).1 = Spin /\ left (ksys k) pid space false (ksys (exception_handler esr elr far spsr k).2).
Proof.
  intros Hip Hm. split; [done|]. split; [done|]. destruct (program_exception pid space _ esr elr far spsr Hip Hm) as [E1 E2].
  unfold exception_handler, user_handles. destruct (user_mode_handle_exception _ _ _ _ _) as [h s]. cbn [fst snd] in E1, E2. by subst h.
Qed.
End program.

(** ** A system call that panics *)

Section panic.
Context `{CodeLayout} `{AsLayoutOk} (kernel_table : Z -> list Z).
Context {B : Type} `{BlockDevice B} (interval_ms : Z).
Context (root : Z) (Hkernel : kernel_map_ok kernel_table root).
Implicit Types k : kernel B.

Lemma in_program_untouched n pid space s0 s : in_program pid space s0 -> sched_inv s -> untouched n s0 s -> in_program pid space s.
Proof.
  intros [Hi Hl Hp Hr Ha [m Hu]] Hs [_ _ [Hc _] Hus _]. split; try done; [by rewrite Hus|]. exists m. rewrite <- Hu.
  unfold user_session. by rewrite !session_current_inv, Hc, Hus.
Qed.

(** (C21) One system call of a user program halts the machine. The range checks accept
    buffers of the data and stack regions past the one mapped page of each; a program that
    passes such a buffer to [system_info] makes the kernel fault inside the call, and the
    exception this raises, taken from EL1, goes through the default vector to the panic. *)
Theorem user_call_panics n pid space f a esr elr far spsr k :
  kernel_inv k -> caller kernel_table root n space (ksys k) -> in_program pid space (ksys k) ->
  0x201000 <= a /\ a + 72 <= 0x300000 \/ 0x3fff1000 <= a /\ a + 72 <= 0x40000000 ->
  Forall is_u64 f -> frame_x f 8 = SYSCALL_SYSTEM_INFO -> frame_x f 0 = a ->
  exception_from_el0 spsr = true -> exception_class_value esr = ESR_EC_SVC64 ->
  let out := exception_sync_handler kernel_table interval_ms f esr elr far spsr k in
  out.1 = KernelFaults /\ exception_vector CurrentSpx Synchronous = DefaultEntry /\
  forall esr' elr' far' spsr', exception_from_el0 spsr' = false -> (exception_handler esr' elr' far' spsr' out.2).1 = Panicked.
Proof.
  intros Hk Hca Hip Ha Hf Hn Hx Hm Hc out.
  assert (forall r, is_u64 (frame_x f r)) as Hu.
  { intros r. unfold frame_x, exception_frame. pose proof (fun z => Forall_lookup_1 _ _ (frame_index r) z Hf) as Hl.
    destruct (f !! frame_index r); [by apply Hl|by unfold is_u64]. }
  unfold out, exception_sync_handler. rewrite Hm, Hc, Hn, Hx. change (ESR_EC_SVC64 =? ESR_EC_SVC64) with true. cbn [andb]. clear out.
  pose proof (accepted_buffer_faults_kernel kernel_table interval_ms root Hkernel n space a k Hca Ha (frame_x f 1) (frame_x f 2) (frame_x f 3)) as E.
  assert (isolated kernel_table root n space (ksys k) (syscall_dispatch kernel_table interval_ms SYSCALL_SYSTEM_INFO a (frame_x f 1) (frame_x f 2) (frame_x f 3) k).2)
    as (Hk' & _ & Hun) by (apply (dispatch_isolated kernel_table interval_ms root Hkernel); [done|done|by split_and!|rewrite <- Hx; apply Hu|apply Hu..]).
  destruct (syscall_dispatch _ _ _ _ _ _ _ k) as [r k']. cbn [fst snd] in *. subst r. cbn [finish_call fst snd]. split; [done|]. split; [done|].
  intros esr' elr' far' spsr' Hm'. pose proof (in_program_untouched n pid space _ _ Hip (ki_sched _ Hk') Hun) as Hip'.
  pose proof (kernel_exception pid space _ esr' elr' far' spsr' Hip' Hm') as Hz. unfold exception_handler, user_handles.
  destruct (user_mode_handle_exception _ _ _ _ _) as [h s]. cbn [fst] in Hz. subst h.
  destruct (panic_panics esr' elr' far' spsr' (set_ksys s k')) as [text ->]. done.
Qed.
End panic.

(** ** A running program *)

#[local] Existing Instance code0.
#[local] Existing Instance layout0.
#[local] Existing Instance layout0_ok.
#[local] Opaque sys0 vfs2 kernel_table0.

Lemma sys0_in_program : in_program 1 space0 sys0.
Proof.
  split; [exact sys0_inv|vm_compute; reflexivity|lia|split; vm_compute; discriminate|vm_compute; discriminate|].
  exists (reject_count (user_session sys0)). vm_compute. reflexivity.
Qed.

(** The registers of a program that calls [system_info] with a buffer past its data page. *)
Definition frame0 : exception_frame := set_frame_x 8 SYSCALL_SYSTEM_INFO (set_frame_x 0 0x202000 (replicate 32 0)).

Lemma frame0_u64 : Forall is_u64 frame0.
Proof. apply Forall_forall. intros x Hx. apply small_u64. revert x Hx. apply Forall_forall. by apply (bool_decide_unpack (Forall _ frame0)). Qed.

Lemma handlers_invariant_witness : kernel_inv (exception_sync_handler kernel_table0 10 frame0 0x56000000 0x100010 0 0 kernel0).2.
Proof. apply (handlers_invariant kernel_table0 10 frame0 0x56000000 0x100010 0 0 kernel0); [exact kernel0_inv|vm_compute; discriminate|exact frame0_u64]. Defined.


Lemma interrupt_in_program_hangs_witness : (exception_handler 0 0x100010 0 0 kernel0).1 = Spin.
Proof. apply (interrupt_in_program_hangs 1 space0 0 0x100010 0 0 kernel0 sys0_in_program eq_refl). Defined.

Lemma user_call_panics_witness :
  let out := exception_sync_handler kernel_table0 10 frame0 0x56000000 0x100010 0 0 kernel0 in
  out.1 = KernelFaults /\ (exception_handler 0x96000046 0x40080000 0x202000 0x5 out.2).1 = Panicked.
Proof.
  destruct (user_call_panics kernel_table0 10 0x40090000 kernel_map0_ok 0 1 space0 frame0 0x202000 0x56000000 0x100010 0 0 kernel0
    kernel0_inv sys0_caller sys0_in_program) as (E & _ & Hp); [lia|exact frame0_u64|done..|]. exact (conj E (Hp 0x96000046 0x40080000 0x202000 0x5 eq_refl)).
Defined.
