(* ===== verification/Threads.v ===== *)
(** * The life of a thread ([thread_trampoline] and [scheduler_user_task_entry])

    Every kernel thread starts in [thread_trampoline], which calls its entry and ends the
    task when the entry returns. The entry of a program's thread leaves for EL0 and comes
    back when the program is over, through [arm64_el0_task_return], which returns with the
    registers of the program. One theorem follows a program that leaves the registers of
    its thread alone from its entry into EL0, through its exit call, to the parent that
    waits for it; the other shows that a program that does not sends the kernel wherever it
    likes. *)

From S2P Require Import Prelude PageAllocator Pmm BlockDevice Block Sfs Vfs VfsProps Executable Mmu AddressSpace Task User Scheduler SchedulerProps Syscall UserMemory Steps SyscallProps SyscallExamples Console Exception ExceptionProps.

(** ** Definitions *)

Section threads.
Context `{CodeLayout}.

(** [run] is what the code at an address does until it returns, if it does. *)
Definition thread_trampoline (run : Z -> sys -> option sys) (s : sys) : option (outcome * sys) :=
  let task_id := current_task s in
  let entry := default 0 (t_entry <$> task_at s task_id) in
  s ← (if truth entry then run entry s else Some s);
  Some (scheduler_exit_task task_id s).

(** [thread_trampoline] of a program's thread, up to the entry into EL0 ([None]) or to the
    end of a thread that cannot enter it. *)
Definition user_thread_starts (s : sys) : option outcome * sys :=
  let task_id := current_task s in
  let (r, s) := scheduler_run_user_task task_id s in
  match r with
  | None => (None, s)
  | Some _ => let (o, s) := scheduler_exit_task task_id s in (Some o, s)
  end.

(** The rest of the thread, when [arm64_enter_el0_task] has returned to it. *)
Definition user_thread_ends (task_id : Z) (s : sys) : outcome * sys :=
  let s := (scheduler_run_user_task_return task_id s).2 in
  scheduler_exit_task task_id s.

(** Where the [ret] of [arm64_el0_task_return] goes: to [x30] as the vector has restored it
    from the frame [f] of the program. *)
Definition el0_task_return_address (f : exception_frame) : Z := frame_x f 30.

(** [x19] to [x29], which a function must leave as it found them, are those of [saved]. *)
Definition callee_saved_kept (saved f : exception_frame) : bool :=
  forallb (fun r => frame_x f r =? frame_x saved r) (seqZ 19 11).

(** Control comes back from EL0 with the registers [f], at [arm64_el0_task_return]; [saved]
    are the registers with which the thread has called [arm64_enter_el0_task]. It goes on in
    its thread only if it finds there its own return address and registers; otherwise
    ([None]) the kernel runs on elsewhere, or with registers that are not its own. *)
Definition user_thread_returns (saved f : exception_frame) (task_id : Z) (s : sys) : option (outcome * sys) :=
  if (el0_task_return_address f =? frame_x saved 30) && callee_saved_kept saved f then Some (user_thread_ends task_id s) else None.

(** An exception of a program that ends its session: an exit call, or no call at all. *)
Definition ends_session (f : exception_frame) (esr : Z) : bool :=
  negb (exception_class_value esr =? ESR_EC_SVC64) || (frame_x f 8 =? SYSCALL_EXIT).

(** The program leaves the registers of its thread as they were. *)
Definition registers_kept (saved f : exception_frame) : Prop := forall r, 19 <= r <= 30 -> frame_x f r = frame_x saved r.

Lemma frame_x_result v f r : 1 <= r <= 30 -> frame_x (set_frame_x 0 v f) r = frame_x f r.
Proof.
  intros Hr. unfold frame_x, set_frame_x. f_equal. apply list_lookup_insert_ne. change (frame_index 0) with 30%nat. unfold frame_index.
  destruct (Z.eqb_spec r 30); [done|]. destruct (Z.eqb_spec r 2) as [->|]; [done|]. destruct (Z.even r); lia.
Qed.

Lemma returns_ends saved f task_id s r : user_thread_returns saved f task_id s = Some r -> r = user_thread_ends task_id s.
Proof. unfold user_thread_returns. case_match; congruence. Qed.

(** The thread goes on where it left. *)
Lemma returns_home saved f v task_id s : registers_kept saved f -> user_thread_returns saved (set_frame_x 0 v f) task_id s = Some (user_thread_ends task_id s).
Proof.
  intros Hk. unfold user_thread_returns, el0_task_return_address, callee_saved_kept. rewrite frame_x_result, Hk, Z.eqb_refl by lia.
  replace (forallb _ _) with true; [done|]. symmetry. apply forallb_forall. intros r Hr%list_elem_of_In%elem_of_seqZ. apply Z.eqb_eq.
  rewrite frame_x_result by lia. apply Hk. lia.
Qed.
End threads.

(** ** The steps of the end *)

Section life.
Context `{CodeLayout} `{AsLayout} (kernel_table : Z -> list Z).
Context {B : Type} `{BlockDevice B} (interval_ms : Z).
Implicit Types (s : sys) (k : kernel B).

Lemma program_exits pid space code s : in_program pid space s ->
  let r := user_mode_handle_exit_syscall code s in
  left s pid space true r.2 /\ task_at r.2 pid = (set_last_exit_code code ∘ inc_exits ∘ inc_traps) <$> task_at s pid.
Proof.
  intros [Hi Hl Hp [Hk Ht] Hr [n Hu]] r. unfold r, user_mode_handle_exit_syscall. rewrite Hu. cbn [active return_pc kernel_root]. unfold truth.
  apply Z.eqb_neq in Hk, Hr. rewrite Hk, Hr. cbn [negb orb Z.eqb]. refine (close_session s pid space n _ _ true Hi Hl Hp Hu _ _ _); done.
Qed.

(** [exit] through the handler of exceptions. *)
Lemma exit_call pid space f code esr elr far spsr k : in_program pid space (ksys k) ->
  exception_from_el0 spsr = true -> exception_class_value esr = ESR_EC_SVC64 -> frame_x f 8 = SYSCALL_EXIT -> frame_x f 0 = code ->
  let out := exception_sync_handler kernel_table interval_ms f esr elr far spsr k in
  out.1 = Eret (set_frame_x 0 0 f) /\ ksys out.2 = (user_mode_handle_exit_syscall code (ksys k)).2.
Proof.
  intros Hp Hm Hc Hn Hx out. unfold out, exception_sync_handler. rewrite Hm, Hc, Hn, Hx. change (ESR_EC_SVC64 =? ESR_EC_SVC64) with true. cbn [andb].
  unfold syscall_dispatch. change (SYSCALL_EXIT =? SYSCALL_WRITE) with false. change (SYSCALL_EXIT =? SYSCALL_EXIT) with true. cbv iota zeta.
  unfold run, stats_do, sys_do, modify, mbind, M_bind, mret, M_ret. cbn [ksys set_kstats]. by destruct (user_mode_handle_exit_syscall code (ksys k)).
Qed.

(** What the return adds to the task. *)
Lemma return_task pid s : sched_inv s -> completed (user_session s) = 1 -> faulted (user_session s) = 0 -> length (user_sessions s) = 8%nat -> 0 <= pid ->
  let r := (scheduler_run_user_task_return pid s).2 in
  task_at r pid = (set_t_state TASK_ZOMBIE ∘ inc_completions ∘ set_program 1 ∘ inc_recoveries) <$> task_at s pid /\
  current_task r = current_task s /\ task_count r = task_count s.
Proof.
  intros Hi Hc Hf Hl Hp r. destruct (return_after s pid Hi Hl Hc) as [E _]. rewrite Hf in E. cbn [truth Z.eqb negb] in E.
  unfold r, scheduler_run_user_task_return. unfold user_mode_run_task_return in *. rewrite Hc in *. cbn [truth Z.eqb negb] in *. cbv zeta in *. cbn [fst] in E. rewrite E.
  unfold run_user_task_end. cbn [snd]. rewrite bool_decide_eq_true_2 by done. cbn [negb snd]. split; [|by split].
  rewrite task_at_upd_eq by done. change (task_at (upd_session ?g (upd pid inc_recoveries s)) pid) with (task_at (upd pid inc_recoveries s) pid).
  rewrite task_at_upd_eq by done. by destruct (task_at s pid).
Qed.

(** A task that exits stays in the table as it was, but for its state and its registers. *)
Lemma exit_keeps s t : sched_inv s -> current_task s <> 0 -> task_at s (current_task s) = Some t -> parent_pid t <> current_task s ->
  exists c, task_at (scheduler_exit s).2 (current_task s) = Some (set_t_context c (set_t_state TASK_ZOMBIE t)).
Proof.
  intros Hi Hc Ht Hp. pose proof (si_current s Hi) as Hr. unfold scheduler_exit, scheduler_exit_task.
  set (z := set_current_task _ _). assert (sched_inv z) as Hz.
  { change z with (upd (current_task s) (set_t_state TASK_ZOMBIE) (orphan (current_task s) s)). apply state_upd_inv; try done; [|by left].
    apply (sched_inv_quiet s); [done|apply quiet_orphan]. }
  assert (task_at z (current_task s) = Some (set_t_state TASK_ZOMBIE t)) as Htz.
  { change (task_at z (current_task s)) with (task_at (upd (current_task s) (set_t_state TASK_ZOMBIE) (orphan (current_task s) s)) (current_task s)).
    rewrite task_at_upd_eq by lia. unfold task_at in Ht |- *. destruct (Z.ltb_spec (current_task s) 0); [lia|]. unfold orphan. cbn [tasks set_tasks]. rewrite list_lookup_imap, Ht.
    cbn [fmap option_fmap option_map]. by rewrite (proj2 (Z.eqb_neq _ _) Hp), andb_false_r. }
  assert (current_task z = current_task s) as Ec by done. assert (2 <= task_count z) as Hn by (change (task_count z) with (task_count s); lia).
  clearbody z. rewrite <- Ec in *. clear Ec Hi Ht Hp Hr. clear s. rename z into s. rename Hz into Hi. pose proof (si_current s Hi).
  assert (task_at (scheduler_wake_sleeping_tasks s) (current_task s) = Some (set_t_state TASK_ZOMBIE t)) as Hw.
  { rewrite task_at_wake, Htz. cbn [fmap option_fmap option_map]. by case_if. }
  destruct (yield_cases s Hi) as [[Hlt _]|[(_ & _ & Hrun & _)|(_ & Hne & Heq)]]; [lia| |].
  { unfold state_of in Hrun. by rewrite Hw in Hrun. }
  destruct (next_runnable_choice _ (sched_inv_wake s Hi)) as (Hr & _).
  rewrite Heq. cbn [snd]. set (w := scheduler_wake_sleeping_tasks s) in *. set (next := scheduler_next_runnable_task w) in *.
  set (d := if bool_decide _ then _ else w). set (c := set_current_task next _). set (c' := if truth _ then _ else c).
  assert (task_at c' (current_task s) = task_at d (current_task s)) as E.
  { transitivity (task_at c (current_task s)); [unfold c'; by destruct (truth _)|]. unfold c, scheduler_set_running_task.
    change (task_at (set_current_task next ?x)) with (task_at x). rewrite task_at_upd_ne by lia. done. }
  assert (task_at d (current_task s) = Some (set_t_state TASK_ZOMBIE t)) as Ed.
  { unfold d. rewrite bool_decide_eq_false_2; [done|]. unfold state_of. rewrite Hw. done. }
  exists (cpu c'). change (task_at (cpu_switch_to (current_task s) next c')) with (task_at (upd (current_task s) (set_t_context (cpu c')) c')).
  rewrite task_at_upd_eq by lia. by rewrite E, Ed.
Qed.

(** A program that has not entered EL0 has ended its thread. *)
Lemma starts_enters pid space s s1 : sched_inv s -> length (user_sessions s) = 8%nat -> current_task s = pid ->
  space_at (space_ptr s pid) s = Some space -> user_thread_starts s = (None, s1) -> entered s pid space s1.
Proof.
  intros Hi Hl <- Hsp E. pose proof (run_task_enters (current_task s) s space Hi Hl Hsp) as He.
  unfold user_thread_starts, scheduler_run_user_task in E. destruct (_ || _); [by destruct (scheduler_exit_task _ _)|].
  destruct (_ && _); [by destruct (scheduler_exit_task _ _)|]. destruct (user_mode_run_task (current_task s) s) as [[status|] s']; cbn [fst snd] in *.
  - destruct (run_user_task_end _ _ _). by destruct (scheduler_exit_task _ _).
  - injection E as <-. by apply He.
Qed.

(** What a task that exited leaves for its parent. *)
Record ended (code : Z) (t z : task) : Prop := {
  en_state : t_state z = TASK_ZOMBIE;
  en_parent : parent_pid z = parent_pid t;
  en_memory : memory z = memory t;
  en_space : user_address_space z = user_address_space t;
  en_code : last_exit_code (user_status z) = code;
  en_succeeded : program_succeeded (user_status z) = 1;
}.

Lemma exited_thread pid space code t s : in_program pid space s -> current_task s = pid -> 0 < pid ->
  task_at s pid = Some t -> parent_pid t <> pid ->
  let r := user_thread_ends pid (user_mode_handle_exit_syscall code s).2 in
  r.1 = Switched /\ sched_inv r.2 /\ state_of r.2 (current_task r.2) = TASK_RUNNING /\ exists z, task_at r.2 pid = Some z /\ ended code t z.
Proof.
  intros Hip Hc Hp Ht Hpar r. destruct (program_exits pid space code s Hip) as [Hleft Ht2]. set (s2 := (user_mode_handle_exit_syscall code s).2) in *.
  destruct Hleft as (Hq & _ & _ & _ & _ & Hcomp & Hfault & Hlen). pose proof (sched_inv_quiet _ _ (ip_inv _ _ _ Hip) Hq) as Hi2.
  destruct Hq as [(_ & Hc2 & Hn2 & _) _]. rewrite Hc in Hc2. clearbody s2. pose proof (si_current _ Hi2) as Hr2. rewrite Hc2 in Hr2.
  destruct (return_task pid s2 Hi2 Hcomp Hfault Hlen ltac:(lia)) as (Ht3 & Hc3 & Hn3). pose proof (sched_inv_run_return pid s2 Hi2 ltac:(lia)) as Hi3.
  unfold r, user_thread_ends. set (s3 := (scheduler_run_user_task_return pid s2).2) in *. clearbody s3. rewrite Hc2 in Hc3. rewrite <- Hc3 in *. fold (scheduler_exit s3).
  rewrite Ht2, Ht in Ht3. cbn [fmap option_fmap option_map] in Ht3.
  destruct (sched_inv_exit s3 Hi3 ltac:(lia) ltac:(lia)) as [Hi4 Ho4].
  destruct (exit_keeps s3 _ Hi3 ltac:(lia) Ht3 Hpar) as [c Hz].
  assert (state_of s3 (current_task s3) = TASK_ZOMBIE) as Hst by (unfold state_of; by rewrite Ht3).
  destruct (zombie_exit s3 Hi3 Hst) as [_ Hrun].
  split; [exact Ho4|]. split; [exact Hi4|]. split; [exact Hrun|]. eexists. split; [exact Hz|]. by split.
Qed.

(** The parent gets the code and the result. *)
Lemma parent_gets pid code t z s : sched_inv s -> 0 < pid -> task_at s pid = Some z -> ended code t z -> parent_pid t = current_task s -> parent_pid t <> pid ->
  address_space_ptr (memory t) = AsTask pid -> as_kind (user_address_space t) = ADDRESS_SPACE_USER -> forall st,
  exists s', scheduler_wait_task_status pid (Some st) s = (1, Some (WaitStatus pid code 1), s') /\ state_of s' pid = TASK_UNUSED.
Proof.
  intros Hi Hp Hz [E1 E2 E3 E4 E5 E6] Hpar Hne Hptr Hk st.
  assert (pid < task_count s) as Hn.
  { destruct (decide (pid < task_count s)); [done|]. pose proof (si_tail s Hi pid ltac:(lia)) as Hu. unfold state_of in Hu. rewrite Hz in Hu. cbn in Hu. congruence. }
  assert (space_ptr s pid = AsTask pid) as Ep by (unfold space_ptr; rewrite Hz; cbn; by rewrite E3).
  eexists. split.
  - unfold scheduler_wait_task_status. rewrite (bool_decide_eq_true_2 (is_Some (Some st))) by (by eexists).
    destruct (Z.ltb_spec pid 0); [lia|]. destruct (Z.geb_spec pid (task_count s)); [lia|]. destruct (Z.eqb_spec pid (current_task s)); [congruence|].
    destruct (Z.eqb_spec pid 0); [lia|]. cbn [negb orb]. destruct (Z.eqb_spec pid 0); [lia|]. rewrite Ep. cbn [space_at]. unfold state_of, is_child. rewrite Hz. cbn [fmap option_fmap option_map default from_option id].
    rewrite E4, E1, E5, E6, !bool_decide_eq_true_2 by done. rewrite E2, Hpar, Z.eqb_refl. reflexivity.
  - destruct (trim_facts (scheduler_clear_task_slot pid s)) as (_ & Tt & _). unfold state_of, task_at. rewrite Tt.
    fold (task_at (scheduler_clear_task_slot pid s) pid). fold (state_of (scheduler_clear_task_slot pid s) pid).
    destruct (sched_inv_clear pid s Hi ltac:(lia) ltac:(congruence)) as (_ & _ & _ & Hst). by rewrite Hst, decide_True.
Qed.

(** (C10) The life of a program. When the thread of a program with a space of its own runs and
    does not fail, the processor is in EL0 under the program's root with its session open.
    Whatever happens until then, when the program calls [exit] with a code, the handler
    returns to the kernel at [arm64_el0_task_return], under the kernel's root. If the
    program has left [x19] to [x30] as they were when its thread entered EL0 ([saved]), the
    thread goes on there, ends its task and hands the processor to another one that can
    run; the task stays in the table, terminated; and its parent, when it next has the
    processor and waits, gets the code and the result, and the entry is free again. *)
Theorem program_life pid space s s1 :
  sched_inv s -> length (user_sessions s) = 8%nat -> current_task s = pid -> 0 < pid ->
  space_at (space_ptr s pid) s = Some space -> kernel_root_table space <> 0 -> target_root_table space <> 0 -> arm64_el0_task_return <> 0 ->
  user_thread_starts s = (None, s1) ->
  ttbr0_el1 (regs s1) = target_root_table space /\ in_program pid space s1 /\
  forall k saved f t code esr elr far spsr, registers_kept saved f ->
    in_program pid space (ksys k) -> current_task (ksys k) = pid -> task_at (ksys k) pid = Some t -> parent_pid t <> pid ->
    address_space_ptr (memory t) = AsTask pid -> as_kind (user_address_space t) = ADDRESS_SPACE_USER ->
    exception_from_el0 spsr = true -> exception_class_value esr = ESR_EC_SVC64 -> frame_x f 8 = SYSCALL_EXIT -> frame_x f 0 = code ->
    let out := exception_sync_handler kernel_table interval_ms f esr elr far spsr k in
    exists f' r, out.1 = Eret f' /\ elr_el1 (ksys out.2) = arm64_el0_task_return /\ ttbr0_el1 (regs (ksys out.2)) = kernel_root_table space /\
    user_thread_returns saved f' pid (ksys out.2) = Some r /\ r.1 = Switched /\ sched_inv r.2 /\ current_task r.2 <> pid /\ state_of r.2 (current_task r.2) = TASK_RUNNING /\ state_of r.2 pid = TASK_ZOMBIE /\
    forall s' st, sched_inv s' -> task_at s' pid = task_at r.2 pid -> current_task s' = parent_pid t ->
      exists s'', scheduler_wait_task_status pid (Some st) s' = (1, Some (WaitStatus pid code 1), s'') /\ state_of s'' pid = TASK_UNUSED.
Proof.
  intros Hi Hl Hc Hp Hsp Hk Ht Hret Es. pose proof (starts_enters pid space s s1 Hi Hl Hc Hsp Es) as He. split; [apply He|].
  split; [apply (entered_in_program s); (done || lia)|]. clear s s1 Hi Hl Hc Hsp Es He.
  intros k saved f t code esr elr far spsr Hsave Hip Hc Ht' Hpar Hptr Hkind Hm Hec Hn Hx out.
  destruct (exit_call pid space f code esr elr far spsr k Hip Hm Hec Hn Hx) as [Eo Ek]. fold out in Eo, Ek.
  destruct (program_exits pid space code (ksys k) Hip) as [(_ & Hroot & Helr & _) _].
  destruct (exited_thread pid space code t (ksys k) Hip Hc Hp Ht' Hpar) as (Hsw & Hir & Hrun & z & Hz & Hend).
  rewrite <- Ek in *. exists (set_frame_x 0 0 f), (user_thread_ends pid (ksys out.2)). set (r := user_thread_ends pid (ksys out.2)) in *. assert (state_of r.2 pid = TASK_ZOMBIE) as Hst by (unfold state_of; rewrite Hz; apply Hend).
  split; [exact Eo|]. split; [exact Helr|]. split; [exact Hroot|]. split; [by apply returns_home|]. split; [exact Hsw|]. split; [exact Hir|]. split; [congruence|]. split; [exact Hrun|]. split; [exact Hst|].
  intros s' st Hi' Hz' Hc'. rewrite Hz in Hz'. by apply (parent_gets pid code t z s' Hi' Hp Hz' Hend).
Qed.

(** (C40) A program chooses where the kernel goes on. The return from EL0 is the bare [ret] of
    [arm64_el0_task_return], and the vector has restored every register but [x0] from the
    program's own frame: when a program calls [exit], or raises any exception that is not a
    call, the kernel runs on at EL1 under its own root at whatever address the program has put
    into [x30], with [x19] to [x29] as the program has set them. Unless the address is the one
    the thread entered EL0 from, the thread does not go on, and its task is not ended. *)
Theorem program_chooses_return pid space saved f esr elr far spsr k :
  in_program pid space (ksys k) -> exception_from_el0 spsr = true -> ends_session f esr = true ->
  let out := exception_sync_handler kernel_table interval_ms f esr elr far spsr k in
  exists f', out.1 = Eret f' /\ elr_el1 (ksys out.2) = arm64_el0_task_return /\ spsr_el1 (ksys out.2) = ARM64_SPSR_EL1H /\
    ttbr0_el1 (regs (ksys out.2)) = kernel_root_table space /\
    el0_task_return_address f' = frame_x f 30 /\ (forall r, 1 <= r <= 30 -> frame_x f' r = frame_x f r) /\
    (frame_x f 30 <> frame_x saved 30 -> user_thread_returns saved f' pid (ksys out.2) = None) /\
    state_of (ksys out.2) pid = state_of (ksys k) pid.
Proof.
  intros Hip Hm He out.
  assert (exists f' ok, out.1 = Eret f' /\ left (ksys k) pid space ok (ksys out.2) /\ forall r, 1 <= r <= 30 -> frame_x f' r = frame_x f r) as (f' & ok & E & Hl & Hf).
  { unfold ends_session in He. destruct (Z.eqb_spec (exception_class_value esr) ESR_EC_SVC64) as [Hc|Hc].
    - apply Z.eqb_eq in He. destruct (exit_call pid space f _ esr elr far spsr k Hip Hm Hc He eq_refl) as [E1 E2]. fold out in E1, E2.
      exists (set_frame_x 0 0 f), true. split; [done|]. split; [|intros; by apply frame_x_result]. rewrite E2. apply (program_exits pid space _ _ Hip).
    - exists f, false. destruct (program_exception pid space _ esr elr far spsr Hip Hm) as [E1 E2].
      unfold out, exception_sync_handler, user_handles. rewrite (proj2 (Z.eqb_neq _ _) Hc), andb_false_r.
      destruct (user_mode_handle_exception _ _ _ _ _) as [h s]. cbn [fst snd] in E1, E2. subst h. by split_and!. }
  exists f'. destruct Hl as (Hq & H1' & H2' & H3' & _). split_and!; [done..|by apply Hf|done| |].
  - intros Hne. unfold user_thread_returns, el0_task_return_address. rewrite Hf by lia. by rewrite (proj2 (Z.eqb_neq _ _) Hne).
  - apply Hq, Hip.
Qed.
End life.

(** ** A child runs and exits *)

#[local] Existing Instances code0 layout0.

(** The child of [child_asleep] at the start of its thread, and in EL0. *)
Definition child_starting : sys := run_ops (take 9 child_asleep).
Definition child_running : sys := (user_thread_starts child_starting).2.
Definition exit_frame : exception_frame := set_frame_x 8 SYSCALL_EXIT (set_frame_x 0 7 (set_frame_x 30 0x40081234 (replicate 32 0))).
(** The thread has left for EL0 with its return address in [x30], which the program keeps. *)
Definition thread_frame : exception_frame := set_frame_x 30 0x40081234 (replicate 32 0).
Local Abbreviation child_exited running :=
  (user_thread_ends 2 (ksys (exception_sync_handler kernel_table0 10 exit_frame 0x56000000 0x100010 0 0 (set_ksys running kernel0)).2)).2.

Lemma none_first {A B} (p : option A * B) : p.1 = None -> p = (None, p.2).
Proof. destruct p. cbn. congruence. Qed.

Lemma child_facts : sched_inv child_starting /\ length (user_sessions child_starting) = 8%nat /\ current_task child_starting = 2 /\
  (fun a => (kernel_root_table a, target_root_table a)) <$> space_at (space_ptr child_starting 2) child_starting = Some (0x40090000, 0x40101000) /\
  user_thread_starts child_starting = (None, child_running) /\ current_task child_running = 2 /\
  (fun t => (parent_pid t, address_space_ptr (memory t), as_kind (user_address_space t))) <$> task_at child_running 2 = Some (1, AsTask 2, ADDRESS_SPACE_USER) /\
  current_task (child_exited child_running) = 1.
Proof.
  split; [apply state0_inv; allowed|]. split; [by vm_compute|]. split; [by vm_compute|]. split; [by vm_compute|].
  split; [unfold child_running; apply none_first; by vm_compute|]. split; [by vm_compute|]. split; by vm_compute.
Qed.

Lemma exit_frame_kept : registers_kept thread_frame exit_frame.
Proof.
  assert (Forall (fun r => frame_x exit_frame r = frame_x thread_frame r) (seqZ 19 12)) as Hall by (apply (bool_decide_unpack _); by vm_compute).
  rewrite Forall_forall in Hall. intros r Hr. apply Hall, elem_of_seqZ. lia.
Qed.

Lemma program_life_witness : let out := exception_sync_handler kernel_table0 10 exit_frame 0x56000000 0x100010 0 0 (set_ksys child_running kernel0) in
  exists f r s, out.1 = Eret f /\ user_thread_returns thread_frame f 2 (ksys out.2) = Some r /\
    scheduler_wait_task_status 2 (Some (WaitStatus 0 0 0)) r.2 = (1, Some (WaitStatus 2 7 1), s).
Proof.
  destruct child_facts as (Hi & Hl & Hc & Hsp & Es & Hc1 & Ht & Hc2). generalize dependent child_running. intros running Es Hc1 Ht Hc2.
  generalize dependent child_starting. intros starting Hi Hl Hc Hsp Es out.
  apply fmap_Some in Hsp as (space & Hsp & E). injection E as E1 E2. apply fmap_Some in Ht as (t & Ht & E). injection E as F1 F2 F3.
  destruct (program_life kernel_table0 10 2 space starting running Hi Hl Hc eq_refl Hsp ltac:(congruence) ltac:(congruence) ltac:(discriminate) Es) as (_ & Hip & Hlife).
  destruct (Hlife (set_ksys running kernel0) thread_frame exit_frame t 7 0x56000000 0x100010 0 0 exit_frame_kept Hip Hc1 Ht ltac:(congruence) (eq_sym F2) (eq_sym F3)
    eq_refl eq_refl eq_refl eq_refl) as (f & r & Eo & _ & _ & Er & _ & Hie & _ & _ & _ & Hwait). fold out in Eo, Er.
  destruct (Hwait _ (WaitStatus 0 0 0) Hie eq_refl) as (s & E & _); [rewrite (returns_ends _ _ _ _ _ Er); unfold out; congruence|].
  exists f, r, s. split; [exact Eo|]. split; [exact Er|exact E].
Defined.

(** The child faults with the address of a function of the kernel in [x30]. *)
Definition jump_frame : exception_frame := set_frame_x 30 0x40080008 (replicate 32 0).

Lemma program_chooses_return_witness : exists f,
  (exception_sync_handler kernel_table0 10 jump_frame 0x92000046 0x100010 0x300000 0 (set_ksys child_running kernel0)).1 = Eret f /\
  el0_task_return_address f = 0x40080008.
Proof.
  destruct child_facts as (Hi & Hl & Hc & Hsp & Es & Hc1 & Ht & Hc2). clear Hc1 Ht Hc2. generalize dependent child_running. intros running Es.
  generalize dependent child_starting. intros starting Hi Hl Hc Hsp Es.
  apply fmap_Some in Hsp as (space & Hsp & E). injection E as E1 E2.
  assert (in_program 2 space running) as Hip by
    (apply (entered_in_program starting); [by apply (starts_enters 2)|done|congruence|congruence|discriminate]).
  destruct (program_chooses_return kernel_table0 10 2 space thread_frame jump_frame 0x92000046 0x100010 0x300000 0 (set_ksys running kernel0) Hip eq_refl eq_refl)
    as (f & Eo & _ & _ & _ & Ea & _). exists f. split; [exact Eo|]. rewrite Ea. reflexivity.
Defined.
