(* ===== verification/Interrupt.v ===== *)
(** * Timer and interrupts ([arch/arm64/timer.c], [arch/arm64/irq.c])

    The timer's state with its two registers, the busy wait on the counter, and the
    interrupt handler. The writes to the interrupt controller are recorded in order; the
    values the counter has when it is read are a sequence. *)

From S2P Require Import Prelude PageAllocator Pmm BlockDevice Block Sfs Vfs VfsProps Executable Mmu AddressSpace Task User Scheduler SchedulerProps Syscall UserMemory Steps SyscallProps SyscallFiles SyscallExamples Console.

(** ** Definitions *)

(** *** [timer.c] *)

Record timer := Timer {
  timer_frequency : Z;
  timer_interval_ms : Z;
  timer_interval_ticks : Z;
  timer_irq_ticks : Z;
  cntp_tval : Z;
  cntp_ctl : Z;
}.

(** The argument is [CNTFRQ_EL0]. *)
Definition timer_init (frequency : Z) (t : timer) : timer :=
  Timer frequency (timer_interval_ms t) (timer_interval_ticks t) (timer_irq_ticks t) (cntp_tval t) (cntp_ctl t).
Definition timer_get_frequency (t : timer) : Z := timer_frequency t.
Definition timer_get_irq_ticks (t : timer) : Z := timer_irq_ticks t.
Definition timer_get_interval_ms (t : timer) : Z := timer_interval_ms t.

(** The values [timer_get_ticks] reads, one after the other. *)
Definition clock : Type := nat -> Z.
Fixpoint sleep_loop (fuel : nat) (ticks : clock) (i : nat) (start delay : Z) : option nat :=
  if (ticks i -! start) <? delay then
    match fuel with O => None | S fuel => sleep_loop fuel ticks (S i) start delay end
  else Some i.
(** The number of the last value read; [None] when the fuel runs out. *)
Definition timer_sleep_ms (fuel : nat) (ticks : clock) (ms : Z) (t : timer) : option nat :=
  let start := ticks 0%nat in
  let delay := (timer_frequency t / 1000) *! ms in
  sleep_loop fuel ticks 1 start delay.

Definition timer_start_periodic (interval_ms : Z) (t : timer) : timer :=
  let interval := (timer_frequency t / 1000) *! interval_ms in
  Timer (timer_frequency t) interval_ms interval 0 interval 1.
Definition timer_handle_irq (t : timer) : timer :=
  Timer (timer_frequency t) (timer_interval_ms t) (timer_interval_ticks t) (timer_irq_ticks t +! 1) (timer_interval_ticks t) (cntp_ctl t).

(** *** [irq.c] *)

Definition GICD_BASE : Z := 0x08000000.
Definition GICC_BASE : Z := 0x08010000.
Definition GICD_CTLR : Z := 0x000.
Definition GICD_ISENABLER0 : Z := 0x100.
Definition GICD_IPRIORITYR : Z := 0x400.
Definition GICC_CTLR : Z := 0x000.
Definition GICC_PMR : Z := 0x004.
Definition GICC_EOIR : Z := 0x010.
Definition TIMER_IRQ : Z := 30.

(** A write to a register: its width in bytes, the address and the value. *)
Record gic_write := GicWrite { w_bytes : Z; w_address : Z; w_value : Z }.
Definition mmio_write (address value : Z) (l : list gic_write) : list gic_write := l ++ [GicWrite 4 address (u32 value)].
Definition mmio_write8 (address value : Z) (l : list gic_write) : list gic_write := l ++ [GicWrite 1 address (u8 value)].

Definition irq_init (l : list gic_write) : list gic_write :=
  let l := mmio_write (GICD_BASE + GICD_CTLR) 0 l in
  let l := mmio_write8 (GICD_BASE + GICD_IPRIORITYR + TIMER_IRQ) 0x80 l in
  let l := mmio_write (GICD_BASE + GICD_ISENABLER0) (Z.shiftl 1 TIMER_IRQ) l in
  let l := mmio_write (GICD_BASE + GICD_CTLR) 1 l in
  let l := mmio_write (GICC_BASE + GICC_PMR) 0xFF l in
  mmio_write (GICC_BASE + GICC_CTLR) 1 l.

(** What the interrupt handler works on. *)
Record machine (B : Type) := Machine {
  mkernel : kernel B;
  mtimer : timer;
  gic : list gic_write;
}.
Arguments Machine {B}. Arguments mkernel {B}. Arguments mtimer {B}. Arguments gic {B}.

Section handler.
Context `{CodeLayout} {B : Type}.
Implicit Types m : machine B.

(** [iar] is the value read from [GICC_IAR]. The outcome says whether the handler returns
    in the task it interrupted; [None] would be undefined output. *)
Definition irq_handler (iar : Z) m : option (outcome * machine B) :=
  let irq := Z.land iar 0x3FF in
  if irq =? TIMER_IRQ then
    let t := timer_handle_irq (mtimer m) in
    let l := mmio_write (GICC_BASE + GICC_EOIR) iar (gic m) in
    let (o, s) := scheduler_preempt (ksys (mkernel m)) in
    Some (o, Machine (set_ksys s (mkernel m)) t l)
  else
    out ← kprintf (lit "Unhandled IRQ: %d" ++ [10]) [ArgInt irq] (console (mkernel m));
    Some (Returned, Machine (set_console out (mkernel m)) (mtimer m) (mmio_write (GICC_BASE + GICC_EOIR) iar (gic m))).
End handler.

(** ** The busy wait *)

(** A 64-bit counter that only goes forward, never so far between two reads that it could
    pass the end of the wait unseen. *)
Definition ticking (count : nat -> Z) (delay : Z) : Prop :=
  forall i, count i < count (S i) <= count i + (2 ^ 64 - delay).

Lemma u64_sub a b : u64 a -! u64 b = u64 (a - b).
Proof. unfold u64. by rewrite <- Zminus_mod. Qed.

Lemma sleep_loop_waits count delay (n : nat) : forall fuel i, ticking count delay -> 0 < delay < 2 ^ 64 ->
  count 0%nat <= count i -> count i - count 0%nat < delay + (2 ^ 64 - delay) ->
  delay <= count (i + n)%nat - count 0%nat -> (n <= fuel)%nat ->
  exists j, sleep_loop fuel (u64 ∘ count) i (u64 (count 0%nat)) delay = Some j /\ (i <= j <= i + n)%nat /\
    delay <= count j - count 0%nat /\ (forall l, (i <= l < j)%nat -> count l - count 0%nat < delay).
Proof.
  induction n as [|n IH]; intros fuel i Ht Hd H0 Hw Hend Hf.
  - rewrite Nat.add_0_r in Hend. exists i. split; [|split; [lia|split; [done|lia]]].
    destruct fuel; cbn; rewrite u64_sub, u64_small by lia; by destruct (Z.ltb_spec (count i - count 0%nat) delay); [lia|].
  - destruct (Z.ltb_spec (count i - count 0%nat) delay) as [Hlt|Hge].
    + destruct fuel as [|fuel]; [lia|]. destruct (IH fuel (S i)) as (j & E & Hj & Hdj & Hl); try done; try (specialize (Ht i); lia).
      { by rewrite Nat.add_succ_comm. }
      exists j. split; [|split; [lia|split; [done|]]].
      * cbn [sleep_loop]. cbn [compose]. rewrite u64_sub, u64_small by lia. destruct (Z.ltb_spec (count i - count 0%nat) delay); [|lia]. exact E.
      * intros l Hli. destruct (decide (l = i)) as [->|]; [done|]. apply Hl. lia.
    + exists i. split; [|split; [lia|split; [done|lia]]].
      destruct fuel; cbn; rewrite u64_sub, u64_small by lia; by destruct (Z.ltb_spec (count i - count 0%nat) delay); [lia|].
Qed.

(** The pause, with fuel for every tick of the delay. *)
Lemma pause_returns count t ms fuel :
  let delay := (timer_frequency t / 1000) *! ms in
  0 < delay -> ticking count delay -> (Z.to_nat delay <= fuel)%nat ->
  exists j, timer_sleep_ms fuel (u64 ∘ count) ms t = Some j /\ (1 <= j <= Z.to_nat delay + 1)%nat /\
    delay <= count j - count 0%nat /\ (forall l, (1 <= l < j)%nat -> count l - count 0%nat < delay).
Proof.
  intros delay Hd Ht Hfuel. assert (delay < 2 ^ 64) as Hd' by apply u64_range.
  assert (forall n : nat, Z.of_nat n <= count n - count 0%nat) as Hn.
  { induction n as [|n IH]; [lia|]. specialize (Ht n). lia. }
  unfold timer_sleep_ms. fold delay. cbn [compose].
  destruct (sleep_loop_waits count delay (Z.to_nat delay) fuel 1 Ht ltac:(lia)) as (j & E & Hj & Hdj & Hl).
  - specialize (Ht 0%nat). lia.
  - specialize (Ht 0%nat). lia.
  - specialize (Hn (1 + Z.to_nat delay)%nat). lia.
  - done.
  - exists j. split; [exact E|]. split; [lia|]. done.
Qed.

(** The busy wait ends, and not early: on a counter that goes forward, wherever it
    starts and also when it wraps, [timer_sleep_ms] returns after at most as many reads as
    ticks were asked for, at the first read at which the requested time has passed. *)
Theorem timer_sleep_terminates count t ms :
  let delay := (timer_frequency t / 1000) *! ms in
  0 < delay -> ticking count delay ->
  exists j, timer_sleep_ms (Z.to_nat delay) (u64 ∘ count) ms t = Some j /\ (1 <= j <= Z.to_nat delay + 1)%nat /\
    delay <= count j - count 0%nat /\ (forall l, (1 <= l < j)%nat -> count l - count 0%nat < delay).
Proof. intros delay Hd Ht. by apply pause_returns. Qed.

Lemma timer_sleep_terminates_witness :
  timer_sleep_ms (Z.to_nat 5000) (u64 ∘ fun i => 2 ^ 64 - 1000 + Z.of_nat i * 1000) 5 (Timer 1000000 0 0 0 0 0) = Some 5%nat.
Proof.
  destruct (timer_sleep_terminates (fun i => 2 ^ 64 - 1000 + Z.of_nat i * 1000) (Timer 1000000 0 0 0 0 0) 5) as (j & E & Hj & Hd & Hl).
  - vm_compute. reflexivity.
  - intros i. change (timer_frequency _ / 1000 *! 5) with 5000. lia.
  - change (timer_frequency _ / 1000 *! 5) with 5000 in *. rewrite E. f_equal.
    destruct (decide (5 < j)%nat) as [H5|]; [specialize (Hl 5%nat ltac:(lia)); lia|]. lia.
Defined.

(** ** The interrupt handler *)

Section handler_props.
Context `{CodeLayout} {B : Type} `{BlockDevice B} `{AsLayout}.
Implicit Types m : machine B.

(** A task that can run still can after a step that leaves its state or makes it ready or
    running. *)
Lemma runnable_upd s pid f i : 0 <= pid ->
  (forall t, t_state (f t) = t_state t \/ runnable (t_state (f t)) = true) ->
  runnable (state_of s i) = true -> runnable (state_of (upd pid f s) i) = true.
Proof.
  intros Hp Hf Hr. rewrite state_of_upd by done. case_decide as E; [subst i|done].
  destruct (state_of_used s pid) as (t & Ht & Est); [by intros E; rewrite E in Hr|]. rewrite Ht. cbn. destruct (Hf t) as [->|]; [by rewrite Est|done].
Qed.

(** A tick that is not skipped wakes every task whose time has come. *)
Lemma preempt_wakes s i t : sched_inv s -> truth (threads_started s) = true -> 2 <= task_count s ->
  task_at s i = Some t -> 0 <= i < task_count s -> t_state t = TASK_SLEEPING -> sleep_until_tick t <= scheduler_ticks s +! 1 ->
  runnable (state_of (scheduler_preempt s).2 i) = true.
Proof.
  intros Hinv Hth Hc Ht Hi Hst Hle. unfold scheduler_preempt. rewrite Hth. destruct (Z.ltb_spec (task_count s) 2); [lia|]. cbn [negb orb]. cbv zeta.
  set (s1 := set_scheduler_ticks (scheduler_ticks s +! 1) s). set (w := scheduler_wake_sleeping_tasks s1).
  assert (runnable (state_of w i) = true) as Hw.
  { unfold state_of, w. rewrite task_at_wake. change (task_at s1 i) with (task_at s i). rewrite Ht. cbn [fmap option_fmap option_map].
    change (task_count s1) with (task_count s). destruct (Z.ltb_spec i (task_count s)); [|lia]. unfold wake. change (scheduler_ticks s1) with (scheduler_ticks s +! 1).
    rewrite bool_decide_eq_true_2 by done. rewrite Z.geb_leb. destruct (Z.leb_spec (sleep_until_tick t) (scheduler_ticks s +! 1)); [|lia]. done. }
  assert (sched_inv w) as Hwi by (apply sched_inv_wake, sched_inv_ticks, Hinv). clearbody w.
  pose proof (si_current w Hwi) as Hcur. set (u := upd (current_task w) inc_run_ticks w).
  assert (sched_inv u) as Hu by (eapply sched_inv_quiet; [exact Hwi|by apply quiet_upd_any]).
  assert (runnable (state_of u i) = true) as Hur by (apply runnable_upd; [lia|by left|done]).
  destruct (next_runnable_choice u Hu) as (Hn & _). set (next := scheduler_next_runnable_task u) in *. clearbody next u.
  destruct (_ =? _); [done|]. cbn [snd]. change (runnable (state_of (upd (current_task w) (set_t_context (cpu (set_current_task next
    (scheduler_set_running_task next (upd (current_task w) inc_preemptions
      (if bool_decide (state_of u (current_task w) = TASK_RUNNING) then upd (current_task w) (set_t_state TASK_READY) u else u))))))
    (scheduler_set_running_task next (upd (current_task w) inc_preemptions
      (if bool_decide (state_of u (current_task w) = TASK_RUNNING) then upd (current_task w) (set_t_state TASK_READY) u else u)))) i) = true).
  apply runnable_upd; [lia|by left|]. apply runnable_upd; [lia|by right|]. apply runnable_upd; [lia|by left|].
  case_if; [|done]. apply runnable_upd; [lia|by right|done].
Qed.

(** The handler's steps, when it returns. *)
Lemma irq_from (kernel_table : Z -> list Z) s0 iar m o m' : irq_handler iar m = Some (o, m') -> kernel_from kernel_table s0 (mkernel m) ->
  kernel_from kernel_table s0 (mkernel m').
Proof.
  intros E Hk. unfold irq_handler in E. destruct (_ =? TIMER_IRQ).
  - pose proof (from_op kernel_table s0 OpPreempt (mkernel m) Hk I) as Hp. cbn [sched_exec] in Hp.
    destruct (scheduler_preempt _) as [o' s]. by injection E as <- <-.
  - destruct (kprintf _ _ _) as [out|]; [|done]. injection E as <- <-. destruct Hk as [[] Hs]. by split.
Qed.

(** (C24) The interrupt handler is exact. Every interrupt is acknowledged once, with the value
    read, and the timer's before the processor can be given away. A timer interrupt is
    counted, rearms the timer with the period and runs the scheduler's preemption, after
    which every task whose sleep has ended can run; any other interrupt is reported and
    changes nothing else. The kernel's invariant is kept and the processor never halts. *)
Theorem irq_handler_exact iar m : kernel_inv (mkernel m) -> 0 <= iar < 2 ^ 32 ->
  exists o m', irq_handler iar m = Some (o, m') /\ kernel_inv (mkernel m') /\ o <> Halted /\
    gic m' = gic m ++ [GicWrite 4 0x08010010 iar] /\
    (iar mod 1024 = 30 ->
       (let t := mtimer m in mtimer m' = Timer (timer_frequency t) (timer_interval_ms t) (timer_interval_ticks t)
          (timer_irq_ticks t +! 1) (timer_interval_ticks t) (cntp_ctl t)) /\
       ksys (mkernel m') = (scheduler_preempt (ksys (mkernel m))).2 /\
       forall i t, let s := ksys (mkernel m) in truth (threads_started s) = true -> 2 <= task_count s ->
         task_at s i = Some t -> 0 <= i < task_count s -> t_state t = TASK_SLEEPING -> sleep_until_tick t <= scheduler_ticks s +! 1 ->
         runnable (state_of (ksys (mkernel m')) i) = true) /\
    (iar mod 1024 <> 30 ->
       o = Returned /\ mtimer m' = mtimer m /\ ksys (mkernel m') = ksys (mkernel m) /\
       console (mkernel m') = console (mkernel m) ++ lit "Unhandled IRQ: " ++ decimal (iar mod 1024) ++ [10]).
Proof.
  intros Hk Hiar. unfold irq_handler. change 0x3FF with (2 ^ 10 - 1). rewrite land_low_mask by lia. change (2 ^ 10) with 1024.
  pose proof (Z.mod_pos_bound iar 1024 ltac:(lia)) as Hb. unfold mmio_write. rewrite (u32_small iar) by done.
  change (GICC_BASE + GICC_EOIR) with 0x08010010. change TIMER_IRQ with 30. destruct (Z.eqb_spec (iar mod 1024) 30) as [E|E].
  - destruct (sched_inv_preempt _ (ki_sched _ Hk)) as [Hs Hn]. pose proof (files_preempt _ (ki_files _ Hk)) as Hf.
    pose proof (preempt_wakes (ksys (mkernel m))) as Hw. destruct (scheduler_preempt (ksys (mkernel m))) as [o s]. cbn [fst snd] in *.
    eexists o, _. split; [reflexivity|]. split; [by apply kernel_inv_sys|]. split; [done|]. split; [done|]. split; [|done].
    intros _. split; [done|]. split; [done|]. intros i t Hth Hc Ht Hi Hst Hle. apply (Hw i t); try done. apply Hk.
  - assert (int_of (iar mod 1024) = iar mod 1024) as Ei by (unfold int_of; rewrite Z.mod_small by lia; lia).
    set (irq := iar mod 1024) in *. clearbody irq.
    pose proof (kprintf_pieces [Text (lit "Unhandled IRQ: "); Dec irq; Text [10]] (console (mkernel m))) as Hp.
    assert (concat (piece_format <$> [Text (lit "Unhandled IRQ: "); Dec irq; Text [10]]) = lit "Unhandled IRQ: %d" ++ [10]) as Ef by reflexivity.
    rewrite Ef in Hp. cbn [fmap list_fmap concat piece_output piece_args app] in Hp. rewrite Hp; clear Hp Ef.
    2:{ apply Forall_cons; split; [by apply text_ok_piece|]. apply Forall_cons; split; [|apply Forall_cons; split; [by apply text_ok_piece|constructor]].
        cbn [piece_ok]. rewrite Ei. unfold INT_MIN. lia. }
    cbn [mbind option_bind]. rewrite Ei. eexists _, _. split; [reflexivity|]. split; [by destruct Hk|].
    split; [done|]. split; [done|]. split; [done|]. by intros _.
Qed.
End handler_props.

(** A system with two threads: another device's interrupt, and the timer's. *)
#[local] Existing Instance code0.
#[local] Existing Instance layout0.
#[local] Opaque sys0 vfs2.

Definition machine0 : machine (block unit) := Machine kernel0 (timer_start_periodic 100 (timer_init 62500000 (Timer 0 0 0 0 0 0))) (irq_init []).

Lemma irq_handler_exact_witness :
  exists o m', irq_handler 30 machine0 = Some (o, m') /\ kernel_inv (mkernel m') /\ timer_irq_ticks (mtimer m') = 1.
Proof.
  destruct (irq_handler_exact 30 machine0 kernel0_inv) as (o & m' & E & Hk & _ & _ & Ht & _); [lia|].
  exists o, m'. split; [exact E|]. split; [exact Hk|]. destruct (Ht eq_refl) as [-> _]. vm_compute. reflexivity.
Defined.
