(* ===== verification/Programs.v ===== *)
(** * The built-in programs ([kernel/user/programs.c])

    The instruction words and data of the seven programs, the executables built from them at
    boot, and the files they are stored in. The images are the static arrays of the
    function, as their bytes. *)

From S2P Require Import Prelude PageAllocator BlockDevice Block Sfs Vfs VfsProps Executable Mmu AddressSpace Task User Scheduler.

(** ** Definitions *)

Definition user_demo_code : list Z :=
  [0xd2800028; 0xd2800020; 0xd2a00401; 0xd28002e2; 0xd4000001; 0xd2800048; 0xd28000e0; 0xd4000001; 0xd4200000].
Definition user_fault_code : list Z :=
  [0xd4200000].
Definition user_file_code : list Z :=
  [0xd2800088; 0xd2a00400; 0xd2800221; 0xd4000001; 0xaa0003e3; 0xd28000a8; 0xaa0303e0; 0xd2a00401; 0x91010021;
   0xd2800302; 0xd4000001; 0xaa0003e2; 0xd2800028; 0xd2800020; 0xd4000001; 0xd28000c8; 0xaa0303e0; 0xd4000001;
   0xd2800048; 0xd2800000; 0xd4000001; 0xd4200000].
Definition user_file_write_code : list Z :=
  [0xd28000e8; 0xd2a00400; 0xd2800281; 0xd4000001; 0xaa0003e3; 0xd2800028; 0xaa0303e0; 0xd2a00401; 0x91010021;
   0xd2800222; 0xd4000001; 0xd28000c8; 0xaa0303e0; 0xd4000001; 0xd2800048; 0xd2800000; 0xd4000001; 0xd4200000].
Definition user_file_seek_code : list Z :=
  [0xd2800088; 0xd2a00400; 0xd2800221; 0xd4000001; 0xaa0003e3; 0xd2800108; 0xaa0303e0; 0xd28000c1; 0xd4000001;
   0xd28000a8; 0xaa0303e0; 0xd2a00401; 0x91010021; 0xd2800242; 0xd4000001; 0xaa0003e2; 0xd2800028; 0xd2800020;
   0xd4000001; 0xd28000c8; 0xaa0303e0; 0xd4000001; 0xd2800048; 0xd2800000; 0xd4000001; 0xd4200000].
Definition user_args_code : list Z :=
  [0xf100081f; 0x54000263; 0xaa0103e3; 0xaa0203e4; 0xf9400061; 0xf9400082; 0xd2800028; 0xd2800020; 0xd4000001;
   0xd2800028; 0xd2800020; 0xd2a00401; 0x9101e021; 0xd2800022; 0xd4000001; 0xf9400461; 0xf9400482; 0xd2800028;
   0xd2800020; 0xd4000001; 0xd2800048; 0xd2800000; 0xd4000001; 0xd4200000].
Definition user_spawn_code : list Z :=
  [0xd2800308; 0xd2a00400; 0x91020000; 0xd2800281; 0xd28000a2; 0xd4000001; 0xd2800088; 0xd2a00400; 0x91020000;
   0xd2800281; 0xd4000001; 0xd2800328; 0xd4000001; 0xd28000c8; 0xd4000001; 0xd28000c8; 0xd2800060; 0xd4000001;
   0xd28002e8; 0xd2a00400; 0x91020000; 0xd2800281; 0xd2a00402; 0x91020042; 0xd4000001; 0xd2800208; 0xd2a00400;
   0x91020000; 0xd4000001; 0xd2800228; 0xd4000001; 0xd2800248; 0xd2800000; 0xd2a00401; 0x91020021; 0xd4000001;
   0xd2800288; 0xd2a00400; 0x91018000; 0xd2800121; 0xd4000001; 0xd28002c8; 0xd2a00400; 0x91018000; 0xd2800121;
   0xd2a00402; 0x9101b042; 0xd2800103; 0xd4000001; 0xd28002e8; 0xd2a00400; 0x9101b000; 0xd2800101; 0xd2a00402;
   0x91020042; 0xd4000001; 0xd2800268; 0xd2800000; 0xd2a00401; 0x91020021; 0xd4000001; 0xd28002a8; 0xd2a00400;
   0x9101b000; 0xd2800101; 0xd4000001; 0xd28001c8; 0xd4000001; 0xd28001e8; 0xd4000001; 0xd28001a8; 0xd4000001;
   0xd2800148; 0xd2a00400; 0xd2800221; 0xd2a00402; 0x91008042; 0xd2800143; 0xd4000001; 0xd2800188; 0xd2800280;
   0xd4000001; 0xd28001a8; 0xd4000001; 0xd2800128; 0xd2800000; 0xd2a00401; 0x9100c021; 0xd2800002; 0xd4000001;
   0xf100041f; 0x540000e1; 0xd2800028; 0xd2800020; 0xd2a00401; 0x91014021; 0xd2800102; 0xd4000001; 0xd2800048;
   0xd2800000; 0xd4000001; 0xd4200000].
Definition user_demo_message : list Z := lit "hello from EL0 syscall" ++ [10].
Definition user_file_path : list Z := lit "/disk/syscall.txt".
Definition user_file_message : list Z := lit "hello from file syscall" ++ [10].
Definition user_file_write_path : list Z := lit "/disk/user-write.txt".
Definition user_file_write_message : list Z := lit "written from EL0" ++ [10].
Definition user_spawn_path : list Z := lit "/bin/user-args.sx".
Definition user_spawn_arguments : list Z := lit "child args".
Definition user_spawn_wait_message : list Z := lit "wait ok" ++ [10].
Definition user_spawn_directory : list Z := lit "/user-dir".
Definition user_spawn_renamed_directory : list Z := lit "/renamed".
Definition user_spawn_truncate_path : list Z := lit "/share/user-demo.txt".
Definition USER_FAULT_IMAGE_PATH : list Z := lit "/bin/user-fault.sx".
Definition USER_FILE_IMAGE_PATH : list Z := lit "/bin/user-file.sx".
Definition USER_FILE_WRITE_IMAGE_PATH : list Z := lit "/bin/user-file-write.sx".
Definition USER_FILE_SEEK_IMAGE_PATH : list Z := lit "/bin/user-file-seek.sx".
Definition USER_ARGS_IMAGE_PATH : list Z := lit "/bin/user-args.sx".
Definition USER_SPAWN_IMAGE_PATH : list Z := lit "/bin/user-spawn.sx".
Definition USER_DEMO_DATA_PATH : list Z := lit "/share/user-demo.txt".

(** The bytes of an array of instruction words. *)
Definition code_bytes (code : list Z) : list Z := concat (bytes32 <$> code).

(** The header, as the function fills it for a payload of code and data. *)
Definition program_header (code data : list Z) : saturn_exec_header :=
  let payload := code_bytes code ++ data in
  ExecHeader SATURN_EXEC_MAGIC SATURN_EXEC_VERSION sizeof_header (Z.of_nat (length (code_bytes code)))
    (Z.of_nat (length data)) 0 (saturn_exec_checksum payload (Z.of_nat (length payload))).
Definition header_bytes (h : saturn_exec_header) : list Z :=
  bytes32 (magic h) ++ bytes16 (version h) ++ bytes16 (header_size h) ++ bytes32 (code_size h) ++ bytes32 (data_size h) ++
  bytes32 (entry_offset h) ++ bytes32 (payload_checksum h).
Definition program_image (code data : list Z) : list Z := header_bytes (program_header code data) ++ code_bytes code ++ data.

(** A data area of zeros with strings copied to offsets. *)
Definition data_area (size : nat) (strings : list (nat * list Z)) : list Z :=
  foldl (fun d '(offset, s) => write_at d offset s) (replicate size 0) strings.

Definition image : list Z := program_image user_demo_code user_demo_message.
Definition fault_image : list Z := program_image user_fault_code [].
Definition file_image : list Z := program_image user_file_code (data_area 128 [(0%nat, user_file_path)]).
Definition file_write_image : list Z :=
  program_image user_file_write_code (data_area 128 [(0%nat, user_file_write_path); (64%nat, user_file_write_message)]).
Definition file_seek_image : list Z := program_image user_file_seek_code (data_area 128 [(0%nat, user_file_path)]).
Definition args_image : list Z := program_image user_args_code (data_area 128 [(120%nat, [32])]).
Definition wait_image : list Z :=
  program_image user_spawn_code
    (data_area 160 [(0%nat, user_spawn_path); (32%nat, user_spawn_arguments); (80%nat, user_spawn_wait_message);
                    (96%nat, user_spawn_directory); (108%nat, user_spawn_renamed_directory); (128%nat, user_spawn_truncate_path)]).

Section ops.
Context {B : Type} `{BlockDevice B}.
Implicit Types v : vfs B.

(** [vfs_create] of a whole array. *)
Definition create (path bytes : list Z) v : Z * vfs B := vfs_create (Some path) (Some bytes) (Z.of_nat (length bytes)) v.
(** The operands of the condition, up to the first that fails. *)
Fixpoint all_succeed (steps : list (vfs B -> Z * vfs B)) v : bool * vfs B :=
  match steps with
  | [] => (true, v)
  | f :: steps => let (r, v) := f v in if truth r then all_succeed steps v else (false, v)
  end.
Definition program_steps : list (vfs B -> Z * vfs B) :=
  [vfs_mkdir (Some (lit "/bin")); vfs_mkdir (Some (lit "/share")); create USER_DEMO_IMAGE_PATH image;
   create USER_FAULT_IMAGE_PATH fault_image; create USER_FILE_IMAGE_PATH file_image;
   create USER_FILE_WRITE_IMAGE_PATH file_write_image; create USER_FILE_SEEK_IMAGE_PATH file_seek_image;
   create USER_ARGS_IMAGE_PATH args_image; create USER_SPAWN_IMAGE_PATH wait_image;
   create USER_DEMO_DATA_PATH user_demo_message].

Definition user_programs_init v : Z * vfs B :=
  let (ok, v) := all_succeed program_steps v in
  if negb ok then (0, v) else
  let v := (create (lit "/disk/bin/user-demo.sx") image v).2 in
  let v := (create (lit "/disk/bin/user-fault.sx") fault_image v).2 in
  let v := (create (lit "/disk/syscall.txt") user_file_message v).2 in
  (1, v).
End ops.

(** ** The programs are installed *)

(** The path, code and data of each. *)
Definition programs : list (list Z * list Z * list Z) :=
  [(USER_DEMO_IMAGE_PATH, user_demo_code, user_demo_message); (USER_FAULT_IMAGE_PATH, user_fault_code, []);
   (USER_FILE_IMAGE_PATH, user_file_code, data_area 128 [(0%nat, user_file_path)]);
   (USER_FILE_WRITE_IMAGE_PATH, user_file_write_code, data_area 128 [(0%nat, user_file_write_path); (64%nat, user_file_write_message)]);
   (USER_FILE_SEEK_IMAGE_PATH, user_file_seek_code, data_area 128 [(0%nat, user_file_path)]);
   (USER_ARGS_IMAGE_PATH, user_args_code, data_area 128 [(120%nat, [32])]);
   (USER_SPAWN_IMAGE_PATH, user_spawn_code,
     data_area 160 [(0%nat, user_spawn_path); (32%nat, user_spawn_arguments); (80%nat, user_spawn_wait_message);
                    (96%nat, user_spawn_directory); (108%nat, user_spawn_renamed_directory); (128%nat, user_spawn_truncate_path)])].

Section installed.
Context {B : Type} `{BlockDevice B}.

(** The file system's memory as the program loader leaves it: zeros, and any disk. *)
Definition loaded_vfs (d : sfs B) : vfs B := Vfs (replicate 16 (Node [] 0 (replicate 4096 0) 0 0)) 0 0 (replicate 4096 0) d.

Lemma loaded_memory d : vfs_memory (loaded_vfs d).
Proof. split; [split; [reflexivity|]|reflexivity]. apply Forall_replicate. reflexivity. Qed.

(** The part in memory, computed. *)
Definition in_memory (d : sfs B) : bool * vfs B := all_succeed program_steps (vfs_init (loaded_vfs d)).

Definition programs_okb (r : bool * vfs B) : bool :=
  r.1 && (file_count r.2 =? 8) && (dir_count r.2 =? 2) &&
  forallb (fun '(p, code, data) => bool_decide (file_in (nodes r.2) p = Some (program_image code data))) programs.
Lemma in_memory_ok d : programs_okb (in_memory d) = true.
Proof. vm_compute. reflexivity. Qed.

(** A file on the disk leaves the tree in memory alone. *)
Lemma create_disk path bytes v : is_Some (vfs_disk_path (Some path)) ->
  let v' := (create path bytes v).2 in nodes v' = nodes v /\ file_count v' = file_count v /\ dir_count v' = dir_count v.
Proof. intros [dp E]. unfold create, vfs_create. rewrite E. by destruct (sfs_write_file _ _ _ _). Qed.

(** The three files on the disk. *)
Definition on_disk (v : vfs B) : vfs B :=
  let v := (create (lit "/disk/bin/user-demo.sx") image v).2 in
  let v := (create (lit "/disk/bin/user-fault.sx") fault_image v).2 in
  (create (lit "/disk/syscall.txt") user_file_message v).2.

Lemma disk_paths : is_Some (vfs_disk_path (Some (lit "/disk/bin/user-demo.sx"))) /\
  is_Some (vfs_disk_path (Some (lit "/disk/bin/user-fault.sx"))) /\ is_Some (vfs_disk_path (Some (lit "/disk/syscall.txt"))).
Proof. split_and!; (eexists; vm_compute; reflexivity). Qed.

Lemma on_disk_memory v : nodes (on_disk v) = nodes v /\ file_count (on_disk v) = file_count v /\ dir_count (on_disk v) = dir_count v.
Proof.
  destruct disk_paths as (P1 & P2 & P3). unfold on_disk. cbv zeta.
  generalize (lit "/disk/bin/user-demo.sx") (lit "/disk/bin/user-fault.sx") (lit "/disk/syscall.txt") image fault_image user_file_message P1 P2 P3.
  clear. intros p1 p2 p3 b1 b2 b3 P1 P2 P3.
  destruct (create_disk p1 b1 v P1) as (A1 & A2 & A3). set (v1 := (create p1 b1 v).2) in *.
  destruct (create_disk p2 b2 v1 P2) as (B1 & B2 & B3). set (v2 := (create p2 b2 v1).2) in *.
  destruct (create_disk p3 b3 v2 P3) as (C1 & C2 & C3). rewrite C1, C2, C3, B1, B2, B3. done.
Qed.

Lemma user_programs_split v : user_programs_init v =
  let (ok, v) := all_succeed program_steps v in if negb ok then (0, v) else (1, on_disk v).
Proof. unfold user_programs_init. by destruct (all_succeed program_steps v). Qed.

Lemma in_memory_eq d : all_succeed program_steps (vfs_init (loaded_vfs d)) = in_memory d.
Proof. unfold in_memory. reflexivity. Qed.

Lemma data_file d : file_in (nodes (in_memory d).2) USER_DEMO_DATA_PATH = Some user_demo_message.
Proof. vm_compute. reflexivity. Qed.

Lemma programs_okb_spec r : programs_okb r = true -> r.1 = true /\ file_count r.2 = 8 /\ dir_count r.2 = 2 /\
  forall p code data, (p, code, data) ∈ programs -> file_in (nodes r.2) p = Some (program_image code data).
Proof.
  unfold programs_okb. destruct r as [ok v]. cbn [fst snd]. rewrite !andb_true_iff, !Z.eqb_eq, forallb_forall. intros [[[-> Hf] Hd] Hp].
  split_and!; [done..|]. intros p code data Hin. apply list_elem_of_In, Hp in Hin. by apply bool_decide_eq_true in Hin.
Qed.

Lemma installed_split r (d : sfs B) : programs_okb r = true -> all_succeed program_steps (vfs_init (loaded_vfs d)) = r ->
  user_programs_init (vfs_init (loaded_vfs d)) = (1, on_disk r.2).
Proof. intros Hok E. rewrite user_programs_split, E. apply programs_okb_spec in Hok as [Hr _]. destruct r as [ok v]. cbn in Hr. by subst ok. Qed.

(** The images are executables. *)
Lemma program_image_exec code data : program_image code data = exec_bytes (code_bytes code) data 0.
Proof.
  unfold program_image, exec_bytes, header_bytes, program_header, saturn_exec_checksum.
  cbn [magic version header_size code_size data_size entry_offset payload_checksum]. rewrite Nat2Z.id, take_ge by lia. by rewrite <- !(assoc_L (++)).
Qed.

Definition program_okb (code data : list Z) : bool :=
  let c := code_bytes code in
  (0 <? Z.of_nat (length c)) && (Z.of_nat (length c) <=? 4096) && (Z.of_nat (length data) <=? 4096) &&
  forallb (fun b => (0 <=? b) && (b <? 256)) (c ++ data).
Lemma programs_exec p code data : (p, code, data) ∈ programs -> exec_ok (code_bytes code) data 0.
Proof.
  intros Hin. assert (forallb (fun '(_, code, data) => program_okb code data) programs = true) as Hall by (vm_compute; reflexivity).
  rewrite forallb_forall in Hall. apply list_elem_of_In, Hall in Hin. unfold program_okb in Hin.
  rewrite !andb_true_iff, Z.ltb_lt, !Z.leb_le in Hin. destruct Hin as [[[H1 H2] H3] H4]. rewrite forallb_forall in H4.
  split; [change EXEC_PAGE_SIZE with 4096; lia..| |split; [lia|done]].
  apply Forall_forall. intros b Hb. apply list_elem_of_In, H4, andb_true_iff in Hb as [Hb1 Hb2]. unfold is_byte. lia.
Qed.

(** Every step keeps the file tree well formed. *)
Lemma create_inv path bytes (v : vfs B) : cstring path -> vfs_inv v -> vfs_inv (create path bytes v).2.
Proof. intros Hp Hv. apply vfs_create_inv; [done|done|lia]. Qed.

Lemma mkdir_inv path (v : vfs B) : cstring path -> vfs_inv v -> vfs_inv (vfs_mkdir (Some path) v).2.
Proof.
  intros Hp Hv. pose proof (vfs_mkdir_cases v path Hv Hp) as Hc. cbv zeta in Hc.
  destruct (vfs_mkdir _ _) as [res v']. by destruct Hc as [(_ & -> & _)|(_ & _ & ? & _)].
Qed.

Lemma all_succeed_inv steps (v : vfs B) : Forall (fun f => forall w : vfs B, vfs_inv w -> vfs_inv (f w).2) steps -> vfs_inv v -> vfs_inv (all_succeed steps v).2.
Proof.
  intros Hs. revert v. induction Hs as [|f steps Hf _ IH]; intros v Hv; [done|]. cbn [all_succeed]. specialize (Hf v Hv).
  destruct (f v) as [r w]. destruct (truth r); [by apply IH|done].
Qed.

Lemma program_steps_inv : Forall (fun f => forall w : vfs B, vfs_inv w -> vfs_inv (f w).2) program_steps.
Proof.
  unfold program_steps. repeat (apply Forall_cons; split; [intros w; first [apply mkdir_inv|apply create_inv];
    apply (bool_decide_eq_true_1 _); vm_compute; reflexivity|]). constructor.
Qed.

Lemma on_disk_inv (v : vfs B) : vfs_inv v -> vfs_inv (on_disk v).
Proof.
  intros Hv. unfold on_disk. apply create_inv; [apply (bool_decide_eq_true_1 _); vm_compute; reflexivity|].
  apply create_inv; [apply (bool_decide_eq_true_1 _); vm_compute; reflexivity|].
  apply create_inv; [apply (bool_decide_eq_true_1 _); vm_compute; reflexivity|done].
Qed.

(** What boot leaves in memory is what was computed, whatever is on the disk. *)
Lemma installed_memory d : let r := user_programs_init (vfs_init (loaded_vfs d)) in
  r.1 = 1 /\ vfs_inv r.2 /\ nodes r.2 = nodes (in_memory d).2 /\ file_count r.2 = 8 /\ dir_count r.2 = 2.
Proof.
  cbv zeta. rewrite (installed_split (in_memory d) d (in_memory_ok d) (in_memory_eq d)). cbn [fst snd].
  destruct (on_disk_memory (in_memory d).2) as (E1 & E2 & E3). rewrite E1, E2, E3.
  destruct (programs_okb_spec (in_memory d) (in_memory_ok d)) as (_ & Hf & Hd & _).
  split; [reflexivity|]. split; [|split; [reflexivity|split; [exact Hf|exact Hd]]].
  apply on_disk_inv. unfold in_memory. apply all_succeed_inv; [apply program_steps_inv|]. apply (vfs_init_inv (loaded_vfs d) (loaded_memory d)).
Qed.

Lemma program_in_memory d p code data : (p, code, data) ∈ programs -> file_in (nodes (in_memory d).2) p = Some (program_image code data).
Proof. destruct (programs_okb_spec (in_memory d) (in_memory_ok d)) as (_ & _ & _ & Hp). apply Hp. Qed.

Lemma program_parse p code data rest : (p, code, data) ∈ programs ->
  saturn_exec_parse (Some (program_image code data ++ rest)) (Z.of_nat (length (program_image code data))) true =
  Some (ExecImage (code_bytes code ++ data ++ rest) (data ++ rest) (Z.of_nat (length (code_bytes code))) (Z.of_nat (length data)) 0).
Proof.
  intros Hin. pose proof (programs_exec p code data Hin) as Hok.
  rewrite program_image_exec, <- (parse_exec_bytes _ _ _ rest Hok). f_equal. unfold exec_bytes. rewrite !length_app, !length_bytes32.
  change (length (bytes16 SATURN_EXEC_VERSION)) with 2%nat. change (length (bytes16 sizeof_header)) with 2%nat. unfold sizeof_header. lia.
Qed.

(** Boot installs the built-in programs: whatever is on the disk, [user_programs_init]
    succeeds on the file system [vfs_init] leaves, which stays well formed with eight files
    and two directories; each of the seven program files holds the executable of its code
    and data, which the loader's parser accepts and takes apart into exactly that code and
    data with entry 0; and the data file holds the demo message. *)
Theorem builtin_programs_installed d :
  let r := user_programs_init (vfs_init (loaded_vfs d)) in
  r.1 = 1 /\ vfs_inv r.2 /\ vfs_file_count r.2 = 8 /\ vfs_dir_count r.2 = 2 /\
  file_in (nodes r.2) USER_DEMO_DATA_PATH = Some user_demo_message /\
  forall p code data, (p, code, data) ∈ programs ->
    exists file, file_in (nodes r.2) p = Some file /\
    forall rest, saturn_exec_parse (Some (file ++ rest)) (Z.of_nat (length file)) true =
      Some (ExecImage (code_bytes code ++ data ++ rest) (data ++ rest) (Z.of_nat (length (code_bytes code))) (Z.of_nat (length data)) 0).
Proof.
  cbv zeta. destruct (installed_memory d) as (E1 & E2 & E3 & E4 & E5). rewrite E1, E3. unfold vfs_file_count, vfs_dir_count.
  split; [reflexivity|]. split; [exact E2|]. split; [exact E4|]. split; [exact E5|]. split; [exact (data_file d)|].
  intros p code data Hin. exists (program_image code data). split; [exact (program_in_memory d p code data Hin)|].
  intros rest. exact (program_parse p code data rest Hin).
Qed.
End installed.
