(* ===== verification/Virtio.v ===== *)
(** * Virtio transports and queues (shared by the drivers of [src/drivers])

    The register window of a virtio device, its constants, and the split queue as the
    structures the drivers lay over their queue memory. The bus is the interface [MmioBus]:
    the drivers read and write 32-bit registers and nothing else is said of the devices
    here. Reads have no side effect, as the virtio specification has it for the registers
    the drivers read. *)

From S2P Require Import Prelude.

(** The 32-bit registers behind a range of addresses. *)
Class MmioBus (D : Type) := {
  reg_read : Z -> D -> Z;
  reg_write : Z -> Z -> D -> D;
  reg_range : forall a d, is_u32 (reg_read a d);
}.

(** ** Registers *)

Definition VIRTIO_MMIO_BASE : Z := 0x0a000000.
Definition VIRTIO_MMIO_STRIDE : Z := 0x200.
Definition VIRTIO_MMIO_TRANSPORTS : Z := 32.
Definition VIRTIO_MMIO_MAGIC_VALUE : Z := 0x000.
Definition VIRTIO_MMIO_VERSION : Z := 0x004.
Definition VIRTIO_MMIO_DEVICE_ID : Z := 0x008.
Definition VIRTIO_MMIO_DEVICE_FEATURES : Z := 0x010.
Definition VIRTIO_MMIO_DEVICE_FEATURES_SEL : Z := 0x014.
Definition VIRTIO_MMIO_DRIVER_FEATURES : Z := 0x020.
Definition VIRTIO_MMIO_DRIVER_FEATURES_SEL : Z := 0x024.
Definition VIRTIO_MMIO_GUEST_PAGE_SIZE : Z := 0x028.
Definition VIRTIO_MMIO_QUEUE_SEL : Z := 0x030.
Definition VIRTIO_MMIO_QUEUE_NUM_MAX : Z := 0x034.
Definition VIRTIO_MMIO_QUEUE_NUM : Z := 0x038.
Definition VIRTIO_MMIO_QUEUE_ALIGN : Z := 0x03c.
Definition VIRTIO_MMIO_QUEUE_PFN : Z := 0x040.
Definition VIRTIO_MMIO_QUEUE_READY : Z := 0x044.
Definition VIRTIO_MMIO_QUEUE_NOTIFY : Z := 0x050.
Definition VIRTIO_MMIO_STATUS : Z := 0x070.
Definition VIRTIO_MMIO_QUEUE_DESC_LOW : Z := 0x080.
Definition VIRTIO_MMIO_QUEUE_DESC_HIGH : Z := 0x084.
Definition VIRTIO_MMIO_QUEUE_DRIVER_LOW : Z := 0x090.
Definition VIRTIO_MMIO_QUEUE_DRIVER_HIGH : Z := 0x094.
Definition VIRTIO_MMIO_QUEUE_DEVICE_LOW : Z := 0x0a0.
Definition VIRTIO_MMIO_QUEUE_DEVICE_HIGH : Z := 0x0a4.
Definition VIRTIO_MMIO_CONFIG : Z := 0x100.

Definition VIRTIO_MAGIC : Z := 0x74726976.
Definition VIRTIO_VERSION_MODERN : Z := 2.
Definition VIRTIO_VERSION_LEGACY : Z := 1.
Definition VIRTIO_F_VERSION_1_HIGH : Z := 1.
Definition VIRTIO_STATUS_ACKNOWLEDGE : Z := 1.
Definition VIRTIO_STATUS_DRIVER : Z := 2.
Definition VIRTIO_STATUS_DRIVER_OK : Z := 4.
Definition VIRTIO_STATUS_FEATURES_OK : Z := 8.
Definition VIRTQ_DESC_F_NEXT : Z := 1.
Definition VIRTQ_DESC_F_WRITE : Z := 2.

(** ** The split queue *)

Record virtq_desc := VirtqDesc {
  d_addr : Z;
  d_len : Z;
  d_flags : Z;
  d_next : Z;
}.
#[export] Instance virtq_desc_eq_dec : EqDecision virtq_desc.
Proof. solve_decision. Defined.
Definition sizeof_virtq_desc : Z := 16.

Record virtq_avail := VirtqAvail {
  avail_flags : Z;
  avail_idx : Z;
  avail_ring : list Z;
  avail_used_event : Z;
}.

Record virtq_used_elem := VirtqUsedElem {
  used_id : Z;
  used_len : Z;
}.

Record virtq_used := VirtqUsed {
  used_flags : Z;
  used_idx : Z;
  used_ring : list virtq_used_elem;
  used_avail_event : Z;
}.

(** The queue memory, through the three pointers the drivers set up. *)
Record virtq := Virtq {
  descriptors : list virtq_desc;
  available : virtq_avail;
  used : virtq_used;
}.

(** Zeroed memory under those structures, for a queue of [n] entries. *)
Definition zero_queue (n : Z) : virtq :=
  Virtq (replicate (Z.to_nat n) (VirtqDesc 0 0 0 0)) (VirtqAvail 0 0 (replicate (Z.to_nat n) 0) 0)
    (VirtqUsed 0 0 (replicate (Z.to_nat n) (VirtqUsedElem 0 0)) 0).

Definition set_descriptor (i : nat) (d : virtq_desc) (q : virtq) : virtq :=
  Virtq (<[i := d]> (descriptors q)) (available q) (used q).

(** [ring[idx % n] = head; idx++] *)
Definition offer (n head : Z) (q : virtq) : virtq :=
  let a := available q in
  Virtq (descriptors q)
    (VirtqAvail (avail_flags a) (u16 (avail_idx a + 1)) (<[Z.to_nat (avail_idx a mod n) := head]> (avail_ring a)) (avail_used_event a))
    (used q).

(** A sequence of register writes. *)
Definition reg_writes {D} `{MmioBus D} (l : list (Z * Z)) (d : D) : D := foldl (fun d '(a, v) => reg_write a v d) d l.

Lemma reg_writes_app {D} `{MmioBus D} l l' (d : D) : reg_writes (l ++ l') d = reg_writes l' (reg_writes l d).
Proof. unfold reg_writes. apply foldl_app. Qed.

(** A test of one bit. *)
Lemma land_bit z k : 0 <= k -> truth (Z.land z (2 ^ k)) = Z.testbit z k.
Proof.
  intros Hk. unfold truth. destruct (Z.testbit z k) eqn:E.
  - destruct (Z.eqb_spec (Z.land z (2 ^ k)) 0) as [E0|]; [|done]. exfalso.
    assert (Z.testbit (Z.land z (2 ^ k)) k = true) as Ht by (rewrite Z.land_spec, E, Z.pow2_bits_true; done).
    by rewrite E0, Z.bits_0 in Ht.
  - destruct (Z.eqb_spec (Z.land z (2 ^ k)) 0) as [|Hn]; [done|]. exfalso. apply Hn. apply Z.bits_inj'. intros i Hi.
    rewrite Z.land_spec, Z.bits_0. destruct (decide (i = k)) as [->|]; [by rewrite E|]. by rewrite Z.pow2_bits_false, andb_false_r by lia.
Qed.
