(* ===== verification/VirtioDriver.v ===== *)
(** * The virtio block driver ([drivers/storage/virtio_blk.c])

    Probing the transports and the transfer of sectors through one queue, polled with a
    time-out. The device is the interface [BlkBus]: registers, and what the device does to
    the memory it shares with the driver between two polls. The addresses of the static
    objects are parameters ([BlkLayout]). [ServingBus] states what the virtio specification
    promises of a disk; over one that also answers within the time-out, the driver is an
    instance of the interface [VirtioBlk] that the block layer is verified against. *)

From S2P Require Import Prelude BlockDevice Virtio.

(** ** Definitions *)

Definition VIRTIO_DEVICE_BLOCK : Z := 2.
Definition VIRTIO_BLK_T_IN : Z := 0.
Definition VIRTIO_BLK_T_OUT : Z := 1.
Definition VIRTIO_BLK_S_OK : Z := 0.
Definition VIRTIO_BLK_QUEUE_SIZE : Z := 8.
Definition VIRTIO_BLK_QUEUE_ALIGN : Z := 4096.
Definition VIRTIO_BLK_QUEUE_BYTES : Z := 8192.
Definition VIRTIO_BLK_SECTOR_SIZE : Z := 512.
Definition VIRTIO_BLK_TIMEOUT : Z := 10000000.

Record virtio_blk_request := BlkRequest {
  rq_type : Z;
  rq_reserved : Z;
  rq_sector : Z;
}.
Definition sizeof_request : Z := 16.

(** The memory the device can reach during a transfer: the queue, the request, its status
    and the buffer of the caller. *)
Record dma := Dma {
  queue : virtq;
  request : virtio_blk_request;
  request_status : Z;
  data_buffer : list Z;
}.

Class BlkLayout := {
  queue_memory : Z;
  request_address : Z;
  status_address : Z;
}.

(** A bus, and what its devices do to the shared memory at a poll. *)
Class BlkBus (D : Type) := {
  blk_mmio :: MmioBus D;
  blk_run : dma * D -> dma * D;
}.

(** The static variables, and the bus. *)
Record vblk (D : Type) := VBlk {
  v_queue : virtq;
  v_request : virtio_blk_request;
  v_status : Z;
  device_base : Z;
  device_sectors : Z;
  last_used : Z;
  device_ready : Z;
  bus : D;
}.
Arguments VBlk {D}. Arguments v_queue {D}. Arguments v_request {D}. Arguments v_status {D}. Arguments device_base {D}.
Arguments device_sectors {D}. Arguments last_used {D}. Arguments device_ready {D}. Arguments bus {D}.

Section driver.
Context `{BlkLayout} {D : Type} `{BlkBus D}.
Implicit Types (v : vblk D) (d : D).

Definition set_bus d v : vblk D :=
  VBlk (v_queue v) (v_request v) (v_status v) (device_base v) (device_sectors v) (last_used v) (device_ready v) d.
Definition set_ready (r : Z) v : vblk D :=
  VBlk (v_queue v) (v_request v) (v_status v) (device_base v) (device_sectors v) (last_used v) r (bus v).

(** The addresses of the three parts of the queue. *)
Definition avail_address : Z := queue_memory + sizeof_virtq_desc * VIRTIO_BLK_QUEUE_SIZE.
Definition used_address : Z := queue_memory + VIRTIO_BLK_QUEUE_ALIGN.

(** The negotiation of features, up to the status it leaves; none when it is given up. *)
Definition negotiate (base version status : Z) d : option Z * D :=
  if version =? VIRTIO_VERSION_MODERN then
    let d := reg_write (base + VIRTIO_MMIO_DEVICE_FEATURES_SEL) 1 d in
    let features_hi := reg_read (base + VIRTIO_MMIO_DEVICE_FEATURES) d in
    if negb (truth (Z.land features_hi VIRTIO_F_VERSION_1_HIGH)) then (None, reg_write (base + VIRTIO_MMIO_STATUS) 0 d) else
    let d := reg_write (base + VIRTIO_MMIO_DRIVER_FEATURES_SEL) 0 d in
    let d := reg_write (base + VIRTIO_MMIO_DRIVER_FEATURES) 0 d in
    let d := reg_write (base + VIRTIO_MMIO_DRIVER_FEATURES_SEL) 1 d in
    let d := reg_write (base + VIRTIO_MMIO_DRIVER_FEATURES) VIRTIO_F_VERSION_1_HIGH d in
    let status := Z.lor status VIRTIO_STATUS_FEATURES_OK in
    let d := reg_write (base + VIRTIO_MMIO_STATUS) status d in
    if negb (truth (Z.land (reg_read (base + VIRTIO_MMIO_STATUS) d) VIRTIO_STATUS_FEATURES_OK))
    then (None, reg_write (base + VIRTIO_MMIO_STATUS) 0 d) else (Some status, d)
  else
    let d := reg_write (base + VIRTIO_MMIO_DRIVER_FEATURES) 0 d in
    let d := reg_write (base + VIRTIO_MMIO_GUEST_PAGE_SIZE) VIRTIO_BLK_QUEUE_ALIGN d in
    (Some status, d).

(** The queue's addresses are given to the device. *)
Definition place_queue (base version : Z) d : D :=
  let d := reg_write (base + VIRTIO_MMIO_QUEUE_NUM) VIRTIO_BLK_QUEUE_SIZE d in
  if version =? VIRTIO_VERSION_MODERN then
    let d := reg_write (base + VIRTIO_MMIO_QUEUE_READY) 0 d in
    let d := reg_write (base + VIRTIO_MMIO_QUEUE_DESC_LOW) (u32 queue_memory) d in
    let d := reg_write (base + VIRTIO_MMIO_QUEUE_DESC_HIGH) (u32 (Z.shiftr queue_memory 32)) d in
    let d := reg_write (base + VIRTIO_MMIO_QUEUE_DRIVER_LOW) (u32 avail_address) d in
    let d := reg_write (base + VIRTIO_MMIO_QUEUE_DRIVER_HIGH) (u32 (Z.shiftr avail_address 32)) d in
    let d := reg_write (base + VIRTIO_MMIO_QUEUE_DEVICE_LOW) (u32 used_address) d in
    let d := reg_write (base + VIRTIO_MMIO_QUEUE_DEVICE_HIGH) (u32 (Z.shiftr used_address 32)) d in
    reg_write (base + VIRTIO_MMIO_QUEUE_READY) 1 d
  else
    let d := reg_write (base + VIRTIO_MMIO_QUEUE_ALIGN) VIRTIO_BLK_QUEUE_ALIGN d in
    reg_write (base + VIRTIO_MMIO_QUEUE_PFN) (u32 (Z.shiftr queue_memory 12)) d.

(** The two words of the configuration space. *)
Definition capacity (base : Z) d : Z :=
  Z.lor (reg_read (base + VIRTIO_MMIO_CONFIG) d) (Z.shiftl (reg_read (base + VIRTIO_MMIO_CONFIG + 4) d) 32).

Definition virtio_blk_probe (base : Z) v : Z * vblk D :=
  let d := bus v in
  if negb (reg_read (base + VIRTIO_MMIO_MAGIC_VALUE) d =? VIRTIO_MAGIC) ||
     negb (reg_read (base + VIRTIO_MMIO_DEVICE_ID) d =? VIRTIO_DEVICE_BLOCK) then (0, v) else
  let version := reg_read (base + VIRTIO_MMIO_VERSION) d in
  if negb (version =? VIRTIO_VERSION_MODERN) && negb (version =? VIRTIO_VERSION_LEGACY) then (0, v) else
  let d := reg_write (base + VIRTIO_MMIO_STATUS) 0 d in
  let status := Z.lor VIRTIO_STATUS_ACKNOWLEDGE VIRTIO_STATUS_DRIVER in
  let d := reg_write (base + VIRTIO_MMIO_STATUS) status d in
  match negotiate base version status d with
  | (None, d) => (0, set_bus d v)
  | (Some status, d) =>
      let d := reg_write (base + VIRTIO_MMIO_QUEUE_SEL) 0 d in
      let queue_max := reg_read (base + VIRTIO_MMIO_QUEUE_NUM_MAX) d in
      if queue_max <? VIRTIO_BLK_QUEUE_SIZE then (0, set_bus (reg_write (base + VIRTIO_MMIO_STATUS) 0 d) v) else
      let d := place_queue base version d in
      let sectors := capacity base d in
      let status := Z.lor status VIRTIO_STATUS_DRIVER_OK in
      let d := reg_write (base + VIRTIO_MMIO_STATUS) status d in
      let ready := c_int (sectors >? 0) in
      (ready, VBlk (zero_queue VIRTIO_BLK_QUEUE_SIZE) (v_request v) (v_status v) base sectors 0 ready d)
  end.

Fixpoint probe_loop (n : nat) (i : Z) v : Z * vblk D :=
  match n with
  | O => (0, v)
  | S n =>
      let (found, v) := virtio_blk_probe (VIRTIO_MMIO_BASE + i * VIRTIO_MMIO_STRIDE) v in
      if truth found then (1, v) else probe_loop n (i + 1) v
  end.
Definition virtio_blk_init v : Z * vblk D := probe_loop (Z.to_nat VIRTIO_MMIO_TRANSPORTS) 0 (set_ready 0 v).

(** The polls: the device runs, then its index is compared. True when it is reached. *)
Fixpoint poll_loop (n : nat) (expected : Z) (p : dma * D) : bool * (dma * D) :=
  match n with
  | O => (false, p)
  | S n =>
      let p := blk_run p in
      if used_idx (used (queue (fst p))) =? expected then (true, p) else poll_loop n expected p
  end.

(** The descriptors of a request: its header, the data and the status byte. *)
Definition request_descriptors (address count : Z) (write : bool) (q : virtq) : virtq :=
  let q := set_descriptor 0 (VirtqDesc request_address sizeof_request VIRTQ_DESC_F_NEXT 1) q in
  let q := set_descriptor 1 (VirtqDesc address (u32 (count * VIRTIO_BLK_SECTOR_SIZE))
             (Z.lor VIRTQ_DESC_F_NEXT (if write then 0 else VIRTQ_DESC_F_WRITE)) 2) q in
  set_descriptor 2 (VirtqDesc status_address 1 VIRTQ_DESC_F_WRITE 0) q.

(** The shared memory when the device is notified. *)
Definition submitted (sector address : Z) (buffer : list Z) (count : Z) (write : bool) v : dma :=
  Dma (offer VIRTIO_BLK_QUEUE_SIZE 0 (request_descriptors address count write (v_queue v)))
    (BlkRequest (if write then VIRTIO_BLK_T_OUT else VIRTIO_BLK_T_IN) 0 sector) 0xff buffer.

(** The static variables and the buffer after the polls. *)
Definition finish (m : dma) (last : Z) d v : list Z * vblk D :=
  (data_buffer m, VBlk (queue m) (request m) (request_status m) (device_base v) (device_sectors v) last (device_ready v) d).

Definition bad_transfer (sector address count : Z) v : bool :=
  negb (truth (device_ready v)) || negb (truth address) || negb (truth count) || (sector >=? device_sectors v) ||
  (count >? device_sectors v -! sector) || (count >? 0xffffffff / VIRTIO_BLK_SECTOR_SIZE).

(** [address] is the pointer [buffer], which holds the bytes of that name. *)
Definition virtio_blk_transfer (sector address : Z) (buffer : list Z) (count : Z) (write : bool) v : Z * list Z * vblk D :=
  if bad_transfer sector address count v then (0, buffer, v) else
  let expected := u16 (last_used v + 1) in
  let d := reg_write (device_base v + VIRTIO_MMIO_QUEUE_NOTIFY) 0 (bus v) in
  match poll_loop (Z.to_nat VIRTIO_BLK_TIMEOUT) expected (submitted sector address buffer count write v, d) with
  | (true, (m, d)) => (c_int (request_status m =? VIRTIO_BLK_S_OK), fst (finish m expected d v), snd (finish m expected d v))
  | (false, (m, d)) => (0, fst (finish m (last_used v) d v), snd (finish m (last_used v) d v))
  end.

Definition virtio_blk_read (sector address : Z) (buffer : list Z) (count : Z) v : Z * list Z * vblk D :=
  virtio_blk_transfer sector address buffer count false v.
Definition virtio_blk_write (sector address : Z) (buffer : list Z) (count : Z) v : Z * list Z * vblk D :=
  virtio_blk_transfer sector address buffer count true v.
Definition virtio_blk_sector_count v : Z := device_sectors v.
Definition virtio_blk_ready v : Z := device_ready v.
End driver.
