(* ===== verification/VirtioProps.v ===== *)
(** * The virtio block driver drives a disk

    The sequence of register writes of the virtio specification and what a disk promises
    after it ([ServingBus]); the probe performs that sequence; a transfer moves exactly the
    sectors asked for when the disk answers within the driver's polls, and is given up when
    it does not. Over disks that always answer within the polls ([PromptBus], which no
    specification promises) the driver discharges the interface [VirtioBlk] of the block
    layer. *)

From S2P Require Import Prelude BlockDevice Virtio VirtioDriver.

(** ** What the specification promises *)

Section protocol.
Context `{BlkLayout} {D : Type} `{BlkBus D}.
Implicit Types (d : D).

(** The writes that bring up a device of either version, from its reset on. *)
Definition modern_features (base : Z) : list (Z * Z) :=
  [(base + 0x70, 0); (base + 0x70, 3); (base + 0x14, 1)].
Definition modern_accept (base : Z) : list (Z * Z) :=
  [(base + 0x24, 0); (base + 0x20, 0); (base + 0x24, 1); (base + 0x20, 1); (base + 0x70, 11)].
Definition modern_queue (base : Z) : list (Z * Z) :=
  [(base + 0x38, 8); (base + 0x44, 0); (base + 0x80, u32 queue_memory); (base + 0x84, u32 (Z.shiftr queue_memory 32));
   (base + 0x90, u32 (queue_memory + 128)); (base + 0x94, u32 (Z.shiftr (queue_memory + 128) 32));
   (base + 0xa0, u32 (queue_memory + 4096)); (base + 0xa4, u32 (Z.shiftr (queue_memory + 4096) 32)); (base + 0x44, 1)].
Definition legacy_features (base : Z) : list (Z * Z) :=
  [(base + 0x70, 0); (base + 0x70, 3); (base + 0x20, 0); (base + 0x28, 4096)].
Definition legacy_queue (base : Z) : list (Z * Z) :=
  [(base + 0x38, 8); (base + 0x3c, 4096); (base + 0x40, u32 (Z.shiftr queue_memory 12))].

(** A block device answers at [base], and each step of the sequence is accepted. *)
Record modern_handshake (base : Z) d : Prop := {
  mh_magic : reg_read base d = 0x74726976;
  mh_device : reg_read (base + 8) d = 2;
  mh_version : reg_read (base + 4) d = 2;
  mh_offered : Z.testbit (reg_read (base + 0x10) (reg_writes (modern_features base) d)) 0 = true;
  mh_accepted : Z.testbit (reg_read (base + 0x70) (reg_writes (modern_features base ++ modern_accept base) d)) 3 = true;
  mh_queue : 8 <= reg_read (base + 0x34) (reg_writes (modern_features base ++ modern_accept base ++ [(base + 0x30, 0)]) d);
}.
Record legacy_handshake (base : Z) d : Prop := {
  lh_magic : reg_read base d = 0x74726976;
  lh_device : reg_read (base + 8) d = 2;
  lh_version : reg_read (base + 4) d = 1;
  lh_queue : 8 <= reg_read (base + 0x34) (reg_writes (legacy_features base ++ [(base + 0x30, 0)]) d);
}.
Definition modern_sequence (base : Z) : list (Z * Z) :=
  modern_features base ++ modern_accept base ++ [(base + 0x30, 0)] ++ modern_queue base.
Definition legacy_sequence (base : Z) : list (Z * Z) := legacy_features base ++ [(base + 0x30, 0)] ++ legacy_queue base.

(** A request as the device finds it in the shared memory: the next entry of the available
    ring heads the chain of header, data and status. *)
Record offered (n sector address count : Z) (write : bool) (m : dma) : Prop := {
  of_avail : avail_idx (available (queue m)) = u16 (n + 1);
  of_head : avail_ring (available (queue m)) !! Z.to_nat (n mod 8) = Some 0;
  of_header : descriptors (queue m) !! 0%nat = Some (VirtqDesc request_address 16 1 1);
  of_data : descriptors (queue m) !! 1%nat = Some (VirtqDesc address (count * 512) (if write then 1 else 3) 2);
  of_status : descriptors (queue m) !! 2%nat = Some (VirtqDesc status_address 1 2 0);
  of_request : request m = BlkRequest (if write then 1 else 0) 0 sector;
  of_used : used_idx (used (queue m)) = n;
}.
End protocol.

(** A bus whose disks answer every request, some time. [serving d base n]: the device at
    [base] is driven, and has taken and answered [n] requests (modulo 2^16); [disk d base i]
    is sector [i]; [latency] is the number of the driver's polls that find a request, as it
    was submitted, still unanswered. *)
Class ServingBus (D : Type) `{BlkLayout} `{BlkBus D} := {
  latency : dma * D -> nat;
  disk : D -> Z -> Z -> list Z;
  serving : D -> Z -> Z -> Prop;
  capacity_write : forall base a v (d : D), 0 <= a - base < 0x100 -> capacity base (reg_write a v d) = capacity base d;
  capacity_run : forall base (p : dma * D), capacity base (blk_run p).2 = capacity base p.2;
  disk_size : forall (d : D) base n i, serving d base n -> 0 <= i < capacity base d -> length (disk d base i) = 512%nat;
  serving_modern : forall i base (d : D), 0 <= i < 32 -> base = 0x0a000000 + i * 0x200 -> modern_handshake base d ->
    serving (reg_write (base + 0x70) 15 (reg_writes (modern_sequence base) d)) base 0;
  serving_legacy : forall i base (d : D), 0 <= i < 32 -> base = 0x0a000000 + i * 0x200 -> legacy_handshake base d ->
    serving (reg_write (base + 0x70) 7 (reg_writes (legacy_sequence base) d)) base 0;
  serving_notify : forall base (d : D) n, serving d base n -> serving (reg_write (base + 0x50) 0 d) base n;
  disk_notify : forall base (d : D) n i, serving d base n -> disk (reg_write (base + 0x50) 0 d) base i = disk d base i;
  serves : forall (d : D) base n m sector address count write,
    serving d base n -> offered n sector address count write m -> 0 <= sector -> 0 < count ->
    sector + count <= capacity base d -> count * 512 <= Z.of_nat (length (data_buffer m)) -> count * 512 < 2 ^ 32 ->
    (forall j, (j <= latency (m, d))%nat -> used_idx (used (queue (Nat.iter j blk_run (m, d)).1)) = n) /\
    exists m' d', Nat.iter (S (latency (m, d))) blk_run (m, d) = (m', d') /\
      descriptors (queue m') = descriptors (queue m) /\ available (queue m') = available (queue m) /\
      used_idx (used (queue m')) = u16 (n + 1) /\ serving d' base (u16 (n + 1)) /\
      length (data_buffer m') = length (data_buffer m) /\
      (if write
       then data_buffer m' = data_buffer m /\
            (forall i, ~ (sector <= i < sector + count) -> disk d' base i = disk d base i) /\
            (request_status m' = 0 -> forall i, sector <= i < sector + count -> disk d' base i = buffer_sector (data_buffer m) (i - sector))
       else (forall i, disk d' base i = disk d base i) /\
            (request_status m' = 0 -> data_buffer m' = write_at (data_buffer m) 0 (sectors_from (disk d base) sector (Z.to_nat count))));
}.

(** A bus whose disks answer every request within the polls of a transfer. *)
Class PromptBus (D : Type) `{ServingBus D} : Prop :=
  in_time : forall p : dma * D, Z.of_nat (latency p) < VIRTIO_BLK_TIMEOUT.

(** ** The probe *)

Section probe.
Context `{BlkLayout} {D : Type} `{BlkBus D}.
Implicit Types (v : vblk D) (d : D).

(** A block device of a known version answers. What a probe does to the bus: nothing, a sequence that was given up and ended with a
    reset, or the whole sequence for one of the versions. *)
Definition identified (base : Z) d : Prop :=
  reg_read base d = 0x74726976 /\ reg_read (base + 8) d = 2 /\ (reg_read (base + 4) d = 1 \/ reg_read (base + 4) d = 2).
Inductive probed (base : Z) d : option (Z * D) -> D -> Prop :=
  | NoDevice : ~ identified base d -> probed base d None d
  | GivenUp l : identified base d -> l `prefix_of` modern_sequence base \/ l `prefix_of` legacy_sequence base ->
      probed base d None (reg_write (base + 0x70) 0 (reg_writes l d))
  | Modern : modern_handshake base d ->
      probed base d (Some (15, reg_writes (modern_sequence base) d)) (reg_write (base + 0x70) 15 (reg_writes (modern_sequence base) d))
  | Legacy : legacy_handshake base d ->
      probed base d (Some (7, reg_writes (legacy_sequence base) d)) (reg_write (base + 0x70) 7 (reg_writes (legacy_sequence base) d)).

Ltac nothing d Ev := exists None, d; rewrite <- Ev; split; [apply NoDevice; intros (? & ? & [?|?]); congruence|done].

Lemma virtio_blk_probe_spec base v : exists o d', probed base (bus v) o d' /\
  virtio_blk_probe base v =
    match o with
    | None => (0, set_bus d' v)
    | Some (_, d) => let ready := c_int (capacity base d >? 0) in
        (ready, VBlk (zero_queue 8) (v_request v) (v_status v) base (capacity base d) 0 ready d')
    end.
Proof.
  unfold virtio_blk_probe. rewrite Z.add_0_r.
  change VIRTIO_MAGIC with 0x74726976. change VIRTIO_DEVICE_BLOCK with 2.
  change (base + VIRTIO_MMIO_DEVICE_ID) with (base + 8). change (base + VIRTIO_MMIO_VERSION) with (base + 4).
  assert (v = set_bus (bus v) v) as Ev by (by destruct v). set (d := bus v) in *.
  destruct (Z.eqb_spec (reg_read base d) 0x74726976) as [Em|]; [|nothing d Ev].
  destruct (Z.eqb_spec (reg_read (base + 8) d) 2) as [Ei|]; [|nothing d Ev].
  cbn [negb orb]. unfold negotiate, place_queue. change VIRTIO_VERSION_MODERN with 2. change VIRTIO_VERSION_LEGACY with 1.
  destruct (Z.eqb_spec (reg_read (base + 4) d) 2) as [E2|E2]; cbn [negb andb].
  - set (d1 := reg_writes (modern_features base) d).
    change (reg_write (base + VIRTIO_MMIO_DEVICE_FEATURES_SEL) 1 _) with d1.
    set (d2 := reg_writes (modern_accept base) d1). change VIRTIO_F_VERSION_1_HIGH with (2 ^ 0). rewrite land_bit by lia.
    destruct (Z.testbit (reg_read (base + VIRTIO_MMIO_DEVICE_FEATURES) d1) 0) eqn:Ef; cbn [negb].
    2:{ eexists None, _. split; [|reflexivity]. change d1 with (reg_writes (modern_features base) d). apply GivenUp; [by unfold identified; auto|left; by eexists]. }
    change (reg_write (base + VIRTIO_MMIO_STATUS) (Z.lor _ VIRTIO_STATUS_FEATURES_OK) _) with d2.
    change VIRTIO_STATUS_FEATURES_OK with (2 ^ 3) at 1. rewrite land_bit by lia.
    destruct (Z.testbit (reg_read (base + VIRTIO_MMIO_STATUS) d2) 3) eqn:Eo; cbn [negb].
    2:{ eexists None, _. split; [|reflexivity]. change d2 with (reg_writes (modern_features base ++ modern_accept base) d). apply GivenUp; [by unfold identified; auto|left; by eexists]. }
    set (d3 := reg_write (base + VIRTIO_MMIO_QUEUE_SEL) 0 d2). change VIRTIO_BLK_QUEUE_SIZE with 8.
    destruct (Z.ltb_spec (reg_read (base + VIRTIO_MMIO_QUEUE_NUM_MAX) d3) 8) as [Hq|Hq].
    { eexists None, _. split; [|reflexivity]. change d3 with (reg_writes (modern_features base ++ modern_accept base ++ [(base + 0x30, 0)]) d).
      apply GivenUp; [by unfold identified; auto|left; by eexists]. }
    eexists (Some (15, _)), _. split; [apply Modern; by split|]. reflexivity.
  - destruct (Z.eqb_spec (reg_read (base + 4) d) 1) as [E1|E1]; cbn [negb];
      [|nothing d Ev].
    set (d3 := reg_writes (legacy_features base ++ [(base + 0x30, 0)]) d).
    change (reg_write (base + VIRTIO_MMIO_QUEUE_SEL) 0 _) with d3. change VIRTIO_BLK_QUEUE_SIZE with 8.
    destruct (Z.ltb_spec (reg_read (base + VIRTIO_MMIO_QUEUE_NUM_MAX) d3) 8) as [Hq|Hq].
    { eexists None, _. split; [|reflexivity]. unfold d3. apply GivenUp; [by unfold identified; auto|right; by eexists]. }
    eexists (Some (7, _)), _. split; [apply Legacy; by split|]. reflexivity.
Qed.
End probe.

(** ** The polls *)

Section polls.
Context {D : Type} `{BlkBus D}.

Lemma iter_run_S n (p : dma * D) : Nat.iter (S n) blk_run p = Nat.iter n blk_run (blk_run p).
Proof. revert p. induction n as [|n IH]; intros p; [done|]. change (Nat.iter (S (S n)) blk_run p) with (blk_run (Nat.iter (S n) blk_run p)). by rewrite IH. Qed.

(** The loop leaves at the poll that first shows the index, when it comes in time. *)
Lemma poll_loop_reached k : forall n expected (p : dma * D), (k < n)%nat ->
  (forall j, (1 <= j <= k)%nat -> used_idx (used (queue (Nat.iter j blk_run p).1)) <> expected) ->
  used_idx (used (queue (Nat.iter (S k) blk_run p).1)) = expected ->
  poll_loop n expected p = (true, Nat.iter (S k) blk_run p).
Proof.
  induction k as [|k IH]; intros n expected p Hn Hj Hk; (destruct n as [|n]; [lia|]); cbn [poll_loop].
  - change (Nat.iter 1 blk_run p) with (blk_run p) in *. by rewrite Hk, Z.eqb_refl.
  - destruct (Z.eqb_spec (used_idx (used (queue (fst (blk_run p))))) expected) as [E|E].
    { exfalso. apply (Hj 1%nat); [lia|exact E]. }
    rewrite iter_run_S in *. rewrite (IH n expected (blk_run p)); [done|lia| |done].
    intros j Hjk. rewrite <- iter_run_S. apply Hj. lia.
Qed.

(** It gives up after all the polls when the index never comes. *)
Lemma poll_loop_times_out n : forall expected (p : dma * D),
  (forall j, (1 <= j <= n)%nat -> used_idx (used (queue (Nat.iter j blk_run p).1)) <> expected) ->
  poll_loop n expected p = (false, Nat.iter n blk_run p).
Proof.
  induction n as [|n IH]; intros expected p Hj; [done|]. cbn [poll_loop].
  destruct (Z.eqb_spec (used_idx (used (queue (fst (blk_run p))))) expected) as [E|E].
  { exfalso. apply (Hj 1%nat); [lia|exact E]. }
  rewrite iter_run_S, (IH expected (blk_run p)); [done|]. intros j Hjn. rewrite <- iter_run_S. apply Hj. lia.
Qed.
End polls.

(** ** Transfers *)

Section transfers.
Context `{BlkLayout} {D : Type} `{!BlkBus D} `{!ServingBus D}.
Implicit Types (v : vblk D) (d : D).

(** Between two transfers: nothing is on its way. *)
Record idle v : Prop := {
  id_serving : serving (bus v) (device_base v) (last_used v);
  id_range : 0 <= last_used v < 2 ^ 16;
  id_avail : avail_idx (available (v_queue v)) = last_used v;
  id_used : used_idx (used (v_queue v)) = last_used v;
  id_capacity : device_sectors v = capacity (device_base v) (bus v);
}.
Record driver_ok v : Prop := {
  dr_descriptors : length (descriptors (v_queue v)) = 8%nat;
  dr_ring : length (avail_ring (available (v_queue v))) = 8%nat;
  dr_sectors : 0 <= device_sectors v < 2 ^ 64;
  dr_ready : device_ready v = 0 \/ device_ready v = 1 /\ idle v;
}.

(** The sectors behind the driver. *)
Definition driver_data v (i : Z) : list Z := if truth (device_ready v) then disk (bus v) (device_base v) i else replicate 512 0.

Lemma driver_data_size v i : driver_ok v -> 0 <= i < device_sectors v -> length (driver_data v i) = 512%nat.
Proof.
  intros Hv Hi. unfold driver_data. destruct (dr_ready v Hv) as [->|[-> Hid]]; [done|]. cbn.
  apply (disk_size _ _ (last_used v)); [by apply id_serving|]. by rewrite <- id_capacity.
Qed.

Lemma bad_transfer_spec sector address count v : driver_ok v -> 0 <= sector < 2 ^ 64 -> 0 <= count < 2 ^ 64 ->
  bad_transfer sector address count v = false <->
  device_ready v = 1 /\ address <> 0 /\ 0 < count /\ sector + count <= device_sectors v /\ count * 512 < 2 ^ 32.
Proof.
  intros Hv Hs Hc. pose proof (dr_sectors v Hv) as Hd. unfold bad_transfer, truth. change (0xffffffff / VIRTIO_BLK_SECTOR_SIZE) with 8388607.
  rewrite !orb_false_iff, !negb_false_iff, !negb_true_iff, !Z.eqb_neq. rewrite Z.geb_leb, Z.gtb_ltb, !Z.gtb_ltb, Z.leb_gt, !Z.ltb_ge.
  destruct (decide (sector < device_sectors v)) as [Hlt|Hge].
  - rewrite u64_small by lia. destruct (dr_ready v Hv) as [E|[E _]]; rewrite E; lia.
  - destruct (dr_ready v Hv) as [E|[E _]]; rewrite E; lia.
Qed.

Lemma submitted_offered sector address buffer count write v : driver_ok v -> idle v -> 0 < count -> count * 512 < 2 ^ 32 ->
  offered (last_used v) sector address count write (submitted sector address buffer count write v).
Proof.
  intros Hv Hid Hc Hc2. pose proof (dr_descriptors v Hv) as Hd. pose proof (dr_ring v Hv) as Hr. pose proof (id_range v Hid) as Hl.
  split; cbn.
  - by rewrite (id_avail v Hid).
  - rewrite (id_avail v Hid). apply list_lookup_insert_eq. rewrite Hr. pose proof (Z.mod_pos_bound (last_used v) 8). unfold VIRTIO_BLK_QUEUE_SIZE. lia.
  - rewrite !list_lookup_insert_ne by done. apply list_lookup_insert_eq. by rewrite Hd; lia.
  - rewrite list_lookup_insert_ne by done. rewrite list_lookup_insert_eq by (rewrite length_insert, Hd; lia).
    unfold VIRTIO_BLK_SECTOR_SIZE. rewrite u32_small by lia. by destruct write.
  - apply list_lookup_insert_eq. rewrite !length_insert, Hd. lia.
  - done.
  - by apply id_used.
Qed.

Lemma capacity_iter base n (p : dma * D) : capacity base (Nat.iter n blk_run p).2 = capacity base p.2.
Proof.
  induction n as [|n IH]; [done|]. change (Nat.iter (S n) blk_run p) with (blk_run (Nat.iter n blk_run p)).
  by rewrite capacity_run.
Qed.

Lemma u16_next_distinct n : 0 <= n < 2 ^ 16 -> n <> u16 (n + 1).
Proof. intros Hn. unfold u16. destruct (decide (n = 2 ^ 16 - 1)) as [->|]; [done|]. rewrite Z.mod_small by lia. lia. Qed.

(** What a transfer promises, for both directions. *)
Definition transfer_law (r : Z * list Z * vblk D) (sector address : Z) (buffer : list Z) (count : Z) (write : bool) v : Prop :=
  let '(res, buffer', v') := r in
  driver_ok v' /\ device_sectors v' = device_sectors v /\ device_ready v' = device_ready v /\
  length buffer' = length buffer /\ (res = 0 \/ res = 1) /\
  (res = 1 -> device_ready v = 1 /\ sector + count <= device_sectors v) /\
  (if write
   then buffer' = buffer /\ (forall i, ~ (sector <= i < sector + count) -> driver_data v' i = driver_data v i) /\
        (res = 1 -> forall i, sector <= i < sector + count -> driver_data v' i = buffer_sector buffer (i - sector))
   else (forall i, driver_data v' i = driver_data v i) /\
        (res = 1 -> buffer' = write_at buffer 0 (sectors_from (driver_data v) sector (Z.to_nat count)))).

(** A request as the device sees it after the notification. *)
Definition notified (sector address : Z) (buffer : list Z) (count : Z) (write : bool) v : dma * D :=
  (submitted sector address buffer count write v, reg_write (device_base v + 0x50) 0 (bus v)).
Definition good_request (sector address count : Z) v : Prop :=
  device_ready v = 1 /\ address <> 0 /\ 0 < count /\ sector + count <= device_sectors v /\ count * 512 < 2 ^ 32.

(** A request answered within the polls. *)
Lemma transfer_moves sector address buffer count write v : driver_ok v -> 0 <= sector < 2 ^ 64 -> 0 <= count < 2 ^ 64 ->
  count * 512 <= Z.of_nat (length buffer) -> good_request sector address count v ->
  let p := notified sector address buffer count write v in Z.of_nat (latency p) < VIRTIO_BLK_TIMEOUT ->
  let r := virtio_blk_transfer sector address buffer count write v in
  transfer_law r sector address buffer count write v /\
  r.1.1 = c_int (request_status (Nat.iter (S (latency p)) blk_run p).1 =? VIRTIO_BLK_S_OK).
Proof.
  intros Hv Hs Hc Hb Hgood. cbv zeta. intros Hk. unfold virtio_blk_transfer. rewrite (proj2 (bad_transfer_spec sector address count v Hv Hs Hc) Hgood).
  destruct Hgood as (Hr & _ & Hc0 & Hin & Hc2). unfold notified in *.
  assert (idle v) as Hid by (destruct (dr_ready v Hv) as [E|[_ Hid]]; [congruence|done]).
  pose proof (id_range v Hid) as Hn. set (base := device_base v). set (n := last_used v) in *.
  pose proof (submitted_offered sector address buffer count write v Hv Hid Hc0 Hc2) as Hoff. fold n in Hoff.
  change VIRTIO_MMIO_QUEUE_NOTIFY with 0x50. set (d := reg_write (base + 0x50) 0 (bus v)).
  assert (serving d base n) as Hserv by (apply serving_notify, (id_serving v Hid)).
  assert (forall i, disk d base i = disk (bus v) base i) as Hdisk by (intros i; eapply disk_notify, (id_serving v Hid)).
  assert (capacity base d = device_sectors v) as Hcap by (unfold d; rewrite capacity_write by lia; by rewrite (id_capacity v Hid)).
  set (m := submitted sector address buffer count write v) in *.
  destruct (serves d base n m sector address count write Hserv Hoff) as (Hbefore & m' & d' & Hrun & Hdesc & Hav & Hused & Hserv' & Hlen & Hdata);
    [lia|done|by rewrite Hcap|exact Hb|done|].
  change (reg_write (device_base v + 0x50) 0 (bus v)) with d in *. set (k := latency (m, d)) in *.
  rewrite (poll_loop_reached k), Hrun.
  2:{ lia. }
  2:{ intros j Hj. rewrite Hbefore by lia. by apply u16_next_distinct. }
  2:{ by rewrite Hrun. }
  cbn [fst snd finish]. split; [|done].
  assert (capacity base d' = device_sectors v) as Hcap'.
  { rewrite <- Hcap. replace d' with (Nat.iter (S k) blk_run (m, d)).2 by (by rewrite Hrun). apply capacity_iter. }
  unfold transfer_law, driver_data. rewrite Hr. cbn [truth negb Z.eqb device_ready device_sectors bus device_base].
  assert (length (descriptors (queue m)) = 8%nat /\ length (avail_ring (available (queue m))) = 8%nat) as [Hl1 Hl2].
  { unfold m. cbn. rewrite !length_insert. split; [apply Hv|apply (dr_ring v Hv)]. }
  split_and!; try done.
  - split; cbn; [by rewrite Hdesc|by rewrite Hav|apply Hv|]. right. split; [done|].
    split; cbn; [exact Hserv'|apply Z.mod_pos_bound; lia| |exact Hused|symmetry; exact Hcap'].
    rewrite Hav. apply (of_avail _ _ _ _ _ _ Hoff).
  - destruct (_ =? _); [by right|by left].
  - destruct write; destruct Hdata as [Hd1 Hd2].
    + destruct Hd2 as [Hd2 Hd3]. split; [exact Hd1|]. split; [intros i Hi; exact (eq_trans (Hd2 i Hi) (Hdisk i))|]. intros E i Hi. apply Hd3; [|done]. by destruct (Z.eqb_spec (request_status m') VIRTIO_BLK_S_OK).
    + split; [intros i; exact (eq_trans (Hd1 i) (Hdisk i))|]. intros E. destruct (Z.eqb_spec (request_status m') VIRTIO_BLK_S_OK) as [E0|]; [|done].
      rewrite (Hd2 E0). f_equal. unfold sectors_from. f_equal. apply list_fmap_ext. intros ? j _. apply Hdisk.
Qed.

(** One that is not: the driver gives it up, and has not counted it. *)
Lemma transfer_times_out sector address buffer count write v : driver_ok v -> 0 <= sector < 2 ^ 64 -> 0 <= count < 2 ^ 64 ->
  count * 512 <= Z.of_nat (length buffer) -> good_request sector address count v ->
  let p := notified sector address buffer count write v in VIRTIO_BLK_TIMEOUT <= Z.of_nat (latency p) ->
  let r := virtio_blk_transfer sector address buffer count write v in
  r.1.1 = 0 /\ last_used r.2 = last_used v /\ device_ready r.2 = 1 /\ device_sectors r.2 = device_sectors v.
Proof.
  intros Hv Hs Hc Hb Hgood. cbv zeta. intros Hk. unfold virtio_blk_transfer. rewrite (proj2 (bad_transfer_spec sector address count v Hv Hs Hc) Hgood).
  destruct Hgood as (Hr & _ & Hc0 & Hin & Hc2). unfold notified in *.
  assert (idle v) as Hid by (destruct (dr_ready v Hv) as [E|[_ Hid]]; [congruence|done]).
  pose proof (submitted_offered sector address buffer count write v Hv Hid Hc0 Hc2) as Hoff.
  change VIRTIO_MMIO_QUEUE_NOTIFY with 0x50. set (d := reg_write (device_base v + 0x50) 0 (bus v)) in *. set (m := submitted sector address buffer count write v) in *.
  assert (serving d (device_base v) (last_used v)) as Hserv by (apply serving_notify, (id_serving v Hid)).
  assert (capacity (device_base v) d = device_sectors v) as Hcap by (unfold d; rewrite capacity_write by lia; by rewrite (id_capacity v Hid)).
  destruct (serves d (device_base v) (last_used v) m sector address count write Hserv Hoff) as (Hbefore & _); [lia|done|by rewrite Hcap|exact Hb|done|].
  rewrite poll_loop_times_out.
  2:{ intros j Hj. rewrite Hbefore by lia. apply u16_next_distinct, (id_range v Hid). }
  destruct (Nat.iter _ blk_run (m, d)) as [m' d']. done.
Qed.
End transfers.

(** ** Initialisation *)

Section init.
Context `{BlkLayout} {D : Type} `{!BlkBus D}.
Implicit Types (v : vblk D) (d : D).

Lemma lor_bound a b k : 0 <= k -> 0 <= a < 2 ^ k -> 0 <= b < 2 ^ k -> 0 <= Z.lor a b < 2 ^ k.
Proof.
  intros Hk Ha Hb. assert (Z.lor a b = Z.lor a b mod 2 ^ k) as ->; [|apply Z.mod_pos_bound; lia].
  rewrite <- !Z.land_ones by done. rewrite Z.land_lor_distr_l, !Z.land_ones by done. by rewrite !Z.mod_small.
Qed.

Lemma capacity_range base d : 0 <= capacity base d < 2 ^ 64.
Proof.
  unfold capacity. generalize (reg_range (base + VIRTIO_MMIO_CONFIG) d), (reg_range (base + VIRTIO_MMIO_CONFIG + 4) d).
  generalize (reg_read (base + VIRTIO_MMIO_CONFIG) d), (reg_read (base + VIRTIO_MMIO_CONFIG + 4) d). unfold is_u32. intros lo hi Hl Hh.
  apply lor_bound; [done|lia|]. rewrite Z.shiftl_mul_pow2 by done. lia.
Qed.

(** Transport [i] is up: the whole sequence of its version was performed on it, the last
    write included, and the driver holds its size. *)
Definition brought_up (i : Z) v : Prop :=
  let base := 0x0a000000 + i * 0x200 in
  0 <= i < 32 /\ device_base v = base /\ device_ready v = 1 /\ v_queue v = zero_queue 8 /\ last_used v = 0 /\
  exists d l status, (modern_handshake base d /\ l = modern_sequence base /\ status = 15 \/ legacy_handshake base d /\ l = legacy_sequence base /\ status = 7) /\
    bus v = reg_write (base + 0x70) status (reg_writes l d) /\ device_sectors v = capacity base (reg_writes l d) /\ 0 < device_sectors v.

(** No transport has a block device of a known version. *)
Definition no_disk d : Prop := forall i, 0 <= i < 32 -> ~ identified (0x0a000000 + i * 0x200) d.

Lemma probe_result i v : device_ready v = 0 -> 0 <= i < 32 ->
  let (r, v') := virtio_blk_probe (0x0a000000 + i * 0x200) v in
  (r = 1 /\ brought_up i v' \/ r = 0 /\ device_ready v' = 0) /\ (no_disk (bus v) -> r = 0 /\ v' = v).
Proof.
  intros Hr Hi. destruct (virtio_blk_probe_spec (0x0a000000 + i * 0x200) v) as (o & d' & Hp & ->).
  assert (v = set_bus (bus v) v) as Ev by (by destruct v). set (base := 0x0a000000 + i * 0x200) in *.
  assert (identified base (bus v) -> ~ no_disk (bus v)) as Hno by (intros Hd Hn; by destruct (Hn i Hi)).
  assert (forall d l st, d = bus v -> (modern_handshake base d /\ l = modern_sequence base /\ st = 15 \/ legacy_handshake base d /\ l = legacy_sequence base /\ st = 7) ->
    identified base d /\
    let c := capacity base (reg_writes l d) in let ready := c_int (c >? 0) in
    let v' := VBlk (zero_queue 8) (v_request v) (v_status v) base c 0 ready (reg_write (base + 0x70) st (reg_writes l d)) in
    ready = 1 /\ brought_up i v' \/ ready = 0 /\ device_ready v' = 0) as Hup.
  { intros d l st -> Hl. split; [destruct Hl as [([] & _)|([] & _)]; unfold identified; auto|]. cbv zeta.
    destruct (Z.gtb_spec (capacity base (reg_writes l (bus v))) 0) as [Hc|Hc]; [left|by right]. split; [done|].
    split; [done|]. do 4 (split; [done|]). exists (bus v), l, st. split; [done|]. split; [done|]. split; [done|exact Hc]. }
  inversion Hp; subst; cbn zeta.
  - rewrite <- Ev. split; [by right|done].
  - split; [by right|]. intros Hd. by destruct Hno.
  - destruct (Hup (bus v) (modern_sequence base) 15 eq_refl) as [Hid Hu]; [by left|]. split; [exact Hu|]. intros Hd. by destruct Hno.
  - destruct (Hup (bus v) (legacy_sequence base) 7 eq_refl) as [Hid Hu]; [by right|]. split; [exact Hu|]. intros Hd. by destruct Hno.
Qed.

Lemma probe_loop_result n : forall i v, device_ready v = 0 -> 0 <= i -> i + Z.of_nat n = 32 ->
  let (r, v') := probe_loop n i v in
  (r = 1 /\ (exists i, brought_up i v') \/ r = 0 /\ device_ready v' = 0) /\ (no_disk (bus v) -> r = 0 /\ v' = v).
Proof.
  induction n as [|n IH]; intros i v Hr Hi Hn; [by split; [right|]|]. cbn [probe_loop].
  change (VIRTIO_MMIO_BASE + i * VIRTIO_MMIO_STRIDE) with (0x0a000000 + i * 0x200).
  pose proof (probe_result i v Hr ltac:(lia)) as Hp. destruct (virtio_blk_probe _ v) as [r v'].
  destruct Hp as [[[-> Hup]|[-> Hr']] Hno]; cbn [truth Z.eqb negb].
  { split; [by left; split; [|exists i]|]. intros Hd. by destruct (Hno Hd). }
  specialize (IH (i + 1) v' Hr' ltac:(lia) ltac:(lia)). destruct (probe_loop n (i + 1) v') as [r v''].
  destruct IH as [IH1 IH2]. split; [exact IH1|]. intros Hd. destruct (Hno Hd) as [_ ->]. by apply IH2.
Qed.

Lemma init_result v : let (r, v') := virtio_blk_init v in
  (r = 1 /\ (exists i, brought_up i v') \/ r = 0 /\ device_ready v' = 0) /\ (no_disk (bus v) -> r = 0 /\ v' = set_ready 0 v).
Proof. unfold virtio_blk_init. by apply (probe_loop_result _ 0 (set_ready 0 v)). Qed.
End init.

(** ** The interface of the block layer *)

Section interface.
Context `{BlkLayout} {D : Type} `{!BlkBus D} `{!ServingBus D}.
Implicit Types (v : vblk D).

Lemma init_ok v : driver_ok v -> driver_ok (virtio_blk_init v).2.
Proof.
  intros Hv. pose proof (init_result v) as Hi.
  assert (forall n i w, driver_ok w -> device_ready w = 0 -> let r := probe_loop n i w in
    length (descriptors (v_queue r.2)) = 8%nat /\ length (avail_ring (available (v_queue r.2))) = 8%nat /\ 0 <= device_sectors r.2 < 2 ^ 64) as Hl.
  { assert (forall w, driver_ok w -> length (descriptors (v_queue w)) = 8%nat /\ length (avail_ring (available (v_queue w))) = 8%nat /\
      0 <= device_sectors w < 2 ^ 64) as Hw by (intros w []; done).
    induction n as [|n IH]; intros i w Hok Hr; cbn [probe_loop]; [by apply Hw|].
    destruct (virtio_blk_probe_spec (VIRTIO_MMIO_BASE + i * VIRTIO_MMIO_STRIDE) w) as (o & d' & _ & ->).
    destruct o as [[st d]|]; cbn zeta; [|by apply IH; [destruct Hok; split; [..|left]|]].
    destruct (Z.gtb_spec (capacity (VIRTIO_MMIO_BASE + i * VIRTIO_MMIO_STRIDE) d) 0); cbn [c_int truth Z.eqb negb].
    - split; [done|]. split; [done|]. apply capacity_range.
    - apply IH; [|done]. split; [done|done|apply capacity_range|by left]. }
  assert (driver_ok (set_ready 0 v)) as Hv0 by (destruct Hv; split; [done..|by left]).
  specialize (Hl (Z.to_nat VIRTIO_MMIO_TRANSPORTS) 0 _ Hv0 eq_refl). cbv zeta in Hl. fold (virtio_blk_init v) in Hl.
  destruct (virtio_blk_init v) as [r v']. destruct Hl as (Hl1 & Hl2 & Hl3). cbn [fst snd] in *.
  split; [done..|]. destruct Hi as [[[_ (i & Hi & Hb & Hr & Hq & Hu & d & l & st & Hl & Hbus & Hs & _)]|[_ Hr]] _]; [|by left].
  right. split; [done|]. set (base := 0x0a000000 + i * 0x200) in *.
  split; [| |by rewrite Hq, Hu|by rewrite Hq, Hu|].
  - rewrite Hb, Hu, Hbus. destruct Hl as [(Hh & -> & ->)|(Hh & -> & ->)]; [by eapply serving_modern|by eapply serving_legacy].
  - rewrite Hu. lia.
  - rewrite Hb, Hs, Hbus. symmetry. apply capacity_write. lia.
Qed.

(** Over prompt disks every request obeys the law, the refused ones too. *)
Lemma transfer_lawful `{!PromptBus D} sector address buffer count write v : driver_ok v -> 0 <= sector < 2 ^ 64 -> 0 <= count < 2 ^ 64 ->
  count * 512 <= Z.of_nat (length buffer) ->
  transfer_law (virtio_blk_transfer sector address buffer count write v) sector address buffer count write v.
Proof.
  intros Hv Hs Hc Hb. pose proof (bad_transfer_spec sector address count v Hv Hs Hc) as Hbad.
  destruct (bad_transfer sector address count v) eqn:E.
  { unfold virtio_blk_transfer. rewrite E. split_and!; try done; [by left|]. by destruct write. }
  apply transfer_moves; [done..|by apply Hbad|apply in_time].
Qed.

(** The driver is what the block layer asks for, for any address of the buffers. *)
#[program] Definition driver_virtio_blk `{!PromptBus D} (address : Z) : VirtioBlk (vblk D) := {|
  BlockDevice.virtio_blk_init := virtio_blk_init;
  BlockDevice.virtio_blk_read sector buffer count v := virtio_blk_read sector address buffer count v;
  BlockDevice.virtio_blk_write sector buffer count v := let '(res, _, v) := virtio_blk_write sector address buffer count v in (res, v);
  BlockDevice.virtio_blk_sector_count := virtio_blk_sector_count;
  vb_ok := driver_ok;
  vb_data := driver_data;
|}.
Next Obligation. intros _ _ v. apply init_ok. Qed.
Next Obligation. intros _ _ v Hv. apply (dr_sectors v Hv). Qed.
Next Obligation. intros _ _ v i. apply driver_data_size. Qed.
Next Obligation.
  intros Hp address v sector buffer count Hv Hs Hc Hin Hb. cbv beta. pose proof (dr_sectors v Hv) as Hd. unfold virtio_blk_sector_count in *.
  pose proof (transfer_lawful sector address buffer count false v Hv ltac:(lia) ltac:(lia) Hb) as Ht. unfold virtio_blk_read.
  destruct (virtio_blk_transfer sector address buffer count false v) as [[res b] v'].
  destruct Ht as (Hok & Hcnt & _ & Hlen & Hres & _ & Hdata & Hgood). by split_and!.
Qed.
Next Obligation.
  intros Hp address v sector buffer count Hv Hs Hc Hin Hb. cbv beta. pose proof (dr_sectors v Hv) as Hd. unfold virtio_blk_sector_count in *.
  pose proof (transfer_lawful sector address buffer count true v Hv ltac:(lia) ltac:(lia) Hb) as Ht. unfold virtio_blk_write.
  destruct (virtio_blk_transfer sector address buffer count true v) as [[res b] v'].
  destruct Ht as (Hok & Hcnt & _ & Hlen & Hres & _ & _ & Hdata & Hgood). by split_and!.
Qed.

(** (C14) The driver moves exactly the sectors asked for, and says so. Over any bus whose
    disks answer every request as the virtio specification says, however late, and whatever
    was transferred and answered before: a request that is out of range, empty, too long for
    32 bits, without a buffer or made before a disk was found is refused without touching
    anything. Any other that the disk answers within the driver's polls reports success if
    and only if the status the disk gave is OK; then a read has filled the buffer with the
    sectors and changed none, and a write has stored the buffer in exactly those sectors;
    and the driver is ready for the next request. One that is not answered within the polls
    is given up and reports failure; the driver has not counted it as answered, although it
    is still on its way (and its late answer will be taken for that of the next request,
    see [late_answer_accepted]). *)
Theorem driver_transfers sector address buffer count write v :
  driver_ok v -> 0 <= sector < 2 ^ 64 -> 0 <= count < 2 ^ 64 -> count * 512 <= Z.of_nat (length buffer) ->
  let r := virtio_blk_transfer sector address buffer count write v in
  let p := notified sector address buffer count write v in
  (~ good_request sector address count v -> r = (0, buffer, v)) /\
  (good_request sector address count v ->
     (Z.of_nat (latency p) < VIRTIO_BLK_TIMEOUT -> transfer_law r sector address buffer count write v /\
        r.1.1 = c_int (request_status (Nat.iter (S (latency p)) blk_run p).1 =? VIRTIO_BLK_S_OK)) /\
     (VIRTIO_BLK_TIMEOUT <= Z.of_nat (latency p) ->
        r.1.1 = 0 /\ last_used r.2 = last_used v /\ device_ready r.2 = 1 /\ device_sectors r.2 = device_sectors v)).
Proof.
  intros Hv Hs Hc Hb r p. split; [|intros Hg; split; intros Hk; [by apply transfer_moves|by apply transfer_times_out]].
  intros Hno. unfold r, virtio_blk_transfer. pose proof (bad_transfer_spec sector address count v Hv Hs Hc) as Hbad.
  destruct (bad_transfer sector address count v); [done|]. destruct Hno. by apply Hbad.
Qed.

(** Initialisation finds a disk and brings it up as the virtio specification asks: it
    succeeds exactly with one transport on which the whole sequence of its version was
    performed, reset first and [DRIVER_OK] last, whose features and queue size were accepted
    and which has sectors; without a block device on any transport nothing is written to
    the bus at all. Either way the driver is ready for requests. *)
Theorem init_brings_up v : driver_ok v ->
  let r := virtio_blk_init v in
  driver_ok r.2 /\
  (r.1 = 1 /\ (exists i, brought_up i r.2) \/ r.1 = 0 /\ device_ready r.2 = 0) /\
  (no_disk (bus v) -> r = (0, set_ready 0 v)).
Proof.
  intros Hv r. split; [by apply init_ok|]. pose proof (init_result v) as Hi. unfold r. destruct (virtio_blk_init v) as [r0 v'].
  destruct Hi as [Hi Hno]. split; [exact Hi|]. intros Hd. by destruct (Hno Hd) as [-> ->].
Qed.
End interface.
