(* ===== verification/VirtioExamples.v ===== *)
(** * Two disks for the virtio driver

    A disk that answers at the first poll, which shows that the promises of [ServingBus] and
    [PromptBus] can be kept, with the claims about the driver applied to it; and a disk that
    answers after the driver's time-out, whose answer the driver takes for that of the next
    request. *)

From S2P Require Import Prelude BlockDevice Block Virtio VirtioDriver VirtioProps.

#[local] Instance blk_layout0 : BlkLayout := {| queue_memory := 0x40130000; request_address := 0x40132000; status_address := 0x40132010 |}.

(** ** A prompt disk of four sectors behind the second transport *)

Definition disk_base : Z := 0x0a000200.
Record prompt := Prompt { p_status : Z; p_consumed : Z; p_sectors : Z -> list Z }.

Definition disk_reg (a status : Z) : Z :=
  let r := a - disk_base in
  if r =? 0 then 0x74726976 else if r =? 4 then 2 else if r =? 8 then 2 else if r =? 0x10 then 1 else
  if r =? 0x34 then 8 else if r =? 0x70 then u32 status else if r =? 0x100 then 4 else 0.

Lemma disk_reg_range a st : is_u32 (disk_reg a st).
Proof. unfold disk_reg. repeat case_if; try done. apply u32_range. Qed.

#[local] Instance prompt_mmio : MmioBus prompt := {|
  reg_read a d := disk_reg a (p_status d);
  reg_write a v d := if a =? disk_base + 0x70 then Prompt v (if v =? 0 then 0 else p_consumed d) (p_sectors d) else d;
  reg_range a d := disk_reg_range a (p_status d);
|}.

(** Sectors have their size whatever was stored. *)
Definition sector_of (d : prompt) (i : Z) : list Z := take 512 (p_sectors d i ++ replicate 512 0).

(** The request at the head of the available ring is served. *)
Definition serve (m : dma) (d : prompt) : dma * prompt :=
  let q := queue m in
  let head := default 0 (avail_ring (available q) !! Z.to_nat (p_consumed d mod 8)) in
  let header := default (VirtqDesc 0 0 0 0) (descriptors q !! Z.to_nat head) in
  let data := default (VirtqDesc 0 0 0 0) (descriptors q !! Z.to_nat (d_next header)) in
  let sector := rq_sector (request m) in
  let count := d_len data / 512 in
  let u := used q in
  let q := Virtq (descriptors q) (available q) (VirtqUsed (used_flags u) (u16 (used_idx u + 1)) (used_ring u) (used_avail_event u)) in
  let consumed := u16 (p_consumed d + 1) in
  if rq_type (request m) =? 1 then
    (Dma q (request m) 0 (data_buffer m),
     Prompt (p_status d) consumed
       (fun i => if (sector <=? i) && (i <? sector + count) then buffer_sector (data_buffer m) (i - sector) else p_sectors d i))
  else
    (Dma q (request m) 0 (write_at (data_buffer m) 0 (sectors_from (sector_of d) sector (Z.to_nat count))),
     Prompt (p_status d) consumed (p_sectors d)).

#[local] Instance prompt_bus : BlkBus prompt := {|
  blk_run p := let (m, d) := p in
    if (p_status d =? 15) && negb (avail_idx (available (queue m)) =? p_consumed d) then serve m d else (m, d);
|}.

Lemma length_sector_of d i : length (sector_of d i) = 512%nat.
Proof. unfold sector_of. rewrite length_take, length_app, length_replicate. lia. Qed.

Definition prompt_serving (d : prompt) (base n : Z) : Prop := base = disk_base /\ p_status d = 15 /\ p_consumed d = n /\ 0 <= n < 2 ^ 16.

Lemma disk_at i st : disk_reg (0x0a000000 + i * 0x200) st = 0x74726976 -> 0x0a000000 + i * 0x200 = disk_base.
Proof. unfold disk_reg, disk_base. intros E. repeat case_if_in E; try done; lia. Qed.

Lemma capacity_const base a v (d : prompt) : 0 <= a - base < 0x100 -> capacity base (reg_write a v d) = capacity base d.
Proof.
  intros Ha. cbn. destruct (Z.eqb_spec a (disk_base + 0x70)) as [->|]; [|done]. cbn [p_status]. unfold capacity. cbn. unfold disk_reg.
  assert (forall x, x - disk_base = 0x70 -> x = base + 0x100 \/ x = base + 0x100 + 4 -> False) as Hno by (intros; lia).
  destruct (Z.eqb_spec (base + VIRTIO_MMIO_CONFIG - disk_base) 0x70) as [E|E]; [exfalso; unfold VIRTIO_MMIO_CONFIG in *; lia|].
  destruct (Z.eqb_spec (base + VIRTIO_MMIO_CONFIG + 4 - disk_base) 0x70) as [E'|E']; [exfalso; unfold VIRTIO_MMIO_CONFIG in *; lia|]. done.
Qed.

Lemma prompt_serves (d : prompt) base n m sector address count write :
    prompt_serving d base n -> offered n sector address count write m -> 0 <= sector -> 0 < count ->
    count * 512 <= Z.of_nat (length (data_buffer m)) ->
    exists m' d', blk_run (m, d) = (m', d') /\ serve m d = (m', d') /\
      descriptors (queue m') = descriptors (queue m) /\ available (queue m') = available (queue m) /\
      used_idx (used (queue m')) = u16 (n + 1) /\ prompt_serving d' base (u16 (n + 1)) /\
      length (data_buffer m') = length (data_buffer m) /\
      (if write
       then data_buffer m' = data_buffer m /\ (forall i, ~ (sector <= i < sector + count) -> sector_of d' i = sector_of d i) /\
            (forall i, sector <= i < sector + count -> sector_of d' i = buffer_sector (data_buffer m) (i - sector))
       else (forall i, sector_of d' i = sector_of d i) /\
            data_buffer m' = write_at (data_buffer m) 0 (sectors_from (sector_of d) sector (Z.to_nat count))).
Proof.
  intros (-> & Hst & Hc & Hn) [Hav Hhead Hh Hd Hs Hrq Hu] Hs0 Hc0 Hlen.
  assert (avail_idx (available (queue m)) <> p_consumed d) as Hne.
  { rewrite Hav, Hc. intros E. symmetry in E. by apply u16_next_distinct in E. }
  assert (serve m d = (fst (serve m d), snd (serve m d))) as Esv by (by destruct (serve m d)).
  exists (fst (serve m d)), (snd (serve m d)). split.
  { cbn [blk_run prompt_bus]. rewrite Hst. destruct (Z.eqb_spec (avail_idx (available (queue m))) (p_consumed d)); [done|]. exact Esv. }
  split; [exact Esv|]. clear Esv. unfold serve. rewrite Hc, Hhead. cbn [from_option id]. change (Z.to_nat 0) with 0%nat. rewrite Hh. cbn [from_option d_next id].
  change (Z.to_nat 1) with 1%nat. rewrite Hd. cbn [from_option d_len id]. rewrite Z.div_mul by done. rewrite Hrq. cbn [rq_type rq_sector].
  destruct write; cbn [Z.eqb Pos.eqb fst snd queue available descriptors used used_idx data_buffer]; rewrite Hu.
  - split; [done|]. split; [done|]. split; [done|]. split; [split; [done|]; split; [done|]; split; [done|]; apply Z.mod_pos_bound; lia|].
    split; [done|]. split; [done|]. unfold sector_of. cbn [p_sectors]. split; intros i Hi.
    + destruct (Z.leb_spec sector i), (Z.ltb_spec i (sector + count)); try done; lia.
    + destruct (Z.leb_spec sector i), (Z.ltb_spec i (sector + count)); try lia. cbn [andb].
      assert (length (buffer_sector (data_buffer m) (i - sector)) = 512%nat) as Hbs by (apply length_buffer_sector; unfold BLOCK_SECTOR_SIZE; lia).
      rewrite take_app_le by lia. by apply take_ge; lia.
  - split; [done|]. split; [done|]. split; [done|]. split; [split; [done|]; split; [done|]; split; [done|]; apply Z.mod_pos_bound; lia|].
    split; [|done]. apply length_write_at. rewrite length_sectors_from; [unfold BLOCK_SECTOR_SIZE; lia|]. intros i _. apply length_sector_of.
Qed.

#[local, program] Instance prompt_serving_bus : ServingBus prompt := {|
  latency _ := 0%nat;
  disk d _ i := sector_of d i;
  serving := prompt_serving;
|}.
Next Obligation. intros. by apply capacity_const. Qed.
Next Obligation.
  intros base [m d]. cbn [blk_run prompt_bus fst snd]. destruct (_ && _); [|done]. unfold serve. by destruct (_ =? 1).
Qed.
Next Obligation. intros. apply length_sector_of. Qed.
Next Obligation.
  intros i base d Hi -> [Hm _ _ _ _ _]. apply disk_at in Hm. rewrite Hm. by split.
Qed.
Next Obligation.
  intros i base d Hi -> [Hm _ Hv _]. apply disk_at in Hm. rewrite Hm in Hv. discriminate.
Qed.
Next Obligation.
  intros base d n (-> & Hst & Hc & Hn). done.
Qed.
Next Obligation.
  intros base d n i (-> & _). done.
Qed.
Next Obligation.
  intros d base n m sector address count write Hd Ho Hs Hc _ Hl _.
  destruct (prompt_serves d base n m sector address count write Hd Ho Hs Hc Hl) as (m' & d' & Hrun & _ & H1 & H2 & H3 & H4 & H5 & H6).
  split; [intros [|j] Hj; [apply (of_used _ _ _ _ _ _ Ho)|lia]|]. exists m', d'. split; [exact Hrun|].
  do 5 (split; [assumption|]). destruct write; [|by destruct H6]. destruct H6 as (? & ? & ?). by split_and!.
Qed.

#[local] Instance prompt_prompt : PromptBus prompt.
Proof. intros p. done. Qed.

(** A machine just switched on, with this disk. *)
Definition vblk0 : vblk prompt :=
  VBlk (zero_queue 8) (BlkRequest 0 0 0) 0 0 0 0 0 (Prompt 0 0 (fun i => replicate 512 (u8 i))).
Lemma vblk0_ok : driver_ok vblk0.
Proof. split; [done..|by left]. Qed.

Definition vblk1 : vblk prompt := (virtio_blk_init vblk0).2.

Lemma init_brings_up_witness : brought_up 1 vblk1 /\ device_sectors vblk1 = 4.
Proof.
  destruct (init_brings_up vblk0 vblk0_ok) as (_ & [[_ (i & Hi)]|[E _]] & _); [|by vm_compute in E].
  assert (device_base vblk1 = 0x0a000000 + i * 0x200) as Hb by apply Hi. 
  assert (device_base vblk1 = 0x0a000200) as Hc by (vm_compute; reflexivity). assert (i = 1) as -> by (clear Hi; lia).
  split; [exact Hi|by vm_compute].
Defined.

Lemma vblk1_ok : driver_ok vblk1.
Proof. apply init_ok, vblk0_ok. Qed.

(** A read of two sectors into a buffer of three, and a request past the end. *)
Lemma driver_transfers_witness :
  let r := virtio_blk_transfer 2 0x40140000 (replicate 1536 7) 2 false vblk1 in
  transfer_law r 2 0x40140000 (replicate 1536 7) 2 false vblk1 /\ r.1.1 = 1 /\
  virtio_blk_transfer 3 0x40140000 (replicate 1536 7) 2 false vblk1 = (0, replicate 1536 7, vblk1).
Proof.
  assert (device_ready vblk1 = 1 /\ device_sectors vblk1 = 4) as [Hr Hs] by (by vm_compute).
  destruct (proj2 (driver_transfers 2 0x40140000 (replicate 1536 7) 2 false vblk1 vblk1_ok ltac:(lia) ltac:(lia) ltac:(by vm_compute))) as [Hin _].
  { split; [exact Hr|]. rewrite Hs. lia. }
  destruct (Hin eq_refl) as [Hl Hok]. split; [exact Hl|]. split; [refine (eq_trans Hok _); vm_compute; reflexivity|].
  refine (proj1 (driver_transfers 3 0x40140000 (replicate 1536 7) 2 false vblk1 vblk1_ok _ _ _) _); [lia|lia|by vm_compute|].
  intros (_ & _ & _ & Hend & _). rewrite Hs in Hend. lia.
Defined.

(** ** A disk that answers late *)

(** It takes a request when it is offered and answers the oldest one it has taken when its
    countdown runs out: it stores the data at the address the request gave, and the status.
    Of memory at other addresses than that of the current buffer nothing is kept here. *)
Record slow := Slow { s_status : Z; s_consumed : Z; s_taken : list (Z * Z); s_countdown : Z; s_sectors : Z -> list Z }.

#[local] Instance slow_mmio : MmioBus slow := {|
  reg_read a d := disk_reg a (s_status d);
  reg_write a v d := if a =? disk_base + 0x70 then Slow v (s_consumed d) (s_taken d) (s_countdown d) (s_sectors d) else d;
  reg_range a d := disk_reg_range a (s_status d);
|}.

Definition take_request (m : dma) (d : slow) : slow :=
  if avail_idx (available (queue m)) =? s_consumed d then d else
  let data := default (VirtqDesc 0 0 0 0) (descriptors (queue m) !! 1%nat) in
  Slow (s_status d) (u16 (s_consumed d + 1)) (s_taken d ++ [(d_addr data, rq_sector (request m))]) (s_countdown d) (s_sectors d).
Definition answer_oldest (m : dma) (d : slow) : dma * slow :=
  match s_taken d with
  | [] => (m, d)
  | (address, sector) :: rest =>
      let q := queue m in let u := used q in
      let here := bool_decide (d_addr <$> descriptors q !! 1%nat = Some address) in
      (Dma (Virtq (descriptors q) (available q) (VirtqUsed (used_flags u) (u16 (used_idx u + 1)) (used_ring u) (used_avail_event u)))
         (request m) 0 (if here then write_at (data_buffer m) 0 (s_sectors d sector) else data_buffer m),
       Slow (s_status d) (s_consumed d) rest (s_countdown d) (s_sectors d))
  end.
#[local] Instance slow_bus : BlkBus slow := {|
  blk_run p := let (m, d) := p in
    let d := take_request m d in
    let d := Slow (s_status d) (s_consumed d) (s_taken d) (s_countdown d - 1) (s_sectors d) in
    if s_countdown d =? 0 then answer_oldest m d else (m, d);
|}.

(** Up and idle; it answers just after the polls of one transfer. *)
Definition slow0 : vblk slow :=
  VBlk (zero_queue 8) (BlkRequest 0 0 0) 0 disk_base 4 0 1 (Slow 15 0 [] (VIRTIO_BLK_TIMEOUT + 1) (fun i => replicate 512 (u8 (i + 1)))).

(** While the countdown runs, the polls only count it down. *)
Lemma slow_waits (n : nat) : forall m d, avail_idx (available (queue m)) = s_consumed d -> Z.of_nat n < s_countdown d ->
  Nat.iter n blk_run (m, d) = (m, Slow (s_status d) (s_consumed d) (s_taken d) (s_countdown d - Z.of_nat n) (s_sectors d)).
Proof.
  induction n as [|n IH]; intros m d Ha Hn; [by destruct d; cbn; rewrite Z.sub_0_r|].
  rewrite iter_run_S. cbn [blk_run slow_bus]. unfold take_request. destruct (Z.eqb_spec (avail_idx (available (queue m))) (s_consumed d)); [|done].
  cbn [s_countdown]. destruct (Z.eqb_spec (s_countdown d - 1) 0); [lia|]. rewrite IH; [|done|cbn; lia]. cbn. do 2 f_equal. lia.
Qed.

Lemma slow_takes m d : avail_idx (available (queue m)) <> s_consumed d -> s_countdown d <> 1 ->
  blk_run (m, d) = (m, Slow (s_status d) (u16 (s_consumed d + 1))
    (s_taken d ++ [(d_addr (default (VirtqDesc 0 0 0 0) (descriptors (queue m) !! 1%nat)), rq_sector (request m))]) (s_countdown d - 1) (s_sectors d)).
Proof.
  intros Ha Hc. cbn [blk_run slow_bus]. unfold take_request. destruct (Z.eqb_spec (avail_idx (available (queue m))) (s_consumed d)); [done|].
  cbn [s_countdown]. by destruct (Z.eqb_spec (s_countdown d - 1) 0); [lia|].
Qed.

(** The first transfer: taken at the first poll, not answered by the last. *)
Lemma slow_times_out (n : nat) expected m d : avail_idx (available (queue m)) = u16 (s_consumed d + 1) -> 0 <= s_consumed d < 2 ^ 16 ->
  Z.of_nat (S n) < s_countdown d -> used_idx (used (queue m)) <> expected ->
  poll_loop (S n) expected (m, d) = (false, (m, Slow (s_status d) (u16 (s_consumed d + 1))
    (s_taken d ++ [(d_addr (default (VirtqDesc 0 0 0 0) (descriptors (queue m) !! 1%nat)), rq_sector (request m))])
    (s_countdown d - Z.of_nat (S n)) (s_sectors d))).
Proof.
  intros Ha Hc Hn Hu. assert (avail_idx (available (queue m)) <> s_consumed d) as Hne.
  { rewrite Ha. intros E. symmetry in E. by apply u16_next_distinct in E. }
  set (taken := s_taken d ++ _).
  assert (forall j, (j <= n)%nat -> Nat.iter (S j) blk_run (m, d) =
    (m, Slow (s_status d) (u16 (s_consumed d + 1)) taken (s_countdown d - Z.of_nat (S j)) (s_sectors d))) as Hrun.
  { intros j Hj. rewrite iter_run_S, slow_takes by (done || lia). rewrite slow_waits by (cbn; (done || lia)). cbn. do 2 f_equal. lia. }
  rewrite poll_loop_times_out; [by rewrite Hrun|]. intros [|j] Hj; [lia|]. by rewrite Hrun by lia.
Qed.

(** The poll at which the countdown runs out answers the oldest request, whose buffer is
    not the current one. *)
Lemma slow_answers m d a sector rest b : avail_idx (available (queue m)) <> s_consumed d -> s_countdown d = 1 ->
  s_taken d = (a, sector) :: rest -> d_addr <$> descriptors (queue m) !! 1%nat = Some b -> a <> b ->
  exists m' d', blk_run (m, d) = (m', d') /\ used_idx (used (queue m')) = u16 (used_idx (used (queue m)) + 1) /\
    request_status m' = 0 /\ data_buffer m' = data_buffer m.
Proof.
  intros Hav Hc Ht Hd Hab. cbn [blk_run slow_bus]. unfold take_request. destruct (Z.eqb_spec (avail_idx (available (queue m))) (s_consumed d)); [done|].
  cbn [s_countdown]. rewrite Hc. cbn [Z.sub Z.eqb Z.add Z.opp Z.pos_sub Pos.eqb]. unfold answer_oldest. cbn [s_taken]. rewrite Ht. cbn [app].
  rewrite Hd, bool_decide_eq_false_2 by congruence. eexists _, _. by split.
Qed.

Lemma small_request a n k (v : vblk slow) : device_ready v = 1 -> device_sectors v = 4 -> a <> 0 -> 0 <= n < 4 -> k = 1 -> bad_transfer n a k v = false.
Proof.
  intros Hr Hs Ha Hn ->. unfold bad_transfer, truth. rewrite Hr, Hs. destruct (Z.eqb_spec a 0); [done|].
  assert (n = 0 \/ n = 1 \/ n = 2 \/ n = 3) as [->|[->|[->| ->]]] by lia; reflexivity.
Qed.

(** What the driver holds after the first read. *)
Definition slow1 (a : Z) : vblk slow :=
  VBlk (offer 8 0 (request_descriptors a 1 false (zero_queue 8))) (BlkRequest 0 0 0) 0xff disk_base 4 0 1
    (Slow 15 1 [(a, 0)] 1 (s_sectors (bus slow0))).

Lemma first_read a buffer : a <> 0 -> virtio_blk_read 0 a buffer 1 slow0 = (0, buffer, slow1 a).
Proof.
  intros Ha. unfold virtio_blk_read, virtio_blk_transfer. rewrite small_request by done.
  assert (exists n, Z.to_nat VIRTIO_BLK_TIMEOUT = S n) as [n En] by (exists (Z.to_nat (VIRTIO_BLK_TIMEOUT - 1)); unfold VIRTIO_BLK_TIMEOUT; lia).
  rewrite En. assert (Z.of_nat (S n) = VIRTIO_BLK_TIMEOUT) as Es by (rewrite <- En; by apply Z2Nat.id).
  rewrite slow_times_out; [|reflexivity|done|change (Z.of_nat (S n) < VIRTIO_BLK_TIMEOUT + 1); rewrite Es; lia|done].
  rewrite Es. reflexivity.
Qed.

(** A late answer is taken for the answer to the next request. When a disk answers a read
    only after the driver has given it up, the driver's next read of another sector into
    another buffer sees the used index move, finds the status 0 that belongs to the old
    request, and reports success although its buffer was never filled. *)
Theorem late_answer_accepted a b buffer : a <> 0 -> b <> 0 -> a <> b ->
  let r1 := virtio_blk_read 0 a buffer 1 slow0 in
  let r2 := virtio_blk_read 1 b buffer 1 r1.2 in
  r1.1.1 = 0 /\ r2.1 = (1, buffer).
Proof.
  intros Ha Hb Hab r1 r2. unfold r2, r1. rewrite first_read by done. split; [done|]. cbn [snd].
  unfold virtio_blk_read, virtio_blk_transfer. rewrite small_request by done.
  assert (exists n, Z.to_nat VIRTIO_BLK_TIMEOUT = S n) as [n ->] by (exists (Z.to_nat (VIRTIO_BLK_TIMEOUT - 1)); unfold VIRTIO_BLK_TIMEOUT; lia).
  cbn [poll_loop]. edestruct (slow_answers (submitted 1 b buffer 1 false (slow1 a)) (bus (slow1 a)) a 0 [] b) as (m' & d' & Er & Eu & Es & Ed);
    [done|done|done|done|done|].
  change (reg_write _ 0 (bus (slow1 a))) with (bus (slow1 a)). rewrite Er. cbn [fst snd]. rewrite Eu. cbn [fst snd finish].
  change (u16 (used_idx (used (queue (submitted 1 b buffer 1 false (slow1 a)))) + 1)) with 1. change (u16 (last_used (slow1 a) + 1)) with 1.
  cbn [Z.eqb Pos.eqb fst snd]. by rewrite Es, Ed.
Qed.

Lemma late_answer_accepted_witness :
  (virtio_blk_read 1 0x40150000 (replicate 512 0) 1 (virtio_blk_read 0 0x40140000 (replicate 512 0) 1 slow0).2).1 = (1, replicate 512 0).
Proof. apply (late_answer_accepted 0x40140000 0x40150000 (replicate 512 0)); discriminate. Defined.
