(* ===== verification/Keyboard.v ===== *)
(** * Keyboard and serial input ([drivers/keyboard/keyboard.c], [drivers/uart/uart.c])

    The virtio keyboard: probing, the queue of event buffers, decoding of key events; and
    the serial port the input falls back to. The devices are interfaces: what the
    keyboard does to the memory it shares with the driver whenever its used index is looked
    at ([KbdBus]), and the two registers of the serial port ([SerialPort]). *)

From S2P Require Import Prelude Virtio.

(** ** The serial port *)

Definition UART_FR_TXFF : Z := Z.shiftl 1 5.
Definition UART_FR_RXFE : Z := Z.shiftl 1 4.

(** The flag register, and the data register read and written. *)
Class SerialPort (U : Type) := {
  UART_FR : U -> Z * U;
  UART_DR : U -> Z * U;
  UART_DR_write : Z -> U -> U;
}.

Section uart.
Context {U : Type} `{SerialPort U}.
Implicit Types u : U.

(** The loops wait for the port; [None] when the fuel runs out. *)
Fixpoint uart_putc (fuel : nat) (c : Z) u : option U :=
  let (fr, u) := UART_FR u in
  if truth (Z.land fr UART_FR_TXFF) then match fuel with O => None | S fuel => uart_putc fuel c u end
  else Some (UART_DR_write c u).
Fixpoint uart_puts (fuel : nat) (str : list Z) u : option U :=
  match str with
  | [] => Some u
  | c :: str => u ← uart_putc fuel c u; uart_puts fuel str u
  end.
Definition uart_read_ready u : Z * U := let (fr, u) := UART_FR u in (c_int (Z.land fr UART_FR_RXFE =? 0), u).
Fixpoint uart_getc (fuel : nat) u : option (Z * U) :=
  let (ready, u) := uart_read_ready u in
  if negb (truth ready) then match fuel with O => None | S fuel => uart_getc fuel u end
  else let (dr, u) := UART_DR u in Some (u8 (Z.land dr 0xff), u).
End uart.

(** ** The keyboard *)

Definition VIRTIO_DEVICE_INPUT : Z := 18.
Definition VIRTIO_F_VERSION_1_BIT : Z := 32.
Definition VIRTIO_KEYBOARD_QUEUE_SIZE : Z := 16.
Definition VIRTIO_KEYBOARD_QUEUE_ALIGN : Z := 4096.
Definition EV_KEY : Z := 0x01.
Definition KEY_BACKSPACE : Z := 14.
Definition KEY_TAB : Z := 15.
Definition KEY_ENTER : Z := 28.
Definition KEY_LEFTSHIFT : Z := 42.
Definition KEY_RIGHTSHIFT : Z := 54.
Definition KEY_SPACE : Z := 57.
Definition KEY_HOME : Z := 102.
Definition KEY_UP : Z := 103.
Definition KEY_LEFT : Z := 105.
Definition KEY_RIGHT : Z := 106.
Definition KEY_END : Z := 107.
Definition KEY_DOWN : Z := 108.
Definition KEY_DELETE : Z := 111.
Definition KEYBOARD_CHAR_HOME : Z := 0x01.
Definition KEYBOARD_CHAR_LEFT : Z := 0x02.
Definition KEYBOARD_CHAR_UP : Z := 0x03.
Definition KEYBOARD_CHAR_DELETE : Z := 0x04.
Definition KEYBOARD_CHAR_END : Z := 0x05.
Definition KEYBOARD_CHAR_RIGHT : Z := 0x06.
Definition KEYBOARD_CHAR_DOWN : Z := 0x0e.

Record virtio_input_event := InputEvent {
  ev_type : Z;
  ev_code : Z;
  ev_value : Z;
}.
Definition sizeof_event : Z := 8.

Class KbdLayout := {
  keyboard_queue : Z;
  keyboard_events_address : Z;
}.

(** The queue and the event buffers, and what the device does to them. *)
Definition kbd_memory : Type := virtq * list virtio_input_event.
Class KbdBus (D : Type) := {
  kbd_mmio :: MmioBus D;
  kbd_run : kbd_memory * D -> kbd_memory * D;
}.

(** The static variables, the bus and the serial port. *)
Record keyboard (D U : Type) := Keyboard {
  k_queue : virtq;
  keyboard_events : list virtio_input_event;
  virtio_keyboard_base : Z;
  virtio_keyboard_last_used : Z;
  virtio_keyboard_ready : Z;
  keyboard_initialized : Z;
  keyboard_shift : Z;
  k_bus : D;
  k_port : U;
}.
Arguments Keyboard {D U}. Arguments k_queue {D U}. Arguments keyboard_events {D U}. Arguments virtio_keyboard_base {D U}.
Arguments virtio_keyboard_last_used {D U}. Arguments virtio_keyboard_ready {D U}. Arguments keyboard_initialized {D U}.
Arguments keyboard_shift {D U}. Arguments k_bus {D U}. Arguments k_port {D U}.

(** The tables of [keycode_to_ascii]; 0 where no character is given. *)
Definition normal : list Z :=
  [0; 0] ++ lit "1234567890-=" ++ [0; 0] ++ lit "qwertyuiop[]" ++ [0; 0] ++ lit "asdfghjkl;'`" ++ [0] ++ lit "\zxcvbnm,./".
Definition shifted : list Z :=
  [0; 0] ++ lit "!@#$%^&*()_+" ++ [0; 0] ++ lit "QWERTYUIOP{}" ++ [0; 0] ++ lit "ASDFGHJKL:" ++ [34] ++ lit "~" ++ [0] ++ lit "|ZXCVBNM<>?".

Definition keycode_to_ascii (shift code : Z) : Z :=
  if code =? KEY_ENTER then 10
  else if code =? KEY_BACKSPACE then 8
  else if code =? KEY_TAB then 9
  else if code =? KEY_SPACE then 32
  else if code =? KEY_HOME then KEYBOARD_CHAR_HOME
  else if code =? KEY_UP then KEYBOARD_CHAR_UP
  else if code =? KEY_LEFT then KEYBOARD_CHAR_LEFT
  else if code =? KEY_DELETE then KEYBOARD_CHAR_DELETE
  else if code =? KEY_END then KEYBOARD_CHAR_END
  else if code =? KEY_DOWN then KEYBOARD_CHAR_DOWN
  else if code =? KEY_RIGHT then KEYBOARD_CHAR_RIGHT
  else if code >=? Z.of_nat (length normal) then 0
  else chr (if truth shift then shifted else normal) (Z.to_nat code).

Section driver.
Context `{KbdLayout} {D : Type} `{KbdBus D} {U : Type} `{SerialPort U}.
Implicit Types k : keyboard D U.

Definition set_memory (m : kbd_memory) k : keyboard D U :=
  Keyboard (fst m) (snd m) (virtio_keyboard_base k) (virtio_keyboard_last_used k) (virtio_keyboard_ready k) (keyboard_initialized k)
    (keyboard_shift k) (k_bus k) (k_port k).
Definition set_k_bus (d : D) k : keyboard D U :=
  Keyboard (k_queue k) (keyboard_events k) (virtio_keyboard_base k) (virtio_keyboard_last_used k) (virtio_keyboard_ready k)
    (keyboard_initialized k) (keyboard_shift k) d (k_port k).
Definition set_k_base (base : Z) k : keyboard D U :=
  Keyboard (k_queue k) (keyboard_events k) base (virtio_keyboard_last_used k) (virtio_keyboard_ready k)
    (keyboard_initialized k) (keyboard_shift k) (k_bus k) (k_port k).
Definition set_k_last (l : Z) k : keyboard D U :=
  Keyboard (k_queue k) (keyboard_events k) (virtio_keyboard_base k) l (virtio_keyboard_ready k)
    (keyboard_initialized k) (keyboard_shift k) (k_bus k) (k_port k).
Definition set_k_ready (r : Z) k : keyboard D U :=
  Keyboard (k_queue k) (keyboard_events k) (virtio_keyboard_base k) (virtio_keyboard_last_used k) r
    (keyboard_initialized k) (keyboard_shift k) (k_bus k) (k_port k).
Definition set_k_initialized (i : Z) k : keyboard D U :=
  Keyboard (k_queue k) (keyboard_events k) (virtio_keyboard_base k) (virtio_keyboard_last_used k) (virtio_keyboard_ready k)
    i (keyboard_shift k) (k_bus k) (k_port k).
Definition set_shift (s : Z) k : keyboard D U :=
  Keyboard (k_queue k) (keyboard_events k) (virtio_keyboard_base k) (virtio_keyboard_last_used k) (virtio_keyboard_ready k)
    (keyboard_initialized k) s (k_bus k) (k_port k).
Definition set_k_port (u : U) k : keyboard D U :=
  Keyboard (k_queue k) (keyboard_events k) (virtio_keyboard_base k) (virtio_keyboard_last_used k) (virtio_keyboard_ready k)
    (keyboard_initialized k) (keyboard_shift k) (k_bus k) u.

Definition virtio_read (base offset : Z) k : Z := reg_read (base + offset) (k_bus k).
Definition virtio_write (base offset value : Z) k : keyboard D U := set_k_bus (reg_write (base + offset) value (k_bus k)) k.

Definition virtio_keyboard_setup_queue_memory k : keyboard D U :=
  set_memory (zero_queue VIRTIO_KEYBOARD_QUEUE_SIZE, keyboard_events k) k.
(** The addresses of [keyboard_avail] and [keyboard_used]. *)
Definition keyboard_avail : Z := keyboard_queue + sizeof_virtq_desc * VIRTIO_KEYBOARD_QUEUE_SIZE.
Definition keyboard_used : Z := keyboard_queue + VIRTIO_KEYBOARD_QUEUE_ALIGN.

Definition virtio_keyboard_add_buffer (index : Z) k : keyboard D U :=
  let desc := VirtqDesc (keyboard_events_address + sizeof_event * index) sizeof_event VIRTQ_DESC_F_WRITE 0 in
  let q := offer VIRTIO_KEYBOARD_QUEUE_SIZE index (set_descriptor (Z.to_nat index) desc (k_queue k)) in
  let k := set_memory (q, keyboard_events k) k in
  virtio_write (virtio_keyboard_base k) VIRTIO_MMIO_QUEUE_NOTIFY 0 k.

Definition virtio_keyboard_clear_events k : keyboard D U :=
  set_memory (k_queue k, replicate (Z.to_nat VIRTIO_KEYBOARD_QUEUE_SIZE) (InputEvent 0 0 0)) k.

Definition add_buffers k : keyboard D U := foldl (fun k i => virtio_keyboard_add_buffer i k) k (seqZ 0 VIRTIO_KEYBOARD_QUEUE_SIZE).

(** The memory is prepared for a device at [base]. *)
Definition prepare (base : Z) k : keyboard D U :=
  set_k_base base (set_k_last 0 (virtio_keyboard_setup_queue_memory (virtio_keyboard_clear_events k))).

(** The last steps of both versions. *)
Definition start (base status : Z) k : Z * keyboard D U :=
  let k := add_buffers k in
  let k := virtio_write base VIRTIO_MMIO_STATUS (Z.lor status VIRTIO_STATUS_DRIVER_OK) k in
  (1, set_k_ready 1 k).

Definition virtio_keyboard_finish_modern (base status : Z) k : Z * keyboard D U :=
  let k := virtio_write base VIRTIO_MMIO_DEVICE_FEATURES_SEL 1 k in
  let features_hi := virtio_read base VIRTIO_MMIO_DEVICE_FEATURES k in
  let bit := Z.shiftl 1 (VIRTIO_F_VERSION_1_BIT - 32) in
  if Z.land features_hi bit =? 0 then (0, virtio_write base VIRTIO_MMIO_STATUS 0 k) else
  let k := virtio_write base VIRTIO_MMIO_DRIVER_FEATURES_SEL 0 k in
  let k := virtio_write base VIRTIO_MMIO_DRIVER_FEATURES 0 k in
  let k := virtio_write base VIRTIO_MMIO_DRIVER_FEATURES_SEL 1 k in
  let k := virtio_write base VIRTIO_MMIO_DRIVER_FEATURES bit k in
  let status := Z.lor status VIRTIO_STATUS_FEATURES_OK in
  let k := virtio_write base VIRTIO_MMIO_STATUS status k in
  if Z.land (virtio_read base VIRTIO_MMIO_STATUS k) VIRTIO_STATUS_FEATURES_OK =? 0
  then (0, virtio_write base VIRTIO_MMIO_STATUS 0 k) else
  let k := virtio_write base VIRTIO_MMIO_QUEUE_SEL 0 k in
  let queue_max := virtio_read base VIRTIO_MMIO_QUEUE_NUM_MAX k in
  if queue_max <? VIRTIO_KEYBOARD_QUEUE_SIZE then (0, virtio_write base VIRTIO_MMIO_STATUS 0 k) else
  let k := prepare base k in
  let k := virtio_write base VIRTIO_MMIO_QUEUE_READY 0 k in
  let k := virtio_write base VIRTIO_MMIO_QUEUE_NUM VIRTIO_KEYBOARD_QUEUE_SIZE k in
  let k := virtio_write base VIRTIO_MMIO_QUEUE_DESC_LOW (u32 keyboard_queue) k in
  let k := virtio_write base VIRTIO_MMIO_QUEUE_DESC_HIGH (u32 (Z.shiftr keyboard_queue 32)) k in
  let k := virtio_write base VIRTIO_MMIO_QUEUE_DRIVER_LOW (u32 keyboard_avail) k in
  let k := virtio_write base VIRTIO_MMIO_QUEUE_DRIVER_HIGH (u32 (Z.shiftr keyboard_avail 32)) k in
  let k := virtio_write base VIRTIO_MMIO_QUEUE_DEVICE_LOW (u32 keyboard_used) k in
  let k := virtio_write base VIRTIO_MMIO_QUEUE_DEVICE_HIGH (u32 (Z.shiftr keyboard_used 32)) k in
  let k := virtio_write base VIRTIO_MMIO_QUEUE_READY 1 k in
  start base status k.

Definition virtio_keyboard_finish_legacy (base status : Z) k : Z * keyboard D U :=
  let k := virtio_write base VIRTIO_MMIO_DRIVER_FEATURES 0 k in
  let k := virtio_write base VIRTIO_MMIO_GUEST_PAGE_SIZE VIRTIO_KEYBOARD_QUEUE_ALIGN k in
  let k := virtio_write base VIRTIO_MMIO_QUEUE_SEL 0 k in
  let queue_max := virtio_read base VIRTIO_MMIO_QUEUE_NUM_MAX k in
  if queue_max <? VIRTIO_KEYBOARD_QUEUE_SIZE then (0, virtio_write base VIRTIO_MMIO_STATUS 0 k) else
  let k := prepare base k in
  let k := virtio_write base VIRTIO_MMIO_QUEUE_NUM VIRTIO_KEYBOARD_QUEUE_SIZE k in
  let k := virtio_write base VIRTIO_MMIO_QUEUE_ALIGN VIRTIO_KEYBOARD_QUEUE_ALIGN k in
  let k := virtio_write base VIRTIO_MMIO_QUEUE_PFN (u32 (Z.shiftr keyboard_queue 12)) k in
  start base status k.

Definition virtio_keyboard_probe_transport (base : Z) k : Z * keyboard D U :=
  if negb (virtio_read base VIRTIO_MMIO_MAGIC_VALUE k =? VIRTIO_MAGIC) ||
     negb (virtio_read base VIRTIO_MMIO_DEVICE_ID k =? VIRTIO_DEVICE_INPUT) then (0, k) else
  let version := virtio_read base VIRTIO_MMIO_VERSION k in
  let k := virtio_write base VIRTIO_MMIO_STATUS 0 k in
  let status := Z.lor VIRTIO_STATUS_ACKNOWLEDGE VIRTIO_STATUS_DRIVER in
  let k := virtio_write base VIRTIO_MMIO_STATUS status k in
  if version =? VIRTIO_VERSION_MODERN then virtio_keyboard_finish_modern base status k else
  if version =? VIRTIO_VERSION_LEGACY then virtio_keyboard_finish_legacy base status k else
  (0, virtio_write base VIRTIO_MMIO_STATUS 0 k).

Fixpoint keyboard_probe_loop (n : nat) (i : Z) k : keyboard D U :=
  match n with
  | O => k
  | S n =>
      let (found, k) := virtio_keyboard_probe_transport (VIRTIO_MMIO_BASE + i * VIRTIO_MMIO_STRIDE) k in
      if truth found then k else keyboard_probe_loop n (i + 1) k
  end.
Definition virtio_keyboard_init k : keyboard D U := keyboard_probe_loop (Z.to_nat VIRTIO_MMIO_TRANSPORTS) 0 k.

Definition keyboard_init k : keyboard D U :=
  if truth (keyboard_initialized k) then k else virtio_keyboard_init (set_k_initialized 1 k).

(** The device runs before its used index is read. *)
Definition look k : keyboard D U :=
  let '(m, d) := kbd_run ((k_queue k, keyboard_events k), k_bus k) in set_k_bus d (set_memory m k).

(** What the body of the loop does with an event: the shift state, and a character or 0. *)
Definition key_event (event : virtio_input_event) k : Z * keyboard D U :=
  if negb (ev_type event =? EV_KEY) then (0, k) else
  if (ev_code event =? KEY_LEFTSHIFT) || (ev_code event =? KEY_RIGHTSHIFT)
  then (0, set_shift (c_int (negb (ev_value event =? 0))) k) else
  if ev_value event =? 0 then (0, k) else
  (keycode_to_ascii (keyboard_shift k) (ev_code event), k).

(** The result and the character written to [out]; [None] when the fuel runs out. *)
Fixpoint virtio_keyboard_read_char (fuel : nat) (out : Z) k : option (Z * Z * keyboard D U) :=
  if negb (truth (virtio_keyboard_ready k)) then Some (0, out, k) else
  let k := look k in
  if virtio_keyboard_last_used k =? used_idx (used (k_queue k)) then Some (0, out, k) else
  match fuel with
  | O => None
  | S fuel =>
      let used_index := virtio_keyboard_last_used k mod VIRTIO_KEYBOARD_QUEUE_SIZE in
      let id := used_id (default (VirtqUsedElem 0 0) (used_ring (used (k_queue k)) !! Z.to_nat used_index)) in
      let k := set_k_last (u16 (virtio_keyboard_last_used k + 1)) k in
      if id >=? VIRTIO_KEYBOARD_QUEUE_SIZE then virtio_keyboard_read_char fuel out k else
      let event := default (InputEvent 0 0 0) (keyboard_events k !! Z.to_nat id) in
      let k := virtio_keyboard_add_buffer (u16 id) k in
      let (c, k) := key_event event k in
      if truth c then Some (1, c, k) else virtio_keyboard_read_char fuel out k
  end.

Definition keyboard_read_char (fuel : nat) (out : Z) k : option (Z * Z * keyboard D U) :=
  '(r, out, k) ← virtio_keyboard_read_char fuel out k;
  if truth r then Some (1, out, k) else
  let (ready, u) := uart_read_ready (k_port k) in
  let k := set_k_port u k in
  if negb (truth ready) then Some (0, out, k) else
  '(c, u) ← uart_getc fuel (k_port k);
  Some (1, c, set_k_port u k).

Definition keyboard_graphical_ready k : Z := virtio_keyboard_ready k.
Definition keyboard_source k : list Z :=
  if truth (virtio_keyboard_ready k) then lit "UART + virtio keyboard" else lit "UART".
End driver.
