(* ===== verification/KeyboardProps.v ===== *)
(** * The keyboard delivers what was typed

    The ring of event buffers stays consistent, every key event is decoded once and in
    order whatever the interleaving of the device with the driver, and the map of key
    codes reaches every printable character. *)

From S2P Require Import Prelude Virtio Keyboard.

(** ** What the device does *)

Section device.
Context `{KbdLayout}.

Definition event_descriptor (i : Z) : virtq_desc := VirtqDesc (keyboard_events_address + 8 * i) 8 2 0.

(** The next used element: buffer [id] has been filled. *)
Definition put_used (id : Z) (q : virtq) : virtq :=
  let u := used q in
  Virtq (descriptors q) (available q)
    (VirtqUsed (used_flags u) (u16 (used_idx u + 1)) (<[Z.to_nat (used_idx u mod 16) := VirtqUsedElem id 8]> (used_ring u)) (used_avail_event u)).

(** A virtio input device delivers events in order, each into the buffer that was offered
    next, as long as there is one. *)
Inductive delivers : list virtio_input_event -> kbd_memory -> kbd_memory -> Prop :=
  | deliver_none m : delivers [] m m
  | deliver_one e es q evs m' id i :
      used_idx (used q) <> avail_idx (available q) ->
      avail_ring (available q) !! Z.to_nat (used_idx (used q) mod 16) = Some id -> 0 <= id -> 0 <= i ->
      descriptors q !! Z.to_nat id = Some (event_descriptor i) ->
      delivers es (put_used id q, <[Z.to_nat i := e]> evs) m' ->
      delivers (e :: es) (q, evs) m'.
End device.

(** [typed d]: the events the device has yet to deliver. *)
Class ServingKeyboard (D : Type) `{KbdLayout} `{KbdBus D} := {
  typed : D -> list virtio_input_event;
  typed_notify : forall base (d : D), typed (reg_write (base + 0x50) 0 d) = typed d;
  kbd_delivers : forall m (d : D), exists es, delivers es m (kbd_run (m, d)).1 /\ typed d = es ++ typed (kbd_run (m, d)).2;
}.

(** ** The ring *)

Section ring.
Context `{KbdLayout}.
Implicit Types (q : virtq) (evs : list virtio_input_event) (last : Z).

(** The events delivered and not yet read, for a driver that has read up to [last]. *)
Definition pending last q : Z := u16 (used_idx (used q) - last).
Definition slot_event evs (j : Z) : virtio_input_event := default (InputEvent 0 0 0) (evs !! Z.to_nat (j mod 16)).
Definition backlog last q evs : list virtio_input_event := (fun j => slot_event evs (last + j)) <$> seqZ 0 (pending last q).

(** Every buffer is either offered to the device or holds an unread event, and buffer [i]
    only ever goes through slot [i] of both rings. *)
Record ring last q evs : Prop := {
  rg_last : 0 <= last < 2 ^ 16;
  rg_avail : avail_idx (available q) = u16 (last + 16);
  rg_pending : pending last q <= 16;
  rg_used : 0 <= used_idx (used q) < 2 ^ 16;
  rg_slots : avail_ring (available q) = seqZ 0 16;
  rg_descriptors : descriptors q = event_descriptor <$> seqZ 0 16;
  rg_used_ring : length (used_ring (used q)) = 16%nat;
  rg_ids : forall j, 0 <= j < pending last q -> used_id <$> used_ring (used q) !! Z.to_nat ((last + j) mod 16) = Some ((last + j) mod 16);
  rg_events : length evs = 16%nat;
}.

Lemma mod16_u16 x : u16 x mod 16 = x mod 16.
Proof. unfold u16. rewrite Z.mod_mod_divide; [done|]. by exists 4096. Qed.

Lemma u16_small z : 0 <= z < 2 ^ 16 -> u16 z = z.
Proof. intros. unfold u16. by apply Z.mod_small. Qed.

Lemma pending_range last q : 0 <= pending last q < 2 ^ 16.
Proof. apply Z.mod_pos_bound. lia. Qed.

Lemma used_of_pending last q evs : ring last q evs -> used_idx (used q) = u16 (last + pending last q).
Proof.
  intros Hr. pose proof (rg_used _ _ _ Hr) as Hu. unfold pending, u16. rewrite Zplus_mod_idemp_r.
  replace (last + (used_idx (used q) - last)) with (used_idx (used q)) by lia. by rewrite Z.mod_small.
Qed.

Lemma slot_distinct x i j : 0 <= i < 16 -> 0 <= j < 16 -> (x + i) mod 16 = (x + j) mod 16 -> i = j.
Proof. intros Hi Hj E. pose proof (Z.div_mod (x + i) 16). pose proof (Z.div_mod (x + j) 16). lia. Qed.

Lemma slot_range x : 0 <= x mod 16 < 16.
Proof. apply Z.mod_pos_bound. lia. Qed.

Lemma full_when_equal last q evs : ring last q evs -> used_idx (used q) <> avail_idx (available q) -> pending last q < 16.
Proof.
  intros Hr Hne. pose proof (rg_pending _ _ _ Hr). destruct (decide (pending last q = 16)) as [E|]; [|lia].
  destruct Hne. by rewrite (used_of_pending _ _ _ Hr), E, (rg_avail _ _ _ Hr).
Qed.

(** One delivery. *)
Lemma ring_put last q evs e : ring last q evs -> pending last q < 16 ->
  let s := used_idx (used q) mod 16 in
  ring last (put_used s q) (<[Z.to_nat s := e]> evs) /\
  backlog last (put_used s q) (<[Z.to_nat s := e]> evs) = backlog last q evs ++ [e].
Proof.
  intros Hr Hp s. pose proof (used_of_pending _ _ _ Hr) as Hu. pose proof (pending_range last q) as Hp0.
  assert (s = (last + pending last q) mod 16) as Es by (unfold s; rewrite Hu; apply mod16_u16). pose proof (slot_range (last + pending last q)) as Hs.
  assert (pending last (put_used s q) = pending last q + 1) as Ep.
  { unfold pending at 1, put_used. cbn [used used_idx]. unfold u16. rewrite Zminus_mod_idemp_l.
    replace (used_idx (used q) + 1 - last) with (used_idx (used q) - last + 1) by lia. rewrite <- Zplus_mod_idemp_l.
    change ((used_idx (used q) - last) mod 2 ^ 16) with (pending last q). apply Z.mod_small. lia. }
  assert (forall j, 0 <= j < pending last q -> Z.to_nat ((last + j) mod 16) <> Z.to_nat s) as Hne.
  { intros j Hj E. pose proof (slot_range (last + j)). assert (j = pending last q); [|lia]. apply (slot_distinct last); [lia|lia|]. lia. }
  destruct Hr as [H1 H2 H3 H4 H5 H6 H7 H8 H9]. split.
  - split; try done.
    + rewrite Ep. lia.
    + cbn. apply Z.mod_pos_bound. lia.
    + cbn. by rewrite length_insert.
    + intros j Hj. rewrite Ep in Hj. cbn. fold s. destruct (decide (j = pending last q)) as [->|].
      * rewrite <- Es. rewrite list_lookup_insert_eq by lia. done.
      * rewrite list_lookup_insert_ne by (apply not_eq_sym, Hne; lia). apply H8. lia.
    + by rewrite length_insert.
  - unfold backlog. rewrite Ep, seqZ_snoc, fmap_app by lia. f_equal.
    + apply list_fmap_ext. intros i j Hij. apply list_elem_of_lookup_2, elem_of_seqZ in Hij. unfold slot_event.
      rewrite list_lookup_insert_ne; [done|]. apply not_eq_sym, Hne. lia.
    + cbn. unfold slot_event. rewrite Z.add_0_l, <- Es. by rewrite list_lookup_insert_eq by lia.
Qed.

(** Any deliveries. *)
Lemma ring_delivers last es m m' : delivers es m m' -> ring last m.1 m.2 ->
  ring last m'.1 m'.2 /\ backlog last m'.1 m'.2 = backlog last m.1 m.2 ++ es.
Proof.
  induction 1 as [m|e es q evs m' id i Hne Hid Hid0 Hi Hd _ IH]; intros Hr; [by rewrite app_nil_r|].
  cbn [fst snd] in *. pose proof (full_when_equal _ _ _ Hr Hne) as Hp. pose proof (slot_range (used_idx (used q))) as Hs.
  rewrite (rg_slots _ _ _ Hr) in Hid. apply lookup_seqZ in Hid as [-> Hlt]. rewrite Z2Nat.id in * by lia. rewrite Z.add_0_l in *.
  rewrite (rg_descriptors _ _ _ Hr), list_lookup_fmap in Hd. destruct (seqZ 0 16 !! _) as [j|] eqn:Ej; [|done].
  apply lookup_seqZ in Ej as [-> _]. injection Hd as Hd. rewrite Z2Nat.id, Z.add_0_l in Hd by lia.
  assert (i = used_idx (used q) mod 16) as -> by lia.
  destruct (ring_put last q evs e Hr Hp) as [Hr' Hb]. destruct (IH Hr') as [Hr'' Hb'']. split; [done|].
  by rewrite Hb'', Hb, <- app_assoc.
Qed.

(** Reading the oldest event and offering its buffer again. *)
Lemma ring_take last q evs : ring last q evs -> 0 < pending last q ->
  let s := last mod 16 in
  let q' := offer 16 s (set_descriptor (Z.to_nat s) (event_descriptor s) q) in
  used_id <$> used_ring (used q) !! Z.to_nat s = Some s /\
  ring (u16 (last + 1)) q' evs /\ backlog last q evs = slot_event evs last :: backlog (u16 (last + 1)) q' evs.
Proof.
  intros Hr Hp s q'. pose proof (slot_range last) as Hs. fold s in Hs. pose proof (pending_range last q) as Hp0.
  assert (pending (u16 (last + 1)) q' = pending last q - 1) as Ep.
  { unfold pending at 1. change (used q') with (used q). unfold u16 at 2. unfold u16. rewrite Zminus_mod_idemp_r.
    replace (used_idx (used q) - (last + 1)) with (used_idx (used q) - last + -1) by lia. rewrite <- Zplus_mod_idemp_l.
    change ((used_idx (used q) - last) mod 2 ^ 16) with (pending last q). replace (pending last q + -1) with (pending last q - 1) by lia. apply Z.mod_small. lia. }
  assert (forall j, (u16 (last + 1) + j) mod 16 = (last + (j + 1)) mod 16) as Hj.
  { intros j. rewrite <- Zplus_mod_idemp_l, mod16_u16, Zplus_mod_idemp_l. f_equal. lia. }
  destruct Hr as [H1 H2 H3 H4 H5 H6 H7 H8 H9]. split; [|split].
  - specialize (H8 0 ltac:(lia)). by rewrite Z.add_0_r in H8.
  - split; try done.
    + apply Z.mod_pos_bound. lia.
    + cbn. rewrite H2. unfold u16. rewrite !Zplus_mod_idemp_l. f_equal. lia.
    + lia.
    + cbn. rewrite H2, mod16_u16, H5. replace ((last + 16) mod 16) with s by (unfold s; replace (last + 16) with (last + 1 * 16) by lia; by rewrite Z.mod_add).
      apply list_insert_id. apply lookup_seqZ. lia.
    + cbn. rewrite H6. apply list_insert_id. rewrite list_lookup_fmap. assert (seqZ 0 16 !! Z.to_nat s = Some s) as -> by (apply lookup_seqZ; lia). done.
    + intros j Hjp. rewrite Ep in Hjp. rewrite Hj. apply H8. lia.
  - unfold backlog. rewrite Ep, seqZ_cons by done. cbn [fmap list_fmap]. rewrite Z.add_0_r. f_equal.
    change (Z.succ 0) with (1 + 0). rewrite <- (fmap_add_seqZ 1 0), <- list_fmap_compose. unfold Z.pred.
    apply list_fmap_ext. intros i j _. cbn [compose]. unfold slot_event. rewrite Hj. do 4 f_equal. lia.
Qed.
End ring.

(** ** Reading *)

Section reading.
Context `{KbdLayout} {D : Type} `{!KbdBus D} `{!ServingKeyboard D} {U : Type} `{SerialPort U}.
Implicit Types k : keyboard D U.

(** What the user sees of an event: the shift keys change the shift state, another key
    that is pressed or repeats types its character, if it has one. *)
Definition decode_event (shift : Z) (e : virtio_input_event) : Z * list Z :=
  if negb (ev_type e =? EV_KEY) then (shift, []) else
  if (ev_code e =? KEY_LEFTSHIFT) || (ev_code e =? KEY_RIGHTSHIFT) then (c_int (negb (ev_value e =? 0)), []) else
  if ev_value e =? 0 then (shift, []) else
  let c := keycode_to_ascii shift (ev_code e) in (shift, if c =? 0 then [] else [c]).
Fixpoint decode (shift : Z) (es : list virtio_input_event) : Z * list Z :=
  match es with
  | [] => (shift, [])
  | e :: es => let (shift, cs) := decode_event shift e in let (shift, cs') := decode shift es in (shift, cs ++ cs')
  end.

(** The events typed and not yet read, wherever they are. *)
Definition unread k : list virtio_input_event :=
  backlog (virtio_keyboard_last_used k) (k_queue k) (keyboard_events k) ++ typed (k_bus k).
Definition keyboard_ok k : Prop := ring (virtio_keyboard_last_used k) (k_queue k) (keyboard_events k).
Definition waiting k : Z := pending (virtio_keyboard_last_used k) (k_queue k).

Lemma key_event_spec e k : let (c, k') := key_event e k in
  decode_event (keyboard_shift k) e = (keyboard_shift k', if c =? 0 then [] else [c]) /\
  k' = set_shift (keyboard_shift k') k.
Proof.
  unfold key_event, decode_event. destruct (negb _); [by destruct k|]. destruct (_ || _); [done|]. destruct (_ =? 0); [by destruct k|].
  cbn. by destruct k.
Qed.

Lemma look_keeps k : keyboard_ok k -> keyboard_ok (look k) /\ unread (look k) = unread k /\ keyboard_shift (look k) = keyboard_shift k /\
  virtio_keyboard_ready (look k) = virtio_keyboard_ready k /\ k_port (look k) = k_port k.
Proof.
  intros Hk. unfold look, keyboard_ok, unread in *. destruct (kbd_delivers (k_queue k, keyboard_events k) (k_bus k)) as (es & Hd & Ht).
  destruct (kbd_run _) as [m d]. cbn [fst snd] in *. destruct (ring_delivers _ _ _ _ Hd Hk) as [Hr Hb].
  split; [exact Hr|]. split; [|done]. change (backlog (virtio_keyboard_last_used k) m.1 m.2 ++ typed d =
    backlog (virtio_keyboard_last_used k) (k_queue k) (keyboard_events k) ++ typed (k_bus k)). by rewrite Hb, Ht, <- app_assoc.
Qed.

(** A round of the loop that finds an event. *)
Lemma read_round k : keyboard_ok k -> virtio_keyboard_last_used k <> used_idx (used (k_queue k)) ->
  let used_index := virtio_keyboard_last_used k mod 16 in
  let id := used_id (default (VirtqUsedElem 0 0) (used_ring (used (k_queue k)) !! Z.to_nat used_index)) in
  let event := default (InputEvent 0 0 0) (keyboard_events k !! Z.to_nat id) in
  let k' := virtio_keyboard_add_buffer (u16 id) (set_k_last (u16 (virtio_keyboard_last_used k + 1)) k) in
  0 <= id < 16 /\ keyboard_ok k' /\ unread k = event :: unread k' /\ keyboard_shift k' = keyboard_shift k.
Proof.
  intros Hk Hne used_index id event k'. set (last := virtio_keyboard_last_used k) in *.
  assert (0 < pending last (k_queue k)) as Hp.
  { pose proof (pending_range last (k_queue k)). destruct (decide (pending last (k_queue k) = 0)) as [E|]; [|lia]. exfalso. apply Hne.
    pose proof (used_of_pending last _ _ Hk) as Eu. rewrite Eu, E, Z.add_0_r. symmetry. apply u16_small, (rg_last _ _ _ Hk). }
  destruct (ring_take last (k_queue k) (keyboard_events k) Hk Hp) as (Hid & Hr & Hb).
  assert (id = last mod 16) as Eid by (unfold id, used_index; destruct (_ !! _); [by injection Hid|done]).
  pose proof (slot_range last) as Hs. assert (u16 id = id) as Eu by (apply u16_small; lia). unfold k'. rewrite Eu. clear k' Eu.
  unfold keyboard_ok, unread in *. split; [lia|]. fold last. rewrite Hb, Eid. split; [exact Hr|]. split; [|done].
  cbn [app]. f_equal. { unfold event. by rewrite Eid. }
  unfold virtio_keyboard_add_buffer, virtio_write. cbn [k_queue keyboard_events virtio_keyboard_last_used k_bus set_k_bus set_memory set_k_last fst snd].
  f_equal. symmetry. apply typed_notify.
Qed.

Lemma decode_app s es es' : decode s (es ++ es') = (let (s1, cs) := decode s es in let (s2, cs') := decode s1 es' in (s2, cs ++ cs')).
Proof.
  revert s. induction es as [|e es IH]; intros s; cbn; [by destruct (decode s es')|].
  destruct (decode_event s e) as [s1 cs]. rewrite IH. destruct (decode s1 es) as [s2 cs2]. destruct (decode s2 es') as [s3 cs3]. by rewrite <- app_assoc.
Qed.

Lemma read_char_unfold fuel out k : virtio_keyboard_read_char fuel out k =
  if negb (truth (virtio_keyboard_ready k)) then Some (0, out, k) else
  let k := look k in
  if virtio_keyboard_last_used k =? used_idx (used (k_queue k)) then Some (0, out, k) else
  match fuel with
  | O => None
  | S fuel =>
      let used_index := virtio_keyboard_last_used k mod 16 in
      let id := used_id (default (VirtqUsedElem 0 0) (used_ring (used (k_queue k)) !! Z.to_nat used_index)) in
      if id >=? 16 then virtio_keyboard_read_char fuel out (set_k_last (u16 (virtio_keyboard_last_used k + 1)) k) else
      let (c, k) := key_event (default (InputEvent 0 0 0) (keyboard_events k !! Z.to_nat id))
        (virtio_keyboard_add_buffer (u16 id) (set_k_last (u16 (virtio_keyboard_last_used k + 1)) k)) in
      if truth c then Some (1, c, k) else virtio_keyboard_read_char fuel out k
  end.
Proof. by destruct fuel. Qed.

Lemma read_loop_spec fuel : forall out k, keyboard_ok k -> (length (unread k) <= fuel)%nat ->
  exists r c k' es, virtio_keyboard_read_char fuel out k = Some (r, c, k') /\ keyboard_ok k' /\ unread k = es ++ unread k' /\
    k_port k' = k_port k /\ virtio_keyboard_ready k' = virtio_keyboard_ready k /\
    (r = 1 /\ c <> 0 /\ decode (keyboard_shift k) es = (keyboard_shift k', [c]) \/
     r = 0 /\ c = out /\ decode (keyboard_shift k) es = (keyboard_shift k', []) /\ (virtio_keyboard_ready k <> 0 -> waiting k' = 0)).
Proof.
  induction fuel as [|fuel IH]; intros out k Hk Hf; rewrite read_char_unfold;
    (unfold truth at 1; destruct (Z.eqb_spec (virtio_keyboard_ready k) 0) as [E0|E0]; cbn [negb];
      [exists 0, out, k, []; do 5 (split; [done|]); right; done|]);
    destruct (look_keeps k Hk) as (Hk1 & Hu1 & Hs1 & Hr1 & Hp1); set (k1 := look k) in *; rewrite <- Hu1 in Hf;
    (destruct (Z.eqb_spec (virtio_keyboard_last_used k1) (used_idx (used (k_queue k1)))) as [E|E];
      [exists 0, out, k1, []; rewrite Hu1, Hs1; do 5 (split; [done|]); right; do 3 (split; [done|]); intros _;
       unfold waiting, pending; by rewrite E, Z.sub_diag|]);
    destruct (read_round k1 Hk1 E) as (Hid & Hk2 & Hu2 & Hs2); rewrite Hu2 in Hf; cbn [length] in Hf; [lia|].
  cbv zeta. set (id := used_id _) in *.
  destruct (Z.geb_spec id 16); [lia|]. set (event := default (InputEvent 0 0 0) _) in *. set (k2 := virtio_keyboard_add_buffer _ _) in *.
  pose proof (key_event_spec event k2) as Hke. destruct (key_event event k2) as [c k3]. destruct Hke as [Hdec Hk3].
  assert (keyboard_ok k3 /\ unread k3 = unread k2 /\ k_port k3 = k_port k2 /\ virtio_keyboard_ready k3 = virtio_keyboard_ready k2) as (Hok3 & Hu3 & Hp3 & Hr3).
  { rewrite Hk3. by split. }
  assert (k_port k2 = k_port k1 /\ virtio_keyboard_ready k2 = virtio_keyboard_ready k1) as [Hp2 Hr2] by done.
  unfold truth. destruct (Z.eqb_spec c 0) as [->|Ec]; cbn [negb].
  - destruct (IH out k3 Hok3 ltac:(rewrite Hu3; lia)) as (r & c & k' & es & Er & Hk' & Hes & Hp & Hr & Hd).
    exists r, c, k', (event :: es). split; [exact Er|]. split; [done|]. split; [by rewrite <- Hu1, Hu2, <- Hu3, Hes|].
    split; [congruence|]. split; [congruence|]. cbn [decode]. rewrite <- Hs1, <- Hs2, Hdec.
    destruct Hd as [(-> & Hc & ->)|(-> & -> & -> & Hw)]; [by left|right]. do 3 (split; [done|]). intros Hrd. apply Hw. congruence.
  - exists 1, c, k3, [event]. split; [done|]. split; [done|]. split; [by rewrite <- Hu1, Hu2, <- Hu3|].
    split; [congruence|]. split; [congruence|]. left. split; [done|]. split; [done|]. cbn [decode]. by rewrite <- Hs1, <- Hs2, Hdec.
Qed.
End reading.

(** ** Initialisation *)

Section init.
Context `{KbdLayout} {D : Type} `{!KbdBus D} {U : Type} `{SerialPort U}.
Implicit Types k : keyboard D U.

(** The writes on a device of either version: features, queue, one notification for each
    of the buffers, and [DRIVER_OK]. *)
Definition reset_writes (base : Z) : list (Z * Z) := [(base + 0x70, 0); (base + 0x70, 3)].
Definition modern_feature_writes (base : Z) : list (Z * Z) := [(base + 0x24, 0); (base + 0x20, 0); (base + 0x24, 1); (base + 0x20, 1); (base + 0x70, 11)].
Definition modern_queue_writes (base : Z) : list (Z * Z) :=
  [(base + 0x44, 0); (base + 0x38, 16); (base + 0x80, u32 keyboard_queue); (base + 0x84, u32 (Z.shiftr keyboard_queue 32));
   (base + 0x90, u32 (keyboard_queue + 256)); (base + 0x94, u32 (Z.shiftr (keyboard_queue + 256) 32));
   (base + 0xa0, u32 (keyboard_queue + 4096)); (base + 0xa4, u32 (Z.shiftr (keyboard_queue + 4096) 32)); (base + 0x44, 1)].
Definition legacy_queue_writes (base : Z) : list (Z * Z) := [(base + 0x38, 16); (base + 0x3c, 4096); (base + 0x40, u32 (Z.shiftr keyboard_queue 12))].
Definition notifications (base : Z) : list (Z * Z) := replicate 16 (base + 0x50, 0).
Definition modern_writes (base : Z) : list (Z * Z) :=
  reset_writes base ++ [(base + 0x14, 1)] ++ modern_feature_writes base ++ [(base + 0x30, 0)] ++ modern_queue_writes base ++
  notifications base ++ [(base + 0x70, 15)].
Definition legacy_writes (base : Z) : list (Z * Z) :=
  reset_writes base ++ [(base + 0x20, 0); (base + 0x28, 4096); (base + 0x30, 0)] ++ legacy_queue_writes base ++ notifications base ++ [(base + 0x70, 7)].

Definition input_device (base : Z) (d : D) : Prop := reg_read base d = 0x74726976 /\ reg_read (base + 8) d = 18.

(** What initialisation leaves when it finds a keyboard: an empty ring with every buffer
    offered, and one of the two sequences performed on its transport. *)
Record keyboard_up (i : Z) k : Prop := {
  ku_transport : 0 <= i < 32;
  ku_base : virtio_keyboard_base k = 0x0a000000 + i * 0x200;
  ku_ready : virtio_keyboard_ready k = 1;
  ku_ring : ring (virtio_keyboard_last_used k) (k_queue k) (keyboard_events k);
  ku_empty : backlog (virtio_keyboard_last_used k) (k_queue k) (keyboard_events k) = [];
  ku_writes : exists d, input_device (0x0a000000 + i * 0x200) d /\
    (reg_read (0x0a000000 + i * 0x200 + 4) d = 2 /\ k_bus k = reg_writes (modern_writes (0x0a000000 + i * 0x200)) d \/
     reg_read (0x0a000000 + i * 0x200 + 4) d = 1 /\ k_bus k = reg_writes (legacy_writes (0x0a000000 + i * 0x200)) d);
}.

Definition filled_queue : virtq :=
  Virtq (event_descriptor <$> seqZ 0 16) (VirtqAvail 0 16 (seqZ 0 16) 0) (VirtqUsed 0 0 (replicate 16 (VirtqUsedElem 0 0)) 0).

Lemma add_buffers_spec base k : k_queue k = zero_queue 16 -> virtio_keyboard_base k = base ->
  add_buffers k = set_k_bus (reg_writes (notifications base) (k_bus k)) (set_memory (filled_queue, keyboard_events k) k).
Proof. intros Hq Hb. destruct k as [q evs b l r i s d u]. cbn in Hq, Hb. subst q b. reflexivity. Qed.

Lemma filled_ring : ring 0 filled_queue (replicate 16 (InputEvent 0 0 0)).
Proof. split; try done. intros j Hj. change (pending 0 filled_queue) with 0 in Hj. lia. Qed.

(** The memory as [prepare] leaves it. *)
Record prepared (base : Z) k : Prop := {
  pr_queue : k_queue k = zero_queue 16;
  pr_base : virtio_keyboard_base k = base;
  pr_last : virtio_keyboard_last_used k = 0;
  pr_events : keyboard_events k = replicate 16 (InputEvent 0 0 0);
}.

Lemma start_up i base status k d l : 0 <= i < 32 -> base = 0x0a000000 + i * 0x200 -> prepared base k ->
  input_device base d -> k_bus k = reg_writes l d ->
  (reg_read (base + 4) d = 2 /\ l ++ notifications base ++ [(base + 0x70, Z.lor status 4)] = modern_writes base \/
   reg_read (base + 4) d = 1 /\ l ++ notifications base ++ [(base + 0x70, Z.lor status 4)] = legacy_writes base) ->
  let (r, k') := start base status k in
  r = 1 /\ keyboard_up i k' /\ k_port k' = k_port k /\ keyboard_initialized k' = keyboard_initialized k /\ keyboard_shift k' = keyboard_shift k.
Proof.
  intros Hi -> [Hq Hbase Hlast He] Hd Hb Hl. unfold start. rewrite (add_buffers_spec (0x0a000000 + i * 0x200)) by done.
  split; [done|]. split; [|done]. split; [done|exact Hbase|done| | |].
  - cbn. rewrite Hlast, He. apply filled_ring.
  - cbn. by rewrite Hlast, He.
  - exists d. split; [done|]. set (base := 0x0a000000 + i * 0x200) in *.
    assert (forall x, reg_writes (notifications base ++ [(base + 0x70, Z.lor status 4)]) x =
      reg_write (base + VIRTIO_MMIO_STATUS) (Z.lor status VIRTIO_STATUS_DRIVER_OK) (reg_writes (notifications base) x)) as Hw by (intros x; by rewrite reg_writes_app).
    cbn [k_bus set_k_ready virtio_write set_k_bus set_memory]. rewrite <- Hw, Hb, <- reg_writes_app.
    destruct Hl as [[Hv ->]|[Hv ->]]; [by left|by right].
Qed.

Definition probe_outcome (i : Z) k (p : Z * keyboard D U) : Prop :=
  let (r, k') := p in
  (r = 1 /\ keyboard_up i k' \/ r = 0 /\ virtio_keyboard_ready k' = 0) /\
  k_port k' = k_port k /\ keyboard_initialized k' = keyboard_initialized k /\ keyboard_shift k' = keyboard_shift k.

Lemma given_up i k k' : virtio_keyboard_ready k' = 0 -> k_port k' = k_port k -> keyboard_initialized k' = keyboard_initialized k ->
  keyboard_shift k' = keyboard_shift k -> probe_outcome i k (0, k').
Proof. intros. split; [by right|done]. Qed.

Lemma probe_transport_result i k : 0 <= i < 32 -> virtio_keyboard_ready k = 0 ->
  let base := 0x0a000000 + i * 0x200 in
  probe_outcome i k (virtio_keyboard_probe_transport base k) /\
  (~ input_device base (k_bus k) -> virtio_keyboard_probe_transport base k = (0, k)).
Proof.
  intros Hi Hr base. unfold virtio_keyboard_probe_transport, virtio_read. rewrite Z.add_0_r. set (d := k_bus k).
  change VIRTIO_MAGIC with 0x74726976. change VIRTIO_DEVICE_INPUT with 18. change (base + VIRTIO_MMIO_DEVICE_ID) with (base + 8).
  destruct (Z.eqb_spec (reg_read base d) 0x74726976) as [Em|]; cbn [negb orb]; [|by split; [apply given_up|]].
  destruct (Z.eqb_spec (reg_read (base + 8) d) 18) as [Ei|]; cbn [negb]; [|by split; [apply given_up|]].
  assert (input_device base d) as Hd by done. split; [|done]. change VIRTIO_VERSION_MODERN with 2. change VIRTIO_VERSION_LEGACY with 1.
  change (base + VIRTIO_MMIO_VERSION) with (base + 4).
  destruct (Z.eqb_spec (reg_read (base + 4) d) 2) as [Ev|Ev]; [|destruct (Z.eqb_spec (reg_read (base + 4) d) 1) as [Ev'|Ev']].
  - unfold virtio_keyboard_finish_modern.
    destruct (_ =? 0); [by apply given_up|]. destruct (_ =? 0); [by apply given_up|]. destruct (_ <? _); [by apply given_up|].
    set (k2 := virtio_write base VIRTIO_MMIO_QUEUE_READY 1 _).
    pose proof (start_up i base 11 k2 d (reset_writes base ++ [(base + 0x14, 1)] ++ modern_feature_writes base ++ [(base + 0x30, 0)] ++ modern_queue_writes base)
      Hi eq_refl ltac:(by split) Hd eq_refl ltac:(by left)) as Hs.
    change (Z.lor (Z.lor VIRTIO_STATUS_ACKNOWLEDGE VIRTIO_STATUS_DRIVER) VIRTIO_STATUS_FEATURES_OK) with 11.
    destruct (start base 11 k2) as [r k']. destruct Hs as (-> & Hu & Hp & Hin & Hsh). split; [by left|]. by split.
  - unfold virtio_keyboard_finish_legacy. destruct (_ <? _); [by apply given_up|].
    set (k2 := virtio_write base VIRTIO_MMIO_QUEUE_PFN _ _).
    pose proof (start_up i base 3 k2 d (reset_writes base ++ [(base + 0x20, 0); (base + 0x28, 4096); (base + 0x30, 0)] ++ legacy_queue_writes base)
      Hi eq_refl ltac:(by split) Hd eq_refl ltac:(by right)) as Hs.
    change (Z.lor VIRTIO_STATUS_ACKNOWLEDGE VIRTIO_STATUS_DRIVER) with 3.
    destruct (start base 3 k2) as [r k']. destruct Hs as (-> & Hu & Hp & Hin & Hsh). split; [by left|]. by split.
  - by apply given_up.
Qed.

(** No transport has an input device. *)
Definition no_keyboard (d : D) : Prop := forall i, 0 <= i < 32 -> ~ input_device (0x0a000000 + i * 0x200) d.

Lemma keyboard_probe_result n : forall i k, virtio_keyboard_ready k = 0 -> 0 <= i -> i + Z.of_nat n = 32 ->
  let k' := keyboard_probe_loop n i k in
  ((exists i, keyboard_up i k') \/ virtio_keyboard_ready k' = 0) /\ (no_keyboard (k_bus k) -> k' = k) /\
  k_port k' = k_port k /\ keyboard_initialized k' = keyboard_initialized k /\ keyboard_shift k' = keyboard_shift k.
Proof.
  induction n as [|n IH]; intros i k Hr Hi Hn; [by split; [right|]|]. cbn [keyboard_probe_loop].
  change (VIRTIO_MMIO_BASE + i * VIRTIO_MMIO_STRIDE) with (0x0a000000 + i * 0x200).
  destruct (probe_transport_result i k ltac:(lia) Hr) as [Ho Hno]. destruct (virtio_keyboard_probe_transport _ k) as [r k'].
  destruct Ho as [[[-> Hu]|[-> Hr']] (Hp & Hin & Hs)]; cbn [truth Z.eqb negb].
  { split; [left; by exists i|]. split; [|done]. intros Hd. by specialize (Hno (Hd i ltac:(lia))). }
  destruct (IH (i + 1) k' Hr' ltac:(lia) ltac:(lia)) as (H1 & H2 & H3 & H4 & H5). split; [exact H1|].
  split; [|by rewrite H3, H4, H5]. intros Hd. specialize (Hno (Hd i ltac:(lia))) as [= ->]. by apply H2.
Qed.
End init.

(** ** Claims *)

(** The serial port: bytes received and not yet read; more may arrive at any access. *)
Class ServingPort (U : Type) `{SerialPort U} := {
  received : U -> list Z;
  fr_law : forall u, let (fr, u') := UART_FR u in
    Z.testbit fr 4 = bool_decide (received u = []) /\ exists new, received u' = received u ++ new;
  dr_law : forall u c rest, received u = c :: rest -> let (v, u') := UART_DR u in
    Z.land v 0xff = c /\ 0 <= c < 256 /\ exists new, received u' = rest ++ new;
}.

Section port.
Context {U : Type} `{ServingPort U}.
Implicit Types u : U.

Lemma read_ready_spec u : let (ready, u') := uart_read_ready u in
  ready = c_int (negb (bool_decide (received u = []))) /\ exists new, received u' = received u ++ new.
Proof.
  unfold uart_read_ready. pose proof (fr_law u) as Hf. destruct (UART_FR u) as [fr u']. destruct Hf as [Hb Hn]. split; [|done].
  rewrite <- Hb. change UART_FR_RXFE with (2 ^ 4). f_equal. rewrite <- (land_bit fr 4) by done. unfold truth. by destruct (_ =? 0).
Qed.

Lemma getc_spec fuel u c rest : received u = c :: rest -> exists u', uart_getc fuel u = Some (c, u') /\ exists new, received u' = rest ++ new.
Proof.
  intros Hc. pose proof (read_ready_spec u) as Hr.
  destruct fuel; cbn [uart_getc]; (destruct (uart_read_ready u) as [ready u1]); destruct Hr as [-> [new Hn]]; rewrite Hc; cbn [c_int truth negb bool_decide Z.eqb decide_rel list_eq_dec];
    rewrite Hc in Hn; pose proof (dr_law u1 c (rest ++ new) Hn) as Hd; (destruct (UART_DR u1) as [v u2]); destruct Hd as (-> & Hb & new' & Hn');
    exists u2; (split; [by rewrite u8_small by lia|]); exists (new ++ new'); by rewrite Hn', <- app_assoc.
Qed.
End port.

Section claims.
Context `{KbdLayout} {D : Type} `{!KbdBus D} `{!ServingKeyboard D} {U : Type} `{!SerialPort U} `{!ServingPort U}.
Implicit Types k : keyboard D U.

(** One call of [keyboard_read_char]. *)
Lemma read_char_spec fuel out k : keyboard_ok k -> (length (unread k) <= fuel)%nat ->
  exists r c k' es, keyboard_read_char fuel out k = Some (r, c, k') /\ keyboard_ok k' /\ unread k = es ++ unread k' /\
    (r = 1 /\ c <> 0 /\ decode (keyboard_shift k) es = (keyboard_shift k', [c]) /\ k_port k' = k_port k \/
     decode (keyboard_shift k) es = (keyboard_shift k', []) /\ (virtio_keyboard_ready k <> 0 -> waiting k' = 0) /\
     exists new, match received (k_port k) with
                 | [] => r = 0 /\ c = out /\ received (k_port k') = new
                 | b :: rest => r = 1 /\ c = b /\ received (k_port k') = rest ++ new
                 end).
Proof.
  intros Hk Hf. destruct (read_loop_spec fuel out k Hk Hf) as (r & c & k1 & es & Er & Hok & Hes & Hp & Hr & Hd).
  unfold keyboard_read_char. rewrite Er. cbn [mbind option_bind]. destruct Hd as [(-> & Hc & Hd)|(-> & -> & Hd & Hw)]; cbn [truth Z.eqb negb].
  { exists 1, c, k1, es. split; [done|]. split; [done|]. split; [done|]. left. by split_and!. }
  pose proof (read_ready_spec (k_port k1)) as Hrd. destruct (uart_read_ready (k_port k1)) as [ready u]. destruct Hrd as [-> [new Hn]]. rewrite Hp in Hn |- *.
  destruct (received (k_port k)) as [|b rest] eqn:Eb; cbn [bool_decide c_int negb truth Z.eqb].
  - exists 0, out, (set_k_port u k1), es. split; [done|]. split; [done|]. split; [done|]. right. split; [done|]. split; [done|].
    exists new. by split_and!.
  - destruct (getc_spec fuel u b (rest ++ new) Hn) as (u' & Eg & new' & Hn'). cbn [k_port set_k_port]. rewrite Eg. cbn [mbind option_bind].
    eexists 1, b, _, es. split; [reflexivity|]. split; [done|]. split; [done|]. right. split; [done|]. split; [done|].
    exists (new ++ new'). split; [done|]. split; [done|]. cbn. by rewrite Hn', <- app_assoc.
Qed.

(** (C13) The keyboard delivers exactly what was typed, whatever the device does between two
    looks at its queue and however often the 16-bit indices have wrapped. A call of
    [keyboard_read_char] ends; it takes some events off the front of the events typed and
    not yet read, loses and repeats none, and returns the one character they type under the
    current shift state. When they type none, every event delivered so far has been
    read, and the oldest byte of the serial port is returned, or 0 when there is none. The
    ring keeps every buffer either offered or unread. *)
Theorem keyboard_delivers fuel out k : keyboard_ok k -> (length (unread k) <= fuel)%nat ->
  exists r c k' es, keyboard_read_char fuel out k = Some (r, c, k') /\ keyboard_ok k' /\ unread k = es ++ unread k' /\
    (r = 1 /\ c <> 0 /\ decode (keyboard_shift k) es = (keyboard_shift k', [c]) /\ k_port k' = k_port k \/
     decode (keyboard_shift k) es = (keyboard_shift k', []) /\ (virtio_keyboard_ready k <> 0 -> waiting k' = 0) /\
     exists new, match received (k_port k) with
                 | [] => r = 0 /\ c = out /\ received (k_port k') = new
                 | b :: rest => r = 1 /\ c = b /\ received (k_port k') = rest ++ new
                 end).
Proof. apply read_char_spec. Qed.

(** Initialisation brings up the first input device that accepts the negotiation: the
    whole sequence of its version is performed on its transport and leaves every buffer
    offered and none filled. Without an input device nothing is written to the bus. A
    second call changes nothing. In both sequences the sixteen notifications of the
    buffers come before [DRIVER_OK], which the virtio specification forbids. *)
Theorem keyboard_init_brings_up k : keyboard_initialized k = 0 -> virtio_keyboard_ready k = 0 ->
  let k' := keyboard_init k in
  ((exists i, keyboard_up i k') \/ virtio_keyboard_ready k' = 0) /\
  (no_keyboard (k_bus k) -> k' = set_k_initialized 1 k) /\
  k_port k' = k_port k /\ keyboard_init k' = k'.
Proof.
  intros Hi Hr k'. unfold k', keyboard_init. rewrite Hi. cbn [truth Z.eqb negb].
  destruct (keyboard_probe_result (Z.to_nat VIRTIO_MMIO_TRANSPORTS) 0 (set_k_initialized 1 k) Hr ltac:(lia) ltac:(done)) as (H1 & H2 & H3 & H4 & H5).
  fold (virtio_keyboard_init (set_k_initialized 1 k)) in *. split; [exact H1|]. split; [exact H2|]. split; [exact H3|]. by rewrite H4.
Qed.
End claims.

(** The keys that type a character: code and shift state. *)
Definition keys_of (c : Z) : list (Z * Z) :=
  filter (fun '(code, shift) => keycode_to_ascii shift code = c) ((., 0) <$> seqZ 0 256) ++
  filter (fun '(code, shift) => keycode_to_ascii shift code = c) ((., 1) <$> seqZ 0 256).

(** The key map is complete and unambiguous: every printable character is typed by
    exactly one key in exactly one shift state, the space by one key in both; letters and
    their capitals share a key. *)
Theorem keymap_complete :
  Forall (fun c => length (keys_of c) = 1%nat) (seqZ 33 94) /\ keys_of 32 = [(KEY_SPACE, 0); (KEY_SPACE, 1)] /\
  Forall (fun c => (prod_map id (fun _ => 0) <$> keys_of (c - 32)) = keys_of c) (seqZ 97 26).
Proof. split_and!; apply (bool_decide_unpack _); vm_compute; exact I. Qed.
