(* ===== verification/KeyboardExamples.v ===== *)
(** * A keyboard at work

    A keyboard that types as fast as its buffers allow, behind the first transport; the
    claims about the driver applied to it. *)

From S2P Require Import Prelude Virtio Keyboard KeyboardProps.

#[local] Instance kbd_layout0 : KbdLayout := {| keyboard_queue := 0x40134000; keyboard_events_address := 0x40136000 |}.

(** The status register, and the events to type. *)
Record typist := Typist { ty_status : Z; ty_events : list virtio_input_event }.

Definition typist_reg (a status : Z) : Z :=
  let r := a - 0x0a000000 in
  if r =? 0 then 0x74726976 else if r =? 4 then 2 else if r =? 8 then 18 else if r =? 0x10 then 1 else
  if r =? 0x34 then 64 else if r =? 0x70 then u32 status else 0.

Lemma typist_reg_range a st : is_u32 (typist_reg a st).
Proof. unfold typist_reg. repeat case_if; try done. apply u32_range. Qed.

#[local] Instance typist_mmio : MmioBus typist := {|
  reg_read a d := typist_reg a (ty_status d);
  reg_write a v d := if a =? 0x0a000070 then Typist v (ty_events d) else d;
  reg_range a d := typist_reg_range a (ty_status d);
|}.

(** One event into the next buffer, when the queue holds one as the driver fills it. *)
Definition type_one (m : kbd_memory) (d : typist) : kbd_memory * typist :=
  let (q, evs) := m in
  match ty_events d, avail_ring (available q) !! Z.to_nat (used_idx (used q) mod 16) with
  | e :: es, Some id =>
      if bool_decide (used_idx (used q) <> avail_idx (available q) /\ 0 <= id /\
                      descriptors q !! Z.to_nat id = Some (event_descriptor id))
      then ((put_used id q, <[Z.to_nat id := e]> evs), Typist (ty_status d) es) else (m, d)
  | _, _ => (m, d)
  end.

#[local] Instance typist_bus : KbdBus typist := {| kbd_run p := let (m, d) := type_one (fst p) (snd p) in type_one m d |}.

Lemma type_one_delivers m d : exists es, delivers es m (type_one m d).1 /\ ty_events d = es ++ ty_events (type_one m d).2.
Proof.
  destruct m as [q evs]. unfold type_one. destruct (ty_events d) as [|e es] eqn:E; [exists []; split; [constructor|cbn; by rewrite E]|].
  destruct (avail_ring (available q) !! _) as [id|] eqn:Ei; [|exists []; split; [constructor|cbn; by rewrite E]].
  case_bool_decide as Hd; [|exists []; split; [constructor|cbn; by rewrite E]]. destruct Hd as (Hne & Hid & Hdesc).
  exists [e]. split; [|done]. by eapply deliver_one; [..|constructor].
Qed.

Lemma delivers_app es es' m m' m'' : delivers es m m' -> delivers es' m' m'' -> delivers (es ++ es') m m''.
Proof. induction 1; [done|]. intros Hd. cbn. eapply deliver_one; eauto. Qed.

#[local, program] Instance typist_serving : ServingKeyboard typist := {| typed := ty_events |}.
Next Obligation. intros base d. cbn. by destruct (_ =? _). Qed.
Next Obligation.
  intros m d. cbn [kbd_run typist_bus fst snd]. destruct (type_one_delivers m d) as (es & Hd & Ht). destruct (type_one m d) as [m1 d1].
  destruct (type_one_delivers m1 d1) as (es' & Hd' & Ht'). exists (es ++ es'). split; [by eapply delivers_app|]. cbn [snd] in *. by rewrite Ht, Ht', app_assoc.
Qed.

(** A serial port that holds some bytes. *)
#[local] Instance bytes_port : SerialPort (list Z) := {|
  UART_FR u := (if bool_decide (u = []) then 16 else 0, u);
  UART_DR u := match u with [] => (0, []) | c :: u => (u8 c, u) end;
  UART_DR_write _ u := u;
|}.
#[local, program] Instance bytes_serving : ServingPort (list Z) := {| received u := u8 <$> u |}.
Next Obligation. intros u. cbn. destruct u; cbn; (split; [done|]); exists []; by rewrite ?app_nil_r. Qed.
Next Obligation.
  intros u c rest. cbn. destruct u as [|b u]; [done|]. intros [= <- <-]. change 255 with (2 ^ 8 - 1). rewrite land_low_mask by lia.
  split; [apply Z.mod_small, u8_range|]. split; [apply u8_range|]. exists []. by rewrite ?app_nil_r.
Qed.

(** "Hi" typed with the shift key, and a byte on the serial port. *)
Definition hi : list virtio_input_event :=
  [InputEvent 1 42 1; InputEvent 0 0 0; InputEvent 1 35 1; InputEvent 1 35 0; InputEvent 1 42 0; InputEvent 1 23 1; InputEvent 1 23 0].
Definition keyboard0 : keyboard typist (list Z) := Keyboard (zero_queue 16) [] 0 0 0 0 0 (Typist 0 hi) [33].
Definition keyboard1 : keyboard typist (list Z) := keyboard_init keyboard0.

Lemma keyboard_init_brings_up_witness : keyboard_up 0 keyboard1.
Proof.
  destruct (keyboard_init_brings_up keyboard0 eq_refl eq_refl) as ([[i Hi]|E] & _); [|by vm_compute in E].
  pose proof (ku_base _ _ Hi) as Hb. assert (virtio_keyboard_base (keyboard_init keyboard0) = 0x0a000000) as Hb' by (vm_compute; reflexivity).
  assert (i = 0) as -> by (clear Hi; lia). exact Hi.
Defined.

Lemma keyboard1_ok : keyboard_ok keyboard1.
Proof.
  destruct (keyboard_probe_result (Z.to_nat VIRTIO_MMIO_TRANSPORTS) 0 (set_k_initialized 1 keyboard0) eq_refl ltac:(lia) ltac:(done)) as ([[i Hi]|E] & _).
  - exact (ku_ring _ _ Hi).
  - by vm_compute in E.
Qed.

(** The first call returns the capital that was typed. *)
Lemma keyboard_delivers_witness : exists k', keyboard_read_char 7 0 keyboard1 = Some (1, 72, k') /\ keyboard_ok k'.
Proof.
  destruct (keyboard_delivers 7 0 keyboard1 keyboard1_ok) as (r & c & k' & es & E & Hk & _); [by vm_compute|].
  assert (fst <$> keyboard_read_char 7 0 keyboard1 = Some (1, 72)) as E1 by (vm_compute; reflexivity).
  rewrite E in E1. injection E1 as -> ->. exists k'. exact (conj E Hk).
Defined.
