(* ===== verification/Framebuffer.v ===== *)
(** * The frame buffer ([drivers/video/framebuffer.c])

    The 640 x 480 frame buffer behind the firmware's configuration device: its set-up, the
    drawing of rectangles and characters, and the text console drawn on it. The pixels are
    a function of their index; a store outside the buffer would set [stray]. The
    configuration device is an interface ([FwCfg]): what it does to the access structure
    and the buffer of a transfer before the structure is looked at. *)

From S2P Require Import Prelude Syscall Console.

(** ** Definitions *)

Definition FW_CFG_BASE : Z := 0x09020000.
Definition FW_CFG_DMA : Z := 0x10.
Definition FW_CFG_FILE_DIR : Z := 0x0019.
Definition FW_CFG_DMA_CTL_ERROR : Z := 0x01.
Definition FW_CFG_DMA_CTL_READ : Z := 0x02.
Definition FW_CFG_DMA_CTL_SELECT : Z := 0x08.
Definition FW_CFG_DMA_CTL_WRITE : Z := 0x10.
Definition FW_CFG_MAX_FILE_PATH : Z := 56.
Definition RAMFB_FILE : list Z := lit "etc/ramfb".
Definition RAMFB_FORMAT_XRGB8888 : Z := 0x34325258.
Definition FW_CFG_MAX_FILES : Z := 64.
Definition FW_CFG_DMA_POLL_LIMIT : Z := 1000000.
Definition FW_CFG_DMA_ACCESS_BASE : Z := 0x46ffe000.
Definition RAMFB_CONFIG_BASE : Z := 0x46fff000.
Definition FRAMEBUFFER_BASE : Z := 0x47000000.
Definition FRAMEBUFFER_WIDTH : Z := 640.
Definition FRAMEBUFFER_HEIGHT : Z := 480.
Definition FRAMEBUFFER_CONSOLE_SCALE : Z := 2.
Definition FRAMEBUFFER_CONSOLE_MARGIN_X : Z := 16.
Definition FRAMEBUFFER_CONSOLE_HEADER_HEIGHT : Z := 30.
Definition FRAMEBUFFER_CONSOLE_STATUS_HEIGHT : Z := 28.
Definition FRAMEBUFFER_CONSOLE_STATUS_Y : Z := FRAMEBUFFER_HEIGHT - FRAMEBUFFER_CONSOLE_STATUS_HEIGHT.
Definition FRAMEBUFFER_CONSOLE_TEXT_BOTTOM : Z := FRAMEBUFFER_CONSOLE_STATUS_Y - 4.
Definition FRAMEBUFFER_CONSOLE_MARGIN_Y : Z := FRAMEBUFFER_CONSOLE_HEADER_HEIGHT + 8.
Definition FRAMEBUFFER_CONSOLE_FG : Z := 0x00f8f9fa.
Definition FRAMEBUFFER_CONSOLE_BG : Z := 0x00101820.
Definition FRAMEBUFFER_CONSOLE_HEADER_BG : Z := 0x0016202c.
Definition FRAMEBUFFER_CONSOLE_DIM : Z := 0x004ecdc4.
Definition FRAMEBUFFER_CONSOLE_BORDER : Z := 0x00304758.
Definition FRAMEBUFFER_CONSOLE_MUTED : Z := 0x009aa7b5.
Definition FRAMEBUFFER_CONSOLE_CURSOR : Z := 0x00ffd166.
Definition FRAMEBUFFER_CONSOLE_CURSOR_THICKNESS : Z := 2.
Definition SATURNOS_NAME : list Z := lit "SaturnOS".
Definition SATURNOS_VERSION : list Z := lit "0.6.95".
Definition SATURNOS_CODENAME : list Z := lit "Memory".

Definition bswap16 (value : Z) : Z := u16 (Z.lor (Z.shiftr value 8) (Z.shiftl value 8)).
Definition bswap32 (value : Z) : Z :=
  Z.lor (Z.lor (Z.lor (u32 (Z.shiftl (Z.land value 0x000000ff) 24)) (u32 (Z.shiftl (Z.land value 0x0000ff00) 8)))
    (Z.shiftr (Z.land value 0x00ff0000) 8)) (Z.shiftr (Z.land value 0xff000000) 24).
Definition bswap64 (value : Z) : Z := Z.lor (u64 (Z.shiftl (bswap32 (u32 value)) 32)) (bswap32 (u32 (Z.shiftr value 32))).

(** [string_equals] on the bytes from two pointers on, up to a terminator in each. *)
Fixpoint string_equals (left right : list Z) : bool :=
  match left, right with
  | l :: left', r :: right' => if (l =? 0) || (r =? 0) then l =? r else if negb (l =? r) then false else string_equals left' right'
  | [], r :: _ => r =? 0
  | l :: _, [] => l =? 0
  | [], [] => true
  end.

(** *** The configuration device *)

Record fw_cfg_file := FwCfgFile {
  ff_size : Z;
  ff_select : Z;
  ff_name : list Z;
}.
Definition sizeof_fw_cfg_file : Z := 64.

Record fw_cfg_dma_access := FwCfgDmaAccess {
  dma_control : Z;
  dma_length : Z;
  dma_address : Z;
}.

(** The registers that start a transfer, and what the device does before it is looked at. *)
Class FwCfg (F : Type) := {
  fw_write : Z -> Z -> F -> F;
  fw_run : fw_cfg_dma_access * list Z -> F -> (fw_cfg_dma_access * list Z) * F;
}.

Record ramfb_config := RamfbConfig {
  rc_addr : Z;
  rc_fourcc : Z;
  rc_flags : Z;
  rc_width : Z;
  rc_height : Z;
  rc_stride : Z;
}.
Definition sizeof_ramfb_config : Z := 28.
Definition bytes64 (v : Z) : list Z := Z_to_little_endian 8 8 v.
Definition config_bytes (c : ramfb_config) : list Z :=
  bytes64 (rc_addr c) ++ bytes32 (rc_fourcc c) ++ bytes32 (rc_flags c) ++ bytes32 (rc_width c) ++ bytes32 (rc_height c) ++ bytes32 (rc_stride c).

(** *** The state *)

Record fb := Fb {
  pixels : Z -> Z;
  stray : bool;
  framebuffer_ready : Z;
  framebuffer_status_code : Z;
  console_column : Z;
  console_row : Z;
  console_cursor_visible : Z;
}.
Implicit Types s : fb.

Definition set_pixels (p : Z -> Z) s : fb :=
  Fb p (stray s) (framebuffer_ready s) (framebuffer_status_code s) (console_column s) (console_row s) (console_cursor_visible s).
Definition set_stray s : fb :=
  Fb (pixels s) true (framebuffer_ready s) (framebuffer_status_code s) (console_column s) (console_row s) (console_cursor_visible s).
Definition set_ready (r : Z) s : fb :=
  Fb (pixels s) (stray s) r (framebuffer_status_code s) (console_column s) (console_row s) (console_cursor_visible s).
Definition set_status_code (c : Z) s : fb :=
  Fb (pixels s) (stray s) (framebuffer_ready s) c (console_column s) (console_row s) (console_cursor_visible s).
Definition set_cursor (column row : Z) s : fb :=
  Fb (pixels s) (stray s) (framebuffer_ready s) (framebuffer_status_code s) column row (console_cursor_visible s).
Definition set_visible (v : Z) s : fb :=
  Fb (pixels s) (stray s) (framebuffer_ready s) (framebuffer_status_code s) (console_column s) (console_row s) v.

(** A store to [framebuffer[index]]. *)
Definition store_pixel (index color : Z) s : fb :=
  if (0 <=? index) && (index <? FRAMEBUFFER_WIDTH * FRAMEBUFFER_HEIGHT)
  then set_pixels (fun i => if i =? index then color else pixels s i) s else set_stray s.

(** [for (i = start; i < stop; i++)] *)
Definition for_range (start stop : Z) (body : Z -> fb -> fb) s : fb := foldl (fun s i => body i s) s (seqZ start (stop - start)).

Section fw_cfg.
Context {F : Type} `{FwCfg F}.

(** The polls: the number left over when the device is done, none when the limit is
    reached. *)
Fixpoint poll_loop (n : nat) (m : fw_cfg_dma_access * list Z) (f : F) : option ((fw_cfg_dma_access * list Z) * F) * ((fw_cfg_dma_access * list Z) * F) :=
  let (m, f) := fw_run m f in
  if truth (Z.land (bswap32 (dma_control (fst m))) 0xfffffffe) then
    match n with O => (None, (m, f)) | S n => poll_loop n m f end
  else match n with O => (None, (m, f)) | S _ => (Some (m, f), (m, f)) end.

(** [buffer] is what the memory at [address] holds. *)
Definition fw_cfg_dma_transfer (selector address : Z) (buffer : list Z) (sz operation : Z) (f : F) s : Z * list Z * F * fb :=
  let access := FwCfgDmaAccess (bswap32 (Z.lor (Z.lor (Z.shiftl selector 16) FW_CFG_DMA_CTL_SELECT) operation)) (bswap32 sz) (bswap64 address) in
  let f := fw_write (FW_CFG_BASE + FW_CFG_DMA) (bswap32 (Z.shiftr FW_CFG_DMA_ACCESS_BASE 32)) f in
  let f := fw_write (FW_CFG_BASE + FW_CFG_DMA + 4) (bswap32 (u32 FW_CFG_DMA_ACCESS_BASE)) f in
  match poll_loop (Z.to_nat FW_CFG_DMA_POLL_LIMIT) (access, buffer) f with
  | (None, (m, f)) => (0, snd m, f, set_status_code 2 s)
  | (Some (m, f), _) =>
      let (m, f) := fw_run m f in
      if truth (Z.land (bswap32 (dma_control (fst m))) FW_CFG_DMA_CTL_ERROR) then (0, snd m, f, set_status_code 3 s)
      else (1, snd m, f, s)
  end.

Definition fw_cfg_dma_write (selector address : Z) (buffer : list Z) (sz : Z) (f : F) s : Z * list Z * F * fb :=
  fw_cfg_dma_transfer selector address buffer sz FW_CFG_DMA_CTL_WRITE f s.
Definition fw_cfg_dma_read (selector address : Z) (buffer : list Z) (sz : Z) (f : F) s : Z * list Z * F * fb :=
  fw_cfg_dma_transfer selector address buffer sz FW_CFG_DMA_CTL_READ f s.

(** The directory entry at its offset. *)
Definition file_at (directory : list Z) (i : Z) : fw_cfg_file :=
  let b := drop (Z.to_nat (4 + i * sizeof_fw_cfg_file)) directory in
  FwCfgFile (read32 b) (read16 (drop 4 b)) (take (Z.to_nat FW_CFG_MAX_FILE_PATH) (drop 8 b)).
Fixpoint find_loop (n : nat) (i : Z) (directory name : list Z) : Z :=
  match n with
  | O => 0
  | S n => let file := file_at directory i in
      if string_equals (ff_name file) name then bswap16 (ff_select file) else find_loop n (i + 1) directory name
  end.

(** [address] is the address of the static [directory]. *)
Definition fw_cfg_find_file (name : list Z) (address : Z) (directory : list Z) (f : F) s : Z * list Z * F * fb :=
  let '(ok, directory, f, s) := fw_cfg_dma_read FW_CFG_FILE_DIR address directory 4 f s in
  if negb (truth ok) then (0, directory, f, set_status_code 4 s) else
  let count := bswap32 (read32 directory) in
  let count := if count >? FW_CFG_MAX_FILES then FW_CFG_MAX_FILES else count in
  let directory_size := 4 + count * sizeof_fw_cfg_file in
  let '(ok, directory, f, s) := fw_cfg_dma_read FW_CFG_FILE_DIR address directory directory_size f s in
  if negb (truth ok) then (0, directory, f, set_status_code 5 s) else
  (find_loop (Z.to_nat count) 0 directory name, directory, f, s).

Definition ramfb_setup : ramfb_config :=
  RamfbConfig (bswap64 FRAMEBUFFER_BASE) (bswap32 RAMFB_FORMAT_XRGB8888) 0 (bswap32 FRAMEBUFFER_WIDTH) (bswap32 FRAMEBUFFER_HEIGHT)
    (bswap32 (FRAMEBUFFER_WIDTH * 4)).

Definition framebuffer_init (address : Z) (directory : list Z) (f : F) s : Z * F * fb :=
  let '(selector, _, f, s) := fw_cfg_find_file RAMFB_FILE address directory f s in
  if selector =? 0 then (0, f, set_status_code 1 (set_ready 0 s)) else
  let '(ready, _, f, s) := fw_cfg_dma_write selector RAMFB_CONFIG_BASE (config_bytes ramfb_setup) sizeof_ramfb_config f s in
  let s := set_ready ready s in
  if truth ready then (ready, f, set_status_code 0 s) else (ready, f, s).
End fw_cfg.

Definition framebuffer_is_ready s : Z := framebuffer_ready s.
Definition framebuffer_status s : Z := framebuffer_status_code s.
Definition framebuffer_status_name s : list Z :=
  let c := framebuffer_status_code s in
  if c =? 0 then lit "ready"
  else if c =? 1 then lit "ramfb file missing"
  else if c =? 2 then lit "fw_cfg dma timeout"
  else if c =? 3 then lit "fw_cfg dma error"
  else if c =? 4 then lit "fw_cfg directory read failed"
  else if c =? 5 then lit "fw_cfg directory reread failed"
  else lit "unknown".
Definition framebuffer_base : Z := FRAMEBUFFER_BASE.
Definition framebuffer_width : Z := FRAMEBUFFER_WIDTH.
Definition framebuffer_height : Z := FRAMEBUFFER_HEIGHT.
Definition framebuffer_pitch : Z := FRAMEBUFFER_WIDTH * 4.
Definition framebuffer_format : list Z := lit "XRGB8888".

(** *** Drawing *)

Definition framebuffer_put_pixel (x y color : Z) s : fb :=
  if (x >=? FRAMEBUFFER_WIDTH) || (y >=? FRAMEBUFFER_HEIGHT) then s else
  store_pixel (u32 (u32 (y * FRAMEBUFFER_WIDTH) + x)) color s.

Definition framebuffer_fill_rect (x y width height color : Z) s : fb :=
  let x_end := u32 (x + width) in
  let y_end := u32 (y + height) in
  if (x >=? FRAMEBUFFER_WIDTH) || (y >=? FRAMEBUFFER_HEIGHT) then s else
  let x_end := if x_end >? FRAMEBUFFER_WIDTH then FRAMEBUFFER_WIDTH else x_end in
  let y_end := if y_end >? FRAMEBUFFER_HEIGHT then FRAMEBUFFER_HEIGHT else y_end in
  for_range y y_end (fun row => for_range x x_end (fun col => store_pixel (u32 (u32 (row * FRAMEBUFFER_WIDTH) + col)) color)) s.

Definition framebuffer_clear (color : Z) s : fb := framebuffer_fill_rect 0 0 FRAMEBUFFER_WIDTH FRAMEBUFFER_HEIGHT color s.

(** The glyphs: seven rows of five pixels, the leftmost in bit 4. *)
Definition glyph_blank : list Z := [0; 0; 0; 0; 0; 0; 0].
Definition glyph_0 : list Z := [0x0e; 0x11; 0x13; 0x15; 0x19; 0x11; 0x0e].
Definition glyph_1 : list Z := [0x04; 0x0c; 0x04; 0x04; 0x04; 0x04; 0x0e].
Definition glyph_2 : list Z := [0x0e; 0x11; 0x01; 0x02; 0x04; 0x08; 0x1f].
Definition glyph_3 : list Z := [0x1e; 0x01; 0x01; 0x0e; 0x01; 0x01; 0x1e].
Definition glyph_4 : list Z := [0x02; 0x06; 0x0a; 0x12; 0x1f; 0x02; 0x02].
Definition glyph_5 : list Z := [0x1f; 0x10; 0x10; 0x1e; 0x01; 0x01; 0x1e].
Definition glyph_6 : list Z := [0x0e; 0x10; 0x10; 0x1e; 0x11; 0x11; 0x0e].
Definition glyph_7 : list Z := [0x1f; 0x01; 0x02; 0x04; 0x08; 0x08; 0x08].
Definition glyph_8 : list Z := [0x0e; 0x11; 0x11; 0x0e; 0x11; 0x11; 0x0e].
Definition glyph_9 : list Z := [0x0e; 0x11; 0x11; 0x0f; 0x01; 0x01; 0x0e].
Definition glyph_a : list Z := [0x0e; 0x11; 0x11; 0x1f; 0x11; 0x11; 0x11].
Definition glyph_b : list Z := [0x1e; 0x11; 0x11; 0x1e; 0x11; 0x11; 0x1e].
Definition glyph_c : list Z := [0x0f; 0x10; 0x10; 0x10; 0x10; 0x10; 0x0f].
Definition glyph_d : list Z := [0x1e; 0x11; 0x11; 0x11; 0x11; 0x11; 0x1e].
Definition glyph_e : list Z := [0x1f; 0x10; 0x10; 0x1e; 0x10; 0x10; 0x1f].
Definition glyph_f : list Z := [0x1f; 0x10; 0x10; 0x1e; 0x10; 0x10; 0x10].
Definition glyph_g : list Z := [0x0f; 0x10; 0x10; 0x13; 0x11; 0x11; 0x0f].
Definition glyph_h : list Z := [0x11; 0x11; 0x11; 0x1f; 0x11; 0x11; 0x11].
Definition glyph_i : list Z := [0x0e; 0x04; 0x04; 0x04; 0x04; 0x04; 0x0e].
Definition glyph_j : list Z := [0x07; 0x02; 0x02; 0x02; 0x12; 0x12; 0x0c].
Definition glyph_k : list Z := [0x11; 0x12; 0x14; 0x18; 0x14; 0x12; 0x11].
Definition glyph_l : list Z := [0x10; 0x10; 0x10; 0x10; 0x10; 0x10; 0x1f].
Definition glyph_m : list Z := [0x11; 0x1b; 0x15; 0x15; 0x11; 0x11; 0x11].
Definition glyph_n : list Z := [0x11; 0x19; 0x15; 0x13; 0x11; 0x11; 0x11].
Definition glyph_o : list Z := [0x0e; 0x11; 0x11; 0x11; 0x11; 0x11; 0x0e].
Definition glyph_p : list Z := [0x1e; 0x11; 0x11; 0x1e; 0x10; 0x10; 0x10].
Definition glyph_q : list Z := [0x0e; 0x11; 0x11; 0x11; 0x15; 0x12; 0x0d].
Definition glyph_r : list Z := [0x1e; 0x11; 0x11; 0x1e; 0x14; 0x12; 0x11].
Definition glyph_s : list Z := [0x0f; 0x10; 0x10; 0x0e; 0x01; 0x01; 0x1e].
Definition glyph_t : list Z := [0x1f; 0x04; 0x04; 0x04; 0x04; 0x04; 0x04].
Definition glyph_u : list Z := [0x11; 0x11; 0x11; 0x11; 0x11; 0x11; 0x0e].
Definition glyph_v : list Z := [0x11; 0x11; 0x11; 0x11; 0x0a; 0x0a; 0x04].
Definition glyph_w : list Z := [0x11; 0x11; 0x11; 0x15; 0x15; 0x1b; 0x11].
Definition glyph_x : list Z := [0x11; 0x11; 0x0a; 0x04; 0x0a; 0x11; 0x11].
Definition glyph_y : list Z := [0x11; 0x11; 0x0a; 0x04; 0x04; 0x04; 0x04].
Definition glyph_z : list Z := [0x1f; 0x01; 0x02; 0x04; 0x08; 0x10; 0x1f].
Definition glyph_colon : list Z := [0x00; 0x04; 0x04; 0x00; 0x04; 0x04; 0x00].
Definition glyph_dash : list Z := [0x00; 0x00; 0x00; 0x1f; 0x00; 0x00; 0x00].
Definition glyph_dot : list Z := [0x00; 0x00; 0x00; 0x00; 0x00; 0x0c; 0x0c].
Definition glyph_equal : list Z := [0x00; 0x00; 0x1f; 0x00; 0x1f; 0x00; 0x00].
Definition glyph_lparen : list Z := [0x02; 0x04; 0x08; 0x08; 0x08; 0x04; 0x02].
Definition glyph_rparen : list Z := [0x08; 0x04; 0x02; 0x02; 0x02; 0x04; 0x08].
Definition glyph_slash : list Z := [0x01; 0x01; 0x02; 0x04; 0x08; 0x10; 0x10].
Definition glyph_underscore : list Z := [0x00; 0x00; 0x00; 0x00; 0x00; 0x00; 0x1f].
Definition glyph_gt : list Z := [0x10; 0x08; 0x04; 0x02; 0x04; 0x08; 0x10].
Definition glyph_lt : list Z := [0x01; 0x02; 0x04; 0x08; 0x04; 0x02; 0x01].
Definition glyph_lbracket : list Z := [0x0e; 0x08; 0x08; 0x08; 0x08; 0x08; 0x0e].
Definition glyph_rbracket : list Z := [0x0e; 0x02; 0x02; 0x02; 0x02; 0x02; 0x0e].
Definition glyph_lbrace : list Z := [0x06; 0x08; 0x08; 0x10; 0x08; 0x08; 0x06].
Definition glyph_rbrace : list Z := [0x0c; 0x02; 0x02; 0x01; 0x02; 0x02; 0x0c].
Definition glyph_pipe : list Z := [0x04; 0x04; 0x04; 0x04; 0x04; 0x04; 0x04].
Definition glyph_plus : list Z := [0x00; 0x04; 0x04; 0x1f; 0x04; 0x04; 0x00].
Definition glyph_star : list Z := [0x00; 0x15; 0x0e; 0x1f; 0x0e; 0x15; 0x00].
Definition glyph_percent : list Z := [0x18; 0x19; 0x02; 0x04; 0x08; 0x13; 0x03].
Definition glyph_bang : list Z := [0x04; 0x04; 0x04; 0x04; 0x04; 0x00; 0x04].
Definition glyph_question : list Z := [0x0e; 0x11; 0x01; 0x02; 0x04; 0x00; 0x04].
Definition glyph_quote : list Z := [0x0a; 0x0a; 0x0a; 0x00; 0x00; 0x00; 0x00].
Definition glyph_apostrophe : list Z := [0x04; 0x04; 0x08; 0x00; 0x00; 0x00; 0x00].
Definition glyph_backslash : list Z := [0x10; 0x10; 0x08; 0x04; 0x02; 0x01; 0x01].
Definition glyph_comma : list Z := [0x00; 0x00; 0x00; 0x00; 0x00; 0x04; 0x08].
Definition glyph_semicolon : list Z := [0x00; 0x04; 0x04; 0x00; 0x04; 0x04; 0x08].

(** The cases of [framebuffer_glyph]. *)
Definition glyphs : list (Z * list Z) :=
  [(48, glyph_0); (49, glyph_1); (50, glyph_2); (51, glyph_3); (52, glyph_4); (53, glyph_5);
   (54, glyph_6); (55, glyph_7); (56, glyph_8); (57, glyph_9); (65, glyph_a); (66, glyph_b);
   (67, glyph_c); (68, glyph_d); (69, glyph_e); (70, glyph_f); (71, glyph_g); (72, glyph_h);
   (73, glyph_i); (74, glyph_j); (75, glyph_k); (76, glyph_l); (77, glyph_m); (78, glyph_n);
   (79, glyph_o); (80, glyph_p); (81, glyph_q); (82, glyph_r); (83, glyph_s); (84, glyph_t);
   (85, glyph_u); (86, glyph_v); (87, glyph_w); (88, glyph_x); (89, glyph_y); (90, glyph_z);
   (58, glyph_colon); (45, glyph_dash); (46, glyph_dot); (61, glyph_equal); (40, glyph_lparen); (41, glyph_rparen);
   (47, glyph_slash); (95, glyph_underscore); (62, glyph_gt); (60, glyph_lt); (91, glyph_lbracket); (93, glyph_rbracket);
   (123, glyph_lbrace); (125, glyph_rbrace); (124, glyph_pipe); (43, glyph_plus); (42, glyph_star); (37, glyph_percent);
   (33, glyph_bang); (63, glyph_question); (34, glyph_quote); (39, glyph_apostrophe); (92, glyph_backslash); (44, glyph_comma);
   (59, glyph_semicolon)].

Definition framebuffer_glyph (c : Z) : list Z :=
  let c := if (c >=? 97) && (c <=? 122) then c - 32 else c in
  default glyph_blank (snd <$> find (fun p => fst p =? c) glyphs).

Definition framebuffer_draw_char (x y c foreground background scale : Z) s : fb :=
  let glyph := framebuffer_glyph c in
  let scale := if scale =? 0 then 1 else scale in
  let s := framebuffer_fill_rect x y (u32 (6 * scale)) (u32 (8 * scale)) background s in
  for_range 0 7 (fun row => for_range 0 5 (fun col s =>
    if truth (Z.land (chr glyph (Z.to_nat row)) (Z.shiftl 1 (4 - col)))
    then framebuffer_fill_rect (u32 (x + u32 (col * scale))) (u32 (y + u32 (row * scale))) scale scale foreground s else s)) s.

Fixpoint write_loop (text : list Z) (x cursor_x cursor_y foreground background scale : Z) s : fb :=
  match text with
  | [] => s
  | c :: text =>
      if c =? 10 then write_loop text x x (u32 (cursor_y + u32 (8 * scale))) foreground background scale s
      else write_loop text x (u32 (cursor_x + u32 (6 * scale))) cursor_y foreground background scale
             (framebuffer_draw_char cursor_x cursor_y c foreground background scale s)
  end.
Definition framebuffer_write_at (x y : Z) (text : list Z) (foreground background scale : Z) s : fb :=
  let scale := if scale =? 0 then 1 else scale in
  write_loop text x x y foreground background scale s.

(** *** The text console *)

Definition framebuffer_console_cell_width : Z := 6 * FRAMEBUFFER_CONSOLE_SCALE.
Definition framebuffer_console_cell_height : Z := 8 * FRAMEBUFFER_CONSOLE_SCALE.
Definition framebuffer_console_columns : Z :=
  (FRAMEBUFFER_WIDTH - FRAMEBUFFER_CONSOLE_MARGIN_X * 2) / framebuffer_console_cell_width.
Definition framebuffer_console_rows : Z :=
  (FRAMEBUFFER_CONSOLE_TEXT_BOTTOM - FRAMEBUFFER_CONSOLE_MARGIN_Y) / framebuffer_console_cell_height.
Definition framebuffer_console_text_width : Z := framebuffer_console_columns * framebuffer_console_cell_width.
Definition framebuffer_console_text_height : Z := framebuffer_console_rows * framebuffer_console_cell_height.
Definition framebuffer_console_x s : Z := u32 (FRAMEBUFFER_CONSOLE_MARGIN_X + u32 (console_column s * framebuffer_console_cell_width)).
Definition framebuffer_console_y s : Z := u32 (FRAMEBUFFER_CONSOLE_MARGIN_Y + u32 (console_row s * framebuffer_console_cell_height)).

Definition framebuffer_console_set_status (text : option (list Z)) s : fb :=
  match text with
  | None => s
  | Some text =>
      if negb (truth (framebuffer_ready s)) then s else
      let s := framebuffer_fill_rect 0 FRAMEBUFFER_CONSOLE_STATUS_Y FRAMEBUFFER_WIDTH FRAMEBUFFER_CONSOLE_STATUS_HEIGHT FRAMEBUFFER_CONSOLE_HEADER_BG s in
      let s := framebuffer_fill_rect 0 (FRAMEBUFFER_CONSOLE_STATUS_Y - 2) FRAMEBUFFER_WIDTH 2 FRAMEBUFFER_CONSOLE_BORDER s in
      let s := framebuffer_fill_rect 0 (FRAMEBUFFER_HEIGHT - 2) FRAMEBUFFER_WIDTH 2 FRAMEBUFFER_CONSOLE_BORDER s in
      framebuffer_write_at FRAMEBUFFER_CONSOLE_MARGIN_X (FRAMEBUFFER_CONSOLE_STATUS_Y + 7) text FRAMEBUFFER_CONSOLE_MUTED FRAMEBUFFER_CONSOLE_HEADER_BG 2 s
  end.

Definition framebuffer_console_draw_layout s : fb :=
  let s := framebuffer_clear FRAMEBUFFER_CONSOLE_BG s in
  let s := framebuffer_fill_rect 0 0 FRAMEBUFFER_WIDTH FRAMEBUFFER_CONSOLE_HEADER_HEIGHT FRAMEBUFFER_CONSOLE_HEADER_BG s in
  let s := framebuffer_fill_rect 0 FRAMEBUFFER_CONSOLE_HEADER_HEIGHT FRAMEBUFFER_WIDTH 2 FRAMEBUFFER_CONSOLE_BORDER s in
  let s := framebuffer_fill_rect 0 (FRAMEBUFFER_CONSOLE_STATUS_Y - 2) FRAMEBUFFER_WIDTH 2 FRAMEBUFFER_CONSOLE_BORDER s in
  let s := framebuffer_fill_rect 0 FRAMEBUFFER_CONSOLE_STATUS_Y FRAMEBUFFER_WIDTH FRAMEBUFFER_CONSOLE_STATUS_HEIGHT FRAMEBUFFER_CONSOLE_HEADER_BG s in
  let s := framebuffer_fill_rect 0 (FRAMEBUFFER_HEIGHT - 2) FRAMEBUFFER_WIDTH 2 FRAMEBUFFER_CONSOLE_BORDER s in
  let s := framebuffer_write_at FRAMEBUFFER_CONSOLE_MARGIN_X 7 SATURNOS_NAME FRAMEBUFFER_CONSOLE_FG FRAMEBUFFER_CONSOLE_HEADER_BG 2 s in
  let s := framebuffer_write_at (FRAMEBUFFER_CONSOLE_MARGIN_X + 120) 7 SATURNOS_VERSION FRAMEBUFFER_CONSOLE_DIM FRAMEBUFFER_CONSOLE_HEADER_BG 2 s in
  let s := framebuffer_write_at (FRAMEBUFFER_WIDTH - 160) 7 (lit "ARM64 QEMU") FRAMEBUFFER_CONSOLE_MUTED FRAMEBUFFER_CONSOLE_HEADER_BG 2 s in
  framebuffer_console_set_status (Some (lit "BOOTING | RAMFB ONLINE")) s.

Definition framebuffer_console_clamp_cursor s : fb :=
  let columns := framebuffer_console_columns in
  let rows := framebuffer_console_rows in
  set_cursor (if console_column s >=? columns then columns - 1 else console_column s)
    (if console_row s >=? rows then rows - 1 else console_row s) s.

Definition framebuffer_console_draw_cursor (color : Z) s : fb :=
  let cell_width := framebuffer_console_cell_width in
  let cell_height := framebuffer_console_cell_height in
  let thickness := FRAMEBUFFER_CONSOLE_CURSOR_THICKNESS in
  let x := framebuffer_console_x s in
  let y := framebuffer_console_y s in
  let s := framebuffer_fill_rect x (u32 (y + cell_height - thickness)) cell_width thickness color s in
  framebuffer_fill_rect (u32 (x + cell_width - thickness)) y thickness cell_height color s.

Definition framebuffer_console_hide_cursor s : fb :=
  if negb (truth (framebuffer_ready s)) || negb (truth (console_cursor_visible s)) then s else
  set_visible 0 (framebuffer_console_draw_cursor FRAMEBUFFER_CONSOLE_BG (framebuffer_console_clamp_cursor s)).

Definition framebuffer_console_show_cursor s : fb :=
  if negb (truth (framebuffer_ready s)) then s else
  set_visible 1 (framebuffer_console_draw_cursor FRAMEBUFFER_CONSOLE_CURSOR (framebuffer_console_clamp_cursor s)).

Definition framebuffer_console_scroll s : fb :=
  let cell_height := framebuffer_console_cell_height in
  let start_y := FRAMEBUFFER_CONSOLE_MARGIN_Y in
  let end_y := start_y + framebuffer_console_text_height in
  let s := for_range start_y (end_y - cell_height) (fun y =>
    for_range FRAMEBUFFER_CONSOLE_MARGIN_X (FRAMEBUFFER_CONSOLE_MARGIN_X + framebuffer_console_text_width) (fun x s =>
      store_pixel (y * FRAMEBUFFER_WIDTH + x) (pixels s ((y + cell_height) * FRAMEBUFFER_WIDTH + x)) s)) s in
  framebuffer_fill_rect FRAMEBUFFER_CONSOLE_MARGIN_X (end_y - cell_height) framebuffer_console_text_width cell_height FRAMEBUFFER_CONSOLE_BG s.

Definition framebuffer_console_newline s : fb :=
  let s := set_cursor 0 (u32 (console_row s + 1)) s in
  if console_row s >=? framebuffer_console_rows then
    let s := framebuffer_console_scroll s in set_cursor (console_column s) (framebuffer_console_rows - 1) s
  else s.

Definition framebuffer_console_advance s : fb :=
  let s := set_cursor (u32 (console_column s + 1)) (console_row s) s in
  if console_column s >=? framebuffer_console_columns then framebuffer_console_newline s else s.

Definition framebuffer_console_backspace s : fb :=
  if console_column s =? 0 then s else set_cursor (console_column s - 1) (console_row s) s.

Definition framebuffer_console_init s : fb :=
  if negb (truth (framebuffer_ready s)) then s else
  framebuffer_console_show_cursor (set_visible 0 (set_cursor 0 0 (framebuffer_console_draw_layout s))).

(** The function with its recursive calls, which are for spaces, as an argument. *)
Definition putc_body (space : fb -> fb) (c : Z) s : fb :=
  if negb (truth (framebuffer_ready s)) then s else
  let s := framebuffer_console_hide_cursor s in
  if c =? 13 then framebuffer_console_show_cursor (set_cursor 0 (console_row s) s) else
  if c =? 10 then framebuffer_console_show_cursor (framebuffer_console_newline s) else
  if (c =? 8) || (c =? 0x7f) then framebuffer_console_show_cursor (framebuffer_console_backspace s) else
  if c =? 9 then framebuffer_console_show_cursor (for_range 0 4 (fun _ => space) s) else
  let s := if console_column s >=? framebuffer_console_columns then framebuffer_console_newline s else s in
  let x := framebuffer_console_x s in
  let y := framebuffer_console_y s in
  let s := framebuffer_draw_char x y c FRAMEBUFFER_CONSOLE_FG FRAMEBUFFER_CONSOLE_BG FRAMEBUFFER_CONSOLE_SCALE s in
  framebuffer_console_show_cursor (framebuffer_console_advance s).
Definition framebuffer_console_putc (c : Z) s : fb := putc_body (putc_body id 32) c s.

Fixpoint framebuffer_console_write (text : list Z) s : fb :=
  match text with
  | [] => s
  | c :: text => framebuffer_console_write text (framebuffer_console_putc c s)
  end.

Definition framebuffer_draw_test_pattern s : fb :=
  let s := framebuffer_clear 0x00101820 s in
  let s := framebuffer_fill_rect 48 48 544 64 0x00205070 s in
  let s := framebuffer_fill_rect 48 136 160 240 0x00ff4f5e s in
  let s := framebuffer_fill_rect 240 136 160 240 0x004ecdc4 s in
  let s := framebuffer_fill_rect 432 136 160 240 0x00ffd166 s in
  let s := framebuffer_fill_rect 48 408 544 24 0x00f8f9fa s in
  let s := framebuffer_write_at 72 66 (lit "SaturnOS") 0x00f8f9fa 0x00205070 3 s in
  let s := framebuffer_write_at 72 154 (lit "RAMFB") 0x00101820 0x00ff4f5e 3 s in
  let s := framebuffer_write_at 264 154 (lit "TEXT") 0x00101820 0x004ecdc4 3 s in
  let s := framebuffer_write_at 456 154 SATURNOS_VERSION 0x00101820 0x00ffd166 2 s in
  framebuffer_write_at 72 414 (lit "FRAMEBUFFER TEXT ONLINE") 0x00101820 0x00f8f9fa 2 s.
