(* ===== verification/FramebufferProps.v ===== *)
(** * What the frame buffer shows

    The effect of the drawing functions on each pixel; the text console draws a grid of
    characters; nothing is ever stored outside the buffer; and the outcome of the set-up. *)

From S2P Require Import Prelude Framebuffer.

(** ** Painting *)

Implicit Types s : fb.

(** The pixel at a position of the screen. *)
Definition px s (x y : Z) : Z := pixels s (y * 640 + x).
Definition on_screen (x y : Z) : Prop := 0 <= x < 640 /\ 0 <= y < 480.

(** All but the pixels. *)
Definition same_console s s' : Prop :=
  stray s' = stray s /\ framebuffer_ready s' = framebuffer_ready s /\ framebuffer_status_code s' = framebuffer_status_code s /\
  console_column s' = console_column s /\ console_row s' = console_row s /\ console_cursor_visible s' = console_cursor_visible s.

(** [s'] is [s] with the positions of [B] in one colour. *)
Definition paints (B : Z -> Z -> bool) (color : Z) s s' : Prop :=
  (forall x y, on_screen x y -> px s' x y = if B x y then color else px s x y) /\ same_console s s'.

Definition rect (x0 x1 y0 y1 x y : Z) : bool := (x0 <=? x) && (x <? x1) && (y0 <=? y) && (y <? y1).

Lemma same_console_refl s : same_console s s.
Proof. done. Qed.
Lemma same_console_trans s s' s'' : same_console s s' -> same_console s' s'' -> same_console s s''.
Proof. intros (H1 & H2 & H3 & H4 & H5 & H6) (G1 & G2 & G3 & G4 & G5 & G6). by split_and!; etrans; eauto. Qed.

#[export] Hint Resolve same_console_refl : core.

Lemma paints_none color B s : (forall x y, on_screen x y -> B x y = false) -> paints B color s s.
Proof. intros HB. split; [|done]. intros x y Hxy. by rewrite HB. Qed.

Lemma paints_ext B B' color s s' : (forall x y, on_screen x y -> B x y = B' x y) -> paints B color s s' -> paints B' color s s'.
Proof. intros HB [Hp Hs]. split; [|done]. intros x y Hxy. by rewrite Hp, HB. Qed.

Lemma paints_again B B' color s s' s'' : paints B color s s' -> paints B' color s' s'' -> paints (fun x y => B' x y || B x y) color s s''.
Proof.
  intros [Hp Hs] [Hp' Hs']. split; [|by eapply same_console_trans]. intros x y Hxy. rewrite Hp', Hp by done. by destruct (B' x y).
Qed.

Lemma for_range_paints B color start stop body s :
  (forall i s, start <= i < stop -> paints (B i) color s (body i s)) ->
  paints (fun x y => existsb (fun i => B i x y) (seqZ start (stop - start))) color s (for_range start stop body s).
Proof.
  intros Hb. assert (forall i, i ∈ seqZ start (stop - start) -> start <= i < stop) as Hr by (intros i Hi; apply elem_of_seqZ in Hi; lia).
  unfold for_range. revert s Hr. induction (seqZ start (stop - start)) as [|i l IH]; intros s Hr; [by apply paints_none|].
  cbn [foldl existsb]. eapply paints_ext; [|eapply paints_again; [apply Hb; apply Hr; by left|apply IH; intros j Hj; apply Hr; by right]].
  intros x y _. cbn. apply orb_comm.
Qed.

Lemma exists_seqZ f start n : existsb f (seqZ start n) = true <-> exists i, start <= i < start + n /\ f i = true.
Proof.
  rewrite existsb_exists. split; intros (i & Hi & Hf); exists i; (split; [|done]); [apply list_elem_of_In, elem_of_seqZ in Hi; lia|].
  apply list_elem_of_In, elem_of_seqZ. lia.
Qed.

Lemma store_paints x y color s : on_screen x y -> paints (fun a b => (a =? x) && (b =? y)) color s (store_pixel (u32 (u32 (y * FRAMEBUFFER_WIDTH) + x)) color s).
Proof.
  intros [Hx Hy]. unfold store_pixel. change FRAMEBUFFER_WIDTH with 640. change FRAMEBUFFER_HEIGHT with 480. rewrite (u32_small (y * 640)), u32_small by lia.
  destruct (Z.leb_spec 0 (y * 640 + x)), (Z.ltb_spec (y * 640 + x) (640 * 480)); try lia. cbn [andb]. split; [|done].
  intros a b [Ha Hb]. unfold px. cbn. destruct (Z.eqb_spec a x), (Z.eqb_spec b y), (Z.eqb_spec (b * 640 + a) (y * 640 + x)); cbn; try done; lia.
Qed.

Lemma rect_true x0 x1 y0 y1 x y : rect x0 x1 y0 y1 x y = true <-> x0 <= x < x1 /\ y0 <= y < y1.
Proof. unfold rect. rewrite !andb_true_iff, !Z.leb_le, !Z.ltb_lt. naive_solver. Qed.

Lemma fill_loops_paint x0 x1 y0 y1 color s : 0 <= x0 -> x1 <= 640 -> 0 <= y0 -> y1 <= 480 ->
  paints (rect x0 x1 y0 y1) color s
    (for_range y0 y1 (fun row => for_range x0 x1 (fun col => store_pixel (u32 (u32 (row * FRAMEBUFFER_WIDTH) + col)) color)) s).
Proof.
  intros Hx0 Hx1 Hy0 Hy1. eapply paints_ext; [|apply (for_range_paints (fun row => rect x0 x1 row (row + 1)))].
  - intros x y _. apply bool_iff. rewrite exists_seqZ, rect_true. split.
    + intros (i & Hi & Hr). apply rect_true in Hr. lia.
    + intros Hr. exists y. rewrite rect_true. lia.
  - intros row s' Hrow. eapply paints_ext; [|apply (for_range_paints (fun col a b => (a =? col) && (b =? row)))].
    + intros x y _. apply bool_iff. rewrite exists_seqZ, rect_true. split.
      * intros (i & Hi & Hr). apply andb_true_iff in Hr as [?%Z.eqb_eq ?%Z.eqb_eq]. lia.
      * intros Hr. exists x. rewrite andb_true_iff, !Z.eqb_eq. lia.
    + intros col s'' Hcol. apply store_paints. split; lia.
Qed.

(** Any rectangle, with the sums that may wrap. *)
Lemma fill_rect_any x y width height color s : 0 <= x -> 0 <= y ->
  paints (rect x (u32 (x + width)) y (u32 (y + height))) color s (framebuffer_fill_rect x y width height color s).
Proof.
  intros Hx Hy. unfold framebuffer_fill_rect. change FRAMEBUFFER_WIDTH with 640. change FRAMEBUFFER_HEIGHT with 480.
  rewrite !Z.geb_leb, !Z.gtb_ltb. destruct (Z.leb_spec 640 x) as [Hx'|Hx'].
  { apply paints_none. intros a b [? ?]. apply not_true_iff_false. rewrite rect_true. lia. }
  destruct (Z.leb_spec 480 y) as [Hy'|Hy'].
  { apply paints_none. intros a b [? ?]. apply not_true_iff_false. rewrite rect_true. lia. }
  cbn [orb]. cbv zeta. change (for_range y) with (for_range y). eapply paints_ext; [|apply fill_loops_paint; try lia; case_if; lia].
  intros a b [Ha Hb]. apply bool_iff. rewrite !rect_true. repeat case_if; lia.
Qed.

Lemma fill_rect_paints x y width height color s : 0 <= x -> 0 <= y -> 0 <= width -> 0 <= height -> x + width < 2 ^ 32 -> y + height < 2 ^ 32 ->
  paints (rect x (x + width) y (y + height)) color s (framebuffer_fill_rect x y width height color s).
Proof.
  intros. pose proof (fill_rect_any x y width height color s) as Hp. rewrite !u32_small in Hp by lia. by apply Hp.
Qed.

(** ** Characters *)

(** Whether a dot of the 6 x 8 cell of a character is set. *)
Definition glyph_dot_set (c gx gy : Z) : bool :=
  (gx <? 5) && (gy <? 7) && truth (Z.land (chr (framebuffer_glyph c) (Z.to_nat gy)) (Z.shiftl 1 (4 - gx))).

(** The positions of the set dots of a character at [x], [y]. *)
Definition ink (c x y scale a b : Z) : bool :=
  rect x (x + 6 * scale) y (y + 8 * scale) a b && glyph_dot_set c ((a - x) / scale) ((b - y) / scale).

Lemma in_block a x col scale : 0 < scale -> (x + col * scale <= a < x + col * scale + scale <-> (a - x) / scale = col).
Proof.
  intros Hs. split.
  - intros Ha. symmetry. apply (Z.div_unique_pos _ _ _ (a - x - col * scale)); lia.
  - intros <-. pose proof (Z.div_mod (a - x) scale). pose proof (Z.mod_pos_bound (a - x) scale). nia.
Qed.

Lemma dots_paint c x y scale foreground s : 0 <= x -> 0 <= y -> 0 < scale -> x + 6 * scale < 2 ^ 32 -> y + 8 * scale < 2 ^ 32 ->
  paints (ink c x y scale) foreground s
    (for_range 0 7 (fun row => for_range 0 5 (fun col s =>
      if truth (Z.land (chr (framebuffer_glyph c) (Z.to_nat row)) (Z.shiftl 1 (4 - col)))
      then framebuffer_fill_rect (u32 (x + u32 (col * scale))) (u32 (y + u32 (row * scale))) scale scale foreground s else s)) s).
Proof.
  intros Hx Hy Hs Hxs Hys.
  set (bit := fun row col => truth (Z.land (chr (framebuffer_glyph c) (Z.to_nat row)) (Z.shiftl 1 (4 - col)))).
  set (block := fun row col a b => bit row col && rect (x + col * scale) (x + col * scale + scale) (y + row * scale) (y + row * scale + scale) a b).
  eapply paints_ext; [|apply (for_range_paints (fun row a b => existsb (fun col => block row col a b) (seqZ 0 5)))].
  - intros a b _. apply bool_iff. rewrite exists_seqZ. unfold ink. rewrite andb_true_iff, rect_true. unfold glyph_dot_set. rewrite !andb_true_iff, !Z.ltb_lt. split.
    + intros (row & Hrow & Hc). apply exists_seqZ in Hc as (col & Hcol & Hb). unfold block in Hb. apply andb_true_iff in Hb as [Hbit Hr].
      apply rect_true in Hr as [Ha Hb]. assert ((a - x) / scale = col) as -> by (by apply in_block). assert ((b - y) / scale = row) as -> by (by apply in_block).
      split; [nia|]. split; [lia|exact Hbit].
    + intros [[Ha Hb] [[Hc Hr] Hbit]]. pose proof (Z.div_pos (a - x) scale) as Hpx. pose proof (Z.div_pos (b - y) scale) as Hpy.
      exists ((b - y) / scale). split; [lia|]. apply exists_seqZ. exists ((a - x) / scale). split; [lia|].
      unfold block. apply andb_true_iff. split; [exact Hbit|]. apply rect_true. split; by apply in_block.
  - intros row s' Hrow. apply (for_range_paints (fun col => block row col)). intros col s'' Hcol. cbv beta. fold (bit row col). unfold block.
    destruct (bit row col); cbn [andb].
    + rewrite (u32_small (col * scale)), (u32_small (row * scale)), !u32_small by nia.
      apply fill_rect_paints; nia.
    + by apply paints_none.
Qed.

(** A character: its ink in the foreground, the rest of its cell in the background. *)
Lemma draw_char_paints x y c foreground background scale s : 0 <= x -> 0 <= y -> 0 < scale -> x + 6 * scale < 2 ^ 32 -> y + 8 * scale < 2 ^ 32 ->
  let s' := framebuffer_draw_char x y c foreground background scale s in
  same_console s s' /\
  forall a b, on_screen a b -> px s' a b = if ink c x y scale a b then foreground else if rect x (x + 6 * scale) y (y + 8 * scale) a b then background else px s a b.
Proof.
  intros Hx Hy Hs Hxs Hys s'. unfold s', framebuffer_draw_char. destruct (Z.eqb_spec scale 0); [lia|].
  rewrite !(u32_small (_ * scale)) by lia. cbv zeta.
  destruct (fill_rect_paints x y (6 * scale) (8 * scale) background s) as [Hp1 Hs1]; [lia..|].
  destruct (dots_paint c x y scale foreground (framebuffer_fill_rect x y (6 * scale) (8 * scale) background s)) as [Hp2 Hs2]; [done..|].
  split; [by eapply same_console_trans|]. intros a b Hab. by rewrite Hp2, Hp1.
Qed.

(** Nothing but pixels changes, whatever the arguments. *)
Lemma for_range_console start stop body s : (forall i s, same_console s (body i s)) -> same_console s (for_range start stop body s).
Proof.
  intros Hb. unfold for_range. revert s. induction (seqZ start (stop - start)) as [|i l IH]; intros s; [done|].
  cbn [foldl]. eapply same_console_trans; [apply Hb|apply IH].
Qed.

Lemma fill_rect_console x y width height color s : 0 <= x -> 0 <= y -> same_console s (framebuffer_fill_rect x y width height color s).
Proof. intros. by apply fill_rect_any. Qed.

Lemma draw_char_console x y c foreground background scale s : 0 <= x -> 0 <= y -> same_console s (framebuffer_draw_char x y c foreground background scale s).
Proof.
  intros Hx Hy. unfold framebuffer_draw_char. cbv zeta. eapply same_console_trans; [apply (fill_rect_console x y); done|].
  apply for_range_console. intros row s'. apply for_range_console. intros col s''. case_if; [|done]. apply fill_rect_console; apply u32_range.
Qed.

Lemma write_loop_console text : forall x cx cy foreground background scale s, 0 <= x -> 0 <= cx -> 0 <= cy ->
  same_console s (write_loop text x cx cy foreground background scale s).
Proof.
  induction text as [|c text IH]; intros x cx cy fg bg scale s Hx Hcx Hcy; [done|]. cbn [write_loop]. case_if.
  - apply IH; [done|done|apply u32_range].
  - eapply same_console_trans; [apply (draw_char_console cx cy); done|]. apply IH; [done|apply u32_range|done].
Qed.

Lemma write_at_console x y text foreground background scale s : 0 <= x -> 0 <= y -> same_console s (framebuffer_write_at x y text foreground background scale s).
Proof. intros. by apply write_loop_console. Qed.

(** Text on one line stays between its rows. *)
Lemma write_loop_rows text : forall x cx cy foreground background s a b, 0 <= cx -> 0 <= cy < 2 ^ 31 -> on_screen a b ->
  10 ∉ text -> cx + 12 * Z.of_nat (length text) < 2 ^ 32 -> ~ (cy <= b < cy + 16) -> px (write_loop text x cx cy foreground background 2 s) a b = px s a b.
Proof.
  induction text as [|c text IH]; intros x cx cy fg bg s a b Hcx Hcy Hab Hnl Hlen Hb; [done|]. cbn [write_loop length] in *.
  apply not_elem_of_cons in Hnl as [Hc Hnl]. destruct (Z.eqb_spec c 10); [congruence|]. change (u32 (6 * 2)) with 12.
  rewrite u32_small by lia. rewrite IH by (done || lia). destruct (draw_char_paints cx cy c fg bg 2 s) as [_ Hp]; [lia..|].
  rewrite Hp by done. assert (rect cx (cx + 6 * 2) cy (cy + 8 * 2) a b = false) as Hr by (apply not_true_iff_false; rewrite rect_true; lia).
  unfold ink. by rewrite Hr.
Qed.

(** ** The text console *)

(** The grid of characters the console shows, and its cursor. *)
Record screen := Screen { cells : Z -> Z -> Z; column : Z; row : Z }.

Definition scr_newline (g : screen) : screen :=
  if row g + 1 >=? 25 then Screen (fun r c => if r <? 24 then cells g (r + 1) c else 32) 0 24 else Screen (cells g) 0 (row g + 1).
Definition scr_char (c : Z) (g : screen) : screen :=
  let cs := fun r k => if (r =? row g) && (k =? column g) then c else cells g r k in
  if column g + 1 >=? 50 then scr_newline (Screen cs (column g) (row g)) else Screen cs (column g + 1) (row g).
(** A carriage return, a newline, a backspace that erases nothing, a tabulator of four
    spaces, or a character. *)
Definition scr_putc (g : screen) (c : Z) : screen :=
  if c =? 13 then Screen (cells g) 0 (row g)
  else if c =? 10 then scr_newline g
  else if (c =? 8) || (c =? 127) then Screen (cells g) (Z.max 0 (column g - 1)) (row g)
  else if c =? 9 then scr_char 32 (scr_char 32 (scr_char 32 (scr_char 32 g)))
  else scr_char c g.

Definition cell_color (c dx dy : Z) : Z :=
  if glyph_dot_set c (dx / 2) (dy / 2) then FRAMEBUFFER_CONSOLE_FG else FRAMEBUFFER_CONSOLE_BG.
Definition in_cell (dx dy : Z) : Prop := 0 <= dx < 12 /\ 0 <= dy < 16.

(** The frame buffer shows the grid; the cursor ([v] says whether it is drawn) is the bottom
    and right edge of its cell. *)
Record shows (v : bool) (g : screen) s : Prop := {
  sh_ready : framebuffer_ready s <> 0;
  sh_column : console_column s = column g /\ 0 <= column g < 50;
  sh_row : console_row s = row g /\ 0 <= row g < 25;
  sh_visible : console_cursor_visible s = c_int v;
  sh_pixels : forall r c dx dy, 0 <= r < 25 -> 0 <= c < 50 -> in_cell dx dy ->
    px s (16 + 12 * c + dx) (38 + 16 * r + dy) =
      if v && (r =? row g) && (c =? column g) && ((10 <=? dx) || (14 <=? dy)) then FRAMEBUFFER_CONSOLE_CURSOR else cell_color (cells g r c) dx dy;
}.

(** What an operation of the console leaves alone. *)
Definition in_text (a b : Z) : Prop := 16 <= a < 616 /\ 38 <= b < 438.
Definition text_step s s' : Prop :=
  stray s' = stray s /\ framebuffer_ready s' = framebuffer_ready s /\ framebuffer_status_code s' = framebuffer_status_code s /\
  forall a b, on_screen a b -> ~ in_text a b -> px s' a b = px s a b.

Lemma text_step_refl s : text_step s s.
Proof. done. Qed.
Lemma text_step_trans s s' s'' : text_step s s' -> text_step s' s'' -> text_step s s''.
Proof.
  intros (H1 & H2 & H3 & H4) (G1 & G2 & G3 & G4). split_and!; [by rewrite G1|by rewrite G2|by rewrite G3|]. intros a b Hab Ht. by rewrite G4, H4.
Qed.
#[local] Hint Resolve text_step_refl : core.

Lemma paints_text B color s s' : paints B color s s' -> (forall a b, on_screen a b -> B a b = true -> in_text a b) -> text_step s s'.
Proof.
  intros [Hp (H1 & H2 & H3 & _)] HB. split_and!; try done. intros a b Hab Hn. rewrite Hp by done. destruct (B a b) eqn:E; [|done]. by destruct Hn; apply HB.
Qed.

Lemma glyph_margin c dx dy : in_cell dx dy -> (10 <=? dx) || (14 <=? dy) = true -> cell_color c dx dy = FRAMEBUFFER_CONSOLE_BG.
Proof.
  intros [Hx Hy] Hm. unfold cell_color, glyph_dot_set. destruct (Z.ltb_spec (dx / 2) 5) as [H5|], (Z.ltb_spec (dy / 2) 7) as [H7|]; try done.
  exfalso. apply orb_true_iff in Hm as [?%Z.leb_le|?%Z.leb_le]; [assert (5 <= dx / 2) by (apply Z.div_le_lower_bound; lia)|assert (7 <= dy / 2) by (apply Z.div_le_lower_bound; lia)]; lia.
Qed.

(** The two strips of the cursor. *)
Definition cursor_strips (c r a b : Z) : bool :=
  rect (16 + 12 * c + 10) (16 + 12 * c + 12) (38 + 16 * r) (38 + 16 * r + 16) a b ||
  rect (16 + 12 * c) (16 + 12 * c + 12) (38 + 16 * r + 14) (38 + 16 * r + 16) a b.

Lemma draw_cursor_paints color s : 0 <= console_column s < 50 -> 0 <= console_row s < 25 ->
  paints (cursor_strips (console_column s) (console_row s)) color s (framebuffer_console_draw_cursor color s).
Proof.
  intros Hc Hr. unfold framebuffer_console_draw_cursor, framebuffer_console_x, framebuffer_console_y.
  change framebuffer_console_cell_width with 12. change framebuffer_console_cell_height with 16. change FRAMEBUFFER_CONSOLE_CURSOR_THICKNESS with 2.
  change FRAMEBUFFER_CONSOLE_MARGIN_X with 16. change FRAMEBUFFER_CONSOLE_MARGIN_Y with 38. cbv zeta.
  rewrite (u32_small (_ * 12)), (u32_small (_ * 16)) by lia. rewrite (u32_small (16 + _)), (u32_small (38 + _)) by lia. rewrite !u32_small by lia.
  eapply paints_ext; [|eapply paints_again; apply fill_rect_paints; lia].
  intros a b _. unfold cursor_strips. f_equal; apply bool_iff; rewrite !rect_true; lia.
Qed.

Lemma cursor_strips_cell c0 r0 r c dx dy : 0 <= r < 25 -> 0 <= c < 50 -> in_cell dx dy ->
  cursor_strips c0 r0 (16 + 12 * c + dx) (38 + 16 * r + dy) = (r =? r0) && (c =? c0) && ((10 <=? dx) || (14 <=? dy)).
Proof.
  intros Hr Hc [Hx Hy]. apply bool_iff. unfold cursor_strips. rewrite orb_true_iff, !rect_true, !andb_true_iff, orb_true_iff, !Z.eqb_eq, !Z.leb_le. lia.
Qed.

Lemma cell_on_screen r c dx dy : 0 <= r < 25 -> 0 <= c < 50 -> in_cell dx dy -> on_screen (16 + 12 * c + dx) (38 + 16 * r + dy).
Proof. intros Hr Hc [Hx Hy]. split; lia. Qed.

Lemma px_visible v s a b : px (set_visible v s) a b = px s a b.
Proof. done. Qed.
Lemma px_cursor c r s a b : px (set_cursor c r s) a b = px s a b.
Proof. done. Qed.

Lemma draw_cursor_shows (v v' : bool) color g s : shows v g s -> color = (if v' then FRAMEBUFFER_CONSOLE_CURSOR else FRAMEBUFFER_CONSOLE_BG) ->
  shows v' g (set_visible (c_int v') (framebuffer_console_draw_cursor color (framebuffer_console_clamp_cursor s))) /\
  text_step s (set_visible (c_int v') (framebuffer_console_draw_cursor color (framebuffer_console_clamp_cursor s))).
Proof.
  intros [Hrd [Hc Hc'] [Hr Hr'] Hv Hp] ->.
  assert (framebuffer_console_clamp_cursor s = s) as ->.
  { unfold framebuffer_console_clamp_cursor. change framebuffer_console_columns with 50. change framebuffer_console_rows with 25. rewrite Hc, Hr, !Z.geb_leb.
    destruct (Z.leb_spec 50 (column g)), (Z.leb_spec 25 (row g)); try lia. rewrite <- Hc, <- Hr. by destruct s. }
  set (color := if v' then _ else _). destruct (draw_cursor_paints color s) as [Hp' Hs']; [lia..|]. rewrite Hc, Hr in Hp'.
  pose proof Hs' as (H1 & H2 & H3 & H4 & H5 & H6). split.
  - split; [cbn; by rewrite H2|cbn; by rewrite H4|cbn; by rewrite H5|done|]. intros r c dx dy Hr0 Hc0 Hd.
    rewrite px_visible, Hp', cursor_strips_cell, Hp by (done || by apply cell_on_screen).
    destruct ((r =? row g) && (c =? column g)) eqn:E.
    + apply andb_true_iff in E as [-> ->]. rewrite !andb_true_r. destruct ((10 <=? dx) || (14 <=? dy)) eqn:Em; cbn [andb].
      * rewrite andb_true_r. unfold color. destruct v'; [done|]. symmetry. by apply glyph_margin.
      * by rewrite !andb_false_r.
    + cbn [andb]. rewrite <- !andb_assoc, !(andb_assoc (r =? row g)), E. by rewrite !andb_false_r.
  - split_and!; [done..|]. intros a b Hab Ht. rewrite px_visible, Hp' by done.
    destruct (cursor_strips _ _ a b) eqn:E; [|done]. destruct Ht. unfold cursor_strips in E. rewrite orb_true_iff, !rect_true in E. split; lia.
Qed.

Lemma shows_ready v g s : shows v g s -> truth (framebuffer_ready s) = true.
Proof. intros Hs. unfold truth. destruct (Z.eqb_spec (framebuffer_ready s) 0); [by destruct (sh_ready _ _ _ Hs)|done]. Qed.

Lemma hide_shows v g s : shows v g s -> shows false g (framebuffer_console_hide_cursor s) /\ text_step s (framebuffer_console_hide_cursor s).
Proof.
  intros Hs. unfold framebuffer_console_hide_cursor. rewrite (sh_visible _ _ _ Hs), (shows_ready _ _ _ Hs).
  destruct v; cbn [negb orb c_int truth Z.eqb]; [|done]. by eapply (draw_cursor_shows true false).
Qed.

Lemma show_shows v g s : shows v g s -> shows true g (framebuffer_console_show_cursor s) /\ text_step s (framebuffer_console_show_cursor s).
Proof.
  intros Hs. unfold framebuffer_console_show_cursor. rewrite (shows_ready _ _ _ Hs). cbn [negb]. by eapply (draw_cursor_shows v true).
Qed.

(** Scrolling moves every row of the text area up by a line and clears the last one. *)
Lemma copy_row y s : 38 <= y < 422 ->
  let s' := for_range 16 616 (fun x s => store_pixel (y * 640 + x) (pixels s ((y + 16) * 640 + x)) s) s in
  same_console s s' /\ forall a b, on_screen a b -> px s' a b = if (b =? y) && (16 <=? a) && (a <? 616) then px s a (y + 16) else px s a b.
Proof.
  intros Hy s'. assert (forall n s, (n <= 600)%nat ->
    let s' := foldl (fun s x => store_pixel (y * 640 + x) (pixels s ((y + 16) * 640 + x)) s) s (seqZ 16 (Z.of_nat n)) in
    same_console s s' /\ forall a b, on_screen a b -> px s' a b = if (b =? y) && (16 <=? a) && (a <? 16 + Z.of_nat n) then px s a (y + 16) else px s a b) as Hn.
  { induction n as [|n IH]; intros s0 Hn.
    { split; [done|]. intros a b _. change (16 + Z.of_nat 0) with 16. destruct (Z.leb_spec 16 a), (Z.ltb_spec a 16); try lia; by rewrite ?andb_false_r, ?andb_false_l. }
    rewrite seqZ_S, foldl_app. cbn [foldl]. destruct (IH s0 ltac:(lia)) as [Hs Hp]. set (s1 := foldl _ s0 _) in *. set (x := 16 + Z.of_nat n) in *.
    assert (on_screen x y /\ on_screen x (y + 16)) as [Hx Hx'] by (split; split; lia).
    destruct (store_paints x y (pixels s1 ((y + 16) * 640 + x)) s1 Hx) as [Hp1 Hs1].
    change FRAMEBUFFER_WIDTH with 640 in *. rewrite (u32_small (y * 640)), u32_small in Hp1, Hs1 by lia.
    split; [by eapply same_console_trans|]. intros a b Hab. rewrite Hp1 by done. change (pixels s1 ((y + 16) * 640 + x)) with (px s1 x (y + 16)).
    rewrite !Hp by done. destruct (Z.eqb_spec (y + 16) y); [lia|]. cbn [andb].
    destruct (Z.eqb_spec b y) as [->|]; [|by rewrite andb_false_r].
    rewrite andb_true_r. cbn [andb]. destruct (Z.eqb_spec a x) as [->|].
    - destruct (Z.leb_spec 16 x), (Z.ltb_spec x (16 + Z.of_nat (S n))); try lia. done.
    - destruct (Z.leb_spec 16 a), (Z.ltb_spec a x), (Z.ltb_spec a (16 + Z.of_nat (S n))); try done; lia. }
  exact (Hn 600%nat s ltac:(lia)).
Qed.

Lemma copy_rows n s : (n <= 384)%nat ->
  let s' := foldl (fun s y => for_range 16 616 (fun x s => store_pixel (y * 640 + x) (pixels s ((y + 16) * 640 + x)) s) s) s (seqZ 38 (Z.of_nat n)) in
  same_console s s' /\ forall a b, on_screen a b ->
    px s' a b = if (38 <=? b) && (b <? 38 + Z.of_nat n) && (16 <=? a) && (a <? 616) then px s a (b + 16) else px s a b.
Proof.
  induction n as [|n IH]; intros Hn.
  { split; [done|]. intros a b _. change (38 + Z.of_nat 0) with 38. destruct (Z.leb_spec 38 b), (Z.ltb_spec b 38); try lia; by rewrite ?andb_false_l, ?andb_false_r. }
  rewrite seqZ_S, foldl_app. cbn [foldl]. destruct (IH ltac:(lia)) as [Hs Hp]. set (s1 := foldl _ s _) in *. set (y := 38 + Z.of_nat n) in *.
  destruct (copy_row y s1 ltac:(lia)) as [Hs1 Hp1]. split; [by eapply same_console_trans|]. intros a b Hab. rewrite Hp1 by done.
  assert (on_screen a (y + 16)) as Hy by (split; [apply Hab|lia]). rewrite !Hp by done.
  destruct (Z.eqb_spec b y) as [->|].
  - destruct (Z.leb_spec 38 (y + 16)), (Z.ltb_spec (y + 16) y), (Z.leb_spec 38 y), (Z.ltb_spec y (38 + Z.of_nat (S n))), (Z.ltb_spec y y); try lia. by cbn [andb].
  - destruct (Z.leb_spec 38 b), (Z.ltb_spec b y), (Z.ltb_spec b (38 + Z.of_nat (S n))); try lia; by cbn [andb].
Qed.

Lemma scroll_spec s : same_console s (framebuffer_console_scroll s) /\ forall a b, on_screen a b -> px (framebuffer_console_scroll s) a b =
  if (38 <=? b) && (b <? 422) && (16 <=? a) && (a <? 616) then px s a (b + 16)
  else if rect 16 616 422 438 a b then FRAMEBUFFER_CONSOLE_BG else px s a b.
Proof.
  unfold framebuffer_console_scroll. change framebuffer_console_cell_height with 16. change framebuffer_console_text_height with 400.
  change framebuffer_console_text_width with 600. change FRAMEBUFFER_CONSOLE_MARGIN_X with 16. change FRAMEBUFFER_CONSOLE_MARGIN_Y with 38.
  change FRAMEBUFFER_WIDTH with 640. cbv zeta. unfold for_range at 1 3. change (38 + 400 - 16 - 38) with (Z.of_nat 384). change (38 + 400 - 16) with 422. change (16 + 600) with 616.
  destruct (copy_rows 384 s ltac:(lia)) as [Hs Hp]. set (s1 := foldl _ s _) in *.
  destruct (fill_rect_paints 16 422 600 16 FRAMEBUFFER_CONSOLE_BG s1) as [Hp1 Hs1]; [lia..|].
  split; [exact (same_console_trans _ _ _ Hs Hs1)|]. intros a b Hab. rewrite Hp1, Hp by done. change (38 + Z.of_nat 384) with 422.
  change (rect 16 (16 + 600) 422 (422 + 16) a b) with (rect 16 616 422 438 a b).
  destruct (rect 16 616 422 438 a b) eqn:E; [|done]. apply rect_true in E. destruct (Z.ltb_spec b 422); [lia|]. by rewrite andb_false_r.
Qed.

Lemma blank_bits n : chr (framebuffer_glyph 32) n = 0.
Proof. do 8 (destruct n as [|n]; [done|]). done. Qed.

Lemma cell_color_blank dx dy : cell_color 32 dx dy = FRAMEBUFFER_CONSOLE_BG.
Proof. unfold cell_color, glyph_dot_set. rewrite blank_bits, Z.land_0_l. cbn [truth]. by rewrite andb_false_r. Qed.

(** The scrolled picture, with the cursor at the start of the last row. *)
Lemma scroll_shows g s s' : shows false g s -> row g = 24 -> same_console (set_cursor 0 25 s) s' ->
  (forall a b, on_screen a b -> px s' a b = if (38 <=? b) && (b <? 422) && (16 <=? a) && (a <? 616) then px s a (b + 16)
     else if rect 16 616 422 438 a b then FRAMEBUFFER_CONSOLE_BG else px s a b) ->
  shows false (Screen (fun r c => if r <? 24 then cells g (r + 1) c else 32) 0 24) (set_cursor (console_column s') 24 s') /\ text_step s (set_cursor (console_column s') 24 s').
Proof.
  intros [Hrd [Hc Hc'] [Hr Hr'] Hv Hp] H24 (H1 & H2 & H3 & H4 & H5 & H6) Hp1.
  change (framebuffer_ready s' = framebuffer_ready s) in H2. change (console_cursor_visible s' = console_cursor_visible s) in H6. split.
  - split; [by rewrite <- H2 in Hrd|done|done|by rewrite <- Hv|]. intros r c dx dy Hr0 Hc0 Hd.
    rewrite px_cursor, Hp1 by (by apply cell_on_screen). pose proof Hd as [Hdx Hdy]. cbn [andb cells]. destruct (Z.ltb_spec r 24).
    + destruct (Z.leb_spec 38 (38 + 16 * r + dy)), (Z.ltb_spec (38 + 16 * r + dy) 422), (Z.leb_spec 16 (16 + 12 * c + dx)), (Z.ltb_spec (16 + 12 * c + dx) 616); try lia.
      cbn [andb]. replace (38 + 16 * r + dy + 16) with (38 + 16 * (r + 1) + dy) by lia. by rewrite Hp by (done || lia).
    + destruct (Z.ltb_spec (38 + 16 * r + dy) 422); [lia|]. rewrite andb_false_r. cbn [andb].
      assert (rect 16 616 422 438 (16 + 12 * c + dx) (38 + 16 * r + dy) = true) as -> by (apply rect_true; lia). by rewrite cell_color_blank.
  - split_and!; [done..|]. intros a b Hab Ht. rewrite px_cursor, Hp1 by done. unfold in_text in Ht.
    destruct (rect 16 616 422 438 a b) eqn:E; [apply rect_true in E; lia|].
    destruct (Z.leb_spec 38 b), (Z.ltb_spec b 422), (Z.leb_spec 16 a), (Z.ltb_spec a 616); try done; lia.
Qed.

Lemma newline_eq s : framebuffer_console_newline s =
  let t := set_cursor 0 (u32 (console_row s + 1)) s in
  if u32 (console_row s + 1) >=? 25 then set_cursor (console_column (framebuffer_console_scroll t)) 24 (framebuffer_console_scroll t) else t.
Proof. reflexivity. Qed.

Lemma newline_shows g s : shows false g s -> shows false (scr_newline g) (framebuffer_console_newline s) /\ text_step s (framebuffer_console_newline s).
Proof.
  intros Hs. pose proof Hs as [Hrd [Hc Hc'] [Hr Hr'] Hv Hp]. rewrite newline_eq. unfold scr_newline. rewrite Hr, u32_small, Z.geb_leb by lia. cbv zeta.
  destruct (Z.leb_spec 25 (row g + 1)).
  - assert (row g = 24) as H24 by lia. rewrite H24. destruct (scroll_spec (set_cursor 0 (24 + 1) s)) as [Hs1 Hp1]. by apply scroll_shows.
  - split; [|done]. split; [done|done|cbn; lia|done|]. intros r c dx dy Hr0 Hc0 Hd. rewrite px_cursor. by rewrite Hp.
Qed.

(** A character drawn in the cell of the cursor. *)
Lemma put_shows c g s : shows false g s ->
  let s' := framebuffer_draw_char (framebuffer_console_x s) (framebuffer_console_y s) c FRAMEBUFFER_CONSOLE_FG FRAMEBUFFER_CONSOLE_BG 2 s in
  shows false (Screen (fun r k => if (r =? row g) && (k =? column g) then c else cells g r k) (column g) (row g)) s' /\ text_step s s'.
Proof.
  intros [Hrd [Hc Hc'] [Hr Hr'] Hv Hp]. unfold framebuffer_console_x, framebuffer_console_y. change framebuffer_console_cell_width with 12.
  change framebuffer_console_cell_height with 16. change FRAMEBUFFER_CONSOLE_MARGIN_X with 16. change FRAMEBUFFER_CONSOLE_MARGIN_Y with 38.
  rewrite Hc, Hr, (u32_small (_ * 12)), (u32_small (_ * 16)) by lia. rewrite (u32_small (16 + _)), (u32_small (38 + _)) by lia. cbv zeta.
  set (x := 16 + column g * 12). set (y := 38 + row g * 16).
  destruct (draw_char_paints x y c FRAMEBUFFER_CONSOLE_FG FRAMEBUFFER_CONSOLE_BG 2 s) as [Hs1 Hp1]; [lia..|].
  set (s1 := framebuffer_draw_char _ _ _ _ _ _ s) in *. pose proof Hs1 as (H1 & H2 & H3 & H4 & H5 & H6). split.
  - split; [by rewrite H2|cbn; by rewrite H4|cbn; by rewrite H5|by rewrite H6|]. intros r k dx dy Hr0 Hc0 Hd. rewrite Hp1 by (by apply cell_on_screen).
    pose proof Hd as [Hdx Hdy]. cbn [andb cells column row]. destruct ((r =? row g) && (k =? column g)) eqn:E.
    + apply andb_true_iff in E as [->%Z.eqb_eq ->%Z.eqb_eq]. unfold ink.
      assert (rect x (x + 6 * 2) y (y + 8 * 2) (16 + 12 * column g + dx) (38 + 16 * row g + dy) = true) as -> by (apply rect_true; lia).
      replace (16 + 12 * column g + dx - x) with dx by lia. by replace (38 + 16 * row g + dy - y) with dy by lia.
    + assert (rect x (x + 6 * 2) y (y + 8 * 2) (16 + 12 * k + dx) (38 + 16 * r + dy) = false) as Hf.
      { apply not_true_iff_false. rewrite rect_true. apply andb_false_iff in E as [E%Z.eqb_neq|E%Z.eqb_neq]; lia. }
      unfold ink. rewrite Hf. cbn [andb]. by rewrite Hp.
  - split_and!; [done..|]. intros a b Hab Ht. rewrite Hp1 by done.
    assert (rect x (x + 6 * 2) y (y + 8 * 2) a b = false) as Hf by (apply not_true_iff_false; rewrite rect_true; unfold in_text in Ht; lia).
    unfold ink. by rewrite Hf.
Qed.

(** *** A character written to the console *)

Lemma moved_shows v g k r s : shows v g s -> v = false -> 0 <= k < 50 -> 0 <= r < 25 -> shows false (Screen (cells g) k r) (set_cursor k r s).
Proof. intros [Hrd Hc Hr Hv Hp] -> Hk Hr'. split; [done|done|done|done|]. intros r0 c dx dy Hr0 Hc0 Hd. rewrite px_cursor. by rewrite Hp. Qed.

Lemma newline_cursor k s : framebuffer_console_newline (set_cursor k (console_row s) s) = framebuffer_console_newline s.
Proof. rewrite !newline_eq. reflexivity. Qed.

Lemma advance_shows g s : shows false g s ->
  shows false (if column g + 1 >=? 50 then scr_newline g else Screen (cells g) (column g + 1) (row g)) (framebuffer_console_advance s) /\
  text_step s (framebuffer_console_advance s).
Proof.
  intros Hs. pose proof Hs as [Hrd [Hc Hc'] [Hr Hr'] Hv Hp]. unfold framebuffer_console_advance. cbn [console_column set_cursor].
  change framebuffer_console_columns with 50. rewrite Hc, u32_small by lia. rewrite Z.geb_leb. destruct (Z.leb_spec 50 (column g + 1)).
  - rewrite newline_cursor. by apply newline_shows.
  - split; [|done]. rewrite Hr. by apply (moved_shows false); [..|lia|].
Qed.

Lemma scr_newline_cells cs k k' r : scr_newline (Screen cs k r) = scr_newline (Screen cs k' r).
Proof. done. Qed.

(** A printed character, whatever a tabulator's spaces are. *)
Lemma char_shows space c v g s : shows v g s -> c <> 13 -> c <> 10 -> c <> 8 -> c <> 127 -> c <> 9 ->
  shows true (scr_char c g) (putc_body space c s) /\ text_step s (putc_body space c s).
Proof.
  intros Hs H13 H10 H8 H127 H9. unfold putc_body. rewrite (shows_ready _ _ _ Hs). cbn [negb]. cbv zeta.
  destruct (hide_shows _ _ _ Hs) as [Hs1 Ht1]. set (s1 := framebuffer_console_hide_cursor s) in *. clearbody s1.
  destruct (Z.eqb_spec c 13), (Z.eqb_spec c 10), (Z.eqb_spec c 8), (Z.eqb_spec c 127), (Z.eqb_spec c 9); try done. cbn [orb].
  pose proof (sh_column _ _ _ Hs1) as [Hc Hc']. change framebuffer_console_columns with 50. change FRAMEBUFFER_CONSOLE_SCALE with 2.
  rewrite Hc, Z.geb_leb. destruct (Z.leb_spec 50 (column g)); [lia|]. destruct (put_shows c g s1 Hs1) as [Hs2 Ht2].
  set (s2 := framebuffer_draw_char _ _ _ _ _ _ s1) in *. clearbody s2. destruct (advance_shows _ s2 Hs2) as [Hs3 Ht3].
  set (s3 := framebuffer_console_advance s2) in *. clearbody s3. destruct (show_shows _ _ s3 Hs3) as [Hs4 Ht4].
  split; [exact Hs4|]. by eapply text_step_trans; [eapply text_step_trans; [eapply text_step_trans|]|].
Qed.

Lemma putc_shows c v g s : shows v g s -> shows true (scr_putc g c) (framebuffer_console_putc c s) /\ text_step s (framebuffer_console_putc c s).
Proof.
  intros Hs. unfold framebuffer_console_putc, scr_putc. destruct (Z.eqb_spec c 13) as [->|H13]; [|destruct (Z.eqb_spec c 10) as [->|H10]; [|
    destruct (decide (c = 8 \/ c = 127)) as [H8|H8]; [|destruct (Z.eqb_spec c 9) as [->|H9]]]].
  1,2,3,4: unfold putc_body at 1 3; rewrite (shows_ready _ _ _ Hs); cbn [negb]; cbv zeta; destruct (hide_shows _ _ _ Hs) as [Hs1 Ht1];
    set (s1 := framebuffer_console_hide_cursor s) in *; clearbody s1; pose proof (sh_column _ _ _ Hs1) as [Hc Hc']; pose proof (sh_row _ _ _ Hs1) as [Hr Hr'].
  - cbn [Z.eqb Pos.eqb]. rewrite Hr. destruct (show_shows _ _ _ (moved_shows _ _ 0 (row g) _ Hs1 eq_refl ltac:(lia) Hr')) as [H2 Ht2].
    split; [exact H2|]. by eapply text_step_trans.
  - cbn [Z.eqb Pos.eqb]. destruct (newline_shows _ _ Hs1) as [H2 Ht2]. destruct (show_shows _ _ _ H2) as [H3 Ht3].
    split; [exact H3|]. by eapply text_step_trans; [eapply text_step_trans|].
  - assert ((c =? 8) || (c =? 127) = true) as -> by (destruct H8 as [->| ->]; done). destruct (Z.eqb_spec c 13), (Z.eqb_spec c 10); try done.
    unfold framebuffer_console_backspace. rewrite Hc, Hr. destruct (Z.eqb_spec (column g) 0) as [E|E].
    + rewrite E. destruct (show_shows _ _ _ Hs1) as [H2 Ht2]. split; [|by eapply text_step_trans]. destruct g. cbn in E. by rewrite E in H2.
    + rewrite Z.max_r by lia. destruct (show_shows _ _ _ (moved_shows _ _ (column g - 1) (row g) _ Hs1 eq_refl ltac:(lia) Hr')) as [H2 Ht2].
      split; [exact H2|]. by eapply text_step_trans.
  - cbn [Z.eqb Pos.eqb orb]. unfold for_range. change (seqZ 0 (4 - 0)) with [0; 1; 2; 3]. cbn [foldl].
    destruct (char_shows id 32 _ _ _ Hs1) as [Hs2 Ht2]; [done..|]. set (s2 := putc_body id 32 s1) in *. clearbody s2.
    destruct (char_shows id 32 _ _ _ Hs2) as [Hs3 Ht3]; [done..|]. set (s3 := putc_body id 32 s2) in *. clearbody s3.
    destruct (char_shows id 32 _ _ _ Hs3) as [Hs4 Ht4]; [done..|]. set (s4 := putc_body id 32 s3) in *. clearbody s4.
    destruct (char_shows id 32 _ _ _ Hs4) as [Hs5 Ht5]; [done..|]. set (s5 := putc_body id 32 s4) in *. clearbody s5.
    destruct (show_shows _ _ _ Hs5) as [Hs6 Ht6]. split; [exact Hs6|].
    by do 5 (eapply text_step_trans; [eassumption|]).
  - assert ((c =? 8) || (c =? 127) = false) as -> by (apply orb_false_iff; rewrite !Z.eqb_neq; naive_solver). apply (char_shows _ _ v); naive_solver.
Qed.

Lemma write_shows text : forall v g s, shows v g s -> text <> [] ->
  shows true (foldl scr_putc g text) (framebuffer_console_write text s) /\ text_step s (framebuffer_console_write text s).
Proof.
  induction text as [|c text IH]; intros v g s Hs Hne; [done|]. cbn [framebuffer_console_write foldl].
  destruct (putc_shows c v g s Hs) as [Hs1 Ht1]. destruct text as [|c' text]; [done|].
  destruct (IH true _ _ Hs1 ltac:(done)) as [Hs2 Ht2]. split; [exact Hs2|]. by eapply text_step_trans.
Qed.

(** *** The cleared console *)

Definition blank : screen := Screen (fun _ _ => 32) 0 0.

(** Drawing outside the text area. *)
Definition frame_step s s' : Prop := same_console s s' /\ forall a b, on_screen a b -> in_text a b -> px s' a b = px s a b.

Lemma frame_step_trans s s' s'' : frame_step s s' -> frame_step s' s'' -> frame_step s s''.
Proof. intros [H1 H2] [G1 G2]. split; [by eapply same_console_trans|]. intros a b Hab Ht. by rewrite G2, H2. Qed.

Lemma fill_frame x y width height color s : 0 <= x -> 0 <= y -> 0 <= width -> 0 <= height -> x + width < 2 ^ 32 -> y + height <= 38 \/ 438 <= y < 2 ^ 16 -> height < 2 ^ 16 ->
  frame_step s (framebuffer_fill_rect x y width height color s).
Proof.
  intros Hx Hy Hw Hh Hxw Hout Hh'. destruct (fill_rect_paints x y width height color s) as [Hp Hs]; [lia..|]. split; [done|].
  intros a b Hab [_ Hb]. rewrite Hp by done. destruct (rect _ _ _ _ a b) eqn:E; [|done]. apply rect_true in E. lia.
Qed.

Lemma text_frame x y text foreground background s : 0 <= x < 2 ^ 16 -> 0 <= y <= 22 \/ 438 <= y < 2 ^ 16 -> 10 ∉ text -> Z.of_nat (length text) < 2 ^ 16 ->
  frame_step s (framebuffer_write_at x y text foreground background 2 s).
Proof.
  intros Hx Hy Hnl Hlen. split; [apply write_at_console; lia|]. intros a b Hab [_ Hb].
  unfold framebuffer_write_at. apply write_loop_rows; [lia..|done|done|lia|lia].
Qed.

Ltac solve_frame := first [done|by left|by right|assumption|by apply (bool_decide_unpack _)].

Lemma set_status_frame text s : 10 ∉ text -> Z.of_nat (length text) < 2 ^ 16 -> frame_step s (framebuffer_console_set_status (Some text) s).
Proof.
  intros Hnl Hlen. unfold framebuffer_console_set_status. destruct (negb _); [by split|]. cbv zeta.
  eapply frame_step_trans; [eapply frame_step_trans; [eapply frame_step_trans|]|]; [apply fill_frame..|apply text_frame]; solve_frame.
Qed.

Lemma clear_paints color s : paints (rect 0 640 0 480) color s (framebuffer_clear color s).
Proof.
  unfold framebuffer_clear. change FRAMEBUFFER_WIDTH with 640. change FRAMEBUFFER_HEIGHT with 480.
  pose proof (fill_rect_paints 0 0 640 480 color s) as Hp. rewrite !Z.add_0_l in Hp. apply Hp; lia.
Qed.

(** The layout after the clearing. *)
Lemma layout_frame s : frame_step (framebuffer_clear FRAMEBUFFER_CONSOLE_BG s) (framebuffer_console_draw_layout s).
Proof.
  unfold framebuffer_console_draw_layout. cbv zeta. generalize (framebuffer_clear FRAMEBUFFER_CONSOLE_BG s). intros s0.
  eapply frame_step_trans; [|apply set_status_frame; solve_frame].
  do 3 (eapply frame_step_trans; [|apply text_frame; solve_frame]). do 4 (eapply frame_step_trans; [|apply fill_frame; solve_frame]).
  apply fill_frame; solve_frame.
Qed.

Lemma blank_shows s s0 s1 : framebuffer_ready s <> 0 -> paints (rect 0 640 0 480) FRAMEBUFFER_CONSOLE_BG s s0 -> frame_step s0 s1 ->
  shows false blank (set_visible 0 (set_cursor 0 0 s1)) /\ stray (set_visible 0 (set_cursor 0 0 s1)) = stray s.
Proof.
  intros Hr [Hp Hs] [Hs' Hp']. destruct (same_console_trans _ _ _ Hs Hs') as (H1 & H2 & _). split; [|done].
  split; [by rewrite <- H2 in Hr|done|done|done|]. intros r c dx dy Hr0 Hc0 Hd. rewrite px_visible, px_cursor.
  pose proof (cell_on_screen r c dx dy Hr0 Hc0 Hd) as Hon. rewrite Hp' by (done || (destruct Hd; split; lia)). rewrite Hp by done.
  assert (rect 0 640 0 480 (16 + 12 * c + dx) (38 + 16 * r + dy) = true) as -> by (apply rect_true; destruct Hon; lia).
  cbn [andb cells blank]. by rewrite cell_color_blank.
Qed.

Lemma init_eq s : framebuffer_ready s <> 0 ->
  framebuffer_console_init s = framebuffer_console_show_cursor (set_visible 0 (set_cursor 0 0 (framebuffer_console_draw_layout s))).
Proof.
  intros Hr. assert (truth (framebuffer_ready s) = true) as Ht by (unfold truth; by destruct (Z.eqb_spec (framebuffer_ready s) 0)).
  unfold framebuffer_console_init. rewrite Ht. reflexivity.
Qed.

Lemma init_shows s : framebuffer_ready s <> 0 -> shows true blank (framebuffer_console_init s) /\ stray (framebuffer_console_init s) = stray s.
Proof.
  intros Hr. rewrite init_eq by done. destruct (blank_shows _ _ _ Hr (clear_paints _ s) (layout_frame s)) as [Hb Hst].
  destruct (show_shows _ _ _ Hb) as [Hsh (Hst' & _)]. split; [exact Hsh|]. exact (eq_trans Hst' Hst).
Qed.

(** (C15) What is written to the text console is what the screen shows: after the console is
    set up and any bytes are written to it, every pixel of the 50 x 25 cells is that of the
    glyphs of the grid that the bytes describe - characters, carriage returns, newlines with
    scrolling, backspaces, tabulators - with the cursor drawn in its cell; everything
    outside the text area is as the set-up left it, and no store leaves the buffer. *)
Theorem console_shows_text text s : framebuffer_ready s <> 0 ->
  let s0 := framebuffer_console_init s in
  let s' := framebuffer_console_write text s0 in
  shows true (foldl scr_putc blank text) s' /\ stray s' = stray s /\
  forall a b, on_screen a b -> ~ in_text a b -> px s' a b = px s0 a b.
Proof.
  intros Hr s0 s'. destruct (init_shows s Hr) as [Hs Hst]. destruct (decide (text = [])) as [E|E].
  { subst s'. by rewrite E. }
  destruct (write_shows text true blank s0 Hs E) as [Hs' (Hst' & _ & _ & Hout)]. split; [exact Hs'|]. split; [|exact Hout]. etrans; [exact Hst'|exact Hst].
Qed.

(** ** Stores *)

(** What the kernel calls, with unsigned arguments. *)
Inductive fb_op :=
  | PutPixel (x y color : Z)
  | FillRect (x y width height color : Z)
  | Clear (color : Z)
  | DrawChar (x y c foreground background scale : Z)
  | WriteAt (x y : Z) (text : list Z) (foreground background scale : Z)
  | TestPattern
  | ConsoleInit
  | SetStatus (text : option (list Z))
  | Putc (c : Z)
  | ConsoleWrite (text : list Z).

Definition fb_exec (o : fb_op) s : fb :=
  match o with
  | PutPixel x y color => framebuffer_put_pixel x y color s
  | FillRect x y width height color => framebuffer_fill_rect x y width height color s
  | Clear color => framebuffer_clear color s
  | DrawChar x y c foreground background scale => framebuffer_draw_char x y c foreground background scale s
  | WriteAt x y text foreground background scale => framebuffer_write_at x y text foreground background scale s
  | TestPattern => framebuffer_draw_test_pattern s
  | ConsoleInit => framebuffer_console_init s
  | SetStatus text => framebuffer_console_set_status text s
  | Putc c => framebuffer_console_putc c s
  | ConsoleWrite text => framebuffer_console_write text s
  end.

Definition op_position (o : fb_op) : Z * Z :=
  match o with
  | PutPixel x y _ | FillRect x y _ _ _ | DrawChar x y _ _ _ _ | WriteAt x y _ _ _ _ => (x, y)
  | _ => (0, 0)
  end.

(** The stores of [s'] after those of [s] are in the buffer. *)
Definition kept s s' : Prop := stray s' = stray s.

Lemma kept_trans s s' s'' : kept s s' -> kept s' s'' -> kept s s''.
Proof. unfold kept. congruence. Qed.

Lemma cursor_kept c r s : kept s (set_cursor c r s).
Proof. done. Qed.
Lemma visible_kept v s : kept s (set_visible v s).
Proof. done. Qed.
Lemma clamp_kept s : kept s (framebuffer_console_clamp_cursor s).
Proof. done. Qed.

Lemma put_pixel_kept x y color s : 0 <= x -> 0 <= y -> kept s (framebuffer_put_pixel x y color s).
Proof.
  intros Hx Hy. unfold framebuffer_put_pixel. change FRAMEBUFFER_WIDTH with 640 at 1. change FRAMEBUFFER_HEIGHT with 480. rewrite !Z.geb_leb.
  destruct (Z.leb_spec 640 x), (Z.leb_spec 480 y); try done. cbn [orb]. apply (store_paints x y color s). split; lia.
Qed.

Lemma fill_rect_kept x y width height color s : 0 <= x -> 0 <= y -> kept s (framebuffer_fill_rect x y width height color s).
Proof. intros Hx Hy. by apply (fill_rect_console x y width height color s). Qed.
Lemma draw_char_kept x y c foreground background scale s : 0 <= x -> 0 <= y -> kept s (framebuffer_draw_char x y c foreground background scale s).
Proof. intros Hx Hy. by apply (draw_char_console x y c foreground background scale s). Qed.
Lemma write_at_kept x y text foreground background scale s : 0 <= x -> 0 <= y -> kept s (framebuffer_write_at x y text foreground background scale s).
Proof. intros Hx Hy. by apply (write_at_console x y text foreground background scale s). Qed.

Lemma set_status_kept text s : kept s (framebuffer_console_set_status text s).
Proof.
  unfold framebuffer_console_set_status. destruct text as [text|]; [|done]. destruct (negb _); [done|]. cbv zeta.
  eapply kept_trans; [eapply kept_trans; [eapply kept_trans|]|]; [apply fill_rect_kept..|apply write_at_kept]; done.
Qed.

Lemma draw_cursor_kept color s : kept s (framebuffer_console_draw_cursor color s).
Proof. unfold framebuffer_console_draw_cursor. cbv zeta. eapply kept_trans; apply fill_rect_kept; apply u32_range. Qed.

Lemma hide_kept s : kept s (framebuffer_console_hide_cursor s).
Proof. unfold framebuffer_console_hide_cursor. destruct (_ || _); [done|]. eapply kept_trans; [|apply visible_kept]. eapply kept_trans; [apply clamp_kept|apply draw_cursor_kept]. Qed.
Lemma show_kept s : kept s (framebuffer_console_show_cursor s).
Proof. unfold framebuffer_console_show_cursor. destruct (negb _); [done|]. eapply kept_trans; [|apply visible_kept]. eapply kept_trans; [apply clamp_kept|apply draw_cursor_kept]. Qed.

Lemma newline_kept s : kept s (framebuffer_console_newline s).
Proof. rewrite newline_eq. cbv zeta. destruct (_ >=? _); [|done].
  eapply kept_trans; [|apply cursor_kept]. eapply kept_trans; [apply cursor_kept|apply scroll_spec].
Qed.

Lemma advance_kept s : kept s (framebuffer_console_advance s).
Proof. unfold framebuffer_console_advance. cbv zeta. destruct (_ >=? _); [|done]. eapply kept_trans; [apply cursor_kept|apply newline_kept]. Qed.

Lemma console_init_kept s : kept s (framebuffer_console_init s).
Proof.
  unfold framebuffer_console_init. destruct (negb _); [done|]. eapply kept_trans; [|apply show_kept].
  eapply kept_trans; [|apply visible_kept]. eapply kept_trans; [|apply cursor_kept]. eapply kept_trans; [|apply layout_frame]. by apply clear_paints.
Qed.

Lemma putc_body_kept space c s : (forall s, kept s (space s)) -> kept s (putc_body space c s).
Proof.
  intros Hsp. unfold putc_body. destruct (negb _); [done|]. cbv zeta. eapply kept_trans; [apply hide_kept|].
  generalize (framebuffer_console_hide_cursor s). clear s. intros s.
  destruct (c =? 13); [eapply kept_trans; [apply cursor_kept|apply show_kept]|]. destruct (c =? 10); [eapply kept_trans; [apply newline_kept|apply show_kept]|].
  destruct (_ || _). { eapply (kept_trans _ (framebuffer_console_backspace s)); [|apply show_kept]. unfold framebuffer_console_backspace. destruct (_ =? _); [done|apply cursor_kept]. }
  destruct (c =? 9). { eapply kept_trans; [|apply show_kept]. unfold for_range. change (seqZ 0 (4 - 0)) with [0; 1; 2; 3]. cbn [foldl]. do 3 (eapply kept_trans; [|apply Hsp]). apply Hsp. }
  eapply kept_trans; [|apply show_kept]. eapply kept_trans; [|apply advance_kept].
  eapply kept_trans; [|apply draw_char_kept; apply u32_range]. destruct (_ >=? _); [apply newline_kept|done].
Qed.

Lemma putc_kept c s : kept s (framebuffer_console_putc c s).
Proof. apply putc_body_kept. intros s'. by apply putc_body_kept. Qed.

Lemma fb_exec_kept o s : 0 <= (op_position o).1 -> 0 <= (op_position o).2 -> kept s (fb_exec o s).
Proof.
  destruct o as [x y color|x y w h color|color|x y c fg bg sc|x y text fg bg sc| | |text|c|text]; cbn [op_position fst snd fb_exec]; intros Hx Hy.
  - by apply put_pixel_kept.
  - by apply fill_rect_kept.
  - by apply fill_rect_kept.
  - by apply draw_char_kept.
  - by apply write_at_kept.
  - unfold framebuffer_draw_test_pattern. cbv zeta. do 5 (eapply kept_trans; [|by apply write_at_kept]). do 5 (eapply kept_trans; [|by apply fill_rect_kept]). by apply fill_rect_kept.
  - apply console_init_kept.
  - apply set_status_kept.
  - apply putc_kept.
  - revert s. induction text as [|c text IH]; intros s; [done|]. cbn [framebuffer_console_write]. eapply kept_trans; [apply putc_kept|apply IH].
Qed.

(** ** Areas *)

(** The cursor is on the grid, as every operation leaves it; from there, [s'] differs from
    [s] in the pixels of [A] only. *)
Definition cursor_inside s : Prop := 0 <= console_column s < 50 /\ 0 <= console_row s < 25.
Definition within (A : Z -> Z -> Prop) s s' : Prop :=
  cursor_inside s -> cursor_inside s' /\ forall a b, on_screen a b -> ~ A a b -> px s' a b = px s a b.

Lemma within_refl A s : within A s s.
Proof. done. Qed.
Lemma within_trans A s s' s'' : within A s s' -> within A s' s'' -> within A s s''.
Proof. intros H1 H2 Hc. destruct (H1 Hc) as [Hc' Hp]. destruct (H2 Hc') as [Hc'' Hp']. split; [done|]. intros a b Hab Hn. by rewrite Hp', Hp. Qed.
Lemma same_console_cursor s s' : same_console s s' -> cursor_inside s -> cursor_inside s'.
Proof. intros (_ & _ & _ & Hc & Hr & _) [? ?]. unfold cursor_inside. by rewrite Hc, Hr. Qed.
Lemma paints_within (A : Z -> Z -> Prop) B color s s' : paints B color s s' -> (forall a b, on_screen a b -> B a b = true -> A a b) -> within A s s'.
Proof.
  intros [Hp Hs] HB Hc. split; [by eapply same_console_cursor|]. intros a b Hab Hn. rewrite Hp by done. destruct (B a b) eqn:E; [|done]. by destruct Hn; apply HB.
Qed.
#[local] Hint Resolve within_refl : core.

Lemma cursor_set c r s : 0 <= c < 50 -> 0 <= r < 25 -> cursor_inside (set_cursor c r s).
Proof. done. Qed.
Lemma cursor_within A c r s : 0 <= c < 50 -> 0 <= r < 25 -> within A s (set_cursor c r s).
Proof. done. Qed.
Lemma visible_within A v s : within A s (set_visible v s).
Proof. done. Qed.
Lemma fill_within (A : Z -> Z -> Prop) x y width height color s : 0 <= x -> 0 <= y -> 0 <= width -> 0 <= height ->
  (forall a b, on_screen a b -> x <= a < x + width -> y <= b < y + height -> A a b) -> within A s (framebuffer_fill_rect x y width height color s).
Proof.
  intros Hx Hy Hw Hh HA. eapply paints_within; [by apply fill_rect_any|]. intros a b Hab [Ha Hb]%rect_true. unfold u32 in Ha, Hb.
  pose proof (Z.mod_le (x + width) (2 ^ 32)). pose proof (Z.mod_le (y + height) (2 ^ 32)). apply HA; [done|lia..].
Qed.

(** A character in its cell, and a text in the rows and columns of its lines. *)
Lemma draw_char_within (A : Z -> Z -> Prop) x y c foreground background scale s : 0 <= x -> 0 <= y -> 0 < scale -> x + 6 * scale < 2 ^ 32 -> y + 8 * scale < 2 ^ 32 ->
  (forall a b, x <= a < x + 6 * scale -> y <= b < y + 8 * scale -> A a b) -> within A s (framebuffer_draw_char x y c foreground background scale s).
Proof.
  intros Hx Hy Hs Hxs Hys HA Hc. destruct (draw_char_paints x y c foreground background scale s) as [Hs1 Hp1]; [done..|].
  split; [by eapply same_console_cursor|]. intros a b Hab Hn. rewrite Hp1 by done. unfold ink.
  destruct (rect x (x + 6 * scale) y (y + 8 * scale) a b) eqn:E; [|done]. apply rect_true in E as [Ha Hb]. by destruct Hn; apply HA.
Qed.
Fixpoint newlines (text : list Z) : nat :=
  match text with [] => 0 | c :: text => if c =? 10 then S (newlines text) else newlines text end.
Lemma write_loop_within text : forall (A : Z -> Z -> Prop) x cx cy foreground background scale s, 0 <= x <= cx -> 0 <= cy -> 0 < scale ->
  cx + 6 * scale * Z.of_nat (length text) < 2 ^ 32 -> cy + 8 * scale * Z.of_nat (S (newlines text)) < 2 ^ 32 ->
  (forall a b, x <= a < cx + 6 * scale * Z.of_nat (length text) -> cy <= b < cy + 8 * scale * Z.of_nat (S (newlines text)) -> A a b) ->
  within A s (write_loop text x cx cy foreground background scale s).
Proof.
  induction text as [|c text IH]; intros A x cx cy fg bg scale s Hx Hy Hs Hw Hh HA; [done|]. cbn [write_loop length newlines] in *.
  destruct (Z.eqb_spec c 10) as [->|Hc].
  - cbn [Z.eqb Pos.eqb] in *. rewrite Nat2Z.inj_succ in Hw, Hh, HA. rewrite Nat2Z.inj_succ in HA.
    set (n := Z.of_nat (length text)) in *. set (m := Z.of_nat (S (newlines text))) in *. assert (1 <= m) by lia. assert (0 <= n) by lia.
    assert (0 <= scale * n) by nia. assert (scale <= scale * m) by nia. rewrite (u32_small (8 * scale)), u32_small by lia.
    apply IH; [lia|lia|lia|lia|lia|]. intros a b Ha Hb. apply HA; lia.
  - rewrite Nat2Z.inj_succ in Hw, HA. set (n := Z.of_nat (length text)) in *. assert (0 <= n) by lia. set (m := Z.of_nat (S (newlines text))) in *. assert (1 <= m) by lia.
    assert (0 <= scale * n) by nia. assert (scale <= scale * m) by nia. rewrite (u32_small (6 * scale)), u32_small by lia.
    apply (within_trans A s (framebuffer_draw_char cx cy c fg bg scale s)); [apply draw_char_within; [lia..|intros a b Ha Hb; apply HA; lia]|].
    apply IH; [lia..|]. intros a b Ha Hb. apply HA; lia.
Qed.

Lemma write_at_within (A : Z -> Z -> Prop) x y text foreground background scale s : 0 <= x -> 0 <= y -> 0 < scale ->
  x + 6 * scale * Z.of_nat (length text) < 2 ^ 32 -> y + 8 * scale * Z.of_nat (S (newlines text)) < 2 ^ 32 ->
  (forall a b, x <= a < x + 6 * scale * Z.of_nat (length text) -> y <= b < y + 8 * scale * Z.of_nat (S (newlines text)) -> A a b) ->
  within A s (framebuffer_write_at x y text foreground background scale s).
Proof.
  intros Hx Hy Hs Hw Hh HA. unfold framebuffer_write_at. cbv zeta. destruct (Z.eqb_spec scale 0); [lia|]. by apply write_loop_within.
Qed.

(** The operations of the console stay inside the text. *)
Lemma draw_cursor_within color s : within in_text s (framebuffer_console_draw_cursor color s).
Proof.
  intros [Hc Hr]. eapply paints_within; [by apply draw_cursor_paints| |done]. intros a b _ E. unfold cursor_strips in E. rewrite orb_true_iff, !rect_true in E.
  unfold in_text. lia.
Qed.
Lemma clamp_within A s : within A s (framebuffer_console_clamp_cursor s).
Proof.
  intros [Hc Hr]. split; [|done]. unfold framebuffer_console_clamp_cursor, cursor_inside. change framebuffer_console_columns with 50.
  change framebuffer_console_rows with 25. cbn. rewrite !Z.geb_leb. destruct (Z.leb_spec 50 (console_column s)), (Z.leb_spec 25 (console_row s)); lia.
Qed.
Lemma hide_within s : within in_text s (framebuffer_console_hide_cursor s).
Proof. unfold framebuffer_console_hide_cursor. destruct (_ || _); [done|]. eapply within_trans; [|apply visible_within]. eapply within_trans; [apply clamp_within|apply draw_cursor_within]. Qed.
Lemma show_within s : within in_text s (framebuffer_console_show_cursor s).
Proof. unfold framebuffer_console_show_cursor. destruct (negb _); [done|]. eapply within_trans; [|apply visible_within]. eapply within_trans; [apply clamp_within|apply draw_cursor_within]. Qed.
Lemma scroll_outside s a b : on_screen a b -> ~ in_text a b -> px (framebuffer_console_scroll s) a b = px s a b.
Proof.
  intros Hab Ht. destruct (scroll_spec s) as [_ Hp]. rewrite Hp by done. unfold in_text in Ht.
  destruct (rect 16 616 422 438 a b) eqn:E; [apply rect_true in E; lia|]. destruct (Z.leb_spec 38 b), (Z.ltb_spec b 422), (Z.leb_spec 16 a), (Z.ltb_spec a 616); try done; lia.
Qed.
Lemma newline_within s : within in_text s (framebuffer_console_newline s).
Proof.
  intros [Hc Hr]. rewrite newline_eq. cbv zeta. rewrite u32_small, Z.geb_leb by lia. destruct (Z.leb_spec 25 (console_row s + 1)).
  - set (t := set_cursor 0 (console_row s + 1) s). destruct (scroll_spec t) as [(_ & _ & _ & Ec & _) _]. assert (console_column (framebuffer_console_scroll t) = 0) as E0 by exact Ec. rewrite E0. split; [by apply cursor_set; lia|].
    intros a b Hab Ht. rewrite px_cursor, scroll_outside by done. apply px_cursor.
  - split; [apply cursor_set; lia|done].
Qed.
Lemma advance_within s : within in_text s (framebuffer_console_advance s).
Proof.
  intros Hin. pose proof Hin as [Hc Hr]. unfold framebuffer_console_advance. cbn [console_column set_cursor]. change framebuffer_console_columns with 50.
  rewrite u32_small, Z.geb_leb by lia. destruct (Z.leb_spec 50 (console_column s + 1)).
  - rewrite newline_cursor. by apply newline_within.
  - split; [apply cursor_set; lia|done].
Qed.
Lemma put_within c fg bg s : within in_text s (framebuffer_draw_char (framebuffer_console_x s) (framebuffer_console_y s) c fg bg 2 s).
Proof.
  intros Hin. pose proof Hin as [Hc Hr]. unfold framebuffer_console_x, framebuffer_console_y. change framebuffer_console_cell_width with 12.
  change framebuffer_console_cell_height with 16. change FRAMEBUFFER_CONSOLE_MARGIN_X with 16. change FRAMEBUFFER_CONSOLE_MARGIN_Y with 38.
  rewrite (u32_small (_ * 12)), (u32_small (_ * 16)) by lia. rewrite (u32_small (16 + _)), (u32_small (38 + _)) by lia.
  apply draw_char_within; [lia..| |done]. intros a b Ha Hb. unfold in_text. lia.
Qed.
Lemma putc_body_within space c s : (forall s, within in_text s (space s)) -> within in_text s (putc_body space c s).
Proof.
  intros Hsp. unfold putc_body. destruct (negb _); [done|]. cbv zeta. eapply within_trans; [apply hide_within|].
  generalize (framebuffer_console_hide_cursor s). clear s. intros s.
  destruct (c =? 13). { eapply within_trans; [|apply show_within]. intros [Hc Hr]. by apply cursor_within. }
  destruct (c =? 10); [eapply within_trans; [apply newline_within|apply show_within]|].
  destruct (_ || _).
  { eapply (within_trans _ _ (framebuffer_console_backspace s)); [|apply show_within]. unfold framebuffer_console_backspace. destruct (Z.eqb_spec (console_column s) 0); [done|].
    intros [Hc Hr]. apply cursor_within; [lia|done|done]. }
  destruct (c =? 9). { eapply within_trans; [|apply show_within]. unfold for_range. change (seqZ 0 (4 - 0)) with [0; 1; 2; 3]. cbn [foldl]. do 3 (eapply within_trans; [|apply Hsp]). apply Hsp. }
  eapply within_trans; [|apply show_within]. eapply within_trans; [|apply advance_within]. change FRAMEBUFFER_CONSOLE_SCALE with 2.
  eapply within_trans; [|apply put_within]. destruct (_ >=? _); [apply newline_within|done].
Qed.
Lemma putc_within c s : within in_text s (framebuffer_console_putc c s).
Proof. apply putc_body_within. intros s'. by apply putc_body_within. Qed.
Lemma console_write_within text : forall s, within in_text s (framebuffer_console_write text s).
Proof. induction text as [|c text IH]; intros s; [done|]. cbn [framebuffer_console_write]. eapply within_trans; [apply putc_within|apply IH]. Qed.

(** The status line and the whole screen. *)
Definition in_status (a b : Z) : Prop := 450 <= b.
Definition anywhere (a b : Z) : Prop := True.

Lemma same_console_anywhere s s' : same_console s s' -> within anywhere s s'.
Proof. intros Hs Hc. split; [by eapply same_console_cursor|]. intros a b _ []. done. Qed.
Lemma set_status_within text s : Z.of_nat (length (default [] text)) < 2 ^ 16 -> within in_status s (framebuffer_console_set_status text s).
Proof.
  intros Hlen. unfold framebuffer_console_set_status. destruct text as [text|]; [|done]. destruct (negb _); [done|]. cbv zeta. cbn [default] in Hlen.
  assert ((newlines text <= length text)%nat) as Hn by (clear; induction text as [|c text IH]; cbn [newlines length]; [lia|destruct (c =? 10); lia]).
  cbn [id] in Hlen. eapply within_trans; [eapply within_trans; [eapply within_trans|]|]; [apply fill_within..|apply write_at_within]; try solve_frame;
    change FRAMEBUFFER_CONSOLE_STATUS_Y with 452; change FRAMEBUFFER_HEIGHT with 480; change FRAMEBUFFER_CONSOLE_MARGIN_X with 16; unfold in_status, id in *; lia.
Qed.
Lemma layout_console s : same_console s (framebuffer_console_draw_layout s).
Proof. eapply same_console_trans; [apply (clear_paints FRAMEBUFFER_CONSOLE_BG s)|apply layout_frame]. Qed.
Lemma pattern_console s : same_console s (framebuffer_draw_test_pattern s).
Proof.
  unfold framebuffer_draw_test_pattern. cbv zeta. do 5 (eapply same_console_trans; [|by apply write_at_console]).
  do 5 (eapply same_console_trans; [|by apply fill_rect_console]). by apply fill_rect_console.
Qed.
Lemma init_within s : within anywhere s (framebuffer_console_init s).
Proof.
  unfold framebuffer_console_init. destruct (negb _); [done|]. eapply within_trans; [apply same_console_anywhere, layout_console|].
  intros Hc. split; [|by intros a b _ []]. apply (show_within (set_visible 0 (set_cursor 0 0 (framebuffer_console_draw_layout s)))). by split.
Qed.
Lemma put_pixel_within x y color s : 0 <= x -> 0 <= y -> within (fun a b => a = x /\ b = y) s (framebuffer_put_pixel x y color s).
Proof.
  intros Hx Hy. unfold framebuffer_put_pixel. change FRAMEBUFFER_WIDTH with 640 at 1. change FRAMEBUFFER_HEIGHT with 480. rewrite !Z.geb_leb.
  destruct (Z.leb_spec 640 x), (Z.leb_spec 480 y); try done. cbn [orb]. eapply paints_within; [apply (store_paints x y color s); split; lia|].
  intros a b _ [?%Z.eqb_eq ?%Z.eqb_eq]%andb_true_iff. done.
Qed.

(** The area an operation is asked to draw in, and when its sums do not wrap. *)
Definition op_area (o : fb_op) (a b : Z) : Prop :=
  match o with
  | PutPixel x y _ => a = x /\ b = y
  | FillRect x y width height _ => x <= a < x + width /\ y <= b < y + height
  | DrawChar x y _ _ _ scale => let k := if scale =? 0 then 1 else scale in x <= a < x + 6 * k /\ y <= b < y + 8 * k
  | WriteAt x y text _ _ scale => let k := if scale =? 0 then 1 else scale in
      x <= a < x + 6 * k * Z.of_nat (length text) /\ y <= b < y + 8 * k * Z.of_nat (S (newlines text))
  | SetStatus text => text <> None /\ in_status a b
  | Putc _ | ConsoleWrite _ => in_text a b
  | Clear _ | TestPattern | ConsoleInit => True
  end.
Definition op_fits (o : fb_op) : Prop :=
  match o with
  | PutPixel x y _ => 0 <= x /\ 0 <= y
  | FillRect x y width height _ => 0 <= x /\ 0 <= y /\ 0 <= width /\ 0 <= height
  | DrawChar x y _ _ _ scale => 0 <= x /\ 0 <= y /\ 0 <= scale /\ x + 6 * Z.max 1 scale < 2 ^ 32 /\ y + 8 * Z.max 1 scale < 2 ^ 32
  | WriteAt x y text _ _ scale => 0 <= x /\ 0 <= y /\ 0 <= scale /\
      x + 6 * Z.max 1 scale * Z.of_nat (length text) < 2 ^ 32 /\ y + 8 * Z.max 1 scale * Z.of_nat (S (newlines text)) < 2 ^ 32
  | SetStatus text => Z.of_nat (length (default [] text)) < 2 ^ 16
  | _ => True
  end.

Lemma exec_within o s : op_fits o -> within (op_area o) s (fb_exec o s).
Proof.
  destruct o as [x y color|x y w h color|color|x y c fg bg sc|x y text fg bg sc| | |text|c|text]; cbn [fb_exec op_fits]; intros Hf.
  - destruct Hf as [Hx Hy]. by apply put_pixel_within.
  - destruct Hf as (? & ? & ? & ?). apply fill_within; [done..|]. by intros a b _ Ha Hb.
  - apply same_console_anywhere, clear_paints.
  - destruct Hf as (? & ? & ? & ? & ?). assert (0 < (if sc =? 0 then 1 else sc) /\ Z.max 1 sc = if sc =? 0 then 1 else sc) as [Hk Em] by (destruct (Z.eqb_spec sc 0); lia).
    rewrite Em in *. unfold op_area. set (k := if sc =? 0 then 1 else sc) in *.
    assert (framebuffer_draw_char x y c fg bg sc s = framebuffer_draw_char x y c fg bg k s) as ->.
    { unfold framebuffer_draw_char. fold k. by destruct (Z.eqb_spec k 0); [lia|]. }
    apply draw_char_within; [done..|]. by intros a b Ha Hb.
  - destruct Hf as (? & ? & ? & ? & ?). assert (0 < (if sc =? 0 then 1 else sc) /\ Z.max 1 sc = if sc =? 0 then 1 else sc) as [Hk Em] by (destruct (Z.eqb_spec sc 0); lia).
    rewrite Em in *. unfold op_area, framebuffer_write_at. cbv zeta. apply write_loop_within; [lia|done..|]. by intros a b Ha Hb.
  - apply same_console_anywhere, pattern_console.
  - apply init_within.
  - intros Hc. destruct text as [text|]; [|done]. destruct (set_status_within (Some text) s Hf Hc) as [Hc' Hp]. split; [done|].
    intros a b Hab Hn. apply Hp; [done|]. intros Hs. by apply Hn.
  - apply putc_within.
  - apply console_write_within.
Qed.

(** (C29) No drawing leaves the frame buffer: whatever sequence of drawing and console
    operations runs, with any unsigned positions, sizes and text (sums of positions and
    sizes wrap, and coordinates may lie far off the screen), on any state of the console,
    every pixel is stored at an index of the 640 x 480 buffer. And no operation of the
    sequence draws outside its own area, when the area's sums do not wrap and the cursor
    started on the grid: a pixel, a rectangle, a character or a text changes nothing outside
    the pixel, the rectangle, the cell or the rows and columns of the lines it was given, a
    status text nothing above the status line, and what is written to the console nothing
    outside the text area. *)
Theorem drawing_stays_inside ops s : Forall (fun o => is_u32 (op_position o).1 /\ is_u32 (op_position o).2) ops ->
  stray (foldl (fun s o => fb_exec o s) s ops) = stray s /\
  (cursor_inside s -> Forall op_fits ops -> forall before o after, ops = before ++ o :: after ->
     let s1 := foldl (fun s o => fb_exec o s) s before in
     forall a b, on_screen a b -> ~ op_area o a b -> px (fb_exec o s1) a b = px s1 a b).
Proof.
  intros Hpos. split.
  - revert s. induction ops as [|o ops IH]; intros s; [done|]. apply Forall_cons in Hpos as [[[Hx _] [Hy _]] Hf]. cbn [foldl]. rewrite IH by done.
    by apply fb_exec_kept.
  - intros Hc Hfits before o after ->. cbv zeta. apply Forall_app in Hfits as [Hb [Ho _]%Forall_cons]. apply exec_within; [done|].
    clear Hpos. revert s Hc. induction Hb as [|o' before Ho' _ IH]; intros s Hc; [done|]. cbn [foldl]. apply IH. by apply exec_within.
Qed.
