(* ===== verification/FramebufferSetup.v ===== *)
(** * Setting the frame buffer up

    The configuration device's files, its big-endian fields, and the outcome of
    [framebuffer_init]: with an [etc/ramfb] file the device is told of the buffer. *)

From S2P Require Import Prelude Framebuffer.

(** ** Big-endian fields *)

(** The bytes of a number, most significant first, and the number whose bytes in memory
    these are. *)
Definition be16 (v : Z) : list Z := rev (bytes16 v).
Definition be32 (v : Z) : list Z := rev (bytes32 v).
Definition be64 (v : Z) : list Z := rev (bytes64 v).
Definition swap32 (v : Z) : Z := little_endian_to_Z 8 (be32 v).
Definition swap64 (v : Z) : Z := little_endian_to_Z 8 (be64 v).

Lemma bit_cases (n : Z) (a b : Z) : (forall i, 0 <= i < n -> Z.testbit a i = Z.testbit b i) -> 0 <= a < 2 ^ n -> 0 <= b < 2 ^ n -> a = b.
Proof.
  intros Hb Ha Hb'. destruct (decide (n < 0)); [rewrite (Z.pow_neg_r 2 n) in * by done; lia|].
  apply Z.bits_inj'. intros i Hi. destruct (decide (i < n)); [apply Hb; lia|].
  rewrite <- (Z.mod_small a (2 ^ n)), <- (Z.mod_small b (2 ^ n)) by done. by rewrite !Z.mod_pow2_bits_high by lia.
Qed.

Lemma mask_clear b c i : Z.testbit c i = false -> Z.testbit (Z.land b c) i = false.
Proof. intros Hc. by rewrite Z.land_spec, Hc, andb_false_r. Qed.
Lemma mask_set b c i : Z.testbit c i = true -> Z.testbit (Z.land b c) i = Z.testbit b i.
Proof. intros Hc. by rewrite Z.land_spec, Hc, andb_true_r. Qed.
Lemma low_clear b k i : i - k < 0 -> 0 <= i -> Z.testbit (Z.shiftl b k) i = false.
Proof. intros Hk Hi. rewrite Z.shiftl_spec by done. by rewrite Z.testbit_neg_r by done. Qed.

(** A bit, at a known position, of masks and shifts. *)
Ltac solve_bits := repeat match goal with
  | |- context [Z.testbit 0 ?i] => rewrite (Z.bits_0 i)
  | |- context [false || ?b] => change (false || b) with b
  | |- context [?b || false] => rewrite (orb_false_r b)
  | |- context [Z.testbit ?a (?x + ?y)] => let i := eval vm_compute in (x + y) in change (Z.testbit a (x + y)) with (Z.testbit a i)
  | |- context [Z.testbit ?a (?x - ?y)] => let i := eval vm_compute in (x - y) in change (Z.testbit a (x - y)) with (Z.testbit a i)
  | |- context [Z.testbit (Z.land ?b ?c) ?i] => first [rewrite (mask_clear b c i eq_refl) | rewrite (mask_set b c i eq_refl)]
  | |- context [Z.testbit (Z.shiftl ?b ?k) ?i] => first [rewrite (low_clear b k i eq_refl) by lia | rewrite (Z.shiftl_spec b k i) by lia]
  | |- context [Z.testbit (Z.shiftr ?b ?k) ?i] => rewrite (Z.shiftr_spec b k i) by lia
  | |- context [Z.testbit (Z.lor ?b ?c) ?i] => rewrite (Z.lor_spec b c i)
  end; try reflexivity.

Lemma below_cases (P : Z -> Prop) n : Forall P (seqZ 0 n) -> forall i, 0 <= i < n -> P i.
Proof. intros Hf i Hi. rewrite Forall_forall in Hf. apply Hf, elem_of_seqZ. lia. Qed.

Lemma le_range (bs : list Z) n : length bs = n -> Forall is_byte bs -> 0 <= little_endian_to_Z 8 bs < 2 ^ (8 * Z.of_nat n).
Proof. intros <- Hb. rewrite Z.mul_comm. by apply little_endian_to_Z_bound. Qed.

Lemma be_bytes k v : 0 <= k -> Forall is_byte (rev (Z_to_little_endian k 8 v)).
Proof. intros Hk. apply Forall_rev. apply (Z_to_little_endian_bound k 8); lia. Qed.

Lemma lor_range a b n : 0 <= n -> 0 <= a < 2 ^ n -> 0 <= b < 2 ^ n -> 0 <= Z.lor a b < 2 ^ n.
Proof.
  intros Hn Ha Hb. assert (0 <= Z.lor a b) by (apply Z.lor_nonneg; lia). split; [done|].
  apply Z.bounded_iff_bits_nonneg; [lia..|]. intros l Hl. rewrite Z.lor_spec.
  rewrite (proj1 (Z.bounded_iff_bits_nonneg n a ltac:(lia) ltac:(lia)) ltac:(lia) l Hl).
  by rewrite (proj1 (Z.bounded_iff_bits_nonneg n b ltac:(lia) ltac:(lia)) ltac:(lia) l Hl).
Qed.

Lemma land_range a m n : 0 <= n -> 0 <= m < 2 ^ n -> 0 <= Z.land a m < 2 ^ n.
Proof.
  intros Hn Hm. assert (0 <= Z.land a m) by (apply Z.land_nonneg; lia). split; [done|].
  apply Z.bounded_iff_bits_nonneg; [lia..|]. intros l Hl. rewrite Z.land_spec.
  rewrite (proj1 (Z.bounded_iff_bits_nonneg n m ltac:(lia) ltac:(lia)) ltac:(lia) l Hl). apply andb_false_r.
Qed.

Lemma bswap32_range v : is_u32 (bswap32 v).
Proof.
  unfold bswap32. pose proof (land_range v 0x00ff0000 32 ltac:(lia) ltac:(lia)) as H1. pose proof (land_range v 0xff000000 32 ltac:(lia) ltac:(lia)) as H2.
  repeat apply lor_range; try lia; try apply u32_range; rewrite Z.shiftr_div_pow2 by lia;
    (split; [apply Z.div_pos; lia|apply Z.div_lt_upper_bound; lia]).
Qed.

(** One goal for each bit; [P] stays folded while they are listed. *)
Ltac each_bit := match goal with |- forall i, 0 <= i < ?n -> @?Q i => let P := fresh in pose (P := Q); change (forall i, 0 <= i < n -> P i); apply below_cases;
  (let l := eval vm_compute in (seqZ 0 n) in change (seqZ 0 n) with l); repeat apply Forall_cons_2; [..|apply Forall_nil_2]; unfold P; clear P end.
Lemma u16_mask v : u16 v = Z.land v (Z.ones 16).
Proof. symmetry. by apply Z.land_ones. Qed.
Lemma u32_mask v : u32 v = Z.land v (Z.ones 32).
Proof. symmetry. by apply Z.land_ones. Qed.
Lemma u64_mask v : u64 v = Z.land v (Z.ones 64).
Proof. symmetry. by apply Z.land_ones. Qed.

Ltac bitwise n := apply (bit_cases n); [each_bit; unfold bswap64, bswap32, bswap16, swap32, swap64, be16, be32, be64; rewrite ?u16_mask, ?u32_mask, ?u64_mask;
  cbv -[Z.land Z.lor Z.shiftl Z.shiftr Z.testbit Z.ones]; solve_bits|..].

Lemma bswap32_swaps v : bswap32 v = swap32 v.
Proof. bitwise 32; [apply bswap32_range|apply (le_range (be32 v) 4); [done|by apply be_bytes]]. Qed.

Lemma bswap64_range v : 0 <= bswap64 v < 2 ^ 64.
Proof.
  unfold bswap64. apply lor_range; [done|exact (Z.mod_pos_bound _ (2 ^ 64) eq_refl)|].
  destruct (bswap32_range (u32 (Z.shiftr v 32))) as [H1 H2]. split; [exact H1|]. by eapply Z.lt_trans; [exact H2|].
Qed.

Lemma bswap64_swaps v : bswap64 v = swap64 v.
Proof. bitwise 64; [apply bswap64_range|apply (le_range (be64 v) 8); [done|by apply be_bytes]]. Qed.

Lemma bswap32_back v : is_u32 v -> bswap32 (swap32 v) = v.
Proof. intros Hv. bitwise 32; [apply bswap32_range|done]. Qed.

Lemma bswap16_back v : 0 <= v < 2 ^ 16 -> bswap16 (little_endian_to_Z 8 (be16 v)) = v.
Proof. intros Hv. bitwise 16; [apply Z.mod_pos_bound; lia|done]. Qed.

Lemma read32_be32 v rest : is_u32 v -> bswap32 (read32 (be32 v ++ rest)) = v.
Proof. intros Hv. unfold read32. rewrite take_app_le, take_ge by done. by apply bswap32_back. Qed.

Lemma read16_be16 v rest : 0 <= v < 2 ^ 16 -> bswap16 (read16 (be16 v ++ rest)) = v.
Proof. intros Hv. unfold read16. rewrite take_app_le, take_ge by done. by apply bswap16_back. Qed.

(** ** The configuration device *)

(** The device keeps at a transfer for [n] looks, then is done with it. *)
Fixpoint busy_for {F} `{FwCfg F} (n : nat) (m : fw_cfg_dma_access * list Z) (f : F) (m' : fw_cfg_dma_access * list Z) (f' : F) : Prop :=
  let r := fw_run m f in
  match n with
  | O => truth (Z.land (bswap32 (dma_control (fst (fst r)))) 0xfffffffe) = false /\ r = (m', f')
  | S n => truth (Z.land (bswap32 (dma_control (fst (fst r)))) 0xfffffffe) = true /\ busy_for n (fst r) (snd r) m' f'
  end.

(** What is read of an item, zeros past its end, and what is left of one written to. *)
Definition item_read (n : Z) (item : list Z) : list Z := take (Z.to_nat n) (item ++ replicate (Z.to_nat n) 0).
Definition overlay (new old : list Z) : list Z := new ++ drop (length new) old.

(** A configuration device serves the transfers of whole items, each within the driver's
    patience: the fields of the access structure are big endian, its address is given in
    the two registers, most significant half first. *)
Class FwCfgDevice (F : Type) `{FwCfg F} := {
  item : F -> Z -> list Z;
  fw_serves : forall selector operation n address buffer f,
    0 <= selector < 2 ^ 16 -> is_u32 n -> (Z.to_nat n <= length buffer)%nat -> operation = FW_CFG_DMA_CTL_READ \/ operation = FW_CFG_DMA_CTL_WRITE ->
    let access := FwCfgDmaAccess (swap32 (Z.lor (Z.lor (Z.shiftl selector 16) FW_CFG_DMA_CTL_SELECT) operation)) (swap32 n) (swap64 address) in
    let rung := fw_write (FW_CFG_BASE + 0x14) (swap32 FW_CFG_DMA_ACCESS_BASE) (fw_write (FW_CFG_BASE + 0x10) 0 f) in
    exists k access' buffer' f' f'',
      (k < Z.to_nat FW_CFG_DMA_POLL_LIMIT - 1)%nat /\ busy_for k (access, buffer) rung (access', buffer') f' /\
      dma_control access' = 0 /\ fw_run (access', buffer') f' = ((access', buffer'), f'') /\
      buffer' = (if operation =? FW_CFG_DMA_CTL_READ then overlay (item_read n (item f selector)) buffer else buffer) /\
      forall key, item f'' key = if (operation =? FW_CFG_DMA_CTL_WRITE) && (key =? selector) then overlay (take (Z.to_nat n) buffer) (item f key) else item f key;
}.

Section device.
Context {F : Type} `{FwCfgDevice F}.
Implicit Types (f : F) (s : fb).

Lemma poll_loop_done k : forall n m f m' f', busy_for k m f m' f' -> (S k < n)%nat -> poll_loop n m f = (Some (m', f'), (m', f')).
Proof.
  induction k as [|k IH]; intros n m f m' f' Hb Hk; (destruct n as [|n]; [lia|]); cbn [poll_loop]; cbn [busy_for] in Hb;
    destruct (fw_run m f) as [m1 f1]; destruct Hb as [Hc Hb]; cbn [fst snd] in *; rewrite Hc.
  - by injection Hb as -> ->.
  - apply IH; [done|lia].
Qed.

(** A transfer of an item. *)
Lemma transfer_serves selector operation n address buffer f s :
  0 <= selector < 2 ^ 16 -> is_u32 n -> (Z.to_nat n <= length buffer)%nat -> operation = FW_CFG_DMA_CTL_READ \/ operation = FW_CFG_DMA_CTL_WRITE ->
  exists f', fw_cfg_dma_transfer selector address buffer n operation f s =
      (1, if operation =? FW_CFG_DMA_CTL_READ then overlay (item_read n (item f selector)) buffer else buffer, f', s) /\
    forall key, item f' key = if (operation =? FW_CFG_DMA_CTL_WRITE) && (key =? selector) then overlay (take (Z.to_nat n) buffer) (item f key) else item f key.
Proof.
  intros Hsel Hn Hlen Hop. destruct (fw_serves selector operation n address buffer f Hsel Hn Hlen Hop) as (k & a' & b' & f' & f'' & Hk & Hb & Hc & Hr & Hbuf & Hit).
  exists f''. split; [|done]. unfold fw_cfg_dma_transfer. rewrite !bswap32_swaps, bswap64_swaps. cbv zeta.
  change (Z.shiftr FW_CFG_DMA_ACCESS_BASE 32) with 0. change (swap32 0) with 0. change (u32 FW_CFG_DMA_ACCESS_BASE) with FW_CFG_DMA_ACCESS_BASE.
  change (FW_CFG_BASE + FW_CFG_DMA + 4) with (FW_CFG_BASE + 0x14). change FW_CFG_DMA with 0x10.
  rewrite (poll_loop_done k _ _ _ _ _ Hb) by lia. rewrite Hr. cbn [fst snd]. rewrite Hc, <- Hbuf. done.
Qed.

(** *** The directory *)

Record cfg_file := CfgFile { cf_size : Z; cf_select : Z; cf_name : list Z }.

(** An entry: size, selector, two reserved bytes, and the name in 56 bytes. *)
Definition dir_entry (c : cfg_file) : list Z :=
  be32 (cf_size c) ++ be16 (cf_select c) ++ [0; 0] ++ cf_name c ++ replicate (56 - length (cf_name c)) 0.
Definition directory_of (files : list cfg_file) : list Z := be32 (Z.of_nat (length files)) ++ concat (dir_entry <$> files).

(** File selectors start after the fixed ones. *)
Record cfg_wf (c : cfg_file) : Prop := {
  cw_select : 0x20 <= cf_select c < 2 ^ 14;
  cw_name : (length (cf_name c) < 56)%nat /\ 0 ∉ cf_name c;
}.

Definition selector_of (name : list Z) (files : list cfg_file) : Z := default 0 (cf_select <$> find (fun c => bool_decide (cf_name c = name)) files).

Lemma length_be32 v : length (be32 v) = 4%nat.
Proof. done. Qed.
Lemma length_be16 v : length (be16 v) = 2%nat.
Proof. done. Qed.

Lemma length_entry c : cfg_wf c -> length (dir_entry c) = 64%nat.
Proof. intros [_ [Hl _]]. unfold dir_entry. rewrite !length_app, length_replicate. rewrite length_be32, length_be16. cbn [length]. lia. Qed.

Lemma string_equals_padded l k : forall r, 0 ∉ l -> 0 ∉ r -> string_equals (l ++ replicate (S k) 0) r = bool_decide (l = r).
Proof.
  induction l as [|x l IH]; intros [|y r] Hl Hr; cbn [app replicate string_equals].
  - done.
  - apply not_elem_of_cons in Hr as [Hy _]. rewrite bool_decide_eq_false_2 by done. rewrite Z.eqb_refl. cbn [orb]. by apply Z.eqb_neq.
  - apply not_elem_of_cons in Hl as [Hx _]. rewrite bool_decide_eq_false_2 by done. apply Z.eqb_neq. congruence.
  - apply not_elem_of_cons in Hl as [Hx Hl]. apply not_elem_of_cons in Hr as [Hy Hr].
    destruct (Z.eqb_spec x 0), (Z.eqb_spec y 0), (Z.eqb_spec x y); try congruence; cbn [orb negb].
    + subst. rewrite IH by done. apply bool_decide_ext. naive_solver.
    + symmetry. apply bool_decide_eq_false. naive_solver.
Qed.

Lemma drop_file_entries i files : Forall cfg_wf files -> drop (64 * i) (concat (dir_entry <$> files)) = concat (dir_entry <$> drop i files).
Proof.
  revert files. induction i as [|i IH]; intros files Hf; [done|]. destruct files as [|c files]; [by rewrite drop_nil|].
  apply Forall_cons in Hf as [Hc Hf]. rewrite fmap_cons. cbn [concat drop]. rewrite (drop_app_ge (dir_entry c)) by (rewrite length_entry by done; lia).
  rewrite length_entry by done. replace (64 * S i - 64)%nat with (64 * i)%nat by lia. by apply IH.
Qed.

Lemma drop_directory i files rest : Forall cfg_wf files -> (i < length files)%nat ->
  exists c tail, files !! i = Some c /\ drop (4 + 64 * i) (directory_of files ++ rest) = dir_entry c ++ tail.
Proof.
  intros Hf Hi. destruct (lookup_lt_is_Some_2 files i Hi) as [c Hc]. exists c. unfold directory_of.
  exists (concat (dir_entry <$> drop (S i) files) ++ rest). split; [done|]. rewrite <- app_assoc, (drop_field 4) by (done || lia). replace (4 + 64 * i - 4)%nat with (64 * i)%nat by lia.
  assert (64 * i <= length (concat (dir_entry <$> files)))%nat as Hlen.
  { clear Hc rest. revert i Hi. induction files as [|d files IH]; intros i Hi; [cbn in Hi; lia|]. apply Forall_cons in Hf as [Hd Hf].
    rewrite fmap_cons. cbn [concat]. rewrite length_app, length_entry by done. destruct i as [|i]; [lia|]. specialize (IH Hf i ltac:(cbn in Hi; lia)). lia. }
  rewrite drop_app_le, drop_file_entries by done. by rewrite (drop_S files c i Hc), fmap_cons, app_assoc.
Qed.

(** What the driver sees of an entry. *)
Lemma file_at_entry dir i c tail : 0 <= i -> drop (4 + 64 * Z.to_nat i) dir = dir_entry c ++ tail -> cfg_wf c ->
  bswap16 (ff_select (file_at dir i)) = cf_select c /\ ff_name (file_at dir i) = cf_name c ++ replicate (56 - length (cf_name c)) 0.
Proof.
  intros Hi Hd [Hsel [Hl _]]. unfold file_at. change sizeof_fw_cfg_file with 64. replace (Z.to_nat (4 + i * 64)) with (4 + 64 * Z.to_nat i)%nat by lia.
  rewrite Hd. unfold dir_entry. cbn [ff_select ff_name]. rewrite <- !app_assoc. split.
  - rewrite (drop_field 4) by done. rewrite drop_0. apply read16_be16. lia.
  - rewrite (drop_field 4), (drop_field 2) by (done || lia).
    change (drop (8 - 4 - 2) ([0; 0] ++ ?l)) with l. change (Z.to_nat FW_CFG_MAX_FILE_PATH) with 56%nat.
    set (z := replicate _ 0). assert (length (cf_name c ++ z) = 56%nat) as Hz by (unfold z; rewrite length_app, length_replicate; lia).
    rewrite app_assoc, take_app_le by lia. by rewrite take_ge by lia.
Qed.

Lemma find_loop_finds dir name files rest n : forall i, Forall cfg_wf files -> 0 ∉ name -> dir = directory_of files ++ rest -> (Z.to_nat i + n = length files)%nat -> 0 <= i ->
  find_loop n i dir name = selector_of name (drop (Z.to_nat i) files).
Proof.
  induction n as [|n IH]; intros i Hf Hname Hdir Hn Hi.
  { rewrite drop_ge by lia. done. }
  destruct (drop_directory (Z.to_nat i) files rest Hf ltac:(lia)) as (c & tail & Hc & Hd). rewrite <- Hdir in Hd.
  assert (cfg_wf c) as Hwc by (by eapply Forall_lookup_1). destruct (file_at_entry dir i c tail Hi Hd Hwc) as [Hs Hnm].
  cbn [find_loop]. rewrite Hs, Hnm. destruct (cw_name _ Hwc) as [Hl Hz].
  replace (56 - length (cf_name c))%nat with (S (55 - length (cf_name c))) by lia. rewrite string_equals_padded by done.
  rewrite (drop_S files c _ Hc). unfold selector_of. cbn [find]. destruct (bool_decide (cf_name c = name)); [done|].
  rewrite (IH (i + 1)) by (done || lia). unfold selector_of. by replace (Z.to_nat (i + 1)) with (S (Z.to_nat i)) by lia.
Qed.

(** *** Finding the file *)

Lemma overlay_read n (it : list Z) buffer : is_u32 n -> overlay (item_read n it) buffer = item_read n it ++ drop (Z.to_nat n) buffer.
Proof. intros _. unfold overlay, item_read. rewrite length_take, length_app, length_replicate. do 2 f_equal. lia. Qed.

Lemma item_read_prefix (n : Z) (l rest : list Z) : Z.to_nat n = length l -> item_read n (l ++ rest) = l.
Proof. intros Hn. unfold item_read. rewrite take_app_le by (rewrite length_app; lia). by rewrite Hn, take_app_length. Qed.

Lemma item_read_whole (n : Z) (l : list Z) : Z.to_nat n = length l -> item_read n l = l.
Proof. intros Hn. rewrite <- (app_nil_r l) at 1. by apply item_read_prefix. Qed.

Lemma length_directory files : Forall cfg_wf files -> length (directory_of files) = (4 + 64 * length files)%nat.
Proof.
  intros Hf. unfold directory_of. rewrite length_app, length_be32. f_equal. induction Hf as [|c files Hc Hf IH]; [done|].
  rewrite fmap_cons. cbn [concat length]. rewrite length_app, length_entry, IH by done. lia.
Qed.

Lemma small_u32 n : 0 <= n <= 5000 -> is_u32 n.
Proof. intros Hn. split; [lia|]. apply (Z.le_lt_trans _ 5000); [lia|done]. Qed.

Lemma find_file_selects name address directory files f s :
  item f FW_CFG_FILE_DIR = directory_of files -> Forall cfg_wf files -> Z.of_nat (length files) <= FW_CFG_MAX_FILES -> length directory = 4100%nat -> 0 ∉ name ->
  exists directory' f', fw_cfg_find_file name address directory f s = (selector_of name files, directory', f', s) /\ forall key, item f' key = item f key.
Proof.
  intros Hdir Hf Hn Hl Hname. change FW_CFG_MAX_FILES with 64 in *. set (n := Z.of_nat (length files)) in *.
  unfold fw_cfg_find_file, fw_cfg_dma_read.
  destruct (transfer_serves FW_CFG_FILE_DIR FW_CFG_DMA_CTL_READ 4 address directory f s) as (f1 & -> & Hf1); [done|done|change (Z.to_nat 4) with 4%nat; lia|by left|].
  cbn [negb truth Z.eqb]. change (FW_CFG_DMA_CTL_READ =? FW_CFG_DMA_CTL_READ) with true. cbv iota.
  rewrite overlay_read, Hdir by done. assert (item_read 4 (directory_of files) = be32 n) as -> by (unfold directory_of; by apply item_read_prefix).
  assert (forall l, bswap32 (read32 (be32 n ++ l)) = n) as Hc by (intros l; apply read32_be32, small_u32; lia). cbv zeta. rewrite Hc, Z.gtb_ltb.
  change FW_CFG_MAX_FILES with 64. destruct (Z.ltb_spec 64 n); [lia|]. change sizeof_fw_cfg_file with 64.
  set (d1 := be32 n ++ _). assert (length d1 = 4100%nat) as Hd1 by (unfold d1; rewrite length_app, length_drop, length_be32, Hl; done).
  destruct (transfer_serves FW_CFG_FILE_DIR FW_CFG_DMA_CTL_READ (4 + n * 64) address d1 f1 s) as (f2 & -> & Hf2);
    [done|apply small_u32; lia|lia|by left|].
  change (FW_CFG_DMA_CTL_READ =? FW_CFG_DMA_CTL_READ) with true. cbv iota. cbn [negb truth Z.eqb].
  assert (item f1 FW_CFG_FILE_DIR = directory_of files) as Hi1 by (rewrite Hf1; exact Hdir). rewrite Hi1.
  assert (Z.to_nat (4 + n * 64) = length (directory_of files)) as Hlen by (rewrite length_directory by done; lia).
  rewrite overlay_read by (apply small_u32; lia).
  rewrite (item_read_whole _ (directory_of files)) by done.
  eexists _, f2. split.
  - rewrite (find_loop_finds _ name files (drop (Z.to_nat (4 + n * 64)) d1)) by (done || lia). done.
  - intros key. rewrite Hf2. change (FW_CFG_DMA_CTL_READ =? FW_CFG_DMA_CTL_WRITE) with false. cbn [andb]. by rewrite Hf1.
Qed.

(** ** The outcome *)

(** The configuration: address, pixel format, flags, width, height and bytes per row, all
    big endian. *)
Definition ramfb_file_contents : list Z := be64 0x47000000 ++ be32 0x34325258 ++ be32 0 ++ be32 640 ++ be32 480 ++ be32 2560.

Lemma config_is_contents : config_bytes ramfb_setup = ramfb_file_contents.
Proof. by vm_compute. Qed.

(** (C30) Setting the frame buffer up: on a configuration device with a directory of at most
    64 files, [framebuffer_init] finds the file [etc/ramfb] among them and writes to it, big
    endian, the description of the 640 x 480 XRGB buffer at its address - nothing else of
    the device changes - and reports success; without such a file it writes nothing,
    reports failure, and says that the file is missing. *)
Theorem framebuffer_init_configures address directory files f s :
  item f FW_CFG_FILE_DIR = directory_of files -> Forall cfg_wf files -> Z.of_nat (length files) <= FW_CFG_MAX_FILES -> length directory = 4100%nat ->
  let '(ready, f', s') := framebuffer_init address directory f s in
  let selector := selector_of (lit "etc/ramfb") files in
  framebuffer_is_ready s' = ready /\ pixels s' = pixels s /\ stray s' = stray s /\
  if selector =? 0 then ready = 0 /\ framebuffer_status_name s' = lit "ramfb file missing" /\ forall key, item f' key = item f key
  else ready = 1 /\ framebuffer_status_name s' = lit "ready" /\
    forall key, item f' key = if key =? selector then overlay ramfb_file_contents (item f key) else item f key.
Proof.
  intros Hdir Hf Hn Hl. unfold framebuffer_init.
  destruct (find_file_selects RAMFB_FILE address directory files f s Hdir Hf Hn Hl) as (d1 & f1 & -> & Hf1); [by apply (bool_decide_unpack _)|].
  change (lit "etc/ramfb") with RAMFB_FILE. destruct (Z.eqb_spec (selector_of RAMFB_FILE files) 0) as [E|E]; [done|].
  assert (0 <= selector_of RAMFB_FILE files < 2 ^ 16) as Hs.
  { unfold selector_of. destruct (find _ files) as [c|] eqn:Ec; [|done]. apply find_some in Ec as [Hin _]. rewrite <- list_elem_of_In in Hin.
    rewrite Forall_forall in Hf. destruct (cw_select _ (Hf c Hin)) as [? Hb]. cbn. change (2 ^ 14) with 16384 in Hb. change (2 ^ 16) with 65536. lia. }
  unfold fw_cfg_dma_write. rewrite config_is_contents.
  destruct (transfer_serves (selector_of RAMFB_FILE files) FW_CFG_DMA_CTL_WRITE sizeof_ramfb_config RAMFB_CONFIG_BASE ramfb_file_contents f1 s Hs)
    as (f2 & -> & Hf2); [done|done|by right|]. change (FW_CFG_DMA_CTL_WRITE =? FW_CFG_DMA_CTL_READ) with false. cbn [truth Z.eqb negb].
  split_and!; [done..|]. intros key. rewrite Hf2. change (FW_CFG_DMA_CTL_WRITE =? FW_CFG_DMA_CTL_WRITE) with true. cbn [andb]. by rewrite !Hf1.
Qed.

End device.

(** A device that never finishes: the driver's own reason, a timeout, is overwritten, and
    what is reported is a missing file. *)
Lemma poll_loop_never {F} `{FwCfg F} n : (forall m (f : F), truth (Z.land (bswap32 (dma_control (fst (fst (fw_run m f))))) 0xfffffffe) = true) ->
  forall m f, fst (poll_loop n m f) = None.
Proof.
  intros Hb. induction n as [|n IH]; intros m f; cbn [poll_loop]; specialize (Hb m f); destruct (fw_run m f) as [m1 f1]; cbn [fst] in Hb; rewrite Hb; [done|apply IH].
Qed.

Lemma timeout_reported_as_missing {F} `{FwCfg F} address directory (f : F) s :
  (forall m (f : F), truth (Z.land (bswap32 (dma_control (fst (fst (fw_run m f))))) 0xfffffffe) = true) ->
  framebuffer_status_name (snd (framebuffer_init address directory f s)) = lit "ramfb file missing".
Proof.
  intros Hb. unfold framebuffer_init, fw_cfg_find_file, fw_cfg_dma_read, fw_cfg_dma_transfer. cbv zeta.
  match goal with |- context [poll_loop ?n ?m ?g] => pose proof (poll_loop_never n Hb m g) as Hn; destruct (poll_loop n m g) as [r [m1 f1]] end.
  cbn [fst] in Hn. by rewrite Hn.
Qed.
