(* ===== verification/FramebufferExamples.v ===== *)
(** * A frame buffer at work

    A configuration device that serves each transfer at the first look; the claims about
    the frame buffer applied to it. *)

From S2P Require Import Prelude Framebuffer FramebufferProps FramebufferSetup.

(** The device keeps its items; a transfer whose control word is not clear is served. *)
Definition serve (m : fw_cfg_dma_access * list Z) (items : Z -> list Z) : (fw_cfg_dma_access * list Z) * (Z -> list Z) :=
  let (access, buffer) := m in
  let control := bswap32 (dma_control access) in
  let n := bswap32 (dma_length access) in
  let selector := Z.shiftr control 16 in
  if control =? 0 then (m, items) else
  let done := FwCfgDmaAccess 0 (dma_length access) (dma_address access) in
  if Z.testbit control 1 then ((done, overlay (item_read n (items selector)) buffer), items)
  else ((done, buffer), fun key => if key =? selector then overlay (take (Z.to_nat n) buffer) (items key) else items key).

#[local] Instance served_cfg : FwCfg (Z -> list Z) := {| fw_write _ _ items := items; fw_run := serve |}.

Lemma control_word selector operation : 0 <= selector < 2 ^ 16 -> operation = FW_CFG_DMA_CTL_READ \/ operation = FW_CFG_DMA_CTL_WRITE ->
  let c := Z.lor (Z.lor (Z.shiftl selector 16) FW_CFG_DMA_CTL_SELECT) operation in
  is_u32 c /\ c <> 0 /\ Z.shiftr c 16 = selector /\ Z.testbit c 1 = (operation =? FW_CFG_DMA_CTL_READ).
Proof.
  intros Hs Hop c. assert (0 <= Z.shiftl selector 16 < 2 ^ 32) as Hsh by (rewrite Z.shiftl_mul_pow2 by done; change (2 ^ 32) with (2 ^ 16 * 2 ^ 16); change (2 ^ 16) with 65536 in *; lia).
  split; [|split; [|split]].
  - apply lor_range; [done| |]; [apply lor_range; [done|done|done]|]. by destruct Hop as [->| ->].
  - unfold c. intros Hc. apply Z.lor_eq_0_iff in Hc as [_ Hc]. by destruct Hop as [->| ->].
  - unfold c. rewrite !Z.shiftr_lor, Z.shiftr_shiftl_l by done. rewrite Z.sub_diag, Z.shiftl_0_r. change (Z.shiftr FW_CFG_DMA_CTL_SELECT 16) with 0.
    destruct Hop as [->| ->]; by rewrite !Z.lor_0_r.
  - unfold c. rewrite !Z.lor_spec, Z.shiftl_spec_low by done. by destruct Hop as [->| ->].
Qed.

#[local, program] Instance served_device : FwCfgDevice (Z -> list Z) := {| item items key := items key |}.
Next Obligation.
  intros selector operation n address buffer f Hs Hn Hl Hop. destruct (control_word selector operation Hs Hop) as (Hc & Hc0 & Hsh & Hb).
  set (c := Z.lor _ _) in *. cbn [fw_write served_cfg].
  exists 0%nat, (FwCfgDmaAccess 0 (swap32 n) (swap64 address)), (if operation =? FW_CFG_DMA_CTL_READ then overlay (item_read n (f selector)) buffer else buffer),
    (fun key => if (operation =? FW_CFG_DMA_CTL_WRITE) && (key =? selector) then overlay (take (Z.to_nat n) buffer) (f key) else f key),
    (fun key => if (operation =? FW_CFG_DMA_CTL_WRITE) && (key =? selector) then overlay (take (Z.to_nat n) buffer) (f key) else f key).
  split; [by apply (bool_decide_unpack _)|]. split; [|done].
  cbn [busy_for fw_run served_cfg]. unfold serve. cbn [dma_control dma_length dma_address fst snd]. rewrite !bswap32_back by done.
  destruct (Z.eqb_spec c 0); [done|]. rewrite Hb, Hsh. destruct Hop as [->| ->]; [change (FW_CFG_DMA_CTL_READ =? FW_CFG_DMA_CTL_READ) with true|change (FW_CFG_DMA_CTL_WRITE =? FW_CFG_DMA_CTL_READ) with false]; done.
Qed.

(** A directory of three files, and an empty [etc/ramfb]. *)
Definition three_files : list cfg_file :=
  [CfgFile 4096 0x20 (lit "etc/acpi/tables"); CfgFile 28 0x21 (lit "etc/ramfb"); CfgFile 36 0x22 (lit "etc/system-states")].
Definition machine_items (files : list cfg_file) (key : Z) : list Z :=
  if key =? FW_CFG_FILE_DIR then directory_of files else if key =? 0x21 then replicate 28 0 else [].
Definition fb0 : fb := Fb (fun _ => 0) false 0 0 0 0 0.

Lemma framebuffer_init_configures_witness :
  let '(ready, f', s') := framebuffer_init 0x40300000 (replicate 4100 0) (machine_items three_files) fb0 in
  ready = 1 /\ framebuffer_status_name s' = lit "ready" /\ f' 0x21 = ramfb_file_contents.
Proof.
  pose proof (framebuffer_init_configures 0x40300000 (replicate 4100 0) three_files (machine_items three_files) fb0) as Hc.
  destruct (framebuffer_init _ _ _ _) as [[ready f'] s'].
  destruct Hc as (_ & _ & _ & Hr & Hst & Hi); [done| |done|by rewrite length_replicate|].
  { repeat apply Forall_cons_2; [..|apply Forall_nil_2]; (split; [done|split; [cbn; lia|by apply (bool_decide_unpack _)]]). }
  split; [exact Hr|]. split; [exact Hst|]. specialize (Hi 0x21). change (item f' 0x21) with (f' 0x21) in Hi. rewrite Hi. by vm_compute.
Defined.

(** The device is told nothing when there is no such file. *)
Example no_ramfb_file :
  let '(ready, f', s') := framebuffer_init 0x40300000 (replicate 4100 0) (machine_items (take 1 three_files)) fb0 in
  ready = 0 /\ framebuffer_status_name s' = lit "ramfb file missing".
Proof.
  pose proof (find_file_selects RAMFB_FILE 0x40300000 (replicate 4100 0) (take 1 three_files) (machine_items (take 1 three_files)) fb0) as Hc.
  unfold framebuffer_init. destruct Hc as (d & f' & -> & _); [done| |done|by rewrite length_replicate|by apply (bool_decide_unpack _)|done].
  repeat apply Forall_cons_2; [..|apply Forall_nil_2]; (split; [done|split; [cbn; lia|by apply (bool_decide_unpack _)]]).
Qed.

(** A ready frame buffer, and a prompt with a command typed and corrected. *)
Definition fb_on : fb := Fb (fun _ => 0) false 1 0 0 0 0.
Definition typed_text : list Z := lit "saturn> heap" ++ [8] ++ lit "t" ++ [10; 9] ++ lit "ok".

Lemma console_shows_text_witness :
  let s' := framebuffer_console_write typed_text (framebuffer_console_init fb_on) in
  shows true (foldl scr_putc blank typed_text) s' /\ stray s' = false /\ (console_column s', console_row s') = (6, 1) /\
  cells (foldl scr_putc blank typed_text) 0 11 = 116.
Proof.
  destruct (console_shows_text typed_text fb_on ltac:(done)) as (Hs & Hst & _). split; [exact Hs|]. split; [exact Hst|].
  split; [|done]. destruct (sh_column _ _ _ Hs) as [-> _]. by destruct (sh_row _ _ _ Hs) as [-> _].
Defined.

(** Positions far off the screen, and sums that wrap. *)
Definition wild_ops : list fb_op :=
  [FillRect 600 470 0xffffffff 0xffffffff 5; PutPixel 0xffffffff 3 1; DrawChar 0xfffffff0 470 65 1 2 0xffffffff;
   WriteAt 630 0xfffffffa (lit "edge") 1 2 3; ConsoleInit; ConsoleWrite typed_text; TestPattern].

(** Drawings that fit: over the corner of the screen, a character, and a prompt. *)
Definition tame_ops : list fb_op := [FillRect 600 470 100 100 5; DrawChar 100 200 65 1 2 2; ConsoleWrite typed_text].

Lemma drawing_stays_inside_witness : stray (foldl (fun s o => fb_exec o s) fb_on wild_ops) = false /\
  px (fb_exec (DrawChar 100 200 65 1 2 2) (fb_exec (FillRect 600 470 100 100 5) fb_on)) 112 200 = px (fb_exec (FillRect 600 470 100 100 5) fb_on) 112 200.
Proof.
  split.
  - rewrite (proj1 (drawing_stays_inside wild_ops fb_on ltac:(repeat apply Forall_cons_2; [done..|apply Forall_nil_2]))). done.
  - assert (Forall (fun o => is_u32 (op_position o).1 /\ is_u32 (op_position o).2) tame_ops) as Hp by (repeat apply Forall_cons_2; [done..|apply Forall_nil_2]).
    assert (Forall op_fits tame_ops) as Hf by (repeat apply Forall_cons_2; [cbn; lia..|apply Forall_nil_2]).
    assert (cursor_inside fb_on) as Hc by (split; cbn; lia).
    apply (proj2 (drawing_stays_inside tame_ops fb_on Hp) Hc Hf [FillRect 600 470 100 100 5] _ [ConsoleWrite typed_text] eq_refl); [split; lia|].
    cbn. lia.
Defined.
