(* ===== verification/Shell.v ===== *)
(** * The shell's command line ([kernel/shell/shell.c])

    The strings and tables of the shell, the line editor with its history and its
    completion, and the loop of the task that feeds it ([kernel/input/keyboard_input.c]).
    Where the characters go and what a command does is an interface ([ShellHost]); the
    commands are in [Commands]. *)

From S2P Require Import Prelude Keyboard.

(** ** Definitions *)

Definition SHELL_BUFFER_SIZE : Z := 64.
Definition SHELL_HISTORY_SIZE : Z := 8.
Definition SHELL_PROMPT : list Z := lit "saturn> ".
Definition SHELL_MAX_SLEEP_MS : Z := 10000.

Record shell_command := ShellCommand {
  c_name : list Z;
  c_usage : list Z;
  c_description : list Z;
  c_example : option (list Z);
}.

Record shell_alias := ShellAlias {
  a_name : list Z;
  a_target : list Z;
  a_description : list Z;
}.

Definition shell_commands : list shell_command :=
  [ShellCommand (lit "help") (lit "help [command]") (lit "show commands or detailed command help") (Some (lit "help vmwalk"));
   ShellCommand (lit "version") (lit "version") (lit "show kernel version") None;
   ShellCommand (lit "task") (lit "task [pid]") (lit "show scheduler task summary or task details") (Some (lit "task 2"));
   ShellCommand (lit "tasks") (lit "tasks") (lit "show scheduler tasks") None;
   ShellCommand (lit "mem") (lit "mem") (lit "show physical memory stats") None;
   ShellCommand (lit "heap") (lit "heap") (lit "show kernel heap stats") None;
   ShellCommand (lit "heaptest") (lit "heaptest") (lit "run heap allocation test") None;
   ShellCommand (lit "vm") (lit "vm") (lit "show virtual memory plan") None;
   ShellCommand (lit "vmwalk") (lit "vmwalk [address]") (lit "walk sample or given virtual address") (Some (lit "vmwalk 0x40080000"));
   ShellCommand (lit "ticks") (lit "ticks") (lit "show scheduler/timer ticks") None;
   ShellCommand (lit "yield") (lit "yield") (lit "voluntarily yield the current scheduler task") None;
   ShellCommand (lit "sleep") (lit "sleep <ms>") (lit "sleep the current shell task for milliseconds") (Some (lit "sleep 100"));
   ShellCommand (lit "block") (lit "block <pid>") (lit "block a safe kernel scheduler task") (Some (lit "block 3"));
   ShellCommand (lit "unblock") (lit "unblock <pid>") (lit "unblock a blocked kernel scheduler task") (Some (lit "unblock 3"));
   ShellCommand (lit "reap") (lit "reap [pid]") (lit "reap zombie task slots") (Some (lit "reap 2"));
   ShellCommand (lit "syscall") (lit "syscall [number]") (lit "show or test syscall dispatcher") (Some (lit "syscall 3"));
   ShellCommand (lit "ls") (lit "ls") (lit "list files in the RAM filesystem") None;
   ShellCommand (lit "cat") (lit "cat <path>") (lit "print a RAM filesystem file") (Some (lit "cat /share/user-demo.txt"));
   ShellCommand (lit "run") (lit "run [path] [argument]") (lit "launch a Saturn executable with optional argument text") (Some (lit "run /bin/user-args.sx hello"));
   ShellCommand (lit "mkdir") (lit "mkdir <path>") (lit "create a RAM filesystem directory") (Some (lit "mkdir /tmp"));
   ShellCommand (lit "write") (lit "write <path> <text>") (lit "create or replace a RAMFS text file") (Some (lit "write /tmp/note hello"));
   ShellCommand (lit "disk") (lit "disk [test]") (lit "show or test the block device") (Some (lit "disk test"));
   ShellCommand (lit "pfs") (lit "pfs [format]") (lit "show or format the persistent filesystem") None;
   ShellCommand (lit "pwrite") (lit "pwrite <path> <text>") (lit "write a persistent file") (Some (lit "pwrite /note hello"));
   ShellCommand (lit "pcat") (lit "pcat <path>") (lit "print a persistent file") (Some (lit "pcat /note"));
   ShellCommand (lit "fb") (lit "fb") (lit "show framebuffer runtime status") None;
   ShellCommand (lit "user") (lit "user") (lit "show user/EL0 exception stats") None;
   ShellCommand (lit "clear") (lit "clear") (lit "clear framebuffer console") None;
   ShellCommand (lit "panic") (lit "panic") (lit "trigger test exception") None;
   ShellCommand (lit "fault") (lit "fault") (lit "trigger test page fault") None].

Definition shell_aliases : list shell_alias :=
  [ShellAlias (lit "h") (lit "help") (lit "show commands");
   ShellAlias (lit "?") (lit "help") (lit "show commands");
   ShellAlias (lit "tl") (lit "task") (lit "show scheduler task summary");
   ShellAlias (lit "ps") (lit "tasks") (lit "show scheduler tasks");
   ShellAlias (lit "free") (lit "mem") (lit "show physical memory stats");
   ShellAlias (lit "top") (lit "tasks") (lit "show scheduler tasks");
   ShellAlias (lit "uptime") (lit "ticks") (lit "show scheduler/timer ticks");
   ShellAlias (lit "y") (lit "yield") (lit "voluntarily yield the current scheduler task");
   ShellAlias (lit "nap") (lit "sleep") (lit "sleep the current shell task");
   ShellAlias (lit "blk") (lit "block") (lit "block a safe kernel scheduler task");
   ShellAlias (lit "unblk") (lit "unblock") (lit "unblock a blocked kernel scheduler task");
   ShellAlias (lit "rz") (lit "reap") (lit "reap zombie task slots");
   ShellAlias (lit "sc") (lit "syscall") (lit "show or test syscall dispatcher");
   ShellAlias (lit "video") (lit "fb") (lit "show framebuffer runtime status");
   ShellAlias (lit "ustats") (lit "user") (lit "show user/EL0 exception stats");
   ShellAlias (lit "cls") (lit "clear") (lit "clear framebuffer console")].

(** *** Strings *)

Fixpoint string_equals (left right : list Z) : bool :=
  match left, right with
  | l :: ls, r :: rs => if negb (l =? r) then false else string_equals ls rs
  | [], [] => true
  | _, _ => false
  end.

Fixpoint skip_spaces (text : list Z) : list Z :=
  match text with
  | c :: rest => if c =? 32 then skip_spaces rest else text
  | [] => []
  end.

Fixpoint command_equals (command name : list Z) : bool :=
  match name with
  | n :: name => match command with
                 | c :: command => if negb (c =? n) then false else command_equals command name
                 | [] => false
                 end
  | [] => match command with [] => true | c :: _ => c =? 32 end
  end.

Definition command_alias_target (command : list Z) : list Z :=
  default command (a_target <$> find (fun a => command_equals command (a_name a)) shell_aliases).

(** The first [prefix_length] bytes; past the end of [command] is its terminator. *)
Definition command_prefix_matches (command prefix : list Z) (prefix_length : Z) : bool :=
  forallb (fun i => chr command (Z.to_nat i) =? chr prefix (Z.to_nat i)) (seqZ 0 prefix_length).

Fixpoint command_word_end (command : list Z) : list Z :=
  match command with
  | c :: rest => if c =? 32 then command else command_word_end rest
  | [] => []
  end.
Definition command_arg (command : list Z) : list Z := skip_spaces (command_word_end command).

Definition find_shell_command (name : list Z) : option shell_command :=
  find (fun c => string_equals name (c_name c)) shell_commands.
Definition find_shell_command_token (text : list Z) : option shell_command :=
  find (fun c => command_equals text (c_name c)) shell_commands.
Definition find_shell_alias (name : list Z) : option shell_alias :=
  find (fun a => string_equals name (a_name a)) shell_aliases.

Definition hex_digit_value (c : Z) : option Z :=
  if (c >=? 48) && (c <=? 57) then Some (c - 48)
  else if (c >=? 97) && (c <=? 102) then Some (c - 97 + 10)
  else if (c >=? 65) && (c <=? 70) then Some (c - 65 + 10)
  else None.
Definition decimal_digit_value (c : Z) : option Z := if (c <? 48) || (c >? 57) then None else Some (c - 48).

Fixpoint digits_loop (base : Z) (text : list Z) (result : Z) : option Z :=
  match text with
  | [] => Some result
  | c :: text =>
      digit ← (if base =? 16 then hex_digit_value c else decimal_digit_value c);
      digits_loop base text (u64 (result * base + digit))
  end.

Definition parse_number (text : list Z) : option Z :=
  let text := skip_spaces text in
  let '(base, text) := if (chr text 0 =? 48) && ((chr text 1 =? 120) || (chr text 1 =? 88)) then (16, drop 2 text) else (10, text) in
  result ← digits_loop base text 0;
  match text with [] => None | _ :: _ => Some result end.

(** *** The state *)

(** The console, and what a command does: the state when it returns, or [None] when it
    never does. *)
Class ShellHost (W : Type) := {
  kput : list Z -> W -> W;
  shell_execute : list Z -> W -> option W;
}.

Record shell (W : Type) := Shell {
  command_buffer : list Z;
  history_buffer : list (list Z);
  command_length : Z;
  command_cursor : Z;
  rendered_length : Z;
  escape_state : Z;
  history_count : Z;
  history_next : Z;
  history_view : Z;
  host : W;
}.
Arguments Shell {W}. Arguments command_buffer {W}. Arguments history_buffer {W}. Arguments command_length {W}.
Arguments command_cursor {W}. Arguments rendered_length {W}. Arguments escape_state {W}. Arguments history_count {W}.
Arguments history_next {W}. Arguments history_view {W}. Arguments host {W}.

Section ops.
Context {W : Type} `{ShellHost W}.
Implicit Types s : shell W.

Definition set_line (buffer : list Z) (length cursor : Z) s : shell W :=
  Shell buffer (history_buffer s) length cursor (rendered_length s) (escape_state s) (history_count s) (history_next s) (history_view s) (host s).
Definition set_history (buffer : list (list Z)) (count next : Z) s : shell W :=
  Shell (command_buffer s) buffer (command_length s) (command_cursor s) (rendered_length s) (escape_state s) count next (history_view s) (host s).
Definition set_view (view : Z) s : shell W :=
  Shell (command_buffer s) (history_buffer s) (command_length s) (command_cursor s) (rendered_length s) (escape_state s) (history_count s) (history_next s)
    view (host s).
Definition set_rendered (n : Z) s : shell W :=
  Shell (command_buffer s) (history_buffer s) (command_length s) (command_cursor s) n (escape_state s) (history_count s) (history_next s)
    (history_view s) (host s).
Definition set_escape (e : Z) s : shell W :=
  Shell (command_buffer s) (history_buffer s) (command_length s) (command_cursor s) (rendered_length s) e (history_count s) (history_next s)
    (history_view s) (host s).
Definition set_host (w : W) s : shell W :=
  Shell (command_buffer s) (history_buffer s) (command_length s) (command_cursor s) (rendered_length s) (escape_state s) (history_count s) (history_next s)
    (history_view s) w.
Definition set_command_cursor (c : Z) s : shell W := set_line (command_buffer s) (command_length s) c s.

Definition say (text : list Z) s : shell W := set_host (kput text (host s)) s.
Definition buffer_char s (i : Z) : Z := chr (command_buffer s) (Z.to_nat i).

Definition shell_prompt s : shell W := set_rendered 0 (say SHELL_PROMPT s).

Fixpoint copy_string_loop (destination : list Z) (i : nat) (source : list Z) : list Z :=
  match source with
  | c :: source => if Z.of_nat i <? SHELL_BUFFER_SIZE - 1 then copy_string_loop (<[i := c]> destination) (S i) source else <[i := 0]> destination
  | [] => <[i := 0]> destination
  end.
Definition copy_string (destination source : list Z) : list Z := copy_string_loop destination 0 source.

Definition string_length (text : list Z) : Z := Z.of_nat (length text).

Definition command_line_is_completion_target s : bool :=
  if existsb (fun i => buffer_char s i =? 32) (seqZ 0 (command_length s)) then false else command_cursor s =? command_length s.

(** The characters from [start] to [stop]. *)
Definition say_range (start stop : Z) s : shell W := foldl (fun s i => say [buffer_char s i] s) s (seqZ start (stop - start)).

Definition shell_redraw_current_line s : shell W :=
  let s := shell_prompt s in
  let s := say_range 0 (command_length s) s in
  set_rendered (command_length s) (set_command_cursor (command_length s) s).

(** *** The history *)

Definition history_index (logical_index : Z) s : Z :=
  if history_count s <? SHELL_HISTORY_SIZE then logical_index else (history_next s + logical_index) mod SHELL_HISTORY_SIZE.
Definition history_entry (logical_index : Z) s : list Z := cstr (default [] (history_buffer s !! Z.to_nat (history_index logical_index s))).

Definition history_add (command : list Z) s : shell W :=
  match command with
  | [] => s
  | _ :: _ =>
      if (history_count s >? 0) && string_equals command (history_entry (history_count s - 1) s) then set_view (history_count s) s else
      let buffer := alter (fun slot => copy_string slot command) (Z.to_nat (history_next s)) (history_buffer s) in
      let next := (history_next s + 1) mod SHELL_HISTORY_SIZE in
      let count := if history_count s <? SHELL_HISTORY_SIZE then history_count s + 1 else history_count s in
      set_view count (set_history buffer count next s)
  end.

(** *** Editing *)

Definition shell_move_left (count : Z) s : shell W := Nat.iter (Z.to_nat count) (say [8]) s.

Fixpoint move_right_loop (count : nat) s : shell W :=
  match count with
  | O => s
  | S count => if command_cursor s <? command_length s
               then move_right_loop count (set_command_cursor (command_cursor s + 1) (say [buffer_char s (command_cursor s)] s)) else s
  end.
Definition shell_move_right (count : Z) s : shell W := move_right_loop (Z.to_nat count) s.

Definition shell_redraw_from_cursor (old_length : Z) s : shell W :=
  let printed := command_length s - command_cursor s in
  let s := say_range (command_cursor s) (command_length s) s in
  let erase_count := if old_length >? command_length s then old_length - command_length s else 0 in
  let s := Nat.iter (Z.to_nat erase_count) (say [32]) s in
  let s := shell_move_left (printed + erase_count) s in
  set_rendered (command_length s) s.

Definition shell_home s : shell W := set_command_cursor 0 (shell_move_left (command_cursor s) s).
Definition shell_end s : shell W := shell_move_right (command_length s - command_cursor s) s.

Definition shell_replace_line (text : list Z) s : shell W :=
  let old_length := command_length s in
  let s := shell_home s in
  let buffer := copy_string (command_buffer s) text in
  let s := set_line buffer (string_length (cstr buffer)) 0 s in
  let s := shell_redraw_from_cursor old_length s in
  shell_end s.

(** [for (i = command_length; i > command_cursor; i--)] *)
Definition shift_right (length cursor : Z) (buffer : list Z) : list Z :=
  foldl (fun b i => <[Z.to_nat i := chr b (Z.to_nat (i - 1))]> b) buffer (rev (seqZ (cursor + 1) (length - cursor))).
(** [for (i = command_cursor; i < command_length - 1; i++)] *)
Definition shift_left (length cursor : Z) (buffer : list Z) : list Z :=
  foldl (fun b i => <[Z.to_nat i := chr b (Z.to_nat (i + 1))]> b) buffer (seqZ cursor (length - 1 - cursor)).

Definition shell_insert_char (c : Z) s : shell W :=
  if command_length s >=? SHELL_BUFFER_SIZE - 1 then
    let s := say ([10] ++ lit "Command too long" ++ [10]) s in
    let s := set_line (<[O := 0]> (command_buffer s)) 0 0 s in
    shell_prompt (set_rendered 0 s)
  else
  let buffer := shift_right (command_length s) (command_cursor s) (command_buffer s) in
  let buffer := <[Z.to_nat (command_cursor s) := c]> buffer in
  let length := command_length s + 1 in
  let buffer := <[Z.to_nat length := 0]> buffer in
  let s := say [c] (set_line buffer length (command_cursor s) s) in
  let s := set_command_cursor (command_cursor s + 1) s in
  let s := if command_cursor s <? command_length s then
      let saved_cursor := command_cursor s in
      let s := say_range (command_cursor s) (command_length s) s in
      shell_move_left (command_length s - saved_cursor) s
    else s in
  set_rendered (command_length s) s.

Definition shell_insert_text (text : list Z) s : shell W := foldl (fun s c => shell_insert_char c s) s text.

(** The character at the cursor is taken out. *)
Definition remove_at_cursor s : shell W :=
  let buffer := shift_left (command_length s) (command_cursor s) (command_buffer s) in
  let length := command_length s - 1 in
  set_line (<[Z.to_nat length := 0]> buffer) length (command_cursor s) s.

Definition shell_backspace s : shell W :=
  let old_length := command_length s in
  if command_cursor s =? 0 then s else
  let s := say [8] (set_command_cursor (command_cursor s - 1) s) in
  shell_redraw_from_cursor old_length (remove_at_cursor s).

Definition shell_delete s : shell W :=
  let old_length := command_length s in
  if command_cursor s >=? command_length s then s else
  shell_redraw_from_cursor old_length (remove_at_cursor s).

Definition shell_history_previous s : shell W :=
  if history_count s =? 0 then s else
  if history_view s =? 0 then s else
  let s := set_view (history_view s - 1) s in
  shell_replace_line (history_entry (history_view s) s) s.

Definition shell_history_next s : shell W :=
  if (history_count s =? 0) || (history_view s >=? history_count s) then s else
  let s := set_view (history_view s + 1) s in
  if history_view s =? history_count s then shell_replace_line [] s else
  shell_replace_line (history_entry (history_view s) s) s.

(** The names a prefix matches, in the order of the tables. *)
Definition all_names : list (list Z) := (c_name <$> shell_commands) ++ (a_name <$> shell_aliases).
Definition prefix_matches s : list (list Z) :=
  List.filter (fun name => command_prefix_matches name (command_buffer s) (command_length s)) all_names.

Definition shell_autocomplete s : shell W :=
  if negb (command_line_is_completion_target s) then s else
  match prefix_matches s with
  | [] => s
  | [name] => shell_insert_text (drop (Z.to_nat (command_length s)) name) s
  | names =>
      let s := say ([10] ++ lit "Matches:") s in
      let s := foldl (fun s name => say ([32] ++ name) s) s names in
      shell_redraw_current_line (say [10] s)
  end.

(** *** Characters *)

(** An arrow to the left. *)
Definition cursor_left s : shell W :=
  if command_cursor s >? 0 then say [8] (set_command_cursor (command_cursor s - 1) s) else s.

(** [None]: the character does not belong to an escape sequence. *)
Definition shell_handle_escape_char (c : Z) s : option (shell W) :=
  if escape_state s =? 0 then None
  else if escape_state s =? 1 then Some (set_escape (if c =? 91 then 2 else 0) s)
  else if escape_state s =? 2 then
    let s := set_escape 0 s in
    Some (if c =? 68 then cursor_left s
          else if c =? 65 then shell_history_previous s
          else if c =? 66 then shell_history_next s
          else if c =? 67 then shell_move_right 1 s
          else if c =? 72 then shell_home s
          else if c =? 70 then shell_end s
          else if c =? 51 then set_escape 3 s
          else s)
  else
    let s := set_escape 0 s in
    Some (if c =? 126 then shell_delete s else s).

Definition shell_init s : shell W :=
  let s := set_line (<[O := 0]> (command_buffer s)) 0 0 s in
  let s := set_view (history_count s) (set_escape 0 (set_rendered 0 s)) in
  shell_prompt (say (lit "SaturnOS shell ready" ++ [10]) s).

(** The end of a line; the command may never return. *)
Definition shell_enter s : option (shell W) :=
  let s := set_line (<[Z.to_nat (command_length s) := 0]> (command_buffer s)) (command_length s) (command_cursor s) s in
  let s := say [10] s in
  let s := history_add (cstr (command_buffer s)) s in
  w ← shell_execute (cstr (command_buffer s)) (host s);
  let s := set_host w s in
  let s := set_line (<[O := 0]> (command_buffer s)) 0 0 s in
  let s := set_view (history_count s) (set_escape 0 (set_rendered 0 s)) in
  Some (shell_prompt s).

Definition shell_handle_char (c : Z) s : option (shell W) :=
  let c := if c =? 13 then 10 else c in
  match shell_handle_escape_char c s with
  | Some s => Some s
  | None =>
      if c =? 0x1b then Some (set_escape 1 s)
      else if c =? KEYBOARD_CHAR_HOME then Some (shell_home s)
      else if c =? KEYBOARD_CHAR_LEFT then Some (cursor_left s)
      else if c =? KEYBOARD_CHAR_UP then Some (shell_history_previous s)
      else if c =? KEYBOARD_CHAR_DELETE then Some (shell_delete s)
      else if c =? KEYBOARD_CHAR_END then Some (shell_end s)
      else if c =? KEYBOARD_CHAR_DOWN then Some (shell_history_next s)
      else if c =? KEYBOARD_CHAR_RIGHT then Some (shell_move_right 1 s)
      else if c =? 10 then shell_enter s
      else if c =? 9 then Some (shell_autocomplete s)
      else if (c =? 8) || (c =? 0x7f) then Some (shell_backspace s)
      else if (c <? 32) || (c >? 126) then Some s
      else Some (shell_insert_char c (set_view (history_count s) s))
  end.

(** A line of input, one character after the other. *)
Fixpoint shell_input (cs : list Z) s : option (shell W) :=
  match cs with
  | [] => Some s
  | c :: cs => s ← shell_handle_char c s; shell_input cs s
  end.
End ops.

(** The statics before [shell_init]. *)
Definition shell_zero {W} (w : W) : shell W :=
  Shell (replicate 64 0) (replicate 8 (replicate 64 0)) 0 0 0 0 0 0 0 w.
