(* ===== verification/ShellProps.v ===== *)
(** * The command line is edited as it should be

    An editor - the text before and after the cursor, and the lines remembered - and that
    the shell's buffers, lengths and indices implement it whatever is typed; the numbers
    of the commands' arguments. *)

From S2P Require Import Prelude Keyboard Shell.

(** ** The editor *)

Record editor := Editor {
  before : list Z;
  after : list Z;
  past : list (list Z);
  view : nat;
  esc : Z;
}.
Implicit Types e : editor.

Definition line e : list Z := before e ++ after e.
Definition ed_line (b a : list Z) e : editor := Editor b a (past e) (view e) (esc e).
Definition ed_view (v : nat) e : editor := Editor (before e) (after e) (past e) v (esc e).
Definition ed_esc (x : Z) e : editor := Editor (before e) (after e) (past e) (view e) x.

Definition ed_left e : editor :=
  match last (before e) with Some c => ed_line (take (pred (length (before e))) (before e)) (c :: after e) e | None => e end.
Definition ed_right e : editor := match after e with c :: a => ed_line (before e ++ [c]) a e | [] => e end.
Definition ed_home e : editor := ed_line [] (line e) e.
Definition ed_end e : editor := ed_line (line e) [] e.
Definition ed_insert (c : Z) e : editor := if (63 <=? length (line e))%nat then ed_line [] [] e else ed_line (before e ++ [c]) (after e) e.
Definition ed_backspace e : editor := if decide (before e = []) then e else ed_line (take (pred (length (before e))) (before e)) (after e) e.
Definition ed_delete e : editor := match after e with _ :: a => ed_line (before e) a e | [] => e end.
Definition ed_previous e : editor :=
  match view e with O => e | S v => if decide (past e = []) then e else ed_line (default [] (past e !! v)) [] (ed_view v e) end.
(** Past the newest line is the empty one. *)
Definition ed_next e : editor :=
  if (view e <? length (past e))%nat then ed_line (default [] (past e !! S (view e))) [] (ed_view (S (view e)) e) else e.

(** At most eight lines are remembered; an empty line and a repeated one are not. *)
Definition remember (l : list Z) (past : list (list Z)) : list (list Z) :=
  if decide (l = []) then past else if decide (last past = Some l) then past else
  drop (length past + 1 - 8) (past ++ [l]).
Definition ed_enter e : editor :=
  let p := remember (line e) (past e) in Editor [] [] p (length p) 0.

(** The names that begin with a text. *)
Definition completions (text : list Z) : list (list Z) := List.filter (fun name => bool_decide (text `prefix_of` name)) all_names.
Definition ed_complete e : editor :=
  if decide (32 ∈ line e \/ after e <> []) then e else
  match completions (before e) with
  | [name] => ed_line name [] e
  | _ => e
  end.

(** A character, outside an escape sequence and in one. *)
Definition ed_key (c : Z) e : editor :=
  if c =? 0x1b then ed_esc 1 e
  else if c =? KEYBOARD_CHAR_HOME then ed_home e
  else if c =? KEYBOARD_CHAR_LEFT then ed_left e
  else if c =? KEYBOARD_CHAR_UP then ed_previous e
  else if c =? KEYBOARD_CHAR_DELETE then ed_delete e
  else if c =? KEYBOARD_CHAR_END then ed_end e
  else if c =? KEYBOARD_CHAR_DOWN then ed_next e
  else if c =? KEYBOARD_CHAR_RIGHT then ed_right e
  else if c =? 10 then ed_enter e
  else if c =? 9 then ed_complete e
  else if (c =? 8) || (c =? 0x7f) then ed_backspace e
  else if (c <? 32) || (c >? 126) then e
  else ed_insert c (ed_view (length (past e)) e).
Definition ed_escape (c : Z) e : editor :=
  if esc e =? 1 then ed_esc (if c =? 91 then 2 else 0) e
  else if esc e =? 2 then
    let e := ed_esc 0 e in
    if c =? 68 then ed_left e else if c =? 65 then ed_previous e else if c =? 66 then ed_next e else if c =? 67 then ed_right e
    else if c =? 72 then ed_home e else if c =? 70 then ed_end e else if c =? 51 then ed_esc 3 e else e
  else (if c =? 126 then ed_delete else id) (ed_esc 0 e).
Definition ed_char (c : Z) e : editor :=
  let c := if c =? 13 then 10 else c in if esc e =? 0 then ed_key c e else ed_escape c e.

(** ** Arrays *)

Lemma copy_string_loop_eq src : forall dst i, (i + length src < length dst)%nat -> (i + length src <= 63)%nat ->
  copy_string_loop dst i src = take i dst ++ src ++ 0 :: drop (S (i + length src)) dst.
Proof.
  induction src as [|c src IH]; intros dst i Hd Hi; cbn [copy_string_loop length] in *.
  - rewrite insert_take_drop by lia. by rewrite Nat.add_0_r.
  - change (SHELL_BUFFER_SIZE - 1) with 63. destruct (Z.ltb_spec (Z.of_nat i) 63); [|lia]. rewrite IH by (rewrite ?length_insert; lia).
    rewrite (take_S_r _ _ c) by (rewrite list_lookup_insert_eq; [done|lia]). rewrite take_insert_ge by lia. rewrite drop_insert_lt by lia.
    rewrite <- app_assoc. cbn [app]. do 3 f_equal. f_equal. f_equal. lia.
Qed.

Lemma copy_string_eq dst src : length dst = 64%nat -> (length src <= 63)%nat -> copy_string dst src = src ++ 0 :: drop (S (length src)) dst.
Proof. intros Hd Hs. unfold copy_string. by rewrite copy_string_loop_eq by lia. Qed.

Lemma chr_app_at (pre : list Z) x rest : chr (pre ++ x :: rest) (length pre) = x.
Proof. unfold chr. by rewrite lookup_app_r, Nat.sub_diag. Qed.

Lemma insert_at (pre : list Z) x y rest : <[length pre := y]> (pre ++ x :: rest) = pre ++ y :: rest.
Proof. by rewrite insert_app_r_alt, Nat.sub_diag. Qed.

Lemma shift_right_eq pre mid : forall y rest, exists x,
  shift_right (Z.of_nat (length pre + length mid)) (Z.of_nat (length pre)) (pre ++ mid ++ y :: rest) = pre ++ x :: mid ++ rest.
Proof.
  unfold shift_right. replace (Z.of_nat (length pre + length mid) - Z.of_nat (length pre)) with (Z.of_nat (length mid)) by lia.
  induction mid as [|z mid IH] using rev_ind; intros y rest; [by exists y|].
  rewrite length_app. cbn [length]. replace (Z.of_nat (length mid + 1)) with (Z.of_nat (length mid) + 1) by lia.
  rewrite seqZ_app, rev_app_distr by lia. cbn [seqZ rev app fmap list_fmap foldl].
  change (rev (seqZ (Z.of_nat (length pre) + 1 + Z.of_nat (length mid)) 1)) with [0 + (Z.of_nat (length pre) + 1 + Z.of_nat (length mid))].
  cbn [app foldl].
  replace (Z.to_nat (0 + (Z.of_nat (length pre) + 1 + Z.of_nat (length mid)))) with (length (pre ++ mid ++ [z])) by (rewrite !length_app; cbn; lia).
  replace (Z.to_nat (0 + (Z.of_nat (length pre) + 1 + Z.of_nat (length mid)) - 1)) with (length (pre ++ mid)) by (rewrite !length_app; lia).
  assert (pre ++ (mid ++ [z]) ++ y :: rest = (pre ++ mid) ++ z :: y :: rest) as E by (by rewrite <- !app_assoc). rewrite E, chr_app_at, <- E. clear E.
  assert (pre ++ (mid ++ [z]) ++ y :: rest = (pre ++ mid ++ [z]) ++ y :: rest) as -> by (by rewrite <- !app_assoc). rewrite insert_at.
  destruct (IH z (z :: rest)) as [x Hx]. exists x. rewrite <- !app_assoc. cbn [app]. by rewrite Hx.
Qed.

Lemma shift_left_eq mid : forall pre x rest, exists x',
  shift_left (Z.of_nat (length pre + S (length mid))) (Z.of_nat (length pre)) (pre ++ x :: mid ++ rest) = pre ++ mid ++ x' :: rest.
Proof.
  unfold shift_left. induction mid as [|z mid IH]; intros pre x rest.
  { exists x. cbn [length]. replace (Z.of_nat (length pre + 1) - 1 - Z.of_nat (length pre)) with 0 by lia. done. }
  cbn [length]. replace (Z.of_nat (length pre + S (S (length mid))) - 1 - Z.of_nat (length pre)) with (Z.of_nat (S (length mid))) by lia.
  rewrite seqZ_cons by lia. cbn [foldl app]. rewrite Nat2Z.id.
  replace (Z.to_nat (Z.of_nat (length pre) + 1)) with (length (pre ++ [x])) by (rewrite length_app; cbn; lia).
  assert (pre ++ x :: z :: mid ++ rest = (pre ++ [x]) ++ z :: mid ++ rest) as E by (by rewrite <- app_assoc). rewrite E, chr_app_at, <- E, insert_at.
  destruct (IH (pre ++ [z]) z rest) as [x' Hx]. exists x'. rewrite length_app in Hx. cbn [length] in Hx. rewrite <- !app_assoc in Hx. cbn [app] in Hx.
  replace (Z.of_nat (length pre + 1 + S (length mid)) - 1 - Z.of_nat (length pre + 1)) with (Z.pred (Z.of_nat (S (length mid)))) in Hx by lia.
  replace (Z.of_nat (length pre + 1)) with (Z.succ (Z.of_nat (length pre))) in Hx by lia. exact Hx.
Qed.

(** ** The representation *)

(** The console takes its text in any pieces. *)
Class ConsoleHost (W : Type) `{ShellHost W} := {
  kput_nil : forall w, kput [] w = w;
  kput_app : forall t u w, kput (t ++ u) w = kput u (kput t w);
}.

Definition typeable (c : Z) : Prop := 32 <= c <= 126.
#[export] Instance typeable_dec c : Decision (typeable c).
Proof. unfold typeable. apply _. Defined.

Section rep.
Context {W : Type} `{ConsoleHost W}.
Implicit Types s : shell W.

(** The line in its buffer. *)
Record line_rep (b a : list Z) s : Prop := {
  lr_buffer : exists rest, command_buffer s = b ++ a ++ 0 :: rest /\ (length b + length a + length rest = 63)%nat;
  lr_length : command_length s = Z.of_nat (length b + length a);
  lr_cursor : command_cursor s = Z.of_nat (length b);
  lr_chars : Forall typeable (b ++ a);
}.

(** The lines of the history in their ring. *)
Record history_rep (p : list (list Z)) s : Prop := {
  hr_slots : length (history_buffer s) = 8%nat /\ Forall (fun slot => length slot = 64%nat) (history_buffer s);
  hr_count : history_count s = Z.of_nat (length p) /\ (length p <= 8)%nat;
  hr_next : 0 <= history_next s < 8 /\ (history_count s < 8 -> history_next s = history_count s);
  hr_entries : forall i l, p !! i = Some l -> history_entry (Z.of_nat i) s = l;
  hr_lines : Forall (fun l => l <> [] /\ Forall typeable l /\ (length l <= 63)%nat) p;
}.

Record rep e s : Prop := {
  re_line : line_rep (before e) (after e) s;
  re_history : history_rep (past e) s;
  re_view : history_view s = Z.of_nat (view e) /\ (view e <= length (past e))%nat;
  re_esc : escape_state s = esc e /\ 0 <= esc e <= 3;
}.

(** What a change of the line leaves alone. *)
Definition framed s s' : Prop :=
  history_buffer s' = history_buffer s /\ history_count s' = history_count s /\ history_next s' = history_next s /\
  history_view s' = history_view s /\ escape_state s' = escape_state s.

(** [s'] has the line [b], [a], and [text] was written on the way. *)
Definition becomes (b a text : list Z) s s' : Prop := line_rep b a s' /\ framed s s' /\ host s' = kput text (host s).

(** Only something was written. *)
Definition wrote (text : list Z) s s' : Prop := exists r, s' = set_rendered r (set_host (kput text (host s)) s).

Lemma wrote_nil s : wrote [] s s.
Proof. exists (rendered_length s). rewrite kput_nil. by destruct s. Qed.
Lemma wrote_trans t u s s' s'' : wrote t s s' -> wrote u s' s'' -> wrote (t ++ u) s s''.
Proof. intros [r ->] [r' ->]. exists r'. by rewrite kput_app. Qed.
Lemma wrote_say t s : wrote t s (say t s).
Proof. exists (rendered_length s). by destruct s. Qed.
Lemma wrote_rendered t s s' r : wrote t s s' -> wrote t s (set_rendered r s').
Proof. intros [r' ->]. by exists r. Qed.

Lemma becomes_wrote b a b' a' t u s s' s'' : becomes b a t s s' -> wrote u s' s'' -> line_rep b' a' s' -> becomes b' a' (t ++ u) s s''.
Proof. intros (_ & Hf & Hh) [r ->] [? ? ? ?]. split; [by split|]. split; [exact Hf|]. cbn. by rewrite kput_app, Hh. Qed.
Lemma becomes_trans b a b' a' t u s s' s'' : becomes b a t s s' -> becomes b' a' u s' s'' -> becomes b' a' (t ++ u) s s''.
Proof.
  intros (_ & (F1 & F2 & F3 & F4 & F5) & Hh) (Hl & (G1 & G2 & G3 & G4 & G5) & Hh'). split; [done|]. split; [by split_and!; etrans; eauto|].
  by rewrite Hh', Hh, kput_app.
Qed.
Lemma wrote_becomes b a t s s' : line_rep b a s -> wrote t s s' -> becomes b a t s s'.
Proof. intros [? ? ? ?] [r ->]. by split. Qed.
Lemma becomes_refl b a s : line_rep b a s -> becomes b a [] s s.
Proof. intros Hl. apply wrote_becomes; [done|apply wrote_nil]. Qed.

Lemma iter_wrote t n s : wrote (concat (replicate n t)) s (Nat.iter n (say t) s).
Proof.
  induction n as [|n IH]; [apply wrote_nil|]. rewrite Nat.iter_succ. replace (concat (replicate (S n) t)) with (concat (replicate n t) ++ t).
  - eapply wrote_trans; [exact IH|apply wrote_say].
  - clear. induction n as [|n IH]; [cbn; by rewrite app_nil_r|]. cbn in *. by rewrite <- app_assoc, IH.
Qed.

Lemma concat_single (c : Z) n : concat (replicate n [c]) = replicate n c.
Proof. induction n as [|n IH]; [done|]. cbn. by rewrite IH. Qed.

Lemma move_left_wrote n s : wrote (replicate n 8) s (shell_move_left (Z.of_nat n) s).
Proof. unfold shell_move_left. rewrite Nat2Z.id, <- concat_single. apply iter_wrote. Qed.

Lemma say_range_wrote start n s : wrote (buffer_char s <$> seqZ start (Z.of_nat n)) s (say_range start (start + Z.of_nat n) s).
Proof.
  unfold say_range. replace (start + Z.of_nat n - start) with (Z.of_nat n) by lia. induction n as [|n IH]; [apply wrote_nil|].
  rewrite seqZ_S, foldl_app, fmap_app. cbn [foldl fmap list_fmap]. eapply wrote_trans; [exact IH|].
  destruct IH as [r ->]. apply wrote_say.
Qed.

Lemma chars_of_list (pre mid rest : list Z) :
  (fun i => chr (pre ++ mid ++ rest) (Z.to_nat i)) <$> seqZ (Z.of_nat (length pre)) (Z.of_nat (length mid)) = mid.
Proof.
  apply list_eq. intros i. rewrite list_lookup_fmap. destruct (decide (i < length mid)%nat) as [Hi|Hi].
  - rewrite lookup_seqZ_lt by lia. cbn. replace (Z.to_nat (Z.of_nat (length pre) + Z.of_nat i)) with (length pre + i)%nat by lia.
    unfold chr. rewrite lookup_app_r by lia. replace (length pre + i - length pre)%nat with i by lia. rewrite lookup_app_l by done.
    by destruct (lookup_lt_is_Some_2 mid i Hi) as [x ->].
  - rewrite lookup_seqZ_ge by lia. by rewrite lookup_ge_None_2 by lia.
Qed.

Lemma say_after b a s : line_rep b a s -> wrote a s (say_range (command_cursor s) (command_length s) s).
Proof.
  intros [(rest & Hb & _) Hl Hc _]. rewrite Hl, Hc. rewrite Nat2Z.inj_add. pose proof (say_range_wrote (Z.of_nat (length b)) (length a) s) as Hw.
  unfold buffer_char in Hw. rewrite Hb in Hw. by rewrite chars_of_list in Hw.
Qed.

Lemma say_all b a s : line_rep b a s -> wrote (b ++ a) s (say_range 0 (command_length s) s).
Proof.
  intros [(rest & Hb & _) Hl Hc _]. rewrite Hl, <- length_app. pose proof (say_range_wrote 0 (length (b ++ a)) s) as Hw.
  unfold buffer_char in Hw. rewrite Hb, app_assoc in Hw. pose proof (chars_of_list [] (b ++ a) (0 :: rest)) as Hx. cbn [app length] in Hx. change (Z.of_nat 0) with 0 in Hx. by rewrite Hx in Hw.
Qed.

(** *** Moving *)

Lemma line_cursor b a b' a' s : line_rep b a s -> b ++ a = b' ++ a' -> line_rep b' a' (set_command_cursor (Z.of_nat (length b')) s).
Proof.
  intros [(rest & Hb & Hn) Hl Hc Ht] E. assert (length b + length a = length b' + length a')%nat as El by (rewrite <- !length_app; by rewrite E).
  split; [|cbn; rewrite Hl; lia|done|by rewrite <- E]. exists rest. cbn. split; [|lia]. by rewrite Hb, !app_assoc, E.
Qed.

Lemma home_becomes b a s : line_rep b a s -> becomes [] (b ++ a) (replicate (length b) 8) s (shell_home s).
Proof.
  intros Hl. unfold shell_home. rewrite (lr_cursor _ _ _ Hl). destruct (move_left_wrote (length b) s) as [r E].
  pose proof (wrote_becomes _ _ _ _ _ Hl (move_left_wrote (length b) s)) as (Hl' & Hf & Hh). split; [|done].
  exact (line_cursor b a [] (b ++ a) _ Hl' eq_refl).
Qed.

Lemma right_one b c a s : line_rep b (c :: a) s ->
  becomes (b ++ [c]) a [c] s (set_command_cursor (command_cursor s + 1) (say [buffer_char s (command_cursor s)] s)).
Proof.
  intros Hl. pose proof Hl as [(rest & Hb & _) Hlen Hc _]. assert (buffer_char s (command_cursor s) = c) as ->.
  { unfold buffer_char. rewrite Hb, Hc, Nat2Z.id. cbn [app]. apply chr_app_at. }
  pose proof (wrote_becomes _ _ _ _ _ Hl (wrote_say [c] s)) as (Hl' & Hf & Hh). split; [|done].
  rewrite Hc. replace (Z.of_nat (length b) + 1) with (Z.of_nat (length (b ++ [c]))) by (rewrite length_app; cbn; lia).
  apply (line_cursor b (c :: a)); [exact Hl'|by rewrite <- app_assoc].
Qed.

Lemma right_loop_becomes n : forall b a s, line_rep b a s ->
  becomes (b ++ take n a) (drop n a) (take n a) s (move_right_loop n s).
Proof.
  induction n as [|n IH]; intros b a s Hl; cbn [move_right_loop].
  { rewrite app_nil_r. by apply becomes_refl. }
  pose proof Hl as [_ Hlen Hc _]. rewrite Hlen, Hc. destruct a as [|c a].
  - destruct (Z.ltb_spec (Z.of_nat (length b)) (Z.of_nat (length b + length (@nil Z)))); [cbn in *; lia|].
    cbn. rewrite app_nil_r. by apply becomes_refl.
  - destruct (Z.ltb_spec (Z.of_nat (length b)) (Z.of_nat (length b + length (c :: a)))); [|cbn in *; lia].
    rewrite <- Hc. pose proof (right_one _ _ _ _ Hl) as Hs. pose proof (IH _ _ _ (proj1 Hs)) as Hr.
    cbn [take drop]. rewrite <- app_assoc in Hr. exact (becomes_trans _ _ _ _ _ _ _ _ _ Hs Hr).
Qed.

Lemma right_becomes b a s : line_rep b a s -> becomes (b ++ take 1 a) (drop 1 a) (take 1 a) s (shell_move_right 1 s).
Proof. apply (right_loop_becomes 1). Qed.

Lemma end_becomes b a s : line_rep b a s -> becomes (b ++ a) [] a s (shell_end s).
Proof.
  intros Hl. unfold shell_end, shell_move_right. rewrite (lr_length _ _ _ Hl), (lr_cursor _ _ _ Hl).
  replace (Z.to_nat (Z.of_nat (length b + length a) - Z.of_nat (length b))) with (length a) by lia.
  pose proof (right_loop_becomes (length a) b a s Hl) as Hr. by rewrite drop_ge, take_ge in Hr by lia.
Qed.

Lemma left_becomes b c a s : line_rep (b ++ [c]) a s -> becomes b (c :: a) [8] s (cursor_left s).
Proof.
  intros Hl. unfold cursor_left. pose proof (lr_cursor _ _ _ Hl) as Hc. rewrite length_app in Hc. cbn [length] in Hc. rewrite Hc.
  destruct (Z.gtb_spec (Z.of_nat (length b + 1)) 0); [|lia]. replace (Z.of_nat (length b + 1) - 1) with (Z.of_nat (length b)) by lia.
  pose proof (line_cursor (b ++ [c]) a b (c :: a) s Hl ltac:(by rewrite <- app_assoc)) as Hl'.
  pose proof (wrote_becomes _ _ _ _ _ Hl' (wrote_say [8] _)) as (Hl2 & Hf & Hh). by split.
Qed.

(** *** Drawing the rest of the line *)

Definition redrawn (a : list Z) (erase : nat) : list Z := a ++ replicate erase 32 ++ replicate (length a + erase) 8.

Lemma redraw_becomes b a old s : line_rep b a s ->
  becomes b a (redrawn a (old - (length b + length a))) s (shell_redraw_from_cursor (Z.of_nat old) s).
Proof.
  intros Hl. apply wrote_becomes; [done|]. unfold shell_redraw_from_cursor. cbv zeta. apply wrote_rendered. unfold redrawn.
  pose proof (say_after _ _ _ Hl) as Hw. set (s1 := say_range _ _ s) in *. clearbody s1.
  set (n := (old - (length b + length a))%nat).
  assert ((if Z.of_nat old >? command_length s1 then Z.of_nat old - command_length s1 else 0) = Z.of_nat n) as ->.
  { destruct Hw as [r ->]. cbn. rewrite (lr_length _ _ _ Hl). destruct (Z.gtb_spec (Z.of_nat old) (Z.of_nat (length b + length a))); lia. }
  rewrite Nat2Z.id. rewrite (lr_length _ _ _ Hl), (lr_cursor _ _ _ Hl).
  replace (Z.of_nat (length b + length a) - Z.of_nat (length b) + Z.of_nat n) with (Z.of_nat (length a + n)) by lia.
  eapply wrote_trans; [exact Hw|]. eapply wrote_trans; [|apply move_left_wrote]. rewrite <- concat_single. apply iter_wrote.
Qed.

(** *** Changing the line *)

Definition inserted (c : Z) (a : list Z) : list Z := [c] ++ a ++ replicate (length a) 8.

Lemma insert_line b a c s : line_rep b a s -> (length b + length a < 63)%nat -> typeable c ->
  let buffer := <[Z.to_nat (command_cursor s) := c]> (shift_right (command_length s) (command_cursor s) (command_buffer s)) in
  line_rep b (c :: a) (set_line (<[Z.to_nat (command_length s + 1) := 0]> buffer) (command_length s + 1) (command_cursor s) s).
Proof.
  intros [(rest & Hb & Hn) Hl Hc Ht] Hlt Htc buffer. destruct rest as [|r rest]; [cbn in Hn; lia|].
  assert (buffer = b ++ (c :: a) ++ r :: rest) as Hbuf.
  { unfold buffer. rewrite Hl, Hc, Hb. destruct (shift_right_eq b a 0 (r :: rest)) as [x ->]. rewrite Nat2Z.id. by rewrite insert_at. }
  split; cbn [set_line command_buffer command_length command_cursor].
  - exists rest. split; [|cbn in *; lia]. rewrite Hbuf, Hl. rewrite !app_assoc.
    replace (Z.to_nat (Z.of_nat (length b + length a) + 1)) with (length (b ++ c :: a)) by (rewrite length_app; cbn; lia). by rewrite insert_at.
  - rewrite Hl. cbn. lia.
  - done.
  - apply Forall_app in Ht as [Hb' Ha']. apply Forall_app. split; [done|]. by constructor.
Qed.

Lemma insert_becomes b a c s : line_rep b a s -> (length b + length a < 63)%nat -> typeable c ->
  becomes (b ++ [c]) a (inserted c a) s (shell_insert_char c s).
Proof.
  intros Hl Hlt Htc. pose proof (insert_line b a c s Hl Hlt Htc) as Hl1. cbv zeta in Hl1. unfold shell_insert_char.
  pose proof (lr_length _ _ _ Hl) as Hlen. pose proof (lr_cursor _ _ _ Hl) as Hcur. rewrite Hlen at 1. change (SHELL_BUFFER_SIZE - 1) with 63.
  rewrite Z.geb_leb. destruct (Z.leb_spec 63 (Z.of_nat (length b + length a))); [lia|].
  cbv zeta. set (s1 := set_line _ _ _ s) in *. pose proof (wrote_becomes _ _ _ _ _ Hl1 (wrote_say [c] s1)) as Hs2. set (s2 := say [c] s1) in *.
  assert (becomes (b ++ [c]) a [c] s (set_command_cursor (command_cursor s2 + 1) s2)) as H3.
  { pose proof Hs2 as (Hl2 & Hf & Hh). split; [|by split]. rewrite (lr_cursor _ _ _ Hl2).
    replace (Z.of_nat (length b) + 1) with (Z.of_nat (length (b ++ [c]))) by (rewrite length_app; cbn; lia).
    apply (line_cursor b (c :: a)); [exact Hl2|by rewrite <- app_assoc]. }
  set (s3 := set_command_cursor _ s2) in *. clearbody s3. clear s2 Hs2. pose proof H3 as (Hl3 & Hf3 & Hh3).
  unfold inserted. eapply becomes_wrote; [exact H3| |exact Hl3]. apply wrote_rendered.
  rewrite (lr_length _ _ _ Hl3), (lr_cursor _ _ _ Hl3). destruct (Z.ltb_spec (Z.of_nat (length (b ++ [c]))) (Z.of_nat (length (b ++ [c]) + length a))).
  - pose proof (say_after _ _ _ Hl3) as Hw. rewrite (lr_length _ _ _ Hl3), (lr_cursor _ _ _ Hl3) in Hw.
    eapply wrote_trans; [exact Hw|]. destruct Hw as [r E]. set (s4 := say_range _ _ s3) in *. clearbody s4.
    assert (command_length s4 - Z.of_nat (length (b ++ [c])) = Z.of_nat (length a)) as -> by (rewrite E; cbn; rewrite (lr_length _ _ _ Hl3); lia).
    apply move_left_wrote.
  - destruct a; [|cbn in *; lia]. apply wrote_nil.
Qed.

Definition too_long : list Z := ([10] ++ lit "Command too long" ++ [10]) ++ SHELL_PROMPT.

Lemma line_cleared b a s : line_rep b a s -> line_rep [] [] (set_line (<[O := 0]> (command_buffer s)) 0 0 s).
Proof.
  intros [(rest & Hb & Hn) Hl Hc Ht]. split; [|done|done|done]. cbn. rewrite Hb. exists (tl (b ++ a ++ 0 :: rest)).
  assert (length (b ++ a ++ 0%Z :: rest) = 64%nat) as Hlen by (rewrite !length_app; cbn; lia). destruct (b ++ a ++ 0 :: rest); [done|]. split; [done|]. cbn in *. lia.
Qed.

Lemma too_long_becomes b a c s : line_rep b a s -> (63 <= length b + length a)%nat -> becomes [] [] too_long s (shell_insert_char c s).
Proof.
  intros Hl Hlt. unfold shell_insert_char. rewrite (lr_length _ _ _ Hl). change (SHELL_BUFFER_SIZE - 1) with 63. rewrite Z.geb_leb.
  destruct (Z.leb_spec 63 (Z.of_nat (length b + length a))); [|lia]. cbv zeta. unfold too_long.
  pose proof (wrote_becomes _ _ _ _ _ Hl (wrote_say ([10] ++ lit "Command too long" ++ [10]) s)) as (Hl1 & Hf1 & Hh1).
  set (s1 := say _ s) in *. assert (becomes [] [] ([10] ++ lit "Command too long" ++ [10]) s (set_line (<[O:=0]> (command_buffer s1)) 0 0 s1)) as Hs.
  { split; [by eapply line_cleared|]. by split. }
  eapply becomes_wrote; [exact Hs| |exact (proj1 Hs)]. unfold shell_prompt. exists 0. done.
Qed.

Lemma remove_line b x a s : line_rep b (x :: a) s -> line_rep b a (remove_at_cursor s).
Proof.
  intros [(rest & Hb & Hn) Hl Hc Ht]. cbn [length] in *. unfold remove_at_cursor. cbv zeta.
  assert (shift_left (command_length s) (command_cursor s) (command_buffer s) = shift_left (Z.of_nat (length b + S (length a))) (Z.of_nat (length b)) (b ++ x :: a ++ 0 :: rest)) as ->.
  { by rewrite Hl, Hc, Hb. }
  destruct (shift_left_eq a b x (0 :: rest)) as [x' ->]. split; cbn [set_line command_buffer command_length command_cursor].
  - exists (0 :: rest). split; [|cbn; lia]. rewrite Hl. replace (Z.to_nat (Z.of_nat (length b + S (length a)) - 1)) with (length (b ++ a)) by (rewrite length_app; lia).
    rewrite !app_assoc. by rewrite insert_at.
  - rewrite Hl. lia.
  - done.
  - apply Forall_app in Ht as [Hb' Ha']. apply Forall_cons in Ha' as [_ Ha']. by apply Forall_app.
Qed.

Lemma remove_becomes b x a old s : line_rep b (x :: a) s -> old = (length b + S (length a))%nat ->
  becomes b a (redrawn a 1) s (shell_redraw_from_cursor (Z.of_nat old) (remove_at_cursor s)).
Proof.
  intros Hl Hold. pose proof (remove_line _ _ _ _ Hl) as Hl1. pose proof (redraw_becomes b a old _ Hl1) as Hr.
  replace (old - (length b + length a))%nat with 1%nat in Hr by lia. destruct Hr as (Hl2 & Hf & Hh). by split.
Qed.

Lemma delete_becomes b x a s : line_rep b (x :: a) s -> becomes b a (redrawn a 1) s (shell_delete s).
Proof.
  intros Hl. unfold shell_delete. rewrite (lr_length _ _ _ Hl), (lr_cursor _ _ _ Hl), Z.geb_leb. cbn [length]. cbv zeta.
  destruct (Z.leb_spec (Z.of_nat (length b + S (length a))) (Z.of_nat (length b))); [lia|]. by apply (remove_becomes b x).
Qed.

Lemma backspace_becomes b x a s : line_rep (b ++ [x]) a s -> becomes b a ([8] ++ redrawn a 1) s (shell_backspace s).
Proof.
  intros Hl. unfold shell_backspace. pose proof (lr_cursor _ _ _ Hl) as Hc. pose proof (lr_length _ _ _ Hl) as Hlen. rewrite length_app in Hc, Hlen. cbn [length] in Hc, Hlen.
  rewrite Hc, Hlen. destruct (Z.eqb_spec (Z.of_nat (length b + 1)) 0); [lia|]. cbv zeta. replace (Z.of_nat (length b + 1) - 1) with (Z.of_nat (length b)) by lia.
  pose proof (line_cursor (b ++ [x]) a b (x :: a) s Hl ltac:(by rewrite <- app_assoc)) as Hl1.
  pose proof (wrote_becomes _ _ _ _ _ Hl1 (wrote_say [8] _)) as H1. eapply becomes_trans; [|apply (remove_becomes b x); [exact (proj1 H1)|lia]].
  destruct H1 as (? & Hf & Hh). by split.
Qed.

(** *** Replacing the line *)

Definition replaced (b a t : list Z) : list Z := replicate (length b) 8 ++ redrawn t (length b + length a - length t) ++ t.

Lemma cstr_typed t rest : Forall typeable t -> cstr (t ++ 0 :: rest) = t.
Proof. intros Ht. apply cstr_app_nul. eapply Forall_impl; [exact Ht|]. intros c [? ?]. lia. Qed.

Lemma replace_becomes b a t s : line_rep b a s -> Forall typeable t -> (length t <= 63)%nat -> becomes t [] (replaced b a t) s (shell_replace_line t s).
Proof.
  intros Hl Ht Hlen. unfold shell_replace_line. cbv zeta. pose proof (home_becomes b a s Hl) as H1. rewrite (lr_length _ _ _ Hl).
  set (s1 := shell_home s) in *. clearbody s1. pose proof H1 as ([(rest & Hb & Hn) Hl1 Hc1 Hty] & Hf1 & Hh1). cbn [app] in Hb. 
  assert (length (command_buffer s1) = 64)%nat as H64 by (rewrite Hb, length_app; cbn in *; lia).
  rewrite copy_string_eq by done. rewrite cstr_typed by done.
  assert (line_rep [] t (set_line (t ++ 0 :: drop (S (length t)) (command_buffer s1)) (string_length t) 0 s1)) as Hl2.
  { split; [|done|done|done]. exists (drop (S (length t)) (command_buffer s1)). split; [done|]. rewrite length_drop. cbn. lia. }
  set (s2 := set_line _ _ _ s1) in *. pose proof (redraw_becomes [] t (length b + length a) s2 Hl2) as H3. cbn [length Nat.add] in H3.
  set (s3 := shell_redraw_from_cursor _ s2) in *. pose proof (end_becomes [] t s3 (proj1 H3)) as H4. cbn [app] in H4.
  unfold replaced. eapply becomes_trans; [|eapply becomes_trans; [exact H3|exact H4]]. destruct H1 as (_ & Hf & Hh). by split.
Qed.

(** *** The history *)

Lemma string_equals_spec l : forall r, string_equals l r = bool_decide (l = r).
Proof.
  induction l as [|x l IH]; intros [|y r]; cbn [string_equals]; try done. destruct (Z.eqb_spec x y) as [->|]; cbn [negb].
  - rewrite IH. apply bool_decide_ext. naive_solver.
  - symmetry. apply bool_decide_eq_false. naive_solver.
Qed.

Definition slot_line (buffers : list (list Z)) (i : Z) : list Z := cstr (default [] (buffers !! Z.to_nat i)).

Lemma slot_written buffers (i j : Z) l : 0 <= i -> 0 <= j -> (Z.to_nat i < length buffers)%nat -> Forall (fun slot => length slot = 64%nat) buffers ->
  Forall typeable l -> (length l <= 63)%nat ->
  slot_line (alter (fun slot => copy_string slot l) (Z.to_nat i) buffers) j = if i =? j then l else slot_line buffers j.
Proof.
  intros Hi Hj Hlt Hb Hl Hlen. unfold slot_line. destruct (Z.eqb_spec i j) as [<-|Hne].
  - rewrite list_lookup_alter_eq. destruct (lookup_lt_is_Some_2 buffers (Z.to_nat i) Hlt) as [slot Hs]. rewrite Hs. cbn.
    rewrite copy_string_eq by (done || exact (Forall_lookup_1 _ _ _ _ Hb Hs)). by apply cstr_typed.
  - by rewrite list_lookup_alter_ne by lia.
Qed.

Lemma slots_kept buffers i l : length buffers = 8%nat /\ Forall (fun slot => length slot = 64%nat) buffers -> (length l <= 63)%nat ->
  let b' := alter (fun slot => copy_string slot l) i buffers in length b' = 8%nat /\ Forall (fun slot => length slot = 64%nat) b'.
Proof.
  intros [Hn Hb] Hl b'. split; [by unfold b'; rewrite length_alter|]. apply Forall_alter; [done|]. intros slot Hs Hlen.
  rewrite copy_string_eq by done. rewrite length_app. cbn [length]. rewrite length_drop. lia.
Qed.

Lemma history_entry_slot i s : history_entry i s = slot_line (history_buffer s) (history_index i s).
Proof. done. Qed.

Lemma remember_lines l p : Forall (fun l => l <> [] /\ Forall typeable l /\ (length l <= 63)%nat) p -> (length p <= 8)%nat -> Forall typeable l -> (length l <= 63)%nat ->
  Forall (fun l => l <> [] /\ Forall typeable l /\ (length l <= 63)%nat) (remember l p) /\ (length (remember l p) <= 8)%nat.
Proof.
  intros Hp Hn Hl Hlen. unfold remember. destruct (decide (l = [])); [done|]. destruct (decide (last p = Some l)); [done|]. split.
  - apply Forall_drop, Forall_app. split; [done|]. by apply Forall_singleton.
  - rewrite length_drop, length_app. cbn. lia.
Qed.

(** Remembering a new line: the ring below its capacity, and at it. *)
Lemma history_grows l p s : history_rep p s -> Forall typeable l -> (length l <= 63)%nat -> l <> [] -> (length p < 8)%nat ->
  forall s', history_buffer s' = alter (fun slot => copy_string slot l) (Z.to_nat (history_next s)) (history_buffer s) ->
    history_next s' = (history_next s + 1) mod 8 -> history_count s' = history_count s + 1 -> history_rep (p ++ [l]) s'.
Proof.
  intros [[Hn Hb] [Hc Hp] [Hnx Hnc] He Hls] Hl Hlen Hne Hlt s' Eb En Ec. assert (history_next s = Z.of_nat (length p)) as Enx by (rewrite Hnc; lia).
  split.
  - rewrite Eb. by apply slots_kept.
  - rewrite Ec, length_app. cbn. lia.
  - rewrite En, Ec. split; [apply Z.mod_pos_bound; lia|]. intros H8. rewrite Enx, Hc. apply Z.mod_small. lia.
  - intros i x Hi. rewrite history_entry_slot, Eb. assert (i < length (p ++ [l]))%nat as Hi' by (by eapply lookup_lt_Some). rewrite length_app in Hi'. cbn in Hi'.
    assert (history_index (Z.of_nat i) s' = Z.of_nat i) as ->.
    { unfold history_index. change SHELL_HISTORY_SIZE with 8. rewrite Ec. destruct (Z.ltb_spec (history_count s + 1) 8); [done|].
      rewrite En, Enx. assert (length p = 7%nat) as -> by lia. change ((Z.of_nat 7 + 1) mod 8) with 0. apply Z.mod_small. lia. }
    rewrite slot_written by (done || lia). rewrite Enx. destruct (Z.eqb_spec (Z.of_nat (length p)) (Z.of_nat i)) as [E|E].
    + assert (i = length p) as -> by lia. rewrite list_lookup_middle in Hi by done. congruence.
    + rewrite lookup_app_l in Hi by lia. rewrite <- (He i x Hi), history_entry_slot. f_equal. unfold history_index.
      change SHELL_HISTORY_SIZE with 8. destruct (Z.ltb_spec (history_count s) 8); [done|lia].
  - apply Forall_app. split; [done|]. by apply Forall_singleton.
Qed.

Lemma history_rotates l p s : history_rep p s -> Forall typeable l -> (length l <= 63)%nat -> l <> [] -> length p = 8%nat ->
  forall s', history_buffer s' = alter (fun slot => copy_string slot l) (Z.to_nat (history_next s)) (history_buffer s) ->
    history_next s' = (history_next s + 1) mod 8 -> history_count s' = history_count s -> history_rep (drop 1 (p ++ [l])) s'.
Proof.
  intros [[Hn Hb] [Hc Hp] [Hnx Hnc] He Hls] Hl Hlen Hne H8 s' Eb En Ec. split.
  - rewrite Eb. by apply slots_kept.
  - rewrite Ec, length_drop, length_app. cbn. lia.
  - rewrite En, Ec. split; [apply Z.mod_pos_bound; lia|lia].
  - intros i x Hi. rewrite history_entry_slot, Eb. assert (i < length (drop 1 (p ++ [l])))%nat as Hi' by (by eapply lookup_lt_Some).
    rewrite length_drop, length_app in Hi'. cbn [length] in Hi'. rewrite lookup_drop in Hi.
    assert (history_index (Z.of_nat i) s' = (history_next s + 1 + Z.of_nat i) mod 8) as ->.
    { unfold history_index. change SHELL_HISTORY_SIZE with 8. rewrite Ec. destruct (Z.ltb_spec (history_count s) 8); [lia|].
      rewrite En. by rewrite Zplus_mod_idemp_l. }
    pose proof (Z.mod_pos_bound (history_next s + 1 + Z.of_nat i) 8). rewrite slot_written by (done || lia).
    destruct (decide (i = 7%nat)) as [->|Hi7].
    + assert ((history_next s + 1 + Z.of_nat 7) mod 8 = history_next s) as ->.
      { replace (history_next s + 1 + Z.of_nat 7) with (history_next s + 1 * 8) by lia. rewrite Z.mod_add by lia. by apply Z.mod_small. }
      rewrite Z.eqb_refl. rewrite <- H8 in Hi at 1. replace (1 + 7)%nat with (length p) in Hi by lia. rewrite list_lookup_middle in Hi by done. congruence.
    + destruct (Z.eqb_spec (history_next s) ((history_next s + 1 + Z.of_nat i) mod 8)) as [E|E].
      { exfalso. pose proof (Z.div_mod (history_next s + 1 + Z.of_nat i) 8). lia. }
      rewrite lookup_app_l in Hi by lia. rewrite <- (He _ _ Hi), history_entry_slot. f_equal. unfold history_index.
      change SHELL_HISTORY_SIZE with 8. destruct (Z.ltb_spec (history_count s) 8); [lia|]. f_equal. lia.
  - apply Forall_drop, Forall_app. split; [done|]. by apply Forall_singleton.
Qed.

(** The fields of the line and the host are not those of the history. *)
Definition same_line s s' : Prop :=
  command_buffer s' = command_buffer s /\ command_length s' = command_length s /\ command_cursor s' = command_cursor s /\ host s' = host s.

Lemma history_add_spec l p s : history_rep p s -> Forall typeable l -> (length l <= 63)%nat ->
  history_rep (remember l p) (history_add l s) /\ same_line s (history_add l s).
Proof.
  intros Hh Hl Hlen. destruct l as [|c l']; [done|]. set (l := c :: l') in *. change (history_add l s) with
    (if (history_count s >? 0) && string_equals l (history_entry (history_count s - 1) s) then set_view (history_count s) s else
      let buffer := alter (fun slot => copy_string slot l) (Z.to_nat (history_next s)) (history_buffer s) in
      let next := (history_next s + 1) mod 8 in
      let count := if history_count s <? 8 then history_count s + 1 else history_count s in
      set_view count (set_history buffer count next s)).
  pose proof (hr_count _ _ Hh) as [Hc Hp]. unfold remember. rewrite decide_False by done.
  assert ((history_count s >? 0) && string_equals l (history_entry (history_count s - 1) s) = bool_decide (last p = Some l)) as ->.
  { destruct (Z.gtb_spec (history_count s) 0); cbn [andb].
    - destruct (last p) as [x|] eqn:El; [|apply last_None in El; subst; cbn in *; lia]. pose proof El as Ex. rewrite last_lookup in Ex.
      apply (hr_entries _ _ Hh) in Ex. replace (history_count s - 1) with (Z.of_nat (pred (length p))) by lia. rewrite Ex, string_equals_spec.
      apply bool_decide_ext. split; congruence.
    - destruct p; [done|cbn in *; lia]. }
  destruct (decide (last p = Some l)) as [E|E]; [rewrite bool_decide_true by done|rewrite bool_decide_false by done].
  { split; [|done]. by destruct Hh. }
  cbv zeta. split; [|done]. destruct (Z.ltb_spec (history_count s) 8).
  - replace (length p + 1 - 8)%nat with 0%nat by lia. rewrite drop_0. apply (history_grows l p s); try done; lia.
  - replace (length p + 1 - 8)%nat with 1%nat by lia. apply (history_rotates l p s); try done; lia.
Qed.

(** *** Completion *)

Lemma names_typed : Forall (fun name => Forall typeable name /\ (length name <= 8)%nat /\ name <> []) all_names.
Proof. apply (bool_decide_unpack _). by vm_compute. Qed.

Lemma prefix_matches_spec name text rest : Forall typeable text -> Forall typeable name ->
  command_prefix_matches name (text ++ 0 :: rest) (Z.of_nat (length text)) = bool_decide (text `prefix_of` name).
Proof.
  intros Ht Hn. unfold command_prefix_matches. apply bool_iff. rewrite forallb_forall, bool_decide_eq_true. split.
  - intros Hf. assert (forall i, (i < length text)%nat -> name !! i = text !! i) as Hi.
    { intros i Hi. specialize (Hf (Z.of_nat i)). rewrite <- list_elem_of_In, elem_of_seqZ in Hf. specialize (Hf ltac:(lia)). apply Z.eqb_eq in Hf.
      rewrite Nat2Z.id in Hf. unfold chr in Hf. rewrite lookup_app_l in Hf by done. destruct (lookup_lt_is_Some_2 text i Hi) as [c Hc].
      destruct (Forall_lookup_1 _ _ _ _ Ht Hc) as [? ?]. rewrite Hc in *. cbn in Hf. destruct (name !! i); cbn in Hf; [by subst|lia]. }
    exists (drop (length text) name). rewrite <- (take_drop (length text) name) at 1. f_equal. apply list_eq. intros i. destruct (decide (i < length text)%nat).
    + rewrite lookup_take_lt by done. by apply Hi.
    + rewrite lookup_take_ge, lookup_ge_None_2 by lia. done.
  - intros [u ->] i Hi. rewrite <- list_elem_of_In, elem_of_seqZ in Hi. apply Z.eqb_eq. unfold chr. by rewrite !lookup_app_l by lia.
Qed.

Lemma matches_completions b s : line_rep b [] s -> prefix_matches s = completions b.
Proof.
  intros [(rest & Hb & _) Hl _ Ht]. rewrite app_nil_r in Ht. unfold prefix_matches, completions. cbn [app length] in *. rewrite Nat.add_0_r in Hl.
  rewrite Hb, Hl. pose proof names_typed as Hn. induction all_names as [|name names IH]; [done|]. apply Forall_cons in Hn as [(Hn1 & _) Hn].
  cbn [List.filter]. rewrite prefix_matches_spec by done. destruct (bool_decide _); by rewrite (IH Hn).
Qed.

Lemma insert_text_becomes t : forall b s, line_rep b [] s -> (length b + length t <= 63)%nat -> Forall typeable t ->
  becomes (b ++ t) [] t s (shell_insert_text t s).
Proof.
  induction t as [|c t IH]; intros b s Hl Hn Ht; [rewrite app_nil_r; by apply becomes_refl|]. apply Forall_cons in Ht as [Hc Ht]. cbn [length] in Hn.
  unfold shell_insert_text. cbn [foldl]. pose proof (insert_becomes b [] c s Hl ltac:(cbn; lia) Hc) as Hi.
  pose proof (IH _ _ (proj1 Hi) ltac:(rewrite length_app; cbn; lia) Ht) as Hr. rewrite <- app_assoc in Hr. exact (becomes_trans _ _ _ _ _ _ _ _ _ Hi Hr).
Qed.

Lemma completion_target b a s : line_rep b a s -> command_line_is_completion_target s = bool_decide (~ (32 ∈ b ++ a \/ a <> [])).
Proof.
  intros Hl. pose proof Hl as [(rest & Hb & _) Hlen Hc _]. unfold command_line_is_completion_target.
  pose proof (chars_of_list [] (b ++ a) (0 :: rest)) as Hx. cbn [app length] in Hx. change (Z.of_nat 0) with 0 in Hx.
  rewrite Hlen, Hc, <- length_app. assert (existsb (fun i => buffer_char s i =? 32) (seqZ 0 (Z.of_nat (length (b ++ a)))) = bool_decide (32 ∈ b ++ a)) as ->.
  { assert (32 ∈ b ++ a <-> exists i, 32 = chr ((b ++ a) ++ 0 :: rest) (Z.to_nat i) /\ i ∈ seqZ 0 (Z.of_nat (length (b ++ a)))) as Hm.
    { rewrite <- list_elem_of_fmap. by rewrite Hx. }
    apply bool_iff. rewrite existsb_exists, bool_decide_eq_true, Hm. unfold buffer_char. rewrite Hb, app_assoc. split.
    - intros (i & Hi & E). exists i. apply Z.eqb_eq in E. by rewrite list_elem_of_In.
    - intros (i & E & Hi). exists i. rewrite list_elem_of_In in Hi. by rewrite <- E. }
  destruct (decide (32 ∈ b ++ a)) as [Hs|Hs]; [rewrite (bool_decide_true _ Hs)|rewrite (bool_decide_false _ Hs)].
  - symmetry. apply bool_decide_eq_false. tauto.
  - apply bool_iff. rewrite Z.eqb_eq, bool_decide_eq_true, length_app. destruct a; cbn; split; try lia; try tauto. intros []. by right.
Qed.

(** What completion writes. *)
Definition completion_text e : list Z :=
  if decide (32 ∈ line e \/ after e <> []) then [] else
  match completions (before e) with
  | [] => []
  | [name] => drop (length (before e)) name
  | names => ([10] ++ lit "Matches:") ++ concat ((fun name => [32] ++ name) <$> names) ++ [10] ++ SHELL_PROMPT ++ before e
  end.

Lemma say_names names s : wrote (concat ((fun name => [32] ++ name) <$> names)) s (foldl (fun s name => say ([32] ++ name) s) s names).
Proof.
  revert s. induction names as [|n names IH]; intros s; [apply wrote_nil|]. rewrite fmap_cons. cbn [concat foldl].
  eapply wrote_trans; [apply wrote_say|apply IH].
Qed.

Lemma list_matches_becomes b names s : line_rep b [] s ->
  becomes b [] (([10] ++ lit "Matches:") ++ concat ((fun name => [32] ++ name) <$> names) ++ [10] ++ SHELL_PROMPT ++ b) s
    (shell_redraw_current_line (say [10] (foldl (fun s name => say ([32] ++ name) s) (say ([10] ++ lit "Matches:") s) names))).
Proof.
  intros Hl. assert (wrote (([10] ++ lit "Matches:") ++ concat ((fun name => [32] ++ name) <$> names) ++ [10]) s
    (say [10] (foldl (fun s name => say ([32] ++ name) s) (say ([10] ++ lit "Matches:") s) names))) as Hw.
  { eapply wrote_trans; [apply wrote_say|]. eapply wrote_trans; [apply say_names|apply wrote_say]. }
  set (s1 := say [10] _) in *. clearbody s1. pose proof (wrote_becomes _ _ _ _ _ Hl Hw) as H1. unfold shell_redraw_current_line. cbv zeta.
  assert (wrote SHELL_PROMPT s1 (shell_prompt s1)) as Hp by (by exists 0). set (s2 := shell_prompt s1) in *. clearbody s2.
  pose proof (becomes_wrote _ _ _ _ _ _ _ _ _ H1 Hp (proj1 H1)) as H2. pose proof (say_all b [] s2 (proj1 H2)) as Ha. rewrite app_nil_r in Ha.
  set (s3 := say_range _ _ s2) in *. clearbody s3. pose proof (becomes_wrote _ _ _ _ _ _ _ _ _ H2 Ha (proj1 H2)) as H3.
  rewrite <- !app_assoc in H3. destruct H3 as (Hl3 & Hf3 & Hh3). rewrite <- !app_assoc. split; [|by split].
  assert (command_length s3 = Z.of_nat (length b)) as E by (rewrite (lr_length _ _ _ Hl3); cbn; lia). rewrite E.
  destruct (line_cursor b [] b [] s3 Hl3 eq_refl). by split.
Qed.

Definition completed (b : list Z) (names : list (list Z)) : list Z := match names with [name] => name | _ => b end.
Definition names_text (b : list Z) (names : list (list Z)) : list Z :=
  match names with
  | [] => []
  | [name] => drop (length b) name
  | names => ([10] ++ lit "Matches:") ++ concat ((fun name => [32] ++ name) <$> names) ++ [10] ++ SHELL_PROMPT ++ b
  end.

Lemma names_becomes b names s : line_rep b [] s ->
  Forall (fun name => b `prefix_of` name /\ Forall typeable name /\ (length name <= 8)%nat) names ->
  becomes (completed b names) [] (names_text b names) s
    (match names with
     | [] => s
     | [name] => shell_insert_text (drop (Z.to_nat (command_length s)) name) s
     | names =>
         let s := say ([10] ++ lit "Matches:") s in
         let s := foldl (fun s name => say ([32] ++ name) s) s names in
         shell_redraw_current_line (say [10] s)
     end).
Proof.
  intros Hl Hn. destruct names as [|name [|name' names]].
  - by apply becomes_refl.
  - apply Forall_singleton in Hn as ([u ->] & Ht & Hlen). cbn [completed names_text]. rewrite length_app in Hlen.
    rewrite (lr_length _ _ _ Hl). cbn [length]. rewrite Nat.add_0_r, Nat2Z.id, drop_app_length. apply Forall_app in Ht as [_ Ht].
    apply insert_text_becomes; [done|lia|done].
  - by apply list_matches_becomes.
Qed.

Lemma filter_fits b names : Forall (fun name => Forall typeable name /\ (length name <= 8)%nat /\ name <> []) names ->
  Forall (fun name => b `prefix_of` name /\ Forall typeable name /\ (length name <= 8)%nat) (List.filter (fun name => bool_decide (b `prefix_of` name)) names).
Proof.
  induction 1 as [|name names (Ht & Hlen & _) Hn IH]; [by constructor|]. cbn [List.filter]. case_bool_decide; [|done]. by constructor.
Qed.

Lemma completions_fit b : Forall (fun name => b `prefix_of` name /\ Forall typeable name /\ (length name <= 8)%nat) (completions b).
Proof. apply filter_fits, names_typed. Qed.

Lemma complete_becomes e s : line_rep (before e) (after e) s ->
  becomes (before (ed_complete e)) (after (ed_complete e)) (completion_text e) s (shell_autocomplete s) /\
  past (ed_complete e) = past e /\ view (ed_complete e) = view e /\ esc (ed_complete e) = esc e.
Proof.
  intros Hl. unfold ed_complete, completion_text, shell_autocomplete. rewrite (completion_target _ _ _ Hl). fold (line e).
  destruct (decide (32 ∈ line e \/ after e <> [])) as [Hd|Hd]; [rewrite bool_decide_false by tauto|rewrite bool_decide_true by done]; cbn [negb].
  { split; [by apply becomes_refl|done]. }
  assert (after e = []) as Ea by (destruct (after e); [done|]; destruct Hd; by right). rewrite Ea in Hl.
  rewrite (matches_completions _ _ Hl). pose proof (names_becomes (before e) (completions (before e)) s Hl (completions_fit _)) as Hb.
  revert Hb. generalize (completions (before e)). intros names Hb. destruct names as [|name [|name' names]]; (split; [|done]); rewrite ?Ea; exact Hb.
Qed.

(** *** Every character *)

Definition left_text e : list Z := if decide (before e = []) then [] else [8].
Definition delete_text e : list Z := match after e with _ :: a => redrawn a 1 | [] => [] end.
Definition previous_text e : list Z :=
  match view e with O => [] | S v => if decide (past e = []) then [] else replaced (before e) (after e) (default [] (past e !! v)) end.
Definition next_text e : list Z :=
  if (view e <? length (past e))%nat then replaced (before e) (after e) (default [] (past e !! S (view e))) else [].

(** What a character other than the end of a line makes the shell write. *)
Definition key_text (c : Z) e : list Z :=
  if c =? 0x1b then []
  else if c =? KEYBOARD_CHAR_HOME then replicate (length (before e)) 8
  else if c =? KEYBOARD_CHAR_LEFT then left_text e
  else if c =? KEYBOARD_CHAR_UP then previous_text e
  else if c =? KEYBOARD_CHAR_DELETE then delete_text e
  else if c =? KEYBOARD_CHAR_END then after e
  else if c =? KEYBOARD_CHAR_DOWN then next_text e
  else if c =? KEYBOARD_CHAR_RIGHT then take 1 (after e)
  else if c =? 9 then completion_text e
  else if (c =? 8) || (c =? 0x7f) then (if decide (before e = []) then [] else [8] ++ redrawn (after e) 1)
  else if (c <? 32) || (c >? 126) then []
  else if (63 <=? length (line e))%nat then too_long else inserted c (after e).
Definition escape_text (c : Z) e : list Z :=
  if esc e =? 1 then []
  else if esc e =? 2 then
    if c =? 68 then left_text e else if c =? 65 then previous_text e else if c =? 66 then next_text e else if c =? 67 then take 1 (after e)
    else if c =? 72 then replicate (length (before e)) 8 else if c =? 70 then after e else []
  else if c =? 126 then delete_text e else [].

(** What becomes of the host: a line is executed when its end is typed. *)
Definition ed_host (c : Z) e (w : W) : option W :=
  let c := if c =? 13 then 10 else c in
  if negb (esc e =? 0) then Some (kput (escape_text c e) w)
  else if c =? 10 then w ← shell_execute (line e) (kput [10] w); Some (kput SHELL_PROMPT w)
  else Some (kput (key_text c e) w).

(** A step of the editor, what it writes, and a step of the shell. *)
Definition keys e' (t : list Z) s s' : Prop := rep e' s' /\ host s' = kput t (host s).

Lemma rep_becomes e b a t s s' : rep e s -> becomes b a t s s' -> keys (ed_line b a e) t s s'.
Proof.
  intros [Hl [H1 H2 H3 H4 H5] Hv He] (Hl' & (F1 & F2 & F3 & F4 & F5) & Hh). split; [|done]. split; cbn [ed_line before after past view esc].
  - done.
  - split; rewrite ?F1, ?F2, ?F3; try done. intros i l Hi. rewrite <- (H4 i l Hi). unfold history_entry, history_index. by rewrite F1, F2, F3.
  - by rewrite F4.
  - by rewrite F5.
Qed.

Lemma ed_line_same e : ed_line (before e) (after e) e = e.
Proof. by destruct e. Qed.

Lemma rep_same e s : rep e s -> keys e [] s s.
Proof. intros Hr. split; [done|]. by rewrite kput_nil. Qed.

Lemma rep_escape e x s : rep e s -> 0 <= x <= 3 -> rep (ed_esc x e) (set_escape x s).
Proof. intros [[? ? ? ?] [? ? ? ? ?] Hv He] Hx. by split. Qed.

Lemma keys_escape e e' t x s s' : keys (ed_esc x e) t (set_escape x s) s' -> e' = ed_esc x e -> keys e' t s s'.
Proof. intros [Hr Hh] ->. by split. Qed.

Lemma keys_left e s : rep e s -> keys (ed_left e) (left_text e) s (cursor_left s).
Proof.
  intros Hr. pose proof (re_line _ _ Hr) as Hl. unfold ed_left, left_text. destruct (before e) as [|c b] eqn:Eb using rev_ind.
  - cbn. unfold cursor_left. rewrite (lr_cursor _ _ _ Hl). by apply rep_same.
  - clear IHb. rewrite last_snoc, length_app, Nat.add_comm. cbn [length Nat.add pred]. rewrite take_app_length. destruct (decide (b ++ [c] = [])) as [E|E]; [by destruct b|].
    apply rep_becomes; [done|]. by apply left_becomes.
Qed.
Lemma keys_right e s : rep e s -> keys (ed_right e) (take 1 (after e)) s (shell_move_right 1 s).
Proof.
  intros Hr. pose proof (right_becomes _ _ _ (re_line _ _ Hr)) as Hb. unfold ed_right. destruct (after e) as [|c a] eqn:Ea.
  - cbn [take drop] in *. rewrite app_nil_r in Hb. assert (becomes (before e) (after e) [] s (shell_move_right 1 s)) as Hb' by (by rewrite Ea).
    pose proof (rep_becomes _ _ _ _ _ _ Hr Hb') as Hk. by rewrite ed_line_same in Hk.
  - cbn [take drop] in Hb. by apply rep_becomes.
Qed.
Lemma keys_home e s : rep e s -> keys (ed_home e) (replicate (length (before e)) 8) s (shell_home s).
Proof. intros Hr. apply rep_becomes; [done|]. apply home_becomes, Hr. Qed.
Lemma keys_end e s : rep e s -> keys (ed_end e) (after e) s (shell_end s).
Proof. intros Hr. apply rep_becomes; [done|]. apply end_becomes, Hr. Qed.
Lemma keys_delete e s : rep e s -> keys (ed_delete e) (delete_text e) s (shell_delete s).
Proof.
  intros Hr. pose proof (re_line _ _ Hr) as Hl. unfold ed_delete, delete_text. destruct (after e) as [|x a] eqn:Ea.
  - unfold shell_delete. rewrite (lr_length _ _ _ Hl), (lr_cursor _ _ _ Hl), Z.geb_leb. cbn [length]. rewrite Nat.add_0_r, Z.leb_refl. by apply rep_same.
  - apply rep_becomes; [done|]. by apply (delete_becomes _ x).
Qed.
Lemma keys_backspace e s : rep e s -> keys (ed_backspace e) (if decide (before e = []) then [] else [8] ++ redrawn (after e) 1) s (shell_backspace s).
Proof.
  intros Hr. pose proof (re_line _ _ Hr) as Hl. unfold ed_backspace. destruct (before e) as [|c b] eqn:Eb using rev_ind.
  - cbn. unfold shell_backspace. rewrite (lr_cursor _ _ _ Hl). by apply rep_same.
  - clear IHb. destruct (decide (b ++ [c] = [])) as [E|E]; [by destruct b|]. rewrite length_app, Nat.add_comm. cbn [length Nat.add pred]. rewrite take_app_length.
    apply rep_becomes; [done|]. by apply (backspace_becomes b c).
Qed.

Lemma history_line p s i : history_rep p s -> Forall typeable (default [] (p !! i)) /\ (length (default [] (p !! i)) <= 63)%nat.
Proof.
  intros Hh. destruct (p !! i) as [l|] eqn:E; [|split; [constructor|cbn; lia]]. pose proof (hr_lines _ _ Hh) as Hl.
  by destruct (Forall_lookup_1 _ _ _ _ Hl E) as (_ & ? & ?).
Qed.

Lemma rep_view e v s : rep e s -> (v <= length (past e))%nat -> rep (ed_view v e) (set_view (Z.of_nat v) s).
Proof. intros [[? ? ? ?] [? ? ? ? ?] Hv He] Hle. by split. Qed.

Lemma keys_replace e v t s : rep e s -> (v <= length (past e))%nat -> Forall typeable t -> (length t <= 63)%nat ->
  keys (ed_line t [] (ed_view v e)) (replaced (before e) (after e) t) s (shell_replace_line t (set_view (Z.of_nat v) s)).
Proof.
  intros Hr Hv Ht Hlen. pose proof (rep_view e v s Hr Hv) as Hr'. destruct (rep_becomes _ _ _ _ _ _ Hr' (replace_becomes _ _ t _ (re_line _ _ Hr') Ht Hlen)) as [Hk Hh].
  by split.
Qed.

Lemma keys_previous e s : rep e s -> keys (ed_previous e) (previous_text e) s (shell_history_previous s).
Proof.
  intros Hr. pose proof (re_history _ _ Hr) as Hh. destruct (re_view _ _ Hr) as [Hv Hle]. destruct (hr_count _ _ Hh) as [Hc _].
  unfold shell_history_previous, ed_previous, previous_text. rewrite Hc, Hv. destruct (past e) as [|l p] eqn:Ep.
  { cbn. destruct (view e); by apply rep_same. }
  cbn [length]. destruct (Z.eqb_spec (Z.of_nat (S (length p))) 0); [lia|]. destruct (view e) as [|v] eqn:Ev; [cbn; by apply rep_same|].
  destruct (Z.eqb_spec (Z.of_nat (S v)) 0); [lia|]. cbv zeta. cbn [history_view set_view]. replace (Z.of_nat (S v) - 1) with (Z.of_nat v) by lia.
  destruct (decide (l :: p = [])); [done|]. rewrite <- Ep in *. destruct (history_line _ _ v Hh) as [Ht Hlen].
  destruct (lookup_lt_is_Some_2 (past e) v ltac:(lia)) as [x Hx]. pose proof (hr_entries _ _ Hh v x Hx) as He.
  change (history_entry (Z.of_nat v) (set_view (Z.of_nat v) s)) with (history_entry (Z.of_nat v) s). rewrite He, Hx in *. cbn [default] in *.
  apply keys_replace; [done|lia|done|done].
Qed.

Lemma keys_next e s : rep e s -> keys (ed_next e) (next_text e) s (shell_history_next s).
Proof.
  intros Hr. pose proof (re_history _ _ Hr) as Hh. destruct (re_view _ _ Hr) as [Hv Hle]. destruct (hr_count _ _ Hh) as [Hc _].
  unfold shell_history_next, ed_next, next_text. rewrite Hc, Hv, Z.geb_leb. destruct (Nat.ltb_spec (view e) (length (past e))) as [Hlt|Hge].
  - destruct (Z.eqb_spec (Z.of_nat (length (past e))) 0); [lia|]. destruct (Z.leb_spec (Z.of_nat (length (past e))) (Z.of_nat (view e))); [lia|].
    cbn [orb]. cbv zeta. cbn [history_view set_view history_count]. replace (Z.of_nat (view e) + 1) with (Z.of_nat (S (view e))) by lia. rewrite Hc.
    destruct (history_line _ _ (S (view e)) Hh) as [Ht Hlen]. destruct (Z.eqb_spec (Z.of_nat (S (view e))) (Z.of_nat (length (past e)))) as [E|E].
    + rewrite lookup_ge_None_2 in * by lia. cbn [default] in *. apply keys_replace; [done|lia|done|done].
    + destruct (lookup_lt_is_Some_2 (past e) (S (view e)) ltac:(lia)) as [x Hx]. pose proof (hr_entries _ _ Hh _ x Hx) as He.
      change (history_entry ?i (set_view ?v s)) with (history_entry i s). rewrite He, Hx in *. cbn [default] in *. apply keys_replace; [done|lia|done|done].
  - destruct (Z.leb_spec (Z.of_nat (length (past e))) (Z.of_nat (view e))); [|lia]. rewrite orb_true_r. by apply rep_same.
Qed.

Lemma keys_complete e s : rep e s -> keys (ed_complete e) (completion_text e) s (shell_autocomplete s).
Proof.
  intros Hr. destruct (complete_becomes e s (re_line _ _ Hr)) as (Hb & E1 & E2 & E3). pose proof (rep_becomes _ _ _ _ _ _ Hr Hb) as Hk.
  unfold ed_line in Hk. rewrite <- E1, <- E2, <- E3 in Hk. by destruct (ed_complete e).
Qed.

Lemma keys_insert c e s : rep e s -> typeable c ->
  keys (ed_insert c (ed_view (length (past e)) e)) (if (63 <=? length (line e))%nat then too_long else inserted c (after e)) s
    (shell_insert_char c (set_view (history_count s) s)).
Proof.
  intros Hr Hc. rewrite (proj1 (hr_count _ _ (re_history _ _ Hr))). pose proof (rep_view e (length (past e)) s Hr ltac:(lia)) as Hr'.
  set (s1 := set_view _ s) in *. unfold ed_insert. change (line (ed_view _ e)) with (line e). unfold line. rewrite length_app.
  pose proof (re_line _ _ Hr') as Hl. cbn [ed_view before after] in Hl. destruct (Nat.leb_spec 63 (length (before e) + length (after e))).
  - destruct (rep_becomes _ _ _ _ _ _ Hr' (too_long_becomes _ _ c _ Hl ltac:(lia))) as [Hk Hh]. by split.
  - destruct (rep_becomes _ _ _ _ _ _ Hr' (insert_becomes _ _ c _ Hl ltac:(lia) Hc)) as [Hk Hh]. by split.
Qed.

Definition Some_keys e' (t : list Z) s (r : option (shell W)) : Prop := exists s', r = Some s' /\ keys e' t s s'.

Lemma some_keys e' t s s' : keys e' t s s' -> Some_keys e' t s (Some s').
Proof. intros Hk. by exists s'. Qed.

Lemma escape_keys c e s : rep e s -> esc e <> 0 -> Some_keys (ed_escape c e) (escape_text c e) s (shell_handle_escape_char c s).
Proof.
  intros Hr He. destruct (re_esc _ _ Hr) as [Es Hb]. unfold shell_handle_escape_char, ed_escape, escape_text. rewrite Es.
  destruct (Z.eqb_spec (esc e) 0); [done|]. destruct (Z.eqb_spec (esc e) 1).
  { apply some_keys. destruct (c =? 91); (eapply keys_escape; [apply rep_same, rep_escape; [done|lia]|done]). }
  pose proof (rep_escape e 0 s Hr ltac:(lia)) as Hr0. destruct (Z.eqb_spec (esc e) 2).
  - cbv zeta. apply some_keys.
    destruct (c =? 68); [by destruct (keys_left _ _ Hr0)|]. destruct (c =? 65); [by destruct (keys_previous _ _ Hr0)|].
    destruct (c =? 66); [by destruct (keys_next _ _ Hr0)|]. destruct (c =? 67); [by destruct (keys_right _ _ Hr0)|].
    destruct (c =? 72); [by destruct (keys_home _ _ Hr0)|]. destruct (c =? 70); [by destruct (keys_end _ _ Hr0)|].
    destruct (c =? 51); [destruct (rep_same _ _ (rep_escape _ 3 _ Hr0 ltac:(lia)))|destruct (rep_same _ _ Hr0)]; by split.
  - cbv zeta. apply some_keys. destruct (c =? 126); [by destruct (keys_delete _ _ Hr0)|]. destruct (rep_same _ _ Hr0). by split.
Qed.

Lemma key_keys c e s : rep e s -> c <> 10 -> escape_state s = 0 -> esc e = 0 -> c <> 13 -> Some_keys (ed_key c e) (key_text c e) s (shell_handle_char c s).
Proof.
  intros Hr H10 Hes He H13. unfold shell_handle_char, shell_handle_escape_char, ed_key, key_text. destruct (Z.eqb_spec c 13); [done|]. rewrite Hes. cbn [Z.eqb].
  destruct (Z.eqb_spec c 10); [done|].
  destruct (c =? 27). { apply some_keys. destruct (rep_same _ _ (rep_escape e 1 s Hr ltac:(lia))). by split. }
  destruct (c =? KEYBOARD_CHAR_HOME); [by apply some_keys, keys_home|]. destruct (c =? KEYBOARD_CHAR_LEFT); [by apply some_keys, keys_left|].
  destruct (c =? KEYBOARD_CHAR_UP); [by apply some_keys, keys_previous|]. destruct (c =? KEYBOARD_CHAR_DELETE); [by apply some_keys, keys_delete|].
  destruct (c =? KEYBOARD_CHAR_END); [by apply some_keys, keys_end|]. destruct (c =? KEYBOARD_CHAR_DOWN); [by apply some_keys, keys_next|].
  destruct (c =? KEYBOARD_CHAR_RIGHT); [by apply some_keys, keys_right|]. destruct (c =? 9); [by apply some_keys, keys_complete|].
  destruct (_ || _); [by apply some_keys, keys_backspace|]. destruct (Z.ltb_spec c 32); [by apply some_keys, rep_same|].
  destruct (Z.gtb_spec c 126); [by apply some_keys, rep_same|]. cbn [orb]. apply some_keys, keys_insert; [done|]. split; lia.
Qed.

(** The end of a line: the line is remembered and executed, and an empty one follows. *)
Lemma enter_keys e s : rep e s -> esc e = 0 ->
  match shell_execute (line e) (kput [10] (host s)) with
  | Some w => exists s', shell_enter s = Some s' /\ rep (ed_enter e) s' /\ host s' = kput SHELL_PROMPT w
  | None => shell_enter s = None
  end.
Proof.
  intros Hr He. pose proof (re_line _ _ Hr) as [(rest & Hb & Hn) Hl Hc Ht]. unfold shell_enter. cbv zeta.
  assert (set_line (<[Z.to_nat (command_length s) := 0]> (command_buffer s)) (command_length s) (command_cursor s) s = s) as ->.
  { assert (<[Z.to_nat (command_length s) := 0]> (command_buffer s) = command_buffer s) as ->; [|by destruct s].
    rewrite Hb, Hl, Nat2Z.id, app_assoc, <- length_app. apply insert_at. }
  assert (length (line e) <= 63)%nat as Hlen by (unfold line; rewrite length_app; lia).
  assert (history_rep (past e) (say [10] s)) as Hh by (by destruct (re_history _ _ Hr)).
  assert (cstr (command_buffer (say [10] s)) = line e) as Ecmd by (cbn; rewrite Hb, app_assoc; by apply cstr_typed).
  rewrite Ecmd. destruct (history_add_spec (line e) (past e) (say [10] s) Hh Ht Hlen) as [Hh' (E1 & E2 & E3 & E4)].
  set (s1 := history_add (line e) (say [10] s)) in *. clearbody s1.
  assert (cstr (command_buffer s1) = line e) as -> by (rewrite E1; exact Ecmd). rewrite E4. cbn [say host set_host].
  destruct (shell_execute (line e) (kput [10] (host s))) as [w|]; [|done]. eexists. split; [done|]. split; [|done].
  destruct (remember_lines (line e) (past e) (hr_lines _ _ (re_history _ _ Hr)) (proj2 (hr_count _ _ (re_history _ _ Hr))) Ht Hlen) as [_ Hp8].
  assert (line_rep (before e) (after e) s1) as Hl1.
  { split; [exists rest; rewrite E1; by split|by rewrite E2|by rewrite E3|done]. }
  unfold ed_enter. split; cbn [before after past view esc].
  - destruct (line_cleared _ _ _ Hl1). by split.
  - by destruct Hh'.
  - split; [|done]. exact (proj1 (hr_count _ _ Hh')).
  - done.
Qed.

Lemma char_keys c e s : rep e s ->
  match ed_host c e (host s) with
  | Some w => exists s', shell_handle_char c s = Some s' /\ rep (ed_char c e) s' /\ host s' = w
  | None => shell_handle_char c s = None
  end.
Proof.
  intros Hr. destruct (re_esc _ _ Hr) as [Es _]. unfold ed_host, ed_char. destruct (Z.eqb_spec (esc e) 0) as [He|He]; cbn [negb].
  - destruct (decide (c = 10 \/ c = 13)) as [Hc|Hc].
    + assert ((if c =? 13 then 10 else c) = 10) as E by (destruct Hc as [->| ->]; done). rewrite E. cbn [Z.eqb Pos.eqb].
      assert (shell_handle_char c s = shell_enter s) as ->.
      { unfold shell_handle_char, shell_handle_escape_char. rewrite Es, He, E. done. }
      pose proof (enter_keys e s Hr He) as Hk. by destruct (shell_execute (line e) (kput [10] (host s))).
    + destruct (Z.eqb_spec c 13) as [|H13]; [tauto|]. destruct (Z.eqb_spec c 10) as [|H10]; [tauto|].
      destruct (key_keys c e s Hr H10 ltac:(congruence) He H13) as (s' & E & Hk & Hh). by exists s'.
  - set (c' := if c =? 13 then 10 else c). destruct (escape_keys c' e s Hr He) as (s' & E & Hk & Hh). exists s'. split; [|done].
    unfold shell_handle_char. fold c'. by rewrite E.
Qed.

(** A whole input. *)
Fixpoint ed_run (cs : list Z) e (w : W) : option (editor * W) :=
  match cs with
  | [] => Some (e, w)
  | c :: cs => w ← ed_host c e w; ed_run cs (ed_char c e) w
  end.

Lemma run_keys cs : forall e s, rep e s ->
  match ed_run cs e (host s) with
  | Some (e', w) => exists s', shell_input cs s = Some s' /\ rep e' s' /\ host s' = w
  | None => shell_input cs s = None
  end.
Proof.
  induction cs as [|c cs IH]; intros e s Hr; cbn [ed_run shell_input]; [by exists s|].
  pose proof (char_keys c e s Hr) as Hc. destruct (ed_host c e (host s)) as [w|]; cbn [mbind option_bind].
  - destruct Hc as (s1 & -> & Hr1 & <-). exact (IH _ _ Hr1).
  - by rewrite Hc.
Qed.

Definition ed_empty : editor := Editor [] [] [] 0 0.

Lemma init_rep w : rep ed_empty (shell_init (shell_zero w)) /\ host (shell_init (shell_zero w)) = kput SHELL_PROMPT (kput (lit "SaturnOS shell ready" ++ [10]) w).
Proof.
  split; [|done]. split; cbn [ed_empty before after past view esc].
  - split; [|done..]. exists (replicate 63 0). by split.
  - split; [split; [done|exact (Forall_replicate (fun slot : list Z => length slot = 64%nat) 8 (replicate 64 0) eq_refl)]|split; [done|cbn; lia]|by split|intros i l Hi; by rewrite lookup_nil in Hi|by apply Forall_nil].
  - by split.
  - by split.
Qed.

(** (C12) The command line is an editor: whatever is typed from the start of the shell on -
    characters, arrows and escape sequences, deletions, the history, completions, ends of
    lines - its buffer, length, cursor and history ring are those of the abstract editor
    (the text around the cursor, and the last eight lines, none empty or repeating the one
    before), every line ended is executed, once and as it was typed, and what is written in
    between is what the editor says. In particular no index leaves the 64-byte buffers. *)
Theorem shell_is_an_editor cs w :
  let s0 := shell_init (shell_zero w) in
  match ed_run cs ed_empty (host s0) with
  | Some (e, w') => exists s, shell_input cs s0 = Some s /\ rep e s /\ host s = w'
  | None => shell_input cs s0 = None
  end.
Proof. intros s0. apply run_keys. apply init_rep. Qed.

End rep.
