(* ===== verification/ShellScreen.v ===== *)
(** * The command line is what the screen shows

    What the editor writes, put on the 50 x 25 grid of the text console: the row of the
    cursor holds the prompt and the line, as long as they fit in it. *)

From S2P Require Import Prelude Keyboard Framebuffer FramebufferProps Shell ShellProps.

Implicit Types (g : screen) (e : editor).

(** ** Rows *)

Definition put (t : list Z) g : screen := foldl scr_putc g t.

Lemma put_app t u g : put (t ++ u) g = put u (put t g).
Proof. apply foldl_app. Qed.

(** The cursor's row holds [txt], and the rows below are blank. *)
Record row_is (k : nat) (txt : list Z) g : Prop := {
  ri_row : 0 <= row g < 25;
  ri_column : column g = Z.of_nat k;
  ri_length : length txt = 50%nat;
  ri_cells : forall c, 0 <= c < 50 -> txt !! Z.to_nat c = Some (cells g (row g) c);
  ri_below : forall r c, row g < r < 25 -> 0 <= c < 50 -> cells g r c = 32;
}.

Lemma scr_putc_typeable c g : typeable c -> scr_putc g c = scr_char c g.
Proof.
  intros [Hc Hc']. unfold scr_putc. destruct (Z.eqb_spec c 13), (Z.eqb_spec c 10), (Z.eqb_spec c 8), (Z.eqb_spec c 127), (Z.eqb_spec c 9); try lia. done.
Qed.

Lemma row_char k txt c g : row_is k txt g -> typeable c -> (k < 49)%nat -> row_is (S k) (<[k := c]> txt) (scr_putc g c).
Proof.
  intros [Hr Hc Hl Hx Hb] Ht Hk. rewrite scr_putc_typeable by done. unfold scr_char. rewrite Hc, Z.geb_leb. destruct (Z.leb_spec 50 (Z.of_nat k + 1)); [lia|].
  split; cbn [row column cells].
  - done.
  - lia.
  - by rewrite length_insert.
  - intros x Hx'. rewrite Z.eqb_refl. cbn [andb]. destruct (Z.eqb_spec x (Z.of_nat k)) as [->|].
    + rewrite Nat2Z.id. by apply list_lookup_insert_eq; lia.
    + rewrite list_lookup_insert_ne by lia. by apply Hx.
  - intros r x Hr' Hx'. destruct (Z.eqb_spec r (row g)); [lia|]. by apply Hb.
Qed.

Lemma row_put t : forall k txt g, row_is k txt g -> Forall typeable t -> (k + length t <= 49)%nat -> row_is (k + length t) (write_at txt k t) (put t g).
Proof.
  induction t as [|c t IH]; intros k txt g Hr Ht Hk.
  { rewrite write_at_nil, Nat.add_0_r. exact Hr. }
  cbn [length] in *. apply Forall_cons in Ht as [Hc Ht]. pose proof (ri_length _ _ _ Hr) as Hl.
  pose proof (IH _ _ _ (row_char k txt c g Hr Hc ltac:(lia)) Ht ltac:(lia)) as H. rewrite <- copy_loop_write_at in H by (rewrite length_insert; lia).
  rewrite <- copy_loop_write_at by (cbn; lia). cbn [copy_loop]. by replace (k + S (length t))%nat with (S k + length t)%nat by lia.
Qed.

Lemma row_left n : forall k txt g, row_is k txt g -> (n <= k)%nat -> row_is (k - n) txt (put (replicate n 8) g).
Proof.
  induction n as [|n IH]; intros k txt g Hr Hn; [by rewrite Nat.sub_0_r|].
  cbn [replicate]. unfold put. cbn [foldl]. fold (put (replicate n 8) (scr_putc g 8)). replace (k - S n)%nat with (pred k - n)%nat by lia.
  apply IH; [|lia]. destruct Hr as [H1 H2 H3 H4 H5]. split; [done| |done|done|done]. cbn. rewrite H2. lia.
Qed.

(** ** The prompt and the line *)

Definition pad (l : list Z) : list Z := SHELL_PROMPT ++ l ++ replicate (42 - length l) 32.

Lemma length_pad l : (length l <= 42)%nat -> length (pad l) = 50%nat.
Proof. intros Hl. unfold pad. rewrite !length_app, length_replicate. change (length SHELL_PROMPT) with 8%nat. lia. Qed.

Lemma pad_spaces l n : (length l + n <= 42)%nat -> pad (l ++ replicate n 32) = pad l.
Proof. intros Hl. unfold pad. rewrite length_app, length_replicate, <- app_assoc, <- replicate_add. do 4 f_equal. lia. Qed.

Lemma pad_write b x y : (length x <= length y)%nat -> (length b + length y <= 42)%nat -> write_at (pad (b ++ x)) (8 + length b) y = pad (b ++ y).
Proof.
  intros Hxy Hl. unfold write_at, pad. rewrite !length_app. rewrite <- !app_assoc.
  rewrite (app_assoc SHELL_PROMPT b). rewrite (app_assoc SHELL_PROMPT b). assert (length (SHELL_PROMPT ++ b) = 8 + length b)%nat as Hp by (by rewrite length_app).
  rewrite take_app_le by lia. rewrite take_ge by lia. rewrite drop_app_ge by lia. rewrite Hp. rewrite drop_app_ge by lia. rewrite drop_replicate.
  do 3 f_equal. lia.
Qed.

Definition shows_line e g : Prop := row_is (8 + length (before e)) (pad (line e)) g.

(** The line fits, with the cell after it for the cursor. *)
Definition short (l : list Z) : Prop := (length l <= 41)%nat.

Lemma shown_left n (b a : list Z) g : row_is (8 + length b) (pad a) g -> (n <= length b)%nat -> row_is (8 + (length b - n)) (pad a) (put (replicate n 8) g).
Proof. intros Hr Hn. replace (8 + (length b - n))%nat with (8 + length b - n)%nat by lia. apply row_left; [done|lia]. Qed.

Lemma shown_put (b x y : list Z) g : row_is (8 + length b) (pad (b ++ x)) g -> Forall typeable y -> (length x <= length y)%nat -> (length b + length y <= 41)%nat ->
  row_is (8 + length (b ++ y)) (pad (b ++ y)) (put y g).
Proof.
  intros Hr Hy Hxy Hl. rewrite <- (pad_write b x y) by lia. rewrite length_app. replace (8 + (length b + length y))%nat with (8 + length b + length y)%nat by lia.
  apply row_put; [done|done|lia].
Qed.

Lemma typeable_spaces n : Forall typeable (replicate n 32).
Proof. by apply Forall_replicate. Qed.

Lemma shown_back (b y : list Z) g : row_is (8 + length (b ++ y)) (pad (b ++ y)) g -> row_is (8 + length b) (pad (b ++ y)) (put (replicate (length y) 8) g).
Proof. intros Hr. pose proof (shown_left (length y) (b ++ y) (b ++ y) g Hr) as Hs. rewrite length_app in Hs. replace (length b + length y - length y)%nat with (length b) in Hs by lia. apply Hs. lia. Qed.

(** The rest of the line redrawn over what was there. *)
Lemma shown_redrawn (b a x : list Z) n g : row_is (8 + length b) (pad (b ++ x)) g -> Forall typeable a -> (length x <= length a + n)%nat -> (length b + length a + n <= 41)%nat ->
  row_is (8 + length b) (pad (b ++ a)) (put (redrawn a n) g).
Proof.
  intros Hr Ha Hx Hl. unfold redrawn. rewrite app_assoc, put_app. set (y := a ++ replicate n 32).
  assert (length y = length a + n)%nat as Hy by (unfold y; by rewrite length_app, length_replicate). rewrite <- Hy.
  rewrite <- (pad_spaces (b ++ a) n) by (rewrite length_app; lia). rewrite <- app_assoc. fold y. apply shown_back. apply (shown_put b x); [done| |lia|lia].
  apply Forall_app. split; [done|]. apply typeable_spaces.
Qed.

(** ** A fresh row *)

Definition fresh g : Prop := row_is 0 (replicate 50 32) g.

(** The rows below the cursor's are blank. *)
Record below_blank g : Prop := {
  bb_row : 0 <= row g < 25;
  bb_column : 0 <= column g < 50;
  bb_cells : forall r c, row g < r < 25 -> 0 <= c < 50 -> cells g r c = 32;
}.

Lemma row_below k txt g : row_is k txt g -> (k < 50)%nat -> below_blank g.
Proof. intros [Hr Hc Hl Hx Hb] Hk. split; [done|lia|done]. Qed.

Lemma newline_fresh g : below_blank g -> fresh (scr_newline g).
Proof.
  intros [Hr Hc Hb]. unfold scr_newline. rewrite Z.geb_leb. destruct (Z.leb_spec 25 (row g + 1)); (split; cbn [row column cells]; [lia|done|done| |]).
  - intros c Hc'. rewrite lookup_replicate_2 by lia. done.
  - intros r c Hr'. lia.
  - intros c Hc'. rewrite lookup_replicate_2 by lia. by rewrite Hb by lia.
  - intros r c Hr' Hc'. apply Hb; lia.
Qed.

Lemma fresh_below g : fresh g -> below_blank g.
Proof. intros Hf. eapply row_below; [exact Hf|lia]. Qed.

Lemma char_below c g : below_blank g -> below_blank (scr_char c g).
Proof.
  intros [Hr Hc Hb]. unfold scr_char. rewrite Z.geb_leb. set (cs := fun r k => _). assert (forall r x, row g < r < 25 -> 0 <= x < 50 -> cs r x = 32) as Hcs.
  { intros r x Hr' Hx. unfold cs. destruct (Z.eqb_spec r (row g)); [lia|]. by apply Hb. }
  destruct (Z.leb_spec 50 (column g + 1)); [apply fresh_below, newline_fresh|]; (split; cbn [row column cells]; [done|lia|done]).
Qed.

Lemma putc_below c g : below_blank g -> below_blank (scr_putc g c).
Proof.
  intros Hg. pose proof Hg as [Hr Hc Hb]. unfold scr_putc. destruct (c =? 13); [by split|]. destruct (c =? 10); [by apply fresh_below, newline_fresh|].
  destruct (_ || _); [split; cbn; [done|lia|done]|]. destruct (c =? 9); [do 4 apply char_below; done|by apply char_below].
Qed.

Lemma put_below t g : below_blank g -> below_blank (put t g).
Proof. revert g. induction t as [|c t IH]; intros g Hg; [done|]. by apply IH, putc_below. Qed.

(** Any text and the end of a line. *)
Lemma line_end_fresh t g : below_blank g -> fresh (put (t ++ [10]) g).
Proof. intros Hg. rewrite put_app. by apply newline_fresh, put_below. Qed.

Lemma prompt_shown g : fresh g -> shows_line ed_empty (put SHELL_PROMPT g).
Proof. intros Hf. unfold shows_line. pose proof (row_put SHELL_PROMPT 0 _ g Hf) as Hp. apply Hp; [by apply (bool_decide_unpack _)|cbn; lia]. Qed.

(** ** Every character *)

Definition typed_line e : Prop := Forall typeable (line e) /\ Forall (Forall typeable) (past e).

Lemma typed_parts e : typed_line e -> Forall typeable (before e) /\ Forall typeable (after e).
Proof. intros [Ht _]. by apply Forall_app in Ht. Qed.
Lemma typed_past e i : typed_line e -> Forall typeable (default [] (past e !! i)).
Proof. intros [_ Hp]. destruct (past e !! i) eqn:E; [exact (Forall_lookup_1 _ _ _ _ Hp E)|constructor]. Qed.

Lemma seen_replaced e t g : shows_line e g -> typed_line e -> short (line e) -> Forall typeable t -> short t ->
  row_is (8 + length t) (pad t) (put (replaced (before e) (after e) t) g).
Proof.
  intros Hs Hty He Ht Hst. unfold short, line in *. rewrite length_app in He. unfold replaced. rewrite !put_app.
  pose proof (shown_left (length (before e)) (before e) (line e) g Hs ltac:(lia)) as H1. rewrite Nat.sub_diag in H1.
  assert (row_is (8 + length (@nil Z)) (pad ([] ++ line e)) (put (replicate (length (before e)) 8) g)) as H1' by exact H1.
  pose proof (shown_redrawn [] t (line e) (length (before e) + length (after e) - length t) _ H1' Ht) as H2. unfold line in H2. rewrite length_app in H2.
  specialize (H2 ltac:(lia) ltac:(cbn; lia)). pose proof (shown_put [] t t _ H2 Ht ltac:(lia) ltac:(cbn; lia)) as H3. exact H3.
Qed.

Lemma seen_left e g : shows_line e g -> shows_line (ed_left e) (put (left_text e) g).
Proof.
  intros Hs. unfold ed_left, left_text. destruct (before e) as [|c b _] eqn:Eb using rev_ind; [done|].
  rewrite last_snoc, length_app, Nat.add_comm. cbn [length Nat.add pred]. rewrite take_app_length. destruct (decide (b ++ [c] = [])) as [E|E]; [by destruct b|].
  unfold shows_line, line in *. cbn [ed_line before after]. rewrite Eb in Hs. pose proof (shown_left 1 (b ++ [c]) _ g Hs ltac:(rewrite length_app; cbn; lia)) as H1.
  rewrite length_app in H1. cbn [length] in H1. replace (length b + 1 - 1)%nat with (length b) in H1 by lia. by rewrite <- app_assoc in H1.
Qed.

Lemma seen_right e g : shows_line e g -> typed_line e -> short (line e) -> shows_line (ed_right e) (put (take 1 (after e)) g).
Proof.
  intros Hs Ht Hl. destruct (typed_parts _ Ht) as [_ Ha]. unfold short, line in Hl. rewrite length_app in Hl. unfold ed_right, shows_line, line in *.
  destruct (after e) as [|c a] eqn:Ea; [cbn [take]; by rewrite Ea|]. cbn [ed_line before after take]. apply Forall_cons in Ha as [Hc _]. cbn [length] in Hl.
  rewrite length_app. cbn [length]. rewrite <- app_assoc. cbn [app].
  pose proof (row_put [c] _ _ g Hs ltac:(by apply Forall_singleton) ltac:(cbn; lia)) as Hp. cbn [length] in Hp.
  replace (8 + (length (before e) + 1))%nat with (8 + length (before e) + 1)%nat by lia.
  assert (write_at (pad (before e ++ c :: a)) (8 + length (before e)) [c] = pad (before e ++ c :: a)) as Hw; [|by rewrite Hw in Hp].
  rewrite <- copy_loop_write_at by (rewrite length_pad; cbn; rewrite ?length_app; cbn; lia). cbn [copy_loop]. apply list_insert_id.
  unfold pad. rewrite lookup_app_r by (cbn; lia). change (length SHELL_PROMPT) with 8%nat. replace (8 + length (before e) - 8)%nat with (length (before e)) by lia.
  rewrite <- app_assoc. cbn [app]. by apply list_lookup_middle.
Qed.

Lemma seen_home e g : shows_line e g -> shows_line (ed_home e) (put (replicate (length (before e)) 8) g).
Proof. intros Hs. pose proof (shown_left (length (before e)) (before e) (line e) g Hs ltac:(lia)) as H1. by rewrite Nat.sub_diag in H1. Qed.

Lemma seen_end e g : shows_line e g -> typed_line e -> short (line e) -> shows_line (ed_end e) (put (after e) g).
Proof.
  intros Hs Ht Hl. destruct (typed_parts _ Ht) as [_ Ha]. unfold short, line in Hl. rewrite length_app in Hl.
  unfold shows_line, ed_end, line. cbn [ed_line before after]. rewrite app_nil_r. by apply (shown_put (before e) (after e)); [..|lia].
Qed.

Lemma seen_delete e g : shows_line e g -> typed_line e -> short (line e) -> shows_line (ed_delete e) (put (delete_text e) g).
Proof.
  intros Hs Ht Hl. destruct (typed_parts _ Ht) as [_ Ha]. unfold short, line in Hl. rewrite length_app in Hl. unfold ed_delete, delete_text, shows_line, line in *.
  destruct (after e) as [|c a] eqn:Ea; [by rewrite Ea|]. cbn [ed_line before after length] in *. apply Forall_cons in Ha as [_ Ha].
  apply (shown_redrawn _ a (c :: a)); [done|done|cbn; lia|lia].
Qed.

Lemma seen_backspace e g : shows_line e g -> typed_line e -> short (line e) ->
  shows_line (ed_backspace e) (put (if decide (before e = []) then [] else [8] ++ redrawn (after e) 1) g).
Proof.
  intros Hs Ht Hl. destruct (typed_parts _ Ht) as [_ Ha]. unfold short, line in Hl. rewrite length_app in Hl. unfold ed_backspace.
  destruct (before e) as [|c b _] eqn:Eb using rev_ind; [done|]. destruct (decide (b ++ [c] = [])) as [E|E]; [by destruct b|].
  rewrite length_app, Nat.add_comm. cbn [length Nat.add pred]. rewrite take_app_length, put_app. rewrite length_app in Hl. cbn [length] in Hl.
  unfold shows_line, line in *. cbn [ed_line before after]. rewrite Eb in Hs. pose proof (shown_left 1 (b ++ [c]) _ g Hs ltac:(rewrite length_app; cbn; lia)) as H1.
  rewrite length_app in H1. cbn [length] in H1. replace (length b + 1 - 1)%nat with (length b) in H1 by lia. rewrite <- app_assoc in H1.
  apply (shown_redrawn b (after e) ([c] ++ after e)); [exact H1|done|cbn; lia|lia].
Qed.

Lemma seen_previous e g : shows_line e g -> typed_line e -> short (line e) -> short (line (ed_previous e)) -> shows_line (ed_previous e) (put (previous_text e) g).
Proof.
  intros Hs Ht Hl Hl'. unfold ed_previous, previous_text in *. destruct (view e) as [|v]; [done|]. destruct (decide (past e = [])); [done|].
  unfold short, line in Hl'. cbn [ed_line before after] in Hl'. rewrite app_nil_r in Hl'. unfold shows_line, line. cbn [ed_line before after]. rewrite app_nil_r.
  apply seen_replaced; try done. by apply typed_past.
Qed.

Lemma seen_next e g : shows_line e g -> typed_line e -> short (line e) -> short (line (ed_next e)) -> shows_line (ed_next e) (put (next_text e) g).
Proof.
  intros Hs Ht Hl Hl'. unfold ed_next, next_text in *. destruct (view e <? length (past e))%nat; [|done].
  unfold short, line in Hl'. cbn [ed_line before after] in Hl'. rewrite app_nil_r in Hl'. unfold shows_line, line. cbn [ed_line before after]. rewrite app_nil_r.
  apply seen_replaced; try done. by apply typed_past.
Qed.

Lemma seen_insert c e g : shows_line e g -> typed_line e -> short (line e) -> short (line (ed_insert c e)) -> typeable c ->
  shows_line (ed_insert c e) (put (if (63 <=? length (line e))%nat then too_long else inserted c (after e)) g).
Proof.
  intros Hs Ht Hl Hl' Hc. destruct (typed_parts _ Ht) as [_ Ha]. unfold short in Hl. unfold ed_insert in *. destruct (Nat.leb_spec 63 (length (line e))); [lia|].
  unfold short, line in Hl'. cbn [ed_line before after] in Hl'. rewrite !length_app in Hl'. cbn [length] in Hl'.
  unfold shows_line, line. cbn [ed_line before after]. unfold inserted. rewrite app_assoc, put_app.
  assert (row_is (8 + length ((before e ++ [c]) ++ after e)) (pad ((before e ++ [c]) ++ after e)) (put ([c] ++ after e) g)) as H1.
  { rewrite <- app_assoc. apply (shown_put (before e) (after e)); [exact Hs|by constructor|cbn; lia|cbn; lia]. }
  by apply shown_back.
Qed.

Lemma seen_names b names g : row_is (8 + length b) (pad b) g -> Forall typeable b -> short b -> short (completed b names) ->
  Forall (fun name => b `prefix_of` name /\ Forall typeable name /\ (length name <= 8)%nat) names ->
  row_is (8 + length (completed b names)) (pad (completed b names)) (put (names_text b names) g).
Proof.
  intros Hs Hb Hl Hl' Hn. unfold short in *. destruct names as [|name [|name' names]]; cbn [completed names_text] in *.
  - exact Hs.
  - apply Forall_singleton in Hn as ([u ->] & Ht & Hlen). rewrite drop_app_length. apply Forall_app in Ht as [_ Hu]. rewrite length_app in Hl'.
    apply (shown_put b []); [by rewrite app_nil_r|done|cbn; lia|lia].
  - rewrite (app_assoc (concat _)), (app_assoc (_ ++ _)), put_app. rewrite (app_assoc (_ ++ _) (concat _)).
    pose proof (prompt_shown _ (line_end_fresh (([10] ++ lit "Matches:") ++ concat ((fun name => [32] ++ name) <$> name :: name' :: names)) g (row_below _ _ _ Hs ltac:(lia)))) as Hp.
    rewrite put_app. apply (shown_put [] []); [exact Hp|done|cbn; lia|cbn; lia].
Qed.

Lemma seen_complete e g : shows_line e g -> typed_line e -> short (line e) -> short (line (ed_complete e)) -> shows_line (ed_complete e) (put (completion_text e) g).
Proof.
  intros Hs Ht Hl. destruct (typed_parts _ Ht) as [Hb _]. unfold ed_complete, completion_text. destruct (decide (32 ∈ line e \/ after e <> [])) as [Hd|Hd]; [done|].
  assert (after e = []) as Ea by (destruct (after e); [done|]; destruct Hd; by right). unfold shows_line, line in *. rewrite Ea, app_nil_r in *.
  pose proof (seen_names (before e) (completions (before e)) g Hs Hb Hl) as Hn. pose proof (completions_fit (before e)) as Hf. revert Hn Hf.
  generalize (completions (before e)). intros names Hn Hf. destruct names as [|name [|name' names]]; cbn [ed_line before after]; rewrite ?Ea, ?app_nil_r; intros Hl'; by apply Hn.
Qed.

Definition unbreak (c : Z) : Z := if c =? 13 then 10 else c.

(** The text of a character that does not end a line. *)
Definition char_text (c : Z) e : list Z := if esc e =? 0 then key_text (unbreak c) e else escape_text (unbreak c) e.
Definition ends_line (c : Z) e : bool := (esc e =? 0) && (unbreak c =? 10).

Lemma shows_esc x e g : shows_line (ed_esc x e) g <-> shows_line e g.
Proof. done. Qed.

Lemma seen_key c e g : c <> 10 -> shows_line e g -> typed_line e -> short (line e) -> short (line (ed_key c e)) -> shows_line (ed_key c e) (put (key_text c e) g).
Proof.
  intros H10 Hs Ht Hl. unfold ed_key, key_text. destruct (c =? 27); [done|]. destruct (c =? KEYBOARD_CHAR_HOME); [by intros; apply seen_home|].
  destruct (c =? KEYBOARD_CHAR_LEFT); [by intros; apply seen_left|]. destruct (c =? KEYBOARD_CHAR_UP); [by apply seen_previous|].
  destruct (c =? KEYBOARD_CHAR_DELETE); [by intros; apply seen_delete|]. destruct (c =? KEYBOARD_CHAR_END); [by intros; apply seen_end|].
  destruct (c =? KEYBOARD_CHAR_DOWN); [by apply seen_next|]. destruct (c =? KEYBOARD_CHAR_RIGHT); [by intros; apply seen_right|].
  destruct (Z.eqb_spec c 10); [done|]. destruct (c =? 9); [by apply seen_complete|]. destruct ((c =? 8) || (c =? 127)); [by intros; apply seen_backspace|].
  destruct (Z.ltb_spec c 32); [done|]. destruct (Z.gtb_spec c 126); [done|]. cbn [orb]. intros Hl'.
  apply (seen_insert c (ed_view (length (past e)) e) g); done.
Qed.

Lemma seen_escape c e g : shows_line e g -> typed_line e -> short (line e) -> short (line (ed_escape c e)) -> shows_line (ed_escape c e) (put (escape_text c e) g).
Proof.
  intros Hs Ht Hl. unfold ed_escape, escape_text. destruct (esc e =? 1); [by destruct (c =? 91)|].
  pose proof (proj2 (shows_esc 0 e g) Hs) as Hs0. destruct (esc e =? 2).
  - cbv zeta. destruct (c =? 68); [intros _; exact (seen_left (ed_esc 0 e) g Hs0)|]. destruct (c =? 65); [exact (seen_previous (ed_esc 0 e) g Hs0 Ht Hl)|].
    destruct (c =? 66); [exact (seen_next (ed_esc 0 e) g Hs0 Ht Hl)|]. destruct (c =? 67); [intros _; exact (seen_right (ed_esc 0 e) g Hs0 Ht Hl)|].
    destruct (c =? 72); [intros _; exact (seen_home (ed_esc 0 e) g Hs0)|]. destruct (c =? 70); [intros _; exact (seen_end (ed_esc 0 e) g Hs0 Ht Hl)|].
    by destruct (c =? 51).
  - destruct (c =? 126); [intros _; exact (seen_delete (ed_esc 0 e) g Hs0 Ht Hl)|done].
Qed.

(** ** The host's screen *)

(** What is written is put on the screen, and a command started on a fresh row leaves the
    cursor on one. *)
Class ScreenHost (W : Type) `{ShellHost W} := {
  screen_of : W -> screen -> Prop;
  screen_kput : forall t w g, screen_of w g -> screen_of (kput t w) (put t g);
  screen_execute : forall l w g w', screen_of w g -> fresh g -> shell_execute l w = Some w' -> exists g', screen_of w' g' /\ fresh g';
}.

Section host.
Context {W : Type} `{Hh : ShellHost W} `{!ConsoleHost W} `{!ScreenHost W}.
Implicit Types (s : shell W) (w : W).

Lemma rep_typed e s : rep e s -> typed_line e.
Proof.
  intros Hr. split; [apply (lr_chars _ _ _ (re_line _ _ Hr))|]. eapply Forall_impl; [apply (hr_lines _ _ (re_history _ _ Hr))|]. by intros l (_ & Hl & _).
Qed.

Lemma seen_char c e g w w' : screen_of w g -> shows_line e g -> typed_line e -> short (line e) -> short (line (ed_char c e)) -> ed_host c e w = Some w' ->
  exists g', screen_of w' g' /\ shows_line (ed_char c e) g'.
Proof.
  intros Hg Hs Ht Hl Hl' Hw. unfold ed_host, ed_char in *. fold (unbreak c) in *. destruct (Z.eqb_spec (esc e) 0) as [E|E]; cbn [negb] in Hw.
  - destruct (Z.eqb_spec (unbreak c) 10) as [E10|E10].
    + destruct (shell_execute (line e) (kput [10] w)) as [w1|] eqn:Ex; [|done]. injection Hw as <-.
      destruct (screen_execute _ _ _ _ (screen_kput _ _ _ Hg) (line_end_fresh [] g (row_below _ _ _ Hs ltac:(unfold short, line in *; rewrite length_app in *; lia))) Ex) as (g1 & Hg1 & Hf).
      exists (put SHELL_PROMPT g1). split; [by apply screen_kput|]. rewrite E10. by apply prompt_shown.
    + injection Hw as <-. eexists. split; [by apply screen_kput|]. by apply seen_key.
  - injection Hw as <-. eexists. split; [by apply screen_kput|]. by apply seen_escape.
Qed.

(** The line fits the row all along. *)
Fixpoint fits (cs : list Z) e : Prop :=
  short (line e) /\ match cs with [] => True | c :: cs => fits cs (ed_char c e) end.
Definition ed_all (cs : list Z) e : editor := foldl (fun e c => ed_char c e) e cs.

Lemma fits_short cs e : fits cs e -> short (line e).
Proof. destruct cs; by intros [? _]. Qed.

Lemma seen_run cs : forall e g s s', rep e s -> screen_of (host s) g -> shows_line e g -> fits cs e -> shell_input cs s = Some s' ->
  rep (ed_all cs e) s' /\ exists g', screen_of (host s') g' /\ shows_line (ed_all cs e) g'.
Proof.
  induction cs as [|c cs IH]; intros e g s s' Hr Hg Hs [Hl Hf] Hi; cbn [shell_input] in Hi.
  { injection Hi as <-. split; [done|]. by exists g. }
  pose proof (char_keys c e s Hr) as Hc. destruct (ed_host c e (host s)) as [w|] eqn:Ew; [|by rewrite Hc in Hi].
  destruct Hc as (s1 & E1 & Hr1 & Hw). rewrite E1 in Hi. cbn [mbind option_bind] in Hi.
  destruct (seen_char c e g (host s) w Hg Hs (rep_typed _ _ Hr) Hl (fits_short _ _ Hf) Ew) as (g1 & Hg1 & Hs1). subst w.
  exact (IH _ _ _ _ Hr1 Hg1 Hs1 Hf Hi).
Qed.

(** (C16) What is typed is what is seen: from the start of the shell on a screen whose lower
    rows are blank, whatever is typed - editing inside the line, recalling the history,
    completing, listing the completions, executing commands that end their output with a
    line - the row of the cursor shows the prompt, the line being edited and blanks, with
    the cursor on its place in the line, as long as the line has at most 41 characters: the
    text console has 50 columns, 8 of them the prompt's and one the cursor's. *)
Theorem typing_is_seen cs g w s' : screen_of w g -> below_blank g -> fits cs ed_empty ->
  shell_input cs (shell_init (shell_zero w)) = Some s' ->
  let e' := ed_all cs ed_empty in
  rep e' s' /\ exists g', screen_of (host s') g' /\ shows_line e' g'.
Proof.
  intros Hg Hb Hf Hi e'. destruct (init_rep w) as [Hr Hw].
  apply (seen_run cs ed_empty (put SHELL_PROMPT (put (lit "SaturnOS shell ready" ++ [10]) g)) _ _ Hr); [|by apply prompt_shown, line_end_fresh|done|done].
  rewrite Hw. by apply screen_kput, screen_kput.
Qed.
End host.

(** ** The text console as the host *)

(** The frame buffer shows the grid; a command repeats its line. *)
#[export] Instance echo_host : ShellHost fb := {|
  kput t s := framebuffer_console_write t s;
  shell_execute l s := Some (framebuffer_console_write (l ++ [10]) s);
|}.

#[export, program] Instance echo_console : ConsoleHost fb.
Next Obligation. done. Qed.
Next Obligation. intros t u w. cbn. revert w. induction t as [|c t IH]; intros w; [done|]. cbn. apply IH. Qed.

#[export, program] Instance echo_screen : ScreenHost fb := {| screen_of s g := shows true g s |}.
Next Obligation. intros t s g Hs. cbn in *. destruct (decide (t = [])) as [->|Hne]; [done|]. by apply (write_shows t true). Qed.
Next Obligation.
  intros l s g s' Hs Hf Hx. cbn in *. injection Hx as <-. exists (put (l ++ [10]) g). split; [|by apply line_end_fresh, fresh_below].
  apply (write_shows (l ++ [10]) true); [done|]. by destruct l.
Qed.
