(* ===== verification/ShellExamples.v ===== *)
(** * The shell at work

    Lines typed into a shell whose commands are only noted down, and on the frame buffer;
    and a line too long for its row. *)

From S2P Require Import Prelude Keyboard Framebuffer FramebufferProps Shell ShellProps ShellScreen.

(** ** A host that notes the lines *)

Record notes := Notes { output : list Z; executed : list (list Z) }.

#[local] Instance notes_host : ShellHost notes := {|
  kput t w := Notes (output w ++ t) (executed w);
  shell_execute l w := if decide (l = lit "panic") then None else Some (Notes (output w) (executed w ++ [l]));
|}.
#[local, program] Instance notes_console : ConsoleHost notes.
Next Obligation. intros []. cbn. by rewrite app_nil_r. Qed.
Next Obligation. intros t u []. cbn. by rewrite app_assoc. Qed.

(** [hp], two characters to the left, [e] and [l] put in between, and the line ended; the
    history recalled with an escape sequence and ended again; a completion of [vers]; and
    [panic], which does not come back, after the history's older line is looked at. *)
Definition keys_typed : list Z :=
  lit "hp" ++ [KEYBOARD_CHAR_LEFT] ++ lit "el" ++ [10] ++ [27; 91; 65; 10] ++ lit "vers" ++ [9; 10].

Lemma shell_is_an_editor_witness :
  (exists s, shell_input keys_typed (shell_init (shell_zero (Notes [] []))) = Some s /\
     executed (host s) = [lit "help"; lit "help"; lit "version"] /\
     rep (Editor [] [] [lit "help"; lit "version"] 2 0) s) /\
  shell_input (lit "panic" ++ [10]) (shell_init (shell_zero (Notes [] []))) = None.
Proof.
  split.
  - pose proof (shell_is_an_editor keys_typed (Notes [] [])) as Hs. cbv zeta in Hs.
    assert (exists out, ed_run keys_typed ed_empty (host (shell_init (shell_zero (Notes [] [])))) =
      Some (Editor [] [] [lit "help"; lit "version"] 2 0, Notes out [lit "help"; lit "help"; lit "version"])) as [out E] by (eexists; vm_compute; reflexivity).
    rewrite E in Hs. destruct Hs as (s & Hs & Hr & Hh). exists s. split; [exact Hs|]. split; [by rewrite Hh|exact Hr].
  - pose proof (shell_is_an_editor (lit "panic" ++ [10]) (Notes [] [])) as Hs. cbv zeta in Hs.
    assert (ed_run (lit "panic" ++ [10]) ed_empty (host (shell_init (shell_zero (Notes [] [])))) = None) as E by (vm_compute; reflexivity).
    rewrite E in Hs. exact Hs.
Defined.

(** ** On the frame buffer *)

(** A mistake corrected in the middle of a line, an earlier line, and a completion. *)
Definition keys_seen : list Z := lit "mkdr /a" ++ [27; 91; 68; 27; 91; 68; 27; 91; 68; 27; 91; 68] ++ lit "i" ++ [10] ++ lit "he".

Lemma echo_returns c e (w : fb) : exists w', ed_host c e w = Some w'.
Proof. unfold ed_host. cbn. repeat case_match; by eexists. Qed.
Lemma echo_runs cs : forall e (w : fb), exists r, ed_run cs e w = Some r.
Proof.
  induction cs as [|c cs IH]; intros e w; cbn [ed_run]; [by eexists|]. destruct (echo_returns c e w) as [w' ->]. cbn [mbind option_bind]. apply IH.
Qed.

Lemma echo_shell cs (w : fb) : exists s, shell_input cs (shell_init (shell_zero w)) = Some s.
Proof.
  destruct (init_rep w) as [Hr _]. pose proof (run_keys cs ed_empty _ Hr) as Hk.
  destruct (echo_runs cs ed_empty (host (shell_init (shell_zero w)))) as [[e' w'] E]. rewrite E in Hk. destruct Hk as (s & -> & _). by exists s.
Qed.

Lemma blank_below : below_blank blank.
Proof. by split. Qed.

Definition fb_ready : fb := Fb (fun _ => 0) false 1 0 0 0 0.

Lemma shown_he g e : shows_line (Editor (lit "he") [] e 1 0) g ->
  column g = 10 /\ cells g (row g) 7 = 32 /\ cells g (row g) 8 = 104 /\ cells g (row g) 9 = 101 /\ cells g (row g) 10 = 32.
Proof.
  intros [_ Hc _ Hx _]. split; [exact Hc|].
  assert (Some 32 = Some (cells g (row g) 7)) as [= <-] by exact (Hx 7 ltac:(lia)). assert (Some 104 = Some (cells g (row g) 8)) as [= <-] by exact (Hx 8 ltac:(lia)).
  assert (Some 101 = Some (cells g (row g) 9)) as [= <-] by exact (Hx 9 ltac:(lia)). by assert (Some 32 = Some (cells g (row g) 10)) as [= <-] by exact (Hx 10 ltac:(lia)).
Qed.

Lemma typing_is_seen_witness :
  exists s, shell_input keys_seen (shell_init (shell_zero (framebuffer_console_init fb_ready))) = Some s /\
    rep (Editor (lit "he") [] [lit "mkdir /a"] 1 0) s /\
    exists g, shows true g (host s) /\ column g = 10 /\ cells g (row g) 7 = 32 /\ cells g (row g) 8 = 104 /\ cells g (row g) 9 = 101 /\ cells g (row g) 10 = 32.
Proof.
  destruct (init_shows fb_ready ltac:(done)) as [Hshow _]. revert Hshow. generalize (framebuffer_console_init fb_ready). intros w Hshow.
  destruct (echo_shell keys_seen w) as [s Hs]. exists s. split; [exact Hs|].
  assert (fits keys_seen ed_empty) as Hfit by (unfold short; vm_compute; repeat split; lia).
  assert (screen_of w blank) as Hscreen by exact Hshow.
  destruct (typing_is_seen (W := fb) keys_seen blank w s Hscreen blank_below Hfit Hs) as [Hr (g & Hg & Hl)].
  assert (ed_all keys_seen ed_empty = Editor (lit "he") [] [lit "mkdir /a"] 1 0) as E by (vm_compute; reflexivity). rewrite E in Hr, Hl.
  split; [exact Hr|]. exists g. split; [exact Hg|]. exact (shown_he g _ Hl).
Defined.

(** ** A line too long for its row *)

(** The grid itself as the host. *)
#[local] Instance grid_host : ShellHost screen := {| kput := put; shell_execute l g := Some g |}.

(** Forty-five characters and as many backspaces: the line is empty again, but the row above
    still shows the forty-two characters that fitted in it, and the cursor is on the row
    below, as a backspace never leaves its row. *)
Lemma long_line_misdrawn :
  exists s, shell_input (replicate 45 97 ++ replicate 45 8) (shell_init (shell_zero blank)) = Some s /\
    command_length s = 0 /\ column (host s) = 0 /\ row (host s) = 2 /\
    forallb (fun c => cells (host s) 1 c =? 97) (seqZ 8 42) = true.
Proof. eexists. split; [vm_compute; reflexivity|]. vm_compute. done. Qed.
