(* ===== verification/Input.v ===== *)
(** * The keyboard task ([kernel/input/keyboard_input.c])

    The kernel thread that reads characters from the keyboard driver and hands them to the
    shell, and yields when there is none. [yields] is what happens in the host while the
    thread is away; it may never come back. *)

From S2P Require Import Prelude Keyboard KeyboardProps Shell ShellProps Task Scheduler.

(** ** Definitions *)

Record input (D U W : Type) := Input {
  i_char : Z;
  i_keyboard : keyboard D U;
  i_shell : shell W;
}.
Arguments Input {D U W}. Arguments i_char {D U W}. Arguments i_keyboard {D U W}. Arguments i_shell {D U W}.

Section ops.
Context `{KbdLayout} {D : Type} `{!KbdBus D} {U : Type} `{!SerialPort U} {W : Type} `{!ShellHost W} (yields : W -> option W).
Implicit Types t : input D U W.

(** The body of the loop; [fuel] bounds the loops of the driver. *)
Definition keyboard_input_round (fuel : nat) t : option (input D U W) :=
  '(r, c, k) ← keyboard_read_char fuel (i_char t) (i_keyboard t);
  if truth r then s ← shell_handle_char c (i_shell t); Some (Input c k s)
  else w ← yields (host (i_shell t)); Some (Input c k (set_host w (i_shell t))).

Fixpoint keyboard_input_rounds (fuel n : nat) t : option (input D U W) :=
  match n with
  | O => Some t
  | S n => t ← keyboard_input_round fuel t; keyboard_input_rounds fuel n t
  end.

(** The first rounds of the task; [c] is what its local variable holds. *)
Definition keyboard_input_task (fuel n : nat) (c : Z) (k : keyboard D U) (s : shell W) : option (input D U W) :=
  keyboard_input_rounds fuel n (Input c k (shell_init s)).

(** [entry] is the address of the task. *)
Definition keyboard_input_init `{CodeLayout} (entry : Z) (k : keyboard D U) (s : sys) : keyboard D U * sys :=
  (keyboard_init k, (scheduler_create_kernel_thread (Some (lit "keyboard")) entry s).2).
End ops.

(** ** From the keys to the editor *)

(** What the characters of two sources become when they are read one at a time. *)
Inductive interleaved {A} : list A -> list A -> list A -> Prop :=
  | inter_nil : interleaved [] [] []
  | inter_left x l r m : interleaved l r m -> interleaved (x :: l) r (x :: m)
  | inter_right x l r m : interleaved l r m -> interleaved l (x :: r) (x :: m).

Section claims.
Context `{KbdLayout} {D : Type} `{!KbdBus D} `{!ServingKeyboard D} {U : Type} `{!SerialPort U} `{!ServingPort U}.
Context {W : Type} `{!ShellHost W} `{!ConsoleHost W} (yields : W -> option W).
Implicit Types (t : input D U W) (k : keyboard D U).

(** The abstract task: the editor gets a character, or the processor is given away. *)
Fixpoint task_run (tr : list (option Z)) (e : editor) (w : W) : option (editor * W) :=
  match tr with
  | [] => Some (e, w)
  | Some c :: tr => w ← ed_host c e w; task_run tr (ed_char c e) w
  | None :: tr => w ← yields w; task_run tr e w
  end.

(** The characters [cs] were read between the states [k] and [k'] of the keyboard. *)
Definition was_read k k' (cs : list Z) : Prop :=
  exists es keys serial arrived, unread k = es ++ unread k' /\ decode (keyboard_shift k) es = (keyboard_shift k', keys) /\
    received (k_port k) ++ arrived = serial ++ received (k_port k') /\ interleaved keys serial cs.

Lemma was_read_refl k : was_read k k [].
Proof. exists [], [], [], []. split_and!; [done..|by rewrite app_nil_r|constructor]. Qed.

Lemma interleaved_app {A} (l r m : list A) l' r' m' : interleaved l r m -> interleaved l' r' m' -> interleaved (l ++ l') (r ++ r') (m ++ m').
Proof. induction 1; intros Hi; cbn; [done|constructor; auto..]. Qed.

Lemma was_read_trans k1 k2 k3 cs cs' : was_read k1 k2 cs -> was_read k2 k3 cs' -> was_read k1 k3 (cs ++ cs').
Proof.
  intros (es & ks & ser & arr & Hu & Hd & Hs & Hi) (es' & ks' & ser' & arr' & Hu' & Hd' & Hs' & Hi').
  exists (es ++ es'), (ks ++ ks'), (ser ++ ser'), (arr ++ arr'). split_and!.
  - by rewrite Hu, Hu', app_assoc.
  - by rewrite decode_app, Hd, Hd'.
  - by rewrite app_assoc, Hs, <- app_assoc, Hs', app_assoc.
  - by apply interleaved_app.
Qed.

(** A call of the driver, as the task sees it. *)
Lemma round_read fuel out k : keyboard_ok k -> (length (unread k) <= fuel)%nat ->
  exists r c k', keyboard_read_char fuel out k = Some (r, c, k') /\ keyboard_ok k' /\ (length (unread k') <= length (unread k))%nat /\
    was_read k k' (if truth r then [c] else []).
Proof.
  intros Hk Hf. destruct (read_char_spec fuel out k Hk Hf) as (r & c & k' & es & E & Hk' & Hu & Hc). exists r, c, k'. split; [exact E|]. split; [exact Hk'|].
  split; [rewrite Hu, length_app; lia|]. destruct Hc as [(-> & _ & Hd & Hp)|(Hd & _ & new & Hc)].
  - exists es, [c], [], []. split_and!; [done|done|by rewrite Hp, app_nil_r|repeat constructor].
  - destruct (received (k_port k)) as [|b rest] eqn:Er.
    + destruct Hc as (-> & _ & Hn). exists es, [], [], new. split_and!; [done|done|by rewrite Er, Hn|constructor].
    + destruct Hc as (-> & -> & Hn). exists es, [], [b], new. split_and!; [done|done|by rewrite Er, Hn|repeat constructor].
Qed.

Lemma rep_host w e (s : shell W) : rep e s -> rep e (set_host w s).
Proof. intros [[? ? ? ?] [? ? ?] ? ?]. split; [by split|by split|done|done]. Qed.

Lemma rounds_run fuel n : forall e t, keyboard_ok (i_keyboard t) -> (length (unread (i_keyboard t)) <= fuel)%nat -> rep e (i_shell t) ->
  exists tr, (length tr <= n)%nat /\
    match keyboard_input_rounds yields fuel n t with
    | Some t' => length tr = n /\ keyboard_ok (i_keyboard t') /\ was_read (i_keyboard t) (i_keyboard t') (omap id tr) /\
        exists e', task_run tr e (host (i_shell t)) = Some (e', host (i_shell t')) /\ rep e' (i_shell t')
    | None => task_run tr e (host (i_shell t)) = None
    end.
Proof.
  induction n as [|n IH]; intros e t Hk Hf Hr; cbn [keyboard_input_rounds].
  { exists []. split; [done|]. split; [done|]. split; [done|]. split; [apply was_read_refl|]. by exists e. }
  unfold keyboard_input_round. destruct (round_read fuel (i_char t) (i_keyboard t) Hk Hf) as (r & c & k & -> & Hk' & Hl & Hread).
  cbn [mbind option_bind]. destruct (truth r).
  - pose proof (char_keys c e (i_shell t) Hr) as Hc. destruct (ed_host c e (host (i_shell t))) as [w|] eqn:Ew.
    + destruct Hc as (s & -> & Hs & Hh). cbn [mbind option_bind]. destruct (IH (ed_char c e) (Input c k s) Hk' ltac:(cbn [i_keyboard]; lia) Hs) as (tr & Hn & Ht).
      exists (Some c :: tr). split; [cbn [length]; lia|]. cbn [i_keyboard i_shell task_run] in *. rewrite Ew, <- Hh. cbn [mbind option_bind].
      destruct (keyboard_input_rounds _ _ _ _) as [t'|]; [|exact Ht]. destruct Ht as (Hln & Hk2 & Hr2 & He). split; [cbn [length]; lia|]. split; [done|].
      split; [exact (was_read_trans _ _ _ _ _ Hread Hr2)|exact He].
    + rewrite Hc. cbn [mbind option_bind]. exists [Some c]. split; [cbn [length]; lia|]. cbn [task_run]. by rewrite Ew.
  - destruct (yields (host (i_shell t))) as [w|] eqn:Ew; cbn [mbind option_bind].
    + destruct (IH e (Input c k (set_host w (i_shell t))) Hk' ltac:(cbn [i_keyboard]; lia) (rep_host w e _ Hr)) as (tr & Hn & Ht).
      exists (None :: tr). split; [cbn [length]; lia|]. cbn [i_keyboard i_shell task_run] in *. rewrite Ew. cbn [mbind option_bind].
      destruct (keyboard_input_rounds _ _ _ _) as [t'|]; [|exact Ht]. destruct Ht as (Hln & Hk2 & Hr2 & He). split; [cbn [length]; lia|]. split; [done|].
      split; [exact (was_read_trans _ _ _ _ _ Hread Hr2)|exact He].
    + exists [None]. split; [cbn [length]; lia|]. cbn [task_run]. by rewrite Ew.
Qed.

(** (C17) What is typed is what the editor edits: from its start on, after any number of
    rounds, the keyboard task has taken some key events off the front of those typed and
    some bytes off the front of those received, and the shell's state is that of the
    abstract editor after the characters they stand for, each given to it once, those of
    either source in order; the lines ended were executed and the processor was given away
    in between. The task stops only in a command, or while it has given the processor away,
    that never comes back. *)
Theorem keys_reach_the_editor fuel n c k w : keyboard_ok k -> (length (unread k) <= fuel)%nat ->
  let s0 := shell_zero w in
  let w0 := host (shell_init s0) in
  exists tr, (length tr <= n)%nat /\
    match keyboard_input_task yields fuel n c k s0 with
    | Some t => length tr = n /\ keyboard_ok (i_keyboard t) /\ was_read k (i_keyboard t) (omap id tr) /\
        exists e, task_run tr ed_empty w0 = Some (e, host (i_shell t)) /\ rep e (i_shell t)
    | None => task_run tr ed_empty w0 = None
    end.
Proof. intros Hk Hf s0 w0. apply (rounds_run fuel n ed_empty (Input c k (shell_init s0)) Hk Hf). apply init_rep. Qed.
End claims.
