(* ===== verification/InputExamples.v ===== *)
(** * A line typed at the keyboard

    The keyboard and the serial port of the keyboard's example, and the shell that notes its
    lines. *)

From S2P Require Import Prelude Virtio Keyboard KeyboardProps KeyboardExamples Shell ShellProps ShellExamples Input.

#[local] Existing Instance kbd_layout0.
#[local] Existing Instance typist_mmio.
#[local] Existing Instance typist_bus.
#[local] Existing Instance typist_serving.
#[local] Existing Instance bytes_port.
#[local] Existing Instance bytes_serving.
#[local] Existing Instance notes_host.
#[local] Existing Instance notes_console.

(** "Hi" on the keyboard and "!" on the serial port; in the fourth round nothing is left. *)
Lemma keys_reach_the_editor_witness :
  exists t, keyboard_input_task Some 16 4 0 keyboard1 (shell_zero (Notes [] [])) = Some t /\ cstr (command_buffer (i_shell t)) = lit "Hi!" /\
    exists tr e, length tr = 4%nat /\ was_read keyboard1 (i_keyboard t) (omap id tr) /\ rep e (i_shell t).
Proof.
  destruct (keyboard_input_task Some 16 4 0 keyboard1 (shell_zero (Notes [] []))) as [t|] eqn:E; [|vm_compute in E; discriminate].
  exists t. split; [reflexivity|]. split; [vm_compute in E; injection E as <-; reflexivity|].
  pose proof (keys_reach_the_editor Some 16 4 0 keyboard1 (Notes [] [])) as Hk. cbv zeta in Hk. rewrite E in Hk.
  destruct Hk as (tr & _ & Hl & _ & Hr & e & _ & He).
  - exact keyboard1_ok.
  - vm_compute. lia.
  - exists tr, e. exact (conj Hl (conj Hr He)).
Defined.
