(* ===== verification/Reports.v ===== *)
(** * Reports of the components (the [*_dump_*] functions)

    What the kernel's components print about themselves, for the shell's commands and at
    start-up: each report is the list of its calls of [kprintf], in order, computed from the
    state. A field that is a character array is printed up to its terminator or its end. *)

From S2P Require Import Prelude PageAllocator Pmm Heap BlockDevice Block Sfs Vfs Mmu AddressSpace Task User Scheduler Syscall Vm Console.

(** ** Definitions *)

(** A call of [kprintf]: a format that ends in a newline, and the arguments. *)
Local Abbreviation line := (list Z * list arg)%type.
Definition row (fmt : string) (args : list arg) : line := (lit fmt ++ [10], args).
Definition yes_no (flag : bool) : arg := ArgStr (Some (if flag then lit "yes" else lit "no")).
Definition name_arg (name : list Z) : arg := ArgStr (Some name).

(** *** Memory and disks *)

Definition pmm_dump_stats `{VmLayout} (p : pmm) : list line :=
  [row "PMM RAM  : 0x%x - 0x%x" [ArgInt PMM_RAM_BASE; ArgInt PMM_RAM_END];
   row "PMM page : %d bytes" [ArgInt PMM_PAGE_SIZE];
   row "PMM pages: total=%d used=%d free=%d" [ArgInt pmm_total_pages; ArgInt (pmm_used_pages p); ArgInt (pmm_free_pages p)];
   row "PMM kern : 0x%x - 0x%x" [ArgInt kernel_start; ArgInt kernel_end];
   row "PMM ramfb: 0x%x - 0x%x" [ArgInt RAMFB_RESERVED_BASE; ArgInt RAMFB_RESERVED_END]].

Definition heap_dump_stats {P} (h : heap P) : option (list line) :=
  free ← heap_free_bytes h;
  overhead ← heap_overhead_bytes h;
  Some
    [row "Heap pages: %d" [ArgInt (heap_page_count h)];
     row "Heap range: 0x%x - 0x%x" [ArgInt (heap_region_start h); ArgInt (heap_region_end h)];
     row "Heap bytes: total=%d used=%d free=%d overhead=%d" [ArgInt (heap_total_bytes h); ArgInt (heap_used_bytes h); ArgInt free; ArgInt overhead]].

(** [heap_self_test] with what it prints. *)
Definition heap_self_test_report `{PageAllocator P} (h : heap P) : option (list line * heap P) :=
  before ← heap_dump_stats h;
  '(small, h) ← kmalloc 64 h;
  '(medium, h) ← kzalloc 128 h;
  during ← heap_dump_stats h;
  h ← kfree small h;
  h ← kfree medium h;
  after ← heap_dump_stats h;
  Some
    ([row "Heap self-test start" []] ++ before ++
     [row "kmalloc(64)  = 0x%x" [ArgInt small]; row "kzalloc(128) = 0x%x" [ArgInt medium]] ++ during ++
     [row "Heap self-test freed allocations" []] ++ after, h).

Definition block_dump_stats {V} `{VirtioBlk V} (b : block V) : list line :=
  let t := stats b in
  [row "Block device: %s sectors=%d sector_size=%d capacity=%d KB"
     [name_arg (if truth (use_virtio b) then lit "virtio-blk" else lit "ramdisk"); ArgInt (block_sector_count b); ArgInt BLOCK_SECTOR_SIZE;
      ArgInt ((block_sector_count b *! BLOCK_SECTOR_SIZE) / 1024)];
   row "  reads=%d sectors=%d writes=%d sectors=%d rejected=%d"
     [ArgInt (reads t); ArgInt (read_sectors t); ArgInt (writes t); ArgInt (written_sectors t); ArgInt (Block.rejected t)];
   row "  self_test=%s" [name_arg (if truth (self_test_passed t) then lit "passed" else lit "pending")]].

Definition sfs_dump {B} (s : sfs B) : list line :=
  row "SaturnFS: state=%s files=%d max_file=%d"
    [name_arg (if truth (mounted s) then lit "mounted" else lit "unavailable"); ArgInt SFS_MAX_FILES; ArgInt SFS_MAX_FILE_SIZE] ::
  (if negb (truth (mounted s)) then [] else
   e ← entries (directory s);
   if truth (Z.land (flags e) SFS_ENTRY_USED)
   then [row "  %s size=%d sector=%d checksum=0x%x" [name_arg (path e); ArgInt (size e); ArgInt (start_sector e); ArgInt (e_checksum e)]] else []).

Definition vfs_dump_files {B} (v : vfs B) : list line :=
  row "RAM filesystem: dirs=%d files=%d capacity=%d" [ArgInt (dir_count v); ArgInt (file_count v); ArgInt VFS_MAX_NODES] ::
  (n ← nodes v;
   if truth (n_used n)
   then [row "  %s%s size=%d" [name_arg (n_path n); name_arg (if n_kind n =? RAMFS_DIRECTORY then lit "/" else []); ArgInt (n_size n)]] else []) ++
  [row "Mount: /disk -> SaturnFS" []] ++ sfs_dump (disk v).

(** *** System calls *)

Definition call_row (number : Z) (names : string) : line := row ("  %d %s args: " ++ names)%string [ArgInt number; name_arg (syscall_name number)].

Definition syscall_dump_stats (t : syscall_stats) : list line :=
  let calls n := ArgInt (default 0 (calls t !! Z.to_nat (n - 1))) in
  [row "Syscalls:" [];
   call_row SYSCALL_WRITE "fd, buffer, length";
   call_row SYSCALL_EXIT "code";
   call_row SYSCALL_YIELD "none";
   call_row SYSCALL_OPEN "path, length";
   call_row SYSCALL_READ "fd, buffer, length";
   call_row SYSCALL_CLOSE "fd";
   call_row SYSCALL_CREATE "path, length";
   call_row SYSCALL_SEEK "fd, offset";
   call_row SYSCALL_WAIT "pid, status, options";
   call_row SYSCALL_SPAWN "path, length, arguments, length";
   call_row SYSCALL_TERMINATE "pid, code";
   call_row SYSCALL_SLEEP "milliseconds";
   call_row SYSCALL_MONOTONIC_MS "none";
   call_row SYSCALL_GETPID "none";
   call_row SYSCALL_GETPPID "none";
   call_row SYSCALL_SYSTEM_INFO "info buffer";
   call_row SYSCALL_RANDOM "none";
   call_row SYSCALL_PROCESS_STATUS "pid, status buffer";
   call_row SYSCALL_DIRECTORY_LIST "index, entry buffer";
   call_row SYSCALL_MKDIR "path, length";
   call_row SYSCALL_REMOVE "path, length";
   call_row SYSCALL_RENAME "old path, length, new path, length";
   call_row SYSCALL_PATH_STAT "path, length, status buffer";
   call_row SYSCALL_TRUNCATE "path, length, size";
   call_row SYSCALL_DUP "fd";
   row "Stats:" [];
   row "  total=%d handled=%d rejected=%d" [ArgInt (total t); ArgInt (handled t); ArgInt (Syscall.rejected t)];
   row "  write=%d exit=%d yield=%d" [calls SYSCALL_WRITE; calls SYSCALL_EXIT; calls SYSCALL_YIELD];
   row "  open=%d read=%d close=%d create=%d seek=%d wait=%d spawn=%d terminate=%d sleep=%d time=%d"
     [calls SYSCALL_OPEN; calls SYSCALL_READ; calls SYSCALL_CLOSE; calls SYSCALL_CREATE; calls SYSCALL_SEEK; calls SYSCALL_WAIT;
      calls SYSCALL_SPAWN; calls SYSCALL_TERMINATE; calls SYSCALL_SLEEP; calls SYSCALL_MONOTONIC_MS];
   row "  write_bytes=%d faults=%d last_exit=%d" [ArgInt (write_bytes t); ArgInt (faults t); ArgInt (stats_last_exit_code t)];
   row "  file_write_bytes=%d" [ArgInt (file_write_bytes t)];
   row "  monotonic_ms=%d" [ArgInt (last_monotonic_ms t)];
   row "  identity getpid=%d getppid=%d" [calls SYSCALL_GETPID; calls SYSCALL_GETPPID];
   row "  system_info=%d" [calls SYSCALL_SYSTEM_INFO];
   row "  random=%d last_random=%d" [calls SYSCALL_RANDOM; ArgInt (last_random t)];
   row "  process_status=%d" [calls SYSCALL_PROCESS_STATUS];
   row "  directory_list=%d" [calls SYSCALL_DIRECTORY_LIST];
   row "  mkdir=%d" [calls SYSCALL_MKDIR];
   row "  remove=%d" [calls SYSCALL_REMOVE];
   row "  rename=%d" [calls SYSCALL_RENAME];
   row "  path_stat=%d" [calls SYSCALL_PATH_STAT];
   row "  truncate=%d" [calls SYSCALL_TRUNCATE];
   row "  dup=%d" [calls SYSCALL_DUP];
   row "  last=%d (%s) arg0=0x%x arg1=0x%x arg2=0x%x result=%d"
     [ArgInt (last_number t); name_arg (syscall_name (last_number t)); ArgInt (last_arg0 t); ArgInt (last_arg1 t); ArgInt (last_arg2 t);
      ArgInt (last_result t)]].

(** *** Tasks *)

Section tasks.
Context `{CodeLayout}.
Implicit Types (s : sys) (t : task).

Definition result_name (u : task_user_status) : list Z :=
  if truth (program_completed u) then (if truth (program_succeeded u) then lit "passed" else lit "failed") else lit "none".
Definition completed_name (u : task_user_status) : list Z := if truth (program_completed u) then lit "completed" else lit "pending".

Definition entry_args t s : list arg :=
  [name_arg (user_mode_entry_state (Some t) s); name_arg (user_mode_status_name (user_mode_prepare (Some t) s))].
Definition accounting_args t : list arg :=
  let a := accounting t in [ArgInt (switches a); ArgInt (run_ticks a); ArgInt (yields a); ArgInt (preemptions a); ArgInt (sleep_wakeups a)].
Definition sleep_args t s : list arg := [ArgInt (sleep_requested_ms t); ArgInt (sleep_until_tick t); ArgInt (scheduler_ticks s)].
Definition el0_args t : list arg := [yes_no (truth (el0_ready (el0 t))); ArgInt (el0_pc (el0 t)); ArgInt (el0_sp (el0 t)); ArgInt (el0_spsr (el0 t))].
Definition stack_args t : list arg := [ArgInt (stack_start (memory t)); ArgInt (stack_end (memory t))].
Definition guard_args t : list arg :=
  [ArgInt (guard_low_start (memory t)); ArgInt (guard_low_end (memory t)); ArgInt (guard_high_start (memory t)); ArgInt (guard_high_end (memory t))].
Definition is_user (space : address_space) : bool := bool_decide (as_kind space = ADDRESS_SPACE_USER).

Definition space_rows (a : address_space) t : list line :=
  [row "    aspace=%s kind=%s root=0x%x shared=%s split=%s k_el0=%s u_el0=%s"
     [name_arg (as_name a); name_arg (address_space_kind_name (as_kind a)); ArgInt (root_table a); yes_no (truth (shared_kernel_map a));
      yes_no (truth (permission_split_ready a)); yes_no (truth (kernel_el0_access a)); yes_no (truth (user_el0_access a))];
   row "    user_tables=%s user_desc=%s user_map=%s"
     [yes_no (truth (user_tables_ready a)); yes_no (truth (user_descriptors_ready a)); yes_no (truth (user_mappings_ready a))]] ++
  (if is_user a then
     let u := user_status t in
     [row "    user_image=%s entry=0x%x size=%d checksum=0x%x"
        [name_arg (if truth (user_image_ready a) then lit "ready" else lit "missing"); ArgInt (user_image_entry a); ArgInt (user_image_size a);
         ArgInt (user_image_checksum a)];
      row "    user_program=%s result=%s" [name_arg (completed_name u); name_arg (result_name u)];
      row "    user_counts admit=%d enter=%d trap=%d recover=%d reject=%d exit=%d code=%d complete=%d fail=%d"
        [ArgInt (admissions u); ArgInt (el0_entries u); ArgInt (traps u); ArgInt (recoveries u); ArgInt (rejects u); ArgInt (exits u);
         ArgInt (last_exit_code u); ArgInt (completions u); ArgInt (failures u)]]
   else []) ++
  (if truth (user_descriptor_count a)
   then [row "    user_desc_count=%d installed=%d" [ArgInt (user_descriptor_count a); ArgInt (user_installed_descriptor_count a)]] else []) ++
  [row "    aspace_check=%s errors=%d" [name_arg (address_space_validation_state (Some a)); ArgInt (validation_errors a)];
   row "    switch=%s active=0x%x target=0x%x ready=%s"
     [name_arg (address_space_switch_state (Some a)); ArgInt (active_root_table a); ArgInt (target_root_table a); yes_no (truth (switch_ready a))]].

Definition no_space_rows : list line :=
  [row "    aspace=none kind=none root=0x0 shared=no split=no k_el0=no u_el0=no" [];
   row "    user_tables=no user_desc=no user_map=no" [];
   row "    aspace_check=errors errors=1" [];
   row "    switch=blocked active=0x0 target=0x0 ready=no" [];
   row "    ttbr0_stub=blocked" []].

(** One task of [scheduler_dump_tasks]; the switch state of its space is brought up to date
    on the way. *)
Definition task_rows (i : Z) s : list line * sys :=
  match task_at s i with
  | None => ([], s)
  | Some t =>
      let head :=
        [row "  task %d: %s state=%s" [ArgInt (t_pid t); ArgStr (t_name t); name_arg (scheduler_state_name (t_state t))];
         row "    parent=%d" [ArgInt (parent_pid t)];
         row "    policy=%s runnable=%s" [name_arg (scheduler_policy_name (Some t)); yes_no (scheduler_task_is_runnable (Some t))];
         row "    account switches=%d run_ticks=%d yields=%d preempt=%d wakeups=%d" (accounting_args t)] ++
        (if bool_decide (t_state t = TASK_SLEEPING) then [row "    sleep requested=%dms until_tick=%d now=%d" (sleep_args t s)] else []) in
      let p := address_space_ptr (memory t) in
      let '(space, s) :=
        match space_at p s with
        | Some a =>
            let s := (switch_stub p s).2 in
            (space_rows a t ++ [row "    ttbr0_stub=%s" [name_arg (address_space_switch_stub_state (space_at p s))]], s)
        | None => (no_space_rows, s)
        end in
      (head ++ space ++
       [row "    el0=%s pc=0x%x sp=0x%x spsr=0x%x" (el0_args t);
        row "    user_entry=%s status=%s" (entry_args t s);
        row "    stack=0x%x-0x%x" (stack_args t);
        row "    guards=0x%x-0x%x 0x%x-0x%x" (guard_args t)], s)
  end.
Fixpoint tasks_rows (l : list Z) s : list line * sys :=
  match l with
  | [] => ([], s)
  | i :: l => let (rows, s) := task_rows i s in let (rest, s) := tasks_rows l s in (rows ++ rest, s)
  end.

(** What [scheduler_dump_tasks] prints; what it changes is in [Scheduler]. *)
Definition tasks_report s : list line :=
  row "Scheduler state: ticks=%d tasks=%d current=%d" [ArgInt (scheduler_ticks s); ArgInt (task_count s); ArgInt (current_task s)] ::
  (tasks_rows (seqZ 0 (task_count s)) s).1.

Definition scheduler_dump_task_summary s : list line :=
  row "Task summary: ticks=%d tasks=%d current=%d" [ArgInt (scheduler_ticks s); ArgInt (task_count s); ArgInt (current_task s)] ::
  (i ← seqZ 0 (task_count s);
   match task_at s i with
   | None => []
   | Some t =>
       [row "  pid=%d name=%s state=%s run=%s kind=%s sw=%d ticks=%d"
          [ArgInt (t_pid t); ArgStr (t_name t); name_arg (scheduler_state_name (t_state t)); yes_no (scheduler_task_is_runnable (Some t));
           name_arg (match space_at (address_space_ptr (memory t)) s with Some a => address_space_kind_name (as_kind a) | None => lit "none" end);
           ArgInt (switches (accounting t)); ArgInt (run_ticks (accounting t))]]
   end).

(** The result and what is printed. *)
Definition scheduler_dump_task_status (pid : Z) s : Z * list line :=
  if (pid <? 0) || (pid >=? task_count s) then (-1, [row "Task %d not found" [ArgInt pid]]) else
  match task_at s pid with
  | None => (0, [])
  | Some t =>
      let space := space_at (address_space_ptr (memory t)) s in
      (0,
       [row "Task %d:" [ArgInt (t_pid t)];
        row "  name=%s state=%s policy=%s runnable=%s current=%s"
          [ArgStr (t_name t); name_arg (scheduler_state_name (t_state t)); name_arg (scheduler_policy_name (Some t));
           yes_no (scheduler_task_is_runnable (Some t)); yes_no (pid =? current_task s)]] ++
       (if bool_decide (t_state t = TASK_SLEEPING) then [row "  sleep requested=%dms until_tick=%d now=%d" (sleep_args t s)] else []) ++
       [row "  account switches=%d run_ticks=%d yields=%d preempt=%d wakeups=%d" (accounting_args t)] ++
       match space with
       | Some a =>
           [row "  aspace=%s kind=%s root=0x%x target=0x%x"
              [name_arg (as_name a); name_arg (address_space_kind_name (as_kind a)); ArgInt (root_table a); ArgInt (target_root_table a)];
            row "  switch=%s check=%s errors=%d"
              [name_arg (address_space_switch_state space); name_arg (address_space_validation_state space); ArgInt (validation_errors a)]]
       | None => [row "  aspace=none kind=none root=0x0 target=0x0" []; row "  switch=blocked check=errors errors=1" []]
       end ++
       [row "  stack=0x%x-0x%x" (stack_args t);
        row "  guards=0x%x-0x%x 0x%x-0x%x" (guard_args t);
        row "  el0=%s pc=0x%x sp=0x%x spsr=0x%x" (el0_args t);
        row "  user_entry=%s status=%s" (entry_args t s)] ++
       (if from_option is_user false space then
          let u := user_status t in
          [row "  user_program=%s result=%s" [name_arg (completed_name u); name_arg (result_name u)];
           row "  user_counts admit=%d enter=%d trap=%d recover=%d" [ArgInt (admissions u); ArgInt (el0_entries u); ArgInt (traps u); ArgInt (recoveries u)];
           row "  user_counts reject=%d exit=%d code=%d complete=%d fail=%d"
             [ArgInt (rejects u); ArgInt (exits u); ArgInt (last_exit_code u); ArgInt (completions u); ArgInt (failures u)]]
        else []))
  end.

Definition user_task_rows s (i : Z) : list line :=
  match task_at s i with
  | None => []
  | Some t =>
      if from_option is_user false (space_at (address_space_ptr (memory t)) s) then
        let u := user_status t in
        [row "  task %d: %s state=%s" [ArgInt (t_pid t); ArgStr (t_name t); name_arg (scheduler_state_name (t_state t))];
         row "    program=%s result=%s" [name_arg (completed_name u); name_arg (result_name u)];
         row "    admit=%d enter=%d trap=%d recover=%d" [ArgInt (admissions u); ArgInt (el0_entries u); ArgInt (traps u); ArgInt (recoveries u)];
         row "    reject=%d exit=%d code=%d complete=%d fail=%d"
           [ArgInt (rejects u); ArgInt (exits u); ArgInt (last_exit_code u); ArgInt (completions u); ArgInt (failures u)];
         row "    entry=%s status=%s" (entry_args t s)]
      else []
  end.
Definition scheduler_dump_user_stats s : list line :=
  let rows := seqZ 0 (task_count s) ≫= user_task_rows s in
  row "User exception stats:" [] :: rows ++ (match rows with [] => [row "  no user tasks" []] | _ :: _ => [] end).
End tasks.

(** *** The kernel's address map *)

Section vm.
Context `{CodeLayout} `{VmLayout}.
(** The map, the translation registers and the region of the heap. *)
Context (v : vm) (r : mmu_regs) (heap_start heap_end : Z).

Definition vm_dump_walk_address (label : list Z) (address : Z) : list line :=
  let l1 := arm64_mmu_l1_index address in
  let l2 := arm64_mmu_l2_index address in
  let l3 := arm64_mmu_l3_index address in
  let offset := Z.land address (ARM64_L2_BLOCK_SIZE -! 1) in
  let l1_descriptor := entry (vm_l1_table v) l1 in
  [row "VM walk %s: va=0x%x region=%s l1=%d l2=%d l3=%d off=0x%x"
     [name_arg label; ArgInt address; name_arg (vm_region_name_for_address heap_start heap_end address); ArgInt l1; ArgInt l2; ArgInt l3; ArgInt offset];
   row "  l1 desc=0x%x %s" [ArgInt l1_descriptor; name_arg (if arm64_mmu_desc_is_table l1_descriptor then lit "table" else lit "invalid")]] ++
  match find_l2_table l1 v with
  | Some slot =>
      let l2_descriptor := entry (default [] (vm_l2_tables v !! slot)) l2 in
      [row "  l2 desc=0x%x %s"
         [ArgInt l2_descriptor;
          name_arg (if arm64_mmu_desc_is_l2_block l2_descriptor then lit "block" else
                    if arm64_mmu_desc_is_table l2_descriptor then lit "table" else lit "invalid")]]
  | None => []
  end ++
  match translation_for_address v address with
  | Some (physical, descriptor, level) =>
      [row (if level =? 3 then "  l3 desc=0x%x page perm=%s/%s" else "  final desc=0x%x block perm=%s/%s")
         [ArgInt descriptor; name_arg (arm64_mmu_desc_execute_state descriptor); name_arg (arm64_mmu_desc_write_state descriptor)];
       row "  pa=0x%x" [ArgInt physical]]
  | None => [row "  not mapped" []]
  end.

Definition vm_dump_section_walk (label : list Z) (start end_ : Z) : list line :=
  if start >=? end_ then [row "VM walk %s: empty section" [name_arg label]] else vm_dump_walk_address label start.

Definition vm_dump_walk_examples : list line :=
  vm_dump_walk_address (lit "uart") 0x09000000 ++
  vm_dump_section_walk (lit "text") text_start text_end ++
  vm_dump_section_walk (lit "rodata") rodata_start rodata_end ++
  vm_dump_section_walk (lit "data") data_start data_end ++
  vm_dump_section_walk (lit "bss") bss_start bss_end ++
  (if negb (heap_start =? heap_end) then vm_dump_walk_address (lit "heap") heap_start else []) ++
  vm_dump_walk_address (lit "stack-guard") (scheduler_stack_guard_start 0) ++
  vm_dump_walk_address (lit "stacks") (scheduler_stack_start 0) ++
  vm_dump_walk_address (lit "gap") 0x20000000.

Definition vm_dump_kernel_sections : list line :=
  [row "VM kernel sections:" [];
   row "  text   0x%x-0x%x" [ArgInt text_start; ArgInt text_end];
   row "  rodata 0x%x-0x%x" [ArgInt rodata_start; ArgInt rodata_end];
   row "  data   0x%x-0x%x" [ArgInt data_start; ArgInt data_end];
   row "  bss    0x%x-0x%x" [ArgInt bss_start; ArgInt bss_end]].

Definition vm_dump_range (name : string) (start end_ : Z) : line :=
  if start >=? end_ then row "  %s empty" [name_arg (lit name)] else row "  %s 0x%x-0x%x" [name_arg (lit name); ArgInt start; ArgInt end_].

Definition vm_dump_named_ranges : list line :=
  [row "VM ranges:" [];
   vm_dump_range "kernel.text " text_start text_end;
   vm_dump_range "kernel.ro   " rodata_start rodata_end;
   vm_dump_range "kernel.bss  " bss_start bss_end;
   vm_dump_range "heap        " heap_start heap_end;
   vm_dump_range "stack0      " (scheduler_stack_start 0) (scheduler_stack_end 0);
   vm_dump_range "stack.area  " (scheduler_stack_guard_start 0) (scheduler_stack_guard_end scheduler_stack_count);
   vm_dump_range "guard.first " (scheduler_stack_guard_start 0) (scheduler_stack_guard_end 0);
   vm_dump_range "guard.last  " (scheduler_stack_guard_start scheduler_stack_count) (scheduler_stack_guard_end scheduler_stack_count);
   vm_dump_range "framebuffer " VM_FRAMEBUFFER_BASE VM_FRAMEBUFFER_END;
   vm_dump_range "gic         " VM_GIC_BASE VM_GIC_END;
   vm_dump_range "uart        " VM_UART_BASE VM_UART_END;
   vm_dump_range "fw_cfg      " VM_FW_CFG_BASE VM_FW_CFG_END;
   vm_dump_range "virtio-mmio " VM_VIRTIO_MMIO_BASE VM_VIRTIO_MMIO_END].

(** The loops over a range have fuel; see [Vm]. *)
Definition vm_dump_permission_range (name : list Z) (start end_ want_xn want_ro : Z) : option line :=
  let goal := Goal_ name start end_ want_xn want_ro in
  execute ← vm_actual_execute_permission_for_range v start end_;
  execute_status ← vm_execute_permission_status v goal;
  write ← vm_actual_write_permission_for_range v start end_;
  write_status ← vm_write_permission_status v goal;
  Some (row "  %s exec=%s/%s %s write=%s/%s %s"
          [name_arg name; name_arg (vm_desired_permission want_xn); name_arg execute; name_arg execute_status;
           name_arg (vm_desired_write_permission want_ro); name_arg write; name_arg write_status]).

Definition vm_dump_stack_guard_state : line :=
  let state := vm_stack_guard_state v in
  row "  guards pages=%d actual=%s status=%s"
    [ArgInt (vm_guard_pages (counts v)); name_arg state; name_arg (if is_chr state 0 (lit "u") then lit "enforced" else lit "broken")].

Definition vm_dump_permission_goal (g : vm_permission_goal) : option line :=
  vm_dump_permission_range (g_name g) (g_start g) (g_end g) (want_xn g) (want_ro g).

Definition vm_dump_permission_goals : option (list line) :=
  goals ← mapM vm_dump_permission_goal vm_permission_goals;
  heap ← vm_dump_permission_range (lit "heap") heap_start heap_end 1 0;
  stacks ← vm_dump_permission_range (lit "stacks") scheduler_stack_region_start scheduler_stack_region_end 1 0;
  Some ([row "VM protect: granularity=4 KiB kernel pages" []] ++ goals ++ [heap; stacks; vm_dump_stack_guard_state]).

Definition vm_dump_security_summary : list line :=
  (fun fmt => row fmt []) <$> ["VM security:"; "  code     exec/ro"; "  rodata   xn/ro"; "  data     xn/rw"; "  heap     xn/rw"; "  stacks   xn/rw";
                               "  guards   unmapped"; "  mmio     xn/rw"]%string.

Definition vm_dump_region (g : vm_region) : line :=
  let end_ := virtual_start g +! vr_size g in
  let descriptor := arm64_mmu_l2_block_desc (physical_start g) (attributes g) in
  let permission := if range_overlaps_kernel_l3_block v (virtual_start g) end_ then lit "mixed" else arm64_mmu_desc_execute_state descriptor in
  row "  %s: va=0x%x-0x%x pa=0x%x type=%s perm=%s l1=%d l2=%d"
    [name_arg (vr_name g); ArgInt (virtual_start g); ArgInt end_; ArgInt (physical_start g); name_arg (vr_type g); name_arg permission;
     ArgInt (arm64_mmu_l1_index (virtual_start g)); ArgInt (arm64_mmu_l2_index (virtual_start g))].

Definition vm_dump_plan : option (list line) :=
  let c := counts v in
  goals ← vm_dump_permission_goals;
  Some
    ([row "VM state : %s" [name_arg (vm_state v r)];
      row (if vm_mmu_enabled r then "VM mode  : identity map active"
           else if truth (vm_enable_attempted v) then "VM mode  : enable attempted, MMU still disabled"
           else "VM mode  : identity tables built, MMU not enabled") [];
      row "VM table : %s root=0x%x count=%d" [name_arg (vm_table_state v); ArgInt vm_root_table; ArgInt (vm_table_count v)];
      row "VM check : %s blocks=%d pages=%d guards=%d errors=%d"
        [name_arg (vm_validation_state v); ArgInt (vm_validated_blocks v); ArgInt (vm_pages_validated c); ArgInt (vm_guard_pages_validated c);
         ArgInt (vm_validation_errors v)];
      row "VM map   : blocks=%d pages=%d guards=%d bytes=%d"
        [ArgInt (vm_mapped_blocks v); ArgInt (vm_pages_mapped c); ArgInt (vm_guard_pages c); ArgInt (vm_mapped_bytes v)];
      row "VM perms : exec_blocks=%d exec_pages=%d xn_blocks=%d xn_pages=%d"
        [ArgInt (vm_executable_blocks v); ArgInt (vm_exec_pages c); ArgInt (vm_execute_never_blocks v); ArgInt (vm_xn_pages c)];
      row "VM gran  : 4 KiB kernel pages, 2 MiB blocks elsewhere" [];
      row "VM attrs : normal index=%d device index=%d" [ArgInt ARM64_ATTR_INDEX_NORMAL; ArgInt ARM64_ATTR_INDEX_DEVICE];
      row "VM regs  : mair=0x%x tcr=0x%x ttbr0=0x%x" [ArgInt (arm64_mmu_read_mair r); ArgInt (arm64_mmu_read_tcr r); ArgInt (arm64_mmu_read_ttbr0 r)];
      row "VM sctlr : 0x%x" [ArgInt (arm64_mmu_read_sctlr r)]] ++
     vm_dump_security_summary ++ vm_dump_named_ranges ++ vm_dump_kernel_sections ++ goals ++
     [row "VM regions: %d" [ArgInt vm_region_count]] ++ (vm_dump_region <$> vm_regions)).
End vm.

(** ** When a report comes out *)

(** The arguments are those the format asks for; and the numbers it prints in decimal. *)
Fixpoint fits (fmt : list Z) (args : list arg) : bool :=
  match fmt with
  | [] => true
  | c :: fmt =>
      if c =? char_percent then
        match fmt with
        | [] => false
        | d :: fmt =>
            if d =? char_s then match args with ArgStr _ :: args => fits fmt args | _ => false end
            else if (d =? char_c) || (d =? char_d) || (d =? char_x) then match args with ArgInt _ :: args => fits fmt args | _ => false end
            else fits fmt args
        end
      else fits fmt args
  end.
Fixpoint decimals (fmt : list Z) (args : list arg) : list Z :=
  match fmt with
  | [] => []
  | c :: fmt =>
      if c =? char_percent then
        match fmt with
        | [] => []
        | d :: fmt =>
            if d =? char_d then match args with ArgInt z :: args => int_of z :: decimals fmt args | _ => [] end
            else if (d =? char_s) || (d =? char_c) || (d =? char_x) then decimals fmt (tail args) else decimals fmt args
        end
      else decimals fmt args
  end.

Lemma print_decimal_iff v out : INT_MIN <= v < 2 ^ 31 -> is_Some (print_decimal v out) <-> INT_MIN <> v.
Proof.
  intros Hv. destruct (decide (v = INT_MIN)) as [->|Hne]; [split; [by intros []|done]|].
  rewrite print_decimal_spec by lia. split; [done|by eexists].
Qed.

(** A call whose arguments fit comes out exactly when no number it prints in decimal is the
    least [int]. *)
Lemma kprintf_iff fmt : forall args out, fits fmt args = true -> is_Some (kprintf fmt args out) <-> INT_MIN ∉ decimals fmt args.
Proof.
  assert (forall n fmt args out, (length fmt <= n)%nat -> fits fmt args = true -> is_Some (kprintf fmt args out) <-> INT_MIN ∉ decimals fmt args) as Hn;
    [|intros args out; by apply (Hn (length fmt))].
  clear fmt. induction n as [|n IH]; intros [|c fmt] args out Hl Hf; cbn [length] in Hl; try lia;
    try (split; [intros _; apply not_elem_of_nil|intros _; by eexists]).
  cbn [kprintf fits decimals] in *. destruct (c =? char_percent); [|apply IH; [lia|done]].
  destruct fmt as [|d fmt]; [done|]. cbn [length] in Hl. assert (length fmt <= n)%nat as Hl' by lia.
  destruct (Z.eqb_spec d char_s) as [->|]; [|destruct (Z.eqb_spec d char_c) as [->|]; [|destruct (Z.eqb_spec d char_d) as [->|]; [|destruct (Z.eqb_spec d char_x) as [->|]]]];
    cbn [Z.eqb Pos.eqb char_s char_c char_d char_x orb] in *; try (destruct args as [|[s|z] args]; try done; by apply IH).
  destruct args as [|[s|z] args]; try done. rewrite not_elem_of_cons, <- (print_decimal_iff _ out) by apply int_of_range.
  destruct (print_decimal (int_of z) out) as [out'|]; cbn [mbind option_bind].
  - rewrite (IH fmt args out' Hl' Hf). split; [intros Hx; split; [by eexists|done]|by intros [_ Hx]].
  - split; [by intros []|]. intros [[] _]; done.
Qed.

(** A report whose calls all fit. *)
Definition report_fits (rows : list line) : Prop := Forall (fun l => fits l.1 l.2 = true) rows.
Definition least_int (rows : list line) : Prop := Exists (fun l => INT_MIN ∈ decimals l.1 l.2) rows.


(** A report comes out, call after call. *)
Definition comes_out (rows : list line) : Prop := Forall (fun l => is_Some (kprintf l.1 l.2 [])) rows.

Lemma comes_out_iff rows : report_fits rows -> comes_out rows <-> ~ least_int rows.
Proof.
  intros Hf. unfold comes_out, least_int. rewrite <- Forall_Exists_neg. unfold report_fits in Hf.
  induction Hf as [|l rows Hl _ IH]; [by split; intros; constructor|]. by rewrite !Forall_cons, IH, kprintf_iff.
Qed.

Lemma fits_nil : report_fits [].
Proof. apply Forall_nil_2. Qed.
Lemma fits_cons l a : fits l.1 l.2 = true -> report_fits a -> report_fits (l :: a).
Proof. by constructor. Qed.
Lemma fits_app a b : report_fits a -> report_fits b -> report_fits (a ++ b).
Proof. apply Forall_app_2. Qed.
Lemma fits_if (c : bool) a b : report_fits a -> report_fits b -> report_fits (if c then a else b).
Proof. by destruct c. Qed.
Lemma fits_bind {A} (f : A -> list line) l : (forall x, report_fits (f x)) -> report_fits (l ≫= f).
Proof. intros Hf. apply Forall_bind, Forall_true. exact Hf. Qed.

(** Rows given one by one, and the reports that are part of others. *)
Create HintDb reports.
Ltac rows := repeat first
  [ solve [auto 1 with reports nocore] | apply fits_app | apply fits_if | apply fits_nil
  | apply fits_cons; [reflexivity|] ].

Lemma pmm_fits `{VmLayout} p : report_fits (pmm_dump_stats p).
Proof. unfold pmm_dump_stats. rows. Qed.
Lemma heap_fits {P} (h : heap P) l : heap_dump_stats h = Some l -> report_fits l.
Proof.
  unfold heap_dump_stats. destruct (heap_free_bytes h); [|done]. cbn [mbind option_bind]. destruct (heap_overhead_bytes h); [|done].
  intros [= <-]. rows.
Qed.
Lemma heap_test_fits `{PageAllocator P} (h : heap P) l h' : heap_self_test_report h = Some (l, h') -> report_fits l /\ heap_self_test h = Some h'.
Proof.
  unfold heap_self_test_report, heap_self_test. destruct (heap_dump_stats h) as [before|] eqn:E1; [|done]. cbn [mbind option_bind].
  destruct (kmalloc 64 h) as [[small h1]|]; [|done]. cbn [mbind option_bind]. destruct (kzalloc 128 h1) as [[medium h2]|]; [|done]. cbn [mbind option_bind].
  destruct (heap_dump_stats h2) as [during|] eqn:E2; [|done]. cbn [mbind option_bind]. destruct (kfree small h2) as [h3|]; [|done]. cbn [mbind option_bind].
  destruct (kfree medium h3) as [h4|]; [|done]. cbn [mbind option_bind]. destruct (heap_dump_stats h4) as [after|] eqn:E3; [|done]. cbn [mbind option_bind].
  intros E. assert (E' := E). apply (inj Some), (f_equal fst) in E. apply (inj Some), (f_equal snd) in E'. cbn [fst snd] in E, E'. subst l h'. split; [|done].
  pose proof (heap_fits _ _ E1). pose proof (heap_fits _ _ E2). pose proof (heap_fits _ _ E3).
  do 4 (apply fits_app; [first [done|rows]|]). by apply fits_app; [rows|].
Qed.
Lemma block_fits {V} `{VirtioBlk V} (b : block V) : report_fits (block_dump_stats b).
Proof. unfold block_dump_stats. rows. Qed.
Lemma sfs_fits {B} (s : sfs B) : report_fits (sfs_dump s).
Proof. unfold sfs_dump. rows. apply fits_bind. intros e. rows. Qed.
#[export] Hint Resolve sfs_fits : reports.
Lemma vfs_fits {B} (v : vfs B) : report_fits (vfs_dump_files v).
Proof. unfold vfs_dump_files. rows. apply fits_bind. intros n. rows. Qed.
Lemma syscall_fits t : report_fits (syscall_dump_stats t).
Proof. unfold syscall_dump_stats, call_row. rows. Qed.

Section tasks_fit.
Context `{CodeLayout}.

Lemma task_rows_fit i s : report_fits (task_rows i s).1.
Proof.
  unfold task_rows. destruct (task_at s i) as [t|]; [|rows]. destruct (space_at _ s) as [a|]; cbn [fst]; unfold space_rows, no_space_rows; rows.
Qed.
Lemma tasks_rows_fit l s : report_fits (tasks_rows l s).1.
Proof.
  revert s. induction l as [|i l IH]; intros s; cbn [tasks_rows]; [rows|]. pose proof (task_rows_fit i s) as Hi.
  destruct (task_rows i s) as [a s']. specialize (IH s'). destruct (tasks_rows l s'). by apply fits_app.
Qed.
#[local] Hint Resolve tasks_rows_fit : reports.
Lemma tasks_fit s : report_fits (tasks_report s).
Proof. unfold tasks_report. rows. Qed.
Lemma summary_fits s : report_fits (scheduler_dump_task_summary s).
Proof. unfold scheduler_dump_task_summary. rows. apply fits_bind. intros i. destruct (task_at s i); rows. Qed.
Lemma status_fits pid s : report_fits (scheduler_dump_task_status pid s).2.
Proof.
  unfold scheduler_dump_task_status. destruct (_ || _); [rows|]. destruct (task_at s pid); [|rows]. cbn [snd]. destruct (space_at _ _); rows.
Qed.
Lemma user_stats_fit s : report_fits (scheduler_dump_user_stats s).
Proof.
  unfold scheduler_dump_user_stats. cbv zeta. set (l := seqZ _ _ ≫= _). assert (report_fits l) as Hl.
  { apply fits_bind. intros i. unfold user_task_rows. destruct (task_at s i); rows. }
  clearbody l. rows. destruct l; rows.
Qed.

(** The report brings the spaces up to date as [scheduler_dump_tasks] does. *)
Lemma tasks_rows_state s : (tasks_rows (seqZ 0 (task_count s)) s).2 = scheduler_dump_tasks s.
Proof.
  unfold scheduler_dump_tasks. generalize (seqZ 0 (task_count s)) as l. intros l. revert s. induction l as [|i l IH]; intros s; cbn [tasks_rows foldl]; [done|].
  assert ((task_rows i s).2 = match space_at (space_ptr s i) s with None => s | Some _ => (switch_stub (space_ptr s i) s).2 end) as Ei.
  { unfold task_rows, space_ptr. destruct (task_at s i) as [t|]; [|done]. cbn [fmap option_fmap option_map default]. unfold compose. cbn. by destruct (space_at _ s). }
  destruct (task_rows i s) as [a s']. cbn [snd] in Ei. subst s'. rewrite <- IH. by destruct (tasks_rows l _).
Qed.
End tasks_fit.

Section vm_fits.
Context `{CodeLayout} `{VmLayout} (v : vm) (r : mmu_regs) (heap_start heap_end : Z).

Lemma walk_fits label a : report_fits (vm_dump_walk_address v heap_start heap_end label a).
Proof.
  unfold vm_dump_walk_address. cbv zeta. rows; [destruct (find_l2_table _ v); rows|].
  destruct (translation_for_address v a) as [[[pa d] level]|]; [|rows]. destruct (level =? 3); rows.
Qed.
#[local] Hint Resolve walk_fits : reports.
Lemma section_walk_fits label start end_ : report_fits (vm_dump_section_walk v heap_start heap_end label start end_).
Proof. unfold vm_dump_section_walk. rows. Qed.
#[local] Hint Resolve section_walk_fits : reports.
Lemma index_small z : int_of (Z.land z (ARM64_TABLE_ENTRIES - 1)) <> INT_MIN.
Proof.
  change (ARM64_TABLE_ENTRIES - 1) with (Z.ones 9). rewrite Z.land_ones by lia. pose proof (Z.mod_pos_bound z (2 ^ 9) ltac:(lia)).
  unfold int_of, INT_MIN. rewrite Z.mod_small by lia. lia.
Qed.
(** A walk prints the indexes of the tables in decimal, and they are small. *)
Lemma walk_comes_out label a : comes_out (vm_dump_walk_address v heap_start heap_end label a).
Proof.
  apply comes_out_iff; [apply walk_fits|]. unfold least_int, vm_dump_walk_address. cbv zeta. rewrite <- Forall_Exists_neg.
  apply Forall_app_2; [apply Forall_cons_2; [|by apply Forall_singleton, not_elem_of_nil]|apply Forall_app_2].
  - intros Hin. change (INT_MIN ∈ [int_of (arm64_mmu_l1_index a); int_of (arm64_mmu_l2_index a); int_of (arm64_mmu_l3_index a)]) in Hin.
    rewrite !elem_of_cons in Hin. destruct Hin as [Hi|[Hi|[Hi|Hi%not_elem_of_nil]]]; [..|done]; by apply eq_sym, index_small in Hi.
  - destruct (find_l2_table _ v); [by apply Forall_singleton, not_elem_of_nil|constructor].
  - destruct (translation_for_address v a) as [[[pa d] level]|]; [|by apply Forall_singleton, not_elem_of_nil].
    destruct (level =? 3); repeat constructor; apply not_elem_of_nil.
Qed.
Lemma section_walk_comes_out label start end_ : comes_out (vm_dump_section_walk v heap_start heap_end label start end_).
Proof. unfold vm_dump_section_walk. destruct (start >=? end_); [|apply walk_comes_out]. apply Forall_singleton. by eexists. Qed.
Lemma walks_come_out : comes_out (vm_dump_walk_examples v heap_start heap_end).
Proof.
  unfold vm_dump_walk_examples. destruct (negb _); repeat first [apply walk_comes_out|apply section_walk_comes_out|apply Forall_nil_2|apply Forall_app_2].
Qed.
Lemma walks_fit : report_fits (vm_dump_walk_examples v heap_start heap_end).
Proof. unfold vm_dump_walk_examples. rows. Qed.
Lemma range_fits name start end_ : fits (vm_dump_range name start end_).1 (vm_dump_range name start end_).2 = true.
Proof. unfold vm_dump_range. by destruct (_ >=? _). Qed.
Lemma named_ranges_fit : report_fits (vm_dump_named_ranges heap_start heap_end).
Proof. unfold vm_dump_named_ranges. apply fits_cons; [reflexivity|]. repeat (apply fits_cons; [apply range_fits|]). rows. Qed.
Lemma permission_fits name start end_ x w l : vm_dump_permission_range v name start end_ x w = Some l -> fits l.1 l.2 = true.
Proof.
  unfold vm_dump_permission_range. destruct (vm_actual_execute_permission_for_range _ _ _); [|done]. cbn [mbind option_bind].
  destruct (vm_execute_permission_status _ _); [|done]. cbn [mbind option_bind]. destruct (vm_actual_write_permission_for_range _ _ _); [|done].
  cbn [mbind option_bind]. destruct (vm_write_permission_status _ _); [|done]. by intros [= <-].
Qed.
Lemma goals_fit l : vm_dump_permission_goals v heap_start heap_end = Some l -> report_fits l.
Proof.
  unfold vm_dump_permission_goals. destruct (mapM _ _) as [goals|] eqn:Eg; [|done]. cbn [mbind option_bind].
  destruct (vm_dump_permission_range v (lit "heap") _ _ _ _) eqn:Eh; [|done]. cbn [mbind option_bind].
  destruct (vm_dump_permission_range v (lit "stacks") _ _ _ _) eqn:Es; [|done]. cbn [mbind option_bind]. intros [= <-].
  apply fits_cons; [reflexivity|]. apply fits_app.
  - apply mapM_Some in Eg. eapply Forall2_Forall_r; [exact Eg|]. apply Forall_true. intros g y. apply permission_fits.
  - apply fits_cons; [by apply permission_fits in Eh|]. apply fits_cons; [by apply permission_fits in Es|]. rows.
Qed.
Lemma region_fits g : fits (vm_dump_region v g).1 (vm_dump_region v g).2 = true.
Proof. reflexivity. Qed.
Lemma sections_fit : report_fits vm_dump_kernel_sections.
Proof. unfold vm_dump_kernel_sections. rows. Qed.
Lemma plan_fits l : vm_dump_plan v r heap_start heap_end = Some l -> report_fits l.
Proof.
  unfold vm_dump_plan. cbv zeta. destruct (vm_dump_permission_goals _ _ _) as [goals|] eqn:Eg; [|done]. cbn [mbind option_bind].
  intros <-%(inj Some). apply fits_app.
  { apply fits_cons; [reflexivity|]. apply fits_cons; [by destruct (vm_mmu_enabled r), (truth (vm_enable_attempted v))|]. rows. }
  apply fits_app; [unfold vm_dump_security_summary; rows|]. apply fits_app; [apply named_ranges_fit|]. apply fits_app; [apply sections_fit|].
  apply fits_app; [by apply goals_fit|]. apply fits_app; [rows|]. apply Forall_fmap, Forall_true. exact region_fits.
Qed.
End vm_fits.
