(* ===== verification/ReportsProps.v ===== *)
(** * What the reports say

    Every report is well formed: its calls of [kprintf] have the arguments their formats ask
    for. The report on the kernel's map, made after [vm_init], is complete and true. *)

From S2P Require Import Prelude PageAllocator Pmm Heap BlockDevice Block Sfs Vfs VfsProps Mmu AddressSpace Task User Scheduler SchedulerProps Syscall Vm VmProps VmInit VmSafety Console Reports.

(** ** The ranges of the map *)

Section map.
Context `{CodeLayout} `{AsLayout} `{VmLayout} `{!VmLayoutOk}.

(** Memory after the kernel's image, which has no guard pages: pages first, then blocks. *)
Lemma image_end : task_stack_region + 69632 <= bss_end.
Proof. apply sections. Qed.
Lemma no_guard_after a : bss_end <= a -> vm_address_is_guard_page a = false.
Proof.
  intros Ha. destruct (vm_address_is_guard_page a) eqn:E; [|done]. apply guard_spec in E as (i & Hi & Hr). pose proof image_end. lia.
Qed.
Lemma after_image a : bss_end <= a -> 0x40000000 <= a < 0x48000000 -> exists d,
  kernel_translation a = Page d /\ a < 0x40200000 \/ kernel_translation a = AddressSpace.Block 2 d /\ 0x40200000 <= a.
Proof.
  intros He Ha. unfold kernel_translation. change VM_DEVICE_MMIO_END with 0x0a200000. change VM_KERNEL_L3_BASE with 0x40000000. change VM_KERNEL_L3_END with 0x40200000.
  destruct (Z.ltb_spec a 0x0a200000); [lia|]. rewrite andb_false_r. destruct (Z.leb_spec 0x40000000 a); [|lia]. cbn [andb].
  rewrite guard_page_same, no_guard_after by done. destruct (Z.ltb_spec a 0x40200000); [eexists; by left|].
  destruct (Z.leb_spec 0x40200000 a); [|lia]. destruct (Z.ltb_spec a 0x48000000); [|lia]. eexists; by right.
Qed.

Lemma align_down_pow a k : 0 <= k < 63 -> 0 <= a < 2 ^ 63 -> align_down a (2 ^ k) = a / 2 ^ k * 2 ^ k.
Proof.
  intros Hk Ha. assert (0 < 2 ^ k) by (apply Z.pow_pos_nonneg; lia). assert (2 ^ k < 2 ^ 63) by (apply Z.pow_lt_mono_r; lia).
  unfold align_down. rewrite (u64_small (2 ^ k - 1)) by lia. rewrite land_high_mask by lia. pose proof (Z.div_mod a (2 ^ k) ltac:(lia)). lia.
Qed.

(** A descriptor of memory after the image, and where what follows it begins. *)
Lemma next_after v a end_ : built v -> bss_end <= a -> 0x40000000 <= a -> a mod 4096 = 0 -> a < end_ <= 0x48000000 ->
  exists d a', desc_of (kernel_translation a) = Some d /\ next_descriptor_in_range v a end_ = Some (d, a') /\
    (a' = end_ \/ a + 4096 <= a' /\ a' mod 4096 = 0).
Proof.
  intros Hv He Ha Hm Hend. unfold next_descriptor_in_range. rewrite (translation_built v Hv) by lia.
  destruct (after_image a He ltac:(lia)) as [d [[-> Hlt]|[-> Hge]]]; cbn [answer desc_of mbind option_bind]; exists d;
    eexists; (split; [done|]; split; [reflexivity|]).
  - change (3 =? 2) with false. cbv iota. change ARM64_PAGE_SIZE with (2 ^ 12). rewrite align_down_pow by lia. rewrite u64_small by (Z.div_mod_to_equations; lia).
    case_match; [by left|right]. change (2 ^ 12) with 4096. split; Z.div_mod_to_equations; lia.
  - change (2 =? 2) with true. cbv iota. change ARM64_L2_BLOCK_SIZE with (2 ^ 21). rewrite align_down_pow by lia. rewrite u64_small by (Z.div_mod_to_equations; lia).
    case_match; [by left|right]. change (2 ^ 21) with (512 * 4096). split; Z.div_mod_to_equations; lia.
Qed.

Lemma after_image_seen v test b (n : nat) : built v -> forall fuel a end_ seen, (n <= fuel)%nat -> bss_end <= a -> 0x40000000 <= a -> a mod 4096 = 0 ->
  end_ <= a + Z.of_nat n * 4096 -> end_ <= 0x48000000 ->
  (forall x d, a <= x < end_ -> desc_of (kernel_translation x) = Some d -> test d = b) -> seen = true \/ a < end_ ->
  range_loop test fuel v a end_ (b && seen) (negb b && seen) = Some (if b then SeenYes else SeenNo).
Proof.
  intros Hv. assert (forall f a e, e <= a -> range_loop test f v a e (b && true) (negb b && true) = Some (if b then SeenYes else SeenNo)) as Hdone.
  { intros f a e Ha. destruct f; cbn [range_loop]; destruct (Z.ltb_spec a e); try lia; by destruct b. }
  induction n as [|n IH]; intros fuel a end_ seen Hf He Ha Hm Hn Hend Ht Hs.
  { destruct Hs as [->|]; [|lia]. apply Hdone. lia. }
  destruct (decide (a < end_)) as [Hlt|]; [|destruct Hs as [->|]; [apply Hdone; lia|lia]].
  destruct fuel as [|fuel]; [lia|]. cbn [range_loop]. destruct (Z.ltb_spec a end_); [|lia]. rewrite no_guard_after by done.
  destruct (next_after v a end_ Hv He Ha Hm ltac:(lia)) as (d & a' & Hd & -> & Hnext). rewrite (Ht a d) by (done || lia).
  assert (b && seen || b = b && true) as -> by (by destruct b, seen).
  assert (negb b && seen || negb b = negb b && true) as -> by (by destruct b, seen).
  assert (b && true && (negb b && true) = false) as -> by (by destruct b).
  destruct Hnext as [->|[Hle Hm']]; [apply Hdone; lia|].
  apply IH; try lia. intros x y Hx. apply Ht. lia.
Qed.

(** ** The permissions *)

(** The line of a range that is as it should be. *)
Definition enforced_row (name : list Z) (start end_ want_xn want_ro : Z) : list Z * list arg :=
  let empty := start >=? end_ in
  let actual desired := name_arg (if empty then lit "empty" else desired) in
  row "  %s exec=%s/%s %s write=%s/%s %s"
    [name_arg name; name_arg (vm_desired_permission want_xn); actual (vm_desired_permission want_xn); actual (lit "enforced");
     name_arg (vm_desired_write_permission want_ro); actual (vm_desired_write_permission want_ro); actual (lit "enforced")].

Lemma row_enforced v name start end_ xn ro :
  (start < end_ ->
   range_loop arm64_mmu_desc_is_execute_never (range_fuel start end_) v (align_down start ARM64_PAGE_SIZE) end_ false false =
     Some (if truth xn then SeenYes else SeenNo) /\
   range_loop arm64_mmu_desc_is_read_only (range_fuel start end_) v (align_down start ARM64_PAGE_SIZE) end_ false false =
     Some (if truth ro then SeenYes else SeenNo)) ->
  vm_dump_permission_range v name start end_ xn ro = Some (enforced_row name start end_ xn ro).
Proof.
  intros Hr. unfold vm_dump_permission_range, enforced_row, vm_execute_permission_status, vm_write_permission_status. cbn [g_start g_end].
  unfold vm_actual_execute_permission_for_range, vm_actual_write_permission_for_range, vm_desired_permission, vm_desired_write_permission.
  destruct (Z.geb_spec start end_); [done|]. destruct Hr as [-> ->]; [done|]. cbn [mbind option_bind want_xn want_ro].
  by destruct (truth xn), (truth ro).
Qed.

Lemma goal_enforced v g : built v -> g ∈ vm_permission_goals ->
  vm_dump_permission_goal v g = Some (enforced_row (g_name g) (g_start g) (g_end g) (want_xn g) (want_ro g)).
Proof.
  intros Hv Hg. apply row_enforced. intros Hlt.
  split; (apply goal_range; [done..|]; intros a d Ha Hd; by apply (goal_facts g a d)).
Qed.

(** What lies outside the text and the read-only data is for data. *)
Lemma data_facts a d : 0 <= a < 2 ^ 39 -> round_up rodata_end <= a -> desc_of (kernel_translation a) = Some d ->
  arm64_mmu_desc_is_execute_never d = true /\ arm64_mmu_desc_is_read_only d = false.
Proof.
  intros Ha Hr Hd. destruct (kernel_desc_facts a d Ha Hd) as (_ & Kx & Kr). pose proof sections as Hs.
  assert (~ in_text a /\ ~ in_rodata a) as [Hnt Hnr].
  { unfold in_text, in_rodata. assert (forall e, e <= round_up e) as Hup by (intros e; unfold round_up; Z.div_mod_to_equations; lia). pose proof (Hup rodata_end). lia. }
  destruct (arm64_mmu_desc_is_execute_never d), (arm64_mmu_desc_is_read_only d); tauto || (exfalso; intuition congruence).
Qed.

Lemma stacks_enforced v : built v ->
  vm_dump_permission_range v (lit "stacks") scheduler_stack_region_start scheduler_stack_region_end 1 0 =
  Some (enforced_row (lit "stacks") scheduler_stack_region_start scheduler_stack_region_end 1 0).
Proof.
  intros Hv. pose proof stacks_bounds as Hb. pose proof sections as Hs. apply row_enforced. intros Hlt.
  assert (scheduler_stack_region_start = task_stack_region /\ scheduler_stack_region_end = task_stack_region + 69632) as [E1 E2]. { split; [done|]. unfold scheduler_stack_region_end, scheduler_stack_region_start. change scheduler_stack_region_bytes with 69632. apply u64_small. lia. }
  rewrite E1, E2 in *. assert (exists j, 0 <= j /\ task_stack_region + j * 4096 < task_stack_region + 69632 /\ vm_address_is_guard_page (task_stack_region + j * 4096) = false) as Hj.
  { exists 1. split_and!; [lia|lia|]. destruct (vm_address_is_guard_page _) eqn:E; [|done]. apply guard_spec in E as (i & Hi & Hr). lia. }
  split; (apply range_of_pages; [done|lia|lia|lia| |done]; intros a d Ha Hd; apply (data_facts a d); [lia|lia|done]).
Qed.

(** The region of the heap: none, or pages of memory after the kernel's image. *)
Definition heap_region (heap_start heap_end : Z) : Prop :=
  heap_start = heap_end \/ bss_end <= heap_start < heap_end /\ 0x40000000 <= heap_start /\ heap_start mod 4096 = 0 /\ heap_end <= 0x48000000.

Lemma heap_enforced v heap_start heap_end : built v -> heap_region heap_start heap_end ->
  vm_dump_permission_range v (lit "heap") heap_start heap_end 1 0 = Some (enforced_row (lit "heap") heap_start heap_end 1 0).
Proof.
  intros Hv Hh. apply row_enforced. intros Hlt. destruct Hh as [|(Hb & Hlo & Hm & Hhi)]; [lia|]. pose proof sections as Hs.
  change ARM64_PAGE_SIZE with (2 ^ 12). rewrite (align_down_id heap_start 12) by (done || lia).
  assert (heap_end <= heap_start + Z.of_nat (range_fuel heap_start heap_end) * 4096) as Hf.
  { unfold range_fuel. change ARM64_PAGE_SIZE with 4096. Z.div_mod_to_equations. lia. }
  split.
  - apply (after_image_seen v _ true (range_fuel heap_start heap_end) Hv _ _ _ false); try lia. intros x d Hx Hd. apply (data_facts x d); [lia|lia|done].
  - apply (after_image_seen v _ false (range_fuel heap_start heap_end) Hv _ _ _ false); try lia. intros x d Hx Hd. apply (data_facts x d); [lia|lia|done].
Qed.
(** ** The whole report *)

Lemma mapM_all {A B} (f : A -> option B) g l : (forall x, x ∈ l -> f x = Some (g x)) -> mapM f l = Some (g <$> l).
Proof.
  induction l as [|x l IH]; intros Hf; [done|]. cbn. rewrite Hf by apply list_elem_of_here. cbn.
  rewrite IH by (intros y Hy; by apply Hf, list_elem_of_further). done.
Qed.

Definition goal_row (g : vm_permission_goal) : list Z * list arg := enforced_row (g_name g) (g_start g) (g_end g) (want_xn g) (want_ro g).
(** The part of the report on permissions, when all is as it should be. *)
Definition enforced_rows (heap_start heap_end : Z) : list (list Z * list arg) :=
  [row "VM protect: granularity=4 KiB kernel pages" []] ++ (goal_row <$> vm_permission_goals) ++
  [enforced_row (lit "heap") heap_start heap_end 1 0;
   enforced_row (lit "stacks") scheduler_stack_region_start scheduler_stack_region_end 1 0;
   row "  guards pages=%d actual=%s status=%s" [ArgInt 9; name_arg (lit "unmapped"); name_arg (lit "enforced")]].

Lemma goals_enforced v heap_start heap_end : booted v -> vm_stack_guard_state v = lit "unmapped" -> heap_region heap_start heap_end ->
  vm_dump_permission_goals v heap_start heap_end = Some (enforced_rows heap_start heap_end).
Proof.
  intros Hb Hg Hh. pose proof (bo_tables _ Hb) as Hv. unfold vm_dump_permission_goals, enforced_rows.
  rewrite (mapM_all _ goal_row) by (intros g; by apply goal_enforced). cbn [mbind option_bind].
  rewrite heap_enforced, stacks_enforced by done. cbn [mbind option_bind]. unfold vm_dump_stack_guard_state. rewrite Hg.
  destruct (bo_counts _ Hb) as (_ & _ & _ & _ & -> & _). done.
Qed.

(** The head of the report. *)
Definition state_rows (exec_pages : Z) : list (list Z * list arg) :=
  [row "VM state : %s" [name_arg (lit "enabled")];
   row "VM mode  : identity map active" [];
   row "VM table : %s root=0x%x count=%d" [name_arg (lit "built"); ArgInt vm_root_table; ArgInt 4];
   row "VM check : %s blocks=%d pages=%d guards=%d errors=%d" [name_arg (lit "ok"); ArgInt 80; ArgInt 503; ArgInt 9; ArgInt 0];
   row "VM map   : blocks=%d pages=%d guards=%d bytes=%d" [ArgInt 80; ArgInt 503; ArgInt 9; ArgInt (80 * ARM64_L2_BLOCK_SIZE + 503 * ARM64_PAGE_SIZE)];
   row "VM perms : exec_blocks=%d exec_pages=%d xn_blocks=%d xn_pages=%d" [ArgInt 0; ArgInt exec_pages; ArgInt 80; ArgInt (503 - exec_pages)]].
Definition register_rows (r : mmu_regs) : list (list Z * list arg) :=
  [row "VM gran  : 4 KiB kernel pages, 2 MiB blocks elsewhere" [];
   row "VM attrs : normal index=%d device index=%d" [ArgInt ARM64_ATTR_INDEX_NORMAL; ArgInt ARM64_ATTR_INDEX_DEVICE];
   row "VM regs  : mair=0x%x tcr=0x%x ttbr0=0x%x" [ArgInt (arm64_mmu_read_mair r); ArgInt (arm64_mmu_read_tcr r); ArgInt (arm64_mmu_read_ttbr0 r)];
   row "VM sctlr : 0x%x" [ArgInt (arm64_mmu_read_sctlr r)]].
Definition plan_rows (v : vm) (r : mmu_regs) (exec_pages heap_start heap_end : Z) : list (list Z * list arg) :=
  state_rows exec_pages ++ register_rows r ++ vm_dump_security_summary ++ vm_dump_named_ranges heap_start heap_end ++ vm_dump_kernel_sections ++
  enforced_rows heap_start heap_end ++ [row "VM regions: %d" [ArgInt 2]] ++ (vm_dump_region v <$> vm_regions).

Lemma plan_of_booted v r heap_start heap_end : booted v -> vm_stack_guard_state v = lit "unmapped" -> vm_mmu_enabled r = true -> heap_region heap_start heap_end ->
  vm_dump_plan v r heap_start heap_end = Some (plan_rows v r (vm_exec_pages (counts v)) heap_start heap_end) /\ 0 <= vm_exec_pages (counts v) <= 503.
Proof.
  intros Hb Hg Hr Hh. unfold vm_dump_plan. rewrite goals_enforced by done. cbn [mbind option_bind]. cbv zeta.
  destruct (bo_counts _ Hb) as (C1 & C2 & C3 & C4 & C5 & C6 & C7 & C8 & C9). destruct (bo_flags _ Hb) as (F1 & F2 & F3 & _).
  destruct (bo_kinds _ Hb) as (K1 & K2 & K3). split; [|lia]. f_equal. unfold plan_rows. change vm_region_count with 2.
  unfold vm_state, vm_table_state, vm_validation_state. unfold vm_mmu_enabled in *. unfold arm64_mmu_state.
  rewrite Hr, F1, F2, F3, (bo_count _ Hb), C1, C2, C3, C4, C5, C6, C7, C8, C9, (bo_bytes _ Hb). cbn [truth Z.eqb negb].
  replace (vm_xn_pages (counts v)) with (503 - vm_exec_pages (counts v)) by lia. done.
Qed.

(** No number of a row is the least [int]. *)
Definition small_numbers (l : list Z * list arg) : Prop := INT_MIN ∉ decimals l.1 l.2.

Ltac small_row := apply (bool_decide_unpack _); vm_compute; reflexivity.

Lemma exec_pages_small n : 0 <= n <= 503 ->
  small_numbers (row "VM perms : exec_blocks=%d exec_pages=%d xn_blocks=%d xn_pages=%d" [ArgInt 0; ArgInt n; ArgInt 80; ArgInt (503 - n)]).
Proof.
  intros Hn Hin. change (INT_MIN ∈ [int_of 0; int_of n; int_of 80; int_of (503 - n)]) in Hin.
  assert (forall z, 0 <= z < 2 ^ 31 -> INT_MIN <> int_of z) as Hs.
  { intros z Hz. unfold int_of, INT_MIN. rewrite Z.mod_small by lia. lia. }
  rewrite !elem_of_cons in Hin. destruct Hin as [Hi|[Hi|[Hi|[Hi|Hi%not_elem_of_nil]]]]; [..|done]; revert Hi; apply Hs; lia.
Qed.

Lemma named_range_small name start end_ : small_numbers (vm_dump_range name start end_).
Proof. unfold small_numbers, vm_dump_range. destruct (_ >=? _); apply not_elem_of_nil. Qed.

Lemma enforced_small name start end_ xn ro : small_numbers (enforced_row name start end_ xn ro).
Proof. apply not_elem_of_nil. Qed.

Lemma plan_small v r n heap_start heap_end : 0 <= n <= 503 -> Forall small_numbers (plan_rows v r n heap_start heap_end).
Proof.
  intros Hn. repeat apply Forall_app_2.
  - unfold state_rows. repeat (apply Forall_cons_2; [first [by apply exec_pages_small|small_row]|]). constructor.
  - unfold register_rows. repeat (apply Forall_cons_2; [small_row|]). constructor.
  - unfold vm_dump_security_summary. cbn [fmap list_fmap]. repeat (apply Forall_cons_2; [small_row|]). constructor.
  - unfold vm_dump_named_ranges. apply Forall_cons_2; [small_row|]. repeat (apply Forall_cons_2; [apply named_range_small|]). constructor.
  - unfold vm_dump_kernel_sections. repeat (apply Forall_cons_2; [small_row|]). constructor.
  - apply Forall_singleton. small_row.
  - apply Forall_fmap, Forall_true. intros g. apply enforced_small.
  - do 2 (apply Forall_cons_2; [apply enforced_small|]). apply Forall_singleton. small_row.
  - apply Forall_singleton. small_row.
  - unfold vm_regions. cbn [fmap list_fmap]. repeat (apply Forall_cons_2; [small_row|]). constructor.
Qed.

(** (C28) After [vm_init] the report of the kernel's map is complete and true, wherever the pages
    of the heap are: it says that translation is on, that the tables are built and checked,
    and counts the blocks, pages and guards there are; for each range of the kernel that is
    not empty - the sections of its image, the devices, the heap and the stacks - it finds
    the permissions meant for it, and says they are enforced; no page of a guard is mapped.
    Its loops end, and every line of it is printed. *)
Theorem vm_report_honest v r v' r' heap_start heap_end : vm_arrays v -> vm_init v r = Some (v', r') -> heap_region heap_start heap_end ->
  let rows := plan_rows v' r' (vm_exec_pages (counts v')) heap_start heap_end in
  vm_dump_plan v' r' heap_start heap_end = Some rows /\ 0 <= vm_exec_pages (counts v') <= 503 /\ comes_out rows.
Proof.
  intros Hv Hi Hh rows. destruct (after_init v r v' r' Hv Hi) as [Hb ->].
  destruct (plan_of_booted v' _ heap_start heap_end Hb (guards_unmapped v' (bo_tables _ Hb)) (enable_enables r) Hh) as [E Hn].
  split; [exact E|]. split; [exact Hn|]. apply comes_out_iff; [by eapply plan_fits|]. unfold least_int. rewrite <- Forall_Exists_neg. by apply plan_small.
Qed.
End map.

(** ** The loops of the report end, on any map *)

Section ends.
Context `{CodeLayout} `{AsLayout} `{VmLayout} `{!VmLayoutOk}.

Lemma step_down a k : 12 <= k < 62 -> 0 <= a < 2 ^ 62 -> a mod 4096 = 0 ->
  let a' := align_down a (2 ^ k) +! 2 ^ k in a + 4096 <= a' /\ a' mod 4096 = 0 /\ a' < 2 ^ 63.
Proof.
  intros Hk Ha Hm a'. assert (2 ^ k = 2 ^ (k - 12) * 4096) as Ek by (change 4096 with (2 ^ 12); rewrite <- Z.pow_add_r by lia; f_equal; lia).
  assert (0 < 2 ^ (k - 12)) as Hp by (apply Z.pow_pos_nonneg; lia). assert (2 ^ k < 2 ^ 62) as Hs by (apply Z.pow_lt_mono_r; lia).
  unfold a'. rewrite align_down_pow by lia. pose proof (Z.div_mod a (2 ^ k) ltac:(lia)) as Hd. pose proof (Z.mod_pos_bound a (2 ^ k) ltac:(lia)) as Hb.
  set (q := a / 2 ^ k) in *. rewrite u64_small by nia. assert (q * 2 ^ k + 2 ^ k = (q + 1) * 2 ^ (k - 12) * 4096) as -> by (rewrite Ek; ring).
  split; [|split; [by rewrite Z.mod_mul|nia]]. apply Z.mod_divide in Hm as [z Hz]; [|lia]. assert (z < (q + 1) * 2 ^ (k - 12)) by nia. lia.
Qed.

(** A round moves on by a page at least, or to the end of the range. *)
Lemma range_loop_ends test v (n : nat) : forall a end_ yes no, 0 <= a -> a mod 4096 = 0 -> end_ <= 2 ^ 62 ->
  end_ <= a + Z.of_nat n * 4096 -> is_Some (range_loop test n v a end_ yes no).
Proof.
  assert (forall n a end_ yes no, end_ <= a -> is_Some (range_loop test n v a end_ yes no)) as Hdone.
  { intros k a end_ yes no Ha. destruct k; cbn [range_loop]; destruct (Z.ltb_spec a end_); try lia; by eexists. }
  induction n as [|n IH]; intros a end_ yes no Ha Hm He Hn; [apply Hdone; lia|].
  destruct (decide (a < end_)) as [Hlt|]; [|apply Hdone; lia]. cbn [range_loop]. destruct (Z.ltb_spec a end_); [|lia].
  destruct (vm_address_is_guard_page a).
  { change ARM64_PAGE_SIZE with 4096. rewrite (u64_small (a + 4096)) by lia. apply IH; try lia. Z.div_mod_to_equations. lia. }
  unfold next_descriptor_in_range. destruct (translation_for_address v a) as [[[pa d] level]|]; [|by eexists]. cbn [mbind option_bind].
  assert (exists k, 12 <= k < 62 /\ (if level =? 2 then ARM64_L2_BLOCK_SIZE else ARM64_PAGE_SIZE) = 2 ^ k) as (k & Hk & ->).
  { destruct (level =? 2); [by exists 21|by exists 12]. }
  destruct (step_down a k Hk ltac:(lia) Hm) as (Hle & Hm2 & Hlt2). set (a' := align_down a (2 ^ k) +! 2 ^ k) in *. clearbody a'.
  destruct (_ && _); [by eexists|]. destruct (a' >? end_); [apply Hdone; lia|]. apply IH; lia.
Qed.

Lemma range_ends test v start end_ : 0 <= start -> start < end_ <= 2 ^ 62 ->
  is_Some (range_loop test (range_fuel start end_) v (align_down start ARM64_PAGE_SIZE) end_ false false).
Proof.
  intros Hs He. change ARM64_PAGE_SIZE with (2 ^ 12). rewrite align_down_pow by lia. change (2 ^ 12) with 4096.
  apply range_loop_ends; [Z.div_mod_to_equations; lia|by rewrite Z.mod_mul|lia|]. unfold range_fuel. change ARM64_PAGE_SIZE with 4096. Z.div_mod_to_equations. lia.
Qed.

Lemma permission_row v name start end_ xn ro : 0 <= start -> end_ <= 2 ^ 62 -> is_Some (vm_dump_permission_range v name start end_ xn ro).
Proof.
  intros Hs He. unfold vm_dump_permission_range, vm_execute_permission_status, vm_write_permission_status. cbn [g_start g_end].
  assert (is_Some (vm_actual_execute_permission_for_range v start end_) /\ is_Some (vm_actual_write_permission_for_range v start end_)) as [[x ->] [w ->]].
  { unfold vm_actual_execute_permission_for_range, vm_actual_write_permission_for_range. destruct (Z.geb_spec start end_); [split; by eexists|].
    destruct (range_ends arm64_mmu_desc_is_execute_never v start end_ Hs ltac:(lia)) as [x ->], (range_ends arm64_mmu_desc_is_read_only v start end_ Hs ltac:(lia)) as [w ->].
    split; by eexists. }
  cbn [mbind option_bind]. by repeat case_match; eexists.
Qed.

Lemma plan_made v r heap_start heap_end : 0 <= heap_start -> heap_end <= 2 ^ 62 -> is_Some (vm_dump_plan v r heap_start heap_end).
Proof.
  intros Hs He. unfold vm_dump_plan, vm_dump_permission_goals. pose proof sections as Hsec. pose proof stacks_bounds as Hst.
  assert (is_Some (mapM (vm_dump_permission_goal v) vm_permission_goals)) as [goals ->].
  { apply mapM_is_Some_2. unfold vm_permission_goals. repeat constructor; apply permission_row; cbn [g_start g_end]; try lia; by vm_compute. }
  cbn [mbind option_bind]. destruct (permission_row v (lit "heap") heap_start heap_end 1 0 Hs He) as [h ->]. cbn [mbind option_bind].
  assert (0 <= scheduler_stack_region_start /\ scheduler_stack_region_end <= 2 ^ 62) as [Hst1 Hst2].
  { unfold scheduler_stack_region_end, scheduler_stack_region_start. change scheduler_stack_region_bytes with 69632. rewrite u64_small by lia. lia. }
  destruct (permission_row v (lit "stacks") _ _ 1 0 Hst1 Hst2) as [s ->]. by eexists.
Qed.
End ends.

Section heap_reports.
Context `{PageAllocator P}.

Lemma heap_report_made (h : heap P) : heap_inv h -> is_Some (heap_dump_stats h).
Proof. intros (f & o & E1 & E2)%heap_statistics. unfold heap_dump_stats. rewrite E1, E2. by eexists. Qed.

(** The test allocates twice and frees both; it ends on every heap, also when there is no
    room for one of the blocks or both. *)
Lemma heap_test_made (h : heap P) : heap_inv h -> exists l h', heap_self_test_report h = Some (l, h') /\ heap_inv h'.
Proof.
  intros Hi. unfold heap_self_test_report. destruct (heap_report_made h Hi) as [before ->].
  destruct (kmalloc_next h 64 Hi) as (small & h1 & Ek & Hi1 & Hs & _); [lia..|]. destruct (kzalloc_next h1 128 Hi1) as (medium & h2 & Ez & Hi2 & Hm & Hk); [lia..|].
  destruct (heap_report_made h2 Hi2) as [during Ed]. destruct (Hk small Hs) as [Hs2 Hne]. destruct (kfree_next h2 small Hi2 Hs2) as (h3 & Ef & Hi3 & Hk3).
  destruct (kfree_next h3 medium Hi3) as (h4 & Ef' & Hi4 & _).
  { apply Hk3; [done|]. intros ->. by apply Hne. }
  destruct (heap_report_made h4 Hi4) as [after Ea]. cbn [mbind option_bind]. rewrite Ek. cbn [mbind option_bind]. rewrite Ez. cbn [mbind option_bind]. rewrite Ed.
  cbn [mbind option_bind]. rewrite Ef. cbn [mbind option_bind]. rewrite Ef'. cbn [mbind option_bind]. rewrite Ea. by eexists _, _.
Qed.
End heap_reports.

(** ** All reports *)

Section all.
Context `{CodeLayout} `{AsLayout} `{VmLayout} `{!VmLayoutOk} `{PageAllocator P} {B V : Type} `{VirtioBlk V}.

(** A report comes out exactly when it prints no number in decimal that is the least [int]. *)
Definition well_formed (rows : list (list Z * list arg)) : Prop := comes_out rows <-> ~ least_int rows.
(** A report whose loops end, and which is well formed. *)
Definition made (rows : option (list (list Z * list arg))) : Prop := exists l, rows = Some l /\ well_formed l.

(** (C36) Every report of a component is made and is well formed: the loops of those that
    have loops end - over the blocks of any well-formed heap, before, during and after its
    self-test, and over the ranges of any map, with a heap at any address - and each line has
    the arguments its format asks for, of their kinds, so that the report is printed to its
    end unless it prints, in decimal, a number that is the least [int]; a walk of the map
    never does. The report of the tasks changes the state as [scheduler_dump_tasks] does, and
    that of the heap's test as [heap_self_test], which leaves a well-formed heap. *)
Theorem reports_come_out (p : pmm) (h : heap P) (b : block V) (f : sfs B) (v : vfs B) (t : syscall_stats) s pid (m : vm) r heap_start heap_end label a :
  heap_inv h -> 0 <= heap_start -> heap_end <= 2 ^ 62 ->
  well_formed (pmm_dump_stats p) /\ made (heap_dump_stats h) /\
  (exists l h', heap_self_test_report h = Some (l, h') /\ well_formed l /\ heap_self_test h = Some h' /\ heap_inv h') /\
  well_formed (block_dump_stats b) /\ well_formed (sfs_dump f) /\
  well_formed (vfs_dump_files v) /\ well_formed (syscall_dump_stats t) /\
  well_formed (tasks_report s) /\ (tasks_rows (seqZ 0 (task_count s)) s).2 = scheduler_dump_tasks s /\
  well_formed (scheduler_dump_task_summary s) /\ well_formed (scheduler_dump_task_status pid s).2 /\ well_formed (scheduler_dump_user_stats s) /\
  made (vm_dump_plan m r heap_start heap_end) /\
  comes_out (vm_dump_walk_address m heap_start heap_end label a) /\ comes_out (vm_dump_walk_examples m heap_start heap_end).
Proof.
  assert (forall l, report_fits l -> well_formed l) as Hw by (intros l; apply comes_out_iff). intros Hi Hs He.
  destruct (heap_report_made h Hi) as [hl Ehl], (heap_test_made h Hi) as (tl & h' & Et & Hi'), (plan_made m r heap_start heap_end Hs He) as [pl Epl].
  split_and!; [apply Hw, pmm_fits|exists hl; split; [done|by eapply Hw, heap_fits]|exists tl, h'; pose proof (heap_test_fits _ _ _ Et) as [? ?]; split_and!; [done|by apply Hw|done..]
    |apply Hw, block_fits|apply Hw, sfs_fits|apply Hw, vfs_fits|apply Hw, syscall_fits
    |apply Hw, tasks_fit|apply tasks_rows_state|apply Hw, summary_fits|apply Hw, status_fits|apply Hw, user_stats_fit
    |exists pl; split; [done|by eapply Hw, plan_fits]|apply walk_comes_out|apply walks_come_out].
Qed.
End all.

(** When the timer has ticked 2^31 times the reports on the tasks print the number for which
    [print_decimal] negates the least [int]. *)
Lemma ticks_report_stops `{CodeLayout} s : scheduler_ticks s mod 2 ^ 32 = 2 ^ 31 -> ~ comes_out (tasks_report s) /\ ~ comes_out (scheduler_dump_task_summary s).
Proof.
  intros Ht. assert (int_of (scheduler_ticks s) = INT_MIN) as Hi by (unfold int_of, INT_MIN; rewrite <- Zplus_mod_idemp_l, Ht; done).
  assert (forall fmt l rest rows, fits (lit fmt ++ [10]) (ArgInt (scheduler_ticks s) :: l) = true ->
    decimals (lit fmt ++ [10]) (ArgInt (scheduler_ticks s) :: l) = int_of (scheduler_ticks s) :: rest -> ~ comes_out (row fmt (ArgInt (scheduler_ticks s) :: l) :: rows)) as Hrow.
  { intros fmt l rest rows Hf Hd Ho. apply Forall_cons in Ho as [Ho _]. apply (proj1 (kprintf_iff _ _ _ Hf)) in Ho.
    rewrite Hd, Hi in Ho. by apply Ho, list_elem_of_here. }
  set (l := [ArgInt (task_count s); ArgInt (current_task s)]). set (rest := [int_of (task_count s); int_of (current_task s)]). split.
  - by apply (Hrow "Scheduler state: ticks=%d tasks=%d current=%d"%string l rest).
  - by apply (Hrow "Task summary: ticks=%d tasks=%d current=%d"%string l rest).
Qed.

(** ** The report of the example's map *)

#[local] Existing Instances code1 as1 as1_ok vm_layout1 vm_layout1_ok.

Lemma vm_report_honest_witness :
  let rows := plan_rows vm1 regs1 (vm_exec_pages (counts vm1)) 0x40140000 0x40340000 in
  vm_dump_plan vm1 regs1 0x40140000 0x40340000 = Some rows /\ 0 <= vm_exec_pages (counts vm1) <= 503 /\ comes_out rows.
Proof.
  assert (heap_region 0x40140000 0x40340000) as Hh by (right; vm_compute; repeat split; congruence).
  exact (vm_report_honest vm0 regs0 vm1 regs1 0x40140000 0x40340000 vm0_arrays vm1_init Hh).
Defined.

(** The reports of the heap after its first allocation, on the example's map. *)
Lemma reports_come_out_witness :
  made (heap_dump_stats boot_heap1) /\ (exists l h', heap_self_test_report boot_heap1 = Some (l, h') /\ well_formed l) /\
  made (vm_dump_plan vm0 regs0 0x40140000 0x40340000).
Proof.
  assert (0 <= 0x40140000 /\ 0x40340000 <= 2 ^ 62) as [Hs He] by (split; by vm_compute).
  destruct (reports_come_out (pages boot_heap1) boot_heap1 ram_block disk0 vfs2 stats0 boot0 0 vm0 regs0 0x40140000 0x40340000 [] 0 boot_heap1_inv Hs He)
    as (_ & H1 & (l & h' & E & Hl & _) & _ & _ & _ & _ & _ & _ & _ & _ & _ & H2 & _).
  split; [exact H1|]. split; [exists l, h'; split; [exact E|exact Hl]|exact H2].
Defined.
