(* ===== verification/Commands.v ===== *)
(** * The shell's commands ([shell_execute] of [kernel/shell/shell.c])

    The dispatcher and its commands, over the components they call: the scheduler, the
    system calls, the file systems, the disk, the heap and the frame buffer. The shell's own
    messages go through [kprintf], and so do the reports of the components ([Reports]). A
    command that gives the processor away goes on in the state [others] leaves, and one that
    never returns has no result. *)

From S2P Require Import Prelude Pmm Heap BlockDevice Block Sfs Vfs Mmu AddressSpace Task Scheduler Syscall Vm Console Interrupt Framebuffer Shell Reports.

(** ** Definitions *)

(** The machine's state with that of the components only the shell reaches. *)
Record computer (V : Type) := Computer {
  pc_machine : machine (block V);
  pc_heap : heap pmm;
  pc_fb : fb;
  persistent_file_buffer : list Z;
}.
Arguments Computer {V}. Arguments pc_machine {V}. Arguments pc_heap {V}. Arguments pc_fb {V}. Arguments persistent_file_buffer {V}.

Section commands.
Context `{CodeLayout} `{AsLayout} `{VmLayout}.
(** The kernel's table of translations, and its map, which nothing changes once it is built. *)
Context (kernel_table : Z -> list Z) (map : vm).
Context {V : Type} `{VirtioBlk V}.

(** What the other tasks do until the shell's runs again; how often a system call is looked
    at before it is given up; what the arrays on the stack hold. *)
Context (others : computer V -> computer V) (rounds : nat) (stack : list Z).
Implicit Types pc : computer V.

Definition pc_kernel pc : kernel (block V) := mkernel (pc_machine pc).
Definition set_machine (m : machine (block V)) pc : computer V := Computer m (pc_heap pc) (pc_fb pc) (persistent_file_buffer pc).
Definition set_kernel (k : kernel (block V)) pc : computer V :=
  set_machine (Machine k (mtimer (pc_machine pc)) (gic (pc_machine pc))) pc.
Definition set_heap (h : heap pmm) pc : computer V := Computer (pc_machine pc) h (pc_fb pc) (persistent_file_buffer pc).
Definition set_kpmm (p : pmm) pc : computer V :=
  let k := pc_kernel pc in set_kernel (Kernel (ksys k) (kvfs k) p (kstats k) (random_state k) (Syscall.console k)) pc.
(** The heap takes its pages from the kernel's page allocator. *)
Definition kernel_heap pc : heap pmm :=
  let h := pc_heap pc in
  Heap (heap_head h) (heap_tail h) (heap_pages h) (heap_used h) (heap_start h) (heap_end h) (mem h) (bytes h) (kpmm (pc_kernel pc)).
Definition set_fb (s : fb) pc : computer V := Computer (pc_machine pc) (pc_heap pc) s (persistent_file_buffer pc).
Definition set_file_buffer (b : list Z) pc : computer V := Computer (pc_machine pc) (pc_heap pc) (pc_fb pc) b.
Definition pc_sys pc : sys := ksys (pc_kernel pc).
Definition set_pc_sys (s : sys) pc : computer V := set_kernel (set_ksys s (pc_kernel pc)) pc.
Definition pc_vfs pc : vfs (block V) := kvfs (pc_kernel pc).
Definition set_pc_vfs (v : vfs (block V)) pc : computer V := set_kernel (set_kvfs v (pc_kernel pc)) pc.
Definition pc_sfs pc : sfs (block V) := disk (pc_vfs pc).
Definition set_pc_sfs (s : sfs (block V)) pc : computer V := set_pc_vfs (set_sfs s (pc_vfs pc)) pc.

(** Text goes to the console and, when it is on, to the frame buffer. *)
Definition pc_write (text : list Z) pc : computer V :=
  let k := pc_kernel pc in
  set_fb (framebuffer_console_write text (pc_fb pc)) (set_kernel (set_console (Syscall.console k ++ text) k) pc).
Definition print (fmt : list Z) (args : list arg) pc : option (computer V) :=
  text ← kprintf fmt args []; Some (pc_write text pc).
Definition ln : list Z := [10].

(** After a call of the scheduler that may have switched tasks. *)
Definition after_switch (o : outcome) pc : option (computer V) :=
  match o with
  | Returned => Some pc
  | Switched => Some (others pc)
  | Halted => None
  end.

(** *** Help *)

Fixpoint print_all (lines : list (list Z * list arg)) pc : option (computer V) :=
  match lines with
  | [] => Some pc
  | (fmt, args) :: lines => pc ← print fmt args pc; print_all lines pc
  end.

(** The name in a column of at least eight characters. *)
Definition name_column (name : list Z) : list (list Z * list arg) :=
  (lit "  %s", [ArgStr (Some name)]) :: ((fun _ => (lit " ", [])) <$> seqZ (string_length name) (8 - string_length name)).
Definition command_line (c : shell_command) : list (list Z * list arg) :=
  name_column (c_name c) ++ [(lit " %s" ++ ln, [ArgStr (Some (c_description c))])].
Definition alias_line (a : shell_alias) : list (list Z * list arg) :=
  name_column (a_name a) ++ [(lit " %s -> %s" ++ ln, [ArgStr (Some (a_description a)); ArgStr (Some (a_target a))])].

Definition shell_help pc : option (computer V) :=
  print_all ([(lit "Commands:" ++ ln, [])] ++ concat (command_line <$> shell_commands) ++ [(lit "Aliases:" ++ ln, [])] ++ concat (alias_line <$> shell_aliases)) pc.

Definition shell_command_help (name : list Z) pc : option (computer V) :=
  let alias := find_shell_alias name in
  pc ← (match alias with
        | Some a => print (lit "Alias: %s -> %s" ++ ln) [ArgStr (Some (a_name a)); ArgStr (Some (a_target a))] pc
        | None => Some pc
        end);
  let name := match alias with Some a => a_target a | None => name end in
  match find_shell_command name with
  | None =>
      pc ← print (lit "No help for: %s" ++ ln) [ArgStr (Some name)] pc;
      print (lit "Type 'help' for commands" ++ ln) [] pc
  | Some c =>
      pc ← print (lit "Command: %s" ++ ln) [ArgStr (Some (c_name c))] pc;
      pc ← print (lit "Usage: %s" ++ ln) [ArgStr (Some (c_usage c))] pc;
      pc ← print (lit "About: %s" ++ ln) [ArgStr (Some (c_description c))] pc;
      match c_example c with
      | Some example => print (lit "Example: %s" ++ ln) [ArgStr (Some example)] pc
      | None => Some pc
      end
  end.

Definition shell_usage (name : list Z) pc : option (computer V) :=
  match find_shell_command name with
  | Some c => print (lit "Usage: %s" ++ ln) [ArgStr (Some (c_usage c))] pc
  | None => Some pc
  end.

Definition shell_framebuffer_status pc : option (computer V) :=
  let s := pc_fb pc in
  print_all
    [(lit "Framebuffer:" ++ ln, []);
     (lit "  state   : %s" ++ ln, [ArgStr (Some (if truth (framebuffer_is_ready s) then lit "ready" else lit "offline"))]);
     (lit "  status  : %d (%s)" ++ ln, [ArgInt (framebuffer_status s); ArgStr (Some (framebuffer_status_name s))]);
     (lit "  base    : 0x%x" ++ ln, [ArgInt framebuffer_base]);
     (lit "  mode    : %dx%d %s" ++ ln, [ArgInt framebuffer_width; ArgInt framebuffer_height; ArgStr (Some framebuffer_format)]);
     (lit "  pitch   : %d bytes" ++ ln, [ArgInt framebuffer_pitch]);
     (lit "  console : %d cols x %d rows" ++ ln, [ArgInt framebuffer_console_columns; ArgInt framebuffer_console_rows])] pc.

(** *** The scheduler's commands *)

(** A number as an argument, or the help of the command. *)
Definition with_number (name arg : list Z) (f : Z -> computer V -> option (computer V)) pc : option (computer V) :=
  match parse_number arg with
  | Some n => f n pc
  | None => shell_command_help name pc
  end.

Definition on_sys (f : sys -> Z * sys) pc : option (computer V) := Some (set_pc_sys (f (pc_sys pc)).2 pc).

Definition command_yield pc : option (computer V) :=
  pc ← print (lit "Yielding scheduler task" ++ ln) [] pc;
  let (o, s) := scheduler_yield (pc_sys pc) in
  pc ← after_switch o (set_pc_sys s pc);
  print (lit "Scheduler task resumed" ++ ln) [] pc.

Definition command_sleep (ms : Z) pc : option (computer V) :=
  if ms >? SHELL_MAX_SLEEP_MS then
    pc ← print (lit "Sleep too long: %d ms" ++ ln) [ArgInt ms] pc;
    print (lit "Max sleep: %d ms" ++ ln) [ArgInt SHELL_MAX_SLEEP_MS] pc
  else
    pc ← print (lit "Sleeping %d ms (blocked)" ++ ln) [ArgInt ms] pc;
    let (o, s) := scheduler_sleep_ms (timer_get_interval_ms (mtimer (pc_machine pc))) ms (pc_sys pc) in
    pc ← after_switch o (set_pc_sys s pc);
    print (lit "Sleep done" ++ ln) [] pc.

(** A system call until it is done. *)
Fixpoint call_loop (n : nat) (r : reply) pc : option (Z * computer V) :=
  match n, r with
  | _, Done r => Some (r, pc)
  | S n, Away c => let pc := others pc in let (r, k) := resume kernel_table c (pc_kernel pc) in call_loop n r (set_kernel k pc)
  | S n, Again c => let (r, k) := resume kernel_table c (pc_kernel pc) in call_loop n r (set_kernel k pc)
  | _, _ => None
  end.
Definition command_syscall (number : Z) pc : option (computer V) :=
  let interval := timer_get_interval_ms (mtimer (pc_machine pc)) in
  let (r, k) := syscall_dispatch kernel_table interval number 0 0 0 0 (pc_kernel pc) in
  '(result, pc) ← call_loop rounds r (set_kernel k pc);
  print (lit "syscall %d (%s) -> %d" ++ ln) [ArgInt number; ArgStr (Some (syscall_name number)); ArgInt result] pc.

(** The path at the head of an argument: up to a space, at most [max - 1] bytes. *)
Fixpoint split_path (room : nat) (text : list Z) : list Z * list Z :=
  match room, text with
  | S room, c :: rest => if c =? 32 then ([], text) else let (p, r) := split_path room rest in (c :: p, r)
  | _, _ => ([], text)
  end.

Definition launch (path : list Z) (argument : option (list Z)) pc : option (computer V) :=
  let '(pid, s, v) := scheduler_create_user_task_from_image kernel_table (Some (lit "user-program")) path argument (pc_sys pc) (pc_vfs pc) in
  let pc := set_pc_vfs v (set_pc_sys s pc) in
  if pid <? 0 then Some pc else
  let (r, s) := scheduler_unblock_user_task pid (pc_sys pc) in
  let pc := set_pc_sys s pc in
  if r =? 0 then print (lit "Launched user program as task %d" ++ ln) [ArgInt pid] pc else Some pc.

Definition command_run (arg : list Z) pc : option (computer V) :=
  let arg := match arg with [] => USER_DEMO_IMAGE_PATH | _ :: _ => arg end in
  let (path, rest) := split_path (Z.to_nat (VFS_MAX_PATH - 1)) arg in
  match rest with
  | c :: after =>
      if negb (c =? 32) then print (lit "Program path is too long" ++ ln) [] pc else
      launch path (Some (skip_spaces after)) pc
  | [] => launch path None pc
  end.

(** *** Files *)

Fixpoint cat_loop (n : nat) (path : list Z) (offset : Z) (bytes : list Z) pc : option (computer V) :=
  match n with
  | O => None
  | S n =>
      let '(count, buffer, v) := vfs_read path offset (Some bytes) 64 (pc_vfs pc) in
      let bytes := default [] buffer in
      let pc := set_pc_vfs v pc in
      if count <? 0 then print (lit "File not found: %s" ++ ln) [ArgStr (Some path)] pc else
      let pc := pc_write (take (Z.to_nat count) bytes) pc in
      let offset := offset + count in
      if count =? 64 then cat_loop n path offset bytes pc
      else if (offset =? 0) || negb (chr bytes (Z.to_nat (Z.land (count - 1) 63)) =? 10) then print ln [] pc else Some pc
  end.
(** More rounds than a file has pieces. *)
Definition cat_rounds : nat := 66.
Definition command_cat (arg : list Z) pc : option (computer V) :=
  match arg with
  | [] => shell_command_help (lit "cat") pc
  | _ :: _ => cat_loop cat_rounds arg 0 stack pc
  end.

Definition command_mkdir (arg : list Z) pc : option (computer V) :=
  match arg with
  | [] => shell_command_help (lit "mkdir") pc
  | _ :: _ =>
      let (r, v) := vfs_mkdir (Some arg) (pc_vfs pc) in
      let pc := set_pc_vfs v pc in
      if truth r then print (lit "Created directory: %s" ++ ln) [ArgStr (Some arg)] pc
      else print (lit "Failed to create directory: %s" ++ ln) [ArgStr (Some arg)] pc
  end.

Definition command_write (arg : list Z) pc : option (computer V) :=
  let (path, rest) := split_path (Z.to_nat (VFS_MAX_PATH - 1)) arg in
  let text := skip_spaces rest in
  match path, text with
  | _ :: _, _ :: _ =>
      let pc := set_pc_vfs (vfs_create (Some path) None 0 (pc_vfs pc)).2 pc in
      let (written, v) := vfs_write path 0 (Some text) (string_length text) (pc_vfs pc) in
      let pc := set_pc_vfs v pc in
      if written <? 0 then print (lit "Failed to write file: %s" ++ ln) [ArgStr (Some path)] pc else
      let pc := set_pc_vfs (vfs_truncate path (u64 written) (pc_vfs pc)).2 pc in
      print (lit "Wrote %d bytes: %s" ++ ln) [ArgInt written; ArgStr (Some path)] pc
  | _, _ => shell_command_help (lit "write") pc
  end.

Definition command_disk (arg : list Z) pc : option (computer V) :=
  match arg with
  | [] => print_all (block_dump_stats (dev (pc_sfs pc))) pc
  | _ :: _ =>
      if string_equals arg (lit "test") then
        let (r, b) := block_self_test stack (dev (pc_sfs pc)) in
        pc ← print (lit "Block self-test: %s" ++ ln) [ArgStr (Some (if truth r then lit "passed" else lit "failed"))] (set_pc_sfs (set_dev b (pc_sfs pc)) pc);
        print_all (block_dump_stats (dev (pc_sfs pc))) pc
      else shell_command_help (lit "disk") pc
  end.

Definition command_pfs (arg : list Z) pc : option (computer V) :=
  match arg with
  | [] => print_all (sfs_dump (pc_sfs pc)) pc
  | _ :: _ =>
      if string_equals arg (lit "format") then
        let (r, s) := sfs_format (pc_sfs pc) in
        print (lit "SaturnFS format: %s" ++ ln) [ArgStr (Some (if truth r then lit "complete" else lit "failed"))] (set_pc_sfs s pc)
      else shell_command_help (lit "pfs") pc
  end.

Definition command_pwrite (arg : list Z) pc : option (computer V) :=
  let (path, rest) := split_path (Z.to_nat (SFS_MAX_PATH - 1)) arg in
  let text := skip_spaces rest in
  match path, text with
  | _ :: _, _ :: _ =>
      let (r, s) := sfs_write_file (Some path) (Some text) (string_length text) (pc_sfs pc) in
      print (lit "Persistent write: %s" ++ ln) [ArgStr (Some (if truth r then lit "complete" else lit "failed"))] (set_pc_sfs s pc)
  | _, _ => shell_command_help (lit "pwrite") pc
  end.

Definition command_pcat (arg : list Z) pc : option (computer V) :=
  match arg with
  | [] => shell_command_help (lit "pcat") pc
  | _ :: _ =>
      let '(size, buffer, s) := sfs_read_file arg (Some (persistent_file_buffer pc)) SFS_MAX_FILE_SIZE (pc_sfs pc) in
      let pc := set_file_buffer (default [] buffer) (set_pc_sfs s pc) in
      if size <? 0 then print (lit "Persistent file not found or corrupt: %s" ++ ln) [ArgStr (Some arg)] pc else
      print ln [] (pc_write (take (Z.to_nat size) (persistent_file_buffer pc)) pc)
  end.

(** *** The dispatcher *)

(** The reports of the map ask for the region of the heap, and some for the registers. *)
Definition walk_report {R} (f : vm -> Z -> Z -> R) pc : R := f map (heap_region_start (kernel_heap pc)) (heap_region_end (kernel_heap pc)).
Definition vm_report {R} (f : vm -> mmu_regs -> Z -> Z -> R) pc : R := walk_report (fun v => f v (regs (pc_sys pc))) pc.

Definition takes_argument (name : list Z) : bool :=
  existsb (string_equals name)
    [lit "help"; lit "task"; lit "sleep"; lit "block"; lit "unblock"; lit "reap"; lit "syscall"; lit "cat"; lit "run"; lit "mkdir";
     lit "write"; lit "disk"; lit "pfs"; lit "pwrite"; lit "pcat"; lit "vmwalk"].

Definition unknown (command : list Z) pc : option (computer V) :=
  pc ← print (lit "Unknown command: %s" ++ ln) [ArgStr (Some command)] pc;
  print (lit "Type 'help' for commands" ++ ln) [] pc.

(** The chain of comparisons, after the check for an unexpected argument; commands compared
    with [named] take no argument, those compared with [begins] may. *)
Definition run_command (command effective arg : list Z) (selected : option shell_command) pc : option (computer V) :=
  let named name := string_equals effective (lit name) in
  let begins name := command_equals effective (lit name) in
  let no_arg := match arg with [] => true | _ :: _ => false end in
  if begins "help"%string then (if no_arg then shell_help pc else shell_command_help arg pc)
  else if named "version"%string then
    print (lit "%s %s (%s)" ++ ln) [ArgStr (Some SATURNOS_NAME); ArgStr (Some SATURNOS_VERSION); ArgStr (Some SATURNOS_CODENAME)] pc
  else if begins "task"%string then 
    (if no_arg then print_all (scheduler_dump_task_summary (pc_sys pc)) pc
     else with_number (lit "task") arg (fun pid pc => print_all (scheduler_dump_task_status (to_int pid) (pc_sys pc)).2 pc) pc)
  else if named "tasks"%string then
    pc ← print_all (tasks_report (pc_sys pc)) pc; Some (set_pc_sys (scheduler_dump_tasks (pc_sys pc)) pc)
  else if named "mem"%string then print_all (pmm_dump_stats (kpmm (pc_kernel pc))) pc
  else if named "heap"%string then rows ← heap_dump_stats (kernel_heap pc); print_all rows pc
  else if named "heaptest"%string then 
    '(rows, h) ← heap_self_test_report (kernel_heap pc); print_all rows (set_heap h (set_kpmm (pages h) pc))
  else if named "vm"%string then rows ← vm_report vm_dump_plan pc; print_all rows pc
  else if begins "vmwalk"%string then 
    (if no_arg then print_all (walk_report vm_dump_walk_examples pc) pc
     else with_number (lit "vmwalk") arg (fun address pc => print_all (walk_report vm_dump_walk_address pc (lit "arg") address) pc) pc)
  else if named "ticks"%string then
    print (lit "scheduler ticks=%d timer irqs=%d" ++ ln)
      [ArgInt (scheduler_get_ticks (pc_sys pc)); ArgInt (timer_get_irq_ticks (mtimer (pc_machine pc)))] pc
  else if named "yield"%string then command_yield pc
  else if begins "sleep"%string then (if no_arg then shell_command_help (lit "sleep") pc else with_number (lit "sleep") arg command_sleep pc)
  else if begins "block"%string then
    (if no_arg then shell_command_help (lit "block") pc else with_number (lit "block") arg (fun pid => on_sys (scheduler_block_task (to_int pid))) pc)
  else if begins "unblock"%string then
    (if no_arg then shell_command_help (lit "unblock") pc else with_number (lit "unblock") arg (fun pid => on_sys (scheduler_unblock_task (to_int pid))) pc)
  else if begins "reap"%string then
    (if no_arg then on_sys scheduler_reap_zombies pc else with_number (lit "reap") arg (fun pid => on_sys (scheduler_reap_zombie_task (to_int pid))) pc)
  else if begins "syscall"%string then 
    (if no_arg then print_all (syscall_dump_stats (kstats (pc_kernel pc))) pc else with_number (lit "syscall") arg command_syscall pc)
  else if named "ls"%string then print_all (vfs_dump_files (pc_vfs pc)) pc
  else if begins "cat"%string then command_cat arg pc
  else if begins "run"%string then command_run arg pc
  else if begins "mkdir"%string then command_mkdir arg pc
  else if begins "write"%string then command_write arg pc
  else if begins "disk"%string then command_disk arg pc
  else if begins "pfs"%string then command_pfs arg pc
  else if begins "pwrite"%string then command_pwrite arg pc
  else if begins "pcat"%string then command_pcat arg pc
  else if named "fb"%string then shell_framebuffer_status pc
  else if named "user"%string then print_all (scheduler_dump_user_stats (pc_sys pc)) pc
  else if named "clear"%string then Some (set_fb (framebuffer_console_init (pc_fb pc)) pc)
  else if named "panic"%string then None
  else if named "fault"%string then None
  else
    match selected with
    | Some _ =>
        if negb no_arg then
          pc ← print (lit "Unexpected argument: %s" ++ ln) [ArgStr (Some arg)] pc;
          shell_usage effective pc
        else unknown command pc
    | None => unknown command pc
    end.

Definition shell_execute (command : list Z) pc : option (computer V) :=
  let effective := command_alias_target command in
  let arg := command_arg command in
  match command with
  | [] => Some pc
  | _ :: _ =>
      let selected := match find_shell_command effective with Some c => Some c | None => find_shell_command_token effective end in
      match selected with
      | Some c =>
          if negb (string_equals arg []) && negb (takes_argument (c_name c)) then
            pc ← print (lit "Unexpected argument: %s" ++ ln) [ArgStr (Some arg)] pc;
            shell_usage (c_name c) pc
          else run_command command effective arg selected pc
      | None => run_command command effective arg selected pc
      end
  end.
End commands.
