(* ===== verification/CommandsProps.v ===== *)
(** * What the shell's commands do

    A typed text is a number exactly when it has the form of one; aliases, and unknown commands. *)

From S2P Require Import Prelude Pmm Heap BlockDevice Block Sfs Vfs Mmu AddressSpace Task Scheduler SchedulerProps Syscall SyscallProps Vm Console Interrupt Framebuffer Shell ShellProps Reports Commands.

(** ** Numbers *)

Lemma digit_value d : 0 <= d < 16 -> hex_digit_value (digit_char d) = Some d.
Proof.
  intros Hd. unfold hex_digit_value, digit_char, char_0, char_a. destruct (Z.ltb_spec d 10).
  - destruct (Z.geb_spec (48 + d) 48), (Z.leb_spec (48 + d) 57); try lia. cbn [andb]. f_equal. lia.
  - destruct (Z.leb_spec (97 + d - 10) 57); [lia|]. rewrite andb_false_r. destruct (Z.geb_spec (97 + d - 10) 97), (Z.leb_spec (97 + d - 10) 102); try lia.
    cbn [andb]. f_equal. lia.
Qed.

Lemma decimal_value d : 0 <= d < 10 -> decimal_digit_value (digit_char d) = Some d.
Proof.
  intros Hd. unfold decimal_digit_value, digit_char, char_0. destruct (Z.ltb_spec d 10); [|lia].
  destruct (Z.ltb_spec (48 + d) 48); [lia|]. destruct (Z.gtb_spec (48 + d) 57); [lia|]. cbn [orb]. f_equal. lia.
Qed.

(** A digit of a base. *)
Definition base_digit (base : Z) (c : Z) : option Z := if base =? 16 then hex_digit_value c else decimal_digit_value c.

Lemma base_digit_char base d : base = 10 \/ base = 16 -> 0 <= d < base -> base_digit base (digit_char d) = Some d.
Proof. intros [->| ->] Hd; [by apply decimal_value|by apply digit_value]. Qed.

Lemma digits_loop_app base l : forall r m, base = 10 \/ base = 16 -> Forall (fun c => is_Some (base_digit base c)) l ->
  Shell.digits_loop base (l ++ m) r = Shell.digits_loop base m (foldl (fun n c => u64 (n * base + default 0 (base_digit base c))) r l).
Proof.
  induction l as [|c l IH]; intros r m Hb Hl; [done|]. apply Forall_cons in Hl as [[d Hd] Hl]. cbn [app Shell.digits_loop foldl].
  fold (base_digit base c). rewrite Hd. cbn [mbind option_bind default]. by apply IH.
Qed.

Lemma numeral_digits fuel base n : base = 10 \/ base = 16 -> 0 <= n -> Forall (fun c => is_Some (base_digit base c)) (numeral fuel base n).
Proof.
  intros Hb. revert n. induction fuel as [|fuel IH]; intros n Hn; cbn [numeral]; [constructor|]. destruct (Z.ltb_spec n base).
  - apply Forall_singleton. rewrite base_digit_char by (done || lia). by eexists.
  - apply Forall_app. split; [apply IH, Z.div_pos; destruct Hb; lia|]. apply Forall_singleton.
    rewrite base_digit_char; [by eexists|done|]. apply Z.mod_pos_bound. destruct Hb; lia.
Qed.

Lemma u64_step a base d : u64 (u64 a * base + d) = u64 (a * base + d).
Proof. unfold u64. rewrite <- Zplus_mod_idemp_l, Zmult_mod_idemp_l. by rewrite Zplus_mod_idemp_l. Qed.

(** The value of a numeral, in 64 bits. *)
Lemma numeral_value fuel base n : base = 10 \/ base = 16 -> 0 <= n < base ^ Z.of_nat fuel ->
  foldl (fun n c => u64 (n * base + default 0 (base_digit base c))) 0 (numeral fuel base n) = u64 n.
Proof.
  intros Hb. revert n. induction fuel as [|fuel IH]; intros n Hn; cbn [numeral].
  { change (base ^ Z.of_nat 0) with 1 in Hn. by replace n with 0 by lia. }
  rewrite Nat2Z.inj_succ, Z.pow_succ_r in Hn by lia. assert (0 < base <= 16) by (destruct Hb; lia). destruct (Z.ltb_spec n base).
  - cbn [foldl]. rewrite base_digit_char by (done || lia). done.
  - rewrite foldl_app. cbn [foldl]. rewrite IH by (split; [apply Z.div_pos; lia|apply Z.div_lt_upper_bound; lia]).
    rewrite base_digit_char by (done || (apply Z.mod_pos_bound; lia)). rewrite u64_step.
    unfold default, id. f_equal. pose proof (Z.div_mod n base ltac:(lia)). lia.
Qed.

Lemma skip_spaces_app k t : match t with c :: _ => c <> 32 | [] => True end -> Shell.skip_spaces (replicate k 32 ++ t) = t.
Proof.
  intros Ht. induction k as [|k IH]; cbn [replicate app]; [|exact IH]. destruct t as [|c t]; [done|]. cbn [Shell.skip_spaces]. by destruct (Z.eqb_spec c 32).
Qed.

Lemma numeral_cons fuel base n : base = 10 \/ base = 16 -> 0 <= n < base ^ Z.of_nat (S fuel) ->
  exists d t, numeral (S fuel) base n = digit_char d :: t /\ 0 <= d < base /\ (d = 0 -> t = []).
Proof.
  intros Hb Hn. destruct (Z.eq_dec n 0) as [->|Hnz].
  - exists 0, []. cbn [numeral]. destruct (Z.ltb_spec 0 base); [|destruct Hb; lia]. split; [done|]. split; [lia|done].
  - destruct (numeral_head (S fuel) base n) as (d & rest & E & Hd); [destruct Hb; lia|lia|]. exists d, rest. split; [done|]. split; [lia|lia].
Qed.

Lemma chr_0 c t : chr (c :: t) 0 = c.
Proof. done. Qed.
Lemma chr_1 c t : chr (c :: t) 1 = chr t 0.
Proof. done. Qed.

Lemma digit_char_code d : 0 <= d < 16 -> digit_char d <> 32 /\ digit_char d <> 120 /\ digit_char d <> 88 /\ (digit_char d = 48 -> d = 0).
Proof. intros Hd. unfold digit_char, char_0, char_a. destruct (Z.ltb_spec d 10); lia. Qed.

(** The characters a base takes for its digits, with their values. *)
Definition digit_of (base c v : Z) : Prop :=
  48 <= c <= 57 /\ v = c - 48 \/ base = 16 /\ (97 <= c <= 102 /\ v = c - 87 \/ 65 <= c <= 70 /\ v = c - 55).

(** The value of a row of digits, most significant first. *)
Definition value_of (base : Z) (ds : list Z) : Z := foldl (fun n d => n * base + d) 0 ds.

(** The texts that are numbers, with the number each of them writes: spaces, then either
    one or more decimal digits, or [0x] or [0X] and one or more hexadecimal ones. *)
Inductive number_text : list Z -> Z -> Prop :=
  | decimal_text spaces t ds : t <> [] -> Forall2 (digit_of 10) t ds ->
      number_text (replicate spaces 32 ++ t) (value_of 10 ds)
  | hexadecimal_text spaces x t ds : x = 120 \/ x = 88 -> t <> [] -> Forall2 (digit_of 16) t ds ->
      number_text (replicate spaces 32 ++ 48 :: x :: t) (value_of 16 ds).

Lemma base_digit_iff base c v : base = 10 \/ base = 16 -> base_digit base c = Some v <-> digit_of base c v.
Proof.
  unfold base_digit, digit_of, hex_digit_value, decimal_digit_value. rewrite !Z.geb_leb, Z.gtb_ltb.
  intros [->| ->]; cbn [Z.eqb Pos.eqb].
  - destruct (Z.ltb_spec c 48), (Z.ltb_spec 57 c); cbn [orb]; split; try (intros [= <-]); try (intros [[? ->]|[? ?]]); try done; try lia; try (f_equal; lia).
  - destruct (Z.leb_spec 48 c), (Z.leb_spec c 57), (Z.leb_spec 97 c), (Z.leb_spec c 102), (Z.leb_spec 65 c), (Z.leb_spec c 70); cbn [andb];
      (split; [first [intros [= <-]; lia|done]|intros ?; first [f_equal; lia|exfalso; lia]]).
Qed.

Lemma digits_loop_iff base t : forall r n, base = 10 \/ base = 16 ->
  Shell.digits_loop base t (u64 r) = Some n <->
  exists ds, Forall2 (digit_of base) t ds /\ n = u64 (foldl (fun n d => n * base + d) r ds).
Proof.
  induction t as [|c t IH]; intros r n Hb; cbn [Shell.digits_loop].
  { split; [intros [= <-]; by exists []|]. intros (ds & ->%Forall2_nil_inv_l & ->). done. }
  fold (base_digit base c). split.
  - destruct (base_digit base c) as [v|] eqn:Ev; [|done]. cbn [mbind option_bind]. rewrite u64_step. intros (ds & Hds & ->)%IH; [|done].
    exists (v :: ds). split; [constructor; [by apply base_digit_iff|done]|done].
  - intros (ds & Hds & ->). apply Forall2_cons_inv_l in Hds as (v & ds' & Hv & Hds & ->). apply base_digit_iff in Hv as ->; [|done].
    cbn [mbind option_bind foldl]. rewrite u64_step. apply IH; [done|]. by exists ds'.
Qed.

Lemma digits_value base t n : base = 10 \/ base = 16 ->
  Shell.digits_loop base t 0 = Some n <-> exists ds, Forall2 (digit_of base) t ds /\ n = u64 (value_of base ds).
Proof. exact (digits_loop_iff base t 0 n). Qed.

Lemma skip_spaces_split t : exists k, t = replicate k 32 ++ Shell.skip_spaces t.
Proof.
  induction t as [|c t [k IH]]; [by exists 0%nat|]. cbn [Shell.skip_spaces]. destruct (Z.eqb_spec c 32) as [->|]; [|by exists 0%nat].
  exists (S k). cbn [replicate app]. by rewrite <- IH.
Qed.

Lemma digits_not_prefix base t ds : base = 10 -> Forall2 (digit_of base) t ds ->
  (chr t 0 =? 48) && ((chr t 1 =? 120) || (chr t 1 =? 88)) = false.
Proof.
  intros -> Hds. apply andb_false_iff. right. destruct Hds as [|c d t ds Hc [|c' d' t' ds' Hc' _]]; rewrite ?chr_1, ?chr_0; [done..|].
  unfold digit_of in Hc'. apply orb_false_iff. rewrite !Z.eqb_neq. lia.
Qed.

(** Success is exactly being the text of a number. *)
Lemma parse_number_iff text n : parse_number text = Some n <-> exists v, number_text text v /\ n = u64 v.
Proof.
  unfold parse_number. split.
  - destruct (skip_spaces_split text) as [k Hk]. set (t := Shell.skip_spaces text) in *. clearbody t. subst text.
    destruct ((chr t 0 =? 48) && _) eqn:Ex.
    + apply andb_true_iff in Ex as [E0%Z.eqb_eq E1%orb_true_iff]. rewrite !Z.eqb_eq in E1. destruct t as [|c [|x t]]; [discriminate E0|by destruct E1 as [E1|E1]; discriminate E1|].
      rewrite chr_0 in E0. subst c. rewrite chr_1, chr_0 in E1. cbn [drop]. rewrite drop_0. destruct (Shell.digits_loop 16 t 0) as [m|] eqn:El; [|done].
      cbn [mbind option_bind]. destruct t as [|c t]; [done|]. intros [= <-]. apply (digits_value 16 (c :: t)) in El as (ds & Hds & ->); [|by right].
      exists (value_of 16 ds). by split; [constructor|].
    + destruct (Shell.digits_loop 10 t 0) as [m|] eqn:El; [|done]. cbn [mbind option_bind]. destruct t as [|c t]; [done|]. intros [= <-].
      apply (digits_value 10 (c :: t)) in El as (ds & Hds & ->); [|by left]. exists (value_of 10 ds). by split; [constructor|].
  - intros (v & Hv & ->). destruct Hv as [k t ds Hne Hds|k x t ds Hx Hne Hds].
    + rewrite skip_spaces_app by (destruct Hds as [|c d ? ? Hc]; [done|]; unfold digit_of in Hc; lia).
      rewrite (digits_not_prefix 10 t ds) by done. rewrite (proj2 (digits_value 10 t (u64 (value_of 10 ds)) ltac:(by left))) by (by exists ds).
      by destruct t.
    + rewrite skip_spaces_app by done. rewrite chr_0, chr_1, chr_0. assert ((x =? 120) || (x =? 88) = true) as -> by (destruct Hx as [->| ->]; done).
      cbn [Z.eqb Pos.eqb andb drop]. rewrite drop_0, (proj2 (digits_value 16 t (u64 (value_of 16 ds)) ltac:(by right))) by (by exists ds).
      by destruct t.
Qed.

(** (C38) A typed number is read exactly when it is one. Any text at all is read as [n] if
    and only if it is spaces followed by one or more decimal digits, or by [0x] or [0X] and
    one or more hexadecimal ones, and [n] is the number they write - what is left of it in
    64 bits, when it is longer; and every text that is not of this form is refused. In
    particular what the kernel prints is read back: the decimal numeral of a number, and its
    hexadecimal numeral after [0x] or [0X], with spaces before. *)
Theorem numbers_are_read text spaces fuel n :
  match parse_number text with
  | Some m => exists v, number_text text v /\ m = u64 v
  | None => forall v, ~ number_text text v
  end /\
  (forall v, number_text text v -> parse_number text = Some (u64 v)) /\
  (0 <= n < 10 ^ Z.of_nat (S fuel) -> parse_number (replicate spaces 32 ++ numeral (S fuel) 10 n) = Some (u64 n)) /\
  (0 <= n < 16 ^ Z.of_nat (S fuel) ->
     parse_number (replicate spaces 32 ++ [48; 120] ++ numeral (S fuel) 16 n) = Some (u64 n) /\
     parse_number (replicate spaces 32 ++ [48; 88] ++ numeral (S fuel) 16 n) = Some (u64 n)).
Proof.
  split; [|split; [|split]].
  - destruct (parse_number text) as [m|] eqn:E; [by apply parse_number_iff|]. intros v Hv.
    assert (parse_number text = Some (u64 v)) as Hs by (apply parse_number_iff; by exists v). congruence.
  - intros v Hv. apply parse_number_iff. by exists v.
  - intros Hn. destruct (numeral_cons fuel 10 n ltac:(by left) Hn) as (d & l & E & Hd & H0). destruct (digit_char_code d ltac:(lia)) as (D1 & D2 & D3 & D4).
    unfold parse_number. rewrite skip_spaces_app by (by rewrite E). rewrite E, chr_0, chr_1. 
    assert ((digit_char d =? 48) && ((chr l 0 =? 120) || (chr l 0 =? 88)) = false) as ->.
    { destruct (Z.eqb_spec (digit_char d) 48) as [E48|]; [|done]. rewrite (H0 (D4 E48)). done. }
    cbv zeta. cbn iota. rewrite <- E. pose proof (digits_loop_app 10 (numeral (S fuel) 10 n) 0 [] ltac:(by left) (numeral_digits (S fuel) 10 n ltac:(by left) (proj1 Hn))) as Hl.
    rewrite app_nil_r in Hl. rewrite Hl, numeral_value by (done || by left). cbn [Shell.digits_loop mbind option_bind]. done.
  - intros Hn. destruct (numeral_cons fuel 16 n ltac:(by right) Hn) as (d & l & E & Hd & _).
    pose proof (digits_loop_app 16 (numeral (S fuel) 16 n) 0 [] ltac:(by right) (numeral_digits (S fuel) 16 n ltac:(by right) (proj1 Hn))) as Hl.
    rewrite app_nil_r in Hl. split; unfold parse_number; rewrite skip_spaces_app by done; cbn [app]; rewrite chr_0, chr_1, chr_0; cbv zeta; cbn [Z.eqb Pos.eqb orb andb drop];
      cbn iota; rewrite drop_0;
      rewrite Hl, numeral_value by (done || by right); cbn [Shell.digits_loop mbind option_bind]; by rewrite E.
Qed.

(** ** Names *)

Section commands.
Context `{CodeLayout} `{AsLayout} `{VmLayout} (kernel_table : Z -> list Z) (map : vm).
Context {V : Type} `{VirtioBlk V}.
Context (others : computer V -> computer V) (rounds : nat) (stack : list Z).
Implicit Types pc : computer V.
Local Abbreviation execute := (Commands.shell_execute kernel_table map others rounds stack).
Local Abbreviation run_command := (Commands.run_command kernel_table map others rounds stack).

(** What a line does, by the command it names, its name after the aliases, and its argument. *)
Lemma execute_eq command effective arg pc : command <> [] -> command_alias_target command = effective -> command_arg command = arg ->
  execute command pc =
  let selected := match find_shell_command effective with Some c => Some c | None => find_shell_command_token effective end in
  match selected with
  | Some c =>
      if negb (string_equals arg []) && negb (takes_argument (c_name c)) then
        pc ← print (lit "Unexpected argument: %s" ++ ln) [ArgStr (Some arg)] pc; shell_usage (c_name c) pc
      else run_command command effective arg selected pc
  | None => run_command command effective arg selected pc
  end.
Proof. intros Hn <- <-. by destruct command. Qed.

(** A line begins with the name of an alias, another with the target in its place: the
    conditions of the chain of comparisons have the same value in both. *)
Lemma if_true {A} (b : bool) (x y z : A) : b = true -> x = z -> (if b then x else y) = z.
Proof. by intros ->. Qed.
Lemma if_false {A} (b : bool) (x y z : A) : b = false -> y = z -> (if b then x else y) = z.
Proof. by intros ->. Qed.
Lemma match_some {A B} (o : option A) a (f : A -> B) y z : o = Some a -> f a = z -> (match o with Some a => f a | None => y end) = z.
Proof. by intros ->. Qed.
Lemma match_none {A B} (o : option A) (f : A -> B) y z : o = None -> y = z -> (match o with Some a => f a | None => y end) = z.
Proof. by intros ->. Qed.
Ltac same_branch :=
  repeat lazymatch goal with
  | |- (if ?b then _ else _) = _ =>
      let v := eval vm_compute in b in
      lazymatch v with true => apply if_true; [vm_compute; reflexivity|] | false => apply if_false; [vm_compute; reflexivity|] end
  | |- (match ?o with Some _ => _ | None => _ end) = _ =>
      let v := eval vm_compute in o in
      lazymatch v with
      | Some ?a => apply (match_some o a); [vm_compute; reflexivity|cbv beta]
      | None => apply (match_none o); [vm_compute; reflexivity|]
      end
  end;
  symmetry.
Ltac same_line arg E :=
  cbn [a_name a_target];
  lazymatch goal with |- _ ?l _ = _ ?r _ =>
    refine (eq_trans (execute_eq l _ arg _ ltac:(discriminate) eq_refl E) (eq_trans _ (eq_sym (execute_eq r _ arg _ ltac:(discriminate) eq_refl E))))
  end;
  cbv zeta; do 2 same_branch; unfold Commands.run_command; cbv zeta; do 2 same_branch; reflexivity.

(** An alias is its command: a line that begins with an alias does what the line does
    that has the alias's target in its place, whether the name is alone or an argument
    follows it. A name with spaces and nothing else after it is another matter: the line
    [ps ] lists the tasks as [tasks] does, but the line [tasks ] is an unknown command. *)
Theorem aliases_are_commands a x pc : a ∈ shell_aliases -> (x = [] \/ exists y, x = 32 :: y /\ skip_spaces y <> []) ->
  execute (a_name a ++ x) pc = execute (a_target a ++ x) pc /\
  execute (lit "ps ") pc = execute (lit "tasks") pc /\ execute (lit "tasks ") pc = unknown (lit "tasks ") pc.
Proof.
  intros Ha Hx. split; [|split; [|reflexivity]].
  - destruct Hx as [->|(y & -> & Hy)].
    + rewrite !app_nil_r. repeat (apply elem_of_cons in Ha as [->|Ha]; [same_line (@nil Z) (eq_refl (@nil Z))|]). destruct (not_elem_of_nil _ Ha).
    + destruct (skip_spaces y) as [|c z] eqn:E; [destruct (Hy eq_refl)|]. clear Hy.
      repeat (apply elem_of_cons in Ha as [->|Ha]; [same_line (c :: z) E|]). destruct (not_elem_of_nil _ Ha).
  - same_line (@nil Z) (eq_refl (@nil Z)).
Qed.

(** *** Lines that name nothing *)

Lemma equals_command effective name : command_equals effective name = false -> string_equals effective name = false.
Proof.
  revert effective. induction name as [|n name IH]; intros [|c effective]; cbn; try done. destruct (negb (c =? n)); [done|]. apply IH.
Qed.

Lemma find_none {A} (f : A -> bool) (l : list A) : (forall x, x ∈ l -> f x = false) -> find f l = None.
Proof.
  induction l as [|x l IH]; intros Hf; [done|]. cbn [find]. rewrite Hf by apply list_elem_of_here. apply IH. intros y Hy. by apply Hf, list_elem_of_further.
Qed.

(** A print, by the pieces of its format. *)
Lemma print_pieces ps fmt args pc : Forall piece_ok ps -> fmt = concat (piece_format <$> ps) -> args = concat (piece_args <$> ps) ->
  print fmt args pc = Some (pc_write (concat (piece_output <$> ps)) pc).
Proof. intros Hp -> ->. unfold print. by rewrite (kprintf_pieces ps []) by done. Qed.

Lemma unknown_prints command pc : cstring command ->
  unknown command pc = Some (pc_write (lit "Type 'help' for commands" ++ ln) (pc_write (lit "Unknown command: " ++ command ++ ln) pc)).
Proof.
  intros Hc. unfold unknown. rewrite (print_pieces [Text (lit "Unknown command: "); Str (Some command); Text ln]); [|repeat constructor; try done; by vm_compute|done..].
  reflexivity.
Qed.

(** A line that begins with no command's and no alias's name only says so: two lines are
    printed, and nothing else changes. *)
Theorem unknown_only_prints command pc :
  command <> [] -> cstring command -> (forall name, name ∈ all_names -> command_equals command name = false) ->
  execute command pc = Some (pc_write (lit "Type 'help' for commands" ++ ln) (pc_write (lit "Unknown command: " ++ command ++ ln) pc)).
Proof.
  intros Hn Hc Hu. rewrite <- unknown_prints by done.
  assert (command_alias_target command = command) as Ha.
  { unfold command_alias_target. rewrite find_none; [done|]. intros a Ha. apply Hu. apply elem_of_app. right. by apply (list_elem_of_fmap_2 a_name). }
  assert (forall c, c ∈ shell_commands -> command_equals command (c_name c) = false) as Hcmd.
  { intros c Hin. apply Hu. apply elem_of_app. left. by apply (list_elem_of_fmap_2 c_name). }
  rewrite (execute_eq command command (command_arg command)) by done.
  assert (find_shell_command command = None) as ->. { apply find_none. intros c Hin. by apply equals_command, Hcmd. }
  assert (find_shell_command_token command = None) as ->. { by apply find_none. }
  cbv zeta. unfold Commands.run_command. clear Ha.
  repeat match goal with
  | |- context [command_equals command (lit ?n)] => rewrite (Hu (lit n)) by (apply list_elem_of_In; vm_compute; tauto)
  | |- context [string_equals command (lit ?n)] => rewrite (equals_command command (lit n)) by (apply Hu, list_elem_of_In; vm_compute; tauto)
  end.
  reflexivity.
Qed.
End commands.
