(* ===== verification/CommandsFiles.v ===== *)
(** * Files written and printed from the command line

    [write] leaves a file that holds exactly the text typed, and [cat] prints it. *)

From S2P Require Import Prelude Pmm Heap BlockDevice Block Sfs Vfs Mmu AddressSpace Task Scheduler Syscall Vm Console Interrupt Framebuffer Shell ShellProps Reports Commands CommandsProps.

(** ** Splitting an argument *)

Lemma skip_spaces_start t : (forall u, t <> 32 :: u) -> skip_spaces t = t.
Proof. intros Ht. destruct t as [|c t]; [done|]. cbn [skip_spaces]. destruct (Z.eqb_spec c 32) as [->|]; [by destruct (Ht t)|done]. Qed.

Lemma split_path_word room path rest : 32 ∉ path -> (length path <= room)%nat -> (rest = [] \/ exists u, rest = 32 :: u) ->
  split_path room (path ++ rest) = (path, rest).
Proof.
  intros Hp. revert room. induction path as [|c path IH]; intros room Hl Hr; cbn [app].
  - destruct Hr as [->|[u ->]]; [by destruct room|]. destruct room; [done|]. cbn [split_path]. by rewrite Z.eqb_refl.
  - apply not_elem_of_cons in Hp as [Hc Hp]. cbn [length] in Hl. destruct room as [|room]; [lia|]. cbn [split_path].
    destruct (Z.eqb_spec c 32); [done|]. by rewrite IH by (done || lia).
Qed.

Section files.
Context `{CodeLayout} `{AsLayout} `{VmLayout} (kernel_table : Z -> list Z) (map : vm).
Context {V : Type} `{VirtioBlk V}.
Context (others : computer V -> computer V) (rounds : nat) (stack : list Z).
Implicit Types pc : computer V.
Local Abbreviation execute := (Commands.shell_execute kernel_table map others rounds stack).

(** What a file holds. *)
Definition contents pc (p : list Z) : option (list Z) := file_in (nodes (pc_vfs pc)) p.

Lemma framebuffer_write_app t u s : framebuffer_console_write (t ++ u) s = framebuffer_console_write u (framebuffer_console_write t s).
Proof. revert s. induction t as [|c t IH]; intros s; cbn [app framebuffer_console_write]; [done|apply IH]. Qed.

Lemma pc_write_nil pc : pc_write [] pc = pc.
Proof. destruct pc as [[[? ? ? ? ? ?] ? ?] ? ? ?]. unfold pc_write, set_fb, set_kernel, set_machine, set_console, pc_kernel. cbn. by rewrite app_nil_r. Qed.
Lemma pc_write_app t u pc : pc_write (t ++ u) pc = pc_write u (pc_write t pc).
Proof.
  destruct pc as [[[? ? ? ? ? ?] ? ?] ? ? ?]. unfold pc_write, set_fb, set_kernel, set_machine, set_console, pc_kernel. cbn.
  by rewrite framebuffer_write_app, app_assoc.
Qed.
Lemma set_vfs_same pc : set_pc_vfs (pc_vfs pc) pc = pc.
Proof. by destruct pc as [[[? ? ? ? ? ?] ? ?] ? ? ?]. Qed.
Lemma vfs_set v pc : pc_vfs (set_pc_vfs v pc) = v.
Proof. done. Qed.
Lemma vfs_write_text t pc : pc_vfs (pc_write t pc) = pc_vfs pc.
Proof. done. Qed.

(** ** Printing a file *)

(** After the contents: a new line, unless they end with one. *)
Definition file_end (c : list Z) : list Z := if decide (last c = Some 10) then [] else ln.

Lemma last_index {A} (c : list A) : last c = c !! pred (length c).
Proof. apply last_lookup. Qed.

Lemma cat_file path c n : forall k bytes pc, vfs_inv (pc_vfs pc) -> cstring path -> vfs_disk_path (Some path) = None -> contents pc path = Some c ->
  (64 * k <= length c)%nat -> (length c - 64 * k < 64 * n)%nat -> (64 <= length bytes)%nat -> (k <> 0%nat -> bytes !! 63%nat = c !! pred (64 * k)) ->
  cat_loop n path (Z.of_nat (64 * k)) bytes pc = Some (pc_write (drop (64 * k) c ++ file_end c) pc).
Proof.
  induction n as [|n IH]; intros k bytes pc Hv Hp Hd Hc Hk Hn Hb Hlast; [lia|]. cbn [cat_loop].
  pose proof (vfs_read_cases (pc_vfs pc) path c (Z.of_nat (64 * k)) bytes 64 Hv Hp Hd Hc ltac:(lia) ltac:(lia)) as Hr.
  destruct (vfs_read _ _ _ _ _) as [[count buffer] v]. destruct Hr as [-> Hr]. destruct (Z.leb_spec (Z.of_nat (64 * k)) (Z.of_nat (length c))); [|lia].
  destruct Hr as [-> ->]. rewrite set_vfs_same, Nat2Z.id. change (Z.to_nat 64) with 64%nat. unfold slice. set (r := take 64 (drop (64 * k) c)).
  assert (length r = Nat.min 64 (length c - 64 * k)) as Hlr by (unfold r; by rewrite length_take, length_drop).
  cbn [from_option id]. destruct (Z.ltb_spec (Z.of_nat (length r)) 0); [lia|]. rewrite Nat2Z.id, take_app_le, take_ge by lia.
  destruct (Z.eqb_spec (Z.of_nat (length r)) 64) as [E|E].
  - replace (Z.of_nat (64 * k) + Z.of_nat (length r)) with (Z.of_nat (64 * S k)) by lia.
    rewrite IH; [|done..|lia|lia|rewrite length_app, length_drop; lia|].
    + rewrite <- pc_write_app, app_assoc. do 2 f_equal. f_equal. unfold r. rewrite <- (take_drop 64 (drop (64 * k) c)) at 2. f_equal. rewrite drop_drop. f_equal. lia.
    + intros _. rewrite lookup_app_l by lia. unfold r. rewrite lookup_take_lt by lia. rewrite lookup_drop. f_equal. lia.
  - assert (r = drop (64 * k) c) as Er by (unfold r; apply take_ge; rewrite length_drop; lia). rewrite <- Er.
    rewrite pc_write_app. unfold file_end. destruct (Z.eqb_spec (Z.of_nat (64 * k) + Z.of_nat (length r)) 0) as [E0|E0].
    { cbn [orb]. rewrite decide_False; [reflexivity|]. destruct c; [done|]. cbn [length] in *. lia. }
    cbn [orb]. assert (last c = Some (chr (r ++ drop (length r) bytes) (Z.to_nat (Z.land (Z.of_nat (length r) - 1) 63)))) as Hlc.
    { rewrite last_index. destruct (decide (length r = 0%nat)) as [Hz|Hnz].
      - rewrite Hz. change (Z.to_nat (Z.land (Z.of_nat 0 - 1) 63)) with 63%nat. rewrite (nil_length_inv _ Hz), drop_0. cbn [app]. unfold chr.
        rewrite (Hlast ltac:(lia)). replace (pred (64 * k)) with (pred (length c)) by lia. destruct (lookup_lt_is_Some_2 c (pred (length c))) as [x ->]; [lia|done].
      - change 63 with (Z.ones 6). rewrite Z.land_ones by lia. change (2 ^ 6) with 64; rewrite Z.mod_small by lia. unfold chr. rewrite lookup_app_l by lia.
        assert (r !! Z.to_nat (Z.of_nat (length r) - 1) = c !! pred (length c)) as ->.
        { transitivity (drop (64 * k) c !! Z.to_nat (Z.of_nat (length r) - 1)); [by rewrite <- Er|]. rewrite lookup_drop. f_equal. lia. }
        destruct (lookup_lt_is_Some_2 c (pred (length c))) as [x ->]; [lia|done]. }
    rewrite Hlc. destruct (Z.eqb_spec (chr (r ++ drop (length r) bytes) (Z.to_nat (Z.land (Z.of_nat (length r) - 1) 63))) 10) as [->|Hne].
    + rewrite decide_True by done. cbn [negb]. by rewrite pc_write_nil.
    + rewrite decide_False by (intros [=]; done). reflexivity.
Qed.

(** ** Writing a file *)

Lemma execute_write x c z pc : skip_spaces x = c :: z -> execute (lit "write " ++ x) pc = command_write (c :: z) pc.
Proof.
  intros E. change (lit "write " ++ x) with (lit "write" ++ 32 :: x).
  rewrite (execute_eq kernel_table map others rounds stack (lit "write" ++ 32 :: x) (lit "write" ++ 32 :: x) (c :: z) pc ltac:(discriminate) eq_refl E). reflexivity.
Qed.
Lemma execute_cat x c z pc : skip_spaces x = c :: z -> execute (lit "cat " ++ x) pc = command_cat stack (c :: z) pc.
Proof.
  intros E. change (lit "cat " ++ x) with (lit "cat" ++ 32 :: x).
  rewrite (execute_eq kernel_table map others rounds stack (lit "cat" ++ 32 :: x) (lit "cat" ++ 32 :: x) (c :: z) pc ltac:(discriminate) eq_refl E). reflexivity.
Qed.

Lemma create_empty p (v : vfs (block V)) : vfs_disk_path (Some p) = None -> vfs_create (Some p) None 0 v = vfs_create (Some p) (Some []) 0 v.
Proof. intros Hd. unfold vfs_create. rewrite Hd. reflexivity. Qed.

(** The name of a file a line can write. *)
Record writable_name (p : list Z) (v : vfs (block V)) : Prop := {
  wn_cstring : cstring p;
  wn_nonempty : p <> [];
  wn_word : 32 ∉ p;
  wn_length : (length p <= 47)%nat;
  wn_ram : vfs_disk_path (Some p) = None;
  wn_place : (exists c, file_in (nodes v) p = Some c) \/
             good_path p /\ (forall i n, ~ node_at (nodes v) p i n) /\ parent_ok (nodes v) p /\ file_count v < VFS_MAX_FILES;
}.

(** A text over the start of the contents, cut after it. *)
Lemma resized_front text c n : n = Z.of_nat (length text) -> resized (spliced c (Z.to_nat 0) (take (Z.to_nat n) text)) (Z.to_nat n) = text.
Proof.
  intros ->. rewrite Nat2Z.id, (take_ge text) by lia. unfold resized, spliced. change (Z.to_nat 0) with 0%nat. rewrite take_0; cbn [app].
  rewrite (take_app_le text), (take_ge text) by lia. rewrite length_app, Nat.sub_add_distr, Nat.sub_diag. apply app_nil_r.
Qed.

(** The three calls a [write] makes. *)
Lemma write_calls p text (v : vfs (block V)) : vfs_inv v -> writable_name p v -> (0 < length text <= 4096)%nat ->
  let v1 := (vfs_create (Some p) None 0 v).2 in
  let (written, v2) := vfs_write p 0 (Some text) (string_length text) v1 in
  written = string_length text /\
  let v3 := (vfs_truncate p (u64 written) v2).2 in
  vfs_inv v3 /\ disk v3 = disk v /\ forall q, cstring q -> file_in (nodes v3) q = if decide (q = p) then Some text else file_in (nodes v) q.
Proof.
  intros Hv [Hc Hne Hw Hl Hd Hplace] Ht. cbv zeta. rewrite create_empty by done.
  pose proof (vfs_create_cases v p [] 0 Hv Hc Hd ltac:(lia) ltac:(cbn; lia)) as Hcr. cbv zeta in Hcr. destruct (vfs_create _ _ _ v) as [r v1]. cbn [snd].
  assert (exists c, vfs_inv v1 /\ disk v1 = disk v /\ file_in (nodes v1) p = Some c /\
            forall q, cstring q -> q <> p -> file_in (nodes v1) q = file_in (nodes v) q) as (c & Hv1 & Hd1 & Hc1 & Ho1).
  { destruct Hcr as [(_ & -> & Hno)|(_ & _ & Hi & Hd' & Hf)].
    - destruct Hplace as [[c Hc']|Hok]; [by exists c|]. destruct Hno. unfold VFS_MAX_FILE_SIZE. destruct_and!. split_and!; (done || lia).
    - exists []. split_and!; [done..| |].
      + rewrite Hf by done. by rewrite decide_True.
      + intros q Hq Hqp. rewrite Hf by done. by rewrite decide_False. }
  pose proof (vfs_write_cases v1 p c 0 text (string_length text) Hv1 Hc Hd Hc1 ltac:(lia) ltac:(unfold string_length; lia)) as Hwr.
  destruct (vfs_write _ _ _ _ v1) as [written v2]. unfold VFS_MAX_FILE_SIZE in Hwr. destruct (Z.leb_spec (0 + string_length text) 4096); [|unfold string_length in *; lia].
  destruct Hwr as (-> & Hv2 & Hd2 & Hf2). split; [done|]. rewrite u64_small by (unfold string_length; lia).
  pose proof (Hf2 p Hc) as Hp2. rewrite decide_True in Hp2 by done.
  pose proof (vfs_truncate_cases v2 p _ (string_length text) Hv2 Hc Hd Hp2 ltac:(unfold string_length; lia)) as Htr.
  destruct (vfs_truncate _ _ v2) as [r3 v3]. cbn [snd]. unfold VFS_MAX_FILE_SIZE in Htr. destruct (Z.leb_spec (string_length text) 4096); [|unfold string_length in *; lia].
  destruct Htr as (_ & Hv3 & Hd3 & Hf3). split_and!; [done|congruence|]. intros q Hq. rewrite Hf3 by done. destruct (decide (q = p)) as [->|Hqp].
  - f_equal. apply resized_front. unfold string_length. lia.
  - rewrite Hf2 by done. rewrite decide_False by done. by apply Ho1.
Qed.

(** (C18) What is typed into a file comes out of it: for the name of a file in memory that
    exists or can be made, [write] followed by the name and a text leaves a file with
    exactly that text, whatever was in it, changes no other file and not the disk, and says
    how many bytes it wrote; and [cat] then prints the text, and a new line after it unless
    the text ends with one. *)
Theorem write_then_cat p text pc :
  vfs_inv (pc_vfs pc) -> writable_name p (pc_vfs pc) -> (0 < length text <= 4096)%nat -> head text <> Some 32 -> (64 <= length stack)%nat ->
  exists pc1, execute (lit "write " ++ p ++ [32] ++ text) pc = Some pc1 /\
    contents pc1 p = Some text /\ (forall q, cstring q -> q <> p -> contents pc1 q = contents pc q) /\ pc_sfs pc1 = pc_sfs pc /\
    Syscall.console (pc_kernel pc1) = Syscall.console (pc_kernel pc) ++ lit "Wrote " ++ decimal (string_length text) ++ lit " bytes: " ++ p ++ ln /\
    execute (lit "cat " ++ p) pc1 = Some (pc_write (text ++ file_end text) pc1).
Proof.
  intros Hv Hn Ht Hh Hs. pose proof Hn as [Hc Hne Hw Hl Hd _]. pose proof (write_calls p text (pc_vfs pc) Hv Hn Ht) as Hcalls. cbv zeta in Hcalls.
  destruct p as [|c p]; [done|]. assert (c <> 32) as Hc32 by (intros ->; apply Hw, list_elem_of_here).
  assert (forall x, skip_spaces ((c :: p) ++ x) = c :: p ++ x) as Hskip.
  { intros x. cbn [app skip_spaces]. by destruct (Z.eqb_spec c 32). }
  rewrite (execute_write _ c (p ++ [32] ++ text)) by apply Hskip. unfold command_write.
  change (c :: p ++ [32] ++ text) with ((c :: p) ++ 32 :: text). rewrite (split_path_word _ (c :: p) (32 :: text)); [|done|exact Hl|by eauto].
  assert (skip_spaces (32 :: text) = text) as Hst.
  { change (skip_spaces (32 :: text)) with (skip_spaces text). apply skip_spaces_start. intros u ->. by apply Hh. }
  rewrite Hst. destruct text as [|x text]; [cbn [length] in Ht; lia|].
  set (v1 := (vfs_create _ _ _ (pc_vfs pc)).2) in *. rewrite vfs_set. destruct (vfs_write _ _ _ _ v1) as [written v2].
  destruct Hcalls as (Hwr & Hv3 & Hd3 & Hf3). destruct (Z.ltb_spec written 0) as [Hlt|_]; [exfalso; rewrite Hwr in Hlt; unfold string_length in Hlt; lia|].
  rewrite vfs_set. set (v3 := (vfs_truncate _ _ v2).2) in *.
  assert (int_of written = written) as Hint.
  { rewrite Hwr. unfold int_of, string_length. cbn [length] in *. rewrite Z.mod_small by lia. lia. }
  rewrite (print_pieces [Text (lit "Wrote "); Dec written; Text (lit " bytes: "); Str (Some (c :: p)); Text ln]);
    [|apply Forall_cons_2; [by apply text_ok_piece|]; apply Forall_cons_2; [cbn [piece_ok]; rewrite Hint, Hwr; unfold string_length, INT_MIN; lia|];
      apply Forall_cons_2; [by apply text_ok_piece|]; apply Forall_cons_2; [exact Hc|]; apply Forall_singleton; by apply text_ok_piece|reflexivity..].
  eexists. split; [reflexivity|]. split_and!.
  - unfold contents. cbn [pc_vfs]. rewrite vfs_write_text, vfs_set, Hf3 by done. by rewrite decide_True.
  - intros q Hq Hqp. unfold contents. rewrite vfs_write_text, vfs_set, Hf3 by done. by rewrite decide_False.
  - exact Hd3.
  - cbn [piece_output fmap list_fmap concat]. rewrite Hint, Hwr. cbn [from_option id]. reflexivity.
  - rewrite (execute_cat (c :: p) c p) by (cbn [skip_spaces]; by destruct (Z.eqb_spec c 32)). unfold command_cat.
    rewrite (cat_file (c :: p) (x :: text) cat_rounds 0 stack); [done|exact Hv3|done|done| | | |done|done].
    + unfold contents. rewrite vfs_write_text, vfs_set, Hf3 by done. by rewrite decide_True.
    + lia.
    + unfold cat_rounds. lia.
Qed.
End files.
