(* ===== verification/CommandsSafety.v ===== *)
(** * No command line breaks the kernel

    Every line of the shell, whatever is typed, keeps the kernel's invariant; and all but a
    few commands return. *)

From S2P Require Import Prelude Pmm Heap BlockDevice Block Sfs Vfs Mmu AddressSpace Task Scheduler SchedulerProps Syscall Steps SyscallProps Vm Console Interrupt Framebuffer Shell Reports Commands CommandsProps.

Lemma skip_spaces_suffix (P : Z -> Prop) t : Forall P t -> Forall P (skip_spaces t).
Proof. induction 1 as [|c t Hc Ht IH]; cbn [skip_spaces]; [constructor|]. destruct (c =? 32); [done|by constructor]. Qed.
Lemma word_end_suffix (P : Z -> Prop) t : Forall P t -> Forall P (command_word_end t).
Proof. induction 1 as [|c t Hc Ht IH]; cbn [command_word_end]; [constructor|]. destruct (c =? 32); [by constructor|done]. Qed.
Lemma command_arg_suffix (P : Z -> Prop) t : Forall P t -> Forall P (command_arg t).
Proof. intros Ht. by apply skip_spaces_suffix, word_end_suffix. Qed.
Lemma split_path_parts (P : Z -> Prop) room t : Forall P t -> Forall P (split_path room t).1 /\ Forall P (split_path room t).2.
Proof.
  intros Ht. revert room. induction Ht as [|c t Hc Ht IH]; intros [|room]; cbn [split_path]; try (split; repeat constructor; done).
  destruct (c =? 32); [split; repeat constructor; done|]. destruct (IH room) as [IH1 IH2]. destruct (split_path room t). split; [by constructor|done].
Qed.
Lemma skip_spaces_short t : (length (skip_spaces t) <= length t)%nat.
Proof. induction t as [|c t IH]; cbn [skip_spaces]; [done|]. destruct (c =? 32); cbn [length]; lia. Qed.
Lemma command_arg_short t : (length (command_arg t) <= length t)%nat.
Proof.
  unfold command_arg. etrans; [apply skip_spaces_short|]. induction t as [|c t IH]; cbn [command_word_end]; [done|]. destruct (c =? 32); cbn [length]; lia.
Qed.
Lemma split_path_short room t : (length (split_path room t).2 <= length t)%nat.
Proof.
  revert room. induction t as [|c t IH]; intros [|room]; cbn [split_path]; try done. destruct (c =? 32); [done|]. specialize (IH room).
  destruct (split_path room t). cbn in *. lia.
Qed.

Lemma int_of_small z : 0 <= z < 2 ^ 31 -> int_of z <> INT_MIN.
Proof. intros Hz. unfold int_of, INT_MIN. rewrite Z.mod_small by lia. lia. Qed.

(** The pieces of a format, the text ones done. *)
Ltac pieces :=
  lazymatch goal with
  | |- Forall piece_ok [] => constructor
  | |- Forall piece_ok (_ :: _) => apply Forall_cons_2; [first [by apply text_ok_piece | idtac]|pieces]
  end.

Section safety.
Context `{CodeLayout} `{AsLayout} `{VmLayout} (kernel_table : Z -> list Z) (map : vm).
Context {V : Type} `{VirtioBlk V}.
Context (others : computer V -> computer V) (rounds : nat) (stack : list Z).
Implicit Types (pc : computer V) (k : kernel (block V)).
Local Abbreviation execute := (Commands.shell_execute kernel_table map others rounds stack).

Definition awake k : Prop := state_of (ksys k) (current_task (ksys k)) <> TASK_ZOMBIE.

(** The invariant, in a state that came from [s0] in steps. *)
Context (s0 : sys).
Definition inv pc : Prop := kernel_from kernel_table s0 (pc_kernel pc).
(** The other tasks go on in steps that keep the invariant, and give the processor back to a
    live task. *)
Hypothesis others_keep : forall pc, inv pc -> inv (others pc) /\ awake (pc_kernel (others pc)).
(** A step that keeps the invariant if it returns; one that returns and keeps it. *)
Definition safe (o : option (computer V)) : Prop := forall pc', o = Some pc' -> inv pc'.
Definition fine (o : option (computer V)) : Prop := exists pc', o = Some pc' /\ inv pc'.

Lemma fine_safe o : fine o -> safe o.
Proof. intros (pc & -> & Hi) pc' [= <-]. done. Qed.
Lemma fine_some pc : inv pc -> fine (Some pc).
Proof. by exists pc. Qed.
Lemma fine_bind o f : fine o -> (forall pc, inv pc -> fine (f pc)) -> fine (o ≫= f).
Proof. intros (pc & -> & Hi) Hf. by apply Hf. Qed.
Lemma safe_bind o f : safe o -> (forall pc, inv pc -> safe (f pc)) -> safe (o ≫= f).
Proof. intros Ho Hf pc'. destruct o as [pc|]; [|done]. cbn. by apply Hf, Ho. Qed.

Lemma inv_write t pc : inv pc -> inv (pc_write t pc).
Proof. intros [[Ha Hb Hc] Hs]. split; [by split|done]. Qed.
Lemma print_safe fmt args pc : inv pc -> safe (print fmt args pc).
Proof. intros Hi. unfold print. destruct (kprintf _ _ _); [|done]. intros pc' [= <-]. by apply inv_write. Qed.
Lemma print_fine fmt args pc : is_Some (kprintf fmt args []) -> inv pc -> fine (print fmt args pc).
Proof. intros [t E] Hi. unfold print. rewrite E. by apply fine_some, inv_write. Qed.
Lemma print_all_fine lines pc : Forall (fun l => is_Some (kprintf l.1 l.2 [])) lines -> inv pc -> fine (print_all lines pc).
Proof.
  intros Hl. revert pc. induction Hl as [|[fmt args] l Hx Hl IH]; intros pc Hi; cbn [print_all]; [by apply fine_some|].
  apply fine_bind; [by apply print_fine|done].
Qed.

Lemma print_all_safe lines pc : inv pc -> safe (print_all lines pc).
Proof.
  revert pc. induction lines as [|[fmt args] lines IH]; intros pc Hi; cbn [print_all]; [by intros pc' [= <-]|].
  apply safe_bind; [by apply print_safe|done].
Qed.

Lemma inv_steps pc s : inv pc -> rtc (sys_step kernel_table) (pc_sys pc) s -> inv (set_pc_sys s pc).
Proof. apply from_steps. Qed.
Lemma inv_op op pc : inv pc -> sched_allowed op (pc_sys pc) -> inv (set_pc_sys (sched_exec kernel_table op (pc_sys pc)).2 pc).
Proof. apply from_op. Qed.
Lemma inv_sched pc : inv pc -> sched_inv (pc_sys pc).
Proof. intros Hi. apply Hi. Qed.
Lemma inv_files pc : inv pc -> vfs_inv (pc_vfs pc).
Proof. intros Hi. apply Hi. Qed.
Lemma inv_vfs pc v : inv pc -> vfs_inv v -> inv (set_pc_vfs v pc).
Proof. intros [[Ha Hb Hc] Hs] ?. split; [by split|done]. Qed.
Lemma inv_sfs pc s : inv pc -> inv (set_pc_sfs s pc).
Proof. intros Hi. apply inv_vfs; [done|]. by apply vfs_set_sfs_inv, inv_files. Qed.
Lemma inv_kernel pc k : kernel_from kernel_table s0 k -> inv (set_kernel k pc).
Proof. done. Qed.

Lemma on_sys_fine op f pc : inv pc -> sched_allowed op (pc_sys pc) -> (f (pc_sys pc)).2 = (sched_exec kernel_table op (pc_sys pc)).2 -> fine (on_sys f pc).
Proof. intros Hi Ha E. unfold on_sys. rewrite E. by apply fine_some, inv_op. Qed.

Lemma after_switch_fine o pc : inv pc -> o <> Halted -> fine (after_switch others o pc).
Proof. intros Hi Ho. destruct o; [by apply fine_some|by apply fine_some, others_keep|done]. Qed.

(** Prints of strings always return. *)
Ltac prints := first [apply print_fine; [eexists; reflexivity|]; try done | apply fine_some; try done].
Ltac print_then := apply fine_bind; [prints|intros ? ?].

Lemma help_fine pc : inv pc -> fine (shell_help pc).
Proof.
  apply print_all_fine. apply Forall_forall. intros l Hl. assert (forallb (fun l => bool_decide (is_Some (kprintf l.1 l.2 [])))
    ([(lit "Commands:" ++ ln, [])] ++ concat (command_line <$> shell_commands) ++ [(lit "Aliases:" ++ ln, [])] ++ concat (alias_line <$> shell_aliases)) = true) as Hall
    by (vm_compute; reflexivity).
  rewrite forallb_forall in Hall. apply list_elem_of_In in Hl. specialize (Hall l Hl). by apply bool_decide_eq_true in Hall.
Qed.

Lemma command_help_fine name pc : inv pc -> fine (shell_command_help name pc).
Proof.
  intros Hi. unfold shell_command_help. apply fine_bind; [destruct (find_shell_alias name); prints|]. intros pc1 Hi1. cbv zeta.
  destruct (find_shell_command _) as [c|]; [|print_then; prints]. do 3 print_then. destruct (c_example c); prints.
Qed.

Lemma usage_fine name pc : inv pc -> fine (shell_usage name pc).
Proof. intros Hi. unfold shell_usage. destruct (find_shell_command name); prints. Qed.

Lemma unknown_fine command pc : inv pc -> fine (unknown command pc).
Proof. intros Hi. unfold unknown. print_then. prints. Qed.

Lemma with_number_fine name arg f pc : inv pc -> (forall n, fine (f n pc)) -> fine (with_number name arg f pc).
Proof. intros Hi Hf. unfold with_number. destruct (parse_number arg); [done|]. by apply command_help_fine. Qed.

Lemma framebuffer_status_safe pc : inv pc -> safe (shell_framebuffer_status pc).
Proof.
  by apply print_all_safe.
Qed.

(** ** The commands *)

Lemma yield_fine pc : inv pc -> fine (command_yield others pc).
Proof.
  intros Hi. unfold command_yield. apply fine_bind; [prints|]. clear pc Hi. intros pc Hi.
  destruct (sched_inv_yield (pc_sys pc) (inv_sched pc Hi)) as [_ Hh]. pose proof (inv_op OpYield pc Hi I) as Hy. cbn [sched_exec] in Hy.
  destruct (scheduler_yield (pc_sys pc)) as [o s]. apply fine_bind; [by apply after_switch_fine|]. intros pc' Hi'. prints.
Qed.

Lemma sleep_returns iv ms s : sched_inv s -> (scheduler_sleep_ms iv ms s).1 <> Halted.
Proof. intros Hi. apply (sched_inv_exec kernel_table (OpSleep iv ms) s Hi I). Qed.

Lemma sleep_safe ms pc : inv pc -> safe (command_sleep others ms pc).
Proof.
  intros Hi. unfold command_sleep. destruct (ms >? _).
  - apply safe_bind; [by apply print_safe|]. intros pc' Hi'. by apply print_safe.
  - apply safe_bind; [by apply print_safe|]. clear pc Hi. intros pc Hi. set (iv := timer_get_interval_ms _).
    pose proof (inv_op (OpSleep iv ms) pc Hi I) as Hs. pose proof (sleep_returns iv ms (pc_sys pc) (inv_sched pc Hi)) as Hh. cbn [sched_exec] in Hs.
    destruct (scheduler_sleep_ms _ _ _) as [o s]. apply safe_bind; [by apply fine_safe, after_switch_fine|]. intros pc' Hi'. by apply print_safe.
Qed.

Lemma launch_fine path argument pc : inv pc -> fine (launch kernel_table path argument pc).
Proof.
  intros Hi. unfold launch, scheduler_create_user_task_from_image.
  pose proof (vfs_file_data_inv (pc_vfs pc) path (inv_files pc Hi)) as Hd. destruct (vfs_file_data _ _) as [r v]. cbn [snd] in Hd.
  match goal with |- context [create_user_task kernel_table ?nm ?f ?arg (pc_sys pc)] =>
    pose proof (inv_op (OpCreateUser nm f arg) pc Hi I) as Hs; cbn [sched_exec snd] in Hs; destruct (create_user_task kernel_table nm f arg (pc_sys pc)) as [pid s] end.
  cbn [snd] in *. assert (inv (set_pc_vfs v (set_pc_sys s pc))) as Hi1 by (by apply inv_vfs). set (pc1 := set_pc_vfs v (set_pc_sys s pc)) in *.
  destruct (Z.ltb_spec pid 0); [by apply fine_some|]. change s with (pc_sys pc1). pose proof (inv_op (OpUnblockUser pid) pc1 Hi1 I) as Hi2. cbn [sched_exec snd] in Hi2.
  assert ((scheduler_unblock_user_task pid (pc_sys pc1)).1 = 0 -> pid < task_count (pc_sys pc1)) as Hr.
  { unfold scheduler_unblock_user_task. destruct (Z.ltb_spec pid 0); [lia|]. destruct (Z.geb_spec pid (task_count (pc_sys pc1))); [done|lia]. }
  destruct (scheduler_unblock_user_task pid (pc_sys pc1)) as [r' s2]. destruct (Z.eqb_spec r' 0) as [E|]; [|by apply fine_some].
  apply print_fine; [|done]. specialize (Hr E). pose proof (si_count _ (inv_sched pc1 Hi1)) as Hc. unfold SCHED_MAX_TASKS in Hc.
  eexists. apply (kprintf_pieces [Text (lit "Launched user program as task "); Dec pid; Text ln] []). pieces. apply int_of_small. lia.
Qed.

Lemma run_fine arg pc : inv pc -> fine (command_run kernel_table arg pc).
Proof.
  intros Hi. unfold command_run. destruct (split_path _ _) as [path rest]. destruct rest as [|c after]; [by apply launch_fine|].
  destruct (negb (c =? 32)); [prints|]. by apply launch_fine.
Qed.

Lemma mkdir_fine arg pc : inv pc -> cstring arg -> fine (command_mkdir arg pc).
Proof.
  intros Hi Ha. unfold command_mkdir. destruct arg as [|c arg]; [by apply command_help_fine|].
  pose proof (vfs_mkdir_cases (pc_vfs pc) (c :: arg) ltac:(apply Hi) Ha) as Hm. cbv zeta in Hm. destruct (vfs_mkdir _ _) as [r v].
  assert (inv (set_pc_vfs v pc)) as Hi'. { apply inv_vfs; [done|]. destruct Hm as [(_ & -> & _)|(_ & _ & ? & _)]; [apply Hi|done]. }
  destruct (truth r); prints.
Qed.

Lemma create_none_inv p (v : vfs (block V)) : vfs_inv v -> cstring p -> vfs_inv (vfs_create (Some p) None 0 v).2.
Proof.
  intros Hv Hp. destruct (vfs_disk_path (Some p)) as [dp|] eqn:Hd.
  - unfold vfs_create. rewrite Hd. destruct (sfs_write_file _ _ _ _). by apply vfs_set_sfs_inv.
  - assert (vfs_create (Some p) None 0 v = vfs_create (Some p) (Some []) 0 v) as -> by (unfold vfs_create; by rewrite Hd).
    apply vfs_create_inv; [done|done|cbn; lia].
Qed.

Lemma write_result p text sz (v : vfs (block V)) : (vfs_write p 0 text sz v).1 = -1 \/ (vfs_write p 0 text sz v).1 = sz.
Proof.
  unfold vfs_write. destruct (vfs_disk_path _).
  - destruct (_ || _); [by left|]. destruct (read_disk _ _). destruct (_ <? 0); [by left|]. cbv zeta. destruct (sfs_write_file _ _ _ _). destruct (truth _); [by right|by left].
  - destruct (_ ≫= _) as [[i n]|]; [|by left]. destruct (_ || _); [by left|by right].
Qed.

Lemma write_fine arg pc : inv pc -> cstring arg -> (length arg <= 63)%nat -> fine (command_write arg pc).
Proof.
  intros Hi Ha Hl. unfold command_write. destruct (split_path_parts _ (Z.to_nat (VFS_MAX_PATH - 1)) arg Ha) as [Hp Hr]. pose proof (split_path_short (Z.to_nat (VFS_MAX_PATH - 1)) arg) as Hs.
  destruct (split_path _ arg) as [path rest]. cbn [fst snd] in *. pose proof (skip_spaces_short rest) as Hst.
  destruct path as [|c path]; [by apply command_help_fine|]. destruct (skip_spaces rest) as [|x text]; [by apply command_help_fine|].
  set (v1 := (vfs_create _ _ _ _).2). assert (vfs_inv v1) as Hv1 by (apply create_none_inv; [apply Hi|done]). change (pc_vfs (set_pc_vfs v1 pc)) with v1.
  pose proof (vfs_write_inv v1 (c :: path) 0 (x :: text) (string_length (x :: text)) Hv1 Hp ltac:(lia) ltac:(unfold string_length; lia)) as Hv2.
  pose proof (write_result (c :: path) (Some (x :: text)) (string_length (x :: text)) v1) as Hres.
  destruct (vfs_write _ _ _ _ v1) as [written v2]. cbn [fst snd] in *. assert (inv (set_pc_vfs v2 (set_pc_vfs v1 pc))) as Hi2 by (by repeat apply inv_vfs).
  destruct (Z.ltb_spec written 0); [prints|]. match goal with |- context [(vfs_truncate ?p ?n ?v).2] => pose proof (vfs_truncate_inv v p n Hv2 Hp ltac:(apply u64_range)) as Hv3 end.
  apply print_fine; [|by apply inv_vfs]. assert (0 <= written <= 63) by (unfold string_length in *; lia).
  eexists. apply (kprintf_pieces [Text (lit "Wrote "); Dec written; Text (lit " bytes: "); Str (Some (c :: path)); Text ln] []). pieces; [|exact Hp].
  apply int_of_small. lia.
Qed.

(** How much a read gives. *)
Lemma read_result p offset bytes (v : vfs (block V)) : 0 <= offset <= 4096 -> cstring p -> vfs_inv v ->
  let count := (vfs_read p offset (Some bytes) 64 v).1.1 in count = -1 \/ 0 <= count <= 64 /\ offset + count <= 4096.
Proof.
  intros Ho Hp Hv. cbv zeta. unfold vfs_read. assert (forall size, 0 <= size <= 4096 -> offset <= size ->
    let count := if 64 >? size -! offset then size -! offset else 64 in 0 <= count <= 64 /\ offset + count <= 4096) as Hcount.
  { intros size Hs Hos. cbv zeta. rewrite u64_small by lia. destruct (Z.gtb_spec 64 (size - offset)); lia. }
  destruct (vfs_disk_path _) as [dp|].
  - assert ((read_disk dp v).1 <= 4096) as Hsize.
    { unfold read_disk, sfs_read_file. destruct (_ || _); [cbn; lia|]. destruct (_ ≫= _) as [e|]; [|cbn; lia]. unfold SFS_MAX_FILE_SIZE.
      change (SFS_FILE_SECTORS * 512) with 4096. destruct (Z.gtb_spec (size e) 4096); [cbn; lia|]. cbn [orb]. destruct (bd_read _ _ _ _) as [[ok buf] b]. cbv zeta. destruct (_ || _); cbn [fst]; lia. }
    destruct (read_disk dp v) as [size v']. cbn [fst] in Hsize. destruct (Z.ltb_spec size 0); [rewrite orb_true_r; by left|].
    destruct (Z.gtb_spec offset size); [rewrite orb_true_r; by left|]. cbn [bool_decide negb andb truth orb]. destruct (_ || _); [by left|]. right. apply Hcount; lia.
  - destruct (_ ≫= _) as [n|] eqn:E; [|by left]. destruct (Z.gtb_spec offset (n_size n)); [rewrite orb_true_r; by left|]. destruct (_ || _) eqn:Eg; [by left|].
    right. apply Hcount; [|lia]. apply bind_Some in E as (i & Hf & Hn). apply (vfs_find_Some _ (vi_tree _ Hv)) in Hf as (m & Hm & Hu & _); [|done].
    assert (m = n) as -> by congruence. apply (tr_nodes _ (vi_tree _ Hv) i n Hn Hu).
Qed.
Lemma cat_loop_fine path n : forall offset bytes pc, inv pc -> cstring path -> 0 <= offset <= 4096 -> 4096 - offset < 64 * Z.of_nat n ->
  fine (cat_loop n path offset bytes pc).
Proof.
  induction n as [|n IH]; intros offset bytes pc Hi Hp Ho Hn; [lia|]. cbn [cat_loop].
  pose proof (read_result path offset bytes (pc_vfs pc) Ho Hp ltac:(apply Hi)) as Hr. pose proof (vfs_read_inv (pc_vfs pc) path offset (Some bytes) 64 ltac:(apply Hi)) as Hv.
  destruct (vfs_read _ _ _ _ _) as [[count buffer] v]. cbn [fst snd] in *. assert (inv (set_pc_vfs v pc)) as Hi1 by (by apply inv_vfs).
  destruct (Z.ltb_spec count 0); [prints|]. assert (forall t, inv (pc_write t (set_pc_vfs v pc))) as Hi2 by (intros t; by apply inv_write).
  destruct (Z.eqb_spec count 64) as [->|]; [apply IH; [apply Hi2|done|lia|lia]|]. destruct (_ || _); prints.
Qed.

Lemma cat_fine arg pc : inv pc -> cstring arg -> fine (command_cat stack arg pc).
Proof.
  intros Hi Ha. unfold command_cat. destruct arg as [|c arg]; [by apply command_help_fine|]. apply cat_loop_fine; [done|done|lia|]. unfold cat_rounds. lia.
Qed.

Lemma disk_safe arg pc : inv pc -> safe (command_disk stack arg pc).
Proof.
  intros Hi. unfold command_disk. destruct arg as [|c arg]; [by apply print_all_safe|]. destruct (string_equals _ _); [|by apply fine_safe, command_help_fine].
  destruct (block_self_test _ _) as [r b]. apply safe_bind; [by apply print_safe, inv_sfs|]. intros pc' Hi'. by apply print_all_safe.
Qed.
Lemma pfs_safe arg pc : inv pc -> safe (command_pfs arg pc).
Proof.
  intros Hi. unfold command_pfs. destruct arg as [|c arg]; [by apply print_all_safe|]. destruct (string_equals _ _); [|by apply fine_safe, command_help_fine].
  destruct (sfs_format _) as [r b]. by apply print_safe, inv_sfs.
Qed.
Lemma pwrite_fine arg pc : inv pc -> fine (command_pwrite arg pc).
Proof.
  intros Hi. unfold command_pwrite. destruct (split_path _ arg) as [path rest]. destruct path as [|c path]; [by apply command_help_fine|].
  destruct (skip_spaces rest) as [|x text]; [by apply command_help_fine|]. destruct (sfs_write_file _ _ _ _) as [r s].
  apply print_fine; [eexists; reflexivity|by apply inv_sfs].
Qed.
Lemma pcat_fine arg pc : inv pc -> fine (command_pcat arg pc).
Proof.
  intros Hi. unfold command_pcat. destruct arg as [|c arg]; [by apply command_help_fine|]. destruct (sfs_read_file _ _ _ _) as [[sz buffer] s].
  assert (inv (set_file_buffer (default [] buffer) (set_pc_sfs s pc))) as Hi1 by (apply (inv_sfs pc s) in Hi; exact Hi). cbv zeta.
  destruct (sz <? 0); [prints|]. apply print_fine; [eexists; reflexivity|by apply inv_write].
Qed.

(** *** System calls *)

Definition going (p : reply * kernel (block V)) : Prop := kernel_from kernel_table s0 p.2 /\ forall c, p.1 = Again c -> awake p.2.

Lemma awake_return frame s k : awake (set_ksys (yield_return frame s) k) <-> awake (set_ksys s k).
Proof. unfold awake. cbn [ksys set_ksys]. destruct frame as [[? ?]|]; [|done]. cbn [yield_return]. by destruct (space_at _ _). Qed.

Lemma wait_again number pid address options k c : awake k -> sched_inv (ksys k) ->
  (wait_round kernel_table number pid address options k).1 = Again c -> awake (wait_round kernel_table number pid address options k).2.
Proof.
  intros Ha Hi. unfold wait_round. destruct (scheduler_wait_task_status _ _ _) as [[r st] s1]. destruct (r =? 1).
  { by destruct (store_bytes _ _ _ k) as [[o|] k1]. }
  destruct (_ && _); [|done]. unfold syscall_scheduler_yield. pose proof (yield_cases _ Hi) as Hy. cbv zeta in Hy.
  destruct (scheduler_yield (ksys k)) as [o s]. destruct o; [|done..]. intros _. cbn [snd]. apply awake_return. unfold awake. cbn [ksys set_ksys].
  destruct Hy as [[_ [= ->]]|[(_ & Hn & Hr & [= ->])|(_ & _ & [=])]]; [done|].
  set (w := scheduler_wake_sleeping_tasks (ksys k)) in *. change (current_task (upd _ _ w)) with (current_task (ksys k)).
  pose proof (si_current _ Hi) as Hc. rewrite state_of_upd by lia. rewrite decide_True by done.
  destruct (task_at w (current_task (ksys k))) as [t|] eqn:Et; cbn; [done|]. done.
Qed.

Lemma resume_going c k : kernel_from kernel_table s0 k -> awake k -> going (resume kernel_table c k).
Proof.
  intros Hk Ha. split; [by apply (dispatch_from kernel_table 0 s0 k Hk Ha)|]. intros c'. unfold resume.
  destruct (sys_ok_step kernel_table _ _ (step_frame kernel_table (p_frame c) (ksys k)) (conj (ki_sched _ (proj1 Hk)) (ki_files _ (proj1 Hk)))) as [Hy _].
  set (k1 := set_ksys _ k).
  destruct (p_wait c) as [[[pid a] options]|]; [|done].
  assert (awake k1) as Hk1. by (by apply awake_return).
  pose proof (wait_again (p_number c) pid a options k1 c' Hk1 Hy) as Hw.
  destruct (wait_round _ _ _ _ _ _) as [[] k2]; cbn [conclude dispatch_end fst snd] in *; try done; exact Hw.
Qed.

Lemma run_not_again number m k c : (run number m k : reply * kernel (block V)).1 <> Again c.
Proof. unfold run. by destruct (m k) as [[r|] k']. Qed.

Lemma dispatch_going iv number k : kernel_from kernel_table s0 k -> awake k -> going (syscall_dispatch kernel_table iv number 0 0 0 0 k).
Proof.
  intros Hk Ha. split.
  { apply (dispatch_from kernel_table iv s0 k Hk Ha); unfold UserMemory.is_u64; lia. }
  intros c. unfold syscall_dispatch. cbv zeta.
  repeat match goal with
  | |- context [if number =? ?n then _ else _] => destruct (number =? n); [try (intros E; exfalso; revert E; apply run_not_again)|]
  end; try (intros E; exfalso; revert E; apply run_not_again).
  - destruct (syscall_scheduler_yield _) as [[frame o] s]. by destruct o.
  - unfold syscall_wait. destruct (truth _); [done|]. set (k1 := set_kstats _ _).
    destruct (negb _); [unfold fault_error; cbn; done|]. intros E. pose proof (wait_again SYSCALL_WAIT 0 0 0 k1 c Ha ltac:(apply Hk)) as Hw.
    destruct (wait_round _ _ _ _ _ _) as [[] k2]; cbn [conclude dispatch_end fst snd] in *; try discriminate; exact (Hw E).
  - destruct (syscall_sleep _ _ _) as [[[frame o]|] s]; [by destruct o|done].
Qed.

Lemma call_loop_safe n : forall r pc result pc', going (r, pc_kernel pc) -> call_loop kernel_table others n r pc = Some (result, pc') -> inv pc'.
Proof.
  induction n as [|n IH]; intros [r| |c|c|] pc result pc' [Hi Ha]; cbn [call_loop]; try done; try (intros [= <- <-]; exact Hi).
  - destruct (others_keep pc Hi) as [Ho Hw]. pose proof (resume_going c _ Ho Hw) as Hg. cbv zeta. destruct (resume _ _ _) as [r k]. by apply IH.
  - pose proof (resume_going c _ Hi (Ha c eq_refl)) as Hg. destruct (resume _ _ _) as [r k]. by apply IH.
Qed.

Lemma syscall_safe number pc : inv pc -> awake (pc_kernel pc) -> safe (command_syscall kernel_table others rounds number pc).
Proof.
  intros Hi Ha. unfold command_syscall. set (iv := timer_get_interval_ms _). pose proof (dispatch_going iv number (pc_kernel pc) Hi Ha) as Hg.
  destruct (syscall_dispatch _ _ _ _ _ _ _ _) as [r k]. destruct (call_loop _ _ _ _ _) as [[result pc']|] eqn:E; [|discriminate].
  cbn [mbind option_bind]. by apply print_safe, (call_loop_safe rounds r (set_kernel k pc) result).
Qed.
(** ** The dispatcher *)

(** The commands that may not come back: the two that stop the machine, the heap's test, and
    those that print a number that may be the one [print_decimal] has no digits for, most
    reports among them. *)
Definition may_stop (effective : list Z) : bool :=
  existsb (string_equals effective) [lit "panic"; lit "fault"; lit "heaptest"; lit "ticks"; lit "fb"; lit "tasks"; lit "mem"; lit "heap"; lit "vm"; lit "ls"; lit "user"] ||
  existsb (command_equals effective) [lit "sleep"; lit "syscall"; lit "task"; lit "disk"; lit "pfs"].

Definition checked (effective : list Z) (o : option (computer V)) : Prop := safe o /\ (may_stop effective = false -> fine o).

Lemma checked_fine effective o : fine o -> checked effective o.
Proof. intros Hf. split; [by apply fine_safe|done]. Qed.
Lemma checked_safe effective o : safe o -> may_stop effective = true -> checked effective o.
Proof. intros Hs Hm. split; [done|congruence]. Qed.
Lemma checked_if effective (b : bool) x y : (b = true -> checked effective x) -> checked effective y -> checked effective (if b then x else y).
Proof. destruct b; auto. Qed.

Lemma dump_safe pc : inv pc -> safe (pc ← print_all (tasks_report (pc_sys pc)) pc; Some (set_pc_sys (scheduler_dump_tasks (pc_sys pc)) pc)).
Proof.
  intros Hi. apply safe_bind; [by apply print_all_safe|]. clear pc Hi. intros pc Hi. by apply fine_safe, fine_some, (inv_op OpDump).
Qed.
Lemma optional_report_safe o pc : inv pc -> safe (rows ← o; print_all rows pc).
Proof. intros Hi. destruct o; [by apply print_all_safe|done]. Qed.

Lemma optional_fine (none : bool) x y : fine x -> fine y -> fine (if none then x else y).
Proof. by destruct none. Qed.
Lemma optional_safe (none : bool) x y : safe x -> safe y -> safe (if none then x else y).
Proof. by destruct none. Qed.
Lemma with_number_safe name arg f pc : inv pc -> (forall n, safe (f n pc)) -> safe (with_number name arg f pc).
Proof. intros Hi Hf. unfold with_number. destruct (parse_number arg); [done|]. by apply fine_safe, command_help_fine. Qed.

Lemma heaptest_safe pc : inv pc -> safe ('(rows, h) ← heap_self_test_report (kernel_heap pc); print_all rows (set_heap h (set_kpmm (pages h) pc))).
Proof. intros [[Ha Hb Hc] Hs]. destruct (heap_self_test_report _) as [[rows h]|]; [|discriminate]. apply print_all_safe. split; [by split|done]. Qed.

Lemma block_fine pid pc : inv pc -> fine (on_sys (scheduler_block_task pid) pc).
Proof. intros Hi. by apply (on_sys_fine (OpBlockTask pid)). Qed.
Lemma unblock_fine pid pc : inv pc -> fine (on_sys (scheduler_unblock_task pid) pc).
Proof. intros Hi. by apply (on_sys_fine (OpUnblockTask pid)). Qed.
Lemma reap_fine pid pc : inv pc -> fine (on_sys (scheduler_reap_zombie_task pid) pc).
Proof. intros Hi. by apply (on_sys_fine (OpReap pid)). Qed.
Lemma reap_all_fine pc : inv pc -> fine (on_sys scheduler_reap_zombies pc).
Proof. intros Hi. by apply (on_sys_fine OpReapAll). Qed.

(** A branch of the chain of comparisons: one that returns, or one of those that may not. *)
Ltac returns := apply checked_if; [intros _; apply checked_fine; try done | ].
Ltac stops := apply checked_if;
  [let E := fresh in intros E; apply checked_safe; [|unfold may_stop; cbn [existsb]; rewrite E, ?orb_true_r; reflexivity] | ].

Lemma run_command_checked command effective arg selected pc : inv pc -> awake (pc_kernel pc) -> cstring arg -> (length arg <= 63)%nat ->
  checked effective (Commands.run_command kernel_table map others rounds stack command effective arg selected pc).
Proof.
  intros Hi Ha Hc Hl. unfold Commands.run_command. cbv zeta. set (none := match arg with [] => true | _ => false end).
  pose proof (fine_some pc Hi) as Hsome. pose proof (fun name => command_help_fine name pc Hi) as Hhelp.
  returns. { apply optional_fine; [by apply help_fine|done]. }
  returns. { prints. }
  stops. { apply optional_safe; [by apply print_all_safe|]. apply with_number_safe; [done|]. intros pid. by apply print_all_safe. }
  stops. { by apply dump_safe. }
  stops. { by apply print_all_safe. }
  stops. { by apply optional_report_safe. }
  stops. { by apply heaptest_safe. }
  stops. { by apply optional_report_safe. }
  returns. { apply optional_fine; [apply print_all_fine; [apply walks_come_out|done]|]. apply with_number_fine; [done|]. intros a.
    apply print_all_fine; [apply walk_comes_out|done]. }
  stops. { by apply print_safe. }
  returns. { by apply yield_fine. }
  stops. { apply optional_safe; [by apply fine_safe|]. apply with_number_safe; [done|]. intros n. by apply sleep_safe. }
  returns. { apply optional_fine; [done|]. apply with_number_fine; [done|]. intros n. by apply block_fine. }
  returns. { apply optional_fine; [done|]. apply with_number_fine; [done|]. intros n. by apply unblock_fine. }
  returns. { apply optional_fine; [by apply reap_all_fine|]. apply with_number_fine; [done|]. intros n. by apply reap_fine. }
  stops. { apply optional_safe; [by apply print_all_safe|]. apply with_number_safe; [done|]. intros n. by apply syscall_safe. }
  stops. { by apply print_all_safe. }
  returns. { by apply cat_fine. }
  returns. { by apply run_fine. }
  returns. { by apply mkdir_fine. }
  returns. { by apply write_fine. }
  stops. { by apply disk_safe. }
  stops. { by apply pfs_safe. }
  returns. { by apply pwrite_fine. }
  returns. { by apply pcat_fine. }
  stops. { by apply framebuffer_status_safe. }
  stops. { by apply print_all_safe. }
  returns. { apply fine_some. exact Hi. }
  stops. { discriminate. }
  stops. { discriminate. }
  apply checked_fine. destruct selected; [|by apply unknown_fine]. destruct (negb none); [|by apply unknown_fine].
  print_then. by apply usage_fine.
Qed.

Lemma execute_checked command pc : inv pc -> awake (pc_kernel pc) -> cstring command -> (length command <= 63)%nat ->
  checked (command_alias_target command) (execute command pc).
Proof.
  intros Hi Ha Hc Hl. unfold Commands.shell_execute. destruct command as [|c command]; [by apply checked_fine, fine_some|].
  pose proof (command_arg_suffix _ _ Hc) as Hca. pose proof (command_arg_short (c :: command)) as Hla.
  set (arg := command_arg (c :: command)) in *. cbv zeta. destruct (match find_shell_command _ with Some _ => _ | None => _ end) as [sc|].
  - destruct (_ && _); [|apply run_command_checked; (done || lia)]. apply checked_fine. print_then. by apply usage_fine.
  - apply run_command_checked; (done || lia).
Qed.
End safety.

Section commands.
Context `{CodeLayout} `{AsLayout} `{VmLayout} (kernel_table : Z -> list Z) (map : vm).
Context {V : Type} `{VirtioBlk V}.
Context (others : computer V -> computer V) (rounds : nat) (stack : list Z).
Implicit Types pc : computer V.

(** The other tasks go on in steps that keep the invariant, and give the processor back to a
    live task. *)
Hypothesis others_run : forall pc, kernel_inv (pc_kernel pc) ->
  kernel_inv (pc_kernel (others pc)) /\ rtc (sys_step kernel_table) (pc_sys pc) (pc_sys (others pc)) /\ awake (pc_kernel (others pc)).

Lemma others_from s0 pc : inv kernel_table s0 pc -> inv kernel_table s0 (others pc) /\ awake (pc_kernel (others pc)).
Proof. intros [Hi Hs]. destruct (others_run pc Hi) as (Ho & Hr & Ha). split; [|done]. split; [done|]. by etrans. Qed.

End commands.
