(* ===== verification/CommandsExamples.v ===== *)
(** * Commands on the example's kernel

    Lines executed on the machine of the interrupt examples, with the system calls and the
    files of the system-call examples. *)

From S2P Require Import Prelude PageAllocator Pmm Heap BlockDevice Block Sfs Vfs VfsProps Mmu AddressSpace Task Scheduler SchedulerProps Syscall Steps SyscallProps SyscallExamples Vm VmSafety Console Interrupt Framebuffer Shell Reports Commands CommandsProps CommandsFiles CommandsSafety.

#[local] Existing Instance code0.
#[local] Existing Instance layout0.
#[local] Existing Instance vm_layout1.

Definition pc0 : computer unit := Computer machine0 (Heap 0 0 0 0 0 0 ∅ ∅ (Pmm [] 0)) (Fb (fun _ => 0) false 0 0 0 0 0) (replicate 4096 0).
Definition map0 : vm := VmState (replicate 512 0) [] [] [] 0 0 0 0 0 0 no_counts.
(** The other tasks leave the computer as it is, unless the shell's task has ended. *)
Definition others0 (pc : computer unit) : computer unit :=
  match state_of (pc_sys pc) (current_task (pc_sys pc)) with TASK_ZOMBIE => set_pc_sys (scheduler_exit (pc_sys pc)).2 pc | _ => pc end.
Definition execute0 : list Z -> computer unit -> option (computer unit) := Commands.shell_execute kernel_table0 map0 others0 4 (replicate 512 0).

#[local] Opaque kernel_table0.

Lemma kernel0_awake : awake kernel0.
Proof. unfold awake. by vm_compute. Qed.

Lemma others0_run pc : kernel_inv (pc_kernel pc) ->
  kernel_inv (pc_kernel (others0 pc)) /\ rtc (sys_step kernel_table0) (pc_sys pc) (pc_sys (others0 pc)) /\ awake (pc_kernel (others0 pc)).
Proof.
  intros Hi. unfold others0. destruct (state_of (pc_sys pc) (current_task (pc_sys pc))) eqn:E;
    try (split; [done|]; split; [done|]; unfold awake; unfold pc_sys in E; by rewrite E).
  destruct (zombie_exit (pc_sys pc) (ki_sched _ Hi) E) as [Hc Hr].
  destruct (from_op kernel_table0 (pc_sys pc) OpExit (pc_kernel pc) (kernel_from_here kernel_table0 _ Hi) Hc) as [Hk Hs].
  split; [exact Hk|]. split; [exact Hs|]. unfold awake. change (ksys (pc_kernel (set_pc_sys ?s pc))) with s. by rewrite Hr.
Qed.

Lemma numbers_are_read_witness : parse_number (lit "  4096") = Some 4096 /\ parse_number (lit "0x40080000") = Some 0x40080000 /\
  parse_number (lit "fF") = None /\ parse_number (lit "0XfF") = Some 255 /\ (forall v, ~ number_text (lit "12:30") v) /\ (forall v, ~ number_text (lit "0x") v).
Proof.
  split; [|split; [|split; [|split; [|split]]]].
  - apply (proj1 (proj2 (proj2 (numbers_are_read [] 2 7 4096)))). split; [lia|]. by vm_compute.
  - apply (proj2 (proj2 (proj2 (numbers_are_read [] 0 9 0x40080000)))). split; [lia|]. by vm_compute.
  - by vm_compute.
  - refine (proj1 (proj2 (numbers_are_read (lit "0XfF") 0 0 0)) 255 _). apply (hexadecimal_text 0 88 [102; 70] [15; 15]); [by right|done|].
    apply Forall2_cons_2; [unfold digit_of; lia|]. apply Forall2_cons_2; [unfold digit_of; lia|]. constructor.
  - exact (proj1 (numbers_are_read (lit "12:30") 0 0 0)).
  - exact (proj1 (numbers_are_read (lit "0x") 0 0 0)).
Defined.

Definition nap_alias : shell_alias := ShellAlias (lit "nap") (lit "sleep") (lit "sleep the current shell task").

Lemma aliases_are_commands_witness :
  a_name nap_alias ++ lit " 5" = lit "nap 5" /\ a_target nap_alias ++ lit " 5" = lit "sleep 5" /\
  execute0 (a_name nap_alias ++ lit " 5") pc0 = execute0 (a_target nap_alias ++ lit " 5") pc0.
Proof.
  split; [reflexivity|]. split; [reflexivity|].
  assert (nap_alias ∈ shell_aliases) as Ha by (apply list_elem_of_In; vm_compute; tauto).
  assert (lit " 5" = [] \/ exists y, lit " 5" = 32 :: y /\ skip_spaces y <> []) as Hx by (right; exists (lit "5"); split; [reflexivity|discriminate]).
  pose proof (aliases_are_commands kernel_table0 map0 others0 4 (replicate 512 0) nap_alias (lit " 5") pc0 Ha Hx) as H.
  unfold execute0.
  destruct H as [H _].
  exact H.
Defined.

Lemma no_such_name : forall name, name ∈ all_names -> command_equals (lit "hepl me") name = false.
Proof. apply Forall_forall. apply (bool_decide_unpack _). by vm_compute. Qed.

Lemma unknown_only_prints_witness :
  execute0 (lit "hepl me") pc0 = Some (pc_write (lit "Type 'help' for commands" ++ ln) (pc_write (lit "Unknown command: " ++ lit "hepl me" ++ ln) pc0)).
Proof.
  assert (cstring (lit "hepl me")) as Hc by (repeat constructor; done). assert (lit "hepl me" <> []) as Hn by discriminate.
  exact (unknown_only_prints kernel_table0 map0 others0 4 (replicate 512 0) (lit "hepl me") pc0 Hn Hc no_such_name).
Defined.

Lemma write_then_cat_witness : exists pc1, execute0 (lit "write " ++ file_f ++ [32] ++ lit "hello") pc0 = Some pc1 /\ contents pc1 file_f = Some (lit "hello") /\
  execute0 (lit "cat " ++ file_f) pc1 = Some (pc_write (lit "hello" ++ file_end (lit "hello")) pc1).
Proof.
  assert (writable_name file_f (pc_vfs pc0)) as Hn.
  { split; [exact (proj2 names_ok)|discriminate|by apply (bool_decide_unpack _)|cbn; lia|reflexivity|left; exists [1; 2; 3; 4]; exact vfs2_file]. }
  assert (0 < length (lit "hello") <= 4096)%nat as Ht by (cbn; lia). assert (head (lit "hello") <> Some 32) as Hh by discriminate.
  assert (64 <= length (replicate 512 0))%nat as Hs by (rewrite length_replicate; lia).
  pose proof (write_then_cat kernel_table0 map0 others0 4 (replicate 512 0) file_f (lit "hello") pc0 vfs2_inv Hn Ht Hh Hs) as (pc1 & E & Hc & _ & _ & _ & Hcat).
  exists pc1. split; [exact E|]. split; [exact Hc|exact Hcat].
Defined.


(** A pause of 2^31 ms is refused with a message that prints the number, and the number
    printed is the one whose digits [print_decimal] has no place for: it negates the least
    [int]. *)
Lemma sleep_too_long : execute0 (lit "sleep 2147483648") pc0 = None.
Proof. vm_compute. reflexivity. Qed.

(** A path of 48 characters is cut at 47, and the rest of it becomes the text. *)
Lemma long_path_cut p (c : Z) (text : list Z) : length p = 47%nat -> 32 ∉ p -> c <> 32 -> split_path (Z.to_nat (VFS_MAX_PATH - 1)) (p ++ c :: text) = (p, c :: text).
Proof.
  change (Z.to_nat (VFS_MAX_PATH - 1)) with 47%nat. generalize 47%nat as n. intros n Hl Hp Hc. revert n Hl. induction p as [|x p IH]; intros n <-; [done|].
  apply not_elem_of_cons in Hp as [Hx Hp]. cbn [app length split_path]. destruct (Z.eqb_spec x 32); [done|]. by rewrite IH.
Qed.
