(* ===== verification/Boot.v ===== *)
(** * Start-up ([kernel/src/kernel.c], [kernel/demo/thread_demo.c])

    [kernel_main] over all the components: the order in which they are set up, the banner,
    and the first threads. The end of the function is the switch to the first task, whose
    outcome is returned. Enabling interrupts and installing the vector table leave no trace
    in the model's state. *)

From S2P Require Import Prelude PageAllocator Pmm Heap BlockDevice Block Sfs Vfs Mmu AddressSpace Task Scheduler Syscall Vm Console Interrupt Programs Keyboard Framebuffer Shell Input Commands.

(** ** Definitions *)

(** [config.h]. *)
Definition CONFIG_THREAD_DEMO_ENABLE : Z := 0.
Definition CONFIG_THREAD_DEMO_LOG : Z := 0.

(** The whole machine: the computer of the shell's commands, the kernel's map, the keyboard
    and the configuration device. *)
Record board (V D U F : Type) := Board {
  b_computer : computer V;
  b_vm : vm;
  b_keyboard : keyboard D U;
  b_fw_cfg : F;
}.
Arguments Board {V D U F}. Arguments b_computer {V D U F}. Arguments b_vm {V D U F}. Arguments b_keyboard {V D U F}. Arguments b_fw_cfg {V D U F}.

(** *** [thread_demo.c] *)

(** The body of both threads: [n] iterations of a pause of 250 ms, from reading [i] of the
    counter on; the reading after the last, and the console. *)
Fixpoint demo_thread (name : list Z) (fuel n : nat) (ticks : clock) (counter : Z) (t : timer) (i : nat) (out : list Z) : option (nat * list Z) :=
  match n with
  | O => if truth CONFIG_THREAD_DEMO_LOG then (i,.) <$> kprintf (lit "Thread %s returning" ++ [10]) [ArgStr (Some name)] out else Some (i, out)
  | S n =>
      out ← (if truth CONFIG_THREAD_DEMO_LOG then kprintf (lit "Thread %s iteration %d" ++ [10]) [ArgStr (Some name); ArgInt (counter + 1)] out else Some out);
      j ← timer_sleep_ms fuel (fun k => ticks (i + k)%nat) 250 t;
      demo_thread name fuel n ticks (counter + 1) t (i + S j) out
  end.
Definition demo_thread_a (fuel : nat) (ticks : clock) (t : timer) (i : nat) (out : list Z) : option (nat * list Z) := demo_thread (lit "A") fuel 4 ticks 0 t i out.
Definition demo_thread_b (fuel : nat) (ticks : clock) (t : timer) (i : nat) (out : list Z) : option (nat * list Z) := demo_thread (lit "B") fuel 8 ticks 0 t i out.

(** The arguments are the addresses of the two threads. *)
Definition thread_demo_init `{CodeLayout} (a b : Z) (s : sys) : sys :=
  let s := (scheduler_create_kernel_thread (Some (lit "thread-a")) a s).2 in
  (scheduler_create_kernel_thread (Some (lit "thread-b")) b s).2.

(** *** [kernel.c] *)

Section boot.
Context `{CodeLayout} `{AsLayout} `{VmLayout} `{KbdLayout}.
Context {V : Type} `{VirtioBlk V} {D : Type} `{KbdBus D} {U : Type} `{SerialPort U} {F : Type} `{FwCfg F}.

(** What the code finds: the arrays on the stack of [framebuffer_init] and [sfs_init], the
    frequency of the counter and its readings, how often it is read in a pause, and the
    addresses of the threads. *)
Record environment := Environment {
  directory_address : Z;
  directory_array : list Z;
  superblock_array : list Z;
  frequency : Z;
  readings : clock;
  pause_fuel : nat;
  demo_a_entry : Z;
  demo_b_entry : Z;
  keyboard_entry : Z;
}.
Context (e : environment).
Implicit Types b : board V D U F.

Definition set_computer (pc : computer V) b : board V D U F := Board pc (b_vm b) (b_keyboard b) (b_fw_cfg b).
Definition on_computer (f : computer V -> computer V) b : board V D U F := set_computer (f (b_computer b)) b.
Definition set_vm (v : vm) b : board V D U F := Board (b_computer b) v (b_keyboard b) (b_fw_cfg b).
Definition set_keyboard (k : keyboard D U) b : board V D U F := Board (b_computer b) (b_vm b) k (b_fw_cfg b).
Definition on_timer (f : timer -> timer) (pc : computer V) : computer V :=
  let m := pc_machine pc in set_machine (Machine (mkernel m) (f (mtimer m)) (gic m)) pc.
Definition on_gic (f : list gic_write -> list gic_write) (pc : computer V) : computer V :=
  let m := pc_machine pc in set_machine (Machine (mkernel m) (mtimer m) (f (gic m))) pc.
Definition on_pc_sys (f : sys -> sys) (pc : computer V) : computer V := set_pc_sys (f (pc_sys pc)) pc.

(** [if (framebuffer_init()) framebuffer_console_init();] *)
Definition init_display b : board V D U F :=
  let '(ready, f, s) := framebuffer_init (directory_address e) (directory_array e) (b_fw_cfg b) (pc_fb (b_computer b)) in
  Board (set_fb (if truth ready then framebuffer_console_init s else s) (b_computer b)) (b_vm b) (b_keyboard b) f.

(** From [pmm_init] to [sfs_init]. *)
Definition init_storage (pc : computer V) : computer V :=
  let pc := set_kpmm (pmm_init kernel_end) pc in
  let pc := set_heap (heap_init (kpmm (pc_kernel pc))) pc in
  let pc := set_pc_sfs (set_dev (block_init (dev (pc_sfs pc))) (pc_sfs pc)) pc in
  set_pc_sfs (sfs_init (superblock_array e) (pc_sfs pc)) pc.

(** [vm_init] and [address_space_init]. *)
Definition init_translation b : option (board V D U F) :=
  '(v, r) ← vm_init (b_vm b) (regs (pc_sys (b_computer b)));
  let b := on_computer (on_pc_sys (set_regs r)) (set_vm v b) in
  Some (on_computer (on_pc_sys (fun s => set_spaces (address_space_init vm_root_table (spaces s)) s)) b).

(** [vfs_init] and [user_programs_init]. *)
Definition init_files (pc : computer V) : option (computer V) :=
  let (ok, v) := user_programs_init (vfs_init (pc_vfs pc)) in
  let pc := set_pc_vfs v pc in
  if negb (truth ok) then print (lit "Failed to initialize built-in user programs" ++ ln) [] pc else Some pc.

(** From [timer_init] to [keyboard_init]. *)
Definition init_devices b : board V D U F :=
  let b := on_computer (on_timer (timer_init (frequency e))) b in
  let b := on_computer (on_gic irq_init) b in
  let b := on_computer (on_pc_sys scheduler_init) b in
  set_keyboard (keyboard_init (b_keyboard b)) b.

(** The status line, when there is a display. *)
Definition show_status (suffix : list Z) b : board V D U F :=
  if truth (framebuffer_is_ready (pc_fb (b_computer b))) then
    let text := if truth (keyboard_graphical_ready (b_keyboard b)) then lit "READY | UART+KBD | MMU ON | " ++ suffix else lit "READY | UART | MMU ON | " ++ suffix in
    on_computer (fun pc => set_fb (framebuffer_console_set_status (Some text) (pc_fb pc)) pc) b
  else b.

Definition kprint (fmt : list Z) (args : list arg) b : option (board V D U F) :=
  pc ← print fmt args (b_computer b); Some (set_computer pc b).

Fixpoint kprint_all (lines : list (list Z * list arg)) b : option (board V D U F) :=
  match lines with
  | [] => Some b
  | (fmt, args) :: lines => b ← kprint fmt args b; kprint_all lines b
  end.

Definition rule : list Z * list arg := (lit "================================" ++ ln, []).

(** The banner; no line of it changes what another prints. *)
Definition banner b : list (list Z * list arg) :=
  let pc := b_computer b in
  let v := pc_vfs pc in
  [rule;
   (lit "%s %s (%s)" ++ ln, [ArgStr (Some SATURNOS_NAME); ArgStr (Some SATURNOS_VERSION); ArgStr (Some SATURNOS_CODENAME)]);
   (lit "Target : ARM64 QEMU virt" ++ ln, []);
   (lit "UART   : initialized at 0x%x" ++ ln, [ArgInt 0x09000000]);
   (lit "IRQ    : GICv2 initialized" ++ ln, []);
   (lit "Timer  : %d Hz" ++ ln, [ArgInt (timer_get_frequency (mtimer (pc_machine pc)))]);
   (lit "Sched  : preemptive kernel threads" ++ ln, []);
   (lit "Memory : %d KB free" ++ ln, [ArgInt ((pmm_free_pages (kpmm (pc_kernel pc)) *! PMM_PAGE_SIZE) / 1024)]);
   (lit "Heap   : initialized" ++ ln, []);
   (lit "Block  : %s, %d sectors" ++ ln, [ArgStr (Some (block_device_name (dev (pc_sfs pc)))); ArgInt (block_sector_count (dev (pc_sfs pc)))]);
   (lit "FS     : ramfs, %d dirs, %d files" ++ ln, [ArgInt (vfs_dir_count v); ArgInt (vfs_file_count v)]);
   (lit "DiskFS : %s" ++ ln, [ArgStr (Some (if truth (sfs_ready (pc_sfs pc)) then lit "mounted" else lit "unavailable"))]);
   (lit "Input  : %s" ++ ln, [ArgStr (Some (keyboard_source (b_keyboard b)))]);
   (lit "VM     : %s, tables %s, check %s" ++ ln,
     [ArgStr (Some (vm_state (b_vm b) (regs (pc_sys pc)))); ArgStr (Some (vm_table_state (b_vm b))); ArgStr (Some (vm_validation_state (b_vm b)))]);
   (if truth (framebuffer_is_ready (pc_fb pc)) then (lit "Video  : ramfb 640x480" ++ ln, [])
    else (lit "Video  : UART only (fb status=%d)" ++ ln, [ArgInt (framebuffer_status (pc_fb pc))]));
   rule].

(** The pause of 100 ms between two readings of the counter. *)
Definition timer_sanity b : option (board V D U F) :=
  b ← kprint (lit "Timer sanity: start=0x%x" ++ ln) [ArgInt (readings e 0%nat)] b;
  j ← timer_sleep_ms (pause_fuel e) (fun k => readings e (1 + k)%nat) 100 (mtimer (pc_machine (b_computer b)));
  kprint (lit "Timer sanity: end=0x%x" ++ ln) [ArgInt (readings e (2 + j)%nat)] b.

(** From [thread_demo_init] to [scheduler_dump_tasks], whose report ([tasks_report] in
    [Reports]) is left out here, but for what it changes. *)
Definition create_tasks b : board V D U F :=
  let b := if truth CONFIG_THREAD_DEMO_ENABLE then on_computer (on_pc_sys (thread_demo_init (demo_a_entry e) (demo_b_entry e))) b else b in
  let (k, s) := keyboard_input_init (keyboard_entry e) (b_keyboard b) (pc_sys (b_computer b)) in
  let b := set_keyboard k (on_computer (set_pc_sys s) b) in
  let '(user_demo_pid, s, v) :=
    scheduler_create_blocked_user_task (vm_table_at (b_vm b)) (Some (lit "user-demo")) (pc_sys (b_computer b)) (pc_vfs (b_computer b)) in
  let b := on_computer (fun pc => set_pc_vfs v (set_pc_sys s pc)) b in
  on_computer (on_pc_sys (fun s => scheduler_dump_tasks (scheduler_unblock_user_task user_demo_pid s).2)) b.

Definition kernel_main b : option (outcome * board V D U F) :=
  let b := init_display b in
  let b := on_computer init_storage b in
  b ← init_translation b;
  pc ← init_files (b_computer b);
  let b := init_devices (set_computer pc b) in
  let b := show_status (lit "VM OK") b in
  b ← kprint_all (banner b) b;
  b ← timer_sanity b;
  let b := create_tasks b in
  let b := show_status (lit "EL0 TASK") b in
  let b := on_computer (on_timer (timer_start_periodic 100)) b in
  let (o, s) := scheduler_start_threads (pc_sys (b_computer b)) in
  Some (o, on_computer (set_pc_sys s) b).
End boot.
