(* ===== verification/BootProps.v ===== *)
(** * What start-up leaves

    [kernel_main] from the loader's zeroed memory: the translation is on, the programs are
    installed, the idle task has the processor, and the keyboard's thread and the first user
    program are ready; the whole kernel is in its invariant. *)

From S2P Require Import Prelude PageAllocator Pmm Heap BlockDevice Block Sfs Vfs VfsProps Executable Mmu AddressSpace Task User Scheduler SchedulerProps UserTasks Syscall Steps SyscallProps Vm VmProps VmInit VmSafety Console Interrupt Programs Keyboard Framebuffer Shell Input Commands CommandsProps CommandsSafety Boot.

(** ** Printing the address spaces *)

Section stub.
Implicit Types s : sys.

(** The tables, the pages and the slots of two states are the same. *)
Definition same_tables (st st' : as_state) : Prop :=
  user_l1_tables st' = user_l1_tables st /\ user_l2_tables st' = user_l2_tables st /\ user_l3_tables st' = user_l3_tables st /\
  user_region_pages st' = user_region_pages st /\ user_table_slots_used st' = user_table_slots_used st /\
  root_table (kernel_address_space st') = root_table (kernel_address_space st).

(** Only the switch status of address spaces differs. *)
Definition restubbed s s' : Prop :=
  same_tables (spaces s) (spaces s') /\ rest s' = rest s /\ task_count s' = task_count s /\
  forall i, exists f, (forall t, (f t = t \/ exists st, f t = set_user_address_space (set_stub st (user_address_space t)) t)) /\
    task_at s' i = f <$> task_at s i.

#[export] Instance same_tables_preorder : PreOrder same_tables.
Proof. split; [done|]. intros a b c. unfold same_tables. intuition congruence. Qed.

Lemma restubbed_refl s : restubbed s s.
Proof. split; [done|]. split; [done|]. split; [done|]. intros i. exists id. split; [by left|by destruct (task_at s i)]. Qed.

Lemma restub_twice st st' t : set_user_address_space (set_stub st' (set_stub st (user_address_space t))) (set_user_address_space (set_stub st (user_address_space t)) t) =
  set_user_address_space (set_stub st' (user_address_space t)) t.
Proof. done. Qed.

Lemma restubbed_trans a b c : restubbed a b -> restubbed b c -> restubbed a c.
Proof.
  intros (A1 & A2 & A3 & A4) (B1 & B2 & B3 & B4). split; [by etrans|]. split; [congruence|]. split; [congruence|].
  intros i. destruct (A4 i) as (f & Hf & Ef), (B4 i) as (g & Hg & Eg). exists (g ∘ f). split; [|by rewrite Eg, Ef; destruct (task_at a i)].
  intros t. cbn [compose]. destruct (Hf t) as [->|[st ->]]; [apply Hg|]. destruct (Hg (set_user_address_space (set_stub st (user_address_space t)) t)) as [->|[st' ->]];
    right; [by exists st|by exists st'].
Qed.

#[export] Instance restubbed_preorder : PreOrder restubbed.
Proof. split; [exact restubbed_refl|exact restubbed_trans]. Qed.

Lemma restubbed_stub p s : (forall pid, p = AsTask pid -> 0 <= pid) -> restubbed s (switch_stub p s).2.
Proof.
  intros Hp. unfold switch_stub. destruct (space_at p s) as [a|] eqn:Ea; [|by destruct p].
  assert (exists st, (address_space_switch_stub (Some a)).2 = Some (set_stub st a)) as [st Est].
  { unfold address_space_switch_stub. destruct (bool_decide _); [by eexists|]. destruct (_ || _); by eexists. }
  destruct (address_space_switch_stub (Some a)) as [r sp]. cbn [snd] in *. subst sp. destruct p as [| |pid]; [done|..].
  - injection Ea as <-. split; [done|]. split; [done|]. split; [done|]. intros i. exists id. split; [by left|]. by destruct (task_at s i) eqn:E; unfold task_at in *; cbn in *; rewrite E.
  - cbn [put_space]. split; [done|]. split; [done|]. split; [done|]. intros i. specialize (Hp pid eq_refl). destruct (decide (i = pid)) as [->|Hi].
    + exists (fun t => set_user_address_space (set_stub st (user_address_space t)) t). split; [right; by exists st|].
      rewrite task_at_upd_eq by done. cbn [space_at] in Ea. destruct (task_at s pid) as [t|]; [|done]. injection Ea as <-. done.
    + exists id. split; [by left|]. rewrite task_at_upd_ne by done. by destruct (task_at s i).
Qed.
End stub.

(** ** The scheduler's part *)

Section threads.
Context `{CodeLayout} `{!AsLayout} {B : Type} `{BlockDevice B}.
Implicit Types s : sys.

Lemma restubbed_dump s : sched_inv s -> restubbed s (scheduler_dump_tasks s).
Proof.
  unfold scheduler_dump_tasks. generalize (seqZ 0 (task_count s)) as l. intros l. revert s. induction l as [|i l IH]; intros s Hs; cbn [foldl]; [reflexivity|].
  destruct (space_at (space_ptr s i) s); [|by apply IH].
  assert (forall pid, space_ptr s i = AsTask pid -> 0 <= pid) as Hp by (intros j Hj; apply (space_ptr_own s i j Hs Hj)).
  etrans; [by apply restubbed_stub|]. apply IH. eapply sched_inv_quiet; [exact Hs|by apply quiet_switch_stub].
Qed.

(** What a restubbed task keeps. *)
Lemma restubbed_task s s' i t : restubbed s s' -> task_at s i = Some t ->
  exists t', task_at s' i = Some t' /\ t_state t' = t_state t /\ t_entry t' = t_entry t /\ t_name t' = t_name t /\ t_context t' = t_context t /\
    el0 t' = el0 t /\ memory t' = memory t /\ user_table_slot (user_address_space t') = user_table_slot (user_address_space t) /\
    (user_argc t', user_argv_address t', user_arg_lengths_address t') = (user_argc t, user_argv_address t, user_arg_lengths_address t).
Proof.
  intros (_ & _ & _ & Hr) Ht. destruct (Hr i) as (f & Hf & E). exists (f t). rewrite E, Ht. split; [done|]. by destruct (Hf t) as [->|[st ->]].
Qed.

(** A full table prefix: every entry below the count is used. *)
Lemma take_slot_next s k : task_count s = k -> 1 <= k < SCHED_MAX_TASKS -> (forall i, 1 <= i < k -> state_of s i <> TASK_UNUSED) ->
  take_slot s = Some (k, set_task_count (k + 1) s).
Proof.
  intros Hc Hk Hu. unfold take_slot. rewrite Hc. destruct (List.find _ _) as [i|] eqn:E.
  - apply find_some in E as [Hi Hs]. apply list_elem_of_In, elem_of_seqZ in Hi. apply bool_decide_eq_true in Hs. destruct (Hu i); [lia|done].
  - destruct (Z.geb_spec k SCHED_MAX_TASKS); [lia|done].
Qed.

(** A kernel thread takes the next entry. *)
Lemma thread_created nm entry s k : sched_inv s -> task_count s = k -> 1 <= k < SCHED_MAX_TASKS ->
  (forall i, 1 <= i < k -> state_of s i <> TASK_UNUSED) -> let s' := (scheduler_create_kernel_thread nm entry s).2 in
  sched_inv s' /\ task_count s' = k + 1 /\ rest s' = rest s /\ spaces s' = spaces s /\ (forall i, i <> k -> task_at s' i = task_at s i) /\
  exists t, task_at s' k = Some t /\ t_state t = TASK_READY /\ t_entry t = entry /\ t_name t = nm /\ address_space_ptr (memory t) = AsKernel.
Proof.
  intros Hinv Hc Hk Hu. cbv zeta. assert ((scheduler_create_kernel_thread nm entry s).2 = (scheduler_add_task nm entry s).2) as ->
    by (unfold scheduler_create_kernel_thread; destruct (scheduler_add_task nm entry s); by case_if).
  pose proof (sched_inv_add nm entry s Hinv) as Hi. unfold scheduler_add_task in *. rewrite (take_slot_next s k Hc Hk Hu) in *. cbn [snd] in *.
  split; [exact Hi|]. clear Hi. set (s1 := set_task_count (k + 1) s). set (s2 := upd k (fresh_task k nm TASK_READY entry) s1).
  destruct (lookup_lt_is_Some_2 (tasks s) (Z.to_nat k)) as [u Ht]; [rewrite (si_len _ Hinv); unfold SCHED_MAX_TASKS in *; lia|].
  rewrite <- task_at_eq in Ht by lia.
  assert (task_at s2 k = Some (fresh_task k nm TASK_READY entry u)) as Et2.
  { unfold s2. rewrite task_at_upd_eq by lia. change (task_at s1 k) with (task_at s k). by rewrite Ht. }
  unfold scheduler_init_task_el0. set (g := set_el0 _). set (s3 := upd k g s2).
  assert (task_at s3 k = Some (g (fresh_task k nm TASK_READY entry u))) as Et3 by (unfold s3; rewrite task_at_upd_eq by lia; by rewrite Et2).
  assert (forall i, i <> k -> task_at s3 i = task_at s i) as Eo.
  { intros i Hi. unfold s3, s2. rewrite !task_at_upd_ne by lia. done. }
  destruct (truth entry).
  - split; [done|]. split; [done|]. split; [done|]. split; [intros i Hi; rewrite task_at_upd_ne by lia; by apply Eo|].
    eexists. split; [rewrite task_at_upd_eq by lia; rewrite Et3; cbn [fmap option_fmap option_map]; reflexivity|].
    by destruct (k =? 0).
  - split; [done|]. split; [done|]. split; [done|]. split; [exact Eo|]. eexists. split; [exact Et3|]. done.
Qed.

(** A new user task that is admitted can run. *)
Lemma user_task_admitted pid n image argument s0 s t : sched_inv s -> new_task pid n image argument s0 s t ->
  let s' := (scheduler_unblock_user_task pid s).2 in
  rest s' = rest s /\ same_tables (spaces s) (spaces s') /\ (forall i, i <> pid -> task_at s' i = task_at s i) /\
  exists t', task_at s' pid = Some t' /\ t_state t' = TASK_READY /\ t_entry t' = scheduler_user_task_entry /\ el0 t' = el0 t /\
    address_space_ptr (memory t') = AsTask pid /\ user_table_slot (user_address_space t') = Z.of_nat n.
Proof.
  intros Hinv Hn. pose proof (nt_task _ _ _ _ _ _ _ Hn) as Ht. pose proof (nt_state _ _ _ _ _ _ _ Hn) as Hst.
  pose proof (nt_ready _ _ _ _ _ _ _ Hn) as Hrd. destruct (nt_space _ _ _ _ _ _ _ Hn) as (Hptr & Hslot & Htg & Hss & Hsr & Hvr & Hve).
  assert (0 <= pid) as Hp by (by destruct (task_at_lookup _ _ _ Ht)). pose proof (state_of_at _ _ _ Ht) as Est. rewrite Hst in Est.
  assert (pid < task_count s) as Hlt.
  { destruct (Z.lt_ge_cases pid (task_count s)) as [|Hge]; [done|]. pose proof (si_tail _ Hinv pid Hge). congruence. }
  cbv zeta. unfold scheduler_unblock_user_task. destruct (Z.ltb_spec pid 0); [lia|]. destruct (Z.geb_spec pid (task_count s)); [lia|]. cbn [orb].
  rewrite Est, Ht, Hrd. rewrite !bool_decide_eq_true_2 by done. cbn [negb].
  assert (space_ptr s pid = AsTask pid) as Eptr by (unfold space_ptr; rewrite Ht; exact Hptr).
  assert (space_at (AsTask pid) s = Some (user_address_space t)) as Esp by (cbn [space_at]; by rewrite Ht).
  unfold switch_stub. rewrite Eptr, Esp. unfold address_space_switch_stub. rewrite Hss, Hsr, Hvr, Hve. rewrite bool_decide_eq_false_2 by done.
  destruct (Z.eqb_spec (target_root_table (user_address_space t)) 0); [done|]. cbn [truth negb orb Z.eqb]. rewrite bool_decide_eq_true_2 by done. cbn [negb snd put_space].
  split; [done|]. split; [done|]. split; [intros i Hi; by rewrite !task_at_upd_ne|].
  eexists. split; [rewrite !task_at_upd_eq by done; rewrite Ht; cbn [fmap option_fmap option_map]; reflexivity|]. done.
Qed.

(** The start of the scheduler. *)
Lemma scheduler_initialized s : boot_ok s -> let s' := scheduler_init s in
  sched_inv s' /\ task_count s' = 1 /\ current_task s' = 0 /\ regs s' = regs s /\ same_tables (spaces s) (spaces s').
Proof.
  intros Hb. cbv zeta. pose proof (restubbed_dump _ (sched_inv_idle s Hb)) as Hr.
  change (scheduler_init s) with (scheduler_dump_tasks (with_idle s)). set (w := with_idle s) in *.
  assert (task_count w = 1 /\ current_task w = 0 /\ regs w = regs s /\ spaces w = spaces s) as (E1 & E2 & E3 & E4)
    by (unfold w, with_idle, scheduler_add_task, take_slot; cbn [task_count]; change (seqZ 1 (0 - 1)) with (@nil Z); cbn [List.find]; change (0 >=? SCHED_MAX_TASKS) with false;
        cbv iota; destruct (truth idle_task); done).
  split; [by apply sched_inv_init|]. destruct Hr as (R1 & R2 & R3 & _). unfold rest in R2. injection R2 as R5 R6 _ _.
  rewrite E4 in R1. split; [congruence|]. split; [congruence|]. split; [congruence|done].
Qed.
End threads.

(** ** The descriptors *)

Section files.
Context `{CodeLayout} `{!AsLayout} {B : Type} `{BlockDevice B}.
Implicit Types s : sys.

Lemma files_init s : all_files s -> all_files (scheduler_init s).
Proof. intros Hs. change (scheduler_init s) with (scheduler_dump_tasks (with_idle s)). by apply files_dump, files_add. Qed.


(** A file in memory, as the loader of executables finds it. *)
Lemma file_lookup p file (v : vfs B) : vfs_inv v -> cstring p -> vfs_disk_path (Some p) = None -> file_in (nodes v) p = Some file ->
  exists i rest, vfs_file_data p v = (Some (NodeData i, Z.of_nat (length file)), v) /\ file_bytes (NodeData i) v = file ++ rest.
Proof.
  intros Hv Hp Hd Hf. destruct (file_in_Some _ _ _ (vi_tree _ Hv) Hp Hf) as (i & n & Hn & Hk & -> & Hl & Hs & Hlen).
  destruct (vfs_find_at v p i n Hv Hn) as [E _]. exists i, (drop (Z.to_nat (n_size n)) (n_data n)). unfold vfs_file_data. rewrite Hd, E, Hk, Hl. split; [done|].
  destruct Hn as (Hi & _). unfold file_bytes. rewrite Hi. cbn. by rewrite take_drop.
Qed.
End files.

(** ** The tasks *)

Section tasks.
Context `{CodeLayout} `{!AsLayout} `{!AsLayoutOk} (kernel_table : Z -> list Z).
Context {B : Type} `{BlockDevice B}.
Implicit Types (s : sys) (v : vfs B).

Definition user_demo_code_page : list Z := code_bytes user_demo_code ++ replicate (4096 - length (code_bytes user_demo_code)) 0.

(** The three tasks of a system that has just started. *)
Record first_tasks (keyboard_entry : Z) s : Prop := {
  ft_idle : runnable (state_of s 0) = true;
  ft_keyboard : exists t, task_at s 1 = Some t /\ t_state t = TASK_READY /\ t_entry t = keyboard_entry /\ t_name t = Some (lit "keyboard") /\
    address_space_ptr (memory t) = AsKernel;
  ft_user : exists t, task_at s 2 = Some t /\ t_state t = TASK_READY /\ t_entry t = scheduler_user_task_entry /\
    el0 t = TaskEl0 ADDRESS_SPACE_USER_CODE_START ADDRESS_SPACE_USER_STACK_END ARM64_SPSR_EL0T 1 /\
    address_space_ptr (memory t) = AsTask 2 /\ user_table_slot (user_address_space t) = 0;
  ft_code : region_page 0 0 (spaces s) = user_demo_code_page;
  ft_data : region_page 0 1 (spaces s) = first_page user_demo_message [];
  ft_stack : region_page 0 2 (spaces s) = replicate 4096 0;
}.

Lemma user_demo_listed : (USER_DEMO_IMAGE_PATH, user_demo_code, user_demo_message) ∈ programs.
Proof. apply list_elem_of_here. Qed.

Lemma demo_image rest : let image := ExecImage (code_bytes user_demo_code ++ user_demo_message ++ rest) (user_demo_message ++ rest)
    (Z.of_nat (length (code_bytes user_demo_code))) (Z.of_nat (length user_demo_message)) 0 in
  loadable image /\ argument_fits (i_data_size image) [].
Proof.
  cbv zeta. split.
  - unfold loadable. cbn [i_code_size i_data_size i_entry_offset i_code i_data]. rewrite !length_app.
    assert (length (code_bytes user_demo_code) = Z.to_nat (Z.of_nat (length (code_bytes user_demo_code)))) by lia.
    assert (0 < Z.of_nat (length (code_bytes user_demo_code)) <= 4096) by (split; [vm_compute; reflexivity|vm_compute; congruence]).
    assert (Z.of_nat (length user_demo_message) <= 4096) by (vm_compute; congruence).
    split_and!; lia || done.
  - cbn [i_data_size]. vm_compute. split_and!; congruence.
Qed.

Lemma demo_created s v root : sched_inv s -> task_count s = 2 -> state_of s 1 <> TASK_UNUSED -> as_wf (spaces s) -> kernel_map_ok kernel_table root ->
  root_table (kernel_address_space (spaces s)) = root -> free_slot (user_table_slots_used (spaces s)) 0 = Some 0%nat ->
  vfs_inv v -> file_in (nodes v) USER_DEMO_IMAGE_PATH = Some (program_image user_demo_code user_demo_message) ->
  exists rest t, let image := ExecImage (code_bytes user_demo_code ++ user_demo_message ++ rest) (user_demo_message ++ rest)
    (Z.of_nat (length (code_bytes user_demo_code))) (Z.of_nat (length user_demo_message)) 0 in
  exists s', scheduler_create_blocked_user_task kernel_table (Some (lit "user-demo")) s v = (2, s', v) /\ sched_inv s' /\ new_task 2 0 image [] s s' t.
Proof.
  intros Hinv Hc Hu Hwf Hk Hroot Hf Hv Hfile.
  destruct (file_lookup USER_DEMO_IMAGE_PATH _ v Hv ltac:(apply (bool_decide_unpack _); by vm_compute) eq_refl Hfile) as (i & rest & Ed & Eb).
  unfold scheduler_create_blocked_user_task, scheduler_create_user_task_from_image.
  rewrite Ed. cbn [fmap option_fmap option_map]. rewrite Eb.
  destruct (demo_image rest) as [Hi Hfit]. cbv zeta in Hi, Hfit.
  pose proof (program_parse USER_DEMO_IMAGE_PATH user_demo_code user_demo_message rest user_demo_listed) as Hparse.
  set (image := ExecImage _ _ _ _ _) in *. set (file := program_image _ _ ++ rest) in *.
  pose proof (create_checks kernel_table (Some (lit "user-demo")) file (Z.of_nat (length (program_image user_demo_code user_demo_message))) None image s Hparse Hi) as Hcr.
  cbv zeta in Hcr. cbn [default from_option id] in Hcr. rewrite decide_True in Hcr by exact Hfit.
  pose proof (take_slot_next s 2 Hc ltac:(unfold SCHED_MAX_TASKS; lia) ltac:(intros j Hj; by replace j with 1 by lia)) as Hts.
  pose proof (setup_new_task kernel_table (Some (lit "user-demo")) image [] s root 0 2 _ Hinv Hwf Hk Hroot Hf Hts Hi Hfit) as Hset. cbv zeta in Hset. rewrite <- Hcr in Hset.
  pose proof (sched_inv_create kernel_table (Some (lit "user-demo")) (Some (file, Z.of_nat (length (program_image user_demo_code user_demo_message)))) None s Hinv) as Hinv'.
  destruct (create_user_task _ _ _ _ _) as [pid s']. cbn [fst snd] in *. destruct Hset as (-> & t & Ht). exists rest, t, s'. split; [done|]. split; [done|exact Ht].
Qed.

(** The tasks that [kernel_main] creates. *)
Lemma tasks_created keyboard_entry s v root : sched_inv s -> task_count s = 1 -> as_wf (spaces s) -> kernel_map_ok kernel_table root ->
  root_table (kernel_address_space (spaces s)) = root -> free_slot (user_table_slots_used (spaces s)) 0 = Some 0%nat ->
  vfs_inv v -> file_in (nodes v) USER_DEMO_IMAGE_PATH = Some (program_image user_demo_code user_demo_message) ->
  let s1 := (scheduler_create_kernel_thread (Some (lit "keyboard")) keyboard_entry s).2 in
  let '(pid, s2, v2) := scheduler_create_blocked_user_task kernel_table (Some (lit "user-demo")) s1 v in
  let s' := scheduler_dump_tasks (scheduler_unblock_user_task pid s2).2 in
  v2 = v /\ sched_inv s' /\ rest s' = rest s /\ first_tasks keyboard_entry s'.
Proof.
  intros Hinv Hc Hwf Hk Hroot Hf Hv Hfile s1.
  destruct (thread_created (Some (lit "keyboard")) keyboard_entry s 1 Hinv Hc ltac:(unfold SCHED_MAX_TASKS; lia) ltac:(lia))
    as (Hi1 & Hc1 & Hr1 & Hsp1 & Ho1 & t1 & Ht1 & Hst1 & He1 & Hn1 & Hp1). fold s1 in Hi1, Hc1, Hr1, Hsp1, Ho1, Ht1. clearbody s1.
  rewrite <- Hsp1 in Hwf, Hroot, Hf.
  destruct (demo_created s1 v root Hi1 Hc1 ltac:(rewrite (state_of_at _ _ _ Ht1), Hst1; done) Hwf Hk Hroot Hf Hv Hfile)
    as (tail & t2 & s2 & -> & Hi2 & Hn2).
  set (image := ExecImage _ _ _ _ _) in *.
  destruct (user_task_admitted 2 0 image [] s1 s2 t2 Hi2 Hn2) as (Hr3 & Hs3 & Ho3 & t3 & Ht3 & Hst3 & He3 & Hel3 & Hp3 & Hsl3).
  assert (sched_inv (scheduler_unblock_user_task 2 s2).2) as Hi3 by (by apply sched_inv_unblock_user).
  set (s3 := (scheduler_unblock_user_task 2 s2).2) in *. clearbody s3.
  pose proof (restubbed_dump s3 Hi3) as Hr4. pose proof (quiet_dump s3 Hi3) as Hq. pose proof (sched_inv_quiet _ _ Hi3 Hq) as Hi4.
  set (s4 := scheduler_dump_tasks s3) in *. clearbody s4. split; [done|]. split; [exact Hi4|].
  pose proof Hr4 as ((_ & _ & _ & Hpg4 & _) & Hrest4 & _). split; [rewrite Hrest4, Hr3, (nt_rest _ _ _ _ _ _ _ Hn2), Hr1; done|].
  assert (forall j, region_page 0 j (spaces s4) = region_page 0 j (spaces s2)) as Hpage.
  { intros j. unfold region_page. rewrite Hpg4. destruct Hs3 as (_ & _ & _ & -> & _). done. }
  assert (task_at s3 1 = Some t1) as Ht31 by (rewrite Ho3, (nt_others _ _ _ _ _ _ _ Hn2) by lia; exact Ht1).
  destruct (restubbed_task s3 s4 1 t1 Hr4 Ht31) as (u1 & Hu1 & E1 & E2 & E3 & _ & _ & E4 & _).
  destruct (restubbed_task s3 s4 2 t3 Hr4 Ht3) as (u2 & Hu2 & F1 & F2 & _ & _ & F3 & F4 & F5 & _).
  split; rewrite ?Hpage; [by apply si_idle| | | | |by apply Hn2].
  - exists u1. rewrite E1, E2, E3, E4. done.
  - exists u2. rewrite F1, F2, F3, F4, F5, Hel3, (nt_entry _ _ _ _ _ _ _ Hn2). done.
  - rewrite (nt_code _ _ _ _ _ _ _ Hn2). unfold image, user_demo_code_page. cbn [i_code_size i_code]. by rewrite Nat2Z.id, take_app_length.
  - rewrite (nt_data _ _ _ _ _ _ _ Hn2). unfold image. cbn [i_data_size i_data]. by rewrite Nat2Z.id, take_app_length.
Qed.

(** The switch to the first of them. *)
Lemma first_tasks_start keyboard_entry s : sched_inv s -> current_task s = 0 -> first_tasks keyboard_entry s ->
  let r := scheduler_start_threads s in
  r.1 = Switched /\ sched_inv r.2 /\ current_task r.2 = 0 /\ threads_started r.2 = 1 /\ state_of r.2 0 = TASK_RUNNING /\ regs r.2 = regs s /\ first_tasks keyboard_entry r.2.
Proof.
  intros Hinv Hc [T1 T2 T3 T4 T5 T6] r. pose proof (sched_inv_start s Hinv Hc) as Hi. fold r in Hi.
  assert (forall i, task_at r.2 i = task_at (upd 0 (inc_switches ∘ set_t_state TASK_RUNNING) s) i) as Hat by done.
  destruct (in_range_task s 0 Hinv) as [t Ht]; [pose proof (si_count s Hinv); lia|].
  assert (state_of r.2 0 = TASK_RUNNING) as Hrun by (unfold state_of; rewrite Hat, task_at_upd_eq, Ht by lia; done).
  split; [done|]. split; [exact Hi|]. split; [done|]. split; [done|]. split; [exact Hrun|]. split; [done|].
  split; [by rewrite Hrun|rewrite Hat, task_at_upd_ne by lia; exact T2|rewrite Hat, task_at_upd_ne by lia; exact T3|exact T4|exact T5|exact T6].
Qed.

(** The first tick of the timer gives the processor to the keyboard's task. *)
Lemma first_tick keyboard_entry s : sched_inv s -> current_task s = 0 -> truth (threads_started s) = true -> first_tasks keyboard_entry s ->
  let r := scheduler_preempt s in r.1 = Switched /\ current_task r.2 = 1 /\ state_of r.2 1 = TASK_RUNNING.
Proof.
  intros Hinv Hc Hst [_ (t & Ht & Hs & _) _ _ _ _] r. pose proof (si_count s Hinv) as Hn. pose proof (state_of_at s 1 t Ht) as Hs1. rewrite Hs in Hs1.
  assert (2 <= task_count s) as Hn2.
  { destruct (decide (2 <= task_count s)); [done|]. pose proof (si_tail s Hinv 1 ltac:(lia)). congruence. }
  unfold r, scheduler_preempt. rewrite Hst. destruct (Z.ltb_spec (task_count s) 2); [lia|]. cbn [negb orb]. cbv zeta.
  set (w := scheduler_wake_sleeping_tasks _).
  assert (state_of w 1 = TASK_READY) as Hw. { destruct (state_of_wake (set_scheduler_ticks (scheduler_ticks s +! 1) s) 1) as [E|(_ & E & _)]; [exact (eq_trans E Hs1)|]. change (state_of s 1 = TASK_SLEEPING) in E. congruence. }
  change (current_task w) with (current_task s). assert (task_count w = task_count s) as Ewn by done. assert (current_task w = 0) as Ewc by done. clearbody w. rewrite Hc.
  set (u := upd 0 inc_run_ticks w). assert (state_of u 1 = TASK_READY) as Hu by (unfold u; rewrite state_of_upd by lia; by rewrite decide_False by lia).
  assert (scheduler_next_runnable_task u = 1) as ->.
  { unfold scheduler_next_runnable_task. change (task_count u) with (task_count w). change (current_task u) with (current_task w). rewrite Ewn, Ewc, seqZ_cons by lia. cbn [fmap list_fmap List.find].
    rewrite Z.rem_small by lia. change (negb (0 + 1 =? 0)) with true. cbn [andb]. change (0 + 1) with 1. by rewrite scheduler_task_is_runnable_at, Hu. }
  cbn [Z.eqb fst snd]. split; [done|]. split; [done|]. set (d := if bool_decide _ then _ else u).
  assert (state_of d 1 = TASK_READY) as Hd by (unfold d; case_if; [rewrite state_of_upd by lia; by rewrite decide_False by lia|done]). clearbody d.
  set (a := set_current_task 1 _). change (state_of (cpu_switch_to 0 1 a) 1) with (state_of (upd 0 (set_t_context (cpu a)) a) 1).
  rewrite state_of_upd by lia. rewrite decide_False by lia. change (state_of a 1) with (state_of (scheduler_set_running_task 1 (upd 0 inc_preemptions d)) 1).
  unfold scheduler_set_running_task. rewrite state_of_upd by lia. rewrite decide_True by done. rewrite task_at_upd_ne by lia.
  destruct (state_of_used d 1) as (x & -> & _); [by rewrite Hd|done].
Qed.
End tasks.
