(* ===== verification/BootMain.v ===== *)
(** * [kernel_main] from power-on

    The composition of every component's start-up: from memory as the loader leaves it the
    kernel reaches its first task, in its invariant, and has shown on the screen what it
    printed. *)

From S2P Require Import Prelude PageAllocator Pmm Heap BlockDevice Block Sfs Vfs VfsProps Mmu AddressSpace Task User Scheduler SchedulerProps UserTasks Syscall Steps Isolation SyscallProps Vm VmProps VmInit VmSafety Console Interrupt Programs Virtio Keyboard Framebuffer FramebufferProps Shell Input Commands CommandsProps CommandsFiles CommandsSafety Boot BootProps.

(** ** The display *)

Section display.
Context {V : Type} `{VirtioBlk V}.
Implicit Types pc : computer V.

(** What has been printed since [out0] is what the display shows; without a display, its
    status is one of the codes of [framebuffer_init]. *)
Definition mirrored (out0 text : list Z) pc : Prop :=
  Syscall.console (pc_kernel pc) = out0 ++ text /\
  if truth (framebuffer_is_ready (pc_fb pc)) then exists v, shows v (foldl scr_putc blank text) (pc_fb pc)
  else 0 <= framebuffer_status (pc_fb pc) <= 5.

Lemma ready_truth s : truth (framebuffer_is_ready s) = true <-> framebuffer_ready s <> 0.
Proof. unfold framebuffer_is_ready, truth. destruct (Z.eqb_spec (framebuffer_ready s) 0); cbn; split; congruence. Qed.

Lemma write_offline text s : truth (framebuffer_is_ready s) = false -> framebuffer_console_write text s = s.
Proof.
  intros Hr. induction text as [|c text IH]; [done|]. cbn [framebuffer_console_write].
  assert (framebuffer_console_putc c s = s) as ->; [|exact IH]. unfold framebuffer_console_putc, putc_body. unfold framebuffer_is_ready in Hr. by rewrite Hr.
Qed.

Lemma mirrored_write out0 text t pc : mirrored out0 text pc -> mirrored out0 (text ++ t) (pc_write t pc).
Proof.
  intros [Ho Hd]. split.
  - change (Syscall.console (pc_kernel (pc_write t pc))) with (Syscall.console (pc_kernel pc) ++ t). by rewrite Ho, app_assoc.
  - change (pc_fb (pc_write t pc)) with (framebuffer_console_write t (pc_fb pc)). destruct (truth (framebuffer_is_ready (pc_fb pc))) eqn:E.
    + destruct Hd as [v Hd]. rewrite foldl_app. destruct (decide (t = [])) as [->|Hne]; [cbn [framebuffer_console_write foldl]; rewrite E; by exists v|].
      destruct (write_shows t v _ _ Hd Hne) as [Hs _].
      assert (truth (framebuffer_is_ready (framebuffer_console_write t (pc_fb pc))) = true) as -> by (apply ready_truth, Hs). by exists true.
    + rewrite write_offline by done. by rewrite E.
Qed.

Lemma frame_shows v g s s' : shows v g s -> frame_step s s' -> shows v g s'.
Proof.
  intros [S1 S2 S3 S4 S5] [(F1 & F2 & F3 & F4 & F5 & F6) Hp]. split; rewrite ?F2, ?F4, ?F5, ?F6; try done.
  intros r c dx dy Hr Hc Hd. rewrite Hp; [by apply S5|by apply cell_on_screen|]. destruct Hd. split; lia.
Qed.

Lemma mirrored_status out0 text status pc : 10 ∉ status -> Z.of_nat (length status) < 2 ^ 16 -> mirrored out0 text pc ->
  mirrored out0 text (set_fb (framebuffer_console_set_status (Some status) (pc_fb pc)) pc).
Proof.
  intros Hn Hl [Ho Hd]. split; [done|]. cbn [set_fb pc_fb]. pose proof (set_status_frame status (pc_fb pc) Hn Hl) as Hf.
  pose proof Hf as [(_ & Er & Es & _) _]. unfold framebuffer_is_ready, framebuffer_status in *. rewrite Er, Es.
  destruct (truth (framebuffer_ready (pc_fb pc))); [|done]. destruct Hd as [v Hd]. exists v. by eapply frame_shows.
Qed.

(** A step that leaves the console and the display alone. *)
Lemma mirrored_same out0 text pc pc' : Syscall.console (pc_kernel pc') = Syscall.console (pc_kernel pc) -> pc_fb pc' = pc_fb pc ->
  mirrored out0 text pc -> mirrored out0 text pc'.
Proof. intros E1 E2. unfold mirrored. by rewrite E1, E2. Qed.
End display.

Section init_display.
Context {F : Type} `{FwCfg F}.

Lemma transfer_status selector address buffer sz op (f : F) s :
  let '(ok, _, _, s') := fw_cfg_dma_transfer selector address buffer sz op f s in truth ok = false -> framebuffer_status_code s' = 2 \/ framebuffer_status_code s' = 3.
Proof.
  unfold fw_cfg_dma_transfer. cbv zeta. destruct (poll_loop _ _ _) as [[[m f1]|] [m' f']]; [|by left].
  destruct (fw_run m f1) as [m2 f2]. destruct (truth _); [by right|done].
Qed.

Lemma init_status address directory (f : F) s :
  let '(ready, _, s') := framebuffer_init address directory f s in
  framebuffer_ready s' = ready /\ (truth ready = false -> 0 <= framebuffer_status_code s' <= 5).
Proof.
  unfold framebuffer_init. destruct (fw_cfg_find_file _ _ _ _ _) as [[[selector d] f1] s1]. destruct (selector =? 0); [split; [done|cbn; lia]|].
  unfold fw_cfg_dma_write. pose proof (transfer_status selector RAMFB_CONFIG_BASE (config_bytes ramfb_setup) sizeof_ramfb_config FW_CFG_DMA_CTL_WRITE f1 s1) as Ht.
  destruct (fw_cfg_dma_transfer _ _ _ _ _ _ _) as [[[ready b] f2] s2]. destruct (truth ready) eqn:E; [done|]. split; [done|]. intros _.
  change (framebuffer_status_code (set_ready ready s2)) with (framebuffer_status_code s2). destruct (Ht eq_refl); lia.
Qed.
End init_display.

(** ** Power-on *)

Section main.
Context `{CodeLayout} `{!AsLayout} `{!AsLayoutOk} `{VmLayout} `{!VmLayoutOk} `{KbdLayout}.
Context {V : Type} `{VirtioBlk V} {D : Type} `{KbdBus D} {U : Type} `{SerialPort U} {F : Type} `{FwCfg F}.
Context (e : environment).
Implicit Types (b : board V D U F) (pc : computer V).

Definition bsys b : sys := pc_sys (b_computer b).
Definition bfiles b : vfs (block V) := pc_vfs (b_computer b).

(** Memory as the loader leaves it; the disk, the devices and the registers may hold
    anything. *)
Record powered_on b : Prop := {
  po_vfs : exists d, bfiles b = loaded_vfs d;
  po_tasks : boot_ok (bsys b);
  po_files : all_files (bsys b);
  po_spaces : as_wf (spaces (bsys b));
  po_vm : vm_arrays (b_vm b);
}.

(** A printed frequency, counter readings that go forward slowly enough, fuel for the pause,
    an image that ends in memory, and disks of fewer than 2^31 sectors. *)
Record good_environment (count : nat -> Z) : Prop := {
  ge_frequency : 1000 <= frequency e < 2 ^ 31;
  ge_readings : readings e = u64 ∘ count;
  ge_ticking : ticking (fun k => count (1 + k)%nat) (frequency e / 1000 *! 100);
  ge_fuel : (Z.to_nat (frequency e / 1000 *! 100) <= pause_fuel e)%nat;
  ge_end : 0 <= kernel_end < 2 ^ 64;
  ge_sectors : forall v : V, 0 <= virtio_blk_sector_count v < 2 ^ 31;
}.

(** After [vm_init] and [address_space_init]. *)
Record translated b : Prop := {
  tr_tasks : boot_ok (bsys b);
  tr_files : all_files (bsys b);
  tr_spaces : as_wf (spaces (bsys b));
  tr_root : kernel_space (spaces (bsys b)) = (vm_root_table, ADDRESS_SPACE_KERNEL);
  tr_slots : user_table_slots_used (spaces (bsys b)) = replicate 4 0;
  tr_vm : booted (b_vm b);
  tr_on : vm_mmu_enabled (regs (bsys b)) = true;
}.

Lemma display_stage b : powered_on b ->
  powered_on (init_display e b) /\ mirrored (Syscall.console (pc_kernel (b_computer b))) [] (b_computer (init_display e b)).
Proof.
  intros [P1 P2 P3 P4 P5]. unfold init_display. pose proof (init_status (directory_address e) (directory_array e) (b_fw_cfg b) (pc_fb (b_computer b))) as Hs.
  destruct (framebuffer_init _ _ _ _) as [[ready f] s]. destruct Hs as [Er Hs]. split; [by split|]. split; [by rewrite app_nil_r|]. cbn [b_computer set_fb pc_fb].
  destruct (truth ready) eqn:E.
  - assert (framebuffer_ready s <> 0) as Hr by (apply ready_truth; unfold framebuffer_is_ready; by rewrite Er).
    destruct (init_shows s Hr) as [Hsh _]. generalize dependent (framebuffer_console_init s). intros s' Hsh.
    assert (truth (framebuffer_is_ready s') = true) as -> by (apply ready_truth, Hsh). by exists true.
  - unfold framebuffer_is_ready. rewrite Er, E. by apply Hs.
Qed.

Lemma storage_stage b out0 text : 0 <= kernel_end < 2 ^ 64 -> powered_on b -> mirrored out0 text (b_computer b) ->
  let b' := on_computer (init_storage e) b in
  powered_on b' /\ mirrored out0 text (b_computer b') /\ pmm_ok (kpmm (pc_kernel (b_computer b'))).
Proof.
  intros He [P1 P2 P3 P4 P5] Hm b'. destruct P1 as [d Hd].
  assert (exists d', bfiles b' = set_sfs d' (bfiles b)) as [d' Hd'] by (eexists; reflexivity).
  assert (bsys b' = bsys b) as Es by reflexivity. split; [split|split].
  - exists d'. by rewrite Hd', Hd.
  - by rewrite Es.
  - by rewrite Es.
  - by rewrite Es.
  - done.
  - by apply (mirrored_same out0 text (b_computer b)).
  - change (kpmm (pc_kernel (b_computer b'))) with (pmm_init kernel_end). by apply pmm_init_ok.
Qed.

Lemma translation_stage b out0 text : powered_on b -> mirrored out0 text (b_computer b) ->
  exists b', init_translation b = Some b' /\ translated b' /\ (exists d, bfiles b' = loaded_vfs d) /\ mirrored out0 text (b_computer b') /\
    kpmm (pc_kernel (b_computer b')) = kpmm (pc_kernel (b_computer b)).
Proof.
  intros [P1 P2 P3 P4 P5] Hm. unfold init_translation.
  destruct (vm_init_booted (b_vm b) (regs (bsys b)) P5) as (v & E & Hb). unfold bsys in E. rewrite E. cbn [mbind option_bind].
  eexists. split; [reflexivity|]. split; [|split; [exact P1|split; [by apply (mirrored_same out0 text (b_computer b))|done]]]. split; try done.
  - destruct P2 as [Hl Ht]. by split.
  - destruct P4 as [W1 W2 W3 W4 W5 W6]. by split.
  - apply enable_enables.
Qed.

(** The file system after [user_programs_init]. *)
Record installed b : Prop := {
  in_inv : vfs_inv (bfiles b);
  in_counts : file_count (bfiles b) = 8 /\ dir_count (bfiles b) = 2;
  in_programs : forall p code data, (p, code, data) ∈ programs -> file_in (nodes (bfiles b)) p = Some (program_image code data);
}.

Lemma files_stage b out0 text : (exists d, bfiles b = loaded_vfs d) -> mirrored out0 text (b_computer b) ->
  exists pc v, init_files (b_computer b) = Some pc /\ pc = set_pc_vfs v (b_computer b) /\ installed (set_computer pc b) /\ mirrored out0 text pc.
Proof.
  intros [d Hd] Hm. unfold init_files. unfold bfiles in Hd. rewrite Hd.
  destruct (installed_memory d) as (E1 & E2 & E3 & E4 & E5). destruct (user_programs_init (vfs_init (loaded_vfs d))) as [ok v]. cbn [fst snd] in *. subst ok.
  cbn [truth Z.eqb negb]. eexists _, v. split; [reflexivity|]. split; [reflexivity|]. split; [|by apply (mirrored_same out0 text (b_computer b))].
  split; [exact E2|by split|]. intros p code data Hin. change (nodes (bfiles _)) with (nodes v). rewrite E3. by apply program_in_memory.
Qed.

(** After [scheduler_init] and the devices. *)
Record scheduling b : Prop := {
  sd_sched : sched_inv (bsys b);
  sd_count : task_count (bsys b) = 1;
  sd_current : current_task (bsys b) = 0;
  sd_files : all_files (bsys b);
  sd_spaces : as_wf (spaces (bsys b));
  sd_root : root_table (kernel_address_space (spaces (bsys b))) = vm_root_table;
  sd_slot : free_slot (user_table_slots_used (spaces (bsys b))) 0 = Some 0%nat;
  sd_isolated : spaces_ok (vm_table_at (b_vm b)) vm_root_table (bsys b);
  sd_vm : booted (b_vm b);
  sd_on : vm_mmu_enabled (regs (bsys b)) = true;
  sd_programs : installed b;
}.

Lemma same_tables_wf st st' : same_tables st st' -> as_wf st -> as_wf st'.
Proof. intros (E1 & E2 & E3 & E4 & E5 & _) [W1 W2 W3 W4 W5 W6]. split; rewrite ?E1, ?E2, ?E3, ?E4, ?E5; done. Qed.

Lemma devices_stage b out0 text : translated b -> installed b -> mirrored out0 text (b_computer b) ->
  let b' := init_devices e b in
  scheduling b' /\ mirrored out0 text (b_computer b') /\ kpmm (pc_kernel (b_computer b')) = kpmm (pc_kernel (b_computer b)) /\
  timer_frequency (mtimer (pc_machine (b_computer b'))) = frequency e.
Proof.
  intros [T2 T3 T4 T5 T6 T7 T8] Hin Hm b'. assert (bsys b' = scheduler_init (bsys b)) as Es by reflexivity.
  destruct (scheduler_initialized (bsys b) T2) as (S1 & S2 & S3 & S4 & S5). pose proof S5 as (_ & _ & _ & _ & Eu & Er).
  split; [split; rewrite ?Es|split; [by apply (mirrored_same out0 text (b_computer b))|done]].
  - exact S1.
  - exact S2.
  - exact S3.
  - by apply files_init.
  - by eapply same_tables_wf.
  - rewrite Er. by injection T5.
  - by rewrite Eu, T6.
  - apply spaces_ok_init; [done..|].
    intros n u. rewrite T6. by intros [-> _]%lookup_replicate_1.
  - exact T7.
  - by rewrite S4.
  - destruct Hin as [I1 I2 I3]. by split.
Qed.

(** *** Printing *)

Lemma kprint_all_writes lines b : Forall (fun l => is_Some (kprintf l.1 l.2 [])) lines ->
  exists text, kprint_all lines b = Some (on_computer (pc_write text) b).
Proof.
  intros Hl. revert b. induction Hl as [|[fmt args] lines [t Et] _ IH]; intros b; cbn [kprint_all].
  - exists []. unfold on_computer. rewrite pc_write_nil. by destruct b.
  - unfold kprint, print. cbn [fst snd] in Et. rewrite Et. cbn [mbind option_bind]. destruct (IH (set_computer (pc_write t (b_computer b)) b)) as [u ->].
    exists (t ++ u). unfold on_computer, set_computer. cbn [b_computer b_vm b_keyboard b_fw_cfg]. by rewrite pc_write_app.
Qed.

Lemma printed ps fmt args : Forall piece_ok ps -> fmt = concat (piece_format <$> ps) -> args = concat (piece_args <$> ps) -> is_Some (kprintf fmt args []).
Proof. intros Hp -> ->. rewrite kprintf_pieces by done. by eexists. Qed.

Lemma free_pages_small (p : pmm) : pmm_ok p -> int_of ((pmm_free_pages p *! PMM_PAGE_SIZE) / 1024) <> INT_MIN.
Proof.
  intros Hp. pose proof (ok_count _ Hp) as Hc. pose proof (count_if_bound (page_is_used p) all_pages) as Hb. rewrite all_pages_length in Hb.
  change PMM_TOTAL_PAGES with 32768 in Hb. apply int_of_small. unfold pmm_free_pages. change PMM_TOTAL_PAGES with 32768. change PMM_PAGE_SIZE with 4096.
  rewrite (u64_small (32768 - used_pages p)) by lia. rewrite u64_small by lia. split; [apply Z.div_pos; lia|].
  apply Z.div_lt_upper_bound; lia.
Qed.

Lemma sectors_small (k : block V) : (forall v : V, 0 <= virtio_blk_sector_count v < 2 ^ 31) -> int_of (block_sector_count k) <> INT_MIN.
Proof. intros Hv. apply int_of_small. unfold block_sector_count. destruct (truth _); [apply Hv|by split]. Qed.

Ltac numbers ps := apply (printed ps); [repeat (apply Forall_cons; split; [first [by apply text_ok_piece|done]|]); constructor|reflexivity|reflexivity].

Lemma banner_prints count b out0 text : good_environment count -> scheduling b -> mirrored out0 text (b_computer b) -> pmm_ok (kpmm (pc_kernel (b_computer b))) ->
  timer_frequency (mtimer (pc_machine (b_computer b))) = frequency e -> Forall (fun l => is_Some (kprintf l.1 l.2 [])) (banner b).
Proof.
  intros He Hs [_ Hm] Hp Hf. destruct (in_counts _ (sd_programs _ Hs)) as [Hfc Hdc]. unfold bfiles in Hfc, Hdc.
  pose proof (free_pages_small _ Hp) as Hfree. pose proof (sectors_small (dev (pc_sfs (b_computer b))) (ge_sectors _ He)) as Hsec.
  assert (int_of (timer_get_frequency (mtimer (pc_machine (b_computer b)))) <> INT_MIN) as Hfr
    by (apply int_of_small; unfold timer_get_frequency; rewrite Hf; pose proof (ge_frequency _ He); lia).
  unfold banner. cbv zeta. unfold vfs_dir_count, vfs_file_count. rewrite Hfc, Hdc.
  repeat (apply Forall_cons; split; [try (eexists; reflexivity)|]); [..|constructor]; cbn [fst snd].
  - numbers [Text (lit "Timer  : "); Dec (timer_get_frequency (mtimer (pc_machine (b_computer b)))); Text (lit " Hz" ++ ln)].
  - numbers [Text (lit "Memory : "); Dec ((pmm_free_pages (kpmm (pc_kernel (b_computer b))) *! PMM_PAGE_SIZE) / 1024); Text (lit " KB free" ++ ln)].
  - apply (printed [Text (lit "Block  : "); Str (Some (block_device_name (dev (pc_sfs (b_computer b))))); Text (lit ", ");
      Dec (block_sector_count (dev (pc_sfs (b_computer b)))); Text (lit " sectors" ++ ln)]); [|reflexivity..].
    repeat (apply Forall_cons; split; [first [by apply text_ok_piece|done|idtac]|]); [|constructor].
    unfold block_device_name. cbn [piece_ok default]. destruct (truth (use_virtio _)); vm_compute; repeat constructor; discriminate.
  - destruct (truth (framebuffer_is_ready _)); [by eexists|]. cbn [fst snd].
    assert (int_of (framebuffer_status (pc_fb (b_computer b))) <> INT_MIN) as Hst by (apply int_of_small; lia).
    numbers [Text (lit "Video  : UART only (fb status="); Dec (framebuffer_status (pc_fb (b_computer b))); Text (lit ")" ++ ln)].
Qed.

(** *** Output leaves the kernel alone *)

Definition only_output b b' : Prop :=
  bsys b' = bsys b /\ bfiles b' = bfiles b /\ b_vm b' = b_vm b /\ b_keyboard b' = b_keyboard b /\
  kpmm (pc_kernel (b_computer b')) = kpmm (pc_kernel (b_computer b)) /\ mtimer (pc_machine (b_computer b')) = mtimer (pc_machine (b_computer b)).

#[export] Instance only_output_preorder : PreOrder only_output.
Proof. split; [done|]. intros a b c (A1 & A2 & A3 & A4 & A5 & A6) (B1 & B2 & B3 & B4 & B5 & B6). split_and!; congruence. Qed.

Lemma scheduling_output b b' : only_output b b' -> scheduling b -> scheduling b'.
Proof.
  intros (E1 & E2 & E3 & _) [S1 S2 S3 S4 S5 S6 S7 Si S8 S9 [I1 I2 I3]]. split; rewrite ?E1, ?E3; try done. split; by rewrite E2.
Qed.

Lemma write_output t b : only_output b (on_computer (pc_write t) b).
Proof. done. Qed.

Lemma status_stage suffix b out0 text : suffix = lit "VM OK" \/ suffix = lit "EL0 TASK" -> mirrored out0 text (b_computer b) ->
  only_output b (show_status suffix b) /\ mirrored out0 text (b_computer (show_status suffix b)).
Proof.
  intros Hs Hm. unfold show_status. destruct (truth (framebuffer_is_ready _)); [|done]. cbv zeta. split; [done|]. apply mirrored_status; [| |done];
    destruct (truth (keyboard_graphical_ready _)), Hs as [-> | ->]; first [apply (bool_decide_unpack _); by vm_compute|by vm_compute].
Qed.

Lemma kprint_stage ps fmt args b : Forall piece_ok ps -> fmt = concat (piece_format <$> ps) -> args = concat (piece_args <$> ps) ->
  kprint fmt args b = Some (on_computer (pc_write (concat (piece_output <$> ps))) b).
Proof. intros Hp Hf Ha. unfold kprint. by rewrite (print_pieces ps fmt args). Qed.

Lemma timer_stage count b out0 text : good_environment count -> timer_frequency (mtimer (pc_machine (b_computer b))) = frequency e ->
  mirrored out0 text (b_computer b) -> exists b' text', timer_sanity e b = Some b' /\ only_output b b' /\ mirrored out0 text' (b_computer b').
Proof.
  intros He Hf Hm. unfold timer_sanity.
  rewrite (kprint_stage [Text (lit "Timer sanity: start=0x"); Hex (readings e 0%nat); Text ln]) by first [reflexivity|repeat (apply Forall_cons; split; [first [by apply text_ok_piece|done]|]); constructor].
  cbn [mbind option_bind]. set (b1 := on_computer _ b).
  change (mtimer (pc_machine (b_computer b1))) with (mtimer (pc_machine (b_computer b))).
  assert ((timer_frequency (mtimer (pc_machine (b_computer b))) / 1000) *! 100 = frequency e / 1000 * 100) as Ed.
  { rewrite Hf. apply u64_small. pose proof (ge_frequency _ He). Z.div_mod_to_equations; lia. }
  assert (0 < frequency e / 1000 * 100) as Hpos by (pose proof (ge_frequency _ He); Z.div_mod_to_equations; lia).
  pose proof (ge_ticking _ He) as Ht. pose proof (ge_fuel _ He) as Hfu. rewrite <- Hf, Ed in Ht, Hfu by done.
  destruct (pause_returns (fun k : nat => count (1 + k)%nat) (mtimer (pc_machine (b_computer b))) 100 (pause_fuel e)) as (j & E & _); [by rewrite Ed|by rewrite Ed|by rewrite Ed|].
  rewrite (ge_readings _ He). change (fun k : nat => (u64 ∘ count) (1 + k)%nat) with (u64 ∘ (fun k : nat => count (1 + k)%nat)). rewrite E. cbn [mbind option_bind].
  rewrite (kprint_stage [Text (lit "Timer sanity: end=0x"); Hex ((u64 ∘ count) (2 + j)%nat); Text ln]) by first [reflexivity|repeat (apply Forall_cons; split; [first [by apply text_ok_piece|done]|]); constructor].
  eexists _, _. split; [reflexivity|]. split; [done|]. by apply mirrored_write, mirrored_write.
Qed.

(** *** The first tasks *)

(** What [kernel_main] leaves when it gives the processor to the first task. *)
Record started b : Prop := {
  st_kernel : kernel_inv (pc_kernel (b_computer b));
  st_awake : awake (pc_kernel (b_computer b));
  st_idle : current_task (bsys b) = 0 /\ state_of (bsys b) 0 = TASK_RUNNING;
  st_threads : truth (threads_started (bsys b)) = true;
  st_tasks : first_tasks (keyboard_entry e) (bsys b);
  st_isolated : spaces_ok (vm_table_at (b_vm b)) vm_root_table (bsys b);
  st_programs : installed b;
  st_map : booted (b_vm b);
  st_mmu : vm_mmu_enabled (regs (bsys b)) = true;
}.

Lemma tasks_stage b out0 text : scheduling b -> mirrored out0 text (b_computer b) ->
  let b' := create_tasks e b in
  sched_inv (bsys b') /\ current_task (bsys b') = 0 /\ regs (bsys b') = regs (bsys b) /\ rtc (sys_step (vm_table_at (b_vm b))) (bsys b) (bsys b') /\
  first_tasks (keyboard_entry e) (bsys b') /\ bfiles b' = bfiles b /\ b_vm b' = b_vm b /\ mirrored out0 text (b_computer b').
Proof.
  intros [S1 S2 S3 S4 S5 S6 S7 Si S8 S9 [I1 I2 I3]] Hm. unfold create_tasks. change (truth CONFIG_THREAD_DEMO_ENABLE) with false. cbv iota.
  unfold keyboard_input_init. set (k := keyboard_init (b_keyboard b)). clearbody k. fold (bsys b).
  set (b1 := set_keyboard k (on_computer (set_pc_sys (scheduler_create_kernel_thread (Some (lit "keyboard")) (keyboard_entry e) (bsys b)).2) b)).
  pose proof (tasks_created (vm_table_at (b_vm b)) (keyboard_entry e) (bsys b) (bfiles b) vm_root_table S1 S2 S5 (kernel_map_built _ (bo_tables _ S8)) S6 S7 I1
    (I3 _ _ _ user_demo_listed)) as Ht. cbv zeta in Ht.
  change (pc_sys (b_computer b1)) with ((scheduler_create_kernel_thread (Some (lit "keyboard")) (keyboard_entry e) (bsys b)).2).
  change (pc_vfs (b_computer b1)) with (bfiles b). change (b_vm b1) with (b_vm b).
  pose proof (steps_op (vm_table_at (b_vm b)) (OpThread (Some (lit "keyboard")) (keyboard_entry e)) (bsys b) I) as Hs1. cbn [sched_exec snd] in Hs1.
  set (s1 := (scheduler_create_kernel_thread _ _ _).2) in *. clearbody s1.
  assert (rtc (sys_step (vm_table_at (b_vm b))) (bsys b) (scheduler_create_blocked_user_task (vm_table_at (b_vm b)) (Some (lit "user-demo")) s1 (bfiles b)).1.2) as Hs2.
  { etrans; [exact Hs1|]. unfold scheduler_create_blocked_user_task, scheduler_create_user_task_from_image. destruct (vfs_file_data _ _) as [r v'].
    pose proof (steps_op (vm_table_at (b_vm b)) (OpCreateUser (Some (lit "user-demo")) ((fun '(p, sz) => (file_bytes p v', sz)) <$> r) None) s1 I) as Hc.
    cbn [sched_exec snd] in Hc. destruct (create_user_task _ _ _ _ _). exact Hc. }
  destruct (scheduler_create_blocked_user_task _ _ s1 _) as [[pid s2] v2]. cbn [fst snd] in Hs2. destruct Ht as (-> & Hi & Hr & Hft).
  set (b2 := on_computer _ (on_computer _ b1)).
  assert (bsys b2 = scheduler_dump_tasks (scheduler_unblock_user_task pid s2).2) as Eb by reflexivity. rewrite Eb.
  unfold rest in Hr. injection Hr as Hr1 Hr2 _ _. split; [exact Hi|]. split; [congruence|]. split; [exact Hr2|]. split; [|by split_and!].
  etrans; [exact Hs2|]. etrans; [exact (steps_op _ (OpUnblockUser pid) s2 I)|]. exact (steps_op _ OpDump _ I).
Qed.

(** The whole of it. *)
Lemma main_reaches count b : good_environment count -> powered_on b ->
  exists b' text, kernel_main e b = Some (Switched, b') /\ started b' /\
    mirrored (Syscall.console (pc_kernel (b_computer b))) text (b_computer b').
Proof.
  intros He Hp. set (out0 := Syscall.console _). destruct (display_stage b Hp) as [Hp1 Hm1]. fold out0 in Hm1. unfold kernel_main. cbv zeta.
  set (b1 := init_display e b) in *. clearbody b1. destruct (storage_stage b1 out0 [] (ge_end _ He) Hp1 Hm1) as (Hp2 & Hm2 & Hpmm).
  set (b2 := on_computer (init_storage e) b1) in *. clearbody b2. destruct (translation_stage b2 out0 [] Hp2 Hm2) as (b3 & -> & Ht3 & Hd3 & Hm3 & Ek3). cbn [mbind option_bind].
  destruct (files_stage b3 out0 [] Hd3 Hm3) as (pc & v & -> & -> & Hin & Hm4). cbn [mbind option_bind].
  set (b4 := set_computer _ b3) in *. assert (translated b4) as Ht4 by (destruct Ht3; by split).
  assert (kpmm (pc_kernel (b_computer b4)) = kpmm (pc_kernel (b_computer b2))) as Ek4 by exact Ek3.
  change (mirrored out0 [] (b_computer b4)) in Hm4. clearbody b4. clear Ht3 Hd3 Hm3 Ek3.
  destruct (devices_stage b4 out0 [] Ht4 Hin Hm4) as (Hs5 & Hm5 & Ek5 & Ef5). set (b5 := init_devices e b4) in *. clearbody b5.
  destruct (status_stage (lit "VM OK") b5 out0 [] ltac:(by left) Hm5) as (Ho6 & Hm6). set (b6 := show_status _ b5) in *. clearbody b6.
  pose proof (scheduling_output b5 b6 Ho6 Hs5) as Hs6. destruct Ho6 as (_ & _ & _ & _ & Ek6 & Ef6).
  destruct (kprint_all_writes (banner b6) b6) as [t7 ->].
  { apply (banner_prints count b6 out0 []); [done|done|done|by rewrite Ek6, Ek5, Ek4|by rewrite Ef6]. }
  cbn [mbind option_bind]. pose proof (mirrored_write out0 [] t7 _ Hm6) as Hm7.
  destruct (timer_stage count (on_computer (pc_write t7) b6) out0 ([] ++ t7) He) as (b8 & t8 & -> & Ho8 & Hm8); [by rewrite <- Ef5, <- Ef6|exact Hm7|].
  cbn [mbind option_bind]. pose proof (scheduling_output _ b8 Ho8 (scheduling_output _ _ (write_output t7 b6) Hs6)) as Hs8. clear Hm7 Ho8.
  destruct (tasks_stage b8 out0 t8 Hs8 Hm8) as (Hi9 & Hc9 & Hr9 & Hst9 & Hft9 & Ev9 & Evm9 & Hm9). set (b9 := create_tasks e b8) in *. clearbody b9.
  destruct (status_stage (lit "EL0 TASK") b9 out0 t8 ltac:(by right) Hm9) as (Ho10 & Hm10). set (b10 := show_status _ b9) in *. clearbody b10.
  destruct Ho10 as (Es10 & Ev10 & Evm10 & _). set (b11 := on_computer (on_timer _) b10).
  change (pc_sys (b_computer b11)) with (bsys b10). rewrite <- Es10 in Hi9, Hc9, Hr9, Hst9, Hft9.
  destruct (first_tasks_start (keyboard_entry e) (bsys b10) Hi9 Hc9 Hft9) as (Eo & Hi & Hc & Hth & Hst & Hr & Hft).
  assert (rtc (sys_step (vm_table_at (b_vm b8))) (bsys b8) (scheduler_start_threads (bsys b10)).2) as Hsteps by (etrans; [exact Hst9|exact (steps_op _ OpStart _ Hc9)]).
  assert (sys_ok (bsys b8)) as Hok by (split; apply Hs8).
  pose proof (sys_ok_steps _ _ _ Hsteps Hok) as [_ Hf].
  pose proof (spaces_ok_steps _ _ (kernel_map_built _ (bo_tables _ (sd_vm _ Hs8))) _ _ Hsteps Hok (sd_isolated _ Hs8)) as Hiso. clear Hsteps.
  destruct (scheduler_start_threads (bsys b10)) as [o s]. cbn [fst snd] in *. subst o. exists (on_computer (set_pc_sys s) b11), t8. split; [reflexivity|].
  pose proof (sd_programs _ Hs8) as [P1 P2 P3]. rewrite <- Ev9, <- Ev10 in P1, P2, P3.
  split; [split|exact Hm10].
  - split; [exact Hi|exact P1|exact Hf].
  - unfold awake. change (state_of s (current_task s) <> TASK_ZOMBIE). rewrite Hc, Hst. discriminate.
  - split; [exact Hc|exact Hst].
  - change (truth (threads_started s) = true). by rewrite Hth.
  - exact Hft.
  - change (spaces_ok (vm_table_at (b_vm b10)) vm_root_table s). rewrite Evm10, Evm9. exact Hiso.
  - split; [exact P1|exact P2|exact P3].
  - change (booted (b_vm b10)). rewrite Evm10, Evm9. apply Hs8.
  - change (vm_mmu_enabled (regs s) = true). rewrite Hr, Hr9. apply Hs8.
Qed.

(** The first timer interrupt. *)
Lemma tick_starts b iar : started b -> iar mod 1024 = TIMER_IRQ -> exists m, irq_handler iar (pc_machine (b_computer b)) = Some (Switched, m) /\
  current_task (ksys (mkernel m)) = 1 /\ state_of (ksys (mkernel m)) 1 = TASK_RUNNING.
Proof.
  intros Hs Hi. unfold irq_handler. change 0x3FF with (2 ^ 10 - 1). rewrite land_low_mask by lia. change (2 ^ 10) with 1024. rewrite Hi. cbn [Z.eqb Pos.eqb TIMER_IRQ].
  destruct (first_tick _ _ (ki_sched _ (st_kernel _ Hs)) (proj1 (st_idle _ Hs)) (st_threads _ Hs) (st_tasks _ Hs)) as (Eo & Hc & Hst).
  unfold bsys, pc_sys in *. unfold pc_kernel in *. destruct (scheduler_preempt (ksys (mkernel (pc_machine (b_computer b))))) as [o s]. cbn [fst snd] in *. subst o.
  eexists. split; [reflexivity|]. split; [exact Hc|exact Hst].
Qed.

End main.
