(* ===== verification/Machine.v ===== *)
(** * The running machine

    What can happen from the first task on: interrupts, exceptions and system calls, the
    operations of the kernel's own threads, the stores of programs, and the keyboard's
    thread, which reads the keyboard and runs the shell. A step is a whole operation of
    these: an interrupt is a step between two others, never inside one. So the sequences are
    those in which no interrupt arrives while a thread of the kernel is inside a call of the
    scheduler or the keyboard's task inside a round. The code does not mask interrupts there
    ([thread_trampoline] enables them), and an interrupt inside is outside of what is shown.
    Every state the steps reach in any order keeps the kernel's invariant, the programs
    apart, and the shell an editor. *)

From S2P Require Import Prelude PageAllocator Pmm Heap BlockDevice Block Sfs Vfs VfsProps Mmu AddressSpace Task User Scheduler SchedulerProps Syscall UserMemory Steps Isolation SyscallProps Vm VmProps VmInit VmSafety Console Exception ExceptionProps Threads Interrupt Programs Virtio Keyboard Framebuffer Shell ShellProps Input Reports Commands CommandsProps CommandsFiles CommandsSafety Boot BootProps BootMain.

(** ** The steps *)

Section machine.
Context `{CodeLayout} `{!AsLayout} `{!AsLayoutOk} `{VmLayout} `{!VmLayoutOk} `{KbdLayout}.
Context {V : Type} `{VirtioBlk V} {D : Type} `{KbdBus D} {U : Type} `{SerialPort U}.

(** The kernel's map, which nothing changes once it is built. *)
Context (map : vm).
Implicit Types pc : computer V.

(** The registers with which the thread of the program that runs has entered EL0. *)
Context (saved : computer V -> exception_frame).
Local Abbreviation kernel_table := (vm_table_at map).

Definition interval_of pc : Z := timer_get_interval_ms (mtimer (pc_machine pc)).

(** What the processor does outside the shell: it takes an interrupt; it takes an exception
    of a program or of the kernel, a system call among them; a call that gave it away goes
    on; a thread of the kernel calls the scheduler; a program stores to its memory. Each is
    done to its end. A program that ends its session has left the registers of its thread
    as they were: otherwise the kernel goes on at an address of the program's choice. *)
Inductive other_step : computer V -> computer V -> Prop :=
  | os_interrupt iar o m pc : irq_handler iar (pc_machine pc) = Some (o, m) -> other_step pc (set_machine m pc)
  | os_exception f esr elr far spsr pc : awake (pc_kernel pc) -> Forall is_u64 f ->
      (exception_from_el0 spsr = true -> ends_session f esr = true -> registers_kept (saved pc) f) ->
      other_step pc (set_kernel (exception_sync_handler kernel_table (interval_of pc) f esr elr far spsr (pc_kernel pc)).2 pc)
  | os_default esr elr far spsr pc : other_step pc (set_kernel (exception_handler esr elr far spsr (pc_kernel pc)).2 pc)
  | os_resume c pc : awake (pc_kernel pc) -> other_step pc (set_kernel (resume kernel_table c (pc_kernel pc)).2 pc)
  | os_thread op pc : sched_allowed op (pc_sys pc) -> other_step pc (set_pc_sys (sched_exec kernel_table op (pc_sys pc)).2 pc)
  | os_store va b s pc : store_byte kernel_table va b (pc_sys pc) = Some s -> other_step pc (set_pc_sys s pc).

Section shell_task.
(** What goes on while the shell's task has given the processor away, how often one of its
    system calls is looked at, and what its stack holds. *)
Context (others : computer V -> computer V) (rounds : nat) (stack : list Z).

#[local] Instance machine_host : ShellHost (computer V) :=
  {| kput := pc_write; Shell.shell_execute := Commands.shell_execute kernel_table map others rounds stack |}.
#[local] Instance machine_console : ConsoleHost (computer V).
Proof. split; [apply pc_write_nil|apply pc_write_app]. Qed.

(** [scheduler_yield] of the keyboard's task. *)
Definition keyboard_yields pc : option (computer V) :=
  let (o, s) := scheduler_yield (pc_sys pc) in after_switch others o (set_pc_sys s pc).

(** The keyboard's task, the second of the table, has the processor. *)
Definition keyboard_runs pc : Prop := current_task (pc_sys pc) = 1 /\ state_of (pc_sys pc) 1 = TASK_RUNNING.

(** The keyboard's task before its loop; [c] is what its local variable holds. *)
Definition keyboard_begins (c : Z) (k : keyboard D U) pc : input D U (computer V) := Input c k (shell_init (shell_zero pc)).

(** Before the keyboard's task has run, and in its loop. *)
Inductive world :=
  | Starting (k : keyboard D U) (pc : computer V)
  | Serving (t : input D U (computer V)).
Definition world_computer (w : world) : computer V :=
  match w with Starting _ pc => pc | Serving t => host (i_shell t) end.

(** [fuel] bounds the driver's loops. *)
Inductive world_step : world -> world -> Prop :=
  | ws_starting k pc pc' : other_step pc pc' -> world_step (Starting k pc) (Starting k pc')
  | ws_start c k pc : keyboard_runs pc -> world_step (Starting k pc) (Serving (keyboard_begins c k pc))
  | ws_serving t pc : other_step (host (i_shell t)) pc -> world_step (Serving t) (Serving (Input (i_char t) (i_keyboard t) (set_host pc (i_shell t))))
  | ws_round fuel t t' : keyboard_runs (host (i_shell t)) -> keyboard_input_round keyboard_yields fuel t = Some t' -> world_step (Serving t) (Serving t').

(** ** What every step keeps *)

Section keeps.
Context (s0 : sys).
Local Abbreviation good := (inv kernel_table s0).

Lemma other_step_keeps pc pc' : other_step pc pc' -> good pc -> good pc'.
Proof.
  intros Hst Hi. destruct Hst as [iar o m pc E|f esr elr far spsr pc Ha Hf _|esr elr far spsr pc|c pc Ha|op pc Ha|va b s pc E].
  - exact (irq_from kernel_table s0 iar _ o m E Hi).
  - apply inv_kernel. apply (sync_handler_from kernel_table (interval_of pc) s0 f esr elr far spsr _ Hi Ha Hf).
  - apply inv_kernel. apply (default_handler_from kernel_table s0 esr elr far spsr _ Hi).
  - apply inv_kernel. apply (dispatch_from kernel_table (interval_of pc) s0 _ Hi Ha).
  - by apply inv_op.
  - apply inv_steps; [done|]. apply rtc_once. by eapply step_store.
Qed.

Lemma other_steps_keep pc pc' : rtc other_step pc pc' -> good pc -> good pc'.
Proof. induction 1 as [|pc pc1 pc' Hst _ IH]; [done|]. intros Hi. by eapply IH, other_step_keeps. Qed.
End keeps.

(** The others run in steps, and give the processor back to a live task. *)
Hypothesis others_steps : forall pc, kernel_inv (pc_kernel pc) -> rtc other_step pc (others pc) /\ awake (pc_kernel (others pc)).

Section serves.
Context (s0 : sys).
Local Abbreviation good := (inv kernel_table s0).

Lemma others_good pc : good pc -> good (others pc) /\ awake (pc_kernel (others pc)).
Proof. intros Hi. destruct (others_steps pc (proj1 Hi)) as [Hs Ha]. split; [by eapply other_steps_keep|done]. Qed.

Lemma runs_awake pc : keyboard_runs pc -> awake (pc_kernel pc).
Proof. unfold keyboard_runs, awake, pc_sys. intros [-> ->]. discriminate. Qed.

Lemma rep_line e (s : shell (computer V)) : rep e s -> cstring (line e) /\ (length (line e) <= 63)%nat.
Proof.
  intros [[(rest & _ & Hl) _ _ Hc] _ _ _]. split.
  - unfold cstring. eapply Forall_impl; [exact Hc|]. unfold typeable. lia.
  - unfold line. rewrite length_app. lia.
Qed.

(** A character does to the machine what the editor's does. *)
Lemma char_good c e (s : shell (computer V)) w : rep e s -> good (host s) -> awake (pc_kernel (host s)) -> ed_host c e (host s) = Some w -> good w.
Proof.
  intros Hr Hi Ha. unfold ed_host. set (c' := if c =? 13 then 10 else c). clearbody c'. destruct (negb _).
  - intros [= <-]. by apply inv_write.
  - destruct (c' =? 10); [|intros [= <-]; by apply inv_write]. destruct (rep_line e s Hr) as [Hc Hl].
    pose proof (execute_checked kernel_table map others rounds stack s0 others_good (line e) (pc_write [10] (host s)) (inv_write _ _ _ _ Hi) Ha Hc Hl) as [Hs _].
    cbn [kput machine_host Shell.shell_execute]. destruct (Commands.shell_execute _ _ _ _ _ _ _) as [pc'|]; [|done]. intros [= <-]. by apply inv_write, Hs.
Qed.

Lemma yields_good pc pc' : good pc -> keyboard_yields pc = Some pc' -> good pc'.
Proof.
  intros Hi. unfold keyboard_yields. pose proof (inv_op _ _ OpYield pc Hi I) as Hy. cbn [sched_exec] in Hy.
  destruct (scheduler_yield (pc_sys pc)) as [o s]. destruct o; cbn [after_switch]; [by intros [= <-]|intros [= <-]; by apply others_good|done].
Qed.

(** The invariant of the whole. *)
Definition world_ok (w : world) : Prop :=
  good (world_computer w) /\ match w with Starting _ _ => True | Serving t => exists e, rep e (i_shell t) end.

Lemma world_step_keeps w w' : world_step w w' -> world_ok w -> world_ok w'.
Proof.
  intros Hst [Hi Hr]. destruct Hst as [k pc pc' Hs|c k pc Hk|t pc Hs|fuel t t' Hk E]; cbn [world_computer] in Hi.
  - split; [by eapply other_step_keeps|done].
  - destruct (init_rep pc) as [Hrep Hh]. split; [|by eexists]. cbn [world_computer keyboard_begins i_shell]. rewrite Hh. by apply inv_write, inv_write.
  - destruct Hr as [e Hr]. split; [by eapply other_step_keeps|]. exists e. by apply rep_host.
  - destruct Hr as [e Hr]. unfold keyboard_input_round in E. destruct (keyboard_read_char _ _ _) as [[[r c] k]|]; [|done]. cbn [mbind option_bind] in E.
    destruct (truth r).
    + pose proof (char_keys c e (i_shell t) Hr) as Hc. destruct (ed_host c e (host (i_shell t))) as [w|] eqn:Ew; [|by rewrite Hc in E].
      destruct Hc as (s' & Es & Hr' & <-). rewrite Es in E. injection E as <-. split; [|by eexists].
      apply (char_good c e (i_shell t)); [done|done|by apply runs_awake|exact Ew].
    + destruct (keyboard_yields _) as [pc|] eqn:Ey; [|done]. injection E as <-. split; [by eapply yields_good|]. exists e. by apply rep_host.
Qed.

Lemma world_steps_keep w w' : rtc world_step w w' -> world_ok w -> world_ok w'.
Proof. induction 1 as [|w w1 w' Hst _ IH]; [done|]. intros Hi. by eapply IH, world_step_keeps. Qed.
End serves.
End shell_task.
End machine.

Section claims.
Context `{CodeLayout} `{!AsLayout} `{!AsLayoutOk} `{VmLayout} `{!VmLayoutOk} `{KbdLayout}.
Context {V : Type} `{VirtioBlk V} {D : Type} `{KbdBus D} {U : Type} `{SerialPort U} {F : Type} `{FwCfg F}.
Context (e : environment) (saved : computer V -> exception_frame) (others : computer V -> computer V) (rounds : nat) (stack : list Z).

(** (C1) The machine stays safe, as long as interrupts arrive between operations. From the
    state in which [kernel_main] hands over to the first task on, after any sequence of whole
    operations - a timer or other interrupt, an exception or system call with any registers,
    a scheduler call of a kernel thread, a store of a program, a round of the keyboard's task
    with any line typed at the shell - in any order, where programs end with the registers
    [x19] to [x30] that their threads had, and where the others run inside a round only when
    it gives the processor away: the task table, the file tree and the descriptors are well formed; every program that holds a space has a slot of its own,
    under its root every address below 2^39 translates to the pages of that slot or as in
    the kernel's map, and what it may touch from EL0 are its own pages only; no two programs
    share a slot; and the buffers of the shell are those of a line editor. *)
Theorem machine_stays_safe (b : board V D U F) w :
  (forall pc, kernel_inv (pc_kernel pc) -> rtc (other_step (b_vm b) saved) pc (others pc) /\ awake (pc_kernel (others pc))) ->
  started e b -> rtc (world_step (b_vm b) saved others rounds stack) (Starting (b_keyboard b) (b_computer b)) w ->
  let s := pc_sys (world_computer w) in
  kernel_inv (pc_kernel (world_computer w)) /\
  (forall i t, task_at s i = Some t -> address_space_ptr (memory t) = AsTask i -> slot_of t < 4 ->
     t_state t <> TASK_UNUSED /\
     forall va, 0 <= va < 2 ^ 39 ->
       let tr := walk (vm_table_at (b_vm b)) (spaces s) (target_root_table (user_address_space t)) va in
       tr = user_translation (slot_of t) kernel_translation va /\
       forall d, desc_of tr = Some d -> arm64_mmu_desc_has_user_access d = true ->
         exists j, user_page va = Some j /\ arm64_mmu_l3_page_address d = page_address (slot_of t) (Z.of_nat j)) /\
  (forall i j t u, task_at s i = Some t -> task_at s j = Some u -> address_space_ptr (memory t) = AsTask i -> address_space_ptr (memory u) = AsTask j ->
     slot_of t < 4 -> slot_of t = slot_of u -> i = j) /\
  (forall t, w = Serving t -> exists ed, rep ed (i_shell t)).
Proof.
  intros Ho Hs Hw s. pose proof (bo_tables _ (st_map _ _ Hs)) as Hb. pose proof (kernel_map_built _ Hb) as Hm.
  assert (world_ok (b_vm b) (bsys b) (Starting (b_keyboard b) (b_computer b))) as H0' by (split; [split; [apply (st_kernel _ _ Hs)|done]|done]).
  destruct (world_steps_keep (b_vm b) saved others rounds stack Ho (bsys b) _ w Hw H0') as [[Hk Hst] Hr]. change (ksys _) with s in Hst.
  assert (sys_ok (bsys b)) as Hok by (split; apply (st_kernel _ _ Hs)).
  pose proof (spaces_ok_steps _ _ Hm _ _ Hst Hok (st_isolated _ _ Hs)) as Hiso.
  split; [exact Hk|]. split; [|split].
  - intros i t Ht Hx Hl. destruct (owner_facts _ _ s i t Hiso Ht Hx Hl) as (Hg & -> & Htab & _ & Hu). split; [done|]. intros va Hva.
    pose proof (user_over_kernel (b_vm b) (spaces s) (Z.to_nat (slot_of t)) va Hb ltac:(lia) Htab Hva) as Hf. by rewrite Z2Nat.id in Hf.
  - intros i j t u. apply (slots_apart _ _ s i j t u Hiso).
  - intros t ->. exact Hr.
Qed.
End claims.
