(* ===== verification/BootExamples.v ===== *)
(** * A machine that starts

    The board of the other examples at power-on - no virtio disk, a keyboard behind the first
    transport, a configuration device with three files - and the claim about [kernel_main]
    applied to it. *)

From S2P Require Import Prelude PageAllocator Pmm Heap BlockDevice Block Sfs Vfs VfsProps Mmu AddressSpace Task User Scheduler SchedulerProps Syscall Steps SyscallProps SyscallExamples Vm VmProps VmInit VmSafety Interrupt Programs Virtio Keyboard KeyboardExamples Framebuffer FramebufferExamples Shell ShellProps Input Commands CommandsSafety Boot BootProps BootMain Machine.

#[local] Existing Instances code1 as1 as1_ok vm_layout1 vm_layout1_ok kbd_layout0 typist_mmio typist_bus bytes_port served_cfg.

(** No task yet, the memory of [AddressSpace.v]'s example, the MMU off. *)
Definition power_sys : sys :=
  Sys (replicate 8 blank_task) zero_context 0 0 0 0 (replicate 8 no_session) as_state0 regs0 zero_context 0 0.
Definition power_pc : computer unit :=
  Computer (Machine (Kernel power_sys (loaded_vfs (disk boot_vfs)) (Pmm [] 0) stats0 random_seed []) (Timer 0 0 0 0 0 0) [])
    (Heap 0 0 0 0 0 0 ∅ ∅ (Pmm [] 0)) fb0 (replicate 4096 0).
Definition board0 : board unit typist (list Z) (Z -> list Z) := Board power_pc vm0 keyboard0 (machine_items three_files).

(** A counter of 1 kHz that each reading finds one tick on: 100 ms are 100 ticks. *)
Definition environment0 : environment :=
  Environment 0x40300000 (replicate 4100 0) (replicate 512 0) 1000 (u64 ∘ Z.of_nat) 100 0x40085000 0x40085100 0x40085200.

Lemma environment0_good : good_environment (V := unit) environment0 Z.of_nat.
Proof.
  split; try done. intros i. change (frequency environment0 / 1000 *! 100) with 100. lia.
Qed.

Lemma board0_powered : powered_on board0.
Proof.
  split.
  - by eexists.
  - destruct boot0_ok as [Hl Ht]. by split.
  - apply files_okb_spec. reflexivity.
  - exact as_state0_wf.
  - exact vm0_arrays.
Qed.


(** ** The first tick, and the keyboard's task *)

(** A program's thread enters EL0 with zeros, which the program keeps. *)
Definition saved1 (pc : computer unit) : list Z := replicate 32 0.

(** The others leave the computer as it is, unless the shell's task has ended. *)
Definition others1 (pc : computer unit) : computer unit :=
  match state_of (pc_sys pc) (current_task (pc_sys pc)) with TASK_ZOMBIE => set_pc_sys (scheduler_exit (pc_sys pc)).2 pc | _ => pc end.

Lemma others1_steps v pc : kernel_inv (pc_kernel pc) -> rtc (other_step v saved1) pc (others1 pc) /\ awake (pc_kernel (others1 pc)).
Proof.
  intros Hi. unfold others1. destruct (state_of (pc_sys pc) (current_task (pc_sys pc))) eqn:E;
    try (split; [done|]; unfold awake; unfold pc_sys in E; by rewrite E).
  destruct (zombie_exit (pc_sys pc) (ki_sched _ Hi) E) as [Hc Hr]. split; [apply rtc_once, (os_thread v saved1 OpExit), Hc|].
  unfold awake. change (ksys (pc_kernel (set_pc_sys ?s pc))) with s. by rewrite Hr.
Qed.

Lemma machine_stays_safe_witness : exists b t, kernel_main environment0 board0 = Some (Switched, b) /\
  rtc (world_step (b_vm b) saved1 others1 4 (replicate 512 0)) (Starting (b_keyboard b) (b_computer b)) (Serving t) /\
  kernel_inv (pc_kernel (host (i_shell t))) /\ exists ed, rep ed (i_shell t).
Proof.
  destruct (main_reaches environment0 Z.of_nat board0 environment0_good board0_powered) as (b & text & E & Hs & _).
  destruct (tick_starts environment0 b 30 Hs eq_refl) as (m & Ei & Hc & Hst).
  set (pc1 := set_machine m (b_computer b)). set (t := keyboard_begins (b_vm b) others1 4 (replicate 512 0) 0 (b_keyboard b) pc1).
  assert (rtc (world_step (b_vm b) saved1 others1 4 (replicate 512 0)) (Starting (b_keyboard b) (b_computer b)) (Serving t)) as Hw.
  { eapply rtc_l; [apply ws_starting; exact (os_interrupt (b_vm b) saved1 30 Switched m (b_computer b) Ei)|]. apply rtc_once, ws_start. split; [exact Hc|exact Hst]. }
  exists b, t. split; [exact E|]. split; [exact Hw|].
  destruct (machine_stays_safe environment0 saved1 others1 4 (replicate 512 0) b (Serving t) (others1_steps (b_vm b)) Hs Hw) as (Hk & _ & _ & Hr).
  split; [exact Hk|]. exact (Hr t eq_refl).
Defined.
